(* ===== verification/_CoqProject ===== *)
-Q . S2P
Prelude.v
GoStrings.v
GoErr.v
GoFloat.v
Consts.v
Util.v
AzureTypes.v
Optimization.v
SkuTables.v
SkuTool.v
SkuToolProofs.v
DiskCounts.v
Tuning.v
DiskUtils.v
SnapshotUtils.v
Cloud.v
DemoCloud.v
ControllerCommon.v
Moments.v
LunProofs.v
AttachProofs.v
BatchProtocol.v
ManagedDisk.v
Kube.v
DriverState.v
FileWatcher.v
CloudProvider.v
DemoDriver.v
Driver.v
Frame.v
Publish.v
Claim.v
Migration.v
CreateVolume.v
VolumeOps.v
SnapshotServer.v
Requests.v
Listing.v
Host.v
Serving.v
Device.v
Wireserver.v
NodeVolume.v
Node.v
Startup.v
Lifecycle.v
Tracing.v
Metrics.v
DemoNode.v
NodeFrame.v
NodeProofs.v
NodeInfo.v
EndToEnd.v
Actions.v
PreStop.v
PreStopProofs.v
FormatSem.v
StartupProofs.v
Windows.v
WinDisk.v
WinVolume.v
Wmi.v
WmiStorage.v
WinCim.v
WinMounter.v
CsiProxy.v
CsiProxyBeta.v
WinCommon.v
WinProofs.v
Wql.v
DemoWql.v
DemoWin.v
WinFind.v
WmiFrame.v
WinFormat.v
WinResize.v
