(* ===== verification/Prelude.v ===== *)
(** * The Azure Disk CSI driver: a verification library (root file)

    The Azure Disk CSI driver (src/pkg) creates, attaches, expands, snapshots
    and deletes managed disks for Kubernetes, and mounts them on the nodes.  This
    library models the code of its controller, of its node server on Linux and on
    Windows, of its pre-stop hook and of its process, and proves what each part
    promises.

    ** The program and its parts

    A request of the container orchestrator reaches the controller server
    ([pkg/azuredisk/controllerserver.go]).  It parses its parameters
    ([pkg/azureutils]), takes the lock of the volume ([pkg/util]), and calls
    the managed disk controller ([azure_managedDiskController.go]) or the
    attach/detach controller ([azure_controller_common.go]), which talk to ARM
    and to the VM of a node.  Attach and detach requests for a node are batched:
    goroutines queue them in shared maps, and the one that gets the lock of the
    node sends the whole queue.  Migrations of a disk's SKU are monitored in the
    background ([migration_monitor.go]).  On a node, the node server
    ([nodeserver.go]) finds the device of the disk's LUN, formats and mounts it
    ([azure_common_linux.go]), or gives it to a Kata sandbox ([kata.go]).  Volumes
    that their nodes attach themselves ("node-driven") are claimed over HTTP by the
    controller and attached with requests to the wireserver of the host.  Before a
    node stops, a hook waits until its volumes are detached ([prestop.go]).  On
    Windows the node server drives disks and volumes through a mounter ([pkg/mounter])
    over PowerShell, WMI or a proxy on the host ([pkg/os]).

    ** The files

    - [Prelude]: 32- and 64-bit integers with their wrap-around, the order of a
      [range] over a map ([MapOrder], a class: every theorem holds for any order),
      reflexive transitive closure with its invariant rule, tactics.
    - [GoStrings], [GoErr]: the functions of strings, strconv, regexp and errors
      that the code uses; results ([res]: a value, an error, a panic), the state
      and error monad [M] with [let!], [try], [defer], and the rules
      [bind_ok], [bind_inv], [keeps_bind] and [errless_bind] the proofs are made of.
    - [Consts]: [azureconstants/azure_constants.go].
    - [Util]: [util/util.go] (sizes, tags, volume locks, array difference).
    - [AzureTypes]: the records of armcompute and CSI that are read or written.
    - [GoFloat]: [float64], for the formulas of [Optimization]:
      [optimization/device_perf*.go], [skus.go], over [DeviceIO].  [SkuTables] and
      [DiskCounts] are the tables [azure_skus_map.go] and [azure_dd_max_disk_count.go],
      in parts; [Tuning] evaluates the formulas on the whole table.
    - [SkuTool], [SkuToolProofs]: [tool/gen-disk-skus-map.go], which generates the first
      of them: its guarantees, which the shipped table has, and that the file it prints
      reads back as the tables.
    - [DiskUtils], [SnapshotUtils]: [azureutils/azure_disk_utils.go] and
      [azure_snapshot_utils.go].
    - [Cloud]: the interface of ARM, of the VMs, of contexts and of the clock (a
      class on an abstract world), the polling helpers of apimachinery, and the
      timed cache.  [DemoCloud] is a concrete instance for the witnesses.
    - [ControllerCommon]: [azure_controller_common.go] and [util.go]; the state
      [CState] has the fields of [controllerCommon] and the world.
      [LunProofs], [AttachProofs], [BatchProtocol] hold its properties.
    - [Moments], [Frame]: the moments between the steps of a request, and what a
      computation leaves alone (see below).
    - [ManagedDisk]: [azure_managedDiskController.go] with its properties.
    - [Kube]: the interfaces of the API server and of the disk resource provider.
    - [DriverState]: the object [Driver]: its configuration [DriverConfig] and its
      state [DState], which contains a [CState].  [DemoDriver] is a concrete one.
    - [FileWatcher]: [filewatcher/filewatcher.go].
    - [CloudProvider]: [GetCloudProviderFromClient] over [ConfigSource].
    - [Driver]: [azuredisk.go], [attach_mode.go] (look-ups, throttling, start-up
      taint, waiting for snapshots).
    - [Publish]: ControllerPublishVolume and ControllerUnpublishVolume with their
      properties; [Claim]: claims of disks; [Migration]: [migration_monitor.go].
    - [CreateVolume], [VolumeOps], [SnapshotServer]: the other requests of
      [controllerserver.go]; [Requests], [Listing]: their properties.
    - [Host]: the interface of a node's operating system: files, ioctls, commands,
      mounts, the Kata library (a class; [demo_host] is an instance).
    - [Serving]: [csi-common/utils.go], [csi-common/driver.go], [identityserver.go].
    - [Device]: [azure_common_linux.go]: the device of a LUN, fsck and mkfs, sizes,
      the release of a device.
    - [Wireserver]: the protocol of node-driven attachments of [nodeserver.go],
      over the class [Wire], with its sequence numbers.
    - [NodeVolume]: mount points, filesystem types and sizes of [nodeserver.go], and
      [kata.go]; the configuration [NodeConfig].
    - [Node]: the handlers of [nodeserver.go]; [NodeFrame] and [NodeProofs] their
      properties; [DemoNode] a concrete node.
    - [Startup]: [NewDriver], [azuredisk_option.go], [features.go]: the options and the
      configurations that are built from them; [StartupProofs].
    - [Lifecycle]: [azurediskplugin/main.go], and [Run] of [azuredisk.go] with the goroutine
      of its shutdown as a step relation.
    - [Tracing], [Metrics]: [trace.go], [ratelimiter_trace.go], [metrics/metrics.go].
    - [NodeInfo]: the limit of volumes of [NodeGetInfo]; [EndToEnd]: the controller and the
      node together.
    - [Actions]: systems of goroutines as actions on a state, finite schedules,
      infinite fair ones, and the rules of [leads_to].
    - [PreStop], [PreStopProofs]: [azurediskplugin/hooks/prestop.go].
    - [FormatSem]: the limit on concurrent formats of [azure_common_linux.go].
    - [Windows]: PowerShell and the file system of Windows ([WinHost]),
      [os/filesystem], the checks of paths.  [WinDisk], [WinVolume]: the interfaces
      [DiskAPI] and [VolumeAPI] and their implementation with PowerShell.  [Wmi]: COM
      ([Com]) and [os/wmi/wmi.go]; [WmiStorage]: [os/wmi/disk.go], [volume.go]; [WinCim]:
      the implementation of the two interfaces with WMI.
    - [WinMounter], [CsiProxy], [CsiProxyBeta]: the three mounters of [pkg/mounter];
      [WinCommon]: the choice between them, and [azure_common_windows.go].
    - [WinProofs], [Wql], [WinFind], [WmiFrame], [WinFormat], [WinResize]: what
      holds of them; [DemoWin], with [DemoWql], a concrete node.

    Each definition that translates code is preceded by the file, the symbol and,
    for a part of a function, the lines it translates; a function of the source is
    one definition, composed of definitions for its larger blocks.

    ** Concurrency

    Two views are used.  In [ControllerCommon] and above, a goroutine is a
    computation, and the other goroutines are a function [others] that is applied
    whenever it waits for a lock or calls a service: it may change the shared maps
    and the world in any way.  Where a theorem needs something of it (for example
    that it does not take locks away, [locks_respected]) it is a hypothesis.
    What a request did is stated with the moments of its run: [later s s'] says
    that [s'] is reached from [s] by calls of services and steps of the others,
    [runs m r s s'] ([druns] for the driver object) that the computation [m] ran
    with the result [r] at some point between the two, and [safely], in
    [NodeProofs], that no filesystem was made or resized in between.
    In [BatchProtocol], [PreStop], [FormatSem] and [Lifecycle] all goroutines are explicit: a
    transition system, with its invariants proved over all schedules.
    The volume locks make a request atomic with respect to others for the same volume.

    ** What the theorems show

    - Requests to the controller (C1-C3, C19, C20, C32, C34): what a reported
      success means for ARM, for the VM and for the answer; sizes; what a node-
      driven volume is annotated with; the release of locks on every way out.
    - Attach and detach (C4, C10-C15): LUNs are free and distinct and are found
      whenever there are enough; batching loses and duplicates no request; locks are
      returned; successes were read back from the VM; forced and dangling detaches
      happen only when they may.
    - From the controller to the node (C7): the device that is staged was found at
      the LUN at which the controller saw the disk.
    - The node server (C5, C8, C9, C16, C17, C26, C28, C29, C33, C38): a disk that
      may hold data is not formatted; what a staged, published or unstaged volume
      means; the device of a LUN is a data disk of Azure; an attachment was
      confirmed by the wireserver; the codes of errors; no filesystem grows beyond
      its device; the limit of volumes that a node reports.
    - Nodes with Windows (C6, C18, C27, C36): a disk with data is neither
      initialised nor formatted, no partition shrinks, the disk of a LUN is at that
      LUN, with PowerShell and with WMI; storage identifiers are read back as they
      were written.
    - Managed disks (C21, C31): no deletion of a disk in use, no leaked disk after
      ARM accepted it.
    - The pre-stop hook (C22, C23): it refines its promise, and returns in fair runs
      when the last deletion is noticed.
    - The life of the driver (C24, C30): the configuration that the handlers rely on
      is well formed; a shutdown ends.
    - The limit on formats (C25): the concurrent formats stay below it.
    - Tuning (C35, C37): no file outside of the directory of a device is written; on
      every machine size and disk SKU of the shipped tables the settings are numbers
      the block layer accepts, or NaN where the table has no limits.
    - Utilities (C39, C40): pages of snapshots; capabilities.

    Theorems without a number show further behaviour, such as the ones that a polling
    loop never waits, that a failed resize is not reported, that a listing repeats its
    second page, and the timeouts and events of a migration.

    ** Bounds and fuel

    Loops that poll have a bound.  [ExponentialBackoffWithContext] has the steps of
    [defaultBackOff], seven, which is exact.  [PollUntilContextTimeout] gets one
    evaluation more than the intervals that fit into the timeout of its context, so
    the context ends first; a snapshot is waited for as many ticks as fit into ten
    minutes; the polls of a node evaluate their condition 121 times (a device, every
    second for two minutes), 61 times (an attachment, every 250 ms for 15 seconds)
    and 31 times (a detachment, every 500 ms).  The retries on a conflict are the five
    of the client library.  [pollAsyncOperation] ends with its context only: its fuel
    is a parameter, running out of it is the end of the context, and the theorems hold
    for every fuel.  [GetSourceDiskSize] counts its own depth.  The digits of a
    number have the fuel of its binary logarithm ([fmt_fuel_ok]).

    ** What is not modelled

    Logs, and the calls of metrics and traces in the handlers: no answer depends on
    them.  The clients of another subscription or of a cloud made for a user agent are
    further operations of the same [Cloud].  Unicode case folding (names and keys are
    ASCII), the texts of events and of parts of messages that print a whole request.  A
    cancelled context wakes a migration monitor at its next look.  [Device] and [Node]
    are the build for Linux, the files from [Windows] on the one for Windows; the build
    for Darwin only lets the unit tests compile.  In [Device] the wait for a token of the
    formats is one call; [FormatSem] has the tokens.  The tuning of a device is one call
    in [Node].  The informer of the pre-stop hook is the environment of its system: one
    look at a name is atomic.  In [Lifecycle] the registration with gRPC and the options
    of its server are left out.  Out of scope are command-line flags, mocks and test
    doubles, the HTTP server of the metrics, and what is vendored: the Azure and
    Kubernetes clients, gRPC, COM, OpenTelemetry, the mount utilities, which are the
    operations of the classes above. *)
From stdpp Require Import gmap strings list fin_maps.
From Stdlib Require Import ZArith Lia.

(** ** Machine integers of Go

    A value of a [w]-bit signed type is kept as the [Z] it denotes; arithmetic
    that can leave the range wraps around through [wrap]. *)
Definition wrap (w : Z) (z : Z) : Z :=
  (z + 2 ^ (w - 1)) `mod` 2 ^ w - 2 ^ (w - 1).
Definition int64 (z : Z) : Z := wrap 64 z.
Definition int32 (z : Z) : Z := wrap 32 z.
Definition in_int64 (z : Z) : Prop := (- 2 ^ 63 ≤ z < 2 ^ 63)%Z.
Definition in_int32 (z : Z) : Prop := (- 2 ^ 31 ≤ z < 2 ^ 31)%Z.

Lemma int64_id z : in_int64 z → int64 z = z.
Proof.
  unfold in_int64, int64, wrap. intros H.
  change (64 - 1)%Z with 63%Z.
  rewrite Z.mod_small; lia.
Qed.

Lemma int32_id z : in_int32 z → int32 z = z.
Proof.
  unfold in_int32, int32, wrap. intros H.
  change (32 - 1)%Z with 31%Z.
  rewrite Z.mod_small; lia.
Qed.

Lemma int64_range z : in_int64 (int64 z).
Proof.
  unfold in_int64, int64, wrap. change (64 - 1)%Z with 63%Z.
  pose proof (Z.mod_pos_bound (z + 2 ^ 63) (2 ^ 64)). lia.
Qed.

Lemma int32_range z : in_int32 (int32 z).
Proof.
  unfold in_int32, int32, wrap. change (32 - 1)%Z with 31%Z.
  pose proof (Z.mod_pos_bound (z + 2 ^ 31) (2 ^ 32)). lia.
Qed.

(** ** The order in which a [range] over a Go map visits the entries

    The language fixes no order, so every definition that ranges over a map
    takes it from this class, and the theorems hold for each instance. *)
Class MapOrder := {
  map_order : ∀ {A}, gmap string A → list (string * A);
  map_order_perm : ∀ A (m : gmap string A), map_order m ≡ₚ map_to_list m;
}.

(** The order used by the witnesses. *)
#[export] Instance default_order : MapOrder | 100 :=
  {| map_order A m := map_to_list m; map_order_perm A m := reflexivity _ |}.

Section map_order_facts.
  Context `{MapOrder} {A : Type}.
  Implicit Types (m : gmap string A).

Lemma elem_of_map_order m k v : (k, v) ∈ map_order m ↔ m !! k = Some v.
  Proof. rewrite map_order_perm. apply elem_of_map_to_list. Qed.

Lemma map_order_fst_NoDup m : NoDup (map_order m).*1.
  Proof. rewrite map_order_perm. apply NoDup_fst_map_to_list. Qed.

Lemma elem_of_map_order_fst m k : k ∈ (map_order m).*1 ↔ is_Some (m !! k).
  Proof.
    rewrite list_elem_of_fmap. split.
    - intros ([k' v] & -> & Hk%elem_of_map_order). eauto.
    - intros [v Hk]. exists (k, v). split; [done|]. by apply elem_of_map_order.
  Qed.

Lemma length_map_order m : length (map_order m) = size m.
  Proof. rewrite map_order_perm. apply length_map_to_list. Qed.

Lemma map_order_nil m : map_order m = [] ↔ m = ∅.
  Proof.
    split.
    - intros Hm. apply map_to_list_empty_iff, Permutation_nil.
      rewrite <-Hm. apply map_order_perm.
    - intros ->. apply Permutation_nil.
      rewrite map_order_perm, map_to_list_empty. done.
  Qed.
End map_order_facts.

(** ** Reflexive transitive closure of a step relation *)
Inductive steps {A} (R : A → A → Prop) : A → A → Prop :=
| steps_refl x : steps R x x
| steps_snoc x y z : steps R x y → R y z → steps R x z.

(** An inductive invariant holds in every reachable state. *)
Lemma steps_invariant {A} (R : A → A → Prop) (Inv : A → Prop) :
  (∀ x y, Inv x → R x y → Inv y) → ∀ x y, steps R x y → Inv x → Inv y.
Proof. intros Hstep x y Hs. induction Hs; eauto. Qed.

(** ** Automation *)
Create HintDb go_db.

(** Destruct the [match]es and [if]s of the goal and of the hypotheses,
    closing the impossible branches. *)
Ltac go_cases := repeat (case_match; simplify_eq/=; try done).
Ltac go_solve := repeat case_match; simplify_eq/=; eauto with go_db lia.

(** Split the boolean hypotheses into their parts. *)
Ltac bool_split := repeat match goal with
  | H : andb _ _ = true |- _ => apply andb_true_iff in H as [? ?]
  | H : orb _ _ = false |- _ => apply orb_false_iff in H as [? ?]
  | H : negb _ = true |- _ => apply negb_true_iff in H
  | H : negb _ = false |- _ => apply negb_false_iff in H
  | H : String.eqb _ _ = true |- _ => apply String.eqb_eq in H
  | H : String.eqb _ _ = false |- _ => apply String.eqb_neq in H
  | H : Z.ltb _ _ = true |- _ => apply Z.ltb_lt in H
  | H : Z.ltb _ _ = false |- _ => apply Z.ltb_ge in H
  | H : Z.leb _ _ = true |- _ => apply Z.leb_le in H
  | H : Z.leb _ _ = false |- _ => apply Z.leb_gt in H
  | H : Z.eqb _ _ = true |- _ => apply Z.eqb_eq in H
  | H : Z.eqb _ _ = false |- _ => apply Z.eqb_neq in H
  end.
