(* ===== verification/GoStrings.v ===== *)
(** * Go's [strings], [strconv] and [regexp] as the driver uses them

    A Go string is a byte string: [String.string].  The case operations act on
    the ASCII letters and leave every other byte as it is, and the white space
    of [TrimSpace] is the ASCII white space; the driver's keys, SKU names,
    resource IDs and error texts are ASCII.  Indexes and integers are [Z]. *)
From stdpp Require Import gmap strings list.
From Stdlib Require Import ZArith Lia Ascii.
From S2P Require Import Prelude.

Declare Scope go_scope.
Delimit Scope go_scope with go.

Definition strlen (s : string) : Z := Z.of_nat (String.length s).

(** ** Case folding *)
Definition lower_ascii (c : ascii) : ascii :=
  let n := N_of_ascii c in
  if (65 <=? n)%N && (n <=? 90)%N then ascii_of_N (n + 32) else c.
Definition upper_ascii (c : ascii) : ascii :=
  let n := N_of_ascii c in
  if (97 <=? n)%N && (n <=? 122)%N then ascii_of_N (n - 32) else c.

Fixpoint map_string (f : ascii → ascii) (s : string) : string :=
  match s with
  | EmptyString => EmptyString
  | String c s' => String (f c) (map_string f s')
  end.
Definition ToLower : string → string := map_string lower_ascii.
Definition ToUpper : string → string := map_string upper_ascii.
Definition EqualFold (a b : string) : bool := String.eqb (ToLower a) (ToLower b).

(** ** Prefixes, suffixes and substrings *)
Fixpoint HasPrefix (s p : string) : bool :=
  match p, s with
  | EmptyString, _ => true
  | String c p', String d s' => Ascii.eqb c d && HasPrefix s' p'
  | _, EmptyString => false
  end.
(** The case-insensitive comparison of a literal of a [(?i)] pattern. *)
Fixpoint HasPrefixFold (s p : string) : bool :=
  match p, s with
  | EmptyString, _ => true
  | String c p', String d s' =>
      Ascii.eqb (lower_ascii c) (lower_ascii d) && HasPrefixFold s' p'
  | _, EmptyString => false
  end.
Fixpoint str_drop (n : nat) (s : string) : string :=
  match n, s with
  | S n', String _ s' => str_drop n' s'
  | _, _ => s
  end.
Fixpoint str_take (n : nat) (s : string) : string :=
  match n, s with
  | S n', String c s' => String c (str_take n' s')
  | _, _ => EmptyString
  end.
Definition HasSuffix (s p : string) : bool :=
  (String.length p <=? String.length s)%nat &&
  String.eqb (str_drop (String.length s - String.length p) s) p.
Definition TrimPrefix (s p : string) : string :=
  if HasPrefix s p then str_drop (String.length p) s else s.
Definition TrimSuffix (s p : string) : string :=
  if HasSuffix s p then str_take (String.length s - String.length p) s else s.

(** [cut s sep]: the text before and after the first [sep]. *)
Fixpoint cut (s sep : string) : option (string * string) :=
  if HasPrefix s sep then Some ("", str_drop (String.length sep) s)
  else match s with
       | EmptyString => None
       | String c s' =>
           match cut s' sep with
           | Some (a, b) => Some (String c a, b)
           | None => None
           end
       end.
Definition Contains (s sub : string) : bool :=
  match cut s sub with Some _ => true | None => false end.
(** [strings.Index]: -1 when [sub] does not occur. *)
Definition Index (s sub : string) : Z :=
  match cut s sub with Some (a, _) => strlen a | None => -1 end.
Fixpoint has_byte (c : ascii) (s : string) : bool :=
  match s with
  | EmptyString => false
  | String d s' => Ascii.eqb c d || has_byte c s'
  end.
Fixpoint ContainsAny (s chars : string) : bool :=
  match s with
  | EmptyString => false
  | String c s' => has_byte c chars || ContainsAny s' chars
  end.

(** [strings.Split] with a non-empty separator; [skip] counts the bytes of a
    separator already recognised. *)
Fixpoint split_from (skip : nat) (s sep : string) : list string :=
  match s with
  | EmptyString => [EmptyString]
  | String c s' =>
      match skip with
      | S k => split_from k s' sep
      | O => if HasPrefix s sep
             then EmptyString :: split_from (String.length sep - 1) s' sep
             else match split_from 0 s' sep with
                  | h :: t => String c h :: t
                  | [] => []
                  end
      end
  end.
Definition Split (s sep : string) : list string := split_from 0 s sep.
(** [strings.SplitN s sep 2]. *)
Definition SplitN2 (s sep : string) : list string :=
  match cut s sep with Some (a, b) => [a; b] | None => [s] end.
Fixpoint Join (l : list string) (sep : string) : string :=
  match l with
  | [] => ""
  | [x] => x
  | x :: l' => x +:+ sep +:+ Join l' sep
  end.

(** [strings.ReplaceAll] with a non-empty [old]. *)
Fixpoint replace_from (skip : nat) (s old new : string) : string :=
  match s with
  | EmptyString => EmptyString
  | String c s' =>
      match skip with
      | S k => replace_from k s' old new
      | O => if HasPrefix s old
             then new +:+ replace_from (String.length old - 1) s' old new
             else String c (replace_from 0 s' old new)
      end
  end.
Definition ReplaceAll (s old new : string) : string := replace_from 0 s old new.

(** ** White space *)
Definition is_space (c : ascii) : bool :=
  let n := N_of_ascii c in (n =? 32)%N || ((9 <=? n)%N && (n <=? 13)%N).
Fixpoint trim_left (s : string) : string :=
  match s with
  | String c s' => if is_space c then trim_left s' else s
  | EmptyString => EmptyString
  end.
Fixpoint all_space (s : string) : bool :=
  match s with
  | EmptyString => true
  | String c s' => is_space c && all_space s'
  end.
Fixpoint trim_right (s : string) : string :=
  match s with
  | EmptyString => EmptyString
  | String c s' => if all_space s then EmptyString else String c (trim_right s')
  end.
Definition TrimSpace (s : string) : string := trim_right (trim_left s).

(** ** Letters and digits of [checkDiskName] *)
Definition is_digit (c : ascii) : bool :=
  let n := N_of_ascii c in (48 <=? n)%N && (n <=? 57)%N.
Definition is_letter (c : ascii) : bool :=
  let n := N_of_ascii c in
  ((65 <=? n)%N && (n <=? 90)%N) || ((97 <=? n)%N && (n <=? 122)%N).

(** ** [strconv] *)
Local Open Scope Z_scope.
Definition digit_char (d : Z) : ascii :=
  if d <? 10 then ascii_of_N (Z.to_N (d + 48)) else ascii_of_N (Z.to_N (d + 87)).
Definition digit_val (base : Z) (c : ascii) : option Z :=
  let n := Z.of_N (N_of_ascii c) in
  let v := if (48 <=? n) && (n <=? 57) then n - 48
           else if (97 <=? n) && (n <=? 122) then n - 87
           else if (65 <=? n) && (n <=? 90) then n - 55 else base in
  if v <? base then Some v else None.
Fixpoint fmt_digits (fuel : nat) (base n : Z) (acc : string) : string :=
  match fuel with
  | O => acc
  | S f => let acc' := String (digit_char (n `mod` base)) acc in
           if n <? base then acc' else fmt_digits f base (n `div` base) acc'
  end.
(** [strconv.FormatInt n base]; the fuel is one more than the bits of [n]. *)
Definition FormatInt (n base : Z) : string :=
  let fuel := S (Z.to_nat (Z.log2 (Z.abs n))) in
  if n <? 0 then String "-" (fmt_digits fuel base (- n) "")
  else fmt_digits fuel base n "".
Definition Itoa (n : Z) : string := FormatInt n 10.

Fixpoint parse_digits (base acc : Z) (s : string) : option Z :=
  match s with
  | EmptyString => Some acc
  | String c s' =>
      match digit_val base c with
      | Some d => parse_digits base (acc * base + d) s'
      | None => None
      end
  end.
Definition parse_uint (base : Z) (s : string) : option Z :=
  match s with EmptyString => None | _ => parse_digits base 0 s end.
Definition parse_signed (s : string) : option Z :=
  match s with
  | String "-" s' => Z.opp <$> parse_uint 10 s'
  | String "+" s' => parse_uint 10 s'
  | _ => parse_uint 10 s
  end.
(** [strconv.ParseInt s 10 w]: [None] for a syntax or a range error. *)
Definition ParseInt (s : string) (w : Z) : option Z :=
  match parse_signed s with
  | Some z => if (- 2 ^ (w - 1) <=? z) && (z <? 2 ^ (w - 1)) then Some z else None
  | None => None
  end.
Definition Atoi (s : string) : option Z := ParseInt s 64.
(** [%q] for a string that needs no escapes. *)
Definition quote (s : string) : string :=
  String (ascii_of_N 34) s +:+ String (ascii_of_N 34) "".
(** The text of the [strconv.NumError] of a failed conversion. *)
Definition num_error (fn s : string) : string :=
  "strconv." +:+ fn +:+ ": parsing " +:+ quote s +:+ ": " +:+
  (match parse_signed s with Some _ => "value out of range" | None => "invalid syntax" end).
(** [strconv.ParseBool]. *)
Definition ParseBool (s : string) : option bool :=
  if bool_decide (s ∈ ["1"; "t"; "T"; "true"; "TRUE"; "True"]) then Some true
  else if bool_decide (s ∈ ["0"; "f"; "F"; "false"; "FALSE"; "False"]) then Some false
  else None.
(** [fmt.Sprintf "%06s"]: the zero-padded string. *)
Fixpoint zeros (n : nat) : string :=
  match n with O => "" | S n' => String "0" (zeros n') end.
Definition pad0 (w : nat) (s : string) : string :=
  zeros (w - String.length s)%nat +:+ s.

(** ** Regular expressions

    The driver's patterns are sequences of literals, of [.*] and of one final
    capture [(.+)].  Go's matcher takes the leftmost match and, there, the
    longest text for each [.*] in turn. *)
Inductive relem :=
| RLit (s : string)   (**r a literal *)
| RAny                (**r [.*] *)
| RCapture.           (**r [(.+)] *)

Definition newline : ascii := ascii_of_N 10.
(** The longest prefix without a line break: what [.+] takes. *)
Fixpoint line_of (s : string) : string :=
  match s with
  | EmptyString => EmptyString
  | String c s' => if Ascii.eqb c newline then EmptyString else String c (line_of s')
  end.
(** Greedy [.*]: try the continuation as far to the right as possible. *)
Fixpoint greedy (k : string → option string) (s : string) : option string :=
  match s with
  | EmptyString => k s
  | String c s' =>
      if Ascii.eqb c newline then k s
      else match greedy k s' with
           | Some r => Some r
           | None => k s
           end
  end.
Fixpoint match_here (fold : bool) (re : list relem) (s : string) : option string :=
  match re with
  | [] => Some ""
  | RLit l :: re' =>
      if (if fold then HasPrefixFold s l else HasPrefix s l)
      then match_here fold re' (str_drop (String.length l) s) else None
  | RAny :: re' => greedy (match_here fold re') s
  | RCapture :: _ => let l := line_of s in if String.eqb l "" then None else Some l
  end.
(** [FindStringSubmatch]: the capture of the leftmost match. *)
Fixpoint find_submatch (fold : bool) (re : list relem) (s : string) : option string :=
  match match_here fold re s with
  | Some r => Some r
  | None => match s with
            | EmptyString => None
            | String _ s' => find_submatch fold re s'
            end
  end.

(** ** Lemmas on strings *)
Lemma str_cons_app c a b : String c a +:+ b = String c (a +:+ b).
Proof. reflexivity. Qed.
Lemma str_nil_app b : "" +:+ b = b.
Proof. reflexivity. Qed.

Ltac str_simpl := repeat (rewrite str_cons_app || rewrite str_nil_app); simpl.

Lemma length_str_app a b :
  String.length (a +:+ b) = (String.length a + String.length b)%nat.
Proof. induction a as [|c a IH]; str_simpl; congruence. Qed.

Lemma str_app_nil_r s : s +:+ "" = s.
Proof. induction s as [|c s IH]; str_simpl; congruence. Qed.

Lemma str_app_assoc (a b c : string) : a +:+ (b +:+ c) = (a +:+ b) +:+ c.
Proof. induction a as [|d a IH]; str_simpl; congruence. Qed.

Lemma length_str_take n s : (String.length (str_take n s) ≤ n)%nat.
Proof. revert s; induction n as [|n IH]; intros [|c s]; simpl; try lia. specialize (IH s); lia. Qed.

Lemma length_str_take_le n s :
  (n ≤ String.length s)%nat → String.length (str_take n s) = n.
Proof.
  revert s; induction n as [|n IH]; intros [|c s]; simpl; try lia.
  intros H. rewrite IH; lia.
Qed.

Lemma length_str_drop n s : String.length (str_drop n s) = (String.length s - n)%nat.
Proof. revert s; induction n as [|n IH]; intros [|c s]; simpl; auto. Qed.

Lemma str_take_drop n s : str_take n s +:+ str_drop n s = s.
Proof.
  revert s; induction n as [|n IH]; intros [|c s]; simpl; auto.
  str_simpl. by rewrite IH.
Qed.

Lemma str_take_app a b : str_take (String.length a) (a +:+ b) = a.
Proof. induction a as [|c a IH]; str_simpl; [by destruct b | by rewrite IH]. Qed.

Lemma str_drop_app a b : str_drop (String.length a) (a +:+ b) = b.
Proof. induction a as [|c a IH]; str_simpl; [by destruct b | done]. Qed.

Lemma HasPrefix_app a b : HasPrefix (a +:+ b) a = true.
Proof.
  induction a as [|c a IH]; str_simpl; [by destruct b|]. by rewrite Ascii.eqb_refl, IH.
Qed.

Lemma HasPrefix_spec s p : HasPrefix s p = true ↔ ∃ r, s = p +:+ r.
Proof.
  split; [|intros [r ->]; apply HasPrefix_app].
  revert s; induction p as [|c p IH]; intros s H; [by exists s|].
  destruct s as [|d s]; [done|]. simpl in H.
  apply andb_true_iff in H as [->%Ascii.eqb_eq H].
  destruct (IH _ H) as [r ->]. by exists r.
Qed.

Lemma HasSuffix_app a b : HasSuffix (a +:+ b) b = true.
Proof.
  unfold HasSuffix. rewrite length_str_app.
  replace (String.length a + String.length b - String.length b)%nat
    with (String.length a) by lia.
  rewrite str_drop_app, String.eqb_refl, andb_true_r. apply Nat.leb_le. lia.
Qed.

Lemma TrimSuffix_app a b : TrimSuffix (a +:+ b) b = a.
Proof.
  unfold TrimSuffix. rewrite HasSuffix_app, length_str_app.
  replace (String.length a + String.length b - String.length b)%nat
    with (String.length a) by lia.
  apply str_take_app.
Qed.

Lemma cut_unfold s sep :
  cut s sep = if HasPrefix s sep then Some ("", str_drop (String.length sep) s)
              else match s with
                   | EmptyString => None
                   | String c s' => match cut s' sep with
                                    | Some (a, b) => Some (String c a, b)
                                    | None => None end
                   end.
Proof. by destruct s. Qed.

Lemma cut_Some_prefix s sep r : is_Some (cut s sep) → is_Some (cut (r +:+ s) sep).
Proof.
  intros H. induction r as [|c r IH]; [done|].
  rewrite str_cons_app, cut_unfold.
  destruct (HasPrefix _ _); [done|]. destruct IH as [[a b] ->]. done.
Qed.

Lemma cut_app_some b c : is_Some (cut (b +:+ c) b).
Proof. rewrite cut_unfold, HasPrefix_app. done. Qed.

Lemma Contains_app a b c : Contains (a +:+ b +:+ c) b = true.
Proof.
  unfold Contains. by destruct (cut_Some_prefix (b +:+ c) b a (cut_app_some b c)) as [r ->].
Qed.

Lemma Contains_app_r a b : Contains (a +:+ b) b = true.
Proof. rewrite <-(str_app_nil_r b) at 1. apply Contains_app. Qed.

(** What precedes the first separator holds none of it, so [cut] undoes [+:+]. *)
Lemma cut_byte a b c :
  has_byte c a = false → cut (a +:+ String c b) (String c "") = Some (a, b).
Proof.
  induction a as [|d a IH]; intros Ha.
  - rewrite str_nil_app, cut_unfold. simpl. rewrite Ascii.eqb_refl. simpl. by destruct b.
  - simpl in Ha. apply orb_false_iff in Ha as [Hd Ha].
    rewrite str_cons_app, cut_unfold. simpl. rewrite Hd. simpl. by rewrite IH.
Qed.

Lemma cut_sound s sep a b : cut s sep = Some (a, b) → s = a +:+ sep +:+ b.
Proof.
  revert a b; induction s as [|c s IH]; intros a b; rewrite cut_unfold.
  - destruct (HasPrefix _ _) eqn:E; [|done]. intros [= <- <-].
    destruct sep; [done | by simpl in E].
  - destruct (HasPrefix _ _) eqn:E.
    + intros [= <- <-]. apply HasPrefix_spec in E as [r ->]. by rewrite str_drop_app.
    + destruct (cut s sep) as [[a' b']|]; [|done]. intros [= <- <-].
      rewrite str_cons_app. f_equal. by apply IH.
Qed.

Lemma Contains_spec s sub : Contains s sub = true ↔ ∃ a b, s = a +:+ sub +:+ b.
Proof.
  split.
  - unfold Contains. destruct (cut s sub) as [[a b]|] eqn:E; [|done].
    intros _. exists a, b. by apply cut_sound.
  - intros (a & b & ->). apply Contains_app.
Qed.

Lemma has_byte_app c a b : has_byte c (a +:+ b) = has_byte c a || has_byte c b.
Proof.
  induction a as [|d a IH]; [done|]. str_simpl. by rewrite IH, orb_assoc.
Qed.

(** Splitting at a one-byte separator undoes [Join]. *)
Lemma split_from_no_sep c s :
  has_byte c s = false → split_from 0 s (String c "") = [s].
Proof.
  induction s as [|d s IH]; [done|]. simpl. intros [Hd Hs]%orb_false_iff.
  rewrite Hd. simpl. by rewrite IH.
Qed.

Lemma split_from_app c s r :
  has_byte c s = false →
  split_from 0 (s +:+ String c r) (String c "") = s :: split_from 0 r (String c "").
Proof.
  induction s as [|d s IH].
  - intros _. str_simpl. rewrite Ascii.eqb_refl. simpl. by destruct r.
  - str_simpl. intros [Hd Hs]%orb_false_iff. rewrite Hd. simpl. by rewrite IH.
Qed.

Lemma Split_Join c l :
  l ≠ [] → Forall (λ s, has_byte c s = false) l →
  Split (Join l (String c "")) (String c "") = l.
Proof.
  unfold Split. intros Hne Hl. induction Hl as [|x l Hx Hl IH]; [done|].
  destruct l as [|y l]; [by apply split_from_no_sep|].
  cbn [Join]. rewrite str_cons_app, str_nil_app.
  rewrite split_from_app by done. f_equal. by apply IH.
Qed.

(** ** Lemmas on case folding *)
Lemma lower_ascii_idemp c : lower_ascii (lower_ascii c) = lower_ascii c.
Proof. destruct c as [[] [] [] [] [] [] [] []]; reflexivity. Qed.

Lemma ToLower_idemp s : ToLower (ToLower s) = ToLower s.
Proof.
  unfold ToLower. induction s as [|c s IH]; simpl; [done|]. by rewrite lower_ascii_idemp, IH.
Qed.

Lemma length_ToLower s : String.length (ToLower s) = String.length s.
Proof. unfold ToLower. induction s as [|c s IH]; simpl; congruence. Qed.

Lemma ToLower_app a b : ToLower (a +:+ b) = ToLower a +:+ ToLower b.
Proof. unfold ToLower. induction a as [|c a IH]; str_simpl; [done|]. by rewrite IH, str_cons_app. Qed.

Lemma EqualFold_spec a b : EqualFold a b = true ↔ ToLower a = ToLower b.
Proof. apply String.eqb_eq. Qed.

Lemma EqualFold_refl a : EqualFold a a = true.
Proof. by apply EqualFold_spec. Qed.

Lemma EqualFold_sym a b : EqualFold a b = EqualFold b a.
Proof. unfold EqualFold. apply String.eqb_sym. Qed.

(** ** Numbers and their text *)
Lemma seqZ_check (P : Z → bool) n :
  forallb P (seqZ 0 n) = true → ∀ d, 0 ≤ d < n → P d = true.
Proof.
  intros H d Hd. rewrite forallb_forall in H. apply H.
  apply list_elem_of_In, elem_of_seqZ. lia.
Qed.

Lemma digit_val_char base d :
  0 ≤ d < base → base ≤ 36 → digit_val base (digit_char d) = Some d.
Proof.
  intros Hd Hb. unfold digit_val.
  pose proof (seqZ_check (λ e,
     let n := Z.of_N (N_of_ascii (digit_char e)) in
     (if (48 <=? n) && (n <=? 57) then n - 48
      else if (97 <=? n) && (n <=? 122) then n - 87
      else if (65 <=? n) && (n <=? 90) then n - 55 else base) =? e) 36 eq_refl d) as Hv.
  cbv beta zeta in Hv |- *. apply Z.eqb_eq in Hv; [|lia]. rewrite Hv.
  destruct (Z.ltb_spec d base); [done | lia].
Qed.

Lemma parse_fmt_digits base fuel n s acc :
  2 ≤ base ≤ 36 → 0 ≤ n < base ^ Z.of_nat fuel → fuel ≠ 0%nat → 0 ≤ acc →
  parse_digits base 0 (fmt_digits fuel base n s) = parse_digits base n s.
Proof.
  intros Hb Hn Hf _. revert n s Hn. induction fuel as [|f IH]; intros n s Hn; [done|].
  cbn [fmt_digits].
  assert (Hm : 0 ≤ n `mod` base < base) by (apply Z.mod_pos_bound; lia).
  destruct (n <? base) eqn:E.
  - cbn [parse_digits]. rewrite digit_val_char by lia.
    rewrite Z.mod_small by lia. f_equal.
  - destruct f as [|f]; [simpl in Hn; lia|].
    rewrite IH; [| done |].
    + cbn [parse_digits]. rewrite digit_val_char by lia. f_equal.
      pose proof (Z.div_mod n base). lia.
    + rewrite Nat2Z.inj_succ, Z.pow_succ_r in Hn by lia. split.
      * apply Z.div_pos; lia.
      * apply Z.div_lt_upper_bound; lia.
Qed.

Lemma fmt_digits_nonempty fuel base n s :
  fuel ≠ 0%nat → fmt_digits fuel base n s ≠ "".
Proof.
  revert n s; induction fuel as [|f IH]; intros n s; [done|]. intros _. cbn [fmt_digits].
  case_match; [done|]. destruct f; [done|]. by apply IH.
Qed.

Lemma fmt_fuel_ok base n :
  2 ≤ base → 0 ≤ n → n < base ^ Z.of_nat (S (Z.to_nat (Z.log2 (Z.abs n)))).
Proof.
  intros Hb Hn. rewrite Nat2Z.inj_succ, Z2Nat.id by apply Z.log2_nonneg.
  rewrite Z.abs_eq by done.
  destruct (Z.eq_dec n 0) as [->|]; [apply Z.pow_pos_nonneg; simpl; lia|].
  apply Z.lt_le_trans with (2 ^ Z.succ (Z.log2 n)); [apply Z.log2_spec; lia|].
  apply Z.pow_le_mono_l. lia.
Qed.

(** The digits are never a sign, so the sign that is parsed is the one printed. *)
Lemma digit_char_not_sign d :
  0 ≤ d < 36 → digit_char d ≠ "-"%char ∧ digit_char d ≠ "+"%char.
Proof.
  intros Hd.
  pose proof (seqZ_check (λ e, negb (Ascii.eqb (digit_char e) "-") &&
                               negb (Ascii.eqb (digit_char e) "+")) 36 eq_refl d Hd) as Hv.
  apply andb_true_iff in Hv as [H1%negb_true_iff H2%negb_true_iff].
  split; by apply Ascii.eqb_neq.
Qed.

Lemma fmt_digits_head base fuel n s :
  2 ≤ base ≤ 36 → 0 ≤ n → fuel ≠ 0%nat →
  ∃ c r, fmt_digits fuel base n s = String c r ∧ c ≠ "-"%char ∧ c ≠ "+"%char.
Proof.
  intros Hb. revert n s; induction fuel as [|f IH]; intros n s Hn Hf; [done|].
  cbn [fmt_digits].
  assert (Hm : 0 ≤ n `mod` base < base) by (apply Z.mod_pos_bound; lia).
  destruct f as [|f].
  - exists (digit_char (n `mod` base)), s. split; [by case_match|].
    apply digit_char_not_sign. lia.
  - case_match.
    + exists (digit_char (n `mod` base)), s. split; [done|]. apply digit_char_not_sign. lia.
    + apply IH; [|done]. apply Z.div_pos; lia.
Qed.

(** What is printed is parsed again, with its sign. *)
Lemma parse_signed_Itoa z : parse_signed (Itoa z) = Some z.
Proof.
  unfold parse_signed, Itoa, FormatInt. destruct (z <? 0) eqn:Hs.
  - assert (Hfuel : - z < 10 ^ Z.of_nat (S (Z.to_nat (Z.log2 (Z.abs z))))).
    { rewrite <-(Z.abs_opp z). apply fmt_fuel_ok; lia. }
    destruct (fmt_digits_head 10 (S (Z.to_nat (Z.log2 (Z.abs z)))) (- z) "")
      as (c & r & Hcr & _); [lia..|].
    rewrite Hcr. cbn [parse_uint]. rewrite <-Hcr.
    rewrite (parse_fmt_digits 10 _ (- z) "" 0) by lia. simpl. by rewrite Z.opp_involutive.
  - assert (Hfuel := fmt_fuel_ok 10 z ltac:(lia) ltac:(lia)).
    destruct (fmt_digits_head 10 (S (Z.to_nat (Z.log2 (Z.abs z)))) z "")
      as (c & r & Hcr & Hm & Hp); [lia..|].
    rewrite Hcr.
    assert (Hpu : parse_uint 10 (String c r) = Some z).
    { cbn [parse_uint]. rewrite <-Hcr. rewrite (parse_fmt_digits 10 _ z "" 0) by lia. done. }
    rewrite Hpu. by destruct c as [[] [] [] [] [] [] [] []].
Qed.
Lemma ParseInt_Itoa z w x : ParseInt (Itoa z) w = Some x → x = z.
Proof. unfold ParseInt. rewrite parse_signed_Itoa. case_match; [congruence|done]. Qed.
(** [strconv.Atoi] undoes [strconv.Itoa] on every [int]. *)
Lemma Atoi_Itoa z : in_int64 z → Atoi (Itoa z) = Some z.
Proof.
  unfold in_int64, Atoi, ParseInt. intros Hz. rewrite parse_signed_Itoa. change (64 - 1) with 63.
  by rewrite (proj2 (Z.leb_le _ _)), (proj2 (Z.ltb_lt _ _)) by lia.
Qed.

Lemma Itoa_nonempty n : Itoa n ≠ "".
Proof. unfold Itoa, FormatInt. destruct (n <? 0); [done|]. by apply fmt_digits_nonempty. Qed.

(** A number in decimal holds digits and a sign only. *)
Lemma has_byte_fmt c fuel n acc :
  is_digit c = false → 0 ≤ n → has_byte c acc = false → has_byte c (fmt_digits fuel 10 n acc) = false.
Proof.
  intros Hc. revert n acc. induction fuel as [|f IH]; intros n acc Hn Ha; [done|]. cbn [fmt_digits].
  assert (Hd : has_byte c (String (digit_char (n `mod` 10)) acc) = false).
  { cbn [has_byte]. rewrite Ha, orb_false_r. apply Ascii.eqb_neq. intros E.
    pose proof (Z.mod_pos_bound n 10 ltac:(lia)) as Hm.
    pose proof (seqZ_check (λ d, is_digit (digit_char d)) 10 eq_refl _ Hm) as Hdig. cbn beta in Hdig.
    rewrite <-E in Hdig. congruence. }
  case_match; [done|]. apply IH; [apply Z.div_pos; lia|done].
Qed.
Lemma has_byte_Itoa c z : is_digit c = false → c ≠ "-"%char → has_byte c (Itoa z) = false.
Proof.
  intros Hc Hm. unfold Itoa, FormatInt. destruct (Z.ltb_spec z 0); [|by apply has_byte_fmt].
  cbn [has_byte]. rewrite (proj2 (Ascii.eqb_neq c "-") Hm). apply has_byte_fmt; [done|lia|done].
Qed.
(** A text without a slash has none of the words that begin with one. *)
Lemma find_submatch_slash l re s :
  has_byte "/" s = false → find_submatch false (RLit (String "/" l) :: re) s = None.
Proof.
  induction s as [|c s IH]; [done|]. cbn [has_byte]. intros [Hc Hs]%orb_false_iff.
  cbn [find_submatch match_here HasPrefix]. rewrite Hc. by apply IH.
Qed.

(** What a text holds, it holds on one side of a byte that it has not. *)
Lemma app_split_byte a b c x p y :
  has_byte c p = false → a +:+ String c b = x +:+ p +:+ y →
  (∃ z, a = x +:+ p +:+ z) ∨ (∃ z, b = z +:+ p +:+ y).
Proof.
  intros Hp. revert a. induction x as [|d x IH]; intros a.
  - intros E. left. clear -Hp E. rewrite !str_nil_app in *. revert p Hp E. induction a as [|e a IHa]; intros p Hp E.
    + destruct p as [|q p]; [by exists ""|]. simpl in Hp, E. injection E as -> E.
      by rewrite Ascii.eqb_refl in Hp.
    + destruct p as [|q p]; [by exists (String e a)|]. simpl in Hp, E. injection E as -> E.
      apply orb_false_iff in Hp as [_ Hp]. destruct (IHa p Hp E) as [z Hz]. exists z.
      by rewrite Hz, str_cons_app.
  - destruct a as [|e a]; intros E; simpl in E; injection E as -> E.
    + right. by exists x.
    + destruct (IH a E) as [[z Hz]|[z Hz]]; [left; exists z|right; by exists z]. by rewrite Hz, str_cons_app.
Qed.
Lemma Contains_split a b c p :
  has_byte c p = false → Contains a p = false → Contains b p = false →
  Contains (a +:+ String c b) p = false.
Proof.
  intros Hc Ha Hb. destruct (Contains (a +:+ String c b) p) eqn:E; [|done].
  apply Contains_spec in E as (x & y & E). apply (app_split_byte _ _ _ _ _ _ Hc) in E as [[z ->]|[z ->]].
  - by rewrite Contains_app in Ha.
  - by rewrite Contains_app in Hb.
Qed.

#[export] Hint Resolve EqualFold_refl Contains_app Contains_app_r HasSuffix_app HasPrefix_app : go_db.
