(* ===== verification/GoErr.v ===== *)
(** * Errors, results and effects of the Go code

    [gerr] is a Go [error] value: its constructors are the ways the driver
    and the libraries it calls build one, [Error] its text (callers match
    substrings of it), [errors_Is]/[errors_As...] the walk along [Unwrap], and
    [status_Code] the gRPC code.  [res] is the outcome of a call: a value, an
    error or a run-time panic (a nil dereference, an index out of range).
    [M S] threads a mutable state [S] through calls; an error returned by Go
    code leaves the changes made before it, so the state comes back with
    every outcome. *)
From stdpp Require Import gmap strings list.
From Stdlib Require Import ZArith Lia.
From S2P Require Import Prelude GoStrings.

(** ** gRPC status codes *)
Module codes.
Inductive t :=
  | OK | Canceled | Unknown | InvalidArgument | DeadlineExceeded | NotFound
  | AlreadyExists | PermissionDenied | ResourceExhausted | FailedPrecondition
  | Aborted | OutOfRange | Unimplemented | Internal | Unavailable | DataLoss
  | Unauthenticated.

#[export] Instance t_eq_dec : EqDecision t.
Proof. solve_decision. Defined.

Definition to_string (c : t) : string :=
    match c with
    | OK => "OK" | Canceled => "Canceled" | Unknown => "Unknown"
    | InvalidArgument => "InvalidArgument" | DeadlineExceeded => "DeadlineExceeded"
    | NotFound => "NotFound" | AlreadyExists => "AlreadyExists"
    | PermissionDenied => "PermissionDenied"
    | ResourceExhausted => "ResourceExhausted"
    | FailedPrecondition => "FailedPrecondition" | Aborted => "Aborted"
    | OutOfRange => "OutOfRange" | Unimplemented => "Unimplemented"
    | Internal => "Internal" | Unavailable => "Unavailable"
    | DataLoss => "DataLoss" | Unauthenticated => "Unauthenticated"
    end.
End codes.
#[export] Existing Instance codes.t_eq_dec.

(** ** Error values *)
(** [syscall.Errno], the numbers the code compares with and others. *)
Inductive errno :=
| ENOENT | EEXIST | ENOTTY | EINVAL | EOPNOTSUPP | EErrno (n : Z).
#[export] Instance errno_eq_dec : EqDecision errno.
Proof. solve_decision. Defined.
Definition errno_msg (e : errno) : string :=
  match e with
  | ENOENT => "no such file or directory" | EEXIST => "file exists"
  | ENOTTY => "inappropriate ioctl for device" | EINVAL => "invalid argument"
  | EOPNOTSUPP => "operation not supported" | EErrno n => "errno " +:+ Itoa n
  end.

Inductive sentinel :=
| InstanceNotFound        (**r [cloudprovider.InstanceNotFound] *)
| CtxDeadlineExceeded     (**r [context.DeadlineExceeded] *)
| CtxCanceled             (**r [context.Canceled] *)
| WaitTimeout             (**r [wait.ErrWaitTimeout] *)
| OsErrNotExist           (**r [os.ErrNotExist] *)
| IoEOF                   (**r [io.EOF] *)
| ExecutableNotFound      (**r [exec.ErrExecutableNotFound] of k8s.io/utils *)
| errPVNotFound           (**r nodeserver.go *)
| errPVMetadataUnavailable
| WmiErrNotFound          (**r [wmi.ErrNotFound] *)
| WmiErrStopIteration.    (**r [wmi.ErrStopIteration] *)
#[export] Instance sentinel_eq_dec : EqDecision sentinel.
Proof. solve_decision. Defined.

Inductive gerr :=
| ENew (msg : string)                        (**r [fmt.Errorf] without [%w], [errors.New] *)
| EWrap (pre : string) (e : gerr) (suf : string)  (**r [fmt.Errorf] with [%w] *)
| EStatus (c : codes.t) (msg : string)       (**r [status.Error], [status.Errorf] *)
| ESentinel (s : sentinel)
| EResponse (httpStatus : Z) (errorCode msg : string)  (**r [azcore.ResponseError] *)
| EDangling (msg node devicePath : string)   (**r [volerr.DanglingAttachError] *)
| EDiskManagedBy (diskURI managedBy : string)       (**r [diskManagedError] of azure_managedDiskController.go *)
| EKube (reason msg : string)                (**r [apierrors.StatusError] *)
| ESys (op : string) (e : errno)             (**r [os.PathError] and its like; "" for a bare number *)
| EExit (exitStatus : Z) (msg : string)      (**r [exec.ExitError] *)
| EOle (code : Z) (msg : string)             (**r [ole.OleError] *)
| EWmi (class method target : string) (code : Z).  (**r [wmi.WMIError] without details *)
#[export] Instance gerr_eq_dec : EqDecision gerr.
Proof. unfold EqDecision, Decision. decide equality;
  solve [apply String.string_dec | apply errno_eq_dec | apply Z.eq_dec | apply codes.t_eq_dec | apply sentinel_eq_dec]. Defined.

Definition sentinel_msg (s : sentinel) : string :=
  match s with
  | InstanceNotFound => "instance not found"
  | CtxDeadlineExceeded => "context deadline exceeded"
  | CtxCanceled => "context canceled"
  | WaitTimeout => "timed out waiting for the condition"
  | OsErrNotExist => "file does not exist"
  | IoEOF => "EOF"
  | ExecutableNotFound => "executable file not found in $PATH"
  | errPVNotFound => "persistent volume not found"
  | errPVMetadataUnavailable => "persistent volume metadata is unavailable"
  | WmiErrNotFound => "not found"
  | WmiErrStopIteration => "stop iteration"
  end.

(** [err.Error()]. *)
Fixpoint Error (e : gerr) : string :=
  match e with
  | ENew m => m
  | EWrap pre e' suf => pre +:+ Error e' +:+ suf
  | EStatus c m => "rpc error: code = " +:+ codes.to_string c +:+ " desc = " +:+ m
  | ESentinel s => sentinel_msg s
  | EResponse _ _ m => m
  | EDangling m _ _ => m
  | EDiskManagedBy u r =>
      "disk(" +:+ u +:+ ") is managed by Azure resource(" +:+ r +:+ "), could not be deleted"
  | EKube _ m => m
  | ESys op e => if String.eqb op "" then errno_msg e else op +:+ ": " +:+ errno_msg e
  | EExit _ m => m
  | EOle _ m => m
  | EWmi class method target code =>
      "WMI " +:+ class +:+ "." +:+ method +:+ " failed (target=" +:+ target +:+ "): code=" +:+ Itoa code
  end.

(** [errors.Is(err, target)] for a sentinel target. *)
Fixpoint errors_Is (e : gerr) (t : sentinel) : bool :=
  match e with
  | EWrap _ e' _ => errors_Is e' t
  | ESentinel s => bool_decide (s = t)
  | ESys _ n => bool_decide (n = ENOENT ∧ t = OsErrNotExist)
  | _ => false
  end.
(** [errors.Is(err, errno)]. *)
Fixpoint errors_Is_errno (e : gerr) (t : errno) : bool :=
  match e with
  | EWrap _ e' _ => errors_Is_errno e' t
  | ESys _ n => bool_decide (n = t)
  | _ => false
  end.
(** [os.IsNotExist(err)], [os.IsExist(err)]: they look through the errors of the
    operating system only. *)
Definition os_IsNotExist (e : gerr) : bool :=
  match e with ESys _ n => bool_decide (n = ENOENT) | ESentinel s => bool_decide (s = OsErrNotExist)
  | _ => false end.
Definition os_IsExist (e : gerr) : bool :=
  match e with ESys _ n => bool_decide (n = EEXIST) | _ => false end.

(** The last error of the [Unwrap] chain: what [errors.As] finds. *)
Fixpoint root_cause (e : gerr) : gerr :=
  match e with EWrap _ e' _ => root_cause e' | _ => e end.

(** [status.Code(err)]: the code of the wrapped status, [Unknown] otherwise. *)
Definition status_Code (e : gerr) : codes.t :=
  match root_cause e with EStatus c _ => c | _ => codes.Unknown end.

(** ** Outcomes *)
Inductive res (A : Type) :=
| Ok (a : A)
| Err (e : gerr)
| Panic.
Arguments Ok {A} _.
Arguments Err {A} _.
Arguments Panic {A}.
#[export] Instance res_eq_dec {A} `{EqDecision A} : EqDecision (res A).
Proof. solve_decision. Defined.

Definition res_bind {A B} (r : res A) (f : A → res B) : res B :=
  match r with Ok a => f a | Err e => Err e | Panic => Panic end.
(** A dereference [*p] of a pointer that may be nil. *)
Definition deref {A} (p : option A) : res A :=
  match p with Some a => Ok a | None => Panic end.

Notation "'let?' x := r 'in' k" := (res_bind r (λ x, k))
  (at level 10, x pattern at level 0, r at level 100, k at level 200).

(** [strconv.Atoi] with its error. *)
Definition Atoi_res (s : string) : res Z :=
  match Atoi s with Some z => Ok z | None => Err (ENew (num_error "Atoi" s)) end.
Definition ParseInt_res (s : string) (w : Z) : res Z :=
  match ParseInt s w with Some z => Ok z | None => Err (ENew (num_error "ParseInt" s)) end.

(** [ptr.Deref(p, default)]. *)
Definition ptr_Deref {A} (p : option A) (d : A) : A := default d p.

(** The first entry of a [range] over a map that satisfies a condition. *)
Fixpoint find_entry {A} (P : string → A → bool) (l : list (string * A)) : option (string * A) :=
  match l with
  | [] => None
  | (k, v) :: l' => if P k v then Some (k, v) else find_entry P l'
  end.

(** ** Stateful calls *)
Definition M (S A : Type) : Type := S → res A * S.

Section monad.
  Context {S : Type}.

Definition ret {A} (a : A) : M S A := λ s, (Ok a, s).
Definition fail {A} (e : gerr) : M S A := λ s, (Err e, s).
Definition panic {A} : M S A := λ s, (Panic, s).
Definition bind {A B} (m : M S A) (f : A → M S B) : M S B := λ s,
    match m s with
    | (Ok a, s') => f a s'
    | (Err e, s') => (Err e, s')
    | (Panic, s') => (Panic, s')
    end.
Definition lift {A} (r : res A) : M S A := λ s, (r, s).
  (** The error as a value: [x, err := m]. *)
Definition try {A} (m : M S A) : M S (gerr + A) := λ s,
    match m s with
    | (Ok a, s') => (Ok (inr a), s')
    | (Err e, s') => (Ok (inl e), s')
    | (Panic, s') => (Panic, s')
    end.
Definition get : M S S := λ s, (Ok s, s).
Definition modify (f : S → S) : M S unit := λ s, (Ok tt, f s).
  (** [defer f()]: [f] runs on every way out, panics included. *)
Definition defer {A} (f : S → S) (m : M S A) : M S A := λ s,
    let '(r, s') := m s in (r, f s').
End monad.

(** An effect on a part of the state, through a getter and a setter. *)
Definition on {S T A} (g : S → T) (p : T → S → S) (m : M T A) : M S A := λ s,
  let '(r, t) := m (g s) in (r, p t s).

Notation "'let!' x := m 'in' k" := (bind m (λ x, k))
  (at level 10, x pattern at level 0, m at level 100, k at level 200).
(** [if c { return err }]: stop with an error unless [b] holds. *)
Definition guard_else {S} (b : bool) (e : gerr) : M S unit :=
  if b then ret tt else fail e.
Definition guard_res (b : bool) (e : gerr) : res unit := if b then Ok tt else Err e.

(** An error that is replaced by a status. *)
Definition invalid {A} (msg : string) : res A := Err (EStatus codes.InvalidArgument msg).
Definition or_status {A} (r : res A) (c : codes.t) (msg : gerr → string) : res A :=
  match r with Err e => Err (EStatus c (msg e)) | _ => r end.
Definition status_on {S A} (m : M S A) (c : codes.t) (msg : gerr → string) : M S A :=
  let! r := try m in
  match r with inl e => fail (EStatus c (msg e)) | inr a => ret a end.

(** A [for range] loop over a list whose body may fail. *)
Fixpoint for_each {S A} (l : list A) (f : A → M S unit) : M S unit :=
  match l with
  | [] => ret tt
  | a :: l' => let! _ := f a in for_each l' f
  end.

(** ** Lemmas *)
Lemma res_bind_ok {A B} (r : res A) (f : A → res B) b :
  res_bind r f = Ok b ↔ ∃ a, r = Ok a ∧ f a = Ok b.
Proof. destruct r; simpl; split; [eauto | by intros (? & [= <-] & ?) | done | by intros (? & ? & ?) | done | by intros (? & ? & ?)]. Qed.

Lemma or_status_ok {A} (r : res A) c msg a : or_status r c msg = Ok a → r = Ok a.
Proof. by destruct r. Qed.

Lemma find_entry_Some {A} (P : string → A → bool) l k v :
  find_entry P l = Some (k, v) → (k, v) ∈ l ∧ P k v = true.
Proof.
  induction l as [|[k' v'] l IH]; [done|]. simpl. case_match eqn:E.
  - intros [= -> ->]. split; [constructor | done].
  - intros H. apply IH in H as [? ?]. split; [by constructor | done].
Qed.

Lemma find_entry_None {A} (P : string → A → bool) l :
  find_entry P l = None → ∀ k v, (k, v) ∈ l → P k v = false.
Proof.
  induction l as [|[k' v'] l IH]; simpl; [intros _ k v []%elem_of_nil|].
  case_match eqn:E; [done|]. intros H k v [[= -> ->]|Hin]%elem_of_cons; [done | by apply IH].
Qed.

Section monad_facts.
  Context {S : Type}.

Lemma bind_ret {A B} (a : A) (f : A → M S B) s : bind (ret a) f s = f a s.
  Proof. reflexivity. Qed.

Lemma bind_assoc {A B C} (m : M S A) (f : A → M S B) (g : B → M S C) s :
    bind (bind m f) g s = bind m (λ a, bind (f a) g) s.
  Proof. unfold bind. by destruct (m s) as [[] ?]. Qed.

Lemma bind_ok {A B} (m : M S A) (f : A → M S B) s b s' :
    bind m f s = (Ok b, s') ↔ ∃ a s1, m s = (Ok a, s1) ∧ f a s1 = (Ok b, s').
  Proof.
    unfold bind. destruct (m s) as [[] ?]; split;
      [eauto | by intros (? & ? & [= <- <-] & ?) | done | by intros (? & ? & ? & ?)
      | done | by intros (? & ? & ? & ?)].
  Qed.

(** The ways a sequence ends, and those on which it returns an error. *)
Lemma bind_inv {A B} (m : M S A) (f : A → M S B) s r s' :
    bind m f s = (r, s') →
    (∃ a s1, m s = (Ok a, s1) ∧ f a s1 = (r, s')) ∨
    ((∃ e, m s = (Err e, s') ∧ r = Err e) ∨ m s = (Panic, s') ∧ r = Panic).
  Proof. unfold bind. destruct (m s) as [[a|e|] s1]; intros; simplify_eq; eauto 8. Qed.
Lemma bind_err {A B} (m : M S A) (f : A → M S B) s e s' :
    bind m f s = (Err e, s') →
    (∃ a s1, m s = (Ok a, s1) ∧ f a s1 = (Err e, s')) ∨ m s = (Err e, s').
  Proof. intros [?|[(e' & ? & [= <-])|[? ?]]]%bind_inv; eauto. done. Qed.

Lemma bind_eq {A B} (m : M S A) (f : A → M S B) s a s1 : m s = (Ok a, s1) → bind m f s = f a s1.
  Proof. unfold bind. by intros ->. Qed.

Lemma bind_lift {A B} (a : A) (f : A → M S B) s : bind (lift (Ok a)) f s = f a s.
  Proof. reflexivity. Qed.
Lemma bind_get {B} (f : S → M S B) s : bind get f s = f s s.
  Proof. reflexivity. Qed.

Lemma try_ok {A} (m : M S A) s r s' :
    try m s = (Ok r, s') → m s = (match r with inl e => Err e | inr a => Ok a end, s').
  Proof. unfold try. destruct (m s) as [[]]; intros; by simplify_eq. Qed.
Lemma status_on_ok {A} (m : M S A) c msg s a s' :
    status_on m c msg s = (Ok a, s') → m s = (Ok a, s').
  Proof. unfold status_on. intros ([e|b] & s1 & ->%try_ok & H1)%bind_ok; [done|]. by injection H1 as <- <-. Qed.
Lemma status_on_err {A} (m : M S A) c msg s e s' :
    m s = (Err e, s') → status_on m c msg s = (Err (EStatus c (msg e)), s').
  Proof. unfold status_on, try, bind. by intros ->. Qed.

Lemma status_on_inv {A} (m : M S A) c msg s e s' :
    status_on m c msg s = (Err e, s') → ∃ e0, m s = (Err e0, s') ∧ e = EStatus c (msg e0).
  Proof.
    unfold status_on, try, bind. destruct (m s) as [[a|e0|] s1]; [done| |done].
    intros [= <- <-]. by exists e0.
  Qed.

Lemma guard_ok b e s x s' : guard_else (S:=S) b e s = (Ok x, s') → b = true ∧ s' = s.
  Proof. unfold guard_else. destruct b; [|done]. intros [= _ <-]. done. Qed.
Lemma lift_ok {A} (r : res A) s a s' : lift (S:=S) r s = (Ok a, s') → r = Ok a ∧ s' = s.
  Proof. unfold lift. intros [= -> <-]. done. Qed.

  (** A property of the state kept by every effect is kept by a sequence. *)
Definition keeps {A} (P : S → Prop) (m : M S A) : Prop :=
    ∀ s, P s → P (m s).2.

Lemma keeps_ret {A} P (a : A) : keeps P (ret a).
  Proof. by intros s. Qed.
Lemma keeps_fail {A} P e : keeps (A:=A) P (fail e).
  Proof. by intros s. Qed.
Lemma keeps_panic {A} P : keeps (A:=A) P panic.
  Proof. by intros s. Qed.
Lemma keeps_get P : keeps P get.
  Proof. by intros s. Qed.
Lemma keeps_lift {A} P (r : res A) : keeps P (lift r).
  Proof. by intros s. Qed.
Lemma keeps_guard P b e : keeps P (guard_else b e).
  Proof. intros s. by destruct b. Qed.
Lemma keeps_bind {A B} P (m : M S A) (f : A → M S B) :
    keeps P m → (∀ a, keeps P (f a)) → keeps P (bind m f).
  Proof.
    intros Hm Hf s Hs. specialize (Hm s Hs). unfold bind.
    destruct (m s) as [[a| |] s'] eqn:E; simpl in *; try done. by apply Hf.
  Qed.
Lemma keeps_try {A} P (m : M S A) : keeps P m → keeps P (try m).
  Proof.
    intros Hm s Hs. specialize (Hm s Hs). unfold try.
    by destruct (m s) as [[a| |] s'].
  Qed.
Lemma keeps_modify P (f : S → S) : (∀ s, P s → P (f s)) → keeps P (modify f).
  Proof. intros Hf s Hs. by apply Hf. Qed.
Lemma keeps_defer {A} P (f : S → S) (m : M S A) :
    (∀ s, P s → P (f s)) → keeps P m → keeps P (defer f m).
  Proof.
    intros Hf Hm s Hs. specialize (Hm s Hs). unfold defer.
    destruct (m s) as [r s'] eqn:E. by apply Hf.
  Qed.

  (** A call that returns no error: it returns a result, or it panics. *)
Definition errless {A} (m : M S A) : Prop := ∀ s e, (m s).1 ≠ Err e.
Lemma errless_ret {A} (a : A) : errless (ret a).
  Proof. done. Qed.
Lemma errless_deref {A} (o : option A) : errless (lift (deref o)).
  Proof. by destruct o. Qed.
Lemma errless_get : errless get.
  Proof. done. Qed.
Lemma errless_modify f : errless (modify f).
  Proof. done. Qed.
Lemma errless_try {A} (m : M S A) : errless (try m).
  Proof. intros s e. unfold try. by destruct (m s) as [[]]. Qed.
Lemma errless_bind {A B} (m : M S A) (f : A → M S B) :
    errless m → (∀ a, errless (f a)) → errless (bind m f).
  Proof.
    intros Hm Hf s e. specialize (Hm s). unfold bind.
    destruct (m s) as [[a|e'|] s']; [apply Hf|by destruct (Hm e')|done].
  Qed.
End monad_facts.

#[export] Hint Resolve keeps_ret keeps_fail keeps_panic keeps_get keeps_lift keeps_guard
  keeps_bind keeps_try : go_db.
