(* ===== verification/GoFloat.v ===== *)
(** * Go's [float64]

    The binary64 arithmetic the tuning formulas of [pkg/optimization] use, on the
    Standard Library's executable IEEE 754 numbers ([SpecFloat], round to nearest
    even): conversions from [int], the operators, [math.Min], [math.Max],
    [math.Ceil], and [fmt]'s [%g] on integral values, the only ones the code
    prints. *)
From stdpp Require Import strings list.
From Stdlib Require Import ZArith Lia Ascii SpecFloat.
From S2P Require Import Prelude GoStrings.
Local Open Scope string_scope.
Local Open Scope Z_scope.

Notation float64 := spec_float.

(** [float64(z)], rounded to nearest even. *)
Definition of_int (z : Z) : float64 := binary_normalize 53 1024 z 0 false.
Definition f_add : float64 → float64 → float64 := SFadd 53 1024.
Definition f_sub : float64 → float64 → float64 := SFsub 53 1024.
Definition f_mul : float64 → float64 → float64 := SFmul 53 1024.
Definition f_div : float64 → float64 → float64 := SFdiv 53 1024.
Definition f_le : float64 → float64 → bool := SFleb.
(** A constant [n/d], with [n] and [d] below [2^53]: their quotient is rounded
    once, as the compiler rounds the exact constant. *)
Definition f_const (n d : Z) : float64 := f_div (of_int n) (of_int d).

Definition is_zero (x : float64) : bool := match x with S754_zero _ => true | _ => false end.
Definition is_nan (x : float64) : bool := match x with S754_nan => true | _ => false end.
Definition is_inf (x : float64) (sign : bool) : bool :=
  match x with S754_infinity s => Bool.eqb s sign | _ => false end.
Definition Signbit (x : float64) : bool :=
  match x with S754_zero s | S754_infinity s | S754_finite s _ _ => s | S754_nan => false end.
Definition math_Min (x y : float64) : float64 :=
  if is_inf x true || is_inf y true then S754_infinity true
  else if is_nan x || is_nan y then S754_nan
  else if is_zero x && is_zero y then if Signbit x then x else y
  else if SFltb x y then x else y.
Definition math_Max (x y : float64) : float64 :=
  if is_inf x false || is_inf y false then S754_infinity false
  else if is_nan x || is_nan y then S754_nan
  else if is_zero x && is_zero y then if Signbit x then y else x
  else if SFltb y x then x else y.

(** [math.Ceil]; the zero it gives below 0 is negative. *)
Definition math_Ceil (x : float64) : float64 :=
  match x with
  | S754_finite s m e =>
      if 0 <=? e then x
      else let d := 2 ^ (- e) in
           let z := if s then - (Zpos m / d) else (Zpos m + d - 1) / d in
           binary_normalize 53 1024 z 0 s
  | _ => x
  end.

(** [%g]: the shortest decimal digits that read back as the value, without an
    exponent when it is below 6 ([strconv]'s rule for the shortest form).  The
    search goes from the fewest digits; at each length the two neighbours are
    tried. *)
Fixpoint shortest (fuel : nat) (z : Z) (k : Z) : Z * Z :=
  let p := 10 ^ k in
  let lo := z / p in
  match fuel with
  | O => (z, 0)
  | S f =>
      let back c := SFeqb (of_int (c * p)) (of_int z) in
      let near := if z - lo * p <=? (lo + 1) * p - z then lo else lo + 1 in
      let far := if z - lo * p <=? (lo + 1) * p - z then lo + 1 else lo in
      if back near then (near, k) else if back far then (far, k) else shortest f z (k - 1)
  end.
Definition exponent_text (e : Z) : string := (if e <? 10 then "e+0" else "e+") +:+ Itoa e.
Definition g_digits (z : Z) : string :=
  let n := Z.of_nat (String.length (Itoa z)) in
  let '(d, k) := shortest (S (Z.to_nat n)) z n in
  let ds := Itoa d in
  let exp := Z.of_nat (String.length ds) + k - 1 in
  if 6 <=? exp then
    match ds with
    | String c EmptyString => String c (exponent_text exp)
    | String c r => String c (String "."%char r) +:+ exponent_text exp
    | EmptyString => ""
    end
  else Itoa z.
(** The integer an integral finite value is. *)
Definition integral (m : positive) (e : Z) : Z :=
  if 0 <=? e then Zpos m * 2 ^ e else Zpos m / 2 ^ (- e).
Definition Sprintf_g (x : float64) : string :=
  match x with
  | S754_nan => "NaN"
  | S754_infinity s => if s then "-Inf" else "+Inf"
  | S754_zero s => if s then "-0" else "0"
  | S754_finite s m e => (if s then "-" else "") +:+ g_digits (integral m e)
  end.

Example g_small : Sprintf_g (of_int 334) = "334". Proof. reflexivity. Qed.
Example g_million : Sprintf_g (of_int 1250000) = "1.25e+06". Proof. vm_compute. reflexivity. Qed.
Example g_below : Sprintf_g (of_int 999999) = "999999". Proof. vm_compute. reflexivity. Qed.
Example g_large : Sprintf_g (of_int (2 ^ 63)) = "9.223372036854776e+18".
Proof. vm_compute. reflexivity. Qed.
Example g_carry : Sprintf_g (of_int (10 ^ 17 - 1)) = "1e+17". Proof. vm_compute. reflexivity. Qed.
Example ceil_up : math_Ceil (f_const 33 10) = of_int 4. Proof. vm_compute. reflexivity. Qed.
Example ceil_neg : math_Ceil (f_const (-1) 2) = S754_zero true. Proof. vm_compute. reflexivity. Qed.

#[export] Instance float64_eq_dec : EqDecision float64.
Proof. solve_decision. Defined.
