(* ===== verification/Consts.v ===== *)
(** * Constants of the driver: [pkg/azureconstants/azure_constants.go]

    Every constant keeps its Go name; the two path patterns are lists of the
    elements of [GoStrings]. *)
From stdpp Require Import strings list.
From Stdlib Require Import ZArith.
From S2P Require Import Prelude GoStrings.
Local Open Scope string_scope.

Module consts.
Definition AzureDiskCSIDriverName : string := "azuredisk_csi_driver".
Definition CachingModeField : string := "cachingmode".
Definition DefaultAzureCredentialFileEnv : string := "AZURE_CREDENTIAL_FILE".
Definition DefaultCredFilePathWindows : string := "C:\k\azure.json".
Definition DefaultCredFilePathLinux : string := "/etc/kubernetes/azure.json".
Definition DefaultDriverName : string := "disk.csi.azure.com".
Definition DesIDField : string := "diskencryptionsetid".
Definition DiskEncryptionTypeField : string := "diskencryptiontype".
Definition DiskAccessIDField : string := "diskaccessid".
Definition DiskIOPSReadWriteField : string := "diskiopsreadwrite".
Definition DiskMBPSReadWriteField : string := "diskmbpsreadwrite".
Definition DiskNameField : string := "diskname".
Definition EnableBurstingField : string := "enablebursting".
Definition ErrDiskNotFound : string := "not found".
Definition FsTypeField : string := "fstype".
Definition IncrementalField : string := "incremental".
Definition KindField : string := "kind".
Definition LocationField : string := "location".
Definition LogicalSectorSizeField : string := "logicalsectorsize".
Definition LUN : string := "LUN".
Definition MaxSharesField : string := "maxshares".
Definition MinimumDiskSizeGiB : Z := 1%Z.
Definition NetworkAccessPolicyField : string := "networkaccesspolicy".
Definition PublicNetworkAccessField : string := "publicnetworkaccess".
Definition NotFound : string := "NotFound".
Definition PerfProfileBasic : string := "basic".
Definition PerfProfileAdvanced : string := "advanced".
Definition PerfProfileField : string := "perfprofile".
Definition PerfProfileNone : string := "none".
Definition PremiumAccountPrefix : string := "premium".
Definition PvcNameKey : string := "csi.storage.k8s.io/pvc/name".
Definition PvcNamespaceKey : string := "csi.storage.k8s.io/pvc/namespace".
Definition PvcNamespaceTag : string := "kubernetes.io-created-for-pvc-namespace".
Definition PvcNameTag : string := "kubernetes.io-created-for-pvc-name".
Definition PvNameTag : string := "kubernetes.io-created-for-pv-name".
Definition PvcMetaDataName : string := "${pvc.metadata.name}".
Definition PvcMetaDataNamespace : string := "${pvc.metadata.namespace}".
Definition PvMetaDataName : string := "${pv.metadata.name}".
Definition SnapshotNamespaceTag : string := "kubernetes.io-created-for-snapshot-namespace".
Definition SnapshotNameTag : string := "kubernetes.io-created-for-snapshot-name".
Definition PvNameKey : string := "csi.storage.k8s.io/pv/name".
Definition VolumeSnapshotNameKey : string := "csi.storage.k8s.io/volumesnapshot/name".
Definition VolumeSnapshotNamespaceKey : string := "csi.storage.k8s.io/volumesnapshot/namespace".
Definition VolumeSnapshotContentNameKey : string := "csi.storage.k8s.io/volumesnapshotcontent/name".
Definition RateLimited : string := "rate limited".
Definition RequestedSizeGib : string := "requestedsizegib".
Definition ResizeRequired : string := "resizeRequired".
Definition SubscriptionIDField : string := "subscriptionid".
Definition ResourceGroupField : string := "resourcegroup".
Definition DataAccessAuthModeField : string := "dataaccessauthmode".
Definition AttachModeField : string := "attachmode".
Definition ResourceNotFound : string := "ResourceNotFound".
Definition SkuNameField : string := "skuname".
Definition SourceDiskSearchMaxDepth : Z := 10%Z.
Definition SourceSnapshot : string := "snapshot".
Definition SourceVolume : string := "volume".
Definition StandardSsdAccountPrefix : string := "standardssd".
Definition StorageAccountTypeField : string := "storageaccounttype".
Definition TagsField : string := "tags".
Definition GetDiskThrottlingKey : string := "getdiskthrottlingKey".
Definition CheckDiskLunThrottlingKey : string := "checkdisklunthrottlingKey".
Definition TrueValue : string := "true".
Definition FalseValue : string := "false".
Definition UserAgentField : string := "useragent".
Definition VolumeAttributePartition : string := "partition".
Definition WellKnownTopologyKey : string := "topology.kubernetes.io/zone".
Definition InstanceTypeKey : string := "node.kubernetes.io/instance-type".
Definition WriteAcceleratorEnabled : string := "writeacceleratorenabled".
Definition ZonedField : string := "zoned".
Definition EnableAsyncAttachField : string := "enableasyncattach".
Definition PerformancePlusField : string := "enableperformanceplus".
Definition PerformancePlusMinimumDiskSizeGiB : Z := 513%Z.
Definition AttachDiskInitialDelayField : string := "attachdiskinitialdelay".
Definition TooManyRequests : string := "TooManyRequests".
Definition ClientThrottled : string := "client throttled".
Definition VolumeID : string := "volumeid".
Definition Node : string := "node".
Definition SourceResourceID : string := "source_resource_id".
Definition SnapshotName : string := "snapshot_name".
Definition SnapshotID : string := "snapshot_id".
Definition DeviceSettingsKeyPrefix : string := "device-setting/".
Definition BlockDeviceRootPathLinux : string := "/sys/block".
Definition DummyBlockDevicePathLinux : string := "/sys/block/sda".
Definition SnapshotOpThrottlingSleepSec : Z := 50%Z.
Definition MaxThrottlingSleepSec : Z := 1200%Z.
Definition AgentNotReadyNodeTaintKeySuffix : string := "/agent-not-ready".
Definition TagValueDelimiterField : string := "tagvaluedelimiter".
Definition AzureDiskDriverTag : string := "kubernetes-azure-dd".
Definition InstantAccessDurationMinutes : string := "instantaccessdurationminutes".
Definition QADWireserverEndpoint : string := "http://168.63.129.16/vmservice/diskstate".
Definition AttachSequenceAnnotation : string := "azuredisk.csi.azure.com/attach-sequence".
Definition BlobURLAnnotation : string := "azuredisk.csi.azure.com/blob-url".
Definition ClaimIdentifierAnnotation : string := "azuredisk.csi.azure.com/claim-identifier".
Definition QADCachePolicyAnnotation : string := "azuredisk.csi.azure.com/cache-policy".
Definition AttachModeControllerDriven : string := "ControllerDriven".
Definition AttachModeNodeDriven : string := "NodeDriven".

(** [fmt.Sprintf(ManagedDiskPath, sub, rg, name)]. *)
Definition ManagedDiskPath (sub rg name : string) : string :=
    "/subscriptions/" +:+ sub +:+ "/resourceGroups/" +:+ rg +:+
    "/providers/Microsoft.Compute/disks/" +:+ name.
Definition ManagedDiskPathRE : list relem :=
    [RAny; RLit "/subscriptions/"; RAny; RLit "/resourceGroups/"; RAny;
     RLit "/providers/Microsoft.Compute/disks/"; RCapture].
Definition DiskSnapshotPathRE : list relem :=
    [RAny; RLit "/subscriptions/"; RAny; RLit "/resourceGroups/"; RAny;
     RLit "/providers/Microsoft.Compute/snapshots/"; RCapture].
End consts.
