(* ===== verification/Util.v ===== *)
(** * Shared helpers of the driver: [pkg/util/util.go]

    Sizes are [int64] values, so the conversions wrap around as Go's do. *)
From stdpp Require Import gmap strings list sorting.
From Stdlib Require Import ZArith Lia Ascii.
From S2P Require Import Prelude GoStrings GoErr.
Local Open Scope Z_scope.

(** ** Sizes *)
Definition GiB : Z := 1024 * 1024 * 1024.
Definition TagKeyValueDelimiter : string := "=".
Definition MaximumDataDiskExceededMsg : string := "attached to a VM of this size is".

(** [util/util.go RoundUpSize] Division truncates towards zero; every caller
    passes a positive constant, so the panic on a zero unit is not modelled. *)
Definition RoundUpSize (volumeSizeBytes allocationUnitBytes : Z) : Z :=
  let roundedUp := int64 (Z.quot volumeSizeBytes allocationUnitBytes) in
  if Z.rem volumeSizeBytes allocationUnitBytes >? 0 then int64 (roundedUp + 1)
  else roundedUp.
(** [util/util.go RoundUpBytes] *)
Definition RoundUpBytes (volumeSizeBytes : Z) : Z :=
  int64 (RoundUpSize volumeSizeBytes GiB * GiB).
(** [util/util.go RoundUpGiB] *)
Definition RoundUpGiB (volumeSizeBytes : Z) : Z := RoundUpSize volumeSizeBytes GiB.
(** [util/util.go BytesToGiB] *)
Definition BytesToGiB (volumeSizeBytes : Z) : Z := Z.quot volumeSizeBytes GiB.
(** [util/util.go GiBToBytes] *)
Definition GiBToBytes (volumeSizeGiB : Z) : Z := int64 (volumeSizeGiB * GiB).

(** ** Tags *)
Definition invalid_tags (tags delim : string) : gerr :=
  ENew ("tags '" +:+ tags +:+ "' are invalid, the format should like: 'key1=value1"
        +:+ delim +:+ "key2=value2'").

(** The body of the loop over the [key=value] pieces. *)
Fixpoint convert_pieces (tags delim : string) (s : list string) (m : gmap string string)
  : res (gmap string string) :=
  match s with
  | [] => Ok m
  | tag :: s' =>
      match SplitN2 tag TagKeyValueDelimiter with
      | [k; v] =>
          let key := TrimSpace k in
          if String.eqb key "" then Err (invalid_tags tags delim)
          else if ContainsAny key "<>%&?\/"
          then Err (ENew ("tag key '" +:+ key +:+ "' contains invalid characters"))
          else convert_pieces tags delim s' (<[key := TrimSpace v]> m)
      | _ => Err (invalid_tags tags delim)
      end
  end.
(** [util/util.go ConvertTagsToMap] *)
Definition ConvertTagsToMap (tags tagsDelimiter : string) : res (gmap string string) :=
  if String.eqb tags "" then Ok ∅
  else
    let delim := if String.eqb tagsDelimiter "" then "," else tagsDelimiter in
    convert_pieces tags delim (Split tags delim) ∅.

(** ** Volume locks

    The mutex makes each of the two operations atomic. *)
Record VolumeLocks := { locks : gset string }.
(** [util/util.go NewVolumeLocks] *)
Definition NewVolumeLocks : VolumeLocks := {| locks := ∅ |}.
(** [util/util.go TryAcquire] *)
Definition TryAcquire (volumeID : string) (vl : VolumeLocks) : bool * VolumeLocks :=
  if bool_decide (volumeID ∈ locks vl) then (false, vl)
  else (true, {| locks := {[volumeID]} ∪ locks vl |}).
(** [util/util.go Release] *)
Definition Release (volumeID : string) (vl : VolumeLocks) : VolumeLocks :=
  {| locks := locks vl ∖ {[volumeID]} |}.

(** ** The difference of two arrays *)
(** The two loops of [GetElementsInArray1NotInArray2] over sorted arrays. *)
Fixpoint diff_sorted (arr1 : list Z) : list Z → list Z :=
  fix go (arr2 : list Z) : list Z :=
    match arr1, arr2 with
    | [], _ => []
    | _, [] => arr1
    | x :: arr1', y :: arr2' =>
        if x <? y then x :: diff_sorted arr1' arr2
        else if y <? x then go arr2'
        else diff_sorted arr1' arr2'
    end.
(** [util/util.go GetElementsInArray1NotInArray2] Both arguments are sorted in
    place; the callers do not use them again. *)
Definition GetElementsInArray1NotInArray2 (arr1 arr2 : list Z) : list Z :=
  diff_sorted (merge_sort Z.le arr1) (merge_sort Z.le arr2).

(** ** Sizes: lemmas *)
Lemma GiB_pos : 0 < GiB.
Proof. done. Qed.

Lemma RoundUpSize_nonneg v u :
  0 < u → 0 ≤ v → in_int64 v →
  RoundUpSize v u = (v + u - 1) / u.
Proof.
  intros Hu Hv Hin. unfold RoundUpSize.
  rewrite Z.quot_div_nonneg, Z.rem_mod_nonneg by lia.
  assert (Hd : 0 ≤ v / u ≤ v).
  { split; [apply Z.div_pos; lia|]. apply Z.div_le_upper_bound; nia. }
  unfold in_int64 in *. rewrite (int64_id (v / u)) by (unfold in_int64; lia).
  pose proof (Z.div_mod v u ltac:(lia)) as Hdm.
  pose proof (Z.mod_pos_bound v u Hu) as Hm.
  destruct (Z.gtb_spec (v `mod` u) 0) as [Hgt|Hle].
  - assert (Hq : (v + u - 1) / u = v / u + 1).
    { symmetry. apply Z.div_unique with (v `mod` u - 1); lia. }
    rewrite Hq. apply int64_id. unfold in_int64.
    assert (v / u < 2 ^ 63 - 1 ∨ v / u = 2 ^ 63 - 1) as [?|He] by lia; [lia|].
    exfalso. assert (v / u * u ≤ v) by lia. nia.
  - apply Z.div_unique with (u - 1); lia.
Qed.
(** The rounded size exceeds [g] GiB, by at most [k], exactly when the size does. *)
Lemma RoundUpGiB_within v g k :
  in_int64 v → g < RoundUpGiB v → RoundUpGiB v - g ≤ k → g * GiB < v ≤ (g + k) * GiB.
Proof.
  unfold RoundUpGiB, RoundUpSize. intros Hv.
  pose proof (Z.quot_rem v GiB ltac:(done)) as Hq.
  pose proof (Z.rem_bound_abs v GiB ltac:(done)) as Hm.
  pose proof (Z.rem_sign_mul v GiB ltac:(done)) as Hs.
  unfold in_int64 in Hv. assert (HG : GiB = 1073741824) by done.
  rewrite (int64_id (Z.quot v GiB)) by (unfold in_int64; nia).
  destruct (Z.gtb_spec (Z.rem v GiB) 0).
  - rewrite int64_id by (unfold in_int64; nia). nia.
  - intros. split; [|nia]. nia.
Qed.

Lemma RoundUpSize_range v u : in_int64 (RoundUpSize v u).
Proof. unfold RoundUpSize. case_match; apply int64_range. Qed.

Lemma GiBToBytes_range g : in_int64 (GiBToBytes g).
Proof. apply int64_range. Qed.

Lemma GiBToBytes_small g : 0 ≤ g < 2 ^ 33 → GiBToBytes g = g * GiB.
Proof. intros. apply int64_id. unfold in_int64, GiB. lia. Qed.

Lemma RoundUpGiB_bounds v :
  0 ≤ v < 2 ^ 63 →
  0 ≤ RoundUpGiB v ≤ 2 ^ 33 ∧ v ≤ RoundUpGiB v * GiB < v + GiB.
Proof.
  intros Hv. unfold RoundUpGiB.
  rewrite RoundUpSize_nonneg by (unfold in_int64, GiB; lia).
  pose proof (Z.div_mod (v + GiB - 1) GiB ltac:(done)).
  pose proof (Z.mod_pos_bound (v + GiB - 1) GiB ltac:(done)).
  unfold GiB in *. lia.
Qed.

(** ** Properties *)

(** Rounding a size up gives the least multiple of a GiB that holds it, except
    for the sizes above 2^63 - 2^30 bytes, whose result wraps to -2^63. *)
Theorem RoundUpBytes_spec v :
  0 ≤ v < 2 ^ 63 →
  (v ≤ 2 ^ 63 - 2 ^ 30 →
     v ≤ RoundUpBytes v < v + GiB ∧ RoundUpBytes v = GiBToBytes (RoundUpGiB v)
     ∧ (GiB | RoundUpBytes v)) ∧
  (2 ^ 63 - 2 ^ 30 < v → RoundUpBytes v = - 2 ^ 63).
Proof.
  intros Hv. destruct (RoundUpGiB_bounds v Hv) as [Hr Hb].
  unfold RoundUpBytes, GiBToBytes. unfold RoundUpGiB in *.
  remember (RoundUpSize v GiB) as r eqn:Er. clear Er. split; intros Hlim.
  - assert (r < 2 ^ 33) by (unfold GiB in *; lia).
    rewrite int64_id by (unfold in_int64, GiB in *; lia).
    split; [lia|]. split; [done|]. exists r. lia.
  - assert (r = 2 ^ 33) as -> by (unfold GiB in *; lia). reflexivity.
Qed.

Lemma RoundUpBytes_spec_witness :
  RoundUpBytes 1 = GiB ∧ RoundUpBytes (2 ^ 63 - 1) = - 2 ^ 63.
Proof.
  destruct (RoundUpBytes_spec 1) as [H1 _]; [lia|].
  destruct (RoundUpBytes_spec (2 ^ 63 - 1)) as [_ H2]; [lia|].
  split; [destruct H1 as [_ [-> _]]; [lia|]; vm_compute; reflexivity | apply H2; lia].
Defined.

(** ** The difference of two arrays: lemmas *)
Lemma diff_sorted_nil_r l : diff_sorted l [] = l.
Proof. by destruct l. Qed.

Lemma diff_sorted_cons x l y r :
  diff_sorted (x :: l) (y :: r) =
    if x <? y then x :: diff_sorted l (y :: r)
    else if y <? x then diff_sorted (x :: l) r
    else diff_sorted l r.
Proof. reflexivity. Qed.

Lemma diff_sorted_sublist l r : diff_sorted l r `sublist_of` l.
Proof.
  revert r; induction l as [|x l IHl]; intros r; [by destruct r|].
  induction r as [|y r IHr]; [done|]. rewrite diff_sorted_cons.
  repeat case_match; [constructor; apply IHl | done | constructor; apply IHl].
Qed.

Lemma StronglySorted_sub (l l' : list Z) :
  l `sublist_of` l' → StronglySorted Z.le l' → StronglySorted Z.le l.
Proof.
  intros Hsub. induction Hsub as [|x l l' Hsub IH|x l l' Hsub IH]; intros Hs; [done| |].
  - apply StronglySorted_inv in Hs as [Hs Hall]. constructor; [by apply IH|].
    rewrite Forall_forall in *. intros y Hy. apply Hall. by eapply elem_of_sublist.
  - apply StronglySorted_inv in Hs as [Hs _]. by apply IH.
Qed.

Lemma count_occ_lt_hd (l : list Z) x y :
  StronglySorted Z.le (y :: l) → x < y → count_occ Z.eq_dec (y :: l) x = 0%nat.
Proof.
  intros Hs Hxy. apply count_occ_not_In. intros Hin.
  apply StronglySorted_inv in Hs as [_ Hall]. destruct Hin as [->|Hin]; [lia|].
  rewrite List.Forall_forall in Hall. specialize (Hall _ Hin). lia.
Qed.

Lemma diff_sorted_count l r x :
  StronglySorted Z.le l → StronglySorted Z.le r →
  count_occ Z.eq_dec (diff_sorted l r) x =
    (count_occ Z.eq_dec l x - count_occ Z.eq_dec r x)%nat.
Proof.
  revert r; induction l as [|a l IHl]; intros r Hl Hr; [by destruct r|].
  induction r as [|b r IHr]; [rewrite diff_sorted_nil_r; simpl; case_match; lia|].
  rewrite diff_sorted_cons.
  assert (Hl' := proj1 (StronglySorted_inv Hl)).
  assert (Hr' := proj1 (StronglySorted_inv Hr)).
  destruct (Z.ltb_spec a b) as [Hab|Hab].
  - cbn [count_occ]. rewrite IHl by done.
    destruct (Z.eq_dec a x) as [->|]; [|done].
    pose proof (count_occ_lt_hd r x b Hr Hab) as Hz. cbn [count_occ] in *. lia.
  - destruct (Z.ltb_spec b a) as [Hba|Hba].
    + rewrite IHr by done. cbn [count_occ].
      destruct (Z.eq_dec b x) as [->|]; [|done].
      pose proof (count_occ_lt_hd l x a Hl Hba) as Hz. cbn [count_occ] in *. lia.
    + assert (a = b) as -> by lia. rewrite IHl by done. cbn [count_occ].
      destruct (Z.eq_dec b x); lia.
Qed.

Lemma count_occ_Permutation (l l' : list Z) x :
  l ≡ₚ l' → count_occ Z.eq_dec l x = count_occ Z.eq_dec l' x.
Proof. intros H. by apply Permutation_count_occ. Qed.

(** The result is sorted and holds every value as often as the first array has
    it more than the second one: a difference of multisets. *)
Theorem GetElements_multiset_difference arr1 arr2 :
  StronglySorted Z.le (GetElementsInArray1NotInArray2 arr1 arr2) ∧
  ∀ x, count_occ Z.eq_dec (GetElementsInArray1NotInArray2 arr1 arr2) x =
       (count_occ Z.eq_dec arr1 x - count_occ Z.eq_dec arr2 x)%nat.
Proof.
  unfold GetElementsInArray1NotInArray2.
  assert (Hs : ∀ l, StronglySorted Z.le (merge_sort Z.le l)).
  { intros l. apply Sorted_StronglySorted; [intros ???; lia|].
    apply Sorted_merge_sort. intros ??; lia. }
  split.
  - eapply StronglySorted_sub; [apply diff_sorted_sublist | apply Hs].
  - intros x. rewrite diff_sorted_count by apply Hs.
    by rewrite !(count_occ_Permutation _ _ x (merge_sort_Permutation Z.le _)).
Qed.

(** ** Tags: lemmas *)

(** A text without white space at its two ends. *)
Definition trimmed (s : string) : bool := String.eqb (TrimSpace s) s.
(** A key that the driver keeps as it is: not empty, no surrounding space, none
    of the forbidden characters, no [=] and no delimiter. *)
Definition good_key (delim : ascii) (k : string) : bool :=
  negb (String.eqb k "") && trimmed k && negb (ContainsAny k "<>%&?\/")
  && negb (has_byte "=" k) && negb (has_byte delim k).
Definition good_value (delim : ascii) (v : string) : bool :=
  trimmed v && negb (has_byte delim v).
Definition tag_text (kv : string * string) : string := kv.1 +:+ String "=" kv.2.
Definition format_tags (delim : ascii) (l : list (string * string)) : string :=
  Join (tag_text <$> l) (String delim "").

Lemma SplitN2_tag k v :
  has_byte "=" k = false → SplitN2 (tag_text (k, v)) TagKeyValueDelimiter = [k; v].
Proof. intros Hk. unfold SplitN2, tag_text, TagKeyValueDelimiter. simpl. by rewrite cut_byte. Qed.

Lemma convert_pieces_tags tags d l m :
  Forall (λ kv, good_key d kv.1 = true ∧ good_value d kv.2 = true) l →
  convert_pieces tags (String d "") (tag_text <$> l) m =
    Ok (foldl (λ m kv, <[kv.1 := kv.2]> m) m l).
Proof.
  intros Hl. revert m; induction Hl as [|[k v] l [Hk Hv] Hl IH]; intros m; [done|].
  unfold good_key, good_value, trimmed in *. simpl in Hk, Hv.
  bool_split. cbn [fmap list_fmap convert_pieces]. rewrite SplitN2_tag by done. cbv zeta.
  repeat match goal with H : TrimSpace _ = _ |- _ => rewrite H; clear H end.
  rewrite (proj2 (String.eqb_neq k "")) by done.
  match goal with H : ContainsAny _ _ = false |- _ => rewrite H end. apply IH.
Qed.

(** Parsing the text of a list of tags gives the map of these tags (a later
    tag overrides an earlier one with the same key), with any one-character
    delimiter other than [=] that the keys and values do not contain. *)
Theorem ConvertTagsToMap_roundtrip (d : ascii) (l : list (string * string)) :
  d ≠ "="%char → l ≠ [] →
  Forall (λ kv, good_key d kv.1 = true ∧ good_value d kv.2 = true) l →
  ConvertTagsToMap (format_tags d l) (String d "") =
    Ok (foldl (λ m kv, <[kv.1 := kv.2]> m) ∅ l).
Proof.
  intros Hd Hne Hl. unfold ConvertTagsToMap, format_tags.
  assert (Hemp : String.eqb (Join (tag_text <$> l) (String d "")) "" = false).
  { destruct l as [|[k v] l]; [done|]. apply String.eqb_neq. simpl.
    assert (Ht : String.length (tag_text (k, v)) ≠ 0%nat)
      by (unfold tag_text; rewrite length_str_app; simpl; lia).
    intros H%(f_equal String.length). cbn [fmap list_fmap] in H.
    destruct (list_fmap _ _ _ _); cbn [Join] in H; rewrite ?length_str_app in H;
      change (String.length "") with 0%nat in H; lia. }
  rewrite Hemp. simpl (String.eqb _ _). cbv zeta.
  rewrite Split_Join.
  - by apply convert_pieces_tags.
  - by destruct l.
  - apply Forall_fmap. eapply Forall_impl; [done|]. intros [k v] [Hk Hv].
    unfold good_key, good_value in *. simpl in *. bool_split.
    unfold tag_text. simpl. rewrite has_byte_app. simpl.
    repeat match goal with H : has_byte d _ = false |- _ => rewrite H; clear H end.
    rewrite orb_false_r. by apply Ascii.eqb_neq.
Qed.

Lemma ConvertTagsToMap_roundtrip_witness :
  ConvertTagsToMap (format_tags "," [("a", "1"); ("b", "x y"); ("a", "2")]) "," =
    Ok (<["a" := "2"]> (<["b" := "x y"]> (<["a" := "1"]> ∅))).
Proof.
  apply (ConvertTagsToMap_roundtrip "," [("a", "1"); ("b", "x y"); ("a", "2")]);
    [discriminate | discriminate | repeat constructor].
Defined.

(** ** Volume locks: lemmas *)
Lemma TryAcquire_spec v vl b vl' :
  TryAcquire v vl = (b, vl') →
  (b = true ↔ v ∉ locks vl) ∧
  locks vl' = (if b then {[v]} ∪ locks vl else locks vl).
Proof. unfold TryAcquire. intros H. case_bool_decide; simplify_eq/=; naive_solver. Qed.

(** What a request acquired it gives back: the set of held locks is as before. *)
Lemma Release_acquired v vl : v ∉ locks vl →
  Release v (TryAcquire v vl).2 = vl.
Proof.
  intros Hv. unfold TryAcquire. rewrite bool_decide_false by done. unfold Release. simpl.
  destruct vl as [l]. f_equal. simpl in *. set_solver.
Qed.
