(* ===== verification/AzureTypes.v ===== *)
(** * The data the driver exchanges with Azure and with Kubernetes

    Records of the Azure compute SDK ([armcompute]), of the cloud provider and
    of the CSI and Kubernetes APIs, with the fields the driver reads or writes.
    A Go pointer field is an [option]; an enumerated string type of the SDK is
    a [string] with its values as constants.  A [set_F] function is the
    assignment to the field [F]. *)
From stdpp Require Import gmap strings list.
From Stdlib Require Import ZArith QArith.
From S2P Require Import Prelude GoStrings GoErr Consts.
Local Open Scope string_scope.

(** ** Values of the enumerated types of the SDK *)
Module armcompute.
Definition DiskStorageAccountTypesPremiumLRS : string := "Premium_LRS".
Definition DiskStorageAccountTypesPremiumV2LRS : string := "PremiumV2_LRS".
Definition DiskStorageAccountTypesPremiumZRS : string := "Premium_ZRS".
Definition DiskStorageAccountTypesStandardLRS : string := "Standard_LRS".
Definition DiskStorageAccountTypesStandardSSDLRS : string := "StandardSSD_LRS".
Definition DiskStorageAccountTypesStandardSSDZRS : string := "StandardSSD_ZRS".
Definition DiskStorageAccountTypesUltraSSDLRS : string := "UltraSSD_LRS".
Definition PossibleDiskStorageAccountTypesValues : list string :=
    [DiskStorageAccountTypesPremiumLRS; DiskStorageAccountTypesPremiumV2LRS;
    DiskStorageAccountTypesPremiumZRS; DiskStorageAccountTypesStandardLRS;
    DiskStorageAccountTypesStandardSSDLRS; DiskStorageAccountTypesStandardSSDZRS;
    DiskStorageAccountTypesUltraSSDLRS].
Definition NetworkAccessPolicyAllowAll : string := "AllowAll".
Definition NetworkAccessPolicyAllowPrivate : string := "AllowPrivate".
Definition NetworkAccessPolicyDenyAll : string := "DenyAll".
Definition PossibleNetworkAccessPolicyValues : list string := [NetworkAccessPolicyAllowAll;
    NetworkAccessPolicyAllowPrivate; NetworkAccessPolicyDenyAll].
Definition PublicNetworkAccessDisabled : string := "Disabled".
Definition PublicNetworkAccessEnabled : string := "Enabled".
Definition PossiblePublicNetworkAccessValues : list string := [PublicNetworkAccessDisabled;
    PublicNetworkAccessEnabled].
Definition EncryptionTypeEncryptionAtRestWithCustomerKey : string := "EncryptionAtRestWithCustomerKey".
Definition EncryptionTypeEncryptionAtRestWithPlatformAndCustomerKeys : string := "EncryptionAtRestWithPlatformAndCustomerKeys".
Definition EncryptionTypeEncryptionAtRestWithPlatformKey : string := "EncryptionAtRestWithPlatformKey".
Definition PossibleEncryptionTypeValues : list string :=
    [EncryptionTypeEncryptionAtRestWithCustomerKey;
    EncryptionTypeEncryptionAtRestWithPlatformAndCustomerKeys;
    EncryptionTypeEncryptionAtRestWithPlatformKey].
Definition DataAccessAuthModeAzureActiveDirectory : string := "AzureActiveDirectory".
Definition DataAccessAuthModeNone : string := "None".
Definition PossibleDataAccessAuthModeValues : list string :=
    [DataAccessAuthModeAzureActiveDirectory; DataAccessAuthModeNone].
Definition CachingTypesNone : string := "None".
Definition CachingTypesReadOnly : string := "ReadOnly".
Definition CachingTypesReadWrite : string := "ReadWrite".
Definition DiskStateUnattached : string := "Unattached".
Definition DiskStateAttached : string := "Attached".
Definition DiskCreateOptionEmpty : string := "Empty".
Definition DiskCreateOptionCopy : string := "Copy".
Definition DiskCreateOptionCopyStart : string := "CopyStart".
End armcompute.

(** ** The Azure compute SDK and the cloud provider *)
(** armcompute.CreationData *)
Record CreationData := MkCreationData {
  CreateOption : option string;
  SourceResourceID : option string;
  cd_LogicalSectorSize : option Z;
  InstantAccessDurationMinutes : option Z;
  cd_PerformancePlus : option bool;
}.

(** armcompute.Encryption *)
Record Encryption := MkEncryption {
  enc_DiskEncryptionSetID : option string;
  enc_Type : option string;
}.

(** armcompute.DiskProperties *)
Record DiskProperties := MkDiskProperties {
  DiskSizeGB : option Z;
  p_MaxShares : option Z;
  p_Encryption : option Encryption;
  DiskState : option string;
  p_NetworkAccessPolicy : option string;
  p_PublicNetworkAccess : option string;
  p_DiskAccessID : option string;
  p_DiskIOPSReadWrite : option Z;
  p_DiskMBpsReadWrite : option Z;
  p_CreationData : option CreationData;
  BurstingEnabled : option bool;
  ProvisioningState : option string;
  CompletionPercent : option Q;
  HyperVGeneration : option string;
}.

(** armcompute.Disk; the inner option of [disk_SKU] is [SKU.Name] *)
Record Disk := MkDisk {
  disk_ID : option string;
  disk_Name : option string;
  disk_Location : option string;
  ManagedBy : option string;
  disk_Properties : option DiskProperties;
  disk_SKU : option (option string);
  disk_Tags : gmap string (option string);
  Zones : list (option string);
  disk_ExtendedLocation : option (string * string);
}.

(** armcompute.SnapshotProperties *)
Record SnapshotProperties := MkSnapshotProperties {
  sp_TimeCreated : option Z;
  sp_DiskSizeGB : option Z;
  sp_DiskSizeBytes : option Z;
  sp_ProvisioningState : option string;
  sp_CompletionPercent : option Q;
  sp_CreationData : option CreationData;
  sp_Incremental : option bool;
  sp_DataAccessAuthMode : option string;
  sp_NetworkAccessPolicy : option string;
  sp_PublicNetworkAccess : option string;
}.

(** armcompute.Snapshot *)
Record Snapshot := MkSnapshot {
  snap_ID : option string;
  snap_Name : option string;
  snap_Location : option string;
  snap_Properties : option SnapshotProperties;
  snap_SKU : option (option string);
  snap_Tags : gmap string (option string);
  snap_ExtendedLocation : option (string * string);
}.

(** armcompute.DataDisk; the inner option of [Vhd] is [Vhd.URI], that of [dd_ManagedDisk] is [ManagedDisk.ID] *)
Record DataDisk := MkDataDisk {
  Lun : option Z;
  dd_Name : option string;
  Vhd : option (option string);
  dd_ManagedDisk : option (option string);
  ToBeDetached : option bool;
}.

(** provider.AttachDiskOptions *)
Record AttachDiskOptions := MkAttachDiskOptions {
  opt_CachingMode : string;
  opt_DiskName : string;
  opt_DiskEncryptionSetID : string;
  opt_WriteAcceleratorEnabled : bool;
  opt_Lun : Z;
}.

(** armcompute.DiskUpdateProperties *)
Record DiskUpdateProperties := MkDiskUpdateProperties {
  u_DiskIOPSReadWrite : option Z;
  u_DiskMBpsReadWrite : option Z;
  u_DiskSizeGB : option Z;
}.

(** armcompute.DiskUpdate *)
Record DiskUpdate := MkDiskUpdate {
  upd_SKU : option (option string);
  upd_Properties : option DiskUpdateProperties;
}.

Definition set_CreateOption (v : option string) (r : CreationData) : CreationData :=
  MkCreationData v (SourceResourceID r) (cd_LogicalSectorSize r) (InstantAccessDurationMinutes r)
    (cd_PerformancePlus r).
Definition set_SourceResourceID (v : option string) (r : CreationData) : CreationData :=
  MkCreationData (CreateOption r) v (cd_LogicalSectorSize r) (InstantAccessDurationMinutes r)
    (cd_PerformancePlus r).
Definition set_cd_LogicalSectorSize (v : option Z) (r : CreationData) : CreationData :=
  MkCreationData (CreateOption r) (SourceResourceID r) v (InstantAccessDurationMinutes r)
    (cd_PerformancePlus r).
Definition set_InstantAccessDurationMinutes (v : option Z) (r : CreationData) : CreationData :=
  MkCreationData (CreateOption r) (SourceResourceID r) (cd_LogicalSectorSize r) v
    (cd_PerformancePlus r).
Definition set_cd_PerformancePlus (v : option bool) (r : CreationData) : CreationData :=
  MkCreationData (CreateOption r) (SourceResourceID r) (cd_LogicalSectorSize r)
    (InstantAccessDurationMinutes r) v.

Definition set_DiskSizeGB (v : option Z) (r : DiskProperties) : DiskProperties :=
  MkDiskProperties v (p_MaxShares r) (p_Encryption r) (DiskState r) (p_NetworkAccessPolicy r)
    (p_PublicNetworkAccess r) (p_DiskAccessID r) (p_DiskIOPSReadWrite r) (p_DiskMBpsReadWrite r)
    (p_CreationData r) (BurstingEnabled r) (ProvisioningState r) (CompletionPercent r)
    (HyperVGeneration r).
Definition set_p_MaxShares (v : option Z) (r : DiskProperties) : DiskProperties :=
  MkDiskProperties (DiskSizeGB r) v (p_Encryption r) (DiskState r) (p_NetworkAccessPolicy r)
    (p_PublicNetworkAccess r) (p_DiskAccessID r) (p_DiskIOPSReadWrite r) (p_DiskMBpsReadWrite r)
    (p_CreationData r) (BurstingEnabled r) (ProvisioningState r) (CompletionPercent r)
    (HyperVGeneration r).
Definition set_p_Encryption (v : option Encryption) (r : DiskProperties) : DiskProperties :=
  MkDiskProperties (DiskSizeGB r) (p_MaxShares r) v (DiskState r) (p_NetworkAccessPolicy r)
    (p_PublicNetworkAccess r) (p_DiskAccessID r) (p_DiskIOPSReadWrite r) (p_DiskMBpsReadWrite r)
    (p_CreationData r) (BurstingEnabled r) (ProvisioningState r) (CompletionPercent r)
    (HyperVGeneration r).
Definition set_DiskState (v : option string) (r : DiskProperties) : DiskProperties :=
  MkDiskProperties (DiskSizeGB r) (p_MaxShares r) (p_Encryption r) v (p_NetworkAccessPolicy r)
    (p_PublicNetworkAccess r) (p_DiskAccessID r) (p_DiskIOPSReadWrite r) (p_DiskMBpsReadWrite r)
    (p_CreationData r) (BurstingEnabled r) (ProvisioningState r) (CompletionPercent r)
    (HyperVGeneration r).
Definition set_p_NetworkAccessPolicy (v : option string) (r : DiskProperties) : DiskProperties :=
  MkDiskProperties (DiskSizeGB r) (p_MaxShares r) (p_Encryption r) (DiskState r) v
    (p_PublicNetworkAccess r) (p_DiskAccessID r) (p_DiskIOPSReadWrite r) (p_DiskMBpsReadWrite r)
    (p_CreationData r) (BurstingEnabled r) (ProvisioningState r) (CompletionPercent r)
    (HyperVGeneration r).
Definition set_p_PublicNetworkAccess (v : option string) (r : DiskProperties) : DiskProperties :=
  MkDiskProperties (DiskSizeGB r) (p_MaxShares r) (p_Encryption r) (DiskState r)
    (p_NetworkAccessPolicy r) v (p_DiskAccessID r) (p_DiskIOPSReadWrite r) (p_DiskMBpsReadWrite r)
    (p_CreationData r) (BurstingEnabled r) (ProvisioningState r) (CompletionPercent r)
    (HyperVGeneration r).
Definition set_p_DiskAccessID (v : option string) (r : DiskProperties) : DiskProperties :=
  MkDiskProperties (DiskSizeGB r) (p_MaxShares r) (p_Encryption r) (DiskState r)
    (p_NetworkAccessPolicy r) (p_PublicNetworkAccess r) v (p_DiskIOPSReadWrite r)
    (p_DiskMBpsReadWrite r) (p_CreationData r) (BurstingEnabled r) (ProvisioningState r)
    (CompletionPercent r) (HyperVGeneration r).
Definition set_p_DiskIOPSReadWrite (v : option Z) (r : DiskProperties) : DiskProperties :=
  MkDiskProperties (DiskSizeGB r) (p_MaxShares r) (p_Encryption r) (DiskState r)
    (p_NetworkAccessPolicy r) (p_PublicNetworkAccess r) (p_DiskAccessID r) v (p_DiskMBpsReadWrite r)
    (p_CreationData r) (BurstingEnabled r) (ProvisioningState r) (CompletionPercent r)
    (HyperVGeneration r).
Definition set_p_DiskMBpsReadWrite (v : option Z) (r : DiskProperties) : DiskProperties :=
  MkDiskProperties (DiskSizeGB r) (p_MaxShares r) (p_Encryption r) (DiskState r)
    (p_NetworkAccessPolicy r) (p_PublicNetworkAccess r) (p_DiskAccessID r) (p_DiskIOPSReadWrite r) v
    (p_CreationData r) (BurstingEnabled r) (ProvisioningState r) (CompletionPercent r)
    (HyperVGeneration r).
Definition set_p_CreationData (v : option CreationData) (r : DiskProperties) : DiskProperties :=
  MkDiskProperties (DiskSizeGB r) (p_MaxShares r) (p_Encryption r) (DiskState r)
    (p_NetworkAccessPolicy r) (p_PublicNetworkAccess r) (p_DiskAccessID r) (p_DiskIOPSReadWrite r)
    (p_DiskMBpsReadWrite r) v (BurstingEnabled r) (ProvisioningState r) (CompletionPercent r)
    (HyperVGeneration r).
Definition set_BurstingEnabled (v : option bool) (r : DiskProperties) : DiskProperties :=
  MkDiskProperties (DiskSizeGB r) (p_MaxShares r) (p_Encryption r) (DiskState r)
    (p_NetworkAccessPolicy r) (p_PublicNetworkAccess r) (p_DiskAccessID r) (p_DiskIOPSReadWrite r)
    (p_DiskMBpsReadWrite r) (p_CreationData r) v (ProvisioningState r) (CompletionPercent r)
    (HyperVGeneration r).
Definition set_ProvisioningState (v : option string) (r : DiskProperties) : DiskProperties :=
  MkDiskProperties (DiskSizeGB r) (p_MaxShares r) (p_Encryption r) (DiskState r)
    (p_NetworkAccessPolicy r) (p_PublicNetworkAccess r) (p_DiskAccessID r) (p_DiskIOPSReadWrite r)
    (p_DiskMBpsReadWrite r) (p_CreationData r) (BurstingEnabled r) v (CompletionPercent r)
    (HyperVGeneration r).
Definition set_CompletionPercent (v : option Q) (r : DiskProperties) : DiskProperties :=
  MkDiskProperties (DiskSizeGB r) (p_MaxShares r) (p_Encryption r) (DiskState r)
    (p_NetworkAccessPolicy r) (p_PublicNetworkAccess r) (p_DiskAccessID r) (p_DiskIOPSReadWrite r)
    (p_DiskMBpsReadWrite r) (p_CreationData r) (BurstingEnabled r) (ProvisioningState r) v
    (HyperVGeneration r).
Definition set_HyperVGeneration (v : option string) (r : DiskProperties) : DiskProperties :=
  MkDiskProperties (DiskSizeGB r) (p_MaxShares r) (p_Encryption r) (DiskState r)
    (p_NetworkAccessPolicy r) (p_PublicNetworkAccess r) (p_DiskAccessID r) (p_DiskIOPSReadWrite r)
    (p_DiskMBpsReadWrite r) (p_CreationData r) (BurstingEnabled r) (ProvisioningState r)
    (CompletionPercent r) v.

Definition set_sp_TimeCreated (v : option Z) (r : SnapshotProperties) : SnapshotProperties :=
  MkSnapshotProperties v (sp_DiskSizeGB r) (sp_DiskSizeBytes r) (sp_ProvisioningState r)
    (sp_CompletionPercent r) (sp_CreationData r) (sp_Incremental r) (sp_DataAccessAuthMode r)
    (sp_NetworkAccessPolicy r) (sp_PublicNetworkAccess r).
Definition set_sp_DiskSizeGB (v : option Z) (r : SnapshotProperties) : SnapshotProperties :=
  MkSnapshotProperties (sp_TimeCreated r) v (sp_DiskSizeBytes r) (sp_ProvisioningState r)
    (sp_CompletionPercent r) (sp_CreationData r) (sp_Incremental r) (sp_DataAccessAuthMode r)
    (sp_NetworkAccessPolicy r) (sp_PublicNetworkAccess r).
Definition set_sp_DiskSizeBytes (v : option Z) (r : SnapshotProperties) : SnapshotProperties :=
  MkSnapshotProperties (sp_TimeCreated r) (sp_DiskSizeGB r) v (sp_ProvisioningState r)
    (sp_CompletionPercent r) (sp_CreationData r) (sp_Incremental r) (sp_DataAccessAuthMode r)
    (sp_NetworkAccessPolicy r) (sp_PublicNetworkAccess r).
Definition set_sp_ProvisioningState (v : option string) (r : SnapshotProperties) :
    SnapshotProperties :=
  MkSnapshotProperties (sp_TimeCreated r) (sp_DiskSizeGB r) (sp_DiskSizeBytes r) v
    (sp_CompletionPercent r) (sp_CreationData r) (sp_Incremental r) (sp_DataAccessAuthMode r)
    (sp_NetworkAccessPolicy r) (sp_PublicNetworkAccess r).
Definition set_sp_CompletionPercent (v : option Q) (r : SnapshotProperties) : SnapshotProperties :=
  MkSnapshotProperties (sp_TimeCreated r) (sp_DiskSizeGB r) (sp_DiskSizeBytes r)
    (sp_ProvisioningState r) v (sp_CreationData r) (sp_Incremental r) (sp_DataAccessAuthMode r)
    (sp_NetworkAccessPolicy r) (sp_PublicNetworkAccess r).
Definition set_sp_CreationData (v : option CreationData) (r : SnapshotProperties) :
    SnapshotProperties :=
  MkSnapshotProperties (sp_TimeCreated r) (sp_DiskSizeGB r) (sp_DiskSizeBytes r)
    (sp_ProvisioningState r) (sp_CompletionPercent r) v (sp_Incremental r) (sp_DataAccessAuthMode r)
    (sp_NetworkAccessPolicy r) (sp_PublicNetworkAccess r).
Definition set_sp_Incremental (v : option bool) (r : SnapshotProperties) : SnapshotProperties :=
  MkSnapshotProperties (sp_TimeCreated r) (sp_DiskSizeGB r) (sp_DiskSizeBytes r)
    (sp_ProvisioningState r) (sp_CompletionPercent r) (sp_CreationData r) v (sp_DataAccessAuthMode
    r) (sp_NetworkAccessPolicy r) (sp_PublicNetworkAccess r).
Definition set_sp_DataAccessAuthMode (v : option string) (r : SnapshotProperties) :
    SnapshotProperties :=
  MkSnapshotProperties (sp_TimeCreated r) (sp_DiskSizeGB r) (sp_DiskSizeBytes r)
    (sp_ProvisioningState r) (sp_CompletionPercent r) (sp_CreationData r) (sp_Incremental r) v
    (sp_NetworkAccessPolicy r) (sp_PublicNetworkAccess r).
Definition set_sp_NetworkAccessPolicy (v : option string) (r : SnapshotProperties) :
    SnapshotProperties :=
  MkSnapshotProperties (sp_TimeCreated r) (sp_DiskSizeGB r) (sp_DiskSizeBytes r)
    (sp_ProvisioningState r) (sp_CompletionPercent r) (sp_CreationData r) (sp_Incremental r)
    (sp_DataAccessAuthMode r) v (sp_PublicNetworkAccess r).
Definition set_sp_PublicNetworkAccess (v : option string) (r : SnapshotProperties) :
    SnapshotProperties :=
  MkSnapshotProperties (sp_TimeCreated r) (sp_DiskSizeGB r) (sp_DiskSizeBytes r)
    (sp_ProvisioningState r) (sp_CompletionPercent r) (sp_CreationData r) (sp_Incremental r)
    (sp_DataAccessAuthMode r) (sp_NetworkAccessPolicy r) v.

Definition set_snap_ID (v : option string) (r : Snapshot) : Snapshot :=
  MkSnapshot v (snap_Name r) (snap_Location r) (snap_Properties r) (snap_SKU r) (snap_Tags r)
    (snap_ExtendedLocation r).
Definition set_snap_Name (v : option string) (r : Snapshot) : Snapshot :=
  MkSnapshot (snap_ID r) v (snap_Location r) (snap_Properties r) (snap_SKU r) (snap_Tags r)
    (snap_ExtendedLocation r).
Definition set_snap_Location (v : option string) (r : Snapshot) : Snapshot :=
  MkSnapshot (snap_ID r) (snap_Name r) v (snap_Properties r) (snap_SKU r) (snap_Tags r)
    (snap_ExtendedLocation r).
Definition set_snap_Properties (v : option SnapshotProperties) (r : Snapshot) : Snapshot :=
  MkSnapshot (snap_ID r) (snap_Name r) (snap_Location r) v (snap_SKU r) (snap_Tags r)
    (snap_ExtendedLocation r).
Definition set_snap_SKU (v : option (option string)) (r : Snapshot) : Snapshot :=
  MkSnapshot (snap_ID r) (snap_Name r) (snap_Location r) (snap_Properties r) v (snap_Tags r)
    (snap_ExtendedLocation r).
Definition set_snap_Tags (v : gmap string (option string)) (r : Snapshot) : Snapshot :=
  MkSnapshot (snap_ID r) (snap_Name r) (snap_Location r) (snap_Properties r) (snap_SKU r) v
    (snap_ExtendedLocation r).
Definition set_snap_ExtendedLocation (v : option (string * string)) (r : Snapshot) : Snapshot :=
  MkSnapshot (snap_ID r) (snap_Name r) (snap_Location r) (snap_Properties r) (snap_SKU r) (snap_Tags
    r) v.

Definition set_opt_CachingMode (v : string) (r : AttachDiskOptions) : AttachDiskOptions :=
  MkAttachDiskOptions v (opt_DiskName r) (opt_DiskEncryptionSetID r) (opt_WriteAcceleratorEnabled r)
    (opt_Lun r).
Definition set_opt_DiskName (v : string) (r : AttachDiskOptions) : AttachDiskOptions :=
  MkAttachDiskOptions (opt_CachingMode r) v (opt_DiskEncryptionSetID r) (opt_WriteAcceleratorEnabled
    r) (opt_Lun r).
Definition set_opt_DiskEncryptionSetID (v : string) (r : AttachDiskOptions) : AttachDiskOptions :=
  MkAttachDiskOptions (opt_CachingMode r) (opt_DiskName r) v (opt_WriteAcceleratorEnabled r)
    (opt_Lun r).
Definition set_opt_WriteAcceleratorEnabled (v : bool) (r : AttachDiskOptions) : AttachDiskOptions :=
  MkAttachDiskOptions (opt_CachingMode r) (opt_DiskName r) (opt_DiskEncryptionSetID r) v (opt_Lun
    r).
Definition set_opt_Lun (v : Z) (r : AttachDiskOptions) : AttachDiskOptions :=
  MkAttachDiskOptions (opt_CachingMode r) (opt_DiskName r) (opt_DiskEncryptionSetID r)
    (opt_WriteAcceleratorEnabled r) v.

Definition empty_CreationData : CreationData := MkCreationData None None None None None.
Definition empty_DiskProperties : DiskProperties :=
  MkDiskProperties None None None None None None None None None None None None None None.

(** ** CSI requests *)
(** csi.VolumeCapability_AccessMode_Mode *)
Inductive AccessMode :=
| UNKNOWN | SINGLE_NODE_WRITER | SINGLE_NODE_READER_ONLY
| MULTI_NODE_READER_ONLY | MULTI_NODE_SINGLE_WRITER | MULTI_NODE_MULTI_WRITER
| SINGLE_NODE_SINGLE_WRITER | SINGLE_NODE_MULTI_WRITER.
#[export] Instance AccessMode_eq_dec : EqDecision AccessMode.
Proof. solve_decision. Defined.
Definition AccessMode_String (m : AccessMode) : string :=
  match m with
  | UNKNOWN => "UNKNOWN" | SINGLE_NODE_WRITER => "SINGLE_NODE_WRITER"
  | SINGLE_NODE_READER_ONLY => "SINGLE_NODE_READER_ONLY"
  | MULTI_NODE_READER_ONLY => "MULTI_NODE_READER_ONLY"
  | MULTI_NODE_SINGLE_WRITER => "MULTI_NODE_SINGLE_WRITER"
  | MULTI_NODE_MULTI_WRITER => "MULTI_NODE_MULTI_WRITER"
  | SINGLE_NODE_SINGLE_WRITER => "SINGLE_NODE_SINGLE_WRITER"
  | SINGLE_NODE_MULTI_WRITER => "SINGLE_NODE_MULTI_WRITER"
  end.
Record MountVolume := MkMountVolume { fs_type : string; mount_flags : list string }.
(** The [oneof access_type] of a capability. *)
Inductive AccessType := ABlock | AMount (m : MountVolume).
Record VolumeCapability := MkVolumeCapability {
  access_type : option AccessType;
  access_mode : option AccessMode;
}.
Definition GetBlock (c : VolumeCapability) : option unit :=
  match access_type c with Some ABlock => Some () | _ => None end.
Definition GetMount (c : VolumeCapability) : option MountVolume :=
  match access_type c with Some (AMount m) => Some m | _ => None end.
(** [c.GetAccessMode().GetMode()]: the getters accept nil. *)
Definition GetMode (c : VolumeCapability) : AccessMode :=
  match access_mode c with Some m => m | None => UNKNOWN end.

(** csi.TopologyRequirement: the segments of each topology. *)
Record TopologyRequirement := MkTopologyRequirement {
  preferred : list (gmap string string);
  requisite : list (gmap string string);
}.
(** csi.Snapshot *)
Record csiSnapshot := MkcsiSnapshot {
  SizeBytes : Z;
  SnapshotId : string;
  SourceVolumeId : string;
  CreationTime : Z;
  ReadyToUse : bool;
}.
Definition set_SnapshotId (v : string) (s : csiSnapshot) : csiSnapshot :=
  MkcsiSnapshot (SizeBytes s) v (SourceVolumeId s) (CreationTime s) (ReadyToUse s).
