(* ===== verification/Optimization.v ===== *)
(** * Disk performance tuning: [pkg/optimization]

    Which attributes select a profile, which device settings are accepted, and
    the choice of the smallest SKU that serves a request.  [path/filepath]'s
    lexical functions are modelled on the path's components; reading symbolic
    links and writing the settings are operations on an abstract device state
    ([DeviceIO]).  The tuning formulas are computed in [float64], as the code
    does. *)
From stdpp Require Import gmap strings list.
From Stdlib Require Import ZArith Lia Ascii.
From S2P Require Import Prelude GoStrings GoFloat GoErr Consts.
Local Open Scope Z_scope.
Local Open Scope string_scope.

(** ** [path/filepath] *)
(** The loop of [Clean] over the components, with the output reversed. *)
Fixpoint clean_comps (rooted : bool) (l : list string) (out : list string) : list string :=
  match l with
  | [] => reverse out
  | c :: l' =>
      if String.eqb c "" || String.eqb c "." then clean_comps rooted l' out
      else if String.eqb c ".." then
        match out with
        | t :: out' => if String.eqb t ".." then clean_comps rooted l' (c :: out)
                       else clean_comps rooted l' out'
        | [] => if rooted then clean_comps rooted l' [] else clean_comps rooted l' [c]
        end
      else clean_comps rooted l' (c :: out)
  end.
Definition filepath_Clean (path : string) : string :=
  let rooted := HasPrefix path "/" in
  let body := Join (clean_comps rooted (Split path "/") []) "/" in
  if rooted then String "/" body else if String.eqb body "" then "." else body.
Definition filepath_Join (elem : list string) : string :=
  match filter (λ e, e ≠ "") elem with
  | [] => ""
  | l => filepath_Clean (Join l "/")
  end.
Definition filepath_Base (path : string) : string :=
  if String.eqb path "" then "."
  else match last (filter (λ e, e ≠ "") (Split path "/")) with
       | Some b => b
       | None => "/"
       end.

(** ** Profiles and settings: [device_perf_helper.go] *)
(** [optimization/device_perf_helper.go isPerfTuningEnabled] *)
Definition isPerfTuningEnabled (profile : string) : bool :=
  let p := ToLower profile in
  String.eqb p consts.PerfProfileBasic || String.eqb p consts.PerfProfileAdvanced.
(** [optimization/device_perf_helper.go IsValidPerfProfile] *)
Definition IsValidPerfProfile (profile : string) : bool :=
  isPerfTuningEnabled profile || EqualFold profile consts.PerfProfileNone.
(** [optimization/device_perf_helper.go accountSupportsPerfOptimization] *)
Definition accountSupportsPerfOptimization (accountType : string) : bool :=
  let a := ToLower accountType in HasPrefix a "premium" || HasPrefix a "standardssd".
(** [optimization/device_perf_linux.go DiskSupportsPerfOptimization] *)
Definition DiskSupportsPerfOptimization (diskPerfProfile diskAccountType : string) : bool :=
  isPerfTuningEnabled diskPerfProfile && accountSupportsPerfOptimization diskAccountType.
(** [optimization/device_perf_helper.go GetDeviceSettingFromAttribute] *)
Definition GetDeviceSettingFromAttribute (key : string) : res string :=
  if HasPrefix key consts.DeviceSettingsKeyPrefix
  then Ok (TrimPrefix key consts.DeviceSettingsKeyPrefix)
  else Err (ENew ("GetDeviceSettingFromAttribute: " +:+ key
                  +:+ " is not a valid device setting override")).

Record PerfAttributes := MkPerfAttributes {
  pa_profile : string;
  pa_accountType : string;
  pa_diskSizeGibStr : string;
  pa_diskIopsStr : string;
  pa_diskBwMbpsStr : string;
  pa_deviceSettings : gmap string string;
  pa_perfProfilePresent : bool;
}.

(** The body of the loop over the attributes. *)
Definition perf_attribute (a : PerfAttributes) (kv : string * string) : PerfAttributes :=
  let '(k, v) := kv in
  let '(MkPerfAttributes pr ac sz io bw ds pp) := a in
  let key := ToLower k in
  if String.eqb key consts.PerfProfileField then MkPerfAttributes v ac sz io bw ds true
  else if String.eqb key consts.SkuNameField then MkPerfAttributes pr v sz io bw ds pp
  else if String.eqb key consts.RequestedSizeGib then MkPerfAttributes pr ac v io bw ds pp
  else if String.eqb key consts.DiskIOPSReadWriteField
  then MkPerfAttributes pr ac sz v bw ds pp
  else if String.eqb key consts.DiskMBPSReadWriteField
  then MkPerfAttributes pr ac sz io v ds pp
  else match GetDeviceSettingFromAttribute key with
       | Ok setting => MkPerfAttributes pr ac sz io bw (<[setting := v]> ds) pp
       | _ => a
       end.
(** [optimization/device_perf_helper.go GetDiskPerfAttributes] *)
Definition GetDiskPerfAttributes `{MapOrder} (attributes : gmap string string)
  : res PerfAttributes :=
  let a := foldl perf_attribute (MkPerfAttributes "" "" "" "" "" ∅ false)
                 (map_order attributes) in
  if pa_perfProfilePresent a then
    if IsValidPerfProfile (pa_profile a) then Ok a
    else Err (ENew ("Perf profile " +:+ pa_profile a +:+ " is invalid"))
  else
    let '(MkPerfAttributes _ ac sz io bw ds pp) := a in
    Ok (MkPerfAttributes consts.PerfProfileNone ac sz io bw ds pp).

(** [filepath.Abs] with the process's working directory. *)
Definition filepath_Abs (cwd path : string) : string :=
  if HasPrefix path "/" then filepath_Clean path else filepath_Join [cwd; path].

(** The loop of [AreDeviceSettingsValid]. *)
Fixpoint settings_under (cwd deviceRoot : string) (l : list (string * string)) : res unit :=
  match l with
  | [] => Ok ()
  | (setting, _) :: l' =>
      if HasPrefix (filepath_Abs cwd setting) (filepath_Clean deviceRoot +:+ "/")
      then settings_under cwd deviceRoot l'
      else Err (ENew ("AreDeviceSettingsValid: Setting " +:+ setting
                      +:+ " is not a valid file path under " +:+ deviceRoot))
  end.
(** [optimization/device_perf_helper.go AreDeviceSettingsValid] [filepath.Abs]
    fails only when the working directory cannot be read; [cwd] is given. *)
Definition AreDeviceSettingsValid `{MapOrder} (cwd deviceRoot : string)
    (deviceSettings : gmap string string) : res unit :=
  if bool_decide (size deviceSettings = 0%nat)
  then Err (ENew "AreDeviceSettingsValid: No deviceSettings passed")
  else settings_under cwd deviceRoot (map_order deviceSettings).

(** ** The choice of a SKU: [device_perf_linux.go] *)
(** [optimization/skus.go NodeInfo] *)
Record NodeInfo := MkNodeInfo {
  ni_SkuName : string;
  ni_MaxDataDiskCount : Z;
  ni_VCpus : Z;
  ni_MaxBurstIops : Z;
  ni_MaxIops : Z;
  ni_MaxBwMbps : Z;
  ni_MaxBurstBwMbps : Z;
}.
(** [optimization/skus.go DiskSkuInfo] *)
Record DiskSkuInfo := MkDiskSkuInfo {
  StorageAccountType : string;
  StorageTier : string;
  DiskSize : string;
  MaxAllowedShares : Z;
  MaxBurstIops : Z;
  MaxIops : Z;
  MaxBwMbps : Z;
  MaxBurstBwMbps : Z;
  MaxSizeGiB : Z;
}.
(** [optimization/device_perf_linux.go meetsRequest] *)
Definition meetsRequest (sku : option DiskSkuInfo) (diskSizeGb diskIops diskBwMbps : Z) : bool :=
  match sku with
  | None => false
  | Some s => (diskSizeGb <=? MaxSizeGiB s)%Z && (diskBwMbps <=? MaxBwMbps s)%Z
              && (diskIops <=? MaxIops s)%Z
  end.
(** The body of the loop over the SKUs of the account. *)
Definition better_sku (size iops bw : Z) (best : option DiskSkuInfo) (e : string * DiskSkuInfo)
  : option DiskSkuInfo :=
  let sku := e.2 in
  if meetsRequest (Some sku) size iops bw then
    match best with
    | None => Some sku
    | Some b => if (MaxSizeGiB sku <? MaxSizeGiB b)%Z then Some sku else best
    end
  else best.
(** [optimization/device_perf_linux.go getMatchingDiskSku] *)
Definition getMatchingDiskSku `{MapOrder} (diskSkus : gmap string (gmap string DiskSkuInfo))
    (accountType diskSizeGibStr diskIopsStr diskBwMbpsStr : string) : res (option DiskSkuInfo) :=
  let skus := default ∅ (diskSkus !! ToLower accountType) in
  if bool_decide (size skus = 0%nat)
  then Err (ENew ("could not find sku for account " +:+ accountType +:+ ". Error: sku not found"))
  else match Atoi diskSizeGibStr with
       | None => Err (ENew ("could not parse disk size " +:+ diskSizeGibStr
                            +:+ ". Error: incorrect sku size"))
       | Some diskSizeGb =>
           let diskIops := default 0%Z (Atoi diskIopsStr) in
           let diskBwMbps := default 0%Z (Atoi diskBwMbpsStr) in
           Ok (foldl (better_sku diskSizeGb diskIops diskBwMbps) None (map_order skus))
       end.

(** ** The tuning formulas *)
(** [optimization/skus.go GetRandomIOLatencyInSec] *)
Definition GetRandomIOLatencyInSec (sku : DiskSkuInfo) : float64 :=
  if (MaxSizeGiB sku <=? 4096)%Z then f_const 22 10000
  else if (MaxSizeGiB sku <=? 8192)%Z then f_const 28 10000
  else if (MaxSizeGiB sku <=? 16384)%Z then f_const 34 10000
  else f_const 4 1000.
(** [optimization/skus.go GetSequentialOLatencyInSec] *)
Definition GetSequentialOLatencyInSec (sku : DiskSkuInfo) : float64 :=
  if (MaxSizeGiB sku <=? 4096)%Z then f_const 33 10000
  else if (MaxSizeGiB sku <=? 8192)%Z then f_const 41 10000
  else if (MaxSizeGiB sku <=? 16384)%Z then f_const 46 10000
  else f_const 52 10000.

(** What [getOptimalDeviceSettings] returns, in its order. *)
Record Tuning := MkTuning {
  queueDepth : string; nrRequests : string; scheduler : string;
  maxSectorsKb : string; readAheadKb : string;
}.
(** [optimization/device_perf_linux.go getOptimalDeviceSettings 164-228] The
    arithmetic for a SKU.  Go may fuse a product and a sum into one rounding; the
    only such product is by a power of two, hence exact. *)
Definition tune (nodeInfo : NodeInfo) (diskSku : DiskSkuInfo) : Tuning :=
  let iopsHeadRoom := f_const 1 4 in
  let maxHwSectorsKb := of_int 512 in
  let diskIopsFloat := of_int (MaxBurstIops diskSku) in
  let maxBurstIops := math_Min diskIopsFloat (of_int (ni_MaxBurstIops nodeInfo)) in
  let maxBurstIops := if f_le maxBurstIops (of_int 0) then diskIopsFloat else maxBurstIops in
  let diskBwFloat := of_int (MaxBurstBwMbps diskSku) in
  let maxBurstBw := f_mul (math_Min diskBwFloat (of_int (ni_MaxBurstBwMbps nodeInfo))) (of_int 1000) in
  let maxBurstBw := if f_le maxBurstBw (of_int 0) then diskBwFloat else maxBurstBw in
  let iopsSeqIo := f_mul maxBurstIops (f_sub (of_int 1) iopsHeadRoom) in
  let rsMinSeqIo := math_Ceil (math_Min maxHwSectorsKb (f_div maxBurstBw iopsSeqIo)) in
  let latencyPerIoToGetMaxBwInSec := GetSequentialOLatencyInSec diskSku in
  let latencyForSmallRandOperationInSec := GetRandomIOLatencyInSec diskSku in
  let qdMaxSeqBw := math_Ceil (f_div (f_mul maxBurstBw latencyPerIoToGetMaxBwInSec) rsMinSeqIo) in
  let qdMaxRandomIops := math_Ceil (f_mul maxBurstIops latencyForSmallRandOperationInSec) in
  let qdTotal := Sprintf_g (math_Ceil (math_Max (f_add (f_mul qdMaxRandomIops iopsHeadRoom) qdMaxSeqBw)
                                                qdMaxRandomIops)) in
  MkTuning qdTotal qdTotal "mq-deadline" (Sprintf_g rsMinSeqIo)
           (Sprintf_g (math_Ceil (f_mul qdMaxSeqBw rsMinSeqIo))).
(** [optimization/device_perf_linux.go getOptimalDeviceSettings] *)
Definition getOptimalDeviceSettings `{MapOrder} (nodeInfo : NodeInfo)
    (diskSkus : gmap string (gmap string DiskSkuInfo))
    (accountType diskSizeGibStr diskIopsStr diskBwMbpsStr : string) : res Tuning :=
  let notfound := ENew ("could not find sku for account " +:+ accountType +:+ " size "
                        +:+ diskSizeGibStr +:+ ". Error: sku not found") in
  match getMatchingDiskSku diskSkus accountType diskSizeGibStr diskIopsStr diskBwMbpsStr with
  | Ok (Some diskSku) => Ok (tune nodeInfo diskSku)
  | Ok None | Err _ => Err notfound
  | Panic => Panic
  end.

(** ** Applying the settings *)
(** The device files, as far as the optimiser uses them. *)
Class DeviceIO (W : Type) := {
  EvalSymlinks : string → M W string;
  (** [echoToFile content filePath] *)
  echoToFile : string → string → M W unit;
  getwd : string;
}.

Section optimizer.
  Context {W : Type} `{!DeviceIO W} `{MapOrder}.
  Context (DiskSkuMap : gmap string (gmap string DiskSkuInfo)).

  (** [optimization/device_perf_linux.go getDeviceSettingsForBasicProfile] *)
Definition getDeviceSettingsForBasicProfile (nodeInfo : NodeInfo)
    (deviceRoot perfProfile accountType diskSizeGibStr diskIopsStr diskBwMbpsStr : string)
    : res (gmap string string) :=
  match getOptimalDeviceSettings nodeInfo DiskSkuMap accountType diskSizeGibStr diskIopsStr
          diskBwMbpsStr with
  | Ok t =>
      Ok (<[filepath_Join [deviceRoot; "queue/read_ahead_kb"] := "8"]>
          (<[filepath_Join [deviceRoot; "queue/nr_requests"] := nrRequests t]>
          (<[filepath_Join [deviceRoot; "device/queue_depth"] := queueDepth t]>
          (<[filepath_Join [deviceRoot; "queue/scheduler"] := scheduler t]>
          (<[filepath_Join [deviceRoot; "queue/max_sectors_kb"] := maxSectorsKb t]> ∅)))))
  | Err e => Err (ENew ("getDeviceSettingsForBasicProfile: Failed to get optimal settings for profile "
                        +:+ perfProfile +:+ " accountType " +:+ accountType
                        +:+ ". Error: " +:+ Error e))
  | Panic => Panic
  end.

  (** [optimization/device_perf_linux.go getDeviceSettingsForAdvancedProfile] *)
Definition getDeviceSettingsForAdvancedProfile (deviceRoot : string)
    (deviceSettingsFromCtx : gmap string string) : gmap string string :=
  foldl (λ m kv, <[filepath_Join [deviceRoot; kv.1] := kv.2]> m) ∅
        (map_order deviceSettingsFromCtx).

  (** [optimization/device_perf_linux.go applyDeviceSettings] *)
Definition applyDeviceSettings (deviceRoot : string) (deviceSettings : gmap string string)
    : M W unit :=
  let! _ := lift (AreDeviceSettingsValid getwd deviceRoot deviceSettings) in
  for_each (map_order deviceSettings) (λ '(setting, value),
    let! r := try (echoToFile value setting) in
    match r with
    | inl e => fail (ENew ("applyDeviceSettings: Could not set " +:+ setting +:+ " with value "
                           +:+ value +:+ ". Error: " +:+ Error e))
    | inr _ => ret ()
    end).

  (** [optimization/device_perf_linux.go getDeviceName] *)
Definition getDeviceName (lunPath : string) : M W string :=
  let! r := try (EvalSymlinks lunPath) in
  match r with
  | inl e => fail (ENew ("path " +:+ lunPath +:+ " is not a symlink. Error: " +:+ Error e))
  | inr devicePath => ret (filepath_Base devicePath)
  end.

  (** [optimization/device_perf_linux.go OptimizeDiskPerformance] *)
Definition OptimizeDiskPerformance (blockDeviceRootPath : string) (nodeInfo : option NodeInfo)
    (devicePath perfProfile accountType diskSizeGibStr diskIopsStr diskBwMbpsStr : string)
    (deviceSettingsFromCtx : gmap string string) : M W unit :=
  match nodeInfo with
  | None => fail (ENew "OptimizeDiskPerformance: Node info is not provided. Error: invalid parameter")
  | Some ni =>
      let! dn := try (getDeviceName devicePath) in
      match dn with
      | inl e => fail (ENew ("OptimizeDiskPerformance: Could not get deviceName for "
                             +:+ devicePath +:+ ". Error: " +:+ Error e))
      | inr deviceName =>
          let deviceRoot := filepath_Join [blockDeviceRootPath; deviceName] in
          let profile := ToLower perfProfile in
          if String.eqb profile consts.PerfProfileBasic then
            match getDeviceSettingsForBasicProfile ni deviceRoot perfProfile accountType
                    diskSizeGibStr diskIopsStr diskBwMbpsStr with
            | Ok s => applyDeviceSettings deviceRoot s
            | Err e => fail (ENew ("OptimizeDiskPerformance: Failed to optimize disk for deviceName "
                                   +:+ deviceName +:+ " perfProfile " +:+ perfProfile
                                   +:+ ". Error: " +:+ Error e))
            | Panic => panic
            end
          else if String.eqb profile consts.PerfProfileAdvanced then
            applyDeviceSettings deviceRoot
              (getDeviceSettingsForAdvancedProfile deviceRoot deviceSettingsFromCtx)
          else fail (ENew ("OptimizeDiskPerformance: Invalid perfProfile " +:+ perfProfile))
      end
  end.
End optimizer.

(** ** Lemmas on paths *)
Lemma split_from_no_byte c n s :
  Forall (λ x, has_byte c x = false) (split_from n s (String c "")).
Proof.
  revert n; induction s as [|d s IH]; intros [|n]; simpl; [by repeat constructor..| |by apply IH].
  destruct (Ascii.eqb c d) eqn:E; simpl.
  - replace (HasPrefix s "") with true by (by destruct s).
    constructor; [done | apply IH].
  - specialize (IH 0%nat). destruct (split_from 0 s _) as [|h t]; [constructor|].
    apply Forall_cons in IH as [Hh Ht]. constructor; [|done]. simpl. by rewrite E.
Qed.

Lemma Split_no_byte c s : Forall (λ x, has_byte c x = false) (Split s (String c "")).
Proof. apply split_from_no_byte. Qed.

(** The components of a cleaned rooted path are components of the path other
    than the empty one, [.] and [..]. *)
Lemma clean_comps_rooted (P : string → Prop) l out :
  Forall P l → Forall (λ c, P c ∧ c ≠ ".." ∧ c ≠ "") out →
  Forall (λ c, P c ∧ c ≠ ".." ∧ c ≠ "") (clean_comps true l out).
Proof.
  intros Hl. revert out; induction Hl as [|c l Hc Hl IH]; intros out Hout; simpl.
  - rewrite Forall_forall in *. intros x Hx. apply Hout.
    by rewrite elem_of_reverse in Hx.
  - destruct (String.eqb c "" || String.eqb c ".") eqn:E1; [by apply IH|].
    bool_split. destruct (String.eqb c "..") eqn:E2; bool_split.
    + destruct out as [|t out]; [by apply IH|].
      apply Forall_cons in Hout as [[_ [Ht _]] Hout].
      rewrite (proj2 (String.eqb_neq t "..")) by done. by apply IH.
    + apply IH. constructor; done.
Qed.

Lemma Clean_rooted path :
  HasPrefix path "/" = true →
  ∃ comps, filepath_Clean path = String "/" (Join comps "/") ∧
    Forall (λ c, has_byte "/" c = false ∧ c ≠ ".." ∧ c ≠ "") comps.
Proof.
  intros H. unfold filepath_Clean. rewrite H. eexists. split; [done|].
  apply clean_comps_rooted; [apply Split_no_byte | constructor].
Qed.

Lemma Split_rooted comps :
  Forall (λ c, has_byte "/" c = false ∧ c ≠ ".." ∧ c ≠ "") comps →
  ".." ∉ Split (String "/" (Join comps "/")) "/".
Proof.
  intros Hc. unfold Split. rewrite <-(str_nil_app (String "/" (Join comps "/"))).
  rewrite split_from_app by done.
  destruct comps as [|c comps]; [change (".." ∉ [""; ""]); rewrite !elem_of_cons, elem_of_nil; by intros [?|[?|?]]|].
  change (split_from 0 (Join (c :: comps) "/") "/") with (Split (Join (c :: comps) "/") "/").
  rewrite (Split_Join "/" (c :: comps)); [|done|].
  - rewrite elem_of_cons. intros [|Hin]; [done|].
    rewrite Forall_forall in Hc. by destruct (Hc _ Hin) as (_ & ? & _).
  - eapply Forall_impl; [exact Hc|]. by intros ? [? _].
Qed.

Lemma Abs_rooted cwd path :
  HasPrefix cwd "/" = true → HasPrefix path "/" = false →
  ∃ p, filepath_Abs cwd path = filepath_Clean p ∧ HasPrefix p "/" = true.
Proof.
  intros Hc Hp. unfold filepath_Abs, filepath_Join. rewrite Hp.
  apply HasPrefix_spec in Hc as [r ->].
  rewrite filter_cons_True by done. rewrite filter_cons.
  case_decide.
  - exists (Join ["/" +:+ r; path] "/"). split; [done|].
    cbn [Join]. rewrite <-str_app_assoc. apply HasPrefix_app.
  - exists ("/" +:+ r). split; [done | apply HasPrefix_app].
Qed.

Lemma Abs_no_dotdot cwd path :
  HasPrefix cwd "/" = true → ".." ∉ Split (filepath_Abs cwd path) "/".
Proof.
  intros Hc.
  assert (∃ p, filepath_Abs cwd path = filepath_Clean p ∧ HasPrefix p "/" = true) as (p & -> & Hp).
  { destruct (HasPrefix path "/") eqn:E; [|by apply Abs_rooted].
    exists path. unfold filepath_Abs. by rewrite E. }
  destruct (Clean_rooted p Hp) as (comps & -> & Hall). by apply Split_rooted.
Qed.

Lemma settings_under_spec cwd root l :
  settings_under cwd root l = Ok () →
  ∀ s v, (s, v) ∈ l → HasPrefix (filepath_Abs cwd s) (filepath_Clean root +:+ "/") = true.
Proof.
  induction l as [|[s0 v0] l IH]; simpl; [intros _ s v []%elem_of_nil|].
  case_match eqn:E; [|done]. intros H s v [[= -> ->]|Hin]%elem_of_cons; [done|].
  by apply (IH H s v).
Qed.

(** ** Properties *)

(** A path under the device: it extends [Clean root] by a slash and a rest, and
    none of its components is [..]. *)
Definition under_root (cwd root setting : string) : Prop :=
  (∃ rest, filepath_Abs cwd setting = filepath_Clean root +:+ "/" +:+ rest) ∧
  ".." ∉ Split (filepath_Abs cwd setting) "/".

Lemma AreDeviceSettingsValid_under `{MapOrder} cwd root settings :
  HasPrefix cwd "/" = true → AreDeviceSettingsValid cwd root settings = Ok () →
  settings ≠ ∅ ∧ ∀ s v, settings !! s = Some v → under_root cwd root s.
Proof.
  intros Hc. unfold AreDeviceSettingsValid. case_bool_decide as Hs; [done|]. intros Hu.
  split; [by intros ->|]. intros s v Hsv. split; [|by apply Abs_no_dotdot].
  apply elem_of_map_order in Hsv.
  pose proof (settings_under_spec _ _ _ Hu _ _ Hsv) as Hp.
  apply HasPrefix_spec in Hp as [r Hr]. exists r. by rewrite Hr, str_app_assoc.
Qed.

Lemma AreDeviceSettingsValid_never_panics `{MapOrder} cwd root settings :
  AreDeviceSettingsValid cwd root settings ≠ Panic.
Proof.
  unfold AreDeviceSettingsValid. case_bool_decide; [done|]. clear.
  induction (map_order settings) as [|[s v] l IH]; [done|]. cbn [settings_under]. by case_match.
Qed.

Section optimizer_facts.
  Context {W : Type} `{!DeviceIO W} `{MapOrder}.
  Context (P : W → Prop).

Lemma keeps_for_each {A} (l : list A) (f : A → M W unit) :
  (∀ a, a ∈ l → keeps P (f a)) → keeps P (for_each l f).
Proof.
  induction l as [|a l IH]; intros Hf; simpl; [apply keeps_ret|].
  apply keeps_bind; [apply Hf; constructor|]. intros _. apply IH.
  intros b Hb. apply Hf. by constructor.
Qed.
End optimizer_facts.

(** C35. Applying device settings touches nothing but files under the device's
    directory: a fact about the system that each write of a setting's value to that setting
    keeps, as long as the setting is a path under the directory, is kept by the
    whole call, whatever the settings name.  When one of them leaves the directory, by [..] or
    otherwise, the call fails and writes nothing.  Paths are compared as texts, as the code does. *)
Theorem applyDeviceSettings_confined {W} `{!DeviceIO W} `{MapOrder} (P : W → Prop) root settings :
  HasPrefix (getwd (W:=W)) "/" = true →
  (∀ s v, settings !! s = Some v → under_root (getwd (W:=W)) root s → keeps P (echoToFile v s)) →
  keeps P (applyDeviceSettings root settings) ∧
  (∀ s v w, settings !! s = Some v → ¬ under_root (getwd (W:=W)) root s →
     ∃ e, applyDeviceSettings root settings w = (Err e, w)).
Proof.
  intros Hwd Hecho. unfold applyDeviceSettings.
  pose proof (AreDeviceSettingsValid_under (getwd (W:=W)) root settings Hwd) as Hall.
  pose proof (AreDeviceSettingsValid_never_panics (getwd (W:=W)) root settings) as Hnp.
  destruct (AreDeviceSettingsValid _ _ _) as [[]|e|]; [|split; [by intros w|intros; by eexists]|done].
  destruct (Hall eq_refl) as [_ Hunder]. split; [|intros s v w Hs Hn; by destruct Hn; eapply Hunder].
  apply keeps_bind; [apply keeps_lift|]. intros _.
  apply keeps_for_each. intros [s v] Hin%elem_of_map_order.
  apply keeps_bind; [by eapply keeps_try, Hecho, Hunder|].
  intros [|]; [apply keeps_fail | apply keeps_ret].
Qed.

(** The system files of the witness: the list of the files written. *)
Definition demo_io : DeviceIO (list string) := {|
  EvalSymlinks p := ret p;
  echoToFile v p := modify (cons p);
  getwd := "/";
|}.

(** The second setting of the second call leaves the directory of the device. *)
Definition demo_settings (setting : string) : gmap string string :=
  {[ "/sys/block/sda/queue/scheduler" := "none"; setting := "1" ]}.
Lemma applyDeviceSettings_confined_witness :
  keeps (λ w, "/etc/passwd" ∉ w)
    (@applyDeviceSettings _ demo_io _ "/sys/block/sda" (demo_settings "/sys/block/sda/queue/nr_requests")) ∧
  ∃ e, @applyDeviceSettings _ demo_io _ "/sys/block/sda"
         (demo_settings "/sys/block/sda/../../../etc/passwd") [] = (Err e, []).
Proof.
  split.
  - apply (@applyDeviceSettings_confined _ demo_io _ _ "/sys/block/sda"); [reflexivity|].
    intros s v _ [[rest Hrest] _] w Hw. simpl. intros [<-|Hin]%elem_of_cons; [|done].
    vm_compute in Hrest. discriminate.
  - edestruct (@applyDeviceSettings_confined _ demo_io _ (λ _, True) "/sys/block/sda"
      (demo_settings "/sys/block/sda/../../../etc/passwd")) as [_ Hesc]; [reflexivity|done|].
    apply (Hesc "/sys/block/sda/../../../etc/passwd" "1"); [vm_compute; reflexivity|]. intros [[rest Hrest] _]. vm_compute in Hrest. discriminate.
Defined.

(** [getMatchingDiskSku] returns a SKU of the account that meets the request
    and no smaller one does; it returns none exactly when no SKU meets it.
    The order in which Go visits the map does not matter for this. *)
Lemma better_sku_fold size iops bw l best :
  (∀ b, best = Some b → meetsRequest (Some b) size iops bw = true) →
  match foldl (better_sku size iops bw) best l with
  | Some s => meetsRequest (Some s) size iops bw = true ∧ (best = Some s ∨ ∃ k, (k, s) ∈ l) ∧
      (∀ b, best = Some b → MaxSizeGiB s ≤ MaxSizeGiB b)%Z ∧
      (∀ k s', (k, s') ∈ l → meetsRequest (Some s') size iops bw = true →
         MaxSizeGiB s ≤ MaxSizeGiB s')%Z
  | None => best = None ∧ ∀ k s', (k, s') ∈ l → meetsRequest (Some s') size iops bw = false
  end.
Proof.
  revert best; induction l as [|[k0 s0] l IH]; intros best Hb; simpl.
  - destruct best as [b|]; [|by split; [|intros ? ? ?%elem_of_nil]].
    split; [by apply Hb|]. split; [by left|]. split; [by intros ? [= <-]|].
    by intros ? ? ?%elem_of_nil.
  - set (best' := better_sku size iops bw best (k0, s0)).
    assert (Hb' : ∀ b, best' = Some b → meetsRequest (Some b) size iops bw = true).
    { unfold best', better_sku. cbn [snd]. intros b.
      destruct (meetsRequest (Some s0) size iops bw) eqn:Hm; [|apply Hb].
      destruct best as [b0|]; [|congruence].
      destruct (_ <? _)%Z; [congruence | apply Hb]. }
    assert (Hle : ∀ s, (∀ b, best' = Some b → MaxSizeGiB s ≤ MaxSizeGiB b)%Z →
       (∀ b, best = Some b → MaxSizeGiB s ≤ MaxSizeGiB b)%Z ∧
       (meetsRequest (Some s0) size iops bw = true → MaxSizeGiB s ≤ MaxSizeGiB s0)%Z).
    { intros s. unfold best', better_sku. cbn [snd]. intros Hs.
      destruct (meetsRequest (Some s0) size iops bw) eqn:Hm; [|by split].
      destruct best as [b0|]; [|split; [done | intros _; by apply Hs]].
      destruct (Z.ltb_spec (MaxSizeGiB s0) (MaxSizeGiB b0)).
      - specialize (Hs _ eq_refl). split; [intros ? [= <-]|]; lia.
      - specialize (Hs _ eq_refl). split; [intros ? [= <-]|]; lia. }
    assert (Hfrom : ∀ s, best' = Some s → best = Some s ∨ s = s0).
    { intros s. unfold best', better_sku. cbn [snd].
      destruct (meetsRequest _ _ _ _); [|by left].
      destruct best as [b0|]; [|intros [= <-]; by right].
      destruct (_ <? _)%Z; intros [= <-]; [by right | by left]. }
    specialize (IH best' Hb'). destruct (foldl _ best' l) as [s|].
    + destruct IH as (Hm & Hin & Hbest & Hall). destruct (Hle s Hbest) as [Hle1 Hle2].
      split; [done|]. split.
      { destruct Hin as [Hin|[k Hin]]; [|right; exists k; by constructor].
        destruct (Hfrom _ Hin) as [?| ->]; [by left|]. right. exists k0. constructor. }
      split; [done|].
      intros k s' [[= -> ->]|Hin']%elem_of_cons; [apply Hle2 | by apply (Hall k)].
    + destruct IH as [Hnone Hall]. unfold best', better_sku in Hnone. cbn [snd] in Hnone.
      destruct (meetsRequest (Some s0) size iops bw) eqn:Hm.
      * destruct best as [b0|]; [|done]. by destruct (_ <? _)%Z.
      * split; [done|]. intros k s' [[= -> ->]|Hin']%elem_of_cons; [done | by apply (Hall k)].
Qed.

(** The SKU chosen for a request is one of the account's SKUs that serve it,
    and the smallest of them; no SKU is returned only when none serves it. *)
Theorem getMatchingDiskSku_smallest `{MapOrder} skus account size iops bw n r :
  Atoi size = Some n →
  getMatchingDiskSku skus account size iops bw = Ok r →
  let i := default 0%Z (Atoi iops) in let b := default 0%Z (Atoi bw) in
  ∃ m, skus !! ToLower account = Some m ∧
  match r with
  | Some s => meetsRequest (Some s) n i b = true ∧ (∃ k, m !! k = Some s) ∧
      ∀ k s', m !! k = Some s' → meetsRequest (Some s') n i b = true →
        (MaxSizeGiB s ≤ MaxSizeGiB s')%Z
  | None => ∀ k s', m !! k = Some s' → meetsRequest (Some s') n i b = false
  end.
Proof.
  intros Hn. unfold getMatchingDiskSku. rewrite Hn.
  destruct (skus !! ToLower account) as [m|] eqn:Em; simpl; case_bool_decide as Hsz; try done.
  intros [= <-]. exists m. split; [done|].
  pose proof (better_sku_fold n (default 0%Z (Atoi iops)) (default 0%Z (Atoi bw))
                (map_order m) None ltac:(done)) as Hf.
  destruct (foldl _ _ _) as [s|].
  - destruct Hf as (Hm & [?|[k Hin]] & _ & Hall); [done|]. apply elem_of_map_order in Hin.
    split; [done|]. split; [by exists k|]. intros k' s' Hk'. apply (Hall k').
    by apply elem_of_map_order.
  - destruct Hf as [_ Hall]. intros k s' Hk. apply (Hall k). by apply elem_of_map_order.
Qed.

Definition demo_sku (size iops bw : Z) : DiskSkuInfo :=
  MkDiskSkuInfo "Premium_LRS" "Premium" "P" 1 iops iops bw bw size.
Definition demo_skus : gmap string (gmap string DiskSkuInfo) :=
  {[ "premium_lrs" := {[ "p4" := demo_sku 32 120 25; "p10" := demo_sku 128 500 100;
                         "p20" := demo_sku 512 2300 150 ]} ]}.

Lemma getMatchingDiskSku_smallest_witness :
  ∃ m, demo_skus !! "premium_lrs" = Some m ∧
  meetsRequest (Some (demo_sku 128 500 100)) 64 0 0 = true ∧
  (∃ k, m !! k = Some (demo_sku 128 500 100)) ∧
  ∀ k s', m !! k = Some s' → meetsRequest (Some s') 64 0 0 = true → (128 ≤ MaxSizeGiB s')%Z.
Proof.
  apply (getMatchingDiskSku_smallest demo_skus "Premium_LRS" "64" "" "" 64
           (Some (demo_sku 128 500 100))); vm_compute; reflexivity.
Defined.
