(* ===== verification/SkuTables.v ===== *)
(** * The SKU tables

    The data of [optimization/azure_skus_map.go]: what each size of managed disk
    and each size of virtual machine can do. *)
From stdpp Require Import gmap strings list.
From Stdlib Require Import ZArith.
From S2P Require Import Prelude Optimization.
Local Open Scope string_scope.
Local Open Scope Z_scope.
Local Open Scope list_scope.

(** [optimization/azure_skus_map.go DiskSkuMap 20-105] *)
Definition disk_table : list (string * list (string * DiskSkuInfo)) := [
  ("standardssd_zrs", [
    ("e1", MkDiskSkuInfo "StandardSSD_ZRS" "Standard" "E1" 3 600 500 100 150 4);
    ("e20", MkDiskSkuInfo "StandardSSD_ZRS" "Standard" "E20" 3 600 500 100 150 512);
    ("e30", MkDiskSkuInfo "StandardSSD_ZRS" "Standard" "E30" 5 1000 500 100 250 1024);
    ("e6", MkDiskSkuInfo "StandardSSD_ZRS" "Standard" "E6" 3 600 500 100 150 64);
    ("e50", MkDiskSkuInfo "StandardSSD_ZRS" "Standard" "E50" 5 500 500 100 100 4096);
    ("e60", MkDiskSkuInfo "StandardSSD_ZRS" "Standard" "E60" 10 2000 2000 400 400 8192);
    ("e10", MkDiskSkuInfo "StandardSSD_ZRS" "Standard" "E10" 3 600 500 100 150 128);
    ("e15", MkDiskSkuInfo "StandardSSD_ZRS" "Standard" "E15" 3 600 500 100 150 256);
    ("e3", MkDiskSkuInfo "StandardSSD_ZRS" "Standard" "E3" 3 600 500 100 150 16);
    ("e70", MkDiskSkuInfo "StandardSSD_ZRS" "Standard" "E70" 10 4000 4000 600 600 16384);
    ("e2", MkDiskSkuInfo "StandardSSD_ZRS" "Standard" "E2" 3 600 500 100 150 8);
    ("e4", MkDiskSkuInfo "StandardSSD_ZRS" "Standard" "E4" 3 600 500 100 150 32);
    ("e40", MkDiskSkuInfo "StandardSSD_ZRS" "Standard" "E40" 5 500 500 100 100 2048);
    ("e80", MkDiskSkuInfo "StandardSSD_ZRS" "Standard" "E80" 10 6000 6000 750 750 32767)]);
  ("standard_lrs", [
    ("s60", MkDiskSkuInfo "Standard_LRS" "Standard" "S60" 5 1300 1300 300 300 8192);
    ("s70", MkDiskSkuInfo "Standard_LRS" "Standard" "S70" 5 2000 2000 500 500 16384);
    ("s10", MkDiskSkuInfo "Standard_LRS" "Standard" "S10" 1 500 500 60 60 128);
    ("s15", MkDiskSkuInfo "Standard_LRS" "Standard" "S15" 1 500 500 60 60 256);
    ("s20", MkDiskSkuInfo "Standard_LRS" "Standard" "S20" 2 500 500 60 60 512);
    ("s4", MkDiskSkuInfo "Standard_LRS" "Standard" "S4" 1 500 500 60 60 32);
    ("s40", MkDiskSkuInfo "Standard_LRS" "Standard" "S40" 5 500 500 60 60 2048);
    ("s6", MkDiskSkuInfo "Standard_LRS" "Standard" "S6" 1 500 500 60 60 64);
    ("s30", MkDiskSkuInfo "Standard_LRS" "Standard" "S30" 5 500 500 60 60 1024);
    ("s50", MkDiskSkuInfo "Standard_LRS" "Standard" "S50" 5 500 500 60 60 4096);
    ("s80", MkDiskSkuInfo "Standard_LRS" "Standard" "S80" 5 2000 2000 500 500 32767)]);
  ("ultrassd_lrs", [
    ("u", MkDiskSkuInfo "UltraSSD_LRS" "Ultra" "U" 15 0 0 0 0 65536)]);
  ("premiumv2_lrs", [
    ("p", MkDiskSkuInfo "PremiumV2_LRS" "Premium" "P" 15 0 0 0 0 65536)]);
  ("premium_lrs", [
    ("p15", MkDiskSkuInfo "Premium_LRS" "Premium" "P15" 3 3500 1100 125 170 256);
    ("p70", MkDiskSkuInfo "Premium_LRS" "Premium" "P70" 10 18000 18000 750 750 16384);
    ("p80", MkDiskSkuInfo "Premium_LRS" "Premium" "P80" 10 20000 20000 900 900 32767);
    ("p2", MkDiskSkuInfo "Premium_LRS" "Premium" "P2" 3 3500 120 25 170 8);
    ("p20", MkDiskSkuInfo "Premium_LRS" "Premium" "P20" 3 3500 2300 150 170 512);
    ("p3", MkDiskSkuInfo "Premium_LRS" "Premium" "P3" 3 3500 120 25 170 16);
    ("p1", MkDiskSkuInfo "Premium_LRS" "Premium" "P1" 3 3500 120 25 170 4);
    ("p10", MkDiskSkuInfo "Premium_LRS" "Premium" "P10" 3 3500 500 100 170 128);
    ("p4", MkDiskSkuInfo "Premium_LRS" "Premium" "P4" 3 3500 120 25 170 32);
    ("p50", MkDiskSkuInfo "Premium_LRS" "Premium" "P50" 5 7500 7500 250 250 4096);
    ("p6", MkDiskSkuInfo "Premium_LRS" "Premium" "P6" 3 3500 240 50 170 64);
    ("p30", MkDiskSkuInfo "Premium_LRS" "Premium" "P30" 5 5000 5000 200 200 1024);
    ("p40", MkDiskSkuInfo "Premium_LRS" "Premium" "P40" 5 7500 7500 250 250 2048);
    ("p60", MkDiskSkuInfo "Premium_LRS" "Premium" "P60" 10 16000 16000 500 500 8192)]);
  ("premium_zrs", [
    ("p1", MkDiskSkuInfo "Premium_ZRS" "Premium" "P1" 3 3500 120 25 170 4);
    ("p50", MkDiskSkuInfo "Premium_ZRS" "Premium" "P50" 5 7500 7500 250 250 4096);
    ("p6", MkDiskSkuInfo "Premium_ZRS" "Premium" "P6" 3 3500 240 50 170 64);
    ("p60", MkDiskSkuInfo "Premium_ZRS" "Premium" "P60" 10 16000 16000 500 500 8192);
    ("p10", MkDiskSkuInfo "Premium_ZRS" "Premium" "P10" 3 3500 500 100 170 128);
    ("p15", MkDiskSkuInfo "Premium_ZRS" "Premium" "P15" 3 3500 1100 125 170 256);
    ("p2", MkDiskSkuInfo "Premium_ZRS" "Premium" "P2" 3 3500 120 25 170 8);
    ("p20", MkDiskSkuInfo "Premium_ZRS" "Premium" "P20" 3 3500 2300 150 170 512);
    ("p80", MkDiskSkuInfo "Premium_ZRS" "Premium" "P80" 10 20000 20000 900 900 32767);
    ("p3", MkDiskSkuInfo "Premium_ZRS" "Premium" "P3" 3 3500 120 25 170 16);
    ("p30", MkDiskSkuInfo "Premium_ZRS" "Premium" "P30" 5 5000 5000 200 200 1024);
    ("p4", MkDiskSkuInfo "Premium_ZRS" "Premium" "P4" 3 3500 120 25 170 32);
    ("p40", MkDiskSkuInfo "Premium_ZRS" "Premium" "P40" 5 7500 7500 250 250 2048);
    ("p70", MkDiskSkuInfo "Premium_ZRS" "Premium" "P70" 10 18000 18000 750 750 16384)]);
  ("standardssd_lrs", [
    ("e40", MkDiskSkuInfo "StandardSSD_LRS" "Standard" "E40" 5 500 500 100 100 2048);
    ("e60", MkDiskSkuInfo "StandardSSD_LRS" "Standard" "E60" 10 2000 2000 400 400 8192);
    ("e70", MkDiskSkuInfo "StandardSSD_LRS" "Standard" "E70" 10 4000 4000 600 600 16384);
    ("e3", MkDiskSkuInfo "StandardSSD_LRS" "Standard" "E3" 3 600 500 100 150 16);
    ("e10", MkDiskSkuInfo "StandardSSD_LRS" "Standard" "E10" 3 600 500 100 150 128);
    ("e30", MkDiskSkuInfo "StandardSSD_LRS" "Standard" "E30" 5 1000 500 100 250 1024);
    ("e50", MkDiskSkuInfo "StandardSSD_LRS" "Standard" "E50" 5 500 500 100 100 4096);
    ("e80", MkDiskSkuInfo "StandardSSD_LRS" "Standard" "E80" 10 6000 6000 750 750 32767);
    ("e1", MkDiskSkuInfo "StandardSSD_LRS" "Standard" "E1" 3 600 500 100 150 4);
    ("e6", MkDiskSkuInfo "StandardSSD_LRS" "Standard" "E6" 3 600 500 100 150 64);
    ("e2", MkDiskSkuInfo "StandardSSD_LRS" "Standard" "E2" 3 600 500 100 150 8);
    ("e20", MkDiskSkuInfo "StandardSSD_LRS" "Standard" "E20" 3 600 500 100 150 512);
    ("e4", MkDiskSkuInfo "StandardSSD_LRS" "Standard" "E4" 3 600 500 100 150 32);
    ("e15", MkDiskSkuInfo "StandardSSD_LRS" "Standard" "E15" 3 600 500 100 150 256)])].
Definition DiskSkuMap : gmap string (gmap string DiskSkuInfo) :=
  list_to_map (prod_map id list_to_map <$> disk_table).

(** [optimization/azure_skus_map.go NodeInfoMap 107-256] *)
Definition node_table_1 : list (string * NodeInfo) := [
  ("standard_e20darm_v3", MkNodeInfo "Standard_E20darm_V3" 32 20 64000 64000 915 915);
  ("standard_e2s_v5", MkNodeInfo "Standard_E2s_v5" 4 2 3750 3750 81 81);
  ("standard_e4bds_v5", MkNodeInfo "Standard_E4bds_v5" 8 4 12100 12100 324 324);
  ("standard_e8ads_v6", MkNodeInfo "Standard_E8ads_v6" 16 8 15200 15200 343 343);
  ("standard_nv16as_v4", MkNodeInfo "Standard_NV16as_v4" 32 16 25600 25600 366 366);
  ("standard_b16als_v2", MkNodeInfo "Standard_B16als_v2" 32 16 25600 25600 572 572);
  ("standard_d8als_v6", MkNodeInfo "Standard_D8als_v6" 16 8 15200 15200 343 343);
  ("standard_m192idms_v2", MkNodeInfo "Standard_M192idms_v2" 64 192 80000 80000 1907 1907);
  ("standard_m416ds_6_v3", MkNodeInfo "Standard_M416ds_6_v3" 64 416 130000 130000 3814 3814);
  ("standard_e64d_v5", MkNodeInfo "Standard_E64d_v5" 32 64 80000 80000 1654 1654);
  ("standard_e8-4ds_v6", MkNodeInfo "Standard_E8-4ds_v6" 24 8 12800 12800 404 404);
  ("standard_e16-8s_v3", MkNodeInfo "Standard_E16-8s_v3" 32 16 25600 25600 366 366);
  ("standard_e8pds_v6", MkNodeInfo "Standard_E8pds_v6" 24 8 12800 12800 404 404);
  ("standard_d4s_v5", MkNodeInfo "Standard_D4s_v5" 8 4 6400 6400 138 138);
  ("standard_d64ls_v5", MkNodeInfo "Standard_D64ls_v5" 32 64 80000 80000 1654 1654);
  ("standard_d8alds_v6", MkNodeInfo "Standard_D8alds_v6" 16 8 15200 15200 343 343);
  ("standard_m64ms_v2", MkNodeInfo "Standard_M64ms_v2" 64 64 40000 40000 953 953);
  ("standard_d11_v2", MkNodeInfo "Standard_D11_v2" 8 2 6400 6400 91 91);
  ("standard_d2_v4", MkNodeInfo "Standard_D2_v4" 4 2 3200 3200 45 45);
  ("standard_m32ts", MkNodeInfo "Standard_M32ts" 32 32 20000 20000 476 476);
  ("standard_ds2", MkNodeInfo "Standard_DS2" 8 2 6400 6400 61 61);
  ("standard_e20_v4", MkNodeInfo "Standard_E20_v4" 32 20 32000 32000 457 457);
  ("standard_e4-2ads_v5", MkNodeInfo "Standard_E4-2ads_v5" 8 4 6400 6400 137 137);
  ("standard_e8-2s_v3", MkNodeInfo "Standard_E8-2s_v3" 16 8 12800 12800 183 183);
  ("standard_m624ds_12_v3", MkNodeInfo "Standard_M624ds_12_v3" 64 624 130000 130000 3814 3814);
  ("standard_d16ls_v6", MkNodeInfo "Standard_D16ls_v6" 48 16 25600 25600 808 808);
  ("standard_dc96eds_v5", MkNodeInfo "Standard_DC96eds_v5" 32 96 80000 80000 2479 2479);
  ("standard_f8as_v6", MkNodeInfo "Standard_F8as_v6" 16 8 15200 15200 343 343);
  ("standard_l8s_v3", MkNodeInfo "Standard_L8s_v3" 16 8 12800 12800 276 276);
  ("standard_m64dms_v2", MkNodeInfo "Standard_M64dms_v2" 64 64 40000 40000 953 953);
  ("standard_e64-16s_v4", MkNodeInfo "Standard_E64-16s_v4" 32 64 80000 80000 1144 1144);
  ("standard_ec48es_v5", MkNodeInfo "Standard_EC48es_v5" 32 48 76800 76800 1254 1254);
  ("standard_f64s_v2", MkNodeInfo "Standard_F64s_v2" 32 64 80000 80000 1144 1144);
  ("standard_b2ts_v2", MkNodeInfo "Standard_B2ts_v2" 4 2 3750 3750 81 81);
  ("standard_hb120-16rs_v3", MkNodeInfo "Standard_HB120-16rs_v3" 32 120 80000 80000 1907 1907);
  ("standard_l48s_v3", MkNodeInfo "Standard_L48s_v3" 32 48 76800 76800 1254 1254);
  ("standard_dc8es_v5", MkNodeInfo "Standard_DC8es_v5" 16 8 12800 12800 276 276);
  ("standard_e4-2ds_v5", MkNodeInfo "Standard_E4-2ds_v5" 8 4 6400 6400 138 138);
  ("standard_e64is_v3", MkNodeInfo "Standard_E64is_v3" 32 64 80000 80000 1144 1144);
  ("standard_e32-8ads_v5", MkNodeInfo "Standard_E32-8ads_v5" 32 32 51200 51200 732 732);
  ("standard_e48bds_v5", MkNodeInfo "Standard_E48bds_v5" 32 48 120000 120000 3814 3814);
  ("standard_d64plds_v6", MkNodeInfo "Standard_D64plds_v6" 64 64 102400 102400 3234 3234);
  ("standard_e96pds_v6", MkNodeInfo "Standard_E96pds_v6" 64 96 153600 153600 4768 4768);
  ("standard_m176-88bds_v3", MkNodeInfo "Standard_M176-88bds_v3" 64 176 265000 265000 5722 5722);
  ("standard_m32-8ms", MkNodeInfo "Standard_M32-8ms" 32 32 20000 20000 476 476);
  ("standard_a3", MkNodeInfo "Standard_A3" 8 4 6400 6400 91 91);
  ("standard_d2als_v6", MkNodeInfo "Standard_D2als_v6" 4 2 4000 4000 85 85);
  ("standard_d4s_v6", MkNodeInfo "Standard_D4s_v6" 12 4 6400 6400 202 202);
  ("standard_d96d_v5", MkNodeInfo "Standard_D96d_v5" 32 96 80000 80000 2479 2479);
  ("standard_dc4ds_v3", MkNodeInfo "Standard_DC4ds_v3" 16 4 6400 6400 96 96);
  ("standard_e8-2s_v4", MkNodeInfo "Standard_E8-2s_v4" 16 8 12800 12800 183 183);
  ("standard_d16s_v3", MkNodeInfo "Standard_D16s_v3" 32 16 25600 25600 366 366);
  ("standard_d48d_v4", MkNodeInfo "Standard_D48d_v4" 32 48 76800 76800 1098 1098);
  ("standard_dc2s_v2", MkNodeInfo "Standard_DC2s_v2" 2 2 3200 3200 45 45);
  ("standard_e16d_v5", MkNodeInfo "Standard_E16d_v5" 32 16 25600 25600 572 572);
  ("standard_e32d_v5", MkNodeInfo "Standard_E32d_v5" 32 32 51200 51200 824 824);
  ("standard_ec16es_v5", MkNodeInfo "Standard_EC16es_v5" 32 16 25600 25600 572 572);
  ("standard_hb120-16rs_v2", MkNodeInfo "Standard_HB120-16rs_v2" 32 120 80000 80000 1907 1907);
  ("standard_l64as_v3", MkNodeInfo "Standard_L64as_v3" 32 64 80000 80000 1220 1220);
  ("standard_d192ds_v6", MkNodeInfo "Standard_D192ds_v6" 64 192 260000 260000 11444 11444);
  ("standard_d64pds_v5", MkNodeInfo "Standard_D64pds_v5" 32 64 80000 80000 1654 1654);
  ("standard_e64d_v4", MkNodeInfo "Standard_E64d_v4" 32 64 80000 80000 1144 1144);
  ("standard_d128ls_v6", MkNodeInfo "Standard_D128ls_v6" 64 128 204800 204800 6467 6467);
  ("standard_e104is_v5", MkNodeInfo "Standard_E104is_v5" 64 104 120000 120000 3814 3814);
  ("standard_fx36mds", MkNodeInfo "Standard_FX36mds" 32 36 60000 60000 900 900);
  ("standard_b2ms", MkNodeInfo "Standard_B2ms" 4 2 1920 1920 21 21);
  ("standard_ec64as_cc_v5", MkNodeInfo "Standard_EC64as_cc_v5" 32 64 80000 80000 1735 1735);
  ("standard_e16-8ds_v6", MkNodeInfo "Standard_E16-8ds_v6" 48 16 25600 25600 808 808);
  ("standard_e48ps_v6", MkNodeInfo "Standard_E48ps_v6" 64 48 76800 76800 2426 2426);
  ("standard_d48pls_v5", MkNodeInfo "Standard_D48pls_v5" 32 48 76800 76800 1254 1254);
  ("standard_dc8ads_cc_v5", MkNodeInfo "Standard_DC8ads_cc_v5" 16 8 12800 12800 290 290);
  ("standard_d8as_v6", MkNodeInfo "Standard_D8as_v6" 16 8 15200 15200 343 343);
  ("standard_e16_v4", MkNodeInfo "Standard_E16_v4" 32 16 25600 25600 366 366);
  ("standard_e8s_v6", MkNodeInfo "Standard_E8s_v6" 24 8 12800 12800 404 404);
  ("standard_ec8ads_v5", MkNodeInfo "Standard_EC8ads_v5" 16 8 12800 12800 183 183);
  ("standard_b4s_v2", MkNodeInfo "Standard_B4s_v2" 8 4 6400 6400 138 138);
  ("standard_d4lds_v6", MkNodeInfo "Standard_D4lds_v6" 12 4 6400 6400 202 202);
  ("standard_e16pds_v6", MkNodeInfo "Standard_E16pds_v6" 48 16 25600 25600 808 808);
  ("standard_ec32eds_v5", MkNodeInfo "Standard_EC32eds_v5" 32 32 51200 51200 824 824);
  ("standard_b20ms", MkNodeInfo "Standard_B20ms" 32 20 4320 4320 47 47);
  ("standard_ds12", MkNodeInfo "Standard_DS12" 16 4 12800 12800 122 122);
  ("standard_e16bs_v5", MkNodeInfo "Standard_E16bs_v5" 32 16 48400 48400 1306 1306);
  ("standard_m64-32bds_1_v3", MkNodeInfo "Standard_M64-32bds_1_v3" 64 64 130000 130000 5722 5722);
  ("standard_d96alds_v6", MkNodeInfo "Standard_D96alds_v6" 32 96 172800 172800 4119 4119);
  ("standard_e16d_v4", MkNodeInfo "Standard_E16d_v4" 32 16 25600 25600 366 366);
  ("standard_d64pls_v5", MkNodeInfo "Standard_D64pls_v5" 32 64 80000 80000 1654 1654);
  ("standard_d8lds_v6", MkNodeInfo "Standard_D8lds_v6" 24 8 12800 12800 404 404);
  ("standard_ec16as_cc_v5", MkNodeInfo "Standard_EC16as_cc_v5" 32 16 25600 25600 600 600);
  ("standard_f48as_v6", MkNodeInfo "Standard_F48as_v6" 32 48 86400 86400 2059 2059);
  ("standard_m64-16ms", MkNodeInfo "Standard_M64-16ms" 64 64 40000 40000 953 953);
  ("standard_d32plds_v6", MkNodeInfo "Standard_D32plds_v6" 64 32 51200 51200 1617 1617);
  ("standard_d4plds_v6", MkNodeInfo "Standard_D4plds_v6" 12 4 6400 6400 202 202);
  ("standard_ds3_v2_promo", MkNodeInfo "Standard_DS3_v2_Promo" 16 4 12800 12800 183 183);
  ("standard_e32as_v4", MkNodeInfo "Standard_E32as_v4" 32 32 51200 51200 732 732);
  ("standard_e64bs_v5", MkNodeInfo "Standard_E64bs_v5" 32 64 120000 120000 3814 3814);
  ("standard_hb120rs_v3", MkNodeInfo "Standard_HB120rs_v3" 32 120 80000 80000 1907 1907);
  ("standard_m32dms_v2", MkNodeInfo "Standard_M32dms_v2" 32 32 20000 20000 476 476);
  ("standard_d2ds_v6", MkNodeInfo "Standard_D2ds_v6" 8 2 3750 3750 101 101);
  ("standard_ds13_v2_promo", MkNodeInfo "Standard_DS13_v2_Promo" 32 8 25600 25600 366 366);
  ("standard_dc96as_cc_v5", MkNodeInfo "Standard_DC96as_cc_v5" 32 96 80000 80000 2600 2600);
  ("standard_e20as_v5", MkNodeInfo "Standard_E20as_v5" 32 20 32000 32000 457 457);
  ("standard_e64_v4", MkNodeInfo "Standard_E64_v4" 32 64 80000 80000 1144 1144);
  ("standard_m96ds_2_v3", MkNodeInfo "Standard_M96ds_2_v3" 64 96 130000 130000 2975 2975);
  ("standard_d12_v2_promo", MkNodeInfo "Standard_D12_v2_Promo" 16 4 12800 12800 183 183);
  ("standard_d32as_v5", MkNodeInfo "Standard_D32as_v5" 32 32 51200 51200 732 732);
  ("standard_e2d_v5", MkNodeInfo "Standard_E2d_v5" 4 2 3750 3750 81 81);
  ("standard_e48ds_v5", MkNodeInfo "Standard_E48ds_v5" 32 48 76800 76800 1254 1254);
  ("standard_e64-16ds_v5", MkNodeInfo "Standard_E64-16ds_v5" 32 64 80000 80000 1654 1654);
  ("standard_d64lds_v6", MkNodeInfo "Standard_D64lds_v6" 64 64 102400 102400 3234 3234);
  ("standard_e20ds_v4", MkNodeInfo "Standard_E20ds_v4" 32 20 32000 32000 457 457);
  ("standard_d2d_v5", MkNodeInfo "Standard_D2d_v5" 4 2 3750 3750 81 81);
  ("standard_d2ps_v6", MkNodeInfo "Standard_D2ps_v6" 8 2 3750 3750 101 101);
  ("standard_e8ps_v5", MkNodeInfo "Standard_E8ps_v5" 16 8 12800 12800 276 276);
  ("standard_d48lds_v6", MkNodeInfo "Standard_D48lds_v6" 64 48 76800 76800 2426 2426);
  ("standard_hb176rs_v4", MkNodeInfo "Standard_HB176rs_v4" 32 176 80000 80000 1907 1907);
  ("standard_d14_v2", MkNodeInfo "Standard_D14_v2" 64 16 51200 51200 732 732);
  ("standard_d16d_v4", MkNodeInfo "Standard_D16d_v4" 32 16 25600 25600 366 366);
  ("standard_d11", MkNodeInfo "Standard_D11" 8 2 6400 6400 61 61);
  ("standard_f4as_v6", MkNodeInfo "Standard_F4as_v6" 8 4 7600 7600 171 171);
  ("standard_hx176rs", MkNodeInfo "Standard_HX176rs" 32 176 80000 80000 1907 1907);
  ("standard_m64", MkNodeInfo "Standard_M64" 64 64 40000 40000 953 953);
  ("standard_b8ps_v2", MkNodeInfo "Standard_B8ps_v2" 16 8 12800 12800 276 276);
  ("standard_e64ds_v5", MkNodeInfo "Standard_E64ds_v5" 32 64 80000 80000 1654 1654);
  ("standard_m16bds_v3", MkNodeInfo "Standard_M16bds_v3" 64 16 44000 44000 953 953);
  ("standard_m96s_1_v3", MkNodeInfo "Standard_M96s_1_v3" 64 96 65000 65000 1487 1487);
  ("standard_d8lds_v5", MkNodeInfo "Standard_D8lds_v5" 16 8 12800 12800 276 276);
  ("standard_e32ps_v5", MkNodeInfo "Standard_E32ps_v5" 32 32 51200 51200 824 824);
  ("standard_d16ds_v5", MkNodeInfo "Standard_D16ds_v5" 32 16 25600 25600 572 572);
  ("standard_e8-2ds_v5", MkNodeInfo "Standard_E8-2ds_v5" 16 8 12800 12800 276 276);
  ("standard_d8s_v4", MkNodeInfo "Standard_D8s_v4" 16 8 12800 12800 183 183);
  ("standard_e48ads_v6", MkNodeInfo "Standard_E48ads_v6" 32 48 86400 86400 2059 2059);
  ("standard_e32-8as_v5", MkNodeInfo "Standard_E32-8as_v5" 32 32 51200 51200 732 732);
  ("standard_e48as_v6", MkNodeInfo "Standard_E48as_v6" 32 48 86400 86400 2059 2059);
  ("standard_e96a_v4", MkNodeInfo "Standard_E96a_v4" 32 96 80000 80000 1144 1144);
  ("standard_g1", MkNodeInfo "Standard_G1" 8 2 5000 5000 119 119);
  ("standard_d16lds_v6", MkNodeInfo "Standard_D16lds_v6" 48 16 25600 25600 808 808);
  ("standard_d64als_v6", MkNodeInfo "Standard_D64als_v6" 32 64 115200 115200 2746 2746);
  ("standard_e16s_v3", MkNodeInfo "Standard_E16s_v3" 32 16 25600 25600 366 366);
  ("standard_e96as_v5", MkNodeInfo "Standard_E96as_v5" 32 96 80000 80000 1525 1525);
  ("standard_ec48as_v5", MkNodeInfo "Standard_EC48as_v5" 32 48 76800 76800 1098 1098);
  ("standard_m128ms_v2", MkNodeInfo "Standard_M128ms_v2" 64 128 80000 80000 1907 1907);
  ("standard_m48bds_v3", MkNodeInfo "Standard_M48bds_v3" 64 48 88000 88000 1907 1907);
  ("standard_b16s_v2", MkNodeInfo "Standard_B16s_v2" 32 16 25600 25600 572 572);
  ("standard_dc8as_v5", MkNodeInfo "Standard_DC8as_v5" 16 8 12800 12800 183 183);
  ("standard_d32pds_v6", MkNodeInfo "Standard_D32pds_v6" 64 32 51200 51200 1617 1617);
  ("standard_e32-16as_v4", MkNodeInfo "Standard_E32-16as_v4" 32 32 51200 51200 732 732);
  ("standard_a8_v2", MkNodeInfo "Standard_A8_v2" 16 8 12800 12800 183 183);
  ("standard_d2plds_v6", MkNodeInfo "Standard_D2plds_v6" 8 2 3750 3750 101 101);
  ("standard_dc16es_v5", MkNodeInfo "Standard_DC16es_v5" 32 16 25600 25600 572 572);
  ("standard_dc4s_v3", MkNodeInfo "Standard_DC4s_v3" 16 4 6400 6400 96 96)].
(** [optimization/azure_skus_map.go NodeInfoMap 257-406] *)
Definition node_table_2 : list (string * NodeInfo) := [
  ("standard_e8d_v4", MkNodeInfo "Standard_E8d_v4" 16 8 12800 12800 183 183);
  ("standard_m96-48bds_2_v3", MkNodeInfo "Standard_M96-48bds_2_v3" 64 96 130000 130000 7629 7629);
  ("standard_d4d_v4", MkNodeInfo "Standard_D4d_v4" 8 4 6400 6400 91 91);
  ("standard_d8plds_v5", MkNodeInfo "Standard_D8plds_v5" 16 8 12800 12800 276 276);
  ("standard_hx176-144rs", MkNodeInfo "Standard_HX176-144rs" 32 176 80000 80000 1907 1907);
  ("standard_e20a_v4", MkNodeInfo "Standard_E20a_v4" 32 20 32000 32000 457 457);
  ("standard_e32ds_v4", MkNodeInfo "Standard_E32ds_v4" 32 32 51200 51200 732 732);
  ("standard_e64pds_v6", MkNodeInfo "Standard_E64pds_v6" 64 64 102400 102400 3234 3234);
  ("standard_ec64eds_v5", MkNodeInfo "Standard_EC64eds_v5" 32 64 80000 80000 1654 1654);
  ("standard_e112ibds_v5", MkNodeInfo "Standard_E112ibds_v5" 64 112 260000 260000 3814 3814);
  ("standard_e48as_v5", MkNodeInfo "Standard_E48as_v5" 32 48 76800 76800 1098 1098);
  ("standard_e64-16s_v3", MkNodeInfo "Standard_E64-16s_v3" 32 64 80000 80000 1144 1144);
  ("standard_e64-32s_v4", MkNodeInfo "Standard_E64-32s_v4" 32 64 80000 80000 1144 1144);
  ("standard_d16darm_v3", MkNodeInfo "Standard_D16darm_V3" 32 16 51200 51200 732 732);
  ("standard_d8ls_v6", MkNodeInfo "Standard_D8ls_v6" 24 8 12800 12800 404 404);
  ("standard_m48bs_v3", MkNodeInfo "Standard_M48bs_v3" 64 48 88000 88000 1907 1907);
  ("standard_dc64eds_v5", MkNodeInfo "Standard_DC64eds_v5" 32 64 80000 80000 1654 1654);
  ("standard_hb60-30rs", MkNodeInfo "Standard_HB60-30rs" 4 30 80000 80000 1907 1907);
  ("standard_hb60rs", MkNodeInfo "Standard_HB60rs" 4 60 80000 80000 1907 1907);
  ("standard_d2lds_v6", MkNodeInfo "Standard_D2lds_v6" 8 2 3750 3750 101 101);
  ("standard_d4_v3", MkNodeInfo "Standard_D4_v3" 8 4 6400 6400 91 91);
  ("standard_e32-16s_v5", MkNodeInfo "Standard_E32-16s_v5" 32 32 51200 51200 824 824);
  ("standard_e80is_v4", MkNodeInfo "Standard_E80is_v4" 64 80 80000 80000 1430 1430);
  ("standard_l16s_v2", MkNodeInfo "Standard_L16s_v2" 32 16 16000 16000 320 320);
  ("standard_a8m_v2", MkNodeInfo "Standard_A8m_v2" 16 8 12800 12800 183 183);
  ("standard_d8a_v4", MkNodeInfo "Standard_D8a_v4" 16 8 12800 12800 183 183);
  ("standard_d4darm_v3", MkNodeInfo "Standard_D4darm_V3" 8 4 12800 12800 183 183);
  ("standard_m32ms_v2", MkNodeInfo "Standard_M32ms_v2" 32 32 20000 20000 476 476);
  ("standard_nc40ads_h100_v5", MkNodeInfo "Standard_NC40ads_H100_v5" 8 40 100000 100000 2861 2861);
  ("standard_d13", MkNodeInfo "Standard_D13" 32 8 25600 25600 244 244);
  ("standard_d4ads_v5", MkNodeInfo "Standard_D4ads_v5" 8 4 6400 6400 137 137);
  ("standard_ds12-1_v2", MkNodeInfo "Standard_DS12-1_v2" 16 4 12800 12800 183 183);
  ("standard_ds13-4_v2", MkNodeInfo "Standard_DS13-4_v2" 32 8 25600 25600 366 366);
  ("standard_ds5_v2", MkNodeInfo "Standard_DS5_v2" 64 16 51200 51200 732 732);
  ("standard_nv4ads_v710_v5", MkNodeInfo "Standard_NV4ads_V710_v5" 2 4 7600 7600 171 171);
  ("standard_d14_v2_promo", MkNodeInfo "Standard_D14_v2_Promo" 64 16 51200 51200 732 732);
  ("standard_dc16s_v3", MkNodeInfo "Standard_DC16s_v3" 32 16 25600 25600 384 384);
  ("standard_g4", MkNodeInfo "Standard_G4" 64 16 40000 40000 953 953);
  ("standard_m624s_12_v3", MkNodeInfo "Standard_M624s_12_v3" 64 624 130000 130000 3814 3814);
  ("standard_nv28adms_v710_v5", MkNodeInfo "Standard_NV28adms_V710_v5" 14 28 53200 53200 1201 1201);
  ("standard_dc16eds_v5", MkNodeInfo "Standard_DC16eds_v5" 32 16 25600 25600 572 572);
  ("standard_ec20as_cc_v5", MkNodeInfo "Standard_EC20as_cc_v5" 32 20 32000 32000 750 750);
  ("standard_b16pls_v2", MkNodeInfo "Standard_B16pls_v2" 32 16 25600 25600 572 572);
  ("standard_e96bds_v5", MkNodeInfo "Standard_E96bds_v5" 32 96 120000 120000 3814 3814);
  ("standard_ec8ads_cc_v5", MkNodeInfo "Standard_EC8ads_cc_v5" 16 8 12800 12800 290 290);
  ("standard_m32bds_v3", MkNodeInfo "Standard_M32bds_v3" 64 32 88000 88000 1907 1907);
  ("standard_nv12s_v3", MkNodeInfo "Standard_NV12s_v3" 12 12 20000 20000 286 286);
  ("standard_ec96as_v5", MkNodeInfo "Standard_EC96as_v5" 32 96 80000 80000 1144 1144);
  ("standard_m128-64bs_v3", MkNodeInfo "Standard_M128-64bs_v3" 64 128 265000 265000 3814 3814);
  ("standard_ec64ads_cc_v5", MkNodeInfo "Standard_EC64ads_cc_v5" 32 64 80000 80000 1735 1735);
  ("standard_m832ds_12_v3", MkNodeInfo "Standard_M832ds_12_v3" 64 832 130000 130000 3814 3814);
  ("standard_d8_v5", MkNodeInfo "Standard_D8_v5" 16 8 12800 12800 276 276);
  ("standard_ds3", MkNodeInfo "Standard_DS3" 16 4 12800 12800 122 122);
  ("standard_f2s_v2", MkNodeInfo "Standard_F2s_v2" 4 2 3200 3200 45 45);
  ("standard_gs4-8", MkNodeInfo "Standard_GS4-8" 64 16 40000 40000 953 953);
  ("standard_e4as_v4", MkNodeInfo "Standard_E4as_v4" 8 4 6400 6400 91 91);
  ("standard_e4ds_v4", MkNodeInfo "Standard_E4ds_v4" 8 4 6400 6400 91 91);
  ("standard_m176bs_v3", MkNodeInfo "Standard_M176bs_v3" 64 176 265000 265000 5722 5722);
  ("standard_b32als_v2", MkNodeInfo "Standard_B32als_v2" 32 32 51200 51200 824 824);
  ("standard_d48alds_v6", MkNodeInfo "Standard_D48alds_v6" 32 48 86400 86400 2059 2059);
  ("standard_nc24rs_v3", MkNodeInfo "Standard_NC24rs_v3" 32 24 80000 80000 1144 1144);
  ("standard_ec8es_v5", MkNodeInfo "Standard_EC8es_v5" 16 8 12800 12800 276 276);
  ("standard_m128m", MkNodeInfo "Standard_M128m" 64 128 80000 80000 1907 1907);
  ("standard_d32ads_v6", MkNodeInfo "Standard_D32ads_v6" 32 32 57600 57600 1373 1373);
  ("standard_d48s_v4", MkNodeInfo "Standard_D48s_v4" 32 48 76800 76800 1098 1098);
  ("standard_e16-4as_v4", MkNodeInfo "Standard_E16-4as_v4" 32 16 25600 25600 366 366);
  ("standard_e20as_v6", MkNodeInfo "Standard_E20as_v6" 32 20 38000 38000 858 858);
  ("standard_e8s_v5", MkNodeInfo "Standard_E8s_v5" 16 8 12800 12800 276 276);
  ("standard_m192ids_v2", MkNodeInfo "Standard_M192ids_v2" 64 192 80000 80000 1907 1907);
  ("standard_b8ls_v2", MkNodeInfo "Standard_B8ls_v2" 16 8 12800 12800 276 276);
  ("standard_dc4s_v2", MkNodeInfo "Standard_DC4s_v2" 4 4 6400 6400 91 91);
  ("standard_e64-32s_v3", MkNodeInfo "Standard_E64-32s_v3" 32 64 80000 80000 1144 1144);
  ("standard_e96as_v4", MkNodeInfo "Standard_E96as_v4" 32 96 80000 80000 1144 1144);
  ("standard_f64ams_v6", MkNodeInfo "Standard_F64ams_v6" 32 64 115200 115200 2746 2746);
  ("standard_nc64as_t4_v3", MkNodeInfo "Standard_NC64as_T4_v3" 32 64 48000 48000 703 703);
  ("standard_e4-2s_v3", MkNodeInfo "Standard_E4-2s_v3" 8 4 6400 6400 91 91);
  ("standard_e48as_v4", MkNodeInfo "Standard_E48as_v4" 32 48 76800 76800 1098 1098);
  ("standard_e2ps_v5", MkNodeInfo "Standard_E2ps_v5" 4 2 3750 3750 81 81);
  ("standard_m64-32ms", MkNodeInfo "Standard_M64-32ms" 64 64 40000 40000 953 953);
  ("standard_d96ps_v6", MkNodeInfo "Standard_D96ps_v6" 64 96 153600 153600 4768 4768);
  ("standard_e16darm_v3", MkNodeInfo "Standard_E16darm_V3" 32 16 51200 51200 732 732);
  ("standard_ec4as_v5", MkNodeInfo "Standard_EC4as_v5" 8 4 6400 6400 91 91);
  ("standard_d96lds_v5", MkNodeInfo "Standard_D96lds_v5" 32 96 80000 80000 2479 2479);
  ("standard_e32ps_v6", MkNodeInfo "Standard_E32ps_v6" 64 32 51200 51200 1617 1617);
  ("standard_d8ds_v4", MkNodeInfo "Standard_D8ds_v4" 16 8 12800 12800 183 183);
  ("standard_e16as_v6", MkNodeInfo "Standard_E16as_v6" 32 16 30400 30400 686 686);
  ("standard_e2bs_v5", MkNodeInfo "Standard_E2bs_v5" 4 2 6050 6050 162 162);
  ("standard_e64bds_v5", MkNodeInfo "Standard_E64bds_v5" 32 64 120000 120000 3814 3814);
  ("standard_f1s", MkNodeInfo "Standard_F1s" 4 1 3200 3200 45 45);
  ("standard_hb120-32rs_v2", MkNodeInfo "Standard_HB120-32rs_v2" 32 120 80000 80000 1907 1907);
  ("standard_d32ds_v5", MkNodeInfo "Standard_D32ds_v5" 32 32 51200 51200 824 824);
  ("standard_d4s_v3", MkNodeInfo "Standard_D4s_v3" 8 4 6400 6400 91 91);
  ("standard_m416-208s_v2", MkNodeInfo "Standard_M416-208s_v2" 64 416 80000 80000 1907 1907);
  ("standard_dc96as_v5", MkNodeInfo "Standard_DC96as_v5" 32 96 80000 80000 1144 1144);
  ("standard_e64-16ds_v4", MkNodeInfo "Standard_E64-16ds_v4" 32 64 80000 80000 1144 1144);
  ("standard_e64as_v4", MkNodeInfo "Standard_E64as_v4" 32 64 80000 80000 1144 1144);
  ("standard_e96-48as_v5", MkNodeInfo "Standard_E96-48as_v5" 32 96 80000 80000 1525 1525);
  ("standard_d64_v4", MkNodeInfo "Standard_D64_v4" 32 64 80000 80000 1144 1144);
  ("standard_dc24s_v3", MkNodeInfo "Standard_DC24s_v3" 32 24 38400 38400 576 576);
  ("standard_nd96isr_mi300x_v5", MkNodeInfo "Standard_ND96isr_MI300X_v5" 16 96 80000 80000 1144 1144);
  ("standard_e112iads_v5", MkNodeInfo "Standard_E112iads_v5" 64 112 120000 120000 1907 1907);
  ("standard_e2ds_v6", MkNodeInfo "Standard_E2ds_v6" 8 2 3750 3750 101 101);
  ("standard_e104id_v5", MkNodeInfo "Standard_E104id_v5" 64 104 120000 120000 3814 3814);
  ("standard_e96-24ds_v6", MkNodeInfo "Standard_E96-24ds_v6" 64 96 153600 153600 4852 4852);
  ("standard_f16s", MkNodeInfo "Standard_F16s" 64 16 51200 51200 732 732);
  ("standard_l80as_v3", MkNodeInfo "Standard_L80as_v3" 32 80 80000 80000 1335 1335);
  ("standard_m48s_1_v3", MkNodeInfo "Standard_M48s_1_v3" 64 48 65000 65000 1487 1487);
  ("standard_d16ds_v4", MkNodeInfo "Standard_D16ds_v4" 32 16 25600 25600 366 366);
  ("standard_dc8ds_v3", MkNodeInfo "Standard_DC8ds_v3" 32 8 12800 12800 192 192);
  ("standard_e96-24as_v4", MkNodeInfo "Standard_E96-24as_v4" 32 96 80000 80000 1144 1144);
  ("standard_nc8ads_a10_v4", MkNodeInfo "Standard_NC8ads_A10_v4" 8 8 12800 12800 183 183);
  ("standard_d8as_v4", MkNodeInfo "Standard_D8as_v4" 16 8 12800 12800 183 183);
  ("standard_e64_v5", MkNodeInfo "Standard_E64_v5" 32 64 80000 80000 1654 1654);
  ("standard_d48plds_v5", MkNodeInfo "Standard_D48plds_v5" 32 48 76800 76800 1254 1254);
  ("standard_d4_v2_promo", MkNodeInfo "Standard_D4_v2_Promo" 32 8 25600 25600 366 366);
  ("standard_e4-2as_v5", MkNodeInfo "Standard_E4-2as_v5" 8 4 6400 6400 137 137);
  ("standard_nd40rs_v2", MkNodeInfo "Standard_ND40rs_v2" 8 40 80000 80000 1144 1144);
  ("standard_d4as_v6", MkNodeInfo "Standard_D4as_v6" 8 4 7600 7600 171 171);
  ("standard_f4s_v2", MkNodeInfo "Standard_F4s_v2" 8 4 6400 6400 91 91);
  ("standard_e2s_v4", MkNodeInfo "Standard_E2s_v4" 4 2 3200 3200 45 45);
  ("standard_e32s_v6", MkNodeInfo "Standard_E32s_v6" 64 32 51200 51200 1617 1617);
  ("standard_hb120-32rs_v3", MkNodeInfo "Standard_HB120-32rs_v3" 32 120 80000 80000 1907 1907);
  ("standard_dc8as_cc_v5", MkNodeInfo "Standard_DC8as_cc_v5" 16 8 12800 12800 290 290);
  ("standard_ds14_v2_promo", MkNodeInfo "Standard_DS14_v2_Promo" 64 16 51200 51200 732 732);
  ("standard_e20s_v4", MkNodeInfo "Standard_E20s_v4" 32 20 32000 32000 457 457);
  ("standard_e32-16ds_v6", MkNodeInfo "Standard_E32-16ds_v6" 64 32 51200 51200 1617 1617);
  ("standard_e64-32as_v4", MkNodeInfo "Standard_E64-32as_v4" 32 64 80000 80000 1144 1144);
  ("standard_b4pls_v2", MkNodeInfo "Standard_B4pls_v2" 8 4 6400 6400 138 138);
  ("standard_d48lds_v5", MkNodeInfo "Standard_D48lds_v5" 32 48 76800 76800 1254 1254);
  ("standard_m32ms", MkNodeInfo "Standard_M32ms" 32 32 20000 20000 476 476);
  ("standard_e8a_v4", MkNodeInfo "Standard_E8a_v4" 16 8 12800 12800 183 183);
  ("standard_d48pds_v6", MkNodeInfo "Standard_D48pds_v6" 64 48 76800 76800 2426 2426);
  ("standard_d96a_v4", MkNodeInfo "Standard_D96a_v4" 32 96 80000 80000 1144 1144);
  ("standard_d32ls_v5", MkNodeInfo "Standard_D32ls_v5" 32 32 51200 51200 824 824);
  ("standard_d8s_v5", MkNodeInfo "Standard_D8s_v5" 16 8 12800 12800 276 276);
  ("standard_dc32ads_v5", MkNodeInfo "Standard_DC32ads_v5" 32 32 51200 51200 732 732);
  ("standard_e20ads_v6", MkNodeInfo "Standard_E20ads_v6" 32 20 38000 38000 858 858);
  ("standard_e32_v3", MkNodeInfo "Standard_E32_v3" 32 32 51200 51200 732 732);
  ("standard_e8ds_v6", MkNodeInfo "Standard_E8ds_v6" 24 8 12800 12800 404 404);
  ("standard_b32ls_v2", MkNodeInfo "Standard_B32ls_v2" 32 32 51200 51200 824 824);
  ("standard_d32lds_v5", MkNodeInfo "Standard_D32lds_v5" 32 32 51200 51200 824 824);
  ("standard_f4", MkNodeInfo "Standard_F4" 16 4 12800 12800 183 183);
  ("standard_nc80adis_h100_v5", MkNodeInfo "Standard_NC80adis_H100_v5" 16 80 240000 240000 6675 6675);
  ("standard_d4pls_v5", MkNodeInfo "Standard_D4pls_v5" 8 4 6400 6400 138 138);
  ("standard_d96pls_v6", MkNodeInfo "Standard_D96pls_v6" 64 96 153600 153600 4768 4768);
  ("standard_e2a_v4", MkNodeInfo "Standard_E2a_v4" 4 2 3200 3200 45 45);
  ("standard_e48ds_v6", MkNodeInfo "Standard_E48ds_v6" 64 48 76800 76800 2426 2426);
  ("standard_e8ps_v6", MkNodeInfo "Standard_E8ps_v6" 24 8 12800 12800 404 404);
  ("standard_ec32ads_v5", MkNodeInfo "Standard_EC32ads_v5" 32 32 51200 51200 732 732);
  ("standard_d128ds_v6", MkNodeInfo "Standard_D128ds_v6" 64 128 204800 204800 6467 6467)].
(** [optimization/azure_skus_map.go NodeInfoMap 407-556] *)
Definition node_table_3 : list (string * NodeInfo) := [
  ("standard_d48ps_v5", MkNodeInfo "Standard_D48ps_v5" 32 48 76800 76800 1254 1254);
  ("standard_l8s_v2", MkNodeInfo "Standard_L8s_v2" 16 8 8000 8000 160 160);
  ("standard_e64ps_v6", MkNodeInfo "Standard_E64ps_v6" 64 64 102400 102400 3234 3234);
  ("standard_l4s", MkNodeInfo "Standard_L4s" 16 4 5000 5000 119 119);
  ("standard_m176bds_v3", MkNodeInfo "Standard_M176bds_v3" 64 176 265000 265000 5722 5722);
  ("basic_a3", MkNodeInfo "Basic_A3" 8 4 500 500 3 3);
  ("standard_e16-8as_v5", MkNodeInfo "Standard_E16-8as_v5" 32 16 25600 25600 366 366);
  ("standard_ds2_v2_promo", MkNodeInfo "Standard_DS2_v2_Promo" 8 2 6400 6400 91 91);
  ("standard_e4d_v5", MkNodeInfo "Standard_E4d_v5" 8 4 6400 6400 138 138);
  ("standard_m416s_8_v2", MkNodeInfo "Standard_M416s_8_v2" 64 416 80000 80000 1907 1907);
  ("standard_d48ads_v6", MkNodeInfo "Standard_D48ads_v6" 32 48 86400 86400 2059 2059);
  ("standard_d4als_v6", MkNodeInfo "Standard_D4als_v6" 8 4 7600 7600 171 171);
  ("standard_d4pds_v6", MkNodeInfo "Standard_D4pds_v6" 12 4 6400 6400 202 202);
  ("standard_ec2ads_v5", MkNodeInfo "Standard_EC2ads_v5" 4 2 3750 3750 45 45);
  ("standard_d96_v5", MkNodeInfo "Standard_D96_v5" 32 96 80000 80000 2479 2479);
  ("standard_dc96es_v5", MkNodeInfo "Standard_DC96es_v5" 32 96 80000 80000 2479 2479);
  ("standard_nc24ads_a100_v4", MkNodeInfo "Standard_NC24ads_A100_v4" 8 24 30000 30000 976 976);
  ("standard_d14", MkNodeInfo "Standard_D14" 64 16 51200 51200 488 488);
  ("standard_d48s_v6", MkNodeInfo "Standard_D48s_v6" 64 48 76800 76800 2426 2426);
  ("standard_d64as_v6", MkNodeInfo "Standard_D64as_v6" 32 64 115200 115200 2746 2746);
  ("standard_e8_v3", MkNodeInfo "Standard_E8_v3" 16 8 12800 12800 183 183);
  ("standard_d32ps_v5", MkNodeInfo "Standard_D32ps_v5" 32 32 51200 51200 824 824);
  ("standard_d48_v5", MkNodeInfo "Standard_D48_v5" 32 48 76800 76800 1254 1254);
  ("standard_e20ds_v5", MkNodeInfo "Standard_E20ds_v5" 32 20 32000 32000 715 715);
  ("standard_l64s_v3", MkNodeInfo "Standard_L64s_v3" 32 64 80000 80000 1654 1654);
  ("standard_a2_v2", MkNodeInfo "Standard_A2_v2" 4 2 3200 3200 45 45);
  ("standard_d32s_v5", MkNodeInfo "Standard_D32s_v5" 32 32 51200 51200 824 824);
  ("standard_dc48es_v5", MkNodeInfo "Standard_DC48es_v5" 32 48 76800 76800 1254 1254);
  ("standard_dc64es_v5", MkNodeInfo "Standard_DC64es_v5" 32 64 80000 80000 1654 1654);
  ("standard_ec4ads_cc_v5", MkNodeInfo "Standard_EC4ads_cc_v5" 8 4 6400 6400 145 145);
  ("standard_l32s_v3", MkNodeInfo "Standard_L32s_v3" 32 32 51200 51200 824 824);
  ("standard_d4ls_v5", MkNodeInfo "Standard_D4ls_v5" 8 4 6400 6400 138 138);
  ("standard_d64s_v4", MkNodeInfo "Standard_D64s_v4" 32 64 80000 80000 1144 1144);
  ("standard_ec64es_v5", MkNodeInfo "Standard_EC64es_v5" 32 64 80000 80000 1654 1654);
  ("standard_m208s_v2", MkNodeInfo "Standard_M208s_v2" 64 208 40000 40000 953 953);
  ("standard_d48a_v4", MkNodeInfo "Standard_D48a_v4" 32 48 76800 76800 1098 1098);
  ("standard_d48plds_v6", MkNodeInfo "Standard_D48plds_v6" 64 48 76800 76800 2426 2426);
  ("standard_e48s_v5", MkNodeInfo "Standard_E48s_v5" 32 48 76800 76800 1254 1254);
  ("standard_nd96is_mi300x_v5", MkNodeInfo "Standard_ND96is_MI300X_v5" 16 96 80000 80000 1144 1144);
  ("standard_b32s_v2", MkNodeInfo "Standard_B32s_v2" 32 32 51200 51200 824 824);
  ("standard_d2s_v3", MkNodeInfo "Standard_D2s_v3" 4 2 3200 3200 45 45);
  ("standard_e2as_v4", MkNodeInfo "Standard_E2as_v4" 4 2 3200 3200 45 45);
  ("standard_e32-16ads_v5", MkNodeInfo "Standard_E32-16ads_v5" 32 32 51200 51200 732 732);
  ("standard_e32as_v5", MkNodeInfo "Standard_E32as_v5" 32 32 51200 51200 732 732);
  ("standard_d16ds_v6", MkNodeInfo "Standard_D16ds_v6" 48 16 25600 25600 808 808);
  ("standard_dc4ads_cc_v5", MkNodeInfo "Standard_DC4ads_cc_v5" 8 4 6400 6400 145 145);
  ("standard_g5", MkNodeInfo "Standard_G5" 64 32 80000 80000 1907 1907);
  ("standard_m64bds_1_v3", MkNodeInfo "Standard_M64bds_1_v3" 64 64 130000 130000 5722 5722);
  ("standard_nv8as_v4", MkNodeInfo "Standard_NV8as_v4" 16 8 12800 12800 183 183);
  ("standard_e4a_v4", MkNodeInfo "Standard_E4a_v4" 8 4 6400 6400 91 91);
  ("standard_e8-2ds_v4", MkNodeInfo "Standard_E8-2ds_v4" 16 8 12800 12800 183 183);
  ("standard_e2ds_v4", MkNodeInfo "Standard_E2ds_v4" 4 2 3200 3200 45 45);
  ("standard_f2ams_v6", MkNodeInfo "Standard_F2ams_v6" 4 2 4000 4000 85 85);
  ("standard_d16as_v6", MkNodeInfo "Standard_D16as_v6" 32 16 30400 30400 686 686);
  ("standard_d16d_v5", MkNodeInfo "Standard_D16d_v5" 32 16 25600 25600 572 572);
  ("standard_e4-2ds_v6", MkNodeInfo "Standard_E4-2ds_v6" 12 4 6400 6400 202 202);
  ("standard_d64pds_v6", MkNodeInfo "Standard_D64pds_v6" 64 64 102400 102400 3234 3234);
  ("standard_f64als_v6", MkNodeInfo "Standard_F64als_v6" 32 64 115200 115200 2746 2746);
  ("standard_e32_v5", MkNodeInfo "Standard_E32_v5" 32 32 51200 51200 824 824);
  ("standard_e64-32as_v5", MkNodeInfo "Standard_E64-32as_v5" 32 64 80000 80000 1144 1144);
  ("standard_d16plds_v5", MkNodeInfo "Standard_D16plds_v5" 32 16 25600 25600 572 572);
  ("standard_d48_v4", MkNodeInfo "Standard_D48_v4" 32 48 76800 76800 1098 1098);
  ("standard_d48ps_v6", MkNodeInfo "Standard_D48ps_v6" 64 48 76800 76800 2426 2426);
  ("standard_dc64ads_v5", MkNodeInfo "Standard_DC64ads_v5" 32 64 80000 80000 1144 1144);
  ("standard_d1", MkNodeInfo "Standard_D1" 4 1 3200 3200 30 30);
  ("standard_d2_v3", MkNodeInfo "Standard_D2_v3" 4 2 3200 3200 45 45);
  ("standard_f2als_v6", MkNodeInfo "Standard_F2als_v6" 4 2 4000 4000 85 85);
  ("standard_g3", MkNodeInfo "Standard_G3" 32 8 20000 20000 476 476);
  ("standard_e2s_v6", MkNodeInfo "Standard_E2s_v6" 8 2 3750 3750 101 101);
  ("standard_e48ds_v4", MkNodeInfo "Standard_E48ds_v4" 32 48 76800 76800 1098 1098);
  ("standard_dc4es_v5", MkNodeInfo "Standard_DC4es_v5" 8 4 6400 6400 138 138);
  ("standard_ds12-2_v2", MkNodeInfo "Standard_DS12-2_v2" 16 4 12800 12800 183 183);
  ("standard_l32s_v2", MkNodeInfo "Standard_L32s_v2" 32 32 32000 32000 640 640);
  ("standard_d32d_v5", MkNodeInfo "Standard_D32d_v5" 32 32 51200 51200 824 824);
  ("standard_d64s_v3", MkNodeInfo "Standard_D64s_v3" 32 64 80000 80000 1144 1144);
  ("standard_d16pds_v5", MkNodeInfo "Standard_D16pds_v5" 32 16 25600 25600 572 572);
  ("standard_ds1", MkNodeInfo "Standard_DS1" 4 1 3200 3200 30 30);
  ("standard_e64ads_v5", MkNodeInfo "Standard_E64ads_v5" 32 64 80000 80000 1144 1144);
  ("standard_f16s_v2", MkNodeInfo "Standard_F16s_v2" 32 16 25600 25600 366 366);
  ("standard_a2m_v2", MkNodeInfo "Standard_A2m_v2" 4 2 3200 3200 45 45);
  ("standard_d32s_v6", MkNodeInfo "Standard_D32s_v6" 64 32 51200 51200 1617 1617);
  ("standard_e48bs_v5", MkNodeInfo "Standard_E48bs_v5" 32 48 120000 120000 3814 3814);
  ("standard_e96-48ds_v6", MkNodeInfo "Standard_E96-48ds_v6" 64 96 153600 153600 4852 4852);
  ("standard_dc32eds_v5", MkNodeInfo "Standard_DC32eds_v5" 32 32 51200 51200 824 824);
  ("standard_e16-8s_v5", MkNodeInfo "Standard_E16-8s_v5" 32 16 25600 25600 572 572);
  ("standard_d2pls_v5", MkNodeInfo "Standard_D2pls_v5" 4 2 3750 3750 81 81);
  ("standard_d4d_v5", MkNodeInfo "Standard_D4d_v5" 8 4 6400 6400 138 138);
  ("standard_b4als_v2", MkNodeInfo "Standard_B4als_v2" 8 4 6400 6400 138 138);
  ("standard_d16plds_v6", MkNodeInfo "Standard_D16plds_v6" 48 16 25600 25600 808 808);
  ("standard_l16s", MkNodeInfo "Standard_L16s" 64 16 20000 20000 476 476);
  ("standard_d32ads_v5", MkNodeInfo "Standard_D32ads_v5" 32 32 51200 51200 732 732);
  ("standard_gs4", MkNodeInfo "Standard_GS4" 64 16 40000 40000 953 953);
  ("standard_e8_v5", MkNodeInfo "Standard_E8_v5" 16 8 12800 12800 276 276);
  ("standard_hb120-64rs_v2", MkNodeInfo "Standard_HB120-64rs_v2" 32 120 80000 80000 1907 1907);
  ("standard_m176-88bds_4_v3", MkNodeInfo "Standard_M176-88bds_4_v3" 64 176 265000 265000 9536 9536);
  ("standard_nc4as_t4_v3", MkNodeInfo "Standard_NC4as_T4_v3" 8 4 48000 48000 703 703);
  ("standard_d64a_v4", MkNodeInfo "Standard_D64a_v4" 32 64 80000 80000 1144 1144);
  ("standard_e64-32s_v5", MkNodeInfo "Standard_E64-32s_v5" 32 64 80000 80000 1654 1654);
  ("standard_e4-2s_v5", MkNodeInfo "Standard_E4-2s_v5" 8 4 6400 6400 138 138);
  ("standard_hb176-24rs_v4", MkNodeInfo "Standard_HB176-24rs_v4" 32 176 80000 80000 1907 1907);
  ("standard_m64bds_v3", MkNodeInfo "Standard_M64bds_v3" 64 64 88000 88000 1907 1907);
  ("standard_m64bs_v3", MkNodeInfo "Standard_M64bs_v3" 64 64 88000 88000 1907 1907);
  ("standard_nv24ads_v710_v5", MkNodeInfo "Standard_NV24ads_V710_v5" 12 24 45600 45600 1029 1029);
  ("standard_d64alds_v6", MkNodeInfo "Standard_D64alds_v6" 32 64 115200 115200 2746 2746);
  ("standard_d8pls_v5", MkNodeInfo "Standard_D8pls_v5" 16 8 12800 12800 276 276);
  ("standard_e20_v5", MkNodeInfo "Standard_E20_v5" 32 20 32000 32000 715 715);
  ("standard_hb60-15rs", MkNodeInfo "Standard_HB60-15rs" 4 15 80000 80000 1907 1907);
  ("standard_m96ds_1_v3", MkNodeInfo "Standard_M96ds_1_v3" 64 96 65000 65000 1487 1487);
  ("standard_b8s_v2", MkNodeInfo "Standard_B8s_v2" 16 8 12800 12800 276 276);
  ("standard_d8ds_v5", MkNodeInfo "Standard_D8ds_v5" 16 8 12800 12800 276 276);
  ("standard_dc48ads_v5", MkNodeInfo "Standard_DC48ads_v5" 32 48 76800 76800 1098 1098);
  ("standard_e32-8ds_v4", MkNodeInfo "Standard_E32-8ds_v4" 32 32 51200 51200 732 732);
  ("standard_b1ms", MkNodeInfo "Standard_B1ms" 2 1 640 640 21 21);
  ("standard_d32alds_v6", MkNodeInfo "Standard_D32alds_v6" 32 32 57600 57600 1373 1373);
  ("standard_d48pds_v5", MkNodeInfo "Standard_D48pds_v5" 32 48 76800 76800 1254 1254);
  ("standard_m64ls", MkNodeInfo "Standard_M64ls" 64 64 40000 40000 953 953);
  ("standard_b4ms", MkNodeInfo "Standard_B4ms" 8 4 2880 2880 33 33);
  ("standard_d3_v2", MkNodeInfo "Standard_D3_v2" 16 4 12800 12800 183 183);
  ("standard_l32s", MkNodeInfo "Standard_L32s" 64 32 40000 40000 953 953);
  ("standard_m128s_v2", MkNodeInfo "Standard_M128s_v2" 64 128 80000 80000 1907 1907);
  ("standard_d16ps_v6", MkNodeInfo "Standard_D16ps_v6" 48 16 25600 25600 808 808);
  ("standard_d48ds_v6", MkNodeInfo "Standard_D48ds_v6" 64 48 76800 76800 2426 2426);
  ("standard_e20s_v5", MkNodeInfo "Standard_E20s_v5" 32 20 32000 32000 715 715);
  ("standard_e96-24ds_v5", MkNodeInfo "Standard_E96-24ds_v5" 32 96 80000 80000 2479 2479);
  ("standard_d2d_v4", MkNodeInfo "Standard_D2d_v4" 4 2 3200 3200 45 45);
  ("standard_d64ds_v4", MkNodeInfo "Standard_D64ds_v4" 32 64 80000 80000 1144 1144);
  ("standard_dc16as_v5", MkNodeInfo "Standard_DC16as_v5" 32 16 25600 25600 366 366);
  ("standard_nv36adms_a10_v5", MkNodeInfo "Standard_NV36adms_A10_v5" 32 36 51200 51200 732 732);
  ("standard_e20s_v6", MkNodeInfo "Standard_E20s_v6" 48 20 32000 32000 1010 1010);
  ("standard_e4-2as_v4", MkNodeInfo "Standard_E4-2as_v4" 8 4 6400 6400 91 91);
  ("standard_e64ds_v4", MkNodeInfo "Standard_E64ds_v4" 32 64 80000 80000 1144 1144);
  ("standard_ec64as_v5", MkNodeInfo "Standard_EC64as_v5" 32 64 80000 80000 1144 1144);
  ("standard_hx176-96rs", MkNodeInfo "Standard_HX176-96rs" 32 176 80000 80000 1907 1907);
  ("standard_b1s", MkNodeInfo "Standard_B1s" 2 1 320 320 21 21);
  ("standard_d128lds_v6", MkNodeInfo "Standard_D128lds_v6" 64 128 204800 204800 6467 6467);
  ("standard_m12s_v3", MkNodeInfo "Standard_M12s_v3" 64 12 16250 16250 371 371);
  ("standard_nc96ads_a100_v4", MkNodeInfo "Standard_NC96ads_A100_v4" 32 96 120000 120000 3814 3814);
  ("standard_ec4ads_v5", MkNodeInfo "Standard_EC4ads_v5" 8 4 6400 6400 91 91);
  ("standard_m128s", MkNodeInfo "Standard_M128s" 64 128 80000 80000 1907 1907);
  ("standard_nc6s_v3", MkNodeInfo "Standard_NC6s_v3" 12 6 20000 20000 286 286);
  ("standard_e32d_v4", MkNodeInfo "Standard_E32d_v4" 32 32 51200 51200 732 732);
  ("standard_ec8as_cc_v5", MkNodeInfo "Standard_EC8as_cc_v5" 16 8 12800 12800 290 290);
  ("standard_e16_v5", MkNodeInfo "Standard_E16_v5" 32 16 25600 25600 572 572);
  ("standard_e96ds_v6", MkNodeInfo "Standard_E96ds_v6" 64 96 153600 153600 4852 4852);
  ("standard_gs4-4", MkNodeInfo "Standard_GS4-4" 64 16 40000 40000 953 953);
  ("standard_m128dms_v2", MkNodeInfo "Standard_M128dms_v2" 64 128 80000 80000 1907 1907);
  ("standard_nc16ads_a10_v4", MkNodeInfo "Standard_NC16ads_A10_v4" 16 16 25600 25600 366 366);
  ("standard_nc24s_v3", MkNodeInfo "Standard_NC24s_v3" 32 24 80000 80000 1144 1144);
  ("standard_e16-4ds_v6", MkNodeInfo "Standard_E16-4ds_v6" 48 16 25600 25600 808 808);
  ("standard_e16as_v5", MkNodeInfo "Standard_E16as_v5" 32 16 25600 25600 366 366)].
(** [optimization/azure_skus_map.go NodeInfoMap 557-706] *)
Definition node_table_4 : list (string * NodeInfo) := [
  ("standard_e2d_v4", MkNodeInfo "Standard_E2d_v4" 4 2 3200 3200 45 45);
  ("standard_e96-48s_v5", MkNodeInfo "Standard_E96-48s_v5" 32 96 80000 80000 2479 2479);
  ("standard_e96d_v5", MkNodeInfo "Standard_E96d_v5" 32 96 80000 80000 2479 2479);
  ("standard_d2s_v6", MkNodeInfo "Standard_D2s_v6" 8 2 3750 3750 101 101);
  ("standard_d32ls_v6", MkNodeInfo "Standard_D32ls_v6" 64 32 51200 51200 1617 1617);
  ("standard_dc32ads_cc_v5", MkNodeInfo "Standard_DC32ads_cc_v5" 32 32 51200 51200 865 865);
  ("standard_e16-4ads_v5", MkNodeInfo "Standard_E16-4ads_v5" 32 16 25600 25600 366 366);
  ("standard_d48darm_v3", MkNodeInfo "Standard_D48darm_V3" 32 48 120000 120000 1167 1167);
  ("standard_d4as_v4", MkNodeInfo "Standard_D4as_v4" 8 4 6400 6400 91 91);
  ("standard_e8-4ds_v4", MkNodeInfo "Standard_E8-4ds_v4" 16 8 12800 12800 183 183);
  ("standard_m64s", MkNodeInfo "Standard_M64s" 64 64 40000 40000 953 953);
  ("standard_nc32ads_a10_v4", MkNodeInfo "Standard_NC32ads_A10_v4" 32 32 51200 51200 732 732);
  ("standard_d2ads_v5", MkNodeInfo "Standard_D2ads_v5" 4 2 3750 3750 78 78);
  ("standard_d2as_v4", MkNodeInfo "Standard_D2as_v4" 4 2 3200 3200 45 45);
  ("standard_e2ads_v5", MkNodeInfo "Standard_E2ads_v5" 4 2 3750 3750 78 78);
  ("standard_e32ds_v6", MkNodeInfo "Standard_E32ds_v6" 64 32 51200 51200 1617 1617);
  ("standard_e48s_v4", MkNodeInfo "Standard_E48s_v4" 32 48 76800 76800 1098 1098);
  ("standard_ec8as_v5", MkNodeInfo "Standard_EC8as_v5" 16 8 12800 12800 183 183);
  ("standard_f32ams_v6", MkNodeInfo "Standard_F32ams_v6" 32 32 57600 57600 1373 1373);
  ("standard_dc16as_cc_v5", MkNodeInfo "Standard_DC16as_cc_v5" 32 16 25600 25600 600 600);
  ("standard_e16-8s_v6", MkNodeInfo "Standard_E16-8s_v6" 48 16 25600 25600 808 808);
  ("standard_nd112amsr_a100_v4", MkNodeInfo "Standard_ND112amsr_A100_v4" 16 112 80000 80000 1171 1171);
  ("standard_nd96isr_h100_v5", MkNodeInfo "Standard_ND96isr_H100_v5" 16 96 80000 80000 1144 1144);
  ("standard_ds14-8_v2", MkNodeInfo "Standard_DS14-8_v2" 64 16 51200 51200 732 732);
  ("standard_ec96ads_cc_v5", MkNodeInfo "Standard_EC96ads_cc_v5" 32 96 80000 80000 2600 2600);
  ("standard_m96bs_v3", MkNodeInfo "Standard_M96bs_v3" 64 96 265000 265000 3814 3814);
  ("standard_e32darm_v3", MkNodeInfo "Standard_E32darm_V3" 32 32 80000 80000 1167 1167);
  ("standard_ec2as_v5", MkNodeInfo "Standard_EC2as_v5" 4 2 3750 3750 45 45);
  ("standard_b2ps_v2", MkNodeInfo "Standard_B2ps_v2" 4 2 3750 3750 81 81);
  ("standard_dc48as_cc_v5", MkNodeInfo "Standard_DC48as_cc_v5" 32 48 76800 76800 1315 1315);
  ("standard_dc8s_v3", MkNodeInfo "Standard_DC8s_v3" 32 8 12800 12800 192 192);
  ("standard_e16-4s_v4", MkNodeInfo "Standard_E16-4s_v4" 32 16 25600 25600 366 366);
  ("standard_e64-32ds_v5", MkNodeInfo "Standard_E64-32ds_v5" 32 64 80000 80000 1654 1654);
  ("basic_a2", MkNodeInfo "Basic_A2" 4 2 500 500 3 3);
  ("standard_dc64as_cc_v5", MkNodeInfo "Standard_DC64as_cc_v5" 32 64 80000 80000 1735 1735);
  ("standard_e4_v5", MkNodeInfo "Standard_E4_v5" 8 4 6400 6400 138 138);
  ("standard_nv12s_v2", MkNodeInfo "Standard_NV12s_v2" 24 12 40000 40000 572 572);
  ("standard_d32pls_v6", MkNodeInfo "Standard_D32pls_v6" 64 32 51200 51200 1617 1617);
  ("standard_e48_v5", MkNodeInfo "Standard_E48_v5" 32 48 76800 76800 1254 1254);
  ("standard_dc4ads_v5", MkNodeInfo "Standard_DC4ads_v5" 8 4 6400 6400 91 91);
  ("standard_l32as_v3", MkNodeInfo "Standard_L32as_v3" 32 32 51200 51200 732 732);
  ("standard_e32-8s_v6", MkNodeInfo "Standard_E32-8s_v6" 64 32 51200 51200 1617 1617);
  ("standard_e96as_v6", MkNodeInfo "Standard_E96as_v6" 32 96 172800 172800 4119 4119);
  ("standard_e16-4ds_v5", MkNodeInfo "Standard_E16-4ds_v5" 32 16 25600 25600 572 572);
  ("standard_e32-8ds_v6", MkNodeInfo "Standard_E32-8ds_v6" 64 32 51200 51200 1617 1617);
  ("standard_e20d_v4", MkNodeInfo "Standard_E20d_v4" 32 20 32000 32000 457 457);
  ("standard_dc2ds_v3", MkNodeInfo "Standard_DC2ds_v3" 8 2 3200 3200 48 48);
  ("standard_dc32es_v5", MkNodeInfo "Standard_DC32es_v5" 32 32 51200 51200 824 824);
  ("standard_e4s_v4", MkNodeInfo "Standard_E4s_v4" 8 4 6400 6400 91 91);
  ("standard_ec96ads_v5", MkNodeInfo "Standard_EC96ads_v5" 32 96 80000 80000 1144 1144);
  ("standard_f16as_v6", MkNodeInfo "Standard_F16as_v6" 32 16 30400 30400 686 686);
  ("standard_d16s_v6", MkNodeInfo "Standard_D16s_v6" 48 16 25600 25600 808 808);
  ("standard_d2s_v5", MkNodeInfo "Standard_D2s_v5" 4 2 3750 3750 81 81);
  ("standard_d4ps_v6", MkNodeInfo "Standard_D4ps_v6" 12 4 6400 6400 202 202);
  ("standard_d64ds_v6", MkNodeInfo "Standard_D64ds_v6" 64 64 102400 102400 3234 3234);
  ("standard_d2ads_v6", MkNodeInfo "Standard_D2ads_v6" 4 2 4000 4000 85 85);
  ("standard_d32d_v4", MkNodeInfo "Standard_D32d_v4" 32 32 51200 51200 732 732);
  ("standard_dc16ds_v3", MkNodeInfo "Standard_DC16ds_v3" 32 16 25600 25600 384 384);
  ("standard_e2bds_v5", MkNodeInfo "Standard_E2bds_v5" 4 2 6050 6050 162 162);
  ("standard_e4pds_v5", MkNodeInfo "Standard_E4pds_v5" 8 4 6400 6400 138 138);
  ("standard_m176ds_3_v3", MkNodeInfo "Standard_M176ds_3_v3" 64 176 130000 130000 3814 3814);
  ("standard_m176s_4_v3", MkNodeInfo "Standard_M176s_4_v3" 64 176 130000 130000 3814 3814);
  ("standard_d16pls_v6", MkNodeInfo "Standard_D16pls_v6" 48 16 25600 25600 808 808);
  ("standard_d64pls_v6", MkNodeInfo "Standard_D64pls_v6" 64 64 102400 102400 3234 3234);
  ("standard_e16ds_v4", MkNodeInfo "Standard_E16ds_v4" 32 16 25600 25600 366 366);
  ("standard_e8bds_v5", MkNodeInfo "Standard_E8bds_v5" 16 8 24200 24200 648 648);
  ("standard_f1", MkNodeInfo "Standard_F1" 4 1 3200 3200 45 45);
  ("standard_d32as_v4", MkNodeInfo "Standard_D32as_v4" 32 32 51200 51200 732 732);
  ("standard_d8ls_v5", MkNodeInfo "Standard_D8ls_v5" 16 8 12800 12800 276 276);
  ("standard_hb60-45rs", MkNodeInfo "Standard_HB60-45rs" 4 45 80000 80000 1907 1907);
  ("standard_d96as_v5", MkNodeInfo "Standard_D96as_v5" 32 96 80000 80000 1525 1525);
  ("standard_e16ds_v5", MkNodeInfo "Standard_E16ds_v5" 32 16 25600 25600 572 572);
  ("standard_e16s_v4", MkNodeInfo "Standard_E16s_v4" 32 16 25600 25600 366 366);
  ("standard_e16s_v6", MkNodeInfo "Standard_E16s_v6" 48 16 25600 25600 808 808);
  ("standard_e20ps_v5", MkNodeInfo "Standard_E20ps_v5" 32 20 32000 32000 715 715);
  ("standard_e8bs_v5", MkNodeInfo "Standard_E8bs_v5" 16 8 24200 24200 648 648);
  ("standard_f8s_v2", MkNodeInfo "Standard_F8s_v2" 16 8 12800 12800 183 183);
  ("standard_m832is_16_v3", MkNodeInfo "Standard_M832is_16_v3" 64 832 130000 130000 3814 3814);
  ("standard_d12", MkNodeInfo "Standard_D12" 16 4 12800 12800 122 122);
  ("standard_d64_v3", MkNodeInfo "Standard_D64_v3" 32 64 80000 80000 1144 1144);
  ("standard_e32-16s_v3", MkNodeInfo "Standard_E32-16s_v3" 32 32 51200 51200 732 732);
  ("standard_e48s_v3", MkNodeInfo "Standard_E48s_v3" 32 48 76800 76800 1098 1098);
  ("standard_f4ams_v6", MkNodeInfo "Standard_F4ams_v6" 8 4 7600 7600 171 171);
  ("standard_gs5-8", MkNodeInfo "Standard_GS5-8" 64 32 80000 80000 1907 1907);
  ("standard_l64s_v2", MkNodeInfo "Standard_L64s_v2" 32 64 64000 64000 1280 1280);
  ("standard_m16ms", MkNodeInfo "Standard_M16ms" 16 16 10000 10000 238 238);
  ("standard_d96s_v5", MkNodeInfo "Standard_D96s_v5" 32 96 80000 80000 2479 2479);
  ("standard_e16-4s_v5", MkNodeInfo "Standard_E16-4s_v5" 32 16 25600 25600 572 572);
  ("standard_d8ads_v5", MkNodeInfo "Standard_D8ads_v5" 16 8 12800 12800 190 190);
  ("standard_d8ps_v6", MkNodeInfo "Standard_D8ps_v6" 24 8 12800 12800 404 404);
  ("standard_e96ads_v6", MkNodeInfo "Standard_E96ads_v6" 32 96 172800 172800 4119 4119);
  ("standard_m128-32ms", MkNodeInfo "Standard_M128-32ms" 64 128 80000 80000 1907 1907);
  ("standard_m176-88bs_v3", MkNodeInfo "Standard_M176-88bs_v3" 64 176 265000 265000 5722 5722);
  ("standard_m416s_v2", MkNodeInfo "Standard_M416s_v2" 64 416 80000 80000 1907 1907);
  ("standard_d8as_v5", MkNodeInfo "Standard_D8as_v5" 16 8 12800 12800 190 190);
  ("standard_dc32as_cc_v5", MkNodeInfo "Standard_DC32as_cc_v5" 32 32 51200 51200 865 865);
  ("standard_gs5", MkNodeInfo "Standard_GS5" 64 32 80000 80000 1907 1907);
  ("standard_d48as_v6", MkNodeInfo "Standard_D48as_v6" 32 48 86400 86400 2059 2059);
  ("standard_d8s_v6", MkNodeInfo "Standard_D8s_v6" 24 8 12800 12800 404 404);
  ("standard_e64a_v4", MkNodeInfo "Standard_E64a_v4" 32 64 80000 80000 1144 1144);
  ("standard_m16-4ms", MkNodeInfo "Standard_M16-4ms" 16 16 10000 10000 238 238);
  ("standard_d2pls_v6", MkNodeInfo "Standard_D2pls_v6" 8 2 3750 3750 101 101);
  ("standard_e64-16ads_v5", MkNodeInfo "Standard_E64-16ads_v5" 32 64 80000 80000 1144 1144);
  ("standard_d8_v4", MkNodeInfo "Standard_D8_v4" 16 8 12800 12800 183 183);
  ("standard_e4as_v5", MkNodeInfo "Standard_E4as_v5" 8 4 6400 6400 137 137);
  ("standard_e64s_v3", MkNodeInfo "Standard_E64s_v3" 32 64 80000 80000 1144 1144);
  ("standard_fx24mds", MkNodeInfo "Standard_FX24mds" 32 24 40000 40000 600 600);
  ("standard_nv8ads_v710_v5", MkNodeInfo "Standard_NV8ads_V710_v5" 4 8 15200 15200 343 343);
  ("standard_b2ls_v2", MkNodeInfo "Standard_B2ls_v2" 4 2 3750 3750 81 81);
  ("standard_d4ds_v6", MkNodeInfo "Standard_D4ds_v6" 12 4 6400 6400 202 202);
  ("standard_e16-4ds_v4", MkNodeInfo "Standard_E16-4ds_v4" 32 16 25600 25600 366 366);
  ("standard_e2_v3", MkNodeInfo "Standard_E2_v3" 4 2 3200 3200 45 45);
  ("standard_dc24ds_v3", MkNodeInfo "Standard_DC24ds_v3" 32 24 38400 38400 576 576);
  ("standard_dc32as_v5", MkNodeInfo "Standard_DC32as_v5" 32 32 51200 51200 732 732);
  ("standard_gs5-16", MkNodeInfo "Standard_GS5-16" 64 32 80000 80000 1907 1907);
  ("standard_d2as_v6", MkNodeInfo "Standard_D2as_v6" 4 2 4000 4000 85 85);
  ("standard_d4ds_v5", MkNodeInfo "Standard_D4ds_v5" 8 4 6400 6400 138 138);
  ("standard_dc2s_v3", MkNodeInfo "Standard_DC2s_v3" 8 2 3200 3200 48 48);
  ("standard_e16-8as_v4", MkNodeInfo "Standard_E16-8as_v4" 32 16 25600 25600 366 366);
  ("standard_e32pds_v6", MkNodeInfo "Standard_E32pds_v6" 64 32 51200 51200 1617 1617);
  ("standard_e8-4s_v4", MkNodeInfo "Standard_E8-4s_v4" 16 8 12800 12800 183 183);
  ("standard_d4lds_v5", MkNodeInfo "Standard_D4lds_v5" 8 4 6400 6400 138 138);
  ("standard_dc1s_v2", MkNodeInfo "Standard_DC1s_v2" 1 1 1600 1600 22 22);
  ("standard_e4pds_v6", MkNodeInfo "Standard_E4pds_v6" 12 4 6400 6400 202 202);
  ("standard_hc44rs", MkNodeInfo "Standard_HC44rs" 4 44 80000 80000 1907 1907);
  ("standard_e8as_v4", MkNodeInfo "Standard_E8as_v4" 16 8 12800 12800 183 183);
  ("standard_d2_v2", MkNodeInfo "Standard_D2_v2" 8 2 6400 6400 91 91);
  ("standard_dc48ads_cc_v5", MkNodeInfo "Standard_DC48ads_cc_v5" 32 48 76800 76800 1315 1315);
  ("standard_ds11_v2", MkNodeInfo "Standard_DS11_v2" 8 2 6400 6400 91 91);
  ("standard_e112ibs_v5", MkNodeInfo "Standard_E112ibs_v5" 64 112 260000 260000 3814 3814);
  ("standard_e16s_v5", MkNodeInfo "Standard_E16s_v5" 32 16 25600 25600 572 572);
  ("standard_m176ds_4_v3", MkNodeInfo "Standard_M176ds_4_v3" 64 176 130000 130000 3814 3814);
  ("standard_b8als_v2", MkNodeInfo "Standard_B8als_v2" 16 8 12800 12800 276 276);
  ("standard_d128s_v6", MkNodeInfo "Standard_D128s_v6" 64 128 204800 204800 6467 6467);
  ("standard_e64-32ads_v5", MkNodeInfo "Standard_E64-32ads_v5" 32 64 80000 80000 1144 1144);
  ("standard_e80ids_v4", MkNodeInfo "Standard_E80ids_v4" 64 80 80000 80000 1430 1430);
  ("standard_e4ds_v5", MkNodeInfo "Standard_E4ds_v5" 8 4 6400 6400 138 138);
  ("standard_e8ads_v5", MkNodeInfo "Standard_E8ads_v5" 16 8 12800 12800 190 190);
  ("standard_d5_v2", MkNodeInfo "Standard_D5_v2" 64 16 51200 51200 732 732);
  ("standard_ec16ads_cc_v5", MkNodeInfo "Standard_EC16ads_cc_v5" 32 16 25600 25600 600 600);
  ("standard_ds2_v2", MkNodeInfo "Standard_DS2_v2" 8 2 6400 6400 91 91);
  ("standard_e2as_v5", MkNodeInfo "Standard_E2as_v5" 4 2 3750 3750 78 78);
  ("standard_e4_v3", MkNodeInfo "Standard_E4_v3" 8 4 6400 6400 91 91);
  ("standard_nv12ads_a10_v5", MkNodeInfo "Standard_NV12ads_A10_v5" 8 12 12800 12800 190 190);
  ("standard_d16_v3", MkNodeInfo "Standard_D16_v3" 32 16 25600 25600 366 366);
  ("standard_dc1ds_v3", MkNodeInfo "Standard_DC1ds_v3" 4 1 1600 1600 24 24);
  ("standard_d8darm_v3", MkNodeInfo "Standard_D8darm_V3" 16 8 25600 25600 366 366);
  ("standard_ds1_v2", MkNodeInfo "Standard_DS1_v2" 4 1 3200 3200 45 45);
  ("standard_e8-4as_v5", MkNodeInfo "Standard_E8-4as_v5" 16 8 12800 12800 190 190);
  ("standard_a0", MkNodeInfo "Standard_A0" 1 1 1600 1600 22 22)].
(** [optimization/azure_skus_map.go NodeInfoMap 707-856] *)
Definition node_table_5 : list (string * NodeInfo) := [
  ("standard_d2lds_v5", MkNodeInfo "Standard_D2lds_v5" 4 2 3750 3750 81 81);
  ("standard_d48s_v5", MkNodeInfo "Standard_D48s_v5" 32 48 76800 76800 1254 1254);
  ("standard_ec48as_cc_v5", MkNodeInfo "Standard_EC48as_cc_v5" 32 48 76800 76800 1315 1315);
  ("standard_b2als_v2", MkNodeInfo "Standard_B2als_v2" 4 2 3750 3750 81 81);
  ("standard_d16ads_v5", MkNodeInfo "Standard_D16ads_v5" 32 16 25600 25600 366 366);
  ("standard_e4_v4", MkNodeInfo "Standard_E4_v4" 8 4 6400 6400 91 91);
  ("standard_m416-208ms_v2", MkNodeInfo "Standard_M416-208ms_v2" 64 416 80000 80000 1907 1907);
  ("standard_a4_v2", MkNodeInfo "Standard_A4_v2" 8 4 6400 6400 91 91);
  ("standard_d32_v3", MkNodeInfo "Standard_D32_v3" 32 32 51200 51200 732 732);
  ("standard_m48ds_1_v3", MkNodeInfo "Standard_M48ds_1_v3" 64 48 65000 65000 1487 1487);
  ("standard_e32-16ds_v5", MkNodeInfo "Standard_E32-16ds_v5" 32 32 51200 51200 824 824);
  ("standard_e64as_v5", MkNodeInfo "Standard_E64as_v5" 32 64 80000 80000 1144 1144);
  ("standard_e16-8ds_v4", MkNodeInfo "Standard_E16-8ds_v4" 32 16 25600 25600 366 366);
  ("standard_e64-16ds_v6", MkNodeInfo "Standard_E64-16ds_v6" 64 64 102400 102400 3234 3234);
  ("standard_gs3", MkNodeInfo "Standard_GS3" 32 8 20000 20000 476 476);
  ("standard_m128-64bds_v3", MkNodeInfo "Standard_M128-64bds_v3" 64 128 265000 265000 3814 3814);
  ("standard_m8-4ms", MkNodeInfo "Standard_M8-4ms" 8 8 5000 5000 119 119);
  ("standard_d2ps_v5", MkNodeInfo "Standard_D2ps_v5" 4 2 3750 3750 81 81);
  ("standard_d2_v5", MkNodeInfo "Standard_D2_v5" 4 2 3750 3750 81 81);
  ("standard_d96pds_v6", MkNodeInfo "Standard_D96pds_v6" 64 96 153600 153600 4768 4768);
  ("standard_e16-4s_v3", MkNodeInfo "Standard_E16-4s_v3" 32 16 25600 25600 366 366);
  ("standard_e20ads_v5", MkNodeInfo "Standard_E20ads_v5" 32 20 32000 32000 457 457);
  ("standard_e2_v4", MkNodeInfo "Standard_E2_v4" 4 2 3200 3200 45 45);
  ("standard_e96ds_v5", MkNodeInfo "Standard_E96ds_v5" 32 96 80000 80000 2479 2479);
  ("standard_ec2es_v5", MkNodeInfo "Standard_EC2es_v5" 4 2 3750 3750 81 81);
  ("standard_a4m_v2", MkNodeInfo "Standard_A4m_v2" 8 4 6400 6400 91 91);
  ("standard_b32as_v2", MkNodeInfo "Standard_B32as_v2" 32 32 51200 51200 824 824);
  ("standard_ec96as_cc_v5", MkNodeInfo "Standard_EC96as_cc_v5" 32 96 80000 80000 2600 2600);
  ("standard_nv32as_v4", MkNodeInfo "Standard_NV32as_v4" 32 32 51200 51200 732 732);
  ("standard_d64ads_v5", MkNodeInfo "Standard_D64ads_v5" 32 64 80000 80000 1144 1144);
  ("standard_e48_v3", MkNodeInfo "Standard_E48_v3" 32 48 76800 76800 1098 1098);
  ("standard_d16alds_v6", MkNodeInfo "Standard_D16alds_v6" 32 16 30400 30400 686 686);
  ("standard_d2ls_v6", MkNodeInfo "Standard_D2ls_v6" 8 2 3750 3750 101 101);
  ("standard_e32as_v6", MkNodeInfo "Standard_E32as_v6" 32 32 57600 57600 1373 1373);
  ("standard_e8as_v6", MkNodeInfo "Standard_E8as_v6" 16 8 15200 15200 343 343);
  ("standard_m128-64bds_3_v3", MkNodeInfo "Standard_M128-64bds_3_v3" 64 128 265000 265000 9536 9536);
  ("standard_d11_v2_promo", MkNodeInfo "Standard_D11_v2_Promo" 8 2 6400 6400 91 91);
  ("standard_d2_v2_promo", MkNodeInfo "Standard_D2_v2_Promo" 8 2 6400 6400 91 91);
  ("standard_d2", MkNodeInfo "Standard_D2" 8 2 6400 6400 61 61);
  ("standard_e32ads_v5", MkNodeInfo "Standard_E32ads_v5" 32 32 51200 51200 732 732);
  ("standard_nd96amsrf_a100_v4", MkNodeInfo "Standard_ND96amsrf_A100_v4" 16 96 80000 80000 1171 1171);
  ("standard_d16ps_v5", MkNodeInfo "Standard_D16ps_v5" 32 16 25600 25600 572 572);
  ("standard_d64s_v5", MkNodeInfo "Standard_D64s_v5" 32 64 80000 80000 1654 1654);
  ("standard_d16_v5", MkNodeInfo "Standard_D16_v5" 32 16 25600 25600 572 572);
  ("standard_d48_v3", MkNodeInfo "Standard_D48_v3" 32 48 76800 76800 1098 1098);
  ("standard_d8ps_v5", MkNodeInfo "Standard_D8ps_v5" 16 8 12800 12800 276 276);
  ("standard_dc48s_v3", MkNodeInfo "Standard_DC48s_v3" 32 48 76800 76800 1152 1152);
  ("standard_e16-8s_v4", MkNodeInfo "Standard_E16-8s_v4" 32 16 25600 25600 366 366);
  ("standard_e16a_v4", MkNodeInfo "Standard_E16a_v4" 32 16 25600 25600 366 366);
  ("standard_e32a_v4", MkNodeInfo "Standard_E32a_v4" 32 32 51200 51200 732 732);
  ("standard_e8-2as_v5", MkNodeInfo "Standard_E8-2as_v5" 16 8 12800 12800 190 190);
  ("standard_b4ps_v2", MkNodeInfo "Standard_B4ps_v2" 8 4 6400 6400 138 138);
  ("standard_d48ads_v5", MkNodeInfo "Standard_D48ads_v5" 32 48 76800 76800 1098 1098);
  ("standard_m128bds_v3", MkNodeInfo "Standard_M128bds_v3" 64 128 265000 265000 3814 3814);
  ("standard_d4", MkNodeInfo "Standard_D4" 32 8 25600 25600 244 244);
  ("standard_dc32s_v3", MkNodeInfo "Standard_DC32s_v3" 32 32 51200 51200 768 768);
  ("standard_e2ds_v5", MkNodeInfo "Standard_E2ds_v5" 4 2 3750 3750 81 81);
  ("standard_ec4as_cc_v5", MkNodeInfo "Standard_EC4as_cc_v5" 8 4 6400 6400 145 145);
  ("standard_a7", MkNodeInfo "Standard_A7" 16 8 12800 12800 183 183);
  ("standard_d16als_v6", MkNodeInfo "Standard_D16als_v6" 32 16 30400 30400 686 686);
  ("standard_d32s_v4", MkNodeInfo "Standard_D32s_v4" 32 32 51200 51200 732 732);
  ("standard_d8pds_v5", MkNodeInfo "Standard_D8pds_v5" 16 8 12800 12800 276 276);
  ("standard_e32-8as_v4", MkNodeInfo "Standard_E32-8as_v4" 32 32 51200 51200 732 732);
  ("standard_m32bs_v3", MkNodeInfo "Standard_M32bs_v3" 64 32 88000 88000 1907 1907);
  ("standard_m416s_8_v3", MkNodeInfo "Standard_M416s_8_v3" 64 416 130000 130000 3814 3814);
  ("standard_d2plds_v5", MkNodeInfo "Standard_D2plds_v5" 4 2 3750 3750 81 81);
  ("standard_d32as_v6", MkNodeInfo "Standard_D32as_v6" 32 32 57600 57600 1373 1373);
  ("standard_m192ims_v2", MkNodeInfo "Standard_M192ims_v2" 64 192 80000 80000 1907 1907);
  ("standard_nd96is_h100_v5", MkNodeInfo "Standard_ND96is_H100_v5" 16 96 80000 80000 1144 1144);
  ("standard_e2pds_v5", MkNodeInfo "Standard_E2pds_v5" 4 2 3750 3750 81 81);
  ("standard_f64as_v6", MkNodeInfo "Standard_F64as_v6" 32 64 115200 115200 2746 2746);
  ("standard_dc48ds_v3", MkNodeInfo "Standard_DC48ds_v3" 32 48 76800 76800 1152 1152);
  ("standard_e16-8ads_v5", MkNodeInfo "Standard_E16-8ads_v5" 32 16 25600 25600 366 366);
  ("standard_d96ls_v6", MkNodeInfo "Standard_D96ls_v6" 64 96 153600 153600 4852 4852);
  ("standard_e2pds_v6", MkNodeInfo "Standard_E2pds_v6" 8 2 37500 37500 101 101);
  ("standard_e48a_v4", MkNodeInfo "Standard_E48a_v4" 32 48 76800 76800 1098 1098);
  ("standard_e48s_v6", MkNodeInfo "Standard_E48s_v6" 64 48 76800 76800 2426 2426);
  ("standard_d32pls_v5", MkNodeInfo "Standard_D32pls_v5" 32 32 51200 51200 824 824);
  ("standard_d48d_v5", MkNodeInfo "Standard_D48d_v5" 32 48 76800 76800 1254 1254);
  ("standard_ds13", MkNodeInfo "Standard_DS13" 32 8 25600 25600 244 244);
  ("standard_d15_v2", MkNodeInfo "Standard_D15_v2" 64 20 64000 64000 915 915);
  ("standard_d2ds_v5", MkNodeInfo "Standard_D2ds_v5" 4 2 3750 3750 81 81);
  ("standard_e104ids_v5", MkNodeInfo "Standard_E104ids_v5" 64 104 120000 120000 3814 3814);
  ("standard_e16-4s_v6", MkNodeInfo "Standard_E16-4s_v6" 48 16 25600 25600 808 808);
  ("standard_ec48eds_v5", MkNodeInfo "Standard_EC48eds_v5" 32 48 76800 76800 1254 1254);
  ("standard_hx176-24rs", MkNodeInfo "Standard_HX176-24rs" 32 176 80000 80000 1907 1907);
  ("standard_d4alds_v6", MkNodeInfo "Standard_D4alds_v6" 8 4 7600 7600 171 171);
  ("standard_d64ps_v5", MkNodeInfo "Standard_D64ps_v5" 32 64 80000 80000 1654 1654);
  ("standard_e16as_v4", MkNodeInfo "Standard_E16as_v4" 32 16 25600 25600 366 366);
  ("standard_ec4eds_v5", MkNodeInfo "Standard_EC4eds_v5" 8 4 6400 6400 138 138);
  ("standard_m64s_v2", MkNodeInfo "Standard_M64s_v2" 64 64 40000 40000 953 953);
  ("standard_d2a_v4", MkNodeInfo "Standard_D2a_v4" 4 2 3200 3200 45 45);
  ("standard_dc4eds_v5", MkNodeInfo "Standard_DC4eds_v5" 8 4 6400 6400 138 138);
  ("standard_d5_v2_promo", MkNodeInfo "Standard_D5_v2_Promo" 64 16 51200 51200 732 732);
  ("standard_d96als_v6", MkNodeInfo "Standard_D96als_v6" 32 96 172800 172800 4119 4119);
  ("standard_f48als_v6", MkNodeInfo "Standard_F48als_v6" 32 48 86400 86400 2059 2059);
  ("standard_d13_v2", MkNodeInfo "Standard_D13_v2" 32 8 25600 25600 366 366);
  ("standard_d16as_v5", MkNodeInfo "Standard_D16as_v5" 32 16 25600 25600 366 366);
  ("standard_ec16eds_v5", MkNodeInfo "Standard_EC16eds_v5" 32 16 25600 25600 572 572);
  ("standard_m128bds_3_v3", MkNodeInfo "Standard_M128bds_3_v3" 64 128 265000 265000 9536 9536);
  ("standard_e4s_v5", MkNodeInfo "Standard_E4s_v5" 8 4 6400 6400 138 138);
  ("standard_e64s_v4", MkNodeInfo "Standard_E64s_v4" 32 64 80000 80000 1144 1144);
  ("standard_m64m", MkNodeInfo "Standard_M64m" 64 64 40000 40000 953 953);
  ("standard_e32s_v4", MkNodeInfo "Standard_E32s_v4" 32 32 51200 51200 732 732);
  ("standard_e8as_v5", MkNodeInfo "Standard_E8as_v5" 16 8 12800 12800 190 190);
  ("standard_f72s_v2", MkNodeInfo "Standard_F72s_v2" 32 72 80000 80000 1144 1144);
  ("standard_l8as_v3", MkNodeInfo "Standard_L8as_v3" 16 8 12800 12800 190 190);
  ("standard_d8pds_v6", MkNodeInfo "Standard_D8pds_v6" 24 8 12800 12800 404 404);
  ("standard_d96ls_v5", MkNodeInfo "Standard_D96ls_v5" 32 96 80000 80000 2479 2479);
  ("standard_hb176-48rs_v4", MkNodeInfo "Standard_HB176-48rs_v4" 32 176 80000 80000 1907 1907);
  ("standard_m176s_3_v3", MkNodeInfo "Standard_M176s_3_v3" 64 176 130000 130000 3814 3814);
  ("standard_b2s_v2", MkNodeInfo "Standard_B2s_v2" 4 2 3750 3750 81 81);
  ("standard_e64_v3", MkNodeInfo "Standard_E64_v3" 32 64 80000 80000 1144 1144);
  ("standard_d16pds_v6", MkNodeInfo "Standard_D16pds_v6" 48 16 25600 25600 808 808);
  ("standard_nc48ads_a100_v4", MkNodeInfo "Standard_NC48ads_A100_v4" 16 48 60000 60000 1953 1953);
  ("standard_d4a_v4", MkNodeInfo "Standard_D4a_v4" 8 4 6400 6400 91 91);
  ("standard_l16s_v3", MkNodeInfo "Standard_L16s_v3" 32 16 25600 25600 572 572);
  ("standard_ds14", MkNodeInfo "Standard_DS14" 64 16 51200 51200 488 488);
  ("standard_m24s_v3", MkNodeInfo "Standard_M24s_v3" 64 24 32500 32500 743 743);
  ("standard_d32darm_v3", MkNodeInfo "Standard_D32darm_V3" 32 32 80000 80000 1167 1167);
  ("standard_ec32as_v5", MkNodeInfo "Standard_EC32as_v5" 32 32 51200 51200 732 732);
  ("standard_nv6ads_a10_v5", MkNodeInfo "Standard_NV6ads_A10_v5" 4 6 6400 6400 95 95);
  ("standard_d2as_v5", MkNodeInfo "Standard_D2as_v5" 4 2 3750 3750 78 78);
  ("standard_d3", MkNodeInfo "Standard_D3" 16 4 12800 12800 122 122);
  ("standard_fx4mds", MkNodeInfo "Standard_FX4mds" 8 4 6700 6700 100 100);
  ("standard_dc96ads_cc_v5", MkNodeInfo "Standard_DC96ads_cc_v5" 32 96 80000 80000 2600 2600);
  ("standard_e48_v4", MkNodeInfo "Standard_E48_v4" 32 48 76800 76800 1098 1098);
  ("standard_d48s_v3", MkNodeInfo "Standard_D48s_v3" 32 48 76800 76800 1098 1098);
  ("standard_e64-32s_v6", MkNodeInfo "Standard_E64-32s_v6" 64 64 102400 102400 3234 3234);
  ("standard_e96ads_v5", MkNodeInfo "Standard_E96ads_v5" 32 96 80000 80000 1525 1525);
  ("standard_ec4es_v5", MkNodeInfo "Standard_EC4es_v5" 8 4 6400 6400 138 138);
  ("standard_f48s_v2", MkNodeInfo "Standard_F48s_v2" 32 48 76800 76800 1098 1098);
  ("standard_m16-8ms", MkNodeInfo "Standard_M16-8ms" 16 16 10000 10000 238 238);
  ("standard_d32_v4", MkNodeInfo "Standard_D32_v4" 32 32 51200 51200 732 732);
  ("standard_d48ds_v5", MkNodeInfo "Standard_D48ds_v5" 32 48 76800 76800 1254 1254);
  ("standard_e32-8s_v4", MkNodeInfo "Standard_E32-8s_v4" 32 32 51200 51200 732 732);
  ("standard_fx48mds", MkNodeInfo "Standard_FX48mds" 32 48 80000 80000 1200 1200);
  ("basic_a4", MkNodeInfo "Basic_A4" 16 8 500 500 3 3);
  ("standard_e2ads_v6", MkNodeInfo "Standard_E2ads_v6" 4 2 4000 4000 85 85);
  ("standard_gs1", MkNodeInfo "Standard_GS1" 8 2 5000 5000 119 119);
  ("standard_m12ds_v3", MkNodeInfo "Standard_M12ds_v3" 64 12 16250 16250 371 371);
  ("standard_m8ms", MkNodeInfo "Standard_M8ms" 8 8 5000 5000 119 119);
  ("standard_nd96isrf_h100_v5", MkNodeInfo "Standard_ND96isrf_H100_v5" 16 96 80000 80000 1144 1144);
  ("standard_a1", MkNodeInfo "Standard_A1" 2 1 1600 1600 22 22);
  ("standard_e8-2ds_v6", MkNodeInfo "Standard_E8-2ds_v6" 24 8 12800 12800 404 404);
  ("standard_dc8eds_v5", MkNodeInfo "Standard_DC8eds_v5" 16 8 12800 12800 276 276);
  ("standard_e4s_v3", MkNodeInfo "Standard_E4s_v3" 8 4 6400 6400 91 91);
  ("standard_b2ats_v2", MkNodeInfo "Standard_B2ats_v2" 4 2 3750 3750 81 81);
  ("standard_d64as_v5", MkNodeInfo "Standard_D64as_v5" 32 64 80000 80000 1144 1144);
  ("standard_d48ls_v6", MkNodeInfo "Standard_D48ls_v6" 64 48 76800 76800 2426 2426)].
(** [optimization/azure_skus_map.go NodeInfoMap 857-1006] *)
Definition node_table_6 : list (string * NodeInfo) := [
  ("standard_nd96amsr_a100_v4", MkNodeInfo "Standard_ND96amsr_A100_v4" 16 96 80000 80000 1171 1171);
  ("standard_hb120-96rs_v2", MkNodeInfo "Standard_HB120-96rs_v2" 32 120 80000 80000 1907 1907);
  ("standard_hb176-96rs_v4", MkNodeInfo "Standard_HB176-96rs_v4" 32 176 80000 80000 1907 1907);
  ("standard_dc1s_v3", MkNodeInfo "Standard_DC1s_v3" 4 1 1600 1600 24 24);
  ("standard_e8-4s_v3", MkNodeInfo "Standard_E8-4s_v3" 16 8 12800 12800 183 183);
  ("standard_ec20ads_v5", MkNodeInfo "Standard_EC20ads_v5" 32 20 32000 32000 457 457);
  ("standard_b12ms", MkNodeInfo "Standard_B12ms" 16 12 4320 4320 47 47);
  ("standard_d8pls_v6", MkNodeInfo "Standard_D8pls_v6" 24 8 12800 12800 404 404);
  ("standard_nv36ads_a10_v5", MkNodeInfo "Standard_NV36ads_A10_v5" 32 36 51200 51200 732 732);
  ("standard_d48as_v5", MkNodeInfo "Standard_D48as_v5" 32 48 76800 76800 1098 1098);
  ("standard_f16ams_v6", MkNodeInfo "Standard_F16ams_v6" 32 16 30400 30400 686 686);
  ("standard_l48as_v3", MkNodeInfo "Standard_L48as_v3" 32 48 76800 76800 1098 1098);
  ("standard_nv48s_v3", MkNodeInfo "Standard_NV48s_v3" 32 48 80000 80000 1144 1144);
  ("standard_d32pds_v5", MkNodeInfo "Standard_D32pds_v5" 32 32 51200 51200 824 824);
  ("standard_d64ads_v6", MkNodeInfo "Standard_D64ads_v6" 32 64 115200 115200 2746 2746);
  ("standard_dc48as_v5", MkNodeInfo "Standard_DC48as_v5" 32 48 76800 76800 1098 1098);
  ("standard_e20_v3", MkNodeInfo "Standard_E20_v3" 32 20 32000 32000 457 457);
  ("standard_e8-4s_v6", MkNodeInfo "Standard_E8-4s_v6" 24 8 12800 12800 404 404);
  ("standard_e96-24s_v6", MkNodeInfo "Standard_E96-24s_v6" 64 96 153600 153600 4852 4852);
  ("standard_e96-48ds_v5", MkNodeInfo "Standard_E96-48ds_v5" 32 96 80000 80000 2479 2479);
  ("standard_e96s_v6", MkNodeInfo "Standard_E96s_v6" 64 96 153600 153600 4852 4852);
  ("standard_d16lds_v5", MkNodeInfo "Standard_D16lds_v5" 32 16 25600 25600 572 572);
  ("standard_d48pls_v6", MkNodeInfo "Standard_D48pls_v6" 64 48 76800 76800 2426 2426);
  ("standard_f4als_v6", MkNodeInfo "Standard_F4als_v6" 8 4 7600 7600 171 171);
  ("standard_hb120-64rs_v3", MkNodeInfo "Standard_HB120-64rs_v3" 32 120 80000 80000 1907 1907);
  ("standard_dc16ads_cc_v5", MkNodeInfo "Standard_DC16ads_cc_v5" 32 16 25600 25600 600 600);
  ("standard_e64i_v3", MkNodeInfo "Standard_E64i_v3" 32 64 80000 80000 1144 1144);
  ("standard_d96ads_v5", MkNodeInfo "Standard_D96ads_v5" 32 96 80000 80000 1525 1525);
  ("standard_m208ms_v2", MkNodeInfo "Standard_M208ms_v2" 64 208 40000 40000 953 953);
  ("standard_m176bds_4_v3", MkNodeInfo "Standard_M176bds_4_v3" 64 176 265000 265000 9536 9536);
  ("standard_b2pls_v2", MkNodeInfo "Standard_B2pls_v2" 4 2 3750 3750 81 81);
  ("standard_d4_v4", MkNodeInfo "Standard_D4_v4" 8 4 6400 6400 91 91);
  ("standard_e4ps_v6", MkNodeInfo "Standard_E4ps_v6" 12 4 6400 6400 202 202);
  ("standard_b16ps_v2", MkNodeInfo "Standard_B16ps_v2" 32 16 25600 25600 572 572);
  ("standard_d2pds_v6", MkNodeInfo "Standard_D2pds_v6" 8 2 3750 3750 101 101);
  ("standard_e20ds_v6", MkNodeInfo "Standard_E20ds_v6" 48 20 32000 32000 1010 1010);
  ("standard_f8s", MkNodeInfo "Standard_F8s" 32 8 25600 25600 366 366);
  ("standard_d2s_v4", MkNodeInfo "Standard_D2s_v4" 4 2 3200 3200 45 45);
  ("standard_dc2eds_v5", MkNodeInfo "Standard_DC2eds_v5" 4 2 3750 3750 81 81);
  ("standard_d96lds_v6", MkNodeInfo "Standard_D96lds_v6" 64 96 153600 153600 4852 4852);
  ("standard_e96-48ads_v5", MkNodeInfo "Standard_E96-48ads_v5" 32 96 80000 80000 1525 1525);
  ("standard_m416s_6_v3", MkNodeInfo "Standard_M416s_6_v3" 64 416 130000 130000 3814 3814);
  ("standard_b4ls_v2", MkNodeInfo "Standard_B4ls_v2" 8 4 6400 6400 138 138);
  ("standard_d48ds_v4", MkNodeInfo "Standard_D48ds_v4" 32 48 76800 76800 1098 1098);
  ("standard_e48ads_v5", MkNodeInfo "Standard_E48ads_v5" 32 48 76800 76800 1098 1098);
  ("standard_ec2eds_v5", MkNodeInfo "Standard_EC2eds_v5" 4 2 3750 3750 81 81);
  ("standard_nv12ads_v710_v5", MkNodeInfo "Standard_NV12ads_V710_v5" 6 12 22800 22800 514 514);
  ("standard_dc8ads_v5", MkNodeInfo "Standard_DC8ads_v5" 16 8 12800 12800 183 183);
  ("standard_e32-8ds_v5", MkNodeInfo "Standard_E32-8ds_v5" 32 32 51200 51200 824 824);
  ("standard_e32s_v5", MkNodeInfo "Standard_E32s_v5" 32 32 51200 51200 824 824);
  ("standard_e48darm_v3", MkNodeInfo "Standard_E48darm_V3" 32 48 120000 120000 1167 1167);
  ("standard_e64as_v6", MkNodeInfo "Standard_E64as_v6" 32 64 115200 115200 2746 2746);
  ("standard_e96_v5", MkNodeInfo "Standard_E96_v5" 32 96 80000 80000 2479 2479);
  ("standard_hb176-144rs_v4", MkNodeInfo "Standard_HB176-144rs_v4" 32 176 80000 80000 1907 1907);
  ("standard_a4", MkNodeInfo "Standard_A4" 16 8 12800 12800 183 183);
  ("standard_e32bds_v5", MkNodeInfo "Standard_E32bds_v5" 32 32 96800 96800 2613 2613);
  ("standard_e8-2as_v4", MkNodeInfo "Standard_E8-2as_v4" 16 8 12800 12800 183 183);
  ("standard_e32-8s_v3", MkNodeInfo "Standard_E32-8s_v3" 32 32 51200 51200 732 732);
  ("standard_e4as_v6", MkNodeInfo "Standard_E4as_v6" 8 4 7600 7600 171 171);
  ("standard_e2as_v6", MkNodeInfo "Standard_E2as_v6" 4 2 4000 4000 85 85);
  ("standard_m96bds_2_v3", MkNodeInfo "Standard_M96bds_2_v3" 64 96 130000 130000 7629 7629);
  ("basic_a1", MkNodeInfo "Basic_A1" 2 1 500 500 3 3);
  ("standard_d16ads_v6", MkNodeInfo "Standard_D16ads_v6" 32 16 30400 30400 686 686);
  ("standard_e20pds_v5", MkNodeInfo "Standard_E20pds_v5" 32 20 32000 32000 715 715);
  ("standard_e32pds_v5", MkNodeInfo "Standard_E32pds_v5" 32 32 51200 51200 824 824);
  ("standard_e4d_v4", MkNodeInfo "Standard_E4d_v4" 8 4 6400 6400 91 91);
  ("standard_ec96iads_v5", MkNodeInfo "Standard_EC96iads_v5" 32 96 80000 80000 1144 1144);
  ("standard_d16a_v4", MkNodeInfo "Standard_D16a_v4" 32 16 25600 25600 366 366);
  ("standard_d32s_v3", MkNodeInfo "Standard_D32s_v3" 32 32 51200 51200 732 732);
  ("standard_m64ds_v2", MkNodeInfo "Standard_M64ds_v2" 64 64 40000 40000 953 953);
  ("standard_ec128es_v5", MkNodeInfo "Standard_EC128es_v5" 32 128 80000 80000 2479 2479);
  ("standard_m16bs_v3", MkNodeInfo "Standard_M16bs_v3" 64 16 44000 44000 953 953);
  ("standard_e64-16s_v5", MkNodeInfo "Standard_E64-16s_v5" 32 64 80000 80000 1654 1654);
  ("standard_hb120rs_v2", MkNodeInfo "Standard_HB120rs_v2" 32 120 80000 80000 1907 1907);
  ("standard_l48s_v2", MkNodeInfo "Standard_L48s_v2" 32 48 48000 48000 960 960);
  ("standard_m96s_2_v3", MkNodeInfo "Standard_M96s_2_v3" 64 96 130000 130000 2975 2975);
  ("standard_a5", MkNodeInfo "Standard_A5" 4 2 3200 3200 45 45);
  ("standard_ds12_v2_promo", MkNodeInfo "Standard_DS12_v2_Promo" 16 4 12800 12800 183 183);
  ("standard_d96ads_v6", MkNodeInfo "Standard_D96ads_v6" 32 96 172800 172800 4119 4119);
  ("standard_e32_v4", MkNodeInfo "Standard_E32_v4" 32 32 51200 51200 732 732);
  ("standard_f8ams_v6", MkNodeInfo "Standard_F8ams_v6" 16 8 15200 15200 343 343);
  ("standard_d4pls_v6", MkNodeInfo "Standard_D4pls_v6" 12 4 6400 6400 202 202);
  ("standard_d64as_v4", MkNodeInfo "Standard_D64as_v4" 32 64 80000 80000 1144 1144);
  ("standard_e32ads_v6", MkNodeInfo "Standard_E32ads_v6" 32 32 57600 57600 1373 1373);
  ("standard_e64s_v6", MkNodeInfo "Standard_E64s_v6" 64 64 102400 102400 3234 3234);
  ("standard_e96-48s_v6", MkNodeInfo "Standard_E96-48s_v6" 64 96 153600 153600 4852 4852);
  ("standard_g2", MkNodeInfo "Standard_G2" 16 4 10000 10000 238 238);
  ("standard_nc16as_t4_v3", MkNodeInfo "Standard_NC16as_T4_v3" 32 16 48000 48000 703 703);
  ("standard_b4as_v2", MkNodeInfo "Standard_B4as_v2" 8 4 6400 6400 138 138);
  ("standard_d64plds_v5", MkNodeInfo "Standard_D64plds_v5" 32 64 80000 80000 1654 1654);
  ("standard_f8", MkNodeInfo "Standard_F8" 32 8 25600 25600 366 366);
  ("standard_d4pds_v5", MkNodeInfo "Standard_D4pds_v5" 8 4 6400 6400 138 138);
  ("standard_d96as_v6", MkNodeInfo "Standard_D96as_v6" 32 96 172800 172800 4119 4119);
  ("standard_d16s_v5", MkNodeInfo "Standard_D16s_v5" 32 16 25600 25600 572 572);
  ("standard_ec48ads_cc_v5", MkNodeInfo "Standard_EC48ads_cc_v5" 32 48 76800 76800 1315 1315);
  ("standard_d32_v5", MkNodeInfo "Standard_D32_v5" 32 32 51200 51200 824 824);
  ("standard_d96as_v4", MkNodeInfo "Standard_D96as_v4" 32 96 80000 80000 1144 1144);
  ("standard_f32als_v6", MkNodeInfo "Standard_F32als_v6" 32 32 57600 57600 1373 1373);
  ("standard_m128ds_v2", MkNodeInfo "Standard_M128ds_v2" 64 128 80000 80000 1907 1907);
  ("standard_m128ms", MkNodeInfo "Standard_M128ms" 64 128 80000 80000 1907 1907);
  ("standard_b8as_v2", MkNodeInfo "Standard_B8as_v2" 16 8 12800 12800 276 276);
  ("standard_d32plds_v5", MkNodeInfo "Standard_D32plds_v5" 32 32 51200 51200 824 824);
  ("standard_nv6s_v2", MkNodeInfo "Standard_NV6s_v2" 12 6 20000 20000 286 286);
  ("standard_dc2ads_v5", MkNodeInfo "Standard_DC2ads_v5" 4 2 3750 3750 45 45);
  ("standard_l80s_v3", MkNodeInfo "Standard_L80s_v3" 32 80 80000 80000 2059 2059);
  ("standard_d32ps_v6", MkNodeInfo "Standard_D32ps_v6" 64 32 51200 51200 1617 1617);
  ("standard_dc2as_v5", MkNodeInfo "Standard_DC2as_v5" 4 2 3750 3750 45 45);
  ("standard_e4s_v6", MkNodeInfo "Standard_E4s_v6" 12 4 6400 6400 202 202);
  ("standard_e8_v4", MkNodeInfo "Standard_E8_v4" 16 8 12800 12800 183 183);
  ("standard_ec32as_cc_v5", MkNodeInfo "Standard_EC32as_cc_v5" 32 32 51200 51200 865 865);
  ("standard_nc12s_v3", MkNodeInfo "Standard_NC12s_v3" 24 12 40000 40000 572 572);
  ("standard_b16ms", MkNodeInfo "Standard_B16ms" 32 16 4320 4320 47 47);
  ("standard_d2ds_v4", MkNodeInfo "Standard_D2ds_v4" 4 2 3200 3200 45 45);
  ("standard_e64ds_v6", MkNodeInfo "Standard_E64ds_v6" 64 64 102400 102400 3234 3234);
  ("standard_e8-4as_v4", MkNodeInfo "Standard_E8-4as_v4" 16 8 12800 12800 183 183);
  ("standard_e96-24s_v5", MkNodeInfo "Standard_E96-24s_v5" 32 96 80000 80000 2479 2479);
  ("standard_m192is_v2", MkNodeInfo "Standard_M192is_v2" 64 192 80000 80000 1907 1907);
  ("standard_d4ds_v4", MkNodeInfo "Standard_D4ds_v4" 8 4 6400 6400 91 91);
  ("standard_d4_v5", MkNodeInfo "Standard_D4_v5" 8 4 6400 6400 138 138);
  ("standard_ds14_v2", MkNodeInfo "Standard_DS14_v2" 64 16 51200 51200 732 732);
  ("standard_e96ias_v4", MkNodeInfo "Standard_E96ias_v4" 32 96 80000 80000 1144 1144);
  ("standard_m832ids_16_v3", MkNodeInfo "Standard_M832ids_16_v3" 64 832 130000 130000 3814 3814);
  ("standard_b8pls_v2", MkNodeInfo "Standard_B8pls_v2" 16 8 12800 12800 276 276);
  ("standard_d8plds_v6", MkNodeInfo "Standard_D8plds_v6" 24 8 12800 12800 404 404);
  ("standard_e8-2s_v5", MkNodeInfo "Standard_E8-2s_v5" 16 8 12800 12800 276 276);
  ("standard_e8s_v3", MkNodeInfo "Standard_E8s_v3" 16 8 12800 12800 183 183);
  ("standard_l80s_v2", MkNodeInfo "Standard_L80s_v2" 32 80 80000 80000 1400 1400);
  ("standard_m32ls", MkNodeInfo "Standard_M32ls" 32 32 20000 20000 476 476);
  ("standard_d64_v5", MkNodeInfo "Standard_D64_v5" 32 64 80000 80000 1654 1654);
  ("standard_ds11-1_v2", MkNodeInfo "Standard_DS11-1_v2" 8 2 6400 6400 91 91);
  ("standard_d8ds_v6", MkNodeInfo "Standard_D8ds_v6" 24 8 12800 12800 404 404);
  ("standard_e16ps_v6", MkNodeInfo "Standard_E16ps_v6" 48 16 25600 25600 808 808);
  ("standard_e32-16s_v6", MkNodeInfo "Standard_E32-16s_v6" 64 32 51200 51200 1617 1617);
  ("standard_e4bs_v5", MkNodeInfo "Standard_E4bs_v5" 8 4 12100 12100 324 324);
  ("standard_ec48ads_v5", MkNodeInfo "Standard_EC48ads_v5" 32 48 76800 76800 1098 1098);
  ("standard_d2ls_v5", MkNodeInfo "Standard_D2ls_v5" 4 2 3750 3750 81 81);
  ("standard_d32als_v6", MkNodeInfo "Standard_D32als_v6" 32 32 57600 57600 1373 1373);
  ("standard_e4-2s_v6", MkNodeInfo "Standard_E4-2s_v6" 12 4 6400 6400 202 202);
  ("standard_e8pds_v5", MkNodeInfo "Standard_E8pds_v5" 16 8 12800 12800 276 276);
  ("standard_ec16ads_v5", MkNodeInfo "Standard_EC16ads_v5" 32 16 25600 25600 366 366);
  ("standard_f16als_v6", MkNodeInfo "Standard_F16als_v6" 32 16 30400 30400 686 686);
  ("standard_m24ds_v3", MkNodeInfo "Standard_M24ds_v3" 64 24 32500 32500 743 743);
  ("standard_nd96isr_h200_v5", MkNodeInfo "Standard_ND96isr_H200_v5" 16 96 80000 80000 1144 1144);
  ("standard_d2pds_v5", MkNodeInfo "Standard_D2pds_v5" 4 2 3750 3750 81 81);
  ("standard_d8ads_v6", MkNodeInfo "Standard_D8ads_v6" 16 8 15200 15200 343 343);
  ("standard_np20s", MkNodeInfo "Standard_NP20s" 16 20 40000 40000 585 585);
  ("standard_ec128ies_v5", MkNodeInfo "Standard_EC128ies_v5" 32 128 120000 120000 3814 3814);
  ("standard_hx176-48rs", MkNodeInfo "Standard_HX176-48rs" 32 176 80000 80000 1907 1907);
  ("standard_b1ls", MkNodeInfo "Standard_B1ls" 2 1 320 320 21 21);
  ("standard_b2s", MkNodeInfo "Standard_B2s" 4 2 1280 1280 21 21)].
(** [optimization/azure_skus_map.go NodeInfoMap 1007-1156] *)
Definition node_table_7 : list (string * NodeInfo) := [
  ("standard_ds13-2_v2", MkNodeInfo "Standard_DS13-2_v2" 32 8 25600 25600 366 366);
  ("standard_ds4_v2", MkNodeInfo "Standard_DS4_v2" 32 8 25600 25600 366 366);
  ("standard_e16bds_v5", MkNodeInfo "Standard_E16bds_v5" 32 16 48400 48400 1306 1306);
  ("standard_e4ads_v5", MkNodeInfo "Standard_E4ads_v5" 8 4 6400 6400 137 137);
  ("standard_f48ams_v6", MkNodeInfo "Standard_F48ams_v6" 32 48 86400 86400 2059 2059);
  ("standard_hc44-32rs", MkNodeInfo "Standard_HC44-32rs" 4 32 80000 80000 1907 1907);
  ("standard_d48ls_v5", MkNodeInfo "Standard_D48ls_v5" 32 48 76800 76800 1254 1254);
  ("standard_dc8_v2", MkNodeInfo "Standard_DC8_v2" 8 8 12800 12800 183 183);
  ("standard_nd96asr_v4", MkNodeInfo "Standard_ND96asr_v4" 16 96 80000 80000 1171 1171);
  ("standard_np40s", MkNodeInfo "Standard_NP40s" 32 40 80000 80000 1171 1171);
  ("standard_ec20ads_cc_v5", MkNodeInfo "Standard_EC20ads_cc_v5" 32 20 32000 32000 750 750);
  ("standard_f4s", MkNodeInfo "Standard_F4s" 16 4 12800 12800 183 183);
  ("standard_ec64ads_v5", MkNodeInfo "Standard_EC64ads_v5" 32 64 80000 80000 1144 1144);
  ("standard_f8als_v6", MkNodeInfo "Standard_F8als_v6" 16 8 15200 15200 343 343);
  ("standard_nv72ads_a10_v5", MkNodeInfo "Standard_NV72ads_A10_v5" 32 72 80000 80000 1144 1144);
  ("standard_d64ds_v5", MkNodeInfo "Standard_D64ds_v5" 32 64 80000 80000 1654 1654);
  ("standard_dc96ads_v5", MkNodeInfo "Standard_DC96ads_v5" 32 96 80000 80000 1144 1144);
  ("standard_m32-16ms", MkNodeInfo "Standard_M32-16ms" 32 32 20000 20000 476 476);
  ("standard_d16pls_v5", MkNodeInfo "Standard_D16pls_v5" 32 16 25600 25600 572 572);
  ("standard_f32as_v6", MkNodeInfo "Standard_F32as_v6" 32 32 57600 57600 1373 1373);
  ("standard_d16as_v4", MkNodeInfo "Standard_D16as_v4" 32 16 25600 25600 366 366);
  ("standard_e16pds_v5", MkNodeInfo "Standard_E16pds_v5" 32 16 25600 25600 572 572);
  ("standard_e64s_v5", MkNodeInfo "Standard_E64s_v5" 32 64 80000 80000 1654 1654);
  ("standard_ec128eds_v5", MkNodeInfo "Standard_EC128eds_v5" 32 128 80000 80000 2479 2479);
  ("standard_m416ms_v2", MkNodeInfo "Standard_M416ms_v2" 64 416 80000 80000 1907 1907);
  ("standard_d8_v3", MkNodeInfo "Standard_D8_v3" 16 8 12800 12800 183 183);
  ("standard_dc48eds_v5", MkNodeInfo "Standard_DC48eds_v5" 32 48 76800 76800 1254 1254);
  ("standard_d32lds_v6", MkNodeInfo "Standard_D32lds_v6" 64 32 51200 51200 1617 1617);
  ("standard_ec32ads_cc_v5", MkNodeInfo "Standard_EC32ads_cc_v5" 32 32 51200 51200 865 865);
  ("standard_gs2", MkNodeInfo "Standard_GS2" 16 4 10000 10000 238 238);
  ("standard_dc32ds_v3", MkNodeInfo "Standard_DC32ds_v3" 32 32 51200 51200 768 768);
  ("standard_ds5_v2_promo", MkNodeInfo "Standard_DS5_v2_Promo" 64 16 51200 51200 732 732);
  ("standard_d8d_v5", MkNodeInfo "Standard_D8d_v5" 16 8 12800 12800 276 276);
  ("standard_d96s_v6", MkNodeInfo "Standard_D96s_v6" 64 96 153600 153600 4852 4852);
  ("standard_b2as_v2", MkNodeInfo "Standard_B2as_v2" 4 2 3750 3750 81 81);
  ("standard_d64d_v4", MkNodeInfo "Standard_D64d_v4" 32 64 80000 80000 1144 1144);
  ("standard_e4ds_v6", MkNodeInfo "Standard_E4ds_v6" 12 4 6400 6400 202 202);
  ("standard_ec16as_v5", MkNodeInfo "Standard_EC16as_v5" 32 16 25600 25600 366 366);
  ("standard_f2as_v6", MkNodeInfo "Standard_F2as_v6" 4 2 4000 4000 85 85);
  ("standard_dc64as_v5", MkNodeInfo "Standard_DC64as_v5" 32 64 80000 80000 1144 1144);
  ("standard_e16ads_v5", MkNodeInfo "Standard_E16ads_v5" 32 16 25600 25600 366 366);
  ("standard_e4-2ds_v4", MkNodeInfo "Standard_E4-2ds_v4" 8 4 6400 6400 91 91);
  ("standard_l16as_v3", MkNodeInfo "Standard_L16as_v3" 32 16 25600 25600 366 366);
  ("standard_d48as_v4", MkNodeInfo "Standard_D48as_v4" 32 48 76800 76800 1098 1098);
  ("standard_d96ds_v6", MkNodeInfo "Standard_D96ds_v6" 64 96 153600 153600 4852 4852);
  ("standard_dc16ads_v5", MkNodeInfo "Standard_DC16ads_v5" 32 16 25600 25600 366 366);
  ("standard_e64-32ds_v4", MkNodeInfo "Standard_E64-32ds_v4" 32 64 80000 80000 1144 1144);
  ("standard_e8-4ads_v5", MkNodeInfo "Standard_E8-4ads_v5" 16 8 12800 12800 190 190);
  ("standard_b2pts_v2", MkNodeInfo "Standard_B2pts_v2" 4 2 3750 3750 81 81);
  ("standard_d4s_v4", MkNodeInfo "Standard_D4s_v4" 8 4 6400 6400 91 91);
  ("standard_m128", MkNodeInfo "Standard_M128" 64 128 80000 80000 1907 1907);
  ("standard_nd96ams_a100_v4", MkNodeInfo "Standard_ND96ams_A100_v4" 16 96 80000 80000 1171 1171);
  ("standard_ds4", MkNodeInfo "Standard_DS4" 32 8 25600 25600 244 244);
  ("standard_e4ps_v5", MkNodeInfo "Standard_E4ps_v5" 8 4 6400 6400 138 138);
  ("standard_e64-16as_v4", MkNodeInfo "Standard_E64-16as_v4" 32 64 80000 80000 1144 1144);
  ("standard_e96-24ads_v5", MkNodeInfo "Standard_E96-24ads_v5" 32 96 80000 80000 1525 1525);
  ("standard_f32s_v2", MkNodeInfo "Standard_F32s_v2" 32 32 51200 51200 732 732);
  ("standard_nv4as_v4", MkNodeInfo "Standard_NV4as_v4" 8 4 6400 6400 91 91);
  ("standard_e20d_v5", MkNodeInfo "Standard_E20d_v5" 32 20 32000 32000 715 715);
  ("standard_e32-16s_v4", MkNodeInfo "Standard_E32-16s_v4" 32 32 51200 51200 732 732);
  ("standard_e16_v3", MkNodeInfo "Standard_E16_v3" 32 16 25600 25600 366 366);
  ("standard_e64-32ds_v6", MkNodeInfo "Standard_E64-32ds_v6" 64 64 102400 102400 3234 3234);
  ("standard_e64ads_v6", MkNodeInfo "Standard_E64ads_v6" 32 64 115200 115200 2746 2746);
  ("standard_fx12mds", MkNodeInfo "Standard_FX12mds" 24 12 20000 20000 300 300);
  ("standard_hb120-96rs_v3", MkNodeInfo "Standard_HB120-96rs_v3" 32 120 80000 80000 1907 1907);
  ("standard_dc4as_v5", MkNodeInfo "Standard_DC4as_v5" 8 4 6400 6400 91 91);
  ("standard_dc64ads_cc_v5", MkNodeInfo "Standard_DC64ads_cc_v5" 32 64 80000 80000 1735 1735);
  ("standard_e32ds_v5", MkNodeInfo "Standard_E32ds_v5" 32 32 51200 51200 824 824);
  ("standard_f16", MkNodeInfo "Standard_F16" 64 16 51200 51200 732 732);
  ("standard_d16ls_v5", MkNodeInfo "Standard_D16ls_v5" 32 16 25600 25600 572 572);
  ("standard_ds4_v2_promo", MkNodeInfo "Standard_DS4_v2_Promo" 32 8 25600 25600 366 366);
  ("standard_d64lds_v5", MkNodeInfo "Standard_D64lds_v5" 32 64 80000 80000 1654 1654);
  ("standard_e16ads_v6", MkNodeInfo "Standard_E16ads_v6" 32 16 30400 30400 686 686);
  ("standard_e2ps_v6", MkNodeInfo "Standard_E2ps_v6" 8 2 3750 3750 101 101);
  ("standard_e8-4ds_v5", MkNodeInfo "Standard_E8-4ds_v5" 32 8 12800 12800 276 276);
  ("standard_m128bs_v3", MkNodeInfo "Standard_M128bs_v3" 64 128 265000 265000 3814 3814);
  ("standard_b16as_v2", MkNodeInfo "Standard_B16as_v2" 32 16 25600 25600 572 572);
  ("standard_b8ms", MkNodeInfo "Standard_B8ms" 16 8 4320 4320 47 47);
  ("standard_d13_v2_promo", MkNodeInfo "Standard_D13_v2_Promo" 32 8 25600 25600 366 366);
  ("standard_e8ds_v4", MkNodeInfo "Standard_E8ds_v4" 16 8 12800 12800 183 183);
  ("standard_e32bs_v5", MkNodeInfo "Standard_E32bs_v5" 32 32 96800 96800 2613 2613);
  ("standard_e96-24as_v5", MkNodeInfo "Standard_E96-24as_v5" 32 96 80000 80000 1525 1525);
  ("standard_e8-4s_v5", MkNodeInfo "Standard_E8-4s_v5" 32 8 12800 12800 276 276);
  ("standard_f2s", MkNodeInfo "Standard_F2s" 8 2 6400 6400 91 91);
  ("standard_d4as_v5", MkNodeInfo "Standard_D4as_v5" 8 4 6400 6400 137 137);
  ("standard_d4ps_v5", MkNodeInfo "Standard_D4ps_v5" 8 4 6400 6400 138 138);
  ("standard_d48als_v6", MkNodeInfo "Standard_D48als_v6" 32 48 86400 86400 2059 2059);
  ("standard_e20s_v3", MkNodeInfo "Standard_E20s_v3" 32 20 32000 32000 457 457);
  ("standard_e64-16s_v6", MkNodeInfo "Standard_E64-16s_v6" 64 64 102400 102400 3234 3234);
  ("standard_e96ps_v6", MkNodeInfo "Standard_E96ps_v6" 64 96 153600 153600 4768 4768);
  ("standard_d12_v2", MkNodeInfo "Standard_D12_v2" 16 4 12800 12800 183 183);
  ("standard_d1_v2", MkNodeInfo "Standard_D1_v2" 4 1 3200 3200 45 45);
  ("standard_e112ias_v5", MkNodeInfo "Standard_E112ias_v5" 64 112 120000 120000 3814 3814);
  ("standard_l8s", MkNodeInfo "Standard_L8s" 32 8 10000 10000 238 238);
  ("basic_a0", MkNodeInfo "Basic_A0" 1 1 500 500 3 3);
  ("standard_d8s_v3", MkNodeInfo "Standard_D8s_v3" 16 8 12800 12800 183 183);
  ("standard_e8s_v4", MkNodeInfo "Standard_E8s_v4" 16 8 12800 12800 183 183);
  ("standard_hc44-16rs", MkNodeInfo "Standard_HC44-16rs" 4 16 80000 80000 1907 1907);
  ("standard_d64ls_v6", MkNodeInfo "Standard_D64ls_v6" 64 64 102400 102400 3234 3234);
  ("standard_ds12_v2", MkNodeInfo "Standard_DS12_v2" 16 4 12800 12800 183 183);
  ("standard_f2", MkNodeInfo "Standard_F2" 8 2 6400 6400 91 91);
  ("standard_m8-2ms", MkNodeInfo "Standard_M8-2ms" 8 8 5000 5000 119 119);
  ("standard_m832s_12_v3", MkNodeInfo "Standard_M832s_12_v3" 64 832 130000 130000 3814 3814);
  ("standard_m96bds_v3", MkNodeInfo "Standard_M96bds_v3" 64 96 265000 265000 3814 3814);
  ("standard_dc2es_v5", MkNodeInfo "Standard_DC2es_v5" 4 2 3750 3750 81 81);
  ("standard_e32s_v3", MkNodeInfo "Standard_E32s_v3" 32 32 51200 51200 732 732);
  ("standard_e8-2ads_v5", MkNodeInfo "Standard_E8-2ads_v5" 16 8 12800 12800 190 190);
  ("standard_np10s", MkNodeInfo "Standard_NP10s" 8 10 20000 20000 292 292);
  ("standard_ds13_v2", MkNodeInfo "Standard_DS13_v2" 32 8 25600 25600 366 366);
  ("standard_e48d_v4", MkNodeInfo "Standard_E48d_v4" 32 48 76800 76800 1098 1098);
  ("standard_d16s_v4", MkNodeInfo "Standard_D16s_v4" 32 16 25600 25600 366 366);
  ("standard_d64s_v6", MkNodeInfo "Standard_D64s_v6" 64 64 102400 102400 3234 3234);
  ("standard_ds11", MkNodeInfo "Standard_DS11" 8 2 6400 6400 61 61);
  ("standard_ds14-4_v2", MkNodeInfo "Standard_DS14-4_v2" 64 16 51200 51200 732 732);
  ("standard_e16-4as_v5", MkNodeInfo "Standard_E16-4as_v5" 32 16 25600 25600 366 366);
  ("standard_e32-8s_v5", MkNodeInfo "Standard_E32-8s_v5" 32 32 51200 51200 824 824);
  ("standard_a1_v2", MkNodeInfo "Standard_A1_v2" 2 1 1600 1600 22 22);
  ("standard_a2", MkNodeInfo "Standard_A2" 4 2 3200 3200 45 45);
  ("standard_ncc40ads_h100_v5", MkNodeInfo "Standard_NCC40ads_H100_v5" 8 40 30000 30000 976 976);
  ("standard_e48pds_v6", MkNodeInfo "Standard_E48pds_v6" 64 48 76800 76800 2426 2426);
  ("standard_e4darm_v3", MkNodeInfo "Standard_E4darm_V3" 8 4 12800 12800 183 183);
  ("standard_d96plds_v6", MkNodeInfo "Standard_D96plds_v6" 64 96 153600 153600 4768 4768);
  ("standard_e16ds_v6", MkNodeInfo "Standard_E16ds_v6" 48 16 25600 25600 808 808);
  ("standard_e48d_v5", MkNodeInfo "Standard_E48d_v5" 32 48 76800 76800 1254 1254);
  ("standard_e8-2s_v6", MkNodeInfo "Standard_E8-2s_v6" 24 8 12800 12800 404 404);
  ("standard_d2alds_v6", MkNodeInfo "Standard_D2alds_v6" 4 2 4000 4000 85 85);
  ("standard_d64ps_v6", MkNodeInfo "Standard_D64ps_v6" 64 64 102400 102400 3234 3234);
  ("standard_e64-16as_v5", MkNodeInfo "Standard_E64-16as_v5" 32 64 80000 80000 1144 1144);
  ("standard_e96-48as_v4", MkNodeInfo "Standard_E96-48as_v4" 32 96 80000 80000 1144 1144);
  ("standard_ds15_v2", MkNodeInfo "Standard_DS15_v2" 64 20 64000 64000 915 915);
  ("standard_e4ads_v6", MkNodeInfo "Standard_E4ads_v6" 8 4 7600 7600 171 171);
  ("standard_nv24s_v3", MkNodeInfo "Standard_NV24s_v3" 24 24 40000 40000 572 572);
  ("standard_d3_v2_promo", MkNodeInfo "Standard_D3_v2_Promo" 16 4 12800 12800 183 183);
  ("standard_e16-8ds_v5", MkNodeInfo "Standard_E16-8ds_v5" 32 16 25600 25600 572 572);
  ("standard_d4_v2", MkNodeInfo "Standard_D4_v2" 32 8 25600 25600 366 366);
  ("standard_ds11_v2_promo", MkNodeInfo "Standard_DS11_v2_Promo" 8 2 6400 6400 91 91);
  ("standard_e16ps_v5", MkNodeInfo "Standard_E16ps_v5" 32 16 25600 25600 572 572);
  ("standard_e20as_v4", MkNodeInfo "Standard_E20as_v4" 32 20 32000 32000 457 457);
  ("standard_e8d_v5", MkNodeInfo "Standard_E8d_v5" 16 8 12800 12800 276 276);
  ("standard_e96s_v5", MkNodeInfo "Standard_E96s_v5" 32 96 80000 80000 2479 2479);
  ("standard_a6", MkNodeInfo "Standard_A6" 8 4 6400 6400 91 91);
  ("standard_d32ds_v6", MkNodeInfo "Standard_D32ds_v6" 64 32 51200 51200 1617 1617);
  ("standard_e104i_v5", MkNodeInfo "Standard_E104i_v5" 64 104 120000 120000 3814 3814);
  ("standard_e8darm_v3", MkNodeInfo "Standard_E8darm_V3" 16 8 25600 25600 366 366);
  ("standard_e32-16ds_v4", MkNodeInfo "Standard_E32-16ds_v4" 32 32 51200 51200 732 732);
  ("standard_nv24s_v2", MkNodeInfo "Standard_NV24s_v2" 32 24 80000 80000 1144 1144);
  ("standard_d64d_v5", MkNodeInfo "Standard_D64d_v5" 32 64 80000 80000 1654 1654);
  ("standard_ds3_v2", MkNodeInfo "Standard_DS3_v2" 16 4 12800 12800 183 183);
  ("standard_m128-64ms", MkNodeInfo "Standard_M128-64ms" 64 128 80000 80000 1907 1907);
  ("standard_e2darm_v3", MkNodeInfo "Standard_E2darm_V3" 4 2 6400 6400 91 91)].
(** [optimization/azure_skus_map.go NodeInfoMap 1157-1182] *)
Definition node_table_8 : list (string * NodeInfo) := [
  ("standard_ec128ieds_v5", MkNodeInfo "Standard_EC128ieds_v5" 32 128 120000 120000 3814 3814);
  ("standard_d32a_v4", MkNodeInfo "Standard_D32a_v4" 32 32 51200 51200 732 732);
  ("standard_e4-2s_v4", MkNodeInfo "Standard_E4-2s_v4" 8 4 6400 6400 91 91);
  ("standard_d96ds_v5", MkNodeInfo "Standard_D96ds_v5" 32 96 80000 80000 2479 2479);
  ("standard_e2_v5", MkNodeInfo "Standard_E2_v5" 4 2 3750 3750 81 81);
  ("standard_e32-16as_v5", MkNodeInfo "Standard_E32-16as_v5" 32 32 51200 51200 732 732);
  ("standard_m64ms", MkNodeInfo "Standard_M64ms" 64 64 40000 40000 953 953);
  ("standard_d4plds_v5", MkNodeInfo "Standard_D4plds_v5" 8 4 6400 6400 138 138);
  ("standard_d8d_v4", MkNodeInfo "Standard_D8d_v4" 16 8 12800 12800 183 183);
  ("standard_dc4as_cc_v5", MkNodeInfo "Standard_DC4as_cc_v5" 8 4 6400 6400 145 145);
  ("standard_e8ds_v5", MkNodeInfo "Standard_E8ds_v5" 16 8 12800 12800 276 276);
  ("standard_ec8eds_v5", MkNodeInfo "Standard_EC8eds_v5" 16 8 12800 12800 276 276);
  ("standard_b16ls_v2", MkNodeInfo "Standard_B16ls_v2" 32 16 25600 25600 572 572);
  ("standard_d4ads_v6", MkNodeInfo "Standard_D4ads_v6" 8 4 7600 7600 171 171);
  ("standard_ec20as_v5", MkNodeInfo "Standard_EC20as_v5" 32 20 32000 32000 457 457);
  ("standard_m416ds_8_v3", MkNodeInfo "Standard_M416ds_8_v3" 64 416 130000 130000 3814 3814);
  ("standard_e2s_v3", MkNodeInfo "Standard_E2s_v3" 4 2 3200 3200 45 45);
  ("standard_ec32es_v5", MkNodeInfo "Standard_EC32es_v5" 32 32 51200 51200 824 824);
  ("standard_nc8as_t4_v3", MkNodeInfo "Standard_NC8as_T4_v3" 16 8 48000 48000 703 703);
  ("standard_nv18ads_a10_v5", MkNodeInfo "Standard_NV18ads_A10_v5" 16 18 25600 25600 366 366);
  ("standard_d16_v4", MkNodeInfo "Standard_D16_v4" 32 16 25600 25600 366 366);
  ("standard_d2darm_v3", MkNodeInfo "Standard_D2darm_V3" 4 2 6400 6400 91 91);
  ("standard_e96bs_v5", MkNodeInfo "Standard_E96bs_v5" 32 96 120000 120000 3814 3814);
  ("standard_ec96ias_v5", MkNodeInfo "Standard_EC96ias_v5" 32 96 80000 80000 1144 1144);
  ("standard_d32ds_v4", MkNodeInfo "Standard_D32ds_v4" 32 32 51200 51200 732 732);
  ("standard_d4ls_v6", MkNodeInfo "Standard_D4ls_v6" 12 4 6400 6400 202 202)].
Definition node_table : list (string * NodeInfo) :=
  concat [node_table_1; node_table_2; node_table_3; node_table_4; node_table_5; node_table_6; node_table_7; node_table_8].
(** [optimization/azure_skus_map.go NodeInfoMap 106-106] *)
Definition NodeInfoMap : gmap string NodeInfo := list_to_map node_table.
