(* ===== verification/SkuTool.v ===== *)
(** * The generator of the SKU tables: [pkg/tool/gen-disk-skus-map.go]

    The tool reads what [az vm list-skus] printed, keeps the disk and the machine
    sizes, and prints them as the Go file that declares [DiskSkuMap] and
    [NodeInfoMap].  The decoder of the JSON text and the operating system are the
    parameters of the class [ToolIO]. *)
From stdpp Require Import gmap strings list.
From Stdlib Require Import ZArith Lia Ascii.
From S2P Require Import Prelude GoStrings GoErr Optimization SkuTables.
Local Open Scope string_scope.
Local Open Scope Z_scope.

(** ** The resources: [armcompute.ResourceSKU], whose fields are pointers *)
Record Capability := MkCapability { cap_Name : option string; cap_Value : option string }.
Record ResourceSKU := MkResourceSKU {
  sku_ResourceType : option string; sku_Name : option string; sku_Tier : option string; sku_Size : option string;
  sku_Capabilities : list (option Capability);
}.

Module cap.
Definition MaxValueOfMaxShares : string := "maxvalueofmaxshares".
Definition MaxBurstIops : string := "maxburstiops".
Definition MaxIOps : string := "maxiops".
Definition MaxBandwidthMBps : string := "maxbandwidthmbps".
Definition MaxBurstBandwidthMBps : string := "maxburstbandwidthmbps".
Definition MaxSizeGiB : string := "maxsizegib".
Definition UncachedDiskIOPS : string := "uncacheddiskiops".
Definition UncachedDiskBytesPerSecond : string := "uncacheddiskbytespersecond".
Definition MaxDataDiskCount : string := "maxdatadiskcount".
Definition VCPUs : string := "vcpus".
End cap.

(** ** Capabilities *)
Definition zero_disk (account tier size : string) : DiskSkuInfo := MkDiskSkuInfo account tier size 0 0 0 0 0 0.
(** The value of a capability, a number; a value that is missing is dereferenced. *)
Definition cap_number (who name : string) (value : option string) : res Z :=
  let? v := deref value in
  match Atoi v with
  | Some z => Ok z
  | None => Err (ENew (who +:+ name +:+ ". Error: " +:+ num_error "Atoi" v))
  end.

(** [tool/gen-disk-skus-map.go getDiskCapabilities 300-326] One round of the loop. *)
Definition disk_capability (d : DiskSkuInfo) (c : option Capability) : res DiskSkuInfo :=
  let '(MkDiskSkuInfo account tier size shares burst iops bw burstBw gib) := d in
  let? c := deref c in
  match cap_Name c with
  | None => Ok d
  | Some name =>
      let number := cap_number "GetDiskCapabilities: Failed to parse disk capability " name (cap_Value c) in
      let name := ToLower name in
      if String.eqb name cap.MaxValueOfMaxShares
      then let? z := number in Ok (MkDiskSkuInfo account tier size z burst iops bw burstBw gib)
      else if String.eqb name cap.MaxBurstIops
      then let? z := number in Ok (MkDiskSkuInfo account tier size shares z iops bw burstBw gib)
      else if String.eqb name cap.MaxIOps
      then let? z := number in Ok (MkDiskSkuInfo account tier size shares burst z bw burstBw gib)
      else if String.eqb name cap.MaxBandwidthMBps
      then let? z := number in Ok (MkDiskSkuInfo account tier size shares burst iops z burstBw gib)
      else if String.eqb name cap.MaxBurstBandwidthMBps
      then let? z := number in Ok (MkDiskSkuInfo account tier size shares burst iops bw z gib)
      else if String.eqb name cap.MaxSizeGiB
      then let? z := number in Ok (MkDiskSkuInfo account tier size shares burst iops bw burstBw z)
      else Ok d
  end.
Fixpoint fold_res {A B} (f : A → B → res A) (a : A) (l : list B) : res A :=
  match l with [] => Ok a | b :: l' => let? a' := f a b in fold_res f a' l' end.
(** A disk without burst limits has its regular ones. *)
Definition raise_disk (d : DiskSkuInfo) : DiskSkuInfo :=
  MkDiskSkuInfo (StorageAccountType d) (StorageTier d) (DiskSize d) (MaxAllowedShares d)
    (if MaxBurstIops d <? MaxIops d then MaxIops d else MaxBurstIops d) (MaxIops d) (MaxBwMbps d)
    (if MaxBurstBwMbps d <? MaxBwMbps d then MaxBwMbps d else MaxBurstBwMbps d) (MaxSizeGiB d).
(** [tool/gen-disk-skus-map.go getDiskCapabilities] *)
Definition getDiskCapabilities (sku : ResourceSKU) : res DiskSkuInfo :=
  let? name := deref (sku_Name sku) in
  let? tier := deref (sku_Tier sku) in
  let? size := deref (sku_Size sku) in
  let? d := fold_res disk_capability (zero_disk name tier size) (sku_Capabilities sku) in
  Ok (raise_disk d).

(** [tool/gen-disk-skus-map.go populateNodeCapabilities 252-277] One round of the loop. *)
Definition node_capability (n : NodeInfo) (c : option Capability) : res NodeInfo :=
  let '(MkNodeInfo sku count vcpus burst iops bw burstBw) := n in
  let? c := deref c in
  match cap_Name c with
  | None => Ok n
  | Some name =>
      let number := cap_number "PopulateNodeCapabilities: Failed to parse node capability " name (cap_Value c) in
      let name := ToLower name in
      if String.eqb name cap.UncachedDiskIOPS
      then let? z := number in Ok (MkNodeInfo sku count vcpus burst z bw burstBw)
      else if String.eqb name cap.UncachedDiskBytesPerSecond
      then let? z := number in Ok (MkNodeInfo sku count vcpus burst iops (z ÷ (1024 * 1024)) burstBw)
      else if String.eqb name cap.MaxDataDiskCount
      then let? z := number in Ok (MkNodeInfo sku z vcpus burst iops bw burstBw)
      else if String.eqb name cap.VCPUs
      then let? z := number in Ok (MkNodeInfo sku count z burst iops bw burstBw)
      else Ok n
  end.
Definition raise_node (n : NodeInfo) : NodeInfo :=
  MkNodeInfo (ni_SkuName n) (ni_MaxDataDiskCount n) (ni_VCpus n)
    (if ni_MaxBurstIops n <? ni_MaxIops n then ni_MaxIops n else ni_MaxBurstIops n) (ni_MaxIops n) (ni_MaxBwMbps n)
    (if ni_MaxBurstBwMbps n <? ni_MaxBwMbps n then ni_MaxBwMbps n else ni_MaxBurstBwMbps n).
(** [tool/gen-disk-skus-map.go populateNodeCapabilities] The fields of [nodeInfo]. *)
Definition populateNodeCapabilities (sku : ResourceSKU) (nodeInfo : NodeInfo) : res NodeInfo :=
  let? n := fold_res node_capability nodeInfo (sku_Capabilities sku) in
  Ok (raise_node n).

(** ** The tables *)
Record Tables := MkTables {
  skuMap : gset string;                             (**r the keys that were seen *)
  diskSkuInfoMap : gmap string (gmap string DiskSkuInfo);
  vmSkuInfoMap : gmap string NodeInfo;
}.
Definition no_tables : Tables := MkTables ∅ ∅ ∅.

(** [tool/gen-disk-skus-map.go main 128-142] The kind of a resource and its key. *)
Definition sku_key (sku : ResourceSKU) : res (option (bool * string)) :=
  let? resType := deref (sku_ResourceType sku) in
  if String.eqb (ToLower resType) "disks" then
    let? name := deref (sku_Name sku) in
    let? tier := deref (sku_Tier sku) in
    let? size := deref (sku_Size sku) in
    Ok (Some (true, ToLower (name +:+ "-" +:+ tier +:+ "-" +:+ size)))
  else if String.eqb (ToLower resType) "virtualmachines" then
    let? name := deref (sku_Name sku) in Ok (Some (false, ToLower name))
  else Ok None.
(** [tool/gen-disk-skus-map.go main 127-165] One resource; an error ends the process
    with the status 1. *)
Definition add_sku (t : Tables) (sku : option ResourceSKU) : res Tables :=
  let? sku := deref sku in
  let? key := sku_key sku in
  match key with
  | None => Ok t
  | Some (disk, key) =>
      if bool_decide (key ∈ skuMap t) then Ok t
      else
        let? name := deref (sku_Name sku) in
        if disk then
          let? size := deref (sku_Size sku) in
          let account := ToLower name in
          let sizes := default ∅ (diskSkuInfoMap t !! account) in
          let? d := getDiskCapabilities sku in
          Ok (MkTables ({[ key ]} ∪ skuMap t) (<[account := <[ToLower size := d]> sizes]> (diskSkuInfoMap t))
                (vmSkuInfoMap t))
        else
          let? n := populateNodeCapabilities sku (MkNodeInfo name 0 0 0 0 0 0) in
          Ok (MkTables ({[ key ]} ∪ skuMap t) (diskSkuInfoMap t) (<[ToLower name := n]> (vmSkuInfoMap t)))
  end.
Definition build_tables (resources : list (option ResourceSKU)) : res Tables := fold_res add_sku no_tables resources.

(** ** The text *)
(** A format of [fmt.Sprintf] with the verb [%s] only. *)
Inductive piece := Lit (l : string) | Verb.
Fixpoint Sprintf (f : list piece) (args : list string) : string :=
  match f, args with
  | [], _ => ""
  | Lit l :: f, _ => l +:+ Sprintf f args
  | Verb :: f, a :: args => a +:+ Sprintf f args
  | Verb :: f, [] => "%!s(MISSING)" +:+ Sprintf f []
  end.
Definition dq : string := String (ascii_of_N 34) "".
Definition tab : string := String (ascii_of_N 9) "".
Definition nl : string := String newline "".

(** [tool/gen-disk-skus-map.go main 60-79] *)
Definition boilerPlate : string :=
  "/*" +:+ nl +:+ "Copyright 2021 The Kubernetes Authors." +:+ nl +:+ tab +:+ nl +:+
  "Licensed under the Apache License, Version 2.0 (the " +:+ quote "License" +:+ ");" +:+ nl +:+
  "you may not use this file except in compliance with the License." +:+ nl +:+
  "You may obtain a copy of the License at" +:+ nl +:+ nl +:+
  "    http://www.apache.org/licenses/LICENSE-2.0" +:+ nl +:+ tab +:+ nl +:+
  "Unless required by applicable law or agreed to in writing, software" +:+ nl +:+
  "distributed under the License is distributed on an " +:+ quote "AS IS" +:+ " BASIS," +:+ nl +:+
  "WITHOUT WARRANTIES OR CONDITIONS OF ANY KIND, either express or implied." +:+ nl +:+
  "See the License for the specific language governing permissions and" +:+ nl +:+
  "limitations under the License." +:+ nl +:+ "*/" +:+ nl +:+ tab +:+ nl +:+
  "package optimization" +:+ nl +:+ tab +:+ nl +:+ "import (" +:+ nl +:+ ")".
(** [tool/gen-disk-skus-map.go main 81-89] The lines of the tables. *)
Definition diskMapStart : string := tab +:+ "DiskSkuMap = map[string]map[string]DiskSkuInfo{".
Definition diskMapEnd : string := tab +:+ "}".
Definition accStart : list piece := [Lit (tab +:+ dq); Verb; Lit (dq +:+ ": map[string]DiskSkuInfo {")].
Definition accEnd : string := tab +:+ tab +:+ "},".
Definition diskSku : list piece :=
  [Lit (tab +:+ tab +:+ dq); Verb; Lit (dq +:+ ": DiskSkuInfo{StorageAccountType: " +:+ dq); Verb;
   Lit (dq +:+ ", StorageTier: " +:+ dq); Verb; Lit (dq +:+ ", DiskSize: " +:+ dq); Verb;
   Lit (dq +:+ ", MaxAllowedShares: "); Verb; Lit ", MaxBurstIops: "; Verb; Lit ", MaxIops: "; Verb;
   Lit ", MaxBwMbps: "; Verb; Lit ", MaxBurstBwMbps: "; Verb; Lit ", MaxSizeGiB: "; Verb; Lit "},"].
Definition nodeMapStart : string := tab +:+ "NodeInfoMap = map[string]NodeInfo{".
Definition nodeLine : list piece :=
  [Lit (tab +:+ dq); Verb; Lit (dq +:+ ": NodeInfo{SkuName: " +:+ dq); Verb; Lit (dq +:+ ", MaxDataDiskCount: ");
   Verb; Lit ", VCpus: "; Verb; Lit ", MaxBurstIops: "; Verb; Lit ", MaxIops: "; Verb; Lit ", MaxBwMbps: "; Verb;
   Lit ", MaxBurstBwMbps: "; Verb; Lit "},"].
Definition nodeMapEnd : string := tab +:+ "}".

(** [tool/gen-disk-skus-map.go formatInt] *)
Definition formatInt (value : Z) : string := if value <=? 0 then "0" else Itoa value.
Definition disk_line (size : string) (d : DiskSkuInfo) : string :=
  Sprintf diskSku [size; StorageAccountType d; StorageTier d; DiskSize d; Itoa (MaxAllowedShares d);
    Itoa (MaxBurstIops d); Itoa (MaxIops d); Itoa (MaxBwMbps d); Itoa (MaxBurstBwMbps d); Itoa (MaxSizeGiB d)].
Definition node_line (vm : string) (n : NodeInfo) : string :=
  Sprintf nodeLine [vm; ni_SkuName n; Itoa (ni_MaxDataDiskCount n); Itoa (ni_VCpus n); Itoa (ni_MaxBurstIops n);
    Itoa (ni_MaxIops n); formatInt (ni_MaxBwMbps n); formatInt (ni_MaxBurstBwMbps n)].

Section tool.
  Context `{MapOrder}.

(** Each line after its newline, as the code appends them. *)
Fixpoint append_lines (l : list string) : string :=
  match l with [] => "" | x :: l => nl +:+ x +:+ append_lines l end.
  (** [tool/gen-disk-skus-map.go main 176-190] *)
Definition disk_lines (disks : gmap string (gmap string DiskSkuInfo)) : list string :=
  '(account, sizes) ← map_order disks;
  Sprintf accStart [account] :: (('(size, d) ← map_order sizes; [disk_line size d]) ++ [accEnd]).
  (** [tool/gen-disk-skus-map.go main 201-205] *)
Definition node_lines (nodes : gmap string NodeInfo) : list string :=
  '(vm, n) ← map_order nodes; [node_line vm n].
  (** [tool/gen-disk-skus-map.go main 167-210] What the builder holds. *)
Definition table_file (disks : gmap string (gmap string DiskSkuInfo)) (nodes : gmap string NodeInfo) : string :=
  boilerPlate +:+ nl +:+ nl +:+ "var (" +:+ nl +:+ diskMapStart +:+ append_lines (disk_lines disks) +:+
  nl +:+ diskMapEnd +:+ nl +:+ nl +:+ nodeMapStart +:+ append_lines (node_lines nodes) +:+
  nl +:+ nodeMapEnd +:+ nl +:+ ")" +:+ nl.

(** ** The tool *)
Class ToolIO (W : Type) := {
  tool_Getenv : string → M W string;
  tool_Stat : string → M W unit;
  tool_Create : string → M W unit;
  (** the command with its output in the file: whether it starts, how it ends *)
  tool_Start : string → list string → string → M W unit;
  tool_Wait : M W unit;
  tool_Open : string → M W unit;
  tool_ReadAll : string → M W string;       (**r what was read before an error, which is ignored *)
  tool_WriteFile : string → string → M W unit;
  tool_Remove : string → M W unit;
  unmarshal_skus : string → res (list (option ResourceSKU));
}.
  Context {W : Type} `{!ToolIO W}.
Definition skus_full : string := "skus-full.json".
  (** [tool/gen-disk-skus-map.go getAllSkus] The path of the file with the resources, and
      the error. *)
Definition getAllSkus : M W (string * option gerr) :=
  let! scenario := tool_Getenv "TEST_SCENARIO" in
  let! sample := if String.eqb scenario "true"
                 then let! r := try (tool_Stat "skus-sample.json") in
                      ret (match r with inr _ => true | inl _ => false end)
                 else ret false in
  if (sample : bool) then ret ("skus-sample.json", None)
  else
    let! r := try (let! _ := tool_Create skus_full in
                   let! _ := tool_Start "az" ["vm"; "list-skus"] skus_full in
                   tool_Wait) in
    ret (skus_full, match r with inl e => Some e | inr _ => None end).
  (** [tool/gen-disk-skus-map.go main 91-214] What is written, when it gets that far: [Err]
      is the exit with status 1, which runs no deferred call. *)
Definition tool_main : M W unit :=
  let cleanup := try (tool_Remove skus_full) in
  let! (path, _) := getAllSkus in
  let! r := try (tool_Open path) in
  match r with
  | inl _ => let! _ := cleanup in ret ()
  | inr _ =>
      let! text := tool_ReadAll path in
      match unmarshal_skus text with
      | Ok resources =>
          match build_tables resources with
          | Ok t =>
              let! _ := try (tool_WriteFile "pkg/azuredisk/azure_skus_map.go"
                               (table_file (diskSkuInfoMap t) (vmSkuInfoMap t))) in
              let! _ := cleanup in ret ()
          | Err e => fail e
          | Panic => let! _ := cleanup in panic
          end
      | Err _ => let! _ := cleanup in ret ()
      | Panic => let! _ := cleanup in panic
      end
  end.
End tool.
