(* ===== verification/SkuToolProofs.v ===== *)
(** * What the generator of the SKU tables guarantees

    Every entry has burst limits that are not below the regular ones, under keys in
    lower case; the file that is written, read as Go, declares the tables. *)
From stdpp Require Import gmap strings list.
From Stdlib Require Import ZArith Lia Ascii.
From S2P Require Import Prelude GoStrings GoErr Optimization SkuTables SkuTool.
Local Open Scope string_scope.
Local Open Scope Z_scope.

(** ** The tables *)
Definition disk_ok (account size : string) (d : DiskSkuInfo) : Prop :=
  account = ToLower (StorageAccountType d) ∧ size = ToLower (DiskSize d) ∧
  MaxIops d ≤ MaxBurstIops d ∧ MaxBwMbps d ≤ MaxBurstBwMbps d.
Definition node_ok (vm : string) (n : NodeInfo) : Prop :=
  vm = ToLower (ni_SkuName n) ∧ ni_MaxIops n ≤ ni_MaxBurstIops n ∧ ni_MaxBwMbps n ≤ ni_MaxBurstBwMbps n.
Definition tables_ok (disks : gmap string (gmap string DiskSkuInfo)) (nodes : gmap string NodeInfo) : Prop :=
  (∀ account sizes size d, disks !! account = Some sizes → sizes !! size = Some d → disk_ok account size d) ∧
  (∀ vm n, nodes !! vm = Some n → node_ok vm n).

Lemma fold_res_inv {A B} (f : A → B → res A) (P : A → Prop) l a a' :
  (∀ a b a', P a → f a b = Ok a' → P a') → fold_res f a l = Ok a' → P a → P a'.
Proof.
  intros Hf. revert a. induction l as [|b l IH]; intros a; cbn [fold_res]; [by intros [= <-]|].
  intros (a1 & H1 & H2)%res_bind_ok Ha. by eapply IH, Hf.
Qed.
(** No capability changes the names. *)
Lemma disk_capability_names d c d' :
  disk_capability d c = Ok d' → StorageAccountType d' = StorageAccountType d ∧ DiskSize d' = DiskSize d.
Proof.
  unfold disk_capability. destruct d. intros (c' & _ & Hc)%res_bind_ok. destruct (cap_Name c'); [|by injection Hc as <-].
  repeat (destruct (String.eqb _ _); [by apply res_bind_ok in Hc as (? & _ & [= <-])|]). by injection Hc as <-.
Qed.
Lemma node_capability_name n c n' : node_capability n c = Ok n' → ni_SkuName n' = ni_SkuName n.
Proof.
  unfold node_capability. destruct n. intros (c' & _ & Hc)%res_bind_ok. destruct (cap_Name c'); [|by injection Hc as <-].
  repeat (destruct (String.eqb _ _); [by apply res_bind_ok in Hc as (? & _ & [= <-])|]). by injection Hc as <-.
Qed.
Lemma getDiskCapabilities_ok sku d name size :
  sku_Name sku = Some name → sku_Size sku = Some size →
  getDiskCapabilities sku = Ok d → disk_ok (ToLower name) (ToLower size) d.
Proof.
  intros Hn Hs. unfold getDiskCapabilities. rewrite Hn, Hs. cbn [deref res_bind].
  intros (tier & _ & (d' & Hf & [= <-])%res_bind_ok)%res_bind_ok.
  assert (StorageAccountType d' = name ∧ DiskSize d' = size) as [E1 E2].
  { eapply (fold_res_inv _ (λ d, StorageAccountType d = name ∧ DiskSize d = size)); [|exact Hf|done].
    intros ? ? ? [<- <-] [-> ->]%disk_capability_names. done. }
  unfold disk_ok, raise_disk. cbn. rewrite E1, E2. split_and!; [done..| |]; case_match; lia.
Qed.
Lemma populateNodeCapabilities_ok sku name n :
  populateNodeCapabilities sku (MkNodeInfo name 0 0 0 0 0 0) = Ok n → node_ok (ToLower name) n.
Proof.
  unfold populateNodeCapabilities. intros (n' & Hf & [= <-])%res_bind_ok.
  assert (ni_SkuName n' = name) as E.
  { eapply (fold_res_inv _ (λ n, ni_SkuName n = name)); [|exact Hf|done]. by intros ? ? ? <- ?%node_capability_name. }
  unfold node_ok, raise_node. cbn. rewrite E. split_and!; [done| |]; case_match; lia.
Qed.

Lemma add_sku_ok t sku t' :
  tables_ok (diskSkuInfoMap t) (vmSkuInfoMap t) → add_sku t sku = Ok t' →
  tables_ok (diskSkuInfoMap t') (vmSkuInfoMap t').
Proof.
  intros [Hd Hn] (s & _ & (key & Hk & Ha)%res_bind_ok)%res_bind_ok.
  destruct key as [[disk key]|]; [|by injection Ha as <-]. case_bool_decide; [by injection Ha as <-|].
  apply res_bind_ok in Ha as (name & Hname & Ha). destruct (sku_Name s) as [nm|] eqn:En; [|done]. injection Hname as <-.
  destruct disk.
  - apply res_bind_ok in Ha as (size & Hsize & Ha). destruct (sku_Size s) as [sz|] eqn:Es; [|done]. injection Hsize as <-.
    apply res_bind_ok in Ha as (d & Hg & [= <-]). split; [|exact Hn]. cbn. intros account sizes k d' Ha Hk'.
    apply lookup_insert_Some in Ha as [[<- <-]|[_ Ha]]; [|by eapply Hd].
    apply lookup_insert_Some in Hk' as [[<- <-]|[_ Hk']]; [by eapply getDiskCapabilities_ok|].
    destruct (diskSkuInfoMap t !! ToLower nm) as [sizes|] eqn:El; [by eapply Hd|done].
  - apply res_bind_ok in Ha as (n & Hp & [= <-]). split; [exact Hd|]. cbn. intros vm n' Hv.
    apply lookup_insert_Some in Hv as [[<- <-]|[_ Hv]]; [by eapply populateNodeCapabilities_ok|by apply Hn].
Qed.

(** The tables that are built have lower-case keys and burst limits that are not below
    the regular ones. *)
Theorem build_tables_ok resources t :
  build_tables resources = Ok t → tables_ok (diskSkuInfoMap t) (vmSkuInfoMap t).
Proof.
  intros Hb. eapply (fold_res_inv add_sku (λ t, tables_ok (diskSkuInfoMap t) (vmSkuInfoMap t))); [|exact Hb|].
  - intros ? ? ? Ht Ha. by eapply add_sku_ok.
  - split; [intros ? ? ? ? Hl|intros ? ? Hl]; cbn in Hl; by rewrite lookup_empty in Hl.
Qed.

(** *** The tables that are shipped *)
Definition disk_okb (account size : string) (d : DiskSkuInfo) : bool :=
  String.eqb account (ToLower (StorageAccountType d)) && String.eqb size (ToLower (DiskSize d)) &&
  (MaxIops d <=? MaxBurstIops d) && (MaxBwMbps d <=? MaxBurstBwMbps d).
Definition node_okb (vm : string) (n : NodeInfo) : bool :=
  String.eqb vm (ToLower (ni_SkuName n)) && (ni_MaxIops n <=? ni_MaxBurstIops n) &&
  (ni_MaxBwMbps n <=? ni_MaxBurstBwMbps n).
Lemma list_to_map_all {A} (P : string → A → bool) (l : list (string * A)) k a :
  forallb (λ e, P e.1 e.2) l = true → (list_to_map l : gmap string A) !! k = Some a → P k a = true.
Proof. intros Hall Hl. apply elem_of_list_to_map_2, list_elem_of_In in Hl. by rewrite forallb_forall in Hall; apply (Hall (k, a)). Qed.
Lemma shipped_disks_ok :
  forallb (λ e, forallb (λ x, disk_okb e.1 x.1 x.2) e.2) disk_table = true.
Proof. vm_compute. reflexivity. Qed.
Lemma shipped_nodes_ok : forallb (λ e, node_okb e.1 e.2) node_table = true.
Proof. vm_compute. reflexivity. Qed.
#[local] Opaque disk_table node_table.
(** The tables that are shipped are such tables. *)
Theorem shipped_tables_ok : tables_ok DiskSkuMap NodeInfoMap.
Proof.
  split.
  - intros account sizes size d Ha Hs. unfold DiskSkuMap in Ha.
    apply elem_of_list_to_map_2, list_elem_of_fmap in Ha as ([a l] & [= -> ->] & Hin).
    pose proof shipped_disks_ok as Hall. rewrite forallb_forall in Hall.
    apply list_elem_of_In in Hin. specialize (Hall _ Hin). cbn in Hall.
    apply (list_to_map_all (disk_okb a) l size d Hall) in Hs. unfold disk_okb in Hs. bool_split.
    unfold disk_ok. split_and!; first [done | lia].
  - intros vm n Hv. apply (list_to_map_all node_okb _ _ _ shipped_nodes_ok) in Hv. unfold node_okb in Hv. bool_split.
    unfold node_ok. split_and!; first [done | lia].
Qed.

(** ** The file, read as Go *)
(** The values of the verbs of a line; a value ends before the first byte of what
    follows its verb. *)
Fixpoint Sscan (f : list piece) (s : string) : option (list string) :=
  match f with
  | [] => if String.eqb s "" then Some [] else None
  | Lit l :: f => if HasPrefix s l then Sscan f (str_drop (String.length l) s) else None
  | Verb :: f' =>
      match f' with
      | Lit (String c _) :: _ =>
          match cut s (String c "") with
          | Some (a, b) => cons a <$> Sscan f' (String c b)
          | None => None
          end
      | _ => None
      end
  end.
(** The bytes that end a value. *)
Definition stops : list ascii := [ascii_of_N 34; ","%char; "}"%char].
Definition clean (a : string) : bool :=
  forallb (λ c, negb (has_byte c a)) (newline :: stops).
Fixpoint readable (f : list piece) : bool :=
  match f with
  | [] => true
  | Lit _ :: f => readable f
  | Verb :: f' => match f' with
                  | Lit (String c _) :: _ => existsb (Ascii.eqb c) stops && readable f'
                  | _ => false
                  end
  end.
Fixpoint verbs (f : list piece) : nat :=
  match f with [] => 0 | Lit _ :: f => verbs f | Verb :: f => S (verbs f) end.

Lemma clean_stop c a : c ∈ stops → clean a = true → has_byte c a = false.
Proof.
  intros Hc Ha. unfold clean in Ha. cbn [forallb] in Ha. apply andb_prop in Ha as [_ Ha]. rewrite forallb_forall in Ha.
  by apply negb_true_iff, Ha, list_elem_of_In.
Qed.
Lemma Sscan_Verb c l f s :
  Sscan (Verb :: Lit (String c l) :: f) s =
  match cut s (String c "") with
  | Some (a, b) => cons a <$> Sscan (Lit (String c l) :: f) (String c b)
  | None => None
  end.
Proof. done. Qed.
Lemma Sprintf_Lit c l f args :
  Sprintf (Lit (String c l) :: f) args = String c (l +:+ Sprintf f args).
Proof. done. Qed.
Lemma Sscan_Sprintf f args :
  readable f = true → Forall (λ a, clean a = true) args → length args = verbs f → Sscan f (Sprintf f args) = Some args.
Proof.
  revert args. induction f as [|[l|] f IH]; intros args Hf Ha Hl.
  - by destruct args.
  - cbn [Sscan Sprintf]. rewrite HasPrefix_app, str_drop_app. by apply IH.
  - destruct args as [|a args]; [done|]. apply Forall_cons in Ha as [Ha Has]. injection Hl as Hl.
    destruct f as [|[[|c l]|] f]; try done. cbn [readable] in Hf. apply andb_prop in Hf as [Hc Hf].
    rewrite Sscan_Verb. change (Sprintf (Verb :: ?g) (a :: args)) with (a +:+ Sprintf g args).
    rewrite Sprintf_Lit, cut_byte.
    + rewrite <-Sprintf_Lit. by rewrite IH.
    + apply existsb_exists in Hc as (d & Hd & E%Ascii.eqb_eq). subst d. apply clean_stop; [by apply list_elem_of_In|done].
Qed.

(** The lines of the three kinds, read. *)
Definition read_disk (line : string) : option (string * DiskSkuInfo) :=
  match Sscan diskSku line with
  | Some [size; account; tier; disk; shares; burst; iops; bw; burstBw; gib] =>
      match parse_signed shares, parse_signed burst, parse_signed iops, parse_signed bw, parse_signed burstBw,
            parse_signed gib with
      | Some shares, Some burst, Some iops, Some bw, Some burstBw, Some gib =>
          Some (size, MkDiskSkuInfo account tier disk shares burst iops bw burstBw gib)
      | _, _, _, _, _, _ => None
      end
  | _ => None
  end.
Definition read_node (line : string) : option (string * NodeInfo) :=
  match Sscan nodeLine line with
  | Some [vm; sku; count; vcpus; burst; iops; bw; burstBw] =>
      match parse_signed count, parse_signed vcpus, parse_signed burst, parse_signed iops, parse_signed bw,
            parse_signed burstBw with
      | Some count, Some vcpus, Some burst, Some iops, Some bw, Some burstBw =>
          Some (vm, MkNodeInfo sku count vcpus burst iops bw burstBw)
      | _, _, _, _, _, _ => None
      end
  | _ => None
  end.
(** The account that is open, and the two maps. *)
Definition reading : Type := string * gmap string (gmap string DiskSkuInfo) * gmap string NodeInfo.
Definition read_line (st : reading) (line : string) : reading :=
  let '(account, disks, nodes) := st in
  match read_disk line, read_node line, Sscan accStart line with
  | Some (size, d), _, _ => (account, <[account := <[size := d]> (default ∅ (disks !! account))]> disks, nodes)
  | None, Some (vm, n), _ => (account, disks, <[vm := n]> nodes)
  | None, None, Some [account'] => (account', <[account' := ∅]> disks, nodes)
  | None, None, _ => st
  end.
Definition read_file (text : string) : gmap string (gmap string DiskSkuInfo) * gmap string NodeInfo :=
  let '(_, disks, nodes) := foldl read_line ("", ∅, ∅) (Split text nl) in (disks, nodes).

Lemma clean_Itoa z : clean (Itoa z) = true.
Proof. unfold clean, stops. cbn [forallb]. by rewrite !has_byte_Itoa. Qed.
Lemma clean_formatInt z : clean (formatInt z) = true.
Proof. unfold formatInt. destruct (z <=? 0); [done|apply clean_Itoa]. Qed.
Lemma parse_formatInt z : parse_signed (formatInt z) = Some (Z.max 0 z).
Proof.
  unfold formatInt. destruct (Z.leb_spec z 0); [by rewrite Z.max_l by lia|].
  rewrite parse_signed_Itoa. by rewrite Z.max_r by lia.
Qed.
#[local] Hint Resolve clean_Itoa clean_formatInt : go_db.

Definition disk_clean (size : string) (d : DiskSkuInfo) : Prop :=
  clean size = true ∧ clean (StorageAccountType d) = true ∧ clean (StorageTier d) = true ∧ clean (DiskSize d) = true.
Definition node_clean (vm : string) (n : NodeInfo) : Prop := clean vm = true ∧ clean (ni_SkuName n) = true.
(** What a machine is after it was printed: no negative bandwidth. *)
Definition printed (n : NodeInfo) : NodeInfo :=
  MkNodeInfo (ni_SkuName n) (ni_MaxDataDiskCount n) (ni_VCpus n) (ni_MaxBurstIops n) (ni_MaxIops n)
    (Z.max 0 (ni_MaxBwMbps n)) (Z.max 0 (ni_MaxBurstBwMbps n)).

Lemma read_disk_line size d : disk_clean size d → read_disk (disk_line size d) = Some (size, d).
Proof.
  intros (H1 & H2 & H3 & H4). unfold read_disk, disk_line.
  rewrite Sscan_Sprintf by (try done; repeat constructor; auto with go_db).
  rewrite !parse_signed_Itoa. by destruct d.
Qed.
Lemma read_node_line vm n : node_clean vm n → read_node (node_line vm n) = Some (vm, printed n).
Proof.
  intros (H1 & H2). unfold read_node, node_line.
  rewrite Sscan_Sprintf by (try done; repeat constructor; auto with go_db).
  by rewrite !parse_signed_Itoa, !parse_formatInt.
Qed.
Lemma read_disk_node vm n : read_disk (node_line vm n) = None.
Proof. done. Qed.
Lemma read_disk_account args : read_disk (Sprintf accStart args) = None.
Proof. done. Qed.
Lemma Sscan_mismatch p c l f a r :
  c ∈ stops → clean a = true → HasPrefix r l = false →
  Sscan (Lit p :: Verb :: Lit (String c l) :: f) (p +:+ a +:+ String c r) = None.
Proof.
  intros Hc Ha Hr. change (Sscan (Lit p :: ?g) ?s) with
    (if HasPrefix s p then Sscan g (str_drop (String.length p) s) else None).
  rewrite HasPrefix_app, str_drop_app, Sscan_Verb, cut_byte by by apply clean_stop.
  cbn [Sscan HasPrefix]. by rewrite Ascii.eqb_refl, Hr.
Qed.
Lemma read_node_account account : clean account = true → read_node (Sprintf accStart [account]) = None.
Proof.
  intros Hc. unfold read_node.
  assert (Sscan nodeLine (Sprintf accStart [account]) = None) as ->; [|done].
  apply (Sscan_mismatch (tab +:+ dq) (ascii_of_N 34) (": NodeInfo{SkuName: " +:+ dq) _ account
           (": map[string]DiskSkuInfo {" +:+ "")); [by left|done|done].
Qed.

Lemma read_line_disk account disks nodes size d :
  disk_clean size d →
  read_line (account, disks, nodes) (disk_line size d) =
  (account, <[account := <[size := d]> (default ∅ (disks !! account))]> disks, nodes).
Proof. intros Hd. unfold read_line. by rewrite read_disk_line. Qed.
Lemma read_line_node account disks nodes vm n :
  node_clean vm n → read_line (account, disks, nodes) (node_line vm n) = (account, disks, <[vm := printed n]> nodes).
Proof. intros Hn. unfold read_line. by rewrite read_disk_node, read_node_line. Qed.
Lemma read_line_account account0 disks nodes account :
  clean account = true →
  read_line (account0, disks, nodes) (Sprintf accStart [account]) = (account, <[account := ∅]> disks, nodes).
Proof.
  intros Hc. unfold read_line. rewrite read_disk_account, read_node_account by done.
  by rewrite Sscan_Sprintf by (try done; by repeat constructor).
Qed.

(** *** The lines of the file *)
Lemma split_from_ne k s sep : split_from k s sep ≠ [].
Proof.
  revert k. induction s as [|c s IH]; intros k; [done|]. cbn [split_from]. destruct k; [|apply IH].
  destruct (HasPrefix _ _); [done|]. pose proof (IH 0%nat). by destruct (split_from 0 s sep).
Qed.
Lemma split_from_byte c a b :
  split_from 0 (a +:+ String c b) (String c "") = (split_from 0 a (String c "") ++ split_from 0 b (String c ""))%list.
Proof.
  assert (Hnil : ∀ s, HasPrefix s "" = true) by (by intros []).
  induction a as [|d a IH].
  - rewrite str_nil_app. cbn [split_from HasPrefix]. rewrite Ascii.eqb_refl, Hnil. done.
  - rewrite str_cons_app. cbn [split_from HasPrefix].
    change (String.length (String c "") - 1)%nat with 0%nat. rewrite !Hnil, IH. destruct (Ascii.eqb c d); [done|].
    destruct (split_from 0 a (String c "")) as [|h t] eqn:E; [by apply split_from_ne in E|done].
Qed.
Lemma Split_app a b : Split (a +:+ nl +:+ b) nl = (Split a nl ++ Split b nl)%list.
Proof. exact (split_from_byte newline a b). Qed.
Lemma Split_lines x l :
  Forall (λ y, has_byte newline y = false) l → Split (x +:+ append_lines l) nl = (Split x nl ++ l)%list.
Proof.
  intros Hl. revert x. induction Hl as [|y l Hy Hl IH]; intros x; cbn [append_lines].
  - by rewrite str_app_nil_r, app_nil_r.
  - rewrite Split_app, IH. f_equal. change (Split y nl) with (split_from 0 y (String newline "")).
    by rewrite split_from_no_sep.
Qed.
Lemma append_lines_app l k : append_lines (l ++ k) = append_lines l +:+ append_lines k.
Proof. induction l as [|x l IH]; [done|]. cbn [append_lines app]. by rewrite IH, !str_app_assoc. Qed.

Lemma Sprintf_no_newline f args :
  forallb (λ p, match p with Lit l => negb (has_byte newline l) | Verb => true end) f = true →
  Forall (λ a, clean a = true) args → has_byte newline (Sprintf f args) = false.
Proof.
  revert args. induction f as [|[l|] f IH]; intros args; [done|..]; cbn [forallb].
  - intros [Hl%negb_true_iff Hf]%andb_prop Ha. cbn [Sprintf]. by rewrite has_byte_app, Hl, IH.
  - intros Hf Ha. destruct args as [|a args]; cbn [Sprintf]; rewrite has_byte_app.
    + by rewrite IH.
    + apply Forall_cons in Ha as [Ha Has]. rewrite IH by done. unfold clean in Ha. cbn [forallb] in Ha.
      apply andb_prop in Ha as [Ha%negb_true_iff _]. by rewrite Ha.
Qed.
Lemma disk_line_no_newline size d : disk_clean size d → has_byte newline (disk_line size d) = false.
Proof. intros (? & ? & ? & ?). apply Sprintf_no_newline; [done|]. repeat constructor; auto with go_db. Qed.
Lemma node_line_no_newline vm n : node_clean vm n → has_byte newline (node_line vm n) = false.
Proof. intros (? & ?). apply Sprintf_no_newline; [done|]. repeat constructor; auto with go_db. Qed.

(** A line that declares nothing. *)
Definition ignored (line : string) : bool :=
  match read_disk line, read_node line, Sscan accStart line with None, None, None => true | _, _, _ => false end.
Lemma read_ignored l st : forallb ignored l = true → foldl read_line st l = st.
Proof.
  revert st. induction l as [|x l IH]; intros [[account disks] nodes]; [done|]. cbn [forallb foldl].
  intros [Hx Hl]%andb_prop.
  assert (read_line (account, disks, nodes) x = (account, disks, nodes)) as ->; [|by apply IH].
  unfold ignored in Hx. unfold read_line. destruct (read_disk x) as [[? ?]|]; [done|].
  destruct (read_node x) as [[? ?]|]; [done|]. destruct (Sscan accStart x) as [l'|]; done.
Qed.

(** *** The maps *)
Definition insert_all {A} (m : gmap string A) (l : list (string * A)) : gmap string A :=
  foldl (λ m e, <[e.1 := e.2]> m) m l.
Lemma insert_all_union {A} (l : list (string * A)) (m : gmap string A) :
  NoDup l.*1 → insert_all m l = list_to_map l ∪ m.
Proof.
  revert m. induction l as [|[k a] l IH]; intros m; cbn; [by rewrite (left_id_L ∅ (∪))|].
  intros [Hk Hl]%NoDup_cons. unfold insert_all in IH. rewrite IH by done.
  rewrite <-insert_union_r by by apply not_elem_of_list_to_map_1. by rewrite insert_union_l.
Qed.
Lemma insert_all_order `{MapOrder} {A} (m : gmap string A) : insert_all ∅ (map_order m) = m.
Proof.
  rewrite insert_all_union, (right_id_L ∅ (∪)) by apply map_order_fst_NoDup.
  rewrite <-(list_to_map_to_list m) at 2. apply list_to_map_proper; [apply map_order_fst_NoDup|apply map_order_perm].
Qed.

Section reading.
  Context `{MapOrder}.

Lemma read_sizes account sizes nodes disks m :
  Forall (λ e, disk_clean e.1 e.2) sizes →
  foldl read_line (account, <[account := m]> disks, nodes) ('(size, d) ← sizes; [disk_line size d]) =
  (account, <[account := insert_all m sizes]> disks, nodes).
Proof.
  intros Hc. revert m. induction Hc as [|[size d] sizes Hd Hc IH]; intros m; [done|].
  change (mbind ?f ((size, d) :: sizes)) with (disk_line size d :: mbind f sizes). cbn [foldl].
  rewrite read_line_disk, lookup_insert_eq by done. cbn [default]. rewrite insert_insert_eq. apply IH.
Qed.
Lemma read_disks (l : list (string * gmap string DiskSkuInfo)) account disks nodes :
  Forall (λ e, clean e.1 = true ∧ map_Forall disk_clean e.2) l →
  ∃ account', foldl read_line (account, disks, nodes)
      ('(account, sizes) ← l;
       Sprintf accStart [account] :: (('(size, d) ← map_order sizes; [disk_line size d]) ++ [accEnd])) =
    (account', insert_all disks l, nodes).
Proof.
  intros Hc. revert account disks. induction Hc as [|[a sizes] l [Ha Hs] Hc IH]; intros account disks; [by eexists|].
  change (mbind ?f ((a, sizes) :: l)) with (f (a, sizes) ++ mbind f l)%list. rewrite foldl_app. cbn [foldl].
  rewrite read_line_account, foldl_app, read_sizes, insert_all_order by
    (try done; apply Forall_forall; intros [k d] Hin; apply elem_of_map_order in Hin; by apply Hs in Hin).
  rewrite (read_ignored [accEnd]) by done. apply IH.
Qed.
Lemma read_nodes (l : list (string * NodeInfo)) account disks nodes :
  Forall (λ e, node_clean e.1 e.2) l →
  foldl read_line (account, disks, nodes) ('(vm, n) ← l; [node_line vm n]) =
  (account, disks, insert_all nodes (prod_map id printed <$> l)).
Proof.
  intros Hc. revert nodes. induction Hc as [|[vm n] l Hn Hc IH]; intros nodes; [done|].
  change (mbind ?f ((vm, n) :: l)) with (node_line vm n :: mbind f l). cbn [foldl].
  rewrite read_line_node by done. apply IH.
Qed.
End reading.

(** ** The file declares the tables *)
Definition names_clean (disks : gmap string (gmap string DiskSkuInfo)) (nodes : gmap string NodeInfo) : Prop :=
  map_Forall (λ account sizes, clean account = true ∧ map_Forall disk_clean sizes) disks ∧
  map_Forall node_clean nodes.

Section file.
  Context `{MapOrder}.
Lemma table_file_lines disks nodes :
  table_file disks nodes =
  boilerPlate +:+ append_lines ([""; "var ("; diskMapStart] ++ disk_lines disks ++
    [diskMapEnd; ""; nodeMapStart] ++ node_lines nodes ++ [nodeMapEnd; ")"; ""]).
Proof.
  unfold table_file. rewrite !append_lines_app. cbn [append_lines].
  by rewrite !str_app_assoc, !str_app_nil_r.
Qed.
Lemma clean_no_newline a : clean a = true → has_byte newline a = false.
Proof. unfold clean. cbn [forallb]. by intros [?%negb_true_iff _]%andb_prop. Qed.
Lemma disk_lines_ok disks :
  map_Forall (λ account sizes, clean account = true ∧ map_Forall disk_clean sizes) disks →
  Forall (λ y, has_byte newline y = false) (disk_lines disks).
Proof.
  intros Hd. apply Forall_forall. unfold disk_lines.
  intros y ([account sizes] & Hy & Hin%elem_of_map_order)%list_elem_of_bind. apply Hd in Hin as [Ha Hs].
  apply elem_of_cons in Hy as [-> | Hy]; [apply Sprintf_no_newline; [done|by repeat constructor]|].
  apply elem_of_app in Hy as [([size d] & Hy & Hin%elem_of_map_order)%list_elem_of_bind | ->%list_elem_of_singleton];
    [|done]. apply list_elem_of_singleton in Hy as ->. apply disk_line_no_newline. by apply Hs.
Qed.
Lemma node_lines_ok nodes : map_Forall node_clean nodes → Forall (λ y, has_byte newline y = false) (node_lines nodes).
Proof.
  intros Hn. apply Forall_forall. unfold node_lines.
  intros y ([vm n] & Hy & Hin%elem_of_map_order)%list_elem_of_bind.
  apply list_elem_of_singleton in Hy as ->. apply node_line_no_newline. by apply Hn.
Qed.

(** The file that the generator writes, read line by line as the Go code it is,
    declares the two tables it was printed from, whatever the order in which the maps
    are iterated; a negative bandwidth of a machine is printed as zero. *)
Theorem table_file_reads_back disks nodes :
  names_clean disks nodes → read_file (table_file disks nodes) = (disks, printed <$> nodes).
Proof.
  intros [Hd Hn]. unfold read_file. rewrite table_file_lines, Split_lines.
  2:{ apply Forall_app; split; [by repeat constructor|]. apply Forall_app; split; [by apply disk_lines_ok|].
      apply Forall_app; split; [by repeat constructor|]. apply Forall_app; split; [by apply node_lines_ok|].
      by repeat constructor. }
  rewrite !foldl_app, !(read_ignored (Split boilerPlate nl)) by (vm_compute; reflexivity).
  rewrite (read_ignored [""; "var ("; diskMapStart]) by (vm_compute; reflexivity).
  edestruct (read_disks (map_order disks) "" ∅ ∅) as [account E].
  { apply Forall_forall. intros [k v] Hin. apply elem_of_map_order in Hin. by apply Hd in Hin. }
  unfold disk_lines. rewrite E. rewrite (read_ignored [diskMapEnd; ""; nodeMapStart]) by (vm_compute; reflexivity).
  unfold node_lines. rewrite read_nodes.
  2:{ apply Forall_forall. intros [k v] Hin. apply elem_of_map_order in Hin. by apply Hn in Hin. }
  rewrite (read_ignored [nodeMapEnd; ")"; ""]) by (vm_compute; reflexivity).
  rewrite insert_all_order. f_equal. rewrite insert_all_union, (right_id_L ∅ (∪)).
  - rewrite list_to_map_fmap. f_equal. by rewrite <-(right_id_L ∅ (∪) (list_to_map _)), <-insert_all_union, insert_all_order
      by apply map_order_fst_NoDup.
  - rewrite <-list_fmap_compose. apply map_order_fst_NoDup.
Qed.
End file.

(** *** On two resources *)
Definition demo_resources : list (option ResourceSKU) := [
  Some (MkResourceSKU (Some "disks") (Some "Premium_LRS") (Some "Premium") (Some "P1")
    [Some (MkCapability (Some "MaxIOps") (Some "120")); Some (MkCapability (Some "MaxBurstIops") (Some "3500"));
     Some (MkCapability (Some "MaxBandwidthMBps") (Some "25"))]);
  Some (MkResourceSKU (Some "virtualMachines") (Some "Standard_D2") None None
    [Some (MkCapability (Some "vCPUs") (Some "2")); Some (MkCapability None None);
     Some (MkCapability (Some "UncachedDiskBytesPerSecond") (Some "3145728"))]);
  Some (MkResourceSKU (Some "virtualMachines") (Some "standard_d2") None None [])].
Definition demo_disks : gmap string (gmap string DiskSkuInfo) :=
  {[ "premium_lrs" := {[ "p1" := MkDiskSkuInfo "Premium_LRS" "Premium" "P1" 0 3500 120 25 25 0 ]} ]}.
Definition demo_nodes : gmap string NodeInfo := {[ "standard_d2" := MkNodeInfo "Standard_D2" 0 2 0 0 3 3 ]}.
(** The second machine has the key of the first and is skipped. *)
Example demo_builds :
  (λ t, (diskSkuInfoMap t, vmSkuInfoMap t)) <$> (match build_tables demo_resources with Ok t => Some t | _ => None end)
  = Some (demo_disks, demo_nodes).
Proof. vm_compute. reflexivity. Qed.
Lemma table_file_reads_back_witness :
  read_file (table_file demo_disks demo_nodes) = (demo_disks, printed <$> demo_nodes).
Proof.
  apply (table_file_reads_back demo_disks demo_nodes). split.
  - apply map_Forall_singleton. split; [reflexivity|]. apply map_Forall_singleton. repeat split; reflexivity.
  - apply map_Forall_singleton. split; reflexivity.
Defined.
