(* ===== verification/DiskCounts.v ===== *)
(** * The data disks of a VM size

    The table [maxDataDiskCountMap] of [azure_dd_max_disk_count.go], in parts. *)
From stdpp Require Import gmap strings list.
From Stdlib Require Import ZArith.
From S2P Require Import Prelude GoStrings.
Local Open Scope string_scope.
Local Open Scope Z_scope.
Local Open Scope list_scope.

(** [azuredisk/azure_dd_max_disk_count.go maxDataDiskCountMap 22-171] *)
Definition disk_counts_1 : list (string * Z) := [
  ("AZAP_HARVEST_COMPUTE_2", 4);
  ("AZAP_HARVEST_COMPUTE_4", 8);
  ("AZAP_HARVEST_COMPUTE_8", 16);
  ("AZAP_PERFORMANCE_COMPUTEGEN6_1_96", 64);
  ("AZAP_PERFORMANCE_COMPUTEGEN6_1_96_FP", 64);
  ("AZAP_PERFORMANCE_COMPUTEINTELGEN6_1CFPGA_SEARCH_FN", 64);
  ("AZAP_PERFORMANCE_COMPUTEINTELGEN7_0B_100", 64);
  ("AZAP_PERFORMANCE_COMPUTEINTELGEN7_0CFPGA_100", 64);
  ("AZAP_PERFORMANCE_COMPUTEINTELGEN7_2B_SEARCH_FN", 64);
  ("AZAP_PERFORMANCE_COMPUTEINTELGEN7_2CFPGA_SEARCH_PN", 64);
  ("AZAP_PERFORMANCE_COMPUTEINTELGEN7_2C_SEARCH_PN", 64);
  ("AZAP_PERFORMANCE_COMPUTEV14B", 32);
  ("AZAP_PERFORMANCE_COMPUTEV17B_40", 64);
  ("AZAP_PERFORMANCE_COMPUTEV17B_76", 64);
  ("AZAP_PERFORMANCE_COMPUTEV17C", 64);
  ("AZAP_PERFORMANCE_COMPUTEV17C_12", 64);
  ("AZAP_PERFORMANCE_COMPUTEV17C_DDA", 64);
  ("AZAP_PERFORMANCE_COMPUTEV17C_HALFNODE", 64);
  ("AZAP_PERFORMANCE_COMPUTEV17C_QUARTERNODE", 64);
  ("AZAP_PERFORMANCE_COMPUTEV17W_38_HALFNODE", 64);
  ("AZAP_PERFORMANCE_COMPUTEV17W_76", 64);
  ("AZAP_PERFORMANCE_COMPUTE_COSMOS_GEN7_16", 48);
  ("AZAP_PERFORMANCE_COMPUTE_COSMOS_GEN7_40", 64);
  ("AZAP_PERFORMANCE_COMPUTE_COSMOS_GEN7_56_CORSICA", 64);
  ("AZAP_PERFORMANCE_COMPUTE_COSMOS_GEN7_FN", 64);
  ("AZAP_PERFORMANCE_COMPUTE_COSMOS_GEN8_FN", 64);
  ("BASIC_A0", 1);
  ("BASIC_A1", 2);
  ("BASIC_A2", 4);
  ("BASIC_A3", 8);
  ("BASIC_A4", 16);
  ("COSMOSDBG5_JBOD", 1);
  ("D16S_FLEX", 32);
  ("D16S_FLEX_PRIME", 32);
  ("D16_FLEX", 32);
  ("D16_FLEX_PRIME", 32);
  ("D2S_FLEX", 4);
  ("D2S_FLEX_PRIME", 4);
  ("D2_FLEX", 4);
  ("D2_FLEX_PRIME", 4);
  ("D32S_FLEX", 32);
  ("D32S_FLEX_PRIME", 32);
  ("D32_FLEX", 32);
  ("D32_FLEX_PRIME", 32);
  ("D48S_FLEX", 48);
  ("D48S_FLEX_PRIME", 48);
  ("D48_FLEX", 32);
  ("D48_FLEX_PRIME", 32);
  ("D4S_FLEX", 8);
  ("D4S_FLEX_PRIME", 8);
  ("D4_FLEX", 8);
  ("D4_FLEX_PRIME", 8);
  ("D64S_FLEX", 32);
  ("D64S_FLEX_PRIME", 32);
  ("D64_FLEX", 32);
  ("D64_FLEX_PRIME", 32);
  ("D8S_FLEX", 16);
  ("D8S_FLEX_PRIME", 16);
  ("D8_FLEX", 16);
  ("D8_FLEX_PRIME", 16);
  ("DC128EDS_V6_INTERNAL", 64);
  ("DC16ADS_SPO_V6", 32);
  ("DC16EDS_V6_INTERNAL", 48);
  ("DC2EDS_INTERNAL_V6", 8);
  ("DC32EDS_V6_INTERNAL", 64);
  ("DC48EDS_V6_INTERNAL", 64);
  ("DC4EDS_V6_INTERNAL", 12);
  ("DC64EDS_V6_INTERNAL", 64);
  ("DC8ADS_SPO_V6", 16);
  ("DC8EDS_V6_INTERNAL", 24);
  ("DC96EDS_V6_INTERNAL", 64);
  ("DDAGEN5", 6);
  ("E16S_FLEX", 32);
  ("E16S_FLEX_PRIME", 32);
  ("E16_FLEX", 32);
  ("E16_FLEX_PRIME", 32);
  ("E20S_FLEX", 32);
  ("E20S_FLEX_PRIME", 32);
  ("E20_FLEX", 32);
  ("E20_FLEX_PRIME", 32);
  ("E2S_FLEX", 4);
  ("E2S_FLEX_PRIME", 4);
  ("E2_FLEX", 4);
  ("E2_FLEX_PRIME", 4);
  ("E32S_FLEX", 32);
  ("E32S_FLEX_PRIME", 32);
  ("E32_FLEX", 32);
  ("E32_FLEX_PRIME", 32);
  ("E48S_FLEX", 32);
  ("E48S_FLEX_PRIME", 32);
  ("E48_FLEX", 32);
  ("E48_FLEX_PRIME", 32);
  ("E4S_FLEX", 8);
  ("E4S_FLEX_PRIME", 8);
  ("E4_FLEX", 8);
  ("E4_FLEX_PRIME", 8);
  ("E64IS_FLEX", 32);
  ("E64I_FLEX", 32);
  ("E64S_FLEX", 32);
  ("E64S_FLEX_PRIME", 32);
  ("E64_FLEX", 32);
  ("E64_FLEX_PRIME", 32);
  ("E8S_FLEX", 16);
  ("E8S_FLEX_PRIME", 16);
  ("E8_FLEX", 16);
  ("E8_FLEX_PRIME", 16);
  ("EC128EDS_V6_INTERNAL", 64);
  ("EC16EDS_V6_INTERNAL", 48);
  ("EC192IEDS_V6_INTERNAL", 64);
  ("EC2EDS_V6_INTERNAL", 8);
  ("EC32EDS_V6_INTERNAL", 64);
  ("EC48EDS_V6_INTERNAL", 64);
  ("EC4EDS_V6_INTERNAL", 12);
  ("EC8EDS_V6_INTERNAL", 24);
  ("EC96EDS_V6_INTERNAL", 64);
  ("EXPERIEMENTAL_HF12MDS_V1", 24);
  ("EXPERIEMENTAL_HF36MDS_V1", 32);
  ("EXPERIEMENTAL_HF48MDS_V1", 32);
  ("EXPERIMENTAL_A1ARM_V2", 2);
  ("EXPERIMENTAL_A2ARM_V2", 4);
  ("EXPERIMENTAL_A2MARM_V2", 4);
  ("EXPERIMENTAL_A4ARM_V2", 8);
  ("EXPERIMENTAL_A4MARM_V2", 8);
  ("EXPERIMENTAL_A8ARM_V2", 16);
  ("EXPERIMENTAL_A8MARM_V2", 16);
  ("EXPERIMENTAL_BOOST192", 64);
  ("EXPERIMENTAL_BOOST32", 32);
  ("EXPERIMENTAL_BOOST4", 8);
  ("EXPERIMENTAL_BOOST64", 32);
  ("EXPERIMENTAL_BOOST8", 16);
  ("EXPERIMENTAL_D16NS_V4", 32);
  ("EXPERIMENTAL_D2NS_V4", 4);
  ("EXPERIMENTAL_D32NS_V4", 32);
  ("EXPERIMENTAL_D48NS_V4", 32);
  ("EXPERIMENTAL_D4NS_V4", 8);
  ("EXPERIMENTAL_D64NS_V4", 32);
  ("EXPERIMENTAL_D8NS_V4", 16);
  ("EXPERIMENTAL_E16NS_V4", 32);
  ("EXPERIMENTAL_E2NS_V4", 4);
  ("EXPERIMENTAL_E32NS_V4", 32);
  ("EXPERIMENTAL_E48NS_V4", 32);
  ("EXPERIMENTAL_E4NS_V4", 8);
  ("EXPERIMENTAL_E64-40S_V3", 32);
  ("EXPERIMENTAL_E64NS_V4", 32);
  ("EXPERIMENTAL_E8NS_V4", 16);
  ("EXPERIMENTAL_F16NS_V2", 32);
  ("EXPERIMENTAL_F2NS_V2", 4);
  ("EXPERIMENTAL_F32NS_V2", 32);
  ("EXPERIMENTAL_F48NS_V2", 32);
  ("EXPERIMENTAL_F4NS_V2", 8)].
(** [azuredisk/azure_dd_max_disk_count.go maxDataDiskCountMap 172-321] *)
Definition disk_counts_2 : list (string * Z) := [
  ("EXPERIMENTAL_F64NS_V2", 32);
  ("EXPERIMENTAL_F72NS_V2", 32);
  ("EXPERIMENTAL_F8NS_V2", 16);
  ("EXPERIMENTAL_HALFNODE_V1", 32);
  ("EXPERIMENTAL_HF24MDS_V1", 32);
  ("EXPERIMENTAL_HF4MDS_V1", 8);
  ("EXPERIMENTAL_MMCXL1", 64);
  ("EXPERIMENTAL_MMCXL2", 64);
  ("EXPERIMENTAL_MMCXL3", 64);
  ("EXPERIMENTAL_MMCXL4", 64);
  ("EXPERIMENTAL_MMDDR1", 64);
  ("EXPERIMENTAL_MMDDR2", 64);
  ("EXPERIMENTAL_OLYMPIA20LS", 32);
  ("EXPERIMENTAL_OLYMPIA20MS", 32);
  ("EXPERIMENTAL_OLYMPIA20S", 32);
  ("EXPERIMENTAL_OLYMPIA40LS", 48);
  ("EXPERIMENTAL_OLYMPIA40MS", 48);
  ("EXPERIMENTAL_OLYMPIA40S", 48);
  ("EXPERIMENTAL_OLYMPIA72LS", 64);
  ("EXPERIMENTAL_OLYMPIA72MS", 64);
  ("EXPERIMENTAL_OLYMPIA72S", 64);
  ("EXPERIMENTAL_OLYMPIABTT20LS", 32);
  ("EXPERIMENTAL_OLYMPIABTT20MS", 32);
  ("EXPERIMENTAL_OLYMPIABTT20S", 32);
  ("EXPERIMENTAL_OLYMPIABTT40LS", 48);
  ("EXPERIMENTAL_OLYMPIABTT40MS", 48);
  ("EXPERIMENTAL_OLYMPIABTT40S", 48);
  ("EXPERIMENTAL_OLYMPIABTT72LS", 64);
  ("EXPERIMENTAL_OLYMPIABTT72MS", 64);
  ("EXPERIMENTAL_OLYMPIABTT72S", 64);
  ("EXPERIMENTAL_OVLTEST_CURRENTT0", 64);
  ("EXPERIMENTAL_OVLTEST_CURRENTT1", 64);
  ("EXPERIMENTAL_OVLTEST_CURRENTT10", 64);
  ("EXPERIMENTAL_OVLTEST_CURRENTT11", 64);
  ("EXPERIMENTAL_OVLTEST_CURRENTT12", 64);
  ("EXPERIMENTAL_OVLTEST_CURRENTT13", 64);
  ("EXPERIMENTAL_OVLTEST_CURRENTT2", 64);
  ("EXPERIMENTAL_OVLTEST_CURRENTT3", 64);
  ("EXPERIMENTAL_OVLTEST_CURRENTT4", 64);
  ("EXPERIMENTAL_OVLTEST_CURRENTT5", 64);
  ("EXPERIMENTAL_OVLTEST_CURRENTT6", 64);
  ("EXPERIMENTAL_OVLTEST_CURRENTT7", 64);
  ("EXPERIMENTAL_OVLTEST_CURRENTT8", 64);
  ("EXPERIMENTAL_OVLTEST_CURRENTT9", 64);
  ("EXPERIMENTAL_SQLULTRALOCALDISK104", 32);
  ("EXPERIMENTAL_ULTRALOCALDISK16", 32);
  ("EXPERIMENTAL_ULTRALOCALDISK2", 4);
  ("EXPERIMENTAL_ULTRALOCALDISK32", 32);
  ("EXPERIMENTAL_ULTRALOCALDISK4", 8);
  ("EXPERIMENTAL_ULTRALOCALDISK48", 32);
  ("EXPERIMENTAL_ULTRALOCALDISK64", 32);
  ("EXPERIMENTAL_ULTRALOCALDISK8", 16);
  ("EXPERIMENTAL_ULTRALOCALDISK80", 32);
  ("EXTRALARGEDISKSMALL", 0);
  ("EXTRALARGE_INTERNAL", 16);
  ("EXTRASMALL_INTERNAL", 1);
  ("F16S_FLEX", 32);
  ("F16S_FLEX_PRIME", 32);
  ("F16_FLEX", 32);
  ("F16_FLEX_PRIME", 32);
  ("F2S_FLEX", 4);
  ("F2S_FLEX_PRIME", 4);
  ("F2_FLEX", 4);
  ("F2_FLEX_PRIME", 4);
  ("F32S_FLEX", 32);
  ("F32S_FLEX_PRIME", 32);
  ("F32_FLEX", 32);
  ("F32_FLEX_PRIME", 32);
  ("F48S_FLEX", 32);
  ("F4S_FLEX", 8);
  ("F4S_FLEX_PRIME", 8);
  ("F4_FLEX", 8);
  ("F4_FLEX_PRIME", 8);
  ("F64S_FLEX", 32);
  ("F64S_FLEX_PRIME", 32);
  ("F64_FLEX", 32);
  ("F64_FLEX_PRIME", 32);
  ("F8S_FLEX", 16);
  ("F8S_FLEX_PRIME", 16);
  ("F8_FLEX", 16);
  ("F8_FLEX_PRIME", 16);
  ("FCA_E16-10S_V3", 32);
  ("FCA_E16-12S_V3", 32);
  ("FCA_E16-14S_V3", 32);
  ("FCA_E32-24S_V3", 32);
  ("FCA_E32-26S_V3", 32);
  ("FCA_E32-28S_V3", 32);
  ("FCA_E64-52S_V3", 32);
  ("FCA_E8-6S_V3", 16);
  ("HARVEST_E2S_V3", 4);
  ("HARVEST_E4S_V3", 8);
  ("HARVEST_E8S_V3", 16);
  ("INTERNAL_A1WEB35_V2_GEN2", 2);
  ("INTERNAL_A2WEB45_V2_GEN2", 2);
  ("INTERNAL_A4WEB_V2_GEN2", 2);
  ("INTERNAL_ACCGEN8MMV2_64ID", 32);
  ("INTERNAL_ACCGEN8MM_64ID", 32);
  ("INTERNAL_AMDGEN10TEST", 64);
  ("INTERNAL_BAREMETAL_V1", 64);
  ("INTERNAL_BINGBALANCEDGEN10_192IAD_SMTON", 64);
  ("INTERNAL_BINGBALANCEDGEN10_48AD", 64);
  ("INTERNAL_BINGBALANCEDGEN10_96AD", 64);
  ("INTERNAL_BINGBALANCEDGEN10_96IAD_SMTOFF", 64);
  ("INTERNAL_BINGBALANCEDGEN7_128IAD_16VNUMA", 32);
  ("INTERNAL_BINGBALANCEDGEN7_128IAD_2VNUMA", 32);
  ("INTERNAL_BINGBALANCEDGEN7_32AD_2VNUMA", 32);
  ("INTERNAL_BINGBALANCEDGEN7_64AD_2VNUMA", 32);
  ("INTERNAL_BINGBALANCEDGEN9_192IAD_SMTON", 64);
  ("INTERNAL_BINGBALANCEDGEN9_1_192IAD_SMTON", 64);
  ("INTERNAL_BINGBALANCEDGEN9_1_48AD", 16);
  ("INTERNAL_BINGBALANCEDGEN9_1_96AD", 32);
  ("INTERNAL_BINGBALANCEDGEN9_1_96IAD_SMTOFF", 64);
  ("INTERNAL_BINGBALANCEDGEN9_48AD", 16);
  ("INTERNAL_BINGBALANCEDGEN9_96AD", 32);
  ("INTERNAL_BINGBALANCEDGEN9_96IAD_SMTOFF", 64);
  ("INTERNAL_BINGBALANCEDGEN9_DA_192IAD_SMTON", 64);
  ("INTERNAL_BINGBALANCEDGEN9_DA_48AD", 16);
  ("INTERNAL_BINGBALANCEDGEN9_DA_96AD", 32);
  ("INTERNAL_BINGBALANCEDGEN9_DA_96IAD_SMTOFF", 64);
  ("INTERNAL_D16ADS_V5", 32);
  ("INTERNAL_D16ALDS_V5", 32);
  ("INTERNAL_D16ALS_V5", 32);
  ("INTERNAL_D16AS_V4_NODWNCLK", 32);
  ("INTERNAL_D16AS_V5", 32);
  ("INTERNAL_D16S_V3_NODWNCLK", 32);
  ("INTERNAL_D2ADS_V5", 4);
  ("INTERNAL_D2ALDS_V5", 4);
  ("INTERNAL_D2ALS_V5", 4);
  ("INTERNAL_D2AS_V4_NODWNCLK", 4);
  ("INTERNAL_D2AS_V5", 4);
  ("INTERNAL_D2S_V3_NODWNCLK", 4);
  ("INTERNAL_D32ADS_V5", 32);
  ("INTERNAL_D32ALDS_V5", 32);
  ("INTERNAL_D32ALS_V5", 32);
  ("INTERNAL_D32AS_V4_NODWNCLK", 32);
  ("INTERNAL_D32AS_V5", 32);
  ("INTERNAL_D32S_V3_NODWNCLK", 32);
  ("INTERNAL_D40AS_V4_NODWNCLK", 32);
  ("INTERNAL_D40S_V3_NODWNCLK", 32);
  ("INTERNAL_D48ADS_V5", 32);
  ("INTERNAL_D48ALDS_V5", 32);
  ("INTERNAL_D48ALS_V5", 32);
  ("INTERNAL_D48AS_V4_NODWNCLK", 32);
  ("INTERNAL_D48AS_V5", 32);
  ("INTERNAL_D48S_V3_NODWNCLK", 32);
  ("INTERNAL_D4ADS_V5", 8);
  ("INTERNAL_D4ALDS_V5", 8);
  ("INTERNAL_D4ALS_V5", 8);
  ("INTERNAL_D4AS_V4_NODWNCLK", 8);
  ("INTERNAL_D4AS_V5", 8)].
(** [azuredisk/azure_dd_max_disk_count.go maxDataDiskCountMap 322-471] *)
Definition disk_counts_3 : list (string * Z) := [
  ("INTERNAL_D4S_V3_NODWNCLK", 8);
  ("INTERNAL_D64ADS_V5", 32);
  ("INTERNAL_D64ALDS_V5", 32);
  ("INTERNAL_D64ALS_V5", 32);
  ("INTERNAL_D64AS_V4_NODWNCLK", 32);
  ("INTERNAL_D64AS_V5", 32);
  ("INTERNAL_D64S_V3_NODWNCLK", 32);
  ("INTERNAL_D8ADS_V5", 16);
  ("INTERNAL_D8ALDS_V5", 16);
  ("INTERNAL_D8ALS_V5", 16);
  ("INTERNAL_D8AS_V4_NODWNCLK", 16);
  ("INTERNAL_D8AS_V5", 16);
  ("INTERNAL_D8S_V3_NODWNCLK", 16);
  ("INTERNAL_D96ADS_V5", 32);
  ("INTERNAL_D96ALDS_V5", 32);
  ("INTERNAL_D96ALS_V5", 32);
  ("INTERNAL_D96AS_V4_NODWNCLK", 32);
  ("INTERNAL_D96AS_V5", 32);
  ("INTERNAL_DC128EDS_V6", 64);
  ("INTERNAL_DC16ADS_V6", 32);
  ("INTERNAL_DC16AS_V6", 32);
  ("INTERNAL_DC16EDS_V6", 48);
  ("INTERNAL_DC2ADS_V6", 4);
  ("INTERNAL_DC2AS_V6", 4);
  ("INTERNAL_DC2EDS_V6", 8);
  ("INTERNAL_DC32ADS_V6", 32);
  ("INTERNAL_DC32AS_V6", 32);
  ("INTERNAL_DC32EDS_V6", 64);
  ("INTERNAL_DC48ADS_V6", 32);
  ("INTERNAL_DC48AS_V6", 32);
  ("INTERNAL_DC48EDS_V6", 64);
  ("INTERNAL_DC4ADS_V6", 8);
  ("INTERNAL_DC4AS_V6", 8);
  ("INTERNAL_DC4EDS_V6", 12);
  ("INTERNAL_DC64ADS_V6", 32);
  ("INTERNAL_DC64AS_V6", 32);
  ("INTERNAL_DC64EDS_V6", 64);
  ("INTERNAL_DC8ADS_V6", 16);
  ("INTERNAL_DC8AS_V6", 16);
  ("INTERNAL_DC8EDS_V6", 24);
  ("INTERNAL_DC96ADS_V6", 32);
  ("INTERNAL_DC96AS_V6", 32);
  ("INTERNAL_DC96EDS_V6", 64);
  ("INTERNAL_E16ADS_V5", 32);
  ("INTERNAL_E16AS_V5", 32);
  ("INTERNAL_E20ADS_V5", 32);
  ("INTERNAL_E20AS_V5", 32);
  ("INTERNAL_E2ADS_V5", 4);
  ("INTERNAL_E2AS_V5", 4);
  ("INTERNAL_E32ADS_V5", 32);
  ("INTERNAL_E32AS_V5", 32);
  ("INTERNAL_E48ADS_V5", 32);
  ("INTERNAL_E48AS_V5", 32);
  ("INTERNAL_E4ADS_V5", 8);
  ("INTERNAL_E4AS_V5", 8);
  ("INTERNAL_E64ADS_V5", 32);
  ("INTERNAL_E64AS_V5", 32);
  ("INTERNAL_E8ADS_V5", 16);
  ("INTERNAL_E8AS_V5", 16);
  ("INTERNAL_E96ADS_V5", 32);
  ("INTERNAL_E96AS_V5", 32);
  ("INTERNAL_EC128EDS_V6", 64);
  ("INTERNAL_EC16ADS_V6", 32);
  ("INTERNAL_EC16AS_V6", 32);
  ("INTERNAL_EC16EDS_V6", 48);
  ("INTERNAL_EC192IEDS_V6", 64);
  ("INTERNAL_EC2ADS_V6", 4);
  ("INTERNAL_EC2AS_V6", 4);
  ("INTERNAL_EC2EDS_V6", 8);
  ("INTERNAL_EC32ADS_V6", 32);
  ("INTERNAL_EC32AS_V6", 32);
  ("INTERNAL_EC32EDS_V6", 64);
  ("INTERNAL_EC48ADS_V6", 32);
  ("INTERNAL_EC48AS_V6", 32);
  ("INTERNAL_EC48EDS_V6", 64);
  ("INTERNAL_EC4ADS_V6", 8);
  ("INTERNAL_EC4AS_V6", 8);
  ("INTERNAL_EC4EDS_V6", 12);
  ("INTERNAL_EC64ADS_V6", 32);
  ("INTERNAL_EC64AS_V6", 32);
  ("INTERNAL_EC8ADS_V6", 16);
  ("INTERNAL_EC8AS_V6", 16);
  ("INTERNAL_EC8EDS_V6", 24);
  ("INTERNAL_EC96ADS_V6", 32);
  ("INTERNAL_EC96AS_V6", 32);
  ("INTERNAL_EC96EDS_V6", 64);
  ("INTERNAL_GEN7_IAAS_LI", 32);
  ("INTERNAL_GEN8_HH_128IDS_LI", 32);
  ("INTERNAL_GEN8_IAAS_LI", 32);
  ("INTERNAL_GEN8_LM_128IDS_LI", 32);
  ("INTERNAL_GEN8_LM_32DS_LI", 32);
  ("INTERNAL_GEN8_LM_64DS_LI", 32);
  ("INTERNAL_GEN8_MM2_128IDS_LI", 32);
  ("INTERNAL_GEN8_MM2_32DS_LI", 32);
  ("INTERNAL_GEN8_MM2_64DS_LI", 32);
  ("INTERNAL_GEN8_MM_32DS_LI", 32);
  ("INTERNAL_GEN8_MM_96DS_LI", 32);
  ("INTERNAL_GPGEN10HH_192IADS", 64);
  ("INTERNAL_GPGEN10HH_208IDS", 64);
  ("INTERNAL_GPGEN10HH_208IDS_CVM", 64);
  ("INTERNAL_GPGEN10LM_192IADS", 64);
  ("INTERNAL_GPGEN10MH_192IAD_SMTON", 64);
  ("INTERNAL_GPGEN10MH_48AD", 64);
  ("INTERNAL_GPGEN10MH_96AD", 64);
  ("INTERNAL_GPGEN10MH_96IAD_SMTOFF", 64);
  ("INTERNAL_GPGEN10MM_192IADS", 64);
  ("INTERNAL_GPGEN10MM_192IADS_CVM", 64);
  ("INTERNAL_GPGEN10MM_208IDS", 64);
  ("INTERNAL_GPGEN10MM_208IDS_CVM", 64);
  ("INTERNAL_GPGEN10NPHHG5C_128ADS", 64);
  ("INTERNAL_GPGEN10NPHHG5C_128DS", 64);
  ("INTERNAL_GPGEN10NPHHG5C_16ADS", 48);
  ("INTERNAL_GPGEN10NPHHG5C_16DS", 48);
  ("INTERNAL_GPGEN10NPHHG5C_192IADS", 64);
  ("INTERNAL_GPGEN10NPHHG5C_208IDS", 64);
  ("INTERNAL_GPGEN10NPHHG5C_24ADS", 48);
  ("INTERNAL_GPGEN10NPHHG5C_24DS", 48);
  ("INTERNAL_GPGEN10NPHHG5C_2ADS", 8);
  ("INTERNAL_GPGEN10NPHHG5C_2DS", 8);
  ("INTERNAL_GPGEN10NPHHG5C_32ADS", 64);
  ("INTERNAL_GPGEN10NPHHG5C_32DS", 64);
  ("INTERNAL_GPGEN10NPHHG5C_40ADS", 64);
  ("INTERNAL_GPGEN10NPHHG5C_40DS", 64);
  ("INTERNAL_GPGEN10NPHHG5C_48ADS", 64);
  ("INTERNAL_GPGEN10NPHHG5C_4ADS", 12);
  ("INTERNAL_GPGEN10NPHHG5C_4DS", 12);
  ("INTERNAL_GPGEN10NPHHG5C_64ADS", 64);
  ("INTERNAL_GPGEN10NPHHG5C_64DS", 64);
  ("INTERNAL_GPGEN10NPHHG5C_80ADS", 64);
  ("INTERNAL_GPGEN10NPHHG5C_80DS", 64);
  ("INTERNAL_GPGEN10NPHHG5C_8ADS", 24);
  ("INTERNAL_GPGEN10NPHHG5C_8DS", 24);
  ("INTERNAL_GPGEN10NPHHG5C_96ADS", 64);
  ("INTERNAL_GPGEN10NPHH_104DS", 64);
  ("INTERNAL_GPGEN10NPHH_112ADS", 64);
  ("INTERNAL_GPGEN10NPHH_128ADS", 64);
  ("INTERNAL_GPGEN10NPHH_128DS", 64);
  ("INTERNAL_GPGEN10NPHH_16ADS", 48);
  ("INTERNAL_GPGEN10NPHH_16DS", 48);
  ("INTERNAL_GPGEN10NPHH_192IADS", 64);
  ("INTERNAL_GPGEN10NPHH_208IDS", 64);
  ("INTERNAL_GPGEN10NPHH_24ADS", 48);
  ("INTERNAL_GPGEN10NPHH_24DS", 48);
  ("INTERNAL_GPGEN10NPHH_2ADS", 8);
  ("INTERNAL_GPGEN10NPHH_2DS", 8);
  ("INTERNAL_GPGEN10NPHH_32ADS", 64);
  ("INTERNAL_GPGEN10NPHH_32DS", 64);
  ("INTERNAL_GPGEN10NPHH_40ADS", 64);
  ("INTERNAL_GPGEN10NPHH_40DS", 64);
  ("INTERNAL_GPGEN10NPHH_48ADS", 64)].
(** [azuredisk/azure_dd_max_disk_count.go maxDataDiskCountMap 472-621] *)
Definition disk_counts_4 : list (string * Z) := [
  ("INTERNAL_GPGEN10NPHH_48DS", 64);
  ("INTERNAL_GPGEN10NPHH_4ADS", 12);
  ("INTERNAL_GPGEN10NPHH_4DS", 12);
  ("INTERNAL_GPGEN10NPHH_64ADS", 64);
  ("INTERNAL_GPGEN10NPHH_64DS", 64);
  ("INTERNAL_GPGEN10NPHH_80ADS", 64);
  ("INTERNAL_GPGEN10NPHH_80DS", 64);
  ("INTERNAL_GPGEN10NPHH_8ADS", 24);
  ("INTERNAL_GPGEN10NPHH_8DS", 24);
  ("INTERNAL_GPGEN10NPHH_96ADS", 64);
  ("INTERNAL_GPGEN10NPMMG5C_128ADS", 64);
  ("INTERNAL_GPGEN10NPMMG5C_128DS", 64);
  ("INTERNAL_GPGEN10NPMMG5C_16ADS", 48);
  ("INTERNAL_GPGEN10NPMMG5C_16DS", 48);
  ("INTERNAL_GPGEN10NPMMG5C_192IADS", 64);
  ("INTERNAL_GPGEN10NPMMG5C_208IDS", 64);
  ("INTERNAL_GPGEN10NPMMG5C_24ADS", 48);
  ("INTERNAL_GPGEN10NPMMG5C_24DS", 48);
  ("INTERNAL_GPGEN10NPMMG5C_2ADS", 8);
  ("INTERNAL_GPGEN10NPMMG5C_2DS", 8);
  ("INTERNAL_GPGEN10NPMMG5C_32ADS", 64);
  ("INTERNAL_GPGEN10NPMMG5C_32DS", 64);
  ("INTERNAL_GPGEN10NPMMG5C_40ADS", 64);
  ("INTERNAL_GPGEN10NPMMG5C_40DS", 64);
  ("INTERNAL_GPGEN10NPMMG5C_48ADS", 64);
  ("INTERNAL_GPGEN10NPMMG5C_4ADS", 12);
  ("INTERNAL_GPGEN10NPMMG5C_4DS", 12);
  ("INTERNAL_GPGEN10NPMMG5C_64ADS", 64);
  ("INTERNAL_GPGEN10NPMMG5C_64DS", 64);
  ("INTERNAL_GPGEN10NPMMG5C_80ADS", 64);
  ("INTERNAL_GPGEN10NPMMG5C_80DS", 64);
  ("INTERNAL_GPGEN10NPMMG5C_8ADS", 24);
  ("INTERNAL_GPGEN10NPMMG5C_8DS", 24);
  ("INTERNAL_GPGEN10NPMMG5C_96ADS", 64);
  ("INTERNAL_GPGEN10NPMM_16ADS", 48);
  ("INTERNAL_GPGEN10NPMM_16DS", 48);
  ("INTERNAL_GPGEN10NPMM_192IADS", 64);
  ("INTERNAL_GPGEN10NPMM_208IDS", 64);
  ("INTERNAL_GPGEN10NPMM_24ADS", 48);
  ("INTERNAL_GPGEN10NPMM_24DS", 48);
  ("INTERNAL_GPGEN10NPMM_2ADS", 8);
  ("INTERNAL_GPGEN10NPMM_2DS", 8);
  ("INTERNAL_GPGEN10NPMM_32ADS", 64);
  ("INTERNAL_GPGEN10NPMM_32DS", 64);
  ("INTERNAL_GPGEN10NPMM_40ADS", 64);
  ("INTERNAL_GPGEN10NPMM_40DS", 64);
  ("INTERNAL_GPGEN10NPMM_48ADS", 64);
  ("INTERNAL_GPGEN10NPMM_4ADS", 12);
  ("INTERNAL_GPGEN10NPMM_4DS", 12);
  ("INTERNAL_GPGEN10NPMM_64ADS", 64);
  ("INTERNAL_GPGEN10NPMM_64DS", 64);
  ("INTERNAL_GPGEN10NPMM_80ADS", 64);
  ("INTERNAL_GPGEN10NPMM_80DS", 64);
  ("INTERNAL_GPGEN10NPMM_8ADS", 24);
  ("INTERNAL_GPGEN10NPMM_8DS", 24);
  ("INTERNAL_GPGEN10NPMM_96ADS", 64);
  ("INTERNAL_GPGEN11HH_128IPDS", 64);
  ("INTERNAL_GPGEN11HH_132IPDS", 64);
  ("INTERNAL_GPGEN11HH_192DS", 64);
  ("INTERNAL_GPGEN11HH_384IDS", 64);
  ("INTERNAL_GPGEN11MM_128IPDS", 64);
  ("INTERNAL_GPGEN11MM_132IPDS", 64);
  ("INTERNAL_GPGEN11MM_192DS", 64);
  ("INTERNAL_GPGEN11MM_384IDS", 64);
  ("INTERNAL_GPGEN8HHV2_128IAD", 32);
  ("INTERNAL_GPGEN8HHV2_128ID", 32);
  ("INTERNAL_GPGEN8HH_128IAD", 32);
  ("INTERNAL_GPGEN8HH_128ID", 32);
  ("INTERNAL_GPGEN8HH_128ID_IAAS", 32);
  ("INTERNAL_GPGEN8LMV2_128IAD", 32);
  ("INTERNAL_GPGEN8LMV2_128ID", 32);
  ("INTERNAL_GPGEN8LM_128IAD", 32);
  ("INTERNAL_GPGEN8LM_128ID", 32);
  ("INTERNAL_GPGEN8LM_128ID_IAAS", 32);
  ("INTERNAL_GPGEN8MH_128IAD", 32);
  ("INTERNAL_GPGEN8MH_20AD", 32);
  ("INTERNAL_GPGEN8MH_32AD", 32);
  ("INTERNAL_GPGEN8MH_64AD", 32);
  ("INTERNAL_GPGEN8MMV2_128IAD", 32);
  ("INTERNAL_GPGEN8MMV2_128ID", 32);
  ("INTERNAL_GPGEN8MM_128IAD", 32);
  ("INTERNAL_GPGEN8MM_128ID", 32);
  ("INTERNAL_GPGEN8MM_128ID_IAAS", 32);
  ("INTERNAL_GPGEN9HH_128ADS", 32);
  ("INTERNAL_GPGEN9HH_128DS", 32);
  ("INTERNAL_GPGEN9HH_160IADS", 64);
  ("INTERNAL_GPGEN9HH_160IADS_200G", 64);
  ("INTERNAL_GPGEN9HH_208IDS", 64);
  ("INTERNAL_GPGEN9LM_112IPDS", 64);
  ("INTERNAL_GPGEN9LM_112IPDS_200G", 64);
  ("INTERNAL_GPGEN9LM_160IADS", 64);
  ("INTERNAL_GPGEN9MH_160IAD_SMTON", 64);
  ("INTERNAL_GPGEN9MH_40AD", 64);
  ("INTERNAL_GPGEN9MH_80AD", 64);
  ("INTERNAL_GPGEN9MH_80IAD_SMTOFF", 64);
  ("INTERNAL_GPGEN9ML_208IDS", 64);
  ("INTERNAL_GPGEN9MM_112IPDS", 64);
  ("INTERNAL_GPGEN9MM_112IPDS_200G", 64);
  ("INTERNAL_GPGEN9MM_128DS", 32);
  ("INTERNAL_GPGEN9MM_160IADS", 64);
  ("INTERNAL_GPGEN9MM_160IADS_200G", 64);
  ("INTERNAL_GPGEN9MM_160IADS_CVM", 64);
  ("INTERNAL_GPGEN9MM_208IDS", 64);
  ("INTERNAL_GPGEN9NPG5CHH_16ADS", 48);
  ("INTERNAL_GPGEN9NPG5CHH_24ADS", 48);
  ("INTERNAL_GPGEN9NPG5CHH_2ADS", 8);
  ("INTERNAL_GPGEN9NPG5CHH_32ADS", 64);
  ("INTERNAL_GPGEN9NPG5CHH_40ADS", 64);
  ("INTERNAL_GPGEN9NPG5CHH_4ADS", 12);
  ("INTERNAL_GPGEN9NPG5CHH_64ADS", 64);
  ("INTERNAL_GPGEN9NPG5CHH_80ADS", 64);
  ("INTERNAL_GPGEN9NPG5CHH_8ADS", 24);
  ("INTERNAL_GPGEN9NPG5CMM_16ADS", 48);
  ("INTERNAL_GPGEN9NPG5CMM_24ADS", 48);
  ("INTERNAL_GPGEN9NPG5CMM_2ADS", 8);
  ("INTERNAL_GPGEN9NPG5CMM_32ADS", 64);
  ("INTERNAL_GPGEN9NPG5CMM_40ADS", 64);
  ("INTERNAL_GPGEN9NPG5CMM_4ADS", 12);
  ("INTERNAL_GPGEN9NPG5CMM_64ADS", 64);
  ("INTERNAL_GPGEN9NPG5CMM_80ADS", 64);
  ("INTERNAL_GPGEN9NPG5CMM_8ADS", 24);
  ("INTERNAL_GPGEN9NPHHG5C_128DS", 64);
  ("INTERNAL_GPGEN9NPHHG5C_16DS", 32);
  ("INTERNAL_GPGEN9NPHHG5C_208IDS", 64);
  ("INTERNAL_GPGEN9NPHHG5C_24DS", 32);
  ("INTERNAL_GPGEN9NPHHG5C_2DS", 4);
  ("INTERNAL_GPGEN9NPHHG5C_32DS", 64);
  ("INTERNAL_GPGEN9NPHHG5C_40DS", 64);
  ("INTERNAL_GPGEN9NPHHG5C_4DS", 8);
  ("INTERNAL_GPGEN9NPHHG5C_64DS", 64);
  ("INTERNAL_GPGEN9NPHHG5C_80DS", 64);
  ("INTERNAL_GPGEN9NPHHG5C_8DS", 16);
  ("INTERNAL_GPGEN9NPHH_104DS", 64);
  ("INTERNAL_GPGEN9NPHH_112ADS", 64);
  ("INTERNAL_GPGEN9NPHH_128DS", 64);
  ("INTERNAL_GPGEN9NPHH_16ADS", 48);
  ("INTERNAL_GPGEN9NPHH_16DS", 32);
  ("INTERNAL_GPGEN9NPHH_208IDS", 64);
  ("INTERNAL_GPGEN9NPHH_24ADS", 48);
  ("INTERNAL_GPGEN9NPHH_24DS", 32);
  ("INTERNAL_GPGEN9NPHH_2ADS", 8);
  ("INTERNAL_GPGEN9NPHH_2DS", 4);
  ("INTERNAL_GPGEN9NPHH_32ADS", 64);
  ("INTERNAL_GPGEN9NPHH_32DS", 64);
  ("INTERNAL_GPGEN9NPHH_40ADS", 64);
  ("INTERNAL_GPGEN9NPHH_40DS", 64);
  ("INTERNAL_GPGEN9NPHH_48ADS", 64);
  ("INTERNAL_GPGEN9NPHH_48DS", 64);
  ("INTERNAL_GPGEN9NPHH_4ADS", 12);
  ("INTERNAL_GPGEN9NPHH_4DS", 8)].
(** [azuredisk/azure_dd_max_disk_count.go maxDataDiskCountMap 622-771] *)
Definition disk_counts_5 : list (string * Z) := [
  ("INTERNAL_GPGEN9NPHH_64ADS", 64);
  ("INTERNAL_GPGEN9NPHH_64DS", 64);
  ("INTERNAL_GPGEN9NPHH_80ADS", 64);
  ("INTERNAL_GPGEN9NPHH_80DS", 64);
  ("INTERNAL_GPGEN9NPHH_8ADS", 24);
  ("INTERNAL_GPGEN9NPHH_8DS", 16);
  ("INTERNAL_GPGEN9NPHH_96ADS", 64);
  ("INTERNAL_GPGEN9NPMMG5C_128DS", 64);
  ("INTERNAL_GPGEN9NPMMG5C_16DS", 32);
  ("INTERNAL_GPGEN9NPMMG5C_208IDS", 64);
  ("INTERNAL_GPGEN9NPMMG5C_24DS", 32);
  ("INTERNAL_GPGEN9NPMMG5C_2DS", 4);
  ("INTERNAL_GPGEN9NPMMG5C_32DS", 64);
  ("INTERNAL_GPGEN9NPMMG5C_40DS", 64);
  ("INTERNAL_GPGEN9NPMMG5C_4DS", 8);
  ("INTERNAL_GPGEN9NPMMG5C_64DS", 64);
  ("INTERNAL_GPGEN9NPMMG5C_80DS", 64);
  ("INTERNAL_GPGEN9NPMMG5C_8DS", 16);
  ("INTERNAL_GPGEN9NPMM_128DS", 64);
  ("INTERNAL_GPGEN9NPMM_16ADS", 48);
  ("INTERNAL_GPGEN9NPMM_16DS", 32);
  ("INTERNAL_GPGEN9NPMM_208IDS", 64);
  ("INTERNAL_GPGEN9NPMM_24ADS", 48);
  ("INTERNAL_GPGEN9NPMM_24DS", 32);
  ("INTERNAL_GPGEN9NPMM_2ADS", 8);
  ("INTERNAL_GPGEN9NPMM_2DS", 4);
  ("INTERNAL_GPGEN9NPMM_32ADS", 64);
  ("INTERNAL_GPGEN9NPMM_32DS", 64);
  ("INTERNAL_GPGEN9NPMM_40ADS", 64);
  ("INTERNAL_GPGEN9NPMM_40DS", 64);
  ("INTERNAL_GPGEN9NPMM_48ADS", 64);
  ("INTERNAL_GPGEN9NPMM_4ADS", 12);
  ("INTERNAL_GPGEN9NPMM_4DS", 8);
  ("INTERNAL_GPGEN9NPMM_64ADS", 64);
  ("INTERNAL_GPGEN9NPMM_64DS", 64);
  ("INTERNAL_GPGEN9NPMM_80ADS", 64);
  ("INTERNAL_GPGEN9NPMM_80DS", 64);
  ("INTERNAL_GPGEN9NPMM_8ADS", 24);
  ("INTERNAL_GPGEN9NPMM_8DS", 16);
  ("INTERNAL_INTELGEN11TEST", 64);
  ("INTERNAL_L128IS_V2", 10);
  ("INTERNAL_LARGEHM4S_V4", 64);
  ("INTERNAL_NC40ADS_H100_V5", 8);
  ("INTERNAL_NC80ADIS_H100_V5", 16);
  ("INTERNAL_NPG5CV2_128IDS", 32);
  ("INTERNAL_NPG5C_128D", 32);
  ("INTERNAL_NPG5C_128DS", 32);
  ("INTERNAL_NPG5C_128ID", 32);
  ("INTERNAL_NPG5C_128IDS", 32);
  ("INTERNAL_NPG5C_128IDS_IAAS", 32);
  ("INTERNAL_NPG5C_128ID_IAAS", 32);
  ("INTERNAL_NPG5C_16D", 32);
  ("INTERNAL_NPG5C_16DS", 32);
  ("INTERNAL_NPG5C_24D", 32);
  ("INTERNAL_NPG5C_24DS", 32);
  ("INTERNAL_NPG5C_2D", 4);
  ("INTERNAL_NPG5C_2DS", 4);
  ("INTERNAL_NPG5C_32D", 32);
  ("INTERNAL_NPG5C_32DS", 32);
  ("INTERNAL_NPG5C_40D", 32);
  ("INTERNAL_NPG5C_40DS", 32);
  ("INTERNAL_NPG5C_4D", 8);
  ("INTERNAL_NPG5C_4DS", 8);
  ("INTERNAL_NPG5C_64D", 32);
  ("INTERNAL_NPG5C_64DS", 32);
  ("INTERNAL_NPG5C_80D", 32);
  ("INTERNAL_NPG5C_80DS", 32);
  ("INTERNAL_NPG5C_8D", 16);
  ("INTERNAL_NPG5C_8DS", 16);
  ("INTERNAL_NPHHV2_128IDS", 32);
  ("INTERNAL_NPHH_104DS", 32);
  ("INTERNAL_NPHH_128DS", 32);
  ("INTERNAL_NPHH_128IDS", 32);
  ("INTERNAL_NPHH_128IDS_IAAS", 32);
  ("INTERNAL_NPHH_16DS", 32);
  ("INTERNAL_NPHH_24DS", 32);
  ("INTERNAL_NPHH_2DS", 4);
  ("INTERNAL_NPHH_32DS", 32);
  ("INTERNAL_NPHH_40DS", 32);
  ("INTERNAL_NPHH_48DS", 32);
  ("INTERNAL_NPHH_4DS", 8);
  ("INTERNAL_NPHH_64DS", 32);
  ("INTERNAL_NPHH_80DS", 32);
  ("INTERNAL_NPHH_8DS", 16);
  ("INTERNAL_NPMMV2_128IDS", 32);
  ("INTERNAL_NPMM_128DS", 32);
  ("INTERNAL_NPMM_128IDS", 32);
  ("INTERNAL_NPMM_128IDS_IAAS", 32);
  ("INTERNAL_NPMM_16DS", 32);
  ("INTERNAL_NPMM_24DS", 32);
  ("INTERNAL_NPMM_2DS", 4);
  ("INTERNAL_NPMM_32DS", 32);
  ("INTERNAL_NPMM_40DS", 32);
  ("INTERNAL_NPMM_4DS", 8);
  ("INTERNAL_NPMM_64DS", 32);
  ("INTERNAL_NPMM_80DS", 32);
  ("INTERNAL_NPMM_8DS", 16);
  ("INTERNAL_SMALLHM4S_V4", 64);
  ("INTERNAL_SQLG6TEST", 32);
  ("INTERNAL_SQLG6TEST_COLOCATION", 32);
  ("INTERNAL_SQL_T0", 32);
  ("INTERNAL_SQL_T1", 32);
  ("INTERNAL_SQL_T10", 32);
  ("INTERNAL_SQL_T11", 32);
  ("INTERNAL_SQL_T2", 32);
  ("INTERNAL_SQL_T3", 32);
  ("INTERNAL_SQL_T4", 32);
  ("INTERNAL_SQL_T5", 32);
  ("INTERNAL_SQL_T6", 32);
  ("INTERNAL_SQL_T7", 32);
  ("INTERNAL_SQL_T8", 32);
  ("INTERNAL_SQL_T9", 32);
  ("INTERNAL_T0", 32);
  ("INTERNAL_T0S", 32);
  ("INTERNAL_T1", 32);
  ("INTERNAL_T1S", 32);
  ("INTERNAL_T2", 32);
  ("INTERNAL_T2S", 32);
  ("INTERNAL_T3", 32);
  ("INTERNAL_T3S", 32);
  ("INTERNAL_T4", 32);
  ("INTERNAL_T4S", 32);
  ("INTERNAL_T5", 32);
  ("INTERNAL_T5S", 32);
  ("INTERNAL_T6", 32);
  ("INTERNAL_T6S", 32);
  ("INTERNAL_T7", 32);
  ("INTERNAL_T7S", 32);
  ("INTERNAL_T8", 32);
  ("INTERNAL_T8S", 32);
  ("INTERNAL_T9", 32);
  ("INTERNAL_T9S", 32);
  ("LARGE_INTERNAL", 8);
  ("MAXDISK_VM_2_64", 64);
  ("MAXDISK_VM_4_64", 64);
  ("MEDIUM_INTERNAL", 4);
  ("ND144ISR_ETH_GB200_METAL_V6", 16);
  ("NETWORKMONITOR_ARM_V1", 4);
  ("NETWORKMONITOR_ARM_V2", 8);
  ("NETWORKMONITOR_X64_V1", 4);
  ("NETWORKMONITOR_X64_V2", 8);
  ("SMALL_INTERNAL", 2);
  ("SPECIAL_CCX_DS13_V2", 32);
  ("SPECIAL_CCX_DS14_V2", 64);
  ("SPECIAL_D4_V2", 32);
  ("SQLACC", 8);
  ("SQLDC12", 1);
  ("SQLDCGEN6_2", 32);
  ("SQLDW_DDA", 1);
  ("SQLDW_JBOD", 1)].
(** [azuredisk/azure_dd_max_disk_count.go maxDataDiskCountMap 772-921] *)
Definition disk_counts_6 : list (string * Z) := [
  ("SQLG3", 6);
  ("SQLG3VM5SSD", 5);
  ("SQLG3VM6SSD", 6);
  ("SQLG4VM", 5);
  ("SQLG5", 64);
  ("SQLG5CORE", 6);
  ("SQLG5V2", 32);
  ("SQLG5_80M", 6);
  ("SQLG5_IAAS", 32);
  ("SQLG5_NP16", 32);
  ("SQLG5_NP2", 4);
  ("SQLG5_NP24", 32);
  ("SQLG5_NP32", 32);
  ("SQLG5_NP4", 8);
  ("SQLG5_NP40", 32);
  ("SQLG5_NP64", 32);
  ("SQLG5_NP8", 16);
  ("SQLG5_NP80", 32);
  ("SQLG5_NP80S", 32);
  ("SQLG6", 1);
  ("SQLG6V2", 32);
  ("SQLG6_IAAS", 32);
  ("SQLG6_NP16", 32);
  ("SQLG6_NP2", 4);
  ("SQLG6_NP24", 32);
  ("SQLG6_NP32", 32);
  ("SQLG6_NP4", 8);
  ("SQLG6_NP40", 32);
  ("SQLG6_NP56", 32);
  ("SQLG6_NP64", 32);
  ("SQLG6_NP8", 16);
  ("SQLG6_NP80", 32);
  ("SQLG6_NP96", 32);
  ("SQLG6_NP96S", 32);
  ("SQLG7", 32);
  ("SQLG7V2", 32);
  ("SQLG7V2_AMD", 32);
  ("SQLG7_AMD", 32);
  ("SQLG7_AMD_IAAS", 32);
  ("SQLG7_AMD_NVME", 32);
  ("SQLG7_DCLK", 32);
  ("SQLG7_IAAS", 32);
  ("SQLG7_NP104", 32);
  ("SQLG7_NP104S", 32);
  ("SQLG7_NP16", 32);
  ("SQLG7_NP2", 4);
  ("SQLG7_NP24", 32);
  ("SQLG7_NP32", 32);
  ("SQLG7_NP4", 8);
  ("SQLG7_NP40", 32);
  ("SQLG7_NP64", 32);
  ("SQLG7_NP8", 16);
  ("SQLG7_NP80", 32);
  ("SQLG7_NP96", 32);
  ("SQLG7_NVME", 32);
  ("SQLGL", 1);
  ("SQLGLCORE", 1);
  ("SQLGM", 6);
  ("SQLGZ", 64);
  ("SQLVM1", 16);
  ("SQLVM2", 16);
  ("STANDARD_A0", 1);
  ("STANDARD_A0_V2", 2);
  ("STANDARD_A1", 2);
  ("STANDARD_A10", 32);
  ("STANDARD_A11", 64);
  ("STANDARD_A1WEB35_V2", 2);
  ("STANDARD_A1WEB_V2", 2);
  ("STANDARD_A1_V2", 2);
  ("STANDARD_A1_V2_GEN2", 2);
  ("STANDARD_A2", 4);
  ("STANDARD_A2M_V2", 4);
  ("STANDARD_A2M_V2_GEN2", 4);
  ("STANDARD_A2WEB45_V2", 2);
  ("STANDARD_A2WEB_V2", 2);
  ("STANDARD_A2_V2", 4);
  ("STANDARD_A2_V2_GEN2", 4);
  ("STANDARD_A3", 8);
  ("STANDARD_A4", 16);
  ("STANDARD_A4M_V2", 8);
  ("STANDARD_A4M_V2_GEN2", 8);
  ("STANDARD_A4WEB_V2", 2);
  ("STANDARD_A4_V2", 8);
  ("STANDARD_A4_V2_GEN2", 8);
  ("STANDARD_A5", 4);
  ("STANDARD_A6", 8);
  ("STANDARD_A7", 16);
  ("STANDARD_A8", 32);
  ("STANDARD_A8M_V2", 16);
  ("STANDARD_A8M_V2_GEN2", 16);
  ("STANDARD_A8_V2", 16);
  ("STANDARD_A8_V2_GEN2", 16);
  ("STANDARD_A9", 64);
  ("STANDARD_AKV112V1_G3", 32);
  ("STANDARD_AKV112V2_G3", 32);
  ("STANDARD_AKV126_G4", 32);
  ("STANDARD_AKV16V1_G3", 4);
  ("STANDARD_AKV192_G4", 32);
  ("STANDARD_AKV6", 4);
  ("STANDARD_AKV64V1_G3", 16);
  ("STANDARD_AKV64V2_G3", 32);
  ("STANDARD_AKV8", 4);
  ("STANDARD_AKV8V2", 4);
  ("STANDARD_B12MS", 16);
  ("STANDARD_B16ALS_V2", 32);
  ("STANDARD_B16AS_V2", 32);
  ("STANDARD_B16LS_V2", 32);
  ("STANDARD_B16MS", 32);
  ("STANDARD_B16PLS_V2", 32);
  ("STANDARD_B16PS_V2", 32);
  ("STANDARD_B16S_V2", 32);
  ("STANDARD_B1LS", 2);
  ("STANDARD_B1MS", 2);
  ("STANDARD_B1S", 2);
  ("STANDARD_B20MS", 32);
  ("STANDARD_B2AFS_V2", 4);
  ("STANDARD_B2ALS_V2", 4);
  ("STANDARD_B2AS_V2", 4);
  ("STANDARD_B2ATS_V2", 4);
  ("STANDARD_B2FS_V2", 4);
  ("STANDARD_B2HMS", 4);
  ("STANDARD_B2LS_V2", 4);
  ("STANDARD_B2MS", 4);
  ("STANDARD_B2PFS_V2", 4);
  ("STANDARD_B2PLS_V2", 4);
  ("STANDARD_B2PS_V2", 4);
  ("STANDARD_B2PTS_V2", 4);
  ("STANDARD_B2S", 4);
  ("STANDARD_B2S_V2", 4);
  ("STANDARD_B2TS_V2", 4);
  ("STANDARD_B32ALS_V2", 32);
  ("STANDARD_B32AS_V2", 32);
  ("STANDARD_B32LS_V2", 32);
  ("STANDARD_B32PLS_V2", 32);
  ("STANDARD_B32PS_V2", 32);
  ("STANDARD_B32S_V2", 32);
  ("STANDARD_B4ALS_V2", 8);
  ("STANDARD_B4AS_V2", 8);
  ("STANDARD_B4HMS", 8);
  ("STANDARD_B4LS_V2", 8);
  ("STANDARD_B4MS", 8);
  ("STANDARD_B4PLS_V2", 8);
  ("STANDARD_B4PS_V2", 8);
  ("STANDARD_B4S_V2", 8);
  ("STANDARD_B8ALS_V2", 16);
  ("STANDARD_B8AS_V2", 16);
  ("STANDARD_B8LS_V2", 16);
  ("STANDARD_B8MS", 16);
  ("STANDARD_B8PLS_V2", 16);
  ("STANDARD_B8PS_V2", 16)].
(** [azuredisk/azure_dd_max_disk_count.go maxDataDiskCountMap 922-1071] *)
Definition disk_counts_7 : list (string * Z) := [
  ("STANDARD_B8S_V2", 16);
  ("STANDARD_D1", 4);
  ("STANDARD_D11", 8);
  ("STANDARD_D11_V2", 8);
  ("STANDARD_D11_V2_INTERNAL", 4);
  ("STANDARD_D11_V2_PROMO", 8);
  ("STANDARD_D12", 16);
  ("STANDARD_D124DS_V7", 64);
  ("STANDARD_D124DUS_V7", 64);
  ("STANDARD_D124LDS_V7", 64);
  ("STANDARD_D124LDUS_V7", 64);
  ("STANDARD_D124LS_V7", 64);
  ("STANDARD_D124S_V7", 64);
  ("STANDARD_D128ADS_V7", 64);
  ("STANDARD_D128ADUS_V7", 64);
  ("STANDARD_D128ALDS_V7", 64);
  ("STANDARD_D128ALDUS_V7", 64);
  ("STANDARD_D128ALS_V7", 64);
  ("STANDARD_D128AS_V7", 64);
  ("STANDARD_D128DS_V6", 64);
  ("STANDARD_D128DS_V7", 64);
  ("STANDARD_D128DUS_V7", 64);
  ("STANDARD_D128LDS_V6", 64);
  ("STANDARD_D128LDS_V7", 64);
  ("STANDARD_D128LDUS_V7", 64);
  ("STANDARD_D128LS_V6", 64);
  ("STANDARD_D128LS_V7", 64);
  ("STANDARD_D128NDS_V6", 64);
  ("STANDARD_D128NLDS_V6", 64);
  ("STANDARD_D128NLS_V6", 64);
  ("STANDARD_D128NS_V6", 64);
  ("STANDARD_D128PDS_V7", 64);
  ("STANDARD_D128PDUS_V7", 64);
  ("STANDARD_D128PLDS_V7", 64);
  ("STANDARD_D128PLDUS_V7", 64);
  ("STANDARD_D128PLS_V7", 64);
  ("STANDARD_D128PNDS_V7", 64);
  ("STANDARD_D128PNDUS_V7", 64);
  ("STANDARD_D128PNLDS_V7", 64);
  ("STANDARD_D128PNLDUS_V7", 64);
  ("STANDARD_D128PNLS_V7", 64);
  ("STANDARD_D128PNS_V7", 64);
  ("STANDARD_D128PS_V7", 64);
  ("STANDARD_D128S_V6", 64);
  ("STANDARD_D128S_V7", 64);
  ("STANDARD_D12_V2", 16);
  ("STANDARD_D12_V2_INTERNAL", 8);
  ("STANDARD_D12_V2_PROMO", 16);
  ("STANDARD_D13", 32);
  ("STANDARD_D13_V2", 32);
  ("STANDARD_D13_V2_INTERNAL", 16);
  ("STANDARD_D13_V2_PROMO", 32);
  ("STANDARD_D14", 64);
  ("STANDARD_D14_V2", 64);
  ("STANDARD_D14_V2_INTERNAL", 32);
  ("STANDARD_D14_V2_PROMO", 64);
  ("STANDARD_D15I_V2", 64);
  ("STANDARD_D15_V2", 64);
  ("STANDARD_D15_V2_NESTED", 64);
  ("STANDARD_D160ADS_V7", 64);
  ("STANDARD_D160ALDS_V7", 64);
  ("STANDARD_D160ALS_V7", 64);
  ("STANDARD_D160AS_V7", 64);
  ("STANDARD_D16ADS_V5", 32);
  ("STANDARD_D16ADS_V6", 32);
  ("STANDARD_D16ADS_V7", 48);
  ("STANDARD_D16AEDS_V6", 32);
  ("STANDARD_D16ALDS_V5", 32);
  ("STANDARD_D16ALDS_V6", 32);
  ("STANDARD_D16ALDS_V7", 48);
  ("STANDARD_D16ALS_V5", 32);
  ("STANDARD_D16ALS_V6", 32);
  ("STANDARD_D16ALS_V7", 48);
  ("STANDARD_D16ANDS_V7", 32);
  ("STANDARD_D16ANLDS_V7", 32);
  ("STANDARD_D16ANLS_V7", 32);
  ("STANDARD_D16ANS_V7", 32);
  ("STANDARD_D16AODS_V6", 32);
  ("STANDARD_D16AS_V3", 32);
  ("STANDARD_D16AS_V4", 32);
  ("STANDARD_D16AS_V5", 32);
  ("STANDARD_D16AS_V5_PROMO", 32);
  ("STANDARD_D16AS_V6", 32);
  ("STANDARD_D16AS_V7", 48);
  ("STANDARD_D16A_V3", 32);
  ("STANDARD_D16A_V4", 32);
  ("STANDARD_D16DARM_V3", 48);
  ("STANDARD_D16DS_V4", 32);
  ("STANDARD_D16DS_V5", 32);
  ("STANDARD_D16DS_V6", 48);
  ("STANDARD_D16DS_V7", 48);
  ("STANDARD_D16D_V4", 32);
  ("STANDARD_D16D_V5", 32);
  ("STANDARD_D16LDS_V5", 32);
  ("STANDARD_D16LDS_V6", 48);
  ("STANDARD_D16LDS_V7", 48);
  ("STANDARD_D16LD_V5", 32);
  ("STANDARD_D16LS_V5", 32);
  ("STANDARD_D16LS_V6", 48);
  ("STANDARD_D16LS_V7", 48);
  ("STANDARD_D16L_V5", 32);
  ("STANDARD_D16NDS_V6", 48);
  ("STANDARD_D16NLDS_V6", 48);
  ("STANDARD_D16NLS_V6", 48);
  ("STANDARD_D16NLS_V6_MANADIRECT_EXPERIMENTAL", 24);
  ("STANDARD_D16NS_V6", 48);
  ("STANDARD_D16PDS_V5", 32);
  ("STANDARD_D16PDS_V6", 48);
  ("STANDARD_D16PDS_V7", 48);
  ("STANDARD_D16PLDS_V5", 32);
  ("STANDARD_D16PLDS_V6", 48);
  ("STANDARD_D16PLDS_V7", 48);
  ("STANDARD_D16PLS_V5", 32);
  ("STANDARD_D16PLS_V6", 48);
  ("STANDARD_D16PLS_V7", 48);
  ("STANDARD_D16PNDS_V6", 48);
  ("STANDARD_D16PNDS_V7", 48);
  ("STANDARD_D16PNLDS_V6", 48);
  ("STANDARD_D16PNLDS_V7", 48);
  ("STANDARD_D16PNLS_V6", 48);
  ("STANDARD_D16PNLS_V7", 48);
  ("STANDARD_D16PNS_V6", 48);
  ("STANDARD_D16PNS_V7", 48);
  ("STANDARD_D16PS_V5", 32);
  ("STANDARD_D16PS_V6", 48);
  ("STANDARD_D16PS_V7", 48);
  ("STANDARD_D16S_V3", 32);
  ("STANDARD_D16S_V4", 32);
  ("STANDARD_D16S_V5", 32);
  ("STANDARD_D16S_V6", 48);
  ("STANDARD_D16S_V7", 48);
  ("STANDARD_D16_V3", 32);
  ("STANDARD_D16_V4", 32);
  ("STANDARD_D16_V5", 32);
  ("STANDARD_D186DS_V7", 64);
  ("STANDARD_D186DUS_V7", 64);
  ("STANDARD_D186LDS_V7", 64);
  ("STANDARD_D186LDUS_V7", 64);
  ("STANDARD_D186LS_V7", 64);
  ("STANDARD_D186S_V7", 64);
  ("STANDARD_D192DS_V6", 64);
  ("STANDARD_D192DS_V7", 64);
  ("STANDARD_D192DUS_V7", 64);
  ("STANDARD_D192LDS_V7", 64);
  ("STANDARD_D192LDUS_V7", 64);
  ("STANDARD_D192LS_V7", 64);
  ("STANDARD_D192NLS_V6_MANADIRECT_EXPERIMENTAL", 64);
  ("STANDARD_D192S_V6", 64);
  ("STANDARD_D192S_V7", 64);
  ("STANDARD_D1PDS_V7", 4)].
(** [azuredisk/azure_dd_max_disk_count.go maxDataDiskCountMap 1072-1221] *)
Definition disk_counts_8 : list (string * Z) := [
  ("STANDARD_D1PLDS_V7", 4);
  ("STANDARD_D1PLS_V7", 4);
  ("STANDARD_D1PNDS_V7", 4);
  ("STANDARD_D1PNLDS_V7", 4);
  ("STANDARD_D1PNLS_V7", 4);
  ("STANDARD_D1PNS_V7", 4);
  ("STANDARD_D1PS_V7", 4);
  ("STANDARD_D1_V2", 4);
  ("STANDARD_D1_V2_INTERNAL", 2);
  ("STANDARD_D2", 8);
  ("STANDARD_D248DS_V7", 64);
  ("STANDARD_D248DUS_V7", 64);
  ("STANDARD_D248LDS_V7", 64);
  ("STANDARD_D248LDUS_V7", 64);
  ("STANDARD_D248LS_V7", 64);
  ("STANDARD_D248S_V7", 64);
  ("STANDARD_D256DS_V7", 64);
  ("STANDARD_D256DUS_V7", 64);
  ("STANDARD_D256LDS_V7", 64);
  ("STANDARD_D256LDUS_V7", 64);
  ("STANDARD_D256LS_V7", 64);
  ("STANDARD_D256S_V7", 64);
  ("STANDARD_D2ADS_V5", 4);
  ("STANDARD_D2ADS_V6", 4);
  ("STANDARD_D2ADS_V7", 10);
  ("STANDARD_D2AEDS_V6", 4);
  ("STANDARD_D2AHS_V4", 4);
  ("STANDARD_D2ALDS_V5", 4);
  ("STANDARD_D2ALDS_V6", 4);
  ("STANDARD_D2ALDS_V7", 10);
  ("STANDARD_D2ALS_V5", 4);
  ("STANDARD_D2ALS_V6", 4);
  ("STANDARD_D2ALS_V7", 10);
  ("STANDARD_D2ANDS_V7", 4);
  ("STANDARD_D2ANLDS_V7", 4);
  ("STANDARD_D2ANLS_V7", 4);
  ("STANDARD_D2ANS_V7", 4);
  ("STANDARD_D2AODS_V6", 4);
  ("STANDARD_D2AS_V3", 4);
  ("STANDARD_D2AS_V4", 4);
  ("STANDARD_D2AS_V5", 4);
  ("STANDARD_D2AS_V5_PROMO", 4);
  ("STANDARD_D2AS_V6", 4);
  ("STANDARD_D2AS_V7", 10);
  ("STANDARD_D2A_V3", 4);
  ("STANDARD_D2A_V4", 4);
  ("STANDARD_D2DARM_V3", 8);
  ("STANDARD_D2DS_V4", 4);
  ("STANDARD_D2DS_V5", 4);
  ("STANDARD_D2DS_V6", 8);
  ("STANDARD_D2DS_V7", 10);
  ("STANDARD_D2D_V4", 4);
  ("STANDARD_D2D_V5", 4);
  ("STANDARD_D2HS_V3", 4);
  ("STANDARD_D2LDS_V5", 4);
  ("STANDARD_D2LDS_V6", 8);
  ("STANDARD_D2LDS_V7", 10);
  ("STANDARD_D2LD_V5", 4);
  ("STANDARD_D2LS_V5", 4);
  ("STANDARD_D2LS_V6", 8);
  ("STANDARD_D2LS_V7", 10);
  ("STANDARD_D2L_V5", 4);
  ("STANDARD_D2NDS_V6", 8);
  ("STANDARD_D2NLDS_V6", 8);
  ("STANDARD_D2NLS_V6", 8);
  ("STANDARD_D2NLS_V6_MANADIRECT_EXPERIMENTAL", 8);
  ("STANDARD_D2NS_V6", 8);
  ("STANDARD_D2PDS_V5", 4);
  ("STANDARD_D2PDS_V6", 8);
  ("STANDARD_D2PDS_V7", 8);
  ("STANDARD_D2PLDS_V5", 4);
  ("STANDARD_D2PLDS_V6", 8);
  ("STANDARD_D2PLDS_V7", 8);
  ("STANDARD_D2PLS_V5", 4);
  ("STANDARD_D2PLS_V6", 8);
  ("STANDARD_D2PLS_V7", 8);
  ("STANDARD_D2PNDS_V6", 8);
  ("STANDARD_D2PNDS_V7", 8);
  ("STANDARD_D2PNLDS_V6", 8);
  ("STANDARD_D2PNLDS_V7", 8);
  ("STANDARD_D2PNLS_V6", 8);
  ("STANDARD_D2PNLS_V7", 8);
  ("STANDARD_D2PNS_V6", 8);
  ("STANDARD_D2PNS_V7", 8);
  ("STANDARD_D2PS_V5", 4);
  ("STANDARD_D2PS_V6", 8);
  ("STANDARD_D2PS_V7", 8);
  ("STANDARD_D2S_V3", 4);
  ("STANDARD_D2S_V4", 4);
  ("STANDARD_D2S_V5", 4);
  ("STANDARD_D2S_V6", 8);
  ("STANDARD_D2S_V7", 10);
  ("STANDARD_D2_V2", 8);
  ("STANDARD_D2_V2_INTERNAL", 4);
  ("STANDARD_D2_V2_PROMO", 8);
  ("STANDARD_D2_V3", 4);
  ("STANDARD_D2_V4", 4);
  ("STANDARD_D2_V5", 4);
  ("STANDARD_D3", 16);
  ("STANDARD_D32-16S_V3", 32);
  ("STANDARD_D32-8S_V3", 32);
  ("STANDARD_D32ADS_V5", 32);
  ("STANDARD_D32ADS_V6", 32);
  ("STANDARD_D32ADS_V7", 64);
  ("STANDARD_D32ADUS_V6", 32);
  ("STANDARD_D32AEDS_V6", 32);
  ("STANDARD_D32ALDS_V5", 32);
  ("STANDARD_D32ALDS_V6", 32);
  ("STANDARD_D32ALDS_V7", 64);
  ("STANDARD_D32ALDUS_V6", 32);
  ("STANDARD_D32ALS_V5", 32);
  ("STANDARD_D32ALS_V6", 32);
  ("STANDARD_D32ALS_V7", 64);
  ("STANDARD_D32ANDS_V7", 32);
  ("STANDARD_D32ANLDS_V7", 32);
  ("STANDARD_D32ANLS_V7", 32);
  ("STANDARD_D32ANS_V7", 32);
  ("STANDARD_D32AODS_V6", 32);
  ("STANDARD_D32AS_V3", 32);
  ("STANDARD_D32AS_V4", 32);
  ("STANDARD_D32AS_V5", 32);
  ("STANDARD_D32AS_V5_PROMO", 32);
  ("STANDARD_D32AS_V6", 32);
  ("STANDARD_D32AS_V7", 64);
  ("STANDARD_D32A_V3", 32);
  ("STANDARD_D32A_V4", 32);
  ("STANDARD_D32DARM_V3", 64);
  ("STANDARD_D32DS_V4", 32);
  ("STANDARD_D32DS_V5", 32);
  ("STANDARD_D32DS_V6", 64);
  ("STANDARD_D32DS_V7", 64);
  ("STANDARD_D32DUS_V6", 64);
  ("STANDARD_D32D_V4", 32);
  ("STANDARD_D32D_V5", 32);
  ("STANDARD_D32LDS_V5", 32);
  ("STANDARD_D32LDS_V6", 64);
  ("STANDARD_D32LDS_V7", 64);
  ("STANDARD_D32LDUS_V6", 64);
  ("STANDARD_D32LD_V5", 32);
  ("STANDARD_D32LS_V5", 32);
  ("STANDARD_D32LS_V6", 64);
  ("STANDARD_D32LS_V7", 64);
  ("STANDARD_D32L_V5", 32);
  ("STANDARD_D32NDS_V6", 64);
  ("STANDARD_D32NDUS_V6", 64);
  ("STANDARD_D32NLDS_V6", 64);
  ("STANDARD_D32NLDUS_V6", 64);
  ("STANDARD_D32NLS_V6", 64);
  ("STANDARD_D32NS_V6", 64);
  ("STANDARD_D32PDS_V5", 32)].
(** [azuredisk/azure_dd_max_disk_count.go maxDataDiskCountMap 1222-1371] *)
Definition disk_counts_9 : list (string * Z) := [
  ("STANDARD_D32PDS_V6", 64);
  ("STANDARD_D32PDS_V7", 64);
  ("STANDARD_D32PDUS_V6", 64);
  ("STANDARD_D32PLDS_V5", 32);
  ("STANDARD_D32PLDS_V6", 64);
  ("STANDARD_D32PLDS_V7", 64);
  ("STANDARD_D32PLDUS_V6", 64);
  ("STANDARD_D32PLS_V5", 32);
  ("STANDARD_D32PLS_V6", 64);
  ("STANDARD_D32PLS_V7", 64);
  ("STANDARD_D32PNDS_V6", 64);
  ("STANDARD_D32PNDS_V7", 64);
  ("STANDARD_D32PNLDS_V6", 64);
  ("STANDARD_D32PNLDS_V7", 64);
  ("STANDARD_D32PNLS_V6", 64);
  ("STANDARD_D32PNLS_V7", 64);
  ("STANDARD_D32PNS_V6", 64);
  ("STANDARD_D32PNS_V7", 64);
  ("STANDARD_D32PS_V5", 32);
  ("STANDARD_D32PS_V6", 64);
  ("STANDARD_D32PS_V7", 64);
  ("STANDARD_D32S_V3", 32);
  ("STANDARD_D32S_V4", 32);
  ("STANDARD_D32S_V5", 32);
  ("STANDARD_D32S_V6", 64);
  ("STANDARD_D32S_V7", 64);
  ("STANDARD_D32_V3", 32);
  ("STANDARD_D32_V4", 32);
  ("STANDARD_D32_V5", 32);
  ("STANDARD_D360DS_V7", 64);
  ("STANDARD_D360IDS_V7", 64);
  ("STANDARD_D360IS_V7", 64);
  ("STANDARD_D360S_V7", 64);
  ("STANDARD_D372DS_V7", 64);
  ("STANDARD_D372IDS_V7", 64);
  ("STANDARD_D372IS_V7", 64);
  ("STANDARD_D372S_V7", 64);
  ("STANDARD_D3_V2", 16);
  ("STANDARD_D3_V2_INTERNAL", 8);
  ("STANDARD_D3_V2_PROMO", 16);
  ("STANDARD_D4", 32);
  ("STANDARD_D40_V3", 40);
  ("STANDARD_D48ADS_V5", 32);
  ("STANDARD_D48ADS_V6", 32);
  ("STANDARD_D48ADS_V7", 64);
  ("STANDARD_D48AEDS_V6", 32);
  ("STANDARD_D48ALDS_V5", 32);
  ("STANDARD_D48ALDS_V6", 32);
  ("STANDARD_D48ALDS_V7", 64);
  ("STANDARD_D48ALS_V5", 32);
  ("STANDARD_D48ALS_V6", 32);
  ("STANDARD_D48ALS_V7", 64);
  ("STANDARD_D48ANDS_V7", 32);
  ("STANDARD_D48ANLDS_V7", 32);
  ("STANDARD_D48ANLS_V7", 32);
  ("STANDARD_D48ANS_V7", 32);
  ("STANDARD_D48AODS_V6", 32);
  ("STANDARD_D48AS_V3", 32);
  ("STANDARD_D48AS_V4", 32);
  ("STANDARD_D48AS_V5", 32);
  ("STANDARD_D48AS_V5_PROMO", 32);
  ("STANDARD_D48AS_V6", 32);
  ("STANDARD_D48AS_V7", 64);
  ("STANDARD_D48A_V3", 32);
  ("STANDARD_D48A_V4", 32);
  ("STANDARD_D48DARM_V3", 64);
  ("STANDARD_D48DS_V4", 32);
  ("STANDARD_D48DS_V5", 32);
  ("STANDARD_D48DS_V6", 64);
  ("STANDARD_D48DS_V7", 64);
  ("STANDARD_D48D_V4", 32);
  ("STANDARD_D48D_V5", 32);
  ("STANDARD_D48LDS_V5", 32);
  ("STANDARD_D48LDS_V6", 64);
  ("STANDARD_D48LDS_V7", 64);
  ("STANDARD_D48LD_V5", 32);
  ("STANDARD_D48LS_V5", 32);
  ("STANDARD_D48LS_V6", 64);
  ("STANDARD_D48LS_V7", 64);
  ("STANDARD_D48L_V5", 32);
  ("STANDARD_D48NDS_V6", 64);
  ("STANDARD_D48NLDS_V6", 64);
  ("STANDARD_D48NLS_V6", 64);
  ("STANDARD_D48NS_V6", 64);
  ("STANDARD_D48PDS_V5", 32);
  ("STANDARD_D48PDS_V6", 64);
  ("STANDARD_D48PDS_V7", 64);
  ("STANDARD_D48PLDS_V5", 32);
  ("STANDARD_D48PLDS_V6", 64);
  ("STANDARD_D48PLDS_V7", 64);
  ("STANDARD_D48PLS_V5", 32);
  ("STANDARD_D48PLS_V6", 64);
  ("STANDARD_D48PLS_V7", 64);
  ("STANDARD_D48PNDS_V6", 64);
  ("STANDARD_D48PNDS_V7", 64);
  ("STANDARD_D48PNLDS_V6", 64);
  ("STANDARD_D48PNLDS_V7", 64);
  ("STANDARD_D48PNLS_V6", 64);
  ("STANDARD_D48PNLS_V7", 64);
  ("STANDARD_D48PNS_V6", 64);
  ("STANDARD_D48PNS_V7", 64);
  ("STANDARD_D48PS_V5", 32);
  ("STANDARD_D48PS_V6", 64);
  ("STANDARD_D48PS_V7", 64);
  ("STANDARD_D48S_V3", 32);
  ("STANDARD_D48S_V4", 32);
  ("STANDARD_D48S_V5", 32);
  ("STANDARD_D48S_V6", 64);
  ("STANDARD_D48S_V7", 64);
  ("STANDARD_D48_V3", 32);
  ("STANDARD_D48_V4", 32);
  ("STANDARD_D48_V5", 32);
  ("STANDARD_D4ADS_V5", 8);
  ("STANDARD_D4ADS_V6", 8);
  ("STANDARD_D4ADS_V7", 12);
  ("STANDARD_D4AEDS_V6", 8);
  ("STANDARD_D4AHS_V4", 8);
  ("STANDARD_D4ALDS_V5", 8);
  ("STANDARD_D4ALDS_V6", 8);
  ("STANDARD_D4ALDS_V7", 12);
  ("STANDARD_D4ALS_V5", 8);
  ("STANDARD_D4ALS_V6", 8);
  ("STANDARD_D4ALS_V7", 12);
  ("STANDARD_D4ANDS_V7", 8);
  ("STANDARD_D4ANLDS_V7", 8);
  ("STANDARD_D4ANLS_V7", 8);
  ("STANDARD_D4ANS_V7", 8);
  ("STANDARD_D4AODS_V6", 8);
  ("STANDARD_D4AS_V3", 8);
  ("STANDARD_D4AS_V4", 8);
  ("STANDARD_D4AS_V5", 8);
  ("STANDARD_D4AS_V5_PROMO", 8);
  ("STANDARD_D4AS_V6", 8);
  ("STANDARD_D4AS_V7", 12);
  ("STANDARD_D4A_V3", 8);
  ("STANDARD_D4A_V4", 8);
  ("STANDARD_D4DARM_V3", 12);
  ("STANDARD_D4DS_V4", 8);
  ("STANDARD_D4DS_V5", 8);
  ("STANDARD_D4DS_V6", 12);
  ("STANDARD_D4DS_V7", 12);
  ("STANDARD_D4D_V4", 8);
  ("STANDARD_D4D_V5", 8);
  ("STANDARD_D4HS_V3", 8);
  ("STANDARD_D4LDS_V5", 8);
  ("STANDARD_D4LDS_V6", 12);
  ("STANDARD_D4LDS_V7", 12);
  ("STANDARD_D4LD_V5", 8);
  ("STANDARD_D4LS_V5", 8);
  ("STANDARD_D4LS_V6", 12)].
(** [azuredisk/azure_dd_max_disk_count.go maxDataDiskCountMap 1372-1521] *)
Definition disk_counts_10 : list (string * Z) := [
  ("STANDARD_D4LS_V7", 12);
  ("STANDARD_D4L_V5", 8);
  ("STANDARD_D4NDS_V6", 12);
  ("STANDARD_D4NLDS_V6", 12);
  ("STANDARD_D4NLS_V6", 12);
  ("STANDARD_D4NLS_V6_MANADIRECT_EXPERIMENTAL", 12);
  ("STANDARD_D4NS_V6", 12);
  ("STANDARD_D4PDS_V5", 8);
  ("STANDARD_D4PDS_V6", 12);
  ("STANDARD_D4PDS_V7", 12);
  ("STANDARD_D4PLDS_V5", 8);
  ("STANDARD_D4PLDS_V6", 12);
  ("STANDARD_D4PLDS_V7", 12);
  ("STANDARD_D4PLS_V5", 8);
  ("STANDARD_D4PLS_V6", 12);
  ("STANDARD_D4PLS_V7", 12);
  ("STANDARD_D4PNDS_V6", 12);
  ("STANDARD_D4PNDS_V7", 12);
  ("STANDARD_D4PNLDS_V6", 12);
  ("STANDARD_D4PNLDS_V7", 12);
  ("STANDARD_D4PNLS_V6", 12);
  ("STANDARD_D4PNLS_V7", 12);
  ("STANDARD_D4PNS_V6", 12);
  ("STANDARD_D4PNS_V7", 12);
  ("STANDARD_D4PS_V5", 8);
  ("STANDARD_D4PS_V6", 12);
  ("STANDARD_D4PS_V7", 12);
  ("STANDARD_D4S_V3", 8);
  ("STANDARD_D4S_V4", 8);
  ("STANDARD_D4S_V5", 8);
  ("STANDARD_D4S_V6", 12);
  ("STANDARD_D4S_V7", 12);
  ("STANDARD_D4_V2", 32);
  ("STANDARD_D4_V2_INTERNAL", 16);
  ("STANDARD_D4_V2_PROMO", 32);
  ("STANDARD_D4_V3", 8);
  ("STANDARD_D4_V4", 8);
  ("STANDARD_D4_V5", 8);
  ("STANDARD_D5_V2", 64);
  ("STANDARD_D5_V2_INTERNAL", 32);
  ("STANDARD_D5_V2_PROMO", 64);
  ("STANDARD_D64-16S_V3", 32);
  ("STANDARD_D64-32S_V3", 32);
  ("STANDARD_D64ADS_V5", 32);
  ("STANDARD_D64ADS_V6", 32);
  ("STANDARD_D64ADS_V7", 64);
  ("STANDARD_D64ADUS_V6", 32);
  ("STANDARD_D64ADUS_V7", 64);
  ("STANDARD_D64AEDS_V6", 32);
  ("STANDARD_D64ALDS_V5", 32);
  ("STANDARD_D64ALDS_V6", 32);
  ("STANDARD_D64ALDS_V7", 64);
  ("STANDARD_D64ALDUS_V6", 32);
  ("STANDARD_D64ALDUS_V7", 64);
  ("STANDARD_D64ALS_V5", 32);
  ("STANDARD_D64ALS_V6", 32);
  ("STANDARD_D64ALS_V7", 64);
  ("STANDARD_D64ANDS_V7", 32);
  ("STANDARD_D64ANLDS_V7", 32);
  ("STANDARD_D64ANLS_V7", 32);
  ("STANDARD_D64ANS_V7", 32);
  ("STANDARD_D64AODS_V6", 32);
  ("STANDARD_D64AS_V3", 32);
  ("STANDARD_D64AS_V4", 32);
  ("STANDARD_D64AS_V5", 32);
  ("STANDARD_D64AS_V5_PROMO", 32);
  ("STANDARD_D64AS_V6", 32);
  ("STANDARD_D64AS_V7", 64);
  ("STANDARD_D64A_V3", 32);
  ("STANDARD_D64A_V4", 32);
  ("STANDARD_D64DS_V4", 32);
  ("STANDARD_D64DS_V5", 32);
  ("STANDARD_D64DS_V6", 64);
  ("STANDARD_D64DS_V7", 64);
  ("STANDARD_D64DUS_V6", 64);
  ("STANDARD_D64DUS_V7", 64);
  ("STANDARD_D64D_V4", 32);
  ("STANDARD_D64D_V5", 32);
  ("STANDARD_D64LDS_V5", 32);
  ("STANDARD_D64LDS_V6", 64);
  ("STANDARD_D64LDS_V7", 64);
  ("STANDARD_D64LDUS_V6", 64);
  ("STANDARD_D64LDUS_V7", 64);
  ("STANDARD_D64LD_V5", 32);
  ("STANDARD_D64LS_V5", 32);
  ("STANDARD_D64LS_V6", 64);
  ("STANDARD_D64LS_V7", 64);
  ("STANDARD_D64L_V5", 32);
  ("STANDARD_D64NDS_V6", 64);
  ("STANDARD_D64NDUS_V6", 64);
  ("STANDARD_D64NLDS_V6", 64);
  ("STANDARD_D64NLDUS_V6", 64);
  ("STANDARD_D64NLS_V6", 64);
  ("STANDARD_D64NLS_V6_MANADIRECT_EXPERIMENTAL", 48);
  ("STANDARD_D64NS_V6", 64);
  ("STANDARD_D64PDS_V5", 32);
  ("STANDARD_D64PDS_V6", 64);
  ("STANDARD_D64PDS_V7", 64);
  ("STANDARD_D64PDUS_V6", 64);
  ("STANDARD_D64PDUS_V7", 64);
  ("STANDARD_D64PLDS_V5", 32);
  ("STANDARD_D64PLDS_V6", 64);
  ("STANDARD_D64PLDS_V7", 64);
  ("STANDARD_D64PLDUS_V6", 64);
  ("STANDARD_D64PLDUS_V7", 64);
  ("STANDARD_D64PLS_V5", 32);
  ("STANDARD_D64PLS_V6", 64);
  ("STANDARD_D64PLS_V7", 64);
  ("STANDARD_D64PNDS_V6", 64);
  ("STANDARD_D64PNDS_V7", 64);
  ("STANDARD_D64PNDUS_V7", 64);
  ("STANDARD_D64PNLDS_V6", 64);
  ("STANDARD_D64PNLDS_V7", 64);
  ("STANDARD_D64PNLDUS_V7", 64);
  ("STANDARD_D64PNLS_V6", 64);
  ("STANDARD_D64PNLS_V7", 64);
  ("STANDARD_D64PNS_V6", 64);
  ("STANDARD_D64PNS_V7", 64);
  ("STANDARD_D64PS_V5", 32);
  ("STANDARD_D64PS_V6", 64);
  ("STANDARD_D64PS_V7", 64);
  ("STANDARD_D64S_V3", 32);
  ("STANDARD_D64S_V4", 32);
  ("STANDARD_D64S_V5", 32);
  ("STANDARD_D64S_V6", 64);
  ("STANDARD_D64S_V7", 64);
  ("STANDARD_D64_V3", 32);
  ("STANDARD_D64_V4", 32);
  ("STANDARD_D64_V5", 32);
  ("STANDARD_D8ADS_V5", 16);
  ("STANDARD_D8ADS_V6", 16);
  ("STANDARD_D8ADS_V7", 26);
  ("STANDARD_D8AEDS_V6", 16);
  ("STANDARD_D8AHS_V4", 16);
  ("STANDARD_D8ALDS_V5", 16);
  ("STANDARD_D8ALDS_V6", 16);
  ("STANDARD_D8ALDS_V7", 26);
  ("STANDARD_D8ALS_V5", 16);
  ("STANDARD_D8ALS_V6", 16);
  ("STANDARD_D8ALS_V7", 26);
  ("STANDARD_D8ANDS_V7", 16);
  ("STANDARD_D8ANLDS_V7", 16);
  ("STANDARD_D8ANLS_V7", 16);
  ("STANDARD_D8ANS_V7", 16);
  ("STANDARD_D8AODS_V6", 16);
  ("STANDARD_D8AS_V3", 16);
  ("STANDARD_D8AS_V4", 16);
  ("STANDARD_D8AS_V5", 16);
  ("STANDARD_D8AS_V5_PROMO", 16);
  ("STANDARD_D8AS_V6", 16)].
(** [azuredisk/azure_dd_max_disk_count.go maxDataDiskCountMap 1522-1671] *)
Definition disk_counts_11 : list (string * Z) := [
  ("STANDARD_D8AS_V7", 26);
  ("STANDARD_D8A_V3", 16);
  ("STANDARD_D8A_V4", 16);
  ("STANDARD_D8DARM_V3", 24);
  ("STANDARD_D8DS_V4", 16);
  ("STANDARD_D8DS_V5", 16);
  ("STANDARD_D8DS_V6", 24);
  ("STANDARD_D8DS_V7", 26);
  ("STANDARD_D8D_V4", 16);
  ("STANDARD_D8D_V5", 16);
  ("STANDARD_D8HS_V3", 16);
  ("STANDARD_D8LDS_V5", 16);
  ("STANDARD_D8LDS_V6", 24);
  ("STANDARD_D8LDS_V7", 26);
  ("STANDARD_D8LD_V5", 16);
  ("STANDARD_D8LS_V5", 16);
  ("STANDARD_D8LS_V6", 24);
  ("STANDARD_D8LS_V7", 26);
  ("STANDARD_D8L_V5", 16);
  ("STANDARD_D8NDS_V6", 24);
  ("STANDARD_D8NLDS_V6", 24);
  ("STANDARD_D8NLS_V6", 24);
  ("STANDARD_D8NS_V6", 24);
  ("STANDARD_D8PDS_V5", 16);
  ("STANDARD_D8PDS_V6", 24);
  ("STANDARD_D8PDS_V7", 24);
  ("STANDARD_D8PLDS_V5", 16);
  ("STANDARD_D8PLDS_V6", 24);
  ("STANDARD_D8PLDS_V7", 24);
  ("STANDARD_D8PLS_V5", 16);
  ("STANDARD_D8PLS_V6", 24);
  ("STANDARD_D8PLS_V7", 24);
  ("STANDARD_D8PNDS_V6", 24);
  ("STANDARD_D8PNDS_V7", 24);
  ("STANDARD_D8PNLDS_V6", 24);
  ("STANDARD_D8PNLDS_V7", 24);
  ("STANDARD_D8PNLS_V6", 24);
  ("STANDARD_D8PNLS_V7", 24);
  ("STANDARD_D8PNS_V6", 24);
  ("STANDARD_D8PNS_V7", 24);
  ("STANDARD_D8PS_V5", 16);
  ("STANDARD_D8PS_V6", 24);
  ("STANDARD_D8PS_V7", 24);
  ("STANDARD_D8S_V3", 16);
  ("STANDARD_D8S_V4", 16);
  ("STANDARD_D8S_V5", 16);
  ("STANDARD_D8S_V6", 24);
  ("STANDARD_D8S_V7", 26);
  ("STANDARD_D8_V3", 16);
  ("STANDARD_D8_V4", 16);
  ("STANDARD_D8_V5", 16);
  ("STANDARD_D96ADS_V5", 32);
  ("STANDARD_D96ADS_V6", 32);
  ("STANDARD_D96ADS_V7", 64);
  ("STANDARD_D96ADUS_V6", 32);
  ("STANDARD_D96AEDS_V6", 32);
  ("STANDARD_D96ALDS_V5", 32);
  ("STANDARD_D96ALDS_V6", 32);
  ("STANDARD_D96ALDS_V7", 64);
  ("STANDARD_D96ALDUS_V6", 32);
  ("STANDARD_D96ALS_V5", 32);
  ("STANDARD_D96ALS_V6", 32);
  ("STANDARD_D96ALS_V7", 64);
  ("STANDARD_D96ANDS_V7", 32);
  ("STANDARD_D96ANLDS_V7", 32);
  ("STANDARD_D96ANLS_V7", 32);
  ("STANDARD_D96ANS_V7", 32);
  ("STANDARD_D96AODS_V6", 32);
  ("STANDARD_D96AS_V3", 32);
  ("STANDARD_D96AS_V4", 32);
  ("STANDARD_D96AS_V5", 32);
  ("STANDARD_D96AS_V5_PROMO", 32);
  ("STANDARD_D96AS_V6", 32);
  ("STANDARD_D96AS_V7", 64);
  ("STANDARD_D96A_V3", 32);
  ("STANDARD_D96A_V4", 32);
  ("STANDARD_D96DS_V5", 32);
  ("STANDARD_D96DS_V6", 64);
  ("STANDARD_D96DS_V7", 64);
  ("STANDARD_D96DUS_V6", 64);
  ("STANDARD_D96D_V5", 32);
  ("STANDARD_D96LDS_V5", 32);
  ("STANDARD_D96LDS_V6", 64);
  ("STANDARD_D96LDS_V7", 64);
  ("STANDARD_D96LDUS_V6", 64);
  ("STANDARD_D96LD_V5", 32);
  ("STANDARD_D96LS_V5", 32);
  ("STANDARD_D96LS_V6", 64);
  ("STANDARD_D96LS_V7", 64);
  ("STANDARD_D96L_V5", 32);
  ("STANDARD_D96NDS_V6", 64);
  ("STANDARD_D96NDUS_V6", 64);
  ("STANDARD_D96NLDS_V6", 64);
  ("STANDARD_D96NLDUS_V6", 64);
  ("STANDARD_D96NLS_V6", 64);
  ("STANDARD_D96NS_V6", 64);
  ("STANDARD_D96PDS_V5", 32);
  ("STANDARD_D96PDS_V6", 64);
  ("STANDARD_D96PDS_V7", 64);
  ("STANDARD_D96PDUS_V6", 64);
  ("STANDARD_D96PLDS_V5", 32);
  ("STANDARD_D96PLDS_V6", 64);
  ("STANDARD_D96PLDS_V7", 64);
  ("STANDARD_D96PLDUS_V6", 64);
  ("STANDARD_D96PLS_V5", 32);
  ("STANDARD_D96PLS_V6", 64);
  ("STANDARD_D96PLS_V7", 64);
  ("STANDARD_D96PNDS_V6", 64);
  ("STANDARD_D96PNDS_V7", 64);
  ("STANDARD_D96PNLDS_V6", 64);
  ("STANDARD_D96PNLDS_V7", 64);
  ("STANDARD_D96PNLS_V6", 64);
  ("STANDARD_D96PNLS_V7", 64);
  ("STANDARD_D96PNS_V6", 64);
  ("STANDARD_D96PNS_V7", 64);
  ("STANDARD_D96PS_V5", 32);
  ("STANDARD_D96PS_V6", 64);
  ("STANDARD_D96PS_V7", 64);
  ("STANDARD_D96S_V5", 32);
  ("STANDARD_D96S_V6", 64);
  ("STANDARD_D96S_V7", 64);
  ("STANDARD_D96_V5", 32);
  ("STANDARD_DC124EDS_V7", 64);
  ("STANDARD_DC124ES_V7", 64);
  ("STANDARD_DC128ADS_V7", 64);
  ("STANDARD_DC128ALDS_V7", 64);
  ("STANDARD_DC128ALS_V7", 64);
  ("STANDARD_DC128AS_V7", 64);
  ("STANDARD_DC128EDS_V6", 64);
  ("STANDARD_DC128EDS_V7", 64);
  ("STANDARD_DC128ELDS_V6", 64);
  ("STANDARD_DC128ELS_V6", 64);
  ("STANDARD_DC128ES_V6", 64);
  ("STANDARD_DC128ES_V7", 64);
  ("STANDARD_DC160ADS_V7", 64);
  ("STANDARD_DC160ALDS_V7", 64);
  ("STANDARD_DC160ALS_V7", 64);
  ("STANDARD_DC160AS_V7", 64);
  ("STANDARD_DC16ADS_CC_V5", 32);
  ("STANDARD_DC16ADS_V5", 32);
  ("STANDARD_DC16ADS_V6", 32);
  ("STANDARD_DC16ADS_V7", 48);
  ("STANDARD_DC16ALDS_V7", 48);
  ("STANDARD_DC16ALS_V7", 48);
  ("STANDARD_DC16AS_CC_V5", 32);
  ("STANDARD_DC16AS_V4", 32);
  ("STANDARD_DC16AS_V5", 32);
  ("STANDARD_DC16AS_V6", 32);
  ("STANDARD_DC16AS_V7", 48);
  ("STANDARD_DC16DMS_V3", 32)].
(** [azuredisk/azure_dd_max_disk_count.go maxDataDiskCountMap 1672-1821] *)
Definition disk_counts_12 : list (string * Z) := [
  ("STANDARD_DC16DS_V3", 32);
  ("STANDARD_DC16EDS_V5", 32);
  ("STANDARD_DC16EDS_V6", 48);
  ("STANDARD_DC16EDS_V7", 48);
  ("STANDARD_DC16ELDS_V6", 48);
  ("STANDARD_DC16ELS_V6", 48);
  ("STANDARD_DC16ES_V5", 32);
  ("STANDARD_DC16ES_V6", 48);
  ("STANDARD_DC16ES_V7", 48);
  ("STANDARD_DC16MS_V3", 32);
  ("STANDARD_DC16S_V3", 32);
  ("STANDARD_DC186EDS_V7", 64);
  ("STANDARD_DC186ES_V7", 64);
  ("STANDARD_DC192EDS_V7", 64);
  ("STANDARD_DC192ES_V7", 64);
  ("STANDARD_DC1AS_V4", 4);
  ("STANDARD_DC1DMS_V3", 4);
  ("STANDARD_DC1DS_V3", 4);
  ("STANDARD_DC1MS_V3", 4);
  ("STANDARD_DC1S_V2", 1);
  ("STANDARD_DC1S_V3", 4);
  ("STANDARD_DC2", 2);
  ("STANDARD_DC248EDS_V7", 64);
  ("STANDARD_DC248ES_V7", 64);
  ("STANDARD_DC24DMS_V3", 32);
  ("STANDARD_DC24DS_V3", 32);
  ("STANDARD_DC24MS_V3", 32);
  ("STANDARD_DC24S_V3", 32);
  ("STANDARD_DC256EDS_V7", 64);
  ("STANDARD_DC256ES_V7", 64);
  ("STANDARD_DC2ADS_V5", 4);
  ("STANDARD_DC2ADS_V6", 4);
  ("STANDARD_DC2ADS_V7", 8);
  ("STANDARD_DC2ALDS_V7", 8);
  ("STANDARD_DC2ALS_V7", 8);
  ("STANDARD_DC2AS_V4", 4);
  ("STANDARD_DC2AS_V5", 4);
  ("STANDARD_DC2AS_V6", 4);
  ("STANDARD_DC2AS_V7", 8);
  ("STANDARD_DC2DMS_V3", 8);
  ("STANDARD_DC2DS_V3", 8);
  ("STANDARD_DC2EDS_V5", 4);
  ("STANDARD_DC2EDS_V6", 8);
  ("STANDARD_DC2EDS_V7", 8);
  ("STANDARD_DC2ELDS_V6", 8);
  ("STANDARD_DC2ELS_V6", 8);
  ("STANDARD_DC2ES_V5", 4);
  ("STANDARD_DC2ES_V6", 8);
  ("STANDARD_DC2ES_V7", 8);
  ("STANDARD_DC2MS_V3", 8);
  ("STANDARD_DC2S", 2);
  ("STANDARD_DC2S_V2", 2);
  ("STANDARD_DC2S_V3", 8);
  ("STANDARD_DC32ADS_CC_V5", 32);
  ("STANDARD_DC32ADS_V5", 32);
  ("STANDARD_DC32ADS_V6", 32);
  ("STANDARD_DC32ADS_V7", 64);
  ("STANDARD_DC32ALDS_V7", 64);
  ("STANDARD_DC32ALS_V7", 64);
  ("STANDARD_DC32AS_CC_V5", 32);
  ("STANDARD_DC32AS_CC_V6", 32);
  ("STANDARD_DC32AS_V4", 32);
  ("STANDARD_DC32AS_V5", 32);
  ("STANDARD_DC32AS_V6", 32);
  ("STANDARD_DC32AS_V7", 64);
  ("STANDARD_DC32DMS_V3", 32);
  ("STANDARD_DC32DS_V3", 32);
  ("STANDARD_DC32EDS_V5", 32);
  ("STANDARD_DC32EDS_V6", 64);
  ("STANDARD_DC32EDS_V7", 64);
  ("STANDARD_DC32ELDS_V6", 64);
  ("STANDARD_DC32ELS_V6", 64);
  ("STANDARD_DC32ES_V5", 32);
  ("STANDARD_DC32ES_V6", 64);
  ("STANDARD_DC32ES_V7", 64);
  ("STANDARD_DC32MS_V3", 32);
  ("STANDARD_DC32S_V3", 32);
  ("STANDARD_DC360EDS_V7", 64);
  ("STANDARD_DC360ES_V7", 64);
  ("STANDARD_DC360IEDS_V7", 64);
  ("STANDARD_DC360IES_V7", 64);
  ("STANDARD_DC372EDS_V7", 64);
  ("STANDARD_DC372ES_V7", 64);
  ("STANDARD_DC372IEDS_V7", 64);
  ("STANDARD_DC372IES_V7", 64);
  ("STANDARD_DC4", 4);
  ("STANDARD_DC48ADS_CC_V5", 32);
  ("STANDARD_DC48ADS_V5", 32);
  ("STANDARD_DC48ADS_V6", 32);
  ("STANDARD_DC48ADS_V7", 64);
  ("STANDARD_DC48ALDS_V7", 64);
  ("STANDARD_DC48ALS_V7", 64);
  ("STANDARD_DC48AS_CC_V5", 32);
  ("STANDARD_DC48AS_V4", 32);
  ("STANDARD_DC48AS_V5", 32);
  ("STANDARD_DC48AS_V6", 32);
  ("STANDARD_DC48AS_V7", 64);
  ("STANDARD_DC48DS_V3", 32);
  ("STANDARD_DC48EDS_V5", 32);
  ("STANDARD_DC48EDS_V6", 64);
  ("STANDARD_DC48EDS_V7", 64);
  ("STANDARD_DC48ELDS_V6", 64);
  ("STANDARD_DC48ELS_V6", 64);
  ("STANDARD_DC48ES_V5", 32);
  ("STANDARD_DC48ES_V6", 64);
  ("STANDARD_DC48ES_V7", 64);
  ("STANDARD_DC48S_V3", 32);
  ("STANDARD_DC4ADS_CC_V5", 8);
  ("STANDARD_DC4ADS_V5", 8);
  ("STANDARD_DC4ADS_V6", 8);
  ("STANDARD_DC4ADS_V7", 12);
  ("STANDARD_DC4ALDS_V7", 12);
  ("STANDARD_DC4ALS_V7", 12);
  ("STANDARD_DC4AS_CC_V5", 8);
  ("STANDARD_DC4AS_V5", 8);
  ("STANDARD_DC4AS_V6", 8);
  ("STANDARD_DC4AS_V7", 12);
  ("STANDARD_DC4DMS_V3", 16);
  ("STANDARD_DC4DS_V3", 16);
  ("STANDARD_DC4EDS_V5", 8);
  ("STANDARD_DC4EDS_V6", 12);
  ("STANDARD_DC4EDS_V7", 12);
  ("STANDARD_DC4ELDS_V6", 12);
  ("STANDARD_DC4ELS_V6", 12);
  ("STANDARD_DC4ES_V5", 8);
  ("STANDARD_DC4ES_V6", 12);
  ("STANDARD_DC4ES_V7", 12);
  ("STANDARD_DC4MS_V3", 16);
  ("STANDARD_DC4S", 4);
  ("STANDARD_DC4S_V2", 4);
  ("STANDARD_DC4S_V3", 16);
  ("STANDARD_DC64ADS_CC_V5", 32);
  ("STANDARD_DC64ADS_V5", 32);
  ("STANDARD_DC64ADS_V6", 32);
  ("STANDARD_DC64ADS_V7", 64);
  ("STANDARD_DC64ALDS_V7", 64);
  ("STANDARD_DC64ALS_V7", 64);
  ("STANDARD_DC64AS_CC_V5", 32);
  ("STANDARD_DC64AS_V5", 32);
  ("STANDARD_DC64AS_V6", 32);
  ("STANDARD_DC64AS_V7", 64);
  ("STANDARD_DC64EDS_V5", 32);
  ("STANDARD_DC64EDS_V6", 64);
  ("STANDARD_DC64EDS_V7", 64);
  ("STANDARD_DC64ELDS_V6", 64);
  ("STANDARD_DC64ELS_V6", 64);
  ("STANDARD_DC64ES_V5", 32);
  ("STANDARD_DC64ES_V6", 64);
  ("STANDARD_DC64ES_V7", 64);
  ("STANDARD_DC8", 8)].
(** [azuredisk/azure_dd_max_disk_count.go maxDataDiskCountMap 1822-1971] *)
Definition disk_counts_13 : list (string * Z) := [
  ("STANDARD_DC8ADS_CC_V5", 16);
  ("STANDARD_DC8ADS_V5", 16);
  ("STANDARD_DC8ADS_V6", 16);
  ("STANDARD_DC8ADS_V7", 24);
  ("STANDARD_DC8ALDS_V7", 24);
  ("STANDARD_DC8ALS_V7", 24);
  ("STANDARD_DC8AS_CC_V5", 16);
  ("STANDARD_DC8AS_CC_V6", 16);
  ("STANDARD_DC8AS_V4", 32);
  ("STANDARD_DC8AS_V5", 16);
  ("STANDARD_DC8AS_V6", 16);
  ("STANDARD_DC8AS_V7", 24);
  ("STANDARD_DC8DMS_V3", 32);
  ("STANDARD_DC8DS_V3", 32);
  ("STANDARD_DC8EDS_V5", 16);
  ("STANDARD_DC8EDS_V6", 24);
  ("STANDARD_DC8EDS_V7", 24);
  ("STANDARD_DC8ELDS_V6", 24);
  ("STANDARD_DC8ELS_V6", 24);
  ("STANDARD_DC8ES_V5", 16);
  ("STANDARD_DC8ES_V6", 24);
  ("STANDARD_DC8ES_V7", 24);
  ("STANDARD_DC8MS_V3", 32);
  ("STANDARD_DC8S", 8);
  ("STANDARD_DC8S_V3", 32);
  ("STANDARD_DC8_V2", 8);
  ("STANDARD_DC96ADS_CC_V5", 32);
  ("STANDARD_DC96ADS_V5", 32);
  ("STANDARD_DC96ADS_V6", 32);
  ("STANDARD_DC96ADS_V7", 64);
  ("STANDARD_DC96ALDS_V7", 64);
  ("STANDARD_DC96ALS_V7", 64);
  ("STANDARD_DC96AS_CC_V5", 32);
  ("STANDARD_DC96AS_V4", 32);
  ("STANDARD_DC96AS_V5", 32);
  ("STANDARD_DC96AS_V6", 32);
  ("STANDARD_DC96AS_V7", 64);
  ("STANDARD_DC96EDS_V5", 32);
  ("STANDARD_DC96EDS_V6", 64);
  ("STANDARD_DC96EDS_V7", 64);
  ("STANDARD_DC96ELDS_V6", 64);
  ("STANDARD_DC96ELS_V6", 64);
  ("STANDARD_DC96ES_V5", 32);
  ("STANDARD_DC96ES_V6", 64);
  ("STANDARD_DC96ES_V7", 64);
  ("STANDARD_DS1", 4);
  ("STANDARD_DS11", 8);
  ("STANDARD_DS11-1_V2", 8);
  ("STANDARD_DS11_V2", 8);
  ("STANDARD_DS11_V2_PROMO", 8);
  ("STANDARD_DS12", 16);
  ("STANDARD_DS12-1_V2", 16);
  ("STANDARD_DS12-2_V2", 16);
  ("STANDARD_DS12_V2", 16);
  ("STANDARD_DS12_V2_PROMO", 16);
  ("STANDARD_DS13", 32);
  ("STANDARD_DS13-2_V2", 32);
  ("STANDARD_DS13-4_V2", 32);
  ("STANDARD_DS13_V2", 32);
  ("STANDARD_DS13_V2_PROMO", 32);
  ("STANDARD_DS14", 64);
  ("STANDARD_DS14-4_V2", 64);
  ("STANDARD_DS14-8_V2", 64);
  ("STANDARD_DS14_V2", 64);
  ("STANDARD_DS14_V2_PROMO", 64);
  ("STANDARD_DS15I_V2", 64);
  ("STANDARD_DS15_V2", 64);
  ("STANDARD_DS1_V2", 4);
  ("STANDARD_DS2", 8);
  ("STANDARD_DS2_V2", 8);
  ("STANDARD_DS2_V2_PROMO", 8);
  ("STANDARD_DS3", 16);
  ("STANDARD_DS3_V2", 16);
  ("STANDARD_DS3_V2_PROMO", 16);
  ("STANDARD_DS4", 32);
  ("STANDARD_DS4_V2", 32);
  ("STANDARD_DS4_V2_PROMO", 32);
  ("STANDARD_DS5_V2", 64);
  ("STANDARD_DS5_V2_PROMO", 64);
  ("STANDARD_DX16AS_V6", 32);
  ("STANDARD_DX2AS_V6", 4);
  ("STANDARD_DX32AS_V6", 32);
  ("STANDARD_DX48AS_V6", 32);
  ("STANDARD_DX4AS_V6", 8);
  ("STANDARD_DX64AS_V6", 32);
  ("STANDARD_DX8AS_V6", 16);
  ("STANDARD_E104IDS_V5", 64);
  ("STANDARD_E104ID_V5", 64);
  ("STANDARD_E104IS_V5", 64);
  ("STANDARD_E104I_V5", 64);
  ("STANDARD_E112IADMS_V5", 64);
  ("STANDARD_E112IADS_V5", 64);
  ("STANDARD_E112IAS_V5", 64);
  ("STANDARD_E112IBDS_V5", 64);
  ("STANDARD_E112IBS_V5", 64);
  ("STANDARD_E124DS_V7", 64);
  ("STANDARD_E124DUS_V7", 64);
  ("STANDARD_E124S_V7", 64);
  ("STANDARD_E128-32ADS_V7", 64);
  ("STANDARD_E128-32ADUS_V7", 64);
  ("STANDARD_E128-32AS_V7", 64);
  ("STANDARD_E128-32DS_V6", 64);
  ("STANDARD_E128-32S_V6", 64);
  ("STANDARD_E128-64ADS_V7", 64);
  ("STANDARD_E128-64ADUS_V7", 64);
  ("STANDARD_E128-64AS_V7", 64);
  ("STANDARD_E128-64DS_V6", 64);
  ("STANDARD_E128-64S_V6", 64);
  ("STANDARD_E128ADS_V6", 32);
  ("STANDARD_E128ADS_V7", 64);
  ("STANDARD_E128ADUS_V7", 64);
  ("STANDARD_E128ANDS_V7", 32);
  ("STANDARD_E128ANS_V7", 32);
  ("STANDARD_E128AS_V6", 32);
  ("STANDARD_E128AS_V7", 64);
  ("STANDARD_E128BDS_V6", 64);
  ("STANDARD_E128BDUS_V6", 64);
  ("STANDARD_E128BS_V6", 64);
  ("STANDARD_E128DS_V6", 64);
  ("STANDARD_E128DS_V7", 64);
  ("STANDARD_E128DUS_V6", 64);
  ("STANDARD_E128DUS_V7", 64);
  ("STANDARD_E128NDS_V6", 64);
  ("STANDARD_E128NDUS_V6", 64);
  ("STANDARD_E128NS_V6", 64);
  ("STANDARD_E128PBDS_V7", 64);
  ("STANDARD_E128PBDUS_V7", 64);
  ("STANDARD_E128PBS_V7", 64);
  ("STANDARD_E128PDS_V7", 64);
  ("STANDARD_E128PDUS_V7", 64);
  ("STANDARD_E128PNDS_V7", 64);
  ("STANDARD_E128PNDUS_V7", 64);
  ("STANDARD_E128PNS_V7", 64);
  ("STANDARD_E128PS_V7", 64);
  ("STANDARD_E128S_V6", 64);
  ("STANDARD_E128S_V7", 64);
  ("STANDARD_E144IADS_V6", 64);
  ("STANDARD_E144IAS_V6", 64);
  ("STANDARD_E16-4ADS_V5", 32);
  ("STANDARD_E16-4ADS_V6", 32);
  ("STANDARD_E16-4ADS_V7", 48);
  ("STANDARD_E16-4AS_V4", 32);
  ("STANDARD_E16-4AS_V5", 32);
  ("STANDARD_E16-4AS_V6", 32);
  ("STANDARD_E16-4AS_V7", 48);
  ("STANDARD_E16-4DS_V4", 32);
  ("STANDARD_E16-4DS_V5", 32);
  ("STANDARD_E16-4DS_V6", 48);
  ("STANDARD_E16-4S_V3", 32);
  ("STANDARD_E16-4S_V4", 32)].
(** [azuredisk/azure_dd_max_disk_count.go maxDataDiskCountMap 1972-2121] *)
Definition disk_counts_14 : list (string * Z) := [
  ("STANDARD_E16-4S_V5", 32);
  ("STANDARD_E16-4S_V6", 48);
  ("STANDARD_E16-8ADS_V5", 32);
  ("STANDARD_E16-8ADS_V6", 32);
  ("STANDARD_E16-8ADS_V7", 48);
  ("STANDARD_E16-8AS_V4", 32);
  ("STANDARD_E16-8AS_V5", 32);
  ("STANDARD_E16-8AS_V6", 32);
  ("STANDARD_E16-8AS_V7", 48);
  ("STANDARD_E16-8DS_V4", 32);
  ("STANDARD_E16-8DS_V5", 32);
  ("STANDARD_E16-8DS_V6", 48);
  ("STANDARD_E16-8S_V3", 32);
  ("STANDARD_E16-8S_V4", 32);
  ("STANDARD_E16-8S_V5", 32);
  ("STANDARD_E16-8S_V6", 48);
  ("STANDARD_E160ADS_V7", 64);
  ("STANDARD_E160AS_V7", 64);
  ("STANDARD_E16ADS_V5", 32);
  ("STANDARD_E16ADS_V6", 32);
  ("STANDARD_E16ADS_V7", 48);
  ("STANDARD_E16ANDS_V7", 32);
  ("STANDARD_E16ANS_V7", 32);
  ("STANDARD_E16AS_V3", 32);
  ("STANDARD_E16AS_V4", 32);
  ("STANDARD_E16AS_V5", 32);
  ("STANDARD_E16AS_V5_PROMO", 32);
  ("STANDARD_E16AS_V6", 32);
  ("STANDARD_E16AS_V7", 48);
  ("STANDARD_E16A_V3", 32);
  ("STANDARD_E16A_V4", 32);
  ("STANDARD_E16BDS_V5", 32);
  ("STANDARD_E16BDS_V6", 48);
  ("STANDARD_E16BS_V5", 32);
  ("STANDARD_E16BS_V6", 48);
  ("STANDARD_E16DARM_V3", 48);
  ("STANDARD_E16DS_V4", 32);
  ("STANDARD_E16DS_V4_ADHTYPE1", 32);
  ("STANDARD_E16DS_V5", 32);
  ("STANDARD_E16DS_V6", 48);
  ("STANDARD_E16DS_V7", 48);
  ("STANDARD_E16D_V4", 32);
  ("STANDARD_E16D_V5", 32);
  ("STANDARD_E16NDS_V6", 48);
  ("STANDARD_E16NS_V6", 48);
  ("STANDARD_E16NS_V6_SPECIAL", 32);
  ("STANDARD_E16PBDS_V6", 48);
  ("STANDARD_E16PBDS_V7", 48);
  ("STANDARD_E16PBS_V6", 48);
  ("STANDARD_E16PBS_V7", 48);
  ("STANDARD_E16PDS_V5", 32);
  ("STANDARD_E16PDS_V6", 48);
  ("STANDARD_E16PDS_V7", 48);
  ("STANDARD_E16PNDS_V6", 48);
  ("STANDARD_E16PNDS_V7", 48);
  ("STANDARD_E16PNS_V6", 48);
  ("STANDARD_E16PNS_V7", 48);
  ("STANDARD_E16PS_V5", 32);
  ("STANDARD_E16PS_V6", 48);
  ("STANDARD_E16PS_V7", 48);
  ("STANDARD_E16S_V3", 32);
  ("STANDARD_E16S_V4", 32);
  ("STANDARD_E16S_V4_ADHTYPE1", 32);
  ("STANDARD_E16S_V5", 32);
  ("STANDARD_E16S_V6", 48);
  ("STANDARD_E16S_V7", 48);
  ("STANDARD_E16_V3", 32);
  ("STANDARD_E16_V4", 32);
  ("STANDARD_E16_V5", 32);
  ("STANDARD_E186DS_V7", 64);
  ("STANDARD_E186S_V7", 64);
  ("STANDARD_E188IANDS_V7", 64);
  ("STANDARD_E188IANS_V7", 64);
  ("STANDARD_E192DS_V7", 64);
  ("STANDARD_E192IBDS_V6", 64);
  ("STANDARD_E192IBDUS_V6", 64);
  ("STANDARD_E192IBS_V6", 64);
  ("STANDARD_E192IDS_V6", 64);
  ("STANDARD_E192IDUS_V6", 64);
  ("STANDARD_E192INDS_V6", 64);
  ("STANDARD_E192IS_V6", 64);
  ("STANDARD_E192S_V7", 64);
  ("STANDARD_E1PBDS_V7", 4);
  ("STANDARD_E1PBS_V7", 4);
  ("STANDARD_E1PDS_V7", 4);
  ("STANDARD_E1PNDS_V7", 4);
  ("STANDARD_E1PNS_V7", 4);
  ("STANDARD_E1PS_V7", 4);
  ("STANDARD_E20ADS_V5", 32);
  ("STANDARD_E20ADS_V6", 32);
  ("STANDARD_E20AS_V4", 32);
  ("STANDARD_E20AS_V5", 32);
  ("STANDARD_E20AS_V5_PROMO", 32);
  ("STANDARD_E20AS_V6", 32);
  ("STANDARD_E20A_V4", 32);
  ("STANDARD_E20BDS_V6", 48);
  ("STANDARD_E20BS_V6", 48);
  ("STANDARD_E20DARM_V3", 48);
  ("STANDARD_E20DS_V4", 32);
  ("STANDARD_E20DS_V5", 32);
  ("STANDARD_E20DS_V6", 48);
  ("STANDARD_E20DS_V7", 48);
  ("STANDARD_E20D_V4", 32);
  ("STANDARD_E20D_V5", 32);
  ("STANDARD_E20PDS_V5", 32);
  ("STANDARD_E20PS_V5", 32);
  ("STANDARD_E20S_V3", 32);
  ("STANDARD_E20S_V4", 32);
  ("STANDARD_E20S_V5", 32);
  ("STANDARD_E20S_V6", 48);
  ("STANDARD_E20S_V7", 48);
  ("STANDARD_E20_V3", 32);
  ("STANDARD_E20_V4", 32);
  ("STANDARD_E20_V5", 32);
  ("STANDARD_E248DS_V7", 64);
  ("STANDARD_E248S_V7", 64);
  ("STANDARD_E256DS_V7", 64);
  ("STANDARD_E256S_V7", 64);
  ("STANDARD_E2ADS_V5", 4);
  ("STANDARD_E2ADS_V6", 4);
  ("STANDARD_E2ADS_V7", 10);
  ("STANDARD_E2ANDS_V7", 4);
  ("STANDARD_E2ANS_V7", 4);
  ("STANDARD_E2AS_V3", 4);
  ("STANDARD_E2AS_V4", 4);
  ("STANDARD_E2AS_V5", 4);
  ("STANDARD_E2AS_V5_PROMO", 4);
  ("STANDARD_E2AS_V6", 4);
  ("STANDARD_E2AS_V7", 10);
  ("STANDARD_E2A_V3", 4);
  ("STANDARD_E2A_V4", 4);
  ("STANDARD_E2BDS_V5", 4);
  ("STANDARD_E2BDS_V6", 8);
  ("STANDARD_E2BS_V5", 4);
  ("STANDARD_E2BS_V6", 8);
  ("STANDARD_E2DARM_V3", 8);
  ("STANDARD_E2DS_V4", 4);
  ("STANDARD_E2DS_V5", 4);
  ("STANDARD_E2DS_V6", 8);
  ("STANDARD_E2DS_V7", 10);
  ("STANDARD_E2D_V4", 4);
  ("STANDARD_E2D_V5", 4);
  ("STANDARD_E2NDS_V6", 8);
  ("STANDARD_E2NS_V6", 8);
  ("STANDARD_E2PBDS_V6", 8);
  ("STANDARD_E2PBDS_V7", 8);
  ("STANDARD_E2PBS_V6", 8);
  ("STANDARD_E2PBS_V7", 8);
  ("STANDARD_E2PDS_V5", 4);
  ("STANDARD_E2PDS_V6", 8)].
(** [azuredisk/azure_dd_max_disk_count.go maxDataDiskCountMap 2122-2271] *)
Definition disk_counts_15 : list (string * Z) := [
  ("STANDARD_E2PDS_V7", 8);
  ("STANDARD_E2PNDS_V6", 8);
  ("STANDARD_E2PNDS_V7", 8);
  ("STANDARD_E2PNS_V6", 8);
  ("STANDARD_E2PNS_V7", 8);
  ("STANDARD_E2PS_V5", 4);
  ("STANDARD_E2PS_V6", 8);
  ("STANDARD_E2PS_V7", 8);
  ("STANDARD_E2S_V3", 4);
  ("STANDARD_E2S_V4", 4);
  ("STANDARD_E2S_V5", 4);
  ("STANDARD_E2S_V6", 8);
  ("STANDARD_E2S_V7", 10);
  ("STANDARD_E2_V3", 4);
  ("STANDARD_E2_V4", 4);
  ("STANDARD_E2_V5", 4);
  ("STANDARD_E32-16ADS_V5", 32);
  ("STANDARD_E32-16ADS_V6", 32);
  ("STANDARD_E32-16ADS_V7", 64);
  ("STANDARD_E32-16AS_V4", 32);
  ("STANDARD_E32-16AS_V5", 32);
  ("STANDARD_E32-16AS_V6", 32);
  ("STANDARD_E32-16AS_V7", 64);
  ("STANDARD_E32-16DS_V4", 32);
  ("STANDARD_E32-16DS_V5", 32);
  ("STANDARD_E32-16DS_V6", 64);
  ("STANDARD_E32-16S_V3", 32);
  ("STANDARD_E32-16S_V4", 32);
  ("STANDARD_E32-16S_V5", 32);
  ("STANDARD_E32-16S_V6", 64);
  ("STANDARD_E32-8ADS_V5", 32);
  ("STANDARD_E32-8ADS_V6", 32);
  ("STANDARD_E32-8ADS_V7", 64);
  ("STANDARD_E32-8AS_V4", 32);
  ("STANDARD_E32-8AS_V5", 32);
  ("STANDARD_E32-8AS_V6", 32);
  ("STANDARD_E32-8AS_V7", 64);
  ("STANDARD_E32-8DS_V4", 32);
  ("STANDARD_E32-8DS_V5", 32);
  ("STANDARD_E32-8DS_V6", 64);
  ("STANDARD_E32-8S_V3", 32);
  ("STANDARD_E32-8S_V4", 32);
  ("STANDARD_E32-8S_V5", 32);
  ("STANDARD_E32-8S_V6", 64);
  ("STANDARD_E32ADS_V5", 32);
  ("STANDARD_E32ADS_V6", 32);
  ("STANDARD_E32ADS_V7", 64);
  ("STANDARD_E32ADUS_V6", 32);
  ("STANDARD_E32ANDS_V7", 32);
  ("STANDARD_E32ANS_V7", 32);
  ("STANDARD_E32AS_V3", 32);
  ("STANDARD_E32AS_V4", 32);
  ("STANDARD_E32AS_V5", 32);
  ("STANDARD_E32AS_V5_PROMO", 32);
  ("STANDARD_E32AS_V6", 32);
  ("STANDARD_E32AS_V7", 64);
  ("STANDARD_E32A_V3", 32);
  ("STANDARD_E32A_V4", 32);
  ("STANDARD_E32BDS_V5", 32);
  ("STANDARD_E32BDS_V6", 64);
  ("STANDARD_E32BS_V5", 32);
  ("STANDARD_E32BS_V6", 64);
  ("STANDARD_E32DARM_V3", 64);
  ("STANDARD_E32DS_V4", 32);
  ("STANDARD_E32DS_V4_ADHTYPE1", 32);
  ("STANDARD_E32DS_V5", 32);
  ("STANDARD_E32DS_V6", 64);
  ("STANDARD_E32DS_V7", 64);
  ("STANDARD_E32DUS_V6", 64);
  ("STANDARD_E32D_V4", 32);
  ("STANDARD_E32D_V5", 32);
  ("STANDARD_E32NDS_V6", 64);
  ("STANDARD_E32NDUS_V6", 64);
  ("STANDARD_E32NS_V6", 64);
  ("STANDARD_E32PBDS_V6", 64);
  ("STANDARD_E32PBDS_V7", 64);
  ("STANDARD_E32PBS_V6", 64);
  ("STANDARD_E32PBS_V7", 64);
  ("STANDARD_E32PDS_V5", 32);
  ("STANDARD_E32PDS_V6", 64);
  ("STANDARD_E32PDS_V7", 64);
  ("STANDARD_E32PDUS_V6", 64);
  ("STANDARD_E32PNDS_V6", 64);
  ("STANDARD_E32PNDS_V7", 64);
  ("STANDARD_E32PNS_V6", 64);
  ("STANDARD_E32PNS_V7", 64);
  ("STANDARD_E32PS_V5", 32);
  ("STANDARD_E32PS_V6", 64);
  ("STANDARD_E32PS_V7", 64);
  ("STANDARD_E32S_V3", 32);
  ("STANDARD_E32S_V4", 32);
  ("STANDARD_E32S_V4_ADHTYPE1", 32);
  ("STANDARD_E32S_V5", 32);
  ("STANDARD_E32S_V6", 64);
  ("STANDARD_E32S_V7", 64);
  ("STANDARD_E32_V3", 32);
  ("STANDARD_E32_V4", 32);
  ("STANDARD_E32_V5", 32);
  ("STANDARD_E360DS_V7", 64);
  ("STANDARD_E360IDS_V7", 64);
  ("STANDARD_E360IS_V7", 64);
  ("STANDARD_E360S_V7", 64);
  ("STANDARD_E36NS_V6_SPECIAL", 32);
  ("STANDARD_E372IDS_V7", 64);
  ("STANDARD_E372IS_V7", 64);
  ("STANDARD_E4-2ADS_V5", 8);
  ("STANDARD_E4-2ADS_V6", 8);
  ("STANDARD_E4-2ADS_V7", 12);
  ("STANDARD_E4-2AS_V4", 8);
  ("STANDARD_E4-2AS_V5", 8);
  ("STANDARD_E4-2AS_V6", 8);
  ("STANDARD_E4-2AS_V7", 12);
  ("STANDARD_E4-2DS_V4", 8);
  ("STANDARD_E4-2DS_V5", 8);
  ("STANDARD_E4-2DS_V6", 12);
  ("STANDARD_E4-2S_V3", 8);
  ("STANDARD_E4-2S_V4", 8);
  ("STANDARD_E4-2S_V5", 8);
  ("STANDARD_E4-2S_V6", 12);
  ("STANDARD_E48ADS_V5", 32);
  ("STANDARD_E48ADS_V6", 32);
  ("STANDARD_E48ADS_V7", 64);
  ("STANDARD_E48ANDS_V7", 32);
  ("STANDARD_E48ANS_V7", 32);
  ("STANDARD_E48AS_V3", 32);
  ("STANDARD_E48AS_V4", 32);
  ("STANDARD_E48AS_V5", 32);
  ("STANDARD_E48AS_V5_PROMO", 32);
  ("STANDARD_E48AS_V6", 32);
  ("STANDARD_E48AS_V7", 64);
  ("STANDARD_E48A_V3", 32);
  ("STANDARD_E48A_V4", 32);
  ("STANDARD_E48BDS_V5", 32);
  ("STANDARD_E48BDS_V6", 64);
  ("STANDARD_E48BS_V5", 32);
  ("STANDARD_E48BS_V6", 64);
  ("STANDARD_E48DARM_V3", 64);
  ("STANDARD_E48DS_V4", 32);
  ("STANDARD_E48DS_V5", 32);
  ("STANDARD_E48DS_V6", 64);
  ("STANDARD_E48DS_V7", 64);
  ("STANDARD_E48D_V4", 32);
  ("STANDARD_E48D_V5", 32);
  ("STANDARD_E48NDS_V6", 64);
  ("STANDARD_E48NS_V6", 64);
  ("STANDARD_E48PBDS_V6", 64);
  ("STANDARD_E48PBDS_V7", 64);
  ("STANDARD_E48PBS_V6", 64);
  ("STANDARD_E48PBS_V7", 64);
  ("STANDARD_E48PDS_V5", 32)].
(** [azuredisk/azure_dd_max_disk_count.go maxDataDiskCountMap 2272-2421] *)
Definition disk_counts_16 : list (string * Z) := [
  ("STANDARD_E48PDS_V6", 64);
  ("STANDARD_E48PDS_V7", 64);
  ("STANDARD_E48PNDS_V6", 64);
  ("STANDARD_E48PNDS_V7", 64);
  ("STANDARD_E48PNS_V6", 64);
  ("STANDARD_E48PNS_V7", 64);
  ("STANDARD_E48PS_V5", 32);
  ("STANDARD_E48PS_V6", 64);
  ("STANDARD_E48PS_V7", 64);
  ("STANDARD_E48S_V3", 32);
  ("STANDARD_E48S_V4", 32);
  ("STANDARD_E48S_V5", 32);
  ("STANDARD_E48S_V6", 64);
  ("STANDARD_E48S_V7", 64);
  ("STANDARD_E48_V3", 32);
  ("STANDARD_E48_V4", 32);
  ("STANDARD_E48_V5", 32);
  ("STANDARD_E4ADS_V5", 8);
  ("STANDARD_E4ADS_V6", 8);
  ("STANDARD_E4ADS_V7", 12);
  ("STANDARD_E4ANDS_V7", 8);
  ("STANDARD_E4ANS_V7", 8);
  ("STANDARD_E4AS_V3", 8);
  ("STANDARD_E4AS_V4", 8);
  ("STANDARD_E4AS_V5", 8);
  ("STANDARD_E4AS_V5_PROMO", 8);
  ("STANDARD_E4AS_V6", 8);
  ("STANDARD_E4AS_V7", 12);
  ("STANDARD_E4A_V3", 8);
  ("STANDARD_E4A_V4", 8);
  ("STANDARD_E4BDS_V5", 8);
  ("STANDARD_E4BDS_V6", 12);
  ("STANDARD_E4BS_V5", 8);
  ("STANDARD_E4BS_V6", 12);
  ("STANDARD_E4DARM_V3", 12);
  ("STANDARD_E4DS_V4", 8);
  ("STANDARD_E4DS_V4_ADHTYPE1", 8);
  ("STANDARD_E4DS_V5", 8);
  ("STANDARD_E4DS_V6", 12);
  ("STANDARD_E4DS_V7", 12);
  ("STANDARD_E4D_V4", 8);
  ("STANDARD_E4D_V5", 8);
  ("STANDARD_E4NDS_V6", 12);
  ("STANDARD_E4NS_V6", 12);
  ("STANDARD_E4PBDS_V6", 12);
  ("STANDARD_E4PBDS_V7", 12);
  ("STANDARD_E4PBS_V6", 12);
  ("STANDARD_E4PBS_V7", 12);
  ("STANDARD_E4PDS_V5", 8);
  ("STANDARD_E4PDS_V6", 12);
  ("STANDARD_E4PDS_V7", 12);
  ("STANDARD_E4PNDS_V6", 12);
  ("STANDARD_E4PNDS_V7", 12);
  ("STANDARD_E4PNS_V6", 12);
  ("STANDARD_E4PNS_V7", 12);
  ("STANDARD_E4PS_V5", 8);
  ("STANDARD_E4PS_V6", 12);
  ("STANDARD_E4PS_V7", 12);
  ("STANDARD_E4S_V3", 8);
  ("STANDARD_E4S_V4", 8);
  ("STANDARD_E4S_V4_ADHTYPE1", 8);
  ("STANDARD_E4S_V5", 8);
  ("STANDARD_E4S_V6", 12);
  ("STANDARD_E4S_V7", 12);
  ("STANDARD_E4_V3", 8);
  ("STANDARD_E4_V4", 8);
  ("STANDARD_E4_V5", 8);
  ("STANDARD_E64-16ADS_V5", 32);
  ("STANDARD_E64-16ADS_V6", 32);
  ("STANDARD_E64-16ADS_V7", 64);
  ("STANDARD_E64-16ADUS_V7", 64);
  ("STANDARD_E64-16AS_V4", 32);
  ("STANDARD_E64-16AS_V5", 32);
  ("STANDARD_E64-16AS_V6", 32);
  ("STANDARD_E64-16AS_V7", 64);
  ("STANDARD_E64-16DS_V4", 32);
  ("STANDARD_E64-16DS_V5", 32);
  ("STANDARD_E64-16DS_V6", 64);
  ("STANDARD_E64-16S_V3", 32);
  ("STANDARD_E64-16S_V4", 32);
  ("STANDARD_E64-16S_V5", 32);
  ("STANDARD_E64-16S_V6", 64);
  ("STANDARD_E64-32ADS_V5", 32);
  ("STANDARD_E64-32ADS_V6", 32);
  ("STANDARD_E64-32ADS_V7", 64);
  ("STANDARD_E64-32ADUS_V7", 64);
  ("STANDARD_E64-32AS_V4", 32);
  ("STANDARD_E64-32AS_V5", 32);
  ("STANDARD_E64-32AS_V6", 32);
  ("STANDARD_E64-32AS_V7", 64);
  ("STANDARD_E64-32DS_V4", 32);
  ("STANDARD_E64-32DS_V5", 32);
  ("STANDARD_E64-32DS_V6", 64);
  ("STANDARD_E64-32S_V3", 32);
  ("STANDARD_E64-32S_V4", 32);
  ("STANDARD_E64-32S_V5", 32);
  ("STANDARD_E64-32S_V6", 64);
  ("STANDARD_E64ADS_V5", 32);
  ("STANDARD_E64ADS_V6", 32);
  ("STANDARD_E64ADS_V7", 64);
  ("STANDARD_E64ADUS_V6", 32);
  ("STANDARD_E64ADUS_V7", 64);
  ("STANDARD_E64ANDS_V7", 32);
  ("STANDARD_E64ANS_V7", 32);
  ("STANDARD_E64AS_V3", 32);
  ("STANDARD_E64AS_V4", 32);
  ("STANDARD_E64AS_V5", 32);
  ("STANDARD_E64AS_V5_PROMO", 32);
  ("STANDARD_E64AS_V6", 32);
  ("STANDARD_E64AS_V7", 64);
  ("STANDARD_E64A_V3", 32);
  ("STANDARD_E64A_V4", 32);
  ("STANDARD_E64BDS_V5", 32);
  ("STANDARD_E64BDS_V6", 64);
  ("STANDARD_E64BDUS_V6", 64);
  ("STANDARD_E64BS_V5", 32);
  ("STANDARD_E64BS_V6", 64);
  ("STANDARD_E64DS_V4", 32);
  ("STANDARD_E64DS_V5", 32);
  ("STANDARD_E64DS_V6", 64);
  ("STANDARD_E64DS_V7", 64);
  ("STANDARD_E64DUS_V6", 64);
  ("STANDARD_E64D_V4", 32);
  ("STANDARD_E64D_V5", 32);
  ("STANDARD_E64IDS_V4_SPECIAL", 32);
  ("STANDARD_E64ID_V4_SPECIAL", 32);
  ("STANDARD_E64IS_V3", 32);
  ("STANDARD_E64IS_V4_SPECIAL", 32);
  ("STANDARD_E64I_V3", 32);
  ("STANDARD_E64I_V4_SPECIAL", 32);
  ("STANDARD_E64NDS_V6", 64);
  ("STANDARD_E64NDUS_V6", 64);
  ("STANDARD_E64NS_V6", 64);
  ("STANDARD_E64PBDS_V6", 64);
  ("STANDARD_E64PBDS_V7", 64);
  ("STANDARD_E64PBDUS_V7", 64);
  ("STANDARD_E64PBS_V6", 64);
  ("STANDARD_E64PBS_V7", 64);
  ("STANDARD_E64PDS_V5", 32);
  ("STANDARD_E64PDS_V6", 64);
  ("STANDARD_E64PDS_V7", 64);
  ("STANDARD_E64PDUS_V6", 64);
  ("STANDARD_E64PDUS_V7", 64);
  ("STANDARD_E64PNDS_V6", 64);
  ("STANDARD_E64PNDS_V7", 64);
  ("STANDARD_E64PNDUS_V7", 64);
  ("STANDARD_E64PNS_V6", 64);
  ("STANDARD_E64PNS_V7", 64);
  ("STANDARD_E64PS_V5", 32);
  ("STANDARD_E64PS_V6", 64)].
(** [azuredisk/azure_dd_max_disk_count.go maxDataDiskCountMap 2422-2571] *)
Definition disk_counts_17 : list (string * Z) := [
  ("STANDARD_E64PS_V7", 64);
  ("STANDARD_E64S_V3", 32);
  ("STANDARD_E64S_V4", 32);
  ("STANDARD_E64S_V5", 32);
  ("STANDARD_E64S_V6", 64);
  ("STANDARD_E64S_V7", 64);
  ("STANDARD_E64_V3", 32);
  ("STANDARD_E64_V4", 32);
  ("STANDARD_E64_V5", 32);
  ("STANDARD_E72NS_V6_SPECIAL", 32);
  ("STANDARD_E8-2ADS_V5", 16);
  ("STANDARD_E8-2ADS_V6", 16);
  ("STANDARD_E8-2ADS_V7", 26);
  ("STANDARD_E8-2AS_V4", 16);
  ("STANDARD_E8-2AS_V5", 16);
  ("STANDARD_E8-2AS_V6", 16);
  ("STANDARD_E8-2AS_V7", 26);
  ("STANDARD_E8-2DS_V4", 16);
  ("STANDARD_E8-2DS_V5", 16);
  ("STANDARD_E8-2DS_V6", 24);
  ("STANDARD_E8-2S_V3", 16);
  ("STANDARD_E8-2S_V4", 16);
  ("STANDARD_E8-2S_V5", 16);
  ("STANDARD_E8-2S_V6", 24);
  ("STANDARD_E8-4ADS_V5", 16);
  ("STANDARD_E8-4ADS_V6", 16);
  ("STANDARD_E8-4ADS_V7", 26);
  ("STANDARD_E8-4AS_V4", 16);
  ("STANDARD_E8-4AS_V5", 16);
  ("STANDARD_E8-4AS_V6", 16);
  ("STANDARD_E8-4AS_V7", 26);
  ("STANDARD_E8-4DS_V4", 16);
  ("STANDARD_E8-4DS_V5", 32);
  ("STANDARD_E8-4DS_V6", 24);
  ("STANDARD_E8-4S_V3", 16);
  ("STANDARD_E8-4S_V4", 16);
  ("STANDARD_E8-4S_V5", 32);
  ("STANDARD_E8-4S_V6", 24);
  ("STANDARD_E80IDS_V4", 64);
  ("STANDARD_E80IS_V4", 64);
  ("STANDARD_E8ADS_V5", 16);
  ("STANDARD_E8ADS_V6", 16);
  ("STANDARD_E8ADS_V7", 26);
  ("STANDARD_E8ANDS_V7", 16);
  ("STANDARD_E8ANS_V7", 16);
  ("STANDARD_E8AS_V3", 16);
  ("STANDARD_E8AS_V4", 16);
  ("STANDARD_E8AS_V5", 16);
  ("STANDARD_E8AS_V5_PROMO", 16);
  ("STANDARD_E8AS_V6", 16);
  ("STANDARD_E8AS_V7", 26);
  ("STANDARD_E8A_V3", 16);
  ("STANDARD_E8A_V4", 16);
  ("STANDARD_E8BDS_V5", 16);
  ("STANDARD_E8BDS_V6", 24);
  ("STANDARD_E8BS_V5", 16);
  ("STANDARD_E8BS_V6", 24);
  ("STANDARD_E8DARM_V3", 24);
  ("STANDARD_E8DS_V4", 16);
  ("STANDARD_E8DS_V4_ADHTYPE1", 16);
  ("STANDARD_E8DS_V5", 16);
  ("STANDARD_E8DS_V6", 24);
  ("STANDARD_E8DS_V7", 26);
  ("STANDARD_E8D_V4", 16);
  ("STANDARD_E8D_V5", 16);
  ("STANDARD_E8NDS_V6", 24);
  ("STANDARD_E8NS_V6", 24);
  ("STANDARD_E8NS_V6_SPECIAL", 16);
  ("STANDARD_E8PBDS_V6", 24);
  ("STANDARD_E8PBDS_V7", 24);
  ("STANDARD_E8PBS_V6", 24);
  ("STANDARD_E8PBS_V7", 24);
  ("STANDARD_E8PDS_V5", 16);
  ("STANDARD_E8PDS_V6", 24);
  ("STANDARD_E8PDS_V7", 24);
  ("STANDARD_E8PNDS_V6", 24);
  ("STANDARD_E8PNDS_V7", 24);
  ("STANDARD_E8PNS_V6", 24);
  ("STANDARD_E8PNS_V7", 24);
  ("STANDARD_E8PS_V5", 16);
  ("STANDARD_E8PS_V6", 24);
  ("STANDARD_E8PS_V7", 24);
  ("STANDARD_E8S_V3", 16);
  ("STANDARD_E8S_V4", 16);
  ("STANDARD_E8S_V4_ADHTYPE1", 16);
  ("STANDARD_E8S_V5", 16);
  ("STANDARD_E8S_V6", 24);
  ("STANDARD_E8S_V7", 26);
  ("STANDARD_E8_V3", 16);
  ("STANDARD_E8_V4", 16);
  ("STANDARD_E8_V5", 16);
  ("STANDARD_E96-24ADS_V5", 32);
  ("STANDARD_E96-24ADS_V6", 32);
  ("STANDARD_E96-24ADS_V7", 64);
  ("STANDARD_E96-24AS_V4", 32);
  ("STANDARD_E96-24AS_V5", 32);
  ("STANDARD_E96-24AS_V6", 32);
  ("STANDARD_E96-24AS_V7", 64);
  ("STANDARD_E96-24DS_V5", 32);
  ("STANDARD_E96-24DS_V6", 64);
  ("STANDARD_E96-24S_V5", 32);
  ("STANDARD_E96-24S_V6", 64);
  ("STANDARD_E96-48ADS_V5", 32);
  ("STANDARD_E96-48ADS_V6", 32);
  ("STANDARD_E96-48ADS_V7", 64);
  ("STANDARD_E96-48AS_V4", 32);
  ("STANDARD_E96-48AS_V5", 32);
  ("STANDARD_E96-48AS_V6", 32);
  ("STANDARD_E96-48AS_V7", 64);
  ("STANDARD_E96-48DS_V5", 32);
  ("STANDARD_E96-48DS_V6", 64);
  ("STANDARD_E96-48S_V5", 32);
  ("STANDARD_E96-48S_V6", 64);
  ("STANDARD_E96ADS_V5", 32);
  ("STANDARD_E96ADS_V6", 32);
  ("STANDARD_E96ADS_V7", 64);
  ("STANDARD_E96ADUS_V6", 32);
  ("STANDARD_E96ANDS_V7", 32);
  ("STANDARD_E96ANS_V7", 32);
  ("STANDARD_E96AS_V3", 32);
  ("STANDARD_E96AS_V4", 32);
  ("STANDARD_E96AS_V5", 32);
  ("STANDARD_E96AS_V5_PROMO", 32);
  ("STANDARD_E96AS_V6", 32);
  ("STANDARD_E96AS_V7", 64);
  ("STANDARD_E96A_V3", 32);
  ("STANDARD_E96A_V4", 32);
  ("STANDARD_E96BDS_V5", 32);
  ("STANDARD_E96BDS_V6", 64);
  ("STANDARD_E96BDUS_V6", 64);
  ("STANDARD_E96BS_V5", 32);
  ("STANDARD_E96BS_V6", 64);
  ("STANDARD_E96DS_V5", 32);
  ("STANDARD_E96DS_V6", 64);
  ("STANDARD_E96DS_V7", 64);
  ("STANDARD_E96DUS_V6", 64);
  ("STANDARD_E96D_V5", 32);
  ("STANDARD_E96IADS_V5", 32);
  ("STANDARD_E96IAS_V4", 32);
  ("STANDARD_E96IAS_V5", 32);
  ("STANDARD_E96NDS_V6", 64);
  ("STANDARD_E96NDUS_V6", 64);
  ("STANDARD_E96NS_V6", 64);
  ("STANDARD_E96PBDS_V6", 64);
  ("STANDARD_E96PBDS_V7", 64);
  ("STANDARD_E96PBS_V6", 64);
  ("STANDARD_E96PBS_V7", 64);
  ("STANDARD_E96PDS_V5", 32);
  ("STANDARD_E96PDS_V6", 64);
  ("STANDARD_E96PDS_V7", 64)].
(** [azuredisk/azure_dd_max_disk_count.go maxDataDiskCountMap 2572-2721] *)
Definition disk_counts_18 : list (string * Z) := [
  ("STANDARD_E96PDUS_V6", 64);
  ("STANDARD_E96PNDS_V6", 64);
  ("STANDARD_E96PNDS_V7", 64);
  ("STANDARD_E96PNS_V6", 64);
  ("STANDARD_E96PNS_V7", 64);
  ("STANDARD_E96PS_V5", 32);
  ("STANDARD_E96PS_V6", 64);
  ("STANDARD_E96PS_V7", 64);
  ("STANDARD_E96S_V5", 32);
  ("STANDARD_E96S_V6", 64);
  ("STANDARD_E96S_V7", 64);
  ("STANDARD_E96_V5", 32);
  ("STANDARD_EC124EDS_V7", 64);
  ("STANDARD_EC124ES_V7", 64);
  ("STANDARD_EC128ADS_V7", 64);
  ("STANDARD_EC128AS_V7", 64);
  ("STANDARD_EC128EDS_V5", 32);
  ("STANDARD_EC128EDS_V6", 64);
  ("STANDARD_EC128EDS_V7", 64);
  ("STANDARD_EC128ES_V5", 32);
  ("STANDARD_EC128ES_V6", 64);
  ("STANDARD_EC128ES_V7", 64);
  ("STANDARD_EC128IEDS_V5", 32);
  ("STANDARD_EC128IES_V5", 32);
  ("STANDARD_EC160ADS_V7", 64);
  ("STANDARD_EC160AS_V7", 64);
  ("STANDARD_EC160IADS_V7", 64);
  ("STANDARD_EC160IAS_V7", 64);
  ("STANDARD_EC16ADS_CC_V5", 32);
  ("STANDARD_EC16ADS_V5", 32);
  ("STANDARD_EC16ADS_V6", 32);
  ("STANDARD_EC16ADS_V7", 48);
  ("STANDARD_EC16AS_CC_V5", 32);
  ("STANDARD_EC16AS_V5", 32);
  ("STANDARD_EC16AS_V6", 32);
  ("STANDARD_EC16AS_V7", 48);
  ("STANDARD_EC16EDS_V5", 32);
  ("STANDARD_EC16EDS_V6", 48);
  ("STANDARD_EC16EDS_V7", 48);
  ("STANDARD_EC16ES_V5", 32);
  ("STANDARD_EC16ES_V6", 48);
  ("STANDARD_EC16ES_V7", 48);
  ("STANDARD_EC186EDS_V7", 64);
  ("STANDARD_EC186ES_V7", 64);
  ("STANDARD_EC192EDS_V7", 64);
  ("STANDARD_EC192ES_V7", 64);
  ("STANDARD_EC192IEDS_V6", 64);
  ("STANDARD_EC192IES_V6", 64);
  ("STANDARD_EC20ADS_CC_V5", 32);
  ("STANDARD_EC20ADS_V5", 32);
  ("STANDARD_EC20AS_CC_V5", 32);
  ("STANDARD_EC20AS_V5", 32);
  ("STANDARD_EC248EDS_V7", 64);
  ("STANDARD_EC248ES_V7", 64);
  ("STANDARD_EC256EDS_V7", 64);
  ("STANDARD_EC256ES_V7", 64);
  ("STANDARD_EC2ADS_V5", 4);
  ("STANDARD_EC2ADS_V6", 4);
  ("STANDARD_EC2ADS_V7", 8);
  ("STANDARD_EC2AS_V5", 4);
  ("STANDARD_EC2AS_V6", 4);
  ("STANDARD_EC2AS_V7", 8);
  ("STANDARD_EC2EDS_V5", 4);
  ("STANDARD_EC2EDS_V6", 8);
  ("STANDARD_EC2EDS_V7", 8);
  ("STANDARD_EC2ES_V5", 4);
  ("STANDARD_EC2ES_V6", 8);
  ("STANDARD_EC2ES_V7", 8);
  ("STANDARD_EC32ADS_CC_V5", 32);
  ("STANDARD_EC32ADS_V5", 32);
  ("STANDARD_EC32ADS_V6", 32);
  ("STANDARD_EC32ADS_V7", 64);
  ("STANDARD_EC32AS_CC_V5", 32);
  ("STANDARD_EC32AS_CC_V6", 32);
  ("STANDARD_EC32AS_V5", 32);
  ("STANDARD_EC32AS_V6", 32);
  ("STANDARD_EC32AS_V7", 64);
  ("STANDARD_EC32EDS_V5", 32);
  ("STANDARD_EC32EDS_V6", 64);
  ("STANDARD_EC32EDS_V7", 48);
  ("STANDARD_EC32ES_V5", 32);
  ("STANDARD_EC32ES_V6", 64);
  ("STANDARD_EC32ES_V7", 48);
  ("STANDARD_EC48ADS_CC_V5", 32);
  ("STANDARD_EC48ADS_V5", 32);
  ("STANDARD_EC48ADS_V6", 32);
  ("STANDARD_EC48ADS_V7", 64);
  ("STANDARD_EC48AS_CC_V5", 32);
  ("STANDARD_EC48AS_V5", 32);
  ("STANDARD_EC48AS_V6", 32);
  ("STANDARD_EC48AS_V7", 64);
  ("STANDARD_EC48EDS_V5", 32);
  ("STANDARD_EC48EDS_V6", 64);
  ("STANDARD_EC48EDS_V7", 64);
  ("STANDARD_EC48ES_V5", 32);
  ("STANDARD_EC48ES_V6", 64);
  ("STANDARD_EC48ES_V7", 64);
  ("STANDARD_EC4ADS_CC_V5", 8);
  ("STANDARD_EC4ADS_V5", 8);
  ("STANDARD_EC4ADS_V6", 8);
  ("STANDARD_EC4ADS_V7", 12);
  ("STANDARD_EC4AS_CC_V5", 8);
  ("STANDARD_EC4AS_V5", 8);
  ("STANDARD_EC4AS_V6", 8);
  ("STANDARD_EC4AS_V7", 12);
  ("STANDARD_EC4EDS_V5", 8);
  ("STANDARD_EC4EDS_V6", 12);
  ("STANDARD_EC4EDS_V7", 12);
  ("STANDARD_EC4ES_V5", 8);
  ("STANDARD_EC4ES_V6", 12);
  ("STANDARD_EC4ES_V7", 12);
  ("STANDARD_EC64ADS_CC_V5", 32);
  ("STANDARD_EC64ADS_V5", 32);
  ("STANDARD_EC64ADS_V6", 32);
  ("STANDARD_EC64ADS_V7", 64);
  ("STANDARD_EC64AS_CC_V5", 32);
  ("STANDARD_EC64AS_V5", 32);
  ("STANDARD_EC64AS_V6", 32);
  ("STANDARD_EC64AS_V7", 64);
  ("STANDARD_EC64EDS_V5", 32);
  ("STANDARD_EC64EDS_V6", 64);
  ("STANDARD_EC64EDS_V7", 64);
  ("STANDARD_EC64ES_V5", 32);
  ("STANDARD_EC64ES_V6", 64);
  ("STANDARD_EC64ES_V7", 64);
  ("STANDARD_EC8ADS_CC_V5", 16);
  ("STANDARD_EC8ADS_V5", 16);
  ("STANDARD_EC8ADS_V6", 16);
  ("STANDARD_EC8ADS_V7", 24);
  ("STANDARD_EC8AS_CC_V5", 16);
  ("STANDARD_EC8AS_V5", 16);
  ("STANDARD_EC8AS_V6", 16);
  ("STANDARD_EC8AS_V7", 24);
  ("STANDARD_EC8EDS_V5", 16);
  ("STANDARD_EC8EDS_V6", 24);
  ("STANDARD_EC8EDS_V7", 24);
  ("STANDARD_EC8ES_V5", 16);
  ("STANDARD_EC8ES_V6", 24);
  ("STANDARD_EC8ES_V7", 24);
  ("STANDARD_EC96ADS_CC_V5", 32);
  ("STANDARD_EC96ADS_V5", 32);
  ("STANDARD_EC96ADS_V6", 32);
  ("STANDARD_EC96ADS_V7", 64);
  ("STANDARD_EC96AS_CC_V5", 32);
  ("STANDARD_EC96AS_V5", 32);
  ("STANDARD_EC96AS_V6", 32);
  ("STANDARD_EC96AS_V7", 64);
  ("STANDARD_EC96EDS_V7", 64);
  ("STANDARD_EC96ES_V7", 64);
  ("STANDARD_EC96IADS_V5", 32)].
(** [azuredisk/azure_dd_max_disk_count.go maxDataDiskCountMap 2722-2871] *)
Definition disk_counts_19 : list (string * Z) := [
  ("STANDARD_EC96IAS_V5", 32);
  ("STANDARD_F1", 4);
  ("STANDARD_F124DS_V7", 64);
  ("STANDARD_F124LDS_V7", 64);
  ("STANDARD_F124LS_V7", 64);
  ("STANDARD_F124MDS_V7", 64);
  ("STANDARD_F124MS_V7", 64);
  ("STANDARD_F124S_V7", 64);
  ("STANDARD_F128DS_V7", 64);
  ("STANDARD_F128LDS_V7", 64);
  ("STANDARD_F128LS_V7", 64);
  ("STANDARD_F128MDS_V7", 64);
  ("STANDARD_F128MS_V7", 64);
  ("STANDARD_F128S_V7", 64);
  ("STANDARD_F16", 64);
  ("STANDARD_F16-4AMDS_V7", 64);
  ("STANDARD_F16-4AMS_V7", 64);
  ("STANDARD_F16-8AMDS_V7", 64);
  ("STANDARD_F16-8AMS_V7", 64);
  ("STANDARD_F16ADS_V6", 32);
  ("STANDARD_F16ADS_V7", 64);
  ("STANDARD_F16ALDS_V6", 32);
  ("STANDARD_F16ALDS_V7", 64);
  ("STANDARD_F16ALS_V6", 32);
  ("STANDARD_F16ALS_V7", 64);
  ("STANDARD_F16AMDS_V6", 32);
  ("STANDARD_F16AMDS_V7", 64);
  ("STANDARD_F16AMS_V6", 32);
  ("STANDARD_F16AMS_V7", 64);
  ("STANDARD_F16AS_V6", 32);
  ("STANDARD_F16AS_V7", 64);
  ("STANDARD_F16DS_V6", 48);
  ("STANDARD_F16DS_V7", 48);
  ("STANDARD_F16LDS_V6", 48);
  ("STANDARD_F16LDS_V7", 48);
  ("STANDARD_F16LS_V6", 48);
  ("STANDARD_F16LS_V7", 48);
  ("STANDARD_F16MDS_V6", 48);
  ("STANDARD_F16MDS_V7", 48);
  ("STANDARD_F16MS_V6", 48);
  ("STANDARD_F16MS_V7", 48);
  ("STANDARD_F16S", 64);
  ("STANDARD_F16S_V2", 32);
  ("STANDARD_F16S_V6", 48);
  ("STANDARD_F16S_V7", 48);
  ("STANDARD_F1ADS_V6", 2);
  ("STANDARD_F1ADS_V7", 10);
  ("STANDARD_F1ALDS_V6", 2);
  ("STANDARD_F1ALDS_V7", 10);
  ("STANDARD_F1ALS_V6", 2);
  ("STANDARD_F1ALS_V7", 10);
  ("STANDARD_F1AMDS_V6", 2);
  ("STANDARD_F1AMDS_V7", 10);
  ("STANDARD_F1AMS_V6", 2);
  ("STANDARD_F1AMS_V7", 10);
  ("STANDARD_F1AS_V6", 2);
  ("STANDARD_F1AS_V7", 10);
  ("STANDARD_F1DS_V6", 4);
  ("STANDARD_F1DS_V7", 4);
  ("STANDARD_F1LDS_V6", 4);
  ("STANDARD_F1LDS_V7", 4);
  ("STANDARD_F1LS_V6", 4);
  ("STANDARD_F1LS_V7", 4);
  ("STANDARD_F1MDS_V6", 4);
  ("STANDARD_F1MDS_V7", 4);
  ("STANDARD_F1MS_V6", 4);
  ("STANDARD_F1MS_V7", 4);
  ("STANDARD_F1S", 4);
  ("STANDARD_F1S_V6", 4);
  ("STANDARD_F1S_V7", 4);
  ("STANDARD_F2", 8);
  ("STANDARD_F2-1AMDS_V7", 12);
  ("STANDARD_F2-1AMS_V7", 12);
  ("STANDARD_F2ADS_V6", 4);
  ("STANDARD_F2ADS_V7", 12);
  ("STANDARD_F2ALDS_V6", 4);
  ("STANDARD_F2ALDS_V7", 12);
  ("STANDARD_F2ALS_V6", 4);
  ("STANDARD_F2ALS_V7", 12);
  ("STANDARD_F2AMDS_V6", 4);
  ("STANDARD_F2AMDS_V7", 12);
  ("STANDARD_F2AMS_V6", 4);
  ("STANDARD_F2AMS_V7", 12);
  ("STANDARD_F2AS_V6", 4);
  ("STANDARD_F2AS_V7", 12);
  ("STANDARD_F2DS_V6", 8);
  ("STANDARD_F2DS_V7", 8);
  ("STANDARD_F2HS_V2", 4);
  ("STANDARD_F2LDS_V6", 8);
  ("STANDARD_F2LDS_V7", 8);
  ("STANDARD_F2LS_V6", 8);
  ("STANDARD_F2LS_V7", 8);
  ("STANDARD_F2MDS_V6", 8);
  ("STANDARD_F2MDS_V7", 8);
  ("STANDARD_F2MS_V6", 8);
  ("STANDARD_F2MS_V7", 8);
  ("STANDARD_F2S", 8);
  ("STANDARD_F2S_V2", 4);
  ("STANDARD_F2S_V6", 8);
  ("STANDARD_F2S_V7", 8);
  ("STANDARD_F32-16AMDS_V7", 64);
  ("STANDARD_F32-16AMDUS_V7", 64);
  ("STANDARD_F32-16AMS_V7", 64);
  ("STANDARD_F32-8AMDS_V7", 64);
  ("STANDARD_F32-8AMDUS_V7", 64);
  ("STANDARD_F32-8AMS_V7", 64);
  ("STANDARD_F32ADS_V6", 32);
  ("STANDARD_F32ADS_V7", 64);
  ("STANDARD_F32ADUS_V7", 64);
  ("STANDARD_F32ALDS_V6", 32);
  ("STANDARD_F32ALDS_V7", 64);
  ("STANDARD_F32ALDUS_V7", 64);
  ("STANDARD_F32ALS_V6", 32);
  ("STANDARD_F32ALS_V7", 64);
  ("STANDARD_F32AMDS_V6", 32);
  ("STANDARD_F32AMDS_V7", 64);
  ("STANDARD_F32AMDUS_V7", 64);
  ("STANDARD_F32AMS_V6", 32);
  ("STANDARD_F32AMS_V7", 64);
  ("STANDARD_F32AS_V6", 32);
  ("STANDARD_F32AS_V7", 64);
  ("STANDARD_F32DS_V6", 64);
  ("STANDARD_F32DS_V7", 64);
  ("STANDARD_F32LDS_V6", 64);
  ("STANDARD_F32LDS_V7", 64);
  ("STANDARD_F32LS_V6", 64);
  ("STANDARD_F32LS_V7", 64);
  ("STANDARD_F32MDS_V6", 64);
  ("STANDARD_F32MDS_V7", 64);
  ("STANDARD_F32MS_V6", 64);
  ("STANDARD_F32MS_V7", 64);
  ("STANDARD_F32S_V2", 32);
  ("STANDARD_F32S_V6", 64);
  ("STANDARD_F32S_V7", 64);
  ("STANDARD_F4", 16);
  ("STANDARD_F4-1AMDS_V7", 26);
  ("STANDARD_F4-1AMS_V7", 26);
  ("STANDARD_F4-2AMDS_V7", 26);
  ("STANDARD_F4-2AMS_V7", 26);
  ("STANDARD_F48ADS_V6", 32);
  ("STANDARD_F48ADS_V7", 64);
  ("STANDARD_F48ALDS_V6", 32);
  ("STANDARD_F48ALDS_V7", 64);
  ("STANDARD_F48ALS_V6", 32);
  ("STANDARD_F48ALS_V7", 64);
  ("STANDARD_F48AMDS_V6", 32);
  ("STANDARD_F48AMDS_V7", 64);
  ("STANDARD_F48AMS_V6", 32);
  ("STANDARD_F48AMS_V7", 64);
  ("STANDARD_F48AS_V6", 32)].
(** [azuredisk/azure_dd_max_disk_count.go maxDataDiskCountMap 2872-3021] *)
Definition disk_counts_20 : list (string * Z) := [
  ("STANDARD_F48AS_V7", 64);
  ("STANDARD_F48DS_V6", 64);
  ("STANDARD_F48DS_V7", 64);
  ("STANDARD_F48LDS_V6", 64);
  ("STANDARD_F48LDS_V7", 64);
  ("STANDARD_F48LS_V6", 64);
  ("STANDARD_F48LS_V7", 64);
  ("STANDARD_F48MDS_V6", 64);
  ("STANDARD_F48MDS_V7", 64);
  ("STANDARD_F48MS_V6", 64);
  ("STANDARD_F48MS_V7", 64);
  ("STANDARD_F48S_V2", 32);
  ("STANDARD_F48S_V6", 64);
  ("STANDARD_F48S_V7", 64);
  ("STANDARD_F4ADS_V6", 8);
  ("STANDARD_F4ADS_V7", 26);
  ("STANDARD_F4ALDS_V6", 8);
  ("STANDARD_F4ALDS_V7", 26);
  ("STANDARD_F4ALS_V6", 8);
  ("STANDARD_F4ALS_V7", 26);
  ("STANDARD_F4AMDS_V6", 8);
  ("STANDARD_F4AMDS_V7", 26);
  ("STANDARD_F4AMS_V6", 8);
  ("STANDARD_F4AMS_V7", 26);
  ("STANDARD_F4AS_V6", 8);
  ("STANDARD_F4AS_V7", 26);
  ("STANDARD_F4DS_V6", 12);
  ("STANDARD_F4DS_V7", 12);
  ("STANDARD_F4LDS_V6", 12);
  ("STANDARD_F4LDS_V7", 12);
  ("STANDARD_F4LS_V6", 12);
  ("STANDARD_F4LS_V7", 12);
  ("STANDARD_F4MDS_V6", 12);
  ("STANDARD_F4MDS_V7", 12);
  ("STANDARD_F4MS_V6", 12);
  ("STANDARD_F4MS_V7", 12);
  ("STANDARD_F4S", 16);
  ("STANDARD_F4S_V2", 8);
  ("STANDARD_F4S_V6", 12);
  ("STANDARD_F4S_V7", 12);
  ("STANDARD_F62DS_V7", 64);
  ("STANDARD_F62LDS_V7", 64);
  ("STANDARD_F62LS_V7", 64);
  ("STANDARD_F62MDS_V7", 64);
  ("STANDARD_F62MS_V7", 64);
  ("STANDARD_F62S_V7", 64);
  ("STANDARD_F64-16AMDS_V7", 64);
  ("STANDARD_F64-16AMDUS_V7", 64);
  ("STANDARD_F64-16AMS_V7", 64);
  ("STANDARD_F64-32AMDS_V7", 64);
  ("STANDARD_F64-32AMDUS_V7", 64);
  ("STANDARD_F64-32AMS_V7", 64);
  ("STANDARD_F64ADS_V6", 32);
  ("STANDARD_F64ADS_V7", 64);
  ("STANDARD_F64ADUS_V7", 64);
  ("STANDARD_F64ALDS_V6", 32);
  ("STANDARD_F64ALDS_V7", 64);
  ("STANDARD_F64ALDUS_V7", 64);
  ("STANDARD_F64ALS_V6", 32);
  ("STANDARD_F64ALS_V7", 64);
  ("STANDARD_F64AMDS_V6", 32);
  ("STANDARD_F64AMDS_V7", 64);
  ("STANDARD_F64AMDUS_V7", 64);
  ("STANDARD_F64AMS_V6", 32);
  ("STANDARD_F64AMS_V7", 64);
  ("STANDARD_F64AS_V6", 32);
  ("STANDARD_F64AS_V7", 64);
  ("STANDARD_F64DS_V6", 64);
  ("STANDARD_F64DS_V7", 64);
  ("STANDARD_F64LDS_V6", 64);
  ("STANDARD_F64LDS_V7", 64);
  ("STANDARD_F64LS_V6", 64);
  ("STANDARD_F64LS_V7", 64);
  ("STANDARD_F64MDS_V6", 64);
  ("STANDARD_F64MDS_V7", 64);
  ("STANDARD_F64MS_V6", 64);
  ("STANDARD_F64MS_V7", 64);
  ("STANDARD_F64S_V2", 32);
  ("STANDARD_F64S_V6", 64);
  ("STANDARD_F64S_V7", 64);
  ("STANDARD_F72ADS_V6", 32);
  ("STANDARD_F72ALDS_V6", 32);
  ("STANDARD_F72ALS_V6", 32);
  ("STANDARD_F72AS_V6", 32);
  ("STANDARD_F72FS_V2", 32);
  ("STANDARD_F72IAMDS_V6", 32);
  ("STANDARD_F72IAMS_V6", 32);
  ("STANDARD_F72S_V2", 32);
  ("STANDARD_F8", 32);
  ("STANDARD_F8-2AMDS_V7", 48);
  ("STANDARD_F8-2AMS_V7", 48);
  ("STANDARD_F8-4AMDS_V7", 48);
  ("STANDARD_F8-4AMS_V7", 48);
  ("STANDARD_F80ADS_V7", 64);
  ("STANDARD_F80ALDS_V7", 64);
  ("STANDARD_F80ALS_V7", 64);
  ("STANDARD_F80AMDS_V7", 64);
  ("STANDARD_F80AMS_V7", 64);
  ("STANDARD_F80AS_V7", 64);
  ("STANDARD_F8ADS_V6", 16);
  ("STANDARD_F8ADS_V7", 48);
  ("STANDARD_F8ALDS_V6", 16);
  ("STANDARD_F8ALDS_V7", 48);
  ("STANDARD_F8ALS_V6", 16);
  ("STANDARD_F8ALS_V7", 48);
  ("STANDARD_F8AMDS_V6", 16);
  ("STANDARD_F8AMDS_V7", 48);
  ("STANDARD_F8AMS_V6", 16);
  ("STANDARD_F8AMS_V7", 48);
  ("STANDARD_F8AS_V6", 16);
  ("STANDARD_F8AS_V7", 48);
  ("STANDARD_F8DS_V6", 24);
  ("STANDARD_F8DS_V7", 24);
  ("STANDARD_F8LDS_V6", 24);
  ("STANDARD_F8LDS_V7", 24);
  ("STANDARD_F8LS_V6", 24);
  ("STANDARD_F8LS_V7", 24);
  ("STANDARD_F8MDS_V6", 24);
  ("STANDARD_F8MDS_V7", 24);
  ("STANDARD_F8MS_V6", 24);
  ("STANDARD_F8MS_V7", 24);
  ("STANDARD_F8S", 32);
  ("STANDARD_F8S_V2", 16);
  ("STANDARD_F8S_V6", 24);
  ("STANDARD_F8S_V7", 24);
  ("STANDARD_F93DS_V7", 64);
  ("STANDARD_F93LDS_V7", 64);
  ("STANDARD_F93LS_V7", 64);
  ("STANDARD_F93MDS_V7", 64);
  ("STANDARD_F93MS_V7", 64);
  ("STANDARD_F93S_V7", 64);
  ("STANDARD_F96DS_V6", 64);
  ("STANDARD_F96DS_V7", 64);
  ("STANDARD_F96LDS_V6", 64);
  ("STANDARD_F96LDS_V7", 64);
  ("STANDARD_F96LS_V6", 64);
  ("STANDARD_F96LS_V7", 64);
  ("STANDARD_F96MDS_V6", 64);
  ("STANDARD_F96MDS_V7", 64);
  ("STANDARD_F96MS_V6", 64);
  ("STANDARD_F96MS_V7", 64);
  ("STANDARD_F96S_V6", 64);
  ("STANDARD_F96S_V7", 64);
  ("STANDARD_FX12-6MDS_V2", 48);
  ("STANDARD_FX12-6MS_V2", 48);
  ("STANDARD_FX12MDS", 24);
  ("STANDARD_FX12MDS_V2", 48);
  ("STANDARD_FX12MS_V2", 48);
  ("STANDARD_FX16-4MDS_V2", 48);
  ("STANDARD_FX16-4MS_V2", 48)].
(** [azuredisk/azure_dd_max_disk_count.go maxDataDiskCountMap 3022-3171] *)
Definition disk_counts_21 : list (string * Z) := [
  ("STANDARD_FX16-8MDS_V2", 48);
  ("STANDARD_FX16-8MS_V2", 48);
  ("STANDARD_FX16MDS_V2", 48);
  ("STANDARD_FX16MS_V2", 48);
  ("STANDARD_FX24-12MDS_V2", 48);
  ("STANDARD_FX24-12MS_V2", 48);
  ("STANDARD_FX24-6MDS_V2", 48);
  ("STANDARD_FX24-6MS_V2", 48);
  ("STANDARD_FX24MDS", 32);
  ("STANDARD_FX24MDS_V2", 48);
  ("STANDARD_FX24MS_V2", 48);
  ("STANDARD_FX2MDS_V2", 8);
  ("STANDARD_FX2MS_V2", 8);
  ("STANDARD_FX32-16MDS_V2", 64);
  ("STANDARD_FX32-16MS_V2", 64);
  ("STANDARD_FX32-8MDS_V2", 64);
  ("STANDARD_FX32-8MS_V2", 64);
  ("STANDARD_FX32MDS_V2", 64);
  ("STANDARD_FX32MS_V2", 64);
  ("STANDARD_FX36MDS", 32);
  ("STANDARD_FX4-2MDS_V2", 12);
  ("STANDARD_FX4-2MS_V2", 12);
  ("STANDARD_FX48-12MDS_V2", 64);
  ("STANDARD_FX48-12MS_V2", 64);
  ("STANDARD_FX48-24MDS_V2", 64);
  ("STANDARD_FX48-24MS_V2", 64);
  ("STANDARD_FX48MDS", 32);
  ("STANDARD_FX48MDS_V2", 64);
  ("STANDARD_FX48MS_V2", 64);
  ("STANDARD_FX4MDS", 8);
  ("STANDARD_FX4MDS_V2", 12);
  ("STANDARD_FX4MS_V2", 12);
  ("STANDARD_FX64-16MDS_V2", 64);
  ("STANDARD_FX64-16MDUS_V2", 64);
  ("STANDARD_FX64-16MS_V2", 64);
  ("STANDARD_FX64-32MDS_V2", 64);
  ("STANDARD_FX64-32MDUS_V2", 64);
  ("STANDARD_FX64-32MS_V2", 64);
  ("STANDARD_FX64MDS_V2", 64);
  ("STANDARD_FX64MDUS_V2", 64);
  ("STANDARD_FX64MS_V2", 64);
  ("STANDARD_FX8-2MDS_V2", 24);
  ("STANDARD_FX8-2MS_V2", 24);
  ("STANDARD_FX8-4MDS_V2", 24);
  ("STANDARD_FX8-4MS_V2", 24);
  ("STANDARD_FX8MDS_V2", 24);
  ("STANDARD_FX8MS_V2", 24);
  ("STANDARD_FX96-24MDS_V2", 64);
  ("STANDARD_FX96-24MS_V2", 64);
  ("STANDARD_FX96-48MDS_V2", 64);
  ("STANDARD_FX96-48MS_V2", 64);
  ("STANDARD_FX96MDS_V2", 64);
  ("STANDARD_FX96MS_V2", 64);
  ("STANDARD_G1", 8);
  ("STANDARD_G2", 16);
  ("STANDARD_G3", 32);
  ("STANDARD_G4", 64);
  ("STANDARD_G5", 64);
  ("STANDARD_GS1", 8);
  ("STANDARD_GS2", 16);
  ("STANDARD_GS3", 32);
  ("STANDARD_GS4", 64);
  ("STANDARD_GS4-4", 64);
  ("STANDARD_GS4-8", 64);
  ("STANDARD_GS5", 64);
  ("STANDARD_GS5-16", 64);
  ("STANDARD_GS5-8", 64);
  ("STANDARD_H16", 64);
  ("STANDARD_H16M", 64);
  ("STANDARD_H16MR", 64);
  ("STANDARD_H16MR_PROMO", 64);
  ("STANDARD_H16M_PROMO", 64);
  ("STANDARD_H16R", 64);
  ("STANDARD_H16R_PROMO", 64);
  ("STANDARD_H16_PROMO", 64);
  ("STANDARD_H8", 32);
  ("STANDARD_H8M", 32);
  ("STANDARD_H8M_PROMO", 32);
  ("STANDARD_H8_PROMO", 32);
  ("STANDARD_HB112RS-224_V3", 32);
  ("STANDARD_HB112RS_V3", 32);
  ("STANDARD_HB120-16RS_V2", 32);
  ("STANDARD_HB120-16RS_V3", 32);
  ("STANDARD_HB120-32RS_V2", 32);
  ("STANDARD_HB120-32RS_V3", 32);
  ("STANDARD_HB120-64RS_V2", 32);
  ("STANDARD_HB120-64RS_V3", 32);
  ("STANDARD_HB120-96RS_V2", 32);
  ("STANDARD_HB120-96RS_V3", 32);
  ("STANDARD_HB120RS-240_V3", 32);
  ("STANDARD_HB120RS_V2", 32);
  ("STANDARD_HB120RS_V3", 32);
  ("STANDARD_HB128RS-256_V3", 32);
  ("STANDARD_HB128RS_V3", 32);
  ("STANDARD_HB176-144RS_V4", 32);
  ("STANDARD_HB176-144S_V4", 32);
  ("STANDARD_HB176-24RS_V4", 32);
  ("STANDARD_HB176-24S_V4", 32);
  ("STANDARD_HB176-48RS_V4", 32);
  ("STANDARD_HB176-48S_V4", 32);
  ("STANDARD_HB176-96RS_V4", 32);
  ("STANDARD_HB176-96S_V4", 32);
  ("STANDARD_HB176RS_V4", 32);
  ("STANDARD_HB176S_V4", 32);
  ("STANDARD_HB28RS-56_V3", 32);
  ("STANDARD_HB28RS_V3", 32);
  ("STANDARD_HB32RS-64_V3", 32);
  ("STANDARD_HB32RS_V3", 32);
  ("STANDARD_HB352FCRS_V5", 32);
  ("STANDARD_HB352RS_V5", 32);
  ("STANDARD_HB368-144RS_V5", 32);
  ("STANDARD_HB368-192RS_V5", 32);
  ("STANDARD_HB368-240RS_V5", 32);
  ("STANDARD_HB368-288RS_V5", 32);
  ("STANDARD_HB368-336RS_V5", 32);
  ("STANDARD_HB368-48RS_V5", 32);
  ("STANDARD_HB368-96RS_V5", 32);
  ("STANDARD_HB368FC-144RS_V5", 32);
  ("STANDARD_HB368FC-192RS_V5", 32);
  ("STANDARD_HB368FC-240RS_V5", 32);
  ("STANDARD_HB368FC-288RS_V5", 32);
  ("STANDARD_HB368FC-336RS_V5", 32);
  ("STANDARD_HB368FC-48RS_V5", 32);
  ("STANDARD_HB368FC-96RS_V5", 32);
  ("STANDARD_HB368FCRS_V5", 32);
  ("STANDARD_HB368RS_V5", 32);
  ("STANDARD_HB56RS-112_V3", 32);
  ("STANDARD_HB56RS_V3", 32);
  ("STANDARD_HB60-15RS", 4);
  ("STANDARD_HB60-30RS", 4);
  ("STANDARD_HB60-45RS", 4);
  ("STANDARD_HB60RS", 4);
  ("STANDARD_HB64RS-128_V3", 32);
  ("STANDARD_HB64RS_V3", 32);
  ("STANDARD_HC44-16RS", 4);
  ("STANDARD_HC44-32RS", 4);
  ("STANDARD_HC44RS", 4);
  ("STANDARD_HD352RS", 32);
  ("STANDARD_HD352S", 32);
  ("STANDARD_HD360RS", 32);
  ("STANDARD_HD360S", 32);
  ("STANDARD_HD368RS", 32);
  ("STANDARD_HD368S", 32);
  ("STANDARD_HD376RS", 32);
  ("STANDARD_HD376S", 32);
  ("STANDARD_HD704RS", 32);
  ("STANDARD_HD704S", 32);
  ("STANDARD_HD720RS", 32);
  ("STANDARD_HD720S", 32);
  ("STANDARD_HD736RS", 32)].
(** [azuredisk/azure_dd_max_disk_count.go maxDataDiskCountMap 3172-3321] *)
Definition disk_counts_22 : list (string * Z) := [
  ("STANDARD_HD736S", 32);
  ("STANDARD_HD752RS", 32);
  ("STANDARD_HD752S", 32);
  ("STANDARD_HX176-144RS", 32);
  ("STANDARD_HX176-144S", 32);
  ("STANDARD_HX176-24RS", 32);
  ("STANDARD_HX176-24S", 32);
  ("STANDARD_HX176-48RS", 32);
  ("STANDARD_HX176-48S", 32);
  ("STANDARD_HX176-96RS", 32);
  ("STANDARD_HX176-96S", 32);
  ("STANDARD_HX176RS", 32);
  ("STANDARD_HX176S", 32);
  ("STANDARD_INTERNAL_ND144SR_MS_V2", 1);
  ("STANDARD_INTERNAL_ND180SR_MS_V2", 1);
  ("STANDARD_INTERNAL_ND72SR_MS_V2", 1);
  ("STANDARD_INTERNAL_ND80SR_MS_V1", 4);
  ("STANDARD_INTERNAL_ND90SR_MS_V2", 1);
  ("STANDARD_L104IS_V3", 64);
  ("STANDARD_L112IAS_V3", 64);
  ("STANDARD_L124S_V5", 64);
  ("STANDARD_L128ALS_V5", 64);
  ("STANDARD_L128AOS_V5", 64);
  ("STANDARD_L128AOUS_V5", 64);
  ("STANDARD_L128AS_V5", 64);
  ("STANDARD_L128IAS_V5", 64);
  ("STANDARD_L128PS_V5", 64);
  ("STANDARD_L128S_V5", 64);
  ("STANDARD_L12AES_V4", 16);
  ("STANDARD_L12AOS_V4", 16);
  ("STANDARD_L12AOS_V5", 36);
  ("STANDARD_L12AOUS_V5", 36);
  ("STANDARD_L160IAOS_V5", 64);
  ("STANDARD_L160IAOUS_V5", 64);
  ("STANDARD_L160IAS_V5", 64);
  ("STANDARD_L16AES_V4", 32);
  ("STANDARD_L16ALS_V4", 32);
  ("STANDARD_L16ALS_V5", 48);
  ("STANDARD_L16AOS_V4", 32);
  ("STANDARD_L16AOS_V5", 48);
  ("STANDARD_L16AOUS_V4", 32);
  ("STANDARD_L16AOUS_V5", 48);
  ("STANDARD_L16AS_V3", 32);
  ("STANDARD_L16AS_V4", 32);
  ("STANDARD_L16AS_V5", 48);
  ("STANDARD_L16AUS_V4", 32);
  ("STANDARD_L16PS_V5", 48);
  ("STANDARD_L16S", 64);
  ("STANDARD_L16S_V2", 32);
  ("STANDARD_L16S_V3", 32);
  ("STANDARD_L16S_V4", 48);
  ("STANDARD_L16S_V5", 48);
  ("STANDARD_L16US_V4", 48);
  ("STANDARD_L186S_V5", 64);
  ("STANDARD_L192IS_V4", 64);
  ("STANDARD_L192S_V5", 64);
  ("STANDARD_L1PS_V5", 4);
  ("STANDARD_L248IS_V5", 64);
  ("STANDARD_L248S_V5", 64);
  ("STANDARD_L24AES_V4", 32);
  ("STANDARD_L24AOS_V4", 32);
  ("STANDARD_L24AOS_V5", 64);
  ("STANDARD_L24AOUS_V5", 64);
  ("STANDARD_L2AES_V4", 4);
  ("STANDARD_L2ALS_V4", 4);
  ("STANDARD_L2ALS_V5", 10);
  ("STANDARD_L2AOS_V4", 4);
  ("STANDARD_L2AOS_V5", 10);
  ("STANDARD_L2AOUS_V5", 10);
  ("STANDARD_L2AS_V4", 4);
  ("STANDARD_L2AS_V5", 10);
  ("STANDARD_L2PS_V5", 8);
  ("STANDARD_L2S_V4", 8);
  ("STANDARD_L2S_V5", 10);
  ("STANDARD_L32AES_V4", 32);
  ("STANDARD_L32ALS_V4", 32);
  ("STANDARD_L32ALS_V5", 64);
  ("STANDARD_L32AOS_V4", 32);
  ("STANDARD_L32AOS_V5", 64);
  ("STANDARD_L32AOUS_V4", 32);
  ("STANDARD_L32AOUS_V5", 64);
  ("STANDARD_L32AS_V3", 32);
  ("STANDARD_L32AS_V4", 32);
  ("STANDARD_L32AS_V5", 64);
  ("STANDARD_L32AUS_V4", 32);
  ("STANDARD_L32PS_V5", 64);
  ("STANDARD_L32S", 64);
  ("STANDARD_L32S_V2", 32);
  ("STANDARD_L32S_V3", 32);
  ("STANDARD_L32S_V4", 64);
  ("STANDARD_L32S_V5", 64);
  ("STANDARD_L32US_V4", 64);
  ("STANDARD_L360IS_V5", 64);
  ("STANDARD_L372IS_V5", 64);
  ("STANDARD_L48ALS_V4", 32);
  ("STANDARD_L48ALS_V5", 64);
  ("STANDARD_L48AOS_V5", 64);
  ("STANDARD_L48AOUS_V5", 64);
  ("STANDARD_L48AS_V3", 32);
  ("STANDARD_L48AS_V4", 32);
  ("STANDARD_L48AS_V5", 64);
  ("STANDARD_L48AUS_V4", 32);
  ("STANDARD_L48PS_V5", 64);
  ("STANDARD_L48S_V2", 32);
  ("STANDARD_L48S_V3", 32);
  ("STANDARD_L48S_V4", 64);
  ("STANDARD_L48S_V5", 64);
  ("STANDARD_L48US_V4", 64);
  ("STANDARD_L4AES_V4", 8);
  ("STANDARD_L4ALS_V4", 8);
  ("STANDARD_L4ALS_V5", 12);
  ("STANDARD_L4AOS_V4", 8);
  ("STANDARD_L4AOS_V5", 12);
  ("STANDARD_L4AOUS_V5", 12);
  ("STANDARD_L4AS_V4", 8);
  ("STANDARD_L4AS_V5", 12);
  ("STANDARD_L4PS_V5", 12);
  ("STANDARD_L4S", 16);
  ("STANDARD_L4S_V4", 12);
  ("STANDARD_L4S_V5", 12);
  ("STANDARD_L64ALS_V4", 32);
  ("STANDARD_L64ALS_V5", 64);
  ("STANDARD_L64AOS_V5", 64);
  ("STANDARD_L64AOUS_V5", 64);
  ("STANDARD_L64AS_V3", 32);
  ("STANDARD_L64AS_V4", 32);
  ("STANDARD_L64AS_V5", 64);
  ("STANDARD_L64AUS_V4", 32);
  ("STANDARD_L64PS_V5", 64);
  ("STANDARD_L64S_V2", 32);
  ("STANDARD_L64S_V3", 32);
  ("STANDARD_L64S_V4", 64);
  ("STANDARD_L64S_V5", 64);
  ("STANDARD_L64US_V4", 64);
  ("STANDARD_L80ALS_V4", 32);
  ("STANDARD_L80ALS_V5", 64);
  ("STANDARD_L80AS_V3", 32);
  ("STANDARD_L80AS_V4", 32);
  ("STANDARD_L80AS_V5", 64);
  ("STANDARD_L80AUS_V4", 32);
  ("STANDARD_L80S_V2", 32);
  ("STANDARD_L80S_V3", 32);
  ("STANDARD_L80S_V4", 64);
  ("STANDARD_L80S_V5", 64);
  ("STANDARD_L80US_V4", 64);
  ("STANDARD_L88IS_V2", 32);
  ("STANDARD_L8AES_V4", 16);
  ("STANDARD_L8ALS_V4", 16);
  ("STANDARD_L8ALS_V5", 26);
  ("STANDARD_L8AOS_V4", 16)].
(** [azuredisk/azure_dd_max_disk_count.go maxDataDiskCountMap 3322-3471] *)
Definition disk_counts_23 : list (string * Z) := [
  ("STANDARD_L8AOS_V5", 26);
  ("STANDARD_L8AOUS_V5", 26);
  ("STANDARD_L8AS_V3", 16);
  ("STANDARD_L8AS_V4", 16);
  ("STANDARD_L8AS_V5", 26);
  ("STANDARD_L8PS_V5", 24);
  ("STANDARD_L8S", 32);
  ("STANDARD_L8S_V2", 16);
  ("STANDARD_L8S_V3", 16);
  ("STANDARD_L8S_V4", 24);
  ("STANDARD_L8S_V5", 26);
  ("STANDARD_L96ALS_V4", 32);
  ("STANDARD_L96ALS_V5", 64);
  ("STANDARD_L96AOS_V5", 64);
  ("STANDARD_L96AOUS_V5", 64);
  ("STANDARD_L96AS_V4", 32);
  ("STANDARD_L96AS_V5", 64);
  ("STANDARD_L96AUS_V4", 32);
  ("STANDARD_L96PS_V5", 64);
  ("STANDARD_L96S_V4", 64);
  ("STANDARD_L96S_V5", 64);
  ("STANDARD_L96US_V4", 64);
  ("STANDARD_M12-6DS_V3", 64);
  ("STANDARD_M12-6S_V3", 64);
  ("STANDARD_M128", 64);
  ("STANDARD_M128-32MS", 64);
  ("STANDARD_M128-64BDS_3_V3", 64);
  ("STANDARD_M128-64BDS_V3", 64);
  ("STANDARD_M128-64BS_V3", 64);
  ("STANDARD_M128-64MS", 64);
  ("STANDARD_M128BDS_1_V4", 64);
  ("STANDARD_M128BDS_2_V4", 64);
  ("STANDARD_M128BDS_3_V3", 64);
  ("STANDARD_M128BDS_3_V4", 64);
  ("STANDARD_M128BDS_V3", 64);
  ("STANDARD_M128BS_1_V4", 64);
  ("STANDARD_M128BS_2_V4", 64);
  ("STANDARD_M128BS_3_V4", 64);
  ("STANDARD_M128BS_V3", 64);
  ("STANDARD_M128DMS_4_V4", 64);
  ("STANDARD_M128DMS_V2", 64);
  ("STANDARD_M128DS_2_V3", 64);
  ("STANDARD_M128DS_2_V4", 64);
  ("STANDARD_M128DS_3_V4", 64);
  ("STANDARD_M128DS_4_V3", 64);
  ("STANDARD_M128DS_V2", 64);
  ("STANDARD_M128DS_V4", 64);
  ("STANDARD_M128LDS_V4", 64);
  ("STANDARD_M128LS_V4", 64);
  ("STANDARD_M128M", 64);
  ("STANDARD_M128MS", 64);
  ("STANDARD_M128MS_2_V4", 64);
  ("STANDARD_M128MS_4_V4", 64);
  ("STANDARD_M128MS_V2", 64);
  ("STANDARD_M128PDS_V4", 64);
  ("STANDARD_M128PS_V4", 64);
  ("STANDARD_M128S", 64);
  ("STANDARD_M128S_2_V3", 64);
  ("STANDARD_M128S_2_V4", 64);
  ("STANDARD_M128S_3_V4", 64);
  ("STANDARD_M128S_4_V3", 64);
  ("STANDARD_M128S_V2", 64);
  ("STANDARD_M128S_V4", 64);
  ("STANDARD_M12DS_V3", 64);
  ("STANDARD_M12DS_V4", 64);
  ("STANDARD_M12S_V3", 64);
  ("STANDARD_M12S_V4", 64);
  ("STANDARD_M144DS_2_V3", 64);
  ("STANDARD_M144DS_4_V3", 64);
  ("STANDARD_M144S_2_V3", 64);
  ("STANDARD_M144S_4_V3", 64);
  ("STANDARD_M152BDS_2_V4", 64);
  ("STANDARD_M152BS_2_V4", 64);
  ("STANDARD_M152DS_4_V4", 64);
  ("STANDARD_M16-4MS", 16);
  ("STANDARD_M16-8MS", 16);
  ("STANDARD_M160DS_V4", 64);
  ("STANDARD_M160S_V4", 64);
  ("STANDARD_M1664IXDS_32_V3", 64);
  ("STANDARD_M1664IXDS_PRE_32_V3", 64);
  ("STANDARD_M16BDS_V3", 64);
  ("STANDARD_M16BDS_V4", 64);
  ("STANDARD_M16BS_V3", 64);
  ("STANDARD_M16BS_V4", 64);
  ("STANDARD_M16DS_V3", 16);
  ("STANDARD_M16DS_V4", 64);
  ("STANDARD_M16LDS_V4", 64);
  ("STANDARD_M16LS_V4", 64);
  ("STANDARD_M16MDS_V2", 16);
  ("STANDARD_M16MS", 16);
  ("STANDARD_M16MS_V2", 16);
  ("STANDARD_M16MS_V4", 16);
  ("STANDARD_M16PDS_V4", 48);
  ("STANDARD_M16PS_V4", 48);
  ("STANDARD_M16S_V3", 16);
  ("STANDARD_M16S_V4", 64);
  ("STANDARD_M176-44DS_3_V3", 64);
  ("STANDARD_M176-44DS_4_V3", 64);
  ("STANDARD_M176-44S_3_V3", 64);
  ("STANDARD_M176-44S_4_V3", 64);
  ("STANDARD_M176-88BDS_4_V3", 64);
  ("STANDARD_M176-88BDS_V3", 64);
  ("STANDARD_M176-88BS_V3", 64);
  ("STANDARD_M176-88DS_3_V3", 64);
  ("STANDARD_M176-88DS_4_V3", 64);
  ("STANDARD_M176-88S_3_V3", 64);
  ("STANDARD_M176-88S_4_V3", 64);
  ("STANDARD_M176BDS_3_V3", 64);
  ("STANDARD_M176BDS_4_V3", 64);
  ("STANDARD_M176BDS_4_V4", 64);
  ("STANDARD_M176BDS_V3", 64);
  ("STANDARD_M176BS_3_V3", 64);
  ("STANDARD_M176BS_4_V4", 64);
  ("STANDARD_M176BS_V3", 64);
  ("STANDARD_M176DS_2_V3", 64);
  ("STANDARD_M176DS_3_V3", 64);
  ("STANDARD_M176DS_4_V3", 64);
  ("STANDARD_M176DS_4_V4", 64);
  ("STANDARD_M176DS_8_V4", 64);
  ("STANDARD_M176DS_V3", 64);
  ("STANDARD_M176S_2_V3", 64);
  ("STANDARD_M176S_3_V3", 64);
  ("STANDARD_M176S_4_V3", 64);
  ("STANDARD_M176S_4_V4", 64);
  ("STANDARD_M176S_V3", 64);
  ("STANDARD_M1792IXDS_32_V3", 64);
  ("STANDARD_M192DMS_V2", 64);
  ("STANDARD_M192DS_2_V3", 64);
  ("STANDARD_M192DS_4_V3", 64);
  ("STANDARD_M192DS_V2", 64);
  ("STANDARD_M192DS_V4", 64);
  ("STANDARD_M192IDMS_V2", 64);
  ("STANDARD_M192IDS_2_V3", 64);
  ("STANDARD_M192IDS_4_V3", 64);
  ("STANDARD_M192IDS_V2", 64);
  ("STANDARD_M192IMS_V2", 64);
  ("STANDARD_M192IS_2_V3", 64);
  ("STANDARD_M192IS_4_V3", 64);
  ("STANDARD_M192IS_V2", 64);
  ("STANDARD_M192LDS_V4", 64);
  ("STANDARD_M192LS_V4", 64);
  ("STANDARD_M192MDS_V4", 64);
  ("STANDARD_M192MS_V2", 64);
  ("STANDARD_M192MS_V4", 64);
  ("STANDARD_M192S_2_V3", 64);
  ("STANDARD_M192S_4_V3", 64);
  ("STANDARD_M192S_V2", 64);
  ("STANDARD_M192S_V4", 64);
  ("STANDARD_M1PDS_V4", 4);
  ("STANDARD_M1PS_V4", 4)].
(** [azuredisk/azure_dd_max_disk_count.go maxDataDiskCountMap 3472-3621] *)
Definition disk_counts_24 : list (string * Z) := [
  ("STANDARD_M208-104MS_V2", 64);
  ("STANDARD_M208-104S_V2", 64);
  ("STANDARD_M208-52MS_V2", 64);
  ("STANDARD_M208-52S_V2", 64);
  ("STANDARD_M208BS_2_V3", 64);
  ("STANDARD_M208BS_V3", 64);
  ("STANDARD_M208DS_3_V3", 64);
  ("STANDARD_M208DS_3_V4", 64);
  ("STANDARD_M208DS_4_V3", 64);
  ("STANDARD_M208DS_6_V3", 64);
  ("STANDARD_M208MS_V2", 64);
  ("STANDARD_M208S_3_V3", 64);
  ("STANDARD_M208S_3_V4", 64);
  ("STANDARD_M208S_4_V3", 64);
  ("STANDARD_M208S_6_V3", 64);
  ("STANDARD_M208S_V2", 64);
  ("STANDARD_M216DSX_5_V4", 64);
  ("STANDARD_M216DS_5_V4", 64);
  ("STANDARD_M216S_5_V4", 64);
  ("STANDARD_M228BDS_3_V4", 64);
  ("STANDARD_M228BS_3_V4", 64);
  ("STANDARD_M24-12DS_V3", 64);
  ("STANDARD_M24-12S_V3", 64);
  ("STANDARD_M24-6DS_V3", 64);
  ("STANDARD_M24-6S_V3", 64);
  ("STANDARD_M24DS_V3", 64);
  ("STANDARD_M24DS_V4", 64);
  ("STANDARD_M24LDS_V4", 64);
  ("STANDARD_M24LS_V4", 64);
  ("STANDARD_M24MS_V2", 16);
  ("STANDARD_M24S_V2", 16);
  ("STANDARD_M24S_V3", 64);
  ("STANDARD_M24S_V4", 64);
  ("STANDARD_M256BDS_2_V4", 64);
  ("STANDARD_M256BDS_4_V4", 64);
  ("STANDARD_M256BS_2_V4", 64);
  ("STANDARD_M256BS_4_V4", 64);
  ("STANDARD_M256DS_4_V4", 64);
  ("STANDARD_M256DS_V4", 64);
  ("STANDARD_M256LDS_V4", 64);
  ("STANDARD_M256LS_V4", 64);
  ("STANDARD_M256S_4_V4", 64);
  ("STANDARD_M256S_6_V4", 64);
  ("STANDARD_M256S_V4", 64);
  ("STANDARD_M2PDS_V4", 8);
  ("STANDARD_M2PS_V4", 8);
  ("STANDARD_M304BDS_3_V4", 64);
  ("STANDARD_M304BDS_4_V4", 64);
  ("STANDARD_M304BS_3_V4", 64);
  ("STANDARD_M304BS_4_V4", 64);
  ("STANDARD_M304DSX_6_V4", 64);
  ("STANDARD_M304DSX_7_V4", 64);
  ("STANDARD_M304DS_6_V4", 64);
  ("STANDARD_M304DS_7_V4", 64);
  ("STANDARD_M304S_6_V4", 64);
  ("STANDARD_M304S_7_V4", 64);
  ("STANDARD_M312BS_3_V3", 64);
  ("STANDARD_M312BS_V3", 64);
  ("STANDARD_M32-16MS", 32);
  ("STANDARD_M32-8MS", 32);
  ("STANDARD_M320DS_V4", 64);
  ("STANDARD_M320LDS_V4", 64);
  ("STANDARD_M320LS_V4", 64);
  ("STANDARD_M320MDS_V4", 64);
  ("STANDARD_M320MS_V4", 64);
  ("STANDARD_M320S_V4", 64);
  ("STANDARD_M32BDS_V3", 64);
  ("STANDARD_M32BDS_V4", 64);
  ("STANDARD_M32BS_V3", 64);
  ("STANDARD_M32BS_V4", 64);
  ("STANDARD_M32DMS_V2", 32);
  ("STANDARD_M32DMS_V3", 32);
  ("STANDARD_M32DMS_V4", 32);
  ("STANDARD_M32DS_1_V3", 32);
  ("STANDARD_M32DS_V4", 64);
  ("STANDARD_M32LDS_V2", 32);
  ("STANDARD_M32LDS_V4", 64);
  ("STANDARD_M32LS", 32);
  ("STANDARD_M32LS_V2", 32);
  ("STANDARD_M32LS_V4", 64);
  ("STANDARD_M32MDS_V4", 64);
  ("STANDARD_M32MS", 32);
  ("STANDARD_M32MS_V2", 32);
  ("STANDARD_M32MS_V3", 32);
  ("STANDARD_M32MS_V4", 64);
  ("STANDARD_M32PDS_V4", 64);
  ("STANDARD_M32PS_V4", 64);
  ("STANDARD_M32S_1_V3", 32);
  ("STANDARD_M32S_V4", 64);
  ("STANDARD_M32TDS_V2", 32);
  ("STANDARD_M32TDS_V3", 32);
  ("STANDARD_M32TS", 32);
  ("STANDARD_M32TS_V2", 32);
  ("STANDARD_M32TS_V3", 32);
  ("STANDARD_M32TS_V4", 32);
  ("STANDARD_M352XS_V2", 64);
  ("STANDARD_M36DS_V4", 64);
  ("STANDARD_M36S_V4", 64);
  ("STANDARD_M384DS_V4", 64);
  ("STANDARD_M384LDS_V4", 64);
  ("STANDARD_M384LS_V4", 64);
  ("STANDARD_M384MDS_V4", 64);
  ("STANDARD_M384MS_V4", 64);
  ("STANDARD_M384S_V4", 64);
  ("STANDARD_M384XS_V2", 64);
  ("STANDARD_M38BDS_V4", 64);
  ("STANDARD_M38BS_V4", 64);
  ("STANDARD_M416-104MS_V2", 64);
  ("STANDARD_M416-104S_V2", 64);
  ("STANDARD_M416-112DS_6_V3", 64);
  ("STANDARD_M416-112DS_8_V3", 64);
  ("STANDARD_M416-112S_6_V3", 64);
  ("STANDARD_M416-112S_8_V3", 64);
  ("STANDARD_M416-208DS_6_V3", 64);
  ("STANDARD_M416-208DS_8_V3", 64);
  ("STANDARD_M416-208MS_V2", 64);
  ("STANDARD_M416-208S_6_V3", 64);
  ("STANDARD_M416-208S_8_V3", 64);
  ("STANDARD_M416-208S_V2", 64);
  ("STANDARD_M416BS_4_V3", 64);
  ("STANDARD_M416BS_V3", 64);
  ("STANDARD_M416DS_10_V3", 64);
  ("STANDARD_M416DS_12_V3", 64);
  ("STANDARD_M416DS_16_V3", 64);
  ("STANDARD_M416DS_6_V3", 64);
  ("STANDARD_M416DS_8_V3", 64);
  ("STANDARD_M416DS_9_V3", 64);
  ("STANDARD_M416DS_V4", 64);
  ("STANDARD_M416IS_V2", 64);
  ("STANDARD_M416MS_V2", 64);
  ("STANDARD_M416S_10_V2", 64);
  ("STANDARD_M416S_10_V3", 64);
  ("STANDARD_M416S_12_V3", 64);
  ("STANDARD_M416S_16_V3", 64);
  ("STANDARD_M416S_6_V3", 64);
  ("STANDARD_M416S_8_V2", 64);
  ("STANDARD_M416S_8_V3", 64);
  ("STANDARD_M416S_9_V2", 64);
  ("STANDARD_M416S_9_V3", 64);
  ("STANDARD_M416S_V2", 64);
  ("STANDARD_M416S_V4", 64);
  ("STANDARD_M416XS_V2", 64);
  ("STANDARD_M420IXS_V2", 64);
  ("STANDARD_M420XS_V2", 64);
  ("STANDARD_M448DS_V4", 64);
  ("STANDARD_M448LDS_V4", 64);
  ("STANDARD_M448LS_V4", 64);
  ("STANDARD_M448S_V4", 64);
  ("STANDARD_M48-12DS_1_V3", 64);
  ("STANDARD_M48-12S_1_V3", 64)].
(** [azuredisk/azure_dd_max_disk_count.go maxDataDiskCountMap 3622-3771] *)
Definition disk_counts_25 : list (string * Z) := [
  ("STANDARD_M48-24DS_1_V3", 64);
  ("STANDARD_M48-24S_1_V3", 64);
  ("STANDARD_M48BDS_V3", 64);
  ("STANDARD_M48BDS_V4", 64);
  ("STANDARD_M48BS_V3", 64);
  ("STANDARD_M48BS_V4", 64);
  ("STANDARD_M48DS_1_V3", 64);
  ("STANDARD_M48DS_1_V4", 64);
  ("STANDARD_M48DS_V4", 64);
  ("STANDARD_M48LDS_V4", 64);
  ("STANDARD_M48LS_V4", 64);
  ("STANDARD_M48MS_V2", 32);
  ("STANDARD_M48PDS_V4", 64);
  ("STANDARD_M48PS_V4", 64);
  ("STANDARD_M48S_1_V3", 64);
  ("STANDARD_M48S_1_V4", 64);
  ("STANDARD_M48S_V2", 32);
  ("STANDARD_M48S_V4", 64);
  ("STANDARD_M4PDS_V4", 12);
  ("STANDARD_M4PS_V4", 12);
  ("STANDARD_M512DS_V4", 64);
  ("STANDARD_M512LDS_V4", 64);
  ("STANDARD_M512LS_V4", 64);
  ("STANDARD_M512S_V4", 64);
  ("STANDARD_M576DS_V4", 64);
  ("STANDARD_M576LDS_V4", 64);
  ("STANDARD_M576LS_V4", 64);
  ("STANDARD_M576S_V4", 64);
  ("STANDARD_M624-160DS_12_V3", 64);
  ("STANDARD_M624-160S_12_V3", 64);
  ("STANDARD_M624-320DS_12_V3", 64);
  ("STANDARD_M624-320S_12_V3", 64);
  ("STANDARD_M624DS_12_V3", 64);
  ("STANDARD_M624S_12_V3", 64);
  ("STANDARD_M64", 64);
  ("STANDARD_M64-16MS", 64);
  ("STANDARD_M64-32BDS_1_V3", 64);
  ("STANDARD_M64-32MS", 64);
  ("STANDARD_M64-32MS_V2", 64);
  ("STANDARD_M64BDS_1_V3", 64);
  ("STANDARD_M64BDS_1_V4", 64);
  ("STANDARD_M64BDS_V3", 64);
  ("STANDARD_M64BDS_V4", 64);
  ("STANDARD_M64BS_1_V4", 64);
  ("STANDARD_M64BS_V3", 64);
  ("STANDARD_M64BS_V4", 64);
  ("STANDARD_M64DMS_1_V4", 64);
  ("STANDARD_M64DMS_2_V4", 64);
  ("STANDARD_M64DMS_V2", 64);
  ("STANDARD_M64DS_1_V3", 64);
  ("STANDARD_M64DS_1_V4", 64);
  ("STANDARD_M64DS_2_V3", 64);
  ("STANDARD_M64DS_V2", 64);
  ("STANDARD_M64DS_V3", 64);
  ("STANDARD_M64DS_V4", 64);
  ("STANDARD_M64LDS_V2", 64);
  ("STANDARD_M64LDS_V4", 64);
  ("STANDARD_M64LS", 64);
  ("STANDARD_M64LS_V2", 64);
  ("STANDARD_M64LS_V4", 64);
  ("STANDARD_M64M", 64);
  ("STANDARD_M64MDS_V4", 64);
  ("STANDARD_M64MS", 64);
  ("STANDARD_M64MS_1_V4", 64);
  ("STANDARD_M64MS_2_V4", 64);
  ("STANDARD_M64MS_V2", 64);
  ("STANDARD_M64MS_V4", 64);
  ("STANDARD_M64PDS_V4", 64);
  ("STANDARD_M64PDUS_V4", 64);
  ("STANDARD_M64PS_V4", 64);
  ("STANDARD_M64S", 64);
  ("STANDARD_M64S_1_V3", 64);
  ("STANDARD_M64S_1_V4", 64);
  ("STANDARD_M64S_2_V3", 64);
  ("STANDARD_M64S_V2", 64);
  ("STANDARD_M64S_V3", 64);
  ("STANDARD_M64S_V4", 64);
  ("STANDARD_M76BDS_1_V4", 64);
  ("STANDARD_M76BS_1_V4", 64);
  ("STANDARD_M76DS_2_V4", 64);
  ("STANDARD_M8-2MS", 8);
  ("STANDARD_M8-4MS", 8);
  ("STANDARD_M832-208DS_12_V3", 64);
  ("STANDARD_M832-208IDS_16_V3", 64);
  ("STANDARD_M832-208IS_16_V3", 64);
  ("STANDARD_M832-208S_12_V3", 64);
  ("STANDARD_M832-416DS_12_V3", 64);
  ("STANDARD_M832-416IDS_16_V3", 64);
  ("STANDARD_M832-416IS_16_V3", 64);
  ("STANDARD_M832-416S_12_V3", 64);
  ("STANDARD_M832DS_12_V3", 64);
  ("STANDARD_M832IDS_16_V3", 64);
  ("STANDARD_M832IS_16_V3", 64);
  ("STANDARD_M832IXDS_24_V3", 64);
  ("STANDARD_M832IXDS_32_V3", 64);
  ("STANDARD_M832IXDS_PRE_32_V3", 64);
  ("STANDARD_M832IXS", 64);
  ("STANDARD_M832IXS_V2", 64);
  ("STANDARD_M832S_12_V3", 64);
  ("STANDARD_M832XDS_16_V3", 64);
  ("STANDARD_M840IXS_V2", 64);
  ("STANDARD_M84PDS_V4", 64);
  ("STANDARD_M84PS_V4", 64);
  ("STANDARD_M864IXS", 64);
  ("STANDARD_M896IXDS_24_V3", 64);
  ("STANDARD_M896IXDS_32_V3", 64);
  ("STANDARD_M896XDS_16_V3", 64);
  ("STANDARD_M8DS_V3", 8);
  ("STANDARD_M8MDS_V2", 8);
  ("STANDARD_M8MS", 8);
  ("STANDARD_M8MS_V2", 8);
  ("STANDARD_M8MS_V4", 8);
  ("STANDARD_M8PDS_V4", 24);
  ("STANDARD_M8PS_V4", 24);
  ("STANDARD_M8S_V3", 8);
  ("STANDARD_M96-24DS_1_V3", 64);
  ("STANDARD_M96-24DS_2_V3", 64);
  ("STANDARD_M96-24S_1_V3", 64);
  ("STANDARD_M96-24S_2_V3", 64);
  ("STANDARD_M96-48BDS_2_V3", 64);
  ("STANDARD_M96-48DS_1_V3", 64);
  ("STANDARD_M96-48DS_2_V3", 64);
  ("STANDARD_M96-48S_1_V3", 64);
  ("STANDARD_M96-48S_2_V3", 64);
  ("STANDARD_M96BDS_1_V4", 64);
  ("STANDARD_M96BDS_2_V3", 64);
  ("STANDARD_M96BDS_2_V4", 64);
  ("STANDARD_M96BDS_V3", 64);
  ("STANDARD_M96BS_1_V4", 64);
  ("STANDARD_M96BS_2_V4", 64);
  ("STANDARD_M96BS_V3", 64);
  ("STANDARD_M96DS_1_V3", 64);
  ("STANDARD_M96DS_1_V4", 64);
  ("STANDARD_M96DS_2_V3", 64);
  ("STANDARD_M96DS_2_V4", 64);
  ("STANDARD_M96DS_V3", 64);
  ("STANDARD_M96DS_V4", 64);
  ("STANDARD_M96LDS_V4", 64);
  ("STANDARD_M96LS_V4", 64);
  ("STANDARD_M96MS_V2", 64);
  ("STANDARD_M96PDS_V4", 64);
  ("STANDARD_M96PS_V4", 64);
  ("STANDARD_M96S_1_V3", 64);
  ("STANDARD_M96S_1_V4", 64);
  ("STANDARD_M96S_2_V3", 64);
  ("STANDARD_M96S_2_V4", 64);
  ("STANDARD_M96S_V2", 64);
  ("STANDARD_M96S_V3", 64);
  ("STANDARD_M96S_V4", 64);
  ("STANDARD_MDB16S", 16)].
(** [azuredisk/azure_dd_max_disk_count.go maxDataDiskCountMap 3772-3921] *)
Definition disk_counts_26 : list (string * Z) := [
  ("STANDARD_MDB32S", 32);
  ("STANDARD_MSODSG5", 32);
  ("STANDARD_NC12", 48);
  ("STANDARD_NC128DS_XL_RTXPRO6000BSE_V6", 8);
  ("STANDARD_NC128LDS_XL_RTXPRO6000BSE_V6", 8);
  ("STANDARD_NC12DS_RTXPRO6000BSE_V6", 1);
  ("STANDARD_NC12S_V2", 24);
  ("STANDARD_NC12S_V3", 24);
  ("STANDARD_NC12_PROMO", 48);
  ("STANDARD_NC132DS_XL_RTXPRO6000BSE_V6", 2);
  ("STANDARD_NC132LDS_XL_RTXPRO6000BSE_V6", 2);
  ("STANDARD_NC144DS_XL_RTXPRO6000BSE_V6", 2);
  ("STANDARD_NC144LDS_XL_RTXPRO6000BSE_V6", 2);
  ("STANDARD_NC16ADS_A10_V4", 16);
  ("STANDARD_NC16AS_T4_V3", 32);
  ("STANDARD_NC16LDS_XL_RTXPRO6000BSE_V6", 1);
  ("STANDARD_NC18DS_RTXPRO6000BSE_V6", 2);
  ("STANDARD_NC24", 64);
  ("STANDARD_NC24ADS_A100_V4", 8);
  ("STANDARD_NC24LDS_XL_RTXPRO6000BSE_V6", 1);
  ("STANDARD_NC24R", 64);
  ("STANDARD_NC24RS_V2", 32);
  ("STANDARD_NC24RS_V3", 32);
  ("STANDARD_NC24R_PROMO", 64);
  ("STANDARD_NC24S_V2", 32);
  ("STANDARD_NC24S_V3", 32);
  ("STANDARD_NC24_PROMO", 64);
  ("STANDARD_NC256DS_XL_RTXPRO6000BSE_V6", 16);
  ("STANDARD_NC256LDS_XL_RTXPRO6000BSE_V6", 16);
  ("STANDARD_NC264DS_XL_RTXPRO6000BSE_V6", 2);
  ("STANDARD_NC264LDS_XL_RTXPRO6000BSE_V6", 2);
  ("STANDARD_NC288DS_XL_RTXPRO6000BSE_V6", 2);
  ("STANDARD_NC288LDS_XL_RTXPRO6000BSE_V6", 2);
  ("STANDARD_NC320DS_XL_RTXPRO6000BSE_V6", 16);
  ("STANDARD_NC320LDS_XL_RTXPRO6000BSE_V6", 16);
  ("STANDARD_NC324DS_XL_RTXPRO6000BSE_V6", 2);
  ("STANDARD_NC324LDS_XL_RTXPRO6000BSE_V6", 2);
  ("STANDARD_NC32ADS_A10_V4", 32);
  ("STANDARD_NC32DS_XL_RTXPRO6000BSE_V6", 1);
  ("STANDARD_NC32LDS_XL_RTXPRO6000BSE_V6", 1);
  ("STANDARD_NC36DS_XL_RTXPRO6000BSE_V6", 1);
  ("STANDARD_NC36LDS_XL_RTXPRO6000BSE_V6", 1);
  ("STANDARD_NC40ADS_H100_V5", 8);
  ("STANDARD_NC48ADS_A100_V4", 16);
  ("STANDARD_NC4AS_T4_V3", 8);
  ("STANDARD_NC6", 24);
  ("STANDARD_NC64AS_T4_V3", 32);
  ("STANDARD_NC64DS_XL_RTXPRO6000BSE_V6", 2);
  ("STANDARD_NC64LDS_XL_RTXPRO6000BSE_V6", 2);
  ("STANDARD_NC6S_RTXPRO6000BSE_V6", 1);
  ("STANDARD_NC6S_V2", 12);
  ("STANDARD_NC6S_V3", 12);
  ("STANDARD_NC6_PROMO", 24);
  ("STANDARD_NC72DS_XL_RTXPRO6000BSE_V6", 2);
  ("STANDARD_NC72LDS_XL_RTXPRO6000BSE_V6", 2);
  ("STANDARD_NC80ADIS_H100_V5", 16);
  ("STANDARD_NC8ADS_A10_V4", 8);
  ("STANDARD_NC8AS_T4_V3", 16);
  ("STANDARD_NC96ADS_A100_V4", 32);
  ("STANDARD_NC96AS_A100_V4", 16);
  ("STANDARD_NCC24ACDS_A100_V4", 8);
  ("STANDARD_NCC24ADS_A100_V4", 8);
  ("STANDARD_NCC40ADS_H100_V5", 8);
  ("STANDARD_NCC48ADS_A100_V4", 16);
  ("STANDARD_NCC80ADS_H100_V5", 16);
  ("STANDARD_NCC96ADS_A100_V4", 32);
  ("STANDARD_ND112AMSR_A100_V4", 16);
  ("STANDARD_ND112ASR_A100_V4", 16);
  ("STANDARD_ND120AMSR_A100_V4", 16);
  ("STANDARD_ND120ASR_A100_V4", 16);
  ("STANDARD_ND128ISFG5_GB300_V6", 16);
  ("STANDARD_ND128ISF_GB200_V6", 16);
  ("STANDARD_ND128ISF_GB300_V6", 16);
  ("STANDARD_ND128ISG5_GB300_V6", 16);
  ("STANDARD_ND128ISRFG5_GB300_V6", 16);
  ("STANDARD_ND128ISRF_ETH_GB200_V6", 16);
  ("STANDARD_ND128ISRF_GB300_V6", 16);
  ("STANDARD_ND128ISRF_NDR_GB200_V6", 16);
  ("STANDARD_ND128ISRG5_GB300_V6", 16);
  ("STANDARD_ND128ISR_ETH_GB200_V6", 16);
  ("STANDARD_ND128ISR_GB300_V6", 16);
  ("STANDARD_ND128ISR_NDR_GB200_V6", 16);
  ("STANDARD_ND128IS_GB200_V6", 16);
  ("STANDARD_ND128IS_GB300_V6", 16);
  ("STANDARD_ND12S", 24);
  ("STANDARD_ND24RS", 32);
  ("STANDARD_ND24S", 32);
  ("STANDARD_ND40RS_V2", 8);
  ("STANDARD_ND40S_V2", 32);
  ("STANDARD_ND40S_V3", 32);
  ("STANDARD_ND6S", 12);
  ("STANDARD_ND96AMSF_A100_V4", 16);
  ("STANDARD_ND96AMSRF_A100_V4", 16);
  ("STANDARD_ND96AMSR_A100_FLEX_V4", 16);
  ("STANDARD_ND96AMSR_A100_INTERNAL_V4", 16);
  ("STANDARD_ND96AMSR_A100_V4", 16);
  ("STANDARD_ND96AMS_A100_FLEX_V4", 16);
  ("STANDARD_ND96AMS_A100_INTERNAL_V4", 16);
  ("STANDARD_ND96AMS_A100_V4", 16);
  ("STANDARD_ND96ASR_A100_V4", 16);
  ("STANDARD_ND96ASR_MI200_V4", 16);
  ("STANDARD_ND96ASR_V4", 16);
  ("STANDARD_ND96ISF_H100_V5", 16);
  ("STANDARD_ND96ISF_H200_V5", 16);
  ("STANDARD_ND96ISF_MI300XHF_V5", 16);
  ("STANDARD_ND96ISF_MI300X_V5", 16);
  ("STANDARD_ND96ISRF_H100_V5", 16);
  ("STANDARD_ND96ISRF_H200_V5", 16);
  ("STANDARD_ND96ISRF_MI300XHF_V5", 16);
  ("STANDARD_ND96ISRF_MI300X_V5", 16);
  ("STANDARD_ND96ISR_H100_V5", 16);
  ("STANDARD_ND96ISR_H200_V5", 16);
  ("STANDARD_ND96ISR_INFE_H100_V5", 16);
  ("STANDARD_ND96ISR_MI300XHF_V5", 16);
  ("STANDARD_ND96ISR_MI300X_V5", 16);
  ("STANDARD_ND96IS_FLEX_H100_V5", 16);
  ("STANDARD_ND96IS_H100_V5", 16);
  ("STANDARD_ND96IS_H200_V5", 16);
  ("STANDARD_ND96IS_MI300XHF_V5", 16);
  ("STANDARD_ND96IS_MI300X_V5", 16);
  ("STANDARD_ND96IS_NOIB_H100_V5", 16);
  ("STANDARD_ND96IS_NOIB_MI300X_V5", 16);
  ("STANDARD_NDC96ISF_H200_V5", 16);
  ("STANDARD_NDC96ISRF_H200_V5", 16);
  ("STANDARD_NDC96ISR_H200_V5", 16);
  ("STANDARD_NDC96IS_H200_V5", 16);
  ("STANDARD_NG16ADS_V620L_V1", 16);
  ("STANDARD_NG16ADS_V620_V1", 16);
  ("STANDARD_NG32ADMS_V620_V1", 32);
  ("STANDARD_NG32ADS_V620_V1", 32);
  ("STANDARD_NG8ADS_V620L_V1", 8);
  ("STANDARD_NG8ADS_V620_V1", 8);
  ("STANDARD_NM16ADS_MA35D", 8);
  ("STANDARD_NM320ADS_MA35D", 32);
  ("STANDARD_NP10S", 8);
  ("STANDARD_NP12", 8);
  ("STANDARD_NP20S", 16);
  ("STANDARD_NP40S", 32);
  ("STANDARD_NP48", 32);
  ("STANDARD_NV10ADS_A10_V5", 8);
  ("STANDARD_NV12", 48);
  ("STANDARD_NV12ADS_A10_V5", 8);
  ("STANDARD_NV12ADS_V710_V5", 6);
  ("STANDARD_NV12HS_V3", 12);
  ("STANDARD_NV12S_V2", 24);
  ("STANDARD_NV12S_V3", 12);
  ("STANDARD_NV12_PROMO", 48);
  ("STANDARD_NV16ADS_V620L_V5", 16);
  ("STANDARD_NV16AHS_V4", 32);
  ("STANDARD_NV16AS_V4", 32)].
(** [azuredisk/azure_dd_max_disk_count.go maxDataDiskCountMap 3922-3960] *)
Definition disk_counts_27 : list (string * Z) := [
  ("STANDARD_NV18ADS_A10_V5", 16);
  ("STANDARD_NV20ADMS_A10_V5", 16);
  ("STANDARD_NV20ADS_A10_V5", 16);
  ("STANDARD_NV24", 64);
  ("STANDARD_NV24ADS_V710_V5", 12);
  ("STANDARD_NV24MS_V3", 24);
  ("STANDARD_NV24S_V2", 32);
  ("STANDARD_NV24S_V3", 24);
  ("STANDARD_NV24_PROMO", 64);
  ("STANDARD_NV28ADMS_V710_V5", 14);
  ("STANDARD_NV28ADS_V710_V5", 14);
  ("STANDARD_NV30ADMS_A10_V5", 24);
  ("STANDARD_NV30ADS_A10_V5", 24);
  ("STANDARD_NV32AHS_V4", 32);
  ("STANDARD_NV32AS_V4", 32);
  ("STANDARD_NV32MS_V3", 32);
  ("STANDARD_NV36ADMS_A10_V5", 32);
  ("STANDARD_NV36ADS_A10_V5", 32);
  ("STANDARD_NV40ADS_A10_V5", 32);
  ("STANDARD_NV48S_V3", 32);
  ("STANDARD_NV4ADS_A10_V5", 4);
  ("STANDARD_NV4ADS_V710_V5", 2);
  ("STANDARD_NV4AHS_V4", 8);
  ("STANDARD_NV4AS_V4", 8);
  ("STANDARD_NV6", 24);
  ("STANDARD_NV6ADS_A10_V5", 4);
  ("STANDARD_NV6H", 12);
  ("STANDARD_NV6HS_V2", 12);
  ("STANDARD_NV6S_V2", 12);
  ("STANDARD_NV6_PROMO", 24);
  ("STANDARD_NV72ADS_A10_V5", 32);
  ("STANDARD_NV8ADS_V620L_V5", 8);
  ("STANDARD_NV8ADS_V710_V5", 4);
  ("STANDARD_NV8AHS_V4", 16);
  ("STANDARD_NV8AS_V4", 16);
  ("STANDARD_OVL3_INTEL_EXPERIMENTAL", 64);
  ("STANDARD_PB12S", 24);
  ("STANDARD_PB24S", 32);
  ("STANDARD_PB6S", 12)].

(** The whole table. *)
Definition disk_counts : list (string * Z) :=
  concat [
    disk_counts_1; disk_counts_2; disk_counts_3; disk_counts_4; disk_counts_5; disk_counts_6;
    disk_counts_7; disk_counts_8; disk_counts_9; disk_counts_10; disk_counts_11; disk_counts_12;
    disk_counts_13; disk_counts_14; disk_counts_15; disk_counts_16; disk_counts_17; disk_counts_18;
    disk_counts_19; disk_counts_20; disk_counts_21; disk_counts_22; disk_counts_23; disk_counts_24;
    disk_counts_25; disk_counts_26; disk_counts_27].
(** [azuredisk/azure_dd_max_disk_count.go maxDataDiskCountMap 21-21] *)
Definition maxDataDiskCountMap : gmap string Z := list_to_map disk_counts.

Definition defaultAzureVolumeLimit : Z := 16.
(** [azuredisk/nodeserver.go GetMaxDataDiskCount] *)
Definition GetMaxDataDiskCount (instanceType : string) : Z * bool :=
  match maxDataDiskCountMap !! ToUpper instanceType with
  | Some maxDataDiskCount => (maxDataDiskCount, true)
  | None => (defaultAzureVolumeLimit, false)
  end.
