(* ===== verification/Tuning.v ===== *)
(** * What the tuning computes

    The formulas of [getOptimalDeviceSettings] on every machine size and every
    disk SKU of the shipped tables. *)
From stdpp Require Import gmap strings list.
From Stdlib Require Import ZArith Lia.
From S2P Require Import Prelude GoStrings GoFloat GoErr Consts Optimization SkuTables.
Local Open Scope string_scope.
Local Open Scope Z_scope.

(** ** The formulas depend on the lower of the burst limits and a latency class *)
Definition size_class (size : Z) : Z :=
  if (size <=? 4096)%Z then 0 else if (size <=? 8192)%Z then 4097
  else if (size <=? 16384)%Z then 8193 else 16385.
(** A machine and a disk with given burst limits. *)
Definition burst_node (iops bw : Z) : NodeInfo := MkNodeInfo "" 0 0 iops 0 0 bw.
Definition burst_disk (iops bw size : Z) : DiskSkuInfo := MkDiskSkuInfo "" "" "" 0 iops 0 0 bw size.
(** The limits of a disk, and its latency class. *)
Definition bursts_of (d : DiskSkuInfo) : Z * Z * Z :=
  (MaxBurstIops d, MaxBurstBwMbps d, size_class (MaxSizeGiB d)).
Definition node_bursts_of (ni : NodeInfo) : Z * Z := (ni_MaxBurstIops ni, ni_MaxBurstBwMbps ni).

(** Where [float64] computes the minimum of two integers exactly. *)
Definition min_exact (a b : Z) : bool :=
  bool_decide (math_Min (of_int a) (of_int b) = of_int (Z.min a b)
               ∧ math_Min (of_int a) (of_int (Z.min a b)) = of_int (Z.min a b)).

Lemma tune_lower ni d :
  let '(iops, bw, class) := bursts_of d in
  min_exact iops (ni_MaxBurstIops ni) = true → min_exact bw (ni_MaxBurstBwMbps ni) = true →
  tune ni d = tune (burst_node (Z.min iops (ni_MaxBurstIops ni)) (Z.min bw (ni_MaxBurstBwMbps ni)))
                   (burst_disk iops bw class).
Proof.
  unfold bursts_of, min_exact. intros [Ei Ei']%bool_decide_eq_true [Eb Eb']%bool_decide_eq_true.
  unfold tune, GetSequentialOLatencyInSec, GetRandomIOLatencyInSec, size_class, burst_node, burst_disk.
  cbn [ni_MaxBurstIops ni_MaxBurstBwMbps MaxBurstIops MaxBurstBwMbps MaxSizeGiB].
  rewrite Ei, Eb, Ei', Eb'. by repeat case_match.
Qed.

(** ** The shipped tables *)
Definition node_bursts : list (Z * Z) := remove_dups ((λ e, node_bursts_of e.2) <$> node_table).
(** The accounts whose SKUs publish no limits: the request fixes them. *)
Definition unpublished (account : string) : bool :=
  String.eqb account "premiumv2_lrs" || String.eqb account "ultrassd_lrs".
Definition disk_bursts (skip : bool) : list (Z * Z * Z) :=
  remove_dups ((λ d, bursts_of d.2) <$>
    concat (snd <$> List.filter (λ e, Bool.eqb (unpublished e.1) skip) disk_table)).

(** Every machine with every disk, by the lower limits they have together. *)
Definition lower_bursts (d : Z * Z * Z) : list (Z * Z) :=
  remove_dups ((λ n, (Z.min d.1.1 n.1, Z.min d.1.2 n.2)) <$> node_bursts).
Definition all_tunings (skip : bool) (P : Tuning → bool) : bool :=
  forallb (λ d, forallb (λ n, P (tune (burst_node n.1 n.2) (burst_disk d.1.1 d.1.2 d.2)))
                        (lower_bursts d)) (disk_bursts skip).
Definition all_min_exact (skip : bool) : bool :=
  let iops := remove_dups (fst <$> node_bursts) in
  let bw := remove_dups (snd <$> node_bursts) in
  forallb (λ i, forallb (min_exact i) iops) (remove_dups ((λ d, d.1.1) <$> disk_bursts skip)) &&
  forallb (λ i, forallb (min_exact i) bw) (remove_dups ((λ d, d.1.2) <$> disk_bursts skip)).

(** Whether the texts are decimal numbers, the queue depth in [[1, 128]] and the
    size of a request in [[1, 512]]. *)
Definition in_range (s : string) (lo hi : Z) : bool :=
  match Atoi s with Some n => (lo <=? n)%Z && (n <=? hi)%Z && String.eqb s (Itoa n) | None => false end.
Definition good_tuning (t : Tuning) : bool :=
  in_range (queueDepth t) 1 128 && String.eqb (nrRequests t) (queueDepth t)
  && in_range (maxSectorsKb t) 1 512.
Definition nan_tuning (t : Tuning) : bool :=
  String.eqb (queueDepth t) "NaN" && String.eqb (nrRequests t) "NaN"
  && String.eqb (maxSectorsKb t) "NaN".

Lemma shipped_min_exact skip : all_min_exact skip = true.
Proof. destruct skip; vm_compute; reflexivity. Qed.
Lemma shipped_good : all_tunings false good_tuning = true.
Proof. vm_compute. reflexivity. Qed.
Lemma shipped_nan : all_tunings true nan_tuning = true.
Proof. vm_compute. reflexivity. Qed.

Lemma forallb_dups {A} `{EqDecision A} (f : A → bool) l :
  forallb f (remove_dups l) = true → ∀ x, x ∈ l → f x = true.
Proof.
  rewrite forallb_forall. intros Hf x Hx. apply Hf.
  by rewrite <-list_elem_of_In, elem_of_remove_dups.
Qed.

Lemma forallb_image {A B} `{EqDecision B} (f : B → bool) (g : A → B) l x :
  forallb f (remove_dups (g <$> l)) = true → x ∈ l → f (g x) = true.
Proof. intros Hf Hx. apply (forallb_dups _ _ Hf). apply list_elem_of_fmap. by exists x. Qed.

(** A value of a map of maps built from a table is among the table's values. *)
Lemma nested_lookup {A B} (f : A → B) (p : string → bool)
    (tbl : list (string * list (string * A))) a (m : gmap string A) key d :
  (list_to_map (prod_map id list_to_map <$> tbl) : gmap string (gmap string A)) !! a = Some m →
  m !! key = Some d → p a = true →
  f d ∈ (λ e, f e.2) <$> concat (snd <$> List.filter (λ e, p e.1) tbl).
Proof.
  intros Ha Hd Hp. apply elem_of_list_to_map_2, list_elem_of_fmap in Ha as ([a' l] & [= -> ->] & Hin).
  apply elem_of_list_to_map_2 in Hd.
  apply list_elem_of_fmap. exists (key, d). split; [done|].
  apply list_elem_of_In, in_concat. exists l. split; [|by apply list_elem_of_In].
  apply list_elem_of_In, list_elem_of_fmap. exists (a', l). split; [done|].
  apply list_elem_of_In, filter_In. by split; [apply list_elem_of_In|].
Qed.

Lemma elem_of_disk_bursts account skus key d :
  DiskSkuMap !! account = Some skus → skus !! key = Some d →
  bursts_of d ∈ disk_bursts (unpublished account).
Proof.
  intros Ha Hd. unfold disk_bursts. apply elem_of_remove_dups.
  apply (nested_lookup bursts_of (λ a, Bool.eqb (unpublished a) (unpublished account))
           disk_table account skus key); [exact Ha | exact Hd | by apply eqb_true_iff].
Qed.
Lemma elem_of_node_bursts k ni : NodeInfoMap !! k = Some ni → node_bursts_of ni ∈ node_bursts.
Proof.
  intros Hn. unfold node_bursts. apply elem_of_remove_dups, list_elem_of_fmap.
  exists (k, ni). split; [reflexivity|]. by apply elem_of_list_to_map_2.
Qed.

#[local] Opaque disk_table node_table remove_dups node_bursts disk_bursts DiskSkuMap NodeInfoMap.

(** A check over all the tunings speaks of every machine and disk of the tables. *)
Lemma all_tunings_spec skip P k ni account skus key d :
  all_tunings skip P = true → NodeInfoMap !! k = Some ni →
  DiskSkuMap !! account = Some skus → skus !! key = Some d → unpublished account = skip →
  P (tune ni d) = true.
Proof.
  intros Hall Hn Ha Hd Hu.
  pose proof (elem_of_node_bursts _ _ Hn) as Hndups.
  pose proof (elem_of_disk_bursts _ _ _ _ Ha Hd) as Hdups. rewrite Hu in Hdups. clear Hn Ha Hd.
  pose proof (shipped_min_exact skip) as Hm. unfold all_min_exact in Hm.
  apply andb_true_iff in Hm as [Hi Hb].
  pose proof (tune_lower ni d) as Ht. unfold bursts_of at 1 in Ht. rewrite Ht; clear Ht.
  - unfold all_tunings in Hall. pose proof (proj1 (forallb_forall _ _) Hall _ (proj1 (list_elem_of_In _ _) Hdups)) as Hl.
    apply (forallb_image _ (λ n, (Z.min (MaxBurstIops d) n.1, Z.min (MaxBurstBwMbps d) n.2)) _ _ Hl Hndups).
  - apply (forallb_image _ fst _ _ (forallb_image _ (λ d, d.1.1) _ _ Hi Hdups) Hndups).
  - apply (forallb_image _ snd _ _ (forallb_image _ (λ d, d.1.2) _ _ Hb Hdups) Hndups).
Qed.

(** The settings are the formulas' values for one of the account's SKUs. *)
Lemma getOptimalDeviceSettings_in `{MapOrder} ni skus account size iops bw t :
  getOptimalDeviceSettings ni skus account size iops bw = Ok t →
  ∃ m k d, skus !! ToLower account = Some m ∧ m !! k = Some d ∧ t = tune ni d.
Proof.
  unfold getOptimalDeviceSettings.
  destruct (getMatchingDiskSku skus account size iops bw) as [[d|]| |] eqn:Em; try done.
  intros [= <-]. pose proof Em as Em'. unfold getMatchingDiskSku in Em'. case_bool_decide; [done|].
  destruct (Atoi size) as [n|] eqn:En; [|done].
  destruct (getMatchingDiskSku_smallest skus account size iops bw n _ En Em) as (m & Hm & _ & [k Hk] & _).
  by exists m, k, d.
Qed.

Lemma in_range_spec s lo hi : in_range s lo hi = true → ∃ n, s = Itoa n ∧ (lo ≤ n ≤ hi)%Z.
Proof.
  unfold in_range. destruct (Atoi s) as [n|]; [|done]. intros Hr. bool_split.
  exists n. split; [congruence|lia].
Qed.

(** C37. On every machine size and every disk SKU the driver ships, the basic
    profile's settings are the ones the block layer accepts: a queue depth that
    is a decimal number in [[1, 128]], the same number of requests, and a request
    size in [[1, 512]] kB — for every account whose SKUs publish their limits.
    For the accounts whose SKUs publish none (PremiumV2 and Ultra) the formulas
    divide zero by zero and every number is the text [NaN]. *)
Theorem shipped_tuning `{MapOrder} k ni account size iops bw t :
  NodeInfoMap !! k = Some ni →
  getOptimalDeviceSettings ni DiskSkuMap account size iops bw = Ok t →
  scheduler t = "mq-deadline" ∧ nrRequests t = queueDepth t ∧
  if unpublished (ToLower account) then queueDepth t = "NaN" ∧ maxSectorsKb t = "NaN"
  else ∃ q r, queueDepth t = Itoa q ∧ (1 ≤ q ≤ 128)%Z ∧
              maxSectorsKb t = Itoa r ∧ (1 ≤ r ≤ 512)%Z.
Proof.
  intros Hn Ht. apply getOptimalDeviceSettings_in in Ht as (m & key & d & Hm & Hd & ->).
  split; [reflexivity|]. destruct (unpublished (ToLower account)) eqn:Eu.
  - pose proof (all_tunings_spec _ _ _ _ _ _ _ _ shipped_nan Hn Hm Hd Eu) as Hp.
    clear Hn Hm Hd. revert Hp. generalize (tune ni d). intros t Hp.
    unfold nan_tuning in Hp. bool_split. repeat split; congruence.
  - pose proof (all_tunings_spec _ _ _ _ _ _ _ _ shipped_good Hn Hm Hd Eu) as Hp.
    clear Hn Hm Hd. revert Hp. generalize (tune ni d). intros t Hp.
    unfold good_tuning in Hp. bool_split.
    match goal with E : in_range (queueDepth _) _ _ = true |- _ => apply in_range_spec in E as (q & Hq & ?) end.
    match goal with E : in_range (maxSectorsKb _) _ _ = true |- _ => apply in_range_spec in E as (r & Hr & ?) end.
    split; [congruence|]. by exists q, r.
Qed.

Definition demo_machine : NodeInfo := MkNodeInfo "Standard_E2s_v3" 4 2 3200 3200 45 45.
Lemma shipped_tuning_witness :
  let t := MkTuning "10" "10" "mq-deadline" "19" "152" in
  scheduler t = "mq-deadline" ∧ nrRequests t = queueDepth t ∧
  if unpublished (ToLower "Premium_LRS") then queueDepth t = "NaN" ∧ maxSectorsKb t = "NaN"
  else ∃ q r, queueDepth t = Itoa q ∧ (1 ≤ q ≤ 128)%Z ∧
              maxSectorsKb t = Itoa r ∧ (1 ≤ r ≤ 512)%Z.
Proof.
  apply (shipped_tuning "standard_e2s_v3" demo_machine "Premium_LRS" "64" "" "");
    vm_compute; reflexivity.
Defined.
