(* ===== verification/DiskUtils.v ===== *)
(** * Disk parameters and helpers: [pkg/azureutils/azure_disk_utils.go]

    Parsing and normalisation of storage-class parameters, volume contexts,
    resource URIs, capabilities and zones.  A loop over a map takes its order
    from [MapOrder].  [runtime.GOOS] and the UUID of a generated name are
    arguments.  A structured value printed with [%v] in an error text is shown
    by the name of its type: no caller inspects that part of the text. *)
From stdpp Require Import gmap strings list.
From Stdlib Require Import ZArith Lia Ascii.
From S2P Require Import Prelude GoStrings GoErr Consts Util AzureTypes Optimization.
Local Open Scope string_scope.
Local Open Scope Z_scope.

(** ** Constants of the file *)
Definition azureStackCloud : string := "AZURESTACKCLOUD".
Definition azurePublicCloudDefaultStorageAccountType : string :=
  armcompute.DiskStorageAccountTypesStandardSSDLRS.
Definition azureStackCloudDefaultStorageAccountType : string :=
  armcompute.DiskStorageAccountTypesStandardLRS.
Definition defaultAzureDataDiskCachingMode : string := "ReadOnly".
Definition diskNameMinLength : nat := 1.
Definition diskNameMaxLength : nat := 80.
Definition diskNameGenerateMaxLength : nat := 76.
(** [azureutils/azure_disk_utils.go diskSnapshotPath 71-72] *)
Definition diskSnapshotPath (sub rg name : string) : string :=
  "/subscriptions/" +:+ sub +:+ "/resourceGroups/" +:+ rg +:+
  "/providers/Microsoft.Compute/snapshots/" +:+ name.
(** [azureutils/azure_disk_utils.go lunPathRE 73-73] *)
Definition lunPathRE : list relem :=
  [RLit "/dev"; RAny; RLit "/disk/azure/scsi"; RAny; RLit "/lun"; RCapture].
(** [azureutils/azure_disk_utils.go supportedCachingModes 74-78] *)
Definition supportedCachingModes : list string := ["None"; "ReadOnly"; "ReadWrite"].
(** [azureutils/azure_disk_utils.go volumeCaps 81-89] *)
Definition volumeCaps : list AccessMode :=
  [SINGLE_NODE_WRITER; SINGLE_NODE_READER_ONLY; SINGLE_NODE_SINGLE_WRITER;
   SINGLE_NODE_MULTI_WRITER; MULTI_NODE_READER_ONLY; MULTI_NODE_SINGLE_WRITER;
   MULTI_NODE_MULTI_WRITER].

(** ** Normalisation of single values *)
(** [azureutils/azure_disk_utils.go NormalizeCachingMode] *)
Definition NormalizeCachingMode (cachingMode : string) : res string :=
  if String.eqb cachingMode "" then Ok defaultAzureDataDiskCachingMode
  else if bool_decide (cachingMode ∈ supportedCachingModes) then Ok cachingMode
  else Err (ENew ("azureDisk - " +:+ cachingMode +:+ " is not supported cachingmode. "
                  +:+ "Supported values are [None ReadOnly ReadWrite]")).

(** A loop over the possible values of an SDK type. *)
Definition one_of (v : string) (values : list string) (e : gerr) : res string :=
  if existsb (String.eqb v) values then Ok v else Err e.
(** [azureutils/azure_disk_utils.go NormalizeNetworkAccessPolicy] *)
Definition NormalizeNetworkAccessPolicy (p : string) : res string :=
  if String.eqb p "" then Ok p
  else one_of p armcompute.PossibleNetworkAccessPolicyValues
    (ENew ("azureDisk - " +:+ p +:+ " is not supported NetworkAccessPolicy. Supported values are [AllowAll AllowPrivate DenyAll]")).
(** [azureutils/azure_disk_utils.go NormalizePublicNetworkAccess] *)
Definition NormalizePublicNetworkAccess (p : string) : res string :=
  if String.eqb p "" then Ok p
  else one_of p armcompute.PossiblePublicNetworkAccessValues
    (ENew ("azureDisk - " +:+ p +:+ " is not supported PublicNetworkAccess. Supported values are [Disabled Enabled]")).
(** [azureutils/azure_disk_utils.go IsAzureStackCloud] *)
Definition IsAzureStackCloud (cloud : string) (disableAzureStackCloud : bool) : bool :=
  negb disableAzureStackCloud && EqualFold cloud azureStackCloud.
(** [azureutils/azure_disk_utils.go NormalizeStorageAccountType] *)
Definition NormalizeStorageAccountType (storageAccountType cloud : string)
    (disableAzureStackCloud : bool) : res string :=
  let stack := IsAzureStackCloud cloud disableAzureStackCloud in
  if String.eqb storageAccountType "" then
    Ok (if stack then azureStackCloudDefaultStorageAccountType
        else azurePublicCloudDefaultStorageAccountType)
  else
    let supportedSkuNames :=
      if stack then [armcompute.DiskStorageAccountTypesStandardLRS;
                     armcompute.DiskStorageAccountTypesPremiumLRS]
      else armcompute.PossibleDiskStorageAccountTypesValues in
    one_of storageAccountType supportedSkuNames
      (ENew ("azureDisk - " +:+ storageAccountType
             +:+ " is not supported sku/storageaccounttype. Supported values are ["
             +:+ Join supportedSkuNames " " +:+ "]")).
(** [azureutils/azure_disk_utils.go ValidateDiskEncryptionType] *)
Definition ValidateDiskEncryptionType (encryptionType : string) : res unit :=
  if String.eqb encryptionType "" then Ok ()
  else let? _ := one_of encryptionType armcompute.PossibleEncryptionTypeValues
         (ENew ("DiskEncryptionType(" +:+ encryptionType +:+ ") is not supported")) in Ok ().
(** [azureutils/azure_disk_utils.go ValidateDataAccessAuthMode] *)
Definition ValidateDataAccessAuthMode (dataAccessAuthMode : string) : res unit :=
  if String.eqb dataAccessAuthMode "" then Ok ()
  else let? _ := one_of dataAccessAuthMode armcompute.PossibleDataAccessAuthModeValues
         (ENew ("dataAccessAuthMode(" +:+ dataAccessAuthMode +:+ ") is not supported")) in Ok ().
(** [azureutils/azure_disk_utils.go SupportedFSTypes] *)
Definition SupportedFSTypes (GOOS : string) : list string :=
  if String.eqb GOOS "windows" then ["ntfs"] else ["btrfs"; "ext2"; "ext3"; "ext4"; "xfs"].
(** [azureutils/azure_disk_utils.go NormalizeFSType] *)
Definition NormalizeFSType (GOOS fsType : string) : res string :=
  let normalized := ToLower (TrimSpace fsType) in
  let supported := SupportedFSTypes GOOS in
  if bool_decide (normalized ∈ supported) then Ok normalized
  else Err (ENew ("fsType(" +:+ quote normalized +:+ ") is not supported on " +:+ GOOS
                  +:+ ", supported fsTypes are [" +:+ Join supported " " +:+ "]")).

(** ** Look-ups in attribute maps *)
Section attributes.
  Context `{MapOrder}.
  Implicit Types attributes : gmap string string.

  (** [azureutils/azure_disk_utils.go GetCachingMode] *)
Definition GetCachingMode attributes : res string :=
  let cachingMode := match find_entry (λ k _, EqualFold k consts.CachingModeField)
                             (map_order attributes) with
                     | Some (_, v) => v | None => "" end in
  NormalizeCachingMode cachingMode.

  (** [azureutils/azure_disk_utils.go GetAttachDiskInitialDelay] A matching key
      whose value is no number is passed over. *)
Definition GetAttachDiskInitialDelay attributes : Z :=
  match find_entry (λ k v, String.eqb (ToLower k) consts.AttachDiskInitialDelayField
                           && match Atoi v with Some _ => true | None => false end)
          (map_order attributes) with
  | Some (_, v) => default (-1) (Atoi v)
  | None => -1
  end.

  (** [azureutils/azure_disk_utils.go GetFStype] *)
Definition GetFStype attributes : string :=
  match find_entry (λ k _, String.eqb (ToLower k) consts.FsTypeField) (map_order attributes) with
  | Some (_, v) => ToLower v
  | None => ""
  end.

  (** [azureutils/azure_disk_utils.go GetMaxShares] *)
Definition GetMaxShares attributes : res Z :=
  match find_entry (λ k _, String.eqb (ToLower k) consts.MaxSharesField) (map_order attributes) with
  | Some (_, v) =>
      match Atoi_res v with
      | Ok maxShares =>
          if (maxShares <? 1)%Z
          then Err (ENew ("parse " +:+ v +:+ " returned with invalid value: " +:+ Itoa maxShares))
          else Ok maxShares
      | Err e => Err (ENew ("parse " +:+ v +:+ " failed with error: " +:+ Error e))
      | Panic => Panic
      end
  | None => Ok 1
  end.

  (** [azureutils/azure_disk_utils.go ParseDiskParametersForKey] *)
Definition ParseDiskParametersForKey (parameters : gmap string string) (key : string)
    : string * bool :=
  match find_entry (λ k _, EqualFold k key) (map_order parameters) with
  | Some (_, v) => (v, true)
  | None => ("", false)
  end.

  (** [azureutils/azure_disk_utils.go SetKeyValueInMap] [None] is a nil map. *)
Definition SetKeyValueInMap (m : option (gmap string string)) (key value : string)
    : option (gmap string string) :=
  match m with
  | None => None
  | Some m =>
      match find_entry (λ k _, EqualFold k key) (map_order m) with
      | Some (k, _) => Some (<[k := value]> m)
      | None => Some (<[key := value]> m)
      end
  end.
End attributes.

(** ** Names, URIs and LUNs *)
(** [azureutils/azure_disk_utils.go GetDiskLUN] The value -1 that comes with an
    error is not used by the callers. *)
Definition GetDiskLUN (deviceInfo : string) : res Z :=
  let? diskLUN := if strlen deviceInfo <=? 2 then Ok deviceInfo
                  else match find_submatch false lunPathRE deviceInfo with
                       | Some m => Ok m
                       | None => Err (ENew ("cannot parse deviceInfo: " +:+ deviceInfo))
                       end in
  ParseInt_res diskLUN 32.

Definition name_char (c : ascii) : bool :=
  is_letter c || is_digit c || Ascii.eqb c "_" || Ascii.eqb c "." || Ascii.eqb c "-".
(** The loop of [checkDiskName]; [first] tells the first byte. *)
Fixpoint check_name (first : bool) (s : string) : bool :=
  match s with
  | EmptyString => true
  | String c s' =>
      name_char c
      && (negb first || is_letter c || is_digit c)
      && (match s' with EmptyString => is_letter c || is_digit c || Ascii.eqb c "_"
          | _ => true end)
      && check_name false s'
  end.
(** [azureutils/azure_disk_utils.go checkDiskName] *)
Definition checkDiskName (diskName : string) : bool := check_name true diskName.
(** [azureutils/azure_disk_utils.go GenerateVolumeName] The slice
    [prefix[:maxLength-pvLen-1]] panics when its bound is negative; the only
    caller passes a 36-byte UUID and the maximum 76. *)
Definition GenerateVolumeName (clusterName pvName : string) (maxLength : nat) : res string :=
  let prefix := clusterName +:+ "-dynamic" in
  let pvLen := String.length pvName in
  if (maxLength <? pvLen + 1 + String.length prefix)%nat then
    if (pvLen + 1 <=? maxLength)%nat
    then Ok (str_take (maxLength - pvLen - 1) prefix +:+ "-" +:+ pvName)
    else Panic
  else Ok (prefix +:+ "-" +:+ pvName).
(** [azureutils/azure_disk_utils.go CreateValidDiskName] *)
Definition CreateValidDiskName (uuid volumeName : string) : res string :=
  let diskName := if (diskNameMaxLength <? String.length volumeName)%nat
                  then str_take diskNameMaxLength volumeName else volumeName in
  if negb (checkDiskName diskName) || (String.length diskName <? diskNameMinLength)%nat
  then GenerateVolumeName "pvc-disk" uuid diskNameGenerateMaxLength
  else Ok diskName.

(** [azureutils/azure_disk_utils.go GetInfoFromURI] *)
Definition GetInfoFromURI (diskURI : string) : res (string * string * string) :=
  match Split diskURI "/" with
  | [_; _; sub; _; rg; _; _; _; name] => Ok (sub, rg, name)
  | _ => Err (ENew ("invalid URI: " +:+ diskURI))
  end.
(** [azureutils/azure_disk_utils.go IsARMResourceID] *)
Definition IsARMResourceID (resourceID : string) : bool :=
  Contains (ToLower resourceID) "/subscriptions/".

(** [azureutils/azure_disk_utils.go GetValidCreationData] *)
Definition GetValidCreationData (subscriptionID resourceGroup sourceResourceID sourceType : string)
  : res CreationData :=
  let empty := MkCreationData (Some armcompute.DiskCreateOptionEmpty) None None None None in
  if String.eqb sourceResourceID "" then Ok empty
  else
    let finish id re :=
      if (9 <? length (Split id "/"))%nat
      then Err (ENew ("sourceResourceID(" +:+ id +:+ ") is invalid, correct format: " +:+ re))
      else Ok (MkCreationData (Some armcompute.DiskCreateOptionCopy) (Some id) None None None) in
    if String.eqb sourceType consts.SourceSnapshot then
      let id := match find_submatch true consts.DiskSnapshotPathRE sourceResourceID with
                | None => diskSnapshotPath subscriptionID resourceGroup sourceResourceID
                | Some _ => sourceResourceID end in
      finish id "(?i).*/subscriptions/(?:.*)/resourceGroups/(?:.*)/providers/Microsoft.Compute/snapshots/(.+)"
    else if String.eqb sourceType consts.SourceVolume then
      let id := match find_submatch true consts.ManagedDiskPathRE sourceResourceID with
                | None => consts.ManagedDiskPath subscriptionID resourceGroup sourceResourceID
                | Some _ => sourceResourceID end in
      finish id "(?i).*/subscriptions/(?:.*)/resourceGroups/(?:.*)/providers/Microsoft.Compute/disks/(.+)"
    else Ok empty.

(** ** Zones *)
(** [azureutils/azure_disk_utils.go IsValidAvailabilityZone] *)
Definition IsValidAvailabilityZone (zone region : string) : bool :=
  if String.eqb region "" then
    let index := Index zone "-" in (0 <? index) && (index <? strlen zone - 1)
  else HasPrefix zone (region +:+ "-").
(** [azureutils/azure_disk_utils.go GetRegionFromAvailabilityZone] *)
Definition GetRegionFromAvailabilityZone (zone : string) : string :=
  match Split zone "-" with [a; _] => a | _ => "" end.
(** The two look-ups made in each topology. *)
Definition topology_zone (region topologyKey : string) (segments : gmap string string)
  : option string :=
  let valid z := if IsValidAvailabilityZone z region then Some z else None in
  match segments !! consts.WellKnownTopologyKey ≫= valid with
  | Some z => Some z
  | None => segments !! topologyKey ≫= valid
  end.
Fixpoint first_zone (region topologyKey : string) (l : list (gmap string string)) : option string :=
  match l with
  | [] => None
  | s :: l' => match topology_zone region topologyKey s with
               | Some z => Some z
               | None => first_zone region topologyKey l'
               end
  end.
(** [azureutils/azure_disk_utils.go PickAvailabilityZone] *)
Definition PickAvailabilityZone (requirement : option TopologyRequirement)
    (region topologyKey : string) : string :=
  match requirement with
  | None => ""
  | Some r => match first_zone region topologyKey (preferred r) with
              | Some z => z
              | None => default "" (first_zone region topologyKey (requisite r))
              end
  end.

(** ** Capabilities *)
(** [azureutils/azure_disk_utils.go IsValidAccessModes] [AccessMode.GetMode]
    accepts a nil access mode. *)
Definition IsValidAccessModes (volCaps : list VolumeCapability) : bool :=
  forallb (λ c, existsb (λ m, bool_decide (m = GetMode c)) volumeCaps) volCaps.
Definition multi_node (m : AccessMode) : bool :=
  match m with
  | MULTI_NODE_MULTI_WRITER | MULTI_NODE_READER_ONLY | MULTI_NODE_SINGLE_WRITER => true
  | _ => false
  end.
(** The checks made on one capability. *)
Definition valid_capability (maxShares : Z) (c : VolumeCapability) : res unit :=
  let blockVolume := GetBlock c in
  let mountVolume := GetMount c in
  let accessMode := GetMode c in
  match blockVolume, mountVolume with
  | None, None => Err (ENew "blockVolume and mountVolume are both nil")
  | Some _, Some _ => Err (ENew "blockVolume and mountVolume are both not nil")
  | _, _ =>
      if (match mountVolume with Some _ => true | None => false end) && multi_node accessMode
      then Err (ENew ("mountVolume is not supported for access mode: "
                      +:+ AccessMode_String accessMode))
      else if (maxShares <? 2) && multi_node accessMode
      then Err (ENew ("access mode: " +:+ AccessMode_String accessMode
                      +:+ " is not supported for non-shared disk"))
      else Ok ()
  end.
Fixpoint valid_capabilities (maxShares : Z) (l : list VolumeCapability) : res unit :=
  match l with
  | [] => Ok ()
  | c :: l' => let? _ := valid_capability maxShares c in valid_capabilities maxShares l'
  end.
(** [azureutils/azure_disk_utils.go IsValidVolumeCapabilities] *)
Definition IsValidVolumeCapabilities (volCaps : list VolumeCapability) (maxShares : Z) : res unit :=
  if IsValidAccessModes volCaps then valid_capabilities maxShares volCaps
  else Err (ENew "invalid access mode: []*csi.VolumeCapability").

(** ** Parameters of a storage class *)
(** [azureutils/azure_disk_utils.go replaceTemplateVariables] *)
Definition replaceTemplateVariables (str pvcName pvcNamespace pvName : string) : string :=
  let str := ReplaceAll str consts.PvcMetaDataName pvcName in
  let str := ReplaceAll str consts.PvcMetaDataNamespace pvcNamespace in
  ReplaceAll str consts.PvMetaDataName pvName.

(** [azureutils/azure_disk_utils.go ManagedDiskParameters] *)
Record ManagedDiskParameters := MkManagedDiskParameters {
  AccountType : string;
  CachingMode : string;
  DeviceSettings : gmap string string;
  DiskAccessID : string;
  DiskEncryptionSetID : string;
  DiskEncryptionType : string;
  DiskIOPSReadWrite : string;
  DiskMBPSReadWrite : string;
  DiskName : string;
  EnableBursting : option bool;
  PerformancePlus : option bool;
  FsType : string;
  Location : string;
  LogicalSectorSize : Z;
  MaxShares : Z;
  NetworkAccessPolicy : string;
  PublicNetworkAccess : string;
  PerfProfile : string;
  SubscriptionID : string;
  ResourceGroup : string;
  Tags : gmap string string;
  UserAgent : string;
  VolumeContext : gmap string string;
  pd_WriteAcceleratorEnabled : string;
  Zoned : string;
}.

Definition set_AccountType (v : string) (r : ManagedDiskParameters) : ManagedDiskParameters :=
  MkManagedDiskParameters v (CachingMode r) (DeviceSettings r) (DiskAccessID r) (DiskEncryptionSetID
    r) (DiskEncryptionType r) (DiskIOPSReadWrite r) (DiskMBPSReadWrite r) (DiskName r)
    (EnableBursting r) (PerformancePlus r) (FsType r) (Location r) (LogicalSectorSize r) (MaxShares
    r) (NetworkAccessPolicy r) (PublicNetworkAccess r) (PerfProfile r) (SubscriptionID r)
    (ResourceGroup r) (Tags r) (UserAgent r) (VolumeContext r) (pd_WriteAcceleratorEnabled r) (Zoned
    r).
Definition set_CachingMode (v : string) (r : ManagedDiskParameters) : ManagedDiskParameters :=
  MkManagedDiskParameters (AccountType r) v (DeviceSettings r) (DiskAccessID r) (DiskEncryptionSetID
    r) (DiskEncryptionType r) (DiskIOPSReadWrite r) (DiskMBPSReadWrite r) (DiskName r)
    (EnableBursting r) (PerformancePlus r) (FsType r) (Location r) (LogicalSectorSize r) (MaxShares
    r) (NetworkAccessPolicy r) (PublicNetworkAccess r) (PerfProfile r) (SubscriptionID r)
    (ResourceGroup r) (Tags r) (UserAgent r) (VolumeContext r) (pd_WriteAcceleratorEnabled r) (Zoned
    r).
Definition set_DeviceSettings (v : gmap string string) (r : ManagedDiskParameters) :
    ManagedDiskParameters :=
  MkManagedDiskParameters (AccountType r) (CachingMode r) v (DiskAccessID r) (DiskEncryptionSetID r)
    (DiskEncryptionType r) (DiskIOPSReadWrite r) (DiskMBPSReadWrite r) (DiskName r) (EnableBursting
    r) (PerformancePlus r) (FsType r) (Location r) (LogicalSectorSize r) (MaxShares r)
    (NetworkAccessPolicy r) (PublicNetworkAccess r) (PerfProfile r) (SubscriptionID r)
    (ResourceGroup r) (Tags r) (UserAgent r) (VolumeContext r) (pd_WriteAcceleratorEnabled r) (Zoned
    r).
Definition set_DiskAccessID (v : string) (r : ManagedDiskParameters) : ManagedDiskParameters :=
  MkManagedDiskParameters (AccountType r) (CachingMode r) (DeviceSettings r) v (DiskEncryptionSetID
    r) (DiskEncryptionType r) (DiskIOPSReadWrite r) (DiskMBPSReadWrite r) (DiskName r)
    (EnableBursting r) (PerformancePlus r) (FsType r) (Location r) (LogicalSectorSize r) (MaxShares
    r) (NetworkAccessPolicy r) (PublicNetworkAccess r) (PerfProfile r) (SubscriptionID r)
    (ResourceGroup r) (Tags r) (UserAgent r) (VolumeContext r) (pd_WriteAcceleratorEnabled r) (Zoned
    r).
Definition set_DiskEncryptionSetID (v : string) (r : ManagedDiskParameters) : ManagedDiskParameters
    :=
  MkManagedDiskParameters (AccountType r) (CachingMode r) (DeviceSettings r) (DiskAccessID r) v
    (DiskEncryptionType r) (DiskIOPSReadWrite r) (DiskMBPSReadWrite r) (DiskName r) (EnableBursting
    r) (PerformancePlus r) (FsType r) (Location r) (LogicalSectorSize r) (MaxShares r)
    (NetworkAccessPolicy r) (PublicNetworkAccess r) (PerfProfile r) (SubscriptionID r)
    (ResourceGroup r) (Tags r) (UserAgent r) (VolumeContext r) (pd_WriteAcceleratorEnabled r) (Zoned
    r).
Definition set_DiskEncryptionType (v : string) (r : ManagedDiskParameters) : ManagedDiskParameters
    :=
  MkManagedDiskParameters (AccountType r) (CachingMode r) (DeviceSettings r) (DiskAccessID r)
    (DiskEncryptionSetID r) v (DiskIOPSReadWrite r) (DiskMBPSReadWrite r) (DiskName r)
    (EnableBursting r) (PerformancePlus r) (FsType r) (Location r) (LogicalSectorSize r) (MaxShares
    r) (NetworkAccessPolicy r) (PublicNetworkAccess r) (PerfProfile r) (SubscriptionID r)
    (ResourceGroup r) (Tags r) (UserAgent r) (VolumeContext r) (pd_WriteAcceleratorEnabled r) (Zoned
    r).
Definition set_DiskIOPSReadWrite (v : string) (r : ManagedDiskParameters) : ManagedDiskParameters :=
  MkManagedDiskParameters (AccountType r) (CachingMode r) (DeviceSettings r) (DiskAccessID r)
    (DiskEncryptionSetID r) (DiskEncryptionType r) v (DiskMBPSReadWrite r) (DiskName r)
    (EnableBursting r) (PerformancePlus r) (FsType r) (Location r) (LogicalSectorSize r) (MaxShares
    r) (NetworkAccessPolicy r) (PublicNetworkAccess r) (PerfProfile r) (SubscriptionID r)
    (ResourceGroup r) (Tags r) (UserAgent r) (VolumeContext r) (pd_WriteAcceleratorEnabled r) (Zoned
    r).
Definition set_DiskMBPSReadWrite (v : string) (r : ManagedDiskParameters) : ManagedDiskParameters :=
  MkManagedDiskParameters (AccountType r) (CachingMode r) (DeviceSettings r) (DiskAccessID r)
    (DiskEncryptionSetID r) (DiskEncryptionType r) (DiskIOPSReadWrite r) v (DiskName r)
    (EnableBursting r) (PerformancePlus r) (FsType r) (Location r) (LogicalSectorSize r) (MaxShares
    r) (NetworkAccessPolicy r) (PublicNetworkAccess r) (PerfProfile r) (SubscriptionID r)
    (ResourceGroup r) (Tags r) (UserAgent r) (VolumeContext r) (pd_WriteAcceleratorEnabled r) (Zoned
    r).
Definition set_DiskName (v : string) (r : ManagedDiskParameters) : ManagedDiskParameters :=
  MkManagedDiskParameters (AccountType r) (CachingMode r) (DeviceSettings r) (DiskAccessID r)
    (DiskEncryptionSetID r) (DiskEncryptionType r) (DiskIOPSReadWrite r) (DiskMBPSReadWrite r) v
    (EnableBursting r) (PerformancePlus r) (FsType r) (Location r) (LogicalSectorSize r) (MaxShares
    r) (NetworkAccessPolicy r) (PublicNetworkAccess r) (PerfProfile r) (SubscriptionID r)
    (ResourceGroup r) (Tags r) (UserAgent r) (VolumeContext r) (pd_WriteAcceleratorEnabled r) (Zoned
    r).
Definition set_EnableBursting (v : option bool) (r : ManagedDiskParameters) : ManagedDiskParameters
    :=
  MkManagedDiskParameters (AccountType r) (CachingMode r) (DeviceSettings r) (DiskAccessID r)
    (DiskEncryptionSetID r) (DiskEncryptionType r) (DiskIOPSReadWrite r) (DiskMBPSReadWrite r)
    (DiskName r) v (PerformancePlus r) (FsType r) (Location r) (LogicalSectorSize r) (MaxShares r)
    (NetworkAccessPolicy r) (PublicNetworkAccess r) (PerfProfile r) (SubscriptionID r)
    (ResourceGroup r) (Tags r) (UserAgent r) (VolumeContext r) (pd_WriteAcceleratorEnabled r) (Zoned
    r).
Definition set_PerformancePlus (v : option bool) (r : ManagedDiskParameters) : ManagedDiskParameters
    :=
  MkManagedDiskParameters (AccountType r) (CachingMode r) (DeviceSettings r) (DiskAccessID r)
    (DiskEncryptionSetID r) (DiskEncryptionType r) (DiskIOPSReadWrite r) (DiskMBPSReadWrite r)
    (DiskName r) (EnableBursting r) v (FsType r) (Location r) (LogicalSectorSize r) (MaxShares r)
    (NetworkAccessPolicy r) (PublicNetworkAccess r) (PerfProfile r) (SubscriptionID r)
    (ResourceGroup r) (Tags r) (UserAgent r) (VolumeContext r) (pd_WriteAcceleratorEnabled r) (Zoned
    r).
Definition set_FsType (v : string) (r : ManagedDiskParameters) : ManagedDiskParameters :=
  MkManagedDiskParameters (AccountType r) (CachingMode r) (DeviceSettings r) (DiskAccessID r)
    (DiskEncryptionSetID r) (DiskEncryptionType r) (DiskIOPSReadWrite r) (DiskMBPSReadWrite r)
    (DiskName r) (EnableBursting r) (PerformancePlus r) v (Location r) (LogicalSectorSize r)
    (MaxShares r) (NetworkAccessPolicy r) (PublicNetworkAccess r) (PerfProfile r) (SubscriptionID r)
    (ResourceGroup r) (Tags r) (UserAgent r) (VolumeContext r) (pd_WriteAcceleratorEnabled r) (Zoned
    r).
Definition set_Location (v : string) (r : ManagedDiskParameters) : ManagedDiskParameters :=
  MkManagedDiskParameters (AccountType r) (CachingMode r) (DeviceSettings r) (DiskAccessID r)
    (DiskEncryptionSetID r) (DiskEncryptionType r) (DiskIOPSReadWrite r) (DiskMBPSReadWrite r)
    (DiskName r) (EnableBursting r) (PerformancePlus r) (FsType r) v (LogicalSectorSize r)
    (MaxShares r) (NetworkAccessPolicy r) (PublicNetworkAccess r) (PerfProfile r) (SubscriptionID r)
    (ResourceGroup r) (Tags r) (UserAgent r) (VolumeContext r) (pd_WriteAcceleratorEnabled r) (Zoned
    r).
Definition set_LogicalSectorSize (v : Z) (r : ManagedDiskParameters) : ManagedDiskParameters :=
  MkManagedDiskParameters (AccountType r) (CachingMode r) (DeviceSettings r) (DiskAccessID r)
    (DiskEncryptionSetID r) (DiskEncryptionType r) (DiskIOPSReadWrite r) (DiskMBPSReadWrite r)
    (DiskName r) (EnableBursting r) (PerformancePlus r) (FsType r) (Location r) v (MaxShares r)
    (NetworkAccessPolicy r) (PublicNetworkAccess r) (PerfProfile r) (SubscriptionID r)
    (ResourceGroup r) (Tags r) (UserAgent r) (VolumeContext r) (pd_WriteAcceleratorEnabled r) (Zoned
    r).
Definition set_MaxShares (v : Z) (r : ManagedDiskParameters) : ManagedDiskParameters :=
  MkManagedDiskParameters (AccountType r) (CachingMode r) (DeviceSettings r) (DiskAccessID r)
    (DiskEncryptionSetID r) (DiskEncryptionType r) (DiskIOPSReadWrite r) (DiskMBPSReadWrite r)
    (DiskName r) (EnableBursting r) (PerformancePlus r) (FsType r) (Location r) (LogicalSectorSize
    r) v (NetworkAccessPolicy r) (PublicNetworkAccess r) (PerfProfile r) (SubscriptionID r)
    (ResourceGroup r) (Tags r) (UserAgent r) (VolumeContext r) (pd_WriteAcceleratorEnabled r) (Zoned
    r).
Definition set_NetworkAccessPolicy (v : string) (r : ManagedDiskParameters) : ManagedDiskParameters
    :=
  MkManagedDiskParameters (AccountType r) (CachingMode r) (DeviceSettings r) (DiskAccessID r)
    (DiskEncryptionSetID r) (DiskEncryptionType r) (DiskIOPSReadWrite r) (DiskMBPSReadWrite r)
    (DiskName r) (EnableBursting r) (PerformancePlus r) (FsType r) (Location r) (LogicalSectorSize
    r) (MaxShares r) v (PublicNetworkAccess r) (PerfProfile r) (SubscriptionID r) (ResourceGroup r)
    (Tags r) (UserAgent r) (VolumeContext r) (pd_WriteAcceleratorEnabled r) (Zoned r).
Definition set_PublicNetworkAccess (v : string) (r : ManagedDiskParameters) : ManagedDiskParameters
    :=
  MkManagedDiskParameters (AccountType r) (CachingMode r) (DeviceSettings r) (DiskAccessID r)
    (DiskEncryptionSetID r) (DiskEncryptionType r) (DiskIOPSReadWrite r) (DiskMBPSReadWrite r)
    (DiskName r) (EnableBursting r) (PerformancePlus r) (FsType r) (Location r) (LogicalSectorSize
    r) (MaxShares r) (NetworkAccessPolicy r) v (PerfProfile r) (SubscriptionID r) (ResourceGroup r)
    (Tags r) (UserAgent r) (VolumeContext r) (pd_WriteAcceleratorEnabled r) (Zoned r).
Definition set_PerfProfile (v : string) (r : ManagedDiskParameters) : ManagedDiskParameters :=
  MkManagedDiskParameters (AccountType r) (CachingMode r) (DeviceSettings r) (DiskAccessID r)
    (DiskEncryptionSetID r) (DiskEncryptionType r) (DiskIOPSReadWrite r) (DiskMBPSReadWrite r)
    (DiskName r) (EnableBursting r) (PerformancePlus r) (FsType r) (Location r) (LogicalSectorSize
    r) (MaxShares r) (NetworkAccessPolicy r) (PublicNetworkAccess r) v (SubscriptionID r)
    (ResourceGroup r) (Tags r) (UserAgent r) (VolumeContext r) (pd_WriteAcceleratorEnabled r) (Zoned
    r).
Definition set_SubscriptionID (v : string) (r : ManagedDiskParameters) : ManagedDiskParameters :=
  MkManagedDiskParameters (AccountType r) (CachingMode r) (DeviceSettings r) (DiskAccessID r)
    (DiskEncryptionSetID r) (DiskEncryptionType r) (DiskIOPSReadWrite r) (DiskMBPSReadWrite r)
    (DiskName r) (EnableBursting r) (PerformancePlus r) (FsType r) (Location r) (LogicalSectorSize
    r) (MaxShares r) (NetworkAccessPolicy r) (PublicNetworkAccess r) (PerfProfile r) v
    (ResourceGroup r) (Tags r) (UserAgent r) (VolumeContext r) (pd_WriteAcceleratorEnabled r) (Zoned
    r).
Definition set_ResourceGroup (v : string) (r : ManagedDiskParameters) : ManagedDiskParameters :=
  MkManagedDiskParameters (AccountType r) (CachingMode r) (DeviceSettings r) (DiskAccessID r)
    (DiskEncryptionSetID r) (DiskEncryptionType r) (DiskIOPSReadWrite r) (DiskMBPSReadWrite r)
    (DiskName r) (EnableBursting r) (PerformancePlus r) (FsType r) (Location r) (LogicalSectorSize
    r) (MaxShares r) (NetworkAccessPolicy r) (PublicNetworkAccess r) (PerfProfile r) (SubscriptionID
    r) v (Tags r) (UserAgent r) (VolumeContext r) (pd_WriteAcceleratorEnabled r) (Zoned r).
Definition set_Tags (v : gmap string string) (r : ManagedDiskParameters) : ManagedDiskParameters :=
  MkManagedDiskParameters (AccountType r) (CachingMode r) (DeviceSettings r) (DiskAccessID r)
    (DiskEncryptionSetID r) (DiskEncryptionType r) (DiskIOPSReadWrite r) (DiskMBPSReadWrite r)
    (DiskName r) (EnableBursting r) (PerformancePlus r) (FsType r) (Location r) (LogicalSectorSize
    r) (MaxShares r) (NetworkAccessPolicy r) (PublicNetworkAccess r) (PerfProfile r) (SubscriptionID
    r) (ResourceGroup r) v (UserAgent r) (VolumeContext r) (pd_WriteAcceleratorEnabled r) (Zoned r).
Definition set_UserAgent (v : string) (r : ManagedDiskParameters) : ManagedDiskParameters :=
  MkManagedDiskParameters (AccountType r) (CachingMode r) (DeviceSettings r) (DiskAccessID r)
    (DiskEncryptionSetID r) (DiskEncryptionType r) (DiskIOPSReadWrite r) (DiskMBPSReadWrite r)
    (DiskName r) (EnableBursting r) (PerformancePlus r) (FsType r) (Location r) (LogicalSectorSize
    r) (MaxShares r) (NetworkAccessPolicy r) (PublicNetworkAccess r) (PerfProfile r) (SubscriptionID
    r) (ResourceGroup r) (Tags r) v (VolumeContext r) (pd_WriteAcceleratorEnabled r) (Zoned r).
Definition set_VolumeContext (v : gmap string string) (r : ManagedDiskParameters) :
    ManagedDiskParameters :=
  MkManagedDiskParameters (AccountType r) (CachingMode r) (DeviceSettings r) (DiskAccessID r)
    (DiskEncryptionSetID r) (DiskEncryptionType r) (DiskIOPSReadWrite r) (DiskMBPSReadWrite r)
    (DiskName r) (EnableBursting r) (PerformancePlus r) (FsType r) (Location r) (LogicalSectorSize
    r) (MaxShares r) (NetworkAccessPolicy r) (PublicNetworkAccess r) (PerfProfile r) (SubscriptionID
    r) (ResourceGroup r) (Tags r) (UserAgent r) v (pd_WriteAcceleratorEnabled r) (Zoned r).
Definition set_pd_WriteAcceleratorEnabled (v : string) (r : ManagedDiskParameters) :
    ManagedDiskParameters :=
  MkManagedDiskParameters (AccountType r) (CachingMode r) (DeviceSettings r) (DiskAccessID r)
    (DiskEncryptionSetID r) (DiskEncryptionType r) (DiskIOPSReadWrite r) (DiskMBPSReadWrite r)
    (DiskName r) (EnableBursting r) (PerformancePlus r) (FsType r) (Location r) (LogicalSectorSize
    r) (MaxShares r) (NetworkAccessPolicy r) (PublicNetworkAccess r) (PerfProfile r) (SubscriptionID
    r) (ResourceGroup r) (Tags r) (UserAgent r) (VolumeContext r) v (Zoned r).
Definition set_Zoned (v : string) (r : ManagedDiskParameters) : ManagedDiskParameters :=
  MkManagedDiskParameters (AccountType r) (CachingMode r) (DeviceSettings r) (DiskAccessID r)
    (DiskEncryptionSetID r) (DiskEncryptionType r) (DiskIOPSReadWrite r) (DiskMBPSReadWrite r)
    (DiskName r) (EnableBursting r) (PerformancePlus r) (FsType r) (Location r) (LogicalSectorSize
    r) (MaxShares r) (NetworkAccessPolicy r) (PublicNetworkAccess r) (PerfProfile r) (SubscriptionID
    r) (ResourceGroup r) (Tags r) (UserAgent r) (VolumeContext r) (pd_WriteAcceleratorEnabled r) v.

(** The local variables of the loop over the parameters. *)
Record ParseState := MkParseState {
  diskParams : ManagedDiskParameters;
  originTags : string;
  tagValueDelimiter : string;
  pvcName : string;
  pvcNamespace : string;
  pvName : string;
}.
Definition set_diskParams (f : ManagedDiskParameters → ManagedDiskParameters) (s : ParseState)
  : ParseState :=
  MkParseState (f (diskParams s)) (originTags s) (tagValueDelimiter s) (pvcName s)
               (pvcNamespace s) (pvName s).
Definition insert_tag (k v : string) (p : ManagedDiskParameters) : ManagedDiskParameters :=
  set_Tags (<[k := v]> (Tags p)) p.

Definition parse_failed (what : string) (e : gerr) : gerr :=
  ENew ("parse " +:+ what +:+ " failed with error: " +:+ Error e).
(** A parameter that must be an integer, given to [k]. *)
Definition int_param (what v : string) (k : Z → res ParseState) : res ParseState :=
  match Atoi_res v with
  | Ok z => k z
  | Err e => Err (parse_failed what e)
  | Panic => Panic
  end.

(** [azureutils/azure_disk_utils.go ParseDiskParameters 617-720] The body of
    the loop: the [switch] on the lower-cased key. *)
Definition parse_param (s : ParseState) (k v : string) : res ParseState :=
  let key := ToLower k in
  let upd f := Ok (set_diskParams f s) in
  let '(MkParseState p tags delim pvc ns pv) := s in
  if String.eqb key consts.SkuNameField then upd (set_AccountType v)
  else if String.eqb key consts.LocationField then upd (set_Location v)
  else if String.eqb key consts.StorageAccountTypeField then upd (set_AccountType v)
  else if String.eqb key consts.CachingModeField then upd (set_CachingMode v)
  else if String.eqb key consts.SubscriptionIDField then upd (set_SubscriptionID v)
  else if String.eqb key consts.ResourceGroupField then upd (set_ResourceGroup v)
  else if String.eqb key consts.DiskIOPSReadWriteField then
    int_param (consts.DiskIOPSReadWriteField +:+ ":" +:+ v) v (λ _, upd (set_DiskIOPSReadWrite v))
  else if String.eqb key consts.DiskMBPSReadWriteField then
    int_param (consts.DiskMBPSReadWriteField +:+ ":" +:+ v) v (λ _, upd (set_DiskMBPSReadWrite v))
  else if String.eqb key consts.LogicalSectorSizeField then
    int_param v v (λ z, upd (set_LogicalSectorSize z))
  else if String.eqb key consts.DiskNameField then upd (set_DiskName v)
  else if String.eqb key consts.DesIDField then upd (set_DiskEncryptionSetID v)
  else if String.eqb key consts.DiskEncryptionTypeField then upd (set_DiskEncryptionType v)
  else if String.eqb key consts.TagsField then Ok (MkParseState p v delim pvc ns pv)
  else if String.eqb key consts.WriteAcceleratorEnabled then upd (set_pd_WriteAcceleratorEnabled v)
  else if String.eqb key consts.MaxSharesField then
    int_param v v (λ z,
      if z <? 1 then Err (ENew ("parse " +:+ v +:+ " returned with invalid value: " +:+ Itoa z))
      else upd (set_MaxShares z))
  else if String.eqb key consts.PvcNameKey then
    Ok (MkParseState (insert_tag consts.PvcNameTag v p) tags delim v ns pv)
  else if String.eqb key consts.PvcNamespaceKey then
    Ok (MkParseState (insert_tag consts.PvcNamespaceTag v p) tags delim pvc v pv)
  else if String.eqb key consts.PvNameKey then
    Ok (MkParseState (insert_tag consts.PvNameTag v p) tags delim pvc ns v)
  else if String.eqb key consts.FsTypeField then upd (set_FsType (ToLower v))
  else if String.eqb key consts.KindField then
    upd (λ p, set_VolumeContext (<[consts.KindField := "Managed"]> (VolumeContext p)) p)
  else if String.eqb key consts.PerfProfileField then
    if IsValidPerfProfile v then upd (set_PerfProfile v)
    else Err (ENew ("perf profile " +:+ v
                    +:+ " is not supported, supported tuning modes are none and basic"))
  else if String.eqb key consts.NetworkAccessPolicyField then upd (set_NetworkAccessPolicy v)
  else if String.eqb key consts.PublicNetworkAccessField then upd (set_PublicNetworkAccess v)
  else if String.eqb key consts.DiskAccessIDField then upd (set_DiskAccessID v)
  else if String.eqb key consts.EnableBurstingField then
    if EqualFold v consts.TrueValue then upd (set_EnableBursting (Some true)) else Ok s
  else if String.eqb key consts.UserAgentField then upd (set_UserAgent v)
  else if String.eqb key consts.EnableAsyncAttachField then Ok s
  else if String.eqb key consts.ZonedField then Ok s
  else if String.eqb key consts.PerformancePlusField then
    match ParseBool v with
    | Some b => upd (set_PerformancePlus (Some b))
    | None => Err (ENew ("invalid " +:+ consts.PerformancePlusField +:+ ": " +:+ v
                         +:+ " in storage class"))
    end
  else if String.eqb key consts.AttachDiskInitialDelayField then int_param v v (λ _, Ok s)
  else if String.eqb key consts.TagValueDelimiterField then Ok (MkParseState p tags v pvc ns pv)
  else if String.eqb key consts.AttachModeField then Ok s
  else match GetDeviceSettingFromAttribute k with
       | Ok setting =>
           upd (λ p, set_DeviceSettings
             (<[filepath_Join [consts.DummyBlockDevicePathLinux; setting] := v]> (DeviceSettings p)) p)
       | _ => Err (ENew ("invalid parameter " +:+ k +:+ " in storage class"))
       end.
Fixpoint parse_params (s : ParseState) (l : list (string * string)) : res ParseState :=
  match l with
  | [] => Ok s
  | (k, v) :: l' => let? s' := parse_param s k v in parse_params s' l'
  end.

Definition empty_ManagedDiskParameters (volumeContext : gmap string string)
  : ManagedDiskParameters :=
  MkManagedDiskParameters "" "" ∅ "" "" "" "" "" "" None None "" "" 0 0 "" "" "" "" "" ∅ ""
    volumeContext "" "".

(** [azureutils/azure_disk_utils.go ParseDiskParameters] A nil map is the empty
    one.  The volume context is the map that is passed: the caller's parameters
    see the change made for [kind] (and if the loop visits the entry it adds,
    it writes the same value again). *)
Definition ParseDiskParameters `{MapOrder} (parameters : gmap string string)
  : res ManagedDiskParameters :=
  let? s := parse_params (MkParseState (empty_ManagedDiskParameters parameters) "" "" "" "" "")
              (map_order parameters) in
  let? customTagsMap := ConvertTagsToMap (originTags s) (tagValueDelimiter s) in
  let subst v := replaceTemplateVariables v (pvcName s) (pvcNamespace s) (pvName s) in
  let p := foldl (λ p kv, insert_tag kv.1 (if Contains kv.2 "$" then subst kv.2 else kv.2) p)
                 (diskParams s) (map_order customTagsMap) in
  if EqualFold (AccountType p) armcompute.DiskStorageAccountTypesPremiumV2LRS
     && negb (String.eqb (CachingMode p) "") && negb (EqualFold (CachingMode p) "None")
  then Err (ENew ("cachingMode " +:+ CachingMode p +:+ " is not supported for "
                  +:+ armcompute.DiskStorageAccountTypesPremiumV2LRS))
  else Ok (if Contains (DiskName p) "$" then set_DiskName (subst (DiskName p)) p else p).

(** ** Properties of a disk *)
(** One optional property, inserted under its key. *)
Definition insert_opt {A} (key : string) (f : A → string) (v : option A) (m : gmap string string)
  : gmap string string :=
  match v with Some a => <[key := f a]> m | None => m end.
(** [azureutils/azure_disk_utils.go InsertDiskProperties] [None] is a nil map;
    a SKU without a name is a nil dereference.  The IOPS, MBps and shares are
    converted to [int], which holds them. *)
Definition InsertDiskProperties (disk : option Disk) (publishContext : option (gmap string string))
  : res (option (gmap string string)) :=
  match disk, publishContext with
  | Some disk, Some m =>
      let? m := match disk_SKU disk with
                | Some name => let? n := deref name in Ok (<[consts.SkuNameField := n]> m)
                | None => Ok m
                end in
      Ok (Some (match disk_Properties disk with
                | None => m
                | Some prop =>
                    insert_opt consts.MaxSharesField Itoa (p_MaxShares prop)
                    (insert_opt consts.DesIDField id
                       (p_Encryption prop ≫= enc_DiskEncryptionSetID)
                    (insert_opt consts.LogicalSectorSizeField Itoa
                       (p_CreationData prop ≫= cd_LogicalSectorSize)
                    (insert_opt consts.DiskMBPSReadWriteField Itoa (p_DiskMBpsReadWrite prop)
                    (insert_opt consts.DiskIOPSReadWriteField Itoa (p_DiskIOPSReadWrite prop)
                    (insert_opt consts.NetworkAccessPolicyField id (p_NetworkAccessPolicy prop)
                       m)))))
                end))
  | _, _ => Ok publishContext
  end.

(** ** Throttling *)
(** [retryrepectthrottled.ErrTooManyRequest.Error()] *)
Definition ErrTooManyRequest : string := "throttled due to too many requests".
(** [azureutils/azure_disk_utils.go IsThrottlingError] *)
Definition IsThrottlingError (err : option gerr) : bool :=
  match err with
  | None => false
  | Some e =>
      let errMsg := ToLower (Error e) in
      Contains errMsg (ToLower consts.TooManyRequests) || Contains errMsg consts.ClientThrottled
      || Contains errMsg ErrTooManyRequest
  end.
(** The digits at the head of a text, and what follows. *)
Fixpoint take_digits (s : string) : string * string :=
  match s with
  | String c s' => if is_digit c then let '(d, r) := take_digits s' in (String c d, r)
                   else ("", s)
  | EmptyString => ("", "")
  end.
(** The leftmost match of [RetryAfter: (\d+)s]. *)
Definition retry_here (s : string) : option string :=
  if HasPrefix s "RetryAfter: " then
    let '(d, r) := take_digits (str_drop 12 s) in
    if negb (String.eqb d "") && HasPrefix r "s" then Some d else None
  else None.
Fixpoint find_retry_after (s : string) : option string :=
  match retry_here s with
  | Some d => Some d
  | None => match s with EmptyString => None | String _ s' => find_retry_after s' end
  end.
(** [azureutils/azure_disk_utils.go GetRetryAfterSeconds] *)
Definition GetRetryAfterSeconds (err : option gerr) : Z :=
  match err with
  | None => 0
  | Some e => match find_retry_after (Error e) with
              | Some d => default 0%Z (Atoi d)
              | None => 0
              end
  end.
(** [azureutils/azure_disk_utils.go getRetryAfterSeconds] *)
Definition getRetryAfterSeconds (err : option gerr) : Z :=
  Z.min (GetRetryAfterSeconds err) consts.MaxThrottlingSleepSec.
(** [azureutils/azure_disk_utils.go SleepIfThrottled] The seconds slept. *)
Definition SleepIfThrottled (err : option gerr) (defaultSleepSec : Z) : Z :=
  if IsThrottlingError err then
    let retryAfter := getRetryAfterSeconds err in
    if retryAfter =? 0 then defaultSleepSec else retryAfter
  else 0.

(** [azureutils/azure_disk_utils.go RemoveOptionIfExists] *)
Fixpoint RemoveOptionIfExists (options : list string) (removeOption : string)
  : list string * bool :=
  match options with
  | [] => ([], false)
  | o :: options' =>
      if String.eqb o removeOption then (options', true)
      else let '(r, found) := RemoveOptionIfExists options' removeOption in (o :: r, found)
  end.

(** ** Lemmas *)
Lemma one_of_Ok v values e r : one_of v values e = Ok r ↔ r = v ∧ v ∈ values.
Proof.
  unfold one_of. rewrite list_elem_of_In.
  destruct (existsb (String.eqb v) values) eqn:E.
  - apply existsb_exists in E as (x & Hx & ->%String.eqb_eq).
    split; [intros [= <-] | intros [-> _]]; done.
  - split; [done|]. intros [_ Hin].
    assert (existsb (String.eqb v) values = true); [|congruence].
    apply existsb_exists. exists v. by rewrite String.eqb_refl.
Qed.

Lemma one_of_not_panic v values e : one_of v values e ≠ Panic.
Proof. unfold one_of. by case_match. Qed.

(** *** Names *)
Lemma check_name_app a b :
  check_name true a = true → a ≠ "" →
  (∀ f, check_name f b = true) → b ≠ "" → check_name true (a +:+ b) = true.
Proof.
  intros Ha Hne Hb Hbne.
  assert (Hgen : ∀ a f, check_name f a = true → check_name f (a +:+ b) = true).
  { clear a Ha Hne. induction a as [|c a IH]; intros f Ha; [apply Hb|].
    rewrite str_cons_app. cbn [check_name] in *. bool_split. rewrite IH by done.
    repeat match goal with H : _ = true |- _ => rewrite H; clear H end.
    destruct a as [|d a]; [rewrite str_nil_app; by destruct b|by rewrite str_cons_app]. }
  by apply Hgen.
Qed.

(** A name that ARM accepts for a disk or a snapshot. *)
Definition valid_disk_name (n : string) : Prop :=
  (1 ≤ String.length n ≤ 80)%nat ∧ checkDiskName n = true.

Lemma check_name_false_of_true s : check_name true s = true → check_name false s = true.
Proof. destruct s as [|c s]; [done|]. cbn [check_name negb orb]. intros H. bool_split.
  repeat match goal with H : _ = true |- _ => rewrite H; clear H end. done. Qed.

Lemma generated_name_valid uuid :
  String.length uuid = 36%nat → checkDiskName uuid = true →
  ∃ n, GenerateVolumeName "pvc-disk" uuid diskNameGenerateMaxLength = Ok n ∧ valid_disk_name n.
Proof.
  intros Hlen Hu. unfold GenerateVolumeName. rewrite Hlen. eexists. split; [reflexivity|].
  split.
  - rewrite !length_str_app, Hlen. simpl. lia.
  - assert (Hne : uuid ≠ "") by (intros ->; done).
    unfold checkDiskName in *.
    replace (("pvc-disk" +:+ "-dynamic") +:+ "-" +:+ uuid)
      with ("pvc-disk-dynami" +:+ ("c-" +:+ uuid)) by reflexivity.
    assert (Htail : ∀ f, check_name f ("c-" +:+ uuid) = true).
    { intros f. change ("c-" +:+ uuid) with (String "c" (String "-" uuid)).
      cbn [check_name]. destruct uuid as [|u uuid]; [done|].
      rewrite (check_name_false_of_true _ Hu). by destruct f. }
    apply check_name_app; [reflexivity | done | exact Htail | done].
Qed.

(** *** Look-ups *)
Lemma topology_zone_valid region key s z :
  topology_zone region key s = Some z →
  IsValidAvailabilityZone z region = true ∧
  (s !! consts.WellKnownTopologyKey = Some z ∨ s !! key = Some z).
Proof.
  unfold topology_zone.
  assert (Hv : ∀ o, (o ≫= λ z, if IsValidAvailabilityZone z region then Some z else None) = Some z →
     IsValidAvailabilityZone z region = true ∧ o = Some z).
  { intros [y|]; simpl; [|done]. destruct (IsValidAvailabilityZone y region) eqn:E; [|done].
    by intros [= <-]. }
  case_match eqn:E.
  - intros [= ->]. apply Hv in E as [? ?]. eauto.
  - intros H. apply Hv in H as [? ?]. eauto.
Qed.

Lemma first_zone_Some region key l z :
  first_zone region key l = Some z → ∃ s, s ∈ l ∧ topology_zone region key s = Some z.
Proof.
  induction l as [|s l IH]; [done|]. simpl. case_match eqn:E.
  - intros [= ->]. exists s. split; [constructor | done].
  - intros H. apply IH in H as (s' & ? & ?). exists s'. split; [by constructor | done].
Qed.

Lemma first_zone_None region key l :
  first_zone region key l = None → ∀ s, s ∈ l → topology_zone region key s = None.
Proof.
  induction l as [|s l IH]; simpl; [intros _ s []%elem_of_nil|].
  case_match eqn:E; [done|]. intros H s' [->|Hin]%elem_of_cons; [done | by apply IH].
Qed.

(** ** Properties *)

(** The three parts of a disk URI are recovered from it: parsing undoes the
    formatting for every subscription, group and name without a slash. *)
Theorem GetInfoFromURI_roundtrip sub rg name :
  has_byte "/" sub = false → has_byte "/" rg = false → has_byte "/" name = false →
  GetInfoFromURI (consts.ManagedDiskPath sub rg name) = Ok (sub, rg, name).
Proof.
  intros Hs Hr Hn. unfold GetInfoFromURI.
  replace (consts.ManagedDiskPath sub rg name) with
    (Join [""; "subscriptions"; sub; "resourceGroups"; rg; "providers";
           "Microsoft.Compute"; "disks"; name] "/") by reflexivity.
  rewrite Split_Join; [done | done|]. repeat constructor; done.
Qed.

Lemma GetInfoFromURI_roundtrip_witness :
  GetInfoFromURI (consts.ManagedDiskPath "sub-1" "rg_2" "pvc-3") = Ok ("sub-1", "rg_2", "pvc-3").
Proof. apply GetInfoFromURI_roundtrip; reflexivity. Defined.

(** Every LUN of a VM is read back from the two forms the driver uses: the
    number put into the publish context and the udev path of the device. *)
Theorem GetDiskLUN_roundtrip n :
  0 ≤ n < 64 →
  GetDiskLUN (Itoa n) = Ok n ∧ GetDiskLUN ("/dev/disk/azure/scsi1/lun" +:+ Itoa n) = Ok n.
Proof.
  intros Hn.
  pose proof (seqZ_check (λ n, bool_decide (GetDiskLUN (Itoa n) = Ok n) &&
    bool_decide (GetDiskLUN ("/dev/disk/azure/scsi1/lun" +:+ Itoa n) = Ok n)) 64) as H.
  assert (Hall : forallb (λ n, bool_decide (GetDiskLUN (Itoa n) = Ok n) &&
    bool_decide (GetDiskLUN ("/dev/disk/azure/scsi1/lun" +:+ Itoa n) = Ok n)) (seqZ 0 64) = true)
    by (vm_compute; reflexivity).
  specialize (H Hall n Hn). cbv beta in H. bool_split.
  split; by eapply bool_decide_eq_true_1.
Qed.

Lemma GetDiskLUN_roundtrip_witness :
  GetDiskLUN (Itoa 10) = Ok 10 ∧ GetDiskLUN ("/dev/disk/azure/scsi1/lun" +:+ Itoa 10) = Ok 10.
Proof. apply (GetDiskLUN_roundtrip 10). lia. Defined.

(** The file system type that reaches [mkfs.<type>] and [mount -t <type>] is
    one of the types of the platform: no volume attribute selects another
    helper binary.  The text is trimmed and compared without case. *)
Theorem NormalizeFSType_allowlist goos fsType :
  match NormalizeFSType goos fsType with
  | Ok r => r = ToLower (TrimSpace fsType) ∧
      ((goos = "windows" ∧ r = "ntfs") ∨
       (goos ≠ "windows" ∧ r ∈ ["btrfs"; "ext2"; "ext3"; "ext4"; "xfs"]))
  | Err _ => ToLower (TrimSpace fsType) ∉ SupportedFSTypes goos
  | Panic => False
  end.
Proof.
  unfold NormalizeFSType, SupportedFSTypes.
  destruct (String.eqb_spec goos "windows"); case_bool_decide as H; split || done; eauto.
  apply list_elem_of_singleton in H. eauto.
Qed.

(** C40. A request's capabilities are accepted exactly when each one has a known
    access mode and one access type, a mounted volume is used on one node
    only, and a volume used from several nodes is a shared disk. *)
Theorem IsValidVolumeCapabilities_spec caps maxShares :
  IsValidVolumeCapabilities caps maxShares = Ok () ↔
  Forall (λ c, GetMode c ≠ UNKNOWN ∧ access_type c ≠ None ∧
    (multi_node (GetMode c) = true → GetMount c = None ∧ 2 ≤ maxShares)) caps.
Proof.
  assert (Hmodes : ∀ c, existsb (λ m, bool_decide (m = GetMode c)) volumeCaps = true
                        ↔ GetMode c ≠ UNKNOWN) by (intros c; by destruct (GetMode c)).
  assert (Hone : ∀ c, valid_capability maxShares c = Ok () ↔
    access_type c ≠ None ∧ (multi_node (GetMode c) = true → GetMount c = None ∧ 2 ≤ maxShares)).
  { intros c. unfold valid_capability, GetBlock, GetMount.
    destruct (access_type c) as [[|m]|]; simpl.
    - destruct (Z.ltb_spec maxShares 2), (multi_node (GetMode c)); simpl; split;
        naive_solver lia.
    - destruct (Z.ltb_spec maxShares 2), (multi_node (GetMode c)); simpl; split;
        naive_solver lia.
    - split; [done | by intros [? _]]. }
  assert (Hall : valid_capabilities maxShares caps = Ok () ↔
    Forall (λ c, valid_capability maxShares c = Ok ()) caps).
  { induction caps as [|c caps IH]; [by split; [constructor|]|].
    cbn [valid_capabilities]. rewrite Forall_cons, <-IH, res_bind_ok.
    split; [intros ([] & ? & ?) | intros [? ?]]; eauto. }
  unfold IsValidVolumeCapabilities, IsValidAccessModes.
  destruct (forallb _ caps) eqn:E.
  - rewrite forallb_forall in E. rewrite Hall, !Forall_forall.
    split; intros H c Hc; specialize (H c Hc); [|apply Hone; by destruct H].
    apply Hone in H. split; [|done]. apply Hmodes, E. by apply list_elem_of_In.
  - split; [done|]. intros H. exfalso. apply not_true_iff_false in E. apply E.
    rewrite forallb_forall. intros c Hc%list_elem_of_In.
    rewrite Forall_forall in H. apply Hmodes. by apply H.
Qed.

(** A created disk or snapshot always gets a name that ARM accepts, whatever
    name was requested, and a requested name that is acceptable is kept.  The
    UUID of a generated name is 36 acceptable characters. *)
Theorem CreateValidDiskName_valid uuid volumeName :
  String.length uuid = 36%nat → checkDiskName uuid = true →
  ∃ n, CreateValidDiskName uuid volumeName = Ok n ∧ valid_disk_name n ∧
       (valid_disk_name volumeName → n = volumeName).
Proof.
  intros Hlen Hu. unfold CreateValidDiskName, diskNameMaxLength, diskNameMinLength.
  set (d := if (80 <? String.length volumeName)%nat then _ else _).
  assert (Hd : (String.length d ≤ 80)%nat).
  { unfold d. case_match eqn:E; [apply length_str_take|]. apply Nat.ltb_ge in E. lia. }
  destruct (checkDiskName d) eqn:Ec; simpl.
  - destruct (String.length d <? 1)%nat eqn:El.
    + destruct (generated_name_valid uuid Hlen Hu) as (n & -> & Hn). exists n.
      split; [done|]. split; [done|]. intros [Hv _]. exfalso. apply Nat.ltb_lt in El.
      unfold d in El. case_match eqn:E; [apply Nat.ltb_lt in E|]; lia.
    + exists d. apply Nat.ltb_ge in El. split; [done|]. split; [split; [lia|done]|].
      intros [Hv _]. unfold d. case_match eqn:E; [apply Nat.ltb_lt in E; lia | done].
  - destruct (generated_name_valid uuid Hlen Hu) as (n & -> & Hn). exists n.
    split; [done|]. split; [done|]. intros [Hv Hc]. exfalso.
    unfold d in Ec. case_match eqn:E; [apply Nat.ltb_lt in E; lia | congruence].
Qed.

Lemma CreateValidDiskName_valid_witness :
  ∃ n, CreateValidDiskName "123e4567-e89b-12d3-a456-426614174000" "-bad name-" = Ok n ∧
       valid_disk_name n ∧ (valid_disk_name "-bad name-" → n = "-bad name-").
Proof. apply CreateValidDiskName_valid; reflexivity. Defined.

(** The zone picked for a volume is a valid zone of the region that one of the
    topologies of the request names, a preferred one whenever one of those
    has a valid zone; the empty answer means that no topology has one. *)
Theorem PickAvailabilityZone_spec req region key :
  let from l z := ∃ s, s ∈ l ∧ IsValidAvailabilityZone z region = true ∧
                       (s !! consts.WellKnownTopologyKey = Some z ∨ s !! key = Some z) in
  let none l := ∀ s, s ∈ l → topology_zone region key s = None in
  let z := PickAvailabilityZone (Some req) region key in
  from (preferred req) z ∨
  (none (preferred req) ∧ from (requisite req) z) ∨
  (none (preferred req) ∧ none (requisite req) ∧ z = "").
Proof.
  simpl. unfold PickAvailabilityZone.
  assert (Hsome : ∀ l z, first_zone region key l = Some z →
    ∃ s, s ∈ l ∧ IsValidAvailabilityZone z region = true ∧
         (s !! consts.WellKnownTopologyKey = Some z ∨ s !! key = Some z)).
  { intros l z H. apply first_zone_Some in H as (s & Hin & Ht%topology_zone_valid). eauto. }
  destruct (first_zone region key (preferred req)) as [z|] eqn:Ep; [left; by apply Hsome|].
  right. destruct (first_zone region key (requisite req)) as [z|] eqn:Er.
  - left. split; [by apply first_zone_None | by apply Hsome].
  - right. split_and!; [by apply first_zone_None..|done].
Qed.

(** *** Parameters of a storage class *)
Lemma int_param_Ok what v k s :
  int_param what v k = Ok s → ∃ z, Atoi v = Some z ∧ k z = Ok s.
Proof.
  unfold int_param, Atoi_res. destruct (Atoi v) as [z|]; [|done]. eauto.
Qed.

(** What the parsed parameters guarantee to the code that uses them. *)
Definition params_ok (p : ManagedDiskParameters) : Prop :=
  (MaxShares p = 0 ∨ 1 ≤ MaxShares p) ∧ in_int64 (MaxShares p) ∧
  (DiskIOPSReadWrite p = "" ∨ is_Some (Atoi (DiskIOPSReadWrite p))) ∧
  (DiskMBPSReadWrite p = "" ∨ is_Some (Atoi (DiskMBPSReadWrite p))) ∧
  (PerfProfile p = "" ∨ IsValidPerfProfile (PerfProfile p) = true) ∧
  FsType p = ToLower (FsType p) ∧
  (EnableBursting p = None ∨ EnableBursting p = Some true).

Lemma Atoi_range v z : Atoi v = Some z → in_int64 z.
Proof.
  unfold Atoi, ParseInt. destruct (parse_signed v); [|done].
  case_match eqn:E; [|done]. intros [= <-]. bool_split. unfold in_int64.
  change (64 - 1) with 63 in *. lia.
Qed.

Lemma parse_param_ok s k v s' :
  parse_param s k v = Ok s' → params_ok (diskParams s) → params_ok (diskParams s').
Proof.
  intros H Hok. destruct s as [p t d pvc ns pv]. unfold params_ok in *. simpl in Hok.
  destruct Hok as (Hms & Hmr & Hio & Hmb & Hpf & Hfs & Heb).
  unfold parse_param in H. cbv beta zeta iota in H.
  repeat match type of H with (if String.eqb ?a ?b then _ else _) = _ =>
    destruct (String.eqb a b) end;
  try (apply int_param_Ok in H as (z & Hz & H); pose proof (Atoi_range _ _ Hz));
  repeat case_match; simplify_eq/=; bool_split; split_and!; eauto;
  by rewrite ?ToLower_idemp.
Qed.

Lemma parse_params_inv (P : ParseState → Prop) l s s' :
  (∀ s k v s', parse_param s k v = Ok s' → P s → P s') →
  parse_params s l = Ok s' → P s → P s'.
Proof.
  intros Hstep. revert s; induction l as [|[k v] l IH]; intros s H HP; simpl in H.
  - by simplify_eq.
  - apply res_bind_ok in H as (s1 & H1 & H). eapply IH; eauto.
Qed.

Lemma parse_param_context s k v s' (m : gmap string string) :
  parse_param s k v = Ok s' →
  (VolumeContext (diskParams s) = m ∨ VolumeContext (diskParams s) = <[consts.KindField := "Managed"]> m) →
  VolumeContext (diskParams s') = m ∨ VolumeContext (diskParams s') = <[consts.KindField := "Managed"]> m.
Proof.
  intros H Hok. destruct s as [p t d pvc ns pv]. simpl in Hok.
  unfold parse_param in H. cbv beta zeta iota in H.
  repeat match type of H with (if String.eqb ?a ?b then _ else _) = _ =>
    destruct (String.eqb a b) end;
  try (apply int_param_Ok in H as (z & Hz & H));
  repeat case_match; simplify_eq/=; try done.
  right. destruct Hok as [-> | ->]; [done | apply insert_insert_eq].
Qed.

(** Inserting the custom tags changes nothing but the tags. *)
Lemma insert_tags_fields (f : string → string) l p :
  let p' := foldl (λ p kv, insert_tag kv.1 (f kv.2) p) p l in
  ∃ t, p' = set_Tags t p.
Proof.
  revert p; induction l as [|[k v] l IH]; intros p; simpl; [exists (Tags p); by destruct p|].
  destruct (IH (insert_tag k (f v) p)) as [t ->]. by exists t.
Qed.

(** Parsing a storage class either fails or gives parameters the driver can
    rely on: shares at least 1 when they are given, limits that are integers,
    a known performance profile, a lower-cased file system type, no caching
    with PremiumV2, and the volume context is the given map, with [kind]
    normalised.  The order in which the map is visited does not matter. *)
Theorem ParseDiskParameters_ok `{MapOrder} parameters p :
  ParseDiskParameters parameters = Ok p →
  params_ok p ∧
  (VolumeContext p = parameters ∨ VolumeContext p = <[consts.KindField := "Managed"]> parameters) ∧
  (EqualFold (AccountType p) armcompute.DiskStorageAccountTypesPremiumV2LRS = true →
   CachingMode p = "" ∨ EqualFold (CachingMode p) "None" = true).
Proof.
  intros Hp. unfold ParseDiskParameters in Hp.
  apply res_bind_ok in Hp as (s & Hs & Hp). apply res_bind_ok in Hp as (tags & _ & Hp).
  assert (Hok : params_ok (diskParams s)).
  { eapply (parse_params_inv (λ s, params_ok (diskParams s))); [|exact Hs|];
      [exact parse_param_ok|].
    unfold params_ok, in_int64. simpl. split_and!; auto; lia. }
  assert (Hctx := parse_params_inv (λ s, VolumeContext (diskParams s) = parameters ∨
    VolumeContext (diskParams s) = <[consts.KindField := "Managed"]> parameters)
    _ _ _ (λ s k v s' H, parse_param_context s k v s' parameters H) Hs (or_introl eq_refl)).
  simpl in Hctx. destruct s as [p0 ot dl pvc ns pv]. simpl in *.
  destruct (insert_tags_fields (λ v, if Contains v "$" then replaceTemplateVariables v pvc ns pv
    else v) (map_order tags) p0) as [t Ht]. cbv zeta in Ht. rewrite Ht in Hp. clear Ht.
  unfold params_ok in *.
  destruct p0; simpl in *. case_match eqn:Ec; [done|].
  assert (Hc : EqualFold AccountType0 armcompute.DiskStorageAccountTypesPremiumV2LRS = true →
    CachingMode0 = "" ∨ EqualFold CachingMode0 "None" = true).
  { intros Ha. rewrite Ha in Ec. simpl in Ec.
    destruct (String.eqb_spec CachingMode0 ""); [by left|]. right. simpl in Ec.
    by apply negb_false_iff in Ec. }
  case_match; simplify_eq/=; done.
Qed.

Lemma ParseDiskParameters_ok_witness :
  ∃ p, ParseDiskParameters {[ "skuName" := "PremiumV2_LRS"; "kind" := "x"; "maxShares" := "2" ]} = Ok p
  ∧ params_ok p.
Proof.
  eexists. split; [vm_compute; reflexivity|].
  apply (ParseDiskParameters_ok {[ "skuName" := "PremiumV2_LRS"; "kind" := "x"; "maxShares" := "2" ]}).
  vm_compute; reflexivity.
Defined.

(** *** Throttling *)
Lemma take_digits_digits s d r :
  take_digits s = (d, r) → ∀ c, has_byte c d = true → is_digit c = true.
Proof.
  revert d r; induction s as [|x s IH]; intros d r H c Hc; simpl in H; [by simplify_eq|].
  destruct (is_digit x) eqn:Ex; [|by simplify_eq].
  destruct (take_digits s) as [d' r'] eqn:E. simplify_eq. simpl in Hc.
  apply orb_true_iff in Hc as [->%Ascii.eqb_eq|Hc]; [done | by eapply IH].
Qed.

Lemma digit_val_nonneg base c z : digit_val base c = Some z → 0 ≤ base → 0 ≤ z.
Proof. unfold digit_val. intros H Hb. repeat case_match; simplify_eq; bool_split; lia. Qed.

Lemma parse_digits_nonneg base acc s z :
  0 ≤ base → 0 ≤ acc → parse_digits base acc s = Some z → 0 ≤ z.
Proof.
  intros Hb. revert acc; induction s as [|c s IH]; intros acc Ha H; simpl in H; [by simplify_eq|].
  destruct (digit_val base c) as [d|] eqn:E; [|done].
  apply digit_val_nonneg in E; [|done]. apply (IH (acc * base + d)); [nia | done].
Qed.

Lemma Atoi_digits_nonneg d z :
  (∀ c, has_byte c d = true → is_digit c = true) → Atoi d = Some z → 0 ≤ z.
Proof.
  intros Hd H. unfold Atoi, ParseInt in H.
  destruct (parse_signed d) as [v|] eqn:E; [|done]. case_match; [|done]. simplify_eq.
  unfold parse_signed in E. destruct d as [|c d]; [done|].
  assert (Hc : is_digit c = true) by (apply Hd; simpl; by rewrite Ascii.eqb_refl).
  assert (Hpu : parse_uint 10 (String c d) = Some z).
  { destruct c as [[] [] [] [] [] [] [] []]; try done. }
  cbn [parse_uint] in Hpu. eapply (parse_digits_nonneg 10 0); [lia|lia|exact Hpu].
Qed.

Lemma find_retry_after_digits s d :
  find_retry_after s = Some d → ∀ c, has_byte c d = true → is_digit c = true.
Proof.
  assert (Hhere : ∀ s, retry_here s = Some d →
    ∀ c, has_byte c d = true → is_digit c = true).
  { clear. intros s H. unfold retry_here in H. case_match; [|done].
    destruct (take_digits _) as [d' r] eqn:E.
    case_match; [|done]. simplify_eq. by eapply take_digits_digits. }
  induction s as [|c s IH]; intros H; cbn [find_retry_after] in H.
  - done.
  - destruct (retry_here (String c s)) eqn:E; [|by apply IH]. simplify_eq. by eapply Hhere.
Qed.

(** The time slept after a failed call is zero unless the error says that the
    call was throttled, and then it is the server's delay, capped at
    [MaxThrottlingSleepSec], or the given default: never negative, never
    unbounded. *)
Theorem SleepIfThrottled_bounds err d :
  0 ≤ d →
  0 ≤ SleepIfThrottled err d ≤ Z.max d consts.MaxThrottlingSleepSec ∧
  (IsThrottlingError err = false → SleepIfThrottled err d = 0).
Proof.
  intros Hd. unfold SleepIfThrottled. destruct (IsThrottlingError err); [|split; [|done]; lia].
  split; [|done].
  assert (Hr : 0 ≤ GetRetryAfterSeconds err).
  { unfold GetRetryAfterSeconds. destruct err as [e|]; [|done].
    destruct (find_retry_after (Error e)) as [t|] eqn:E; [|done].
    destruct (Atoi t) as [z|] eqn:Ez; [|done]. simpl.
    eapply Atoi_digits_nonneg; [by eapply find_retry_after_digits | done]. }
  unfold getRetryAfterSeconds. unfold consts.MaxThrottlingSleepSec in *.
  case_match; lia.
Qed.

Lemma SleepIfThrottled_bounds_witness :
  0 ≤ SleepIfThrottled (Some (ENew "TooManyRequests, RetryAfter: 9999s")) 50 ≤ 1200.
Proof.
  apply (SleepIfThrottled_bounds (Some (ENew "TooManyRequests, RetryAfter: 9999s")) 50). lia.
Defined.
