(* ===== verification/SnapshotUtils.v ===== *)
(** * Snapshots as CSI sees them: [pkg/azureutils/azure_snapshot_utils.go]

    The conversion of an Azure snapshot and the paging of [ListSnapshots].  A
    completion percentage is a rational number: the [float32] of the code is
    only compared with 100. *)
From stdpp Require Import gmap strings list.
From Stdlib Require Import ZArith Lia QArith.
From S2P Require Import Prelude GoStrings GoErr Consts Util AzureTypes DiskUtils.
Local Open Scope string_scope.
Local Open Scope Z_scope.
Local Open Scope list_scope.

(** ** Conversion *)
(** [azureutils/azure_snapshot_utils.go isCSISnapshotReady] *)
Definition isCSISnapshotReady (state : string) : bool := String.eqb (ToLower state) "succeeded".

(** [azureutils/azure_snapshot_utils.go GetSourceVolumeID] *)
Definition GetSourceVolumeID (snapshot : option Snapshot) : string :=
  default "" (((snapshot ≫= snap_Properties) ≫= sp_CreationData) ≫= SourceResourceID).

(** Whether a snapshot that was created is also complete. *)
Definition snapshot_complete (p : SnapshotProperties) : bool :=
  match sp_CreationData p ≫= InstantAccessDurationMinutes with
  | Some _ => true
  | None => negb (match sp_CompletionPercent p with
                  | None => false
                  | Some q => negb (Qle_bool 100 q)
                  end)
  end.

(** [azureutils/azure_snapshot_utils.go GenerateCSISnapshot] The name is
    dereferenced for the log line of an incomplete snapshot. *)
Definition GenerateCSISnapshot (sourceVolumeID : string) (snapshot : option Snapshot)
  : res csiSnapshot :=
  match snapshot ≫= snap_Properties with
  | None => Err (ENew "snapshot property is nil")
  | Some p =>
      match sp_TimeCreated p, sp_DiskSizeGB p with
      | None, _ => Err (ENew "TimeCreated of snapshot property is nil")
      | _, None => Err (ENew "diskSizeGB of snapshot property is nil")
      | Some time, Some size =>
          let? state := deref (sp_ProvisioningState p) in
          let ready := isCSISnapshotReady state in
          let source := if String.eqb sourceVolumeID "" then GetSourceVolumeID snapshot
                        else sourceVolumeID in
          let? ready := if ready && negb (snapshot_complete p)
                        then let? _ := deref (snapshot ≫= snap_Name) in Ok false
                        else Ok ready in
          let? id := deref (snapshot ≫= snap_ID) in
          Ok (MkcsiSnapshot (GiBToBytes size) id source time ready)
      end
  end.

(** [azureutils/azure_snapshot_utils.go GetSnapshotNameFromURI] *)
Definition GetSnapshotNameFromURI (snapshotURI : string) : res string :=
  match find_submatch true consts.DiskSnapshotPathRE snapshotURI with
  | Some name => Ok name
  | None => Err (ENew ("could not get snapshot name from " +:+ snapshotURI +:+ ", correct format: "
      +:+ "(?i).*/subscriptions/(?:.*)/resourceGroups/(?:.*)/providers/Microsoft.Compute/snapshots/(.+)"))
  end.

(** ** Paging *)
Record ListSnapshotsRequest := MkListSnapshotsRequest {
  lsr_MaxEntries : Z;
  lsr_StartingToken : string;
  lsr_SourceVolumeId : string;
  lsr_SnapshotId : string;
}.
Record ListSnapshotsResponse := MkListSnapshotsResponse {
  ls_Entries : list csiSnapshot;
  ls_NextToken : string;
}.
Definition source_matches (source : string) (s : option Snapshot) : bool :=
  (negb (String.eqb source "") && String.eqb source (GetSourceVolumeID s))
  || String.eqb source "".

(** The loop of [GetEntriesAndNextToken] from index [start] of the list whose
    rest is [l]: the entries and the index at which it stops. *)
Fixpoint collect_entries (source : string) (maxEntries count start : Z)
    (l : list (option Snapshot)) : res (list csiSnapshot * Z) :=
  match l with
  | [] => Ok ([], start)
  | s :: l' =>
      if count <? maxEntries then
        if source_matches source s then
          match GenerateCSISnapshot source s with
          | Ok c => let? r := collect_entries source maxEntries (count + 1) (start + 1) l' in
                    Ok (c :: r.1, r.2)
          | Err e => Err (ENew ("failed to generate snapshot entry: " +:+ Error e))
          | Panic => Panic
          end
        else collect_entries source maxEntries count (start + 1) l'
      else Ok ([], start)
  end.
(** The starting index of a request. *)
Definition starting_index (token : string) (n : Z) : res Z :=
  if String.eqb token "" then Ok 0
  else match Atoi token with
       | None => Err (EStatus codes.Aborted ("ListSnapshots starting token(" +:+ token
                   +:+ ") parsing with error: " +:+ num_error "Atoi" token))
       | Some start =>
           if n <=? start then Err (EStatus codes.Aborted ("ListSnapshots starting token("
                +:+ Itoa start +:+ ") is greater than total number of snapshots"))
           else if start <? 0 then Err (EStatus codes.Aborted ("ListSnapshots starting token("
                +:+ Itoa start +:+ ") can not be negative"))
           else Ok start
       end.
(** [azureutils/azure_snapshot_utils.go GetEntriesAndNextToken] *)
Definition GetEntriesAndNextToken (req : option ListSnapshotsRequest)
    (snapshots : list (option Snapshot)) : res ListSnapshotsResponse :=
  match req with
  | None => Err (EStatus codes.Aborted "request is nil")
  | Some req =>
      let n := Z.of_nat (length snapshots) in
      let? start := starting_index (lsr_StartingToken req) n in
      let maxEntries := if (0 <? lsr_MaxEntries req) && (lsr_MaxEntries req <? n - start)
                        then lsr_MaxEntries req else n - start in
      let? (entries, stop) := collect_entries (lsr_SourceVolumeId req) maxEntries 0 start
                                 (drop (Z.to_nat start) snapshots) in
      Ok (MkListSnapshotsResponse entries (if stop <? n then Itoa stop else ""))
  end.

(** ** A client that reads all the pages *)
Fixpoint list_all_pages (fuel : nat) (req : ListSnapshotsRequest)
    (snapshots : list (option Snapshot)) : res (list csiSnapshot) :=
  match fuel with
  | O => Err (ENew "out of fuel")
  | S fuel' =>
      let? resp := GetEntriesAndNextToken (Some req) snapshots in
      if String.eqb (ls_NextToken resp) "" then Ok (ls_Entries resp)
      else let? rest := list_all_pages fuel'
             (MkListSnapshotsRequest (lsr_MaxEntries req) (ls_NextToken resp)
                (lsr_SourceVolumeId req) (lsr_SnapshotId req)) snapshots in
           Ok (ls_Entries resp ++ rest)
  end.

(** The entries a complete listing has. *)
Definition all_entries (source : string) (l : list (option Snapshot)) : list csiSnapshot :=
  omap (λ s, if source_matches source s
             then match GenerateCSISnapshot source s with Ok c => Some c | _ => None end
             else None) l.
(** Every snapshot of the source can be converted. *)
Definition convertible (source : string) (l : list (option Snapshot)) : Prop :=
  Forall (λ s, source_matches source s = true → ∃ c, GenerateCSISnapshot source s = Ok c) l.

(** ** Lemmas *)
Lemma all_entries_cons source s l :
  all_entries source (s :: l) =
    if source_matches source s then
      match GenerateCSISnapshot source s with
      | Ok c => c :: all_entries source l
      | _ => all_entries source l
      end
    else all_entries source l.
Proof.
  unfold all_entries. simpl. destruct (source_matches _ _); [|done].
  by destruct (GenerateCSISnapshot _ _).
Qed.

Lemma collect_entries_spec source maxE count start l :
  convertible source l →
  ∃ k, (k ≤ length l)%nat ∧
    collect_entries source maxE count start l =
      Ok (all_entries source (take k l), start + Z.of_nat k) ∧
    (k = length l ∨ count + Z.of_nat (length (all_entries source (take k l))) = Z.max count maxE) ∧
    (l ≠ [] → count < maxE → (0 < k)%nat) ∧
    count + Z.of_nat (length (all_entries source (take k l))) ≤ Z.max count maxE.
Proof.
  revert count start; induction l as [|s l IH]; intros count start Hc.
  - exists 0%nat. simpl. rewrite Z.add_0_r. split_and!; [done|done|by left|done|lia].
  - apply Forall_cons in Hc as [Hs Hc]. cbn [collect_entries].
    destruct (Z.ltb_spec count maxE) as [Hlt|Hge].
    + destruct (source_matches source s) eqn:Em.
      * destruct (Hs eq_refl) as [c Ec]. rewrite Ec.
        destruct (IH (count + 1) (start + 1) Hc) as (k & Hk & -> & Hend & _ & Hle).
        exists (S k). cbn [take]. rewrite all_entries_cons, Em, Ec. cbn [res_bind fst snd length].
        split_and!; [lia | do 2 f_equal; lia | destruct Hend; [left|right]; lia | intros; lia | lia].
      * destruct (IH count (start + 1) Hc) as (k & Hk & -> & Hend & _ & Hle).
        exists (S k). cbn [take]. rewrite all_entries_cons, Em. cbn [length].
        split_and!; [lia | do 2 f_equal; lia | destruct Hend; [left|right]; lia | intros; lia | lia].
    + exists 0%nat. simpl. rewrite Z.add_0_r. split_and!; [lia|done|right; lia|intros; lia|lia].
Qed.

Lemma all_entries_app source l1 l2 :
  all_entries source (l1 ++ l2) = all_entries source l1 ++ all_entries source l2.
Proof. apply omap_app. Qed.

Lemma starting_index_token z n : in_int64 z → 0 ≤ z < n → starting_index (Itoa z) n = Ok z.
Proof.
  intros Hz Hn. unfold starting_index.
  rewrite (proj2 (String.eqb_neq _ _) (Itoa_nonempty z)), Atoi_Itoa by done.
  destruct (Z.leb_spec n z), (Z.ltb_spec z 0); lia || done.
Qed.

(** One page from index [start]. *)
Lemma page_spec max src id tok start snapshots :
  starting_index tok (Z.of_nat (length snapshots)) = Ok (Z.of_nat start) →
  (start ≤ length snapshots)%nat → Z.of_nat (length snapshots) < 2 ^ 63 →
  convertible src snapshots →
  ∃ k, (start + k ≤ length snapshots)%nat ∧
    GetEntriesAndNextToken (Some (MkListSnapshotsRequest max tok src id)) snapshots =
      Ok (MkListSnapshotsResponse (all_entries src (take k (drop start snapshots)))
            (if (start + k <? length snapshots)%nat then Itoa (Z.of_nat (start + k)) else "")) ∧
    ((start < length snapshots)%nat → (0 < k)%nat) ∧
    (0 < max → Z.of_nat (length (all_entries src (take k (drop start snapshots)))) ≤ max).
Proof.
  intros Htok Hstart Hlen Hconv. unfold GetEntriesAndNextToken. simpl. rewrite Htok. simpl.
  rewrite Nat2Z.id.
  set (n := Z.of_nat (length snapshots)) in *.
  set (maxE := if (0 <? max) && _ then _ else _).
  assert (HmaxE : maxE ≤ n - Z.of_nat start ∧ (0 < max → maxE ≤ max) ∧
                  ((start < length snapshots)%nat → 0 < maxE)).
  { unfold maxE. destruct (Z.ltb_spec 0 max), (Z.ltb_spec max (n - Z.of_nat start)); simpl; lia. }
  assert (Hc : convertible src (drop start snapshots)) by (by apply Forall_drop).
  destruct (collect_entries_spec src maxE 0 (Z.of_nat start) _ Hc) as (k & Hk & -> & _ & Hpos & Hle).
  rewrite length_drop in Hk. exists k. split; [lia|]. simpl. split; [|split].
  - do 2 f_equal. rewrite <-Nat2Z.inj_add.
    destruct (Nat.ltb_spec (start + k) (length snapshots)),
      (Z.ltb_spec (Z.of_nat (start + k)) n); done || lia.
  - intros Hlt. apply Hpos; [|lia]. intros Hd%(f_equal length). rewrite length_drop in Hd.
    simpl in Hd. lia.
  - intros Hm. simpl in Hle. lia.
Qed.

(** The pages from any start join to the entries of the rest of the list. *)
Lemma list_pages_from fuel max src id tok start snapshots :
  starting_index tok (Z.of_nat (length snapshots)) = Ok (Z.of_nat start) →
  (start ≤ length snapshots)%nat → Z.of_nat (length snapshots) < 2 ^ 63 →
  convertible src snapshots →
  (length snapshots - start < fuel)%nat →
  list_all_pages fuel (MkListSnapshotsRequest max tok src id) snapshots =
    Ok (all_entries src (drop start snapshots)).
Proof.
  revert tok start. induction fuel as [|fuel IH]; intros tok start Htok Hs Hn Hc Hf; [lia|].
  cbn [list_all_pages].
  destruct (page_spec max src id tok start snapshots Htok Hs Hn Hc) as (k & Hk & -> & Hpos & _).
  cbn [res_bind ls_NextToken ls_Entries lsr_MaxEntries lsr_SourceVolumeId lsr_SnapshotId].
  destruct (Nat.ltb_spec (start + k) (length snapshots)) as [Hlt|Hge].
  - assert (Hin : in_int64 (Z.of_nat (start + k))) by (unfold in_int64; lia).
    rewrite (proj2 (String.eqb_neq _ _) (Itoa_nonempty _)).
    rewrite (IH _ (start + k)%nat); [|by apply starting_index_token; [|lia]|lia|done|done|lia].
    cbn [res_bind]. f_equal. rewrite <-all_entries_app, <-drop_drop.
    by rewrite take_drop.
  - simpl. do 2 f_equal. apply take_ge. rewrite length_drop. lia.
Qed.

(** ** Properties *)

(** C39. A client that follows the next tokens of [ListSnapshots] with any page size
    reads every snapshot of the source exactly once, in order, and stops: the
    number of calls is at most the number of snapshots plus one. *)
Theorem ListSnapshots_pages_complete max src id snapshots :
  Z.of_nat (length snapshots) < 2 ^ 63 →
  convertible src snapshots →
  list_all_pages (S (length snapshots)) (MkListSnapshotsRequest max "" src id) snapshots =
    Ok (all_entries src snapshots).
Proof.
  intros Hn Hc. rewrite (list_pages_from _ max src id "" 0); [done|done|lia|done|done|lia].
Qed.

Definition demo_snapshot (name source : string) : option Snapshot :=
  Some (MkSnapshot (Some ("/snap/" +:+ name)) (Some name) None
    (Some (MkSnapshotProperties (Some 1) (Some 10) None (Some "Succeeded") None
       (Some (MkCreationData None (Some source) None None None)) None None None None))
    None ∅ None).
Definition demo_snapshots : list (option Snapshot) :=
  [demo_snapshot "a" "v1"; demo_snapshot "b" "v2"; demo_snapshot "c" "v1"; demo_snapshot "d" "v1"].

Lemma ListSnapshots_pages_complete_witness :
  list_all_pages 5 (MkListSnapshotsRequest 2 "" "v1" "") demo_snapshots =
    Ok (all_entries "v1" demo_snapshots) ∧ length (all_entries "v1" demo_snapshots) = 3%nat.
Proof.
  split; [|reflexivity].
  apply (ListSnapshots_pages_complete 2 "v1" "" demo_snapshots); [reflexivity|].
  repeat constructor; intros _ || discriminate; eexists; vm_compute; reflexivity.
Defined.

(** A snapshot is reported under its own identifier, for the source that was asked
    for, and ready exactly when its creation succeeded and, for one without instant
    access, its completion is 100% or not reported. *)
Theorem GenerateCSISnapshot_ready src snap c :
  GenerateCSISnapshot src snap = Ok c →
  ∃ s p state, snap = Some s ∧ snap_Properties s = Some p ∧ sp_ProvisioningState p = Some state ∧
    snap_ID s = Some (SnapshotId c) ∧
    (src ≠ "" → SourceVolumeId c = src) ∧
    (ReadyToUse c = true ↔ ToLower state = "succeeded" ∧
       (is_Some (sp_CreationData p ≫= InstantAccessDurationMinutes) ∨
        sp_CompletionPercent p = None ∨ ∃ q, sp_CompletionPercent p = Some q ∧ (100 <= q)%Q)).
Proof.
  unfold GenerateCSISnapshot. destruct snap as [s|]; [|done]. simpl.
  destruct (snap_Properties s) as [p|] eqn:Ep; [|done].
  destruct (sp_TimeCreated p) as [t|]; [|done]. destruct (sp_DiskSizeGB p) as [sz|]; [|done].
  destruct (sp_ProvisioningState p) as [state|] eqn:Es; [|done]. cbn [res_bind deref].
  intros H. exists s, p, state. split_and!; try done;
    apply res_bind_ok in H as (ready & Hr & H); apply res_bind_ok in H as (id & Hid & H);
    simplify_eq/=; destruct (snap_ID s) eqn:Eid; simplify_eq/=; [done| |].
  - intros Hne. by rewrite (proj2 (String.eqb_neq src "")).
  - unfold isCSISnapshotReady, snapshot_complete in Hr.
    destruct (String.eqb_spec (ToLower state) "succeeded") as [Hs|Hs]; simpl in Hr.
    + destruct (sp_CreationData p ≫= InstantAccessDurationMinutes) as [m|].
      { simplify_eq/=. naive_solver. }
      destruct (sp_CompletionPercent p) as [q|]; simpl in Hr; [|simplify_eq; naive_solver].
      destruct (Qle_bool 100 q) eqn:Eq; simpl in Hr.
      * apply Qle_bool_iff in Eq. simplify_eq. naive_solver.
      * destruct (snap_Name s); simplify_eq/=. split; [done|].
        intros (_ & [[? ?]|[?|(q' & [= <-] & Hq)]]); [done|done|].
        apply Qle_bool_iff in Hq. congruence.
    + simplify_eq. split; [done | by intros [? _]].
Qed.

Lemma GenerateCSISnapshot_ready_witness :
  ∃ s p state, demo_snapshot "a" "v" = Some s ∧ snap_Properties s = Some p ∧
    sp_ProvisioningState p = Some state ∧ ToLower state = "succeeded".
Proof.
  destruct (GenerateCSISnapshot_ready "" (demo_snapshot "a" "v")
              (MkcsiSnapshot (10 * GiB) "/snap/a" "v" 1 true) eq_refl)
    as (s & p & state & H1 & H2 & H3 & _ & _ & H4).
  exists s, p, state. split; [exact H1|]. split; [exact H2|]. split; [exact H3|].
  apply H4. reflexivity.
Defined.
