(* ===== verification/Cloud.v ===== *)
(** * The services the driver calls

    [Cloud W] is the interface of the Azure cloud provider, of the ARM disk and
    snapshot clients, of the clock and of the node labels, as operations on an
    abstract world [W]: the driver's theorems hold for every implementation of
    it.  [Backoff] translates the polling helpers of
    k8s.io/apimachinery/pkg/util/wait the driver uses.  Durations and times are
    nanoseconds. *)
From stdpp Require Import gmap strings list.
From Stdlib Require Import ZArith Lia.
From S2P Require Import Prelude GoStrings GoErr Consts Util AzureTypes.
Local Open Scope string_scope.
Local Open Scope Z_scope.

(** ** Contexts and time *)
Definition Second : Z := 1000000000.
Definition Millisecond : Z := 1000000.
(** A [context.Context], as far as the driver looks into it. *)
Record Ctx := MkCtx { ctx_Deadline : option Z }.
(** [context.WithTimeout(ctx, d)] at time [now]. *)
Definition WithTimeout (now d : Z) (ctx : Ctx) : Ctx :=
  MkCtx (Some (match ctx_Deadline ctx with
               | Some t => Z.min t (now + d)
               | None => now + d
               end)).

(** ** The cloud *)
Class Cloud (W : Type) := {
  (** the clock *)
  Now : M W Z;
  (** [ctx.Err()]: an error once the context is done *)
  ctx_Err : Ctx → M W (option gerr);
  (** wait for a time or for the end of the context *)
  ctx_Wait : Ctx → Z → M W (option gerr);
  Sleep : Z → M W unit;
  (** the VM sets *)
  VMSet : Type;
  cloud_VMSet : VMSet;
  GetNodeVMSet : string → M W VMSet;
  InstanceID : string → M W string;
  vm_GetNodeNameByProviderID : VMSet → string → M W string;
  (** the disks, the VM's provisioning state, the error *)
  vm_GetDataDisks : VMSet → string → M W (list DataDisk * option string * option gerr);
  vm_AttachDisk : VMSet → string → gmap string (option AttachDiskOptions) → M W unit;
  vm_DetachDisk : Ctx → VMSet → string → gmap string string → bool → M W unit;
  vm_UpdateVM : VMSet → string → M W unit;
  vm_DeleteCacheForNode : VMSet → string → M W unit;
  (** the disk client *)
  DiskClient : Type;
  GetDiskClientForSub : string → M W DiskClient;
  disk_Get : DiskClient → string → string → M W (option Disk);
  disk_CreateOrUpdate : DiskClient → string → string → Disk → M W (option Disk);
  disk_Patch : DiskClient → string → string → DiskUpdate → M W unit;
  disk_Delete : DiskClient → string → string → M W unit;
  disk_List : DiskClient → string → M W (list Disk);
  GetDiskClient : DiskClient;
  (** the snapshot client *)
  SnapshotClient : Type;
  GetSnapshotClientForSub : string → M W SnapshotClient;
  GetSnapshotClient : SnapshotClient;
  snapshot_Get : SnapshotClient → string → string → M W (option Snapshot);
  snapshot_CreateOrUpdate : SnapshotClient → string → string → Snapshot → M W unit;
  snapshot_Delete : SnapshotClient → string → string → M W unit;
  snapshot_List : SnapshotClient → string → M W (list (option Snapshot));
  (** the zone and the instance type of a node, from the lister or the API *)
  GetNodeInfo : string → M W (string * string);
}.

(** The static configuration of [provider.Cloud]. *)
Record CloudConfig := MkCloudConfig {
  cc_Cloud : string;
  cc_DisableAzureStackCloud : bool;
  cc_SubscriptionID : string;
  cc_ResourceGroup : string;
  cc_Location : string;
  cc_ExtendedLocation : option (string * string);
  (** [GetZoneID]: the zone number of [<region>-<zone>], "" otherwise *)
  cc_GetZoneID : string → string;
}.

(** ** Polling: k8s.io/apimachinery/pkg/util/wait/backoff.go *)
Section backoff.
  Context {St : Type} (ctxErr : M St (option gerr)) (ctxWait : Z → M St (option gerr)).

  (** [ExponentialBackoffWithContext] with factor 1.5, no cap and no jitter:
      [steps] evaluations at most. *)
Fixpoint ExponentialBackoffWithContext (steps : nat) (duration : Z) (condition : M St bool)
    : M St unit :=
  match steps with
  | O => fail (ESentinel WaitTimeout)
  | S steps' =>
      let! e := ctxErr in
      match e with
      | Some e => fail e
      | None =>
          let! ok := condition in
          if ok then ret ()
          else match steps' with
               | O => fail (ESentinel WaitTimeout)
               | _ => let! e := ctxWait duration in
                      match e with
                      | Some e => fail e
                      | None => ExponentialBackoffWithContext steps' (duration * 3 / 2) condition
                      end
               end
      end
  end.

  (** [PollUntilContextTimeout] with [immediate]: the condition is evaluated at
      once and after each interval; [fuel] is one more than the intervals that
      fit into the timeout. *)
Fixpoint PollUntilContextTimeout (fuel : nat) (interval : Z) (condition : M St bool) : M St unit :=
  match fuel with
  | O => fail (ESentinel CtxDeadlineExceeded)
  | S fuel' =>
      let! ok := condition in
      if ok then ret ()
      else let! e := ctxWait interval in
           match e with
           | Some e => fail e
           | None => PollUntilContextTimeout fuel' interval condition
           end
  end.

Lemma backoff_ok steps d cond s s' :
    ExponentialBackoffWithContext steps d cond s = (Ok (), s') →
    ∃ s1, cond s1 = (Ok true, s').
  Proof.
    revert d s. induction steps as [|n IH]; intros d s H; [done|]. cbn in H.
    apply bind_ok in H as ([e|] & s1 & H1 & H); [done|].
    apply bind_ok in H as ([] & s2 & H2 & H); [simplify_eq/=; inversion H; subst; eauto|].
    destruct n; [done|]. apply bind_ok in H as ([e|] & s3 & H3 & H); [done|].
    by eapply IH.
  Qed.

Lemma keeps_backoff (P : St → Prop) steps d cond :
    keeps P ctxErr → (∀ d, keeps P (ctxWait d)) → keeps P cond →
    keeps P (ExponentialBackoffWithContext steps d cond).
  Proof.
    intros He Hw Hc. revert d. induction steps as [|n IH]; intros d; [apply keeps_fail|].
    cbn. apply keeps_bind; [done|]. intros [e|]; [apply keeps_fail|].
    apply keeps_bind; [done|]. intros []; [apply keeps_ret|].
    destruct n; [apply keeps_fail|]. apply keeps_bind; [apply Hw|].
    intros [e|]; [apply keeps_fail | apply IH].
  Qed.

Lemma keeps_poll (P : St → Prop) fuel d cond :
    (∀ d, keeps P (ctxWait d)) → keeps P cond →
    keeps P (PollUntilContextTimeout fuel d cond).
  Proof.
    intros Hw Hc. induction fuel as [|n IH]; [apply keeps_fail|].
    cbn. apply keeps_bind; [done|]. intros []; [apply keeps_ret|].
    apply keeps_bind; [apply Hw|]. intros [e|]; [apply keeps_fail | apply IH].
  Qed.
End backoff.

(** ** A timed cache: sigs.k8s.io/cloud-provider-azure/pkg/cache

    An entry is the time at which non-nil data was set.  The driver's getters
    return no data and no error, so a read never fails, and it gives nil data
    for a key that is not set or whose entry has expired. *)
Definition TimedCache := gmap string Z.
Definition cache_Set (now : Z) (key : string) (c : TimedCache) : TimedCache := <[key := now]> c.
Definition cache_Get (ttl now : Z) (key : string) (c : TimedCache) : option () * TimedCache :=
  match c !! key with
  | Some t => if now - t <? ttl then (Some (), c) else (None, delete key c)
  | None => (None, c)
  end.
