(* ===== verification/DemoCloud.v ===== *)
(** * A concrete cloud

    An executable instance of [Cloud], on which the witnesses evaluate the
    driver: maps of disks, of snapshots and of the data disks of the nodes, a
    clock, and the log of the calls that change something. *)
From stdpp Require Import gmap strings list.
From Stdlib Require Import ZArith Lia.
From S2P Require Import Prelude GoStrings GoErr Consts Util AzureTypes Cloud.
Local Open Scope string_scope.
Local Open Scope Z_scope.
Local Open Scope list_scope.

Record Demo := MkDemo {
  demo_now : Z;
  demo_disks : gmap string Disk;             (**r by name *)
  demo_nodes : gmap string (list DataDisk);  (**r the data disks of each node *)
  demo_snaps : gmap string Snapshot;         (**r by name *)
  demo_log : list string;
  demo_detach_err : option gerr;             (**r the answer to a regular detach *)
}.
Definition log (e : string) (d : Demo) : Demo :=
  MkDemo (demo_now d) (demo_disks d) (demo_nodes d) (demo_snaps d) (e :: demo_log d)
         (demo_detach_err d).
Definition upd_nodes (f : gmap string (list DataDisk) → gmap string (list DataDisk)) (d : Demo) : Demo :=
  MkDemo (demo_now d) (demo_disks d) (f (demo_nodes d)) (demo_snaps d) (demo_log d) (demo_detach_err d).
Definition upd_disks (f : gmap string Disk → gmap string Disk) (d : Demo) : Demo :=
  MkDemo (demo_now d) (f (demo_disks d)) (demo_nodes d) (demo_snaps d) (demo_log d) (demo_detach_err d).
Definition upd_snaps (f : gmap string Snapshot → gmap string Snapshot) (d : Demo) : Demo :=
  MkDemo (demo_now d) (demo_disks d) (demo_nodes d) (f (demo_snaps d)) (demo_log d) (demo_detach_err d).
Definition tick (t : Z) (d : Demo) : Demo :=
  MkDemo (demo_now d + t) (demo_disks d) (demo_nodes d) (demo_snaps d) (demo_log d) (demo_detach_err d).

Definition demo_attach (node : string) (m : gmap string (option AttachDiskOptions)) (d : Demo) : Demo :=
  let new := omap (λ '(uri, o), match o with
                                | Some o => Some (MkDataDisk (Some (opt_Lun o)) (Some (opt_DiskName o))
                                                    None (Some (Some uri)) None)
                                | None => None end) (map_to_list m) in
  upd_nodes (λ ns, <[node := default [] (ns !! node) ++ new]> ns) d.
Definition demo_detach (node : string) (m : gmap string string) (d : Demo) : Demo :=
  upd_nodes (λ ns, <[node := List.filter (λ dd, match dd_ManagedDisk dd with
                                                | Some (Some uri) => bool_decide (m !! uri = None)
                                                | _ => true end) (default [] (ns !! node))]> ns) d.

(** The new size and SKU of a patched disk. *)
Definition demo_patch (u : DiskUpdate) (d : Disk) : Disk :=
  MkDisk (disk_ID d) (disk_Name d) (disk_Location d) (ManagedBy d)
    (match upd_Properties u ≫= u_DiskSizeGB with
     | Some g => set_DiskSizeGB (Some g) <$> disk_Properties d
     | None => disk_Properties d
     end)
    (match upd_SKU u with Some k => Some k | None => disk_SKU d end)
    (disk_Tags d) (Zones d) (disk_ExtendedLocation d).

#[export] Instance demo_cloud : Cloud Demo := {|
  Now := λ d, (Ok (demo_now d), d);
  ctx_Err c := λ d, (Ok (match ctx_Deadline c with
                         | Some t => if t <=? demo_now d then Some (ESentinel CtxDeadlineExceeded) else None
                         | None => None end), d);
  ctx_Wait c t := λ d, (Ok (match ctx_Deadline c with
                            | Some e => if e <=? demo_now d + t then Some (ESentinel CtxDeadlineExceeded)
                                        else None
                            | None => None end), tick t d);
  Sleep t := modify (tick t);
  VMSet := unit;
  cloud_VMSet := ();
  GetNodeVMSet _ := ret ();
  InstanceID n := λ d, match demo_nodes d !! n with
                       | Some _ => (Ok n, d) | None => (Err (ESentinel InstanceNotFound), d) end;
  vm_GetNodeNameByProviderID _ p := ret p;
  vm_GetDataDisks _ n := λ d, (Ok (default [] (demo_nodes d !! n), None, None), d);
  vm_AttachDisk _ n m := modify (λ d, log "attach" (demo_attach n m d));
  vm_DetachDisk c _ n m force := λ d,
    if force then (Ok (), log "force-detach" (demo_detach n m d))
    else match demo_detach_err d with
         | Some e => (Err e, log "detach" d)
         | None => (Ok (), log "detach" (demo_detach n m d)) end;
  vm_UpdateVM _ _ := modify (log "update");
  vm_DeleteCacheForNode _ _ := ret ();
  DiskClient := unit;
  GetDiskClientForSub _ := ret ();
  GetDiskClient := ();
  disk_Get _ _ n := λ d, match demo_disks d !! n with
                         | Some k => (Ok (Some k), d)
                         | None => (Err (EResponse 404 "NotFound" "not found"), d) end;
  disk_CreateOrUpdate _ _ n k := λ d, (Ok (Some k), log "create" (upd_disks <[n := k]> d));
  disk_Patch _ _ n u := modify (λ d, log "patch" (upd_disks (alter (demo_patch u) n) d));
  disk_Delete _ _ n := modify (λ d, log "delete" (upd_disks (delete n) d));
  disk_List _ _ := λ d, (Ok (snd <$> map_to_list (demo_disks d)), d);
  SnapshotClient := unit;
  GetSnapshotClientForSub _ := ret ();
  GetSnapshotClient := ();
  snapshot_Get _ _ n := λ d, match demo_snaps d !! n with
                             | Some k => (Ok (Some k), d)
                             | None => (Err (EResponse 404 "ResourceNotFound" "ResourceNotFound"), d) end;
  snapshot_CreateOrUpdate _ _ n k := modify (λ d, log "create-snapshot" (upd_snaps <[n := k]> d));
  snapshot_Delete _ _ n := modify (λ d, log "delete-snapshot" (upd_snaps (delete n) d));
  snapshot_List _ _ := λ d, (Ok (Some ∘ snd <$> map_to_list (demo_snaps d)), d);
  GetNodeInfo _ := ret ("", "");
|}.

(** A call that was not made. *)
Definition not_logged (e : string) (d : Demo) : Prop := e ∉ demo_log d.
