(* ===== verification/ControllerCommon.v ===== *)
(** * Attaching and detaching: [pkg/azuredisk/azure_controller_common.go]

    The state of [controllerCommon] is a record next to the world of the cloud
    services.  While a call waits for a lock, sleeps or talks to a service, the
    other goroutines of the driver may change the shared maps and the world:
    [others], a parameter, is applied at each of these points, and the theorems
    hold whatever it does. *)
From stdpp Require Import gmap strings list.
From Stdlib Require Import ZArith Lia.
From S2P Require Import Prelude GoStrings GoErr Consts Util AzureTypes DiskUtils Cloud DiskCounts.
Local Open Scope string_scope.
Local Open Scope Z_scope.

(** ** Constants of the file and of the cloud provider *)
Definition diskCachingLimit : Z := 4096.
Definition maxLUN : nat := 64.
Definition errStatusCode400 : string := "statuscode=400".
Definition errInvalidParameter : string := "code=" +:+ quote "invalidparameter".
Definition errTargetInstanceIDs : string := "target=" +:+ quote "instanceids".
Definition attachDiskMapKeySuffix : string := "attachdiskmap".
Definition detachDiskMapKeySuffix : string := "detachdiskmap".
Definition detachInProgress : string := "detach in progress".
Definition CannotFindDiskLUN : string := "cannot find Lun".
Definition VmssVMNotActiveErrorMessage : string :=
  "not an active Virtual Machine Scale Set VM instanceId".
(** [azuredisk/azure_controller_common.go defaultBackOff 85-90] steps and duration *)
Definition defaultBackOff : nat * Z := (7%nat, 2 * Second).

Notation DiskMap := (gmap string (option AttachDiskOptions)).

(** ** State *)
(** The fields of [controllerCommon] that do not change after start. *)
Record CommonConfig := MkCommonConfig {
  DisableDiskLunCheck : bool;
  DetachOperationMinTimeoutInSeconds : Z;
  VMSSDetachTimeoutInSeconds : Z;
  ForceDetachBackoff : bool;
  WaitForDetach : bool;
  CheckDiskCountForBatching : bool;
  WaitForDetachDiskComplete : bool;
}.
(** [azuredisk/azure_controller_common.go controllerCommon 92-119] The keys of
    [diskStateMap] are URIs or addresses of disks: the two kinds of keys are
    kept apart.  [held] are the entries of [lockMap] this goroutine holds. *)
Record CState (W : Type) := MkCState {
  world : W;
  attachDiskMap : gmap string DiskMap;
  detachDiskMap : gmap string (gmap string string);
  diskStateMap : gmap string string;
  diskStateMap_ptr : gmap positive string;
  hitMaxDataDiskCountCache : TimedCache;
  AttachDetachInitialDelayInMs : Z;
  held : gset string;
}.
Arguments MkCState {W}.
Arguments world {W}. Arguments attachDiskMap {W}. Arguments detachDiskMap {W}.
Arguments diskStateMap {W}. Arguments diskStateMap_ptr {W}.
Arguments hitMaxDataDiskCountCache {W}. Arguments AttachDetachInitialDelayInMs {W}.
Arguments held {W}.

Section setters.
  Context {W : Type}.
  Implicit Types s : CState W.
Definition set_world (w : W) s : CState W :=
  MkCState w (attachDiskMap s) (detachDiskMap s) (diskStateMap s) (diskStateMap_ptr s)
    (hitMaxDataDiskCountCache s) (AttachDetachInitialDelayInMs s) (held s).
Definition set_attachDiskMap m s : CState W :=
  MkCState (world s) m (detachDiskMap s) (diskStateMap s) (diskStateMap_ptr s)
    (hitMaxDataDiskCountCache s) (AttachDetachInitialDelayInMs s) (held s).
Definition set_detachDiskMap m s : CState W :=
  MkCState (world s) (attachDiskMap s) m (diskStateMap s) (diskStateMap_ptr s)
    (hitMaxDataDiskCountCache s) (AttachDetachInitialDelayInMs s) (held s).
Definition set_diskStateMap m s : CState W :=
  MkCState (world s) (attachDiskMap s) (detachDiskMap s) m (diskStateMap_ptr s)
    (hitMaxDataDiskCountCache s) (AttachDetachInitialDelayInMs s) (held s).
Definition set_diskStateMap_ptr m s : CState W :=
  MkCState (world s) (attachDiskMap s) (detachDiskMap s) (diskStateMap s) m
    (hitMaxDataDiskCountCache s) (AttachDetachInitialDelayInMs s) (held s).
Definition set_hitMax c s : CState W :=
  MkCState (world s) (attachDiskMap s) (detachDiskMap s) (diskStateMap s) (diskStateMap_ptr s)
    c (AttachDetachInitialDelayInMs s) (held s).
Definition set_InitialDelay d s : CState W :=
  MkCState (world s) (attachDiskMap s) (detachDiskMap s) (diskStateMap s) (diskStateMap_ptr s)
    (hitMaxDataDiskCountCache s) d (held s).
Definition set_held h s : CState W :=
  MkCState (world s) (attachDiskMap s) (detachDiskMap s) (diskStateMap s) (diskStateMap_ptr s)
    (hitMaxDataDiskCountCache s) (AttachDetachInitialDelayInMs s) h.
End setters.

(** ** Errors of the cloud *)
(** [azuredisk/azure_controller_common.go isInstanceNotFoundError] *)
Definition isInstanceNotFoundError (err : gerr) : bool :=
  let errMsg := ToLower (Error err) in
  match root_cause err with
  | EResponse 404 _ _ => true
  | _ =>
      Contains errMsg (ToLower VmssVMNotActiveErrorMessage)
      || (Contains errMsg errStatusCode400 && Contains errMsg errInvalidParameter
          && Contains errMsg errTargetInstanceIDs)
  end.
(** [azuredisk/azure_controller_common.go preemptedByForceOperation] *)
Definition preemptedByForceOperation (err : gerr) : bool :=
  Contains (ToLower (Error err)) (ToLower "DataDisksForceDetached").

(** ** Pure parts *)
(** [azuredisk/azure_controller_common.go effectiveCachingModeForDisk] *)
Definition effectiveCachingModeForDisk (cachingMode : string) (diskSizeGB : option Z) : string :=
  match diskSizeGB with
  | Some size => if (diskCachingLimit <=? size)
                    && negb (String.eqb cachingMode armcompute.CachingTypesNone)
                 then armcompute.CachingTypesNone else cachingMode
  | None => cachingMode
  end.

(** [azuredisk/azure_controller_common.go GetDiskLun 711-713] The three ways in
    which a data disk is recognised.  Go evaluates the conjunction of the LUN
    and the name before the alternatives; [ManagedDisk.ID] is dereferenced. *)
Definition disk_matches (diskName diskURI : string) (disk : DataDisk) : res bool :=
  let by_name := match Lun disk, dd_Name disk with
                 | Some _, Some n => negb (String.eqb diskName "") && EqualFold n diskName
                 | _, _ => false
                 end in
  let by_vhd := match Vhd disk with
                | Some (Some u) => negb (String.eqb diskURI "") && EqualFold u diskURI
                | _ => false
                end in
  if by_name || by_vhd then Ok true
  else match dd_ManagedDisk disk with
       | Some mid => let? mid := deref mid in Ok (EqualFold mid diskURI)
       | None => Ok false
       end.
(** [azuredisk/azure_controller_common.go GetDiskLun 710-724] The loop over the
    data disks; the LUN is dereferenced for the log line. *)
Fixpoint find_lun (diskName diskURI nodeName : string) (disks : list DataDisk) : res Z :=
  match disks with
  | [] => Err (ENew (CannotFindDiskLUN +:+ " for disk " +:+ diskName))
  | disk :: disks' =>
      let? m := disk_matches diskName diskURI disk in
      if m then
        let? lun := deref (Lun disk) in
        if default false (ToBeDetached disk)
        then Err (ENew ("disk(" +:+ diskURI +:+ ") is in ToBeDetached state on node(" +:+ nodeName
                        +:+ "): " +:+ detachInProgress))
        else Ok lun
      else find_lun diskName diskURI nodeName disks'
  end.

(** [used[i] = true] on the array of 64 flags: a panic out of range. *)
Definition mark_used (i : Z) (used : list bool) : res (list bool) :=
  if (0 <=? i) && (i <? Z.of_nat maxLUN) then Ok (<[Z.to_nat i := true]> used) else Panic.
(** The flags of the LUNs in use on the VM, and the LUN of [diskURI] when it is
    not in the batch. *)
Fixpoint used_luns (diskURI : string) (isDiskInMap : bool) (disks : list DataDisk)
    (used : list bool) (lun : Z) : res (list bool * Z) :=
  match disks with
  | [] => Ok (used, lun)
  | disk :: disks' =>
      match Lun disk with
      | None => used_luns diskURI isDiskInMap disks' used lun
      | Some l =>
          let? used := mark_used l used in
          let? lun := if isDiskInMap then Ok lun
                      else match dd_ManagedDisk disk with
                           | Some mid => let? mid := deref mid in
                                         Ok (if EqualFold mid diskURI then l else lun)
                           | None => Ok lun
                           end in
          used_luns diskURI isDiskInMap disks' used lun
      end
  end.
(** The LUNs of the volume attachments; the others are ignored. *)
Definition mark_occupied (occupiedLuns : list Z) (used : list bool) : list bool :=
  foldl (λ u l, if (0 <=? l) && (l <? Z.of_nat maxLUN) then <[Z.to_nat l := true]> u else u)
        used occupiedLuns.
(** The first [n] free LUNs, from LUN [k] on. *)
Fixpoint free_luns (n : nat) (k : Z) (used : list bool) : list Z :=
  match used with
  | [] => []
  | u :: used' =>
      if u then free_luns n (k + 1) used'
      else match n with
           | O | 1%nat => [k]
           | S n' => k :: free_luns n' (k + 1) used'
           end
  end.
(** The loop that gives the LUNs to the disks of the batch, in the order in
    which Go visits the map.  It returns the LUN of [diskURI]. *)
Fixpoint assign_luns (diskURI : string) (l : list (string * option AttachDiskOptions))
    (diskLuns : list Z) (lun : Z) (out : DiskMap) : res (Z * DiskMap) :=
  match l with
  | [] => Ok (lun, out)
  | (uri, opt) :: l' =>
      match opt with
      | None => Err (ENew ("unexpected nil pointer in diskMap(map), diskURI(" +:+ diskURI +:+ ")"))
      | Some o =>
          match diskLuns with
          | [] => Panic
          | d :: diskLuns' =>
              assign_luns diskURI l' diskLuns' (if EqualFold uri diskURI then d else lun)
                (<[uri := Some (set_opt_Lun d o)]> out)
          end
      end
  end.

Section luns.
  Context `{MapOrder}.
  (** [azuredisk/azure_controller_common.go SetDiskLun 737-797] What [SetDiskLun]
      does with the data disks of the VM: the LUN of [diskURI] and the batch
      with the LUNs it assigns. *)
Definition allocate_luns (disks : list DataDisk) (diskURI : string) (diskMap : DiskMap)
    (occupiedLuns : list Z) : res (Z * DiskMap) :=
  let isDiskInMap := bool_decide (is_Some (diskMap !! diskURI)) in
  let? (used, lun) := used_luns diskURI isDiskInMap disks (replicate maxLUN false) (-1) in
  if negb isDiskInMap && (lun <? 0)
  then Err (ENew ("could not find disk(" +:+ diskURI +:+ ") in current disk list(len: "
                  +:+ Itoa (Z.of_nat (length disks)) +:+ ") nor in diskMap(map)"))
  else if bool_decide (size diskMap = 0%nat) then Ok (lun, diskMap)
  else
    let diskLuns := free_luns (size diskMap) 0 (mark_occupied occupiedLuns used) in
    if negb (length diskLuns =? size diskMap)%nat
    then Err (ENew ("could not find enough disk luns(current: "
                    +:+ Itoa (Z.of_nat (length diskLuns)) +:+ ") for diskMap(map, len="
                    +:+ Itoa (Z.of_nat (size diskMap)) +:+ "), diskURI(" +:+ diskURI +:+ ")"))
    else
      let? (lun, diskMap') := assign_luns diskURI (map_order diskMap) diskLuns lun diskMap in
      if lun <? 0
      then Err (ENew ("could not find lun of diskURI(" +:+ diskURI +:+ "), diskMap(map)"))
      else Ok (lun, diskMap').

  (** [azuredisk/azure_controller_common.go AttachDisk 283-296] The batch is cut
      down to the disks the VM still takes: the first [removeDisks] entries that
      Go visits are deleted. *)
Fixpoint remove_disks (l : list (string * option AttachDiskOptions)) (removeDisks : Z)
    (diskMap : DiskMap) : DiskMap :=
  match l with
  | [] => diskMap
  | (uri, options) :: l' =>
      if removeDisks =? 0 then diskMap
      else remove_disks l' (removeDisks - 1)
             (match options with Some _ => delete uri diskMap | None => diskMap end)
  end.
End luns.

(** ** The controller *)
(** The points at which other goroutines run. *)
Inductive point := PLock (entry : string) | PCall.

Section controller.
  Context {W : Type} `{!Cloud W} `{MapOrder}.
  Context (cfg : CommonConfig) (others : point → CState W → CState W).
  Local Notation C := (M (CState W)).

  (** A call of a service: the world changes, and so may the shared state. *)
Definition ext {A} (m : M W A) : C A := λ s,
  let '(r, w) := m (world s) in (r, others PCall (set_world w s)).

  (** [azuredisk/util.go LockEntry] The other goroutines run until the entry is
      free. *)
Definition LockEntry (entry : string) : C unit := λ s,
  let s := others (PLock entry) s in (Ok (), set_held ({[entry]} ∪ held s) s).
  (** [azuredisk/util.go UnlockEntry] *)
Definition UnlockEntry (entry : string) (s : CState W) : CState W :=
  set_held (held s ∖ {[entry]}) s.
  (** [lockMap.LockEntry(entry); defer lockMap.UnlockEntry(entry)] *)
Definition with_lock {A} (entry : string) (body : C A) : C A :=
  let! _ := LockEntry entry in defer (UnlockEntry entry) body.

  (** [azuredisk/azure_controller_common.go batchAttachDiskRequest] A first
      request for the disk is kept over later ones. *)
Definition batchAttachDiskRequest (diskURI nodeName : string) (options : AttachDiskOptions)
    : C Z :=
  with_lock (nodeName +:+ attachDiskMapKeySuffix)
    (let! s := get in
     let diskMap := default ∅ (attachDiskMap s !! nodeName) in
     let diskMap := match diskMap !! diskURI with
                    | Some _ => diskMap
                    | None => <[diskURI := Some options]> diskMap
                    end in
     let! _ := modify (set_attachDiskMap (<[nodeName := diskMap]> (attachDiskMap s))) in
     ret (Z.of_nat (size diskMap))).

  (** [azuredisk/azure_controller_common.go retrieveAttachBatchedDiskRequests] *)
Definition retrieveAttachBatchedDiskRequests (nodeName diskURI : string) : C DiskMap :=
  with_lock (nodeName +:+ attachDiskMapKeySuffix)
    (let! s := get in
     match attachDiskMap s !! nodeName with
     | None => ret ∅
     | Some diskMap =>
         match diskMap !! diskURI with
         | None => ret ∅
         | Some _ =>
             let! _ := modify (set_attachDiskMap (<[nodeName := ∅]> (attachDiskMap s))) in
             ret diskMap
         end
     end).

  (** [azuredisk/azure_controller_common.go batchDetachDiskRequest] *)
Definition batchDetachDiskRequest (diskName diskURI nodeName : string) : C Z :=
  with_lock (nodeName +:+ detachDiskMapKeySuffix)
    (let! s := get in
     let diskMap := default ∅ (detachDiskMap s !! nodeName) in
     let diskMap := match diskMap !! diskURI with
                    | Some _ => diskMap
                    | None => <[diskURI := diskName]> diskMap
                    end in
     let! _ := modify (set_detachDiskMap (<[nodeName := diskMap]> (detachDiskMap s))) in
     ret (Z.of_nat (size diskMap))).

  (** [azuredisk/azure_controller_common.go retrieveDetachBatchedDiskRequests] *)
Definition retrieveDetachBatchedDiskRequests (nodeName diskURI : string)
    : C (gmap string string) :=
  with_lock (nodeName +:+ detachDiskMapKeySuffix)
    (let! s := get in
     match detachDiskMap s !! nodeName with
     | None => ret ∅
     | Some diskMap =>
         match diskMap !! diskURI with
         | None => ret ∅
         | Some _ =>
             let! _ := modify (set_detachDiskMap (<[nodeName := ∅]> (detachDiskMap s))) in
             ret diskMap
         end
     end).

  (** [azuredisk/azure_controller_common.go getDetachDiskRequestNum] *)
Definition getDetachDiskRequestNum (nodeName : string) : C Z :=
  with_lock (nodeName +:+ detachDiskMapKeySuffix)
    (let! s := get in
     ret (match detachDiskMap s !! nodeName with
          | Some diskMap => Z.of_nat (size diskMap)
          | None => 0
          end)).

  (** [azuredisk/azure_controller_common.go GetNodeDataDisks] *)
Definition GetNodeDataDisks (nodeName : string)
    : C (list DataDisk * option string * option gerr) :=
  let! r := try (ext (GetNodeVMSet nodeName)) in
  match r with
  | inl e => ret ([], None, Some e)
  | inr vmset => ext (vm_GetDataDisks vmset nodeName)
  end.

  (** [azuredisk/azure_controller_common.go GetDiskLun] The LUN, the state of
      the VM and the error, which come back together. *)
Definition GetDiskLun (diskName diskURI nodeName : string) : C (Z * option string * option gerr) :=
  let! (disks, provisioningState, err) := GetNodeDataDisks nodeName in
  match err with
  | Some e => ret (-1, provisioningState, Some e)
  | None =>
      match find_lun diskName diskURI nodeName disks with
      | Ok lun => ret (lun, provisioningState, None)
      | Err e => ret (-1, provisioningState, Some e)
      | Panic => panic
      end
  end.

  (** [azuredisk/azure_controller_common.go SetDiskLun] *)
Definition SetDiskLun (nodeName diskURI : string) (diskMap : DiskMap) (occupiedLuns : list Z)
    : C (Z * DiskMap) :=
  let! (disks, _, err) := GetNodeDataDisks nodeName in
  match err with
  | Some e => fail e
  | None => lift (allocate_luns disks diskURI diskMap occupiedLuns)
  end.

  (** [azuredisk/azure_controller_common.go verifyAttach] *)
Definition verifyAttach (diskName diskURI nodeName : string) : C Z :=
  let! (lun, vmState, err) := GetDiskLun diskName diskURI nodeName in
  match err with
  | Some e => fail (EWrap ("disk(" +:+ diskURI +:+ ") could not be found on node(" +:+ nodeName
                           +:+ "), vmState: " +:+ ptr_Deref vmState "" +:+ ", error: ") e "")
  | None => ret lun
  end.

  (** [azuredisk/azure_controller_common.go verifyDetach] *)
Definition verifyDetach (diskName diskURI nodeName : string) : C unit :=
  let! (lun, vmState, err) := GetDiskLun diskName diskURI nodeName in
  match err with
  | Some e => if Contains (Error e) CannotFindDiskLUN then ret () else fail e
  | None => fail (ENew ("disk(" +:+ diskURI +:+ ") is still attached to node(" +:+ nodeName
                        +:+ ") on lun(" +:+ Itoa lun +:+ "), vmState: "
                        +:+ ptr_Deref vmState ""))
  end.

  (** [azuredisk/azure_controller_common.go pollForDetachCompletion] *)
Definition pollForDetachCompletion (detachCtx : Ctx) (diskName diskURI nodeName : string)
    (vmset : VMSet) : C unit :=
  ExponentialBackoffWithContext (ext (ctx_Err detachCtx)) (λ d, ext (ctx_Wait detachCtx d))
    (fst defaultBackOff) (snd defaultBackOff)
    (let! _ := try (ext (vm_DeleteCacheForNode vmset nodeName)) in
     let! (_, _, err) := GetDiskLun diskName diskURI nodeName in
     match err with
     | Some e => if Contains (Error e) CannotFindDiskLUN then ret true
                 else if Contains (Error e) detachInProgress then ret false
                 else fail e
     | None => ret false
     end).

  (** [azuredisk/azure_controller_common.go isMaxDataDiskCountExceeded] The read
      of the cache gives no error; its value is not looked at. *)
Definition isMaxDataDiskCountExceeded (nodeName : string) : C bool :=
  let! now := ext Now in
  let! s := get in
  let '(_, c) := cache_Get (300 * Second) now nodeName (hitMaxDataDiskCountCache s) in
  let! _ := modify (set_hitMax c) in
  ret true.

  (** [azuredisk/azure_controller_common.go waitForDiskManagedByTobeRemoved 825-853] *)
Definition disk_released (subsID resourceGroup diskName diskURI nodeName : string) : C bool :=
  let! r := try (ext (GetDiskClientForSub subsID)) in
  match r with
  | inl e => fail (EWrap "error making diskClient while verifying detach: " e "")
  | inr diskclient =>
      let! r := try (ext (disk_Get diskclient resourceGroup diskName)) in
      match r with
      | inl e => fail (EWrap "error getting disk: " e "")
      | inr disk =>
          let! disk := lift (deref disk) in
          match ManagedBy disk with
          | None => ret true
          | Some managedBy =>
              let! r := try (ext (vm_GetNodeNameByProviderID cloud_VMSet managedBy)) in
              match r with
              | inl e => if errors_Is e InstanceNotFound || isInstanceNotFoundError e
                         then ret false
                         else fail (EWrap ("error resolving node name from providerID "
                                           +:+ managedBy +:+ ": ") e "")
              | inr attachedNode => ret (negb (EqualFold attachedNode nodeName))
              end
          end
      end
  end.
  (** [azuredisk/azure_controller_common.go waitForDiskManagedByTobeRemoved] *)
Definition waitForDiskManagedByTobeRemoved (ctx : Ctx) (diskURI nodeName : string) : C unit :=
  if negb (WaitForDetachDiskComplete cfg) then ret ()
  else
    let! (subsID, resourceGroup, diskName) := lift (GetInfoFromURI diskURI) in
    ExponentialBackoffWithContext (ext (ctx_Err ctx)) (λ d, ext (ctx_Wait ctx d))
      (fst defaultBackOff) (snd defaultBackOff)
      (disk_released subsID resourceGroup diskName diskURI nodeName).

  (** [azuredisk/azure_controller_common.go UpdateVM] *)
Definition UpdateVM (nodeName : string) : C unit :=
  let! vmset := ext (GetNodeVMSet nodeName) in
  let node := ToLower nodeName in
  let! _ := LockEntry node in
  defer (UnlockEntry node)
    (let! r := try (ext (vm_UpdateVM vmset nodeName)) in
     let! _ := try (ext (vm_DeleteCacheForNode vmset nodeName)) in
     match r with inl e => fail e | inr _ => ret () end).

  (** [azuredisk/azure_controller_common.go AttachDisk 146-174] A disk that ARM
      reports as attached: its LUN when it is attached to this node ([Some]), a
      dangling-attach error when to another one; [None] when the disk is free
      or shared. *)
Definition attached_elsewhere (diskName diskURI nodeName : string) (disk : option Disk)
    : C (option Z) :=
  match disk ≫= ManagedBy with
  | None => ret None
  | Some managedBy =>
      if default 1 ((disk ≫= disk_Properties) ≫= p_MaxShares) <=? 1 then
        let! vmset := ext (GetNodeVMSet nodeName) in
        let! attachedNode := ext (vm_GetNodeNameByProviderID vmset managedBy) in
        if EqualFold nodeName attachedNode then
          let! _ := UpdateVM nodeName in
          let! (lun, _, err) := GetDiskLun diskName diskURI nodeName in
          match err with Some e => fail e | None => ret (Some lun) end
        else fail (EDangling ("disk(" +:+ diskURI +:+ ") already attached to node(" +:+ managedBy
               +:+ "), could not be attached to node(" +:+ nodeName +:+ ")") attachedNode "")
      else ret None
  end.

  (** [azuredisk/azure_controller_common.go AttachDisk 143-206] The options of
      the request, from the properties of the disk. *)
Definition attach_options (diskName diskURI cachingMode : string) (disk : option Disk)
    : res AttachDiskOptions :=
  let prop := disk ≫= disk_Properties in
  let unshared := default 1 (prop ≫= p_MaxShares) <=? 1 in
  let cachingMode := effectiveCachingModeForDisk cachingMode (prop ≫= DiskSizeGB) in
  let des := default "" ((prop ≫= p_Encryption) ≫= enc_DiskEncryptionSetID) in
  let? _ := match prop ≫= DiskState with
            | Some st =>
                if negb (String.eqb st armcompute.DiskStateUnattached) && unshared
                then Err (ENew ("state of disk(" +:+ diskURI +:+ ") is " +:+ st
                       +:+ ", not in expected " +:+ armcompute.DiskStateUnattached +:+ " state"))
                else Ok ()
            | None => Ok ()
            end in
  let cachingMode := match disk ≫= disk_SKU with
                     | Some (Some n) => if String.eqb n armcompute.DiskStorageAccountTypesPremiumV2LRS
                                        then armcompute.CachingTypesNone else cachingMode
                     | _ => cachingMode
                     end in
  let wa := match disk ≫= (λ d, disk_Tags d !! consts.WriteAcceleratorEnabled) with
            | Some (Some v) => EqualFold v "true"
            | _ => false
            end in
  Ok (MkAttachDiskOptions cachingMode diskName des wa (-1)).

  (** [azuredisk/azure_controller_common.go AttachDisk 214-231] Wait up to 30 s
      for the detaches of the node; tells whether it waited: the first evaluation
      of the polling, and the rest of it.  A failure to wait is only logged. *)
Definition wait_for_detach (ctx : Ctx) (node nodeName : string) : C bool :=
  if WaitForDetach cfg then
    let! exceeded := isMaxDataDiskCountExceeded nodeName in
    if exceeded then
      let! now := ext Now in
      let ctx' := WithTimeout now (30 * Second) ctx in
      let! n0 := getDetachDiskRequestNum node in
      if n0 =? 0 then ret false
      else
        let! e := ext (ctx_Wait ctx' (2 * Second)) in
        let! _ := match e with
                  | Some _ => ret (inr ())
                  | None => try (PollUntilContextTimeout (λ d, ext (ctx_Wait ctx' d)) 15 (2 * Second)
                              (let! n := getDetachDiskRequestNum node in ret (n =? 0)))
                  end in
        ret true
    else ret false
  else ret false.

  (** [azuredisk/azure_controller_common.go AttachDisk 244-270] *)
Definition numDisksAllowed (nodeName : string) : C Z :=
  let maxInt := 2 ^ 63 - 1 in
  if CheckDiskCountForBatching cfg then
    let! r := try (ext (GetNodeInfo nodeName)) in
    match r with
    | inl _ => ret maxInt
    | inr (_, instanceType) =>
        if String.eqb instanceType "" then ret maxInt
        else match GetMaxDataDiskCount instanceType with
             | (_, false) => ret maxInt
             | (maxNumDisks, true) =>
                 let! (attachedDisks, _, err) := GetNodeDataDisks nodeName in
                 match err with
                 | Some e => fail e
                 | None => let n := Z.of_nat (length attachedDisks) in
                           ret (if n <? maxNumDisks then maxNumDisks - n else 0)
                 end
             end
    end
  else ret maxInt.

  (** Run a call and, when it returns an error, a clean-up. *)
Definition on_error {A} (cleanup : C unit) (body : C A) : C A :=
  let! r := try body in
  match r with
  | inl e => let! _ := try cleanup in fail e
  | inr a => ret a
  end.

  (** [azuredisk/azure_controller_common.go AttachDisk 323-348] The call that
      attaches the batch, its retry when it was preempted, and the check that
      the disk is there. *)
Definition attach_and_verify (vmset : VMSet) (diskName diskURI node nodeName : string) (lun : Z)
    (diskMap : DiskMap) : C Z :=
  let! r := try (ext (vm_AttachDisk vmset nodeName diskMap)) in
  let! _ := match r with
            | inr _ => ret ()
            | inl e =>
                let! _ := if Contains (Error e) MaximumDataDiskExceededMsg
                          then let! now := ext Now in
                               modify (λ s, set_hitMax (cache_Set now node
                                                          (hitMaxDataDiskCountCache s)) s)
                          else ret () in
                if Contains (Error e) "OperationPreempted" then ext (vm_UpdateVM vmset nodeName)
                else fail e
            end in
  if DisableDiskLunCheck cfg then ret lun else verifyAttach diskName diskURI nodeName.

  (** [azuredisk/azure_controller_common.go AttachDisk 244-348] What [AttachDisk]
      does while it holds the lock of the node, after the pause. *)
Definition attach_batch (diskName diskURI node nodeName : string) (ptr : positive)
    (occupiedLuns : list Z) : C Z :=
  let diskuri := ToLower diskURI in
  let! allowed := numDisksAllowed nodeName in
  let! diskMap := retrieveAttachBatchedDiskRequests node diskuri in
  if bool_decide (size diskMap = 0%nat) then verifyAttach diskName diskURI nodeName
  else
    let removeDisks := Z.of_nat (size diskMap) - allowed in
    let diskMap := if 0 <? removeDisks then remove_disks (map_order diskMap) removeDisks diskMap
                   else diskMap in
    let! (lun, diskMap) := SetDiskLun nodeName diskuri diskMap occupiedLuns in
    let! vmset := ext (GetNodeVMSet nodeName) in
    let! _ := modify (λ s, set_diskStateMap_ptr (<[ptr := "attaching"]> (diskStateMap_ptr s)) s) in
    defer (λ s, set_diskStateMap_ptr (delete ptr (diskStateMap_ptr s)) s)
      (on_error (ext (vm_DeleteCacheForNode vmset nodeName))
         (attach_and_verify vmset diskName diskURI node nodeName lun diskMap)).

  (** [azuredisk/azure_controller_common.go AttachDisk 236-242] The pause of the
      first request of a batch. *)
Definition batch_pause (waited : bool) (requestNum : Z) : C unit :=
  let! s := get in
  if negb waited && (0 <? AttachDetachInitialDelayInMs s) && (requestNum =? 1)
  then ext (Sleep (AttachDetachInitialDelayInMs s * Millisecond)) else ret ().

  (** [azuredisk/azure_controller_common.go AttachDisk] [ptr] is the address of
      [disk], the key under which its state is stored. *)
Definition AttachDisk (ctx : Ctx) (diskName diskURI nodeName cachingMode : string)
    (disk : option Disk) (ptr : positive) (occupiedLuns : list Z) : C Z :=
  let! already := attached_elsewhere diskName diskURI nodeName disk in
  match already with
  | Some lun => ret lun
  | None =>
      let! options := lift (attach_options diskName diskURI cachingMode disk) in
      let node := ToLower nodeName in
      let diskuri := ToLower diskURI in
      let! requestNum := batchAttachDiskRequest diskuri node options in
      let! waited := wait_for_detach ctx node nodeName in
      with_lock node
        (let! _ := batch_pause waited requestNum in
         attach_batch diskName diskURI node nodeName ptr occupiedLuns)
  end.

  (** [azuredisk/azure_controller_common.go DetachDisk 467-495] The time limits
      of a detach: that of the whole regular detach, and the earlier one after
      which the driver polls the VM itself. *)
Definition detach_timeouts (now : Z) (ctx : Ctx) : Z * Z :=
  let t := DetachOperationMinTimeoutInSeconds cfg * Second in
  let detachContextTimeout :=
    match ctx_Deadline ctx with
    | Some d => let halfRemaining := Z.quot (d - now) 2 in
                if t <? halfRemaining then halfRemaining else t
    | None => t
    end in
  let v := VMSSDetachTimeoutInSeconds cfg * Second in
  (detachContextTimeout,
   if (v =? 0) || (detachContextTimeout <? v) then detachContextTimeout else v).

  (** [azuredisk/azure_controller_common.go DetachDisk 467-535] The regular
      detach, the polling, the forced detach and the check that the disk is
      gone. *)
Definition detach_batch (ctx : Ctx) (vmset : VMSet) (diskName diskURI nodeName : string)
    (diskMap : gmap string string) : C unit :=
  let! now := ext Now in
  let '(detachTimeout, earlyTimeout) := detach_timeouts now ctx in
  let detachCtx := WithTimeout now detachTimeout ctx in
  let earlyExitCtx := WithTimeout now earlyTimeout detachCtx in
  let finish := if DisableDiskLunCheck cfg then ret ()
                else verifyDetach diskName diskURI nodeName in
  let! r := try (ext (vm_DetachDisk earlyExitCtx vmset nodeName diskMap false)) in
  match r with
  | inr _ => finish
  | inl e =>
      if isInstanceNotFoundError e then waitForDiskManagedByTobeRemoved ctx diskURI nodeName
      else if preemptedByForceOperation e then verifyDetach diskName diskURI nodeName
      else
        let! r := if errors_Is e CtxDeadlineExceeded
                  then try (pollForDetachCompletion detachCtx diskName diskURI nodeName vmset)
                  else ret (inl e) in
        let! r := match r with
                  | inr _ => ret (inr ())
                  | inl e => if ForceDetachBackoff cfg
                             then try (ext (vm_DetachDisk ctx vmset nodeName diskMap true))
                             else ret (inl e)
                  end in
        match r with
        | inl e => fail e
        | inr _ => finish
        end
  end.

  (** [azuredisk/azure_controller_common.go DetachDisk] *)
Definition DetachDisk (ctx : Ctx) (diskName diskURI nodeName : string) : C unit :=
  let! r := try (ext (InstanceID nodeName)) in
  match r with
  | inl e =>
      if errors_Is e InstanceNotFound then waitForDiskManagedByTobeRemoved ctx diskURI nodeName
      else fail (EWrap ("failed to get azure instance id for node " +:+ quote nodeName +:+ ": ") e "")
  | inr _ =>
      let! vmset := ext (GetNodeVMSet nodeName) in
      let node := ToLower nodeName in
      let formattedDiskURI := ToLower diskURI in
      let! batchCount := batchDetachDiskRequest diskName formattedDiskURI node in
      with_lock node
        (let! _ := batch_pause false batchCount in
         let! diskMap := retrieveDetachBatchedDiskRequests node formattedDiskURI in
         if bool_decide (size diskMap = 0%nat) then verifyDetach diskName diskURI nodeName
         else
           let! _ := modify (λ s, set_diskStateMap
                        (<[formattedDiskURI := "detaching"]> (diskStateMap s)) s) in
           defer (λ s, set_diskStateMap (delete formattedDiskURI (diskStateMap s)) s)
             (detach_batch ctx vmset diskName diskURI nodeName diskMap))
  end.
End controller.
