(* ===== verification/Moments.v ===== *)
(** * What happens during a call

    The driver's operations are functions on the state; what a caller may rely
    on is often that something {e happened} between the start and the end of an
    operation: the VM was read, a disk was created.  [later] relates a state to
    those that can follow it: the driver has called services, other goroutines
    have run, the driver has changed its own fields.  [runs m r s s'] says that
    between [s] and [s'] the operation [m] was run and gave [r].  [moves m] is
    what makes these statements compose: [m] does nothing else than steps. *)
From stdpp Require Import gmap strings list.
From Stdlib Require Import ZArith Lia.
From S2P Require Import Prelude GoErr AzureTypes Cloud ControllerCommon.

Section moments.
  Context {W : Type} (calls : ∀ A, M W A → Prop).
  Context (others : point → CState W → CState W).
  Implicit Types s : CState W.

Inductive step : CState W → CState W → Prop :=
  | step_call A (m : M W A) s : calls A m → step s (ext others m s).2
  | step_others p s : step s (others p s)
  | step_own s s' : world s' = world s → step s s'.

Definition later : CState W → CState W → Prop := rtc step.

Definition runs {A} (m : M (CState W) A) (r : res A) (s s' : CState W) : Prop :=
  ∃ s1 s2, later s s1 ∧ m s1 = (r, s2) ∧ later s2 s'.

(** [m] is made of steps, whatever way it ends. *)
Definition moves {A} (m : M (CState W) A) : Prop := ∀ s, later s (m s).2.

(** A fact that every step keeps. *)
Definition steady (Q : CState W → Prop) : Prop := ∀ s s', step s s' → Q s → Q s'.

#[global] Instance later_preorder : PreOrder later.
Proof. unfold later. apply _. Qed.

Lemma steady_later Q s s' : steady Q → later s s' → Q s → Q s'.
Proof. intros HQ. induction 1; eauto. Qed.
Lemma later_steady s : steady (later s).
Proof. intros s1 s2 H1 H2. by eapply rtc_r. Qed.

Lemma later_step s s' : step s s' → later s s'.
Proof. apply rtc_once. Qed.
Lemma later_own s s' : world s' = world s → later s s'.
Proof. intros. by apply later_step, step_own. Qed.

Lemma runs_here {A} (m : M (CState W) A) r s s' : m s = (r, s') → runs m r s s'.
Proof. intros. exists s, s'. split_and!; [apply rtc_refl|done|apply rtc_refl]. Qed.
Lemma runs_mono {A} (m : M (CState W) A) r s0 s s' s1 :
  later s0 s → later s' s1 → runs m r s s' → runs m r s0 s1.
Proof. intros H0 H1 (s2 & s3 & ? & ? & ?). exists s2, s3. split_and!; [by trans s|done|by trans s']. Qed.

(** ** Computations that are made of steps *)
Lemma moves_keeps {A} (m : M (CState W) A) : moves m ↔ ∀ s, keeps (later s) m.
Proof.
  split.
  - intros Hm s s1 H1. specialize (Hm s1). destruct (m s1) as [r s2]. simpl in *. by trans s1.
  - intros Hm s. specialize (Hm s s (rtc_refl _ _)). by destruct (m s).
Qed.
Lemma keeps_moves {A} (Q : CState W → Prop) (m : M (CState W) A) : steady Q → moves m → keeps Q m.
Proof. intros HQ Hm s Hs. specialize (Hm s). destruct (m s). simpl in *. by eapply steady_later. Qed.

Lemma moves_ret {A} (a : A) : moves (ret a).
Proof. intros s. apply rtc_refl. Qed.
Lemma moves_fail {A} e : moves (fail (A:=A) e).
Proof. intros s. apply rtc_refl. Qed.
Lemma moves_panic {A} : moves (panic (A:=A)).
Proof. intros s. apply rtc_refl. Qed.
Lemma moves_get : moves get.
Proof. intros s. apply rtc_refl. Qed.
Lemma moves_lift {A} (r : res A) : moves (lift r).
Proof. intros s. apply rtc_refl. Qed.
Lemma moves_guard b e : moves (guard_else b e).
Proof. destruct b; intros s; apply rtc_refl. Qed.
Lemma moves_bind {A B} (m : M (CState W) A) (f : A → M (CState W) B) :
  moves m → (∀ a, moves (f a)) → moves (bind m f).
Proof.
  rewrite !moves_keeps. intros Hm Hf s. apply keeps_bind; [done|]. intros a. by apply (proj1 (moves_keeps _) (Hf a)).
Qed.
Lemma moves_try {A} (m : M (CState W) A) : moves m → moves (try m).
Proof. rewrite !moves_keeps. intros Hm s. by apply keeps_try. Qed.
Lemma moves_modify f : (∀ s, world (f s) = world s) → moves (modify f).
Proof. intros Hf s. apply later_own, Hf. Qed.
Lemma moves_defer {A} f (m : M (CState W) A) : (∀ s, world (f s) = world s) → moves m → moves (defer f m).
Proof.
  intros Hf Hm s. unfold defer. specialize (Hm s). destruct (m s). simpl in *. etrans; [done|]. by apply later_own.
Qed.
Lemma moves_ext {A} (m : M W A) : calls A m → moves (ext others m).
Proof. intros Hm s. by apply later_step, step_call. Qed.
Lemma moves_LockEntry e : moves (LockEntry others e).
Proof. intros s. etrans; [apply later_step, (step_others (PLock e))|]. by apply later_own. Qed.
Lemma moves_with_lock {A} e (m : M (CState W) A) : moves m → moves (with_lock others e m).
Proof. intros Hm. apply moves_bind; [apply moves_LockEntry|]. intros _. by apply moves_defer. Qed.
Lemma moves_on_error {A} (c : M (CState W) unit) (b : M (CState W) A) :
  moves c → moves b → moves (on_error c b).
Proof.
  intros Hc Hb. apply moves_bind; [by apply moves_try|]. intros [e|a]; [|apply moves_ret].
  apply moves_bind; [by apply moves_try|]. intros _. apply moves_fail.
Qed.
Lemma moves_backoff ce cw n t (cond : M (CState W) bool) :
  moves ce → (∀ t, moves (cw t)) → moves cond → moves (ExponentialBackoffWithContext ce cw n t cond).
Proof.
  setoid_rewrite moves_keeps. intros He Hw Hc s. apply keeps_backoff; [done| |done]. intros. apply Hw.
Qed.
Lemma moves_poll cw n t (cond : M (CState W) bool) :
  (∀ t, moves (cw t)) → moves cond → moves (PollUntilContextTimeout cw n t cond).
Proof. setoid_rewrite moves_keeps. intros Hw Hc s. apply keeps_poll; [intros; apply Hw|done]. Qed.

(** ** A successful computation, step by step *)
Lemma bind_later {A B} (m : M (CState W) A) (f : A → M (CState W) B) s b s' :
  moves m → bind m f s = (Ok b, s') →
  ∃ a s1, later s s1 ∧ m s = (Ok a, s1) ∧ f a s1 = (Ok b, s').
Proof.
  intros Hm (a & s1 & Ha & Hf)%bind_ok. exists a, s1. split_and!; [|done..].
  specialize (Hm s). by rewrite Ha in Hm.
Qed.
Lemma moves_later {A} (m : M (CState W) A) s r s' : moves m → m s = (r, s') → later s s'.
Proof. intros Hm E. specialize (Hm s). by rewrite E in Hm. Qed.

Lemma with_lock_later {A} e (m : M (CState W) A) s a s' :
  with_lock others e m s = (Ok a, s') →
  ∃ s1 s2, later s s1 ∧ m s1 = (Ok a, s2) ∧ later s2 s'.
Proof.
  intros (? & s1 & Hl & _ & H2)%(bind_later _ _ _ _ _ (moves_LockEntry e)). unfold defer in H2.
  destruct (m s1) as [r s2] eqn:E. injection H2 as -> <-. exists s1, s2. split_and!; [done..|].
  by apply later_own.
Qed.
Lemma backoff_later ce cw n t (cond : M (CState W) bool) s s' :
  moves ce → (∀ t, moves (cw t)) → moves cond →
  ExponentialBackoffWithContext ce cw n t cond s = (Ok (), s') →
  ∃ s1, later s s1 ∧ cond s1 = (Ok true, s').
Proof.
  intros He Hw Hc. revert t s. induction n as [|n IH]; intros t s E; [done|]. cbn in E.
  apply bind_later in E as ([e|] & s1 & H1 & _ & E); [done| |done].
  apply bind_later in E as ([] & s2 & H2 & Ec & E); [injection E as <-; eauto| |done].
  destruct n; [done|]. apply bind_later in E as ([e|] & s3 & H3 & _ & E); [done| |apply Hw].
  apply IH in E as (s4 & H4 & E). exists s4. split; [|done]. by trans s1; [|trans s2; [|trans s3]].
Qed.
End moments.

(** More calls make more steps. *)
Lemma later_calls {W} (c1 c2 : ∀ A, M W A → Prop) others s s' :
  (∀ A m, c1 A m → c2 A m) → later c1 others s s' → later c2 others s s'.
Proof.
  intros Hc. induction 1 as [s|s s1 s2 [A m s0 Hm|p s0|s0 s3 Hw] _ IH]; [apply rtc_refl|..].
  - eapply rtc_l; [by apply step_call, Hc|done].
  - eapply rtc_l; [apply step_others|done].
  - eapply rtc_l; [by apply step_own|done].
Qed.
Lemma runs_calls {W A} (c1 c2 : ∀ A, M W A → Prop) others (m : M (CState W) A) r s s' :
  (∀ A m, c1 A m → c2 A m) → runs c1 others m r s s' → runs c2 others m r s s'.
Proof. intros Hc (s1 & s2 & ? & ? & ?). exists s1, s2. split_and!; [by eapply later_calls|done|by eapply later_calls]. Qed.

#[export] Hint Resolve moves_ret moves_fail moves_panic moves_get moves_lift moves_guard
  moves_bind moves_try moves_with_lock moves_on_error moves_backoff moves_poll : moves_db.

(** Goes through the structure of a computation; calls of services are left to
    the hints. *)
Ltac moves_step :=
  match goal with
  | |- moves _ _ (ret _) => apply moves_ret
  | |- moves _ _ (fail _) => apply moves_fail
  | |- moves _ _ panic => apply moves_panic
  | |- moves _ _ get => apply moves_get
  | |- moves _ _ (lift _) => apply moves_lift
  | |- moves _ _ (bind _ _) => apply moves_bind; [|intros ?]
  | |- moves _ _ (try _) => apply moves_try
  | |- moves _ _ (on_error _ _) => apply moves_on_error
  | |- moves _ _ (ext _ _) => apply moves_ext
  | |- moves _ _ (modify _) => apply moves_modify; by intros
  | |- moves _ _ (defer _ _) => apply moves_defer; [by intros|]
  | |- moves _ _ (with_lock _ _ _) => apply moves_with_lock
  | |- moves _ _ (LockEntry _ _) => apply moves_LockEntry
  | |- moves _ _ (ExponentialBackoffWithContext _ _ _ _ _) => apply moves_backoff; [|intros ?|]
  | |- moves _ _ (PollUntilContextTimeout _ _ _ _) => apply moves_poll; [intros ?|]
  | |- moves _ _ (match ?x with _ => _ end) => destruct x eqn:?
  | |- moves _ _ (let '_ := ?x in _) => destruct x
  end.
Ltac moves_auto := cbv zeta; repeat moves_step; auto with moves_db.

(** ** The operations of the cloud *)
Section calls.
  Context {W : Type} `{!Cloud W}.

(** The operations that attaching and detaching use; [force] tells whether a
    forced detach is among them. *)
Inductive attach_call (force : bool) : ∀ A, M W A → Prop :=
  | call_Now : attach_call force _ Now
  | call_ctx_Err c : attach_call force _ (ctx_Err c)
  | call_ctx_Wait c d : attach_call force _ (ctx_Wait c d)
  | call_Sleep d : attach_call force _ (Sleep d)
  | call_GetNodeVMSet n : attach_call force _ (GetNodeVMSet n)
  | call_InstanceID n : attach_call force _ (InstanceID n)
  | call_GetNodeName v p : attach_call force _ (vm_GetNodeNameByProviderID v p)
  | call_GetDataDisks v n : attach_call force _ (vm_GetDataDisks v n)
  | call_AttachDisk v n m : attach_call force _ (vm_AttachDisk v n m)
  | call_DetachDisk c v n m : attach_call force _ (vm_DetachDisk c v n m false)
  | call_ForceDetachDisk c v n m : force = true → attach_call force _ (vm_DetachDisk c v n m true)
  | call_UpdateVM v n : attach_call force _ (vm_UpdateVM v n)
  | call_DeleteCache v n : attach_call force _ (vm_DeleteCacheForNode v n)
  | call_GetDiskClient sub : attach_call force _ (GetDiskClientForSub sub)
  | call_disk_Get c r n : attach_call force _ (disk_Get c r n)
  | call_GetNodeInfo n : attach_call force _ (GetNodeInfo n).

(** All operations of the cloud. *)
Inductive cloud_call : ∀ A, M W A → Prop :=
  | call_attach A m : attach_call true A m → cloud_call A m
  | call_disk_CreateOrUpdate c r n d : cloud_call _ (disk_CreateOrUpdate c r n d)
  | call_disk_Patch c r n u : cloud_call _ (disk_Patch c r n u)
  | call_disk_Delete c r n : cloud_call _ (disk_Delete c r n)
  | call_disk_List c r : cloud_call _ (disk_List c r)
  | call_GetSnapshotClient sub : cloud_call _ (GetSnapshotClientForSub sub)
  | call_snapshot_Get c r n : cloud_call _ (snapshot_Get c r n)
  | call_snapshot_CreateOrUpdate c r n d : cloud_call _ (snapshot_CreateOrUpdate c r n d)
  | call_snapshot_Delete c r n : cloud_call _ (snapshot_Delete c r n)
  | call_snapshot_List c r : cloud_call _ (snapshot_List c r).

Lemma attach_call_weaken force A (m : M W A) : attach_call force A m → cloud_call A m.
Proof. intros Hm. apply call_attach. destruct Hm; by constructor. Qed.
End calls.
#[export] Hint Constructors attach_call cloud_call : moves_db.
