(* ===== verification/LunProofs.v ===== *)
(** * The LUNs that [SetDiskLun] assigns

    The properties of [allocate_luns], the part of [SetDiskLun] that works on
    the data disks of the VM: the LUNs are distinct, in range and free. *)
From stdpp Require Import gmap strings list.
From Stdlib Require Import ZArith Lia.
From S2P Require Import Prelude GoStrings GoErr Consts Util AzureTypes DiskUtils Cloud ControllerCommon.
Local Open Scope string_scope.
Local Open Scope Z_scope.
Local Open Scope list_scope.

(** A LUN that the array of flags marks as used. *)
Definition flagged (used : list bool) (l : Z) : Prop :=
  0 ≤ l ∧ used !! Z.to_nat l = Some true.

Lemma mark_used_Ok l used used' :
  length used = maxLUN → mark_used l used = Ok used' →
  0 ≤ l < 64 ∧ length used' = maxLUN ∧ flagged used' l ∧
  (∀ k, flagged used k → flagged used' k).
Proof.
  unfold mark_used. intros Hlen H. case_match eqn:E; [|done]. simplify_eq. bool_split.
  change (Z.of_nat maxLUN) with 64 in *.
  assert (Hl : (Z.to_nat l < length used)%nat) by (rewrite Hlen; unfold maxLUN; lia).
  split; [lia|]. split; [by rewrite length_insert|]. split.
  - split; [lia|]. by rewrite list_lookup_insert_eq.
  - intros k [Hk Hu]. split; [done|].
    destruct (decide (Z.to_nat l = Z.to_nat k)) as [->|];
      [by rewrite list_lookup_insert_eq by (by apply lookup_lt_Some in Hu)
      |by rewrite list_lookup_insert_ne].
Qed.

Lemma mark_occupied_spec occ used :
  length used = maxLUN →
  length (mark_occupied occ used) = maxLUN ∧
  (∀ k, flagged used k → flagged (mark_occupied occ used) k) ∧
  (∀ l, l ∈ occ → 0 ≤ l < 64 → flagged (mark_occupied occ used) l).
Proof.
  revert used. induction occ as [|o occ IH]; intros used Hlen; simpl.
  { split_and!; [done|done|]. by intros ? ?%elem_of_nil. }
  change (Z.of_nat maxLUN) with 64.
  set (u := if (0 <=? o) && (o <? 64) then _ else _).
  assert (Hu : length u = maxLUN ∧ (∀ k, flagged used k → flagged u k) ∧
               (0 ≤ o < 64 → flagged u o)).
  { unfold u. case_match eqn:E.
    - assert (Hm : mark_used o used = Ok (<[Z.to_nat o := true]> used)).
      { unfold mark_used. change (Z.of_nat maxLUN) with 64. by rewrite E. }
      apply mark_used_Ok in Hm as (? & ? & ? & ?); [|done]. done.
    - split_and!; [done|done|]. intros Ho. apply andb_false_iff in E as [E|E]; bool_split; lia. }
  destruct Hu as (Hl & Hmono & Ho). destruct (IH u Hl) as (H1 & H2 & H3).
  split_and!; [done|eauto|]. intros l [->|Hin]%elem_of_cons Hr; eauto.
Qed.

(** What the flags say after the data disks were looked at. *)
Lemma used_luns_Ok uri inmap disks used lun used' lun' :
  length used = maxLUN →
  used_luns uri inmap disks used lun = Ok (used', lun') →
  length used' = maxLUN ∧ (∀ k, flagged used k → flagged used' k) ∧
  (∀ d l, d ∈ disks → Lun d = Some l → 0 ≤ l < 64 ∧ flagged used' l) ∧
  (inmap = true → lun' = lun) ∧
  (lun' = lun ∨ ∃ d mid, d ∈ disks ∧ Lun d = Some lun' ∧ dd_ManagedDisk d = Some (Some mid) ∧
                         EqualFold mid uri = true).
Proof.
  revert used lun. induction disks as [|d disks IH]; intros used lun Hlen H; simpl in H.
  { simplify_eq. split_and!; auto. by intros ? ? ?%elem_of_nil. }
  destruct (Lun d) as [l|] eqn:Ed.
  - apply res_bind_ok in H as (u1 & Hm & H). apply mark_used_Ok in Hm as (Hr & Hl1 & Hf & Hmono); [|done].
    apply res_bind_ok in H as (lun1 & Hlun & H).
    destruct (IH u1 lun1 Hl1 H) as (I1 & I2 & I3 & I4 & I5).
    split_and!; [done|eauto| | |].
    + intros d' l' [->|Hin]%elem_of_cons Hd'; [|by eapply I3]. simplify_eq. eauto.
    + intros ->. rewrite (I4 eq_refl). by simplify_eq.
    + destruct I5 as [->|(d' & mid & ? & ? & ? & ?)];
        [|right; exists d', mid; split_and!; [by constructor|done..]].
      destruct inmap; [left; by simplify_eq|].
      destruct (dd_ManagedDisk d) as [[mid|]|] eqn:Em; simplify_eq/=; [|by left].
      destruct (EqualFold mid uri) eqn:Ef; [|by left].
      right. exists d, mid. split_and!; [constructor|done..].
  - destruct (IH used lun Hlen H) as (I1 & I2 & I3 & I4 & I5).
    split_and!; [done|done| |done|].
    + intros d' l' [->|Hin]%elem_of_cons Hd'; [congruence|by eapply I3].
    + destruct I5 as [->|(d' & mid & ? & ? & ? & ?)]; [by left|].
      right. exists d', mid. split_and!; [by constructor|done..].
Qed.

Lemma free_luns_spec n k used :
  0 ≤ k →
  NoDup (free_luns n k used) ∧
  (∀ l, l ∈ free_luns n k used → k ≤ l < k + Z.of_nat (length used) ∧
        used !! Z.to_nat (l - k) = Some false) ∧
  (length (free_luns n k used) ≤ Nat.max 1 n)%nat ∧
  (length (free_luns n k used) = Nat.min (Nat.max 1 n) (length (filter (λ b, b = false) used))).
Proof.
  revert n k. induction used as [|u used IH]; intros n k Hk; simpl.
  { split_and!; [constructor| |lia|lia]. by intros ? ?%elem_of_nil. }
  destruct u.
  - destruct (IH n (k + 1) ltac:(lia)) as (I1 & I2 & I3 & I4).
    rewrite filter_cons_False by done. split_and!; [done| |done|done].
    intros l Hl. destruct (I2 l Hl) as [? Hu]. split; [lia|].
    replace (Z.to_nat (l - k)) with (S (Z.to_nat (l - (k + 1)))) by lia. done.
  - rewrite filter_cons_True by done.
    assert (Hhere : ∀ l, l ∈ [k] → k ≤ l < k + Z.of_nat (S (length used)) ∧
              (false :: used) !! Z.to_nat (l - k) = Some false).
    { intros l ->%list_elem_of_singleton. split; [lia|]. by rewrite Z.sub_diag. }
    destruct n as [|[|n]];
      [split_and!; [apply NoDup_singleton|done|simpl; lia|simpl; lia]..|].
    destruct (IH (S n) (k + 1) ltac:(lia)) as (I1 & I2 & I3 & I4).
    split_and!.
    + constructor; [|done]. intros Hin. destruct (I2 _ Hin). lia.
    + intros l [->|Hl]%elem_of_cons; [apply Hhere; by apply list_elem_of_singleton|].
      destruct (I2 l Hl) as [? Hu]. split; [lia|].
      replace (Z.to_nat (l - k)) with (S (Z.to_nat (l - (k + 1)))) by lia. done.
    + cbn [length]. lia.
    + cbn [length]. lia.
Qed.

(** The entries that [assign_luns] wrote. *)
Lemma assign_luns_Ok uri l luns lun out lun' out' :
  NoDup l.*1 → length luns = length l →
  assign_luns uri l luns lun out = Ok (lun', out') →
  (∀ k, k ∉ l.*1 → out' !! k = out !! k) ∧
  (∀ k opt, (k, opt) ∈ l → ∃ o d, opt = Some o ∧ d ∈ luns ∧ out' !! k = Some (Some (set_opt_Lun d o))) ∧
  (NoDup luns → ∀ k1 k2 o1 o2, k1 ∈ l.*1 → k2 ∈ l.*1 → out' !! k1 = Some (Some o1) →
     out' !! k2 = Some (Some o2) → opt_Lun o1 = opt_Lun o2 → k1 = k2) ∧
  (lun' = lun ∧ (∀ k, k ∈ l.*1 → EqualFold k uri = false) ∨
   ∃ k o, k ∈ l.*1 ∧ EqualFold k uri = true ∧ out' !! k = Some (Some o) ∧ opt_Lun o = lun').
Proof.
  revert luns lun out. induction l as [|[k0 opt0] l IH]; intros luns lun out Hnd Hlen H; simpl in H.
  { simplify_eq. split_and!; [done| | |].
    - by intros ? ? ?%elem_of_nil.
    - by intros _ ? ? ? ? ?%elem_of_nil.
    - left. split; [done|]. by intros ? ?%elem_of_nil. }
  destruct opt0 as [o0|]; [|done]. destruct luns as [|d luns]; [done|]. simpl in Hlen.
  apply NoDup_cons in Hnd as [Hk0 Hnd].
  assert (Hlen' : length luns = length l) by lia.
  destruct (IH _ _ _ Hnd Hlen' H) as (I1 & I2 & I3 & I4).
  assert (Hk0' : out' !! k0 = Some (Some (set_opt_Lun d o0))).
  { rewrite I1 by done. apply lookup_insert_eq. }
  assert (Hd : ∀ k, k ∈ l.*1 → ∃ o d, d ∈ luns ∧ out' !! k = Some (Some (set_opt_Lun d o))).
  { intros k ([k' opt] & -> & Hin)%list_elem_of_fmap.
    destruct (I2 _ _ Hin) as (o & d' & _ & ? & ?). eauto. }
  split_and!.
  - intros k Hk. rewrite fmap_cons, not_elem_of_cons in Hk. destruct Hk.
    rewrite I1 by done. by apply lookup_insert_ne.
  - intros k opt [[= -> ->]|Hin]%elem_of_cons.
    + exists o0, d. split_and!; [done|constructor|done].
    + destruct (I2 _ _ Hin) as (o & d' & ? & ? & ?). exists o, d'.
      split_and!; [done|by constructor|done].
  - intros [Hdn Hluns]%NoDup_cons k1 k2 o1 o2 Hk1 Hk2 Ho1 Ho2 Heq.
    rewrite fmap_cons, elem_of_cons in Hk1, Hk2.
    destruct Hk1 as [->|Hk1], Hk2 as [->|Hk2]; [done| | |by eapply I3].
    + destruct (Hd _ Hk2) as (o & d' & Hin & Ho). simplify_eq/=. by destruct Hdn.
    + destruct (Hd _ Hk1) as (o & d' & Hin & Ho). simplify_eq/=. by destruct Hdn.
  - destruct I4 as [[-> Hno]|(k & o & Hk & Hf & Ho & Hl)].
    + destruct (EqualFold k0 uri) eqn:Ef.
      * right. exists k0, (set_opt_Lun d o0). split_and!; [constructor|done..].
      * left. split; [done|]. intros k [->|Hk]%elem_of_cons; [done|by apply Hno].
    + right. exists k, o. split_and!; [by constructor|done..].
Qed.

Lemma assign_luns_total uri l luns lun out :
  length luns = length l → (∀ k opt, (k, opt) ∈ l → is_Some opt) →
  ∃ r, assign_luns uri l luns lun out = Ok r.
Proof.
  revert luns lun out. induction l as [|[k opt] l IH]; intros luns lun out Hlen Hs; simpl; [eauto|].
  destruct (Hs k opt) as [o ->]; [constructor|]. destruct luns as [|d luns]; [done|].
  apply IH; [simpl in Hlen; lia|]. intros k' opt' Hin. apply (Hs k'). by constructor.
Qed.

(** *** The LUNs that are free *)
(** LUN [l] is free: no data disk of the VM has it, and no volume attachment needs it. *)
Definition lun_free (disks : list DataDisk) (occ : list Z) (l : Z) : Prop :=
  l ∉ occ ∧ Forall (λ d, Lun d ≠ Some l) disks.
#[export] Instance lun_free_dec disks occ l : Decision (lun_free disks occ l).
Proof. unfold lun_free. apply _. Defined.
(** The number of the 64 LUNs of a VM that are free. *)
Definition free_count (disks : list DataDisk) (occ : list Z) : nat :=
  length (filter (lun_free disks occ) (seqZ 0 64)).

Lemma flagged_insert used k l : flagged (<[Z.to_nat l := true]> used) k → 0 ≤ l → flagged used k ∨ k = l.
Proof.
  intros [Hk Hu] Hl. destruct (decide (k = l)) as [->|Hn]; [by right|left]. split; [done|].
  by rewrite list_lookup_insert_ne in Hu by lia.
Qed.
Lemma mark_occupied_only occ used k : flagged (mark_occupied occ used) k → flagged used k ∨ k ∈ occ.
Proof.
  revert used. induction occ as [|o occ IH]; intros used; simpl; [by left|]. intros [H|H]%IH; [|right; by constructor].
  case_match eqn:E; [|by left]. bool_split. apply flagged_insert in H as [?| ->]; [by left|right; constructor|lia].
Qed.
(** Disks whose LUNs are in range are all looked at, and flag their LUNs only. *)
Lemma used_luns_total uri disks used lun :
  (∀ d l, d ∈ disks → Lun d = Some l → 0 ≤ l < 64) →
  ∃ used', used_luns uri true disks used lun = Ok (used', lun) ∧
    ∀ k, flagged used' k → flagged used k ∨ ∃ d, d ∈ disks ∧ Lun d = Some k.
Proof.
  revert used. induction disks as [|d disks IH]; intros used Hr; simpl; [by exists used; eauto|].
  assert (Hr' : ∀ d l, d ∈ disks → Lun d = Some l → 0 ≤ l < 64).
  { intros d' l Hd. apply Hr. by constructor. }
  destruct (Lun d) as [l|] eqn:El.
  - destruct (Hr d l) as [H1 H2]; [constructor|done|]. unfold mark_used. change (Z.of_nat maxLUN) with 64.
    rewrite (proj2 (Z.leb_le _ _) H1), (proj2 (Z.ltb_lt _ _) H2). cbn [andb res_bind].
    destruct (IH (<[Z.to_nat l:=true]> used) Hr') as (u & -> & Hu). exists u. split; [done|].
    intros k [[?| ->]%flagged_insert|(d' & ? & ?)]%Hu; [by left|right; exists d; split; [constructor|done]|done|].
    right. exists d'. split; [by constructor|done].
  - destruct (IH used Hr') as (u & -> & Hu). exists u. split; [done|].
    intros k [?|(d' & ? & ?)]%Hu; [by left|right]. exists d'. split; [by constructor|done].
Qed.

Lemma filter_seqZ_iff (P Q : Z → Prop) `{!∀ k, Decision (P k), !∀ k, Decision (Q k)} (l : list Z) :
  (∀ k, k ∈ l → P k ↔ Q k) → filter P l = filter Q l.
Proof.
  induction l as [|k l IH]; intros Hl; [done|]. rewrite !filter_cons.
  rewrite IH by (intros; apply Hl; by constructor). specialize (Hl k ltac:(constructor)).
  repeat case_decide; naive_solver.
Qed.
(** The flags that are not set, counted by position. *)
Lemma unflagged_count (used : list bool) k :
  length (filter (λ b, b = false) used) =
  length (filter (λ l, used !! Z.to_nat (l - k) = Some false) (seqZ k (Z.of_nat (length used)))).
Proof.
  revert k. induction used as [|b used IH]; intros k; [done|].
  rewrite (seqZ_cons k) by (cbn [length]; lia). cbn [length].
  replace (Z.pred (Z.of_nat (S (length used)))) with (Z.of_nat (length used)) by lia.
  assert (E : filter (λ l, (b :: used) !! Z.to_nat (l - k) = Some false) (seqZ (Z.succ k) (Z.of_nat (length used))) =
    filter (λ l, used !! Z.to_nat (l - Z.succ k) = Some false) (seqZ (Z.succ k) (Z.of_nat (length used)))).
  { apply filter_seqZ_iff. intros l [Hl _]%elem_of_seqZ.
    by replace (Z.to_nat (l - k)) with (S (Z.to_nat (l - Z.succ k))) by lia. }
  destruct b.
  - rewrite (filter_cons_False _ true) by done. rewrite filter_cons_False by (by rewrite Z.sub_diag).
    by rewrite E, (IH (Z.succ k)).
  - rewrite (filter_cons_True _ false) by done. rewrite filter_cons_True by (by rewrite Z.sub_diag).
    cbn [length]. by rewrite E, (IH (Z.succ k)).
Qed.
(** The flags that are not set after the disks and the volume attachments were
    looked at are those of the free LUNs. *)
Lemma unflagged_free uri disks occ used lun :
  (∀ d l, d ∈ disks → Lun d = Some l → 0 ≤ l < 64) →
  used_luns uri true disks (replicate maxLUN false) (-1) = Ok (used, lun) →
  length (filter (λ b, b = false) (mark_occupied occ used)) = free_count disks occ.
Proof.
  intros Hr Hu. destruct (used_luns_total uri disks (replicate maxLUN false) (-1) Hr) as (u & Hu' & Honly).
  rewrite Hu in Hu'. injection Hu' as <- ->.
  apply used_luns_Ok in Hu as (Hlen & _ & Hdisks & _ & _); [|by rewrite length_replicate].
  destruct (mark_occupied_spec occ used Hlen) as (Hlen2 & Hmono & Hocc).
  rewrite (unflagged_count _ 0). unfold free_count. rewrite Hlen2. f_equal. apply filter_seqZ_iff.
  intros k [H0 H64]%elem_of_seqZ. change (Z.of_nat maxLUN) with 64 in H64. rewrite Z.sub_0_r. unfold lun_free.
  destruct (mark_occupied occ used !! Z.to_nat k) as [b|] eqn:Eb.
  2: { apply lookup_ge_None in Eb. rewrite Hlen2 in Eb. unfold maxLUN in Eb. lia. }
  rewrite Forall_forall. split.
  - intros [= ->]. split.
    + intros [_ Hf]%Hocc; [congruence|lia].
    + intros d Hd Hk. destruct (Hdisks d k Hd Hk) as [_ [_ Hf]%Hmono]. congruence.
  - intros [Ho Hd]. destruct b; [|done]. exfalso.
    assert (flagged (mark_occupied occ used) k) as [Hf|Hin]%mark_occupied_only by done; [|done].
    apply Honly in Hf as [[_ Hf]|(d & Hin & Hk)]; [|by eapply Hd].
    apply lookup_replicate in Hf as [? _]. done.
Qed.

(** ** Properties *)

(** The LUN returned for a disk of the batch is one that was handed out. *)
Lemma assigned_nonneg `{MapOrder} uri (diskMap : DiskMap) luns lun1 dm :
  ToLower uri = uri → is_Some (diskMap !! uri) → length luns = size diskMap →
  (∀ l, l ∈ luns → 0 ≤ l) →
  assign_luns uri (map_order diskMap) luns (-1) diskMap = Ok (lun1, dm) → 0 ≤ lun1.
Proof.
  intros Huri Hin Hl Hfree (_ & A2 & _ & A4)%assign_luns_Ok;
    [|apply map_order_fst_NoDup|by rewrite length_map_order].
  destruct A4 as [[_ Hno]|(k & o & Hk & _ & Ho & <-)].
  - destruct Hin as [v Hin]. exfalso. specialize (Hno uri).
    rewrite EqualFold_refl in Hno. enough (true = false) by done. apply Hno.
    apply list_elem_of_fmap. exists (uri, v). split; [done|]. by apply elem_of_map_order.
  - apply list_elem_of_fmap in Hk as ([k' v] & -> & Hk). simpl in Ho.
    destruct (A2 _ _ Hk) as (o' & l & _ & Hl' & Ho'). rewrite Ho in Ho'. simplify_eq. simpl. auto.
Qed.

(** The LUNs that are handed out are valid, and neither a disk nor a volume attachment
    has one of them. *)
Lemma luns_unused disks uri (diskMap : DiskMap) occ inmap used lun0 l :
  used_luns uri inmap disks (replicate maxLUN false) (-1) = Ok (used, lun0) →
  l ∈ free_luns (size diskMap) 0 (mark_occupied occ used) →
  0 ≤ l < 64 ∧ l ∉ occ ∧ ∀ d, d ∈ disks → Lun d ≠ Some l.
Proof.
  intros (Hlen & _ & Hdisks & _ & _)%used_luns_Ok Hl; [|by rewrite length_replicate].
  destruct (mark_occupied_spec occ used Hlen) as (Hlen2 & Hmono & Hocc).
  destruct (free_luns_spec (size diskMap) 0 (mark_occupied occ used) ltac:(lia)) as (_ & Hfree & _ & _).
  destruct (Hfree _ Hl) as [Hr Hf]. rewrite Hlen2 in Hr.
  change (Z.of_nat maxLUN) with 64 in Hr. rewrite Z.sub_0_r in Hf. split; [lia|]. split.
  - intros Ho. destruct (Hocc _ Ho) as [_ Hc]; [lia|congruence].
  - intros d Hd Hld. destruct (Hdisks _ _ Hd Hld) as [_ Hfl]. destruct (Hmono _ Hfl) as [_ Hc]. congruence.
Qed.

(** C4. When [SetDiskLun] succeeds for a batch, every disk of the batch has a LUN
    in 0..63 that no data disk of the VM and no volume attachment uses, two
    disks of the batch have different LUNs, nothing else of the options
    changes, no disk is added or lost, and the LUN returned is the one of the
    requested disk.  This holds for every order in which Go visits the map. *)
Theorem SetDiskLun_sound `{MapOrder} disks uri diskMap occ lun diskMap' :
  (∀ k, is_Some (diskMap !! k) → ToLower k = k) → ToLower uri = uri →
  is_Some (diskMap !! uri) →
  allocate_luns disks uri diskMap occ = Ok (lun, diskMap') →
  (∀ k, match diskMap !! k with
        | None => diskMap' !! k = None
        | Some opt => ∃ o l, opt = Some o ∧ diskMap' !! k = Some (Some (set_opt_Lun l o)) ∧
            (0 ≤ l < 64) ∧ l ∉ occ ∧ (∀ d, d ∈ disks → Lun d ≠ Some l)
        end) ∧
  (∀ k1 k2 o1 o2, diskMap' !! k1 = Some (Some o1) → diskMap' !! k2 = Some (Some o2) →
     opt_Lun o1 = opt_Lun o2 → k1 = k2) ∧
  (∃ o, diskMap' !! uri = Some (Some o) ∧ opt_Lun o = lun).
Proof.
  intros Hlow Huri Hin Halloc. unfold allocate_luns in Halloc.
  rewrite (bool_decide_eq_true_2 _ Hin) in Halloc. cbn [negb andb] in Halloc.
  apply res_bind_ok in Halloc as ([used lun0] & Hu & Halloc).
  pose proof (λ l, luns_unused _ _ diskMap occ _ _ _ l Hu) as Hlun. case_bool_decide as Hsz.
  { destruct Hin as [? Hin]. apply map_size_empty_inv in Hsz. subst. by rewrite lookup_empty in Hin. }
  set (luns := free_luns _ _ _) in *.
  destruct (free_luns_spec (size diskMap) 0 (mark_occupied occ used) ltac:(lia)) as (Hnd & _). fold luns in Hnd.
  destruct (Nat.eqb_spec (length luns) (size diskMap)) as [Hl|]; [|done]. cbn [negb] in Halloc.
  apply res_bind_ok in Halloc as ([lun1 dm] & Ha & Halloc).
  destruct (lun1 <? 0); [done|]. simplify_eq.
  apply assign_luns_Ok in Ha as (A1 & A2 & A3 & A4);
    [|apply map_order_fst_NoDup|by rewrite length_map_order].
  pose proof (elem_of_map_order_fst diskMap) as Hdom.
  assert (Hentry : ∀ k, match diskMap !! k with
        | None => diskMap' !! k = None
        | Some opt => ∃ o l, opt = Some o ∧ diskMap' !! k = Some (Some (set_opt_Lun l o)) ∧
            (0 ≤ l < 64) ∧ l ∉ occ ∧ (∀ d, d ∈ disks → Lun d ≠ Some l)
        end).
  { intros k. destruct (diskMap !! k) as [opt|] eqn:Ek.
    - apply elem_of_map_order in Ek. destruct (A2 _ _ Ek) as (o & l & ? & Hl' & ?).
      exists o, l. destruct (Hlun _ Hl') as (? & ? & ?). split_and!; first [done | lia].
    - rewrite A1; [done|]. rewrite Hdom, Ek. by intros [? ?]. }
  split; [exact Hentry|]. split.
  - intros k1 k2 o1 o2 H1 H2. apply A3; [done| | |done|done]; apply Hdom;
      [specialize (Hentry k1)|specialize (Hentry k2)]; case_match; [eauto|congruence|eauto|congruence].
  - destruct A4 as [[_ Hno]|(k & o & Hk & Hf & Ho & <-)].
    + exfalso. specialize (Hno uri ltac:(by apply Hdom)). by rewrite EqualFold_refl in Hno.
    + apply EqualFold_spec in Hf. apply Hdom in Hk.
      rewrite (Hlow _ Hk), Huri in Hf. subst k. eauto.
Qed.

Definition demo_options : AttachDiskOptions := MkAttachDiskOptions "None" "d" "" false (-1).
Definition demo_data_disk (lun : Z) : DataDisk :=
  MkDataDisk (Some lun) None None (Some (Some "other")) None.

Lemma SetDiskLun_sound_witness :
  let dm : DiskMap := {[ "uri-a" := Some demo_options; "uri-b" := Some demo_options ]} in
  ∃ lun dm', allocate_luns [demo_data_disk 0; demo_data_disk 2] "uri-a" dm [1] = Ok (lun, dm') ∧
  ∃ o, dm' !! "uri-a" = Some (Some o) ∧ opt_Lun o = lun.
Proof.
  eexists _, _. split; [vm_compute; reflexivity|].
  apply (SetDiskLun_sound [demo_data_disk 0; demo_data_disk 2] "uri-a"
           {[ "uri-a" := Some demo_options; "uri-b" := Some demo_options ]} [1]).
  - intros k [v Hk]. rewrite lookup_insert_Some, lookup_singleton_Some in Hk.
    destruct Hk as [[<- _]|[_ [<- _]]]; reflexivity.
  - reflexivity.
  - eexists. reflexivity.
  - vm_compute. reflexivity.
Defined.

(** C10. [SetDiskLun] refuses a batch without nil options only when the VM has fewer
    free LUNs than the batch has disks: it succeeds exactly when as many of the 64 LUNs are on
    no data disk of the VM and needed by no volume attachment as the batch has
    disks.  The LUNs that the VM reports are in 0..63. *)
Theorem SetDiskLun_complete `{MapOrder} disks uri diskMap occ :
  (∀ k, is_Some (diskMap !! k) → ToLower k = k) → ToLower uri = uri →
  is_Some (diskMap !! uri) → (∀ k opt, diskMap !! k = Some opt → is_Some opt) →
  (∀ d l, d ∈ disks → Lun d = Some l → 0 ≤ l < 64) →
  ((size diskMap ≤ free_count disks occ)%nat ↔
   ∃ r, allocate_luns disks uri diskMap occ = Ok r).
Proof.
  intros Hlow Huri Hin Hsome Hr. unfold allocate_luns.
  destruct (used_luns_total uri disks (replicate maxLUN false) (-1) Hr) as (used & Hu & _).
  rewrite (bool_decide_eq_true_2 _ Hin), Hu. cbn [negb andb res_bind].
  rewrite <-(unflagged_free uri _ _ _ _ Hr Hu). clear Hu.
  case_bool_decide as Hsz.
  { destruct Hin as [? Hin]. apply map_size_empty_inv in Hsz. subst. by rewrite lookup_empty in Hin. }
  destruct (free_luns_spec (size diskMap) 0 (mark_occupied occ used) ltac:(lia))
    as (_ & Hfree & _ & Hcount).
  set (luns := free_luns _ _ _) in *.
  destruct (Nat.eqb_spec (length luns) (size diskMap)) as [Hl|Hl]; cbn [negb];
    [|split; [intros; exfalso; lia|intros [r Hx]; discriminate Hx]].
  split; [intros _|lia].
  destruct (assign_luns_total uri (map_order diskMap) luns (-1) diskMap) as [[lun1 dm] Ha].
  { by rewrite length_map_order. }
  { intros k opt Hk%elem_of_map_order. by eapply Hsome. }
  rewrite Ha. cbn [res_bind]. apply (assigned_nonneg uri diskMap luns) in Ha; [|done..|].
  - destruct (Z.ltb_spec lun1 0); [lia|]. eauto.
  - intros l [? _]%Hfree. lia.
Qed.

Lemma SetDiskLun_complete_witness :
  let dm : DiskMap := {[ "uri-a" := Some demo_options ]} in
  (∃ r, allocate_luns [demo_data_disk 0] "uri-a" dm [1] = Ok r) ∧
  ¬ (∃ r, allocate_luns (demo_data_disk <$> seqZ 0 63) "uri-a" dm [63] = Ok r).
Proof.
  assert (Hdm : ∀ k (v : option AttachDiskOptions),
    ({[ "uri-a" := Some demo_options ]} : DiskMap) !! k = Some v → "uri-a" = k ∧ Some demo_options = v).
  { intros k v Hk. rewrite lookup_singleton_Some in Hk. done. }
  split.
  - apply (SetDiskLun_complete [demo_data_disk 0] "uri-a" {[ "uri-a" := Some demo_options ]} [1]).
    + intros k [v [<- _]%Hdm]; reflexivity.
    + reflexivity.
    + eexists. reflexivity.
    + intros k opt [_ <-]%Hdm. eexists; reflexivity.
    + intros d l ->%list_elem_of_singleton [= <-]. lia.
    + vm_compute. lia.
  - intros Hr. apply (SetDiskLun_complete (demo_data_disk <$> seqZ 0 63) "uri-a"
      {[ "uri-a" := Some demo_options ]} [63]) in Hr.
    + revert Hr. vm_compute. lia.
    + intros k [v [<- _]%Hdm]; reflexivity.
    + reflexivity.
    + eexists. reflexivity.
    + intros k opt [_ <-]%Hdm. eexists; reflexivity.
    + intros d l (z & -> & Hz%elem_of_seqZ)%list_elem_of_fmap [= <-]. lia.
Defined.
