(* ===== verification/AttachProofs.v ===== *)
(** * What attach and detach guarantee

    Facts about [AttachDisk], [DetachDisk] and [UpdateVM] that hold for every
    cloud and for every behaviour of the other goroutines: locks and states
    are given back on every way out, a success was verified on the VM, a
    forced detach is issued only when it is enabled. *)
From stdpp Require Import gmap strings list.
From Stdlib Require Import ZArith Lia.
From S2P Require Import Prelude GoStrings GoErr Consts Util AzureTypes DiskUtils Cloud DemoCloud ControllerCommon Moments.
Local Open Scope string_scope.
Local Open Scope Z_scope.

Lemma entry_neq_suffix (node sfx : string) : sfx ≠ "" → node ≠ node +:+ sfx.
Proof.
  intros Hs H%(f_equal String.length). rewrite length_str_app in H.
  destruct sfx; [done|]. simpl in H. lia.
Qed.

Section proofs.
  Context {W : Type} `{!Cloud W} `{MapOrder}.
  Context (cfg : CommonConfig) (others : point → CState W → CState W).
  (** The other goroutines leave this goroutine's locks alone. *)
  Context (Hothers : ∀ p s, held (others p s) = held s).

  (** The locks held are [h]. *)
Definition at_locks (h : gset string) (s : CState W) : Prop := held s = h.

Lemma keeps_ext {A} (h : gset string) (m : M W A) : keeps (at_locks h) (ext others m).
Proof. intros s Hh. unfold ext. destruct (m (world s)) as [r w]. simpl. red. by rewrite Hothers. Qed.

Lemma keeps_with_lock {A} (h : gset string) entry (body : M (CState W) A) :
  entry ∉ h → keeps (at_locks ({[entry]} ∪ h)) body → keeps (at_locks h) (with_lock others entry body).
Proof.
  intros Hn Hb s Hh. unfold with_lock, bind, LockEntry, defer.
  set (s1 := set_held _ _).
  assert (Hs1 : at_locks ({[entry]} ∪ h) s1) by (red; simpl; by rewrite Hothers, Hh).
  specialize (Hb s1 Hs1). destruct (body s1) as [r s2]. unfold at_locks in *. simpl in *.
  rewrite Hb. set_solver.
Qed.

Lemma keeps_modify_shared (h : gset string) (f : CState W → CState W) :
  (∀ s, held (f s) = held s) → keeps (at_locks h) (modify f).
Proof. intros Hf s Hh. unfold at_locks in *. simpl. congruence. Qed.

Lemma keeps_defer_shared {A} h (f : CState W → CState W) (m : M (CState W) A) :
  (∀ s, held (f s) = held s) → keeps (at_locks h) m → keeps (at_locks h) (defer f m).
Proof. intros Hf. apply keeps_defer. intros s Hh. unfold at_locks in *. congruence. Qed.

Lemma keeps_on_error {A} h (c : M (CState W) unit) (b : M (CState W) A) :
  keeps (at_locks h) c → keeps (at_locks h) b → keeps (at_locks h) (on_error c b).
Proof.
  intros Hc Hb. apply keeps_bind; [by apply keeps_try|].
  intros [e|a]; [|apply keeps_ret]. apply keeps_bind; [by apply keeps_try|].
  intros _. apply keeps_fail.
Qed.

  (** Goes through the structure of a call. *)
Ltac keeps_step :=
  match goal with
  | |- keeps _ (ret _) => apply keeps_ret
  | |- keeps _ (fail _) => apply keeps_fail
  | |- keeps _ panic => apply keeps_panic
  | |- keeps _ get => apply keeps_get
  | |- keeps _ (lift _) => apply keeps_lift
  | |- keeps _ (bind _ _) => apply keeps_bind; [|intros ?]
  | |- keeps _ (try _) => apply keeps_try
  | |- keeps _ (on_error _ _) => apply keeps_on_error
  | |- keeps _ (ext _ _) => apply keeps_ext
  | |- keeps _ (modify _) => apply keeps_modify_shared; by intros
  | |- keeps _ (defer _ _) => apply keeps_defer_shared; [by intros|]
  | |- keeps _ (with_lock _ _ _) => apply keeps_with_lock
  | |- keeps _ (ExponentialBackoffWithContext _ _ _ _ _) =>
      apply keeps_backoff; [|intros ?|]
  | |- keeps _ (PollUntilContextTimeout _ _ _ _) => apply keeps_poll; [intros ?|]
  | |- keeps _ (match ?x with _ => _ end) => destruct x eqn:?
  | |- keeps _ (let '_ := ?x in _) => destruct x
  end.
Ltac keeps_auto := repeat keeps_step; auto with keeps_db.
  Local Create HintDb keeps_db.

Lemma keeps_GetNodeDataDisks (h : gset string) n : keeps (at_locks h) (GetNodeDataDisks others n).
Proof. unfold GetNodeDataDisks. keeps_auto. Qed.
  Local Hint Resolve keeps_GetNodeDataDisks : keeps_db.

Lemma keeps_GetDiskLun (h : gset string) dn du n : keeps (at_locks h) (GetDiskLun others dn du n).
Proof. unfold GetDiskLun. keeps_auto. Qed.
  Local Hint Resolve keeps_GetDiskLun : keeps_db.

Lemma keeps_SetDiskLun (h : gset string) n du m o : keeps (at_locks h) (SetDiskLun others n du m o).
Proof. unfold SetDiskLun. keeps_auto. Qed.
Lemma keeps_verifyAttach (h : gset string) dn du n : keeps (at_locks h) (verifyAttach others dn du n).
Proof. unfold verifyAttach. keeps_auto. Qed.
Lemma keeps_verifyDetach (h : gset string) dn du n : keeps (at_locks h) (verifyDetach others dn du n).
Proof. unfold verifyDetach. keeps_auto. Qed.
Lemma keeps_poll_detach (h : gset string) c dn du n v :
  keeps (at_locks h) (pollForDetachCompletion others c dn du n v).
Proof. unfold pollForDetachCompletion. keeps_auto. Qed.
Lemma keeps_isMax (h : gset string) n : keeps (at_locks h) (isMaxDataDiskCountExceeded others n).
Proof. unfold isMaxDataDiskCountExceeded. keeps_auto. Qed.
Lemma keeps_wait_managed (h : gset string) c du n :
  keeps (at_locks h) (waitForDiskManagedByTobeRemoved cfg others c du n).
Proof. unfold waitForDiskManagedByTobeRemoved, disk_released. keeps_auto. Qed.
Lemma keeps_getDetachNum (h : gset string) n : n +:+ detachDiskMapKeySuffix ∉ h →
  keeps (at_locks h) (getDetachDiskRequestNum others n).
Proof. intros. unfold getDetachDiskRequestNum. keeps_auto. Qed.
  Local Hint Resolve keeps_SetDiskLun keeps_verifyAttach keeps_verifyDetach keeps_poll_detach
    keeps_isMax keeps_wait_managed keeps_getDetachNum : keeps_db.

Lemma keeps_retrieveAttach (h : gset string) n du : n +:+ attachDiskMapKeySuffix ∉ h →
  keeps (at_locks h) (retrieveAttachBatchedDiskRequests others n du).
Proof. intros. unfold retrieveAttachBatchedDiskRequests. keeps_auto. Qed.
Lemma keeps_batchAttach (h : gset string) du n o : n +:+ attachDiskMapKeySuffix ∉ h →
  keeps (at_locks h) (batchAttachDiskRequest others du n o).
Proof. intros. unfold batchAttachDiskRequest. keeps_auto. Qed.
Lemma keeps_retrieveDetach (h : gset string) n du : n +:+ detachDiskMapKeySuffix ∉ h →
  keeps (at_locks h) (retrieveDetachBatchedDiskRequests others n du).
Proof. intros. unfold retrieveDetachBatchedDiskRequests. keeps_auto. Qed.
Lemma keeps_batchDetach (h : gset string) dn du n : n +:+ detachDiskMapKeySuffix ∉ h →
  keeps (at_locks h) (batchDetachDiskRequest others dn du n).
Proof. intros. unfold batchDetachDiskRequest. keeps_auto. Qed.
Lemma keeps_UpdateVM (h : gset string) n : ToLower n ∉ h → keeps (at_locks h) (UpdateVM others n).
Proof.
  intros. unfold UpdateVM. apply keeps_bind; [keeps_auto|]. intros v.
  change (keeps (at_locks h) (with_lock others (ToLower n)
    (let! r := try (ext others (vm_UpdateVM v n)) in
     let! _ := try (ext others (vm_DeleteCacheForNode v n)) in
     match r with inl e => fail e | inr _ => ret () end))).
  keeps_auto.
Qed.
Lemma keeps_numDisksAllowed (h : gset string) n :
  keeps (at_locks h) (numDisksAllowed cfg others n).
Proof. unfold numDisksAllowed. keeps_auto. Qed.
Lemma keeps_attach_and_verify (h : gset string) v dn du node n l m :
  keeps (at_locks h) (attach_and_verify cfg others v dn du node n l m).
Proof. unfold attach_and_verify. keeps_auto. Qed.
Lemma keeps_batch_pause (h : gset string) b r : keeps (at_locks h) (batch_pause others b r).
Proof. unfold batch_pause. keeps_auto. Qed.
Lemma keeps_wait_for_detach (h : gset string) c node n : node +:+ detachDiskMapKeySuffix ∉ h →
  keeps (at_locks h) (wait_for_detach cfg others c node n).
Proof. intros. unfold wait_for_detach. keeps_auto. Qed.
  Local Hint Resolve keeps_retrieveAttach keeps_batchAttach keeps_retrieveDetach keeps_batchDetach
    keeps_UpdateVM keeps_numDisksAllowed keeps_attach_and_verify keeps_batch_pause
    keeps_wait_for_detach : keeps_db.

Lemma suffix_not_held (h : gset string) node sfx :
  sfx ≠ "" → node +:+ sfx ∉ h → node +:+ sfx ∉ {[node]} ∪ h.
Proof. intros Hs Hn. pose proof (entry_neq_suffix node sfx Hs). set_solver. Qed.

Lemma keeps_attach_batch (h : gset string) dn du node n ptr occ :
  node +:+ attachDiskMapKeySuffix ∉ h →
  keeps (at_locks h) (attach_batch cfg others dn du node n ptr occ).
Proof. intros. unfold attach_batch. keeps_auto. Qed.
Lemma keeps_attached_elsewhere (h : gset string) dn du n d :
  ToLower n ∉ h → keeps (at_locks h) (attached_elsewhere others dn du n d).
Proof. intros. unfold attached_elsewhere. keeps_auto. Qed.
  Local Hint Resolve keeps_attach_batch keeps_attached_elsewhere : keeps_db.

  (** The locks a call on the node takes are not held before it. *)
Definition locks_free (h : gset string) (node : string) : Prop :=
  node ∉ h ∧ node +:+ attachDiskMapKeySuffix ∉ h ∧ node +:+ detachDiskMapKeySuffix ∉ h.

Lemma keeps_AttachDisk (h : gset string) c dn du n cm d ptr occ :
  locks_free h (ToLower n) →
  keeps (at_locks h) (AttachDisk cfg others c dn du n cm d ptr occ).
Proof.
  intros (H1 & H2 & H3). unfold AttachDisk. keeps_auto.
  apply keeps_attach_batch. by apply suffix_not_held.
Qed.

Lemma keeps_detach_batch (h : gset string) c v dn du n m :
  keeps (at_locks h) (detach_batch cfg others c v dn du n m).
Proof. unfold detach_batch. keeps_auto. Qed.

Lemma keeps_DetachDisk (h : gset string) c dn du n :
  locks_free h (ToLower n) → keeps (at_locks h) (DetachDisk cfg others c dn du n).
Proof.
  intros (H1 & H2 & H3). unfold DetachDisk. keeps_auto.
  - apply keeps_retrieveDetach. by apply suffix_not_held.
  - by apply keeps_detach_batch.
Qed.
End proofs.

(** ** The calls are made of steps *)
Section moving.
  Context {W : Type} `{!Cloud W} `{MapOrder}.
  Context (cfg : CommonConfig) (others : point → CState W → CState W).
  Context (calls : ∀ A, M W A → Prop) (force : bool).
  Context (Hcalls : ∀ A m, attach_call force A m → calls A m).
  Local Notation moves := (moves calls others).
  Local Hint Resolve Hcalls : moves_db.

Lemma moves_GetNodeDataDisks n : moves (GetNodeDataDisks others n).
Proof. unfold GetNodeDataDisks. moves_auto. Qed.
  Local Hint Resolve moves_GetNodeDataDisks : moves_db.
Lemma moves_GetDiskLun dn du n : moves (GetDiskLun others dn du n).
Proof. unfold GetDiskLun. moves_auto. Qed.
  Local Hint Resolve moves_GetDiskLun : moves_db.
Lemma moves_SetDiskLun n du m o : moves (SetDiskLun others n du m o).
Proof. unfold SetDiskLun. moves_auto. Qed.
Lemma moves_verifyAttach dn du n : moves (verifyAttach others dn du n).
Proof. unfold verifyAttach. moves_auto. Qed.
Lemma moves_verifyDetach dn du n : moves (verifyDetach others dn du n).
Proof. unfold verifyDetach. moves_auto. Qed.
Lemma moves_poll_detach c dn du n v : moves (pollForDetachCompletion others c dn du n v).
Proof. unfold pollForDetachCompletion. moves_auto. Qed.
Lemma moves_isMax n : moves (isMaxDataDiskCountExceeded others n).
Proof. unfold isMaxDataDiskCountExceeded. moves_auto. Qed.
Lemma moves_disk_released a b c u n : moves (disk_released others a b c u n).
Proof. unfold disk_released. moves_auto. Qed.
  Local Hint Resolve moves_disk_released : moves_db.
Lemma moves_wait_managed c du n : moves (waitForDiskManagedByTobeRemoved cfg others c du n).
Proof. unfold waitForDiskManagedByTobeRemoved. moves_auto. Qed.
Lemma moves_getDetachNum n : moves (getDetachDiskRequestNum others n).
Proof. unfold getDetachDiskRequestNum. moves_auto. Qed.
Lemma moves_retrieveAttach n du : moves (retrieveAttachBatchedDiskRequests others n du).
Proof. unfold retrieveAttachBatchedDiskRequests. moves_auto. Qed.
Lemma moves_batchAttach du n o : moves (batchAttachDiskRequest others du n o).
Proof. unfold batchAttachDiskRequest. moves_auto. Qed.
Lemma moves_retrieveDetach n du : moves (retrieveDetachBatchedDiskRequests others n du).
Proof. unfold retrieveDetachBatchedDiskRequests. moves_auto. Qed.
Lemma moves_batchDetach dn du n : moves (batchDetachDiskRequest others dn du n).
Proof. unfold batchDetachDiskRequest. moves_auto. Qed.
Lemma moves_UpdateVM n : moves (UpdateVM others n).
Proof. unfold UpdateVM. moves_auto. Qed.
Lemma moves_numDisksAllowed n : moves (numDisksAllowed cfg others n).
Proof. unfold numDisksAllowed. moves_auto. Qed.
Lemma moves_attach_and_verify v dn du node n l m : moves (attach_and_verify cfg others v dn du node n l m).
Proof.
  unfold attach_and_verify. pose proof moves_verifyAttach. moves_auto.
Qed.
Lemma moves_batch_pause b r : moves (batch_pause others b r).
Proof. unfold batch_pause. moves_auto. Qed.
  Local Hint Resolve moves_SetDiskLun moves_verifyAttach moves_verifyDetach moves_poll_detach moves_isMax
    moves_wait_managed moves_getDetachNum moves_retrieveAttach moves_batchAttach moves_retrieveDetach
    moves_batchDetach moves_UpdateVM moves_numDisksAllowed moves_attach_and_verify moves_batch_pause : moves_db.
Lemma moves_wait_for_detach c node n : moves (wait_for_detach cfg others c node n).
Proof. unfold wait_for_detach. moves_auto. Qed.
Lemma moves_attach_batch dn du node n ptr occ :
  moves (attach_batch cfg others dn du node n ptr occ).
Proof. unfold attach_batch. moves_auto. Qed.
Lemma moves_attached_elsewhere dn du n d : moves (attached_elsewhere others dn du n d).
Proof. unfold attached_elsewhere. moves_auto. Qed.
  Local Hint Resolve moves_wait_for_detach moves_attach_batch moves_attached_elsewhere : moves_db.
Lemma moves_AttachDisk c dn du n cm d ptr occ :
  moves (AttachDisk cfg others c dn du n cm d ptr occ).
Proof. unfold AttachDisk. moves_auto. Qed.

  Context (HF : ForceDetachBackoff cfg = true → force = true).
Lemma moves_detach_batch c v dn du n m : moves (detach_batch cfg others c v dn du n m).
Proof. unfold detach_batch. moves_auto. Qed.
  Local Hint Resolve moves_detach_batch : moves_db.
Lemma moves_DetachDisk c dn du n : moves (DetachDisk cfg others c dn du n).
Proof. unfold DetachDisk. moves_auto. Qed.
End moving.

(** ** Properties *)

(** The goroutines of the driver that run meanwhile never touch the locks of
    this call. *)
Definition locks_respected {W} (others : point → CState W → CState W) : Prop :=
  ∀ p s, held (others p s) = held s.

(** C12. Attaching and detaching give back every lock they took, however they end:
    with a result, with an error of any service, or with a panic. *)
Theorem attach_detach_release_locks {W} `{!Cloud W} `{MapOrder} cfg
    (others : point → CState W → CState W) ctx diskName diskURI nodeName caching disk ptr occ
    (s : CState W) :
  locks_respected others → locks_free (held s) (ToLower nodeName) →
  held (AttachDisk cfg others ctx diskName diskURI nodeName caching disk ptr occ s).2 = held s ∧
  held (DetachDisk cfg others ctx diskName diskURI nodeName s).2 = held s ∧
  held (UpdateVM others nodeName s).2 = held s.
Proof.
  intros Ho Hf. destruct (Hf) as (Hn & _ & _). split_and!.
  - by apply (keeps_AttachDisk cfg others Ho).
  - by apply (keeps_DetachDisk cfg others Ho).
  - by apply (keeps_UpdateVM others Ho).
Qed.

(** The start of the witnesses: nothing is queued, no lock is held. *)
Definition demo_state (w : Demo) : CState Demo := MkCState w ∅ ∅ ∅ ∅ ∅ 0 ∅.
Definition demo_cfg (force : bool) : CommonConfig := MkCommonConfig false 240 200 force false false true.
Definition quiet : point → CState Demo → CState Demo := λ _ s, s.
Definition demo_uri : string := consts.ManagedDiskPath "s" "rg" "d1".
Definition demo_world (e : option gerr) : Demo :=
  MkDemo 0 ∅ {[ "n1" := [MkDataDisk (Some 3) (Some "d1") None (Some (Some (ToLower demo_uri))) None] ]}
    ∅ [] e.

Lemma attach_detach_release_locks_witness :
  held (AttachDisk (demo_cfg false) quiet (MkCtx None) "d1" demo_uri "N1" "None" None 1%positive
          [] (demo_state (demo_world None))).2 = ∅.
Proof.
  apply (attach_detach_release_locks (demo_cfg false) quiet (MkCtx None) "d1" demo_uri
           "N1" "None" None 1%positive [] (demo_state (demo_world None))).
  - intros p s. reflexivity.
  - repeat split; apply not_elem_of_empty.
Defined.

(** C14. Unless [ForceDetachBackoff] is set, a detach issues no forced detach: every
    fact about the cloud that the other operations keep is kept by it, on every
    way out. *)
Theorem no_forced_detach {W} `{!Cloud W} cfg (others : point → CState W → CState W)
    (Q : W → Prop) ctx diskName diskURI nodeName (s : CState W) :
  ForceDetachBackoff cfg = false →
  (∀ p s, Q (world s) → Q (world (others p s))) →
  (∀ A m, attach_call false A m → keeps Q m) →
  Q (world s) → Q (world (DetachDisk cfg others ctx diskName diskURI nodeName s).2).
Proof.
  intros HF Ho HQ Hq.
  refine (steady_later (attach_call false) others (λ s, Q (world s)) s _ _ _ Hq).
  - intros s1 s2 [A m s0 Hm|p s0|s0 s0' E]; [|apply Ho|by rewrite E]. intros H0. unfold ext.
    specialize (HQ _ _ Hm _ H0). destruct (m (world s0)). by apply Ho.
  - apply moves_DetachDisk with (force := false); [done|congruence].
Qed.

Lemma demo_keeps_not_forced A m : attach_call false A m → keeps (not_logged "force-detach") m.
Proof.
  intros []; intros w Hw; simpl; try exact Hw; try done;
    unfold not_logged in *; repeat case_match; simpl; rewrite ?not_elem_of_cons; auto.
Qed.

Lemma no_forced_detach_witness :
  "force-detach" ∉ demo_log (world (DetachDisk (demo_cfg false) quiet (MkCtx None) "d1" demo_uri "n1"
     (demo_state (demo_world (Some (ENew "conflict"))))).2).
Proof.
  apply (no_forced_detach (demo_cfg false) quiet (not_logged "force-detach") (MkCtx None) "d1" demo_uri
           "n1" (demo_state (demo_world (Some (ENew "conflict"))))).
  - reflexivity.
  - intros p s Hs. exact Hs.
  - apply demo_keeps_not_forced.
  - apply not_elem_of_nil.
Defined.

(** *** Disks that the VM does not have *)
(** The entry [x] of the data disks of a VM is the disk: by its name, which counts for
    entries with a LUN, by the URI of its blob, or by its identifier. *)
Definition is_disk (diskName diskURI : string) (x : DataDisk) : Prop :=
  (is_Some (Lun x) ∧ ∃ nm, dd_Name x = Some nm ∧ diskName ≠ "" ∧ ToLower nm = ToLower diskName) ∨
  (∃ u, Vhd x = Some (Some u) ∧ diskURI ≠ "" ∧ ToLower u = ToLower diskURI) ∨
  (∃ mid, dd_ManagedDisk x = Some (Some mid) ∧ ToLower mid = ToLower diskURI).

Lemma disk_matches_spec dn du x b : disk_matches dn du x = Ok b → b = true ↔ is_disk dn du x.
Proof.
  unfold disk_matches, is_disk. cbv zeta. intros Hm.
  set (bn := match Lun x with Some _ => _ | None => false end) in Hm.
  set (bv := match Vhd x with Some (Some u) => _ | _ => false end) in Hm.
  assert (Hn : bn = true ↔ is_Some (Lun x) ∧ ∃ nm, dd_Name x = Some nm ∧ dn ≠ "" ∧ ToLower nm = ToLower dn).
  { unfold bn. destruct (Lun x), (dd_Name x); try naive_solver.
    rewrite andb_true_iff, EqualFold_spec, negb_true_iff, String.eqb_neq. naive_solver. }
  assert (Hv : bv = true ↔ ∃ u, Vhd x = Some (Some u) ∧ du ≠ "" ∧ ToLower u = ToLower du).
  { unfold bv. destruct (Vhd x) as [[u|]|]; try naive_solver.
    rewrite andb_true_iff, EqualFold_spec, negb_true_iff, String.eqb_neq. naive_solver. }
  rewrite <-Hn, <-Hv. clearbody bn bv. clear Hn Hv.
  destruct bn; [injection Hm as <-; split; [by left|done]|].
  destruct bv; [injection Hm as <-; split; [by right; left|done]|]. cbn [orb] in Hm.
  transitivity (∃ mid, dd_ManagedDisk x = Some (Some mid) ∧ ToLower mid = ToLower du);
    [|split; [by right; right|by intros [?|[?|?]]]].
  destruct (dd_ManagedDisk x) as [[mid|]|]; simplify_eq/=.
  - rewrite EqualFold_spec. split; [eauto|]. by intros (? & [= ->] & ?).
  - split; [done|]. by intros (? & ? & _).
Qed.

Lemma disk_matches_no_error dn du x e : disk_matches dn du x ≠ Err e.
Proof.
  unfold disk_matches. cbv zeta. destruct (_ || _); [done|]. by destruct (dd_ManagedDisk x) as [[]|].
Qed.

(** The text by which the driver recognises that a disk was not found is its own: it is
    neither in the URI of the disk nor in the name of the node, and the errors of the
    cloud that come with a read of the VM do not have it. *)
Definition lun_text_reserved {W} `{!Cloud W} (diskURI nodeName : string) : Prop :=
  Contains diskURI CannotFindDiskLUN = false ∧ Contains nodeName CannotFindDiskLUN = false ∧
  (∀ w e w', GetNodeVMSet nodeName w = (Err e, w') → Contains (Error e) CannotFindDiskLUN = false) ∧
  (∀ v w disks st e w', vm_GetDataDisks v nodeName w = (Ok (disks, st, Some e), w') →
     Contains (Error e) CannotFindDiskLUN = false).

Lemma being_detached_text du n :
  Contains du CannotFindDiskLUN = false → Contains n CannotFindDiskLUN = false →
  Contains ("disk(" +:+ du +:+ ") is in ToBeDetached state on node(" +:+ n +:+ "): " +:+ detachInProgress)
    CannotFindDiskLUN = false.
Proof.
  intros Hu Hn.
  assert (Hp : ∀ a c b, has_byte c CannotFindDiskLUN = false → Contains a CannotFindDiskLUN = false →
    Contains b CannotFindDiskLUN = false → Contains (a +:+ String c "" +:+ b) CannotFindDiskLUN = false).
  { intros. rewrite str_cons_app, str_nil_app. by apply Contains_split. }
  apply (Hp "disk"); [done..|]. apply (Hp du); [done..|].
  apply (Hp " is in ToBeDetached state on node"); [done..|]. by apply (Hp n).
Qed.

(** A disk that the LUN lookup does not find is none of the disks. *)
Lemma find_lun_missing dn du n disks e :
  Contains du CannotFindDiskLUN = false → Contains n CannotFindDiskLUN = false →
  find_lun dn du n disks = Err e → Contains (Error e) CannotFindDiskLUN = true →
  ∀ x, x ∈ disks → ¬ is_disk dn du x.
Proof.
  intros Hu Hn. induction disks as [|y disks IH]; intros Hf Hc x; [by intros ?%elem_of_nil|].
  cbn [find_lun] in Hf. destruct (disk_matches dn du y) as [m|e0|] eqn:Em; [|by apply disk_matches_no_error in Em|done]. cbn [res_bind] in Hf.
  apply disk_matches_spec in Em. destruct m.
  - exfalso. destruct (Lun y); [|done]. cbn [res_bind deref] in Hf.
    destruct (default false (ToBeDetached y)); [|done]. injection Hf as <-.
    cbn [Error] in Hc. by rewrite being_detached_text in Hc.
  - intros [->|Hx]%elem_of_cons; [|by apply IH]. intros Hi%Em. done.
Qed.

Lemma ext_result {W A} (others : point → CState W → CState W) (m : M W A) s r s' :
  ext others m s = (r, s') → ∃ w, m (world s) = (r, w) ∧ s' = others PCall (set_world w s).
Proof. unfold ext. destruct (m (world s)) as [r0 w]. intros [= <- <-]. eauto. Qed.

(** *** What a success means *)
Section verified.
  Context {W : Type} `{!Cloud W} `{MapOrder}.
  Context (calls : ∀ A, M W A → Prop) (force : bool).
  Context (Hcalls : ∀ A m, attach_call force A m → calls A m).
  Context (cfg : CommonConfig) (others : point → CState W → CState W).
  Implicit Types s : CState W.
  Local Notation later := (later calls others).
  Local Notation runs := (runs calls others).

  (** Between [s] and [s'] the VM was read and the disk was found at LUN [lun]. *)
Definition seen_attached (diskName diskURI nodeName : string) (lun : Z) (s s' : CState W) : Prop :=
  ∃ st, runs (GetDiskLun others diskName diskURI nodeName) (Ok (lun, st, None)) s s'.
  (** Between [s] and [s'] the data disks of the VM were read without an error and the
      disk was none of them. *)
Definition seen_detached (diskName diskURI nodeName : string) (s s' : CState W) : Prop :=
  ∃ v disks st, runs (ext others (vm_GetDataDisks v nodeName)) (Ok (disks, st, None)) s s' ∧
    ∀ x, x ∈ disks → ¬ is_disk diskName diskURI x.
  (** Between [s] and [s'] the disk was read, and its owner is no VM or resolves to
      another node. *)
Definition released_by_arm (sub rg name nodeName : string) (s s' : CState W) : Prop :=
  ∃ c disk, runs (ext others (GetDiskClientForSub sub)) (Ok c) s s' ∧
    runs (ext others (disk_Get c rg name)) (Ok (Some disk)) s s' ∧
    (ManagedBy disk = None ∨
     ∃ mb node, ManagedBy disk = Some mb ∧
       runs (ext others (vm_GetNodeNameByProviderID cloud_VMSet mb)) (Ok node) s s' ∧
       EqualFold node nodeName = false).
  (** Between [s] and [s'] the VM was found not to exist any more, and either the
      wait for ARM is disabled or ARM said afterwards that the disk belongs to no
      VM or to another node. *)
Definition seen_released (diskURI nodeName : string) (s s' : CState W) : Prop :=
  ∃ s1, later s s1 ∧ later s1 s' ∧
  ((∃ e, runs (ext others (InstanceID nodeName)) (Err e) s s1 ∧ errors_Is e InstanceNotFound = true) ∨
   (∃ c v m e, runs (ext others (vm_DetachDisk c v nodeName m false)) (Err e) s s1 ∧
               isInstanceNotFoundError e = true)) ∧
  (WaitForDetachDiskComplete cfg = false ∨
   ∃ sub rg name, GetInfoFromURI diskURI = Ok (sub, rg, name) ∧
     released_by_arm sub rg name nodeName s1 s').

Lemma seen_attached_mono dn du n l s0 s s' s1 :
  later s0 s → later s' s1 → seen_attached dn du n l s s' → seen_attached dn du n l s0 s1.
Proof. intros ?? (st & ?). exists st. by eapply runs_mono. Qed.
Lemma seen_detached_mono dn du n s0 s s' s1 :
  later s0 s → later s' s1 → seen_detached dn du n s s' → seen_detached dn du n s0 s1.
Proof. intros ?? (v & l & st & ? & ?). exists v, l, st. split; [|done]. by eapply runs_mono. Qed.
Lemma released_by_arm_mono sub rg nm n s0 s s' s1 :
  later s0 s → later s' s1 → released_by_arm sub rg nm n s s' → released_by_arm sub rg nm n s0 s1.
Proof.
  intros ?? (c & disk & ? & ? & Hm). exists c, disk. split_and!; [by eapply runs_mono..|].
  destruct Hm as [?|(mb & node & ? & ? & ?)]; [by left|right]. exists mb, node. split_and!; [done| |done].
  by eapply runs_mono.
Qed.
Lemma seen_released_mono du n s0 s s' s1 :
  later s0 s → later s' s1 → seen_released du n s s' → seen_released du n s0 s1.
Proof.
  intros H0 H1 (s2 & L1 & L2 & Ha & Hb). exists s2. split_and!; [by trans s|by trans s'|..].
  - destruct Ha as [(e & ? & ?)|(c & v & m & e & ? & ?)]; [left; exists e|right; exists c, v, m, e];
      (split; [eapply runs_mono; [exact H0|reflexivity|done]|done]).
  - destruct Hb as [?|(sub & rg & nm & ? & ?)]; [by left|]. right. exists sub, rg, nm.
    split; [done|]. eapply released_by_arm_mono; [reflexivity|exact H1|done].
Qed.

  Local Hint Resolve Hcalls : moves_db.
  Local Hint Extern 2 (moves _ _ (GetDiskLun _ _ _ _)) => apply (moves_GetDiskLun others calls force) : moves_db.
  Local Hint Extern 2 (moves _ _ (disk_released _ _ _ _ _ _)) => apply (moves_disk_released others calls force) : moves_db.

Lemma verifyAttach_ok dn du n lun s s' :
  verifyAttach others dn du n s = (Ok lun, s') → seen_attached dn du n lun s s'.
Proof.
  unfold verifyAttach. intros ([[l st] [e|]] & s1 & H1 & H2)%bind_ok; [done|].
  injection H2 as -> <-. exists st. by apply runs_here.
Qed.

Lemma lun_not_found dn du n s s' l st e :
  lun_text_reserved (W:=W) du n →
  GetDiskLun others dn du n s = (Ok (l, st, Some e), s') → Contains (Error e) CannotFindDiskLUN = true →
  seen_detached dn du n s s'.
Proof.
  intros (Hu & Hn & Hset & Hget). unfold GetDiskLun, GetNodeDataDisks. intros Hx Hc.
  apply bind_ok in Hx as ([[disks st'] err] & s2 & Hd & Hx).
  apply (bind_later calls others) in Hd as ([e'|v] & s1 & L1 & Hv%try_ok & Hd); [| |moves_auto].
  { injection Hd as <- <- <- <-. injection Hx as _ _ <- _.
    apply ext_result in Hv as (w & Hv & _). apply Hset in Hv. congruence. }
  destruct err as [e'|].
  { injection Hx as _ _ <- _. apply ext_result in Hd as (w & Hd & _). apply Hget in Hd. congruence. }
  destruct (find_lun dn du n disks) as [?|e'|] eqn:Ef; [done| |done]. injection Hx as _ _ -> <-.
  exists v, disks, st'. split; [exists s1, s2; split_and!; [done|done|reflexivity]|].
  by eapply find_lun_missing.
Qed.

Lemma verifyDetach_ok dn du n s s' :
  lun_text_reserved du n → verifyDetach others dn du n s = (Ok (), s') → seen_detached dn du n s s'.
Proof.
  intros Htext. unfold verifyDetach. intros ([[l st] [e|]] & s1 & H1 & H2)%bind_ok; [|done].
  destruct (Contains _ _) eqn:Ec; [|done]. injection H2 as <-. by eapply lun_not_found.
Qed.

Lemma disk_released_ok sub rg nm du n s s' :
  disk_released others sub rg nm du n s = (Ok true, s') → released_by_arm sub rg nm n s s'.
Proof.
  unfold disk_released.
  intros ([e|c] & s1 & L1 & Hc%try_ok & Hx)%(bind_later calls others); [done| |moves_auto].
  apply (bind_later calls others) in Hx as ([e|[disk|]] & s2 & L2 & Hg%try_ok & Hx); [done| |done|moves_auto].
  unfold lift, deref in Hx. apply bind_ok in Hx as (disk' & s3 & [= <- <-] & Hx).
  assert (L3 : later s2 s').
  { destruct (ManagedBy disk); [|by injection Hx as <-].
    apply (bind_later calls others) in Hx as (r & s4 & L4 & _ & Hx); [|moves_auto]. trans s4; [done|].
    destruct r as [e|node]; [by destruct (errors_Is _ _ || _); [|done]|by injection Hx as _ <-]. }
  exists c, disk. split_and!; [by exists s, s1; split_and!; [|done|trans s2]|by exists s1, s2; split_and!|].
  destruct (ManagedBy disk) as [mb|]; [right|by left]. clear L3.
  apply (bind_later calls others) in Hx as ([e|node] & s4 & L4 & Hn%try_ok & Hx); [| |moves_auto].
  { destruct (errors_Is _ _ || _); done. }
  injection Hx as Hx <-. exists mb, node. split_and!; [done| |by apply negb_true_iff].
  exists s2, s4. split_and!; [by trans s1|done|reflexivity].
Qed.
Lemma waitForDisk_ok c du n s s' :
  waitForDiskManagedByTobeRemoved cfg others c du n s = (Ok (), s') →
  WaitForDetachDiskComplete cfg = false ∨
  ∃ sub rg name, GetInfoFromURI du = Ok (sub, rg, name) ∧ released_by_arm sub rg name n s s'.
Proof.
  unfold waitForDiskManagedByTobeRemoved.
  destruct (WaitForDetachDiskComplete cfg); [|by left]. cbn [negb]. intros Hw. right.
  apply bind_ok in Hw as ([[sub rg] name] & s1 & H1 & H2). injection H1 as H1 <-.
  apply (backoff_later calls others) in H2 as (s2 & L & H2);
    [exists sub, rg, name; split; [done|]|intros; moves_auto..].
  eapply released_by_arm_mono; [exact L|reflexivity|by eapply disk_released_ok].
Qed.

Lemma released_by_wait c du n s s1 s' :
  waitForDiskManagedByTobeRemoved cfg others c du n s1 = (Ok (), s') → later s s1 →
  ((∃ e, runs (ext others (InstanceID n)) (Err e) s s1 ∧ errors_Is e InstanceNotFound = true) ∨
   (∃ c v m e, runs (ext others (vm_DetachDisk c v n m false)) (Err e) s s1 ∧
               isInstanceNotFoundError e = true)) →
  seen_released du n s s'.
Proof.
  intros Hw L Hnf. exists s1. split_and!; [done| |done|by eapply waitForDisk_ok].
  eapply (moves_later _ _ _ _ _ _ (moves_wait_managed cfg others calls force Hcalls _ _ _)); done.
Qed.

Lemma detach_batch_ok c v dn du n m s s' :
  lun_text_reserved du n →
  DisableDiskLunCheck cfg = false → (ForceDetachBackoff cfg = true → force = true) →
  detach_batch cfg others c v dn du n m s = (Ok (), s') →
  seen_detached dn du n s s' ∨ seen_released du n s s'.
Proof.
  intros Htext Hck HF. unfold detach_batch. rewrite Hck.
  intros (now & s1 & L1 & _ & Hd)%(bind_later calls others); [|moves_auto].
  destruct (detach_timeouts cfg now c) as [t1 t2]. cbv zeta in Hd.
  assert (Hfin : ∀ s2, later s s2 → verifyDetach others dn du n s2 = (Ok (), s') → seen_detached dn du n s s').
  { intros s2 L2 Hv. eapply seen_detached_mono; [exact L2|reflexivity|by apply verifyDetach_ok]. }
  apply (bind_later calls others) in Hd as ([e|[]] & s2 & L2 & Hr & Hd); [| |moves_auto]; [|left; by apply (Hfin s2); [trans s1|]].
  apply try_ok in Hr.
  destruct (isInstanceNotFoundError e) eqn:Ei.
  { right. eapply released_by_wait; [done|by trans s1|]. right. eexists _, v, m, e. split; [|done].
    exists s1, s2. by split_and!. }
  destruct (preemptedByForceOperation e); [left; by apply (Hfin s2); [trans s1|]|].
  pose proof (moves_poll_detach others calls force Hcalls) as Mp.
  apply (bind_later calls others) in Hd as (r1 & s3 & L3 & _ & Hd); [|moves_auto].
  apply (bind_later calls others) in Hd as ([e2|[]] & s4 & L4 & _ & Hd); [done| |moves_auto].
  left. apply (Hfin s4); [|done]. by trans s1; [|trans s2; [|trans s3]].
Qed.

Lemma AttachDisk_seen ctx dn du n caching disk ptr occ s s' lun :
  DisableDiskLunCheck cfg = false →
  AttachDisk cfg others ctx dn du n caching disk ptr occ s = (Ok lun, s') →
  seen_attached dn du n lun s s'.
Proof.
  pose proof (moves_UpdateVM others calls force Hcalls) as MU.
  pose proof (moves_batchAttach others calls) as MB.
  pose proof (moves_retrieveAttach others calls) as MR.
  pose proof (moves_wait_for_detach cfg others calls force Hcalls) as MW.
  pose proof (moves_batch_pause others calls force Hcalls) as MP.
  pose proof (moves_numDisksAllowed cfg others calls force Hcalls) as MN.
  pose proof (moves_SetDiskLun others calls force Hcalls) as MS.
  pose proof (moves_attached_elsewhere others calls force Hcalls) as ME.
  intros Hck. unfold AttachDisk. intros (already & s1 & L1 & Ha & Hr)%(bind_later calls others); [|done].
  destruct already as [l|].
  - injection Hr as -> <-. unfold attached_elsewhere in Ha.
    destruct (disk ≫= ManagedBy) as [mb|]; [|done]. destruct (_ <=? 1); [|done].
    apply (bind_later calls others) in Ha as (v & s2 & L2 & _ & Ha); [|moves_auto].
    apply (bind_later calls others) in Ha as (an & s3 & L3 & _ & Ha); [|moves_auto].
    destruct (EqualFold _ _); [|done]. apply (bind_later calls others) in Ha as (? & s4 & L4 & _ & Ha); [|done].
    apply bind_ok in Ha as ([[l' st] [e|]] & s5 & Hg & Ha); [done|].
    injection Ha as -> <-. exists st, s4, s5. split_and!; [by trans s2; [|trans s3]|done|reflexivity].
  - apply bind_ok in Hr as (o & s2 & [= _ <-] & Hr). apply (bind_later calls others) in Hr as (rn & s3 & L3 & _ & Hr); [|done].
    apply (bind_later calls others) in Hr as (w & s4 & L4 & _ & Hr); [|done].
    apply (with_lock_later calls others) in Hr as (s5 & s6 & L5 & Hr & L6).
    apply (bind_later calls others) in Hr as (? & s7 & L7 & _ & Hr); [|done]. unfold attach_batch in Hr.
    apply (bind_later calls others) in Hr as (al & s8 & L8 & _ & Hr); [|done].
    apply (bind_later calls others) in Hr as (dm & s9 & L9 & _ & Hr); [|done].
    assert (L : later s s9) by (trans s1; [done|]; trans s3; [done|]; trans s4; [done|]; trans s5; [done|];
      trans s7; [done|]; by trans s8).
    case_bool_decide; [eapply seen_attached_mono; [exact L|exact L6|by apply verifyAttach_ok]|].
    apply (bind_later calls others) in Hr as ([l dm'] & s10 & L10 & _ & Hr); [|done].
    apply (bind_later calls others) in Hr as (v & s11 & L11 & _ & Hr); [|moves_auto].
    apply (bind_later calls others) in Hr as (? & s12 & L12 & _ & Hr); [|moves_auto]. unfold defer in Hr.
    destruct (on_error _ _ _) as [r s13] eqn:Eo. injection Hr as -> <-. unfold on_error in Eo.
    apply bind_ok in Eo as ([e|l'] & s14 & Ht & Eo); [by apply bind_ok in Eo as (? & ? & _ & ?)|].
    injection Eo as -> <-. apply try_ok in Ht. unfold attach_and_verify in Ht. rewrite Hck in Ht.
    apply (bind_later calls others) in Ht as (? & s15 & L15 & _ & Ht); [|moves_auto].
    apply (bind_later calls others) in Ht as (? & s16 & L16 & _ & Ht); [|moves_auto].
    eapply seen_attached_mono; [| |by apply verifyAttach_ok].
    + trans s9; [done|]. trans s10; [done|]. trans s11; [done|]. trans s12; [done|]. by trans s15.
    + etrans; [|exact L6]. by apply later_own.
Qed.

Lemma DetachDisk_seen ctx dn du n s s' :
  lun_text_reserved du n →
  DisableDiskLunCheck cfg = false → (ForceDetachBackoff cfg = true → force = true) →
  DetachDisk cfg others ctx dn du n s = (Ok (), s') →
  seen_detached dn du n s s' ∨ seen_released du n s s'.
Proof.
  pose proof (moves_batchDetach others calls) as MB.
  pose proof (moves_retrieveDetach others calls) as MR.
  pose proof (moves_batch_pause others calls force Hcalls) as MP.
  intros Htext Hck HF. unfold DetachDisk. intros ([e|iid] & s1 & L1 & Hi & Hd)%(bind_later calls others); [| |moves_auto].
  - destruct (errors_Is e InstanceNotFound) eqn:Ee; [|done]. apply try_ok in Hi.
    right. eapply released_by_wait; [done|done|]. left. exists e. split; [|done]. by apply runs_here.
  - apply (bind_later calls others) in Hd as (v & s2 & L2 & _ & Hd); [|moves_auto].
    apply (bind_later calls others) in Hd as (bc & s3 & L3 & _ & Hd); [|done].
    apply (with_lock_later calls others) in Hd as (s4 & s5 & L4 & Hd & L5).
    apply (bind_later calls others) in Hd as (? & s6 & L6 & _ & Hd); [|done].
    apply (bind_later calls others) in Hd as (dm & s7 & L7 & _ & Hd); [|done].
    assert (L : later s s7) by (trans s1; [done|]; trans s2; [done|]; trans s3; [done|]; trans s4; [done|]; by trans s6).
    case_bool_decide; [left; eapply seen_detached_mono; [exact L|exact L5|by apply verifyDetach_ok]|].
    apply (bind_later calls others) in Hd as (? & s8 & L8 & _ & Hd); [|moves_auto]. unfold defer in Hd.
    destruct (detach_batch _ _ _ _ _ _ _ _ _) as [r s9] eqn:E. injection Hd as -> <-.
    apply detach_batch_ok in E as [E|E]; [left|right|done..];
      (eapply seen_detached_mono || eapply seen_released_mono); [| |exact E| | |exact E];
      try (by trans s7); (etrans; [|exact L5]; by apply later_own).
Qed.
End verified.

(** When [AttachDisk] succeeds, the LUN it returns was read from the VM
    during the call: the disk was found on the node at that LUN. *)
Theorem AttachDisk_verified {W} `{!Cloud W} `{MapOrder} cfg (others : point → CState W → CState W)
    ctx diskName diskURI nodeName caching disk ptr occ (s s' : CState W) lun :
  DisableDiskLunCheck cfg = false →
  AttachDisk cfg others ctx diskName diskURI nodeName caching disk ptr occ s = (Ok lun, s') →
  seen_attached (attach_call false) others diskName diskURI nodeName lun s s'.
Proof. by apply (AttachDisk_seen _ false). Qed.

Lemma AttachDisk_verified_witness :
  ∃ s', seen_attached (attach_call false) quiet "d2" (consts.ManagedDiskPath "s" "rg" "d2") "n1" 0
    (demo_state (demo_world None)) s'.
Proof.
  eexists. eapply (AttachDisk_verified (demo_cfg false) quiet (MkCtx None) "d2"
    (consts.ManagedDiskPath "s" "rg" "d2") "n1" "None" None 1%positive [] (demo_state (demo_world None))).
  - reflexivity.
  - vm_compute. reflexivity.
Defined.

(** C13. When [DetachDisk] succeeds, the disk was seen to be gone during the call: the
    data disks of the VM were read and none of them has its name, its URI or its
    identifier, or the VM was found not to exist any more and then
    ARM said that the disk belongs to no VM or to another node (unless that wait is
    disabled).  Forced or preempted detaches are no exception, and a disk that is
    still listed as to be detached is not gone.  The text by which the driver recognises
    that a disk was not found is used by no error of the cloud and is in no name. *)
Theorem DetachDisk_verified {W} `{!Cloud W} cfg (others : point → CState W → CState W)
    ctx diskName diskURI nodeName (s s' : CState W) :
  lun_text_reserved (W:=W) diskURI nodeName →
  DisableDiskLunCheck cfg = false →
  DetachDisk cfg others ctx diskName diskURI nodeName s = (Ok (), s') →
  seen_detached (attach_call (ForceDetachBackoff cfg)) others diskName diskURI nodeName s s' ∨
  seen_released (attach_call (ForceDetachBackoff cfg)) cfg others diskURI nodeName s s'.
Proof. intros ?? Hd. eapply (DetachDisk_seen _ (ForceDetachBackoff cfg)); eauto. Qed.
Lemma demo_lun_text : lun_text_reserved (W:=Demo) demo_uri "n1".
Proof. by split_and!. Qed.

Lemma DetachDisk_verified_witness :
  ∃ s', seen_detached (attach_call true) quiet "d1" demo_uri "n1" (demo_state (demo_world (Some (ENew "conflict")))) s'
     ∨ seen_released (attach_call true) (demo_cfg true) quiet demo_uri "n1"
         (demo_state (demo_world (Some (ENew "conflict")))) s'.
Proof.
  eexists. eapply (DetachDisk_verified (demo_cfg true) quiet (MkCtx None) "d1" demo_uri "n1"
            (demo_state (demo_world (Some (ENew "conflict"))))).
  - exact demo_lun_text.
  - reflexivity.
  - vm_compute. reflexivity.
Defined.

(** *** Options, time limits, batches *)

(** The request that [AttachDisk] queues: no host caching for a PremiumV2 disk
    or one of 4 TiB and more, whatever was asked for; a disk that is not
    shared is queued only when ARM says it is unattached (or says nothing);
    no LUN is chosen yet. *)
Theorem attach_options_spec diskName diskURI caching d o :
  attach_options diskName diskURI caching (Some d) = Ok o →
  (disk_SKU d = Some (Some armcompute.DiskStorageAccountTypesPremiumV2LRS) ∨
     (∃ p size, disk_Properties d = Some p ∧ DiskSizeGB p = Some size ∧ 4096 ≤ size) →
   opt_CachingMode o = armcompute.CachingTypesNone) ∧
  (∀ p st, disk_Properties d = Some p → DiskState p = Some st → default 1 (p_MaxShares p) ≤ 1 →
     st = armcompute.DiskStateUnattached) ∧
  opt_Lun o = -1 ∧ opt_DiskName o = diskName ∧
  (opt_CachingMode o = caching ∨ opt_CachingMode o = armcompute.CachingTypesNone).
Proof.
  unfold attach_options. cbn [mbind option_bind]. cbv zeta.
  intros (? & Hstate & Ho)%res_bind_ok. simplify_eq. cbn [opt_CachingMode opt_Lun opt_DiskName].
  assert (Heff : ∀ sz, effectiveCachingModeForDisk caching sz = caching ∨
                       effectiveCachingModeForDisk caching sz = armcompute.CachingTypesNone).
  { intros [sz|]; simpl; [destruct (_ && _)|]; auto. }
  split_and!; [|..|done|done|].
  - intros [Hsku|(p & size & Hp & Hs & Hge)].
    + rewrite Hsku. done.
    + rewrite Hp. cbn [mbind option_bind]. rewrite Hs. unfold effectiveCachingModeForDisk.
      assert (Hle : (diskCachingLimit <=? size) = true) by (apply Z.leb_le; done).
      rewrite Hle. simpl.
      destruct (String.eqb_spec caching armcompute.CachingTypesNone) as [->|]; simpl;
        repeat case_match; done.
  - intros p st Hp Hst Hms. rewrite Hp in Hstate. cbn [mbind option_bind] in Hstate.
    rewrite Hst in Hstate.
    assert (Hle : (default 1 (p_MaxShares p) <=? 1) = true) by (by apply Z.leb_le).
    rewrite Hle, andb_true_r in Hstate.
    destruct (String.eqb_spec st armcompute.DiskStateUnattached); [done|]. simpl in Hstate. done.
  - repeat case_match; auto.
Qed.

Definition demo_disk (sku : string) (size : Z) : Disk :=
  MkDisk (Some demo_uri) (Some "d1") None None
    (Some (MkDiskProperties (Some size) None None (Some "Unattached") None None None None None None
             None (Some "Succeeded") None None)) (Some (Some sku)) ∅ [] None.

Lemma attach_options_spec_witness :
  ∃ o, attach_options "d1" demo_uri "ReadOnly" (Some (demo_disk "Premium_LRS" 8192)) = Ok o ∧
       opt_CachingMode o = "None".
Proof.
  eexists. split; [vm_compute; reflexivity|].
  eapply (attach_options_spec "d1" demo_uri "ReadOnly" (demo_disk "Premium_LRS" 8192));
    [vm_compute; reflexivity|].
  right. eexists _, 8192. repeat split; lia.
Defined.

(** The time limits of a detach: the polling of the VM starts before the detach
    is given up, the detach gets at least the configured minimum, and at most
    half of the time left to the caller when that is more. *)
Theorem detach_timeouts_bounds cfg now ctx :
  0 ≤ DetachOperationMinTimeoutInSeconds cfg → 0 ≤ VMSSDetachTimeoutInSeconds cfg →
  let '(detachTimeout, earlyTimeout) := detach_timeouts cfg now ctx in
  let minimum := DetachOperationMinTimeoutInSeconds cfg * Second in
  0 ≤ earlyTimeout ≤ detachTimeout ∧ minimum ≤ detachTimeout ∧
  match ctx_Deadline ctx with
  | None => detachTimeout = minimum
  | Some t => detachTimeout = Z.max minimum (Z.quot (t - now) 2)
  end.
Proof.
  intros H1 H2. unfold detach_timeouts, Second. cbv zeta.
  destruct (ctx_Deadline ctx) as [t|].
  - destruct (Z.ltb_spec (DetachOperationMinTimeoutInSeconds cfg * 1000000000) (Z.quot (t - now) 2));
    destruct (Z.eqb_spec (VMSSDetachTimeoutInSeconds cfg * 1000000000) 0); simpl;
    try case_match; bool_split; lia.
  - destruct (Z.eqb_spec (VMSSDetachTimeoutInSeconds cfg * 1000000000) 0); simpl;
    try case_match; bool_split; lia.
Qed.

Lemma detach_timeouts_bounds_witness :
  detach_timeouts (demo_cfg false) 0 (MkCtx (Some (900 * Second))) = (450 * Second, 200 * Second) ∧
  0 ≤ 200 * Second ≤ 450 * Second.
Proof.
  split; [reflexivity|].
  apply (detach_timeouts_bounds (demo_cfg false) 0 (MkCtx (Some (900 * Second)))); simpl; lia.
Defined.

(** [GetDiskLun] dereferences the LUN of every disk it recognises by its VHD or
    managed-disk URI, also when the VM reports no LUN: the call panics. *)
Theorem find_lun_nil_lun_panics diskName diskURI nodeName d disks mid :
  Lun d = None → Vhd d = None → dd_ManagedDisk d = Some (Some mid) → EqualFold mid diskURI = true →
  find_lun diskName diskURI nodeName (d :: disks) = Panic.
Proof. intros H1 H2 H3 H4. simpl. unfold disk_matches. rewrite H1, H2, H3. simpl. by rewrite H4. Qed.

Lemma find_lun_nil_lun_panics_witness :
  find_lun "d" "u" "n" [MkDataDisk None (Some "d") None (Some (Some "U")) None] = Panic.
Proof. apply (find_lun_nil_lun_panics "d" "u" "n" _ [] "U"); reflexivity. Defined.

(** The wait for detaches on a node whose VM size was found to be full is not
    tied to that finding: [isMaxDataDiskCountExceeded] answers [true] in every
    state, for a node that was never recorded too. *)
Theorem isMaxDataDiskCountExceeded_always {W} `{!Cloud W} (others : point → CState W → CState W)
    nodeName (s : CState W) :
  (isMaxDataDiskCountExceeded others nodeName s).1 ≠ Ok false.
Proof.
  intros E. destruct (isMaxDataDiskCountExceeded others nodeName s) as [r s'] eqn:Ei.
  simpl in E. subst r. unfold isMaxDataDiskCountExceeded in Ei.
  apply bind_ok in Ei as (now & s1 & _ & Hx).
  apply bind_ok in Hx as (s2 & s3 & _ & Hx). destruct (cache_Get _ _ _ _) as [o c].
  by apply bind_ok in Hx as (? & s4 & _ & Hx).
Qed.
