(* ===== verification/BatchProtocol.v ===== *)
(** * The batching of attach requests as a transition system

    Any number of goroutines run [AttachDisk] for one node.  Each first queues
    its request ([batchAttachDiskRequest]), then takes the lock of the node and
    retrieves the queue ([retrieveAttachBatchedDiskRequests]); it either gets a
    batch, which it attaches, or nothing, and then only checks that its disk
    was attached by somebody else.  The steps are those two functions of
    [ControllerCommon]; the lock of their map key makes each atomic.  The
    ghost fields record who inserted a queue entry and who was served. *)
From stdpp Require Import gmap strings list.
From Stdlib Require Import ZArith Lia.
From S2P Require Import Prelude GoStrings GoErr Consts Util AzureTypes DiskUtils Cloud DemoCloud ControllerCommon.
Local Open Scope string_scope.

(** Where a goroutine is. *)
Inductive phase :=
| Start
| Queued
| Holding (batch : DiskMap)   (**r has the lock of the node *)
| Done.

Section protocol.
  Context {W : Type} (node : string).
  (** the disk and the options of each goroutine's request *)
  Context (uri : nat → string) (opts : nat → AttachDiskOptions).

Record BState := MkBState {
  shared : CState W;
  pc : nat → phase;
  holder : option nat;        (**r of the lock of the node *)
  inserter : gmap string nat; (**r ghost: who inserted each entry of the queue *)
  taken : list nat;           (**r ghost: whose entries were retrieved *)
  served : nat → nat;         (**r ghost: batches that had the goroutine's disk *)
}.
Definition queue (s : CState W) : DiskMap := default ∅ (attachDiskMap s !! node).
Definition alone : point → CState W → CState W := λ _ s, s.
Definition update {A} (f : nat → A) (t : nat) (a : A) : nat → A :=
  λ u, if decide (u = t) then a else f u.

Inductive bstep : BState → BState → Prop :=
| step_queue b t n c' :
    pc b t = Start →
    batchAttachDiskRequest alone (uri t) node (opts t) (shared b) = (Ok n, c') →
    bstep b (MkBState c' (update (pc b) t Queued) (holder b)
      (match queue (shared b) !! uri t with
       | Some _ => inserter b | None => <[uri t := t]> (inserter b) end)
      (taken b) (served b))
| step_retrieve b t m c' :
    pc b t = Queued → holder b = None →
    retrieveAttachBatchedDiskRequests alone node (uri t) (shared b) = (Ok m, c') →
    bstep b (MkBState c' (update (pc b) t (Holding m)) (Some t)
      (if decide (m = ∅) then inserter b else ∅)
      (if decide (m = ∅) then taken b else (map_to_list (inserter b)).*2 ++ taken b)
      (λ u, match pc b u, m !! uri u with
            | Queued, Some _ => Datatypes.S (served b u)
            | _, _ => served b u end))
| step_release b t m :
    pc b t = Holding m →
    bstep b (MkBState (shared b) (update (pc b) t Done) None (inserter b) (taken b) (served b)).

(** The invariant: the lock has one holder; every entry of the queue holds the
    options of the goroutine that inserted it, which is waiting; entries that
    were taken belong to others; whoever waits is in the queue or was served. *)
Record binv (b : BState) : Prop := {
  inv_lock : ∀ t, (∃ m, pc b t = Holding m) ↔ holder b = Some t;
  inv_dom : ∀ u, is_Some (queue (shared b) !! u) ↔ is_Some (inserter b !! u);
  inv_entry : ∀ u t, inserter b !! u = Some t →
     uri t = u ∧ pc b t ≠ Start ∧ queue (shared b) !! u = Some (Some (opts t));
  inv_taken : NoDup (taken b) ∧ (∀ t, t ∈ taken b → pc b t ≠ Start) ∧
     (∀ u t, inserter b !! u = Some t → t ∉ taken b);
  inv_wait : ∀ t, pc b t = Queued → is_Some (queue (shared b) !! uri t) ∨ (0 < served b t)%nat;
  inv_empty : ∀ t, pc b t = Holding ∅ → (0 < served b t)%nat;
  inv_batch : ∀ t m u o, pc b t = Holding m → m !! u = Some o →
     ∃ t', uri t' = u ∧ o = Some (opts t') ∧ t' ∈ taken b;
}.

Lemma batch_queue t c n c' :
  batchAttachDiskRequest alone (uri t) node (opts t) c = (Ok n, c') →
  queue c' = match queue c !! uri t with
             | Some _ => queue c | None => <[uri t := Some (opts t)]> (queue c) end.
Proof.
  unfold batchAttachDiskRequest, with_lock, LockEntry, alone, bind, defer, get, modify, ret.
  intros H. simplify_eq. unfold queue. simpl. by rewrite lookup_insert_eq.
Qed.

Lemma retrieve_queue t c m c' :
  retrieveAttachBatchedDiskRequests alone node (uri t) c = (Ok m, c') →
  (is_Some (queue c !! uri t) ∧ m = queue c ∧ queue c' = ∅) ∨
  (queue c !! uri t = None ∧ m = ∅ ∧ queue c' = queue c).
Proof.
  unfold retrieveAttachBatchedDiskRequests, with_lock, LockEntry, alone, bind, defer, get, modify, ret.
  unfold queue. simpl. intros H.
  destruct (attachDiskMap c !! node) as [dm|] eqn:E; simpl in H.
  - destruct (dm !! uri t) as [o|] eqn:Eo; simplify_eq/=.
    + left. rewrite Eo. rewrite lookup_insert_eq. split_and!; eauto.
    + right. by rewrite E.
  - simplify_eq/=. right. rewrite E. split_and!; [apply lookup_empty|done..].
Qed.

Lemma update_eq {A} (f : nat → A) t a : update f t a t = a.
Proof. unfold update. by rewrite decide_True. Qed.
Lemma update_ne {A} (f : nat → A) t u a : u ≠ t → update f t a u = f u.
Proof. intros. unfold update. by rewrite decide_False. Qed.

(** The inserters of distinct entries are distinct goroutines. *)
Lemma inserters_NoDup b : binv b → NoDup (map_to_list (inserter b)).*2.
Proof.
  intros Hb. pose proof (NoDup_map_to_list (inserter b)) as Hnd.
  assert (Hin : ∀ x, x ∈ map_to_list (inserter b) → inserter b !! x.1 = Some x.2).
  { intros [u t] Hx. by apply elem_of_map_to_list in Hx. }
  induction (map_to_list (inserter b)) as [|[u t] l IH]; [constructor|].
  apply NoDup_cons in Hnd as [Hx Hnd]. rewrite fmap_cons. constructor.
  - intros ([u' t'] & Ht & Hu')%list_elem_of_fmap. simpl in Ht. subst t'.
    destruct (inv_entry b Hb u t) as [Hu _]; [by apply (Hin (u, t)); constructor|].
    destruct (inv_entry b Hb u' t) as [Hu2 _]; [by apply (Hin (u', t)); constructor|].
    by subst.
  - apply IH; [done|]. intros x Hx'. apply Hin. by constructor.
Qed.

Lemma binv_queue b t n c' :
  binv b → pc b t = Start →
  batchAttachDiskRequest alone (uri t) node (opts t) (shared b) = (Ok n, c') →
  binv (MkBState c' (update (pc b) t Queued) (holder b)
      (match queue (shared b) !! uri t with
       | Some _ => inserter b | None => <[uri t := t]> (inserter b) end)
      (taken b) (served b)).
Proof.
  intros Hb Hpc Hq%batch_queue. destruct Hb as [H1 H2 H3 (H4 & H5 & H6) H7 H8 H9].
  assert (Hne : ∀ u, pc b u ≠ Start → u ≠ t) by (intros u Hu ->; done).
  assert (Hup : ∀ u, update (pc b) t Queued u = pc b u ∨ u = t ∧ update (pc b) t Queued u = Queued).
  { intros u. destruct (decide (u = t)) as [->|]; [right; by rewrite update_eq|left; by apply update_ne]. }
  split; simpl.
  - intros u. destruct (Hup u) as [-> |[-> ->]]; [apply H1|].
    split; [by intros [? ?]|]. intros Hh. apply H1 in Hh as [m Hm]. congruence.
  - intros u. rewrite Hq. destruct (queue (shared b) !! uri t) eqn:E; [apply H2|].
    destruct (decide (u = uri t)) as [->|]; [by rewrite !lookup_insert_eq|].
    rewrite !lookup_insert_ne by done. apply H2.
  - intros u t' Hi. rewrite Hq. destruct (queue (shared b) !! uri t) eqn:E.
    + destruct (H3 _ _ Hi) as (? & ? & ?). split_and!; [done| |done].
      rewrite update_ne; [done | by apply Hne].
    + destruct (decide (u = uri t)) as [->|].
      * rewrite lookup_insert_eq in Hi. simplify_eq. rewrite update_eq, lookup_insert_eq. done.
      * rewrite lookup_insert_ne in Hi by done. destruct (H3 _ _ Hi) as (? & ? & ?).
        rewrite lookup_insert_ne by done. split_and!; [done| |done].
        rewrite update_ne; [done | by apply Hne].
  - split_and!; [done| |].
    + intros u Hu. rewrite update_ne; [by apply H5 | by apply Hne, H5].
    + intros u t' Hi. destruct (queue (shared b) !! uri t); [by eapply H6|].
      destruct (decide (u = uri t)) as [->|].
      * rewrite lookup_insert_eq in Hi. simplify_eq. intros Ht%H5. done.
      * rewrite lookup_insert_ne in Hi by done. by eapply H6.
  - intros u Hu. rewrite Hq. destruct (decide (u = t)) as [->|].
    + left. destruct (queue (shared b) !! uri t) eqn:E; [by rewrite E|by rewrite lookup_insert_eq].
    + rewrite update_ne in Hu by done. destruct (H7 _ Hu) as [Hs|]; [|by right]. left.
      destruct (queue (shared b) !! uri t) eqn:E; [done|].
      destruct (decide (uri u = uri t)) as [->|]; [by rewrite lookup_insert_eq|].
      by rewrite lookup_insert_ne.
  - intros u. destruct (Hup u) as [-> |[-> ->]]; [apply H8|done].
  - intros u m v o. destruct (Hup u) as [-> |[-> ->]]; [apply H9|done].
Qed.

(** Nobody holds the lock, and [t] takes it. *)
Lemma no_holder b u m : binv b → holder b = None → pc b u ≠ Holding m.
Proof. intros Hb Hh Hu. assert (holder b = Some u) by (apply (inv_lock _ Hb); eauto). congruence. Qed.
Lemma taken_lock b t m : binv b → holder b = None →
  ∀ u, (∃ m', update (pc b) t (Holding m) u = Holding m') ↔ Some t = Some u.
Proof.
  intros Hb Hh u. destruct (decide (u = t)) as [->|]; [rewrite update_eq; naive_solver|].
  rewrite update_ne by done. split; [intros [m' Hm']; by destruct (no_holder b u m' Hb Hh)|congruence].
Qed.
Lemma taken_start b t m u : update (pc b) t (Holding m) u = Start → pc b u = Start.
Proof. destruct (decide (u = t)) as [->|]; [by rewrite update_eq|by rewrite update_ne]. Qed.
(** Who was served when the batch [m] was taken. *)
Definition served_by (b : BState) (m : DiskMap) (u : nat) : nat :=
  match pc b u, m !! uri u with
  | Queued, Some _ => Datatypes.S (served b u)
  | _, _ => served b u end.

(** The queue is taken. *)
Lemma binv_take b t c' :
  let m := queue (shared b) in
  binv b → pc b t = Queued → holder b = None → is_Some (m !! uri t) → queue c' = ∅ →
  binv (MkBState c' (update (pc b) t (Holding m)) (Some t) ∅ ((map_to_list (inserter b)).*2 ++ taken b) (served_by b m)).
Proof.
  intros m Hb Hpc Hh Hin Hq'. pose proof (inserters_NoDup b Hb) as Hnd. pose proof (taken_lock b t m Hb Hh) as Hlock.
  pose proof (λ u m', no_holder b u m' Hb Hh) as Hnoh. destruct Hb as [H1 H2 H3 (H4 & H5 & H6) H7 H8 H9]. subst m.
  assert (Hmne : queue (shared b) ≠ ∅) by (intros E; rewrite E, lookup_empty in Hin; by destruct Hin).
  split; simpl; [exact Hlock| | | | | |].
  - intros u. by rewrite Hq', !lookup_empty.
  - intros u t'. by rewrite lookup_empty.
  - split_and!.
    + apply NoDup_app. split_and!; [done| |done].
      intros u ([v u'] & -> & Hi)%list_elem_of_fmap. apply elem_of_map_to_list in Hi. by apply (H6 v).
    + intros u Hu Hs%taken_start. apply elem_of_app in Hu as [Hu|Hu]; [|by apply (H5 u)].
      apply list_elem_of_fmap in Hu as ([v u'] & -> & Hi). apply elem_of_map_to_list in Hi.
      by destruct (H3 _ _ Hi) as (_ & ? & _).
    + intros u t'. by rewrite lookup_empty.
  - intros u Hu. right. unfold served_by. destruct (decide (u = t)) as [->|]; [by rewrite update_eq in Hu|].
    rewrite update_ne in Hu by done. rewrite Hu. destruct (H7 _ Hu) as [[o ->]|]; [lia|]. case_match; lia.
  - intros u Hu. destruct (decide (u = t)) as [->|]; [rewrite update_eq in Hu; by simplify_eq|].
    rewrite update_ne in Hu by done. by destruct (Hnoh u ∅).
  - intros u m v o Hu Ho. destruct (decide (u = t)) as [->|].
    + rewrite update_eq in Hu. simplify_eq.
      destruct (proj1 (H2 v)) as [t' Ht']; [eauto|]. destruct (H3 _ _ Ht') as (? & _ & Hq).
      exists t'. split_and!; [done|congruence|]. apply elem_of_app. left.
      apply list_elem_of_fmap. exists (v, t'). split; [done|]. by apply elem_of_map_to_list.
    + rewrite update_ne in Hu by done. by destruct (Hnoh u m).
Qed.
(** The own disk is not in the queue: another goroutine has taken it. *)
Lemma binv_nothing b t c' :
  binv b → pc b t = Queued → holder b = None → queue (shared b) !! uri t = None → queue c' = queue (shared b) →
  binv (MkBState c' (update (pc b) t (Holding ∅)) (Some t) (inserter b) (taken b) (served_by b ∅)).
Proof.
  intros Hb Hpc Hh Hno Hq'. pose proof (taken_lock b t ∅ Hb Hh) as Hlock.
  pose proof (λ u m', no_holder b u m' Hb Hh) as Hnoh. destruct Hb as [H1 H2 H3 (H4 & H5 & H6) H7 H8 H9].
  assert (Hserved : ∀ u, served_by b ∅ u = served b u).
  { intros u. unfold served_by. rewrite lookup_empty. by destruct (pc b u). }
  split; simpl; [exact Hlock| | | | | |].
  - intros u. rewrite Hq'. apply H2.
  - intros u t' Hi. rewrite Hq'. destruct (H3 _ _ Hi) as (? & ? & ?). split_and!; [done| |done]. by intros ?%taken_start.
  - split_and!; [done| |done]. intros u Hu Hs%taken_start. by apply (H5 u).
  - intros u Hu. rewrite Hserved, Hq'. destruct (decide (u = t)) as [->|]; [by rewrite update_eq in Hu|].
    rewrite update_ne in Hu by done. by apply H7.
  - intros u Hu. rewrite Hserved. destruct (decide (u = t)) as [->|].
    + destruct (H7 _ Hpc) as [[? ?]|]; [congruence|done].
    + rewrite update_ne in Hu by done. by destruct (Hnoh u ∅).
  - intros u m v o Hu Ho. destruct (decide (u = t)) as [->|].
    + rewrite update_eq in Hu. by simplify_eq.
    + rewrite update_ne in Hu by done. by destruct (Hnoh u m).
Qed.
Lemma binv_retrieve b t m c' :
  binv b → pc b t = Queued → holder b = None →
  retrieveAttachBatchedDiskRequests alone node (uri t) (shared b) = (Ok m, c') →
  binv (MkBState c' (update (pc b) t (Holding m)) (Some t)
      (if decide (m = ∅) then inserter b else ∅)
      (if decide (m = ∅) then taken b else (map_to_list (inserter b)).*2 ++ taken b)
      (λ u, match pc b u, m !! uri u with
            | Queued, Some _ => Datatypes.S (served b u)
            | _, _ => served b u end)).
Proof.
  intros Hb Hpc Hh [(Hin & -> & Hq')|(Hno & -> & Hq')]%retrieve_queue.
  - rewrite !decide_False by (intros E; rewrite E, lookup_empty in Hin; by destruct Hin). by apply binv_take.
  - rewrite !decide_True by done. by apply binv_nothing.
Qed.

Lemma binv_release b t m :
  binv b → pc b t = Holding m →
  binv (MkBState (shared b) (update (pc b) t Done) None (inserter b) (taken b) (served b)).
Proof.
  intros Hb Hpc. destruct Hb as [H1 H2 H3 (H4 & H5 & H6) H7 H8 H9].
  assert (Ht : holder b = Some t) by (apply H1; eauto).
  assert (Hup : ∀ u p, update (pc b) t Done u = p → p ≠ Done → pc b u = p).
  { intros u p. destruct (decide (u = t)) as [->|]; [rewrite update_eq; congruence|].
    by rewrite update_ne. }
  split; simpl; [| done | | | | |].
  - intros u. split; [|done]. intros [m' Hu]. destruct (decide (u = t)) as [->|].
    + by rewrite update_eq in Hu.
    + rewrite update_ne in Hu by done. assert (holder b = Some u) by (apply H1; eauto). congruence.
  - intros u t' Hi. destruct (H3 _ _ Hi) as (? & Hs & ?). split_and!; [done| |done].
    intros Hu. apply Hs. by apply (Hup _ _ Hu).
  - split_and!; [done| |done]. intros u Hu Hs. apply (H5 u Hu). by apply (Hup _ _ Hs).
  - intros u Hu. apply H7. by apply (Hup _ _ Hu).
  - intros u Hu. apply H8. by apply (Hup _ _ Hu).
  - intros u m' v o Hu. apply (H9 u). by apply (Hup _ _ Hu).
Qed.

Lemma bstep_inv b b' : binv b → bstep b b' → binv b'.
Proof.
  intros Hb Hs. destruct Hs.
  - by eapply binv_queue.
  - by eapply binv_retrieve.
  - by eapply binv_release.
Qed.

(** At the start nothing is queued for the node. *)
Definition binit (c : CState W) : BState :=
  MkBState c (λ _, Start) None ∅ [] (λ _, 0%nat).

Lemma binit_inv c : queue c = ∅ → binv (binit c).
Proof.
  intros Hq. split; simpl.
  - intros t. split; [by intros [? ?]|done].
  - intros u. by rewrite Hq, !lookup_empty.
  - intros u t. by rewrite lookup_empty.
  - split_and!; [constructor| |].
    + by intros t ?%elem_of_nil.
    + intros u t _. apply not_elem_of_nil.
  - done.
  - done.
  - done.
Qed.
End protocol.

(** ** Property *)

(** C11. However the goroutines of a node interleave: at most one of them attaches
    at a time; the request of each goroutine is handed to the VM in at most one
    batch, with its own options; and a goroutine that finds its request gone
    from the queue was served: its disk was in a batch retrieved after it had
    queued the request, so no request is lost. *)
Theorem batching_exactly_once {W} node (uri : nat → string) (opts : nat → AttachDiskOptions)
    (c : CState W) b :
  queue node c = ∅ →
  steps (bstep node uri opts) (binit c) b →
  (∀ t u m m', pc b t = Holding m → pc b u = Holding m' → t = u) ∧
  NoDup (taken b) ∧
  (∀ t m u o, pc b t = Holding m → m !! u = Some o →
     ∃ t', uri t' = u ∧ o = Some (opts t') ∧ t' ∈ taken b) ∧
  (∀ t, pc b t = Holding ∅ → (0 < served b t)%nat) ∧
  (∀ t, pc b t = Queued → is_Some (queue node (shared b) !! uri t) ∨ (0 < served b t)%nat).
Proof.
  intros Hq Hs.
  assert (Hb : binv node uri opts b).
  { eapply steps_invariant; [|exact Hs|by apply binit_inv]. intros ? ?. apply bstep_inv. }
  destruct Hb as [H1 _ _ (H4 & _ & _) H7 H8 H9]. split_and!; try done.
  intros t u m m' Ht Hu. assert (holder b = Some t) by (apply H1; eauto).
  assert (holder b = Some u) by (apply H1; eauto). congruence.
Qed.

(** The requests of the witness. *)
Definition demo_opts (t : nat) : AttachDiskOptions := MkAttachDiskOptions "None" "d" "" false (-1).
Definition demo_uris (t : nat) : string := match t with O => "a" | _ => "b" end.
Definition demo_c0 : CState unit := MkCState () ∅ ∅ ∅ ∅ ∅ 0 ∅.

(** The steps as functions, for the witness. *)
Definition do_queue (t : nat) (b : BState (W:=unit)) : BState (W:=unit) :=
  MkBState (batchAttachDiskRequest alone (demo_uris t) "n" (demo_opts t) (shared b)).2
    (update (pc b) t Queued) (holder b)
    (match queue "n" (shared b) !! demo_uris t with
     | Some _ => inserter b | None => <[demo_uris t := t]> (inserter b) end)
    (taken b) (served b).
Definition retrieved (t : nat) (b : BState (W:=unit)) : DiskMap :=
  match (retrieveAttachBatchedDiskRequests alone "n" (demo_uris t) (shared b)).1 with
  | Ok m => m | _ => ∅ end.
Definition do_retrieve (t : nat) (b : BState (W:=unit)) : BState (W:=unit) :=
  let m := retrieved t b in
  MkBState (retrieveAttachBatchedDiskRequests alone "n" (demo_uris t) (shared b)).2
    (update (pc b) t (Holding m)) (Some t)
    (if decide (m = ∅) then inserter b else ∅)
    (if decide (m = ∅) then taken b else (map_to_list (inserter b)).*2 ++ taken b)
    (λ u, match pc b u, m !! demo_uris u with
          | Queued, Some _ => Datatypes.S (served b u)
          | _, _ => served b u end).
Definition do_release (t : nat) (b : BState (W:=unit)) : BState (W:=unit) :=
  MkBState (shared b) (update (pc b) t Done) None (inserter b) (taken b) (served b).

(** Two goroutines for two disks: the first retrieves both requests, the second
    finds nothing and was served. *)
Definition demo_end : BState (W:=unit) :=
  do_retrieve 1 (do_release 0 (do_retrieve 0 (do_queue 1 (do_queue 0 (binit demo_c0))))).

Lemma demo_queue_step t (b : BState (W:=unit)) : pc b t = Start → bstep "n" demo_uris demo_opts b (do_queue t b).
Proof. intros H. by eapply (step_queue _ _ _ _ t). Qed.
Lemma demo_retrieve_step t (b : BState (W:=unit)) : pc b t = Queued → holder b = None →
  bstep "n" demo_uris demo_opts b (do_retrieve t b).
Proof.
  intros H1 H2. unfold do_retrieve.
  assert (E : ∃ m, (retrieveAttachBatchedDiskRequests alone "n" (demo_uris t) (shared b)).1 = Ok m).
  { unfold retrieveAttachBatchedDiskRequests, with_lock, LockEntry, alone, bind, defer, get, modify, ret.
    simpl. destruct (_ !! _) as [dm|]; simpl; [destruct (dm !! _)|]; simpl; eauto. }
  destruct E as [m E]. eapply (step_retrieve _ _ _ _ t); [done|done|].
  unfold retrieved. rewrite E. rewrite <-E. apply surjective_pairing.
Qed.
Lemma demo_release_step t m (b : BState (W:=unit)) : pc b t = Holding m →
  bstep "n" demo_uris demo_opts b (do_release t b).
Proof. intros H. by eapply (step_release _ _ _ _ t). Qed.

Lemma demo_steps : steps (bstep "n" demo_uris demo_opts) (binit demo_c0) demo_end.
Proof.
  unfold demo_end.
  eapply steps_snoc; [|apply demo_retrieve_step; reflexivity].
  eapply steps_snoc; [|eapply demo_release_step; reflexivity].
  eapply steps_snoc; [|apply demo_retrieve_step; reflexivity].
  eapply steps_snoc; [|apply demo_queue_step; reflexivity].
  eapply steps_snoc; [|apply demo_queue_step; reflexivity].
  apply steps_refl.
Qed.

Lemma batching_exactly_once_witness :
  pc demo_end 1%nat = Holding ∅ ∧ (0 < served demo_end 1%nat)%nat.
Proof.
  split; [reflexivity|].
  destruct (batching_exactly_once "n" demo_uris demo_opts demo_c0 demo_end eq_refl demo_steps)
    as (_ & _ & _ & H & _).
  apply H. reflexivity.
Defined.
