(* ===== verification/ManagedDisk.v ===== *)
(** * Managed disks: [pkg/azuredisk/azure_managedDiskController.go]

    Creating, deleting, resizing and modifying a disk through the ARM disk
    client.  What a creation sends to ARM is computed by pure functions on the
    options ([disk_properties], [disk_model]); the rest are effects on the
    state of [ControllerCommon]. *)
From stdpp Require Import gmap strings list.
From Stdlib Require Import ZArith Lia.
From S2P Require Import Prelude GoStrings GoErr Consts Util AzureTypes DiskUtils Cloud DemoCloud ControllerCommon Moments AttachProofs.
Local Open Scope string_scope.
Local Open Scope Z_scope.

(** Constants of the cloud provider. *)
Definition DefaultDiskIOPSReadWrite : Z := 500.
Definition DefaultDiskMBpsReadWrite : Z := 100.
Definition CreatedByTag : string := "k8s-azure-created-by".
Definition DiskEncryptionSetIDFormat : string :=
  "/subscriptions/{subs-id}/resourceGroups/{rg-name}/providers/Microsoft.Compute/diskEncryptionSets/{diskEncryptionSet-name}".

(** ** Options *)
(** [azuredisk/azure_managedDiskController.go ManagedDiskOptions] *)
Record ManagedDiskOptions := MkManagedDiskOptions {
  mo_StorageAccountType : string;
  mo_DiskName : string;
  mo_ResourceGroup : string;
  mo_AvailabilityZone : string;
  mo_Tags : gmap string string;
  mo_DiskIOPSReadWrite : string;
  mo_DiskMBpsReadWrite : string;
  mo_SourceResourceID : string;
  mo_SourceType : string;
  mo_DiskEncryptionSetID : string;
  mo_DiskEncryptionType : string;
  mo_SizeGB : Z;
  mo_MaxShares : Z;
  mo_LogicalSectorSize : Z;
  mo_SkipGetDiskOperation : bool;
  mo_PublicNetworkAccess : string;
  mo_NetworkAccessPolicy : string;
  mo_DiskAccessID : option string;
  mo_BurstingEnabled : option bool;
  mo_SubscriptionID : string;
  mo_Location : string;
  mo_PerformancePlus : option bool;
}.

(** [azuredisk/azure_controller_common.go getValidCreationData] *)
Definition getValidCreationData (subscriptionID resourceGroup : string) (o : ManagedDiskOptions)
  : res CreationData :=
  let empty := MkCreationData (Some armcompute.DiskCreateOptionEmpty) None None None
                 (mo_PerformancePlus o) in
  let src := mo_SourceResourceID o in
  if String.eqb src "" then Ok empty
  else
    let finish id re :=
      if (9 <? length (Split id "/"))%nat
      then Err (ENew ("sourceResourceID(" +:+ id +:+ ") is invalid, correct format: " +:+ re))
      else Ok (MkCreationData (Some armcompute.DiskCreateOptionCopy) (Some id) None None
                 (mo_PerformancePlus o)) in
    if String.eqb (mo_SourceType o) consts.SourceSnapshot then
      finish (match find_submatch true consts.DiskSnapshotPathRE src with
              | None => diskSnapshotPath subscriptionID resourceGroup src
              | Some _ => src end)
        "(?i).*/subscriptions/(?:.*)/resourceGroups/(?:.*)/providers/Microsoft.Compute/snapshots/(.+)"
    else if String.eqb (mo_SourceType o) consts.SourceVolume then
      finish (match find_submatch true consts.ManagedDiskPathRE src with
              | None => consts.ManagedDiskPath subscriptionID resourceGroup src
              | Some _ => src end)
        "(?i).*/subscriptions/(?:.*)/resourceGroups/(?:.*)/providers/Microsoft.Compute/disks/(.+)"
    else Ok empty.

(** ** What a creation sends to ARM *)
(** [azuredisk/azure_managedDiskController.go CreateManagedDisk 191-221] Access
    from the network: closed unless the options open it; Azure Stack has
    neither property. *)
Definition network_properties (isAzureStack : bool) (o : ManagedDiskOptions) (p : DiskProperties)
  : res DiskProperties :=
  let p := if negb (String.eqb (mo_PublicNetworkAccess o) "")
           then set_p_PublicNetworkAccess (Some (mo_PublicNetworkAccess o)) p
           else if isAzureStack then p
           else set_p_PublicNetworkAccess (Some armcompute.PublicNetworkAccessDisabled) p in
  let policy := mo_NetworkAccessPolicy o in
  if negb (String.eqb policy "") then
    let p := set_p_NetworkAccessPolicy (Some policy) p in
    if String.eqb policy armcompute.NetworkAccessPolicyAllowPrivate then
      match mo_DiskAccessID o with
      | None => Err (ENew "DiskAccessID should not be empty when NetworkAccessPolicy is AllowPrivate")
      | Some id => Ok (set_p_DiskAccessID (Some id) p)
      end
    else match mo_DiskAccessID o with
         | Some id => Err (ENew ("DiskAccessID(" +:+ id
                +:+ ") must be empty when NetworkAccessPolicy(" +:+ policy
                +:+ ") is not AllowPrivate"))
         | None => Ok p
         end
  else if isAzureStack then Ok p
  else Ok (set_p_NetworkAccessPolicy (Some armcompute.NetworkAccessPolicyDenyAll) p).

Definition has_iops_settings (sku : string) : bool :=
  String.eqb sku armcompute.DiskStorageAccountTypesUltraSSDLRS
  || String.eqb sku armcompute.DiskStorageAccountTypesPremiumV2LRS.
(** A limit: the given text, or the default of an Ultra disk. *)
Definition limit_property (sku what text : string) (dflt : Z) : res (option Z) :=
  if String.eqb text "" then
    Ok (if String.eqb sku armcompute.DiskStorageAccountTypesUltraSSDLRS then Some dflt else None)
  else match Atoi_res text with
       | Ok v => Ok (Some v)
       | Err e => Err (EWrap ("AzureDisk - failed to parse " +:+ what +:+ ": ") e "")
       | Panic => Panic
       end.
(** [azuredisk/azure_managedDiskController.go CreateManagedDisk 223-266] *)
Definition limit_properties (o : ManagedDiskOptions) (p : DiskProperties) : res DiskProperties :=
  let sku := mo_StorageAccountType o in
  if has_iops_settings sku then
    let? iops := limit_property sku "DiskIOPSReadWrite" (mo_DiskIOPSReadWrite o) DefaultDiskIOPSReadWrite in
    let p := match iops with Some _ => set_p_DiskIOPSReadWrite iops p | None => p end in
    let? mbps := limit_property sku "DiskMBpsReadWrite" (mo_DiskMBpsReadWrite o) DefaultDiskMBpsReadWrite in
    let p := match mbps with Some _ => set_p_DiskMBpsReadWrite mbps p | None => p end in
    Ok (if mo_LogicalSectorSize o =? 0 then p
        else set_p_CreationData (set_cd_LogicalSectorSize (Some (mo_LogicalSectorSize o))
                                   <$> p_CreationData p) p)
  else
    let? _ := guard_res (String.eqb (mo_DiskIOPSReadWrite o) "")
      (ENew "AzureDisk - DiskIOPSReadWrite parameter is only applicable in UltraSSD_LRS disk type") in
    let? _ := guard_res (String.eqb (mo_DiskMBpsReadWrite o) "")
      (ENew "AzureDisk - DiskMBpsReadWrite parameter is only applicable in UltraSSD_LRS disk type") in
    let? _ := guard_res (mo_LogicalSectorSize o =? 0)
      (ENew "AzureDisk - LogicalSectorSize parameter is only applicable in UltraSSD_LRS disk type") in
    Ok p.

(** [azuredisk/azure_managedDiskController.go CreateManagedDisk 268-285] *)
Definition encryption_properties (o : ManagedDiskOptions) (p : DiskProperties) : res DiskProperties :=
  let des := mo_DiskEncryptionSetID o in
  if negb (String.eqb des "") then
    if negb (Index (ToLower des) "/subscriptions/" =? 0)
    then Err (ENew ("AzureDisk - format of DiskEncryptionSetID(" +:+ des
                +:+ ") is incorrect, correct format: " +:+ DiskEncryptionSetIDFormat))
    else
      let encryptionType := if negb (String.eqb (mo_DiskEncryptionType o) "")
                            then mo_DiskEncryptionType o
                            else armcompute.EncryptionTypeEncryptionAtRestWithCustomerKey in
      Ok (set_p_Encryption (Some (MkEncryption (Some des) (Some encryptionType))) p)
  else
    let? _ := guard_res (String.eqb (mo_DiskEncryptionType o) "")
      (ENew ("AzureDisk - DiskEncryptionType(" +:+ mo_DiskEncryptionType o
             +:+ ") should be empty when DiskEncryptionSetID is not set")) in
    Ok p.

(** [azuredisk/azure_managedDiskController.go CreateManagedDisk 176-289] The
    properties of the new disk.  The size is left to ARM when a snapshot is
    restored and no size is given. *)
Definition disk_properties (isAzureStack : bool) (creationData : CreationData)
    (o : ManagedDiskOptions) : res DiskProperties :=
  let diskSizeGB := int32 (mo_SizeGB o) in
  let p := set_p_CreationData (Some creationData)
             (set_BurstingEnabled (mo_BurstingEnabled o) empty_DiskProperties) in
  let p := if (diskSizeGB =? 0) && String.eqb (mo_SourceType o) consts.SourceSnapshot then p
           else set_DiskSizeGB (Some diskSizeGB) p in
  let? p := network_properties isAzureStack o p in
  let? p := limit_properties o p in
  let? p := encryption_properties o p in
  Ok (if 1 <? mo_MaxShares o then set_p_MaxShares (Some (mo_MaxShares o)) p else p).

(** [azuredisk/azure_managedDiskController.go CreateManagedDisk 138-144] *)
Definition create_zones (cc : CloudConfig) (o : ManagedDiskOptions) : list (option string) :=
  if (0 <? strlen (mo_AvailabilityZone o)) then
    let z := cc_GetZoneID cc (mo_AvailabilityZone o) in
    if String.eqb z "" then [] else [Some z]
  else [].
(** [azuredisk/azure_managedDiskController.go CreateManagedDisk 146-154] The tags of
    the caller win over the mark of the driver. *)
Definition create_tags (o : ManagedDiskOptions) : gmap string (option string) :=
  (Some <$> mo_Tags o) ∪ {[ CreatedByTag := Some consts.AzureDiskDriverTag ]}.
(** [azuredisk/azure_managedDiskController.go CreateManagedDisk 291-314] *)
Definition disk_model (cc : CloudConfig) (o : ManagedDiskOptions) (p : DiskProperties) : Disk :=
  let location := if String.eqb (mo_Location o) "" then cc_Location cc else mo_Location o in
  MkDisk None None (Some location) None (Some p) (Some (Some (mo_StorageAccountType o))) (create_tags o)
    (create_zones cc o) (cc_ExtendedLocation cc).

(** The resource group and the subscription of a creation. *)
Definition creation_scope (cc : CloudConfig) (o : ManagedDiskOptions) : res (string * string) :=
  let rg := if String.eqb (mo_ResourceGroup o) "" then cc_ResourceGroup cc else mo_ResourceGroup o in
  let sub := mo_SubscriptionID o in
  if negb (String.eqb sub "") && negb (EqualFold sub (cc_SubscriptionID cc))
     && String.eqb (mo_ResourceGroup o) ""
  then Err (ENew ("resourceGroup must be specified when subscriptionID(" +:+ sub +:+ ") is not empty"))
  else Ok (rg, if String.eqb sub "" then cc_SubscriptionID cc else sub).

(** Everything a creation computes before it calls ARM: the subscription, the
    resource group and the disk. *)
Definition creation_request (cc : CloudConfig) (o : ManagedDiskOptions) : res (string * string * Disk) :=
  let? (rg, subsID) := creation_scope cc o in
  let? creationData := getValidCreationData subsID rg o in
  let? p := disk_properties (IsAzureStackCloud (cc_Cloud cc) (cc_DisableAzureStackCloud cc))
              creationData o in
  Ok (subsID, rg, disk_model cc o p).

(** The disk is there: its provisioning has succeeded. *)
Definition provisioned (disk : option Disk) : bool :=
  match disk ≫= disk_Properties with
  | Some p => EqualFold (ptr_Deref (ProvisioningState p) "") "succeeded"
  | None => false
  end.

(** ** Sizes of the ARM API: k8s.io/cloud-provider/volume/helpers *)
Definition RoundUpToGiBInt32 (size : Z) : res Z :=
  if 2 ^ 63 - 1 <=? size
  then Err (ENew ("quantity " +:+ Itoa size +:+ " is too great, overflows int64"))
  else let g := RoundUpSize size GiB in
       if 2 ^ 31 - 1 <? g
       then Err (ENew ("quantity " +:+ Itoa size +:+ " is too great, overflows int32"))
       else Ok g.

(** ** The operations *)
Section managed_disk.
  Context {W : Type} `{!Cloud W}.
  Context (others : point → CState W → CState W) (cc : CloudConfig).
  Local Notation C := (M (CState W)).
  Local Notation ext := (ext others).

  (** [azuredisk/azure_managedDiskController.go CreateManagedDisk 326-346] The
      polling until the disk is provisioned.  Every way out gives a URI: a
      failure to confirm is only logged. *)
Fixpoint wait_provisioned (steps : nat) (duration : Z) (ctx : Ctx) (diskClient : DiskClient)
    (rg : string) (o : ManagedDiskOptions) (diskID : string) (disk : option Disk) : C string :=
  match steps with
  | O => ret diskID
  | S steps' =>
      let! e := ext (ctx_Err ctx) in
      match e with
      | Some _ => ret diskID
      | None =>
          if provisioned disk then
            let id := ptr_Deref (disk ≫= disk_ID) "" in
            ret (if String.eqb id "" then diskID else id)
          else if mo_SkipGetDiskOperation o then ret diskID
          else
            let! r := try (ext (disk_Get diskClient rg (mo_DiskName o))) in
            match r, steps' with
            | inl _, _ => ret diskID
            | inr _, O => ret diskID
            | inr disk', _ =>
                let! e := ext (ctx_Wait ctx duration) in
                match e with
                | Some _ => ret diskID
                | None => wait_provisioned steps' (duration * 3 / 2) ctx diskClient rg o diskID disk'
                end
            end
      end
  end.

  (** [azuredisk/azure_managedDiskController.go CreateManagedDisk] *)
Definition CreateManagedDisk (ctx : Ctx) (o : ManagedDiskOptions) : C string :=
  let! (subsID, rg, model) := lift (creation_request cc o) in
  let! diskClient := ext (GetDiskClientForSub subsID) in
  let diskID := consts.ManagedDiskPath subsID rg (mo_DiskName o) in
  let! disk := ext (disk_CreateOrUpdate diskClient rg (mo_DiskName o) model) in
  wait_provisioned (fst defaultBackOff) (snd defaultBackOff) ctx diskClient rg o diskID disk.

  (** [azuredisk/azure_managedDiskController.go DeleteManagedDisk] *)
Definition DeleteManagedDisk (diskURI : string) : C unit :=
  let! (subsID, resourceGroup, diskName) := lift (GetInfoFromURI diskURI) in
  let! s := get in
  match diskStateMap s !! ToLower diskURI with
  | Some state => fail (ENew ("failed to delete disk(" +:+ diskURI +:+ ") since it's in "
                              +:+ state +:+ " state"))
  | None =>
      let! diskClient := ext (GetDiskClientForSub subsID) in
      let! r := try (ext (disk_Get diskClient resourceGroup diskName)) in
      match r with
      | inl e => match root_cause e with
                 | EResponse code _ _ => if code =? 404 then ret () else fail e
                 | _ => fail e
                 end
      | inr disk =>
          let! disk := lift (deref disk) in
          match ManagedBy disk with
          | Some m => fail (EDiskManagedBy diskURI m)
          | None => ext (disk_Delete diskClient resourceGroup diskName)
          end
      end
  end.

  (** [azuredisk/azure_managedDiskController.go GetDisk] *)
Definition GetDisk (subsID resourceGroup diskName : string) : C (option Disk) :=
  let! diskclient := ext (GetDiskClientForSub subsID) in
  ext (disk_Get diskclient resourceGroup diskName).

  (** [azuredisk/azure_managedDiskController.go GetDiskByURI] *)
Definition GetDiskByURI (diskURI : string) : C (option Disk) :=
  let! (subsID, resourceGroup, diskName) := lift (GetInfoFromURI diskURI) in
  GetDisk subsID resourceGroup diskName.

  (** [azuredisk/azure_managedDiskController.go ResizeDisk] Sizes in bytes.  The
      old size, which comes back with an error, is not used by the caller. *)
Definition ResizeDisk (diskURI : string) (newSize : Z) (supportOnlineResize : bool) : C Z :=
  let! (subsID, resourceGroup, diskName) := lift (GetInfoFromURI diskURI) in
  let! diskClient := ext (GetDiskClientForSub subsID) in
  let! result := ext (disk_Get diskClient resourceGroup diskName) in
  match result ≫= disk_Properties with
  | None => fail (ENew ("DiskProperties of disk(" +:+ diskName +:+ ") is nil"))
  | Some prop =>
      match DiskSizeGB prop with
      | None => fail (ENew ("DiskProperties of disk(" +:+ diskName +:+ ") is nil"))
      | Some current =>
          let! requestGiB := lift (RoundUpToGiBInt32 newSize) in
          let newSizeQuant := requestGiB * GiB in
          if requestGiB <=? current then ret newSizeQuant
          else
            let! _ := if supportOnlineResize then ret ()
                      else let! st := lift (deref (DiskState prop)) in
                           if String.eqb st armcompute.DiskStateUnattached then ret ()
                           else fail (ENew ("azureDisk - disk resize is only supported on Unattached disk, current disk state: "
                                  +:+ st +:+ ", already attached to "
                                  +:+ ptr_Deref (result ≫= ManagedBy) "")) in
            let! _ := ext (disk_Patch diskClient resourceGroup diskName
                        (MkDiskUpdate None (Some (MkDiskUpdateProperties None None (Some requestGiB))))) in
            ret newSizeQuant
      end
  end.

  (** [azuredisk/azure_managedDiskController.go ModifyDisk 508-546] The update
      that is sent, from the SKU the disk has. *)
Definition modify_update (sku : string) (o : ManagedDiskOptions) : res DiskUpdate :=
  let new := negb (String.eqb (mo_StorageAccountType o) "")
             && negb (String.eqb (mo_StorageAccountType o) sku) in
  let diskSku := if new then mo_StorageAccountType o else sku in
  let model_sku := if new then Some (Some diskSku) else None in
  if has_iops_settings diskSku then
    let parse what text :=
      if String.eqb text "" then Ok None
      else match Atoi_res text with
           | Ok v => Ok (Some v)
           | Err e => Err (EWrap ("AzureDisk - failed to parse " +:+ what +:+ ": ") e "")
           | Panic => Panic
           end in
    let? iops := parse "DiskIOPSReadWrite" (mo_DiskIOPSReadWrite o) in
    let? mbps := parse "DiskMBpsReadWrite" (mo_DiskMBpsReadWrite o) in
    Ok (MkDiskUpdate model_sku (Some (MkDiskUpdateProperties iops mbps None)))
  else
    let? _ := guard_res (String.eqb (mo_DiskIOPSReadWrite o) "")
      (ENew "AzureDisk - DiskIOPSReadWrite parameter is only applicable in UltraSSD_LRS or PremiumV2_LRS disk type") in
    let? _ := guard_res (String.eqb (mo_DiskMBpsReadWrite o) "")
      (ENew "AzureDisk - DiskMBpsReadWrite parameter is only applicable in UltraSSD_LRS or PremiumV2_LRS disk type") in
    Ok (MkDiskUpdate model_sku None).

  (** [azuredisk/azure_managedDiskController.go ModifyDisk] *)
Definition ModifyDisk (o : ManagedDiskOptions) : C unit :=
  let! (subsID, rg, diskName) := lift (GetInfoFromURI (mo_SourceResourceID o)) in
  let! diskClient := ext (GetDiskClientForSub subsID) in
  let! result := ext (disk_Get diskClient rg diskName) in
  let nil_err := ENew ("DiskProperties or SKU of disk(" +:+ diskName +:+ ") is nil") in
  match result ≫= disk_Properties, result ≫= disk_SKU with
  | Some _, Some (Some sku) =>
      let! model := lift (modify_update sku o) in
      match upd_SKU model, upd_Properties model with
      | None, None => ret ()
      | _, _ => ext (disk_Patch diskClient rg diskName model)
      end
  | _, _ => fail nil_err
  end.
End managed_disk.

(** ** The operations are made of steps *)
Section moving.
  Context {W : Type} `{!Cloud W}.
  Context (others : point → CState W → CState W) (calls : ∀ A, M W A → Prop).
  Context (Hcalls : ∀ A m, cloud_call A m → calls A m).
  Local Notation moves := (moves calls others).
  Local Hint Resolve Hcalls : moves_db.

Lemma moves_wait_provisioned n t c k rg o id disk : moves (wait_provisioned others n t c k rg o id disk).
Proof. revert t disk. induction n as [|n IH]; intros; cbn [wait_provisioned]; moves_auto. Qed.
  Local Hint Resolve moves_wait_provisioned : moves_db.
Lemma moves_CreateManagedDisk cc c o : moves (CreateManagedDisk others cc c o).
Proof. unfold CreateManagedDisk. moves_auto. Qed.
Lemma moves_DeleteManagedDisk u : moves (DeleteManagedDisk others u).
Proof. unfold DeleteManagedDisk. moves_auto. Qed.
Lemma moves_GetDisk a b c : moves (GetDisk others a b c).
Proof. unfold GetDisk. moves_auto. Qed.
  Local Hint Resolve moves_GetDisk : moves_db.
Lemma moves_GetDiskByURI u : moves (GetDiskByURI others u).
Proof. unfold GetDiskByURI. moves_auto. Qed.
Lemma moves_ResizeDisk u n o : moves (ResizeDisk others u n o).
Proof. unfold ResizeDisk. moves_auto. Qed.
Lemma moves_ModifyDisk o : moves (ModifyDisk others o).
Proof. unfold ModifyDisk. moves_auto. Qed.
End moving.

(** ** What a creation sends *)
Lemma network_properties_ok stack o p p' :
  network_properties stack o p = Ok p' →
  (p_PublicNetworkAccess p' =
     if String.eqb (mo_PublicNetworkAccess o) "" then
       if stack then p_PublicNetworkAccess p else Some armcompute.PublicNetworkAccessDisabled
     else Some (mo_PublicNetworkAccess o)) ∧
  (p_NetworkAccessPolicy p' =
     if String.eqb (mo_NetworkAccessPolicy o) "" then
       if stack then p_NetworkAccessPolicy p else Some armcompute.NetworkAccessPolicyDenyAll
     else Some (mo_NetworkAccessPolicy o)) ∧
  (p_DiskAccessID p' =
     if String.eqb (mo_NetworkAccessPolicy o) armcompute.NetworkAccessPolicyAllowPrivate
     then mo_DiskAccessID o else p_DiskAccessID p) ∧
  (mo_NetworkAccessPolicy o = armcompute.NetworkAccessPolicyAllowPrivate → is_Some (mo_DiskAccessID o)) ∧
  DiskSizeGB p' = DiskSizeGB p.
Proof.
  unfold network_properties. cbv zeta.
  destruct (String.eqb_spec (mo_NetworkAccessPolicy o) "") as [Hp|Hp].
  - rewrite Hp. destruct (mo_PublicNetworkAccess o =? "")%string, stack; intros [= <-]; done.
  - destruct (String.eqb_spec (mo_NetworkAccessPolicy o) armcompute.NetworkAccessPolicyAllowPrivate)
      as [Ha|Ha]; destruct (mo_DiskAccessID o) as [id|] eqn:Ed; simpl; try done;
      destruct (mo_PublicNetworkAccess o =? "")%string, stack; intros [= <-]; simpl; split_and!; done.
Qed.

(** The parts of the properties the limits and the encryption leave alone. *)
Definition network_part (p : DiskProperties) :=
  (p_PublicNetworkAccess p, p_NetworkAccessPolicy p, p_DiskAccessID p, DiskSizeGB p).

Lemma limit_properties_ok o p p' :
  limit_properties o p = Ok p' →
  network_part p' = network_part p ∧
  (has_iops_settings (mo_StorageAccountType o) = false →
     p' = p ∧ mo_DiskIOPSReadWrite o = "" ∧ mo_DiskMBpsReadWrite o = "" ∧ mo_LogicalSectorSize o = 0).
Proof.
  unfold limit_properties. destruct (has_iops_settings _).
  - intros (iops & _ & (mbps & _ & Hp)%res_bind_ok)%res_bind_ok. split; [|done].
    destruct iops, mbps, (mo_LogicalSectorSize o =? 0); injection Hp as <-; done.
  - intros ([] & H1 & ([] & H2 & ([] & H3 & Hp)%res_bind_ok)%res_bind_ok)%res_bind_ok.
    injection Hp as ->. unfold guard_res in *. split; [done|]. intros _.
    destruct (String.eqb_spec (mo_DiskIOPSReadWrite o) ""), (String.eqb_spec (mo_DiskMBpsReadWrite o) ""),
      (Z.eqb_spec (mo_LogicalSectorSize o) 0); done.
Qed.

Lemma encryption_properties_part o p p' :
  encryption_properties o p = Ok p' → network_part p' = network_part p.
Proof.
  unfold encryption_properties. destruct (negb _).
  - destruct (negb _); [done|]. by intros [= <-].
  - intros (? & _ & [= <-])%res_bind_ok. done.
Qed.

(** The disk an accepted creation describes is closed to the network unless the
    options open it: outside of Azure Stack, public access is disabled and the
    policy is deny-all when the options say nothing, a disk-access resource is
    set exactly for the policy AllowPrivate, IOPS, bandwidth and sector size
    are accepted for UltraSSD and PremiumV2 only, and a size of 0 is left to ARM
    only when a snapshot is restored. *)
Theorem disk_properties_safe cd o p :
  disk_properties false cd o = Ok p →
  (mo_PublicNetworkAccess o = "" → p_PublicNetworkAccess p = Some armcompute.PublicNetworkAccessDisabled) ∧
  (mo_NetworkAccessPolicy o = "" → p_NetworkAccessPolicy p = Some armcompute.NetworkAccessPolicyDenyAll) ∧
  (is_Some (p_DiskAccessID p) ↔
     p_NetworkAccessPolicy p = Some armcompute.NetworkAccessPolicyAllowPrivate) ∧
  (has_iops_settings (mo_StorageAccountType o) = false →
     mo_DiskIOPSReadWrite o = "" ∧ mo_DiskMBpsReadWrite o = "" ∧ mo_LogicalSectorSize o = 0) ∧
  (DiskSizeGB p = None ↔ int32 (mo_SizeGB o) = 0 ∧ mo_SourceType o = consts.SourceSnapshot).
Proof.
  unfold disk_properties. cbv zeta. set (p0 := if _ && _ then _ else _).
  intros (p1 & Hn & (p2 & Hl & (p3 & He & [= <-])%res_bind_ok)%res_bind_ok)%res_bind_ok.
  apply network_properties_ok in Hn as (N1 & N2 & N3 & N4 & N5).
  apply limit_properties_ok in Hl as [L1 L2].
  assert (E : network_part p3 = network_part p2).
  { by eapply encryption_properties_part. }
  assert (E' : network_part (if 1 <? mo_MaxShares o then set_p_MaxShares (Some (mo_MaxShares o)) p3 else p3)
               = network_part p1) by (transitivity (network_part p3); [by destruct (1 <? mo_MaxShares o) | congruence]).
  unfold network_part in E' at 1. injection E' as -> -> -> ->. rewrite N1, N2, N3, N5.
  assert (Hacc : p_DiskAccessID p0 = None) by (unfold p0; by destruct (_ && _)). rewrite Hacc.
  split_and!; [by intros ->|by intros ->|..].
  - destruct (String.eqb_spec (mo_NetworkAccessPolicy o) armcompute.NetworkAccessPolicyAllowPrivate) as [Ha|Ha].
    + rewrite Ha in *. simpl. split; [done|]. intros _. by apply N4.
    + split; [by intros []|]. destruct (mo_NetworkAccessPolicy o =? "")%string; intros [= ?]; done.
  - intros Hi. by destruct (L2 Hi) as (_ & ? & ? & ?).
  - unfold p0. destruct (Z.eqb_spec (int32 (mo_SizeGB o)) 0) as [->|Hz]; simpl.
    + destruct (String.eqb_spec (mo_SourceType o) consts.SourceSnapshot); simpl; split; try done; by intros [].
    + split; [done|]. by intros [].
Qed.

Definition demo_options (policy : string) (access : option string) : ManagedDiskOptions :=
  MkManagedDiskOptions "Premium_LRS" "d1" "" "" ∅ "" "" "" "" "" "" 10 1 0 false "" policy access None
    "" "" None.
Lemma disk_properties_safe_witness :
  ∃ p, disk_properties false empty_CreationData (demo_options "" None) = Ok p ∧
       p_PublicNetworkAccess p = Some "Disabled".
Proof.
  eexists. split; [vm_compute; reflexivity|].
  apply (disk_properties_safe empty_CreationData (demo_options "" None)); vm_compute; reflexivity.
Defined.

(** ** Properties of the operations *)
Section calls.
  Context {W : Type} `{!Cloud W} (others : point → CState W → CState W).

Lemma keeps_call {A} (Q : W → Prop) (m : M W A) :
  (∀ p s, Q (world s) → Q (world (others p s))) → keeps Q m →
  keeps (λ s, Q (world s)) (ext others m).
Proof.
  intros Ho Hm s Hs. unfold ext. specialize (Hm (world s) Hs).
  destruct (m (world s)) as [r w]. simpl in *. by apply Ho.
Qed.

  (** A call that gives a value or an error: no panic. *)
Definition total {A} (m : M W A) : Prop := ∀ w, ∃ a w', m w = (Ok a, w').
Definition no_panic {A} (m : M W A) : Prop := ∀ w, (m w).1 ≠ Panic.

Lemma ext_total {A} (m : M W A) s : total m → ∃ a s', ext others m s = (Ok a, s').
Proof. intros Hm. unfold ext. destruct (Hm (world s)) as (a & w & ->). eauto. Qed.

Lemma try_ext_total {A} (m : M W A) s : no_panic m → ∃ r s', try (ext others m) s = (Ok r, s').
Proof.
  intros Hm. unfold try, ext. specialize (Hm (world s)).
  destruct (m (world s)) as [[a|e|] w]; simpl in *; [eauto..|done].
Qed.

  Local Notation runs := (runs cloud_call others).
  (** [id] names the disk [name]: it is the URI of that disk, or the identifier that ARM
      gave to it, in [disk] or in an answer to a later read. *)
Definition names_disk (sub rg name id : string) (c : DiskClient) (disk : option Disk) (s s' : CState W) : Prop :=
  id = "/subscriptions/" +:+ sub +:+ "/resourceGroups/" +:+ rg +:+ "/providers/Microsoft.Compute/disks/" +:+ name ∨
  id ≠ "" ∧ (disk ≫= disk_ID = Some id ∨
             ∃ d, runs (ext others (disk_Get c rg name)) (Ok d) s s' ∧ d ≫= disk_ID = Some id).

Lemma later_call {A} (m : M W A) s r s' :
  cloud_call A m → ext others m s = (r, s') → later cloud_call others s s'.
Proof. intros Hm E. eapply moves_later; [|exact E]. by apply moves_ext. Qed.

Lemma wait_provisioned_total n d ctx c rg o sub id disk s :
  (∀ w, total (ctx_Err w)) → (∀ w t, total (ctx_Wait w t)) →
  (∀ c rg nm, no_panic (disk_Get c rg nm)) → id = consts.ManagedDiskPath sub rg (mo_DiskName o) →
  ∃ id' s', wait_provisioned others n d ctx c rg o id disk s = (Ok id', s') ∧
    names_disk sub rg (mo_DiskName o) id' c disk s s'.
Proof.
  intros He Hw Hg Hid. assert (Hpath : ∀ disk s s', names_disk sub rg (mo_DiskName o) id c disk s s') by (by left).
  revert d disk s. induction n as [|n IH]; intros d disk s; [by do 2 eexists|].
  cbn [wait_provisioned]. unfold bind at 1.
  destruct (ext_total _ s (He ctx)) as ([e|] & s1 & E1); rewrite E1; [by do 2 eexists|].
  destruct (provisioned disk).
  { do 2 eexists. split; [done|]. destruct (String.eqb_spec (ptr_Deref (disk ≫= disk_ID) "") ""); [by left|].
    right. split; [done|]. left. by destruct (disk ≫= disk_ID). }
  destruct (mo_SkipGetDiskOperation o); [by do 2 eexists|]. unfold bind at 1.
  destruct (try_ext_total _ s1 (Hg c rg (mo_DiskName o))) as ([e|disk'] & s2 & E2); rewrite E2; [by do 2 eexists|].
  destruct n as [|n]; [by do 2 eexists|]. unfold bind at 1.
  destruct (ext_total _ s2 (Hw ctx d)) as ([e|] & s3 & E3); rewrite E3; [by do 2 eexists|].
  destruct (IH (d * 3 / 2) disk' s3) as (id' & s' & E & Hn). exists id', s'. split; [exact E|].
  apply try_ok in E2.
  assert (L1 : later cloud_call others s s1) by (eapply later_call; [|exact E1]; auto with moves_db).
  assert (L3 : later cloud_call others s2 s3) by (eapply later_call; [|exact E3]; auto with moves_db).
  assert (L4 : later cloud_call others s3 s').
  { eapply moves_later; [|exact E]. apply moves_wait_provisioned. auto. }
  destruct Hn as [?|[Hne Hn]]; [by left|]. right. split; [done|]. right.
  destruct Hn as [Hn|(dk & Hr & Hn)].
  - exists disk'. split; [|done]. exists s1, s2. split_and!; [done|done|by trans s3].
  - exists dk. split; [|done]. eapply runs_mono; [|reflexivity|exact Hr]. trans s1; [done|]. trans s2; [|done].
    eapply later_call; [|exact E2]. auto with moves_db.
Qed.

(** C31. Once ARM has accepted the creation of a disk, the caller gets the identifier of that
    disk: its URI in the subscription and the resource group of the request, or the
    identifier that ARM gives to it.  A
    context that ends, a throttled or failing read and a provisioning that is
    never confirmed do not turn into an error, which would leak the disk.  The
    request was the one that [creation_request] describes. *)
Theorem CreateManagedDisk_no_leak cc ctx o subsID rg model s c s1 disk s2 :
  (∀ w, total (ctx_Err w)) → (∀ w t, total (ctx_Wait w t)) →
  (∀ c rg nm, no_panic (disk_Get c rg nm)) →
  creation_request cc o = Ok (subsID, rg, model) →
  ext others (GetDiskClientForSub subsID) s = (Ok c, s1) →
  ext others (disk_CreateOrUpdate c rg (mo_DiskName o) model) s1 = (Ok disk, s2) →
  ∃ id s', CreateManagedDisk others cc ctx o s = (Ok id, s') ∧
    names_disk subsID rg (mo_DiskName o) id c disk s2 s'.
Proof.
  intros He Hw Hg Hr Hc Hp. unfold CreateManagedDisk. rewrite Hr.
  rewrite bind_lift, (bind_eq _ _ _ _ _ Hc), (bind_eq _ _ _ _ _ Hp).
  by apply wait_provisioned_total.
Qed.

(** [DeleteManagedDisk] reports success only when ARM does not know the disk, or
    when the disk was not being detached by this driver, was read as attached to
    nothing, and ARM accepted its deletion. *)
Theorem DeleteManagedDisk_ok diskURI s s' :
  DeleteManagedDisk others diskURI s = (Ok (), s') →
  ∃ subsID rg name c s1, GetInfoFromURI diskURI = Ok (subsID, rg, name) ∧
    diskStateMap s !! ToLower diskURI = None ∧
    ext others (GetDiskClientForSub subsID) s = (Ok c, s1) ∧
    ((∃ e code msg, ext others (disk_Get c rg name) s1 = (Err e, s') ∧
        root_cause e = EResponse 404 code msg) ∨
     (∃ disk s2, ext others (disk_Get c rg name) s1 = (Ok (Some disk), s2) ∧
        ManagedBy disk = None ∧ ext others (disk_Delete c rg name) s2 = (Ok (), s'))).
Proof.
  unfold DeleteManagedDisk. intros ([[subsID rg] name] & s0 & H1 & H)%bind_ok.
  injection H1 as H1 <-. apply bind_ok in H as (s0 & s0' & H2 & H). injection H2 as <- <-.
  destruct (diskStateMap s !! _) eqn:Est; [done|].
  apply bind_ok in H as (c & s1 & Hc & H). apply bind_ok in H as ([e|disk] & s2 & Hg & H).
  - apply try_ok in Hg. exists subsID, rg, name, c, s1. split_and!; try done. left.
    destruct (root_cause e) as [| | | |code t msg| | | | | | |] eqn:Ee; try done.
    destruct (Z.eqb_spec code 404) as [->|]; [|done]. injection H as <-. by exists e, t, msg.
  - apply try_ok in Hg. apply bind_ok in H as (dk & s3 & Hd & H).
    destruct disk as [dk'|]; [|done]. injection Hd as -> <-.
    destruct (ManagedBy dk) eqn:Em; [done|]. exists subsID, rg, name, c, s1. split_and!; try done.
    right. exists dk, s2. split_and!; done.
Qed.
(** C21. A disk that is in use is never deleted.  It is in use when this driver is
    detaching it, or when ARM, asked for the disk of that subscription, resource group and
    name, reports an owner; then any fact about the
    world that reads keep is kept, so no deletion is sent. *)
Theorem DeleteManagedDisk_attached_safe (Q : W → Prop) diskURI s :
  (∀ p s, Q (world s) → Q (world (others p s))) →
  (∀ sub, keeps Q (GetDiskClientForSub sub)) → (∀ c rg n, keeps Q (disk_Get c rg n)) →
  is_Some (diskStateMap s !! ToLower diskURI) ∨
    (∃ sub rg name, GetInfoFromURI diskURI = Ok (sub, rg, name) ∧
     ∀ w0 c w1 w disk w', GetDiskClientForSub sub w0 = (Ok c, w1) →
       Q w → disk_Get c rg name w = (Ok (Some disk), w') → is_Some (ManagedBy disk)) →
  Q (world s) → Q (world (DeleteManagedDisk others diskURI s).2).
Proof.
  intros Ho Hc Hg Huse Hq. unfold DeleteManagedDisk.
  destruct (GetInfoFromURI diskURI) as [[[sub rg] name]| |] eqn:Eu; [|done..].
  rewrite bind_lift, bind_get.
  destruct (diskStateMap s !! ToLower diskURI) eqn:Est; [done|].
  destruct Huse as [[? ?]|(? & ? & ? & [= <- <- <-] & Huse)]; [done|]. clear Est. unfold bind at 1.
  pose proof (keeps_call Q _ Ho (Hc sub) s Hq) as Hq1.
  destruct (ext others (GetDiskClientForSub sub) s) as [[c|e|] s1] eqn:Ec; simpl in Hq1; try done.
  apply ext_result in Ec as (w0 & Ec & _). unfold bind, try.
  pose proof (keeps_call Q _ Ho (Hg c rg name) s1 Hq1) as Hq2.
  destruct (ext others (disk_Get c rg name) s1) as [[[disk|]|e|] s2] eqn:Eg; simpl in *; try done.
  - apply ext_result in Eg as (w & Ew & _). destruct (Huse _ _ _ _ _ _ Ec Hq1 Ew) as [m Hm].
    by rewrite Hm.
  - by destruct (root_cause e); try case_match.
Qed.

Lemma RoundUpToGiBInt32_ok size g :
  0 ≤ size → RoundUpToGiBInt32 size = Ok g → 0 ≤ g < 2 ^ 31 ∧ size ≤ g * GiB < size + GiB.
Proof.
  unfold RoundUpToGiBInt32. intros Hs. destruct (Z.leb_spec (2 ^ 63 - 1) size); [done|].
  destruct (RoundUpGiB_bounds size) as [H1 H2]; [lia|]. unfold RoundUpGiB in *.
  destruct (Z.ltb_spec (2 ^ 31 - 1) (RoundUpSize size GiB)); [done|]. intros [= <-]. lia.
Qed.

(** A resize that succeeds answers the least multiple of a GiB that holds the
    request.  Either the disk already had that size and nothing was sent, or
    ARM accepted exactly this size, larger than the current one, while the disk
    was unattached or online resizing is enabled. *)
Theorem ResizeDisk_ok diskURI newSize online s s' n :
  0 ≤ newSize → ResizeDisk others diskURI newSize online s = (Ok n, s') →
  ∃ g sub rg name c s1 disk p current s2,
    n = g * GiB ∧ newSize ≤ n < newSize + GiB ∧ 0 ≤ g < 2 ^ 31 ∧
    GetInfoFromURI diskURI = Ok (sub, rg, name) ∧
    ext others (GetDiskClientForSub sub) s = (Ok c, s1) ∧
    ext others (disk_Get c rg name) s1 = (Ok (Some disk), s2) ∧
    disk_Properties disk = Some p ∧ DiskSizeGB p = Some current ∧
    (g ≤ current ∧ s' = s2 ∨
     current < g ∧ (online = true ∨ DiskState p = Some armcompute.DiskStateUnattached) ∧
     ext others (disk_Patch c rg name
       (MkDiskUpdate None (Some (MkDiskUpdateProperties None None (Some g))))) s2 = (Ok (), s')).
Proof.
  intros Hpos. unfold ResizeDisk. intros ([[sub rg] name] & s0 & H1 & H)%bind_ok.
  injection H1 as H1 <-. apply bind_ok in H as (c & s1 & Hc & H).
  apply bind_ok in H as ([disk|] & s2 & Hg & H); [|done]. cbn [mbind option_bind] in H.
  destruct (disk_Properties disk) as [p|] eqn:Ep; [|done].
  destruct (DiskSizeGB p) as [current|] eqn:Ec; [|done].
  apply bind_ok in H as (g & s3 & Hr & H). injection Hr as Hr <-.
  destruct (RoundUpToGiBInt32_ok _ _ Hpos Hr) as [Hg1 Hg2]. destruct (Z.leb_spec g current).
  - injection H as <- <-. exists g, sub, rg, name, c, s1, disk, p, current, s2. auto 15 with lia.
  - apply bind_ok in H as ([] & s3 & Hst & H). apply bind_ok in H as ([] & s4 & Hp & H).
    injection H as <- <-. exists g, sub, rg, name, c, s1, disk, p, current, s2. split_and!; try done; try lia.
    right. destruct online; [injection Hst as <-; auto|].
    destruct (DiskState p) as [st|]; [|done].
    destruct (String.eqb_spec st armcompute.DiskStateUnattached) as [->|Hne].
    + apply bind_ok in Hst as (? & s5 & H5 & Hst). injection H5 as <- <-. injection Hst as <-. auto.
    + apply bind_ok in Hst as (? & s5 & H5 & Hst). injection H5 as <- <-.
      by destruct (String.eqb_spec st armcompute.DiskStateUnattached).
Qed.

(** A disk never shrinks: when the sizes that ARM reports are at least [current],
    a resize sends no update to a size that is not larger than that, on any way
    out. *)
Theorem ResizeDisk_never_shrinks (Q : W → Prop) current diskURI newSize online s :
  (∀ p s, Q (world s) → Q (world (others p s))) →
  (∀ sub, keeps Q (GetDiskClientForSub sub)) → (∀ c rg n, keeps Q (disk_Get c rg n)) →
  (∀ c rg n w disk w', Q w → disk_Get c rg n w = (Ok (Some disk), w') →
     ∀ p size, disk_Properties disk = Some p → DiskSizeGB p = Some size → current ≤ size) →
  (∀ c rg n g, current < g →
     keeps Q (disk_Patch c rg n (MkDiskUpdate None (Some (MkDiskUpdateProperties None None (Some g)))))) →
  Q (world s) → Q (world (ResizeDisk others diskURI newSize online s).2).
Proof.
  intros Ho Hc Hg Hcur Hp. revert s. change (keeps (λ s, Q (world s)) (ResizeDisk others diskURI newSize online)).
  unfold ResizeDisk. apply keeps_bind; [apply keeps_lift|]. intros [[sub rg] name].
  apply keeps_bind; [by apply keeps_call|]. intros c s1 Hq. unfold bind at 1.
  pose proof (keeps_call Q _ Ho (Hg c rg name) s1 Hq) as Hq2.
  destruct (ext others (disk_Get c rg name) s1) as [[[disk|]|e|] s2] eqn:Eg; simpl in Hq2; try done.
  apply ext_result in Eg as (w & Ew & _). specialize (Hcur _ _ _ _ _ _ Hq Ew). cbn [mbind option_bind].
  destruct (disk_Properties disk) as [p|]; [|done]. destruct (DiskSizeGB p) as [size|] eqn:Es; [|done].
  specialize (Hcur p size eq_refl Es).
  refine (keeps_bind (λ s, Q (world s)) _ _ _ _ s2 Hq2); [apply keeps_lift|]. intros g. destruct (Z.leb_spec g size); [apply keeps_ret|].
  apply keeps_bind; [|intros _; apply keeps_bind; [apply keeps_call; auto with lia|intros _; apply keeps_ret]].
  destruct online; [apply keeps_ret|]. apply keeps_bind; [apply keeps_lift|]. intros st.
  destruct (String.eqb _ _); [apply keeps_ret|apply keeps_fail].
Qed.
End calls.

(** *** Witnesses *)
Definition demo_disk_world (owner : option string) : Demo :=
  MkDemo 0 {[ "d1" := MkDisk (Some demo_uri) (Some "d1") None owner
      (disk_Properties (demo_disk "Premium_LRS" 8)) (Some (Some "Premium_LRS")) ∅ [] None ]} ∅ ∅ [] None.
Definition demo_cc : CloudConfig := MkCloudConfig "" false "s" "rg" "eastus" None (λ _, "").

Lemma CreateManagedDisk_no_leak_witness :
  ∃ id s', CreateManagedDisk quiet demo_cc (MkCtx None) (demo_options "" None)
             (demo_state (demo_world None)) = (Ok id, s') ∧ id ≠ "".
Proof.
  edestruct (CreateManagedDisk_no_leak quiet demo_cc (MkCtx None) (demo_options "" None)
    "s" "rg") as (id & s' & E & Hid).
  - intros c w. by do 2 eexists.
  - intros c t w. by do 2 eexists.
  - intros c rg nm w. simpl. by destruct (demo_disks w !! nm).
  - vm_compute. reflexivity.
  - reflexivity.
  - reflexivity.
  - exists id, s'. split; [exact E|]. by destruct Hid as [->|[? _]].
Defined.

Lemma DeleteManagedDisk_ok_witness :
  ∃ s', DeleteManagedDisk quiet demo_uri (demo_state (demo_disk_world None)) = (Ok (), s') ∧
  diskStateMap (demo_state (demo_disk_world None)) !! ToLower demo_uri = None.
Proof.
  eexists. split; [vm_compute; reflexivity|].
  edestruct (DeleteManagedDisk_ok quiet demo_uri (demo_state (demo_disk_world None)))
    as (? & ? & ? & ? & ? & _ & H & _); [vm_compute; reflexivity | exact H].
Defined.

Lemma demo_reads_keep (e : string) : (∀ sub, keeps (not_logged e) (GetDiskClientForSub sub)) ∧
  (∀ c rg n, keeps (not_logged e) (disk_Get c rg n)).
Proof.
  split; intros; intros w Hw; simpl; [done|]. by destruct (demo_disks w !! n).
Qed.

(** The disk d1 belongs to a VM, and no deletion was sent. *)
Definition demo_owned (w : Demo) : Prop :=
  not_logged "delete" w ∧ ∃ k, demo_disks w !! "d1" = Some k ∧ is_Some (ManagedBy k).
Lemma DeleteManagedDisk_attached_safe_witness :
  "delete" ∉ demo_log (world (DeleteManagedDisk quiet demo_uri
     (set_diskStateMap {[ToLower demo_uri := "detaching"]} (demo_state (demo_disk_world None)))).2) ∧
  "delete" ∉ demo_log (world (DeleteManagedDisk quiet demo_uri (demo_state (demo_disk_world (Some "vm1")))).2).
Proof.
  split.
  - apply (DeleteManagedDisk_attached_safe quiet (not_logged "delete")).
    + intros p s Hs. exact Hs.
    + apply demo_reads_keep.
    + apply demo_reads_keep.
    + left. eexists. vm_compute. reflexivity.
    + apply not_elem_of_nil.
  - apply (DeleteManagedDisk_attached_safe quiet demo_owned).
    + intros p s Hs. exact Hs.
    + intros sub w Hw. exact Hw.
    + intros c rg n w Hw. simpl. by destruct (demo_disks w !! n).
    + right. eexists _, _, _. split; [vm_compute; reflexivity|]. intros w0 c w1 w disk w' _ (_ & k & Hk & Ho).
      change (disk_Get c "rg" "d1" w) with (match demo_disks w !! "d1" with
        | Some k => (Ok (Some k), w) | None => (Err (EResponse 404 "NotFound" "not found"), w) end).
      rewrite Hk. intros [= <- _]. exact Ho.
    + split; [apply not_elem_of_nil|]. eexists. split; [reflexivity|]. by eexists.
Defined.

Lemma ResizeDisk_ok_witness :
  ∃ s', ResizeDisk quiet demo_uri (9 * GiB + 1) false (demo_state (demo_disk_world None)) = (Ok (10 * GiB), s') ∧
  9 * GiB + 1 ≤ 10 * GiB < 9 * GiB + 1 + GiB.
Proof.
  eexists. split; [vm_compute; reflexivity|].
  edestruct (ResizeDisk_ok quiet demo_uri (9 * GiB + 1) false (demo_state (demo_disk_world None)))
    as (? & ? & ? & ? & ? & ? & ? & ? & ? & ? & _ & H & _);
    [unfold GiB; lia | vm_compute; reflexivity | exact H].
Defined.

Definition sizes_at_least (k : Z) (w : Demo) : Prop :=
  ∀ n d p size, demo_disks w !! n = Some d → disk_Properties d = Some p →
    DiskSizeGB p = Some size → k ≤ size.

Lemma demo_patch_sizes k g : k < g → ∀ n,
  keeps (sizes_at_least k) (disk_Patch () "" n (MkDiskUpdate None (Some (MkDiskUpdateProperties None None (Some g))))).
Proof.
  intros Hg n w Hw n' d p size. simpl. intros Hd Hp Hs. rewrite lookup_alter in Hd.
  case_decide; [|by eapply Hw]. subst. destruct (demo_disks w !! n') as [d0|] eqn:E; [|done].
  simpl in Hd. injection Hd as <-. simpl in Hp. destruct (disk_Properties d0); [|done].
  simpl in Hp. injection Hp as <-. simpl in Hs. injection Hs as <-. lia.
Qed.

Lemma ResizeDisk_never_shrinks_witness :
  sizes_at_least 8 (world (ResizeDisk quiet demo_uri GiB true (demo_state (demo_disk_world None))).2).
Proof.
  apply (ResizeDisk_never_shrinks quiet (sizes_at_least 8) 8).
  - intros p s Hs. exact Hs.
  - intros sub w Hw. exact Hw.
  - intros c rg n w Hw. simpl. destruct (demo_disks w !! n); exact Hw.
  - intros c rg n w d w' Hw. simpl. destruct (demo_disks w !! n) eqn:E; [|discriminate].
    intros [= -> <-] p size. by apply (Hw n).
  - intros [] rg n g Hg. by apply demo_patch_sizes.
  - intros n d p size. change (demo_disks _) with (demo_disks (demo_disk_world None)).
    simpl. intros Hd. apply lookup_singleton_Some in Hd as [_ <-]. simpl.
    intros [= <-] [= <-]. done.
Defined.
