(* ===== verification/Kube.v ===== *)
(** * The Kubernetes API and the other services of the driver

    [Kube W] is the interface of the API server (and of the informer caches)
    and [DiskRP W] that of the HTTP endpoints the driver calls itself to claim
    a disk, as operations on the world [W] of [Cloud].  The records have the
    fields the driver reads or writes. *)
From stdpp Require Import gmap strings list.
From Stdlib Require Import ZArith Lia.
From S2P Require Import Prelude GoStrings GoErr Consts Util AzureTypes Cloud DemoCloud.
Local Open Scope string_scope.
Local Open Scope Z_scope.

(** ** Objects *)
Record CSISource := MkCSISource {
  csi_Driver : string;
  csi_VolumeHandle : string;
  csi_VolumeAttributes : gmap string string;
}.
(** v1.PersistentVolume; a nil map is the empty map. *)
Record PersistentVolume := MkPersistentVolume {
  pv_Name : string;
  pv_Annotations : gmap string string;
  pv_Labels : gmap string string;
  pv_CSI : option CSISource;
  pv_ClaimRef : option (string * string);    (**r name and namespace *)
  pv_Storage : Z;                            (**r the capacity in bytes *)
}.
Definition set_pv_Annotations (m : gmap string string) (pv : PersistentVolume) : PersistentVolume :=
  MkPersistentVolume (pv_Name pv) m (pv_Labels pv) (pv_CSI pv) (pv_ClaimRef pv) (pv_Storage pv).
Definition set_pv_Labels (m : gmap string string) (pv : PersistentVolume) : PersistentVolume :=
  MkPersistentVolume (pv_Name pv) (pv_Annotations pv) m (pv_CSI pv) (pv_ClaimRef pv) (pv_Storage pv).
(** storagev1.VolumeAttachment; the inner option of [va_Inline] is its CSI
    source (driver and handle). *)
Record VolumeAttachment := MkVolumeAttachment {
  va_Name : string;
  va_Attacher : string;
  va_NodeName : string;
  va_PersistentVolumeName : option string;
  va_Inline : option (option (string * string));
  va_Attached : bool;
  va_AttachmentMetadata : gmap string string;
}.
Record Taint := MkTaint { taint_Key : string; taint_Value : string; taint_Effect : string }.
Record Node := MkNode { node_Labels : gmap string string; node_Taints : list Taint }.
(** A driver of a CSINode; the inner option is [Allocatable.Count]. *)
Record CSINodeDriver := MkCSINodeDriver {
  cnd_Name : string;
  cnd_Allocatable : option (option Z);
}.

(** ** The API server *)
Class Kube (W : Type) := {
  pv_Get : string → M W PersistentVolume;
  pv_List : M W (list PersistentVolume);
  pv_Update : PersistentVolume → M W unit;
  (** the informer cache, by lower-cased disk URI; an object that is no PV is [None] *)
  pv_ByIndex : string → M W (list (option PersistentVolume));
  (** the volumes that a label selector selects *)
  pv_ListSelected : string → M W (list PersistentVolume);
  pvc_Get : Ctx → string → string → M W unit;
  event_Record : string → string → string → M W unit;   (**r claim, type, reason *)
  va_List : M W (option (list VolumeAttachment));
  node_Get : string → M W Node;
  (** the labels in the lister cache; [None] for an object of another type *)
  node_Lister : string → M W (option (gmap string string));
  (** a JSON patch that tests the taints and replaces them *)
  node_PatchTaints : string → list Taint → list Taint → M W unit;
  csinode_Get : string → M W (list CSINodeDriver);
}.

(** [apierrors.IsNotFound(err)], [apierrors.IsConflict(err)]. *)
Definition IsNotFound (e : gerr) : bool :=
  match root_cause e with EKube r _ => String.eqb r "NotFound" | _ => false end.
Definition IsConflict (e : gerr) : bool :=
  match root_cause e with EKube r _ => String.eqb r "Conflict" | _ => false end.

(** ** The disk resource provider over HTTP *)
Record HttpResponse := MkHttpResponse {
  StatusCode : Z;
  LocationHeader : string;
  ResponseBody : res string;    (**r what reading the body gives *)
}.
Class DiskRP (W : Type) := {
  (** the tags of a resource group; [None] for a nil answer *)
  rg_Tags : string → M W (option (gmap string (option string)));
  (** [cred.GetToken]; [None] when there is no credential *)
  GetAzIdentity : option (M W string);
  (** [http.NewRequest]: the errors of the URL *)
  NewRequest : string → string → res unit;
  (** POST with the owner resource in the body, GET *)
  http_Post : string → string → string → M W HttpResponse;
  http_Get : string → string → M W HttpResponse;
  (** [json.Unmarshal] of the claim and of the status of an operation *)
  unmarshal_claim : string → res (option (string * string));
  unmarshal_status : string → res string;
}.

(** ** Retries: k8s.io/client-go/util/retry

    [retry.RetryOnConflict(retry.DefaultRetry, fn)]: five attempts; the pauses
    of 10 ms are left out. *)
Section retry.
  Context {St : Type}.
Fixpoint retry_steps (steps : nat) (fn : M St unit) (last : gerr) : M St unit :=
  match steps with
  | O => fail last
  | S steps' =>
      let! r := try fn in
      match r with
      | inr _ => ret ()
      | inl e => if IsConflict e then retry_steps steps' fn e else fail e
      end
  end.
Definition RetryOnConflict (fn : M St unit) : M St unit :=
  retry_steps 5 fn (ESentinel WaitTimeout).

Lemma retry_steps_ok n fn last s s' :
  retry_steps n fn last s = (Ok (), s') → ∃ s1, fn s1 = (Ok (), s').
Proof.
  revert last s. induction n as [|n IH]; intros last s H; [done|]. cbn in H.
  apply bind_ok in H as ([e|[]] & s1 & H1 & H).
  - destruct (IsConflict e); [by eapply IH | done].
  - injection H as <-. exists s. unfold try in H1. destruct (fn s) as [[[]| |] ?]; by simplify_eq.
Qed.

Lemma keeps_retry P fn n last : keeps P fn → keeps P (retry_steps n fn last).
Proof.
  intros Hf. revert last. induction n as [|n IH]; intros last; [apply keeps_fail|].
  cbn. apply keeps_bind; [by apply keeps_try|]. intros [e|]; [|apply keeps_ret].
  destruct (IsConflict e); [apply IH | apply keeps_fail].
Qed.
End retry.

(** ** A concrete API server

    The objects are fixed; the calls that change something are logged in the
    world of [DemoCloud]. *)
Record DemoObjects := MkDemoObjects {
  do_pvs : list PersistentVolume;
  do_vas : list VolumeAttachment;
  do_node : Node;
  do_csinode : list CSINodeDriver;
}.
Definition demo_find_pv (o : DemoObjects) (n : string) : option PersistentVolume :=
  List.find (λ pv, String.eqb (pv_Name pv) n) (do_pvs o).
Definition demo_kube (o : DemoObjects) : Kube Demo := {|
  pv_Get n := λ d, match demo_find_pv o n with
                   | Some pv => (Ok pv, d) | None => (Err (EKube "NotFound" "pv not found"), d) end;
  pv_List := λ d, (Ok (do_pvs o), d);
  pv_Update pv := modify (log "pv-update");
  pv_ByIndex u := λ d, (Ok (Some <$> List.filter (λ pv, match pv_CSI pv with
      | Some c => String.eqb (ToLower (csi_VolumeHandle c)) u | None => false end) (do_pvs o)), d);
  pv_ListSelected sel := λ d, (Ok (List.filter (λ pv,
      existsb (λ kv, String.eqb (kv.1 +:+ "=" +:+ kv.2) sel) (map_to_list (pv_Labels pv))) (do_pvs o)), d);
  pvc_Get c _ _ := λ d, (match ctx_Deadline c with
                         | Some t => if t <=? demo_now d then Err (ESentinel CtxDeadlineExceeded) else Ok ()
                         | None => Ok () end, d);
  event_Record _ _ r := modify (log r);
  va_List := λ d, (Ok (Some (do_vas o)), d);
  node_Get _ := λ d, (Ok (do_node o), d);
  node_Lister _ := λ d, (Ok (Some (node_Labels (do_node o))), d);
  node_PatchTaints _ _ _ := modify (log "patch-taints");
  csinode_Get _ := λ d, (Ok (do_csinode o), d);
|}.
Definition no_objects : DemoObjects := MkDemoObjects [] [] (MkNode ∅ []) [].
