(* ===== verification/DriverState.v ===== *)
(** * The driver object: [pkg/azuredisk/azuredisk.go] and [pkg/csi-common/driver.go]

    The fields of [Driver] that do not change after start are a configuration,
    the others a record around the state of the disk controller.  [ctl] runs a
    call of the disk controller, [svc] a call of a service. *)
From stdpp Require Import gmap strings list.
From Stdlib Require Import ZArith QArith Lia.
From S2P Require Import Prelude GoStrings GoErr Consts Util AzureTypes Cloud Kube ControllerCommon.
Local Open Scope string_scope.
Local Open Scope Z_scope.

(** ** Capabilities *)
Inductive ControllerCap :=
| RPC_UNKNOWN | CREATE_DELETE_VOLUME | PUBLISH_UNPUBLISH_VOLUME | LIST_VOLUMES | GET_CAPACITY
| CREATE_DELETE_SNAPSHOT | LIST_SNAPSHOTS | CLONE_VOLUME | PUBLISH_READONLY | EXPAND_VOLUME
| LIST_VOLUMES_PUBLISHED_NODES | VOLUME_CONDITION | GET_VOLUME | CAP_SINGLE_NODE_MULTI_WRITER
| MODIFY_VOLUME.
#[export] Instance ControllerCap_eq_dec : EqDecision ControllerCap.
Proof. solve_decision. Defined.
Definition ControllerCap_String (c : ControllerCap) : string :=
  match c with
  | RPC_UNKNOWN => "UNKNOWN" | CREATE_DELETE_VOLUME => "CREATE_DELETE_VOLUME"
  | PUBLISH_UNPUBLISH_VOLUME => "PUBLISH_UNPUBLISH_VOLUME" | LIST_VOLUMES => "LIST_VOLUMES"
  | GET_CAPACITY => "GET_CAPACITY" | CREATE_DELETE_SNAPSHOT => "CREATE_DELETE_SNAPSHOT"
  | LIST_SNAPSHOTS => "LIST_SNAPSHOTS" | CLONE_VOLUME => "CLONE_VOLUME"
  | PUBLISH_READONLY => "PUBLISH_READONLY" | EXPAND_VOLUME => "EXPAND_VOLUME"
  | LIST_VOLUMES_PUBLISHED_NODES => "LIST_VOLUMES_PUBLISHED_NODES"
  | VOLUME_CONDITION => "VOLUME_CONDITION" | GET_VOLUME => "GET_VOLUME"
  | CAP_SINGLE_NODE_MULTI_WRITER => "SINGLE_NODE_MULTI_WRITER" | MODIFY_VOLUME => "MODIFY_VOLUME"
  end.
Inductive NodeCap :=
| STAGE_UNSTAGE_VOLUME | NODE_EXPAND_VOLUME | GET_VOLUME_STATS | NODE_SINGLE_NODE_MULTI_WRITER.

(** ** Configuration *)
(** [azuredisk/azuredisk.go Driver 106-186] The fields that are fixed at start.  A
    pointer or client that may be nil is a [bool]. *)
Record DriverConfig := MkDriverConfig {
  d_Name : string;
  d_Version : string;
  d_NodeID : string;
  d_cloud : CloudConfig;
  d_common : CommonConfig;
  d_Cap : list ControllerCap;
  d_kubeClient : bool;
  cloud_KubeClient : bool;
  d_pvIndexer : bool;
  d_migrationMonitor : bool;
  d_eventRecorder : bool;
  nodeDrivenAttachDetachEnabled : bool;
  perfOptimizationEnabled : bool;
  enableDiskOnlineResize : bool;
  enableDiskCapacityCheck : bool;
  shouldWaitForSnapshotReady : bool;
  checkDiskLUNCollision : bool;
  convertRWCachingModeForIntreePV : bool;
  getDiskTimeoutInSeconds : Z;
  throttlingTTL : Z;                    (**r of [throttlingCache] *)
  checkDiskLunThrottlingTTL : Z;        (**r of [checkDiskLunThrottlingCache] *)
  pollInterval : Z;
  ResourceManagerEndpoint : string;     (**r of [cloud.ARMClientConfig] *)
}.

(** ** State *)
(** [azuredisk/migration_monitor.go MigrationTask] The context is its deadline;
    the cancelled context of a stopped task is [task_Cancelled]. *)
Record MigrationTask := MkMigrationTask {
  task_DiskURI : string;
  task_PVName : string;
  task_PVCName : string;
  task_PVCNamespace : string;
  task_FromSKU : string;
  task_ToSKU : string;
  task_StartTime : Z;
  LastReportedProgress : Q;
  task_Deadline : Z;
  VolumeSize : Z;
  MigrationTimeout : Z;
  Timedout : bool;
  task_Cancelled : bool;
  PVLabeled : bool;
}.

(** The fields of [Driver] that change. *)
Record DState (W : Type) := MkDState {
  ctrl : CState W;
  volumeLocks : VolumeLocks;
  throttlingCache : TimedCache;
  checkDiskLunThrottlingCache : TimedCache;
  clusterResourceID : string;
  activeTasks : gmap string MigrationTask;
}.
Arguments MkDState {W}. Arguments ctrl {W}. Arguments volumeLocks {W}.
Arguments throttlingCache {W}. Arguments checkDiskLunThrottlingCache {W}.
Arguments clusterResourceID {W}. Arguments activeTasks {W}.

Section setters.
  Context {W : Type}.
  Implicit Types s : DState W.
Definition set_ctrl (c : CState W) s : DState W :=
  MkDState c (volumeLocks s) (throttlingCache s) (checkDiskLunThrottlingCache s)
    (clusterResourceID s) (activeTasks s).
Definition set_volumeLocks l s : DState W :=
  MkDState (ctrl s) l (throttlingCache s) (checkDiskLunThrottlingCache s)
    (clusterResourceID s) (activeTasks s).
Definition set_throttling c s : DState W :=
  MkDState (ctrl s) (volumeLocks s) c (checkDiskLunThrottlingCache s)
    (clusterResourceID s) (activeTasks s).
Definition set_lunThrottling c s : DState W :=
  MkDState (ctrl s) (volumeLocks s) (throttlingCache s) c (clusterResourceID s) (activeTasks s).
Definition set_clusterResourceID i s : DState W :=
  MkDState (ctrl s) (volumeLocks s) (throttlingCache s) (checkDiskLunThrottlingCache s) i
    (activeTasks s).
Definition set_activeTasks t s : DState W :=
  MkDState (ctrl s) (volumeLocks s) (throttlingCache s) (checkDiskLunThrottlingCache s)
    (clusterResourceID s) t.
End setters.

(** ** Calls *)
Section calls.
  Context {W : Type} `{!Cloud W} (others : point → CState W → CState W).

Definition ctl {A} (m : M (CState W) A) : M (DState W) A := on ctrl set_ctrl m.
Definition svc {A} (m : M W A) : M (DState W) A := ctl (ext others m).

Lemma ctl_spec {A} (m : M (CState W) A) s :
  ctl m s = ((m (ctrl s)).1, set_ctrl (m (ctrl s)).2 s).
Proof. unfold ctl, on. by destruct (m (ctrl s)). Qed.

Lemma ctl_ok {A} (m : M (CState W) A) s r s' : ctl m s = (r, s') → m (ctrl s) = (r, ctrl s').
Proof. rewrite ctl_spec. destruct (m (ctrl s)) as [r0 c]. intros [= -> <-]. done. Qed.

Lemma keeps_ctl {A} (P : CState W → Prop) (m : M (CState W) A) :
  keeps P m → keeps (λ s, P (ctrl s)) (ctl m).
Proof. intros Hm s Hs. rewrite ctl_spec. by apply Hm. Qed.

  (** The lock of a volume, for the time of a request. *)
Definition with_volume_lock {A} (id : string) (body : M (DState W) A) : M (DState W) A :=
  let! s := get in
  let '(acquired, l) := TryAcquire id (volumeLocks s) in
  if acquired then
    let! _ := modify (set_volumeLocks l) in
    defer (λ s, set_volumeLocks (Release id (volumeLocks s)) s) body
  else fail (EStatus codes.Aborted ("An operation with the given Volume ID " +:+ id
                                    +:+ " already exists")).

Lemma with_volume_lock_ok {A} id (body : M (DState W) A) s a s' :
  with_volume_lock id body s = (Ok a, s') →
  id ∉ locks (volumeLocks s) ∧
  ∃ s2, body (set_volumeLocks {| locks := {[id]} ∪ locks (volumeLocks s) |} s) = (Ok a, s2) ∧
        s' = set_volumeLocks (Release id (volumeLocks s2)) s2.
Proof.
  unfold with_volume_lock. rewrite bind_get. unfold TryAcquire. case_bool_decide as Hin; [done|].
  intros (u & s1 & H1 & H)%bind_ok. injection H1 as _ <-. unfold defer in H.
  destruct (body _) as [r s2] eqn:E. injection H as -> <-. split; [done|]. eauto.
Qed.

(** The ways a request that takes the lock ends. *)
Lemma with_volume_lock_inv {A} id (body : M (DState W) A) s r s' :
  with_volume_lock id body s = (r, s') →
  (id ∈ locks (volumeLocks s) ∧ s' = s ∧
   r = Err (EStatus codes.Aborted ("An operation with the given Volume ID " +:+ id +:+ " already exists"))) ∨
  (id ∉ locks (volumeLocks s) ∧
   ∃ s2, body (set_volumeLocks {| locks := {[id]} ∪ locks (volumeLocks s) |} s) = (r, s2) ∧
         s' = set_volumeLocks (Release id (volumeLocks s2)) s2).
Proof.
  unfold with_volume_lock. rewrite bind_get. unfold TryAcquire. case_bool_decide as Hin.
  - intros [= <- <-]. by left.
  - unfold bind, modify, defer. destruct (body _) as [r0 s2]. intros [= <- <-]. right. eauto.
Qed.

Lemma with_volume_lock_busy {A} id (body : M (DState W) A) s :
  id ∈ locks (volumeLocks s) →
  with_volume_lock id body s = (Err (EStatus codes.Aborted ("An operation with the given Volume ID "
    +:+ id +:+ " already exists")), s).
Proof.
  intros Hin. unfold with_volume_lock. rewrite bind_get. unfold TryAcquire.
  by rewrite bool_decide_eq_true_2.
Qed.
End calls.

(** ** The CSI driver: [pkg/csi-common/driver.go] *)
(** [csi-common/driver.go ValidateControllerServiceRequest] *)
Definition ValidateControllerServiceRequest (d : DriverConfig) (c : ControllerCap) : res unit :=
  if bool_decide (c = RPC_UNKNOWN) then Ok ()
  else if bool_decide (c ∈ d_Cap d) then Ok ()
  else Err (EStatus codes.InvalidArgument (ControllerCap_String c)).
