(* ===== verification/FileWatcher.v ===== *)
(** * Watching a file: [pkg/filewatcher]

    The first file that is given is watched; when it is written to, its mode changes or
    it is removed, the process exits so that its pod is restarted. *)
From stdpp Require Import strings list.
From S2P Require Import Prelude GoStrings GoErr.
Local Open Scope string_scope.

(** The package's [sync.Once], and fsnotify. *)
Class FileWatch (W : Type) := {
  watchCertificateFileOnce : W → bool;               (**r whether it was used *)
  use_watchCertificateFileOnce : W → W;
  once_used w : watchCertificateFileOnce (use_watchCertificateFileOnce w) = true;
  watch_EvalSymlinks : string → M W string;
  fsnotify_NewWatcher : M W unit;
  watcher_Add : string → M W unit;
}.

(** ** Events *)
Inductive fs_op := Create | Write | Remove | Rename | Chmod.
#[export] Instance fs_op_dec : EqDecision fs_op.
Proof. solve_decision. Defined.
(** What the watcher's channels deliver: the operations of an event, which has a flag for
    each, or an error; or that the channel is closed. *)
Inductive watch_message := WatchEvent (ok : bool) (ops : list fs_op) | WatchError (ok : bool) (e : option gerr).
(** [filewatcher/filewatcher.go checkForFileChanges 69-83] One round of the goroutine: the
    status the process exits with. *)
Definition on_watch_message (m : watch_message) : option Z :=
  match m with
  | WatchEvent ok ops =>
      if ok && (bool_decide (Write ∈ ops) || bool_decide (Chmod ∈ ops) || bool_decide (Remove ∈ ops))
      then Some 0%Z else None
  | WatchError _ _ => None
  end.
(** The status after the messages that arrive one after the other. *)
Fixpoint watch_loop (l : list watch_message) : option Z :=
  match l with
  | [] => None
  | m :: l => match on_watch_message m with Some code => Some code | None => watch_loop l end
  end.

Section watch.
  Context {W : Type} `{!FileWatch W}.
  (** [filewatcher/filewatcher.go checkForFileChanges] *)
Definition checkForFileChanges (path : string) : M W unit :=
  let! _ := fsnotify_NewWatcher in
  watcher_Add path.
  (** [filewatcher/filewatcher.go WatchFileForChanges] *)
Definition WatchFileForChanges (fileToWatch : string) : M W unit :=
  let! w := get in
  if watchCertificateFileOnce w then ret ()
  else
    let! _ := modify use_watchCertificateFileOnce in
    let! fileToWatch := watch_EvalSymlinks fileToWatch in
    checkForFileChanges fileToWatch.

(** fsnotify leaves the [sync.Once] alone. *)
Class FileWatchLaws := {
  EvalSymlinks_once p w : watchCertificateFileOnce (watch_EvalSymlinks p w).2 = watchCertificateFileOnce w;
  NewWatcher_once w : watchCertificateFileOnce (fsnotify_NewWatcher w).2 = watchCertificateFileOnce w;
  Add_once p w : watchCertificateFileOnce (watcher_Add p w).2 = watchCertificateFileOnce w;
}.
Lemma WatchFileForChanges_used `{!FileWatchLaws} p w : watchCertificateFileOnce (WatchFileForChanges p w).2 = true.
Proof.
  unfold WatchFileForChanges, checkForFileChanges, bind, get, modify. destruct (watchCertificateFileOnce w) eqn:E; [done|].
  assert (Hu : watchCertificateFileOnce (watch_EvalSymlinks p (use_watchCertificateFileOnce w)).2 = true)
    by by rewrite EvalSymlinks_once, once_used.
  destruct (watch_EvalSymlinks p _) as [[q| |] w1]; [|done..]. cbn in Hu.
  assert (Hn : watchCertificateFileOnce (fsnotify_NewWatcher w1).2 = true) by by rewrite NewWatcher_once.
  destruct (fsnotify_NewWatcher w1) as [[[]| |] w2]; [|done..]. cbn in Hn. by rewrite Add_once.
Qed.
(** One file is watched in the life of the process: a second call, for the same file or
    another, does nothing and reports no error, also when the first call failed. *)
Theorem second_watch_ignored `{!FileWatchLaws} p q w :
  WatchFileForChanges q (WatchFileForChanges p w).2 = (Ok (), (WatchFileForChanges p w).2).
Proof. unfold WatchFileForChanges at 1. unfold bind, get. by rewrite WatchFileForChanges_used. Qed.
End watch.

(** The process exits at the first change of the file, whatever arrives before. *)
Theorem watch_loop_exits l :
  watch_loop l = Some 0%Z ↔ ∃ ops, WatchEvent true ops ∈ l ∧ (Write ∈ ops ∨ Chmod ∈ ops ∨ Remove ∈ ops).
Proof.
  assert (Hm : ∀ m, on_watch_message m = Some 0%Z ↔
            ∃ ops, m = WatchEvent true ops ∧ (Write ∈ ops ∨ Chmod ∈ ops ∨ Remove ∈ ops)).
  { intros [[] ops|]; cbn [on_watch_message andb]; [|by split; [|intros (? & [=] & _)]..].
    repeat case_bool_decide; cbn [orb]; split; try done; try (intros _; exists ops; tauto).
    intros (? & [= <-] & ?). tauto. }
  assert (Hc : ∀ m c, on_watch_message m = Some c → c = 0%Z).
  { intros [[] ops|] c; cbn; repeat case_match; congruence. }
  induction l as [|m l IH]; cbn [watch_loop].
  - split; [done|]. by intros (? & []%elem_of_nil & _).
  - destruct (on_watch_message m) as [c|] eqn:E.
    + pose proof (Hc _ _ E) as ->. split; [intros _|done]. apply Hm in E as (ops & -> & Ho). exists ops. split; [by left|done].
    + rewrite IH. split; intros (ops & Hin & Ho); exists ops; (split; [|done]); [by right|].
      apply elem_of_cons in Hin as [<-|Hin]; [|done].
      enough (on_watch_message (WatchEvent true ops) = Some 0%Z) by congruence. apply Hm. eauto.
Qed.
