(* ===== verification/CloudProvider.v ===== *)
(** * The configuration of the cloud: [GetCloudProviderFromClient]

    Where the configuration is read from and what the driver changes in it,
    in [pkg/azureutils/azure_disk_utils.go].  The secret, the file, the
    environment and the initialisation of the cloud provider are the operations
    of [ConfigSource]. *)
From stdpp Require Import gmap strings list.
From Stdlib Require Import ZArith Lia.
From S2P Require Import Prelude GoStrings GoErr Consts Util AzureTypes DiskUtils Cloud FileWatcher.
Local Open Scope string_scope.
Local Open Scope Z_scope.

(** azureconfig.Config: the fields the driver sets; the others come with the
    cloud that is made of it. *)
Record AzConfig := MkAzConfig {
  az_Location : string;
  az_UserAgent : string;
  az_ResourceManagerEndpoint : string;
  az_TenantID : string;
  az_AADClientID : string;
  az_AADFederatedTokenFile : string;
  az_UseFederatedWorkloadIdentityExtension : bool;
  az_AADClientCertPath : string;
  az_EnableMinimumRetryAfter : bool;
}.
Class ConfigSource (W : Type) := {
  LoadSecret : string → string → M W (option AzConfig);    (**r name and namespace *)
  LoadFile : string → M W (option AzConfig);
  LookupEnv : string → option string;
  config_watch :: FileWatch W;
  (** the cloud as far as it was initialised, and the error *)
  InitializeCloudFromConfig : AzConfig → bool → M W (CloudConfig * option gerr);
}.
Definition emptyCloud : CloudConfig := MkCloudConfig "" false "" "" "" None (λ _, "").

Record CloudOptions := MkCloudOptions {
  co_kubeClient : bool;
  co_secretName : string;
  co_secretNamespace : string;
  co_allowEmptyCloudConfig : bool;
  co_enableTrafficMgr : bool;
  co_enableMinimumRetryAfter : bool;
  co_trafficMgrPort : Z;
}.

Section provider.
  Context {W : Type} `{!ConfigSource W}.
Definition Getenv (k : string) : string := default "" (LookupEnv k).

  (** [azureutils/azure_disk_utils.go GetCloudProviderFromClient 206-245] What the
      driver sets in the configuration it was given. *)
Definition adjust_config (o : CloudOptions) (userAgent : string) (c : AzConfig) : AzConfig :=
  let tenant := Getenv "AZURE_TENANT_ID" in
  let client := Getenv "AZURE_CLIENT_ID" in
  let token := Getenv "AZURE_FEDERATED_TOKEN_FILE" in
  MkAzConfig (ToLower (ReplaceAll (az_Location c) " " "")) userAgent
    (if co_enableTrafficMgr o && (0 <? co_trafficMgrPort o)
     then "http://localhost:" +:+ Itoa (co_trafficMgrPort o) +:+ "/" else az_ResourceManagerEndpoint c)
    (if String.eqb tenant "" then az_TenantID c else tenant)
    (if String.eqb client "" then az_AADClientID c else client)
    (if String.eqb token "" then az_AADFederatedTokenFile c else token)
    (if String.eqb token "" then az_UseFederatedWorkloadIdentityExtension c else true)
    (az_AADClientCertPath c)
    (if co_enableMinimumRetryAfter o then true else az_EnableMinimumRetryAfter c).

  (** [azureutils/azure_disk_utils.go GetCloudProviderFromClient 154-198] The
      configuration and whether it came from the secret; the error of the last
      source that was tried. *)
Definition load_config (windows : bool) (o : CloudOptions) : M W (option AzConfig * bool * option gerr) :=
  let secret := co_kubeClient o && negb (String.eqb (co_secretName o) "")
                && negb (String.eqb (co_secretNamespace o) "") in
  let! r := if secret then try (LoadSecret (co_secretName o) (co_secretNamespace o)) else ret (inr None) in
  match r with
  | inr (Some c) => ret (Some c, true, None)
  | _ =>
      let env := Getenv consts.DefaultAzureCredentialFileEnv in
      let credFile := if String.eqb (TrimSpace env) "" then
                        if windows then consts.DefaultCredFilePathWindows else consts.DefaultCredFilePathLinux
                      else env in
      let! r := try (LoadFile credFile) in
      match r with
      | inr c => ret (c, false, None)
      | inl e => ret (None, false, Some e)
      end
  end.

  (** [azureutils/azure_disk_utils.go GetCloudProviderFromClient] A failure to watch
      the certificate or to initialise the cloud is only logged: the cloud comes
      back as it is then. *)
Definition GetCloudProviderFromClient (windows : bool) (o : CloudOptions) (userAgent : string)
    : M W CloudConfig :=
  let! (config, fromSecret, err) := load_config windows o in
  match config with
  | None =>
      if co_allowEmptyCloudConfig o then ret emptyCloud
      else fail (ENew ("no cloud config provided, error: "
                       +:+ match err with Some e => Error e | None => "<nil>" end))
  | Some c =>
      let c := adjust_config o userAgent c in
      let! _ := if (0 <? strlen (az_AADClientCertPath c))
                then let! _ := try (WatchFileForChanges (az_AADClientCertPath c)) in ret () else ret () in
      let! (cloud, _) := InitializeCloudFromConfig c fromSecret in ret cloud
  end.
End provider.
