(* ===== verification/DemoDriver.v ===== *)
(** * A concrete driver

    Instances of [DiskRP], [ConfigSource] and [Kube] on the cloud of
    [DemoCloud], a configuration and states of the driver, on which the
    witnesses of the requests evaluate. *)
From stdpp Require Import gmap strings list.
From Stdlib Require Import ZArith QArith Lia.
From S2P Require Import Prelude GoStrings GoErr Consts Util AzureTypes DiskUtils Cloud DemoCloud ControllerCommon AttachProofs ManagedDisk Kube DriverState CloudProvider FileWatcher.
Local Open Scope string_scope.
Local Open Scope Z_scope.
Local Open Scope list_scope.

(** The disk resource provider claims at once. *)
#[export] Instance demo_rp : DiskRP Demo := {|
  rg_Tags _ := ret (Some ∅);
  GetAzIdentity := Some (ret "token");
  NewRequest _ _ := Ok tt;
  http_Post url _ _ := λ w, (Ok (MkHttpResponse 200 "" (Ok "{}")), log url w);
  http_Get url _ := λ w, (Ok (MkHttpResponse 200 "" (Ok "")), w);
  unmarshal_claim _ := Ok (Some ("https://blob", "claim"));
  unmarshal_status _ := Ok "Succeeded";
|}.
#[export] Instance demo_watch : FileWatch Demo := {|
  watchCertificateFileOnce _ := true;
  use_watchCertificateFileOnce w := w;
  once_used _ := eq_refl;
  watch_EvalSymlinks := ret;
  fsnotify_NewWatcher := ret ();
  watcher_Add _ := ret ();
|}.
#[export] Instance demo_source : ConfigSource Demo := {|
  LoadSecret _ _ := ret None;
  LoadFile _ := fail (ENew "no file");
  LookupEnv _ := None;
  InitializeCloudFromConfig _ _ := ret (demo_cc, None);
|}.

Definition demo_driver_name : string := "disk.csi.azure.com".
Definition demo_uri2 : string := consts.ManagedDiskPath "s" "rg" "d2".
(** The volume of "d1" is attached by its nodes, and used on node "n3". *)
Definition demo_pv : PersistentVolume :=
  MkPersistentVolume "pv1" {[ consts.AttachSequenceAnnotation := "7";
                              consts.BlobURLAnnotation := "https://b" ]} ∅
    (Some (MkCSISource demo_driver_name demo_uri ∅)) (Some ("claim", "default")) (8 * GiB).
Definition demo_va : VolumeAttachment :=
  MkVolumeAttachment "va1" demo_driver_name "n3" (Some "pv1") None true {[ consts.LUN := "2" ]}.
#[export] Instance demo_api : Kube Demo :=
  demo_kube (MkDemoObjects [demo_pv] [demo_va] (MkNode ∅ []) []).

Definition demo_driver (kube nodeDriven : bool) : DriverConfig :=
  MkDriverConfig demo_driver_name "v1" "n1" demo_cc (demo_cfg false)
    [CREATE_DELETE_VOLUME; PUBLISH_UNPUBLISH_VOLUME; EXPAND_VOLUME; MODIFY_VOLUME] kube kube false true kube
    nodeDriven false true false false true false 10 (60 * Second) (60 * Second) 0 "".
(** Node "n1" has "d1"; "d2" exists and hangs on node "n2". *)
Definition demo_driver_world : Demo :=
  MkDemo 0 {[ "d1" := demo_disk "Premium_LRS" 8; "d2" := demo_disk "Premium_LRS" 8 ]}
    {[ "n1" := [MkDataDisk (Some 3) (Some "d1") None (Some (Some (ToLower demo_uri))) None];
       "n2" := [MkDataDisk (Some 0) (Some "d2") None (Some (Some (ToLower demo_uri2))) None] ]}
    ∅ [] None.
Definition demo_dstate (w : Demo) : DState Demo :=
  MkDState (demo_state w) (NewVolumeLocks) ∅ ∅ "" ∅.
Definition demo_start : DState Demo := demo_dstate demo_driver_world.
Definition demo_capability : VolumeCapability :=
  MkVolumeCapability (Some (AMount (MkMountVolume "ext4" []))) (Some SINGLE_NODE_WRITER).
