(* ===== verification/Driver.v ===== *)
(** * Helpers of the driver: [pkg/azuredisk/azuredisk.go], [attach_mode.go]

    Throttling, look-ups of disks, volumes and LUNs, defaults, and the removal
    of the start-up taint. *)
From stdpp Require Import gmap strings list.
From Stdlib Require Import ZArith QArith Lia.
From S2P Require Import Prelude GoStrings GoErr Consts Util AzureTypes DiskUtils Cloud DemoCloud Kube ControllerCommon AttachProofs ManagedDisk DriverState.
Local Open Scope string_scope.
Local Open Scope Z_scope.
Local Open Scope list_scope.

(** ** Start *)
(** [azuredisk/azuredisk.go NewDriver 451-465] *)
Definition controllerCap (enableListVolumes enableListSnapshots : bool) : list ControllerCap :=
  [CREATE_DELETE_VOLUME; PUBLISH_UNPUBLISH_VOLUME; CREATE_DELETE_SNAPSHOT; CLONE_VOLUME; EXPAND_VOLUME;
   CAP_SINGLE_NODE_MULTI_WRITER; MODIFY_VOLUME]
  ++ (if enableListVolumes then [LIST_VOLUMES; LIST_VOLUMES_PUBLISHED_NODES] else [])
  ++ (if enableListSnapshots then [LIST_SNAPSHOTS] else []).
(** [azuredisk/azuredisk.go NewDriver 475-480] *)
Definition nodeCap : list NodeCap :=
  [STAGE_UNSTAGE_VOLUME; NODE_EXPAND_VOLUME; GET_VOLUME_STATS; NODE_SINGLE_NODE_MULTI_WRITER].
(** [azuredisk/azuredisk.go NewDriver 279-279] *)
Definition topologyKey (d : DriverConfig) : string := "topology." +:+ d_Name d +:+ "/zone".

(** ** Attach mode *)
(** [azuredisk/attach_mode.go getAttachMode] *)
Definition getAttachMode `{MapOrder} (parameters : gmap string string) : res string :=
  let (mode, exists_) := ParseDiskParametersForKey parameters consts.AttachModeField in
  if negb exists_ then Ok consts.AttachModeControllerDriven
  else if EqualFold mode consts.AttachModeControllerDriven then Ok consts.AttachModeControllerDriven
  else if EqualFold mode consts.AttachModeNodeDriven then Ok consts.AttachModeNodeDriven
  else Err (ENew ("unsupported " +:+ consts.AttachModeField +:+ " " +:+ quote mode
         +:+ ": supported values are " +:+ consts.AttachModeControllerDriven +:+ " and "
         +:+ consts.AttachModeNodeDriven)).

(** ** Defaults of Ultra disks *)
(** [azuredisk/azuredisk.go getDefaultDiskIOPSReadWrite] *)
Definition getDefaultDiskIOPSReadWrite (requestGiB : Z) : Z :=
  let iops := DefaultDiskIOPSReadWrite in
  let iops := if iops <? requestGiB then requestGiB else iops in
  if 160000 <? iops then 160000 else iops.
(** [azuredisk/azuredisk.go getDefaultDiskMBPSReadWrite] *)
Definition getDefaultDiskMBPSReadWrite (requestGiB : Z) : Z :=
  let bandwidth := DefaultDiskMBpsReadWrite in
  let iops := getDefaultDiskIOPSReadWrite requestGiB in
  let bandwidth := if bandwidth <? Z.quot iops 256 then RoundUpSize iops 256 else bandwidth in
  let bandwidth := if Z.quot iops 4 <? bandwidth then RoundUpSize iops 4 else bandwidth in
  if 4000 <? bandwidth then 4000 else bandwidth.

(** [azuredisk/azuredisk.go getVMSSInstanceName] [%06s] pads with zeros. *)
Definition getVMSSInstanceName (computeName : string) : res string :=
  match Split computeName "_" with
  | [prefix; n] =>
      match Atoi n with
      | None => Err (ENew ("parsing vmss compute name(" +:+ computeName +:+ ") failed with "
                           +:+ num_error "Atoi" n))
      | Some instanceID => Ok (prefix +:+ pad0 6 (FormatInt instanceID 36))
      end
  | _ => Err (ENew ("invalid vmss compute name: " +:+ computeName))
  end.

(** ** Nodes *)
(** The zone and the instance type among the labels. *)
Definition node_info (nodeName : string) (labels : gmap string string) : res (string * string) :=
  if bool_decide (labels = ∅) then Err (ENew ("node(" +:+ nodeName +:+ ") label is empty"))
  else Ok (default "" (labels !! consts.WellKnownTopologyKey),
           default "" (labels !! consts.InstanceTypeKey)).
Section nodes.
  Context {W : Type} `{!Kube W}.
  (** [azuredisk/azuredisk.go GetNodeInfoFromNodeLister] [nodeLister]: there is one. *)
Definition GetNodeInfoFromNodeLister (nodeName : string) (nodeLister : bool) : M W (string * string) :=
  if negb nodeLister then fail (ENew "nodeLister is nil")
  else
    let! r := try (node_Lister nodeName) in
    match r with
    | inl e => if IsNotFound e then ret ("", "")
               else fail (ENew ("get node(" +:+ nodeName +:+ ") from lister failed: " +:+ Error e))
    | inr None => fail (ENew ("node(" +:+ nodeName +:+ ") from lister is not *metav1.PartialObjectMetadata"))
    | inr (Some labels) => lift (node_info nodeName labels)
    end.
  (** [azuredisk/azuredisk.go GetNodeInfoFromLabels] *)
Definition GetNodeInfoFromLabels (nodeName : string) (kubeClient : bool) : M W (string * string) :=
  if negb kubeClient then fail (ENew "kubeClient is nil")
  else
    let! r := try (node_Get nodeName) in
    match r with
    | inl e => fail (ENew ("get node(" +:+ nodeName +:+ ") failed with " +:+ Error e))
    | inr node => lift (node_info nodeName (node_Labels node))
    end.

  (** [azuredisk/azuredisk.go checkAllocatable] *)
Fixpoint check_drivers (nodeName driverName : string) (drivers : list CSINodeDriver) : res unit :=
  match drivers with
  | [] => Err (ENew ("isAllocatableSet: driver not found on node " +:+ nodeName))
  | driver :: drivers' =>
      if String.eqb (cnd_Name driver) driverName then
        match cnd_Allocatable driver with
        | Some (Some _) => Ok ()
        | _ => Err (ENew ("isAllocatableSet: allocatable value not set for driver on node " +:+ nodeName))
        end
      else check_drivers nodeName driverName drivers'
  end.
  (** [azuredisk/azuredisk.go checkAllocatable] *)
Definition checkAllocatable (nodeName driverName : string) : M W unit :=
  let! r := try (csinode_Get nodeName) in
  match r with
  | inl e => fail (EWrap ("isAllocatableSet: failed to get CSINode for " +:+ nodeName +:+ ": ") e "")
  | inr drivers => lift (check_drivers nodeName driverName drivers)
  end.

  (** [azuredisk/azuredisk.go removeNotReadyTaint] *)
Definition removeNotReadyTaint (nodeName driverName : string) : M W unit :=
  let! node := node_Get nodeName in
  let! _ := checkAllocatable nodeName driverName in
  let taintKeyToRemove := driverName +:+ consts.AgentNotReadyNodeTaintKeySuffix in
  let taintsToKeep := List.filter (λ t, negb (String.eqb (taint_Key t) taintKeyToRemove)) (node_Taints node) in
  if (length taintsToKeep =? length (node_Taints node))%nat then ret ()
  else node_PatchTaints nodeName (node_Taints node) taintsToKeep.

  (** [azuredisk/azuredisk.go removeTaintInBackground] The removal is tried ten
      times with growing pauses, the result is dropped, and with [neverStop] it
      is run again every five minutes; [fuel] bounds the rounds of that loop. *)
Fixpoint taint_loop (fuel : nat) (pause : M W unit) (removal : M W unit) : M W unit :=
  match fuel with
  | O => ret ()
  | S fuel' =>
      let! _ := pause in
      let! r := try removal in
      match r with inl _ => ret () | inr _ => taint_loop fuel' pause removal end
  end.
  (** [azuredisk/azuredisk.go removeTaintInBackground] *)
Fixpoint taint_backoff (steps : nat) (duration : Z) (sleep : Z → M W unit) (removal : M W unit) : M W unit :=
  match steps with
  | O => ret ()
  | S steps' =>
      let! r := try removal in
      match r, steps' with
      | inr _, _ | _, O => ret ()
      | inl _, _ => let! _ := sleep duration in taint_backoff steps' (2 * duration) sleep removal
      end
  end.
  (** [azuredisk/azuredisk.go removeTaintInBackground] *)
Definition removeTaintInBackground (fuel : nat) (sleep : Z → M W unit) (jitter : Z)
    (neverStop : bool) (removal : M W unit) : M W unit :=
  let! _ := taint_backoff 10 (500 * Millisecond) sleep removal in
  if neverStop then taint_loop fuel (sleep (240 * Second + jitter)) removal else ret ().
End nodes.

(** ** Volumes and attachments *)
(** [azuredisk/azuredisk.go pvDiskURIIndexFunc] [None] is an object of another
    type. *)
Definition pvDiskURIIndexFunc (obj : option PersistentVolume) : list string :=
  match obj ≫= pv_CSI with
  | Some c => if String.eqb (csi_VolumeHandle c) "" then [] else [ToLower (csi_VolumeHandle c)]
  | None => []
  end.
(** The volume is a disk of this driver with the URI. *)
Definition pv_is_disk (driver diskURI : string) (pv : PersistentVolume) : bool :=
  match pv_CSI pv with
  | Some c => String.eqb (csi_Driver c) driver && EqualFold (csi_VolumeHandle c) diskURI
  | None => false
  end.
(** [azuredisk/azuredisk.go hasQADInfo] *)
Definition hasQADInfo (pv : option PersistentVolume) : bool :=
  match pv with
  | None => false
  | Some pv => negb (String.eqb (pv_Name pv) "")
               && bool_decide (is_Some (pv_Annotations pv !! consts.AttachSequenceAnnotation))
  end.
(** [azuredisk/controllerserver.go inlineVolumeSpecMatchesDisk] *)
Definition inlineVolumeSpecMatchesDisk (driverName diskURI : string) (va : VolumeAttachment) : bool :=
  match va_Inline va with
  | Some (Some (driver, handle)) => EqualFold handle diskURI && EqualFold driver driverName
  | _ => false
  end.
(** The LUN that an attachment of the node records. *)
Definition attachment_lun (driver nodeName : string) (va : VolumeAttachment) : option Z :=
  if String.eqb (va_Attacher va) driver && EqualFold (va_NodeName va) nodeName && va_Attached va
  then va_AttachmentMetadata va !! consts.LUN ≫= Atoi else None.

Section driver.
  Context {W : Type} `{!Cloud W} `{!Kube W} `{MapOrder}.
  Context (d : DriverConfig) (others : point → CState W → CState W).
  Local Notation D := (M (DState W)).
  Local Notation svc := (svc others).

  (** [azuredisk/azuredisk.go isGetDiskThrottled] *)
Definition isGetDiskThrottled : D bool :=
  let! now := svc Now in
  let! s := get in
  let '(v, c) := cache_Get (throttlingTTL d) now consts.GetDiskThrottlingKey (throttlingCache s) in
  let! _ := modify (set_throttling c) in
  ret (bool_decide (is_Some v)).
  (** [azuredisk/azuredisk.go isCheckDiskLunThrottled] *)
Definition isCheckDiskLunThrottled : D bool :=
  let! now := svc Now in
  let! s := get in
  let '(v, c) := cache_Get (checkDiskLunThrottlingTTL d) now consts.CheckDiskLunThrottlingKey
                   (checkDiskLunThrottlingCache s) in
  let! _ := modify (set_lunThrottling c) in
  ret (bool_decide (is_Some v)).

  (** [azuredisk/azuredisk.go checkDiskExists] The timeout is not visible to
      the disk client of [Cloud]. *)
Definition checkDiskExists (diskURI : string) : D (option Disk) :=
  let! throttled := isGetDiskThrottled in
  if throttled then ret None else ctl (GetDiskByURI others diskURI).

  (** [azuredisk/azuredisk.go checkDiskCapacity] The comparison of the pointer
      with the empty struct is never equal; a nil disk or nil properties are
      dereferenced. *)
Definition checkDiskCapacity (subsID resourceGroup diskName : string) (requestGiB : Z) : D unit :=
  let! throttled := isGetDiskThrottled in
  if throttled then ret ()
  else
    let! r := try (ctl (GetDisk others subsID resourceGroup diskName)) in
    match r with
    | inl _ => ret ()
    | inr disk =>
        let! disk := lift (deref disk) in
        let! p := lift (deref (disk_Properties disk)) in
        match DiskSizeGB p with
        | Some size =>
            if size =? requestGiB then ret ()
            else fail (EStatus codes.AlreadyExists
              ("the request volume already exists, but its capacity(" +:+ Itoa size
               +:+ ") is different from (" +:+ Itoa requestGiB +:+ ")"))
        | None => ret ()
        end
    end.

  (** [azuredisk/azuredisk.go getSnapshotCompletionPercent] *)
Definition getSnapshotCompletionPercent (subsID resourceGroup snapshotName : string) : D Q :=
  let! snapshotClient := svc (GetSnapshotClientForSub subsID) in
  let! copySnapshot := svc (snapshot_Get snapshotClient resourceGroup snapshotName) in
  let! copySnapshot := lift (deref copySnapshot) in
  ret (match snap_Properties copySnapshot ≫= sp_CompletionPercent with
       | None => 100%Q
       | Some q => q
       end).
  (** [azuredisk/azuredisk.go waitForSnapshotReady 769-787] One round per tick
      until the timeout. *)
Fixpoint snapshot_ticks (fuel : nat) (deadline : Z) (subsID resourceGroup snapshotName : string)
    (interval : Z) : D unit :=
  let timeout := ENew ("timeout waiting for snapshot(" +:+ snapshotName +:+ ") under rg("
                       +:+ resourceGroup +:+ ")") in
  match fuel with
  | O => fail timeout
  | S fuel' =>
      let! _ := svc (Sleep interval) in
      let! now := svc Now in
      if deadline <=? now then fail timeout
      else
        let! percent := getSnapshotCompletionPercent subsID resourceGroup snapshotName in
        if Qle_bool 100 percent then ret ()
        else snapshot_ticks fuel' deadline subsID resourceGroup snapshotName interval
  end.
  (** [azuredisk/azuredisk.go waitForSnapshotReady] At most [timeout/interval]
      ticks fit into the timeout. *)
Definition waitForSnapshotReady (subsID resourceGroup snapshotName : string) (interval timeout : Z)
    : D unit :=
  let! percent := getSnapshotCompletionPercent subsID resourceGroup snapshotName in
  if Qle_bool 100 percent then ret ()
  else
    let! now := svc Now in
    snapshot_ticks (Z.to_nat (Z.quot timeout interval)) (now + timeout) subsID resourceGroup
      snapshotName interval.

  (** [azuredisk/azuredisk.go getUsedLunsFromVolumeAttachments] *)
Definition getUsedLunsFromVolumeAttachments (nodeName : string) : D (list Z) :=
  if negb (cloud_KubeClient d)
  then fail (ENew "kubeClient or kubeClient.StorageV1() or kubeClient.StorageV1().VolumeAttachments() is nil")
  else
    let! vas := svc va_List in
    ret (omap (attachment_lun (d_Name d) nodeName) (default [] vas)).

  (** [azuredisk/azuredisk.go getUsedLunsFromNode] The name of a disk without
      LUN is dereferenced for the log line. *)
Fixpoint node_luns (disks : list DataDisk) : res (list Z) :=
  match disks with
  | [] => Ok []
  | disk :: disks' =>
      match Lun disk with
      | None => let? _ := deref (dd_Name disk) in node_luns disks'
      | Some lun => let? luns := node_luns disks' in Ok (lun :: luns)
      end
  end.
  (** [azuredisk/azuredisk.go getUsedLunsFromNode] *)
Definition getUsedLunsFromNode (nodeName : string) : D (list Z) :=
  let! (disks, _, err) := ctl (GetNodeDataDisks others nodeName) in
  match err with
  | Some e => fail e
  | None => lift (node_luns disks)
  end.

  (** [azuredisk/azuredisk.go getPVFromDiskURI 903-929] The candidates of the
      cache: [Some] is the answer, [None] asks the API for the list. *)
Fixpoint pv_candidates (diskURI : string) (objs : list (option PersistentVolume))
    : D (option PersistentVolume) :=
  match objs with
  | [] => ret None
  | obj :: objs' =>
      match obj with
      | None => pv_candidates diskURI objs'
      | Some candidate =>
          if String.eqb (pv_Name candidate) "" || negb (pv_is_disk (d_Name d) diskURI candidate)
          then pv_candidates diskURI objs'
          else
            let! r := try (svc (pv_Get (pv_Name candidate))) in
            match r with
            | inl e => if IsNotFound e then ret None
                       else fail (ENew ("failed to get PersistentVolume " +:+ pv_Name candidate
                                        +:+ ": " +:+ Error e))
            | inr pv => ret (if pv_is_disk (d_Name d) diskURI pv then Some pv else None)
            end
      end
  end.
  (** [azuredisk/azuredisk.go getPVFromDiskURI] *)
Definition getPVFromDiskURI (diskURI : string) : D PersistentVolume :=
  if negb (d_kubeClient d)
  then fail (EWrap "" (ESentinel errPVMetadataUnavailable) ": Kubernetes client is not initialized")
  else
    let! cached := if d_pvIndexer d then
                     let! r := try (svc (pv_ByIndex (ToLower diskURI))) in
                     match r with inl _ => ret None | inr objs => pv_candidates diskURI objs end
                   else ret None in
    match cached with
    | Some pv => ret pv
    | None =>
        let! r := try (svc pv_List) in
        match r with
        | inl e => fail (ENew ("failed to list PersistentVolumes: " +:+ Error e))
        | inr pvs =>
            match List.find (pv_is_disk (d_Name d) diskURI) pvs with
            | Some pv => ret pv
            | None => fail (EWrap "" (ESentinel errPVNotFound) (" with diskURI(" +:+ diskURI +:+ ")"))
            end
        end
    end.
End driver.

(** ** Properties *)
(** The limits the driver asks for an Ultra disk without limits: an IOPS per GiB
    between 500 and 160000, and a bandwidth between 100 and 625 MB/s that is at
    most a quarter of the IOPS and at least their 256th part but for the
    truncation of the comparison; the cap of 4000 MB/s is never reached. *)
Theorem default_limits_bounds requestGiB :
  let iops := getDefaultDiskIOPSReadWrite requestGiB in
  let mbps := getDefaultDiskMBPSReadWrite requestGiB in
  500 ≤ iops ≤ 160000 ∧ (500 ≤ requestGiB ≤ 160000 → iops = requestGiB) ∧
  100 ≤ mbps ≤ 625 ∧ iops < 256 * (mbps + 1) ∧ 4 * mbps ≤ iops.
Proof.
  cbv zeta. unfold getDefaultDiskMBPSReadWrite. cbv zeta.
  assert (Hi : 500 ≤ getDefaultDiskIOPSReadWrite requestGiB ≤ 160000 ∧
               (500 ≤ requestGiB ≤ 160000 → getDefaultDiskIOPSReadWrite requestGiB = requestGiB)).
  { unfold getDefaultDiskIOPSReadWrite, DefaultDiskIOPSReadWrite. cbv zeta.
    destruct (Z.ltb_spec 500 requestGiB);
    repeat match goal with |- context [?a <? ?b] => destruct (Z.ltb_spec a b) end; lia. }
  destruct Hi as [Hi Hg]. set (iops := getDefaultDiskIOPSReadWrite requestGiB) in *. clearbody iops.
  assert (Hin : in_int64 iops) by (unfold in_int64; lia).
  unfold DefaultDiskMBpsReadWrite.
  rewrite !RoundUpSize_nonneg, !Z.quot_div_nonneg by (done || lia).
  pose proof (Z.div_mod iops 256 ltac:(lia)). pose proof (Z.mod_pos_bound iops 256 ltac:(lia)).
  pose proof (Z.div_mod iops 4 ltac:(lia)). pose proof (Z.mod_pos_bound iops 4 ltac:(lia)).
  pose proof (Z.div_mod (iops + 256 - 1) 256 ltac:(lia)). pose proof (Z.mod_pos_bound (iops + 256 - 1) 256 ltac:(lia)).
  destruct (Z.ltb_spec 100 (iops / 256));
    match goal with |- context [iops / 4 <? ?b] => destruct (Z.ltb_spec (iops / 4) b) end;
    match goal with |- context [4000 <? ?b] => destruct (Z.ltb_spec 4000 b) end; lia.
Qed.
