(* ===== verification/Frame.v ===== *)
(** * What a request leaves alone, and what happens during it

    [frame P]: the fact [P] about the state of the driver is kept by steps of the
    controller ([Moments.later]) and does not depend on the caches, the cluster
    identifier and the migration tasks.  Every operation of the driver keeps
    such facts; with the locks of the volumes as [P] this gives that requests
    release them, and with [later] itself that an operation is made of steps. *)
From stdpp Require Import gmap strings list.
From Stdlib Require Import ZArith QArith Lia.
From S2P Require Import Prelude GoStrings GoErr Consts Util AzureTypes Cloud CloudProvider Kube ControllerCommon Moments AttachProofs ManagedDisk DriverState Driver.

(** ** The operations of the other services *)
Inductive kube_call {W} `{!Kube W} : ∀ A, M W A → Prop :=
  | call_pv_Get n : kube_call _ (pv_Get n)
  | call_pv_List : kube_call _ pv_List
  | call_pv_Update pv : kube_call _ (pv_Update pv)
  | call_pv_ByIndex u : kube_call _ (pv_ByIndex u)
  | call_pv_ListSelected sel : kube_call _ (pv_ListSelected sel)
  | call_pvc_Get c ns n : kube_call _ (pvc_Get c ns n)
  | call_event_Record c t r : kube_call _ (event_Record c t r)
  | call_va_List : kube_call _ va_List
  | call_node_Get n : kube_call _ (node_Get n)
  | call_node_Lister n : kube_call _ (node_Lister n)
  | call_node_PatchTaints n a b : kube_call _ (node_PatchTaints n a b)
  | call_csinode_Get n : kube_call _ (csinode_Get n).
Inductive rp_call {W} `{!DiskRP W} : ∀ A, M W A → Prop :=
  | call_rg_Tags n : rp_call _ (rg_Tags n)
  | call_GetToken m : GetAzIdentity = Some m → rp_call _ m
  | call_http_Post u t b : rp_call _ (http_Post u t b)
  | call_http_Get u t : rp_call _ (http_Get u t).
(** The clouds of the user agents that storage classes name. *)
Inductive config_call {W} `{!ConfigSource W} : ∀ A, M W A → Prop :=
  | call_GetCloudProviderFromClient w o a : config_call _ (GetCloudProviderFromClient w o a).
#[export] Hint Constructors kube_call rp_call config_call : moves_db.

(** The services of a request that works with the cloud and the API server only,
    and of all requests. *)
Definition publish_call {W} `{!Cloud W} `{!Kube W} (A : Type) (m : M W A) : Prop :=
  cloud_call A m ∨ kube_call A m.
Definition request_call {W} `{!Cloud W} `{!Kube W} `{!DiskRP W} `{!ConfigSource W} (A : Type) (m : M W A)
  : Prop := cloud_call A m ∨ kube_call A m ∨ rp_call A m ∨ config_call A m.

(** ** Facts that operations keep *)
Section frame.
  Context {W : Type} (calls : ∀ A, M W A → Prop) (others : point → CState W → CState W).

Definition frame (P : DState W → Prop) : Prop :=
  ∀ s, P s → (∀ c, later calls others (ctrl s) c → P (set_ctrl c s)) ∧
             (∀ c, P (set_throttling c s)) ∧ (∀ c, P (set_lunThrottling c s)) ∧
             (∀ i, P (set_clusterResourceID i s)) ∧ (∀ t, P (set_activeTasks t s)).

(** The request [m] is made of steps. *)
Definition dmoves {A} (m : M (DState W) A) : Prop :=
  ∀ s, later calls others (ctrl s) (ctrl (m s).2).

Lemma frame_locks (l : VolumeLocks) : frame (λ s, volumeLocks s = l).
Proof. intros s Hs. by repeat split. Qed.
Lemma frame_later c0 : frame (λ s, later calls others c0 (ctrl s)).
Proof. intros s Hs. repeat split; simpl; try done. intros c Hc. by trans (ctrl s). Qed.

Lemma dmoves_of {A} (m : M (DState W) A) : (∀ P, frame P → keeps P m) → dmoves m.
Proof. intros Hm s. by apply (Hm _ (frame_later (ctrl s))). Qed.

(** [bind_later] for requests. *)
Lemma dbind_later {A B} (m : M (DState W) A) (f : A → M (DState W) B) s b s' :
  dmoves m → bind m f s = (Ok b, s') →
  ∃ a s1, later calls others (ctrl s) (ctrl s1) ∧ m s = (Ok a, s1) ∧ f a s1 = (Ok b, s').
Proof.
  intros Hm (a & s1 & Ha & Hf)%bind_ok. exists a, s1. split_and!; [|done..].
  specialize (Hm s). by rewrite Ha in Hm.
Qed.
Lemma dmoves_later {A} (m : M (DState W) A) s r s' :
  dmoves m → m s = (r, s') → later calls others (ctrl s) (ctrl s').
Proof. intros Hm E. specialize (Hm s). by rewrite E in Hm. Qed.
Lemma ctl_runs {A} (m : M (CState W) A) s r s' :
  ctl m s = (r, s') → runs calls others m r (ctrl s) (ctrl s').
Proof. intros E. by apply runs_here, ctl_ok. Qed.

(** Between [s] and [s'] the operation [m] of the driver was run and gave [r]. *)
Definition druns {A} (m : M (DState W) A) (r : res A) (s s' : DState W) : Prop :=
  ∃ s1 s2, later calls others (ctrl s) (ctrl s1) ∧ m s1 = (r, s2) ∧ later calls others (ctrl s2) (ctrl s').
Lemma druns_here {A} (m : M (DState W) A) r s s' : m s = (r, s') → druns m r s s'.
Proof. intros. exists s, s'. split_and!; [apply rtc_refl|done|apply rtc_refl]. Qed.
Lemma druns_mono {A} (m : M (DState W) A) r s0 s s' s1 :
  later calls others (ctrl s0) (ctrl s) → later calls others (ctrl s') (ctrl s1) → druns m r s s' → druns m r s0 s1.
Proof. intros H0 H1 (s2 & s3 & ? & ? & ?). exists s2, s3. split_and!; [by trans (ctrl s)|done|by trans (ctrl s')]. Qed.

  Context (P : DState W → Prop) (HP : frame P).
Lemma frame_ctl {A} (m : M (CState W) A) : moves calls others m → keeps P (ctl m).
Proof. intros Hm s Hs. rewrite ctl_spec. apply (HP s Hs), Hm. Qed.
Lemma frame_svc {A} (m : M W A) : calls A m → keeps P (svc others m).
Proof. intros Hm. by apply frame_ctl, moves_ext. Qed.
Lemma frame_status_on {A} (m : M (DState W) A) c msg : keeps P m → keeps P (status_on m c msg).
Proof. intros Hm. apply keeps_bind; [by apply keeps_try|]. intros []; [apply keeps_fail|apply keeps_ret]. Qed.
End frame.

(** A request that takes the lock of a volume gives it back on every way out, and
    is made of steps when its body is. *)
Lemma with_volume_lock_locks {W A} calls (others : point → CState W → CState W) id
    (body : M (DState W) A) s :
  (∀ P, frame calls others P → keeps P body) →
  volumeLocks (with_volume_lock id body s).2 = volumeLocks s.
Proof.
  intros Hb. unfold with_volume_lock. rewrite bind_get. unfold TryAcquire.
  case_bool_decide as Hin; [done|]. unfold bind, modify, defer.
  set (s1 := set_volumeLocks _ s).
  pose proof (Hb _ (frame_locks _ _ (volumeLocks s1)) s1 eq_refl) as Hk.
  destruct (body s1) as [r s2]. simpl in *. rewrite Hk. unfold Release. simpl.
  destruct (volumeLocks s) as [l]. simpl in *. f_equal. set_solver.
Qed.
Lemma dmoves_volume_lock {W A} calls (others : point → CState W → CState W) id (body : M (DState W) A) :
  dmoves calls others body → dmoves calls others (with_volume_lock id body).
Proof.
  intros Hb s. unfold with_volume_lock. rewrite bind_get. destruct (TryAcquire id _) as [[] l]; [|apply rtc_refl].
  unfold bind, modify, defer. specialize (Hb (set_volumeLocks l s)).
  by destruct (body (set_volumeLocks l s)) as [r s2].
Qed.

Create HintDb frame_db.
(** Goes through the structure of a request; [HP] is the fact that is kept. *)
Ltac frame_step HP :=
  match goal with
  | |- keeps _ (ret _) => apply keeps_ret
  | |- keeps _ (fail _) => apply keeps_fail
  | |- keeps _ panic => apply keeps_panic
  | |- keeps _ get => apply keeps_get
  | |- keeps _ (lift _) => apply keeps_lift
  | |- keeps _ (guard_else _ _) => apply keeps_guard
  | |- keeps _ (bind _ _) => apply keeps_bind; [|intros ?]
  | |- keeps _ (try _) => apply keeps_try
  | |- keeps _ (status_on _ _ _) => apply frame_status_on
  | |- keeps _ (svc _ _) => apply (frame_svc _ _ _ HP)
  | |- keeps _ (ctl _) => apply (frame_ctl _ _ _ HP)
  | |- keeps _ (modify _) => apply keeps_modify; intros ? ?; by apply HP
  | |- keeps _ (match ?x with _ => _ end) => destruct x eqn:?
  | |- keeps _ (let '_ := ?x in _) => destruct x
  end.
Ltac frame_auto HP := cbv zeta; repeat frame_step HP; eauto with frame_db moves_db.

(** ** The operations of [Driver] *)
Section driver.
  Context {W : Type} `{!Cloud W} `{!Kube W}.
  Context (d : DriverConfig) (others : point → CState W → CState W).
  Context (calls : ∀ A, M W A → Prop).
  Context (P : DState W → Prop) (HP : frame calls others P).
  Context (Hcloud : ∀ A m, cloud_call A m → calls A m) (Hkube : ∀ A m, kube_call A m → calls A m).
  Local Hint Resolve Hcloud Hkube : moves_db.
  Local Hint Extern 2 (moves _ _ (GetDisk _ _ _ _)) => apply (moves_GetDisk others calls) : moves_db.
  Local Hint Extern 2 (moves _ _ (GetDiskByURI _ _)) => apply (moves_GetDiskByURI others calls) : moves_db.

Lemma attach_call_true A (m : M W A) : attach_call true A m → calls A m.
Proof. intros. by apply Hcloud, call_attach. Qed.
  Local Hint Extern 2 (moves _ _ (GetNodeDataDisks _ _)) =>
    apply (moves_GetNodeDataDisks others calls true attach_call_true) : moves_db.

Lemma frame_isGetDiskThrottled : keeps P (isGetDiskThrottled d others).
Proof. unfold isGetDiskThrottled. frame_auto HP. Qed.
Lemma frame_isCheckDiskLunThrottled : keeps P (isCheckDiskLunThrottled d others).
Proof. unfold isCheckDiskLunThrottled. frame_auto HP. Qed.
  Local Hint Resolve frame_isGetDiskThrottled : frame_db.
Lemma frame_checkDiskExists u : keeps P (checkDiskExists d others u).
Proof. unfold checkDiskExists. frame_auto HP. Qed.
Lemma frame_checkDiskCapacity a b c e : keeps P (checkDiskCapacity d others a b c e).
Proof. unfold checkDiskCapacity. frame_auto HP. Qed.
Lemma frame_lunsFromVolumeAttachments n : keeps P (getUsedLunsFromVolumeAttachments d others n).
Proof. unfold getUsedLunsFromVolumeAttachments. frame_auto HP. Qed.
Lemma frame_lunsFromNode n : keeps P (getUsedLunsFromNode others n).
Proof. unfold getUsedLunsFromNode. frame_auto HP. Qed.
Lemma frame_pv_candidates u l : keeps P (pv_candidates d others u l).
Proof. induction l as [|o l IH]; cbn [pv_candidates]; frame_auto HP. Qed.
  Local Hint Resolve frame_pv_candidates : frame_db.
Lemma frame_getPV u : keeps P (getPVFromDiskURI d others u).
Proof. unfold getPVFromDiskURI. frame_auto HP. Qed.
Lemma frame_percent a b c : keeps P (getSnapshotCompletionPercent others a b c).
Proof. unfold getSnapshotCompletionPercent. frame_auto HP. Qed.
  Local Hint Resolve frame_percent : frame_db.
Lemma frame_ticks n t a b c i : keeps P (snapshot_ticks others n t a b c i).
Proof. induction n; cbn [snapshot_ticks]; frame_auto HP. Qed.
  Local Hint Resolve frame_ticks : frame_db.
Lemma frame_waitForSnapshotReady a b c i t : keeps P (waitForSnapshotReady others a b c i t).
Proof. unfold waitForSnapshotReady. frame_auto HP. Qed.
End driver.

#[export] Hint Resolve frame_isGetDiskThrottled frame_isCheckDiskLunThrottled frame_checkDiskExists
  frame_checkDiskCapacity frame_lunsFromVolumeAttachments frame_lunsFromNode frame_getPV frame_percent
  frame_ticks frame_waitForSnapshotReady : frame_db.
#[export] Hint Resolve moves_GetDisk moves_GetDiskByURI moves_CreateManagedDisk moves_DeleteManagedDisk
  moves_ResizeDisk moves_ModifyDisk moves_GetDiskLun moves_UpdateVM moves_AttachDisk moves_DetachDisk
  call_attach : moves_db.
#[export] Hint Extern 1 (_ → true = true) => reflexivity : moves_db.
