(* ===== verification/Publish.v ===== *)
(** * Publishing a volume: [pkg/azuredisk/controllerserver.go]

    [ControllerPublishVolume] and [ControllerUnpublishVolume] with their
    helpers: the LUNs that volume attachments occupy, the annotations of a
    volume that its node attaches itself, and the texts of the errors. *)
From stdpp Require Import gmap strings list.
From Stdlib Require Import ZArith QArith Lia.
From S2P Require Import Prelude GoStrings GoErr Consts Util AzureTypes DiskUtils Cloud DemoCloud Kube ControllerCommon Moments AttachProofs ManagedDisk DriverState DemoDriver Driver Frame.
Local Open Scope string_scope.
Local Open Scope Z_scope.
Local Open Scope list_scope.

Definition maxErrMsgLength : nat := 990.
Definition checkDiskLunThrottleLatency : Z := 10 * Second.

(** [azuredisk/controllerserver.go truncateErrMsg] *)
Definition truncateErrMsg (errMsg : string) : string :=
  if (String.length errMsg <=? maxErrMsgLength)%nat then errMsg
  else
    let ellipsis := " ... " in
    let headLen := ((maxErrMsgLength - String.length ellipsis) / 5)%nat in
    let tailLen := (maxErrMsgLength - headLen - String.length ellipsis)%nat in
    str_take headLen errMsg +:+ ellipsis +:+ str_drop (String.length errMsg - tailLen) errMsg.

(** ** Requests *)
Record PublishRequest := MkPublishRequest {
  pub_VolumeId : string;
  pub_NodeId : string;
  pub_VolumeCapability : option VolumeCapability;
  pub_VolumeContext : gmap string string;
}.

Section publish.
  Context {W : Type} `{!Cloud W} `{!Kube W} `{MapOrder}.
  Context (d : DriverConfig) (others : point → CState W → CState W).
  Local Notation D := (M (DState W)).
  Local Notation svc := (svc others).

  (** [azuredisk/controllerserver.go getOccupiedLunsFromNode 1206-1221] *)
Definition occupied_luns (nodeName : string) : D (list Z) :=
  let! r := try (getUsedLunsFromVolumeAttachments d others nodeName) in
  match r with
  | inl _ | inr [] => ret []
  | inr usedLunsFromVA =>
      let! r := try (getUsedLunsFromNode others nodeName) in
      match r with
      | inl _ => ret []
      | inr usedLunsFromNode => ret (GetElementsInArray1NotInArray2 usedLunsFromVA usedLunsFromNode)
      end
  end.
  (** [azuredisk/controllerserver.go getOccupiedLunsFromNode] A check that took
      longer than the limit disables the check for a time: the timer has fired. *)
Definition getOccupiedLunsFromNode (nodeName : string) : D (list Z) :=
  if negb (checkDiskLUNCollision d) then ret []
  else
    let! throttled := isCheckDiskLunThrottled d others in
    if throttled then ret []
    else
      let! now := svc Now in
      let! luns := occupied_luns nodeName in
      let! later := svc Now in
      let! _ := if checkDiskLunThrottleLatency <? later - now
                then modify (λ s, set_lunThrottling
                       (cache_Set (now + checkDiskLunThrottleLatency) consts.CheckDiskLunThrottlingKey
                          (checkDiskLunThrottlingCache s)) s)
                else ret () in
      ret luns.

  (** [azuredisk/controllerserver.go hasVolumeAttachmentForDiskOnNode 1250-1273] *)
Fixpoint attachment_for_disk (nodeName diskURI : string) (vas : list VolumeAttachment) : D bool :=
  match vas with
  | [] => ret false
  | va :: vas' =>
      if negb (String.eqb (va_Attacher va) (d_Name d)) || negb (String.eqb (va_NodeName va) nodeName)
      then attachment_for_disk nodeName diskURI vas'
      else
        let! found := match va_PersistentVolumeName va with
                      | Some pvName => let! pv := svc (pv_Get pvName) in
                                       ret (pv_is_disk (d_Name d) diskURI pv)
                      | None => ret false
                      end in
        if found || inlineVolumeSpecMatchesDisk (d_Name d) diskURI va then ret true
        else attachment_for_disk nodeName diskURI vas'
  end.
  (** [azuredisk/controllerserver.go hasVolumeAttachmentForDiskOnNode] *)
Definition hasVolumeAttachmentForDiskOnNode (nodeName diskURI : string) : D bool :=
  if negb (cloud_KubeClient d)
  then fail (ENew "kubeClient or kubeClient.StorageV1() or kubeClient.StorageV1().VolumeAttachments() is nil")
  else
    let! vas := svc va_List in
    let! vas := lift (deref vas) in
    attachment_for_disk nodeName diskURI vas.

  (** *** Node-driven volumes *)
  (** [azuredisk/controllerserver.go ensureQADPVAnnotations 1055-1098] One attempt.
      The closure keeps the values it took from the volume for the next one. *)
Definition ensure_attempt (pvName blobURL claimIdentifier cachePolicy : string)
    : D (string * string * option gerr) :=
  let! r := try (svc (pv_Get pvName)) in
  match r with
  | inl e => ret (blobURL, claimIdentifier, Some e)
  | inr pv =>
      let annotation k := default "" (pv_Annotations pv !! k) in
      let blobURL := if String.eqb blobURL "" then annotation consts.BlobURLAnnotation else blobURL in
      let claimIdentifier := if String.eqb claimIdentifier ""
                             then annotation consts.ClaimIdentifierAnnotation else claimIdentifier in
      let sequence_ := pv_Annotations pv !! consts.AttachSequenceAnnotation in
      if String.eqb blobURL "" || String.eqb claimIdentifier "" then
        ret (blobURL, claimIdentifier,
          Some (ENew (match sequence_ with
            | Some _ => "PV " +:+ pvName +:+ " has attach-sequence annotation but incomplete QAD metadata"
            | None => "cannot initialize QAD annotations on PV " +:+ pvName
                      +:+ " without blob URL and claim identifier" end)))
      else
        let sequence := default "0" sequence_ in
        if String.eqb (annotation consts.AttachSequenceAnnotation) sequence
           && String.eqb (annotation consts.BlobURLAnnotation) blobURL
           && String.eqb (annotation consts.ClaimIdentifierAnnotation) claimIdentifier
           && String.eqb (annotation consts.QADCachePolicyAnnotation) cachePolicy
        then ret (blobURL, claimIdentifier, None)
        else
          let m := <[consts.QADCachePolicyAnnotation := cachePolicy]>
                     (<[consts.ClaimIdentifierAnnotation := claimIdentifier]>
                       (<[consts.BlobURLAnnotation := blobURL]>
                         (<[consts.AttachSequenceAnnotation := sequence]> (pv_Annotations pv)))) in
          let! r := try (svc (pv_Update (set_pv_Annotations m pv))) in
          ret (blobURL, claimIdentifier, match r with inl e => Some e | inr _ => None end)
  end.
Fixpoint ensure_steps (steps : nat) (pvName blobURL claimIdentifier cachePolicy : string) (last : gerr)
    : D unit :=
  match steps with
  | O => fail last
  | S steps' =>
      let! (blobURL, claimIdentifier, err) := ensure_attempt pvName blobURL claimIdentifier cachePolicy in
      match err with
      | None => ret ()
      | Some e => if IsConflict e then ensure_steps steps' pvName blobURL claimIdentifier cachePolicy e
                  else fail e
      end
  end.
  (** [azuredisk/controllerserver.go ensureQADPVAnnotations] *)
Definition ensureQADPVAnnotations (pvName blobURL claimIdentifier cachePolicy : string) : D unit :=
  if String.eqb pvName "" then fail (ENew "PV name must not be empty")
  else ensure_steps 5 pvName blobURL claimIdentifier cachePolicy (ESentinel WaitTimeout).

  (** [azuredisk/controllerserver.go ControllerPublishVolume 928-947] The caching
      policy of a node-driven volume, which depends on the size. *)
Definition qad_cache_policy (diskURI : string) (ctx : gmap string string) (pv : PersistentVolume)
    (disk : option Disk) : res string :=
  let? attributes := match pv_CSI pv with Some c => Ok (csi_VolumeAttributes c) | None => Panic end in
  let? cachePolicy := or_status (GetCachingMode attributes) codes.InvalidArgument
    (λ e, "failed to determine PV cache policy: " +:+ Error e) in
  let requested := default "" (ctx !! consts.RequestedSizeGib) in
  let? diskSizeGB :=
    match (disk ≫= disk_Properties) ≫= DiskSizeGB with
    | Some size => Ok (Some size)
    | None =>
        if String.eqb requested "" then Ok None
        else match ParseInt requested 32 with
             | Some size => if size <=? 0
                            then invalid ("invalid QAD requested disk size " +:+ quote requested)
                            else Ok (Some size)
             | None => invalid ("invalid QAD requested disk size " +:+ quote requested)
             end
    end in
  if negb (String.eqb cachePolicy armcompute.CachingTypesNone) && bool_decide (diskSizeGB = None)
  then Err (EStatus codes.Unavailable
         ("cannot determine disk size for QAD cache policy on volume " +:+ diskURI))
  else Ok (effectiveCachingModeForDisk cachePolicy diskSizeGB).
  (** [azuredisk/controllerserver.go ControllerPublishVolume 917-953] *)
Definition publish_node_driven (diskURI : string) (ctx : gmap string string) (disk : option Disk)
    : D unit :=
  let! _ := guard_else (nodeDrivenAttachDetachEnabled d) (EStatus codes.FailedPrecondition
    (consts.AttachModeField +:+ "=" +:+ consts.AttachModeNodeDriven
     +:+ " requires the Alpha NodeDrivenAttachDetach feature gate")) in
  let! pv := status_on (getPVFromDiskURI d others diskURI) codes.Internal
    (λ e, "failed to get PV from disk URI " +:+ diskURI +:+ ": " +:+ Error e) in
  let! cachePolicy := lift (qad_cache_policy diskURI ctx pv disk) in
  status_on (ensureQADPVAnnotations (pv_Name pv) (default "" (ctx !! consts.BlobURLAnnotation))
               (default "" (ctx !! consts.ClaimIdentifierAnnotation)) cachePolicy)
    codes.Internal (λ e, "failed to update PV " +:+ pv_Name pv +:+ " with QAD metadata: " +:+ Error e).

  (** *** Attaching *)
  (** [azuredisk/controllerserver.go ControllerPublishVolume 1005-1034] What
      follows a failed attach: a disk that is attached to another node without
      a volume attachment there is detached from it and attached again. *)
Definition retry_dangling (ctx : Ctx) (diskName diskURI nodeName cachingMode : string)
    (disk : option Disk) (ptr : positive) (occupiedLuns : list Z) (e : gerr) : D Z :=
  match e with
  | EDangling _ currentNode _ =>
      if EqualFold nodeName currentNode
      then fail (EStatus codes.Internal ("volume " +:+ diskURI +:+ " is actually attached to current node "
                                         +:+ nodeName +:+ ", return error"))
      else
        let! hasVA := status_on (hasVolumeAttachmentForDiskOnNode currentNode diskURI) codes.Internal
          (λ e, "failed to check VolumeAttachments for volume " +:+ diskURI +:+ " on node "
                +:+ currentNode +:+ ": " +:+ Error e) in
        if hasVA
        then fail (EStatus codes.FailedPrecondition ("volume " +:+ diskURI
               +:+ " still has VolumeAttachments on node " +:+ currentNode +:+ ", refusing dangling detach"))
        else
          let! _ := status_on (ctl (DetachDisk (d_common d) others ctx diskName diskURI currentNode))
            codes.Internal (λ e, "Could not detach volume " +:+ diskURI +:+ " from node "
                                 +:+ currentNode +:+ ": " +:+ Error e) in
          let! r := try (ctl (AttachDisk (d_common d) others ctx diskName diskURI
                                nodeName cachingMode disk ptr occupiedLuns)) in
          match r with
          | inr lun => ret lun
          | inl e => fail (EStatus codes.Internal (truncateErrMsg ("Attach volume " +:+ diskName
                       +:+ " to instance " +:+ nodeName +:+ " failed with " +:+ Error e)))
          end
  | _ => fail (EStatus codes.Internal (truncateErrMsg ("Attach volume " +:+ diskName
                 +:+ " to instance " +:+ nodeName +:+ " failed with " +:+ Error e)))
  end.
  (** [azuredisk/controllerserver.go ControllerPublishVolume 977-1037] The disk is
      not on the node. *)
Definition publish_attach (ctx : Ctx) (diskName diskURI nodeName : string)
    (vctx : gmap string string) (disk : option Disk) (ptr : positive) : D Z :=
  let! cachingMode := lift (or_status (GetCachingMode vctx) codes.Internal Error) in
  let cachingMode :=
    if convertRWCachingModeForIntreePV d && String.eqb cachingMode armcompute.CachingTypesReadWrite
       && EqualFold (default "" (vctx !! consts.KindField)) "Managed"
    then armcompute.CachingTypesReadOnly else cachingMode in
  let! occupiedLuns := getOccupiedLunsFromNode nodeName in
  let delay := GetAttachDiskInitialDelay vctx in
  let! _ := if 0 <? delay then modify (λ s, set_ctrl (set_InitialDelay delay (ctrl s)) s) else ret () in
  let! r := try (ctl (AttachDisk (d_common d) others ctx diskName diskURI
                        nodeName cachingMode disk ptr occupiedLuns)) in
  match r with
  | inr lun => ret lun
  | inl e => retry_dangling ctx diskName diskURI nodeName cachingMode disk ptr occupiedLuns e
  end.
  (** [azuredisk/controllerserver.go ControllerPublishVolume 956-1037] The LUN of
      the disk on the node. *)
Definition publish_controller_driven (ctx : Ctx) (diskName diskURI nodeName : string)
    (vctx : gmap string string) (disk : option Disk) (ptr : positive) : D Z :=
  let! (lun, vmState, err) := ctl (GetDiskLun others diskName diskURI nodeName) in
  match err with
  | None =>
      let! _ := match vmState with
                | Some st =>
                    if String.eqb (ToLower st) "failed"
                    then status_on (ctl (UpdateVM others nodeName)) codes.Internal
                           (λ e, "update instance " +:+ quote nodeName +:+ " failed with " +:+ Error e)
                    else ret ()
                | None => ret ()
                end in
      ret lun
  | Some e =>
      if bool_decide (e = ESentinel InstanceNotFound)
      then fail (EStatus codes.NotFound ("failed to get azure instance id for node " +:+ quote nodeName
                                         +:+ " (" +:+ Error e +:+ ")"))
      else if negb (Contains (Error e) CannotFindDiskLUN)
      then fail (EStatus codes.Internal ("could not get disk lun for volume " +:+ diskURI +:+ ": " +:+ Error e))
      else publish_attach ctx diskName diskURI nodeName vctx disk ptr
  end.

  (** [azuredisk/controllerserver.go ControllerPublishVolume 846-864] The checks
      before anything is read. *)
Definition check_publish (req : PublishRequest) : res unit :=
  if String.eqb (pub_VolumeId req) "" then invalid "Volume ID not provided"
  else match pub_VolumeCapability req with
       | None => invalid "Volume capability not provided"
       | Some volCap =>
           let? maxShares := or_status (GetMaxShares (pub_VolumeContext req)) codes.InvalidArgument
             (λ _, "MaxShares value not supported") in
           or_status (IsValidVolumeCapabilities [volCap] maxShares) codes.InvalidArgument Error
       end.
  (** [azuredisk/controllerserver.go ControllerPublishVolume] The publish context:
      [ptr] is the address of the disk that was read. *)
Definition ControllerPublishVolume (ctx : Ctx) (ptr : positive) (req : PublishRequest)
    : D (gmap string string) :=
  let diskURI := pub_VolumeId req in
  let vctx := pub_VolumeContext req in
  let! _ := lift (check_publish req) in
  let! r := try (checkDiskExists d others diskURI) in
  let! disk := match r with
               | inr disk => ret disk
               | inl e => if Contains (Error e) "context deadline" then ret None
                          else fail (EStatus codes.NotFound ("Volume not found, failed with error: " +:+ Error e))
               end in
  let nodeName := pub_NodeId req in
  let! _ := guard_else (negb (String.eqb nodeName "")) (EStatus codes.InvalidArgument "Node ID not provided") in
  let! (_, _, diskName) := lift (or_status (GetInfoFromURI diskURI) codes.Internal Error) in
  let! attachMode := lift (or_status (getAttachMode vctx) codes.InvalidArgument
    (λ e, "failed to determine attachment mode: " +:+ Error e)) in
  if String.eqb attachMode consts.AttachModeNodeDriven then
    let! _ := publish_node_driven diskURI vctx disk in ret ∅
  else
    let! lun := publish_controller_driven ctx diskName diskURI nodeName vctx disk ptr in
    let publishContext : gmap string string := {[ consts.LUN := Itoa lun ]} in
    match disk, vctx !! consts.RequestedSizeGib with
    | Some _, None => let! m := lift (InsertDiskProperties disk (Some publishContext)) in
                      ret (default ∅ m)
    | _, _ => ret publishContext
    end.

  (** [azuredisk/controllerserver.go ControllerUnpublishVolume] *)
Definition ControllerUnpublishVolume (ctx : Ctx) (diskURI nodeID : string) : D unit :=
  let! _ := guard_else (negb (String.eqb diskURI "")) (EStatus codes.InvalidArgument "Volume ID not provided") in
  let! _ := guard_else (negb (String.eqb nodeID "")) (EStatus codes.InvalidArgument "Node ID not provided") in
  let! skip := if nodeDrivenAttachDetachEnabled d then
                 let! r := try (getPVFromDiskURI d others diskURI) in
                 match r with
                 | inl e => if errors_Is e errPVNotFound then ret false
                            else fail (EStatus codes.Internal ("failed to get PV from disk URI "
                                         +:+ diskURI +:+ ": " +:+ Error e))
                 | inr pv => ret (hasQADInfo (Some pv))
                 end
               else ret false in
  if skip then ret ()
  else
    let! (_, _, diskName) := lift (or_status (GetInfoFromURI diskURI) codes.Internal Error) in
    let! r := try (ctl (DetachDisk (d_common d) others ctx diskName diskURI nodeID)) in
    match r with
    | inr _ => ret ()
    | inl e =>
        if Contains (Error e) consts.ErrDiskNotFound then ret ()
        else fail (EStatus codes.Internal (truncateErrMsg ("Could not detach volume " +:+ diskURI
               +:+ " from node " +:+ nodeID +:+ ": " +:+ Error e)))
    end.

  (** [azuredisk/controllerserver.go ValidateVolumeCapabilities] [None] stands for
      missing capabilities; the answer is the message or the confirmation. *)
Definition ValidateVolumeCapabilities (diskURI : string) (caps : option (list VolumeCapability))
    (params : gmap string string) : D (string + list VolumeCapability) :=
  let! _ := guard_else (negb (String.eqb diskURI ""))
              (EStatus codes.InvalidArgument "Volume ID missing in the request") in
  match caps with
  | None => fail (EStatus codes.InvalidArgument "VolumeCapabilities missing in the request")
  | Some caps =>
      let! maxShares := lift (or_status (GetMaxShares params) codes.InvalidArgument
                                (λ _, "MaxShares value not supported")) in
      match IsValidVolumeCapabilities caps maxShares with
      | Err e => ret (inl (Error e))
      | Panic => panic
      | Ok _ =>
          let! _ := status_on (checkDiskExists d others diskURI) codes.NotFound
            (λ e, "Volume not found, failed with error: " +:+ Error e) in
          ret (inr caps)
      end
  end.
End publish.

(** ** Properties *)
Lemma str_take_length n s : (n ≤ String.length s)%nat → String.length (str_take n s) = n.
Proof. revert s. induction n as [|n IH]; intros [|c s] Hn; simpl in *; try done; try lia. f_equal. apply IH. lia. Qed.
Lemma str_drop_length n s : String.length (str_drop n s) = (String.length s - n)%nat.
Proof. revert s. induction n as [|n IH]; intros [|c s]; simpl; try done. Qed.

(** A long error message is cut to exactly the limit of 990 bytes, which fits a
    Kubernetes event, and keeps its first 197 and its last 788 bytes; a message
    within the limit is not touched. *)
Theorem truncateErrMsg_spec m :
  let t := truncateErrMsg m in
  (String.length t ≤ maxErrMsgLength)%nat ∧
  ((String.length m ≤ maxErrMsgLength)%nat → t = m) ∧
  ((maxErrMsgLength < String.length m)%nat →
     String.length t = maxErrMsgLength ∧
     t = str_take 197 m +:+ " ... " +:+ str_drop (String.length m - 788) m).
Proof.
  cbv zeta. unfold truncateErrMsg, maxErrMsgLength.
  destruct (Nat.leb_spec (String.length m) 990) as [Hle|Hgt]; [split_and!; [done|done|lia]|].
  cbv zeta. change (990 - String.length " ... ")%nat with 985%nat. change (985 / 5)%nat with 197%nat.
  change (990 - 197 - String.length " ... ")%nat with 788%nat.
  assert (E : String.length (str_take 197 m +:+ " ... " +:+ str_drop (String.length m - 788) m) = 990%nat).
  { rewrite !length_str_app, str_take_length, str_drop_length by lia.
    change (String.length " ... ") with 5%nat. lia. }
  rewrite E. split_and!; [done|lia|done].
Qed.

(** ** The requests are made of steps *)
Section frame.
  Context {W : Type} `{!Cloud W} `{!Kube W} `{MapOrder}.
  Context (d : DriverConfig) (others : point → CState W → CState W).
  Context (calls : ∀ A, M W A → Prop).
  Context (P : DState W → Prop) (HP : frame calls others P).
  Context (Hkube : ∀ A m, kube_call A m → calls A m).
  Local Hint Resolve Hkube : moves_db.

Lemma frame_attachment_for_disk n u vas : keeps P (attachment_for_disk d others n u vas).
Proof. induction vas as [|va vas IH]; cbn [attachment_for_disk]; frame_auto HP. Qed.
  Local Hint Resolve frame_attachment_for_disk : frame_db.
Lemma frame_hasVolumeAttachment n u : keeps P (hasVolumeAttachmentForDiskOnNode d others n u).
Proof. unfold hasVolumeAttachmentForDiskOnNode. frame_auto HP. Qed.
  Local Hint Resolve frame_hasVolumeAttachment : frame_db.
Lemma frame_ensure_attempt pv b c p : keeps P (ensure_attempt others pv b c p).
Proof. unfold ensure_attempt. frame_auto HP. Qed.
  Local Hint Resolve frame_ensure_attempt : frame_db.
Lemma frame_ensure_steps n pv b c p e : keeps P (ensure_steps others n pv b c p e).
Proof. revert b c e. induction n as [|n IH]; intros; cbn [ensure_steps]; frame_auto HP. Qed.
  Local Hint Resolve frame_ensure_steps : frame_db.
Lemma frame_ensureQADPVAnnotations pv b c p : keeps P (ensureQADPVAnnotations others pv b c p).
Proof. unfold ensureQADPVAnnotations. frame_auto HP. Qed.

  Context (Hcloud : ∀ A m, cloud_call A m → calls A m).
  Local Hint Resolve Hcloud : moves_db.
Lemma attach_moves A (m : M W A) : attach_call true A m → calls A m.
Proof. intros. by apply Hcloud, call_attach. Qed.
  Local Hint Resolve attach_moves : moves_db.

Lemma frame_occupied_luns n : keeps P (occupied_luns d others n).
Proof. unfold occupied_luns. frame_auto HP. Qed.
  Local Hint Resolve frame_occupied_luns : frame_db.
Lemma frame_getOccupiedLuns n : keeps P (getOccupiedLunsFromNode d others n).
Proof. unfold getOccupiedLunsFromNode. frame_auto HP. Qed.
Lemma frame_retry_dangling c dn du n cm disk ptr occ e :
  keeps P (retry_dangling d others c dn du n cm disk ptr occ e).
Proof. unfold retry_dangling. frame_auto HP. Qed.
  Local Hint Resolve frame_getOccupiedLuns frame_retry_dangling : frame_db.
End frame.

Section proofs.
  Context {W : Type} `{!Cloud W} `{!Kube W} `{MapOrder}.
  Context (d : DriverConfig) (others : point → CState W → CState W).
  Implicit Types s : DState W.
  Local Notation later := (later publish_call others).

Lemma cloud_publish A (m : M W A) : cloud_call A m → publish_call A m.
Proof. by left. Qed.
Lemma kube_publish A (m : M W A) : kube_call A m → publish_call A m.
Proof. by right. Qed.
Lemma attach_publish A (m : M W A) : attach_call true A m → publish_call A m.
Proof. intros. by left; apply call_attach. Qed.
  Local Hint Resolve cloud_publish kube_publish attach_publish : moves_db.
  Local Hint Resolve frame_attachment_for_disk frame_hasVolumeAttachment frame_ensure_attempt frame_ensure_steps
    frame_occupied_luns frame_getOccupiedLuns frame_retry_dangling : frame_db.
Ltac dmoves := apply dmoves_of; intros P HP; frame_auto HP.

Lemma attachment_for_disk_false nodeName diskURI vas s s' :
  attachment_for_disk d others nodeName diskURI vas s = (Ok false, s') →
  ∀ va, va ∈ vas → va_Attacher va = d_Name d → va_NodeName va = nodeName →
    inlineVolumeSpecMatchesDisk (d_Name d) diskURI va = false ∧
    ∀ pvName, va_PersistentVolumeName va = Some pvName →
      ∃ pv, runs kube_call others (ext others (pv_Get pvName)) (Ok pv) (ctrl s) (ctrl s') ∧
            pv_is_disk (d_Name d) diskURI pv = false.
Proof.
  assert (Hm : ∀ vas, dmoves kube_call others (attachment_for_disk d others nodeName diskURI vas)) by (intros; dmoves).
  revert s. induction vas as [|va vas IH]; intros s Hf va' Hin Ha Hn; [by apply not_elem_of_nil in Hin|].
  cbn in Hf. apply elem_of_cons in Hin as [->|Hin].
  - rewrite Ha, Hn, !String.eqb_refl in Hf. cbn in Hf.
    apply bind_ok in Hf as (found & s1 & Hpv & Hf).
    destruct (found || _) eqn:Eo; [done|]. apply orb_false_iff in Eo as [-> Ei]. split; [done|].
    intros pvName Hp. rewrite Hp in Hpv. apply bind_ok in Hpv as (pv & s2 & Hg & Hpv).
    injection Hpv as Hpv <-. exists pv. split; [|done].
    eapply runs_mono; [reflexivity|by eapply dmoves_later|by apply ctl_runs].
  - destruct (negb _ || _); [by eapply IH|].
    apply (dbind_later kube_call others) in Hf as (found & s1 & L1 & _ & Hf); [|dmoves].
    destruct (found || _); [done|]. destruct (IH _ Hf _ Hin Ha Hn) as [Hi Hpv]. split; [done|].
    intros pvName Hp. destruct (Hpv _ Hp) as (pv & Hr & ?). exists pv. split; [|done].
    by eapply runs_mono; [exact L1|reflexivity|].
Qed.

(** C15. A disk that hangs on another node is taken from it only when no volume
    attachment of this driver on that node is for the disk, neither through a
    volume nor inline, in the list the API server gives: otherwise, and
    whatever fails before, nothing but the API server is called. *)
Theorem dangling_detach_safe ctx diskName diskURI nodeName caching disk ptr occ msg current path s r s' :
  retry_dangling d others ctx diskName diskURI nodeName caching disk ptr occ
    (EDangling msg current path) s = (r, s') →
  Moments.later kube_call others (ctrl s) (ctrl s') ∨
  EqualFold nodeName current = false ∧
  ∃ vas s1 s2, svc others va_List s = (Ok (Some vas), s1) ∧
    Moments.later kube_call others (ctrl s1) (ctrl s2) ∧ later (ctrl s2) (ctrl s') ∧
    ∀ va, va ∈ vas → va_Attacher va = d_Name d → va_NodeName va = current →
      inlineVolumeSpecMatchesDisk (d_Name d) diskURI va = false ∧
      ∀ pvName, va_PersistentVolumeName va = Some pvName →
        ∃ pv, runs kube_call others (ext others (pv_Get pvName)) (Ok pv) (ctrl s1) (ctrl s2) ∧
              pv_is_disk (d_Name d) diskURI pv = false.
Proof.
  unfold retry_dangling. destruct (EqualFold nodeName current); [intros [= _ <-]; by left|].
  assert (Hm : dmoves kube_call others (hasVolumeAttachmentForDiskOnNode d others current diskURI)) by dmoves.
  unfold bind at 1.
  destruct (status_on _ _ _ s) as [hasVA s2] eqn:Es.
  assert (L2 : Moments.later kube_call others (ctrl s) (ctrl s2)).
  { eapply dmoves_later; [|exact Es]. apply dmoves_of. intros P HP. apply frame_status_on.
    by apply frame_hasVolumeAttachment with (calls := kube_call) (others := others). }
  destruct hasVA as [[]|e|]; [intros [= _ <-]; by left| |intros [= _ <-]; by left..].
  intros Hr. right. split; [done|]. apply status_on_ok in Es. unfold hasVolumeAttachmentForDiskOnNode in Es.
  destruct (cloud_KubeClient d); [|done]. cbn [negb] in Es.
  apply bind_ok in Es as ([vas|] & s1 & Hl & Es); [|by apply bind_ok in Es as (? & ? & ? & _)].
  cbn [deref] in Es. rewrite bind_lift in Es. exists vas, s1, s2. split_and!; [done|..].
  - eapply dmoves_later; [|exact Es]. dmoves.
  - eapply dmoves_later; [|exact Hr]. dmoves.
  - by eapply attachment_for_disk_false.
Qed.

  (** The disk was seen on the node while the request ran. *)
  Local Notation published dn du n lun s s' :=
    (seen_attached publish_call others dn du n lun (ctrl s) (ctrl s')).

Lemma attach_ok ctx dn du n cm disk ptr occ s lun s' :
  DisableDiskLunCheck (d_common d) = false →
  ctl (AttachDisk (d_common d) others ctx dn du n cm disk ptr occ) s = (Ok lun, s') →
  published dn du n lun s s'.
Proof. intros ? Ha%ctl_ok. by eapply (AttachDisk_seen publish_call true attach_publish). Qed.

Lemma retry_dangling_ok ctx dn du n cm disk ptr occ e s lun s' :
  DisableDiskLunCheck (d_common d) = false →
  retry_dangling d others ctx dn du n cm disk ptr occ e s = (Ok lun, s') →
  published dn du n lun s s'.
Proof.
  intros Hck. unfold retry_dangling. destruct e; try done. destruct (EqualFold _ _); [done|].
  intros ([] & s1 & L1 & _ & Hr)%(dbind_later publish_call others); [done| |dmoves].
  apply (dbind_later publish_call others) in Hr as (? & s2 & L2 & _ & Hr); [|dmoves].
  apply bind_ok in Hr as ([e|l] & s3 & Ht & Hr); [done|]. injection Hr as <- <-.
  apply try_ok, attach_ok in Ht; [|done]. eapply seen_attached_mono; [|reflexivity|done]. by trans (ctrl s1).
Qed.

Lemma InsertDiskProperties_LUN disk m m' l :
  InsertDiskProperties disk (Some m) = Ok m' → m !! consts.LUN = Some l →
  default ∅ m' !! consts.LUN = Some l.
Proof.
  unfold InsertDiskProperties. destruct disk as [disk|]; [|by intros [= <-]].
  intros (m1 & H1 & [= <-])%res_bind_ok Hl.
  assert (Hl1 : m1 !! consts.LUN = Some l).
  { destruct (disk_SKU disk) as [n|]; [|by injection H1 as <-].
    apply res_bind_ok in H1 as (? & _ & [= <-]). by rewrite lookup_insert_ne. }
  cbn [default]. destruct (disk_Properties disk) as [p|]; [|done].
  unfold insert_opt, from_option, id.
  repeat (case_match; try (rewrite lookup_insert_ne by done)); done.
Qed.

Lemma publish_controller_driven_ok ctx dn du n vctx disk ptr s lun s' :
  DisableDiskLunCheck (d_common d) = false →
  publish_controller_driven d others ctx dn du n vctx disk ptr s = (Ok lun, s') →
  published dn du n lun s s'.
Proof.
  intros Hck. unfold publish_controller_driven.
  intros ([[l st] [e|]] & s1 & L1 & Hg & Hp)%(dbind_later publish_call others); [| |dmoves].
  - case_bool_decide; [done|]. destruct (negb _); [done|]. unfold publish_attach in Hp.
    apply bind_ok in Hp as (cm & s2 & [= _ <-] & Hp). cbv zeta in Hp.
    apply (dbind_later publish_call others) in Hp as (occ & s3 & L3 & _ & Hp); [|dmoves].
    apply (dbind_later publish_call others) in Hp as (? & s4 & L4 & _ & Hp).
    2:{ apply dmoves_of. intros P HP. destruct (0 <? _); [|apply keeps_ret]. apply keeps_modify.
        intros s0 Hs0. destruct (HP s0 Hs0) as [Hc _]. apply Hc, later_own. reflexivity. }
    assert (L : later (ctrl s) (ctrl s4)) by (trans (ctrl s1); [done|]; by trans (ctrl s3)).
    apply (dbind_later publish_call others) in Hp as ([e'|l'] & s5 & L5 & Ht & Hp); [| |dmoves].
    + apply retry_dangling_ok in Hp; [|done]. eapply seen_attached_mono; [|reflexivity|done]. by trans (ctrl s4).
    + injection Hp as <- <-. apply try_ok, attach_ok in Ht; [|done].
      by eapply seen_attached_mono; [exact L|reflexivity|].
  - apply (dbind_later publish_call others) in Hp as (? & s2 & L2 & _ & Hp); [|dmoves]. injection Hp as <- <-.
    exists st. eapply runs_mono; [reflexivity|exact L2|]. by apply ctl_runs.
Qed.

Lemma publish_split ctx ptr req s pc s' :
  ControllerPublishVolume d others ctx ptr req s = (Ok pc, s') →
  check_publish req = Ok () ∧ pub_NodeId req ≠ "" ∧
  ∃ sub rg dn mode disk s1, GetInfoFromURI (pub_VolumeId req) = Ok (sub, rg, dn) ∧
    getAttachMode (pub_VolumeContext req) = Ok mode ∧
    later (ctrl s) (ctrl s1) ∧
    ((mode = consts.AttachModeNodeDriven ∧ pc = ∅ ∧
      publish_node_driven d others (pub_VolumeId req) (pub_VolumeContext req) disk s1 = (Ok (), s')) ∨
     (mode ≠ consts.AttachModeNodeDriven ∧ ∃ lun, pc !! consts.LUN = Some (Itoa lun) ∧
      publish_controller_driven d others ctx dn (pub_VolumeId req) (pub_NodeId req)
        (pub_VolumeContext req) disk ptr s1 = (Ok lun, s'))).
Proof.
  unfold ControllerPublishVolume. cbv zeta. intros ([] & s1 & Hc & Hp)%bind_ok.
  injection Hc as Hc <-. apply (dbind_later publish_call others) in Hp as (r & s2 & L2 & _ & Hp); [|dmoves].
  apply (dbind_later publish_call others) in Hp as (disk & s3 & L3 & _ & Hp); [|dmoves].
  apply (dbind_later publish_call others) in Hp as (? & s4 & L4 & Hn & Hp); [|dmoves].
  apply bind_ok in Hp as ([[sub rg] dn] & s5 & Hu & Hp). injection Hu as Hu <-. apply or_status_ok in Hu.
  apply bind_ok in Hp as (mode & s6 & Hm & Hp). injection Hm as Hm <-. apply or_status_ok in Hm.
  assert (L : later (ctrl s) (ctrl s4)) by (trans (ctrl s2); [done|]; by trans (ctrl s3)).
  split; [done|]. split.
  { intros Hz. rewrite Hz in Hn. discriminate Hn. }
  destruct (String.eqb_spec mode consts.AttachModeNodeDriven) as [->|Hne].
  - apply bind_ok in Hp as ([] & s7 & Hd & Hp). injection Hp as <- <-.
    eexists sub, rg, dn, _, disk, s4. split_and!; [done..|]. by left.
  - apply bind_ok in Hp as (lun & s7 & Hd & Hp). eexists sub, rg, dn, _, disk, s4.
    split_and!; [done..|]. right. split; [done|]. exists lun.
    assert (Hl : ({[consts.LUN := Itoa lun]} : gmap string string) !! consts.LUN = Some (Itoa lun))
      by apply lookup_singleton_eq.
    destruct disk as [dk|]; [destruct (pub_VolumeContext req !! consts.RequestedSizeGib)|];
      try by (injection Hp as <- <-).
    apply bind_ok in Hp as (m & s8 & [Hi ->]%lift_ok & Hp). injection Hp as <- <-.
    split; [|done]. exact (InsertDiskProperties_LUN _ _ _ _ Hi Hl).
Qed.

(** C3. When a volume that the controller attaches is published, the LUN in the
    publish context is one at which the disk was read on that node while the
    request ran; the request named a volume, a node and a capability the driver
    accepts. *)
Theorem ControllerPublishVolume_verified ctx ptr req s pc s' :
  DisableDiskLunCheck (d_common d) = false →
  getAttachMode (pub_VolumeContext req) = Ok consts.AttachModeControllerDriven →
  ControllerPublishVolume d others ctx ptr req s = (Ok pc, s') →
  check_publish req = Ok () ∧ pub_NodeId req ≠ "" ∧
  ∃ lun sub rg diskName, pc !! consts.LUN = Some (Itoa lun) ∧
    GetInfoFromURI (pub_VolumeId req) = Ok (sub, rg, diskName) ∧
    seen_attached publish_call others diskName (pub_VolumeId req) (pub_NodeId req) lun (ctrl s) (ctrl s').
Proof.
  intros Hck Hmode (H1 & H2 & sub & rg & dn & mode & disk & s1 & Hu & Hm & L & Hcase)%publish_split.
  split; [done|]. split; [done|]. rewrite Hmode in Hm. injection Hm as <-.
  destruct Hcase as [[? _]|(_ & lun & Hl & Hp)]; [done|]. exists lun, sub, rg, dn. split_and!; [done..|].
  apply publish_controller_driven_ok in Hp; [|done]. by eapply seen_attached_mono; [exact L|reflexivity|].
Qed.

(** *** Node-driven volumes *)
(** Between [s] and [s'] the volume was read and had the annotation. *)
Definition annotation_read (pvName k v : string) (s s' : DState W) : Prop :=
  ∃ pv, druns kube_call others (svc others (pv_Get pvName)) (Ok pv) s s' ∧ pv_Annotations pv !! k = Some v.
(** [y] is the value [x] that was given or, when none was, the annotation. *)
Definition given_or_read (pvName k x y : string) (s s' : DState W) : Prop :=
  (x ≠ "" → y = x) ∧ (x = "" → y ≠ "" → annotation_read pvName k y s s').

Lemma annotation_read_mono pvName k v s0 s s' s1 :
  Moments.later kube_call others (ctrl s0) (ctrl s) → Moments.later kube_call others (ctrl s') (ctrl s1) →
  annotation_read pvName k v s s' → annotation_read pvName k v s0 s1.
Proof. intros ?? (pv & ? & ?). exists pv. split; [|done]. by eapply druns_mono. Qed.
Lemma given_or_read_trans pvName k x y z s s1 s2 :
  Moments.later kube_call others (ctrl s) (ctrl s1) → Moments.later kube_call others (ctrl s1) (ctrl s2) →
  given_or_read pvName k x y s s1 → given_or_read pvName k y z s1 s2 → given_or_read pvName k x z s s2.
Proof.
  intros L1 L2 [Hx Hr] [Hy Hr']. destruct (String.eqb_spec y "") as [->|Hne].
  - split; [intros Hn; exfalso; apply Hn; symmetry; by apply Hx|]. intros _ Hz.
    eapply annotation_read_mono; [exact L1|reflexivity|auto].
  - rewrite (Hy Hne). split; [done|]. intros Hx0 _. eapply annotation_read_mono; [reflexivity|exact L2|auto].
Qed.
Lemma default_ne (m : gmap string string) k v : v ≠ "" → default "" (m !! k) = v → m !! k = Some v.
Proof. destruct (m !! k); simpl; intros ? <-; congruence. Qed.
Lemma given_or_read_default pvName k x pv s s1 s' :
  svc others (pv_Get pvName) s = (Ok pv, s1) → Moments.later kube_call others (ctrl s1) (ctrl s') →
  given_or_read pvName k x (if String.eqb x "" then default "" (pv_Annotations pv !! k) else x) s s'.
Proof.
  intros Hg L. destruct (String.eqb_spec x "") as [->|Hx]; split; try done. intros _ Hne.
  exists pv. split; [|by apply default_ne]. eapply druns_mono; [reflexivity|exact L|by apply druns_here].
Qed.

Lemma ensure_attempt_read pv blob claim policy s b c o s' :
  ensure_attempt others pv blob claim policy s = (Ok (b, c, o), s') →
  given_or_read pv consts.BlobURLAnnotation blob b s s' ∧
  given_or_read pv consts.ClaimIdentifierAnnotation claim c s s'.
Proof.
  unfold ensure_attempt. intros ([e|p] & s1 & Hg & Ha)%bind_ok; [by injection Ha as <- <- _ _|]. cbv zeta in Ha.
  apply try_ok in Hg.
  assert (L : Moments.later kube_call others (ctrl s1) (ctrl s') ∧
    b = (if String.eqb blob "" then default "" (pv_Annotations p !! consts.BlobURLAnnotation) else blob) ∧
    c = (if String.eqb claim "" then default "" (pv_Annotations p !! consts.ClaimIdentifierAnnotation) else claim)).
  { destruct (_ || _) in Ha; [by injection Ha as <- <- _ <-|]. destruct (_ && _) in Ha; [by injection Ha as <- <- _ <-|].
    apply (dbind_later kube_call others) in Ha as (? & s2 & L2 & _ & Ha); [|dmoves]. by injection Ha as <- <- _ <-. }
  destruct L as (L & -> & ->). split; by eapply given_or_read_default.
Qed.

Lemma ensure_steps_ok n pv blob claim policy last s s' :
  ensure_steps others n pv blob claim policy last s = (Ok (), s') →
  ∃ blob' claim' s1, given_or_read pv consts.BlobURLAnnotation blob blob' s s1 ∧
    given_or_read pv consts.ClaimIdentifierAnnotation claim claim' s s1 ∧
    Moments.later kube_call others (ctrl s) (ctrl s1) ∧
    ∃ b c, ensure_attempt others pv blob' claim' policy s1 = (Ok (b, c, None), s').
Proof.
  revert blob claim last s. induction n as [|n IH]; intros blob claim last s Hs; [done|]. cbn in Hs.
  apply (dbind_later kube_call others) in Hs as ([[b c] [e|]] & s1 & L1 & Ha & Hs); [| |dmoves].
  - destruct (IsConflict e); [|done]. apply ensure_attempt_read in Ha as [Kb Kc].
    destruct (IH _ _ _ _ Hs) as (b' & c' & s2 & Hb & Hc & L2 & H2). exists b', c', s2.
    split_and!; [by eapply given_or_read_trans..|by trans (ctrl s1)|done].
  - injection Hs as <-. exists blob, claim, s. by repeat split; eauto.
Qed.

(** The annotations of a node-driven volume. *)
Definition qad_annotations : list string :=
  [consts.BlobURLAnnotation; consts.ClaimIdentifierAnnotation; consts.QADCachePolicyAnnotation;
   consts.AttachSequenceAnnotation].

(** C34. When a node-driven volume is annotated, the volume in the API server was read with
    or was given the blob URL and the claim identifier, neither of them empty (those of the
    request; where the request gives none, one that the volume was read with while the
    request ran), the caching policy, and an attach sequence that is "0" only on the
    first adoption: an existing sequence is kept.  Its other annotations are those it
    was read with. *)
Theorem ensureQADPVAnnotations_ok pvName blob claim policy s s' :
  policy ≠ "" →
  ensureQADPVAnnotations others pvName blob claim policy s = (Ok (), s') →
  ∃ pv m b c s1 s2, Moments.later kube_call others (ctrl s) (ctrl s1) ∧
    svc others (pv_Get pvName) s1 = (Ok pv, s2) ∧
    m !! consts.BlobURLAnnotation = Some b ∧ b ≠ "" ∧
    given_or_read pvName consts.BlobURLAnnotation blob b s s' ∧
    m !! consts.ClaimIdentifierAnnotation = Some c ∧ c ≠ "" ∧
    given_or_read pvName consts.ClaimIdentifierAnnotation claim c s s' ∧
    m !! consts.QADCachePolicyAnnotation = Some policy ∧
    m !! consts.AttachSequenceAnnotation =
      Some (default "0" (pv_Annotations pv !! consts.AttachSequenceAnnotation)) ∧
    (∀ k, k ∉ qad_annotations → m !! k = pv_Annotations pv !! k) ∧
    (m = pv_Annotations pv ∧ s' = s2 ∨
     svc others (pv_Update (set_pv_Annotations m pv)) s2 = (Ok (), s')).
Proof.
  intros Hpol. unfold ensureQADPVAnnotations. destruct (String.eqb pvName ""); [done|].
  intros (blob' & claim' & s1 & Hb & Hc & L & b0 & c0 & Ha)%ensure_steps_ok.
  pose proof (ensure_attempt_read _ _ _ _ _ _ _ _ _ Ha) as [Hb' Hc'].
  assert (L' : Moments.later kube_call others (ctrl s1) (ctrl s')) by (eapply dmoves_later; [|exact Ha]; dmoves).
  pose proof (given_or_read_trans _ _ _ _ _ _ _ _ L L' Hb Hb') as Gb.
  pose proof (given_or_read_trans _ _ _ _ _ _ _ _ L L' Hc Hc') as Gc. clear Hb Hc Hb' Hc' L'.
  unfold ensure_attempt in Ha. apply bind_ok in Ha as ([e|pv] & s2 & Hg & Ha); [done|].
  apply try_ok in Hg. cbv zeta in Ha.
  set (b := if String.eqb blob' "" then _ else _) in Ha.
  set (c := if String.eqb claim' "" then _ else _) in Ha.
  destruct (String.eqb_spec b "") as [|Hbn]; [done|]. destruct (String.eqb_spec c "") as [|Hcn]; [done|].
  cbn [orb] in Ha. clearbody b c. destruct (_ && _) eqn:Ecmp.
  - bool_split. injection Ha as <- <- <-. exists pv, (pv_Annotations pv), b, c, s1, s2.
    split_and!; try done; try (apply default_ne; [done..|]; done).
    + destruct (pv_Annotations pv !! consts.AttachSequenceAnnotation); done.
    + by left.
  - apply bind_ok in Ha as ([e|[]] & s3 & Hu & Ha); [done|]. injection Ha as <- <- <-.
    apply try_ok in Hu.
    match type of Hu with context [set_pv_Annotations ?m pv] => exists pv, m, b, c, s1, s2 end.
    split_and!; try done; [..|by right].
    all: rewrite ?lookup_insert_eq; try done.
    all: try (repeat (rewrite lookup_insert_ne by done); by rewrite ?lookup_insert_eq).
    intros k Hk. unfold qad_annotations in Hk. rewrite !not_elem_of_cons in Hk. destruct Hk as (?&?&?&?&_).
    by rewrite !lookup_insert_ne by done.
Qed.

(** C19. When a detach is reported as done, one of these holds.  The data disks of the VM were read while
    the request ran and the disk was none of them; a disk that is still listed as to be
    detached does not count.  Or the VM was found not to exist any more, and then ARM
    said that the disk belongs to no VM or to another node (unless that wait is disabled).
    Or the volume is node-driven; or the detach ended with an error that says
    "not found".  The text by which the driver recognises that a disk was
    not found is used by no error of the cloud and is in no name. *)
Theorem ControllerUnpublishVolume_ok ctx diskURI nodeID s s' :
  lun_text_reserved (W:=W) diskURI nodeID →
  DisableDiskLunCheck (d_common d) = false →
  ControllerUnpublishVolume d others ctx diskURI nodeID s = (Ok (), s') →
  diskURI ≠ "" ∧ nodeID ≠ "" ∧
  ((nodeDrivenAttachDetachEnabled d = true ∧
    ∃ pv, getPVFromDiskURI d others diskURI s = (Ok pv, s') ∧ hasQADInfo (Some pv) = true) ∨
   (∃ sub rg diskName, GetInfoFromURI diskURI = Ok (sub, rg, diskName) ∧
     (seen_detached publish_call others diskName diskURI nodeID (ctrl s) (ctrl s') ∨
      seen_released publish_call (d_common d) others diskURI nodeID (ctrl s) (ctrl s') ∨
      ∃ e, runs publish_call others (DetachDisk (d_common d) others ctx diskName diskURI nodeID) (Err e)
             (ctrl s) (ctrl s') ∧ Contains (Error e) consts.ErrDiskNotFound = true))).
Proof.
  intros Htext Hck. unfold ControllerUnpublishVolume. intros (? & s1 & [H1 ->]%guard_ok & Hx)%bind_ok.
  apply bind_ok in Hx as (? & s2 & [H2 ->]%guard_ok & Hx).
  apply (dbind_later publish_call others) in Hx as (skip & s3 & L3 & Hs & Hx); [|dmoves].
  split; [by intros ->|]. split; [by intros ->|]. destruct skip.
  - left. injection Hx as <-. destruct (nodeDrivenAttachDetachEnabled d); [|done]. split; [done|].
    apply bind_ok in Hs as ([e|pv] & s4 & Ht & Hs).
    + by destruct (errors_Is e errPVNotFound).
    + injection Hs as Hq <-. apply try_ok in Ht. eauto.
  - right. apply bind_ok in Hx as ([[sub rg] dn] & s4 & Hu & Hx). injection Hu as Hu <-.
    apply or_status_ok in Hu. exists sub, rg, dn. split; [done|].
    apply bind_ok in Hx as ([e|[]] & s5 & Ht & Hx); apply try_ok in Ht.
    + destruct (Contains (Error e) consts.ErrDiskNotFound) eqn:Ec; [|done]. injection Hx as <-. right. right.
      exists e. split; [|done]. eapply runs_mono; [exact L3|reflexivity|by apply ctl_runs].
    + injection Hx as <-. apply ctl_ok in Ht.
      apply (DetachDisk_seen publish_call true attach_publish) in Ht as [Ht|Ht]; [| |done..].
      * left. by eapply seen_detached_mono; [exact L3|reflexivity|].
      * right; left. by eapply seen_released_mono; [exact L3|reflexivity|].
Qed.
End proofs.

(** ** The properties on the concrete driver *)
Lemma dangling_detach_safe_witness :
  ∃ lun s', retry_dangling (demo_driver true false) quiet (MkCtx None) "d2" demo_uri2 "n1" "None"
              None 1%positive [] (EDangling "attached" "n2" "") demo_start = (Ok lun, s') ∧
    (Moments.later kube_call quiet (ctrl demo_start) (ctrl s') ∨
     ∃ vas s1, svc quiet va_List demo_start = (Ok (Some vas), s1)).
Proof.
  eexists _, _. split; [vm_compute; reflexivity|].
  edestruct (dangling_detach_safe (demo_driver true false) quiet (MkCtx None) "d2" demo_uri2 "n1"
               "None" None 1%positive [] "attached" "n2" "" demo_start) as [L|(_ & vas & s1 & _ & Hl & _)];
    [vm_compute; reflexivity|left; exact L|right; exists vas, s1; exact Hl].
Defined.

Definition demo_publish (uri : string) (vctx : gmap string string) : PublishRequest :=
  MkPublishRequest uri "n1" (Some demo_capability) vctx.

Lemma ControllerPublishVolume_verified_witness :
  ∃ pc s', ControllerPublishVolume (demo_driver true false) quiet (MkCtx None) 1%positive
             (demo_publish demo_uri2 ∅) demo_start = (Ok pc, s') ∧
    ∃ lun, pc !! consts.LUN = Some (Itoa lun).
Proof.
  eexists _, _. split; [vm_compute; reflexivity|].
  edestruct (ControllerPublishVolume_verified (demo_driver true false) quiet (MkCtx None)
    1%positive (demo_publish demo_uri2 ∅) demo_start) as (_ & _ & lun & _ & _ & _ & Hl & _);
    [reflexivity|vm_compute; reflexivity|vm_compute; reflexivity|].
  exists lun. exact Hl.
Defined.

(** The volume has a blob URL and an attach sequence; the request gives the claim only. *)
Lemma ensureQADPVAnnotations_ok_witness :
  ∃ s' pv m b s1 s2, ensureQADPVAnnotations quiet "pv1" "" "claim" "None" demo_start = (Ok (), s') ∧
    svc quiet (pv_Get "pv1") s1 = (Ok pv, s2) ∧ m !! consts.BlobURLAnnotation = Some b ∧ b ≠ "" ∧
    given_or_read quiet "pv1" consts.BlobURLAnnotation "" b demo_start s' ∧
    m !! consts.QADCachePolicyAnnotation = Some "None" ∧
    (m = pv_Annotations pv ∧ s' = s2 ∨
     svc quiet (pv_Update (set_pv_Annotations m pv)) s2 = (Ok (), s')).
Proof.
  eexists.
  edestruct (ensureQADPVAnnotations_ok quiet "pv1" "" "claim" "None" demo_start)
    as (pv & m & b & c & s1 & s2 & _ & Hg & Hb & Hne & Hr & _ & _ & _ & Hp & _ & _ & Hu);
    [done|vm_compute; reflexivity|].
  exists pv, m, b, s1, s2. split; [vm_compute; reflexivity|]. by repeat (split; [assumption|]).
Defined.

Lemma ControllerUnpublishVolume_ok_witness :
  ∃ s', ControllerUnpublishVolume (demo_driver true false) quiet (MkCtx None) demo_uri "n1" demo_start
          = (Ok (), s') ∧ demo_uri ≠ "" ∧ "n1" ≠ "".
Proof.
  eexists. split; [vm_compute; reflexivity|].
  edestruct (ControllerUnpublishVolume_ok (demo_driver true false) quiet (MkCtx None) demo_uri "n1" demo_start)
    as (H1 & H2 & _); [exact demo_lun_text|reflexivity|vm_compute; reflexivity|].
  split; [exact H1|exact H2].
Defined.
