(* ===== verification/Claim.v ===== *)
(** * Claims of disks by the cluster: [pkg/azuredisk/controllerserver.go]

    A disk that its node attaches itself is claimed for the AKS cluster, and
    unclaimed before it is deleted, by HTTP requests to the disk resource
    provider with polling of the asynchronous operation. *)
From stdpp Require Import gmap strings list.
From Stdlib Require Import ZArith QArith Lia.
From S2P Require Import Prelude GoStrings GoErr Consts Util AzureTypes DiskUtils Cloud DemoCloud Kube ControllerCommon AttachProofs ManagedDisk DriverState Driver.
Local Open Scope string_scope.
Local Open Scope Z_scope.
Local Open Scope list_scope.

Definition claimResourceAPIVersion : string := "2025-01-02".
Definition aksManagedClusterNameTag : string := "aks-managed-cluster-name".
Definition aksManagedClusterResourceGroupTag : string := "aks-managed-cluster-rg".
Definition StatusOK : Z := 200.
Definition StatusAccepted : Z := 202.
Definition StatusNotFound : Z := 404.

(** [azuredisk/controllerserver.go getAKSClusterResourceID 514-525] The name and the
    resource group of the cluster among the tags, in the order in which Go
    visits them. *)
Definition cluster_tag (acc : string * string) (kv : string * option string) : string * string :=
  match kv with
  | (_, None) => acc
  | (key, Some value) =>
      if EqualFold key aksManagedClusterNameTag then (value, acc.2)
      else if EqualFold key aksManagedClusterResourceGroupTag then (acc.1, value)
      else acc
  end.
(** [azuredisk/controllerserver.go getAKSClusterResourceID 526-533] *)
Definition cluster_id (subscription : string) (c : string * string) : string :=
  if String.eqb c.1 "" || String.eqb c.2 "" then "/subscriptions/" +:+ subscription
  else "/subscriptions/" +:+ subscription +:+ "/resourceGroups/" +:+ c.2
       +:+ "/providers/Microsoft.ContainerService/managedClusters/" +:+ c.1.

Section claim.
  Context {W : Type} `{!Cloud W} `{!DiskRP W} `{MapOrder}.
  Context (d : DriverConfig) (others : point → CState W → CState W).
  Local Notation D := (M (DState W)).
  Local Notation svc := (svc others).

  (** [azuredisk/controllerserver.go getAKSClusterResourceID] The answer is kept for
      the life of the driver; the lock makes the call atomic. *)
Definition getAKSClusterResourceID : D string :=
  let! s := get in
  if negb (String.eqb (clusterResourceID s) "") then ret (clusterResourceID s)
  else
    let nodeResourceGroup := cc_ResourceGroup (d_cloud d) in
    let! r := try (svc (rg_Tags nodeResourceGroup)) in
    match r with
    | inl e => fail (EWrap ("failed to get node resource group " +:+ quote nodeResourceGroup +:+ ": ") e "")
    | inr tags =>
        let! tags := lift (deref tags) in
        let id := cluster_id (cc_SubscriptionID (d_cloud d)) (foldl cluster_tag ("", "") (map_order tags)) in
        let! _ := modify (set_clusterResourceID id) in
        ret id
    end.

  (** A token for the resource manager. *)
Definition get_token (what : string) : D string :=
  match GetAzIdentity with
  | None => fail (ENew "no Azure credential available")
  | Some m =>
      let! r := try (svc m) in
      match r with inl e => fail (EWrap what e "") | inr t => ret t end
  end.
  (** An error that is wrapped with a text. *)
Definition wrap_on {A} (m : D A) (pre : string) : D A :=
  let! r := try m in
  match r with inl e => fail (EWrap pre e "") | inr a => ret a end.

  (** [azuredisk/controllerserver.go pollAsyncOperation 2097-2157] One tick: the body
      when the operation is done, [None] when it is still running. *)
Definition poll_tick (asyncURL : string) : D (option string) :=
  let! token := get_token "failed to get access token for polling: " in
  let! _ := wrap_on (lift (NewRequest "GET" asyncURL)) "failed to create poll request: " in
  let! resp := wrap_on (svc (http_Get asyncURL token)) "poll request failed: " in
  let! body := wrap_on (lift (ResponseBody resp)) "failed to read poll response: " in
  let code := StatusCode resp in
  if negb (code =? StatusOK) && negb (code =? StatusAccepted)
  then fail (ENew ("poll returned status " +:+ Itoa code +:+ ": " +:+ body))
  else if String.eqb (TrimSpace body) "" then ret (if code =? StatusOK then Some body else None)
  else
    let! status := wrap_on (lift (unmarshal_status body)) "failed to parse poll response: " in
    if (code =? StatusOK) && String.eqb status "" then ret (Some body)
    else
      let st := ToLower status in
      if String.eqb st "succeeded" then ret (Some body)
      else if String.eqb st "failed" || String.eqb st "canceled" || String.eqb st "cancelled"
      then fail (ENew ("async operation " +:+ status +:+ ": " +:+ body))
      else ret None.
  (** [azuredisk/controllerserver.go pollAsyncOperation] [fuel] bounds the ticks; the
      end of the context ends the loop. *)
Fixpoint poll_async (fuel : nat) (ctx : Ctx) (asyncURL : string) (interval : Z) : D string :=
  match fuel with
  | O => fail (ESentinel CtxDeadlineExceeded)
  | S fuel' =>
      let! e := svc (ctx_Wait ctx interval) in
      match e with
      | Some e => fail e
      | None =>
          let! r := poll_tick asyncURL in
          match r with
          | Some body => ret body
          | None => poll_async fuel' ctx asyncURL interval
          end
      end
  end.
Definition poll_interval : Z := if pollInterval d <=? 0 then 5 * Second else pollInterval d.

  Context (fuel : nat).
  (** [azuredisk/controllerserver.go pollAsyncOperation] *)
Definition pollAsyncOperation (ctx : Ctx) (asyncURL : string) : D string :=
  poll_async fuel ctx asyncURL poll_interval.

Definition management_url (diskURI op : string) : string :=
  let endpoint := if String.eqb (ResourceManagerEndpoint d) "" then "https://management.azure.com"
                  else ResourceManagerEndpoint d in
  TrimSuffix endpoint "/" +:+ diskURI +:+ "/" +:+ op +:+ "?api-version=" +:+ claimResourceAPIVersion.

  (** [azuredisk/controllerserver.go claimDiskResource 538-575] The request of a claim
      or of its release: the status and the body. *)
Definition resource_request (diskURI owner op : string) : D (HttpResponse * string) :=
  let! token := get_token "failed to get access token: " in
  let url := management_url diskURI op in
  let! _ := wrap_on (lift (NewRequest "POST" url)) ("failed to create " +:+ op +:+ " request: ") in
  let! resp := wrap_on (svc (http_Post url token owner)) (op +:+ " request failed: ") in
  let! body := wrap_on (lift (ResponseBody resp)) ("failed to read " +:+ op +:+ " response: ") in
  ret (resp, body).

  (** [azuredisk/controllerserver.go claimDiskResource] The blob URL and the claim
      identifier. *)
Definition claimDiskResource (ctx : Ctx) (diskURI ownerResourceID : string) : D (string * string) :=
  let! (resp, body) := resource_request diskURI ownerResourceID "claimResource" in
  let code := StatusCode resp in
  let! body := if code =? StatusAccepted then
                 if String.eqb (LocationHeader resp) ""
                 then fail (ENew "claimResource returned 202 but no Location header")
                 else wrap_on (pollAsyncOperation ctx (LocationHeader resp)) "polling claimResource failed: "
               else if code =? StatusOK then ret body
               else fail (ENew ("claimResource returned status " +:+ Itoa code +:+ ": " +:+ body)) in
  let! result := wrap_on (lift (unmarshal_claim body)) "failed to parse claimResource response: " in
  match result with
  | None => fail (ENew "claimResource response missing properties")
  | Some p => ret p
  end.

  (** [azuredisk/controllerserver.go unclaimDiskResource] *)
Definition unclaimDiskResource (ctx : Ctx) (diskURI ownerResourceID : string) : D unit :=
  let! (resp, body) := resource_request diskURI ownerResourceID "unclaimResource" in
  let code := StatusCode resp in
  if code =? StatusAccepted then
    if String.eqb (LocationHeader resp) ""
    then fail (ENew "unclaimResource returned 202 but no Location header")
    else let! _ := wrap_on (pollAsyncOperation ctx (LocationHeader resp)) "polling unclaimResource failed: " in
         ret ()
  else if code =? StatusNotFound then ret ()
  else if code =? StatusOK then ret ()
  else fail (ENew ("unclaimResource returned status " +:+ Itoa code +:+ ": " +:+ body)).
End claim.
