(* ===== verification/Migration.v ===== *)
(** * Monitoring of SKU migrations: [pkg/azuredisk/migration_monitor.go]

    The tasks are the map [activeTasks] of the driver state; a monitor, which
    runs in a goroutine of its own, is a call on the URI of its disk that reads
    and writes the entry of the map.  The texts of the events are left out. *)
From stdpp Require Import gmap strings list.
From Stdlib Require Import ZArith QArith Lia.
From S2P Require Import Prelude GoStrings GoErr Consts Util AzureTypes DiskUtils Cloud DemoCloud Kube ControllerCommon AttachProofs ManagedDisk DriverState DemoDriver Driver.
Local Open Scope string_scope.
Local Open Scope Z_scope.

(** ** Timeouts *)
Definition Hour : Z := 3600 * Second.
Definition LabelMigrationInProgress : string := "disk.csi.azure.com/migration-in-progress".
(** [azuredisk/migration_monitor.go const 53-63] *)
Definition volumeSize2TB : Z := 2 * 1024 * GiB.
Definition volumeSize4TB : Z := 4 * 1024 * GiB.
Definition volumeSize16TB : Z := 16 * 1024 * GiB.
Definition volumeSize64TB : Z := 64 * 1024 * GiB.
(** [azuredisk/migration_monitor.go migrationTimeouts 72-77] *)
Definition migrationTimeouts : gmap Z Z :=
  {[ volumeSize2TB := 13 * Hour; volumeSize4TB := 17 * Hour;
     volumeSize16TB := 25 * Hour; volumeSize64TB := 66 * Hour ]}.
(** [azuredisk/migration_monitor.go sortedMigrationSlabArray 80-85] *)
Definition sortedMigrationSlabArray : list Z :=
  [volumeSize2TB; volumeSize4TB; volumeSize16TB; volumeSize64TB].
Definition maxMigrationTimeout : Z := 72 * Hour.
Definition migrationCheckInterval : Z := 60 * Second.

(** The loop of [getMigrationTimeout]. *)
Fixpoint find_slab (volumeSize : Z) (slabs : list Z) : option Z :=
  match slabs with
  | [] => None
  | slab :: slabs' =>
      let isLastSlab := match slabs' with [] => true | _ => false end in
      if (volumeSize <? slab) || (isLastSlab && (volumeSize =? slab)) then migrationTimeouts !! slab
      else find_slab volumeSize slabs'
  end.
(** [azuredisk/migration_monitor.go getMigrationTimeout] *)
Definition getMigrationTimeout (volumeSize : Z) : Z :=
  default (25 * Hour) (find_slab volumeSize sortedMigrationSlabArray).

(** ** Progress *)
(** [azuredisk/migration_monitor.go shouldReportProgress] The conversion to [int]
    truncates. *)
Definition milestone (percent : Q) : Z :=
  Z.quot (Qnum percent) (20 * Zpos (Qden percent)) * 20.
(** [azuredisk/migration_monitor.go shouldReportProgress] *)
Definition shouldReportProgress (current last : Q) : bool :=
  negb (Qle_bool 100 current) && (milestone last <? milestone current) && (0 <? milestone current).
(** [azuredisk/migration_monitor.go checkMigrationProgress 421-432] *)
Definition completion_percent (disk : Disk) : Q :=
  match disk_Properties disk with
  | None => 0
  | Some p => default 100%Q (CompletionPercent p)
  end.

(** Updates of a task. *)
Definition set_PVC (name ns : string) (t : MigrationTask) : MigrationTask :=
  MkMigrationTask (task_DiskURI t) (task_PVName t) name ns (task_FromSKU t) (task_ToSKU t) (task_StartTime t)
    (LastReportedProgress t) (task_Deadline t) (VolumeSize t) (MigrationTimeout t) (Timedout t)
    (task_Cancelled t) (PVLabeled t).
Definition set_PVLabeled (b : bool) (t : MigrationTask) : MigrationTask :=
  MkMigrationTask (task_DiskURI t) (task_PVName t) (task_PVCName t) (task_PVCNamespace t) (task_FromSKU t)
    (task_ToSKU t) (task_StartTime t) (LastReportedProgress t) (task_Deadline t) (VolumeSize t)
    (MigrationTimeout t) (Timedout t) (task_Cancelled t) b.
Definition set_Progress (q : Q) (t : MigrationTask) : MigrationTask :=
  MkMigrationTask (task_DiskURI t) (task_PVName t) (task_PVCName t) (task_PVCNamespace t) (task_FromSKU t)
    (task_ToSKU t) (task_StartTime t) q (task_Deadline t) (VolumeSize t)
    (MigrationTimeout t) (Timedout t) (task_Cancelled t) (PVLabeled t).
Definition set_Timedout (t : MigrationTask) : MigrationTask :=
  MkMigrationTask (task_DiskURI t) (task_PVName t) (task_PVCName t) (task_PVCNamespace t) (task_FromSKU t)
    (task_ToSKU t) (task_StartTime t) (LastReportedProgress t) (task_Deadline t) (VolumeSize t)
    (MigrationTimeout t) true (task_Cancelled t) (PVLabeled t).
Definition set_Deadline (x : Z) (t : MigrationTask) : MigrationTask :=
  MkMigrationTask (task_DiskURI t) (task_PVName t) (task_PVCName t) (task_PVCNamespace t) (task_FromSKU t)
    (task_ToSKU t) (task_StartTime t) (LastReportedProgress t) x (VolumeSize t)
    (MigrationTimeout t) (Timedout t) (task_Cancelled t) (PVLabeled t).
(** A stopped task: the monitor sees the flag at its next look; that the
    cancelled context also wakes it up is left out. *)
Definition cancel_task (t : MigrationTask) : MigrationTask :=
  MkMigrationTask (task_DiskURI t) (task_PVName t) (task_PVCName t) (task_PVCNamespace t)
    (task_FromSKU t) (task_ToSKU t) (task_StartTime t) (LastReportedProgress t) (task_Deadline t)
    (VolumeSize t) (MigrationTimeout t) (Timedout t) true (PVLabeled t).

Section migration.
  Context {W : Type} `{!Cloud W} `{!Kube W} `{MapOrder}.
  Context (d : DriverConfig) (others : point → CState W → CState W).
  Local Notation D := (M (DState W)).
  Local Notation svc := (svc others).

  (** The task of a disk; its monitor runs as long as it is in the map. *)
Definition task_of (diskURI : string) : D MigrationTask :=
  let! s := get in lift (deref (activeTasks s !! diskURI)).
Definition update_task (diskURI : string) (f : MigrationTask → MigrationTask) : D unit :=
  modify (λ s, set_activeTasks (alter f diskURI (activeTasks s)) s).
Definition task_ctx (t : MigrationTask) : Ctx := MkCtx (Some (task_Deadline t)).

  (** [azuredisk/migration_monitor.go emitMigrationEvent] *)
Definition emitMigrationEvent (task : MigrationTask) (eventType reason : string) : D unit :=
  if negb (d_eventRecorder d) || negb (d_kubeClient d)
  then fail (ENew "event recorder or kube client not available")
  else
    let! r := try (svc (pvc_Get (task_ctx task) (task_PVCNamespace task) (task_PVCName task))) in
    match r with
    | inl e => if IsNotFound e then fail e else ret ()
    | inr _ => svc (event_Record (task_PVCNamespace task +:+ "/" +:+ task_PVCName task) eventType reason)
    end.

  (** [azuredisk/migration_monitor.go addMigrationLabelIfNotExists] *)
Definition addMigrationLabelIfNotExists (pvName : string) : D bool :=
  let! pv := svc (pv_Get pvName) in
  if bool_decide (pv_Labels pv !! LabelMigrationInProgress = Some "true") then ret true
  else
    let! _ := svc (pv_Update (set_pv_Labels (<[LabelMigrationInProgress := "true"]> (pv_Labels pv)) pv)) in
    ret false.
  (** [azuredisk/migration_monitor.go removeMigrationLabel] *)
Definition removeMigrationLabel (pvName : string) : D unit :=
  let! pv := svc (pv_Get pvName) in
  svc (pv_Update (set_pv_Labels (delete LabelMigrationInProgress (pv_Labels pv)) pv)).

  (** [azuredisk/migration_monitor.go StartMigrationMonitoring 210-227] The claim of
      the volume: [None] stops without an error. *)
Definition claim_of (isProvisioningFlow : bool) (pvName : string) : D (option (string * string)) :=
  if negb isProvisioningFlow && negb (String.eqb pvName "") then
    let! r := try (svc (pv_Get pvName)) in
    match r with
    | inl e => fail (ENew ("failed to get PV " +:+ pvName +:+ ": " +:+ Error e))
    | inr pv => ret (pv_ClaimRef pv)
    end
  else ret (Some ("", "")).
  (** [azuredisk/migration_monitor.go StartMigrationMonitoring] The monitor that is
      started is [monitorMigrationProgress]. *)
Definition StartMigrationMonitoring (isProvisioningFlow : bool) (diskURI pvName fromSKU toSKU : string)
    (volumeSize : Z) : D unit :=
  let! s := get in
  match activeTasks s !! diskURI with
  | Some _ => ret ()
  | None =>
      let! claim := claim_of isProvisioningFlow pvName in
      match claim with
      | None => ret ()
      | Some (pvcName, pvcNamespace) =>
          let migrationTimeout := getMigrationTimeout volumeSize in
          let! now := svc Now in
          let task := MkMigrationTask diskURI pvName pvcName pvcNamespace fromSKU toSKU now 0
                        (now + migrationTimeout) volumeSize migrationTimeout false false false in
          let! _ := modify (λ s, set_activeTasks (<[diskURI := task]> (activeTasks s)) s) in
          let! r := try (addMigrationLabelIfNotExists pvName) in
          let! labelExisted := match r with
                               | inl _ => ret false
                               | inr b => let! _ := update_task diskURI (set_PVLabeled true) in ret b
                               end in
          if negb isProvisioningFlow && negb labelExisted
          then let! _ := try (emitMigrationEvent task "Normal" "SKUMigrationStarted") in ret ()
          else ret ()
      end
  end.

  (** [azuredisk/migration_monitor.go checkMigrationProgress] *)
Definition checkMigrationProgress (diskURI : string) : D bool :=
  let! task := task_of diskURI in
  let! r := try (ctl (GetDiskByURI others (task_DiskURI task))) in
  match r with
  | inl e => fail (ENew ("failed to get disk " +:+ task_DiskURI task +:+ ": " +:+ Error e))
  | inr disk =>
      let! disk := lift (deref disk) in
      let percent := completion_percent disk in
      let! _ := if shouldReportProgress percent (LastReportedProgress task) then
                  let! _ := try (emitMigrationEvent task "Normal" "SKUMigrationProgress") in
                  update_task diskURI (set_Progress percent)
                else ret () in
      ret (Qle_bool 100 percent)
  end.

  (** [azuredisk/migration_monitor.go monitorMigrationProgress 306-335] The label and
      the claim of a volume that did not exist when the monitoring started. *)
Definition late_label (diskURI : string) : D unit :=
  let! task := task_of diskURI in
  if PVLabeled task then ret ()
  else
    let! r := try (addMigrationLabelIfNotExists (task_PVName task)) in
    match r with
    | inl _ => ret ()
    | inr _ => update_task diskURI (set_PVLabeled true)
    end.
Definition late_claim (diskURI : string) : D unit :=
  let! task := task_of diskURI in
  if PVLabeled task && (String.eqb (task_PVCName task) "" || String.eqb (task_PVCNamespace task) "") then
    let! r := try (svc (pv_Get (task_PVName task))) in
    match r with
    | inl _ => ret ()
    | inr pv =>
        match pv_ClaimRef pv with
        | None => ret ()
        | Some (name, ns) =>
            let! _ := update_task diskURI (set_PVC name ns) in
            let! task := task_of diskURI in
            let! _ := try (emitMigrationEvent task "Normal" "SKUMigrationStarted") in ret ()
        end
    end
  else ret ().
  (** [azuredisk/migration_monitor.go monitorMigrationProgress 291-361] The condition
      of the polling. *)
Definition pollCondition (diskURI : string) : D bool :=
  let! task := task_of diskURI in
  if task_Cancelled task then ret true
  else
    let! now := svc Now in
    if maxMigrationTimeout <=? now - task_StartTime task then
      let! _ := try (emitMigrationEvent task "Warning" "SKUMigrationTimeout") in
      fail (ENew "maximum migration timeout exceeded")
    else
      let! _ := late_label diskURI in
      let! _ := late_claim diskURI in
      let! r := try (checkMigrationProgress diskURI) in
      match r with
      | inl _ => ret false
      | inr false => ret false
      | inr true =>
          let! task := task_of diskURI in
          let! _ := try (emitMigrationEvent task "Normal" "SKUMigrationCompleted") in
          let! _ := try (removeMigrationLabel (task_PVName task)) in
          ret true
      end.

  (** The polling of a task for a time: one more evaluation than the intervals
      that fit into it, and one for a rounded interval. *)
Definition poll_task (diskURI : string) (ctx : Ctx) (timeout : Z) : D unit :=
  PollUntilContextTimeout (λ t, svc (ctx_Wait ctx t))
    (Z.to_nat (Z.quot timeout migrationCheckInterval) + 2) migrationCheckInterval (pollCondition diskURI).

  (** [azuredisk/migration_monitor.go monitorMigrationProgress 367-400] After the
      timeout of the task: a warning, and more polling up to the maximum. *)
Definition extended_monitoring (diskURI : string) : D unit :=
  let! task := task_of diskURI in
  let! _ := try (emitMigrationEvent task "Warning" "SKUMigrationTimeout") in
  let! _ := update_task diskURI set_Timedout in
  let! now := svc Now in
  let remaining := maxMigrationTimeout - (now - task_StartTime task) + migrationCheckInterval * 5 in
  if migrationCheckInterval * 5 <? remaining then
    let! now := svc Now in
    let! _ := update_task diskURI (set_Deadline (now + remaining)) in
    let! _ := try (poll_task diskURI (MkCtx (Some (now + remaining))) remaining) in ret ()
  else ret ().
  (** [azuredisk/migration_monitor.go monitorMigrationProgress] *)
Definition monitorMigrationProgress (diskURI : string) : D unit :=
  let! task := task_of diskURI in
  let! r := try (poll_task diskURI (task_ctx task) (MigrationTimeout task)) in
  let! _ := match r with
            | inr _ => ret ()
            | inl pollErr =>
                let! now := svc Now in
                let! task := task_of diskURI in
                if (bool_decide (pollErr = ESentinel CtxDeadlineExceeded) || (task_Deadline task <=? now))
                   && negb (Timedout task)
                then extended_monitoring diskURI else ret ()
            end in
  modify (λ s, set_activeTasks (delete diskURI (activeTasks s)) s).

  (** [azuredisk/migration_monitor.go GetActiveMigrations] *)
Definition GetActiveMigrations : D (gmap string MigrationTask) :=
  let! s := get in ret (activeTasks s).
  (** [azuredisk/migration_monitor.go IsMigrationActive] *)
Definition IsMigrationActive (diskURI : string) : D bool :=
  let! s := get in ret (bool_decide (is_Some (activeTasks s !! diskURI))).
  (** [azuredisk/migration_monitor.go Stop 565-579] The cancellation of all tasks. *)
Definition cancel_all : D unit :=
  modify (λ s, set_activeTasks (cancel_task <$> activeTasks s) s).
  (** [azuredisk/migration_monitor.go Stop] The monitors end meanwhile: [finished]
      is what they remove from the map at each look. *)
Definition Stop (finished : nat → gmap string MigrationTask → gmap string MigrationTask) : D unit :=
  let! _ := cancel_all in
  let! now := svc Now in
  let ctx := WithTimeout now (2 * migrationCheckInterval) (MkCtx None) in
  let! _ := try (PollUntilContextTimeout (λ t, svc (ctx_Wait ctx t)) 62 (2 * Second)
    (let! now := svc Now in
     let! _ := modify (λ s, set_activeTasks (finished (Z.to_nat now) (activeTasks s)) s) in
     let! s := get in
     ret (bool_decide (activeTasks s = ∅)))) in
  ret ().

  (** [azuredisk/migration_monitor.go recoverMigrationMonitorsFromLabels 646-657] The
      SKU the volume names is one of the two of the migration. *)
Definition recoverable (attributes : gmap string string) : bool :=
  let ok key := let (sku, exists_) := ParseDiskParametersForKey attributes key in
                negb exists_ || EqualFold sku armcompute.DiskStorageAccountTypesPremiumLRS
                || EqualFold sku armcompute.DiskStorageAccountTypesPremiumV2LRS in
  ok "storageAccountType" && ok "skuName".
  (** [azuredisk/migration_monitor.go recoverMigrationMonitorsFromLabels] *)
Definition recoverMigrationMonitorsFromLabels : D unit :=
  let! _ := if cloud_KubeClient d then ret () else panic in
  let! pvs := svc (pv_ListSelected (LabelMigrationInProgress +:+ "=true")) in
  for_each pvs (λ pv,
    match pv_ClaimRef pv, pv_CSI pv with
    | Some _, Some c =>
        if String.eqb (csi_Driver c) (d_Name d) && recoverable (csi_VolumeAttributes c) then
          let! _ := try (StartMigrationMonitoring false (csi_VolumeHandle c) (pv_Name pv)
            armcompute.DiskStorageAccountTypesPremiumLRS armcompute.DiskStorageAccountTypesPremiumV2LRS
            (pv_Storage pv)) in ret ()
        else ret ()
    | _, _ => ret ()
    end).
End migration.

(** ** Properties *)

(** The time a migration is given grows with the volume up to 64 TiB and stays
    below the limit of 72 hours; a volume of more than 64 TiB is given only the
    25 hours of the default, less than a volume of 64 TiB. *)
Theorem getMigrationTimeout_spec v w :
  0 ≤ v →
  (v ≤ w → w ≤ volumeSize64TB → getMigrationTimeout v ≤ getMigrationTimeout w) ∧
  13 * Hour ≤ getMigrationTimeout v < maxMigrationTimeout ∧
  (volumeSize64TB < v → getMigrationTimeout v = 25 * Hour ∧
                        getMigrationTimeout v < getMigrationTimeout volumeSize64TB).
Proof.
  assert (E : ∀ x, getMigrationTimeout x =
    if x <? volumeSize2TB then 13 * Hour else if x <? volumeSize4TB then 17 * Hour
    else if x <? volumeSize16TB then 25 * Hour else if x <=? volumeSize64TB then 66 * Hour
    else 25 * Hour).
  { intros x. unfold getMigrationTimeout, sortedMigrationSlabArray. cbn [find_slab]. cbn [andb].
    rewrite !orb_false_r.
    destruct (x <? volumeSize2TB); [reflexivity|]. destruct (x <? volumeSize4TB); [reflexivity|].
    destruct (x <? volumeSize16TB); [reflexivity|].
    destruct (Z.ltb_spec x volumeSize64TB), (Z.eqb_spec x volumeSize64TB), (Z.leb_spec x volumeSize64TB);
      try lia; reflexivity. }
  intros Hv. rewrite !E. unfold maxMigrationTimeout, Hour, Second, volumeSize2TB, volumeSize4TB, volumeSize16TB, volumeSize64TB, GiB.
  split; [intros Hle Hw|split; [|intros Hgt; split]];
    repeat match goal with |- context [?a <? ?b] => destruct (Z.ltb_spec a b) | |- context [?a <=? ?b] => destruct (Z.leb_spec a b) end;
    lia.
Qed.

Lemma getMigrationTimeout_spec_witness :
  getMigrationTimeout 0 ≤ getMigrationTimeout volumeSize64TB ∧
  getMigrationTimeout (volumeSize64TB + 1) < getMigrationTimeout volumeSize64TB.
Proof.
  split; [apply (getMigrationTimeout_spec 0 volumeSize64TB) | apply (getMigrationTimeout_spec _ 0)];
    unfold volumeSize64TB, GiB; lia.
Defined.

(** *** Progress events *)
(** The percentages that are reported out of a sequence of readings. *)
Fixpoint reports (last : Q) (readings : list Q) : list Q :=
  match readings with
  | [] => []
  | q :: l => if shouldReportProgress q last then q :: reports q l else reports last l
  end.

Lemma milestone_multiple q : ∃ k, milestone q = 20 * k.
Proof. unfold milestone. eexists. rewrite Z.mul_comm. reflexivity. Qed.

Lemma milestone_below_100 q : Qle_bool 100 q = false → milestone q ≤ 80.
Proof.
  intros Hq. assert (Hlt : (q < 100)%Q).
  { apply Qnot_le_lt. intros Hle. apply Qle_bool_iff in Hle. congruence. }
  unfold milestone. destruct q as [n p]. unfold Qlt in Hlt. simpl in *.
  assert (Z.quot n (Z.pos (20 * p)) < 5); [|lia].
  destruct (Z.le_gt_cases 0 n).
  - apply Z.quot_lt_upper_bound; lia.
  - assert (Z.quot n (Z.pos (20 * p)) ≤ 0); [|lia].
    rewrite <-(Z.opp_involutive n), Z.quot_opp_l by done.
    pose proof (Z.quot_pos (- n) (Z.pos (20 * p))). lia.
Qed.

Lemma reports_length last l :
  (Z.of_nat (length (reports last l)) * 20 ≤ Z.max 0 (80 - Z.max 0 (milestone last))).
Proof.
  revert last. induction l as [|q l IH]; intros last; cbn [reports]; [simpl; lia|].
  destruct (shouldReportProgress q last) eqn:E; [|apply IH]. cbn [length].
  unfold shouldReportProgress in E. bool_split. specialize (IH q).
  destruct (milestone_multiple q) as [k Hk], (milestone_multiple last) as [k' Hk'].
  pose proof (milestone_below_100 q ltac:(done)). lia.
Qed.

(** Whatever percentages ARM reports, in any order, one migration emits at most
    four progress events, and each of them is for less than 100 percent at a
    milestone of 20 percent above all that were emitted before. *)
Theorem progress_reports_bounded readings :
  (length (reports 0 readings) ≤ 4)%nat ∧
  (∀ i j q r, (i < j)%nat → reports 0 readings !! i = Some q → reports 0 readings !! j = Some r →
     20 ≤ milestone q ∧ milestone q < milestone r ≤ 80).
Proof.
  split; [pose proof (reports_length 0 readings); change (milestone 0) with 0 in *; lia|].
  enough (Hs : ∀ l last i q, reports last l !! i = Some q →
      0 < milestone q ≤ 80 ∧ milestone last < milestone q ∧
      ∀ j r, (i < j)%nat → reports last l !! j = Some r → milestone q < milestone r ≤ 80).
  { intros i j q r Hij Hq Hr. destruct (Hs _ _ _ _ Hq) as (H1 & _ & H2).
    destruct (milestone_multiple q) as [k Hk]. specialize (H2 _ _ Hij Hr). lia. }
  induction l as [|x l IH]; intros last i q; [done|]. cbn [reports].
  destruct (shouldReportProgress x last) eqn:E; [|apply IH].
  unfold shouldReportProgress in E. bool_split. pose proof (milestone_below_100 x ltac:(done)).
  destruct i as [|i]; cbn.
  - intros [= <-]. split; [lia|]. split; [lia|]. intros [|j] r Hj; [lia|]. cbn. intros Hr.
    destruct (IH _ _ _ Hr) as (? & ? & _). lia.
  - intros Hq. destruct (IH _ _ _ Hq) as (K1 & K2 & K3). split; [done|]. split; [lia|].
    intros [|j] r Hj; [lia|]. cbn. apply K3. lia.
Qed.

(** *** The monitor *)
Section monitor.
  Context {W : Type} `{!Cloud W} `{!Kube W} `{MapOrder}.
  Context (d : DriverConfig) (others : point → CState W → CState W).
  Implicit Types s : DState W.

  (** The tasks of the other disks. *)
Definition other_tasks (diskURI : string) (tasks : gmap string MigrationTask) s : Prop :=
  delete diskURI (activeTasks s) = tasks.
Lemma keeps_ctl_other diskURI tasks {A} (m : M (CState W) A) : keeps (other_tasks diskURI tasks) (ctl m).
Proof. intros s Hs. by rewrite ctl_spec. Qed.
Lemma keeps_update_task diskURI tasks f : keeps (other_tasks diskURI tasks) (update_task (W:=W) diskURI f).
Proof. intros s Hs. unfold other_tasks. simpl. by rewrite delete_alter_eq. Qed.
Ltac other_step :=
  match goal with
  | |- keeps _ (ret _) => apply keeps_ret
  | |- keeps _ (fail _) => apply keeps_fail
  | |- keeps _ get => apply keeps_get
  | |- keeps _ (lift _) => apply keeps_lift
  | |- keeps _ (bind _ _) => apply keeps_bind; [|intros ?]
  | |- keeps _ (try _) => apply keeps_try
  | |- keeps _ (PollUntilContextTimeout _ _ _ _) => apply keeps_poll; [intros ?|]
  | |- keeps _ (svc _ _) => apply (keeps_ctl_other _ _)
  | |- keeps _ (ctl _) => apply (keeps_ctl_other _ _)
  | |- keeps _ (update_task _ _) => apply keeps_update_task
  | |- keeps _ (match ?x with _ => _ end) => destruct x
  end.
Lemma keeps_emit diskURI tasks t a b :
  keeps (other_tasks diskURI tasks) (emitMigrationEvent d others t a b).
Proof. unfold emitMigrationEvent. repeat other_step. Qed.
Lemma keeps_pollCondition diskURI tasks :
  keeps (other_tasks diskURI tasks) (pollCondition d others diskURI).
Proof.
  unfold pollCondition, late_label, late_claim, checkMigrationProgress, addMigrationLabelIfNotExists,
    removeMigrationLabel, task_of. cbv zeta.
  repeat (other_step || apply keeps_emit).
Qed.
Lemma keeps_monitor diskURI tasks :
  keeps (other_tasks diskURI tasks) (monitorMigrationProgress d others diskURI).
Proof.
  unfold monitorMigrationProgress, extended_monitoring, poll_task, task_of. cbv zeta.
  repeat (other_step || apply keeps_emit || apply keeps_pollCondition).
  apply keeps_modify. intros s Hs. unfold other_tasks. simpl. by rewrite delete_delete_eq.
Qed.

Lemma errless_monitor diskURI :
  (∀ w t w', Now w ≠ (Err t, w')) → errless (monitorMigrationProgress d others diskURI).
Proof.
  intros Hnow. assert (Hn : errless (svc others Now)).
  { intros s e. unfold svc. rewrite ctl_spec. unfold ext. destruct (Now _) as [[] w'] eqn:E; try done.
    by apply Hnow in E. }
  unfold monitorMigrationProgress, extended_monitoring, task_of, update_task. cbv zeta.
  repeat match goal with
  | |- errless (bind _ _) => apply errless_bind; [|intros ?]
  | |- errless (match ?x with _ => _ end) => destruct x
  end; auto using errless_get, errless_modify, errless_try, errless_ret, errless_deref.
Qed.

(** However the monitor of a disk ends (the migration was completed, failed, timed
    out or was stopped), it takes its task out of the map, so that the disk can be
    monitored again; it returns no error, and whatever happens it leaves the tasks
    of the other disks alone.  The clock does not fail. *)
Theorem monitor_removes_task diskURI s :
  (∀ w e w', Now w ≠ (Err e, w')) →
  let '(r, s') := monitorMigrationProgress d others diskURI s in
  (r = Ok () ∧ activeTasks s' = delete diskURI (activeTasks s)) ∨
  (r = Panic ∧ delete diskURI (activeTasks s') = delete diskURI (activeTasks s)).
Proof.
  intros Hnow. pose proof (errless_monitor diskURI Hnow s) as He.
  pose proof (keeps_monitor diskURI _ s eq_refl) as Hk. unfold other_tasks in Hk.
  destruct (monitorMigrationProgress _ _ _ s) as [[[]|e|] s'] eqn:Em; simpl in *; [left|by destruct (He e)|by right].
  split; [done|]. rewrite <-Hk. clear He Hk. revert Em.
  unfold monitorMigrationProgress. intros (task & s1 & _ & Hm)%bind_ok.
  apply bind_ok in Hm as (r & s2 & _ & Hm). apply bind_ok in Hm as (? & s3 & _ & Hm).
  injection Hm as <-. simpl. by rewrite delete_delete_eq.
Qed.

(** An event for a task whose time is over is lost when the API client refuses
    requests with an ended context, as client-go does: no event is recorded and
    no error is returned.  The warning that a migration takes too long is such an
    event, since it is emitted with the context that has just timed out. *)
Theorem late_event_lost task eventType reason s :
  d_eventRecorder d = true → d_kubeClient d = true →
  (∀ c ns n w, ctx_Err c w = (Ok (Some (ESentinel CtxDeadlineExceeded)), w) →
     pvc_Get c ns n w = (Err (ESentinel CtxDeadlineExceeded), w)) →
  ctx_Err (task_ctx task) (world (ctrl s)) = (Ok (Some (ESentinel CtxDeadlineExceeded)), world (ctrl s)) →
  emitMigrationEvent d others task eventType reason s =
    (Ok (), set_ctrl (others PCall (set_world (world (ctrl s)) (ctrl s))) s).
Proof.
  intros Hr Hk Hclient Hctx. unfold emitMigrationEvent. rewrite Hr, Hk. cbn [negb orb].
  unfold bind, try, svc. rewrite ctl_spec. unfold ext. by rewrite Hclient.
Qed.
End monitor.

(** A monitored migration of "d1" that has just ended; the disk is complete. *)
Definition demo_task (deadline : Z) : MigrationTask :=
  MkMigrationTask demo_uri "pv1" "claim" "default" "Premium_LRS" "PremiumV2_LRS" 0 0 deadline (8 * GiB)
    (13 * Hour) false false true.
Lemma monitor_removes_task_witness :
  ∃ s', monitorMigrationProgress (demo_driver true false) quiet demo_uri
          (set_activeTasks {[ demo_uri := demo_task (13 * Hour) ]} demo_start) = (Ok (), s') ∧
        activeTasks s' = ∅.
Proof.
  assert (Hnow : ∀ (w : Demo) e w', Now w ≠ (Err e, w')) by (intros w e w'; discriminate).
  pose proof (monitor_removes_task (demo_driver true false) quiet demo_uri
    (set_activeTasks {[ demo_uri := demo_task (13 * Hour) ]} demo_start) Hnow) as Hm.
  destruct (monitorMigrationProgress _ _ _ _) as [r s'] eqn:E. exists s'.
  assert (Hr : r = Ok ()) by (transitivity (r, s').1; [done|]; rewrite <-E; vm_compute; reflexivity).
  subst r. destruct Hm as [[_ Hd]|[? _]]; [|done]. split; [done|]. rewrite Hd. apply delete_singleton_eq.
Defined.

Lemma late_event_lost_witness :
  emitMigrationEvent (demo_driver true false) quiet (demo_task 0) "Warning" "SKUMigrationTimeout" demo_start
    = (Ok (), demo_start).
Proof.
  eapply (late_event_lost (demo_driver true false) quiet (demo_task 0) "Warning" "SKUMigrationTimeout"
            demo_start).
  - reflexivity.
  - reflexivity.
  - intros c ns n w. simpl. destruct (ctx_Deadline c) as [t|]; [|done].
    destruct (t <=? demo_now w); [done|]. done.
  - vm_compute. reflexivity.
Defined.
