(* ===== verification/CreateVolume.v ===== *)
(** * Creating a volume: [pkg/azuredisk/controllerserver.go]

    [CreateVolume] in the order of the code: the parameters, the size, the
    normalised options, the source, the topology, the creation of the disk, and
    the claim of a disk that its node attaches.  The cloud that a user agent in
    the parameters asks for has the clients of the interface [Cloud]. *)
From stdpp Require Import gmap strings list.
From Stdlib Require Import ZArith QArith Lia.
From S2P Require Import Prelude GoStrings GoErr Consts Util AzureTypes Optimization DiskUtils Cloud DemoCloud CloudProvider Kube ControllerCommon AttachProofs ManagedDisk DriverState Driver Claim Migration.
Local Open Scope string_scope.
Local Open Scope Z_scope.
Local Open Scope list_scope.

Definition maxSnapshotSizeDifferenceAllowed : Z := 50.

(** ** Requests and answers *)
(** csi.VolumeContentSource: [SourceNone] has neither a snapshot nor a volume. *)
Inductive ContentSource :=
| SourceSnapshot (id : string)
| SourceVolume (id : string)
| SourceNone.
Record CreateVolumeRequest := MkCreateVolumeRequest {
  cv_Name : string;
  cv_Parameters : gmap string string;
  cv_MutableParameters : gmap string string;
  cv_VolumeCapabilities : list VolumeCapability;
  cv_RequiredBytes : Z;
  cv_LimitBytes : Z;
  cv_AccessibilityRequirements : option TopologyRequirement;
  cv_ContentSource : option ContentSource;
}.
Record CsiVolume := MkCsiVolume {
  vol_VolumeId : string;
  vol_CapacityBytes : Z;
  vol_VolumeContext : gmap string string;
  vol_ContentSource : option ContentSource;
  vol_AccessibleTopology : list (gmap string string);
}.

(** ** Parameters *)
(** [azuredisk/controllerserver.go mutableDiskParameterKey] *)
Definition mutableDiskParameterKey (key : string) : string :=
  let key := ToLower key in
  if String.eqb key consts.StorageAccountTypeField then consts.SkuNameField else key.

(** [azuredisk/controllerserver.go normalizeMutableDiskParameters 89-102] The loop
    over the parameters. *)
Fixpoint normalize_mutable (l : list (string * string)) (normalized : gmap string string)
    : res (gmap string string) :=
  match l with
  | [] => Ok normalized
  | (key, value) :: l' =>
      let canonicalKey := mutableDiskParameterKey key in
      if negb (bool_decide (canonicalKey ∈ [consts.SkuNameField; consts.DiskIOPSReadWriteField;
                                            consts.DiskMBPSReadWriteField]))
      then Err (ENew ("unsupported mutable disk parameter " +:+ quote key))
      else match normalized !! canonicalKey with
           | Some _ => Err (ENew ("duplicate mutable disk parameter " +:+ quote canonicalKey))
           | None => normalize_mutable l' (<[canonicalKey := value]> normalized)
           end
  end.
(** [azuredisk/controllerserver.go normalizeMutableDiskParameters] *)
Definition normalizeMutableDiskParameters `{MapOrder} (parameters : gmap string string)
    : res (gmap string string) := normalize_mutable (map_order parameters) ∅.
(** [azuredisk/controllerserver.go CreateVolume 116-125] The mutable parameters win. *)
Definition merge_params (mutable params : gmap string string) : gmap string string :=
  mutable ∪ filter (λ kv, mutable !! mutableDiskParameterKey kv.1 = None) params.

Section create.
  Context {W : Type} `{!Cloud W} `{!ConfigSource W} `{!Kube W} `{!DiskRP W} `{MapOrder}.
  Context (d : DriverConfig) (others : point → CState W → CState W) (fuel : nat).
  Context (cwd uuid : string) (co : CloudOptions) (windows : bool).
  Local Notation D := (M (DState W)).
  Local Notation svc := (svc others).

  (** [azuredisk/controllerserver.go CreateVolume 108-156] The checks before the lock
      is taken: the parsed parameters and the attach mode. *)
Definition check_create (req : CreateVolumeRequest) : res (ManagedDiskParameters * string) :=
  let? _ := ValidateControllerServiceRequest d CREATE_DELETE_VOLUME in
  let? mutableParams := or_status (normalizeMutableDiskParameters (cv_MutableParameters req))
    codes.InvalidArgument (λ e, "Invalid mutable disk parameters: " +:+ Error e) in
  let params := merge_params mutableParams (cv_Parameters req) in
  let parse_err e := "Failed parsing disk parameters: " +:+ Error e in
  let? diskParams := or_status (ParseDiskParameters params) codes.InvalidArgument parse_err in
  let? attachMode := or_status (getAttachMode params) codes.InvalidArgument parse_err in
  let? _ := guard_res (negb (String.eqb attachMode consts.AttachModeNodeDriven
                             && negb (nodeDrivenAttachDetachEnabled d)))
    (EStatus codes.FailedPrecondition (consts.AttachModeField +:+ "=" +:+ consts.AttachModeNodeDriven
       +:+ " requires the Alpha NodeDrivenAttachDetach feature gate")) in
  let? _ := guard_res (negb (String.eqb (cv_Name req) ""))
    (EStatus codes.InvalidArgument "CreateVolume Name must be provided") in
  let? _ := guard_res (negb (bool_decide (cv_VolumeCapabilities req = [])))
    (EStatus codes.InvalidArgument "CreateVolume Volume capabilities must be provided") in
  let? _ := or_status (IsValidVolumeCapabilities (cv_VolumeCapabilities req) (MaxShares diskParams))
              codes.InvalidArgument Error in
  let? _ := if perfOptimizationEnabled d && EqualFold (PerfProfile diskParams) consts.PerfProfileAdvanced
            then or_status (AreDeviceSettingsValid cwd consts.DummyBlockDevicePathLinux (DeviceSettings diskParams))
                   codes.InvalidArgument Error
            else Ok () in
  Ok (diskParams, attachMode).

  (** [azuredisk/controllerserver.go CreateVolume 163-180] The size in GiB. *)
Definition requested_size (req : CreateVolumeRequest) (p : ManagedDiskParameters) : res Z :=
  let requestGiB := RoundUpGiB (cv_RequiredBytes req) in
  let requestGiB := if default false (PerformancePlus p)
                       && (requestGiB <? consts.PerformancePlusMinimumDiskSizeGiB)
                    then consts.PerformancePlusMinimumDiskSizeGiB else requestGiB in
  let requestGiB := if requestGiB <? consts.MinimumDiskSizeGiB
                    then consts.MinimumDiskSizeGiB else requestGiB in
  let maxVolSize := RoundUpGiB (cv_LimitBytes req) in
  let? _ := guard_res (negb ((0 <? maxVolSize) && (maxVolSize <? requestGiB)))
    (EStatus codes.InvalidArgument "After round-up, volume size exceeds the limit specified") in
  Ok requestGiB.

  (** The options of the disk with their normalised values: the SKU and the two
      access policies. *)
Record Normalized := MkNormalized {
  n_params : ManagedDiskParameters;
  n_sku : string;
  n_networkAccessPolicy : string;
  n_publicNetworkAccess : string;
  n_diskZone : string;
}.
  (** [azuredisk/controllerserver.go CreateVolume 208-263] *)
Definition normalize_params (localCloud : CloudConfig) (req : CreateVolumeRequest)
    (p : ManagedDiskParameters) : res Normalized :=
  let cloud := cc_Cloud localCloud in
  let nostack := cc_DisableAzureStackCloud localCloud in
  let? _ := guard_res (negb (IsAzureStackCloud cloud nostack && (1 <? MaxShares p)))
    (EStatus codes.InvalidArgument ("Invalid maxShares value: " +:+ Itoa (MaxShares p)
       +:+ " as Azure Stack does not support shared disk.")) in
  let? name := CreateValidDiskName uuid (if String.eqb (DiskName p) "" then cv_Name req else DiskName p) in
  let p := set_DiskName name p in
  let p := if String.eqb (ResourceGroup p) "" then set_ResourceGroup (cc_ResourceGroup (d_cloud d)) p else p in
  let? sku := or_status (NormalizeStorageAccountType (AccountType p) cloud nostack)
                codes.InvalidArgument Error in
  let? _ := or_status (NormalizeCachingMode (CachingMode p)) codes.InvalidArgument Error in
  let p := if String.eqb sku armcompute.DiskStorageAccountTypesPremiumV2LRS
           then set_VolumeContext (default ∅ (SetKeyValueInMap (Some (VolumeContext p))
                  consts.CachingModeField armcompute.CachingTypesNone)) p
           else p in
  let? _ := or_status (ValidateDiskEncryptionType (DiskEncryptionType p)) codes.InvalidArgument Error in
  let? nap := or_status (NormalizeNetworkAccessPolicy (NetworkAccessPolicy p)) codes.InvalidArgument Error in
  let? pna := or_status (NormalizePublicNetworkAccess (PublicNetworkAccess p)) codes.InvalidArgument Error in
  let diskZone := PickAvailabilityZone (cv_AccessibilityRequirements req) (Location p) (topologyKey d) in
  let p := if String.eqb (Location p) "" then
             let region := GetRegionFromAvailabilityZone diskZone in
             set_Location (if negb (String.eqb region "") && negb (String.eqb region (cc_Location (d_cloud d)))
                           then region else cc_Location (d_cloud d)) p
           else p in
  Ok (MkNormalized p sku nap pna diskZone).

  (** *** The source *)
  (** [azuredisk/controllerserver.go getSnapshot] *)
Definition getSnapshot (sourceID : string) : D (option Snapshot) :=
  let! (subsID, resourceGroup, snapshotName) := lift (GetInfoFromURI sourceID) in
  let! snapClient := svc (GetSnapshotClientForSub subsID) in
  svc (snapshot_Get snapClient resourceGroup snapshotName).
  (** [azuredisk/controllerserver.go getDiskSizeInBytesFromSnapshot] *)
Definition getDiskSizeInBytesFromSnapshot (s : option Snapshot) : res Z :=
  match s with
  | None => Err (EStatus codes.NotFound "Snapshot is nil")
  | Some s => match snap_Properties s ≫= sp_DiskSizeBytes with
              | None => Err (EStatus codes.NotFound "Snapshot size not found")
              | Some size => Ok size
              end
  end.
  (** [azuredisk/controllerserver.go getSnapshotSKUFromSnapshot] *)
Definition getSnapshotSKUFromSnapshot (s : option Snapshot) : res string :=
  match s with
  | None => Err (EStatus codes.NotFound "Snapshot is nil")
  | Some s => match snap_SKU s with
              | Some (Some name) => Ok name
              | _ => Err (EStatus codes.NotFound "Snapshot SKU property not found")
              end
  end.

  (** The errors of [GetSourceDiskSize]. *)
Definition internal (msg : string) : gerr := EStatus codes.Internal msg.
  (** [azuredisk/controllerserver.go GetSourceDiskSize] [depth] is the number of disks
      that may still be looked at: [maxDepth - curDepth + 1]. *)
Fixpoint source_disk_size (depth : nat) (curDepth maxDepth : Z)
    (subsID resourceGroup diskName : string) : D (Z * Disk) :=
  match depth with
  | O => fail (internal ("current depth (" +:+ Itoa curDepth +:+ ") surpassed the max depth ("
                         +:+ Itoa maxDepth +:+ ") while searching for the source disk size"))
  | S depth' =>
      let! result := ctl (GetDisk others subsID resourceGroup diskName) in
      match result, result ≫= disk_Properties with
      | Some disk, Some p =>
          if bool_decide (p_CreationData p ≫= CreateOption = Some armcompute.DiskCreateOptionCopy) then
            let! sourceResourceID := lift (deref (p_CreationData p ≫= SourceResourceID)) in
            let! (subsID, parentResourceGroup, parentDiskName) :=
              lift (or_status (GetInfoFromURI sourceResourceID) codes.Internal
                (λ e, "failed to get subscription id, resource group from disk uri ("
                      +:+ sourceResourceID +:+ ") with error(" +:+ Error e +:+ ")")) in
            source_disk_size depth' (curDepth + 1) maxDepth subsID parentResourceGroup parentDiskName
          else match DiskSizeGB p with
               | None => fail (internal ("DiskSizeGB for disk (" +:+ diskName +:+ ") in resourcegroup ("
                                         +:+ resourceGroup +:+ ") is nil"))
               | Some size => ret (size, disk)
               end
      | _, _ => fail (internal ("DiskProperty not found for disk (" +:+ diskName
                                +:+ ") in resource group (" +:+ resourceGroup +:+ ")"))
      end
  end.
  (** [azuredisk/controllerserver.go GetSourceDiskSize] *)
Definition GetSourceDiskSize (subsID resourceGroup diskName : string) (curDepth maxDepth : Z)
    : D (Z * Disk) :=
  source_disk_size (Z.to_nat (maxDepth - curDepth + 1)) curDepth maxDepth subsID resourceGroup diskName.

  (** What the source of the content says: its identifier, type and SKU, whether
      the size is supplied, and the zone and the context of the volume. *)
Record Source := MkSource {
  src_ID : string;
  src_Type : string;
  src_SKU : string;
  src_supplySize : bool;
  src_zone : string;
  src_params : ManagedDiskParameters;
}.
  (** [azuredisk/controllerserver.go CreateVolume 281-316] *)
Definition snapshot_source (id sku zone : string) (p : ManagedDiskParameters) (requestGiB : Z) : D Source :=
  let! snapshot := status_on (getSnapshot id) codes.NotFound Error in
  let supply := match getDiskSizeInBytesFromSnapshot snapshot with
                | Ok bytes => let g := RoundUpGiB bytes in
                              negb ((requestGiB <? g) && (g - requestGiB <=? maxSnapshotSizeDifferenceAllowed))
                | _ => true
                end in
  let srcSKU := if String.eqb sku armcompute.DiskStorageAccountTypesPremiumV2LRS && d_migrationMonitor d
                then match getSnapshotSKUFromSnapshot snapshot with Ok n => n | _ => "" end else "" in
  ret (MkSource id consts.SourceSnapshot srcSKU supply zone p).
  (** [azuredisk/controllerserver.go CreateVolume 317-350] *)
Definition volume_source (id zone : string) (p : ManagedDiskParameters) (requestGiB : Z) : D Source :=
  let! (subsID, resourceGroup, diskName) := lift (or_status (GetInfoFromURI id) codes.NotFound Error) in
  let! r := try (GetSourceDiskSize subsID resourceGroup diskName 0 consts.SourceDiskSearchMaxDepth) in
  match r with
  | inl _ => ret (MkSource id consts.SourceVolume "" true zone p)
  | inr (sourceGiB, disk) =>
      let p := if sourceGiB <? int32 requestGiB
               then set_VolumeContext (<[consts.ResizeRequired := "true"]> (VolumeContext p)) p else p in
      let zone := match Zones disk with
                  | [Some z] => Location p +:+ "-" +:+ z
                  | _ => zone
                  end in
      let! sku := if d_migrationMonitor d then
                    match disk_SKU disk with
                    | Some name => lift (deref name)
                    | None => ret ""
                    end
                  else ret "" in
      ret (MkSource id consts.SourceVolume sku true zone p)
  end.
  (** [azuredisk/controllerserver.go CreateVolume 277-351] *)
Definition content_source (req : CreateVolumeRequest) (n : Normalized) (requestGiB : Z) : D Source :=
  match cv_ContentSource req with
  | None => ret (MkSource "" "" "" true (n_diskZone n) (n_params n))
  | Some (SourceSnapshot id) => snapshot_source id (n_sku n) (n_diskZone n) (n_params n) requestGiB
  | Some (SourceVolume id) => volume_source id (n_diskZone n) (n_params n) requestGiB
  | Some SourceNone => volume_source "" (n_diskZone n) (n_params n) requestGiB
  end.

  (** [azuredisk/controllerserver.go CreateVolume 353-374] The zone of the disk and the
      topologies from which the volume can be used. *)
Definition accessible_topology (sku location diskZone : string) : string * list (gmap string string) :=
  let seg z : gmap string string := {[ topologyKey d := z ]} in
  if HasSuffix (ToLower sku) "zrs"
  then ("", map (λ i, seg (location +:+ "-" +:+ Itoa i)) [1; 2; 3; 4] ++ [seg ""])
  else (diskZone, [seg diskZone]).

  (** [azuredisk/controllerserver.go CreateVolume 379-386] The limits of an Ultra disk
      for which none is given follow from its size. *)
Definition default_limits (sku : string) (requestGiB : Z) (p : ManagedDiskParameters)
    : ManagedDiskParameters :=
  if String.eqb sku armcompute.DiskStorageAccountTypesUltraSSDLRS
     && String.eqb (DiskIOPSReadWrite p) "" && String.eqb (DiskMBPSReadWrite p) ""
  then set_DiskMBPSReadWrite (Itoa (getDefaultDiskMBPSReadWrite requestGiB))
         (set_DiskIOPSReadWrite (Itoa (getDefaultDiskIOPSReadWrite requestGiB)) p)
  else p.

  (** [azuredisk/controllerserver.go CreateVolume 395-424] *)
Definition volume_options (localCloud : CloudConfig) (n : Normalized) (p : ManagedDiskParameters)
    (src : Source) (diskZone : string) (sizeGB : Z) (throttled : bool) : ManagedDiskOptions :=
  let stack := IsAzureStackCloud (cc_Cloud localCloud) (cc_DisableAzureStackCloud localCloud) in
  MkManagedDiskOptions (n_sku n) (DiskName p) (ResourceGroup p) diskZone (Tags p)
    (DiskIOPSReadWrite p) (DiskMBPSReadWrite p) (src_ID src) (src_Type src)
    (DiskEncryptionSetID p) (DiskEncryptionType p) sizeGB (int32 (MaxShares p))
    (int32 (LogicalSectorSize p)) throttled
    (if stack then "" else n_publicNetworkAccess n) (if stack then "" else n_networkAccessPolicy n)
    (if stack || String.eqb (DiskAccessID p) "" then None else Some (DiskAccessID p))
    (EnableBursting p) (SubscriptionID p) (Location p) (PerformancePlus p).

  (** [azuredisk/controllerserver.go CreateVolume 434-453] The status for a failed
      creation; a throttled one is retried by the caller. *)
Definition creation_status (e : gerr) : gerr :=
  if Contains (Error e) consts.NotFound then EStatus codes.NotFound (Error e)
  else if IsThrottlingError (Some e) then EStatus codes.Aborted (Error e)
  else EStatus codes.Internal (Error e).

  (** [azuredisk/controllerserver.go CreateVolume 455-482] The claim of a node-driven
      disk: the volume context gets what the nodes need. *)
Definition claim_created (ctx : Ctx) (diskURI : string) (sizeGiB : Z) (vctx : gmap string string)
    : D (gmap string string) :=
  let! cachePolicy := lift (or_status (GetCachingMode vctx) codes.InvalidArgument
    (λ e, "failed to determine QAD cache policy: " +:+ Error e)) in
  let vctx := <[consts.CachingModeField := effectiveCachingModeForDisk cachePolicy (Some (int32 sizeGiB))]> vctx in
  let! owner := status_on (getAKSClusterResourceID d others) codes.Aborted
    (λ e, "failed to determine QAD owner resource: " +:+ Error e) in
  let! (blobURL, claimIdentifier) := status_on (claimDiskResource d others fuel ctx diskURI owner) codes.Aborted
    (λ e, "failed to claim QAD disk " +:+ diskURI +:+ ": " +:+ Error e) in
  let! _ := guard_else (negb (String.eqb blobURL ""))
    (EStatus codes.Aborted ("QAD blob URL missing for disk " +:+ diskURI)) in
  let! _ := guard_else (negb (String.eqb claimIdentifier ""))
    (EStatus codes.Aborted ("QAD claim identifier missing for disk " +:+ diskURI)) in
  ret (<[consts.ClaimIdentifierAnnotation := claimIdentifier]>
        (<[consts.BlobURLAnnotation := blobURL]> vctx)).

  (** [azuredisk/controllerserver.go startSKUMigrationMonitor] Only a migration to
      PremiumV2 is monitored; a failure to start is only logged. *)
Definition startSKUMigrationMonitor (isProvisioningFlow : bool)
    (fromSKUStr toSKU diskURI pvName : string) (sizeBytes : Z) : D unit :=
  if negb (d_migrationMonitor d) || String.eqb fromSKUStr "" then ret ()
  else if negb (String.eqb toSKU armcompute.DiskStorageAccountTypesPremiumV2LRS)
          || String.eqb fromSKUStr toSKU then ret ()
  else
    let! name := if String.eqb pvName "" then
                   match GetInfoFromURI diskURI with
                   | Ok (_, _, n) => ret (Some n)
                   | Err _ => ret None
                   | Panic => panic
                   end
                 else ret (Some pvName) in
    match name with
    | None => ret ()
    | Some n => let! _ := try (StartMigrationMonitoring d others isProvisioningFlow diskURI n fromSKUStr
                                toSKU sizeBytes) in ret ()
    end.

  (** [azuredisk/controllerserver.go CreateVolume 163-275] What the request says about
      the disk, on the cloud the user agent asks for: the options, their
      normalised values, and the size unless a disk of another size exists. *)
Definition create_inputs (req : CreateVolumeRequest) (p : ManagedDiskParameters)
    : D (CloudConfig * Normalized * Z) :=
  let! requestGiB := lift (requested_size req p) in
  let! localCloud := if String.eqb (UserAgent p) "" then ret (d_cloud d)
                     else status_on (svc (GetCloudProviderFromClient windows co (UserAgent p))) codes.Internal
                       (λ e, "create cloud with UserAgent(" +:+ UserAgent p +:+ ") failed with: ("
                             +:+ Error e +:+ ")") in
  let! n := lift (normalize_params localCloud req p) in
  let p := n_params n in
  let! _ := if enableDiskCapacityCheck d
            then checkDiskCapacity d others (SubscriptionID p) (ResourceGroup p) (DiskName p) requestGiB
            else ret () in
  let p := if EqualFold (pd_WriteAcceleratorEnabled p) consts.TrueValue
           then set_Tags (<[consts.WriteAcceleratorEnabled := consts.TrueValue]> (Tags p)) p else p in
  ret (localCloud, MkNormalized p (n_sku n) (n_networkAccessPolicy n) (n_publicNetworkAccess n) (n_diskZone n),
       requestGiB).

  (** [azuredisk/controllerserver.go CreateVolume 277-497] The source, the creation and
      the answer. *)
Definition create_disk (ctx : Ctx) (req : CreateVolumeRequest) (attachMode : string)
    (localCloud : CloudConfig) (n : Normalized) (requestGiB : Z) : D CsiVolume :=
  let! src := content_source req n requestGiB in
  let p := src_params src in
  let '(diskZone, topology) := accessible_topology (n_sku n) (Location p) (src_zone src) in
  let p := default_limits (n_sku n) requestGiB p in
  let vctx := <[consts.RequestedSizeGib := Itoa requestGiB]> (VolumeContext p) in
  let sizeGB := if negb (src_supplySize src) && String.eqb (src_Type src) consts.SourceSnapshot
                then 0 else requestGiB in
  let! throttled := isGetDiskThrottled d others in
  let! r := try (ctl (CreateManagedDisk others localCloud ctx
                   (volume_options localCloud n p src diskZone sizeGB throttled))) in
  let! diskURI := match r with inl e => fail (creation_status e) | inr id => ret id end in
  let! vctx := if String.eqb attachMode consts.AttachModeNodeDriven
               then claim_created ctx diskURI requestGiB vctx else ret vctx in
  let! _ := startSKUMigrationMonitor true (src_SKU src) (n_sku n) diskURI (cv_Name req) (cv_RequiredBytes req) in
  let source := match cv_ContentSource req with Some SourceNone => Some (SourceVolume "") | c => c end in
  ret (MkCsiVolume diskURI (GiBToBytes sizeGB) vctx source topology).

  (** [azuredisk/controllerserver.go CreateVolume] *)
Definition CreateVolume (ctx : Ctx) (req : CreateVolumeRequest) : D CsiVolume :=
  let! (p, attachMode) := lift (check_create req) in
  with_volume_lock (cv_Name req)
    (let! (localCloud, n, requestGiB) := create_inputs req p in
     create_disk ctx req attachMode localCloud n requestGiB).
End create.
