(* ===== verification/VolumeOps.v ===== *)
(** * Deleting, modifying, expanding and listing volumes:
      [pkg/azuredisk/controllerserver.go] *)
From stdpp Require Import gmap strings list sorting.
From Stdlib Require Import ZArith QArith Lia.
From S2P Require Import Prelude GoStrings GoErr Consts Util AzureTypes Optimization DiskUtils Cloud DemoCloud CloudProvider Kube ControllerCommon AttachProofs ManagedDisk DriverState Driver Claim Migration CreateVolume.
Local Open Scope string_scope.
Local Open Scope Z_scope.
Local Open Scope list_scope.

(** ** Listing *)
Record VolumeEntry := MkVolumeEntry {
  ve_VolumeId : string;
  ve_PublishedNodeIds : list string;
}.
(** [azuredisk/controllerserver.go listVolumeStatus] *)
Record listVolumeStatus := MkListVolumeStatus {
  numVisited : Z;
  isCompleteRun : bool;
  lv_entries : list VolumeEntry;
  lv_err : option gerr;
}.
Record ListVolumesResponse := MkListVolumesResponse {
  lv_Entries : list VolumeEntry;
  lv_NextToken : string;
}.
(** The order of [sort.Strings]. *)
Definition string_le (a b : string) : Prop := String.leb a b = true.
#[export] Instance string_le_dec a b : Decision (string_le a b).
Proof. unfold string_le. apply _. Defined.
Definition sort_Strings (l : list string) : list string := merge_sort string_le l.

(** The data disks only: an OS disk has a generation. *)
Definition data_disk (disk : Disk) : bool :=
  String.eqb (default "" (disk_Properties disk ≫= HyperVGeneration)) "".

Section volumes.
  Context {W : Type} `{!Cloud W} `{!Kube W} `{!DiskRP W} `{MapOrder}.
  Context (d : DriverConfig) (others : point → CState W → CState W) (fuel : nat).
  Local Notation D := (M (DState W)).
  Local Notation svc := (svc others).

  (** [azuredisk/controllerserver.go DeleteVolume 696-711] A node-driven disk is
      unclaimed first. *)
Definition unclaim_before_delete (ctx : Ctx) (diskURI : string) : D unit :=
  if nodeDrivenAttachDetachEnabled d then
    let! r := try (getPVFromDiskURI d others diskURI) in
    let! pv := match r with
               | inr pv => ret (Some pv)
               | inl e => if errors_Is e errPVNotFound then ret None
                          else fail (EStatus codes.Internal ("failed to get PV from disk URI "
                                       +:+ diskURI +:+ ": " +:+ Error e))
               end in
    if hasQADInfo pv then
      let! owner := status_on (getAKSClusterResourceID d others) codes.Internal
        (λ e, "failed to determine QAD owner resource for disk " +:+ diskURI +:+ ": " +:+ Error e) in
      status_on (unclaimDiskResource d others fuel ctx diskURI owner) codes.Internal
        (λ e, "failed to unclaim QAD disk " +:+ diskURI +:+ ": " +:+ Error e)
    else ret ()
  else ret ().
  (** [azuredisk/controllerserver.go DeleteVolume 713-733] A disk that the cluster has
      claimed is unclaimed after the deletion failed; its error comes back. *)
Definition delete_or_unclaim (ctx : Ctx) (diskURI : string) : D unit :=
  let! r := try (ctl (DeleteManagedDisk others diskURI)) in
  match r with
  | inr _ => ret ()
  | inl e =>
      let! _ := match root_cause e with
                | EDiskManagedBy _ managedBy =>
                    let! r := try (getAKSClusterResourceID d others) in
                    match r with
                    | inl _ => ret ()
                    | inr owner =>
                        if EqualFold managedBy owner
                        then let! _ := try (unclaimDiskResource d others fuel ctx diskURI owner) in ret ()
                        else ret ()
                    end
                | _ => ret ()
                end in
      fail e
  end.
  (** [azuredisk/controllerserver.go DeleteVolume] The text of the invalid request in
      the second error is left out. *)
Definition DeleteVolume (ctx : Ctx) (volumeID : string) : D unit :=
  let! _ := guard_else (negb (String.eqb volumeID ""))
    (EStatus codes.InvalidArgument "Volume ID missing in the request") in
  let! _ := lift (or_status (ValidateControllerServiceRequest d CREATE_DELETE_VOLUME) codes.Internal
    (λ _, "invalid delete volume req: ")) in
  if negb (IsARMResourceID volumeID) then ret ()
  else with_volume_lock volumeID
    (let! _ := unclaim_before_delete ctx volumeID in delete_or_unclaim ctx volumeID).

  (** A volume that its node attaches is not supported by the request [what]. *)
Definition reject_node_driven (what diskURI : string) : D unit :=
  if nodeDrivenAttachDetachEnabled d then
    let! r := try (getPVFromDiskURI d others diskURI) in
    match r with
    | inl e => if errors_Is e errPVNotFound then ret ()
               else fail (EStatus codes.Internal ("failed to get PV from disk URI "
                            +:+ diskURI +:+ ": " +:+ Error e))
    | inr pv => if hasQADInfo (Some pv)
                then fail (EStatus codes.Unimplemented (what +:+ " is not supported for QAD-enabled volume "
                             +:+ diskURI))
                else ret ()
    end
  else ret ().

  (** [azuredisk/controllerserver.go ControllerModifyVolume 787-804] The SKU the disk
      has, and whether the request starts or resumes a migration to PremiumV2. *)
Definition sku_migration (currentDisk : option Disk) (skuName : string) : string * bool :=
  match currentDisk, d_migrationMonitor d with
  | Some disk, true =>
      match disk_Properties disk with
      | None => ("", false)
      | Some p =>
          let fromSKU := match disk_SKU disk with Some (Some n) => n | _ => "" end in
          let monitor := match disk_SKU disk with
                         | Some (Some n) => String.eqb skuName armcompute.DiskStorageAccountTypesPremiumV2LRS
                                            && String.eqb n armcompute.DiskStorageAccountTypesPremiumLRS
                         | _ => false
                         end in
          (fromSKU,
           if monitor then true
           else match DiskSizeGB p, CompletionPercent p with
                | Some _, Some percent =>
                    negb (Qle_bool 100 percent)
                    && String.eqb fromSKU armcompute.DiskStorageAccountTypesPremiumV2LRS
                | _, _ => false
                end)
      end
  | _, _ => ("", false)
  end.
  (** [azuredisk/controllerserver.go ControllerModifyVolume] *)
Definition ControllerModifyVolume (volumeID : string) (mutableParameters : gmap string string) : D unit :=
  let! _ := guard_else (negb (String.eqb volumeID ""))
    (EStatus codes.InvalidArgument "Volume ID missing in the request") in
  let! _ := lift (or_status (ValidateControllerServiceRequest d MODIFY_VOLUME) codes.Internal
    (λ _, "invalid modify volume req: ")) in
  let! mutableParams := lift (or_status (normalizeMutableDiskParameters mutableParameters)
    codes.InvalidArgument (λ e, "Invalid mutable disk parameters: " +:+ Error e)) in
  let! p := lift (or_status (ParseDiskParameters mutableParams) codes.InvalidArgument
    (λ e, "Failed parsing disk parameters: " +:+ Error e)) in
  let diskURI := volumeID in
  let! _ := reject_node_driven "ControllerModifyVolume" diskURI in
  let! currentDisk := status_on (checkDiskExists d others diskURI) codes.NotFound
    (λ e, "Volume not found, failed with error: " +:+ Error e) in
  let! skuName := lift (or_status (NormalizeStorageAccountType (AccountType p) (cc_Cloud (d_cloud d))
    (cc_DisableAzureStackCloud (d_cloud d))) codes.InvalidArgument Error) in
  let skuName := if String.eqb (AccountType p) "" then "" else skuName in
  let '(fromSKU, monitorSKUMigration) := sku_migration currentDisk skuName in
  let o := MkManagedDiskOptions skuName "" (ResourceGroup p) "" ∅ (DiskIOPSReadWrite p) (DiskMBPSReadWrite p)
             diskURI consts.SourceVolume "" "" 0 0 0 false "" "" None None (SubscriptionID p) "" None in
  let! r := try (ctl (ModifyDisk others o)) in
  let! _ := match r with
            | inr _ => ret ()
            | inl e => fail (if Contains (Error e) consts.NotFound then EStatus codes.NotFound (Error e)
                             else EStatus codes.Internal (Error e))
            end in
  if monitorSKUMigration then
    let! disk := lift (deref currentDisk) in
    let! prop := lift (deref (disk_Properties disk)) in
    let! size := lift (deref (DiskSizeGB prop)) in
    startSKUMigrationMonitor d others false fromSKU skuName diskURI "" (int64 (size * GiB))
  else ret ().

  (** [azuredisk/controllerserver.go ControllerExpandVolume] The new size in bytes.
      What the node's cache says about the disk is dropped; failures of that are
      only logged. *)
Definition ControllerExpandVolume (diskURI : string) (capacityBytes : Z) : D Z :=
  let! _ := guard_else (negb (String.eqb diskURI ""))
    (EStatus codes.InvalidArgument "Volume ID missing in the request") in
  let! _ := lift (or_status (ValidateControllerServiceRequest d EXPAND_VOLUME) codes.InvalidArgument
    (λ _, "invalid expand volume request: ")) in
  let! _ := guard_else (negb (capacityBytes =? 0))
    (EStatus codes.InvalidArgument "volume capacity range missing in request") in
  let! _ := reject_node_driven "ControllerExpandVolume" diskURI in
  let! result := status_on (ctl (GetDiskByURI others diskURI)) codes.Internal
    (λ e, "GetDiskByURI(" +:+ diskURI +:+ ") failed with error(" +:+ Error e +:+ ")") in
  let! _ := match (result ≫= disk_Properties) ≫= DiskSizeGB with
            | Some _ => ret ()
            | None => fail (EStatus codes.Internal ("could not get size of the disk(" +:+ diskURI +:+ ")"))
            end in
  let! newSize := status_on (ctl (ResizeDisk others diskURI capacityBytes (enableDiskOnlineResize d)))
    codes.Internal (λ e, "failed to resize disk(" +:+ diskURI +:+ ") with error(" +:+ Error e +:+ ")") in
  let! _ := match result ≫= ManagedBy with
            | None => ret ()
            | Some managedBy =>
                let! r := try (svc (vm_GetNodeNameByProviderID cloud_VMSet managedBy)) in
                match r with
                | inl _ => ret ()
                | inr node => let! _ := try (svc (vm_DeleteCacheForNode cloud_VMSet node)) in ret ()
                end
            end in
  ret newSize.

  (** *** Listing *)
  (** [azuredisk/controllerserver.go listVolumesByResourceGroup 1431-1467] The loop from
      the index [i]; [volSet] is [None] without Kubernetes. *)
Fixpoint list_disks (disks : list Disk) (i maxEntries : Z) (volSet : option (gset string))
    (entries : list VolumeEntry) : D (Z * bool * list VolumeEntry) :=
  match disks with
  | [] => ret (i, true, entries)
  | disk :: disks' =>
      if (0 <? maxEntries) && (maxEntries <=? Z.of_nat (length entries)) then ret (i, false, entries)
      else
        let! skip := match volSet with
                     | None => ret false
                     | Some v => let! id := lift (deref (disk_ID disk)) in
                                 ret (negb (bool_decide (ToLower id ∈ v)))
                     end in
        if skip || negb (data_disk disk) then list_disks disks' (i + 1) maxEntries volSet entries
        else
          let! nodes := match ManagedBy disk with
                        | None => ret []
                        | Some m => let! n := svc (vm_GetNodeNameByProviderID cloud_VMSet m) in ret [n]
                        end in
          let! id := lift (deref (disk_ID disk)) in
          list_disks disks' (i + 1) maxEntries volSet (entries ++ [MkVolumeEntry id nodes])
  end.
  (** [azuredisk/controllerserver.go listVolumesByResourceGroup] *)
Definition listVolumesByResourceGroup (resourceGroup : string) (entries : list VolumeEntry)
    (start maxEntries : Z) (volSet : option (gset string)) : D listVolumeStatus :=
  let failed e := MkListVolumeStatus 0 false [] (Some e) in
  let! r := try (svc (disk_List GetDiskClient resourceGroup)) in
  match r with
  | inl e => ret (failed (EStatus codes.Internal ("ListVolumes on rg(" +:+ resourceGroup
                            +:+ ") failed with error: " +:+ Error e)))
  | inr disks =>
      let n := Z.of_nat (length disks) in
      if bool_decide (volSet = Some ∅) then ret (MkListVolumeStatus n true entries None)
      else if (0 <? start) && (n <=? start)
      then ret (MkListVolumeStatus n false [] (Some (EStatus codes.FailedPrecondition
             ("ListVolumes starting token(" +:+ Itoa start +:+ ") on rg(" +:+ cc_ResourceGroup (d_cloud d)
              +:+ ") is greater than total number of volumes"))))
      else
        let start := if start <? 0 then 0 else start in
        let! r := try (list_disks (drop (Z.to_nat start) disks) start maxEntries volSet entries) in
        match r with
        | inl e => ret (failed e)
        | inr (i, complete, entries) => ret (MkListVolumeStatus (i - start) complete entries None)
        end
  end.
  (** [azuredisk/controllerserver.go listVolumesInNodeResourceGroup] *)
Definition listVolumesInNodeResourceGroup (start maxEntries : Z) : D ListVolumesResponse :=
  let! st := listVolumesByResourceGroup (cc_ResourceGroup (d_cloud d)) [] start maxEntries None in
  match lv_err st with
  | Some e => fail e
  | None => ret (MkListVolumesResponse (lv_entries st)
                   (if isCompleteRun st then "" else Itoa (numVisited st)))
  end.

  (** [azuredisk/controllerserver.go listVolumesInCluster 1316-1334] The resource groups
      and the URIs, in lower case, of the volumes of this driver. *)
Definition cluster_volumes (pvs : list PersistentVolume) : gset string * gset string :=
  foldr (λ pv acc,
    match pv_CSI pv with
    | Some c =>
        if String.eqb (csi_Driver c) (d_Name d) then
          match GetInfoFromURI (csi_VolumeHandle c) with
          | Ok (_, rg, _) => ({[ToLower rg]} ∪ acc.1, {[ToLower (csi_VolumeHandle c)]} ∪ acc.2)
          | _ => acc
          end
        else acc
    | None => acc
    end) (∅, ∅) pvs.
  (** [azuredisk/controllerserver.go listVolumesInCluster 1346-1369] The loop over the
      resource groups. *)
Fixpoint list_groups (groups : list string) (start maxEntries : Z) (volSet : gset string)
    (entries : list VolumeEntry) (visited : Z) (complete startFound : bool)
    : D (list VolumeEntry * Z * bool * bool) :=
  match groups with
  | [] => ret (entries, visited, complete, startFound)
  | rg :: groups' =>
      if negb complete || ((0 <? maxEntries) && (maxEntries <=? Z.of_nat (length entries)))
      then ret (entries, visited, false, startFound)
      else
        let localStart := if startFound then 0 else start - visited in
        let! st := listVolumesByResourceGroup rg entries localStart
                     (maxEntries - Z.of_nat (length entries)) (Some volSet) in
        let visited := visited + numVisited st in
        match lv_err st with
        | Some e =>
            if bool_decide (status_Code e = codes.FailedPrecondition)
            then list_groups groups' start maxEntries volSet entries visited complete startFound
            else fail e
        | None => list_groups groups' start maxEntries volSet (lv_entries st) visited
                    (complete && isCompleteRun st) true
        end
  end.
  (** [azuredisk/controllerserver.go listVolumesInCluster] *)
Definition listVolumesInCluster (start maxEntries : Z) : D ListVolumesResponse :=
  let! pvs := status_on (svc pv_List) codes.Internal
    (λ e, "ListVolumes failed while fetching PersistentVolumes List with error: " +:+ Error e) in
  let '(rgs, volSet) := cluster_volumes pvs in
  let! (entries, visited, complete, startFound) :=
    list_groups (sort_Strings (elements rgs)) start maxEntries volSet [] 0 true false in
  if (0 <? start) && negb startFound
  then fail (EStatus codes.FailedPrecondition ("ListVolumes starting token(" +:+ Itoa start
               +:+ ") is greater than total number of disks"))
  else ret (MkListVolumesResponse entries (if complete then "" else Itoa (start + visited))).

  (** [azuredisk/controllerserver.go ListVolumes] *)
Definition ListVolumes (token : string) (maxEntries : Z) : D ListVolumesResponse :=
  let! start := if String.eqb token "" then ret 0
                else match Atoi token with
                     | None => fail (EStatus codes.Aborted ("ListVolumes starting token(" +:+ token
                                 +:+ ") parsing with error: " +:+ num_error "Atoi" token))
                     | Some start =>
                         if start <? 0
                         then fail (EStatus codes.Aborted ("ListVolumes starting token(" +:+ Itoa start
                                      +:+ ") can not be negative"))
                         else ret start
                     end in
  if cloud_KubeClient d then listVolumesInCluster start maxEntries
  else listVolumesInNodeResourceGroup start maxEntries.

  (** [azuredisk/controllerserver.go ControllerGetVolume] *)
Definition ControllerGetVolume : D unit := fail (EStatus codes.Unimplemented "").
  (** [azuredisk/controllerserver.go GetCapacity] *)
Definition GetCapacity : D unit := fail (EStatus codes.Unimplemented "").
  (** [azuredisk/controllerserver.go ControllerGetCapabilities] *)
Definition ControllerGetCapabilities : D (list ControllerCap) := ret (d_Cap d).
End volumes.
