(* ===== verification/SnapshotServer.v ===== *)
(** * Snapshots: [pkg/azuredisk/controllerserver.go]

    Creating a snapshot, in the region of the disk or, through a local snapshot
    that is copied and then deleted, in another one; deleting and listing. *)
From stdpp Require Import gmap strings list.
From Stdlib Require Import ZArith QArith Lia.
From S2P Require Import Prelude GoStrings GoErr Consts Util AzureTypes DiskUtils SnapshotUtils Cloud DemoCloud CloudProvider Kube ControllerCommon AttachProofs ManagedDisk DriverState Driver.
Local Open Scope string_scope.
Local Open Scope Z_scope.
Local Open Scope list_scope.

Definition waitForSnapshotReadyInterval : Z := 5 * Second.
Definition waitForSnapshotReadyTimeout : Z := 600 * Second.

(** ** The parameters of the snapshot class *)
Record CreateSnapshotRequest := MkCreateSnapshotRequest {
  cs_SourceVolumeId : string;
  cs_Name : string;
  cs_Parameters : gmap string string;
}.
(** The variables the loop over the parameters sets. *)
Record SnapshotParams := MkSnapshotParams {
  sn_customTags : string;
  sn_incremental : bool;
  sn_resourceGroup : string;
  sn_location : string;
  sn_cloud : CloudConfig;
  sn_subsID : string;
  sn_dataAccessAuthMode : string;
  sn_networkAccessPolicy : string;
  sn_publicNetworkAccess : string;
  sn_tagValueDelimiter : string;
  sn_tags : gmap string (option string);
  sn_instantAccess : option Z;
}.
(** A text parameter, as an assignment to its variable. *)
Definition snapshot_text (key v : string) (s : SnapshotParams) : option SnapshotParams :=
  let '(MkSnapshotParams ct inc rg loc c sub da na pna del tags ia) := s in
  if String.eqb key consts.TagsField then Some (MkSnapshotParams v inc rg loc c sub da na pna del tags ia)
  else if String.eqb key consts.IncrementalField
  then Some (MkSnapshotParams ct (if String.eqb v "false" then false else inc) rg loc c sub da na pna del tags ia)
  else if String.eqb key consts.ResourceGroupField then Some (MkSnapshotParams ct inc v loc c sub da na pna del tags ia)
  else if String.eqb key consts.LocationField then Some (MkSnapshotParams ct inc rg v c sub da na pna del tags ia)
  else if String.eqb key consts.SubscriptionIDField then Some (MkSnapshotParams ct inc rg loc c v da na pna del tags ia)
  else if String.eqb key consts.DataAccessAuthModeField then Some (MkSnapshotParams ct inc rg loc c sub v na pna del tags ia)
  else if String.eqb key consts.NetworkAccessPolicyField then Some (MkSnapshotParams ct inc rg loc c sub da v pna del tags ia)
  else if String.eqb key consts.PublicNetworkAccessField then Some (MkSnapshotParams ct inc rg loc c sub da na v del tags ia)
  else if String.eqb key consts.TagValueDelimiterField then Some (MkSnapshotParams ct inc rg loc c sub da na pna v tags ia)
  else if String.eqb key consts.VolumeSnapshotNameKey
  then Some (MkSnapshotParams ct inc rg loc c sub da na pna del (<[consts.SnapshotNameTag := Some v]> tags) ia)
  else if String.eqb key consts.VolumeSnapshotNamespaceKey
  then Some (MkSnapshotParams ct inc rg loc c sub da na pna del (<[consts.SnapshotNamespaceTag := Some v]> tags) ia)
  else if String.eqb key consts.VolumeSnapshotContentNameKey then Some s
  else None.
Definition set_sn_instantAccess (v : option Z) (s : SnapshotParams) : SnapshotParams :=
  MkSnapshotParams (sn_customTags s) (sn_incremental s) (sn_resourceGroup s) (sn_location s) (sn_cloud s)
    (sn_subsID s) (sn_dataAccessAuthMode s) (sn_networkAccessPolicy s) (sn_publicNetworkAccess s)
    (sn_tagValueDelimiter s) (sn_tags s) v.
Definition set_sn_cloud (c : CloudConfig) (s : SnapshotParams) : SnapshotParams :=
  MkSnapshotParams (sn_customTags s) (sn_incremental s) (sn_resourceGroup s) (sn_location s) c
    (sn_subsID s) (sn_dataAccessAuthMode s) (sn_networkAccessPolicy s) (sn_publicNetworkAccess s)
    (sn_tagValueDelimiter s) (sn_tags s) (sn_instantAccess s).
(** [azuredisk/controllerserver.go CreateSnapshot 1619-1627] *)
Definition instant_access (v : string) : res Z :=
  match ParseInt v 64 with
  | None => invalid ("invalid value(" +:+ v +:+ ") for " +:+ consts.InstantAccessDurationMinutes +:+ ": "
                     +:+ num_error "ParseInt" v)
  | Some t => if (t <? 60) || (300 <? t)
              then invalid ("invalid value(" +:+ Itoa t +:+ ") for " +:+ consts.InstantAccessDurationMinutes
                            +:+ ": must be between 60 and 300 minutes")
              else Ok t
  end.

Section snapshots.
  Context {W : Type} `{!Cloud W} `{!ConfigSource W} `{!Kube W} `{MapOrder}.
  Context (d : DriverConfig) (others : point → CState W → CState W).
  Context (uuid : string → string) (co : CloudOptions) (windows : bool).
  Local Notation D := (M (DState W)).
  Local Notation svc := (svc others).

  (** [azuredisk/controllerserver.go CreateSnapshot 1572-1631] The loop over the
      parameters. *)
Fixpoint snapshot_params (l : list (string * string)) (s : SnapshotParams) : D SnapshotParams :=
  match l with
  | [] => ret s
  | (k, v) :: l' =>
      let key := ToLower k in
      match snapshot_text key v s with
      | Some s' => snapshot_params l' s'
      | None =>
          if String.eqb key consts.UserAgentField then
            let! c := status_on (svc (GetCloudProviderFromClient windows co v)) codes.Internal
              (λ e, "create cloud with UserAgent(" +:+ v +:+ ") failed with: (" +:+ Error e +:+ ")") in
            snapshot_params l' (set_sn_cloud c s)
          else if String.eqb key consts.InstantAccessDurationMinutes then
            let! t := lift (instant_access v) in snapshot_params l' (set_sn_instantAccess (Some t) s)
          else fail (EStatus codes.Internal ("AzureDisk - invalid option " +:+ k +:+ " in VolumeSnapshotClass"))
      end
  end.

  (** [azuredisk/controllerserver.go CreateSnapshot 1633-1697] The snapshot that is sent
      to ARM, its subscription and resource group. *)
Definition snapshot_model (sourceVolumeID : string) (s : SnapshotParams) : res (Snapshot * bool * string) :=
  let incremental := if IsAzureStackCloud (cc_Cloud (sn_cloud s)) (cc_DisableAzureStackCloud (sn_cloud s))
                     then false else sn_incremental s in
  let? rg := if String.eqb (sn_resourceGroup s) "" then
               let? (_, rg, _) := or_status (GetInfoFromURI sourceVolumeID) codes.InvalidArgument
                 (λ e, "could not get resource group from diskURI(" +:+ sourceVolumeID
                       +:+ ") with error(" +:+ Error e +:+ ")") in Ok rg
             else Ok (sn_resourceGroup s) in
  let? custom := or_status (ConvertTagsToMap (sn_customTags s) (sn_tagValueDelimiter s))
                   codes.InvalidArgument Error in
  let tags := (Some <$> custom)
    ∪ <["source_volume_id" := Some sourceVolumeID]>
        (<[CreatedByTag := Some consts.AzureDiskDriverTag]> (sn_tags s)) in
  let? mode := if String.eqb (sn_dataAccessAuthMode s) "" then Ok None
               else let? _ := or_status (ValidateDataAccessAuthMode (sn_dataAccessAuthMode s))
                                codes.InvalidArgument Error in Ok (Some (sn_dataAccessAuthMode s)) in
  let? policy := if String.eqb (sn_networkAccessPolicy s) "" then Ok None
                 else let? p := or_status (NormalizeNetworkAccessPolicy (sn_networkAccessPolicy s))
                                  codes.InvalidArgument Error in Ok (Some p) in
  let? pna := if String.eqb (sn_publicNetworkAccess s) "" then Ok None
              else let? p := or_status (NormalizePublicNetworkAccess (sn_publicNetworkAccess s))
                               codes.InvalidArgument Error in Ok (Some p) in
  let creation := MkCreationData (Some armcompute.DiskCreateOptionCopy) (Some sourceVolumeID) None
                    (sn_instantAccess s) None in
  let p := MkSnapshotProperties None None None None None (Some creation) (Some incremental) mode policy pna in
  Ok (MkSnapshot None None (Some (cc_Location (d_cloud d))) (Some p) None tags
        (cc_ExtendedLocation (d_cloud d)), incremental, rg).
  (** [azuredisk/controllerserver.go CreateSnapshot 1763-1772] The copy in the other
      region. *)
Definition cross_region_model (snapshot : Snapshot) (sourceID location : string) : Snapshot :=
  let p := default (MkSnapshotProperties None None None None None None None None None None)
                   (snap_Properties snapshot) in
  let c := default empty_CreationData (sp_CreationData p) in
  set_snap_Location (Some location)
    (set_snap_Properties (Some (set_sp_CreationData (Some (set_CreateOption (Some armcompute.DiskCreateOptionCopyStart)
       (set_SourceResourceID (Some sourceID) c))) p)) snapshot).

  (** [azuredisk/controllerserver.go getSnapshotByID] *)
Definition getSnapshotByID (subsID resourceGroup snapshotID sourceVolumeID : string) : D csiSnapshot :=
  let! (subsID, resourceGroup, snapshotName) :=
    lift (if IsARMResourceID snapshotID
          then or_status (GetInfoFromURI snapshotID) codes.InvalidArgument Error
          else Ok (subsID, resourceGroup, snapshotID)) in
  let! client := status_on (svc (GetSnapshotClientForSub subsID)) codes.Internal
    (λ e, "could not get snapshot client for subscription(" +:+ subsID +:+ ") with error(" +:+ Error e +:+ ")") in
  let! snapshot := status_on (svc (snapshot_Get client resourceGroup snapshotName)) codes.Internal
    (λ e, "get snapshot " +:+ snapshotName +:+ " from rg(" +:+ resourceGroup +:+ ") error: " +:+ Error e) in
  lift (GenerateCSISnapshot sourceVolumeID snapshot).

  (** A pause after a throttled request. *)
Definition sleep_if_throttled (e : gerr) : D unit :=
  let secs := SleepIfThrottled (Some e) consts.SnapshotOpThrottlingSleepSec in
  if 0 <? secs then svc (Sleep (secs * Second)) else ret ().
  (** [azuredisk/controllerserver.go CreateSnapshot 1735-1742] A request for a snapshot
      and the status for its failure. *)
Definition put_snapshot (client : SnapshotClient) (resourceGroup name : string) (snapshot : Snapshot) : D unit :=
  let! r := try (svc (snapshot_CreateOrUpdate client resourceGroup name snapshot)) in
  match r with
  | inr _ => ret ()
  | inl e =>
      if Contains (Error e) "existing disk"
      then fail (EStatus codes.AlreadyExists ("request snapshot(" +:+ name +:+ ") under rg(" +:+ resourceGroup
             +:+ ") already exists, but the SourceVolumeId is different, error details: " +:+ Error e))
      else let! _ := sleep_if_throttled e in
           fail (EStatus codes.Internal ("create snapshot error: " +:+ Error e))
  end.
  (** [azuredisk/controllerserver.go CreateSnapshot 1745-1749] *)
Definition wait_ready (subsID resourceGroup name : string) : D unit :=
  if shouldWaitForSnapshotReady d
  then status_on (waitForSnapshotReady others subsID resourceGroup name waitForSnapshotReadyInterval
                    waitForSnapshotReadyTimeout) codes.Internal
         (λ e, "waitForSnapshotReady(" +:+ subsID +:+ ", " +:+ resourceGroup +:+ ", " +:+ name
               +:+ ") failed with " +:+ Error e)
  else ret ().

  (** [azuredisk/controllerserver.go CreateSnapshot 1760-1809] The copy to another region,
      when the local snapshot is ready; it is deleted when the copy is ready. *)
Definition cross_region (client : SnapshotClient) (subsID resourceGroup name crossName sourceVolumeID : string)
    (location : string) (snapshot : Snapshot) (local : csiSnapshot) : D csiSnapshot :=
  if String.eqb crossName "" then ret local
  else if ReadyToUse local then
    let! r := try (getSnapshotByID subsID resourceGroup crossName sourceVolumeID) in
    let! _ := match r with
              | inr _ => ret ()
              | inl _ => put_snapshot client resourceGroup crossName
                           (cross_region_model snapshot (SnapshotId local) location)
              end in
    let! _ := wait_ready subsID resourceGroup crossName in
    let! copy := status_on (getSnapshotByID subsID resourceGroup crossName sourceVolumeID) codes.Internal Error in
    let! _ := if ReadyToUse copy then
                let! r := try (svc (snapshot_Delete client resourceGroup name)) in
                match r with inl e => sleep_if_throttled e | inr _ => ret () end
              else ret () in
    ret copy
  else ret (set_SnapshotId (TrimSuffix (SnapshotId local) name +:+ crossName) local).

  (** [azuredisk/controllerserver.go CreateSnapshot 1704-1817] What happens under the
      lock of the name. *)
Definition create_snapshot (sourceVolumeID snapshotName location subsID resourceGroup : string)
    (incremental : bool) (snapshot : Snapshot) : D csiSnapshot :=
  let! (name, crossName) :=
    lift (if negb (String.eqb location "") && negb (String.eqb location (cc_Location (d_cloud d))) then
            if incremental then let? n := CreateValidDiskName (uuid ("local_" +:+ snapshotName))
                                            ("local_" +:+ snapshotName) in Ok (n, snapshotName)
            else invalid "could not create snapshot cross region with incremental is false"
          else Ok (snapshotName, "")) in
  let! client := status_on (svc (GetSnapshotClientForSub subsID)) codes.Internal
    (λ e, "could not get snapshot client for subscription(" +:+ subsID +:+ ") with error(" +:+ Error e +:+ ")") in
  let! r := try (getSnapshotByID subsID resourceGroup name "") in
  let! _ := match r with
            | inr s => if String.eqb sourceVolumeID (SourceVolumeId s) then ret ()
                       else put_snapshot client resourceGroup name snapshot
            | inl _ => put_snapshot client resourceGroup name snapshot
            end in
  let! _ := wait_ready subsID resourceGroup name in
  let! local := getSnapshotByID subsID resourceGroup name sourceVolumeID in
  cross_region client subsID resourceGroup name crossName sourceVolumeID location snapshot local.

  (** [azuredisk/controllerserver.go CreateSnapshot] *)
Definition CreateSnapshot (req : CreateSnapshotRequest) : D csiSnapshot :=
  let sourceVolumeID := cs_SourceVolumeId req in
  let! _ := guard_else (negb (String.eqb sourceVolumeID ""))
    (EStatus codes.InvalidArgument "CreateSnapshot Source Volume ID must be provided") in
  let! _ := guard_else (negb (String.eqb (cs_Name req) ""))
    (EStatus codes.InvalidArgument "snapshot name must be provided") in
  let! snapshotName := lift (CreateValidDiskName (uuid (cs_Name req)) (cs_Name req)) in
  let! s := snapshot_params (map_order (cs_Parameters req))
    (MkSnapshotParams "" true "" (cc_Location (d_cloud d)) (d_cloud d) "" "" "" "" "" ∅ None) in
  let! (snapshot, incremental, resourceGroup) := lift (snapshot_model sourceVolumeID s) in
  with_volume_lock snapshotName
    (create_snapshot sourceVolumeID snapshotName (sn_location s) (sn_subsID s) resourceGroup incremental snapshot).

  (** [azuredisk/controllerserver.go DeleteSnapshot] *)
Definition DeleteSnapshot (snapshotID : string) : D unit :=
  let! _ := guard_else (negb (String.eqb snapshotID ""))
    (EStatus codes.InvalidArgument "Snapshot ID must be provided") in
  let! (subsID, resourceGroup, snapshotName) :=
    lift (if IsARMResourceID snapshotID
          then or_status (GetInfoFromURI snapshotID) codes.InvalidArgument Error
          else Ok ("", cc_ResourceGroup (d_cloud d), snapshotID)) in
  let! client := status_on (svc (GetSnapshotClientForSub subsID)) codes.Internal
    (λ e, "could not get snapshot client for subscription(" +:+ subsID +:+ ") with error(" +:+ Error e +:+ ")") in
  let! r := try (svc (snapshot_Delete client resourceGroup snapshotName)) in
  match r with
  | inr _ => ret ()
  | inl e => let! _ := sleep_if_throttled e in
             fail (EStatus codes.Internal ("delete snapshot error: " +:+ Error e))
  end.

  (** [azuredisk/controllerserver.go ListSnapshots] *)
Definition ListSnapshots (req : ListSnapshotsRequest) : D ListSnapshotsResponse :=
  if negb (String.eqb (lsr_SnapshotId req) "") then
    let! r := try (getSnapshotByID "" (cc_ResourceGroup (d_cloud d)) (lsr_SnapshotId req) (lsr_SourceVolumeId req)) in
    match r with
    | inr s => ret (MkListSnapshotsResponse [s] "")
    | inl e => if Contains (Error e) consts.ResourceNotFound then ret (MkListSnapshotsResponse [] "") else fail e
    end
  else
    let! snapshots := status_on (svc (snapshot_List GetSnapshotClient (cc_ResourceGroup (d_cloud d))))
      codes.Internal (λ e, "Unknown list snapshot error: " +:+ Error e) in
    lift (GetEntriesAndNextToken (Some req) snapshots).
End snapshots.
