(* ===== verification/Requests.v ===== *)
(** * Guarantees of the controller's requests

    Requests for the same volume exclude each other and always give the lock
    back; sizes are respected; the listings are what ARM reports. *)
From stdpp Require Import gmap strings list.
From Stdlib Require Import ZArith QArith Lia.
From S2P Require Import Prelude GoStrings GoErr Consts Util AzureTypes Optimization DiskUtils SnapshotUtils Cloud DemoCloud CloudProvider Kube ControllerCommon Moments AttachProofs ManagedDisk DriverState DemoDriver Driver Frame Claim Migration CreateVolume VolumeOps SnapshotServer.
Local Open Scope string_scope.
Local Open Scope Z_scope.
Local Open Scope list_scope.

(** ** The requests are made of steps *)
Section frame.
  Context {W : Type} `{!Cloud W} `{!ConfigSource W} `{!Kube W} `{!DiskRP W} `{MapOrder}.
  Context (d : DriverConfig) (others : point → CState W → CState W) (fuel : nat).
  Context (P : DState W → Prop) (HP : frame request_call others P).

Lemma cloud_request A (m : M W A) : cloud_call A m → request_call A m.
Proof. by left. Qed.
Lemma kube_request A (m : M W A) : kube_call A m → request_call A m.
Proof. by right; left. Qed.
Lemma rp_request A (m : M W A) : rp_call A m → request_call A m.
Proof. by right; right; left. Qed.
Lemma config_request A (m : M W A) : config_call A m → request_call A m.
Proof. by right; right; right. Qed.
Lemma attach_request A (m : M W A) : attach_call true A m → request_call A m.
Proof. intros. by left; apply call_attach. Qed.
  Local Hint Resolve cloud_request kube_request rp_request config_request : moves_db.

Lemma frame_wrap_on {A} (m : M (DState W) A) msg : keeps P m → keeps P (wrap_on m msg).
Proof. intros Hm. apply keeps_bind; [by apply keeps_try|]. intros []; [apply keeps_fail|apply keeps_ret]. Qed.
Ltac frame_auto := cbv zeta; repeat (frame_step HP || apply frame_wrap_on); eauto with frame_db moves_db.

Lemma frame_cluster : keeps P (getAKSClusterResourceID d others).
Proof. unfold getAKSClusterResourceID. frame_auto. Qed.
Lemma frame_token w : keeps P (get_token others w).
Proof. unfold get_token. frame_auto. Qed.
  Local Hint Resolve frame_cluster frame_token : frame_db.
Lemma frame_poll_tick u : keeps P (poll_tick others u).
Proof. unfold poll_tick. frame_auto. Qed.
  Local Hint Resolve frame_poll_tick : frame_db.
Lemma frame_poll_async n c u i : keeps P (poll_async others n c u i).
Proof. induction n; cbn [poll_async]; frame_auto. Qed.
  Local Hint Resolve frame_poll_async : frame_db.
Lemma frame_resource_request a b c : keeps P (resource_request d others a b c).
Proof. unfold resource_request. frame_auto. Qed.
  Local Hint Resolve frame_resource_request : frame_db.
Lemma frame_claim c u o : keeps P (claimDiskResource d others fuel c u o).
Proof. unfold claimDiskResource, pollAsyncOperation. frame_auto. Qed.
Lemma frame_unclaim c u o : keeps P (unclaimDiskResource d others fuel c u o).
Proof. unfold unclaimDiskResource, pollAsyncOperation. frame_auto. Qed.
  Local Hint Resolve frame_claim frame_unclaim : frame_db.
Lemma frame_emit t a b : keeps P (emitMigrationEvent d others t a b).
Proof. unfold emitMigrationEvent. frame_auto. Qed.
Lemma frame_label n : keeps P (addMigrationLabelIfNotExists others n).
Proof. unfold addMigrationLabelIfNotExists. frame_auto. Qed.
Lemma frame_update_task u f : keeps P (update_task u f).
Proof. unfold update_task. frame_auto. Qed.
  Local Hint Resolve frame_emit frame_label frame_update_task : frame_db.
Lemma frame_startMonitor b u n f t v : keeps P (startSKUMigrationMonitor d others b u n f t v).
Proof. unfold startSKUMigrationMonitor, StartMigrationMonitoring, claim_of. frame_auto. Qed.
Lemma frame_source_disk_size n c m a b e : keeps P (source_disk_size others n c m a b e).
Proof. revert c a b e. induction n; intros; cbn [source_disk_size]; frame_auto. Qed.
  Local Hint Resolve frame_startMonitor frame_source_disk_size : frame_db.
Lemma frame_content_source r n g : keeps P (content_source d others r n g).
Proof. unfold content_source, snapshot_source, volume_source, getSnapshot, GetSourceDiskSize. frame_auto. Qed.
  Local Hint Resolve frame_content_source : frame_db.
Lemma frame_claim_created c u g v : keeps P (claim_created d others fuel c u g v).
Proof. unfold claim_created. frame_auto. Qed.
  Local Hint Resolve frame_claim_created : frame_db.
Lemma frame_create_disk c r a l n g : keeps P (create_disk d others fuel c r a l n g).
Proof. unfold create_disk. frame_auto. Qed.
Lemma frame_create_inputs u co w r p : keeps P (create_inputs d others u co w r p).
Proof. unfold create_inputs. frame_auto. Qed.
Lemma frame_unclaim_before c u : keeps P (unclaim_before_delete d others fuel c u).
Proof. unfold unclaim_before_delete. frame_auto. Qed.
  Local Hint Resolve frame_unclaim_before : frame_db.
Lemma frame_delete c u : keeps P (let! _ := unclaim_before_delete d others fuel c u in
                                  delete_or_unclaim d others fuel c u).
Proof. unfold delete_or_unclaim. frame_auto. Qed.

Lemma frame_wait_ready a b c : keeps P (wait_ready d others a b c).
Proof. unfold wait_ready, waitForSnapshotReady. frame_auto. Qed.
Lemma frame_snapshotByID a b c e : keeps P (getSnapshotByID others a b c e).
Proof. unfold getSnapshotByID. frame_auto. Qed.
Lemma frame_put c r n s : keeps P (put_snapshot others c r n s).
Proof. unfold put_snapshot, sleep_if_throttled. frame_auto. Qed.
  Local Hint Resolve frame_wait_ready frame_snapshotByID frame_put : frame_db.
Lemma frame_create_snapshot u a b c e f g h : keeps P (create_snapshot d others u a b c e f g h).
Proof. unfold create_snapshot, cross_region, sleep_if_throttled. frame_auto. Qed.
Lemma frame_snapshot_params co w l s : keeps P (snapshot_params others co w l s).
Proof. revert s. induction l as [|[k v] l IH]; intros s; cbn [snapshot_params]; frame_auto. Qed.
End frame.

(** ** Locks *)
Section requests.
  Context {W : Type} `{!Cloud W} `{!ConfigSource W} `{!Kube W} `{!DiskRP W} `{MapOrder}.
  Context (d : DriverConfig) (others : point → CState W → CState W) (fuel : nat).
  Implicit Types s : DState W.

Lemma lift_bind_state {A B} (P : DState W → Prop) (r : res A) (f : A → M (DState W) B) s :
  P s → (∀ a, P (f a s).2) → P (bind (lift r) f s).2.
Proof. intros Hs Hf. unfold bind, lift. destruct r; simpl; auto. Qed.

(** C32. Every request for a volume gives its lock back, whatever happens: a result,
    an error of a service, or a panic. *)
Theorem requests_release_locks uuid suuid co windows cwd ctx req volumeID snap s :
  volumeLocks (CreateVolume d others fuel cwd uuid co windows ctx req s).2 = volumeLocks s ∧
  volumeLocks (DeleteVolume d others fuel ctx volumeID s).2 = volumeLocks s ∧
  volumeLocks (CreateSnapshot d others suuid co windows snap s).2 = volumeLocks s.
Proof.
  split_and!.
  - unfold CreateVolume. apply (lift_bind_state (λ s', volumeLocks s' = volumeLocks s)); [done|].
    intros [p mode]. apply (with_volume_lock_locks request_call others). intros P HP.
    apply keeps_bind; [by apply frame_create_inputs|]. intros [[lc n] g]. by apply frame_create_disk.
  - unfold DeleteVolume, guard_else. destruct (negb _); [rewrite bind_ret|done].
    apply (lift_bind_state (λ s', volumeLocks s' = volumeLocks s)); [done|]. intros _.
    destruct (negb _); [done|]. apply (with_volume_lock_locks request_call others). intros P HP. by apply frame_delete.
  - unfold CreateSnapshot, guard_else. cbv zeta. destruct (negb (cs_SourceVolumeId snap =? "")%string); [|done].
    destruct (negb (cs_Name snap =? "")%string); [|done].
    rewrite !bind_ret. apply (lift_bind_state (λ s', volumeLocks s' = volumeLocks s)); [done|].
    intros name. unfold bind at 1.
    pose proof (frame_snapshot_params others _ (frame_locks _ _ (volumeLocks s)) co windows
      (map_order (cs_Parameters snap))
      (MkSnapshotParams "" true "" (cc_Location (d_cloud d)) (d_cloud d) "" "" "" "" "" ∅ None) s eq_refl) as Hk.
    destruct (snapshot_params _ _ _ _ _ s) as [[sp|e|] s1]; simpl in Hk; [|done..].
    rewrite <-Hk. apply (lift_bind_state (λ s', volumeLocks s' = volumeLocks s1)); [done|].
    intros [[m inc] rg]. apply (with_volume_lock_locks request_call others). intros P HP. by apply frame_create_snapshot.
Qed.

(** While a request for a volume is running, another one for it is turned away
    with [Aborted] and does nothing. *)
Theorem requests_exclusive uuid co windows cwd ctx req volumeID s :
  let busy id := EStatus codes.Aborted ("An operation with the given Volume ID " +:+ id
                                        +:+ " already exists") in
  (∀ x, check_create d cwd req = Ok x → cv_Name req ∈ locks (volumeLocks s) →
   CreateVolume d others fuel cwd uuid co windows ctx req s = (Err (busy (cv_Name req)), s)) ∧
  (CREATE_DELETE_VOLUME ∈ d_Cap d → IsARMResourceID volumeID = true → volumeID ∈ locks (volumeLocks s) →
   DeleteVolume d others fuel ctx volumeID s = (Err (busy volumeID), s)).
Proof.
  cbv zeta. split.
  - intros [p mode] Hc Hin. unfold CreateVolume. rewrite Hc. rewrite bind_lift.
    by apply with_volume_lock_busy.
  - intros Hcap Harm Hin. unfold DeleteVolume, ValidateControllerServiceRequest.
    destruct (String.eqb_spec volumeID "") as [->|_]; [vm_compute in Harm; discriminate Harm|].
    rewrite (bool_decide_eq_true_2 (CREATE_DELETE_VOLUME ∈ d_Cap d)) by done.
    cbn [guard_else negb bool_decide]. rewrite bind_ret.
    change (bool_decide (CREATE_DELETE_VOLUME = RPC_UNKNOWN)) with false. cbn [or_status].
    rewrite bind_lift, Harm. by apply with_volume_lock_busy.
Qed.

(** ** Sizes *)
(** The size that is requested of ARM holds what the caller requires, is at least
    one GiB (513 GiB with performance plus), and stays within the limit. *)
Theorem requested_size_spec req p g :
  0 ≤ cv_RequiredBytes req < 2 ^ 63 → 0 ≤ cv_LimitBytes req < 2 ^ 63 →
  requested_size req p = Ok g →
  cv_RequiredBytes req ≤ g * GiB ∧ 1 ≤ g ∧
  (PerformancePlus p = Some true → 513 ≤ g) ∧
  (0 < cv_LimitBytes req → g * GiB < cv_LimitBytes req + GiB) ∧
  (g * GiB < cv_RequiredBytes req + GiB ∨ g = 1 ∨ g = 513).
Proof.
  intros Hr Hl. unfold requested_size. cbv zeta.
  destruct (RoundUpGiB_bounds _ Hr) as [R1 R2], (RoundUpGiB_bounds _ Hl) as [L1 L2].
  set (r := RoundUpGiB (cv_RequiredBytes req)) in *. set (l := RoundUpGiB (cv_LimitBytes req)) in *.
  clearbody r l. intros ([] & Hg & [= <-])%res_bind_ok.
  unfold consts.PerformancePlusMinimumDiskSizeGiB, consts.MinimumDiskSizeGiB, GiB in *.
  unfold guard_res in Hg. destruct (PerformancePlus p) as [[]|];
    unfold default, from_option, id in *; cbn [andb] in *; revert Hg;
    repeat match goal with |- context [?a <? ?b] => destruct (Z.ltb_spec a b) end;
    cbn [andb negb]; intros Hg; try discriminate Hg;
    repeat match goal with K : context [if ?b then _ else _] |- _ => destruct b eqn:? end; bool_split;
    repeat split; intros; try done; lia.
Qed.


  Local Notation later := (later request_call others).
  Local Hint Resolve cloud_request kube_request attach_request : moves_db.
Ltac dmoves := apply dmoves_of; intros P HP; frame_auto HP.

(** C20. An expansion that is reported as done gives at least the capacity that was
    asked for, rounded up to a GiB: while the request ran ARM reported the
    disk, and either it had that size already or ARM then accepted the larger
    size, while the disk was unattached or online resizing is enabled. *)
Theorem ControllerExpandVolume_ok diskURI capacityBytes s n s' :
  0 ≤ capacityBytes →
  ControllerExpandVolume d others diskURI capacityBytes s = (Ok n, s') →
  EXPAND_VOLUME ∈ d_Cap d ∧ 0 < capacityBytes ≤ n ∧ n < capacityBytes + GiB ∧ (GiB | n) ∧
  ∃ sub rg name c c1 disk p current c2 c3, GetInfoFromURI diskURI = Ok (sub, rg, name) ∧
    later (ctrl s) c1 ∧ ext others (disk_Get c rg name) c1 = (Ok (Some disk), c2) ∧
    disk_Properties disk = Some p ∧ DiskSizeGB p = Some current ∧ later c3 (ctrl s') ∧
    (n ≤ current * GiB ∧ c3 = c2 ∨
     (enableDiskOnlineResize d = true ∨ DiskState p = Some armcompute.DiskStateUnattached) ∧
     ext others (disk_Patch c rg name
       (MkDiskUpdate None (Some (MkDiskUpdateProperties None None (Some (n / GiB)))))) c2 = (Ok (), c3)).
Proof.
  intros Hpos. unfold ControllerExpandVolume.
  intros (? & s1 & (_ & ->)%guard_ok & Hx)%bind_ok.
  apply bind_ok in Hx as (? & s2 & [Hcap ->]%lift_ok & Hx). apply or_status_ok in Hcap.
  apply bind_ok in Hx as (? & s3 & [Hz ->]%guard_ok & Hx). apply negb_true_iff, Z.eqb_neq in Hz.
  apply (dbind_later request_call others) in Hx as (? & s4 & L4 & _ & Hx); [|unfold reject_node_driven; dmoves].
  apply (dbind_later request_call others) in Hx as (result & s5 & L5 & _ & Hx); [|dmoves].
  apply (dbind_later request_call others) in Hx as (? & s6 & L6 & _ & Hx); [|dmoves].
  apply bind_ok in Hx as (m & s7 & Hr & Hx).
  apply (dbind_later request_call others) in Hx as (? & s8 & L8 & _ & Hx); [|dmoves]. injection Hx as -> <-.
  apply status_on_ok, ctl_ok in Hr.
  destruct (ResizeDisk_ok _ _ _ _ _ _ _ Hpos Hr)
    as (g & sub & rg & name & c & c1 & disk & p & current & c2 & -> & Hn & Hg & Hu & Hc & Hget & Hp & Hs & Hcase).
  split_and!; try lia; [|by exists g|].
  - unfold ValidateControllerServiceRequest in Hcap. case_bool_decide; [done|]. by case_bool_decide.
  - assert (Lc : later (ctrl s6) c1) by (eapply moves_later; [|exact Hc]; apply moves_ext; auto with moves_db).
    exists sub, rg, name, c, c1, disk, p, current, c2, (ctrl s7). split_and!; try done.
    { trans (ctrl s4); [done|]. trans (ctrl s5); [done|]. by trans (ctrl s6). }
    destruct Hcase as [[Hle ->]|(Hlt & Ho & Hpatch)]; [left; unfold GiB; split; [lia|done]|right].
    rewrite Z.div_mul by done. done.
Qed.

(** C2. A deletion that is reported as done: the identifier is none of a disk and
    nothing was done, or the disk is gone: while the request ran, with the lock
    of the volume, ARM did not know it, or accepted its deletion when it was
    attached to nothing and this driver was not detaching it. *)
Theorem DeleteVolume_ok ctx volumeID s s' :
  DeleteVolume d others fuel ctx volumeID s = (Ok (), s') →
  volumeID ≠ "" ∧ CREATE_DELETE_VOLUME ∈ d_Cap d ∧
  (IsARMResourceID volumeID = false ∧ s' = s ∨
   volumeID ∉ locks (volumeLocks s) ∧
   ∃ c1 c2 subsID rg name c, GetInfoFromURI volumeID = Ok (subsID, rg, name) ∧
     later (ctrl s) c1 ∧ diskStateMap c1 !! ToLower volumeID = None ∧
     ext others (GetDiskClientForSub subsID) c1 = (Ok c, c2) ∧
     ((∃ e code msg, ext others (disk_Get c rg name) c2 = (Err e, ctrl s') ∧ root_cause e = EResponse 404 code msg) ∨
      (∃ disk c3, ext others (disk_Get c rg name) c2 = (Ok (Some disk), c3) ∧ ManagedBy disk = None ∧
                  ext others (disk_Delete c rg name) c3 = (Ok (), ctrl s')))).
Proof.
  unfold DeleteVolume. intros (? & s1 & [Hne ->]%guard_ok & Hx)%bind_ok.
  apply bind_ok in Hx as (? & s2 & [Hcap ->]%lift_ok & Hx). apply or_status_ok in Hcap.
  apply negb_true_iff, String.eqb_neq in Hne. split; [done|]. split.
  { unfold ValidateControllerServiceRequest in Hcap. case_bool_decide; [done|]. by case_bool_decide. }
  destruct (IsARMResourceID volumeID); cbn [negb] in Hx; [right|left; by injection Hx as <-].
  apply with_volume_lock_ok in Hx as (Hin & s2 & Hx & ->). split; [done|].
  apply (dbind_later request_call others) in Hx as (? & s3 & L3 & _ & Hx);
    [|apply dmoves_of; intros P HP; by apply (frame_unclaim_before d others fuel P HP)].
  apply bind_ok in Hx as ([e|[]] & s4 & Hd & Hx); [by apply bind_ok in Hx as (? & ? & ? & ?)|].
  injection Hx as <-.
  apply try_ok, ctl_ok in Hd. apply DeleteManagedDisk_ok in Hd as (sub & rg & name & c & c2 & Hu & Hst & Hc & Hd).
  exists (ctrl s3), c2, sub, rg, name, c. done.
Qed.

(** ** Creation *)
Lemma claim_created_ok ctx u g vctx s v s' :
  claim_created d others fuel ctx u g vctx s = (Ok v, s') →
  v !! consts.RequestedSizeGib = vctx !! consts.RequestedSizeGib ∧
  ∃ b c, v !! consts.BlobURLAnnotation = Some b ∧ b ≠ "" ∧
         v !! consts.ClaimIdentifierAnnotation = Some c ∧ c ≠ "".
Proof.
  unfold claim_created. intros (cp & s1 & _ & Hx)%bind_ok. cbv zeta in Hx.
  apply bind_ok in Hx as (o & s2 & _ & Hx). apply bind_ok in Hx as ([b c] & s3 & _ & Hx).
  apply bind_ok in Hx as (? & s4 & [Hb ->]%guard_ok & Hx). apply bind_ok in Hx as (? & s5 & [Hc ->]%guard_ok & Hx).
  injection Hx as <- _. apply negb_true_iff, String.eqb_neq in Hb, Hc. split.
  - by rewrite !lookup_insert_ne by done.
  - exists b, c. rewrite lookup_insert_ne, !lookup_insert_eq by done. done.
Qed.

(** The snapshot of the request was read while the request ran, and it is larger than
    [g] GiB by at most 50 GiB. *)
Definition restores_slightly_larger (req : CreateVolumeRequest) (g : Z) (s s' : DState W) : Prop :=
  ∃ id sub rg name client snap bytes,
    cv_ContentSource req = Some (SourceSnapshot id) ∧ GetInfoFromURI id = Ok (sub, rg, name) ∧
    runs request_call others (ext others (GetSnapshotClientForSub sub)) (Ok client) (ctrl s) (ctrl s') ∧
    runs request_call others (ext others (snapshot_Get client rg name)) (Ok (Some snap)) (ctrl s) (ctrl s') ∧
    snap_Properties snap ≫= sp_DiskSizeBytes = Some bytes ∧
    (in_int64 bytes → g * GiB < bytes ≤ (g + 50) * GiB).

Lemma getSnapshot_ok id s r s' :
  getSnapshot others id s = (Ok r, s') →
  ∃ sub rg name client, GetInfoFromURI id = Ok (sub, rg, name) ∧
    runs request_call others (ext others (GetSnapshotClientForSub sub)) (Ok client) (ctrl s) (ctrl s') ∧
    runs request_call others (ext others (snapshot_Get client rg name)) (Ok r) (ctrl s) (ctrl s').
Proof.
  unfold getSnapshot. intros ([[sub rg] name] & s1 & [Hu ->]%lift_ok & Hx)%bind_ok.
  apply (dbind_later request_call others) in Hx as (client & s2 & L2 & Hc & Hx); [|dmoves].
  assert (L3 : later (ctrl s2) (ctrl s')).
  { eapply dmoves_later; [|exact Hx]. dmoves. }
  exists sub, rg, name, client. split; [done|]. split.
  - eapply runs_mono; [reflexivity|exact L3|by apply ctl_runs].
  - eapply runs_mono; [exact L2|reflexivity|by apply ctl_runs].
Qed.

(** A snapshot whose size is left to ARM is slightly larger than the request. *)
Lemma snapshot_source_leaves_size req id sku z p g s src s' :
  cv_ContentSource req = Some (SourceSnapshot id) →
  snapshot_source d others id sku z p g s = (Ok src, s') → src_supplySize src = false →
  restores_slightly_larger req g s s'.
Proof.
  intros Hreq. unfold snapshot_source. intros (r & s1 & Hr%status_on_ok & Hx)%bind_ok Hs.
  injection Hx as <- <-. cbn [src_supplySize] in Hs.
  apply getSnapshot_ok in Hr as (sub & rg & name & client & Hu & Hc & Hg).
  destruct r as [snap|]; [|done]. cbn [getDiskSizeInBytesFromSnapshot] in Hs.
  destruct (snap_Properties snap ≫= sp_DiskSizeBytes) as [bytes|] eqn:Hb; [|done].
  exists id, sub, rg, name, client, snap, bytes. split_and!; try done. intros Hin.
  apply negb_false_iff, andb_true_iff in Hs as [H1%Z.ltb_lt H2%Z.leb_le].
  apply (RoundUpGiB_within bytes g 50); [done..|exact H2].
Qed.

Lemma volume_source_supplies id z p g s src s' :
  volume_source d others id z p g s = (Ok src, s') → src_supplySize src = true.
Proof.
  unfold volume_source. intros ([[a b] c] & s1 & _ & Hx)%bind_ok.
  apply bind_ok in Hx as ([e|[sz disk]] & s2 & _ & Hx); [by injection Hx as <- _|]. cbv zeta in Hx.
  apply bind_ok in Hx as (sku & s3 & _ & Hx). by injection Hx as <- _.
Qed.

Lemma content_source_keeps req n g s src s' :
  content_source d others req n g s = (Ok src, s') →
  DiskName (src_params src) = DiskName (n_params n) ∧
  ResourceGroup (src_params src) = ResourceGroup (n_params n).
Proof.
  assert (Hv : ∀ id, volume_source d others id (n_diskZone n) (n_params n) g s = (Ok src, s') →
    DiskName (src_params src) = DiskName (n_params n) ∧ ResourceGroup (src_params src) = ResourceGroup (n_params n)).
  { intros id. unfold volume_source. intros ([[a b] c] & s1 & _ & Hx)%bind_ok.
    apply bind_ok in Hx as ([e|[sz disk]] & s2 & _ & Hx); [by injection Hx as <- _|]. cbv zeta in Hx.
    apply bind_ok in Hx as (sku & s3 & _ & Hx). injection Hx as <- _. cbn [src_params].
    by destruct (sz <? int32 g), (n_params n). }
  unfold content_source. destruct (cv_ContentSource req) as [[id|id|]|]; [|by apply Hv|by apply Hv|].
  - unfold snapshot_source. intros (? & s1 & _ & Hx)%bind_ok. by injection Hx as <- _.
  - intros Hx. by injection Hx as <- _.
Qed.

Lemma create_inputs_ok uuid co windows req p s lc n g s' :
  create_inputs d others uuid co windows req p s = (Ok (lc, n, g), s') →
  requested_size req p = Ok g ∧
  ∃ n0, normalize_params d uuid lc req p = Ok n0 ∧ n_sku n = n_sku n0 ∧
    DiskName (n_params n) = DiskName (n_params n0) ∧ ResourceGroup (n_params n) = ResourceGroup (n_params n0).
Proof.
  unfold create_inputs. intros (g' & s1 & [Hg ->]%lift_ok & Hi)%bind_ok.
  apply bind_ok in Hi as (lc' & s2 & _ & Hi). apply bind_ok in Hi as (n' & s3 & [Hn ->]%lift_ok & Hi).
  cbv zeta in Hi. apply bind_ok in Hi as (? & s4 & _ & Hi). injection Hi as -> <- -> _.
  split; [done|]. exists n'. split; [done|]. cbn [n_sku n_params].
  by destruct (EqualFold _ _), (n_params n').
Qed.

Lemma content_source_leaves_size req n g s src s' :
  content_source d others req n g s = (Ok src, s') → src_supplySize src = false →
  restores_slightly_larger req g s s'.
Proof.
  unfold content_source. destruct (cv_ContentSource req) as [[id|id|]|] eqn:Hreq; intros Hx Hs.
  - by eapply snapshot_source_leaves_size.
  - by erewrite volume_source_supplies in Hs.
  - by erewrite volume_source_supplies in Hs.
  - by injection Hx as <- _.
Qed.
Lemma slightly_larger_mono req g s0 s s' s1 :
  later (ctrl s0) (ctrl s) → later (ctrl s') (ctrl s1) →
  restores_slightly_larger req g s s' → restores_slightly_larger req g s0 s1.
Proof.
  intros H0 H1 (id & sub & rg & name & client & snap & bytes & Hreq & Hu & Hc & Hg & ? & ?).
  exists id, sub, rg, name, client, snap, bytes. split_and!; try done; by eapply runs_mono.
Qed.

(** A request that passed the checks has a name, and is node-driven only when that is
    enabled. *)
Lemma check_create_names cwd req p mode :
  check_create d cwd req = Ok (p, mode) →
  cv_Name req ≠ "" ∧ (mode = consts.AttachModeNodeDriven → nodeDrivenAttachDetachEnabled d = true).
Proof.
  intros Hc. unfold check_create in Hc.
  repeat (apply res_bind_ok in Hc as (? & ? & Hc); cbv zeta in Hc). injection Hc as -> ->.
  unfold guard_res in *. split.
  - intros Hn. by rewrite Hn in *.
  - intros ->. by destruct (nodeDrivenAttachDetachEnabled d).
Qed.
(** C1. A volume that was created: the name was not locked, the disk is one that the
    request created in ARM while it ran, under the size the request requires; only when
    it restores a snapshot, which the request read and whose size is above the one
    required by at most 50 GiB, the size is left to ARM.  The answer names that disk
    and the size it was created under (0, that is not known, when it is left to ARM),
    the context records the requested size, and a
    node-driven disk carries what its nodes need to attach it.  The name, the
    resource group and the SKU of the disk are the normalised ones of the request. *)
Theorem CreateVolume_ok cwd uuid co windows ctx req s vol s' :
  CreateVolume d others fuel cwd uuid co windows ctx req s = (Ok vol, s') →
  cv_Name req ≠ "" ∧ cv_Name req ∉ locks (volumeLocks s) ∧
  ∃ p mode g o cc n,
    check_create d cwd req = Ok (p, mode) ∧ requested_size req p = Ok g ∧
    normalize_params d uuid cc req p = Ok n ∧
    runs request_call others (CreateManagedDisk others cc ctx o) (Ok (vol_VolumeId vol)) (ctrl s) (ctrl s') ∧
    (mo_StorageAccountType o = n_sku n ∧ mo_DiskName o = DiskName (n_params n) ∧
     mo_ResourceGroup o = ResourceGroup (n_params n)) ∧
    (mo_SizeGB o = g ∨ mo_SizeGB o = 0 ∧ mo_SourceType o = consts.SourceSnapshot ∧
                       restores_slightly_larger req g s s') ∧
    vol_CapacityBytes vol = GiBToBytes (mo_SizeGB o) ∧
    vol_VolumeContext vol !! consts.RequestedSizeGib = Some (Itoa g) ∧
    (mode = consts.AttachModeNodeDriven →
     nodeDrivenAttachDetachEnabled d = true ∧
     ∃ b c, vol_VolumeContext vol !! consts.BlobURLAnnotation = Some b ∧ b ≠ "" ∧
            vol_VolumeContext vol !! consts.ClaimIdentifierAnnotation = Some c ∧ c ≠ "").
Proof.
  unfold CreateVolume. intros ([p mode] & s1 & [Hc ->]%lift_ok & Hx)%bind_ok.
  apply with_volume_lock_ok in Hx as (Hin & s2 & Hx & ->).
  apply (dbind_later request_call others) in Hx as ([[lc n] g] & s3 & L3 & Hi & Hx);
    [|apply dmoves_of; intros P HP; by apply frame_create_inputs].
  apply create_inputs_ok in Hi as (Hg & n0 & Hn & Hsku & Hdn & Hrg).
  apply check_create_names in Hc as Hchk.
  destruct Hchk as [Hne Hmode]. split; [done|]. split; [done|].
  unfold create_disk in Hx.
  apply (dbind_later request_call others) in Hx as (src & s4 & L4 & Hsrc & Hx);
    [|apply dmoves_of; intros P HP; by apply frame_content_source]. cbv zeta in Hx.
  destruct (accessible_topology _ _ _ _) as [zone topo].
  apply (dbind_later request_call others) in Hx as (th & s5 & L5 & _ & Hx); [|dmoves].
  apply bind_ok in Hx as ([e|u] & s6 & Hcr & Hx); [by apply bind_ok in Hx as (? & ? & ? & _)|].
  rewrite bind_ret in Hx. apply try_ok, ctl_ok in Hcr.
  apply (dbind_later request_call others) in Hx as (vctx & s7 & L7 & Hv & Hx);
    [|apply dmoves_of; intros P HP; destruct (String.eqb mode _); [by apply frame_claim_created|apply keeps_ret]].
  apply (dbind_later request_call others) in Hx as (? & s8 & L8 & _ & Hx);
    [|apply dmoves_of; intros P HP; by apply frame_startMonitor].
  injection Hx as <- <-. eexists p, mode, g, _, lc, n0.
  split; [done|]. split; [done|]. split; [done|]. split.
  { exists (ctrl s5), (ctrl s6). split_and!; [|exact Hcr|by trans (ctrl s7)].
    trans (ctrl s3); [done|]. by trans (ctrl s4). }
  split.
  { destruct (content_source_keeps _ _ _ _ _ _ Hsrc) as [Hd Hr]. unfold volume_options. cbn.
    rewrite <-Hsku, <-Hdn, <-Hrg, <-Hd, <-Hr. unfold default_limits. by match goal with |- context [if ?b then _ else _] => destruct b end. }
  cbn [mo_SizeGB mo_SourceType volume_options].
  cbn [vol_CapacityBytes vol_VolumeContext vol_VolumeId]. split_and!; [|done|..].
  - destruct (src_supplySize src) eqn:Esup; [by left|].
    destruct (String.eqb_spec (src_Type src) consts.SourceSnapshot) as [Et|]; [|by left]. right.
    split_and!; [done..|].
    eapply slightly_larger_mono; [exact L3| |by eapply content_source_leaves_size].
    trans (ctrl s5); [done|]. trans (ctrl s6); [|by trans (ctrl s7)].
    eapply moves_later; [|exact Hcr]. auto with moves_db.
  - destruct (String.eqb mode consts.AttachModeNodeDriven).
    + apply claim_created_ok in Hv as [-> _]. apply lookup_insert_eq.
    + injection Hv as <- _. apply lookup_insert_eq.
  - intros ->. split; [auto|]. cbn in Hv. by apply claim_created_ok in Hv as [_ ?].
Qed.
End requests.

(** ** The properties on the concrete driver *)
Definition demo_create (bytes limit : Z) (source : option ContentSource) : CreateVolumeRequest :=
  MkCreateVolumeRequest "pvc-1" {[ "skuName" := "Premium_LRS" ]} ∅ [demo_capability] bytes limit None source.
Definition demo_co : CloudOptions := MkCloudOptions false "" "" true false false 0.
Lemma requested_size_spec_witness :
  ∃ p, ParseDiskParameters ∅ = Ok p ∧
    requested_size (demo_create (GiB + 1) (3 * GiB) None) p = Ok 2 ∧ GiB + 1 ≤ 2 * GiB.
Proof.
  eexists. split; [vm_compute; reflexivity|].
  match goal with |- requested_size ?r ?p = _ ∧ _ =>
    assert (Hr : requested_size r p = Ok 2) by (vm_compute; reflexivity);
    split; [exact Hr|]; apply (requested_size_spec r p 2); [..|exact Hr]
  end; split; vm_compute; congruence.
Defined.

Lemma requests_exclusive_witness :
  let s := set_volumeLocks {| locks := {[ demo_uri ]} |} demo_start in
  ∃ e, DeleteVolume (demo_driver true false) quiet 1 (MkCtx None) demo_uri s = (Err e, s).
Proof.
  intros s. eexists. eapply (requests_exclusive (demo_driver true false) quiet 1 "" demo_co false "/" (MkCtx None)
    (demo_create GiB 0 None) demo_uri s).
  - apply (bool_decide_unpack _). vm_compute. exact I.
  - vm_compute. reflexivity.
  - simpl. apply elem_of_singleton_2. reflexivity.
Defined.

Lemma ControllerExpandVolume_ok_witness :
  ∃ s', ControllerExpandVolume (demo_driver true false) quiet demo_uri (9 * GiB + 1) demo_start
          = (Ok (10 * GiB), s') ∧ (GiB | 10 * GiB).
Proof.
  eexists. split; [vm_compute; reflexivity|].
  eapply (ControllerExpandVolume_ok (demo_driver true false) quiet demo_uri (9 * GiB + 1) demo_start).
  - vm_compute. congruence.
  - vm_compute. reflexivity.
Defined.

Lemma DeleteVolume_ok_witness :
  ∃ s', DeleteVolume (demo_driver true false) quiet 1 (MkCtx None) demo_uri demo_start = (Ok (), s') ∧
        CREATE_DELETE_VOLUME ∈ d_Cap (demo_driver true false).
Proof.
  eexists. split; [vm_compute; reflexivity|].
  eapply (DeleteVolume_ok (demo_driver true false) quiet 1 (MkCtx None) demo_uri demo_start).
  vm_compute. reflexivity.
Defined.

(** A snapshot of 52 GiB less a byte. *)
Definition demo_snapshot_uri : string :=
  "/subscriptions/s/resourceGroups/rg/providers/Microsoft.Compute/snapshots/snap1".
Definition demo_snapshot_start : DState Demo :=
  demo_dstate (upd_snaps (λ _, {[ "snap1" := MkSnapshot (Some demo_snapshot_uri) (Some "snap1") None
    (Some (MkSnapshotProperties None (Some 52) (Some (52 * GiB - 1)) None None None None None None None))
    None ∅ None ]}) demo_driver_world).
Lemma CreateVolume_ok_witness :
  (∃ vol s', CreateVolume (demo_driver true false) quiet 1 "/" "uuid" demo_co false (MkCtx None)
               (demo_create (GiB + 1) 0 None) demo_start = (Ok vol, s') ∧ cv_Name (demo_create 0 0 None) ≠ "") ∧
  ∃ vol s', CreateVolume (demo_driver true false) quiet 1 "/" "uuid" demo_co false (MkCtx None)
              (demo_create (GiB + 1) 0 (Some (SourceSnapshot demo_snapshot_uri))) demo_snapshot_start
              = (Ok vol, s') ∧ vol_CapacityBytes vol = 0 ∧
    ∃ g, vol_VolumeContext vol !! consts.RequestedSizeGib = Some (Itoa g).
Proof.
  split.
  - eexists _, _. split; [vm_compute; reflexivity|].
    eapply (CreateVolume_ok (demo_driver true false) quiet 1 "/" "uuid" demo_co false (MkCtx None)
              (demo_create (GiB + 1) 0 None) demo_start).
    vm_compute. reflexivity.
  - eexists _, _. split; [vm_compute; reflexivity|]. split; [reflexivity|].
    edestruct (CreateVolume_ok (demo_driver true false) quiet 1 "/" "uuid" demo_co false (MkCtx None)
      (demo_create (GiB + 1) 0 (Some (SourceSnapshot demo_snapshot_uri))) demo_snapshot_start)
      as (_ & _ & p & mode & g & o & cc & n & _ & _ & _ & _ & _ & _ & _ & Hg & _);
      [vm_compute; reflexivity|]. exists g. exact Hg.
Defined.
