(* ===== verification/Listing.v ===== *)
(** * What [ListVolumes] lists

    A listing in one page is complete and exact; the token of a page that is
    cut short, without Kubernetes, counts the disks of that page only. *)
From stdpp Require Import gmap strings list.
From Stdlib Require Import ZArith QArith Lia.
From S2P Require Import Prelude GoStrings GoErr Consts Util AzureTypes Optimization DiskUtils Cloud DemoCloud CloudProvider Kube ControllerCommon AttachProofs ManagedDisk DriverState DemoDriver Driver Claim Migration CreateVolume VolumeOps.
Local Open Scope string_scope.
Local Open Scope Z_scope.
Local Open Scope list_scope.

(** A disk belongs to the listing: a data disk, in the set when there is one. *)
Definition listed (volSet : option (gset string)) (disk : Disk) : bool :=
  data_disk disk && match volSet with
                    | None => true
                    | Some v => bool_decide (ToLower (default "" (disk_ID disk)) ∈ v)
                    end.
(** The identifiers of the listed disks, in their order. *)
Definition listed_ids (volSet : option (gset string)) (disks : list Disk) : list string :=
  (λ disk, default "" (disk_ID disk)) <$> List.filter (listed volSet) disks.

Section listing.
  Context {W : Type} `{!Cloud W} `{!Kube W} `{!DiskRP W} `{MapOrder}.
  Context (d : DriverConfig) (others : point → CState W → CState W).
  Implicit Types s : DState W.

Lemma list_disks_ok disks i m v es s i' c es' s' :
  list_disks others disks i m v es s = (Ok (i', c, es'), s') →
  ∃ k, (k ≤ length disks)%nat ∧ i' = i + Z.of_nat k ∧ c = (k =? length disks)%nat ∧
    (ve_VolumeId <$> es') = (ve_VolumeId <$> es) ++ listed_ids v (take k disks) ∧
    (0 < m → Z.of_nat (length es) ≤ m → Z.of_nat (length es') ≤ m) ∧
    (c = false → 0 < m ≤ Z.of_nat (length es')).
Proof.
  revert i es s. induction disks as [|disk disks IH]; intros i es s; cbn [list_disks].
  - intros [= <- <- <- _]. exists 0%nat. cbn. rewrite app_nil_r. split_and!; try done. lia.
  - destruct ((0 <? m) && (m <=? Z.of_nat (length es))) eqn:Efull.
    { intros [= <- <- <- _]. exists 0%nat. cbn. rewrite app_nil_r. bool_split. split_and!; try done; lia. }
    intros (skip & s1 & Hskip & Hx)%bind_ok.
    assert (Hs : listed v disk = negb (skip || negb (data_disk disk))).
    { unfold listed. destruct v as [v|].
      - apply bind_ok in Hskip as (id & s2 & Hid & Hskip). destruct (disk_ID disk) as [id'|]; [|done].
        injection Hid as -> _. injection Hskip as <- _. cbn. by destruct (bool_decide _), (data_disk disk).
      - injection Hskip as <- _. by destruct (data_disk disk). }
    destruct (skip || negb (data_disk disk)) eqn:Esk.
    + destruct (IH _ _ _ Hx) as (k & Hk & -> & -> & He & H1 & H2). exists (S k). cbn.
      split_and!; try done; try lia. unfold listed_ids in *. cbn. rewrite Hs. done.
    + apply bind_ok in Hx as (nodes & s2 & _ & Hx). apply bind_ok in Hx as (id & s3 & Hid & Hx).
      destruct (disk_ID disk) as [id'|] eqn:Eid; [|done]. injection Hid as -> _.
      destruct (IH _ _ _ Hx) as (k & Hk & -> & -> & He & H1 & H2). exists (S k). cbn.
      split_and!; try done; try lia.
      * unfold listed_ids in *. cbn. rewrite Hs. cbn. rewrite Eid, He, fmap_app, <-app_assoc. done.
      * intros Hm Hle. apply H1; [done|]. rewrite length_app. cbn.
        apply andb_false_iff in Efull as [Hb|Hb]; bool_split; lia.
Qed.

Lemma by_group_ok rg es start m v s st s' :
  listVolumesByResourceGroup d others rg es start m v s = (Ok st, s') → lv_err st = None →
  v ≠ Some ∅ →
  ∃ disks s1 k, svc others (disk_List GetDiskClient rg) s = (Ok disks, s1) ∧
    let from := Z.to_nat start in
    (k ≤ length (drop from disks))%nat ∧ numVisited st = Z.of_nat k ∧
    isCompleteRun st = (k =? length (drop from disks))%nat ∧
    (ve_VolumeId <$> lv_entries st) = (ve_VolumeId <$> es) ++ listed_ids v (take k (drop from disks)) ∧
    (0 < m → Z.of_nat (length es) ≤ m → Z.of_nat (length (lv_entries st)) ≤ m) ∧
    (isCompleteRun st = false → 0 < m ≤ Z.of_nat (length (lv_entries st))).
Proof.
  unfold listVolumesByResourceGroup. intros Hx Herr Hv. cbv zeta in Hx.
  apply bind_ok in Hx as ([e|disks] & s1 & Hl & Hx); [by injection Hx as <- _|].
  apply try_ok in Hl. rewrite bool_decide_eq_false_2 in Hx by done.
  destruct ((0 <? start) && _); [by injection Hx as <- _|].
  replace (Z.to_nat (if start <? 0 then 0 else start)) with (Z.to_nat start) in Hx
    by (destruct (Z.ltb_spec start 0); lia).
  apply bind_ok in Hx as ([e|[[i c] es']] & s2 & Hd & Hx); [by injection Hx as <- _|].
  injection Hx as <- _. apply try_ok in Hd. apply list_disks_ok in Hd as (k & Hk & -> & Hrest).
  exists disks, s1, k. cbn. split_and!; try done; try apply Hrest. lia.
Qed.

(** A listing of the node resource group from the start: the entries are the
    data disks that ARM lists, in its order, cut after [maxEntries] of them when
    that is positive, and there is a next token exactly when disks are left. *)
Theorem ListVolumes_first_page maxEntries s resp s' :
  cloud_KubeClient d = false →
  ListVolumes d others "" maxEntries s = (Ok resp, s') →
  ∃ disks s1 k, svc others (disk_List GetDiskClient (cc_ResourceGroup (d_cloud d))) s = (Ok disks, s1) ∧
    (k ≤ length disks)%nat ∧
    (ve_VolumeId <$> lv_Entries resp) = listed_ids None (take k disks) ∧
    (0 < maxEntries → Z.of_nat (length (lv_Entries resp)) ≤ maxEntries) ∧
    (maxEntries ≤ 0 → k = length disks) ∧
    (lv_NextToken resp = "" ↔ k = length disks) ∧
    (k ≠ length disks → lv_NextToken resp = Itoa (Z.of_nat k)).
Proof.
  intros Hk. unfold ListVolumes. rewrite Hk. cbn [String.eqb]. rewrite bind_ret.
  unfold listVolumesInNodeResourceGroup. intros (st & s1 & Hst & Hx)%bind_ok.
  destruct (lv_err st) eqn:Ee; [done|]. injection Hx as <- _.
  apply by_group_ok in Hst as (disks & s2 & k & Hl & Hle & Hn & Hc & He & H1 & H2); [|done..].
  cbn [lv_Entries lv_NextToken]. change (drop (Z.to_nat 0) disks) with disks in *.
  exists disks, s2, k. split; [done|]. split; [done|]. split; [exact He|].
  split; [intros; apply H1; cbn; lia|]. rewrite Hc in *. rewrite Hn.
  destruct (Nat.eqb_spec k (length disks)) as [->|Hne]; [done|]. split_and!.
  - intros. destruct (H2 eq_refl). lia.
  - split; [|done]. intros E. by apply Itoa_nonempty in E.
  - done.
Qed.

Lemma list_disks_unattached disks i m es s :
  0 < m → Z.of_nat (length es) ≤ m → m - Z.of_nat (length es) < Z.of_nat (length disks) →
  (∀ disk, disk ∈ disks → data_disk disk = true ∧ ManagedBy disk = None ∧ is_Some (disk_ID disk)) →
  ∃ es', list_disks others disks i m None es s = (Ok (i + (m - Z.of_nat (length es)), false, es'), s).
Proof.
  intros Hm. revert i es. induction disks as [|disk disks IH]; intros i es Hle Hn Hd; [simpl in Hn; lia|].
  cbn [list_disks]. destruct (Z.leb_spec m (Z.of_nat (length es))) as [Hf|Hf].
  - destruct (Z.ltb_spec 0 m); [|lia]. exists es. cbn [andb]. replace (i + _) with i by lia. done.
  - rewrite andb_false_r, bind_ret. destruct (Hd disk) as (Hdata & Hmb & [id Hid]); [by constructor|].
    rewrite Hdata, Hmb, Hid. cbn [orb negb deref]. rewrite bind_ret, bind_lift.
    destruct (IH (i + 1) (es ++ [MkVolumeEntry id []])) as [es' He].
    + rewrite length_app. cbn. lia.
    + rewrite length_app. cbn in *. lia.
    + intros disk' Hin. apply Hd. by constructor.
    + exists es'. rewrite He. rewrite length_app. cbn. do 3 f_equal. f_equal. lia.
Qed.

Lemma list_disks_page disks start m s :
  0 < m → 0 ≤ start → start + m < Z.of_nat (length disks) →
  (∀ disk, disk ∈ disks → data_disk disk = true ∧ ManagedBy disk = None ∧ is_Some (disk_ID disk)) →
  ∃ es, list_disks others (drop (Z.to_nat start) disks) start m None [] s = (Ok (start + m, false, es), s).
Proof.
  intros Hm Hs Hn Hd. destruct (list_disks_unattached (drop (Z.to_nat start) disks) start m [] s) as [es He].
  - done.
  - cbn. lia.
  - rewrite length_drop. cbn. lia.
  - intros disk Hin. apply Hd. rewrite <-(take_drop (Z.to_nat start) disks). apply elem_of_app. by right.
  - exists es. rewrite He. cbn. do 3 f_equal. f_equal. lia.
Qed.

(** A listing of a node resource group that is read page by page does not get
    past its second page: when a page that starts at a token [start] is cut after
    [maxEntries] data disks, its next token is [maxEntries] again, however large
    [start] is. *)
Theorem ListVolumes_token_repeats maxEntries start s disks s1 :
  cloud_KubeClient d = false → 0 < maxEntries → 0 ≤ start →
  start + maxEntries < Z.of_nat (length disks) → in_int64 start →
  svc others (disk_List GetDiskClient (cc_ResourceGroup (d_cloud d))) s = (Ok disks, s1) →
  (∀ disk, disk ∈ disks → data_disk disk = true ∧ ManagedBy disk = None ∧ is_Some (disk_ID disk)) →
  ∃ es s', ListVolumes d others (Itoa start) maxEntries s =
             (Ok (MkListVolumesResponse es (Itoa maxEntries)), s').
Proof.
  intros Hk Hm Hs Hn Hin Hl Hdisks. unfold ListVolumes.
  destruct (String.eqb_spec (Itoa start) "") as [E|_]; [by apply Itoa_nonempty in E|].
  rewrite Atoi_Itoa by done. destruct (Z.ltb_spec start 0); [lia|]. rewrite bind_ret, Hk.
  unfold listVolumesInNodeResourceGroup, listVolumesByResourceGroup. cbv zeta.
  destruct (list_disks_page disks start maxEntries s1) as (es & Hr); [done..|].
  unfold bind at 1. unfold bind at 1. unfold try at 1. rewrite Hl.
  rewrite bool_decide_eq_false_2 by done.
  destruct (Z.leb_spec (Z.of_nat (length disks)) start); [lia|]. rewrite andb_false_r.
  destruct (Z.ltb_spec start 0); [lia|]. unfold bind, try. rewrite Hr. cbn.
  by replace (start + maxEntries - start) with maxEntries by lia; exists es, s1.
Qed.
End listing.

(** ** The properties on the concrete driver *)
Definition demo_three : DState Demo :=
  demo_dstate (MkDemo 0 {[ "d1" := demo_disk "Premium_LRS" 8; "d2" := demo_disk "Premium_LRS" 8;
                           "d3" := demo_disk "Premium_LRS" 8 ]} ∅ ∅ [] None).

Lemma ListVolumes_first_page_witness :
  ∃ resp s', ListVolumes (demo_driver false false) quiet "" 2 demo_three = (Ok resp, s') ∧
    Z.of_nat (length (lv_Entries resp)) ≤ 2.
Proof.
  eexists _, _. split; [vm_compute; reflexivity|].
  edestruct (ListVolumes_first_page (demo_driver false false) quiet 2 demo_three)
    as (disks & s1 & k & _ & _ & _ & H1 & _); [reflexivity|vm_compute; reflexivity|].
  apply H1. reflexivity.
Defined.

Lemma ListVolumes_token_repeats_witness :
  ∃ es s', ListVolumes (demo_driver false false) quiet (Itoa 1) 1 demo_three
             = (Ok (MkListVolumesResponse es (Itoa 1)), s').
Proof.
  eapply (ListVolumes_token_repeats (demo_driver false false) quiet 1 1 demo_three).
  6: vm_compute; reflexivity.
  - reflexivity.
  - reflexivity.
  - discriminate.
  - vm_compute. reflexivity.
  - split; vm_compute; congruence.
  - apply Forall_forall. repeat constructor; vm_compute; eauto.
Defined.
