(* ===== verification/Host.v ===== *)
(** * The node: its files, devices, mounts and programs

    [Host W] is the interface of the operating system of a node as the node
    server uses it: the files of [azureutils/osiohandler.go], the system calls,
    the commands it runs, and the vendored mount utilities, Kata library and
    volume metrics, as operations on an abstract world [W].  [demo_host] is a
    concrete instance for the witnesses. *)
From stdpp Require Import gmap strings list.
From Stdlib Require Import ZArith QArith Lia.
From S2P Require Import Prelude GoStrings GoErr Consts Util AzureTypes Optimization Cloud DemoCloud.
Local Open Scope string_scope.
Local Open Scope Z_scope.

(** volume.Metrics; [None] is a quantity for which [AsInt64] fails. *)
Record VolumeMetrics := MkVolumeMetrics {
  m_Available : option Z; m_Capacity : option Z; m_Used : option Z;
  m_InodesFree : option Z; m_Inodes : option Z; m_InodesUsed : option Z;
}.
(** directvolume.MountInfo *)
Record MountInfo := MkMountInfo {
  mi_VolumeType : string;
  mi_Device : string;
  mi_FsType : string;
  mi_Metadata : gmap string string;
  mi_Options : list string;
}.

Class Host (W : Type) := {
  (** azureutils.IOHandler; a directory is the names of its entries *)
  io_ReadDir : string → M W (list string);
  io_WriteFile : string → string → M W unit;
  io_Readlink : string → M W string;
  io_ReadFile : string → M W string;
  (** package os; [file_ReadDir1] is [ReadDir(1)] of an open directory *)
  os_Stat : string → M W unit;
  os_MkdirAll : string → M W unit;
  os_OpenFile : string → M W unit;
  os_CloseFile : string → M W unit;
  os_Remove : string → M W unit;
  os_Open : string → M W unit;
  file_ReadDir1 : string → M W unit;
  (** golang.org/x/sys/unix: an open descriptor, the device numbers of the
      descriptor and of its parent directory, the two forms of ioctl *)
  unix_Open : string → bool → M W Z;
  unix_Close : Z → M W unit;
  unix_Fstat_Dev : Z → M W Z;
  unix_FstatatParent_Dev : Z → M W Z;
  ioctlSetInt : Z → Z → Z → M W unit;
  ioctlSetPointerInt : Z → Z → Z → M W unit;
  (** exec.Interface: what the command printed, and its error *)
  exec_Output : string → list string → M W (string * option gerr);
  exec_CombinedOutput : string → list string → M W (string * option gerr);
  (** k8s.io/mount-utils *)
  mount_IsLikelyNotMountPoint : string → M W (bool * option gerr);
  mount_IsMountPoint : string → M W bool;
  mount_List : M W (list string);
  mount_Mount : string → string → string → list string → M W unit;
  mount_Unmount : string → M W unit;
  mount_CleanupMountPoint : string → bool → M W unit;
  mount_GetDeviceNameFromMount : string → M W string;
  mount_GetDiskFormat : string → M W string;
  mount_PathExists : string → M W bool;
  IsCorruptedMnt : gerr → bool;
  resize_Resize : string → string → M W bool;
  resize_NeedResize : string → string → M W bool;
  (** hostUtil and volume.NewMetricsStatFS *)
  host_PathIsDevice : string → M W bool;
  statfs_GetMetrics : string → M W VolumeMetrics;
  (** kata-containers direct-volume; encoding/base64 *)
  directvolume_AddMountInfo : string → MountInfo → M W unit;
  directvolume_Remove : string → M W unit;
  directvolume_VolumeMountInfo : string → M W MountInfo;
  base64_DecodeString : string → option string;
  (** the semaphore of concurrent formats: a send that may have to wait *)
  formatSem_Acquire : M W unit;
}.

(** The operations, except the commands that create a filesystem and the change of
    the size of one. *)
Definition is_mkfs (cmd : string) : bool := HasPrefix cmd "mkfs.".
Inductive safe_host_call {W} `{!Host W} : ∀ A, M W A → Prop :=
  | call_ReadDir p : safe_host_call _ (io_ReadDir p)
  | call_WriteFile p v : safe_host_call _ (io_WriteFile p v)
  | call_Readlink p : safe_host_call _ (io_Readlink p)
  | call_ReadFile p : safe_host_call _ (io_ReadFile p)
  | call_Stat p : safe_host_call _ (os_Stat p)
  | call_MkdirAll p : safe_host_call _ (os_MkdirAll p)
  | call_OpenFile p : safe_host_call _ (os_OpenFile p)
  | call_CloseFile p : safe_host_call _ (os_CloseFile p)
  | call_Remove p : safe_host_call _ (os_Remove p)
  | call_os_Open p : safe_host_call _ (os_Open p)
  | call_ReadDir1 p : safe_host_call _ (file_ReadDir1 p)
  | call_unix_Open p b : safe_host_call _ (unix_Open p b)
  | call_unix_Close fd : safe_host_call _ (unix_Close fd)
  | call_Fstat fd : safe_host_call _ (unix_Fstat_Dev fd)
  | call_Fstatat fd : safe_host_call _ (unix_FstatatParent_Dev fd)
  | call_ioctlSetInt fd r v : safe_host_call _ (ioctlSetInt fd r v)
  | call_ioctlSetPointerInt fd r v : safe_host_call _ (ioctlSetPointerInt fd r v)
  | call_exec_Output c a : safe_host_call _ (exec_Output c a)
  | call_exec_CombinedOutput c a : is_mkfs c = false → safe_host_call _ (exec_CombinedOutput c a)
  | call_IsLikelyNotMountPoint p : safe_host_call _ (mount_IsLikelyNotMountPoint p)
  | call_IsMountPoint p : safe_host_call _ (mount_IsMountPoint p)
  | call_mount_List : safe_host_call _ mount_List
  | call_Mount a b c o : safe_host_call _ (mount_Mount a b c o)
  | call_Unmount p : safe_host_call _ (mount_Unmount p)
  | call_CleanupMountPoint p b : safe_host_call _ (mount_CleanupMountPoint p b)
  | call_GetDeviceName p : safe_host_call _ (mount_GetDeviceNameFromMount p)
  | call_GetDiskFormat p : safe_host_call _ (mount_GetDiskFormat p)
  | call_PathExists p : safe_host_call _ (mount_PathExists p)
  | call_NeedResize a b : safe_host_call _ (resize_NeedResize a b)
  | call_PathIsDevice p : safe_host_call _ (host_PathIsDevice p)
  | call_GetMetrics p : safe_host_call _ (statfs_GetMetrics p)
  | call_AddMountInfo p i : safe_host_call _ (directvolume_AddMountInfo p i)
  | call_dv_Remove p : safe_host_call _ (directvolume_Remove p)
  | call_VolumeMountInfo p : safe_host_call _ (directvolume_VolumeMountInfo p)
  | call_formatSem : safe_host_call _ formatSem_Acquire.

(** ** A concrete node

    Files are a map of paths; commands answer from a table; what changes
    something is logged. *)
Record DemoHost := MkDemoHost {
  dh_dirs : list (string * list string);
  dh_links : list (string * string);
  dh_files : list (string * string);
  dh_commands : list (string * (string * option gerr));
  dh_mounts : list (string * string);        (**r mount point and device *)
  dh_format : string;                        (**r what blkid finds *)
  dh_records : list (string * string);       (**r Kata: encoded target, volume *)
  dh_resize : option gerr;                   (**r the answer to a resize *)
}.
Definition assoc {A} (l : list (string * A)) (k : string) : option A :=
  snd <$> List.find (λ e, String.eqb e.1 k) l.
Definition enoent {A} (what : string) : M Demo A := fail (ESys what ENOENT).
Definition answer {A} (what : string) (o : option A) : M Demo A :=
  match o with Some a => ret a | None => enoent what end.

Definition demo_host (h : DemoHost) : Host Demo := {|
  io_ReadDir p := answer p (assoc (dh_dirs h) p);
  io_WriteFile p v := modify (log ("write " +:+ p));
  io_Readlink p := answer p (assoc (dh_links h) p);
  io_ReadFile p := answer p (assoc (dh_files h) p);
  os_Stat p := answer p ((λ _, ()) <$> assoc (dh_links h) p);
  os_MkdirAll p := modify (log ("mkdir " +:+ p));
  os_OpenFile p := ret ();
  os_CloseFile p := ret ();
  os_Remove p := modify (log ("remove " +:+ p));
  os_Open p := ret ();
  file_ReadDir1 p := ret ();
  unix_Open p _ := ret 3;
  unix_Close _ := ret ();
  unix_Fstat_Dev _ := ret 1;
  unix_FstatatParent_Dev _ := ret 0;
  ioctlSetInt _ _ _ := ret ();
  ioctlSetPointerInt _ _ _ := modify (log "shutdown");
  exec_Output c a := λ d, (Ok (default ("", None) (assoc (dh_commands h) c)), log c d);
  exec_CombinedOutput c a := λ d, (Ok (default ("", None) (assoc (dh_commands h) c)), log c d);
  mount_IsLikelyNotMountPoint p := ret (bool_decide (assoc (dh_mounts h) p = None), None);
  mount_IsMountPoint p := ret (bool_decide (assoc (dh_mounts h) p ≠ None));
  mount_List := ret (fst <$> dh_mounts h);
  mount_Mount s t f o := modify (log ("mount " +:+ s +:+ " " +:+ t));
  mount_Unmount p := modify (log ("unmount " +:+ p));
  mount_CleanupMountPoint p _ := modify (log ("cleanup " +:+ p));
  mount_GetDeviceNameFromMount p := ret (default "" (assoc (dh_mounts h) p));
  mount_GetDiskFormat p := ret (dh_format h);
  mount_PathExists p := ret true;
  IsCorruptedMnt _ := false;
  resize_Resize a b := λ d, (match dh_resize h with None => Ok true | Some e => Err e end,
                             log ("resize " +:+ a) d);
  resize_NeedResize a b := ret false;
  host_PathIsDevice p := ret false;
  statfs_GetMetrics p := ret (MkVolumeMetrics (Some 1) (Some 2) (Some 1) (Some 1) (Some 2) (Some 1));
  directvolume_AddMountInfo t _ := modify (log ("kata " +:+ t));
  directvolume_Remove t := modify (log ("unkata " +:+ t));
  directvolume_VolumeMountInfo p := answer p
    ((λ v, MkMountInfo "directvol" "" "" {[ "azure.csi.disk/volume-id" := v ]} []) <$> assoc (dh_records h) p);
  base64_DecodeString s := Some s;
  formatSem_Acquire := ret ();
|}.
