(* ===== verification/Serving.v ===== *)
(** * Serving: [csi-common/utils.go], [csi-common/driver.go] and the identity service

    The endpoint the driver listens at, the level its calls are logged with, the base
    object of a CSI driver and the answers of the identity service. *)
From stdpp Require Import gmap strings list.
From Stdlib Require Import ZArith QArith Lia Ascii.
From S2P Require Import Prelude GoStrings GoErr Consts Util AzureTypes Cloud DemoCloud Kube ControllerCommon DriverState Host.
Local Open Scope string_scope.
Local Open Scope Z_scope.
Local Open Scope list_scope.

(** ** The endpoint *)
(** [csi-common/utils.go ParseEndpoint] [SplitN] with 2 parts has both after a prefix
    that holds the separator. *)
Definition ParseEndpoint (ep : string) : res (string * string) :=
  let invalid := Err (ENew ("Invalid endpoint: " +:+ ep)) in
  if HasPrefix (ToLower ep) "unix://" || HasPrefix (ToLower ep) "tcp://" then
    match SplitN2 ep "://" with
    | [s0; s1] => if negb (String.eqb s1 "") then Ok (s0, s1) else invalid
    | _ => Panic
    end
  else invalid.

Section listen.
  Context {W : Type} `{!Host W} (net_Listen : string → string → M W unit).
  (** [csi-common/utils.go Listen] The build is the one for Linux. *)
Definition Listen (endpoint : string) : M W unit :=
  let! (proto, addr) := lift (ParseEndpoint endpoint) in
  if String.eqb proto "unix" then
    let addr := "/" +:+ addr in
    let! r := try (os_Remove addr) in
    match r with
    | inl e => if os_IsNotExist e then net_Listen proto addr else fail e
    | inr _ => net_Listen proto addr
    end
  else net_Listen proto addr.
End listen.

(** ** Logging *)
(** [csi-common/utils.go getLogLevel] *)
Definition getLogLevel (method : string) : Z :=
  if String.eqb method "/csi.v1.Identity/Probe" || String.eqb method "/csi.v1.Node/NodeGetCapabilities"
     || String.eqb method "/csi.v1.Node/NodeGetVolumeStats" || String.eqb method "/csi.v1.Controller/ListVolumes"
  then 6 else 2.
(** [csi-common/utils.go LogGRPC] What is logged, with its level, around the answer of
    the handler (a text, or an error, which is logged at every level) at verbosity
    [v]; the answer is handed on. *)
Definition LogGRPC (v : Z) (method req : string) (resp : gerr + string) : list string :=
  let level := getLogLevel method in
  let at_level l m := if l <=? v then [m] else [] in
  at_level level ("GRPC call: " +:+ method) ++ at_level level ("GRPC request: " +:+ req) ++
  match resp with
  | inl e => ["GRPC error: " +:+ Error e]
  | inr respStr => if level <=? v
                   then at_level (if String.eqb respStr "{}" then 6 else level) ("GRPC response: " +:+ respStr)
                   else []
  end.

(** ** The base object *)
(** [csi-common/driver.go CSIDriver] *)
Record CSIDriver := MkCSIDriver {
  csi_Name : string; csi_NodeID : string; csi_Version : string;
  csi_Cap : list ControllerCap; csi_VC : list AccessMode; csi_NSCap : list NodeCap;
}.
(** [csi-common/driver.go NewCSIDriver] *)
Definition NewCSIDriver (name v nodeID : string) : option CSIDriver :=
  if String.eqb name "" then None
  else if String.eqb nodeID "" then None
  else Some (MkCSIDriver name nodeID v [] [] []).
(** [csi-common/driver.go AddControllerServiceCapabilities] They replace those there are. *)
Definition AddControllerServiceCapabilities (cl : list ControllerCap) (d : CSIDriver) : CSIDriver :=
  MkCSIDriver (csi_Name d) (csi_NodeID d) (csi_Version d) cl (csi_VC d) (csi_NSCap d).
(** [csi-common/driver.go AddNodeServiceCapabilities] *)
Definition AddNodeServiceCapabilities (nl : list NodeCap) (d : CSIDriver) : CSIDriver :=
  MkCSIDriver (csi_Name d) (csi_NodeID d) (csi_Version d) (csi_Cap d) (csi_VC d) nl.
(** [csi-common/driver.go AddVolumeCapabilityAccessModes] *)
Definition AddVolumeCapabilityAccessModes (vc : list AccessMode) (d : CSIDriver) : CSIDriver :=
  MkCSIDriver (csi_Name d) (csi_NodeID d) (csi_Version d) (csi_Cap d) vc (csi_NSCap d).

(** ** The identity service *)
(** [azuredisk/identityserver.go GetPluginInfo] *)
Definition GetPluginInfo (d : DriverConfig) : res (string * string) :=
  if String.eqb (d_Name d) "" then Err (EStatus codes.Unavailable "Driver name not configured")
  else if String.eqb (d_Version d) "" then Err (EStatus codes.Unavailable "Driver is missing version")
  else Ok (d_Name d, d_Version d).
(** [azuredisk/identityserver.go Probe] *)
Definition Probe : bool := true.
Inductive PluginCapability := CONTROLLER_SERVICE | VOLUME_ACCESSIBILITY_CONSTRAINTS | EXPANSION_OFFLINE | EXPANSION_ONLINE.
(** [azuredisk/identityserver.go GetPluginCapabilities] *)
Definition GetPluginCapabilities (d : DriverConfig) : list PluginCapability :=
  [CONTROLLER_SERVICE; VOLUME_ACCESSIBILITY_CONSTRAINTS; EXPANSION_OFFLINE]
  ++ if enableDiskOnlineResize d then [EXPANSION_ONLINE] else [].

(** ** Properties *)
Lemma ToLower_app_inv s a b :
  ToLower s = a +:+ b → ∃ s1 s2, s = s1 +:+ s2 ∧ ToLower s1 = a ∧ ToLower s2 = b.
Proof.
  revert s. induction a as [|c a IH]; intros s Hs; [by exists "", s|].
  destruct s as [|d s]; [done|]. injection Hs as Hd Hs. apply IH in Hs as (s1 & s2 & -> & H1 & H2).
  exists (String d s1), s2. split_and!; [done| |done]. change (ToLower (String d s1)) with (String (lower_ascii d) (ToLower s1)). by rewrite Hd, H1.
Qed.
(** A byte that is no letter is the lower case of itself only. *)
Lemma lower_ascii_other c : lower_ascii c = ":"%char ∨ lower_ascii c = "/"%char → lower_ascii c = c.
Proof. destruct c as [[] [] [] [] [] [] [] []]; vm_compute; intuition discriminate. Qed.
Lemma ToLower_separator s : ToLower s = "://" → s = "://".
Proof.
  destruct s as [|a [|b [|c [|d s]]]]; try done. cbn. intros [= Ha Hb Hc].
  rewrite <-(lower_ascii_other a), <-(lower_ascii_other b), <-(lower_ascii_other c) by auto. by rewrite Ha, Hb, Hc.
Qed.
Lemma has_colon_lower s : has_byte ":" s = true → has_byte ":" (ToLower s) = true.
Proof.
  induction s as [|c s IH]; [done|]. cbn [has_byte ToLower map_string]. intros [Hc|Hs]%orb_true_iff; apply orb_true_iff; [left|auto].
  apply Ascii.eqb_eq in Hc as <-. done.
Qed.
Lemma cut_separator p a : has_byte ":" p = false → cut (p +:+ "://" +:+ a) "://" = Some (p, a).
Proof.
  induction p as [|c p IH]; intros Hp; [rewrite str_nil_app, cut_unfold, HasPrefix_app; by rewrite str_drop_app|].
  cbn [has_byte] in Hp. apply orb_false_iff in Hp as [Hc Hp]. rewrite str_cons_app, cut_unfold.
  cbn [HasPrefix]. rewrite Hc. cbn [andb]. by rewrite IH.
Qed.
Definition known_scheme (p : string) : Prop := ToLower p = "unix" ∨ ToLower p = "tcp".
Lemma known_no_colon p : known_scheme p → has_byte ":" p = false.
Proof.
  intros Hp. destruct (has_byte ":" p) eqn:E; [|done]. apply has_colon_lower in E. destruct Hp as [Hp|Hp]; by rewrite Hp in E.
Qed.
Lemma scheme_prefix ep sch :
  HasPrefix (ToLower ep) (sch +:+ "://") = true ↔ ∃ p a, ep = p +:+ "://" +:+ a ∧ ToLower p = sch.
Proof.
  rewrite HasPrefix_spec. split.
  - intros [r Hr]. rewrite <-str_app_assoc in Hr. apply ToLower_app_inv in Hr as (p & x & -> & Hp & Hx).
    apply ToLower_app_inv in Hx as (y & a & -> & ->%ToLower_separator & _). eauto.
  - intros (p & a & -> & <-). exists (ToLower a). by rewrite !ToLower_app, <-str_app_assoc.
Qed.

(** The endpoints that are accepted, and what becomes of them: a scheme that is "unix" or
    "tcp" up to case, "://", and an address that is not empty; the scheme and the
    address come back as they were written, so that the endpoint is read and
    written without loss; everything else is refused with an error. *)
Theorem ParseEndpoint_spec ep :
  (∀ proto addr, ParseEndpoint ep = Ok (proto, addr) ↔
     ep = proto +:+ "://" +:+ addr ∧ known_scheme proto ∧ addr ≠ "") ∧
  (∀ e, ParseEndpoint ep = Err e → e = ENew ("Invalid endpoint: " +:+ ep)) ∧
  ParseEndpoint ep ≠ Panic.
Proof.
  assert (Hs : HasPrefix (ToLower ep) "unix://" || HasPrefix (ToLower ep) "tcp://" = true ↔
               ∃ p a, ep = p +:+ "://" +:+ a ∧ known_scheme p).
  { rewrite orb_true_iff. change "unix://" with ("unix" +:+ "://"). change "tcp://" with ("tcp" +:+ "://").
    rewrite !scheme_prefix. unfold known_scheme. naive_solver. }
  unfold ParseEndpoint. destruct (_ || _) eqn:E.
  - destruct (proj1 Hs eq_refl) as (p & a & -> & Hp). unfold SplitN2. rewrite cut_separator by by apply known_no_colon.
    destruct (String.eqb_spec a "") as [->|Ha]; simpl; split_and!; try done; try congruence.
    + intros q b. split; [done|]. intros (Heq & Hq & Hb). exfalso.
      pose proof (cut_separator p "" (known_no_colon _ Hp)) as H1. rewrite Heq, cut_separator in H1 by by apply known_no_colon.
      congruence.
    + intros q b. split; [by intros [= <- <-]|]. intros (Heq & Hq & Hb).
      pose proof (cut_separator p a (known_no_colon _ Hp)) as H1. rewrite Heq, cut_separator in H1 by by apply known_no_colon.
      congruence.
  - split_and!; [|congruence|done]. intros q b. split; [done|]. intros (-> & Hq & _).
    exfalso. assert (false = true); [|done]. apply Hs. eauto.
Qed.

(** An endpoint "UNIX://..." is accepted, but is not taken for a socket: the path keeps no
    leading slash and a socket file that is left over is not removed. *)
Theorem Listen_upper_case {W} `{!Host W} net_Listen addr :
  addr ≠ "" → Listen (W:=W) net_Listen ("UNIX://" +:+ addr) = net_Listen "UNIX" addr.
Proof.
  intros Ha. unfold Listen. destruct (ParseEndpoint_spec ("UNIX://" +:+ addr)) as (Hp & _ & _).
  rewrite (proj2 (Hp "UNIX" addr)); [done|]. split_and!; [done|by left|done].
Qed.
