(* ===== verification/Device.v ===== *)
(** * Devices and filesystems of a node: [azure_common_linux.go]

    The search for the device of a LUN, the decision to format a disk, the
    checks with fsck, the sizes, the statistics of a volume and what happens to
    a device when its volume is unstaged.  A call of the operating system is a
    point at which other requests may run ([svc]). *)
From stdpp Require Import gmap strings list.
From Stdlib Require Import ZArith QArith Lia.
From S2P Require Import Prelude GoStrings GoErr Consts Util AzureTypes Optimization DiskUtils Cloud ControllerCommon DriverState Host.
Local Open Scope string_scope.
Local Open Scope Z_scope.
Local Open Scope list_scope.

(** ** Constants and texts *)
Definition sysClassBlockPath : string := "/sys/class/block/".
Definition fsckErrorsCorrected : Z := 1.
Definition fsckErrorsUncorrected : Z := 4.
Definition fsckOperationalError : Z := 8.
Definition fsIocShutdown : Z := 0x8004587D.
(** [unix.BLKFLSBUF] *)
Definition BLKFLSBUF : Z := 0x1261.
(** [%v] of a list of strings *)
Definition show_list (l : list string) : string := "[" +:+ Join l " " +:+ "]".
(** [s[strings.LastIndex(s, "/")+1:]] *)
Definition last_segment (s : string) : string := default "" (last (Split s "/")).
(** [strings.TrimSpace] of an output is empty. *)
Definition blank (s : string) : bool := String.eqb (TrimSpace s) "".
Definition superblock_unreadable : string :=
  "superblock could not be read or does not describe a valid ext2/ext3/ext4".

(** [wholeDiskNameRegexp.FindString]: [^sd[a-z]+|^nvme[0-9]+n[0-9]+], leftmost
    alternative first, each repetition as long as it can be. *)
Fixpoint take_while (f : Ascii.ascii → bool) (s : string) : string :=
  match s with
  | String c s' => if f c then String c (take_while f s') else ""
  | EmptyString => ""
  end.
Definition is_lower (c : Ascii.ascii) : bool :=
  let n := Ascii.N_of_ascii c in (97 <=? n)%N && (n <=? 122)%N.
(** [azuredisk/azure_common_linux.go wholeDiskNameRegexp] *)
Definition wholeDiskName (s : string) : string :=
  let sd := take_while is_lower (str_drop 2 s) in
  if HasPrefix s "sd" && negb (String.eqb sd "") then "sd" +:+ sd
  else if HasPrefix s "nvme" then
    let a := take_while is_digit (str_drop 4 s) in
    let rest := str_drop (String.length a) (str_drop 4 s) in
    let b := take_while is_digit (str_drop 1 rest) in
    if negb (String.eqb a "") && HasPrefix rest "n" && negb (String.eqb b "")
    then "nvme" +:+ a +:+ "n" +:+ b else ""
  else "".

(** The LUN of an entry of /sys/bus/scsi/devices that is looked at further:
    the entry has the form [host:channel:target:lun], and when no link under
    /dev/disk/azure is known the hosts 0 to 3 of the OS disks are skipped. *)
Definition scsi_lun (azureDisks : list string) (name : string) : option Z :=
  match Split name ":" with
  | target :: _ :: _ :: l :: _ =>
      if match azureDisks with
         | [] => match Atoi target with Some t => 3 <? t | None => false end
         | _ => true
         end
      then Atoi l else None
  | _ => None
  end.

(** csi.VolumeUsage *)
Inductive UsageUnit := USAGE_BYTES | USAGE_INODES.
Record VolumeUsage := MkVolumeUsage {
  u_Unit : UsageUnit; u_Available : Z; u_Total : Z; u_Used : Z;
}.

Section device.
  Context {W : Type} `{!Cloud W} `{!Host W} `{!DeviceIO W}.
  Context (others : point → CState W → CState W).
  Local Notation D := (M (DState W)).
  Local Notation svc := (svc others).

(** ** The device of a LUN *)
  (** [azuredisk/azure_common_linux.go listAzureDiskPath 74-81] *)
Fixpoint azure_links (azureDiskPath : string) (names : list string) : D (list string) :=
  match names with
  | [] => ret []
  | name :: names' =>
      let! r := try (svc (io_Readlink (filepath_Join [azureDiskPath; name]))) in
      let! rest := azure_links azureDiskPath names' in
      ret (match r with inr link => last_segment link :: rest | inl _ => rest end)
  end.
  (** [azuredisk/azure_common_linux.go listAzureDiskPath] *)
Fixpoint listAzureDiskPath_in (paths : list string) : D (list string) :=
  match paths with
  | [] => ret []
  | azureDiskPath :: paths' =>
      let! r := try (svc (io_ReadDir azureDiskPath)) in
      let! here := match r with inr dirs => azure_links azureDiskPath dirs | inl _ => ret [] end in
      let! rest := listAzureDiskPath_in paths' in
      ret (here ++ rest)
  end.
  (** [azuredisk/azure_common_linux.go listAzureDiskPath] *)
Definition listAzureDiskPath : D (list string) :=
  listAzureDiskPath_in ["/dev/disk/azure/"; "/dev/disk/azure/scsi0/"].

  (** [azuredisk/azure_common_linux.go getDiskLinkByDevName 93-104] *)
Fixpoint link_to (devLinkPath devName : string) (names : list string) : D (option string) :=
  match names with
  | [] => ret None
  | name :: names' =>
      let diskPath := devLinkPath +:+ name in
      let! r := try (svc (io_Readlink diskPath)) in
      match r with
      | inl _ => link_to devLinkPath devName names'
      | inr link => if HasSuffix link devName then ret (Some diskPath)
                    else link_to devLinkPath devName names'
      end
  end.
  (** [azuredisk/azure_common_linux.go getDiskLinkByDevName] *)
Definition getDiskLinkByDevName (devLinkPath devName : string) : D string :=
  let! r := try (svc (io_ReadDir devLinkPath)) in
  match r with
  | inl e => fail (ENew ("read " +:+ devLinkPath +:+ " error: " +:+ Error e))
  | inr dirs =>
      let! l := link_to devLinkPath devName dirs in
      match l with
      | Some diskPath => ret diskPath
      | None => fail (ENew ("device name(" +:+ devName +:+ ") is not found under " +:+ devLinkPath))
      end
  end.

  (** [azuredisk/azure_common_linux.go scsiHostRescan] *)
Definition scsiHostRescan : D unit :=
  let scsiPath := "/sys/class/scsi_host/" in
  let! r := try (svc (io_ReadDir scsiPath)) in
  match r with
  | inl _ => ret ()
  | inr dirs => for_each dirs (λ name,
      let! _ := try (svc (io_WriteFile (scsiPath +:+ name +:+ "/scan") "- - -")) in ret ())
  end.

  (** [azuredisk/azure_common_linux.go findDiskByLunWithConstraint 376-385] The
      name of a device that is no system disk. *)
Fixpoint device_link (devLinkPaths : list string) (devName : string) : D string :=
  match devLinkPaths with
  | [] => ret ("/dev/" +:+ devName)
  | devLinkPath :: paths' =>
      let! r := try (getDiskLinkByDevName devLinkPath devName) in
      match r with inr diskPath => ret diskPath | inl _ => device_link paths' devName end
  end.
  (** The file [p] holds [expected], up to case and surrounding space. *)
Definition file_says (p expected : string) : D bool :=
  let! r := try (svc (io_ReadFile p)) in
  ret (match r with inr s => String.eqb (ToUpper (TrimSpace s)) expected | inl _ => false end).

Definition scsiPath : string := "/sys/bus/scsi/devices".
  (** [azuredisk/azure_common_linux.go findDiskByLunWithConstraint 309-388] One
      entry: [Some] is the device that is returned, [None] continues.  A block
      directory without entries is indexed out of range. *)
Definition scsi_entry (lun : Z) (azureDisks : list string) (name : string) : D (option string) :=
  if negb (bool_decide (scsi_lun azureDisks name = Some lun)) then ret None
  else
    let! vendor := file_says (filepath_Join [scsiPath; name; "vendor"]) "MSFT" in
    if negb vendor then ret None
    else
      let! model := file_says (filepath_Join [scsiPath; name; "model"]) "VIRTUAL DISK" in
      if negb model then ret None
      else
        let! r := try (svc (io_ReadDir (filepath_Join [scsiPath; name; "block"]))) in
        match r with
        | inl _ => ret None
        | inr dev =>
            let! devName := lift (deref (head dev)) in
            if bool_decide (devName ∈ azureDisks) then ret None
            else
              let! p := device_link ["/dev/disk/azure/scsi1/"; "/dev/disk/by-id/"] devName in
              ret (Some p)
        end.
  (** [azuredisk/azure_common_linux.go findDiskByLunWithConstraint 308-389] *)
Fixpoint scsi_entries (lun : Z) (azureDisks : list string) (names : list string) : D string :=
  match names with
  | [] => ret ""
  | name :: names' =>
      let! r := scsi_entry lun azureDisks name in
      match r with Some p => ret p | None => scsi_entries lun azureDisks names' end
  end.
  (** [azuredisk/azure_common_linux.go findDiskByLunWithConstraint] The error that
      is returned at the end is the outer one, which is never set. *)
Definition findDiskByLunWithConstraint (lun : Z) (azureDisks : list string) : D string :=
  let! r := try (svc (io_ReadDir scsiPath)) in
  match r with
  | inl _ => ret ""
  | inr dirs => scsi_entries lun azureDisks dirs
  end.

  (** [azuredisk/azure_common_linux.go findDiskByLun 137-144] *)
Fixpoint first_link (devPaths : list string) : D (option string) :=
  match devPaths with
  | [] => ret None
  | devPath :: devPaths' =>
      let! r := try (svc (os_Stat devPath)) in
      match r with
      | inl _ => first_link devPaths'
      | inr _ =>
          let! l := try (svc (io_Readlink devPath)) in
          match l with inr _ => ret (Some devPath) | inl _ => first_link devPaths' end
      end
  end.
  (** [azuredisk/azure_common_linux.go findDiskByLun] *)
Definition findDiskByLun (lun : Z) : D string :=
  let! azureDisks := listAzureDiskPath in
  let! r := try (findDiskByLunWithConstraint lun azureDisks) in
  let device := match r with inr device => device | inl _ => "" end in
  if negb (String.eqb device "") then ret device
  else
    let! l := first_link ["/dev/disk/azure/scsi1/lun" +:+ Itoa lun;
                          "/dev/disk/azure/data/by-lun/" +:+ Itoa lun] in
    match l with
    | Some p => ret p
    | None => fail (ENew ("failed to find disk by lun " +:+ Itoa lun))
    end.

(** ** Filesystems *)
  (** [azuredisk/azure_common_linux.go mountWithMetrics] *)
Definition mountWithMetrics (source target fstype : string) (options : list string) : D unit :=
  let! r := try (svc (mount_Mount source target fstype options)) in
  match r with
  | inl e => fail (ENew ("failed to mount disk " +:+ source +:+ " at " +:+ target +:+ " with options "
                         +:+ show_list options +:+ " and error: " +:+ Error e))
  | inr _ => ret ()
  end.

  (** [azuredisk/azure_common_linux.go mkfsWithConcurrencyLimit] [limited]: there is
      a semaphore; its token is given back by another goroutine. *)
Definition mkfsWithConcurrencyLimit (limited : bool) (fstype : string) (args : list string)
    : D (string * option gerr) :=
  let! _ := if limited then svc formatSem_Acquire else ret () in
  svc (exec_CombinedOutput ("mkfs." +:+ fstype) args).

  (** [azuredisk/azure_common_linux.go detectOrRepairFilesystem 549-583] What the
      error of fsck means: the answer and the error that are returned. *)
Definition fsck_outcome (source : string) (fsckOptions : list string) (out : string) (err : gerr)
    : bool * option gerr :=
  let on_device := source +:+ " with options " +:+ show_list fsckOptions in
  let status := match err with EExit n _ => Some n | _ => None end in
  let has bit := match status with Some n => (0 <=? n) && negb (Z.land n bit =? 0) | None => false end in
  if bool_decide (err = ESentinel ExecutableNotFound)
  then (false, Some (ENew ("'fsck' not found to detect filesystem on device " +:+ on_device
                           +:+ ": " +:+ Error err)))
  else if has fsckOperationalError
  then (false, Some (ENew ("Unable to run fsck on device " +:+ on_device +:+ ", fsck error: "
                           +:+ Error err +:+ " output: " +:+ out)))
  else if has fsckErrorsUncorrected
  then (true, Some (ENew ("'fsck' found errors on device " +:+ on_device
                          +:+ " but could not correct them output: " +:+ out +:+ " (exit status "
                          +:+ Itoa (default 0 status) +:+ ")")))
  else if has fsckErrorsCorrected then (true, None)
  else match status with
       | Some n => if fsckErrorsUncorrected <? n
                   then (false, Some (ENew ("'fsck' failed on device " +:+ on_device +:+ ": " +:+ Error err)))
                   else (true, None)
       | None => (true, None)
       end.
  (** [azuredisk/azure_common_linux.go detectOrRepairFilesystem] *)
Definition detectOrRepairFilesystem (source : string) (fsckOptions : list string)
    : D (bool * option gerr) :=
  let! (out, err) := svc (exec_CombinedOutput "fsck" (fsckOptions ++ [source])) in
  ret (match err with Some e => fsck_outcome source fsckOptions out e | None => (true, None) end).

  (** [azuredisk/azure_common_linux.go detectFilesystemExistence] *)
Definition detectFilesystemExistence (source : string) : D bool :=
  let! (isFSExist, err) := detectOrRepairFilesystem source ["-n"] in
  let! _ := match err with
            | Some e => guard_else (Contains (ToLower (Error e)) superblock_unreadable)
                (ENew ("detectFilesystemExistence - failed to check existence of filesystem on disk "
                       +:+ source +:+ " through 'fsck' with error(" +:+ Error e +:+ ")"))
            | None => ret ()
            end in
  if isFSExist then ret true
  else
    let! (detectedFsType, err) := svc (exec_CombinedOutput "wipefs"
                                         ["--no-act"; "--output"; "TYPE"; "--noheadings"; source]) in
    match err with
    | Some e => fail (ENew ("detectFilesystemExistence - failed to check existence of filesystem on disk "
                            +:+ source +:+ " through 'wipefs' with error(" +:+ Error e +:+ ")"))
    | None => ret (negb (blank detectedFsType))
    end.

  (** [azuredisk/azure_common_linux.go repairFilesystem] *)
Definition repairFilesystem (source : string) (options : list string) : D unit :=
  let! (filesystemExists, err) := detectOrRepairFilesystem source options in
  match err with
  | Some e => if filesystemExists then fail e else ret ()
  | None => ret ()
  end.

  (** [azuredisk/azure_common_linux.go formatAndMount 162-236] The format of the disk,
      [None] when it may be formatted. *)
Definition probe_format (source : string) (readOnly : bool) : D (option string) :=
  let! r := try (svc (mount_GetDiskFormat source)) in
  match r with
  | inl e => fail (ENew ("failed to get disk format for " +:+ source +:+ " with error("
                         +:+ Error e +:+ ")"))
  | inr diskFSFormat =>
      if negb (String.eqb diskFSFormat "") then ret (Some diskFSFormat)
      else
        let! r := try (detectFilesystemExistence source) in
        match r with
        | inl e => fail (ENew ("formatAndMount - failed to check existence of filesystem on disk "
                               +:+ source +:+ " with error(" +:+ Error e +:+ ")"))
        | inr false =>
            if readOnly
            then fail (ENew ("formatAndMount - disk " +:+ source
                             +:+ " is not formatted, but mount options specify read-only"))
            else ret None
        | inr true =>
            let! r := try (svc (mount_GetDiskFormat source)) in
            match r with
            | inl e => fail (ENew ("failed to re-read filesystem signature on disk " +:+ source
                                   +:+ " with error: " +:+ Error e))
            | inr reReadFormat => ret (Some reReadFormat)
            end
        end
  end.
  (** [azuredisk/azure_common_linux.go formatAndMount 196-210] *)
Definition mkfs_args (fstype source : string) : list string :=
  if String.eqb fstype "ext4" || String.eqb fstype "ext3" then ["-F"; "-m0"; source]
  else if String.eqb fstype "xfs" then ["-f"; source] else [source].
  (** [azuredisk/azure_common_linux.go formatAndMount 196-222] *)
Definition format_disk (limited : bool) (source fstype : string) : D unit :=
  let args := mkfs_args fstype source in
  let! (output, err) := mkfsWithConcurrencyLimit limited fstype args in
  match err with
  | Some e => fail (ENew ("failed to format disk " +:+ source +:+ " as type " +:+ fstype
                          +:+ " with options " +:+ show_list args +:+ ": " +:+ output +:+ " error: "
                          +:+ Error e))
  | None => ret ()
  end.
  (** [azuredisk/azure_common_linux.go formatAndMount 239-258] *)
Definition mount_formatted (source target fstype : string) (options : list string)
    (readOnly newlyFormatted : bool) (diskFSFormat : string) : D unit :=
  if negb (EqualFold fstype diskFSFormat)
  then fail (ENew ("configured to mount disk " +:+ source +:+ " as " +:+ fstype
                   +:+ " but current format is " +:+ diskFSFormat +:+ ", things might break"))
  else
    let! _ := if newlyFormatted || readOnly then ret ()
              else
                let! r := try (repairFilesystem source ["-a"]) in
                match r with
                | inl e => fail (ENew ("failed to run fsck on disk " +:+ source +:+ " with error: "
                                       +:+ Error e))
                | inr _ => ret ()
                end in
    mountWithMetrics source target fstype (options ++ ["defaults"]).
  (** [azuredisk/azure_common_linux.go formatAndMount] *)
Definition formatAndMount (limited : bool) (source target fstype : string) (options : list string)
    : D unit :=
  let '(newOptions, exists_) := RemoveOptionIfExists options "directmount" in
  if exists_ then mountWithMetrics source target fstype newOptions
  else
    let readOnly := bool_decide ("ro" ∈ options) in
    let! probed := probe_format source readOnly in
    match probed with
    | None =>
        let! _ := format_disk limited source fstype in
        mount_formatted source target fstype options readOnly true fstype
    | Some diskFSFormat => mount_formatted source target fstype options readOnly false diskFSFormat
    end.

(** ** Sizes *)
  (** [azuredisk/azure_common_linux.go getDevicePathWithMountPath] *)
Definition getDevicePathWithMountPath (mountPath : string) : D string :=
  let! (output, err) := svc (exec_Output "findmnt" ["-o"; "source"; "--noheadings"; "--mountpoint"; mountPath]) in
  match err with
  | Some e => fail (ENew ("could not determine device path(" +:+ mountPath +:+ "), error: " +:+ Error e))
  | None =>
      let devicePath := TrimSpace output in
      if String.eqb devicePath ""
      then fail (ENew ("could not get valid device for mount path: " +:+ quote mountPath))
      else ret devicePath
  end.
  (** [azuredisk/azure_common_linux.go getBlockSizeBytes] The value -1 that comes with
      an error is not used. *)
Definition getBlockSizeBytes (devicePath : string) : D Z :=
  let! (output, err) := svc (exec_Output "blockdev" ["--getsize64"; devicePath]) in
  match err with
  | Some e => fail (ENew ("error when getting size of block volume at path " +:+ devicePath
                          +:+ ": output: " +:+ output +:+ ", err: " +:+ Error e))
  | None =>
      match ParseInt (TrimSpace output) 64 with
      | Some n => ret n
      | None => fail (ENew ("failed to parse size " +:+ TrimSpace output +:+ " into int a size"))
      end
  end.
  (** [azuredisk/azure_common_linux.go resizeVolume] *)
Definition resizeVolume (devicePath volumePath : string) : D unit :=
  let! _ := svc (resize_Resize devicePath volumePath) in ret ().
  (** [azuredisk/azure_common_linux.go needResizeVolume] *)
Definition needResizeVolume (devicePath volumePath : string) : D bool :=
  svc (resize_NeedResize devicePath volumePath).
  (** [azuredisk/azure_common_linux.go rescanVolume] *)
Definition rescanVolume (devicePath : string) : D unit :=
  svc (io_WriteFile (filepath_Join [sysClassBlockPath; filepath_Base devicePath; "device/rescan"]) "1").
  (** The names that [rescanAllVolumes] rescans; the strings are compared byte by
      byte. *)
Definition rescanned (deviceName : string) : bool :=
  HasPrefix deviceName "sd" && negb (String.ltb deviceName "sdc").
  (** [azuredisk/azure_common_linux.go rescanAllVolumes] *)
Definition rescanAllVolumes : D unit :=
  let! dirs := svc (io_ReadDir sysClassBlockPath) in
  for_each dirs (λ deviceName,
    if rescanned deviceName then
      let! _ := try (rescanVolume (filepath_Join [sysClassBlockPath; deviceName])) in ret ()
    else ret ()).

  (** [azuredisk/azure_common_linux.go GetVolumeStats 620-659] *)
Definition metrics_usage (v : VolumeMetrics) : res (list VolumeUsage) :=
  let quantity o what := match o with
                         | Some n => Ok n
                         | None => Err (EStatus codes.Internal ("failed to transform " +:+ what))
                         end in
  let? available := quantity (m_Available v) "volume available size" in
  let? capacity := quantity (m_Capacity v) "volume capacity size" in
  let? used := quantity (m_Used v) "volume used size" in
  let? inodesFree := quantity (m_InodesFree v) "disk inodes free" in
  let? inodes := quantity (m_Inodes v) "disk inodes" in
  let? inodesUsed := quantity (m_InodesUsed v) "disk inodes used" in
  Ok [MkVolumeUsage USAGE_BYTES available capacity used;
      MkVolumeUsage USAGE_INODES inodesFree inodes inodesUsed].
  (** [azuredisk/azure_common_linux.go GetVolumeStats] *)
Definition GetVolumeStats (target : string) : D (list VolumeUsage) :=
  let! r := try (svc (os_Stat target)) in
  match r with
  | inl e => if os_IsNotExist e
             then fail (EStatus codes.NotFound ("path " +:+ target +:+ " does not exist"))
             else fail (EStatus codes.Internal ("failed to stat file " +:+ target +:+ ": " +:+ Error e))
  | inr _ =>
      let! isBlock := status_on (svc (host_PathIsDevice target)) codes.NotFound (λ e,
        "failed to determine whether " +:+ target +:+ " is block device: " +:+ Error e) in
      if (isBlock : bool) then
        let! bcap := status_on (getBlockSizeBytes target) codes.Internal (λ e,
          "failed to get block capacity on path " +:+ target +:+ ": " +:+ Error e) in
        ret [MkVolumeUsage USAGE_BYTES 0 bcap 0]
      else
        let! volumeMetrics := svc (statfs_GetMetrics target) in
        lift (metrics_usage volumeMetrics)
  end.

(** ** Unstaging a device *)
  (** A descriptor is closed on every way out. *)
Definition with_fd {A} (fd : Z) (m : D A) : D A := λ s,
  let '(r, s1) := m s in (r, (svc (unix_Close fd) s1).2).
  (** [azuredisk/azure_common_linux.go flushAndInvalidateBlockDevice 715-725] *)
Definition flushAndInvalidateBlockDevice (devicePath : string) : D unit :=
  let! r := try (svc (unix_Open devicePath false)) in
  match r with
  | inl e => fail (EWrap ("failed to open device " +:+ devicePath +:+ ": ") e "")
  | inr fd => with_fd fd (
      let! r := try (svc (ioctlSetInt fd BLKFLSBUF 0)) in
      match r with
      | inl e => fail (EWrap ("failed to flush buffers on device " +:+ devicePath +:+ ": ") e "")
      | inr _ => ret ()
      end)
  end.
  (** [azuredisk/azure_common_linux.go shutdownFilesystem 731-759] *)
Definition shutdownFilesystem (stagingTargetPath : string) : D unit :=
  let failed {A} what (e : gerr) : D A := fail (EWrap (what +:+ stagingTargetPath +:+ ": ") e "") in
  let! r := try (svc (unix_Open stagingTargetPath true)) in
  match r with
  | inl e => failed "failed to open mount " e
  | inr fd => with_fd fd (
      let! r := try (svc (unix_Fstat_Dev fd)) in
      match r with
      | inl e => failed "failed to stat " e
      | inr self =>
          let! r := try (svc (unix_FstatatParent_Dev fd)) in
          match r with
          | inl e => failed "failed to stat parent of " e
          | inr parent =>
              if self =? parent
              then fail (EWrap ("skipping shutdown of " +:+ stagingTargetPath +:+ ": not a mountpoint (")
                           (ESentinel OsErrNotExist) ")")
              else
                let! r := try (svc (ioctlSetPointerInt fd fsIocShutdown 0)) in
                match r with
                | inl e => if errors_Is_errno e ENOTTY || errors_Is_errno e EINVAL
                              || errors_Is_errno e EOPNOTSUPP
                           then ret ()
                           else failed "failed to shut down filesystem at " e
                | inr _ => ret ()
                end
          end
      end)
  end.

  (** [azuredisk/azure_common_linux.go unmountAndInvalidateDevice 666-674] *)
Definition backing_device (stagingTargetPath : string) : D string :=
  let! r := try (svc (mount_GetDeviceNameFromMount stagingTargetPath)) in
  match r with
  | inl _ => ret ""
  | inr devicePath =>
      if String.eqb devicePath "" then ret ""
      else
        let! r := try (svc (EvalSymlinks devicePath)) in
        ret (match r with inr resolved => resolved | inl _ => devicePath end)
  end.
  (** [azuredisk/azure_common_linux.go unmountAndInvalidateDevice 691-694] *)
Definition flush_targets (devicePath : string) : list string :=
  let wholeDisk := wholeDiskName (filepath_Base devicePath) in
  if negb (String.eqb wholeDisk "") && negb (String.eqb ("/dev/" +:+ wholeDisk) devicePath)
  then [devicePath; "/dev/" +:+ wholeDisk] else [devicePath].
  (** [azuredisk/azure_common_linux.go CleanupMountPoint] *)
Definition CleanupMountPoint (path : string) (extensiveCheck : bool) : D unit :=
  svc (mount_CleanupMountPoint path extensiveCheck).
  (** [azuredisk/azure_common_linux.go unmountAndInvalidateDevice] *)
Definition unmountAndInvalidateDevice (stagingTargetPath : string) (enableSCSIDeviceDeletion : bool)
    : D unit :=
  let! devicePath := backing_device stagingTargetPath in
  let! _ := try (shutdownFilesystem stagingTargetPath) in
  let! _ := CleanupMountPoint stagingTargetPath true in
  if String.eqb devicePath "" then ret ()
  else
    let! _ := for_each (flush_targets devicePath) (λ target,
                let! _ := try (flushAndInvalidateBlockDevice target) in ret ()) in
    let wholeDisk := wholeDiskName (filepath_Base devicePath) in
    if enableSCSIDeviceDeletion && HasPrefix wholeDisk "sd" then
      let! _ := try (svc (io_WriteFile (filepath_Join [sysClassBlockPath; wholeDisk; "device"; "delete"]) "1")) in
      ret ()
    else ret ().
End device.
