(* ===== verification/Wireserver.v ===== *)
(** * Attaching from the node: the wireserver protocol of [nodeserver.go]

    A node-driven volume is attached and detached by the node itself, with
    requests to the wireserver of the host that carry a sequence number which the
    annotations of the PersistentVolume record.  [Wire W] is the HTTP endpoint
    with the JSON of its answers. *)
From stdpp Require Import gmap strings list.
From Stdlib Require Import ZArith QArith Lia.
From S2P Require Import Prelude GoStrings GoErr Consts Util AzureTypes DiskUtils Cloud DemoCloud Kube ControllerCommon DriverState Driver.
Local Open Scope string_scope.
Local Open Scope Z_scope.

(** ** Messages *)
Definition attachOperation : string := "Attach".
Definition detachOperation : string := "Detach".
(** [azuredisk/nodeserver.go DiskOp] *)
Record DiskOp := MkDiskOp {
  op_BlobURL : string; op_ClaimIdentifier : string; op_AttachSequence : Z; op_Action : string;
  op_CachePolicy : string;
}.
(** [azuredisk/nodeserver.go WireserverRequest] *)
Record WireserverRequest := MkWireserverRequest {
  VMAccessToken : string; DiskOps : gmap string DiskOp;
}.
(** [azuredisk/nodeserver.go DiskOperationRequest] *)
Record DiskOperationRequest := MkDiskOperationRequest {
  req_DiskURI : string; BlobURL : string; ClaimIdentifier : string; AttachSequence : Z;
  CachePolicy : string;
}.
(** [azuredisk/nodeserver.go DiskError] *)
Record DiskError := MkDiskError { diskErrorType : Z; de_severityHint : string; de_Message : string }.
(** [azuredisk/nodeserver.go DiskStatus] *)
Record DiskStatus := MkDiskStatus {
  ds_Status : string; StatusMessage : string; ds_LUN : Z; ds_Error : option DiskError;
}.
(** [azuredisk/nodeserver.go QADErrorResponse] *)
Record QADErrorResponse := MkQADErrorResponse {
  requestErrorType : Z; qe_severityHint : string; qe_Message : string;
}.
(** [azuredisk/nodeserver.go WireserverDiskStatusResponse] *)
Definition WireserverDiskStatusResponse : Type := gmap string (option DiskStatus).

Definition QADDiskErrUnknown : Z := 0.
Definition QADDiskErrInvalidArgs : Z := 1.
Definition QADDiskErrInternal : Z := 2.
Definition QADDiskErrXFEAuthFailure : Z := 3.
Definition QADDiskErrAttachSequenceMismatch : Z := 4.
Definition QADDiskErrClaimIdentifierMismatch : Z := 5.
Definition QADDiskErrFetchDSTSToken : Z := 6.
Definition QADDiskErrDiskNotFound : Z := 7.
Definition QADDiskErrNoLUNAvailable : Z := 8.
Definition QADRequestErrUnknown : Z := 0.
Definition QADRequestErrInvalidArgs : Z := 1.
Definition QADRequestErrInternal : Z := 2.
Definition QADRequestErrFetchAttachedDisks : Z := 3.
Definition QADRequestErrFetchMadariCGS : Z := 4.
Definition QADRequestErrFetchVMMetadata : Z := 5.
Definition QADRequestErrFetchDeployedVMs : Z := 6.
Definition QADRequestErrVMNotInCCF : Z := 7.
Definition QADRequestErrFetchVMAccessToken : Z := 8.
Definition QADRequestErrMadariCGSPublish : Z := 9.
Definition SeverityHintRetriable : string := "RETRIABLE".
Definition SeverityHintFatal : string := "FATAL".
Definition AttachmentStatusAttached : string := "DISK_STATUS_ATTACHED".
Definition AttachmentStatusAttaching : string := "DISK_STATUS_ATTACHING".
Definition AttachmentStatusDetaching : string := "DISK_STATUS_DETACHING".
Definition AttachmentStatusDetached : string := "DISK_STATUS_DETACHED".
Definition AttachmentStatusError : string := "DISK_STATUS_ERR".

(** ** Codes *)
Definition retriable_or (severity : string) (c : codes.t) : codes.t :=
  if String.eqb severity SeverityHintRetriable then codes.Unavailable else c.
(** [azuredisk/nodeserver.go mapDiskErrorToCode] *)
Definition mapDiskErrorToCode (errorType : Z) (severity : string) : codes.t :=
  if errorType =? QADDiskErrUnknown then codes.Unknown
  else if errorType =? QADDiskErrInvalidArgs then codes.InvalidArgument
  else if errorType =? QADDiskErrInternal then retriable_or severity codes.Internal
  else if errorType =? QADDiskErrXFEAuthFailure then retriable_or severity codes.Unauthenticated
  else if errorType =? QADDiskErrAttachSequenceMismatch then codes.Aborted
  else if errorType =? QADDiskErrClaimIdentifierMismatch then retriable_or severity codes.Internal
  else if errorType =? QADDiskErrFetchDSTSToken then retriable_or severity codes.Internal
  else if errorType =? QADDiskErrDiskNotFound then codes.NotFound
  else if errorType =? QADDiskErrNoLUNAvailable then codes.ResourceExhausted
  else codes.Unknown.
(** [azuredisk/nodeserver.go mapRequestErrorToCode] *)
Definition mapRequestErrorToCode (errorType : Z) (severity : string) : codes.t :=
  if errorType =? QADRequestErrUnknown then codes.Unknown
  else if errorType =? QADRequestErrInvalidArgs then codes.InvalidArgument
  else if errorType =? QADRequestErrInternal then retriable_or severity codes.Internal
  else if errorType =? QADRequestErrFetchAttachedDisks then retriable_or severity codes.Internal
  else if errorType =? QADRequestErrFetchMadariCGS then retriable_or severity codes.Internal
  else if errorType =? QADRequestErrFetchVMMetadata then retriable_or severity codes.Internal
  else if errorType =? QADRequestErrFetchDeployedVMs then retriable_or severity codes.Internal
  else if errorType =? QADRequestErrVMNotInCCF then retriable_or severity codes.Internal
  else if errorType =? QADRequestErrFetchVMAccessToken then retriable_or severity codes.Unauthenticated
  else if errorType =? QADRequestErrMadariCGSPublish then retriable_or severity codes.Internal
  else codes.Unknown.
(** [azuredisk/nodeserver.go mapHTTPStatusToCode] The numbers are those of the
    constants of net/http: [StatusRequestURITooLong] is 414 and
    [StatusUnsupportedMediaType] 415. *)
Definition mapHTTPStatusToCode (httpStatus : Z) : codes.t :=
  match httpStatus with
  | 400 => codes.InvalidArgument
  | 401 => codes.Unauthenticated
  | 403 => codes.Unauthenticated
  | 404 => codes.NotFound
  | 405 => codes.InvalidArgument
  | 410 => codes.Unavailable
  | 411 => codes.Internal
  | 413 => codes.Internal
  | 414 => codes.Internal
  | 415 => codes.Internal
  | 429 => codes.ResourceExhausted
  | 502 => codes.Unavailable
  | 503 => codes.Unavailable
  | 504 => codes.DeadlineExceeded
  | _ => if (400 <=? httpStatus) && (httpStatus <? 500) then codes.InvalidArgument else codes.Unknown
  end.

(** ** The endpoint *)
Class Wire (W : Type) := {
  (** [client.Do] of a POST with the body, and of a GET *)
  wire_Post : WireserverRequest → M W HttpResponse;
  wire_Get : M W HttpResponse;
  (** [json.Unmarshal] *)
  unmarshal_statuses : string → res WireserverDiskStatusResponse;
  unmarshal_qad_error : string → res QADErrorResponse;
}.
Inductive wire_call {W} `{!Wire W} : ∀ A, M W A → Prop :=
  | call_wire_Post r : wire_call _ (wire_Post r)
  | call_wire_Get : wire_call _ wire_Get.

Section wire.
  Context {W : Type} `{!Cloud W} `{!Kube W} `{!DiskRP W} `{!Wire W} `{MapOrder}.
  Context (httpClient : bool) (others : point → CState W → CState W).
  Local Notation D := (M (DState W)).
  Local Notation svc := (svc others).

Definition http_ok (r : HttpResponse) : bool := (200 <=? StatusCode r) && (StatusCode r <? 300).
  (** An answer with its body. *)
Definition wire_exchange (m : M W HttpResponse) : D (HttpResponse * string) :=
  let! r := try (svc m) in
  match r with
  | inl e => fail (ENew ("failed to make HTTP request to wireserver: " +:+ Error e))
  | inr resp =>
      match ResponseBody resp with
      | Ok body => ret (resp, body)
      | Err e => fail (ENew ("failed to read response body: " +:+ Error e))
      | Panic => panic
      end
  end.
Definition wire_statuses (body : string) : D WireserverDiskStatusResponse :=
  match unmarshal_statuses body with
  | Ok m => ret m
  | Err e => fail (ENew ("failed to unmarshal wireserver response: " +:+ Error e))
  | Panic => panic
  end.

  (** [azuredisk/nodeserver.go attachOrDetachDiskInternal 1487-1499] *)
Definition wire_failure (diskURI : string) (resp : HttpResponse) (body : string) : gerr :=
  let plain := EStatus (mapHTTPStatusToCode (StatusCode resp))
                 ("wireserver returned HTTP " +:+ Itoa (StatusCode resp) +:+ ": " +:+ body) in
  match unmarshal_qad_error body with
  | Ok qadError =>
      if (0 <? requestErrorType qadError) || negb (String.eqb (qe_severityHint qadError) "")
      then EStatus (mapRequestErrorToCode (requestErrorType qadError) (qe_severityHint qadError))
             ("QAD agent error for disk " +:+ diskURI +:+ ": errorType="
              +:+ Itoa (requestErrorType qadError) +:+ ", severity=" +:+ qe_severityHint qadError
              +:+ ", message=" +:+ qe_Message qadError)
      else plain
  | _ => plain
  end.
  (** [azuredisk/nodeserver.go attachOrDetachDiskInternal] *)
Definition attachOrDetachDiskInternal (diskRequest : DiskOperationRequest) (operationType : string)
    : D WireserverDiskStatusResponse :=
  if String.eqb (req_DiskURI diskRequest) ""
  then fail (EStatus codes.InvalidArgument "disk URI must not be empty")
  else
    match GetAzIdentity with
    | None => fail (EStatus codes.FailedPrecondition "Azure credential is required for QAD disk operations")
    | Some GetToken =>
        let! r := try (svc GetToken) in
        match r with
        | inl e => fail (ENew ("failed to get VM access token: " +:+ Error e))
        | inr token =>
            let request := MkWireserverRequest token
              {[ req_DiskURI diskRequest :=
                   MkDiskOp (BlobURL diskRequest) (ClaimIdentifier diskRequest) (AttachSequence diskRequest)
                     operationType (CachePolicy diskRequest) ]} in
            let! (resp, body) := wire_exchange (wire_Post request) in
            if http_ok resp then wire_statuses body
            else fail (wire_failure (req_DiskURI diskRequest) resp body)
        end
    end.

  (** The status of the first entry that names the disk; a nil status is no status. *)
Definition status_of (diskURI : string) (m : WireserverDiskStatusResponse) : option (string * option DiskStatus) :=
  find_entry (λ k _, EqualFold k diskURI) (map_order m).

  (** [azuredisk/nodeserver.go executeQADDiskOperation] [None] is a nil status: a disk
      that is not attached. *)
Definition executeQADDiskOperation (diskRequest : DiskOperationRequest) (operationType : string)
    : D (option DiskStatus) :=
  if negb httpClient
  then fail (EStatus codes.Internal ("QAD HTTP client is not initialized; node-driven attach/detach"
                                     +:+ " is only available on the node service"))
  else
    let! response := attachOrDetachDiskInternal diskRequest operationType in
    match snd <$> status_of (req_DiskURI diskRequest) response with
    | Some (Some diskStatus) =>
        match ds_Error diskStatus with
        | Some e => fail (EStatus (mapDiskErrorToCode (diskErrorType e) (de_severityHint e))
            ("wireserver disk operation failed for " +:+ req_DiskURI diskRequest +:+ ": errorType="
             +:+ Itoa (diskErrorType e) +:+ ", severity=" +:+ de_severityHint e +:+ ", message="
             +:+ de_Message e))
        | None => ret (Some diskStatus)
        end
    | _ => if String.eqb operationType detachOperation then ret None
           else fail (EStatus codes.Internal
                  ("The response from wireserver doesn't contain a valid status for volume "
                   +:+ req_DiskURI diskRequest))
    end.

  (** [azuredisk/nodeserver.go getDiskState] *)
Definition getDiskState (diskURI : string) : D (option DiskStatus) :=
  let! (resp, body) := wire_exchange wire_Get in
  if negb (http_ok resp)
  then fail (EStatus (mapHTTPStatusToCode (StatusCode resp))
         ("wireserver returned HTTP " +:+ Itoa (StatusCode resp) +:+ ": " +:+ body))
  else
    let! statuses := wire_statuses body in
    match status_of diskURI statuses with
    | Some (_, diskStatus) => ret diskStatus
    | None => fail (EStatus codes.NotFound ("wireserver response does not contain volume " +:+ diskURI))
    end.

(** ** The sequence number *)
Definition max_int : Z := 2 ^ 63 - 1.
  (** [azuredisk/nodeserver.go incrementAttachSequenceAnnotation 1342-1353] *)
Definition next_sequence (pv : PersistentVolume) : res Z :=
  match pv_Annotations pv !! consts.AttachSequenceAnnotation with
  | None => Ok 1
  | Some val =>
      let invalid := ENew ("invalid attach-sequence annotation " +:+ quote val +:+ " on PersistentVolume "
                           +:+ pv_Name pv) in
      match Atoi val with
      | None => Err invalid
      | Some parsedSequence =>
          if parsedSequence <? 0 then Err invalid
          else if parsedSequence =? max_int
          then Err (ENew ("attach-sequence annotation on PersistentVolume " +:+ pv_Name pv
                          +:+ " cannot be incremented"))
          else Ok (parsedSequence + 1)
      end
  end.
Definition with_sequence (n : Z) (pv : PersistentVolume) : PersistentVolume :=
  set_pv_Annotations (<[consts.AttachSequenceAnnotation := Itoa n]> (pv_Annotations pv)) pv.
  (** [azuredisk/nodeserver.go incrementAttachSequenceAnnotation 1330-1357] One
      attempt on the volume [pv], which is read again after the first one.  A failed
      [Get] leaves an empty object: its name in the message is empty. *)
Definition attempt_increment (again : bool) (pv : PersistentVolume) : D (PersistentVolume * (gerr + Z)) :=
  let! r := if again then try (svc (pv_Get (pv_Name pv))) else ret (inr pv) in
  match r with
  | inl e => ret (MkPersistentVolume "" ∅ ∅ None None 0, inl e)
  | inr pv =>
      match next_sequence pv with
      | Ok n =>
          let pv' := with_sequence n pv in
          let! u := try (svc (pv_Update pv')) in
          ret (pv', match u with inl e => inl e | inr _ => inr n end)
      | Err e => ret (pv, inl e)
      | Panic => panic
      end
  end.
  (** [azuredisk/nodeserver.go incrementAttachSequenceAnnotation 1329-1363] The retries
      of [retry.RetryOnConflict]. *)
Fixpoint increment_attempts (steps : nat) (again : bool) (pv : PersistentVolume) (last : gerr) : D Z :=
  match steps with
  | O => fail (ENew ("failed to update PersistentVolume " +:+ pv_Name pv +:+ ": " +:+ Error last))
  | S steps' =>
      let! (pv', r) := attempt_increment again pv in
      match r with
      | inr n => ret n
      | inl e => if IsConflict e then increment_attempts steps' true pv' e
                 else fail (ENew ("failed to update PersistentVolume " +:+ pv_Name pv' +:+ ": " +:+ Error e))
      end
  end.
  (** [azuredisk/nodeserver.go incrementAttachSequenceAnnotation] Five attempts, as
      [retry.DefaultRetry] makes. *)
Definition incrementAttachSequenceAnnotation (pv : PersistentVolume) : D Z :=
  increment_attempts 5 false pv (ESentinel WaitTimeout).

  (** [azuredisk/nodeserver.go getQADCachePolicy] *)
Definition getQADCachePolicy (pv : PersistentVolume) : res string :=
  let policy := default "" (pv_Annotations pv !! consts.QADCachePolicyAnnotation) in
  if negb (String.eqb policy "") then GetCachingMode {[ consts.CachingModeField := policy ]}
  else match pv_CSI pv with
       | None => Err (ENew "PV has no CSI volume source")
       | Some c => GetCachingMode (csi_VolumeAttributes c)
       end.
End wire.
