(* ===== verification/NodeVolume.v ===== *)
(** * Mount points, devices and filesystem types: the helpers of [nodeserver.go]

    What the handlers of the node server share: the configuration of a node, the
    mount point of a volume, the device of a LUN, the size check, the filesystem
    type and the mount options; and [kata.go], the assignment of a volume to a
    Kata sandbox.  The build is the one for Linux: the branches for
    [runtime.GOOS == "windows"] are not taken. *)
From stdpp Require Import gmap strings list.
From Stdlib Require Import ZArith QArith Lia.
From S2P Require Import Prelude GoStrings GoErr Consts Util AzureTypes Optimization DiskUtils Cloud DemoCloud Kube ControllerCommon DriverState Driver Host Device.
Local Open Scope string_scope.
Local Open Scope Z_scope.
Local Open Scope list_scope.

(** ** Constants *)
Definition GOOS : string := "linux".
Definition defaultLinuxFsType : string := "ext4".
Definition defaultWindowsFsType : string := "ntfs".
Definition podNameField : string := "csi.storage.k8s.io/pod.name".
Definition podNamespaceField : string := "csi.storage.k8s.io/pod.namespace".
Definition podUIDField : string := "csi.storage.k8s.io/pod.uid".
Definition kataAnnotationKey : string := "azure.csi.disk/kata-mount".
Definition kataAnnotationValue : string := "direct-volume".
Definition kataDirectVolumeType : string := "directvol".
Definition kataVolumeRoot : string := "/run/kata-containers/shared/direct-volumes".
Definition kataVolumeIDKey : string := "azure.csi.disk/volume-id".

(** ** Configuration *)
(** [azuredisk/azuredisk.go Driver 106-186] The fields that only the node server
    reads. *)
Record NodeConfig := MkNodeConfig {
  n_httpClient : bool;
  n_nodeInfo : option NodeInfo;
  n_formatSem : bool;
  enableSCSIDeviceDeletion : bool;
  supportZone : bool;
  getNodeInfoFromLabels : bool;
  getNodeIDFromIMDS : bool;
  enableKataMount : bool;
  VolumeAttachLimit : Z;
  ReservedDataDiskSlotNum : Z;
  UseInstanceMetadata : bool;      (**r and [cloud.Metadata] is there *)
}.

(** v1.Pod and node.v1.RuntimeClass, as far as they are read. *)
Record Pod := MkPod {
  pod_UID : string;
  pod_RuntimeClassName : option string;
  pod_SecurityContext : option (option Z * option string);   (**r fsGroup, its change policy *)
}.
Class KubeNode (W : Type) := {
  pod_Get : string → string → M W Pod;                       (**r namespace, name *)
  runtimeClass_Get : string → M W (gmap string string);      (**r the annotations *)
  node_Annotations : string → M W (gmap string string);
}.
Inductive node_kube_call {W} `{!KubeNode W} : ∀ A, M W A → Prop :=
  | call_pod_Get ns n : node_kube_call _ (pod_Get ns n)
  | call_runtimeClass_Get n : node_kube_call _ (runtimeClass_Get n)
  | call_node_Annotations n : node_kube_call _ (node_Annotations n).

(** ** Filesystem types and options *)
(** [azuredisk/nodeserver.go getDefaultFsType] *)
Definition getDefaultFsType : string :=
  if String.eqb GOOS "windows" then defaultWindowsFsType else defaultLinuxFsType.
(** [azuredisk/nodeserver.go resolveFSType] *)
Definition resolveFSType `{MapOrder} (volumeCapability : VolumeCapability) (params : gmap string string)
    : res (string * list string) :=
  match GetMount volumeCapability with
  | None => Ok ("", [])
  | Some mnt =>
      let fstype := if String.eqb (fs_type mnt) "" then getDefaultFsType else fs_type mnt in
      let volContextFSType := GetFStype params in
      let fstype := if String.eqb volContextFSType "" then fstype else volContextFSType in
      match NormalizeFSType GOOS fstype with
      | Ok normalized => Ok (normalized, mount_flags mnt)
      | Err e => if String.eqb GOOS "windows" then Ok (getDefaultFsType, mount_flags mnt) else Err e
      | Panic => Panic
      end
  end.
(** [azuredisk/nodeserver.go collectMountOptions] *)
Definition collectMountOptions (fsType : string) (mntFlags : list string) : list string :=
  if String.eqb fsType "xfs" then mntFlags ++ ["nouuid"] else mntFlags.
(** [azuredisk/nodeserver.go getPodFSGroup] *)
Definition getPodFSGroup (pod : option Pod) (volumeCapability : VolumeCapability) (readOnly : bool)
    : option Z * option string :=
  if readOnly || bool_decide (GetMount volumeCapability = None) then (None, None)
  else match pod ≫= pod_SecurityContext with
       | Some (Some fsGroup, policy) => (Some fsGroup, policy)
       | _ => (None, None)
       end.
(** [azuredisk/nodeserver.go postAttachErrorCode] *)
Definition postAttachErrorCode (qadAttached : bool) : codes.t :=
  if qadAttached then codes.Unavailable else codes.Internal.
(** [azuredisk/kata.go kataMountOptions] *)
Definition kataMountOptions (fsType : string) (flags : list string) (readonly : bool) : list string :=
  let options := fst (RemoveOptionIfExists (collectMountOptions fsType flags) "directmount") in
  if readonly then options ++ ["ro"] else options.
(** [filepath.Dir] *)
Definition filepath_Dir (path : string) : string :=
  filepath_Clean (str_take (String.length path - String.length (last_segment path)) path).
(** The partition of a device that the volume context names. *)
Definition with_partition (source : string) (volumeContext : gmap string string) : string :=
  match volumeContext !! consts.VolumeAttributePartition with
  | Some partition => source +:+ "-part" +:+ partition
  | None => source
  end.

Section volume.
  Context {W : Type} `{!Cloud W} `{!Host W} `{!DeviceIO W} `{MapOrder}.
  Context (others : point → CState W → CState W).
  Local Notation D := (M (DState W)).
  Local Notation svc := (svc others).

(** ** Mount points *)
  (** [azureutils/azure_disk_utils.go IsCorruptedDir] *)
Definition IsCorruptedDir (dir : string) : D bool :=
  let! r := try (svc (mount_PathExists dir)) in
  ret (match r with inl e => IsCorruptedMnt e | inr _ => false end).
  (** [util/util.go MakeDir] *)
Definition MakeDir (pathname : string) : D unit :=
  let! r := try (svc (os_MkdirAll pathname)) in
  match r with
  | inl e => if os_IsExist e then ret () else fail e
  | inr _ => ret ()
  end.
  (** [util/util.go MakeFile] *)
Definition MakeFile (pathname : string) : D unit :=
  let! r := try (svc (os_OpenFile pathname)) in
  match r with
  | inl e => fail (ENew ("failed to open file " +:+ pathname +:+ ": " +:+ Error e))
  | inr _ =>
      let! r := try (svc (os_CloseFile pathname)) in
      match r with
      | inl e => fail (ENew ("failed to close file " +:+ pathname +:+ ": " +:+ Error e))
      | inr _ => ret ()
      end
  end.
  (** [azuredisk/nodeserver.go ensureMountPoint 1141-1170] The target is not a mount
      point, as far as the mounter and its list of mounts know. *)
Definition not_mounted (target : string) : D bool :=
  let! (notMnt, err) := svc (mount_IsLikelyNotMountPoint target) in
  let! notMnt := match err with
                 | Some e =>
                     if os_IsNotExist e then ret notMnt
                     else
                       let! corrupted := IsCorruptedDir target in
                       if (corrupted : bool) then ret false else fail e
                 | None => ret notMnt
                 end in
  let! mountList := svc mount_List in
  let targetAbs := filepath_Abs (getwd (W:=W)) target in
  ret (if bool_decide (targetAbs ∈ mountList) then false else notMnt).
  (** [azuredisk/nodeserver.go ensureMountPoint 1173-1183] One entry of the mounted
      directory can be read. *)
Definition mount_readable (target : string) : D unit :=
  let! _ := svc (os_Open target) in
  let! r := try (svc (file_ReadDir1 target)) in
  match r with
  | inl e => if bool_decide (e = ESentinel IoEOF) then ret () else fail e
  | inr _ => ret ()
  end.
  (** [azuredisk/nodeserver.go ensureMountPoint] The value that comes with an error is
      not used.  When the mount cannot be read and is unmounted, the error of the read
      is returned: the directory is not mounted again by the same request. *)
Definition ensureMountPoint (target : string) : D bool :=
  let! notMnt := not_mounted target in
  if negb notMnt then
    let! r := try (mount_readable target) in
    match r with
    | inr _ => ret true
    | inl e => let! _ := svc (mount_Unmount target) in fail e
    end
  else
    let! _ := MakeDir target in
    ret false.
  (** [azuredisk/nodeserver.go ensureBlockTargetFile] *)
Definition ensureBlockTargetFile (target : string) : D unit :=
  let parentDir := filepath_Dir target in
  let! _ := status_on (ensureMountPoint parentDir) codes.Internal (λ e,
    "could not mount target " +:+ quote parentDir +:+ ": " +:+ Error e) in
  let! r := try (MakeFile target) in
  match r with
  | inr _ => ret ()
  | inl e =>
      let! _ := status_on (svc (os_Remove target)) codes.Internal (λ removeErr,
        "could not remove mount target " +:+ quote target +:+ ": " +:+ Error removeErr) in
      fail (EStatus codes.Internal ("could not create file " +:+ quote target +:+ ": " +:+ Error e))
  end.

(** ** Devices *)
  (** [azuredisk/nodeserver.go getDevicePathWithLUN] The context of the poll is the
      background: 120 pauses of a second fit into its two minutes.  The name that
      was found is the result of the condition. *)
Fixpoint poll_device (fuel : nat) (ctx : Ctx) (lun : Z) : D string :=
  match fuel with
  | O => fail (ESentinel CtxDeadlineExceeded)
  | S fuel' =>
      let! r := try (findDiskByLun others lun) in
      match r with
      | inl e => fail (ENew ("azureDisk - findDiskByLun(" +:+ Itoa lun +:+ ") failed with error("
                             +:+ Error e +:+ ")"))
      | inr newDevicePath =>
          if negb (String.eqb newDevicePath "") then ret newDevicePath
          else
            let! e := svc (ctx_Wait ctx Second) in
            match e with
            | Some e => fail e
            | None => poll_device fuel' ctx lun
            end
      end
  end.
  (** [azuredisk/nodeserver.go getDevicePathWithLUN] *)
Definition getDevicePathWithLUN (lunStr : string) : D string :=
  let! lun := lift (GetDiskLUN lunStr) in
  let! _ := scsiHostRescan others in
  let! now := svc Now in
  let! r := try (poll_device 121 (WithTimeout now (120 * Second) (MkCtx None)) lun) in
  match r with
  | inr newDevicePath => ret newDevicePath
  | inl e => if errors_Is e CtxDeadlineExceeded
             then fail (ENew ("azureDisk - findDiskByLun(" +:+ Itoa lun +:+ ") failed within timeout"))
             else fail e
  end.
  (** [azuredisk/nodeserver.go validateBlockDeviceSize] *)
Definition validateBlockDeviceSize (devicePath : string) (requestGiB : Z) : D Z :=
  let! blockSizeBytes := status_on (getBlockSizeBytes others devicePath) codes.Internal (λ e,
    "could not get size of block volume at path " +:+ devicePath +:+ ": " +:+ Error e) in
  let blockGiB := RoundUpGiB blockSizeBytes in
  if blockGiB <? requestGiB
  then fail (EStatus codes.Internal ("block volume at path " +:+ devicePath +:+ " size check failed: current "
         +:+ Itoa blockGiB +:+ " GiB < requested " +:+ Itoa requestGiB +:+ " GiB"))
  else ret blockSizeBytes.
End volume.

(** ** Kata: [kata.go] *)
(** [azuredisk/kata.go initKataNode] The result is the field [isKataNode]; the timeout of
    the request is not visible to the client. *)
Definition initKataNode {W} `{!KubeNode W} (NodeID : string) (kubeClient : bool) : M W bool :=
  if String.eqb NodeID "" then ret false
  else if negb kubeClient then fail (ENew "kubeClient is nil")
  else
    let! r := try (node_Annotations NodeID) in
    match r with
    | inl e => fail (EWrap ("get node " +:+ quote NodeID +:+ ": ") e "")
    | inr annotations => ret (bool_decide (annotations !! kataAnnotationKey = Some kataAnnotationValue))
    end.

Section kata.
  Context {W : Type} `{!Cloud W} `{!KubeNode W} `{!Host W} `{!DeviceIO W} `{MapOrder}.
  Context (d : DriverConfig) (n : NodeConfig) (others : point → CState W → CState W).
  Local Notation D := (M (DState W)).
  Local Notation svc := (svc others).

  (** [isKataNode] is what [initKataNode] found at start. *)
  Context (isKataNode : bool).
  (** [azuredisk/kata.go kataSupported] *)
Definition kataSupported : bool := enableKataMount n && isKataNode.

  (** [azuredisk/kata.go kataFindMountInfo 122-138] *)
Fixpoint find_record (volumeID : string) (names : list string) : D string :=
  match names with
  | [] => ret ""
  | name :: names' =>
      match base64_DecodeString (W:=W) name with
      | None => fail (ENew ("invalid Kata record " +:+ quote name))
      | Some path =>
          let! r := try (svc (directvolume_VolumeMountInfo path)) in
          match r with
          | inl e => if os_IsNotExist e then find_record volumeID names'
                     else fail (ENew ("unusable Kata record at " +:+ quote path +:+ ": " +:+ Error e))
          | inr info => if String.eqb (default "" (mi_Metadata info !! kataVolumeIDKey)) volumeID
                        then ret path else find_record volumeID names'
          end
      end
  end.
  (** [azuredisk/kata.go kataFindMountInfo] *)
Definition kataFindMountInfo (root volumeID : string) : D string :=
  let! entries := svc (io_ReadDir root) in
  find_record volumeID entries.
  (** [azuredisk/kata.go FindMountInfo] *)
Definition FindMountInfo (volumeID : string) : D string := kataFindMountInfo kataVolumeRoot volumeID.
  (** [azuredisk/kata.go IsVolumeMountedByID] *)
Definition IsVolumeMountedByID (volumeID : string) : D bool :=
  let! target := FindMountInfo volumeID in
  ret (negb (String.eqb target "")).
  (** [azuredisk/kata.go kataIsMountPoint] *)
Definition kataIsMountPoint (path : string) : D bool :=
  let! r := try (svc (mount_IsMountPoint path)) in
  match r with
  | inl e => if os_IsNotExist e then ret false else fail e
  | inr mounted => ret mounted
  end.
  (** [azuredisk/kata.go kataPublished] *)
Definition kataPublished (volumeID targetPath : string) : D bool :=
  let! target := status_on (FindMountInfo volumeID) codes.Internal (λ e,
    "could not check Kata assignment: " +:+ Error e) in
  if String.eqb target "" then
    status_on (kataIsMountPoint targetPath) codes.Internal (λ e,
      "could not verify target " +:+ quote targetPath +:+ ": " +:+ Error e)
  else if negb (String.eqb target targetPath)
  then fail (EStatus codes.FailedPrecondition ("volume " +:+ volumeID
         +:+ " conflicts with the Kata publication at " +:+ quote target))
  else ret true.
  (** [azuredisk/kata.go kataRestoreStaging] *)
Definition kataRestoreStaging (stagingTargetPath : string) (volumeCapability : VolumeCapability)
    (volumeContext publishContext : gmap string string) : D unit :=
  let! mounted := kataIsMountPoint stagingTargetPath in
  if (mounted : bool) then ret ()
  else
    let! (fsType, flags) := lift (resolveFSType volumeCapability volumeContext) in
    let! device := getDevicePathWithLUN others (default "" (publishContext !! consts.LUN)) in
    let device := with_partition device volumeContext in
    let! _ := MakeDir others stagingTargetPath in
    let options := fst (RemoveOptionIfExists (collectMountOptions fsType flags) "directmount") in
    svc (mount_Mount device stagingTargetPath fsType options).
  (** [azuredisk/kata.go kataGetMountPod] *)
Definition kataGetMountPod (volumeContext : gmap string string) : D (option Pod) :=
  if negb (d_kubeClient d) then fail (ENew "kubeClient is nil")
  else
    let podName := default "" (volumeContext !! podNameField) in
    let podNamespace := default "" (volumeContext !! podNamespaceField) in
    if String.eqb podName "" || String.eqb podNamespace "" then ret None
    else
      let! r := try (svc (pod_Get podNamespace podName)) in
      match r with
      | inl e => fail (EWrap ("get pod " +:+ podNamespace +:+ "/" +:+ podName +:+ ": ") e "")
      | inr pod =>
          if negb (String.eqb (pod_UID pod) (default "" (volumeContext !! podUIDField))) then ret None
          else match pod_RuntimeClassName pod with
               | None => ret None
               | Some rc =>
                   if String.eqb rc "" then ret None
                   else
                     let! r := try (svc (runtimeClass_Get rc)) in
                     match r with
                     | inl e => fail (EWrap ("get runtime class " +:+ quote rc +:+ ": ") e "")
                     | inr annotations =>
                         ret (if bool_decide (annotations !! kataAnnotationKey = Some kataAnnotationValue)
                              then Some pod else None)
                     end
               end
      end.
End kata.
