(* ===== verification/Node.v ===== *)
(** * The node server: [nodeserver.go]

    Stage, unstage, publish, unpublish, expand, the statistics of a volume and the
    description of the node.  Each handler is one definition, composed of its
    larger blocks; the locks of the volumes are those of the driver object.
    [NodeCloud W] is what the vendored cloud provider and the instance metadata
    tell a node about itself. *)
From stdpp Require Import gmap strings list.
From Stdlib Require Import ZArith QArith Lia.
From S2P Require Import Prelude GoStrings GoErr Consts Util AzureTypes Optimization DiskUtils Cloud DemoCloud Kube ControllerCommon DriverState Driver Host Device Wireserver NodeVolume DiskCounts.
Local Open Scope string_scope.
Local Open Scope Z_scope.
Local Open Scope list_scope.

(** ** Requests *)
(** csi.NodeStageVolumeRequest *)
Record NodeStageVolumeRequest := MkNodeStageVolumeRequest {
  stage_VolumeId : string; stage_StagingTargetPath : string;
  stage_VolumeCapability : option VolumeCapability;
  stage_VolumeContext : gmap string string; stage_PublishContext : gmap string string;
}.
(** csi.NodePublishVolumeRequest *)
Record NodePublishVolumeRequest := MkNodePublishVolumeRequest {
  np_VolumeId : string; np_StagingTargetPath : string; np_TargetPath : string;
  np_VolumeCapability : option VolumeCapability; np_Readonly : bool;
  np_VolumeContext : gmap string string; np_PublishContext : gmap string string;
}.
(** csi.NodeExpandVolumeRequest *)
Record NodeExpandVolumeRequest := MkNodeExpandVolumeRequest {
  ne_VolumeId : string; ne_VolumePath : string; ne_RequiredBytes : Z;
  ne_VolumeCapability : option VolumeCapability;
}.
(** csi.NodeGetInfoResponse *)
Record NodeInfoResponse := MkNodeInfoResponse {
  ni_NodeId : string; ni_MaxVolumesPerNode : Z; ni_Topology : gmap string string;
}.
(** armcompute instance metadata: the name and the scale set. *)
Record ComputeMetadata := MkComputeMetadata { cm_Name : string; cm_VMScaleSetName : string }.
Class NodeCloud (W : Type) := {
  cloud_GetZone : M W string;                     (**r the failure domain *)
  cloud_Instances : bool;                         (**r the provider has instances *)
  instances_InstanceType : string → M W string;
  GetMetadata : M W (option ComputeMetadata);
}.
Inductive node_cloud_call {W} `{!NodeCloud W} : ∀ A, M W A → Prop :=
  | call_GetZone : node_cloud_call _ cloud_GetZone
  | call_InstanceType n : node_cloud_call _ (instances_InstanceType n)
  | call_GetMetadata : node_cloud_call _ GetMetadata.

Definition invalid_argument (msg : string) : gerr := EStatus codes.InvalidArgument msg.

Section node.
  Context {W : Type} `{!Cloud W} `{!Kube W} `{!DiskRP W} `{!KubeNode W} `{!NodeCloud W} `{!Wire W}
          `{!Host W} `{!DeviceIO W} `{MapOrder}.
  Context (d : DriverConfig) (n : NodeConfig) (isKataNode : bool)
          (DiskSkuMap : gmap string (gmap string DiskSkuInfo))
          (others : point → CState W → CState W).
  Local Notation D := (M (DState W)).
  Local Notation svc := (svc others).
  Local Notation kata := (kataSupported n isKataNode).

  (** The lock of the volume, when the node takes part in Kata. *)
Definition kata_lock {A} (volumeID : string) (m : D A) : D A :=
  if kata then with_volume_lock volumeID m else m.

(** ** Stage *)
  (** [azuredisk/nodeserver.go NodeStageVolume 191-220] *)
Definition check_stage (req : NodeStageVolumeRequest) : res (VolumeCapability * (string * list string)) :=
  let? _ := guard_res (negb (String.eqb (stage_VolumeId req) "")) (invalid_argument "Volume ID not provided") in
  let? _ := guard_res (negb (String.eqb (stage_StagingTargetPath req) ""))
              (invalid_argument "Staging target not provided") in
  match stage_VolumeCapability req with
  | None => Err (invalid_argument "Volume capability not provided")
  | Some cap =>
      let? maxShares := or_status (GetMaxShares (stage_VolumeContext req)) codes.InvalidArgument
                          (λ _, "MaxShares value not supported") in
      let? _ := or_status (IsValidVolumeCapabilities [cap] maxShares) codes.InvalidArgument Error in
      let? fs := or_status (resolveFSType cap (stage_VolumeContext req)) codes.InvalidArgument Error in
      Ok (cap, fs)
  end.

  (** [azuredisk/nodeserver.go NodeStageVolume 303-330] The condition of the poll: the
      LUN once the disk is attached. *)
Definition attached_lun (volumeID : string) : D (option string) :=
  let! r := try (getDiskState others volumeID) in
  match r with
  | inl e => if bool_decide (status_Code e = codes.NotFound) then ret None else fail e
  | inr None => ret None
  | inr (Some diskState) =>
      if String.eqb (ds_Status diskState) AttachmentStatusAttached
      then ret (Some (Itoa (ds_LUN diskState)))
      else if String.eqb (ds_Status diskState) AttachmentStatusError
      then fail (EStatus codes.Internal ("NodeStageVolume: QAD attach failed for volume " +:+ quote volumeID
             +:+ " with status " +:+ quote (ds_Status diskState)))
      else ret None
  end.
  (** [azuredisk/nodeserver.go NodeUnstageVolume 529-555] The condition of the poll. *)
Definition is_detached (volumeID : string) : D bool :=
  let! r := try (getDiskState others volumeID) in
  match r with
  | inl e => if bool_decide (status_Code e = codes.NotFound) then ret true else fail e
  | inr None => ret true
  | inr (Some diskState) =>
      if String.eqb (ds_Status diskState) AttachmentStatusDetached then ret true
      else if String.eqb (ds_Status diskState) AttachmentStatusError
      then fail (EStatus codes.Internal ("NodeUnstageVolume: QAD detach failed for volume " +:+ quote volumeID
             +:+ " with status " +:+ quote (ds_Status diskState)))
      else ret false
  end.
  (** A poll whose condition gives the value that is waited for, every 250 ms for
      15 seconds: 60 pauses fit. *)
Fixpoint poll_value {A} (fuel : nat) (ctx : Ctx) (interval : Z) (condition : D (option A)) : D A :=
  match fuel with
  | O => fail (ESentinel CtxDeadlineExceeded)
  | S fuel' =>
      let! r := condition in
      match r with
      | Some a => ret a
      | None =>
          let! e := svc (ctx_Wait ctx interval) in
          match e with
          | Some e => fail e
          | None => poll_value fuel' ctx interval condition
          end
      end
  end.
  (** The status of a poll of the wireserver that failed. *)
Definition poll_error (handler what volumeID : string) (e : gerr) : gerr :=
  if errors_Is e CtxDeadlineExceeded
  then EStatus codes.DeadlineExceeded (handler +:+ ": Timed out waiting for disk: " +:+ volumeID +:+ " to be " +:+ what
         +:+ " node: " +:+ d_NodeID d)
  else EStatus codes.Internal (handler +:+ ": Error occurred while waiting for disk: " +:+ volumeID +:+ " to be " +:+ what
         +:+ " node: " +:+ d_NodeID d +:+ ", error: " +:+ Error e).
  (** The request to the wireserver for a node-driven volume. *)
Definition qad_request (volumeID : string) (pv : PersistentVolume) (cachePolicy : string) (sequence : Z)
    : DiskOperationRequest :=
  MkDiskOperationRequest volumeID (default "" (pv_Annotations pv !! consts.BlobURLAnnotation))
    (default "" (pv_Annotations pv !! consts.ClaimIdentifierAnnotation)) sequence cachePolicy.

  (** [azuredisk/nodeserver.go NodeStageVolume 274-343] The attachment of a node-driven
      volume: its LUN. *)
Definition qad_attach (ctx : Ctx) (volumeID : string) (pv : PersistentVolume) : D string :=
  let! cachePolicy := lift (or_status (getQADCachePolicy pv) codes.InvalidArgument (λ e,
                              "failed to determine cache policy: " +:+ Error e)) in
  let! attachSequenceVal := status_on (incrementAttachSequenceAnnotation others pv) codes.Internal
                              (λ _, "failed to increment attach-sequence") in
  let! statusResp := executeQADDiskOperation (n_httpClient n) others
                       (qad_request volumeID pv cachePolicy attachSequenceVal) attachOperation in
  let! statusResp := lift (deref statusResp) in
  if String.eqb (ds_Status statusResp) AttachmentStatusAttaching then
    let! now := svc Now in
    let! r := try (poll_value 61 (WithTimeout now (15 * Second) ctx) (250 * Millisecond) (attached_lun volumeID)) in
    match r with
    | inl e => fail (poll_error "NodeStageVolume" "attached on" volumeID e)
    | inr lun => ret lun
    end
  else if String.eqb (ds_Status statusResp) AttachmentStatusAttached then ret (Itoa (ds_LUN statusResp))
  else fail (EStatus codes.Internal ("NodeStageVolume: QAD attach failed for volume " +:+ quote volumeID
         +:+ " with status " +:+ quote (ds_Status statusResp))).

  (** [azuredisk/nodeserver.go NodeStageVolume 258-350] The LUN of the volume, and
      whether the node has attached it itself. *)
Definition stage_lun (ctx : Ctx) (req : NodeStageVolumeRequest) : D (string * bool) :=
  let volumeID := stage_VolumeId req in
  let lun := stage_PublishContext req !! consts.LUN in
  let! pv := match lun with
             | None =>
                 if nodeDrivenAttachDetachEnabled d then
                   let! r := try (getPVFromDiskURI d others volumeID) in
                   match r with
                   | inl e => if errors_Is e errPVNotFound then ret None
                              else fail (EStatus codes.Internal
                                     ("NodeStageVolume: failed to get PV from diskURI " +:+ volumeID
                                      +:+ ": " +:+ Error e))
                   | inr pv => ret (Some pv)
                   end
                 else ret None
             | Some _ => ret None
             end in
  match pv with
  | Some pv' =>
      if hasQADInfo pv then
        let! l := qad_attach ctx volumeID pv' in ret (l, true)
      else match lun with
           | None => fail (invalid_argument "lun not provided")
           | Some l => ret (l, false)
           end
  | None => match lun with
            | None => fail (invalid_argument "lun not provided")
            | Some l => ret (l, false)
            end
  end.

  (** [azuredisk/nodeserver.go NodeStageVolume 362-376] *)
Definition tune_device (source : string) (volumeContext : gmap string string) (code : codes.t) : D unit :=
  if perfOptimizationEnabled d then
    let! a := lift (or_status (GetDiskPerfAttributes volumeContext) code (λ e,
                "failed to get perf attributes for " +:+ source +:+ ". Error: " +:+ Error e)) in
    if DiskSupportsPerfOptimization (pa_profile a) (pa_accountType a) then
      status_on (svc (OptimizeDiskPerformance DiskSkuMap consts.BlockDeviceRootPathLinux (n_nodeInfo n) source
                        (pa_profile a) (pa_accountType a) (pa_diskSizeGibStr a) (pa_diskIopsStr a)
                        (pa_diskBwMbpsStr a) (pa_deviceSettings a))) code (λ e,
        "failed to optimize device performance for target(" +:+ source +:+ ") error(" +:+ Error e +:+ ")")
    else ret ()
  else ret ().

  (** [azuredisk/nodeserver.go NodeStageVolume 414-437] *)
Definition grow_filesystem (source target volumeID : string) (volumeContext : gmap string string)
    (code : codes.t) : D unit :=
  let required := match volumeContext !! consts.ResizeRequired with
                  | Some r => EqualFold r consts.TrueValue | None => false end in
  let! needResize := if required then ret true
                     else
                       let! r := try (needResizeVolume others source target) in
                       ret (match r with inr b => b | inl _ => false end) in
  if (needResize : bool) then
    status_on (resizeVolume others source target) code (λ e,
      "NodeStageVolume: could not resize volume " +:+ source +:+ " (" +:+ target +:+ "):  " +:+ Error e)
  else ret ().

  (** [azuredisk/nodeserver.go NodeStageVolume 385-437] *)
Definition stage_filesystem (req : NodeStageVolumeRequest) (source lun fstype : string)
    (mountFlags : list string) (code : codes.t) : D unit :=
  let target := stage_StagingTargetPath req in
  let! mnt := status_on (ensureMountPoint others target) code (λ e,
    "could not mount target " +:+ quote target +:+ ": " +:+ Error e) in
  if (mnt : bool) then ret ()
  else
    let options := collectMountOptions fstype mountFlags in
    let source := with_partition source (stage_VolumeContext req) in
    let! _ := status_on (formatAndMount others (n_formatSem n) source target fstype options) code (λ e,
      "could not format " +:+ source +:+ "(lun: " +:+ lun +:+ "), and mount it at " +:+ target
      +:+ ", failed with " +:+ Error e) in
    grow_filesystem source target (stage_VolumeId req) (stage_VolumeContext req) code.

  (** [azuredisk/nodeserver.go NodeStageVolume 352-439] What happens once the LUN is
      known; [code] is the code of its errors. *)
Definition stage_device (req : NodeStageVolumeRequest) (cap : VolumeCapability) (fstype : string)
    (mountFlags : list string) (lun : string) (code : codes.t) : D unit :=
  let! source := status_on (getDevicePathWithLUN others lun) code (λ e,
    "failed to find disk on lun " +:+ lun +:+ ". " +:+ Error e) in
  let! _ := tune_device source (stage_VolumeContext req) code in
  if bool_decide (is_Some (GetBlock cap)) then ret ()
  else stage_filesystem req source lun fstype mountFlags code.

  (** [azuredisk/nodeserver.go NodeStageVolume 245-254] *)
Definition kata_staged (volumeID : string) (cap : VolumeCapability) : D bool :=
  if kata && bool_decide (GetBlock cap = None) then
    status_on (IsVolumeMountedByID others volumeID) codes.Internal (λ e,
      "could not check Kata assignment for " +:+ volumeID +:+ ": " +:+ Error e)
  else ret false.

  (** [azuredisk/nodeserver.go NodeStageVolume] *)
Definition NodeStageVolume (ctx : Ctx) (req : NodeStageVolumeRequest) : D unit :=
  let! (cap, (fstype, mountFlags)) := lift (check_stage req) in
  with_volume_lock (stage_VolumeId req) (
    let! assigned := kata_staged (stage_VolumeId req) cap in
    if (assigned : bool) then ret ()
    else
      let! (lun, qadAttached) := stage_lun ctx req in
      stage_device req cap fstype mountFlags lun (postAttachErrorCode qadAttached)).

(** ** Unstage *)
  (** [azuredisk/nodeserver.go NodeUnstageVolume 484-497] *)
Definition unstage_pv (volumeID : string) : D (option PersistentVolume) :=
  if nodeDrivenAttachDetachEnabled d then
    let! r := try (getPVFromDiskURI d others volumeID) in
    match r with
    | inl e =>
        if errors_Is e errPVMetadataUnavailable
        then fail (EStatus codes.FailedPrecondition "Kubernetes client is required to read QAD volume metadata")
        else if errors_Is e errPVNotFound
        then fail (EStatus codes.Unavailable ("NodeUnstageVolume: PV metadata for volume " +:+ volumeID
               +:+ " is unavailable; cannot determine whether QAD detach is required"))
        else fail (EStatus codes.Internal ("NodeUnstageVolume: failed to get PV from diskURI " +:+ volumeID
               +:+ ": " +:+ Error e))
    | inr pv => ret (Some pv)
    end
  else ret None.
  (** [azuredisk/nodeserver.go NodeUnstageVolume 500-565] *)
Definition qad_detach (ctx : Ctx) (volumeID : string) (pv : PersistentVolume) : D unit :=
  let! cachePolicy := lift (or_status (getQADCachePolicy pv) codes.Internal (λ e,
    "failed to determine cache policy for volume " +:+ volumeID +:+ ": " +:+ Error e)) in
  let! attachSequenceVal := status_on (incrementAttachSequenceAnnotation others pv) codes.Internal
                              (λ _, "failed to increment attach-sequence") in
  let! statusResp := executeQADDiskOperation (n_httpClient n) others
                       (qad_request volumeID pv cachePolicy attachSequenceVal) detachOperation in
  match statusResp with
  | None => ret ()
  | Some st =>
      if String.eqb (ds_Status st) AttachmentStatusDetached then ret ()
      else if String.eqb (ds_Status st) AttachmentStatusDetaching then
        let! now := svc Now in
        let! r := try (PollUntilContextTimeout
                         (λ t, svc (ctx_Wait (WithTimeout now (15 * Second) ctx) t)) 31 (500 * Millisecond)
                         (is_detached volumeID)) in
        match r with
        | inl e => fail (poll_error "NodeUnstageVolume" "detached from" volumeID e)
        | inr _ => ret ()
        end
      else fail (EStatus codes.Internal ("NodeUnstageVolume: QAD detach failed for volume " +:+ quote volumeID
             +:+ " with status " +:+ quote (ds_Status st)))
  end.
  (** [azuredisk/nodeserver.go NodeUnstageVolume] *)
Definition NodeUnstageVolume (ctx : Ctx) (volumeID stagingTargetPath : string) : D unit :=
  let! _ := guard_else (negb (String.eqb volumeID "")) (invalid_argument "Volume ID not provided") in
  let! _ := guard_else (negb (String.eqb stagingTargetPath "")) (invalid_argument "Staging target not provided") in
  with_volume_lock volumeID (
    let! _ := status_on (unmountAndInvalidateDevice others stagingTargetPath (enableSCSIDeviceDeletion n))
                codes.Internal (λ e, "failed to unmount staging target " +:+ quote stagingTargetPath +:+ ": "
                                     +:+ Error e) in
    let! pv := unstage_pv volumeID in
    match pv with
    | Some pv' => if hasQADInfo pv then qad_detach ctx volumeID pv' else ret ()
    | None => ret ()
    end).

(** ** Publish *)
  (** [azuredisk/nodeserver.go NodePublishVolume 580-615] *)
Definition check_publish (req : NodePublishVolumeRequest) : res VolumeCapability :=
  let? _ := guard_res (negb (String.eqb (np_VolumeId req) ""))
              (invalid_argument "Volume ID missing in the request") in
  match np_VolumeCapability req with
  | None => Err (invalid_argument "Volume capability missing in request")
  | Some cap =>
      let? maxShares := or_status (GetMaxShares (np_VolumeContext req)) codes.InvalidArgument
                          (λ _, "MaxShares value not supported") in
      let? _ := or_status (IsValidVolumeCapabilities [cap] maxShares) codes.InvalidArgument Error in
      let? _ := guard_res (negb (String.eqb (np_StagingTargetPath req) ""))
                  (invalid_argument "Staging target not provided") in
      let? _ := guard_res (negb (String.eqb (np_TargetPath req) ""))
                  (invalid_argument "Target path not provided") in
      Ok cap
  end.
  (** The LUN of the publish context. *)
Definition publish_lun (req : NodePublishVolumeRequest) : res string :=
  match np_PublishContext req !! consts.LUN with
  | None => Err (invalid_argument "lun not provided")
  | Some lun => Ok lun
  end.

  (** [azuredisk/nodeserver.go NodePublishVolume 678-684] *)
Definition kata_metadata (volumeID : string) (fsGroup : option Z) (policy : option string)
    : gmap string string :=
  let m := {[ kataVolumeIDKey := volumeID ]} in
  let m := match fsGroup with Some g => <["fsGroup" := FormatInt g 10]> m | None => m end in
  match policy with Some p => <["fsGroupChangePolicy" := p]> m | None => m end.
  (** [azuredisk/nodeserver.go NodePublishVolume 651-721] *)
Definition publish_kata (req : NodePublishVolumeRequest) (cap : VolumeCapability) (kataPod : Pod) : D unit :=
  let target := np_TargetPath req in
  let! _ := guard_else (bool_decide (GetMode cap = SINGLE_NODE_SINGLE_WRITER))
              (EStatus codes.FailedPrecondition "volume needs ReadWriteOncePod access mode with Kata") in
  let! (fstype, mountFlags) := lift (or_status (resolveFSType cap (np_VolumeContext req))
                                       codes.InvalidArgument Error) in
  let! lun := lift (publish_lun req) in
  let! device := status_on (getDevicePathWithLUN others lun) codes.Internal (λ e,
    "failed to find device path with lun " +:+ lun +:+ ". " +:+ Error e) in
  let device := with_partition device (np_VolumeContext req) in
  let '(fsGroup, policy) := getPodFSGroup (Some kataPod) cap (np_Readonly req) in
  let! _ := match fsGroup with
            | None => ret ()
            | Some _ =>
                let! mounted := status_on (ensureMountPoint others target) codes.Internal (λ e,
                  "failed to create Kata direct volume target " +:+ quote target +:+ ": " +:+ Error e) in
                guard_else (negb mounted) (EStatus codes.FailedPrecondition
                  ("Kata direct volume target " +:+ quote target +:+ " is already mounted"))
            end in
  let! _ := status_on (CleanupMountPoint others (np_StagingTargetPath req) true) codes.Internal (λ e,
    "failed to unmount staging target " +:+ quote (np_StagingTargetPath req) +:+ " for direct volume: "
    +:+ Error e) in
  let mountInfo := MkMountInfo kataDirectVolumeType device fstype (kata_metadata (np_VolumeId req) fsGroup policy)
                     (kataMountOptions fstype mountFlags (np_Readonly req)) in
  status_on (svc (directvolume_AddMountInfo target mountInfo)) codes.Internal (λ e,
    "failed to add direct volume: " +:+ Error e).

  (** [azuredisk/nodeserver.go NodePublishVolume 723-783] *)
Definition publish_mount (req : NodePublishVolumeRequest) (cap : VolumeCapability) : D unit :=
  let target := np_TargetPath req in
  let mountOptions := "bind" :: (if np_Readonly req then ["ro"] else []) in
  let bind_mount source := status_on (svc (mount_Mount source target "" mountOptions)) codes.Internal (λ e,
    "could not mount " +:+ quote source +:+ " at " +:+ quote target +:+ ": " +:+ Error e) in
  match access_type cap with
  | Some ABlock =>
      let! lun := lift (publish_lun req) in
      let! source := status_on (getDevicePathWithLUN others lun) codes.Internal (λ e,
        "failed to find device path with lun " +:+ lun +:+ ". " +:+ Error e) in
      let! _ := status_on (ensureBlockTargetFile others target) codes.Internal Error in
      bind_mount source
  | Some (AMount _) =>
      let! _ := if kata then
                  status_on (kataRestoreStaging others (np_StagingTargetPath req) cap (np_VolumeContext req)
                               (np_PublishContext req)) codes.Internal (λ e,
                    "could not restore staging for " +:+ np_VolumeId req +:+ ": " +:+ Error e)
                else ret () in
      let! mnt := status_on (ensureMountPoint others target) codes.Internal (λ e,
        "could not mount target " +:+ quote target +:+ ": " +:+ Error e) in
      if (mnt : bool) then ret () else bind_mount (np_StagingTargetPath req)
  | None => bind_mount (np_StagingTargetPath req)
  end.

  (** [azuredisk/nodeserver.go NodePublishVolume] *)
Definition NodePublishVolume (req : NodePublishVolumeRequest) : D unit :=
  let! cap := lift (check_publish req) in
  if kata && bool_decide (GetBlock cap = None) then
    with_volume_lock (np_VolumeId req) (
      let! published := kataPublished others (np_VolumeId req) (np_TargetPath req) in
      if (published : bool) then ret ()
      else
        let! r := try (kataGetMountPod d others (np_VolumeContext req)) in
        match r with
        | inr (Some kataPod) => publish_kata req cap kataPod
        | _ => publish_mount req cap
        end)
  else publish_mount req cap.

  (** [azuredisk/nodeserver.go NodeUnpublishVolume] *)
Definition NodeUnpublishVolume (volumeID targetPath : string) : D unit :=
  let! _ := guard_else (negb (String.eqb volumeID "")) (invalid_argument "Volume ID missing in the request") in
  let! _ := guard_else (negb (String.eqb targetPath "")) (invalid_argument "Target path missing in request") in
  kata_lock volumeID (
    let! _ := status_on (CleanupMountPoint others targetPath true) codes.Internal (λ e,
      "failed to unmount target " +:+ quote targetPath +:+ ": " +:+ Error e) in
    if kata then
      status_on (svc (directvolume_Remove targetPath)) codes.Internal (λ e,
        "failed to remove direct volume " +:+ quote targetPath +:+ ": " +:+ Error e)
    else ret ()).

(** ** Information *)
  (** [azuredisk/nodeserver.go NodeGetCapabilities] *)
Definition NodeGetCapabilities : list NodeCap := nodeCap.
  (** [GetNodeInfoFromLabels] of this node: its zone and its instance type. *)
Definition own_labels : D (string * string) := svc (GetNodeInfoFromLabels (d_NodeID d) (cloud_KubeClient d)).
  (** [azuredisk/nodeserver.go NodeGetInfo 860-887] The zone of the node, and the
      instance type that was read with it. *)
Definition node_zone : D (gmap string string * string) :=
  if supportZone n then
    let! r := if getNodeInfoFromLabels n then
                let! l := try own_labels in ret (match l with inl e => inl e | inr (z, t) => inr ("", z, t) end)
              else
                let! z := try (svc cloud_GetZone) in
                match z with
                | inr zone => ret (inr (zone, "", ""))
                | inl _ => let! l := try own_labels in
                           ret (match l with inl e => inl e | inr (z, t) => inr ("", z, t) end)
                end in
    match r with
    | inl e => fail (EStatus codes.Internal ("GetNodeInfoFromLabels on node(" +:+ d_NodeID d +:+ ") failed with "
                                             +:+ Error e))
    | inr (zone, zoneFromLabels, instanceType) =>
        let FailureDomain := if String.eqb zone "" then zoneFromLabels else zone in
        let segments := {[ topologyKey d := "" ]} : gmap string string in
        ret (if IsValidAvailabilityZone FailureDomain (cc_Location (d_cloud d))
             then <[consts.WellKnownTopologyKey := FailureDomain]> (<[topologyKey d := FailureDomain]> segments)
             else segments, instanceType)
    end
  else ret ({[ topologyKey d := "" ]}, "").
  (** [azuredisk/nodeserver.go NodeGetInfo 889-930] The instance type that the labels
      gave already is [fromLabels]. *)
Definition node_limit (fromLabels : string) : D Z :=
  if VolumeAttachLimit n <? 0 then
    let from_labels : D string := let! l := try own_labels in
                                  ret (match l with inl _ => "" | inr (_, t) => t end) in
    let! instanceType :=
      if getNodeInfoFromLabels n then
        if String.eqb fromLabels "" then from_labels else ret fromLabels
      else
        let! t := if cloud_Instances (W:=W) then
                    let! r := try (svc (instances_InstanceType (d_NodeID d))) in
                    ret (match r with inl _ => "" | inr t => t end)
                  else ret "" in
        if negb (String.eqb t "") then ret t
        else if String.eqb fromLabels "" then from_labels else ret fromLabels in
    ret (int64 (fst (GetMaxDataDiskCount instanceType) - ReservedDataDiskSlotNum n))
  else ret (VolumeAttachLimit n).
  (** [azuredisk/nodeserver.go NodeGetInfo 932-956] *)
Definition node_id : D string :=
  let nodeID := d_NodeID d in
  if getNodeIDFromIMDS n && UseInstanceMetadata n then
    let! r := try (svc GetMetadata) in
    ret (match r with
         | inr (Some m) =>
             if String.eqb (cm_Name m) "" then nodeID
             else if String.eqb (cm_VMScaleSetName m) "" then cm_Name m
             else match getVMSSInstanceName (cm_Name m) with
                  | Ok id => id
                  | _ => if String.eqb nodeID "" then cm_Name m else nodeID
                  end
         | _ => nodeID
         end)
  else ret nodeID.
  (** [azuredisk/nodeserver.go NodeGetInfo] *)
Definition NodeGetInfo : D NodeInfoResponse :=
  let! (segments, instanceType) := node_zone in
  let! maxDataDiskCount := node_limit instanceType in
  let! nodeID := node_id in
  ret (MkNodeInfoResponse nodeID maxDataDiskCount segments).

  (** [azuredisk/nodeserver.go NodeGetVolumeStats] *)
Definition NodeGetVolumeStats (VolumeId VolumePath : string) : D (list VolumeUsage) :=
  let! _ := guard_else (negb (String.eqb VolumeId "")) (invalid_argument "NodeGetVolumeStats volume ID was empty") in
  let! _ := guard_else (negb (String.eqb VolumePath ""))
              (invalid_argument "NodeGetVolumeStats volume path was empty") in
  let! isKataMount := if kata then
                        let! r := try (IsVolumeMountedByID others VolumeId) in
                        ret (match r with inr b => b | inl _ => false end)
                      else ret false in
  if (isKataMount : bool)
  then fail (EStatus codes.Unimplemented "volume stats are not supported for Kata mounts")
  else GetVolumeStats others VolumePath.

(** ** Expand *)
  (** [azuredisk/nodeserver.go NodeExpandVolume 1079-1135] *)
Definition expand_filesystem (volumeID volumePath : string) (requestGiB : Z) : D Z :=
  let! devicePath := status_on (getDevicePathWithMountPath others volumePath) codes.NotFound Error in
  let! _ := if enableDiskOnlineResize d
            then let! _ := try (rescanVolume others devicePath) in ret () else ret () in
  let! _ := status_on (validateBlockDeviceSize others devicePath requestGiB) codes.Unavailable (λ e,
    "NodeExpandVolume: block device size did not match requested size: " +:+ Error e) in
  let! r := try (resizeVolume others devicePath volumePath) in
  let! v := try (validateBlockDeviceSize others devicePath requestGiB) in
  match v with
  | inr finalBlockSizeBytes => ret finalBlockSizeBytes
  | inl e =>
      match r with
      | inl resizeErr => fail (EStatus codes.Internal ("could not resize volume " +:+ quote volumeID +:+ " ("
                                +:+ quote devicePath +:+ "):  " +:+ Error resizeErr))
      | inr _ => fail (EStatus codes.Internal ("NodeExpandVolume: block device size did not match requested"
                         +:+ " size after filesystem resize: " +:+ Error e))
      end
  end.
  (** [azuredisk/nodeserver.go NodeExpandVolume 1026-1042] *)
Definition refuse_kata (volumeID : string) : D unit :=
  if kata then
    let! assigned := status_on (IsVolumeMountedByID others volumeID) codes.Internal (λ e,
      "could not check Kata assignment for " +:+ volumeID +:+ ": " +:+ Error e) in
    guard_else (negb assigned) (EStatus codes.Unimplemented "volume resize is not supported for Kata mounts")
  else ret ().
  (** [azuredisk/nodeserver.go NodeExpandVolume 1044-1053] *)
Definition expands_block (req : NodeExpandVolumeRequest) : D bool :=
  let! isBlock := status_on (svc (host_PathIsDevice (ne_VolumePath req))) codes.NotFound (λ e,
    "failed to determine device path for volumePath [" +:+ ne_VolumePath req +:+ "]: " +:+ Error e) in
  ret (if (isBlock : bool) then true
       else match ne_VolumeCapability req with
            | Some cap => bool_decide (is_Some (GetBlock cap))
            | None => false
            end).
  (** [azuredisk/nodeserver.go NodeExpandVolume 1026-1135] What is done for a request
      with an identifier and a path: the lock of the volume is held already on a
      node that takes part in Kata. *)
Definition expand_steps (req : NodeExpandVolumeRequest) (requestGiB : Z) : D Z :=
  let volumeID := ne_VolumeId req in
  let volumePath := ne_VolumePath req in
  let! _ := refuse_kata volumeID in
  let! isBlock := expands_block req in
  if (isBlock : bool) then
    let! _ := if enableDiskOnlineResize d
              then let! _ := try (rescanAllVolumes others) in ret () else ret () in
    ret 0
  else if kata then expand_filesystem volumeID volumePath requestGiB
  else with_volume_lock volumeID (expand_filesystem volumeID volumePath requestGiB).
  (** [azuredisk/nodeserver.go NodeExpandVolume] The capacity of the answer, 0 when it
      is not set.  The lock is taken before the look at Kata's records on a node
      that takes part in Kata, and before the device is looked up elsewhere. *)
Definition NodeExpandVolume (req : NodeExpandVolumeRequest) : D Z :=
  let! _ := guard_else (negb (String.eqb (ne_VolumeId req) "")) (invalid_argument "Volume ID not provided") in
  let requestGiB := RoundUpGiB (ne_RequiredBytes req) in
  let! _ := guard_else (negb (String.eqb (ne_VolumePath req) ""))
              (invalid_argument "volume path must be provided") in
  kata_lock (ne_VolumeId req) (expand_steps req requestGiB).
End node.
