(* ===== verification/Startup.v ===== *)
(** * The start of the driver: [NewDriver], its options, and the identity service

    [NewDriver] turns the options and what it finds in its environment into the
    configuration that the handlers of the other files read ([DriverConfig],
    [NodeConfig], [CommonConfig]) and the state they start from.  [StartIO W] is
    what the vendored clients answer at start; [klog.Fatalf], which ends the
    process, is an error. *)
From stdpp Require Import gmap strings list.
From Stdlib Require Import ZArith QArith Lia.
From S2P Require Import Prelude GoStrings GoErr Consts Util AzureTypes Optimization DiskUtils Cloud DemoCloud CloudProvider Kube ControllerCommon DriverState Driver Host Device NodeVolume Node.
Local Open Scope string_scope.
Local Open Scope Z_scope.
Local Open Scope list_scope.

(** ** Feature gates *)
(** [azuredisk/features.go NodeDrivenAttachDetach 30-30] *)
Definition NodeDrivenAttachDetach : string := "NodeDrivenAttachDetach".
(** [azuredisk/features.go KataMount 34-34] *)
Definition KataMount : string := "KataMount".
(** [azuredisk/features.go defaultDriverFeatureGates 37-46] Whether a feature is enabled
    by default. *)
Definition defaultDriverFeatureGates : gmap string bool := {[ NodeDrivenAttachDetach := false; KataMount := false ]}.
(** [azuredisk/features.go NewDriverFeatureGate] *)
Definition NewDriverFeatureGate : gmap string bool := defaultDriverFeatureGates.
(** [gate.Enabled] of a known feature. *)
Definition Enabled (gate : gmap string bool) (f : string) : bool := default false (gate !! f).

(** ** Options *)
(** The names of the fields are those of the configurations too. *)
Module options.
(** [azuredisk/azuredisk_option.go DriverOptions] *)
Record DriverOptions := MkDriverOptions {
  NodeID : string;
  DriverName : string;
  VolumeAttachLimit : Z;
  ReservedDataDiskSlotNum : Z;
  EnablePerfOptimization : bool;
  CloudConfigSecretName : string;
  CloudConfigSecretNamespace : string;
  CustomUserAgent : string;
  UserAgentSuffix : string;
  UseCSIProxyGAInterface : bool;
  EnableOtelTracing : bool;
  EnableMinimumRetryAfter : bool;
  FeatureGates : option (gmap string bool);
  EnableDiskOnlineResize : bool;
  EnableSCSIDeviceDeletion : bool;
  AllowEmptyCloudConfig : bool;
  EnableListVolumes : bool;
  EnableListSnapshots : bool;
  SupportZone : bool;
  GetNodeInfoFromLabels : bool;
  EnableDiskCapacityCheck : bool;
  EnableTrafficManager : bool;
  TrafficManagerPort : Z;
  AttachDetachInitialDelayInMs : Z;
  DetachOperationMinTimeoutInSeconds : Z;
  VMSSDetachTimeoutInSeconds : Z;
  VMSSCacheTTLInSeconds : Z;
  ListVMSSWithInstanceView : bool;
  VolStatsCacheExpireInMinutes : Z;
  GetDiskTimeoutInSeconds : Z;
  VMType : string;
  EnableWindowsHostProcess : bool;
  UseWinCIMAPI : bool;
  GetNodeIDFromIMDS : bool;
  WaitForSnapshotReady : bool;
  CheckDiskLUNCollision : bool;
  ForceDetachBackoff : bool;
  CheckDiskCountForBatching : bool;
  WaitForDetach : bool;
  WaitForDetachDiskComplete : bool;
  Kubeconfig : string;
  Endpoint : string;
  DisableAVSetNodes : bool;
  RemoveNotReadyTaint : bool;
  NeverStopTaintRemoval : bool;
  TaintRemovalInitialDelayInSeconds : Z;
  MaxConcurrentFormat : Z;
  ConcurrentFormatTimeout : Z;
  GoMaxProcs : Z;
  EnableMigrationMonitor : bool;
  ConvertRWCachingModeForIntreePV : bool;
  KubeAPIQPS : Q;
  KubeAPIBurst : Z;
}.
End options.
(** [azuredisk/azure_controller_common.go defaultDetachOperationMinTimeoutInSeconds] *)
Definition defaultDetachOperationMinTimeoutInSeconds : Z := 240.
(** [azuredisk/azure_controller_common.go defaultVMSSDetachTimeoutInSeconds] *)
Definition defaultVMSSDetachTimeoutInSeconds : Z := 200.
(** [azuredisk/azuredisk_option.go AddFlags] The defaults of the flags. *)
Definition AddFlags : options.DriverOptions := {|
  options.NodeID := ""; options.DriverName := consts.DefaultDriverName; options.VolumeAttachLimit := -1; options.ReservedDataDiskSlotNum := 0;
  options.EnablePerfOptimization := false; options.CloudConfigSecretName := "azure-cloud-provider";
  options.CloudConfigSecretNamespace := "kube-system"; options.CustomUserAgent := ""; options.UserAgentSuffix := "";
  options.UseCSIProxyGAInterface := true; options.EnableOtelTracing := false; options.EnableMinimumRetryAfter := true;
  options.FeatureGates := Some NewDriverFeatureGate; options.EnableDiskOnlineResize := true; options.EnableSCSIDeviceDeletion := false;
  options.AllowEmptyCloudConfig := true; options.EnableListVolumes := false; options.EnableListSnapshots := false; options.SupportZone := true;
  options.GetNodeInfoFromLabels := false; options.EnableDiskCapacityCheck := false; options.EnableTrafficManager := false;
  options.TrafficManagerPort := 7788; options.AttachDetachInitialDelayInMs := 1000; options.DetachOperationMinTimeoutInSeconds := 240;
  options.VMSSDetachTimeoutInSeconds := defaultVMSSDetachTimeoutInSeconds; options.VMSSCacheTTLInSeconds := -1;
  options.ListVMSSWithInstanceView := false; options.VolStatsCacheExpireInMinutes := 10; options.GetDiskTimeoutInSeconds := 15; options.VMType := "";
  options.EnableWindowsHostProcess := false; options.UseWinCIMAPI := true; options.GetNodeIDFromIMDS := false; options.WaitForSnapshotReady := false;
  options.CheckDiskLUNCollision := true; options.ForceDetachBackoff := true; options.CheckDiskCountForBatching := true; options.WaitForDetach := true;
  options.WaitForDetachDiskComplete := true; options.Kubeconfig := ""; options.Endpoint := "unix://tmp/csi.sock"; options.DisableAVSetNodes := false;
  options.RemoveNotReadyTaint := true; options.NeverStopTaintRemoval := true; options.TaintRemovalInitialDelayInSeconds := 30;
  options.MaxConcurrentFormat := 2; options.ConcurrentFormatTimeout := 300; options.GoMaxProcs := 2; options.EnableMigrationMonitor := true;
  options.ConvertRWCachingModeForIntreePV := false; options.KubeAPIQPS := 0; options.KubeAPIBurst := 0;
|}.

(** ** What the environment answers *)
(** provider.Cloud: the fields that [NewDriver] reads or sets beside the configuration
    of [CloudConfig]. *)
Record ProviderFlags := MkProviderFlags {
  pf_VMType : string;
  pf_UseInstanceMetadata : bool;
  pf_DisableAvailabilitySetNodes : bool;
  pf_ListVmssVirtualMachinesWithoutInstanceView : bool;
  pf_VMCacheTTLInSeconds : Z;
  pf_VmssCacheTTLInSeconds : Z;
  pf_Metadata : bool;                    (**r there is a metadata service *)
  pf_ResourceManagerEndpoint : string;
}.
Class StartIO (W : Type) := {
  GetKubeConfig : string → Q → Z → M W unit;
  metadata_NewForConfig : M W unit;
  NewSafeMounter : M W unit;
  AddIndexers : M W unit;
  WaitForCacheSync : M W bool;
  (** the flags of a cloud that was initialised *)
  provider_flags : CloudConfig → ProviderFlags;
}.
Inductive start_call {W} `{!StartIO W} : ∀ A, M W A → Prop :=
  | call_GetKubeConfig k q b : start_call _ (GetKubeConfig k q b)
  | call_metadata : start_call _ metadata_NewForConfig
  | call_NewSafeMounter : start_call _ NewSafeMounter
  | call_AddIndexers : start_call _ AddIndexers
  | call_WaitForCacheSync : start_call _ WaitForCacheSync.

(** ** The pieces of [NewDriver] *)
(** [azuredisk/version.go GetUserAgent] *)
Definition GetUserAgent (driverVersion driverName customUserAgent userAgentSuffix : string) : string :=
  let customUserAgent := TrimSpace customUserAgent in
  let userAgent := if String.eqb customUserAgent "" then driverName +:+ "/" +:+ driverVersion else customUserAgent in
  let userAgentSuffix := TrimSpace userAgentSuffix in
  if String.eqb userAgentSuffix "" then userAgent else userAgent +:+ " " +:+ userAgentSuffix.

(** [VMTypeVMSS], [VMTypeStandard] of the cloud provider. *)
Definition VMTypeVMSS : string := "vmss".
Definition VMTypeStandard : string := "standard".
(** [azuredisk/azuredisk.go NewDriver 338-369] What is set in the cloud provider. *)
Definition adjust_provider (o : options.DriverOptions) (p : ProviderFlags) : ProviderFlags :=
  let vmType := if String.eqb (options.VMType o) "" then pf_VMType p else options.VMType o in
  let controller := String.eqb (options.NodeID o) "" in
  let avset := pf_DisableAvailabilitySetNodes p in
  let avset := if controller && String.eqb vmType VMTypeStandard && avset then false else avset in
  let avset := if controller && String.eqb vmType VMTypeVMSS && negb avset && options.DisableAVSetNodes o
               then true else avset in
  let ttl old := if 0 <? options.VMSSCacheTTLInSeconds o then options.VMSSCacheTTLInSeconds o else old in
  MkProviderFlags vmType (if controller then false else pf_UseInstanceMetadata p) avset
    (negb (options.ListVMSSWithInstanceView o)) (ttl (pf_VMCacheTTLInSeconds p)) (ttl (pf_VmssCacheTTLInSeconds p))
    (pf_Metadata p) (pf_ResourceManagerEndpoint p).

(** [azuredisk/azuredisk.go NewDriver 377-393] The two timeouts of a detach: the minimum
    of the whole operation, and the one of the call. *)
Definition start_timeouts (o : options.DriverOptions) : Z * Z :=
  let detach := if options.DetachOperationMinTimeoutInSeconds o <=? 0
                then defaultDetachOperationMinTimeoutInSeconds
                else options.DetachOperationMinTimeoutInSeconds o in
  let vmss := options.VMSSDetachTimeoutInSeconds o in
  (detach, if (vmss <=? 0) || (detach <? vmss)
           then if detach <=? defaultVMSSDetachTimeoutInSeconds then detach else defaultVMSSDetachTimeoutInSeconds
           else vmss).
(** [azuredisk/azuredisk.go NewDriver 371-393] The settings of the disk controller; no code
    sets [DisableDiskLunCheck]. *)
Definition new_common (o : options.DriverOptions) : CommonConfig :=
  let '(detach, vmss) := start_timeouts o in
  MkCommonConfig false detach vmss (options.ForceDetachBackoff o) (options.WaitForDetach o)
    (options.CheckDiskCountForBatching o) (options.WaitForDetachDiskComplete o).

Section start.
  Context {W : Type} `{!Cloud W} `{!KubeNode W} `{!NodeCloud W} `{!ConfigSource W} `{!StartIO W}.
  Context (NodeInfoMap : gmap string NodeInfo) (driverVersion : string).

  (** [optimization/skus.go NewNodeInfo] *)
Definition NewNodeInfo (nodeID : string) : M W NodeInfo :=
  if negb (cloud_Instances (W:=W))
  then fail (EStatus codes.Internal "NewNodeInfo: Failed to get instances from Azure cloud provider")
  else
    let! r := try (instances_InstanceType nodeID) in
    match r with
    | inl e => fail (ENew ("NewNodeInfo: Failed to get instance type from Azure cloud provider, nodeName: "
                           +:+ nodeID +:+ ", error: " +:+ Error e))
    | inr instanceType =>
        match NodeInfoMap !! ToLower instanceType with
        | None => fail (ENew ("NewNodeInfo: Could not find SKU " +:+ ToLower instanceType +:+ " in the sku map"))
        | Some vmSku =>
            ret (MkNodeInfo instanceType (ni_MaxDataDiskCount vmSku) (ni_VCpus vmSku) (ni_MaxBurstIops vmSku)
                   (ni_MaxIops vmSku) (ni_MaxBwMbps vmSku) (ni_MaxBurstBwMbps vmSku))
        end
    end.

  (** [azuredisk/azuredisk.go initializePVInformer] Whether there is an informer, and
      whether it has the index by disk URI. *)
Definition initializePVInformer (kubeClient nodeDriven : bool) : M W (bool * bool) :=
  if negb kubeClient || negb nodeDriven then ret (false, false)
  else
    let! r := try AddIndexers in
    ret (true, match r with inr _ => true | inl _ => false end).
  (** [azuredisk/azuredisk.go waitForPVInformerCacheSync] Whether the index is used: the
      result, and the field. *)
Definition waitForPVInformerCacheSync (pvIndexer : bool) : M W (bool * bool) :=
  let! synced := WaitForCacheSync in
  ret (synced, if (synced : bool) then pvIndexer else false).

(** The driver object. *)
Record Driver := MkDriver {
  drv_config : DriverConfig;
  drv_node : NodeConfig;
  drv_isKataNode : bool;
  drv_provider : ProviderFlags;
  drv_userAgent : string;
  drv_formatTimeout : Z;
  drv_volStatsTTL : Z;
  drv_nodeLister : bool;
  drv_pvInformer : bool;
  drv_removesTaint : bool;
  drv_NSCap : list NodeCap;
  drv_attachDetachInitialDelayInMs : Z;
}.
  (** The parts that depend on the options and the answers only. *)
Definition driver_config (o : options.DriverOptions) (gate : gmap string bool) (kubeClient pvIndexer : bool)
    (cloud : CloudConfig) (p : ProviderFlags) : DriverConfig :=
  let monitor := kubeClient && String.eqb (options.NodeID o) "" && options.EnableMigrationMonitor o in
  {| d_Name := options.DriverName o; d_Version := driverVersion; d_NodeID := options.NodeID o;
     d_cloud := cloud; d_common := new_common o;
     d_Cap := controllerCap (options.EnableListVolumes o) (options.EnableListVolumes o);
     d_kubeClient := kubeClient; cloud_KubeClient := kubeClient; d_pvIndexer := pvIndexer;
     d_migrationMonitor := monitor; d_eventRecorder := monitor;
     nodeDrivenAttachDetachEnabled := Enabled gate NodeDrivenAttachDetach;
     perfOptimizationEnabled := options.EnablePerfOptimization o;
     enableDiskOnlineResize := options.EnableDiskOnlineResize o;
     enableDiskCapacityCheck := options.EnableDiskCapacityCheck o;
     shouldWaitForSnapshotReady := options.WaitForSnapshotReady o;
     checkDiskLUNCollision := options.CheckDiskLUNCollision o;
     convertRWCachingModeForIntreePV := options.ConvertRWCachingModeForIntreePV o;
     getDiskTimeoutInSeconds := options.GetDiskTimeoutInSeconds o;
     throttlingTTL := 5 * 60 * Second; checkDiskLunThrottlingTTL := 30 * 60 * Second; pollInterval := 0;
     ResourceManagerEndpoint := pf_ResourceManagerEndpoint p |}.
Definition node_config (o : options.DriverOptions) (gate : gmap string bool) (p : ProviderFlags)
    (nodeInfo : option NodeInfo) : NodeConfig :=
  {| n_httpClient := negb (String.eqb (options.NodeID o) ""); n_nodeInfo := nodeInfo;
     n_formatSem := 0 <? options.MaxConcurrentFormat o;
     enableSCSIDeviceDeletion := options.EnableSCSIDeviceDeletion o; supportZone := options.SupportZone o;
     getNodeInfoFromLabels := options.GetNodeInfoFromLabels o; getNodeIDFromIMDS := options.GetNodeIDFromIMDS o;
     enableKataMount := Enabled gate KataMount; NodeVolume.VolumeAttachLimit := options.VolumeAttachLimit o;
     NodeVolume.ReservedDataDiskSlotNum := options.ReservedDataDiskSlotNum o;
     UseInstanceMetadata := pf_UseInstanceMetadata p && pf_Metadata p |}.
Definition cloud_options (o : options.DriverOptions) (kubeClient : bool) : CloudOptions :=
  MkCloudOptions kubeClient (options.CloudConfigSecretName o) (options.CloudConfigSecretNamespace o)
    (options.AllowEmptyCloudConfig o) (options.EnableTrafficManager o) (options.EnableMinimumRetryAfter o)
    (options.TrafficManagerPort o).

  (** [azuredisk/azuredisk.go NewDriver] A client that could not be made of a configuration is
      a nil pointer in an interface, which is not nil: [kubeClient] says that there
      was a configuration. *)
Definition NewDriver (o : options.DriverOptions) : M W Driver :=
  let gate := default NewDriverFeatureGate (options.FeatureGates o) in
  let userAgent := GetUserAgent driverVersion (options.DriverName o) (options.CustomUserAgent o)
                     (options.UserAgentSuffix o) in
  let! r := try (GetKubeConfig (options.Kubeconfig o) (options.KubeAPIQPS o) (options.KubeAPIBurst o)) in
  let kubeClient := match r with inr _ => true | inl _ => false end in
  let! isKataNode := if Enabled gate KataMount then
                       let! r := try (initKataNode (options.NodeID o) kubeClient) in
                       match r with
                       | inl e => fail (ENew ("failed to initialize Kata node configuration: " +:+ Error e))
                       | inr b => ret b
                       end
                     else ret false in
  let! r := try (GetCloudProviderFromClient false (cloud_options o kubeClient) userAgent) in
  match r with
  | inl e => fail (ENew ("failed to get Azure Cloud Provider, error: " +:+ Error e))
  | inr cloud =>
      let p := adjust_provider o (provider_flags (W:=W) cloud) in
      let! nodeLister := if kubeClient && options.CheckDiskCountForBatching o && String.eqb (options.NodeID o) "" then
                           let! r := try metadata_NewForConfig in
                           ret (match r with inr _ => true | inl _ => false end)
                         else ret false in
      let! nodeInfo := if options.EnablePerfOptimization o then
                         let! r := try (NewNodeInfo (options.NodeID o)) in
                         ret (match r with inr i => Some i | inl _ => None end)
                       else ret None in
      let! r := try NewSafeMounter in
      match r with
      | inl e => fail (ENew ("Failed to get safe mounter. Error: " +:+ Error e))
      | inr _ =>
          let! (informer, pvIndexer) := initializePVInformer kubeClient (Enabled gate NodeDrivenAttachDetach) in
          ret (MkDriver (driver_config o gate kubeClient pvIndexer cloud p) (node_config o gate p nodeInfo) isKataNode p
                 userAgent (if 0 <? options.MaxConcurrentFormat o
                            then int64 (options.ConcurrentFormatTimeout o * Second) else 0)
                 (int64 ((if options.VolStatsCacheExpireInMinutes o <=? 0 then 10
                          else options.VolStatsCacheExpireInMinutes o) * (60 * Second)))
                 nodeLister informer
                 (kubeClient && options.RemoveNotReadyTaint o && negb (String.eqb (options.NodeID o) ""))
                 nodeCap (options.AttachDetachInitialDelayInMs o))
      end
  end.
  (** [azuredisk/azure_managedDiskController.go NewManagedDiskController] The state that the
      driver starts from. *)
Definition new_state (d : Driver) (w : W) : DState W :=
  MkDState (MkCState w ∅ ∅ ∅ ∅ ∅ (drv_attachDetachInitialDelayInMs d) ∅) NewVolumeLocks ∅ ∅ "" ∅.
End start.
