(* ===== verification/Lifecycle.v ===== *)
(** * The life of the process: [Driver.Run] and [pkg/azurediskplugin/main.go]

    [Run] starts the informers, waits for them, starts the goroutine that shuts the
    driver down when its context ends, and serves.  The two goroutines, the requests
    and the environment interleave: each step of one of them is a rule. *)
From stdpp Require Import strings list relations.
From Stdlib Require Import ZArith Lia.
From S2P Require Import Prelude GoStrings GoErr.
Local Open Scope string_scope.

(** ** Main *)
(** [azurediskplugin/main.go trapClosedConnErr] *)
Definition trapClosedConnErr (err : option gerr) : option gerr :=
  match err with
  | Some e => if Contains (Error e) "use of closed network connection" then None else Some e
  | None => None
  end.

(** How a call that may end the process ends. *)
Inductive run (A : Type) := Returns (a : A) | Exits (code : Z).
Arguments Returns {A}. Arguments Exits {A}.
(** [klog.Fatalf] exits with 255. *)
Definition Fatal {A} : run A := Exits 255%Z.
(** [azurediskplugin/main.go handlePreStopHook] *)
Definition handlePreStopHook (kubeClient : option gerr) (PreStop : option gerr) : run unit :=
  match kubeClient with
  | Some _ => Exits 0%Z
  | None => match PreStop with Some _ => Exits 1%Z | None => Exits 0%Z end
  end.
(** [azurediskplugin/main.go handle] A driver is never nil: [NewDriver] returns the address
    of a variable. *)
Definition handle_driver (Run : run (option gerr)) : run unit :=
  match Run with
  | Returns None => Returns ()
  | Returns (Some _) => Fatal
  | Exits code => Exits code
  end.
(** [azurediskplugin/main.go main] The status of the process. *)
Definition main (version preStopHook : bool) (GetVersionYAML kubeClient PreStop : option gerr)
    (Run : run (option gerr)) : Z :=
  let r := if version then match GetVersionYAML with Some _ => Fatal | None => Returns () end
           else if preStopHook then handlePreStopHook kubeClient PreStop
           else handle_driver Run in
  match r with Returns _ => 0%Z | Exits code => code end.

(** ** Run *)
(** What the driver has, and whether its context can end. *)
Record RunConfig := MkRunConfig {
  has_nodeInformer : bool; has_pvInformer : bool; has_migrationMonitor : bool;
  ctx_cancellable : bool;          (**r not so for [context.Background()] *)
}.
Inductive part := Unstarted | Running | Shut.
#[export] Instance part_dec : EqDecision part.
Proof. solve_decision. Defined.
(** [Run]: before each of its steps, and its end. *)
Inductive main_pc := AtNodes | AtNodeSync | AtPVs | AtPVSync | AtShutdown | AtListen | AtServe | InServe
  | Ended (r : run (option gerr)).
(** The goroutine of the shutdown. *)
Inductive down_pc := NotSpawned | AtDone | AtPVShutdown | AtMonitorStop | AtNodeShutdown | AtGracefulStop | InGracefulStop | DownEnded.
(** The gRPC server. *)
Inductive server := Idle | Accepting | Draining | Stopped.
Record Proc := MkProc {
  p_main : main_pc; p_down : down_pc; p_ctx_done : bool;
  p_nodes : part; p_pvs : part; p_monitor : part;
  p_server : server; p_rpcs : nat;
}.
Definition started (cfg : RunConfig) : Proc :=
  MkProc AtNodes NotSpawned false Unstarted Unstarted (if has_migrationMonitor cfg then Running else Unstarted) Idle 0.

(** [azuredisk/azuredisk.go Run 553-607] The steps.  A wait for a cache ends with it synced
    or after 30 seconds; the server behaves as gRPC documents: it takes requests until
    [GracefulStop] is called, which returns when the last of them has ended, and then
    [Serve] returns nil; a server that was stopped before refuses to serve. *)
Inductive run_step (cfg : RunConfig) : Proc → Proc → Prop :=
| step_nodes d c n p m sv k :
    run_step cfg (MkProc AtNodes d c n p m sv k)
      (if has_nodeInformer cfg then MkProc AtNodeSync d c Running p m sv k else MkProc AtPVs d c n p m sv k)
| step_node_sync d c n p m sv k : run_step cfg (MkProc AtNodeSync d c n p m sv k) (MkProc AtPVs d c n p m sv k)
| step_pvs d c n p m sv k :
    run_step cfg (MkProc AtPVs d c n p m sv k)
      (if has_pvInformer cfg then MkProc AtPVSync d c n Running m sv k else MkProc AtShutdown d c n p m sv k)
| step_pv_sync d c n p m sv k : run_step cfg (MkProc AtPVSync d c n p m sv k) (MkProc AtShutdown d c n p m sv k)
| step_spawn c n p m sv k :
    run_step cfg (MkProc AtShutdown NotSpawned c n p m sv k) (MkProc AtListen AtDone c n p m sv k)
| step_listen d c n p m sv k : run_step cfg (MkProc AtListen d c n p m sv k) (MkProc AtServe d c n p m sv k)
| step_listen_fails d c n p m sv k : run_step cfg (MkProc AtListen d c n p m sv k) (MkProc (Ended Fatal) d c n p m sv k)
| step_serve d c n p m k :
    run_step cfg (MkProc AtServe d c n p m Idle k) (MkProc InServe d c n p m Accepting k)
| step_serve_stopped d c n p m k :      (**r ErrServerStopped, which becomes nil *)
    run_step cfg (MkProc AtServe d c n p m Stopped k) (MkProc (Ended (Returns None)) d c n p m Stopped k)
| step_serve_fails d c n p m k e :
    run_step cfg (MkProc InServe d c n p m Accepting k) (MkProc (Ended (Returns (Some e))) d c n p m Accepting k)
| step_serve_returns d c n p m k :
    run_step cfg (MkProc InServe d c n p m Stopped k) (MkProc (Ended (Returns None)) d c n p m Stopped k)
| step_request d c n p m k :
    run_step cfg (MkProc InServe d c n p m Accepting k) (MkProc InServe d c n p m Accepting (S k))
| step_answer mn d c n p m sv k : run_step cfg (MkProc mn d c n p m sv (S k)) (MkProc mn d c n p m sv k)
| step_cancel mn d n p m sv k :
    ctx_cancellable cfg = true → run_step cfg (MkProc mn d false n p m sv k) (MkProc mn d true n p m sv k)
| step_done mn n p m sv k : run_step cfg (MkProc mn AtDone true n p m sv k) (MkProc mn AtPVShutdown true n p m sv k)
| step_pv_shutdown mn c n p m sv k :
    run_step cfg (MkProc mn AtPVShutdown c n p m sv k)
      (MkProc mn AtMonitorStop c n (if has_pvInformer cfg then Shut else p) m sv k)
| step_monitor_stop mn c n p m sv k :
    run_step cfg (MkProc mn AtMonitorStop c n p m sv k)
      (MkProc mn AtNodeShutdown c n p (if has_migrationMonitor cfg then Shut else m) sv k)
| step_node_shutdown mn c n p m sv k :
    run_step cfg (MkProc mn AtNodeShutdown c n p m sv k)
      (MkProc mn AtGracefulStop c (if has_nodeInformer cfg then Shut else n) p m sv k)
| step_graceful_stop mn c n p m k :
    run_step cfg (MkProc mn AtGracefulStop c n p m Accepting k) (MkProc mn InGracefulStop c n p m Draining k)
| step_graceful_stop_idle mn c n p m k :
    run_step cfg (MkProc mn AtGracefulStop c n p m Idle k) (MkProc mn DownEnded c n p m Stopped k)
| step_drained mn c n p m :
    run_step cfg (MkProc mn InGracefulStop c n p m Draining 0) (MkProc mn DownEnded c n p m Stopped 0).
Definition reachable (cfg : RunConfig) (s : Proc) : Prop := steps (run_step cfg) (started cfg) s.

(** ** What holds in every state *)
(** How far the parts are. *)
Definition down_rank (d : down_pc) : nat :=
  match d with
  | NotSpawned => 0 | AtDone => 1 | AtPVShutdown => 2 | AtMonitorStop => 3 | AtNodeShutdown => 4
  | AtGracefulStop => 5 | InGracefulStop => 6 | DownEnded => 7
  end.
Definition main_rank (m : main_pc) : nat :=
  match m with
  | AtNodes => 0 | AtNodeSync => 1 | AtPVs => 2 | AtPVSync => 3 | AtShutdown => 4 | AtListen => 5 | AtServe => 6
  | InServe => 7 | Ended (Exits _) => 8 | Ended (Returns (Some _)) => 9 | Ended (Returns None) => 10
  end.
Definition part_rank (p : part) : nat := match p with Unstarted => 0 | Running => 1 | Shut => 2 end.
Definition server_rank (sv : server) : nat := match sv with Idle => 0 | Accepting => 1 | Draining => 2 | Stopped => 3 end.

(** The invariant: the shutdown is spawned before the driver listens, and passes its
    first step only when the context has ended; an informer or the monitor is shut
    exactly when the shutdown has passed it; requests are served in between. *)
Record run_ok (cfg : RunConfig) (s : Proc) : Prop := {
  ok_spawned : (5 ≤ main_rank (p_main s) ↔ 1 ≤ down_rank (p_down s))%nat;
  ok_cancelled : (2 ≤ down_rank (p_down s))%nat → p_ctx_done s = true;
  ok_cancellable : p_ctx_done s = true → ctx_cancellable cfg = true;
  ok_nodes : has_nodeInformer cfg = true →
    (part_rank (p_nodes s) = 0 ↔ main_rank (p_main s) = 0)%nat ∧ (part_rank (p_nodes s) = 2 ↔ 5 ≤ down_rank (p_down s))%nat;
  ok_pvs : has_pvInformer cfg = true →
    (part_rank (p_pvs s) = 0 ↔ main_rank (p_main s) ≤ 2)%nat ∧ (part_rank (p_pvs s) = 2 ↔ 3 ≤ down_rank (p_down s))%nat;
  ok_monitor : has_migrationMonitor cfg = true → (part_rank (p_monitor s) = 2 ↔ 4 ≤ down_rank (p_down s))%nat;
  ok_down : (server_rank (p_server s) ≤ 1 ∧ down_rank (p_down s) ≤ 5 ∨
             server_rank (p_server s) = 2 ∧ down_rank (p_down s) = 6 ∨
             server_rank (p_server s) = 3 ∧ down_rank (p_down s) = 7)%nat;
  ok_main : (server_rank (p_server s) = 0 ∧ p_rpcs s = 0 ∧ (main_rank (p_main s) ≤ 6 ∨ main_rank (p_main s) = 8) ∨
             server_rank (p_server s) = 1 ∧ (main_rank (p_main s) = 7 ∨ main_rank (p_main s) = 9) ∨
             server_rank (p_server s) = 2 ∧ (main_rank (p_main s) = 7 ∨ main_rank (p_main s) = 9) ∨
             server_rank (p_server s) = 3 ∧ p_rpcs s = 0 ∧ 5 ≤ main_rank (p_main s))%nat;
}.
Lemma started_ok cfg : run_ok cfg (started cfg).
Proof. destruct cfg as [[] [] [] []]; constructor; cbn; lia. Qed.
Lemma run_step_ok cfg s s' : run_ok cfg s → run_step cfg s s' → run_ok cfg s'.
Proof.
  intros [H1 H2 H3 H4 H5 H6 H7 H8] Hs. destruct Hs; cbn in *.
  all: try destruct (has_nodeInformer cfg) eqn:En; try destruct (has_pvInformer cfg) eqn:Ep;
    try destruct (has_migrationMonitor cfg) eqn:Em.
  all: constructor; cbn.
  all: first [done | clear -H1; lia | clear -H1 H7 H8; lia | idtac].
  all: rewrite ?En, ?Ep, ?Em; intros Hx; first [done | by apply H2; lia | idtac].
  all: first [specialize (H4 Hx); clear -H1 H4; lia | specialize (H5 Hx); clear -H1 H5; lia
    | specialize (H6 Hx); clear -H1 H6; lia | clear -H1; lia | idtac].
Qed.
Lemma reachable_ok cfg s : reachable cfg s → run_ok cfg s.
Proof.
  intros Hr. eapply (steps_invariant (run_step cfg) (run_ok cfg)); [|exact Hr|apply started_ok].
  intros x y. apply run_step_ok.
Qed.
(** [Run] exits the process only with the status of [klog.Fatalf]. *)
Lemma run_exits_fatal cfg s code : reachable cfg s → p_main s = Ended (Exits code) → code = 255%Z.
Proof.
  intros Hr. eapply (steps_invariant (run_step cfg) (λ s, p_main s = Ended (Exits code) → code = 255%Z)); [|exact Hr|done].
  intros x y IH Hs Hm. destruct Hs; cbn in *; try (by apply IH); repeat case_match; cbn in *; unfold Fatal in *; congruence.
Qed.

(** The context that [main] gives to [Run] never ends: the driver then stops neither its
    informers nor the monitor, serves until the server fails, and the process ends with
    the status 255. *)
Theorem run_in_background cfg s :
  ctx_cancellable cfg = false → reachable cfg s →
  (has_pvInformer cfg = true → p_pvs s ≠ Shut) ∧ (has_migrationMonitor cfg = true → p_monitor s ≠ Shut) ∧
  (has_nodeInformer cfg = true → p_nodes s ≠ Shut) ∧
  (∀ r, p_main s = Ended r → main false false None None None r = 255%Z).
Proof.
  intros Hc Hr. pose proof (run_exits_fatal cfg s) as Hf. apply reachable_ok in Hr as Hok.
  destruct Hok as [H1 H2 H3 H4 H5 H6 H7 H8].
  assert (Hd : (down_rank (p_down s) ≤ 1)%nat).
  { destruct (decide (down_rank (p_down s) ≤ 1)%nat); [done|]. rewrite H3 in Hc; [done|]. apply H2. lia. }
  split_and!.
  - intros Hx Hp. specialize (H5 Hx). rewrite Hp in H5. cbn in H5. lia.
  - intros Hx Hp. specialize (H6 Hx). rewrite Hp in H6. cbn in H6. lia.
  - intros Hx Hp. specialize (H4 Hx). rewrite Hp in H4. cbn in H4. lia.
  - intros [[e|]|code] Hm; cbn; [done| |by apply (Hf code)]. rewrite Hm in H8. cbn in H8. lia.
Qed.

(** When [Run] returns without an error, its context has ended, no request is being
    served any more, and the informers and the migration monitor that the driver has
    were shut before. *)
Theorem run_ends_in_order cfg s :
  reachable cfg s → p_main s = Ended (Returns None) →
  p_ctx_done s = true ∧ p_rpcs s = 0%nat ∧ (has_pvInformer cfg = true → p_pvs s = Shut) ∧
  (has_migrationMonitor cfg = true → p_monitor s = Shut) ∧ (has_nodeInformer cfg = true → p_nodes s = Shut).
Proof.
  intros [H1 H2 H3 H4 H5 H6 H7 H8]%reachable_ok Hm. rewrite Hm in H8. cbn in H8.
  assert (Hd : down_rank (p_down s) = 7%nat) by lia.
  assert (Hshut : ∀ p, part_rank p = 2%nat → p = Shut) by by intros [].
  split_and!; [apply H2; lia|lia|intros Hx; apply Hshut..].
  - specialize (H5 Hx). lia.
  - specialize (H6 Hx). lia.
  - specialize (H4 Hx). lia.
Qed.

(** ** The shutdown ends *)
Definition remaining (s : Proc) : nat :=
  (10 - main_rank (p_main s)) + (7 - down_rank (p_down s)) + p_rpcs s + (if p_ctx_done s then 0 else 1).
(** [Run] ended with an error. *)
Definition failed (s : Proc) : Prop :=
  match p_main s with Ended (Exits _) | Ended (Returns (Some _)) => True | _ => False end.
(** A step that is neither the arrival of a request nor a failure. *)
Definition progress (cfg : RunConfig) (s s' : Proc) : Prop :=
  run_step cfg s s' ∧ (p_rpcs s' ≤ p_rpcs s)%nat ∧ (failed s' → failed s).
Lemma progress_remaining cfg s s' : progress cfg s s' → (remaining s' < remaining s)%nat.
Proof.
  intros (Hs & Hk & _). unfold remaining. destruct Hs; cbn in *; repeat case_match; cbn in *; lia.
Qed.
Lemma progress_sn cfg s : sn (progress cfg) s.
Proof.
  remember (remaining s) as k eqn:Ek. revert s Ek. induction (lt_wf k) as [k _ IH]. intros s ->. constructor.
  intros s' Hp. apply (IH (remaining s')); [|done]. by apply progress_remaining in Hp.
Qed.
(** A rule that can be applied. *)
Lemma progress_by cfg s s' : run_step cfg s s' → (p_rpcs s' ≤ p_rpcs s)%nat → ¬ failed s' → red (progress cfg) s.
Proof. intros Hs Hk Hf. by exists s'. Qed.
Lemma progress_down cfg s :
  run_ok cfg s → p_ctx_done s = true → p_main s = InServe → p_server s = Accepting → red (progress cfg) s.
Proof.
  intros [H1 _ _ _ _ _ H7 _] Hc Hm Hs. destruct s as [m d c n p mo sv k]. cbn in *. subst m c sv. cbn in *.
  destruct d; cbn in *; try lia.
  - eapply progress_by; [apply step_done|done|by intros []].
  - eapply progress_by; [apply step_pv_shutdown|done|by intros []].
  - eapply progress_by; [apply step_monitor_stop|done|by intros []].
  - eapply progress_by; [apply step_node_shutdown|done|by intros []].
  - eapply progress_by; [apply step_graceful_stop|done|by intros []].
Qed.
Lemma progress_enabled cfg s :
  run_ok cfg s → p_ctx_done s = true → (∃ r, p_main s = Ended r) ∨ red (progress cfg) s.
Proof.
  intros Hok Hc. pose proof (progress_down cfg s Hok Hc) as Hdown. destruct Hok as [H1 _ _ _ _ _ H7 H8].
  destruct s as [m d c n p mo sv k]. cbn in *. subst c. destruct m; cbn in *; try (by left; eexists); right.
  - eapply progress_by; [apply step_nodes|by case_match|by case_match; intros []].
  - eapply progress_by; [apply step_node_sync|done|by intros []].
  - eapply progress_by; [apply step_pvs|by case_match|by case_match; intros []].
  - eapply progress_by; [apply step_pv_sync|done|by intros []].
  - destruct d; cbn in *; try lia. eapply progress_by; [apply step_spawn|done|by intros []].
  - eapply progress_by; [apply step_listen|done|by intros []].
  - destruct sv; cbn in *; try lia.
    + eapply progress_by; [apply step_serve|done|by intros []].
    + eapply progress_by; [apply step_serve_stopped|done|by intros []].
  - destruct sv; cbn in *; [lia|by apply Hdown| |eapply progress_by; [apply step_serve_returns|done|by intros []]].
    destruct k as [|k]; [|eapply progress_by; [apply step_answer|cbn; lia|by intros []]].
    destruct d; cbn in *; try lia. eapply progress_by; [apply step_drained|done|by intros []].
Qed.

(** C30. Once the context of [Run] has ended, and when no more requests arrive and
    nothing fails, the process goes through finitely many steps, whatever their order,
    and where it has no step left [Run] has returned without an error: the shutdown
    cannot hang. *)
Theorem run_shuts_down cfg s :
  reachable cfg s → p_ctx_done s = true → ¬ failed s →
  sn (progress cfg) s ∧
  ∀ s', rtc (progress cfg) s s' → nf (progress cfg) s' → p_main s' = Ended (Returns None).
Proof.
  intros Hr%reachable_ok Hc Hf. split; [apply progress_sn|]. intros s' Hsteps Hnf.
  assert (Hdone : ∀ x y, run_step cfg x y → p_ctx_done x = true → p_ctx_done y = true).
  { intros x y Hs Hx. destruct Hs; cbn in *; repeat case_match; done. }
  assert (run_ok cfg s' ∧ p_ctx_done s' = true ∧ ¬ failed s') as (Hok & Hc' & Hf').
  { clear Hnf. induction Hsteps as [x|x y z (Hs & _ & Hxy) _ IH]; [done|].
    apply IH; [by eapply run_step_ok|by eapply Hdone|by intros Hy%Hxy]. }
  destruct (progress_enabled cfg s' Hok Hc') as [[[[e|]|code] Hm]|?]; [| | |done].
  - exfalso. apply Hf'. unfold failed. by rewrite Hm.
  - done.
  - exfalso. apply Hf'. unfold failed. by rewrite Hm.
Qed.

(** ** A driver that is shut down while it serves a request *)
Definition demo_run : RunConfig := MkRunConfig true true true true.
(** A request is being served and the context has ended. *)
Definition demo_serving : Proc := MkProc InServe AtDone true Running Running Running Accepting 1.
Lemma demo_serves : reachable demo_run demo_serving.
Proof.
  assert (Hext : ∀ x y z, steps (run_step demo_run) x y → run_step demo_run y z → steps (run_step demo_run) x z)
    by (intros; by eapply steps_snoc).
  eapply Hext; [|by apply step_cancel]. eapply Hext; [|apply step_request].
  eapply Hext; [|apply step_serve]. eapply Hext; [|apply step_listen].
  eapply Hext; [|apply step_spawn]. eapply Hext; [|apply step_pv_sync].
  eapply Hext; [|exact (step_pvs demo_run NotSpawned false Running Unstarted Running Idle 0)].
  eapply Hext; [|apply step_node_sync].
  eapply Hext; [|exact (step_nodes demo_run NotSpawned false Unstarted Unstarted Running Idle 0)].
  apply steps_refl.
Qed.
Definition demo_ended : Proc := MkProc (Ended (Returns None)) DownEnded true Shut Shut Shut Stopped 0.
Lemma demo_ends : reachable demo_run demo_ended.
Proof.
  assert (Hext : ∀ x y z, steps (run_step demo_run) x y → run_step demo_run y z → steps (run_step demo_run) x z)
    by (intros; by eapply steps_snoc).
  eapply Hext; [|apply step_serve_returns]. eapply Hext; [|apply step_drained].
  eapply Hext; [|apply step_answer]. eapply Hext; [|apply step_graceful_stop].
  eapply Hext; [|exact (step_node_shutdown demo_run InServe true Running Shut Shut Accepting 1)].
  eapply Hext; [|exact (step_monitor_stop demo_run InServe true Running Shut Running Accepting 1)].
  eapply Hext; [|exact (step_pv_shutdown demo_run InServe true Running Running Running Accepting 1)].
  eapply Hext; [|apply step_done]. exact demo_serves.
Qed.
Lemma run_ends_in_order_witness :
  p_rpcs demo_ended = 0%nat ∧ p_pvs demo_ended = Shut ∧ p_monitor demo_ended = Shut ∧ p_nodes demo_ended = Shut.
Proof.
  destruct (run_ends_in_order demo_run demo_ended demo_ends eq_refl) as (_ & Hk & Hp & Hm & Hn).
  exact (conj Hk (conj (Hp eq_refl) (conj (Hm eq_refl) (Hn eq_refl)))).
Defined.
Lemma run_shuts_down_witness :
  sn (progress demo_run) demo_serving ∧
  ∀ s', rtc (progress demo_run) demo_serving s' → nf (progress demo_run) s' → p_main s' = Ended (Returns None).
Proof. apply (run_shuts_down demo_run demo_serving demo_serves eq_refl). intros []. Defined.
