(* ===== verification/Tracing.v ===== *)
(** * Tracing: [pkg/azuredisk/trace.go], [pkg/azureutils/ratelimiter_trace.go]

    OpenTelemetry is the class [Otel]: the context [T] carries the current span and the
    baggage.  Modelled are the choice of the exporters, what the driver records on its
    spans, and the lines that finished spans are written as. *)
From stdpp Require Import gmap strings list.
From Stdlib Require Import ZArith Lia.
From S2P Require Import Prelude GoStrings GoErr Consts DiskUtils Cloud.
Local Open Scope string_scope.
Local Open Scope Z_scope.
Local Open Scope list_scope.

(** ** Exporters *)
(** [azuredisk/trace.go parseTracesExporters 354-365] The loop over the names. *)
Fixpoint exporters_loop (names : list string) (klogEnabled otlpEnabled : bool) : bool * bool :=
  match names with
  | [] => (klogEnabled, otlpEnabled)
  | exporter :: names =>
      let e := ToLower (TrimSpace exporter) in
      if String.eqb e "klog" then exporters_loop names true otlpEnabled
      else if String.eqb e "otlp" then exporters_loop names klogEnabled true
      else if String.eqb e "none" then (false, false)
      else exporters_loop names klogEnabled otlpEnabled
  end.
(** [azuredisk/trace.go parseTracesExporters] Whether spans go to klog, and over OTLP. *)
Definition parseTracesExporters (getenv : string → string) (value : string) : bool * bool :=
  if String.eqb (TrimSpace value) ""
  then (true, negb (String.eqb (TrimSpace (getenv "OTEL_EXPORTER_OTLP_ENDPOINT")) "") ||
              negb (String.eqb (TrimSpace (getenv "OTEL_EXPORTER_OTLP_TRACES_ENDPOINT")) ""))
  else exporters_loop (Split value ",") false false.
Definition spanVerbosityEnv : string := "OTEL_KLOG_SPAN_VERBOSITY".
Definition tracesExporterEnv : string := "OTEL_TRACES_EXPORTER".
Definition defaultKlogSpanVerbosity : Z := 2.
(** [azuredisk/trace.go InitOtelTracing 298-306] The verbosity of the lines of spans; an
    environment that sets none, or no level, leaves it as it was. *)
Definition span_verbosity (getenv : string → string) (klogSpanVerbosity : Z) : Z :=
  let v := TrimSpace (getenv spanVerbosityEnv) in
  if String.eqb v "" then klogSpanVerbosity
  else match Atoi v with
       | Some lvl => if (0 <=? lvl) && (lvl <=? 2 ^ 31 - 1) then lvl else klogSpanVerbosity
       | None => klogSpanVerbosity
       end.
Inductive exporter := KlogExporter | OtlpExporter.
(** [azuredisk/trace.go InitOtelTracing] The verbosity and the batchers of the provider;
    [otlp] is the error of the OTLP exporter. *)
Definition InitOtelTracing (getenv : string → string) (klogSpanVerbosity : Z) (otlp : option gerr) : Z * list exporter :=
  let '(enableKlog, enableOTLP) := parseTracesExporters getenv (getenv tracesExporterEnv) in
  (span_verbosity getenv klogSpanVerbosity,
   (if enableKlog then [KlogExporter] else []) ++
   (if enableOTLP then match otlp with Some _ => [] | None => [OtlpExporter] end else [])).

(** ** What is recorded *)
Inductive otel_code := Unset | OtelError | OtelOk.
Class Otel (W T : Type) := {
  tracer_Start : T → string → M W T;                      (**r the context with the new span *)
  span_SetAttributes : T → list (string * string) → M W unit;
  span_AddEvent : T → string → list (string * string) → M W unit;
  span_RecordError : T → gerr → M W unit;
  span_SetStatus : T → otel_code → string → M W unit;
  span_IsRecording : T → W → bool;
  baggage_Member : T → string → string;                   (**r empty when there is none *)
  baggage_SetMember : T → string → string → option T;     (**r [None]: the value is refused *)
}.
Definition attrDiskName : string := "disk.name".
Definition attrRetryAfter : string := "retry_after".
Definition eventThrottled : string := "throttled".
Definition eventARMHTTPThrottled : string := "arm_http_throttled".
Definition kubeRateLimitWaitThreshold : Z := 50 * 10 ^ 6.

Section record.
  Context {W T : Type} `{!Otel W T}.
  (** [azuredisk/trace.go startSpan] *)
Definition startSpan (ctx : T) (name : string) (attrs : list (string * string)) : M W T :=
  let! ctx := tracer_Start ctx name in
  let v := baggage_Member ctx attrDiskName in
  let! _ := if negb (String.eqb v "") then span_SetAttributes ctx [(attrDiskName, v)] else ret () in
  let! _ := match attrs with [] => ret () | _ => span_SetAttributes ctx attrs end in
  ret ctx.
  (** [azuredisk/trace.go withDiskCorrelation] *)
Definition withDiskCorrelation (ctx : T) (diskName : string) : M W T :=
  if String.eqb diskName "" then ret ctx
  else
    let! _ := span_SetAttributes ctx [(attrDiskName, diskName)] in
    ret (default ctx (baggage_SetMember ctx attrDiskName diskName)).
  (** [azuredisk/trace.go recordSpanResult] *)
Definition recordSpanResult (ctx : T) (err : option gerr) : M W unit :=
  match err with
  | Some e => let! _ := span_RecordError ctx e in span_SetStatus ctx OtelError (Error e)
  | None => span_SetStatus ctx OtelOk ""
  end.
  (** [azuredisk/trace.go recordThrottleEvent] *)
Definition recordThrottleEvent (ctx : T) (eventName retryAfter : string) : M W unit :=
  let! w := get in
  if negb (span_IsRecording ctx w) then ret ()
  else span_AddEvent ctx eventName (if String.eqb retryAfter "" then [] else [(attrRetryAfter, retryAfter)]).
  (** [azuredisk/trace.go recordThrottleIfThrottled] *)
Definition recordThrottleIfThrottled (ctx : T) (err : option gerr) : M W unit :=
  if bool_decide (err = None) || negb (IsThrottlingError err) then ret ()
  else let s := GetRetryAfterSeconds err in
       recordThrottleEvent ctx eventThrottled (if 0 <? s then Itoa s +:+ "s" else "").
  (** [azuredisk/trace.go RoundTrip] A response is its status and its Retry-After header. *)
Definition RoundTrip (send : M W (option (Z * string) * option gerr)) (ctx : T)
    : M W (option (Z * string) * option gerr) :=
  let! (resp, err) := send in
  let! _ := match resp with
            | Some (status, header) =>
                if status =? 429 then
                  let retryAfter := TrimSpace header in
                  recordThrottleEvent ctx eventARMHTTPThrottled
                    (match parse_uint 10 retryAfter with
                     | Some n => if n <? 2 ^ 64 then retryAfter +:+ "s" else retryAfter
                     | None => retryAfter end)
                else ret ()
            | None => ret ()
            end in
  ret (resp, err).
  (** [azureutils/ratelimiter_trace.go Observe] [inner] is the metric that was registered. *)
Definition Observe (inner : Z → M W unit) (ctx : T) (waited : Z) : M W unit :=
  let! _ := inner waited in
  if kubeRateLimitWaitThreshold <=? waited then
    let! w := get in
    if span_IsRecording ctx w
    then span_AddEvent ctx "kube_client_ratelimited" [("wait_ms", Itoa (waited ÷ 10 ^ 6))] else ret ()
  else ret ().
End record.

(** ** The lines of finished spans *)
(** trace.ReadOnlySpan: attributes and events with their values as text. *)
Record ReadOnlySpan := MkReadOnlySpan {
  sp_Name : string; sp_TraceID : string; sp_SpanID : string;
  sp_Parent : option string;                          (**r the ID of a parent that has one *)
  sp_StartTime : Z; sp_EndTime : Z;                   (**r ns *)
  sp_Resource : list (string * string);
  sp_Attributes : list (string * string);
  sp_Events : list (string * list (string * string));
  sp_Status : otel_code; sp_StatusDescription : string;
}.
(** A key or a value of a structured line. *)
Inductive field := FStr (s : string) | FInt (z : Z).
Definition code_String (c : otel_code) : string :=
  match c with Unset => "Unset" | OtelError => "Error" | OtelOk => "Ok" end.
Definition attr_fields (l : list (string * string)) : list field := '(k, v) ← l; [FStr k; FStr v].
(** [azuredisk/trace.go spanKeysAndValues 252-264] *)
Definition event_text (e : string * list (string * string)) : string :=
  e.1 +:+ foldr (λ a t, " " +:+ a.1 +:+ "=" +:+ a.2 +:+ t) "" e.2.
(** [azuredisk/trace.go spanKeysAndValues] *)
Definition spanKeysAndValues (span : ReadOnlySpan) : list field :=
  [FStr "span"; FStr (sp_Name span); FStr "traceID"; FStr (sp_TraceID span); FStr "spanID"; FStr (sp_SpanID span)] ++
  match sp_Parent span with Some id => [FStr "parentSpanID"; FStr id] | None => [] end ++
  [FStr "durationMs"; FInt ((sp_EndTime span - sp_StartTime span) ÷ 10 ^ 6)] ++
  attr_fields (sp_Resource span) ++ attr_fields (sp_Attributes span) ++
  match sp_Events span with
  | [] => []
  | events => [FStr "events"; FStr (Join (event_text <$> events) "; ")]
  end ++
  match sp_Status span with
  | Unset => []
  | c => [FStr "status"; FStr (code_String c)] ++
         (if String.eqb (sp_StatusDescription span) "" then []
          else [FStr "statusMessage"; FStr (sp_StatusDescription span)])
  end.
(** [azuredisk/trace.go noisySpanNames] *)
Definition noisySpanNames : gset string := list_to_set [
  "csi.v1.Identity/Probe"; "csi.v1.Identity/GetPluginInfo"; "csi.v1.Identity/GetPluginCapabilities";
  "csi.v1.Node/NodeGetCapabilities"; "csi.v1.Node/NodeGetVolumeStats";
  "csi.v1.Controller/ControllerGetCapabilities"].
(** [azuredisk/trace.go ExportSpans] The lines, when their verbosity is enabled. *)
Fixpoint ExportSpans (enabled : bool) (spans : list ReadOnlySpan) : list (list field) :=
  if negb enabled then []
  else match spans with
       | [] => []
       | span :: spans =>
           if bool_decide (sp_Name span ∈ noisySpanNames) then ExportSpans enabled spans
           else spanKeysAndValues span :: ExportSpans enabled spans
       end.

(** ** What holds *)
Definition exporter_names (value : string) : list string := (λ e, ToLower (TrimSpace e)) <$> Split value ",".
Lemma in_cons (x e : string) l : bool_decide (x ∈ e :: l) = String.eqb e x || bool_decide (x ∈ l).
Proof.
  destruct (String.eqb_spec e x) as [->|Hne]; [by apply bool_decide_true; left|].
  apply bool_decide_ext. rewrite elem_of_cons. naive_solver.
Qed.
Lemma exporters_loop_spec names k o :
  exporters_loop names k o =
  let l := (λ e, ToLower (TrimSpace e)) <$> names in
  if bool_decide ("none" ∈ l) then (false, false)
  else (k || bool_decide ("klog" ∈ l), o || bool_decide ("otlp" ∈ l)).
Proof.
  revert k o. induction names as [|e names IH]; intros k o; cbn [exporters_loop fmap list_fmap]; cbv zeta.
  - by rewrite !orb_false_r.
  - cbv zeta in IH. rewrite !in_cons, !IH. set (t := ToLower (TrimSpace e)).
    destruct (String.eqb_spec t "klog") as [->|E1]; [by destruct k, o|].
    destruct (String.eqb_spec t "otlp") as [->|E2]; [by destruct k, o|].
    by destruct (String.eqb_spec t "none") as [->|E3].
Qed.
(** A list of exporters enables those it names, in any case and with any blanks, and
    "none" anywhere in it disables both; without a list spans go to the logs, and to a
    collector when an endpoint is configured. *)
Theorem parseTracesExporters_spec getenv value :
  parseTracesExporters getenv value =
  if String.eqb (TrimSpace value) ""
  then (true, negb (String.eqb (TrimSpace (getenv "OTEL_EXPORTER_OTLP_ENDPOINT")) "") ||
              negb (String.eqb (TrimSpace (getenv "OTEL_EXPORTER_OTLP_TRACES_ENDPOINT")) ""))
  else if bool_decide ("none" ∈ exporter_names value) then (false, false)
  else (bool_decide ("klog" ∈ exporter_names value), bool_decide ("otlp" ∈ exporter_names value)).
Proof. unfold parseTracesExporters. destruct (String.eqb _ _); [done|]. by rewrite exporters_loop_spec. Qed.

(** A line is a sequence of pairs whose keys are texts. *)
Inductive paired : list field → Prop :=
| paired_nil : paired []
| paired_cons k v l : paired l → paired (FStr k :: v :: l).
Lemma paired_app l m : paired l → paired m → paired (l ++ m).
Proof. induction 1; [done|]. intros. by constructor; auto. Qed.
Lemma paired_attrs l : paired (attr_fields l).
Proof. induction l as [|[k v] l IH]; [constructor|]. by constructor. Qed.
#[local] Hint Constructors paired : core.
#[local] Hint Resolve paired_app paired_attrs : core.
Theorem spanKeysAndValues_paired span : paired (spanKeysAndValues span).
Proof.
  unfold spanKeysAndValues. repeat apply paired_app; auto; repeat case_match; auto.
Qed.
(** The spans of health checks are not written, the others each on a line, in order. *)
Theorem ExportSpans_spec spans :
  ExportSpans true spans = spanKeysAndValues <$> filter (λ s, sp_Name s ∉ noisySpanNames) spans.
Proof.
  induction spans as [|s spans IH]; [done|]. cbn [ExportSpans negb]. rewrite filter_cons.
  case_bool_decide; [rewrite decide_False by tauto|rewrite decide_True by done]; by rewrite IH.
Qed.

(** The name of a disk is handed on to every span of its request: a span that is started
    under a context with a disk gets its name, unless the baggage refuses it. *)
Class OtelLaws (W T : Type) `{!Otel W T} := {
  baggage_set c k v c' : baggage_SetMember c k v = Some c' → baggage_Member c' k = v;
  start_keeps_baggage c name w c' w' k :
    tracer_Start c name w = (Ok c', w') → baggage_Member c' k = baggage_Member c k;
}.
Theorem correlation_handed_on {W T} `{!Otel W T} `{!OtelLaws W T} ctx diskName ctx' w w1 name attrs child w2 :
  diskName ≠ "" → withDiskCorrelation ctx diskName w = (Ok ctx', w1) →
  is_Some (baggage_SetMember ctx attrDiskName diskName) →
  startSpan ctx' name attrs w1 = (Ok child, w2) →
  ∃ wa wb, tracer_Start ctx' name w1 = (Ok child, wa) ∧
    span_SetAttributes child [(attrDiskName, diskName)] wa = (Ok (), wb).
Proof.
  intros Hne Hw [c Hc] Hs. unfold withDiskCorrelation in Hw. apply String.eqb_neq in Hne as Hb. rewrite Hb in Hw.
  apply bind_ok in Hw as ([] & w0 & _ & Hw). rewrite Hc in Hw. injection Hw as <- <-.
  unfold startSpan in Hs. apply bind_ok in Hs as (c1 & wa & Ht & Hs). cbv zeta in Hs.
  rewrite (start_keeps_baggage _ _ _ _ _ _ Ht), (baggage_set _ _ _ _ Hc), Hb in Hs. cbn [negb] in Hs.
  apply bind_ok in Hs as ([] & wb & Ha & Hs). apply bind_ok in Hs as ([] & wc & _ & Hs). injection Hs as <- <-.
  by exists wa, wb.
Qed.
