(* ===== verification/Metrics.v ===== *)
(** * Metrics: [pkg/metrics/metrics.go]

    What an operation records: the context that collects its labels, and the calls of
    the registry, which is the library's, as values in their order. *)
From stdpp Require Import gmap strings list.
From Stdlib Require Import ZArith Lia.
From S2P Require Import Prelude GoStrings GoErr.
Local Open Scope string_scope.
Local Open Scope Z_scope.
Local Open Scope list_scope.

Definition subSystem : string := "azuredisk_csi_driver".
Definition StorageAccountType : string := "storage_account_type".
Definition FsckOutcome : string := "fsck_outcome".
Definition FsType : string := "fs_type".

(** [metrics/metrics.go CSIMetricContext] The fields of the volume are texts; a nil map of
    labels is [None]. *)
Record CSIMetricContext := MkMetricContext {
  operation : string; volumeContext : list string; start : Z; labels : option (gmap string string); logLevel : Z;
}.
(** The metrics with the values of their labels; a duration is in ns. *)
Inductive observation :=
| OperationDuration (operation success : string) (duration : Z)
| OperationDurationWithLabels (operation success storageAccountType : string) (duration : Z)
| OperationsTotal (operation success : string)
| FormatAndMountOperationsTotal (operation success fsType fsckOutcome : string)
| LogLatency (level : Z) (fields : list string) (duration : Z).

(** [metrics/metrics.go NewCSIMetricContext] *)
Definition NewCSIMetricContext (now : Z) (operation : string) : CSIMetricContext :=
  MkMetricContext operation [] now (Some ∅) 3.
Definition add_fields (kv : list string) (mc : CSIMetricContext) : CSIMetricContext :=
  MkMetricContext (operation mc) (volumeContext mc ++ kv) (start mc) (labels mc) (logLevel mc).
(** [metrics/metrics.go WithBasicVolumeInfo] *)
Definition WithBasicVolumeInfo (resourceGroup subscriptionID source : string) (mc : CSIMetricContext)
    : CSIMetricContext :=
  let mc := if negb (String.eqb resourceGroup "") then add_fields ["resource_group"; ToLower resourceGroup] mc else mc in
  let mc := if negb (String.eqb subscriptionID "") then add_fields ["subscription_id"; subscriptionID] mc else mc in
  if negb (String.eqb source "") then add_fields ["source"; source] mc else mc.
(** [metrics/metrics.go WithAdditionalVolumeInfo] *)
Definition WithAdditionalVolumeInfo (keyValuePairs : list string) (mc : CSIMetricContext) : CSIMetricContext :=
  if negb (Nat.even (length keyValuePairs)) then mc else add_fields keyValuePairs mc.
(** [metrics/metrics.go WithLabel] *)
Definition WithLabel (key value : string) (mc : CSIMetricContext) : CSIMetricContext :=
  MkMetricContext (operation mc) (volumeContext mc) (start mc) (Some (<[key := value]> (default ∅ (labels mc))))
    (logLevel mc).
(** [metrics/metrics.go WithLogLevel] *)
Definition WithLogLevel (level : Z) (mc : CSIMetricContext) : CSIMetricContext :=
  MkMetricContext (operation mc) (volumeContext mc) (start mc) (labels mc) level.
(** [metrics/metrics.go Observe 150-153] *)
Definition successStr (success : bool) : string := if success then "true" else "false".
Definition label (mc : CSIMetricContext) (k : string) : string := default "" (default ∅ (labels mc) !! k).
(** [metrics/metrics.go Observe] [enabled] tells which levels are logged. *)
Definition Observe (now : Z) (enabled : Z → bool) (success : bool) (mc : CSIMetricContext) : list observation :=
  let duration := now - start mc in
  let s := successStr success in
  [OperationDuration (operation mc) s duration; OperationsTotal (operation mc) s] ++
  (if (0 <? size (default ∅ (labels mc)))%nat
   then [OperationDurationWithLabels (operation mc) s (label mc StorageAccountType) duration] else []) ++
  (if enabled (logLevel mc)
   then [LogLatency (logLevel mc)
           (["request"; subSystem +:+ "_" +:+ operation mc; "success"; s] ++ volumeContext mc) duration] else []).
(** [metrics/metrics.go ObserveWithLabels 180-182] The loop over the pairs. *)
Fixpoint with_labels (labelPairs : list string) (mc : CSIMetricContext) : CSIMetricContext :=
  match labelPairs with
  | k :: v :: labelPairs => with_labels labelPairs (WithLabel k v mc)
  | _ => mc
  end.
(** [metrics/metrics.go ObserveWithLabels] What is recorded, and the context it leaves. *)
Definition ObserveWithLabels (now : Z) (enabled : Z → bool) (success : bool) (labelPairs : list string)
    (mc : CSIMetricContext) : list observation * CSIMetricContext :=
  if negb (Nat.even (length labelPairs)) then (Observe now enabled success mc, mc)
  else let mc := with_labels labelPairs mc in (Observe now enabled success mc, mc).
(** [metrics/metrics.go ObserveFormatAndMountWithLabels] *)
Definition ObserveFormatAndMountWithLabels (success : bool) (labelPairs : list string) (mc : CSIMetricContext)
    : list observation * CSIMetricContext :=
  let mc := if Nat.even (length labelPairs) then with_labels labelPairs mc else mc in
  ([FormatAndMountOperationsTotal (operation mc) (successStr success) (label mc FsType) (label mc FsckOutcome)], mc).

(** ** What holds *)
Definition pairs_of (labelPairs : list string) : list (string * string) :=
  (fix go l := match l with k :: v :: l => (k, v) :: go l | _ => [] end) labelPairs.
(** The last value that is given for a label is the one that counts. *)
Lemma label_with_labels labelPairs mc k :
  label (with_labels labelPairs mc) k =
  default (label mc k) ((list_to_map (reverse (pairs_of labelPairs)) : gmap string string) !! k).
Proof.
  assert (Hgo : ∀ n l mc, (length l ≤ n)%nat →
    label (with_labels l mc) k = default (label mc k) ((list_to_map (reverse (pairs_of l)) : gmap string string) !! k)).
  { clear. induction n as [|n IH]; intros [|a [|b l]] mc Hl; try done; cbn in Hl; [lia|].
    cbn [with_labels]. rewrite IH by lia. change (pairs_of (a :: b :: l)) with ((a, b) :: pairs_of l).
    rewrite reverse_cons, list_to_map_app, lookup_union. destruct (list_to_map (reverse (pairs_of l)) !! k) as [v|].
    - by rewrite union_Some_l.
    - rewrite (left_id None union). unfold label, WithLabel. cbn. destruct (decide (a = k)) as [->|Hne].
      + by rewrite !lookup_insert_eq.
      + by rewrite !lookup_insert_ne. }
  by apply (Hgo (length labelPairs)).
Qed.
(** An operation counts once, under its name and its outcome, and its duration is
    recorded once, whatever labels are given. *)
Theorem operation_counted_once now enabled success labelPairs mc :
  let '(l, mc') := ObserveWithLabels now enabled success labelPairs mc in
  operation mc' = operation mc ∧
  List.filter (λ o, match o with OperationsTotal _ _ => true | _ => false end) l
    = [OperationsTotal (operation mc) (successStr success)] ∧
  List.filter (λ o, match o with OperationDuration _ _ _ => true | _ => false end) l
    = [OperationDuration (operation mc) (successStr success) (now - start mc)] ∧
  List.filter (λ o, match o with FormatAndMountOperationsTotal _ _ _ _ => true | _ => false end) l = [].
Proof.
  assert (Hop : ∀ n l m, (length l ≤ n)%nat → operation (with_labels l m) = operation m ∧ start (with_labels l m) = start m).
  { induction n as [|n IH]; intros [|a [|b l]] m Hl; try done; cbn in Hl; [lia|]. cbn [with_labels].
    rewrite (proj1 (IH l _ ltac:(lia))), (proj2 (IH l _ ltac:(lia))). done. }
  unfold ObserveWithLabels. destruct (negb _).
  - split; [done|]. unfold Observe. by repeat case_match.
  - destruct (Hop (length labelPairs) labelPairs mc ltac:(lia)) as [E1 E2]. split; [done|].
    unfold Observe. rewrite E1, E2. by repeat case_match.
Qed.
(** An operation with a storage account type is recorded under it as well; a list of
    labels of odd length is dropped. *)
Theorem labelled_duration now enabled success account mc :
  let '(l, _) := ObserveWithLabels now enabled success [StorageAccountType; account] mc in
  OperationDurationWithLabels (operation mc) (successStr success) account (now - start mc) ∈ l.
Proof.
  unfold ObserveWithLabels, Observe. cbn [length Nat.even negb with_labels].
  assert (size (default ∅ (labels (WithLabel StorageAccountType account mc))) ≠ 0)%nat as Hs.
  { cbn. rewrite map_size_ne_0_lookup. exists StorageAccountType. rewrite lookup_insert_eq. by eexists. }
  destruct (Nat.ltb_spec 0 (size (default ∅ (labels (WithLabel StorageAccountType account mc))))); [|lia].
  unfold label at 1. cbn. rewrite lookup_insert_eq. cbn. right. right. left.
Qed.
