(* ===== verification/DemoNode.v ===== *)
(** * A concrete node

    Instances of the interfaces of the node server on the cloud of [DemoCloud]: a
    node with an empty disk at LUN 2, the volume of [DemoDriver] that nodes
    attach themselves, and requests, on which the witnesses evaluate. *)
From stdpp Require Import gmap strings list.
From Stdlib Require Import ZArith QArith Lia.
From S2P Require Import Prelude GoStrings GoErr Consts Util AzureTypes Optimization DiskUtils Cloud DemoCloud CloudProvider Kube ControllerCommon AttachProofs ManagedDisk DriverState DemoDriver Driver Host Device Wireserver NodeVolume Node.
Local Open Scope string_scope.
Local Open Scope Z_scope.
Local Open Scope list_scope.

Definition demo_dir : string := "/sys/bus/scsi/devices/5:0:0:2".
(** The disk has no filesystem, which blkid, fsck and wipefs agree on. *)
Definition demo_node_files (mounts records : list (string * string)) (resize : option gerr) : DemoHost := {|
  dh_dirs := [("/sys/bus/scsi/devices", ["3:0:0:0"; "host5"; "5:0:0:2"]); (demo_dir +:+ "/block", ["sdc"]);
              ("/sys/class/scsi_host/", ["host5"]); ("/dev/disk/azure/scsi1/", ["lun2"]);
              (kataVolumeRoot, fst <$> records)];
  dh_links := [("/dev/disk/azure/scsi1/lun2", "../../../sdc")];
  dh_files := [(demo_dir +:+ "/vendor", "Msft"); (demo_dir +:+ "/model", "Virtual Disk")];
  dh_commands := [("fsck", ("fsck: Superblock could not be read or does not describe a valid ext2/ext3/ext4 filesystem",
                            Some (EExit 8 "exit status 8")));
                  ("findmnt", ("/dev/sdc", None)); ("blockdev", ("10737418240", None))];
  dh_mounts := mounts;
  dh_format := "";
  dh_records := records;
  dh_resize := resize;
|}.
#[export] Instance demo_device_io : DeviceIO Demo := {|
  EvalSymlinks p := ret p;
  echoToFile v p := modify (log ("echo " +:+ p));
  getwd := "/";
|}.
(** The wireserver attaches at LUN 2 at once and forgets a disk that is detached. *)
#[export] Instance demo_wire : Wire Demo := {|
  wire_Post r := λ w, (Ok (MkHttpResponse 200 "" (Ok (Join (op_Action ∘ snd <$> map_to_list (DiskOps r)) ""))), w);
  wire_Get := ret (MkHttpResponse 200 "" (Ok ""));
  unmarshal_statuses b := Ok (if String.eqb b "Attach"
    then {[ demo_uri := Some (MkDiskStatus AttachmentStatusAttached "" 2 None) ]} else ∅);
  unmarshal_qad_error _ := Err (ENew "no JSON");
|}.
(** Its pods run in Kata sandboxes. *)
#[export] Instance demo_kube_node : KubeNode Demo := {|
  pod_Get _ _ := ret (MkPod "uid" (Some "kata") (Some (Some 1000, None)));
  runtimeClass_Get _ := ret {[ kataAnnotationKey := kataAnnotationValue ]};
  node_Annotations _ := ret {[ kataAnnotationKey := kataAnnotationValue ]};
|}.
#[export] Instance demo_node_cloud : NodeCloud Demo := {|
  cloud_GetZone := ret "eastus-1";
  cloud_Instances := true;
  instances_InstanceType _ := ret "Standard_D2s_v3";
  GetMetadata := ret None;
|}.
Definition demo_node (kata : bool) : NodeConfig :=
  MkNodeConfig true None true false true false false kata (-1) 1 true.
Definition demo_block : VolumeCapability := MkVolumeCapability (Some ABlock) (Some SINGLE_NODE_WRITER).
Definition demo_single : VolumeCapability :=
  MkVolumeCapability (Some (AMount (MkMountVolume "xfs" []))) (Some SINGLE_NODE_SINGLE_WRITER).
Definition demo_lun : gmap string string := {[ consts.LUN := "2" ]}.
(** The volume of "d2", which the controller attaches at LUN 2; that of "d1", which
    the node attaches. *)
Definition demo_stage (cap : VolumeCapability) : NodeStageVolumeRequest :=
  MkNodeStageVolumeRequest demo_uri2 "/stage" (Some cap) {[ consts.ResizeRequired := "true" ]} demo_lun.
Definition demo_stage_qad (cap : VolumeCapability) : NodeStageVolumeRequest :=
  MkNodeStageVolumeRequest demo_uri "/stage" (Some cap) ∅ ∅.
Definition demo_publish (cap : VolumeCapability) : NodePublishVolumeRequest :=
  MkNodePublishVolumeRequest demo_uri2 "/stage" "/target" (Some cap) false
    {[ podNameField := "p"; podNamespaceField := "ns"; podUIDField := "uid" ]} demo_lun.
Definition demo_expand : NodeExpandVolumeRequest :=
  MkNodeExpandVolumeRequest demo_uri2 "/target" (10 * GiB) (Some demo_single).
