(* ===== verification/NodeFrame.v ===== *)
(** * What the operations of the node leave alone

    The calls of the node server, and the lemmas that its operations are made of
    them ([Frame]).  [node_safe_call] leaves out the commands that create a
    filesystem and the change of its size, so that a theorem can say that none was
    run. *)
From stdpp Require Import gmap strings list.
From Stdlib Require Import ZArith QArith Lia.
From S2P Require Import Prelude GoStrings GoErr Consts Util AzureTypes Optimization DiskUtils Cloud CloudProvider Kube ControllerCommon Moments AttachProofs ManagedDisk DriverState Driver Frame Host Device Wireserver NodeVolume Node.
Local Open Scope string_scope.
Local Open Scope Z_scope.
Local Open Scope list_scope.

(** ** The calls *)
Inductive clock_call {W} `{!Cloud W} : ∀ A, M W A → Prop :=
  | clock_Now : clock_call _ Now
  | clock_ctx_Wait c t : clock_call _ (ctx_Wait c t).
Inductive device_call {W} `{!DeviceIO W} `{MapOrder} : ∀ A, M W A → Prop :=
  | call_EvalSymlinks p : device_call _ (EvalSymlinks p)
  | call_Optimize skus root ni p a b c e g m :
      device_call _ (OptimizeDiskPerformance skus root ni p a b c e g m).
Inductive labels_call {W} `{!Kube W} : ∀ A, M W A → Prop :=
  | call_labels n k : labels_call _ (GetNodeInfoFromLabels n k).

Section calls.
  Context {W : Type} `{!Cloud W} `{!Kube W} `{!DiskRP W} `{!KubeNode W} `{!NodeCloud W} `{!Wire W}
          `{!Host W} `{!DeviceIO W} `{MapOrder}.
Definition node_safe_call (A : Type) (m : M W A) : Prop :=
  clock_call A m ∨ kube_call A m ∨ rp_call A m ∨ node_kube_call A m ∨ node_cloud_call A m ∨ wire_call A m ∨
  safe_host_call A m ∨ device_call A m ∨ labels_call A m.
Inductive mkfs_call : ∀ A, M W A → Prop :=
  | call_mkfs t args : mkfs_call _ (exec_CombinedOutput ("mkfs." +:+ t) args).
Inductive resize_call : ∀ A, M W A → Prop :=
  | call_Resize a b : resize_call _ (resize_Resize a b).
Definition node_call (A : Type) (m : M W A) : Prop :=
  node_safe_call A m ∨ mkfs_call A m ∨ resize_call A m.
End calls.
#[export] Hint Constructors clock_call device_call labels_call safe_host_call wire_call node_kube_call node_cloud_call
  mkfs_call resize_call : moves_db.
#[export] Hint Extern 1 (is_mkfs _ = false) => reflexivity : moves_db.

(** ** The operations *)
Section frame.
  Context {W : Type} `{!Cloud W} `{!Kube W} `{!DiskRP W} `{!KubeNode W} `{!NodeCloud W} `{!Wire W}
          `{!Host W} `{!DeviceIO W} `{MapOrder}.
  Context (d : DriverConfig) (n : NodeConfig) (isKataNode : bool)
          (DiskSkuMap : gmap string (gmap string DiskSkuInfo))
          (others : point → CState W → CState W).
  Context (calls : ∀ A, M W A → Prop).
  Context (P : DState W → Prop) (HP : frame calls others P).
  Context (Hsafe : ∀ A (m : M W A), node_safe_call A m → calls A m).

Lemma safe_clock A (m : M W A) : clock_call A m → calls A m.
Proof. intros. apply Hsafe. by left. Qed.
Lemma safe_kube A (m : M W A) : kube_call A m → calls A m.
Proof. intros. apply Hsafe. by right; left. Qed.
Lemma safe_rp A (m : M W A) : rp_call A m → calls A m.
Proof. intros. apply Hsafe. by do 2 right; left. Qed.
Lemma safe_node_kube A (m : M W A) : node_kube_call A m → calls A m.
Proof. intros. apply Hsafe. by do 3 right; left. Qed.
Lemma safe_node_cloud A (m : M W A) : node_cloud_call A m → calls A m.
Proof. intros. apply Hsafe. by do 4 right; left. Qed.
Lemma safe_wire A (m : M W A) : wire_call A m → calls A m.
Proof. intros. apply Hsafe. by do 5 right; left. Qed.
Lemma safe_host A (m : M W A) : safe_host_call A m → calls A m.
Proof. intros. apply Hsafe. by do 6 right; left. Qed.
Lemma safe_device A (m : M W A) : device_call A m → calls A m.
Proof. intros. apply Hsafe. by do 7 right; left. Qed.
Lemma safe_labels A (m : M W A) : labels_call A m → calls A m.
Proof. intros. apply Hsafe. by do 8 right. Qed.
  Local Hint Resolve safe_clock safe_kube safe_rp safe_node_kube safe_node_cloud safe_wire safe_host safe_device
    safe_labels : moves_db.
  Local Hint Extern 4 (calls _ _) => progress cbn [String.append] : moves_db.

Lemma frame_for_each {A} (l : list A) (f : A → M (DState W) unit) :
  (∀ a, keeps P (f a)) → keeps P (for_each l f).
Proof. intros Hf. induction l; cbn; [apply keeps_ret|]. by apply keeps_bind. Qed.
Lemma frame_with_fd {A} fd (m : M (DState W) A) : keeps P m → keeps P (with_fd others fd m).
Proof.
  intros Hm s Hs. unfold with_fd. specialize (Hm s Hs). destruct (m s) as [r s1]. simpl in *.
  apply (frame_svc calls others P HP); auto with moves_db.
Qed.
Ltac node_auto := cbv zeta; repeat (frame_step HP || (apply frame_for_each; intros ?) || apply frame_with_fd);
  eauto with frame_db moves_db.

(** *** Devices *)
Lemma frame_azure_links p l : keeps P (azure_links others p l).
Proof. induction l; cbn [azure_links]; node_auto. Qed.
  Local Hint Resolve frame_azure_links : frame_db.
Lemma frame_listAzureDiskPath : keeps P (listAzureDiskPath others).
Proof. unfold listAzureDiskPath. induction (_ :: _); cbn [listAzureDiskPath_in]; node_auto. Qed.
Lemma frame_link_to p q l : keeps P (link_to others p q l).
Proof. induction l; cbn [link_to]; node_auto. Qed.
  Local Hint Resolve frame_link_to : frame_db.
Lemma frame_getDiskLink p q : keeps P (getDiskLinkByDevName others p q).
Proof. unfold getDiskLinkByDevName. node_auto. Qed.
  Local Hint Resolve frame_getDiskLink : frame_db.
Lemma frame_device_link l q : keeps P (device_link others l q).
Proof. induction l; cbn [device_link]; node_auto. Qed.
  Local Hint Resolve frame_device_link : frame_db.
Lemma frame_scsi_entry l a s : keeps P (scsi_entry others l a s).
Proof. unfold scsi_entry, file_says. node_auto. Qed.
  Local Hint Resolve frame_scsi_entry : frame_db.
Lemma frame_scsi_entries l a s : keeps P (scsi_entries others l a s).
Proof. induction s; cbn [scsi_entries]; node_auto. Qed.
  Local Hint Resolve frame_scsi_entries : frame_db.
Lemma frame_constraint l a : keeps P (findDiskByLunWithConstraint others l a).
Proof. unfold findDiskByLunWithConstraint. node_auto. Qed.
Lemma frame_first_link l : keeps P (first_link others l).
Proof. induction l; cbn [first_link]; node_auto. Qed.
  Local Hint Resolve frame_constraint frame_first_link frame_listAzureDiskPath : frame_db.
Lemma frame_findDiskByLun l : keeps P (findDiskByLun others l).
Proof. unfold findDiskByLun. node_auto. Qed.
Lemma frame_scsiHostRescan : keeps P (scsiHostRescan others).
Proof. unfold scsiHostRescan. node_auto. Qed.
  Local Hint Resolve frame_findDiskByLun frame_scsiHostRescan : frame_db.
Lemma frame_poll_device k c l : keeps P (poll_device others k c l).
Proof. induction k; cbn [poll_device]; node_auto. Qed.
  Local Hint Resolve frame_poll_device : frame_db.
Lemma frame_getDevicePath l : keeps P (getDevicePathWithLUN others l).
Proof. unfold getDevicePathWithLUN. node_auto. Qed.

(** *** Filesystems *)
Lemma frame_mountWithMetrics a b c o : keeps P (mountWithMetrics others a b c o).
Proof. unfold mountWithMetrics. node_auto. Qed.
Lemma frame_fsck s o : keeps P (detectOrRepairFilesystem others s o).
Proof. unfold detectOrRepairFilesystem. node_auto. Qed.
  Local Hint Resolve frame_mountWithMetrics frame_fsck : frame_db.
Lemma frame_detect s : keeps P (detectFilesystemExistence others s).
Proof. unfold detectFilesystemExistence. node_auto. Qed.
Lemma frame_repair s o : keeps P (repairFilesystem others s o).
Proof. unfold repairFilesystem. node_auto. Qed.
  Local Hint Resolve frame_detect frame_repair : frame_db.
Lemma frame_probe s r : keeps P (probe_format others s r).
Proof. unfold probe_format. node_auto. Qed.
Lemma frame_mount_formatted a b c o r k f : keeps P (mount_formatted others a b c o r k f).
Proof. unfold mount_formatted. node_auto. Qed.
Lemma frame_block_size p : keeps P (getBlockSizeBytes others p).
Proof. unfold getBlockSizeBytes. node_auto. Qed.
Lemma frame_mount_path p : keeps P (getDevicePathWithMountPath others p).
Proof. unfold getDevicePathWithMountPath. node_auto. Qed.
Lemma frame_rescan p : keeps P (rescanVolume others p).
Proof. unfold rescanVolume. node_auto. Qed.
  Local Hint Resolve frame_block_size frame_mount_path frame_rescan : frame_db.
Lemma frame_rescanAll : keeps P (rescanAllVolumes others).
Proof. unfold rescanAllVolumes. node_auto. Qed.
Lemma frame_stats t : keeps P (GetVolumeStats others t).
Proof. unfold GetVolumeStats. node_auto. Qed.
Lemma frame_flush p : keeps P (flushAndInvalidateBlockDevice others p).
Proof. unfold flushAndInvalidateBlockDevice. node_auto. Qed.
Lemma frame_shutdown p : keeps P (shutdownFilesystem others p).
Proof. unfold shutdownFilesystem. node_auto. Qed.
Lemma frame_backing p : keeps P (backing_device others p).
Proof. unfold backing_device. node_auto. Qed.
Lemma frame_cleanup p b : keeps P (CleanupMountPoint others p b).
Proof. unfold CleanupMountPoint. node_auto. Qed.
  Local Hint Resolve frame_rescanAll frame_stats frame_flush frame_shutdown frame_backing frame_cleanup : frame_db.
Lemma frame_unmount p b : keeps P (unmountAndInvalidateDevice others p b).
Proof. unfold unmountAndInvalidateDevice. node_auto. Qed.

(** *** Mount points *)
Lemma frame_MakeDir p : keeps P (MakeDir others p).
Proof. unfold MakeDir. node_auto. Qed.
Lemma frame_MakeFile p : keeps P (MakeFile others p).
Proof. unfold MakeFile. node_auto. Qed.
Lemma frame_not_mounted p : keeps P (not_mounted others p).
Proof. unfold not_mounted, IsCorruptedDir. node_auto. Qed.
Lemma frame_mount_readable p : keeps P (mount_readable others p).
Proof. unfold mount_readable. node_auto. Qed.
  Local Hint Resolve frame_MakeDir frame_MakeFile frame_not_mounted frame_mount_readable : frame_db.
Lemma frame_ensureMountPoint p : keeps P (ensureMountPoint others p).
Proof. unfold ensureMountPoint. node_auto. Qed.
  Local Hint Resolve frame_ensureMountPoint : frame_db.
Lemma frame_ensureBlockTarget p : keeps P (ensureBlockTargetFile others p).
Proof. unfold ensureBlockTargetFile. node_auto. Qed.
Lemma frame_validate p g : keeps P (validateBlockDeviceSize others p g).
Proof. unfold validateBlockDeviceSize. node_auto. Qed.

(** *** Kata *)
Lemma frame_find_record v l : keeps P (find_record others v l).
Proof. induction l; cbn [find_record]; node_auto. Qed.
  Local Hint Resolve frame_find_record : frame_db.
Lemma frame_byID v : keeps P (IsVolumeMountedByID others v).
Proof. unfold IsVolumeMountedByID, FindMountInfo, kataFindMountInfo. node_auto. Qed.
Lemma frame_published v t : keeps P (kataPublished others v t).
Proof. unfold kataPublished, FindMountInfo, kataFindMountInfo, kataIsMountPoint. node_auto. Qed.
  Local Hint Resolve frame_getDevicePath : frame_db.
Lemma frame_restore a b c e : keeps P (kataRestoreStaging others a b c e).
Proof. unfold kataRestoreStaging, kataIsMountPoint. node_auto. Qed.
Lemma frame_mount_pod v : keeps P (kataGetMountPod d others v).
Proof. unfold kataGetMountPod. node_auto. Qed.

(** *** The wireserver *)
Lemma frame_exchange m : calls _ m → keeps P (wire_exchange others m).
Proof. intros. unfold wire_exchange. node_auto. Qed.
Lemma frame_statuses b : keeps P (wire_statuses b).
Proof. unfold wire_statuses. node_auto. Qed.
  Local Hint Resolve frame_exchange frame_statuses : frame_db.
Lemma frame_execute b r o : keeps P (executeQADDiskOperation b others r o).
Proof. unfold executeQADDiskOperation, attachOrDetachDiskInternal. node_auto. Qed.
Lemma frame_getDiskState u : keeps P (getDiskState others u).
Proof. unfold getDiskState. node_auto. Qed.
Lemma frame_attempt b pv : keeps P (attempt_increment others b pv).
Proof. unfold attempt_increment. node_auto. Qed.
  Local Hint Resolve frame_attempt : frame_db.
Lemma frame_increment pv : keeps P (incrementAttachSequenceAnnotation others pv).
Proof.
  unfold incrementAttachSequenceAnnotation. generalize 5%nat (ESentinel WaitTimeout) false pv.
  intros k. induction k; intros; cbn [increment_attempts]; node_auto.
Qed.
End frame.

#[export] Hint Resolve frame_for_each frame_with_fd frame_findDiskByLun frame_scsiHostRescan frame_poll_device frame_getDevicePath
  frame_mountWithMetrics frame_fsck frame_detect frame_repair frame_probe frame_mount_formatted frame_block_size
  frame_mount_path frame_rescan frame_rescanAll frame_stats frame_flush frame_shutdown frame_backing frame_cleanup frame_unmount frame_MakeDir
  frame_MakeFile frame_not_mounted frame_mount_readable frame_ensureMountPoint frame_ensureBlockTarget frame_validate
  frame_byID frame_published frame_restore frame_mount_pod frame_execute frame_getDiskState frame_attempt frame_increment : frame_db.

(** [frame_auto] with the rules of the node. *)
Ltac node_auto HP :=
  cbv zeta; repeat (frame_step HP || (apply frame_for_each; intros ?) || (eapply frame_with_fd; [exact HP|..]));
  eauto with frame_db moves_db.

(** ** The requests *)
Section requests.
  Context {W : Type} `{!Cloud W} `{!Kube W} `{!DiskRP W} `{!KubeNode W} `{!NodeCloud W} `{!Wire W}
          `{!Host W} `{!DeviceIO W} `{MapOrder}.
  Context (d : DriverConfig) (n : NodeConfig) (isKataNode : bool)
          (DiskSkuMap : gmap string (gmap string DiskSkuInfo))
          (others : point → CState W → CState W).
  Context (P : DState W → Prop) (HP : frame node_call others P).

Lemma node_safe A (m : M W A) : node_safe_call A m → node_call A m.
Proof. by left. Qed.
Lemma node_kube A (m : M W A) : kube_call A m → node_call A m.
Proof. intros. left. by right; left. Qed.
Lemma node_clock A (m : M W A) : clock_call A m → node_call A m.
Proof. intros. left. by left. Qed.
Lemma node_host A (m : M W A) : safe_host_call A m → node_call A m.
Proof. intros. left. by do 6 right; left. Qed.
Lemma node_device A (m : M W A) : device_call A m → node_call A m.
Proof. intros. left. by do 7 right; left. Qed.
Lemma node_cloud A (m : M W A) : node_cloud_call A m → node_call A m.
Proof. intros. left. by do 4 right; left. Qed.
Lemma node_labels_ A (m : M W A) : labels_call A m → node_call A m.
Proof. intros. left. by do 8 right. Qed.
Lemma node_mkfs A (m : M W A) : mkfs_call A m → node_call A m.
Proof. by right; left. Qed.
Lemma node_resize A (m : M W A) : resize_call A m → node_call A m.
Proof. by right; right. Qed.
  Local Hint Resolve node_safe node_kube node_clock node_host node_device node_cloud node_labels_ node_mkfs
    node_resize : moves_db.

Lemma frame_pv u : keeps P (getPVFromDiskURI d others u).
Proof.
  unfold getPVFromDiskURI. assert (Hc : ∀ l, keeps P (pv_candidates d others u l)).
  { induction l as [|o l IH]; cbn [pv_candidates]; node_auto HP. }
  node_auto HP.
Qed.
Lemma frame_resize a b : keeps P (resizeVolume others a b).
Proof. unfold resizeVolume. node_auto HP. Qed.
Lemma frame_format_disk b s t : keeps P (format_disk others b s t).
Proof. unfold format_disk, mkfsWithConcurrencyLimit. node_auto HP. Qed.
  Local Hint Resolve frame_pv frame_resize frame_format_disk : frame_db.
Lemma frame_formatAndMount b s t f o : keeps P (formatAndMount others b s t f o).
Proof. unfold formatAndMount. node_auto HP. Qed.
Lemma frame_poll_value {A} k c i (m : M (DState W) (option A)) :
  keeps P m → keeps P (poll_value others k c i m).
Proof. intros Hm. induction k; cbn [poll_value]; node_auto HP. Qed.
Lemma frame_poll k c t (m : M (DState W) bool) :
  keeps P m → keeps P (PollUntilContextTimeout (λ i, svc others (ctx_Wait c i)) k t m).
Proof. intros Hm. apply keeps_poll; [|done]. intros i. node_auto HP. Qed.
Lemma frame_attached_lun u : keeps P (attached_lun others u).
Proof. unfold attached_lun. node_auto HP. Qed.
Lemma frame_is_detached u : keeps P (is_detached others u).
Proof. unfold is_detached. node_auto HP. Qed.
  Local Hint Resolve frame_formatAndMount frame_poll_value frame_poll frame_attached_lun frame_is_detached : frame_db.
Lemma frame_qad_attach c u pv : keeps P (qad_attach d n others c u pv).
Proof. unfold qad_attach. node_auto HP. Qed.
Lemma frame_qad_detach c u pv : keeps P (qad_detach d n others c u pv).
Proof. unfold qad_detach. node_auto HP. Qed.
  Local Hint Resolve frame_qad_attach frame_qad_detach : frame_db.
Lemma frame_stage_lun c r : keeps P (stage_lun d n others c r).
Proof. unfold stage_lun. node_auto HP. Qed.
Lemma frame_tune s v c : keeps P (tune_device d n DiskSkuMap others s v c).
Proof. unfold tune_device. node_auto HP. Qed.
Lemma frame_grow s t v x c : keeps P (grow_filesystem others s t v x c).
Proof. unfold grow_filesystem, needResizeVolume. node_auto HP. Qed.
  Local Hint Resolve frame_stage_lun frame_tune frame_grow : frame_db.
Lemma frame_stage_filesystem r s l f o c : keeps P (stage_filesystem n others r s l f o c).
Proof. unfold stage_filesystem. node_auto HP. Qed.
  Local Hint Resolve frame_stage_filesystem : frame_db.
Lemma frame_stage_device r k f o l c : keeps P (stage_device d n DiskSkuMap others r k f o l c).
Proof. unfold stage_device. node_auto HP. Qed.
Lemma frame_kata_staged u k : keeps P (kata_staged n isKataNode others u k).
Proof. unfold kata_staged. node_auto HP. Qed.
Lemma frame_unstage_pv u : keeps P (unstage_pv d others u).
Proof. unfold unstage_pv. node_auto HP. Qed.
Lemma frame_publish_kata r k p : keeps P (publish_kata others r k p).
Proof. unfold publish_kata. node_auto HP. Qed.
Lemma frame_publish_mount r k : keeps P (publish_mount n isKataNode others r k).
Proof. unfold publish_mount. node_auto HP. Qed.
Lemma frame_expand u p g : keeps P (expand_filesystem d others u p g).
Proof. unfold expand_filesystem. node_auto HP. Qed.
Lemma frame_refuse_kata u : keeps P (refuse_kata n isKataNode others u).
Proof. unfold refuse_kata. node_auto HP. Qed.
Lemma frame_expands_block r : keeps P (expands_block others r).
Proof. unfold expands_block. node_auto HP. Qed.
End requests.

#[export] Hint Resolve node_safe node_kube node_clock node_host node_device node_cloud node_labels_ node_mkfs
  node_resize : moves_db.
#[export] Hint Resolve frame_pv frame_resize frame_format_disk frame_formatAndMount frame_poll_value frame_poll
  frame_attached_lun frame_is_detached frame_qad_attach frame_qad_detach frame_stage_lun frame_tune frame_grow
  frame_stage_filesystem frame_stage_device frame_kata_staged frame_unstage_pv frame_publish_kata
  frame_publish_mount frame_expand frame_refuse_kata frame_expands_block : frame_db.
