(* ===== verification/NodeProofs.v ===== *)
(** * Guarantees of the node server

    A disk that may hold data is not formatted; the device of a LUN is a data
    disk; what a reported success of each request means; errors after an
    attachment are retryable; sequence numbers grow; locks are given back. *)
From stdpp Require Import gmap strings list.
From Stdlib Require Import ZArith QArith Lia.
From S2P Require Import Prelude GoStrings GoErr Consts Util AzureTypes Optimization DiskUtils Cloud DemoCloud CloudProvider Kube ControllerCommon Moments AttachProofs ManagedDisk DriverState DemoDriver Driver Frame Host Device Wireserver NodeVolume Node DemoNode NodeFrame.
Local Open Scope string_scope.
Local Open Scope Z_scope.
Local Open Scope list_scope.

Section proofs.
  Context {W : Type} `{!Cloud W} `{!Kube W} `{!DiskRP W} `{!KubeNode W} `{!NodeCloud W} `{!Wire W}
          `{!Host W} `{!DeviceIO W} `{MapOrder}.
  Context (d : DriverConfig) (n : NodeConfig) (isKataNode : bool)
          (DiskSkuMap : gmap string (gmap string DiskSkuInfo))
          (others : point → CState W → CState W).
  Local Notation svc := (svc others).
  Local Notation ext := (ext others).
  (** A step that neither formats a disk nor resizes a filesystem. *)
  Local Notation safely := (later node_safe_call others).
  Local Notation saferun := (runs node_safe_call others).
  Local Notation later := (later node_call others).
  Local Notation runs := (runs node_call others).

Lemma safe_id A (m : M W A) : node_safe_call A m → node_safe_call A m.
Proof. done. Qed.
Lemma safe_call A (m : M W A) : node_safe_call A m → node_call A m.
Proof. by left. Qed.
Lemma safely_later s s' : safely s s' → later s s'.
Proof. apply later_calls, safe_call. Qed.

Lemma frame_safely {A} (m : M (DState W) A) s r s' :
  (∀ P, frame node_safe_call others P → keeps P m) → m s = (r, s') → safely (ctrl s) (ctrl s').
Proof. intros Hm. by apply dmoves_later, dmoves_of. Qed.
Lemma svc_safely {A} (m : M W A) s r s' : safe_host_call A m → svc m s = (r, s') → safely (ctrl s) (ctrl s').
Proof. intros Hm. apply frame_safely. intros P HP. apply (frame_svc _ _ _ HP). by eapply safe_host, Hm. Qed.
Lemma svc_run {A} (m : M W A) s r s' : svc m s = (r, s') → saferun (ext m) r (ctrl s) (ctrl s').
Proof. apply ctl_runs. Qed.
(** A sequence whose first part takes only safe steps: it goes on, or stops there. *)
Lemma bind_safely {A B} (m : M (DState W) A) (f : A → M (DState W) B) s r s' :
  (∀ P, frame node_safe_call others P → keeps P m) → bind m f s = (r, s') →
  (∃ a s1, m s = (Ok a, s1) ∧ safely (ctrl s) (ctrl s1) ∧ f a s1 = (r, s')) ∨
  (safely (ctrl s) (ctrl s') ∧ ∀ b, r ≠ Ok b).
Proof.
  intros Hm [(a & s1 & H1 & Hx)|[(e & H1 & ->)|[H1 ->]]]%bind_inv; [left; exists a, s1; split_and!|right; split..]; try done;
    by eapply frame_safely.
Qed.
(** A run in the middle of a computation. *)
Lemma run_between {A} (m : M (CState W) A) r s0 s s' s1 :
  safely s0 s → safely s' s1 → saferun m r s s' → saferun m r s0 s1.
Proof. apply runs_mono. Qed.

(** ** Formatting *)
Lemma mount_ok a b c o s s' :
  mountWithMetrics others a b c o s = (Ok (), s') → svc (mount_Mount a b c o) s = (Ok (), s').
Proof. unfold mountWithMetrics. intros ([e|[]] & s1 & H1%try_ok & H2)%bind_ok; [done|]. by injection H2 as <-. Qed.

Lemma fsck_no_filesystem source opts out e :
  fst (fsck_outcome source opts out e) = false → ∃ e', fsck_outcome source opts out e = (false, Some e').
Proof. unfold fsck_outcome. cbv zeta. repeat case_match; simpl; intros; simplify_eq; eauto. Qed.

(** fsck could not read a superblock, whichever way it says so. *)
Definition superblock_missing (source out : string) (e : gerr) : Prop :=
  ∃ e', fsck_outcome source ["-n"] out e = (false, Some e') ∧
        Contains (ToLower (Error e')) superblock_unreadable = true.

Lemma detect_none source s s' :
  detectFilesystemExistence others source s = (Ok false, s') →
  (∃ out e, saferun (ext (exec_CombinedOutput "fsck" ["-n"; source])) (Ok (out, Some e)) (ctrl s) (ctrl s') ∧
            superblock_missing source out e) ∧
  (∃ out, saferun (ext (exec_CombinedOutput "wipefs" ["--no-act"; "--output"; "TYPE"; "--noheadings"; source]))
            (Ok (out, None)) (ctrl s) (ctrl s') ∧ blank out = true).
Proof.
  unfold detectFilesystemExistence, detectOrRepairFilesystem.
  intros ([b err] & s1 & ([out e] & s0 & H1 & H2)%bind_ok & Hx)%bind_ok. injection H2 as He <-.
  apply bind_ok in Hx as (u & s2 & Hg & Hx).
  destruct b; [done|]. destruct e as [e|]; [|done].
  destruct (fsck_no_filesystem source ["-n"] out e) as [e' Ee]; [by rewrite He|].
  rewrite Ee in He. injection He as <-. apply guard_ok in Hg as [Hc ->].
  apply bind_ok in Hx as ([out2 err2] & s3 & H3 & Hx). destruct err2; [done|]. injection Hx as Hb <-.
  assert (L1 : safely (ctrl s) (ctrl s0)) by (eapply svc_safely; [|exact H1]; auto with moves_db).
  assert (L3 : safely (ctrl s0) (ctrl s3)) by (eapply svc_safely; [|exact H3]; auto with moves_db).
  apply svc_run in H1, H3. split.
  - exists out, e. split; [|by exists e']. by eapply run_between; [reflexivity|exact L3|].
  - exists out2. split; [|by apply negb_false_iff]. by eapply run_between; [exact L1|reflexivity|].
Qed.

Lemma probe_none source readOnly s s' :
  probe_format others source readOnly s = (Ok None, s') →
  readOnly = false ∧
  saferun (ext (mount_GetDiskFormat source)) (Ok "") (ctrl s) (ctrl s') ∧
  (∃ out e, saferun (ext (exec_CombinedOutput "fsck" ["-n"; source])) (Ok (out, Some e)) (ctrl s) (ctrl s') ∧
            superblock_missing source out e) ∧
  (∃ out, saferun (ext (exec_CombinedOutput "wipefs" ["--no-act"; "--output"; "TYPE"; "--noheadings"; source]))
            (Ok (out, None)) (ctrl s) (ctrl s') ∧ blank out = true).
Proof.
  unfold probe_format. intros ([e|f] & s1 & H1%try_ok & Hx)%bind_ok; [done|].
  destruct (String.eqb_spec f "") as [->|]; [cbn [negb] in Hx|done].
  apply bind_ok in Hx as ([e|[]] & s2 & H2%try_ok & Hx); [done| |].
  { apply bind_ok in Hx as ([e|r] & s3 & _ & Hx); done. }
  destruct readOnly; [done|]. injection Hx as <-. split; [done|].
  pose proof (frame_safely _ _ _ _ (λ P HP, frame_detect others _ P HP safe_id source) H2) as L2.
  apply detect_none in H2 as [(out & e & R1 & S1) (out2 & R2 & B2)].
  assert (L1 : safely (ctrl s) (ctrl s1)) by (eapply svc_safely; [|exact H1]; auto with moves_db).
  apply svc_run in H1. split_and!.
  - by eapply run_between; [reflexivity|exact L2|].
  - exists out, e. split; [|done]. by eapply run_between; [exact L1|reflexivity|].
  - exists out2. split; [|done]. by eapply run_between; [exact L1|reflexivity|].
Qed.

Lemma remove_option_none options o :
  (RemoveOptionIfExists options o).2 = false ↔ o ∉ options.
Proof.
  induction options as [|x l IH]; simpl; [split; [intros _; apply not_elem_of_nil|done]|].
  destruct (String.eqb_spec x o) as [->|Hne]; simpl.
  - split; [done|]. intros Hn. exfalso. apply Hn. by left.
  - destruct (RemoveOptionIfExists l o) as [r b]. simpl in *. rewrite IH, elem_of_cons.
    split; [by intros ? [->|]|]. intros Hn Hl. apply Hn. by right.
Qed.

(** C5. A disk that may hold data is not formatted.  Whatever comes of
    [formatAndMount], either it has run no command that creates a filesystem, or
    neither read-only nor direct mounting was asked for, and before the first
    such command blkid found no filesystem on the disk, fsck no superblock, and
    wipefs no signature. *)
Theorem formatAndMount_protects_data limited source target fstype options s r s' :
  formatAndMount others limited source target fstype options s = (r, s') →
  safely (ctrl s) (ctrl s') ∨
  "directmount" ∉ options ∧ "ro" ∉ options ∧
  ∃ c, saferun (ext (mount_GetDiskFormat source)) (Ok "") (ctrl s) c ∧
    (∃ out e, saferun (ext (exec_CombinedOutput "fsck" ["-n"; source])) (Ok (out, Some e)) (ctrl s) c ∧
              superblock_missing source out e) ∧
    (∃ out, saferun (ext (exec_CombinedOutput "wipefs" ["--no-act"; "--output"; "TYPE"; "--noheadings"; source]))
              (Ok (out, None)) (ctrl s) c ∧ blank out = true) ∧
    later c (ctrl s').
Proof.
  unfold formatAndMount. pose proof (remove_option_none options "directmount") as Hd.
  destruct (RemoveOptionIfExists options "directmount") as [newOptions []]; simpl in Hd; intros Hf.
  { left. exact (frame_safely _ _ _ _ (λ P HP, frame_mountWithMetrics others _ P HP safe_id _ _ _ _) Hf). }
  apply bind_safely in Hf as [(o & s1 & Hp & L1 & Hf)|[L _]]; [|by left|intros P HP; by apply (frame_probe others _ P HP safe_id)].
  destruct o as [f|].
  { left. etrans; [exact L1|].
    exact (frame_safely _ _ _ _ (λ P HP, frame_mount_formatted others _ P HP safe_id _ _ _ _ _ _ _) Hf). }
  right. apply probe_none in Hp as (Hro & R1 & R2 & R3). split; [by apply Hd|].
  split; [by apply bool_decide_eq_false in Hro|]. exists (ctrl s1). split_and!; try done.
  revert Hf. apply dmoves_later, dmoves_of. intros P HP. node_auto HP.
Qed.

(** ** The device of a LUN *)
Lemma file_says_ok p expected s s' :
  file_says others p expected s = (Ok true, s') →
  ∃ v, saferun (ext (io_ReadFile p)) (Ok v) (ctrl s) (ctrl s') ∧ ToUpper (TrimSpace v) = expected.
Proof.
  unfold file_says. intros ([e|v] & s1 & H1%try_ok & Hx)%bind_ok; [done|]. injection Hx as Hv <-.
  exists v. split; [by apply svc_run|by apply String.eqb_eq].
Qed.

Lemma link_to_ok dir devName names s p s' :
  link_to others dir devName names s = (Ok (Some p), s') →
  ∃ name link, p = dir +:+ name ∧ saferun (ext (io_Readlink p)) (Ok link) (ctrl s) (ctrl s') ∧
               HasSuffix link devName = true.
Proof.
  revert s. induction names as [|name names IH]; intros s; [done|]. cbn [link_to].
  intros (r & s1 & H1%try_ok & Hx)%bind_ok.
  assert (L1 : safely (ctrl s) (ctrl s1)) by (destruct r; (eapply svc_safely; [|exact H1]); auto with moves_db).
  assert (Hrec : link_to others dir devName names s1 = (Ok (Some p), s') →
    ∃ name link, p = dir +:+ name ∧ saferun (ext (io_Readlink p)) (Ok link) (ctrl s) (ctrl s') ∧
                 HasSuffix link devName = true).
  { intros (nm & link & ? & Hr & ?)%IH. exists nm, link. split_and!; try done. by eapply run_between; [exact L1|reflexivity|]. }
  destruct r as [e|link]; [by apply Hrec|]. destruct (HasSuffix link devName) eqn:E; [|by apply Hrec].
  injection Hx as <- <-. exists name, link. split_and!; [done|by apply svc_run|done].
Qed.

(** The path [p] stands for the device [devName]. *)
Definition names_device (p devName : string) (c c' : CState W) : Prop :=
  p = "/dev/" +:+ devName ∨
  ∃ dir name link, dir ∈ ["/dev/disk/azure/scsi1/"; "/dev/disk/by-id/"] ∧ p = dir +:+ name ∧
    saferun (ext (io_Readlink p)) (Ok link) c c' ∧ HasSuffix link devName = true.

Lemma device_link_ok dirs devName s p s' :
  dirs ⊆ ["/dev/disk/azure/scsi1/"; "/dev/disk/by-id/"] →
  device_link others dirs devName s = (Ok p, s') → names_device p devName (ctrl s) (ctrl s').
Proof.
  revert s. induction dirs as [|dir dirs IH]; intros s Hd; cbn [device_link].
  { intros [= <- _]. by left. }
  intros (r & s1 & H1%try_ok & Hx)%bind_ok. destruct r as [e|q].
  - apply IH in Hx; [|intros x Hx'; apply Hd; by right]. destruct Hx as [->|(dr & nm & link & Hin & -> & Hr & Hs)]; [by left|].
    right. exists dr, nm, link. split_and!; try done. eapply run_between; [|reflexivity|exact Hr].
    exact (frame_safely _ _ _ _ (λ P HP, frame_getDiskLink others _ P HP safe_id dir devName) H1).
  - injection Hx as -> <-. unfold getDiskLinkByDevName in H1.
    apply bind_ok in H1 as ([e|names] & s2 & H2%try_ok & Hx); [done|].
    apply bind_ok in Hx as ([q|] & s3 & Hl & Hx); [|done]. injection Hx as -> <-.
    apply link_to_ok in Hl as (nm & link & -> & Hr & Hs). right. exists dir, nm, link.
    split_and!; try done; [apply Hd; by left|]. eapply run_between; [|reflexivity|exact Hr].
    eapply svc_safely; [|exact H2]; auto with moves_db.
Qed.

(** A data disk of Azure with the LUN is in the place [name] of the SCSI bus, and
    the path [p] stands for it. *)
Definition scsi_disk (lun : Z) (azureDisks : list string) (p : string) (c c' : CState W) : Prop :=
  ∃ name devName vendor model rest, scsi_lun azureDisks name = Some lun ∧
    saferun (ext (io_ReadFile (filepath_Join [scsiPath; name; "vendor"]))) (Ok vendor) c c' ∧
    ToUpper (TrimSpace vendor) = "MSFT" ∧
    saferun (ext (io_ReadFile (filepath_Join [scsiPath; name; "model"]))) (Ok model) c c' ∧
    ToUpper (TrimSpace model) = "VIRTUAL DISK" ∧
    saferun (ext (io_ReadDir (filepath_Join [scsiPath; name; "block"]))) (Ok (devName :: rest)) c c' ∧
    devName ∉ azureDisks ∧ names_device p devName c c'.

Lemma names_device_mono p q c0 c c' c1 :
  safely c0 c → safely c' c1 → names_device p q c c' → names_device p q c0 c1.
Proof.
  intros H0 H1 [->|(dir & nm & link & ? & ? & Hr & ?)]; [by left|]. right. exists dir, nm, link.
  split_and!; try done. by eapply run_between.
Qed.
Lemma scsi_disk_mono lun a p c0 c c' c1 :
  safely c0 c → safely c' c1 → scsi_disk lun a p c c' → scsi_disk lun a p c0 c1.
Proof.
  intros H0 H1 (name & q & v & m & r & ? & R1 & ? & R2 & ? & R3 & ? & R4). exists name, q, v, m, r.
  split_and!; try done; [by eapply run_between..|by eapply names_device_mono].
Qed.

Lemma scsi_entry_ok lun azureDisks name s p s' :
  scsi_entry others lun azureDisks name s = (Ok (Some p), s') → scsi_disk lun azureDisks p (ctrl s) (ctrl s').
Proof.
  unfold scsi_entry. case_bool_decide as Hl; cbn [negb]; [|done].
  intros ([] & s1 & H1 & Hx)%bind_ok; [cbn [negb] in Hx|done].
  apply bind_ok in Hx as ([] & s2 & H2 & Hx); [cbn [negb] in Hx|done].
  apply bind_ok in Hx as ([e|dev] & s3 & H3%try_ok & Hx); [done|].
  apply bind_ok in Hx as (devName & s4 & [H4 ->]%lift_ok & Hx).
  destruct dev as [|q rest]; [done|]. injection H4 as ->. case_bool_decide as Hin; [done|].
  apply bind_ok in Hx as (p' & s5 & H5 & Hx). injection Hx as -> <-.
  assert (Ff : ∀ P, frame node_safe_call others P → ∀ a b, keeps P (file_says others a b)).
  { intros P HP a b. unfold file_says. repeat frame_step HP. eapply safe_host; eauto with moves_db. }
  pose proof (frame_safely _ _ _ _ (λ P HP, Ff P HP _ _) H1) as L1.
  pose proof (frame_safely _ _ _ _ (λ P HP, Ff P HP _ _) H2) as L2.
  assert (L3 : safely (ctrl s2) (ctrl s3)) by (eapply svc_safely; [|exact H3]; auto with moves_db).
  pose proof (frame_safely _ _ _ _ (λ P HP, frame_device_link others _ P HP safe_id _ _) H5) as L5.
  apply file_says_ok in H1 as (v & R1 & V1), H2 as (m & R2 & V2). apply svc_run in H3.
  apply device_link_ok in H5; [|done].
  exists name, devName, v, m, rest. split_and!; try done.
  - eapply run_between; [reflexivity| |exact R1]. by trans (ctrl s2); [|trans (ctrl s3)].
  - eapply run_between; [exact L1| |exact R2]. by trans (ctrl s3).
  - eapply run_between; [|exact L5|exact H3]. by trans (ctrl s1).
  - eapply names_device_mono; [|reflexivity|exact H5]. by trans (ctrl s1); [|trans (ctrl s2)].
Qed.

Lemma scsi_entries_ok lun azureDisks names s p s' :
  scsi_entries others lun azureDisks names s = (Ok p, s') → p ≠ "" → scsi_disk lun azureDisks p (ctrl s) (ctrl s').
Proof.
  revert s. induction names as [|name names IH]; intros s; cbn [scsi_entries]; [by intros [= <- _]|].
  intros (r & s1 & H1 & Hx)%bind_ok Hne. destruct r as [q|].
  - injection Hx as -> <-. by apply scsi_entry_ok in H1.
  - eapply scsi_disk_mono; [|reflexivity|by apply IH].
    exact (frame_safely _ _ _ _ (λ P HP, frame_scsi_entry others _ P HP safe_id _ _ _) H1).
Qed.

Lemma first_link_ok paths s p s' :
  first_link others paths s = (Ok (Some p), s') →
  p ∈ paths ∧ saferun (ext (os_Stat p)) (Ok ()) (ctrl s) (ctrl s') ∧
  ∃ link, saferun (ext (io_Readlink p)) (Ok link) (ctrl s) (ctrl s').
Proof.
  revert s. induction paths as [|q paths IH]; intros s; cbn [first_link]; [done|].
  intros (r & s1 & H1%try_ok & Hx)%bind_ok.
  assert (L1 : safely (ctrl s) (ctrl s1)) by (destruct r; (eapply svc_safely; [|exact H1]); auto with moves_db).
  assert (Hrec : ∀ s2, safely (ctrl s) (ctrl s2) → first_link others paths s2 = (Ok (Some p), s') →
    p ∈ q :: paths ∧ saferun (ext (os_Stat p)) (Ok ()) (ctrl s) (ctrl s') ∧
    ∃ link, saferun (ext (io_Readlink p)) (Ok link) (ctrl s) (ctrl s')).
  { intros s2 L (Hin & R1 & link & R2)%IH. split_and!; [by right|by eapply run_between; [exact L|reflexivity|]|].
    exists link. by eapply run_between; [exact L|reflexivity|]. }
  destruct r as [e|[]]; [by eapply Hrec|].
  apply bind_ok in Hx as (r & s2 & H2%try_ok & Hx).
  assert (L2 : safely (ctrl s1) (ctrl s2)) by (destruct r; (eapply svc_safely; [|exact H2]); auto with moves_db).
  destruct r as [e|link]; [eapply Hrec; [|exact Hx]; by trans (ctrl s1)|]. injection Hx as <- <-.
  apply svc_run in H1, H2. split_and!; [by left| |exists link].
  - by eapply run_between; [reflexivity|exact L2|].
  - by eapply run_between; [exact L1|reflexivity|].
Qed.

(** [p] was found as the device of the LUN: an entry of the SCSI bus, or a link of udev. *)
Definition device_of_lun (lun : Z) (p : string) (s s' : DState W) : Prop :=
  p ≠ "" ∧
  ((∃ azureDisks s1, listAzureDiskPath others s = (Ok azureDisks, s1) ∧ scsi_disk lun azureDisks p (ctrl s) (ctrl s')) ∨
   p ∈ ["/dev/disk/azure/scsi1/lun" +:+ Itoa lun; "/dev/disk/azure/data/by-lun/" +:+ Itoa lun] ∧
   saferun (ext (os_Stat p)) (Ok ()) (ctrl s) (ctrl s') ∧
   ∃ link, saferun (ext (io_Readlink p)) (Ok link) (ctrl s) (ctrl s')).
Lemma findDiskByLun_found lun s p s' : findDiskByLun others lun s = (Ok p, s') → device_of_lun lun p s s'.
Proof.
  unfold findDiskByLun. intros (azureDisks & s1 & H1 & Hx)%bind_ok.
  pose proof (frame_safely _ _ _ _ (λ P HP, frame_listAzureDiskPath others _ P HP safe_id) H1) as L1.
  apply bind_ok in Hx as (r & s2 & H2%try_ok & Hx). cbv zeta in Hx.
  assert (L2 : safely (ctrl s1) (ctrl s2)) by
    (destruct r; exact (frame_safely _ _ _ _ (λ P HP, frame_constraint others _ P HP safe_id _ _) H2)).
  destruct (String.eqb_spec (match r with inl _ => "" | inr device => device end) "") as [E|E]; cbn [negb] in Hx.
  - apply bind_ok in Hx as ([q|] & s3 & H3 & Hx); [|done]. injection Hx as -> <-.
    apply first_link_ok in H3 as (Hin & R1 & link & R2).
    assert (L : safely (ctrl s) (ctrl s2)) by (by trans (ctrl s1)).
    split; [by rewrite !elem_of_cons in Hin; destruct Hin as [->|[->|[]%elem_of_nil]]|]. right.
    split_and!; [done|by eapply run_between; [exact L|reflexivity|]|].
    exists link. by eapply run_between; [exact L|reflexivity|].
  - destruct r as [e|q]; [done|]. injection Hx as -> <-. split; [done|]. left. exists azureDisks, s1. split; [done|].
    unfold findDiskByLunWithConstraint in H2. apply bind_ok in H2 as ([e|dirs] & s3 & H3%try_ok & Hx); [by injection Hx as <-|].
    eapply scsi_disk_mono; [|reflexivity|by eapply scsi_entries_ok]. trans (ctrl s1); [done|].
    eapply svc_safely; [|exact H3]; auto with moves_db.
Qed.

(** C26. The device that is found for a LUN: an entry of the SCSI bus with that LUN,
    whose vendor and model are those of an Azure disk and whose block device is no
    system disk of the VM; or the link that udev made for the LUN. *)
Theorem findDiskByLun_sound lun s p s' :
  findDiskByLun others lun s = (Ok p, s') →
  p ≠ "" ∧
  ((∃ azureDisks s1, listAzureDiskPath others s = (Ok azureDisks, s1) ∧ scsi_disk lun azureDisks p (ctrl s) (ctrl s')) ∨
   p ∈ ["/dev/disk/azure/scsi1/lun" +:+ Itoa lun; "/dev/disk/azure/data/by-lun/" +:+ Itoa lun] ∧
   saferun (ext (os_Stat p)) (Ok ()) (ctrl s) (ctrl s') ∧
   ∃ link, saferun (ext (io_Readlink p)) (Ok link) (ctrl s) (ctrl s')).
Proof. exact (findDiskByLun_found lun s p s'). Qed.

(** The search for a device does not wait: [getDevicePathWithLUN] behaves as one
    call of [findDiskByLun] after the rescan.  The condition of its poll gives an
    error or a path, never "not yet", so the two minutes of the poll have no use. *)
Theorem getDevicePathWithLUN_never_waits lunStr s :
  getDevicePathWithLUN others lunStr s =
  (let! lun := lift (GetDiskLUN lunStr) in
   let! _ := scsiHostRescan others in
   let! _ := svc Now in
   let! r := try (findDiskByLun others lun) in
   match r with
   | inr p => ret p
   | inl e => fail (ENew ("azureDisk - findDiskByLun(" +:+ Itoa lun +:+ ") failed with error("
                          +:+ Error e +:+ ")"))
   end) s.
Proof.
  unfold getDevicePathWithLUN. unfold bind at 1 5, lift. destruct (GetDiskLUN lunStr) as [lun| |]; [|done..].
  unfold bind at 1 4. destruct (scsiHostRescan others s) as [[[]| |] s1]; [|done..].
  unfold bind at 1 3. destruct (svc Now s1) as [[now| |] s2]; [|done..].
  change (poll_device others 121 ?c lun) with (poll_device others (S 120) c lun). cbn [poll_device].
  unfold try, bind. pose proof (findDiskByLun_found lun) as Hs.
  destruct (findDiskByLun others lun s2) as [[p|e|] s3] eqn:E; [|done..].
  apply Hs in E as [Hp _]. by rewrite (proj2 (String.eqb_neq p "") Hp).
Qed.

(** ** Stage *)
  Local Notation druns := (druns node_call others).
Lemma frame_later_node {A} (m : M (DState W) A) s r s' :
  (∀ P, frame node_call others P → keeps P m) → m s = (r, s') → later (ctrl s) (ctrl s').
Proof. intros Hm. by apply dmoves_later, dmoves_of. Qed.
Lemma svc_run' {A} (m : M W A) s r s' : svc m s = (r, s') → runs (ext m) r (ctrl s) (ctrl s').
Proof. apply ctl_runs. Qed.
Lemma host_later {A} (m : M W A) s r s' : safe_host_call A m → svc m s = (r, s') → later (ctrl s) (ctrl s').
Proof. intros. by eapply safely_later, svc_safely. Qed.

Ltac nlater H := eapply frame_later_node; [|exact H]; let P := fresh "P" in let HP := fresh "HP" in intros P HP; node_auto HP.

(** The options a formatted volume is mounted with. *)
Definition mounted_options (options : list string) : list string :=
  let '(newOptions, direct) := RemoveOptionIfExists options "directmount" in
  if direct then newOptions else options ++ ["defaults"].

Lemma mount_formatted_ok a b t o r k f s s' :
  mount_formatted others a b t o r k f s = (Ok (), s') →
  EqualFold t f = true ∧ saferun (ext (mount_Mount a b t (o ++ ["defaults"]))) (Ok ()) (ctrl s) (ctrl s').
Proof.
  unfold mount_formatted. destruct (EqualFold t f); cbn [negb]; [|done]. intros ([] & s1 & H1 & H2)%bind_ok.
  split; [done|]. apply mount_ok, svc_run in H2. eapply run_between; [|reflexivity|exact H2].
  destruct (k || r); [by injection H1 as <-|].
  apply bind_ok in H1 as ([e|[]] & s2 & H1%try_ok & Hx); [done|]. injection Hx as <-.
  exact (frame_safely _ _ _ _ (λ P HP, frame_repair others _ P HP safe_id _ _) H1).
Qed.

Lemma formatAndMount_mounts limited a b t o s s' :
  formatAndMount others limited a b t o s = (Ok (), s') →
  runs (ext (mount_Mount a b t (mounted_options o))) (Ok ()) (ctrl s) (ctrl s').
Proof.
  unfold formatAndMount, mounted_options. destruct (RemoveOptionIfExists o "directmount") as [no []].
  { intros H1%mount_ok. by apply svc_run'. }
  intros (pr & s1 & H1 & Hx)%bind_ok.
  assert (L1 : later (ctrl s) (ctrl s1)) by nlater H1. destruct pr as [f|].
  - apply mount_formatted_ok in Hx as [_ Hr]. eapply runs_mono; [exact L1|reflexivity|].
    by eapply runs_calls; [apply safe_call|].
  - apply bind_ok in Hx as ([] & s2 & H2 & Hx). apply mount_formatted_ok in Hx as [_ Hr].
    eapply runs_mono; [|reflexivity|by eapply runs_calls; [apply safe_call|]].
    trans (ctrl s1); [done|]. nlater H2.
Qed.

(** The capability, filesystem type and mount flags of a request to stage. *)
Lemma grow_ok source target u vctx code s s' :
  grow_filesystem others source target u vctx code s = (Ok (), s') →
  match vctx !! consts.ResizeRequired with Some r => EqualFold r consts.TrueValue = true | None => False end →
  ∃ b, runs (ext (resize_Resize source target)) (Ok b) (ctrl s) (ctrl s').
Proof.
  unfold grow_filesystem. cbv zeta. intros Hx Hreq.
  replace (match vctx !! consts.ResizeRequired with Some r => EqualFold r consts.TrueValue | None => false end)
    with true in Hx by (by destruct (vctx !! consts.ResizeRequired)).
  rewrite bind_ret in Hx. apply status_on_ok in Hx. unfold resizeVolume in Hx.
  apply bind_ok in Hx as (b & s1 & H1 & Hx). injection Hx as <-. exists b. by apply svc_run'.
Qed.

(** [target] was a mount point whose directory can be read: the mounter said that it is
    no plain directory, or that its mount is broken, or it is in the list of the mounts; it was opened,
    and an entry was read or there is none. *)
Definition mounted_already (target : string) (c c' : CState W) : Prop :=
  ((∃ err, runs (ext (mount_IsLikelyNotMountPoint target)) (Ok (false, err)) c c') ∨
   (∃ b e e', runs (ext (mount_IsLikelyNotMountPoint target)) (Ok (b, Some e)) c c' ∧
      runs (ext (mount_PathExists target)) (Err e') c c' ∧ IsCorruptedMnt e' = true) ∨
   (∃ mounts, runs (ext mount_List) (Ok mounts) c c' ∧ filepath_Abs (getwd (W:=W)) target ∈ mounts)) ∧
  runs (ext (os_Open target)) (Ok ()) c c' ∧
  (runs (ext (file_ReadDir1 target)) (Ok ()) c c' ∨ runs (ext (file_ReadDir1 target)) (Err (ESentinel IoEOF)) c c').

Lemma mounted_already_mono target c0 c c' c1 :
  later c0 c → later c' c1 → mounted_already target c c' → mounted_already target c0 c1.
Proof.
  intros H0 H1 (Hm & Ho & Hr). split_and!; [|by eapply runs_mono|].
  - destruct Hm as [(err & ?)|[(b & e & e' & ? & ? & ?)|(mounts & ? & ?)]];
      [left; exists err|right; left; exists b, e, e'; split_and!|right; right; exists mounts; split];
      try done; by eapply runs_mono.
  - destruct Hr; [left|right]; by eapply runs_mono.
Qed.

Lemma not_mounted_false target s s' :
  not_mounted others target s = (Ok false, s') →
  (∃ err, runs (ext (mount_IsLikelyNotMountPoint target)) (Ok (false, err)) (ctrl s) (ctrl s')) ∨
  (∃ b e e', runs (ext (mount_IsLikelyNotMountPoint target)) (Ok (b, Some e)) (ctrl s) (ctrl s') ∧
     runs (ext (mount_PathExists target)) (Err e') (ctrl s) (ctrl s') ∧ IsCorruptedMnt e' = true) ∨
  (∃ mounts, runs (ext mount_List) (Ok mounts) (ctrl s) (ctrl s') ∧ filepath_Abs (getwd (W:=W)) target ∈ mounts).
Proof.
  unfold not_mounted, IsCorruptedDir. intros ([b err] & s1 & H1 & Hx)%bind_ok.
  assert (L0 : later (ctrl s) (ctrl s1)) by (by eapply host_later; [|exact H1]; constructor).
  assert (L1 : later (ctrl s1) (ctrl s')) by nlater Hx.
  apply bind_ok in Hx as (nm & s2 & H2 & Hx). assert (L2 : later (ctrl s) (ctrl s2)).
  { trans (ctrl s1); [done|]. destruct err; nlater H2. }
  apply bind_ok in Hx as (mounts & s3 & H3 & Hx). cbv zeta in Hx. injection Hx as Hx <-.
  case_bool_decide as Hin.
  { right; right. exists mounts. split; [|done]. by eapply runs_mono; [exact L2|reflexivity|apply svc_run']. }
  subst nm. apply svc_run' in H1. assert (R1 : runs (ext (mount_IsLikelyNotMountPoint target)) (Ok (b, err)) (ctrl s) (ctrl s3)).
  { by eapply runs_mono; [reflexivity|exact L1|]. }
  destruct err as [e|]; [|injection H2 as -> _; left; eauto].
  destruct (os_IsNotExist e); [injection H2 as -> _; left; eauto|].
  apply bind_ok in H2 as (cor & s4 & H4 & H2). destruct cor; [|done]. injection H2 as <-.
  apply bind_ok in H4 as ([e'|?] & s5 & H5%try_ok & H4); injection H4 as Hc <-; [|done].
  right; left. exists b, e, e'. split_and!; [done| |done].
  eapply runs_mono; [exact L0| |by apply svc_run']. by eapply host_later; [|exact H3]; constructor.
Qed.

Lemma ensureMountPoint_mounted target s s' :
  ensureMountPoint others target s = (Ok true, s') → mounted_already target (ctrl s) (ctrl s').
Proof.
  unfold ensureMountPoint. intros (nm & s1 & H1 & Hx)%bind_ok.
  destruct nm; cbn [negb] in Hx; [by apply bind_ok in Hx as (? & ? & _ & ?)|].
  assert (L0 : later (ctrl s) (ctrl s1)) by nlater H1.
  assert (L1 : later (ctrl s1) (ctrl s')) by nlater Hx.
  apply not_mounted_false in H1. apply bind_ok in Hx as ([e|[]] & s2 & H2%try_ok & Hx);
    [by apply bind_ok in Hx as (? & ? & _ & ?)|]. injection Hx as <-.
  unfold mount_readable in H2. apply bind_ok in H2 as ([] & s3 & H3 & H2).
  assert (L3 : later (ctrl s3) (ctrl s2)) by nlater H2.
  assert (L2 : later (ctrl s1) (ctrl s3)) by (by eapply host_later; [|exact H3]; constructor).
  apply bind_ok in H2 as (r & s4 & H4%try_ok & H2).
  assert (L4 : later (ctrl s) (ctrl s3)) by (by trans (ctrl s1)).
  split_and!.
  - destruct H1 as [(err & ?)|[(b & e & e' & ? & ? & ?)|(mounts & ? & ?)]];
      [left; exists err|right; left; exists b, e, e'; split_and!|right; right; exists mounts; split];
      try done; by eapply runs_mono; [reflexivity|exact L1|].
  - by eapply runs_mono; [exact L0|exact L3|apply svc_run'].
  - destruct r as [e|[]]; [case_bool_decide; [|done]; subst e; right|left]; injection H2 as <-;
      by eapply runs_mono; [exact L4|reflexivity|apply svc_run'].
Qed.

(** A mount that cannot be read is not mounted again by the request that finds it: the
    directory is unmounted, and the request fails even when that succeeds. *)
Theorem unreadable_mount_fails target s s1 e s2 b :
  not_mounted others target s = (Ok false, s1) → mount_readable others target s1 = (Err e, s2) →
  (ensureMountPoint others target s).1 ≠ Ok b.
Proof.
  intros H1 H2. unfold ensureMountPoint. rewrite (bind_eq _ _ _ _ _ H1). cbn [negb].
  unfold bind at 1, try. rewrite H2. unfold bind. by destruct (svc (mount_Unmount target) s2) as [[[]| |] s3].
Qed.

(** The volume is mounted at the staging path: it was already, or the device was
    mounted there with the type and the options, and its filesystem was resized when
    the context asks for it. *)
Definition staged (req : NodeStageVolumeRequest) (dev fstype : string) (flags : list string) (s s' : DState W)
    : Prop :=
  let target := stage_StagingTargetPath req in
  let source := with_partition dev (stage_VolumeContext req) in
  mounted_already target (ctrl s) (ctrl s') ∨
  runs (ext (mount_Mount source target fstype (mounted_options (collectMountOptions fstype flags)))) (Ok ())
    (ctrl s) (ctrl s') ∧
  (match stage_VolumeContext req !! consts.ResizeRequired with
   | Some r => EqualFold r consts.TrueValue = true | None => False end →
   ∃ b, runs (ext (resize_Resize source target)) (Ok b) (ctrl s) (ctrl s')).

Lemma staged_mono req dev fstype flags s0 s s' s1 :
  later (ctrl s0) (ctrl s) → later (ctrl s') (ctrl s1) →
  staged req dev fstype flags s s' → staged req dev fstype flags s0 s1.
Proof.
  intros H0 H1. unfold staged. cbv zeta. intros [Hm|[Hm Hr]]; [left; by eapply mounted_already_mono|right; split].
  - by eapply runs_mono.
  - intros [b Hb]%Hr. exists b. by eapply runs_mono.
Qed.

Lemma stage_filesystem_ok req dev lun fstype flags code s s' :
  stage_filesystem n others req dev lun fstype flags code s = (Ok (), s') → staged req dev fstype flags s s'.
Proof.
  unfold stage_filesystem, staged. cbv zeta. intros (mnt & s1 & H1%status_on_ok & Hx)%bind_ok.
  destruct mnt; [left; injection Hx as <-; by apply ensureMountPoint_mounted|right].
  assert (L1 : later (ctrl s) (ctrl s1)) by nlater H1.
  apply bind_ok in Hx as ([] & s2 & H2%status_on_ok & Hx).
  assert (L2 : later (ctrl s1) (ctrl s2)) by nlater H2.
  assert (L3 : later (ctrl s2) (ctrl s')) by nlater Hx.
  split.
  - apply formatAndMount_mounts in H2. by eapply runs_mono; [exact L1|exact L3|].
  - intros [b Hr]%(grow_ok _ _ _ _ _ _ _ Hx). exists b. eapply runs_mono; [|reflexivity|exact Hr]. by trans (ctrl s1).
Qed.

Lemma stage_device_ok req cap fstype flags lun code s s' :
  stage_device d n DiskSkuMap others req cap fstype flags lun code s = (Ok (), s') →
  ∃ dev, druns (getDevicePathWithLUN others lun) (Ok dev) s s' ∧
    (is_Some (GetBlock cap) ∨ staged req dev fstype flags s s').
Proof.
  unfold stage_device. intros (dev & s1 & H1%status_on_ok & Hx)%bind_ok.
  assert (L1 : later (ctrl s) (ctrl s1)) by nlater H1.
  apply bind_ok in Hx as ([] & s2 & H2 & Hx).
  assert (L2 : later (ctrl s1) (ctrl s2)) by nlater H2.
  assert (L3 : later (ctrl s2) (ctrl s')) by (case_bool_decide; nlater Hx).
  exists dev. split; [eapply druns_mono; [reflexivity| |by apply druns_here]; by trans (ctrl s2)|].
  case_bool_decide; [by left|right]. apply stage_filesystem_ok in Hx.
  eapply staged_mono; [|reflexivity|exact Hx]. by trans (ctrl s1).
Qed.

Lemma stage_lun_given ctx req lun s s' :
  stage_lun d n others ctx req s = (Ok (lun, false), s') → stage_PublishContext req !! consts.LUN = Some lun.
Proof.
  unfold stage_lun. cbv zeta. intros (pv & s1 & _ & Hx)%bind_ok.
  destruct pv as [pv|]; [destruct (hasQADInfo _); [by apply bind_ok in Hx as (l & s2 & _ & Hx)|]|];
    destruct (stage_PublishContext req !! consts.LUN); by simplify_eq/=; injection Hx as ->.
Qed.

Lemma stage_lun_of_context ctx req lun s :
  stage_PublishContext req !! consts.LUN = Some lun → stage_lun d n others ctx req s = (Ok (lun, false), s).
Proof. intros Hl. unfold stage_lun. cbv zeta. by rewrite Hl. Qed.

Lemma stage_split ctx req s s' :
  NodeStageVolume d n isKataNode DiskSkuMap others ctx req s = (Ok (), s') →
  stage_VolumeId req ∉ locks (volumeLocks s) ∧
  ∃ cap fstype flags, check_stage req = Ok (cap, (fstype, flags)) ∧
  (kataSupported n isKataNode = true ∧ GetBlock cap = None ∧
   druns (IsVolumeMountedByID others (stage_VolumeId req)) (Ok true) s s' ∨
   ∃ lun qadAttached dev,
     druns (stage_lun d n others ctx req) (Ok (lun, qadAttached)) s s' ∧
     (qadAttached = false → stage_PublishContext req !! consts.LUN = Some lun) ∧
     druns (getDevicePathWithLUN others lun) (Ok dev) s s' ∧
     (is_Some (GetBlock cap) ∨ staged req dev fstype flags s s')).
Proof.
  unfold NodeStageVolume. intros ([cap [fstype flags]] & s0 & [Hc ->]%lift_ok & Hx)%bind_ok.
  apply with_volume_lock_ok in Hx as (Hin & s2 & Hx & ->). split; [done|].
  exists cap, fstype, flags. split; [done|]. set (s1 := set_volumeLocks _ s) in Hx.
  change (ctrl s) with (ctrl s1).
  apply bind_ok in Hx as (assigned & s3 & H3 & Hx).
  assert (L3 : later (ctrl s1) (ctrl s3)) by nlater H3.
  destruct assigned; [left|right].
  { injection Hx as <-. unfold kata_staged in H3. destruct (kataSupported n isKataNode); [|done]. cbn [andb] in H3.
    case_bool_decide as Hb; [|done]. apply status_on_ok in H3. split_and!; [done..|].
    by apply (druns_mono _ _ _ _ s1 s1 s3 s3); [reflexivity..|apply druns_here]. }
  apply bind_ok in Hx as ([lun qad] & s4 & H4 & Hx).
  assert (L4 : later (ctrl s3) (ctrl s4)) by nlater H4.
  assert (L5 : later (ctrl s4) (ctrl s2)) by nlater Hx.
  apply stage_device_ok in Hx as (dev & Hdev & Hst). exists lun, qad, dev.
  assert (L : later (ctrl s1) (ctrl s4)) by (by trans (ctrl s3)). split_and!.
  - by apply (druns_mono _ _ _ _ s s3 s4 _); [exact L3|exact L5|apply druns_here].
  - intros ->. by eapply stage_lun_given.
  - by eapply (druns_mono _ _ _ _ s s4 s2); [exact L|reflexivity|].
  - destruct Hst as [?|Hst]; [by left|right]. by eapply (staged_mono _ _ _ _ s s4 s2); [exact L|reflexivity|].
Qed.

(** C8. A volume that was staged.  The request was valid and the volume was not
    locked.  Either the volume is assigned to a Kata sandbox, or its disk was found
    at the LUN of the request (for a node-driven volume: at the LUN it was attached
    at); and a volume with a filesystem was mounted already or was mounted at the
    staging path from that disk, with the type and options of the request, and
    resized when the context asks for it. *)
Theorem NodeStageVolume_ok ctx req s s' :
  NodeStageVolume d n isKataNode DiskSkuMap others ctx req s = (Ok (), s') →
  stage_VolumeId req ∉ locks (volumeLocks s) ∧
  ∃ cap fstype flags, check_stage req = Ok (cap, (fstype, flags)) ∧
  (kataSupported n isKataNode = true ∧ GetBlock cap = None ∧
   druns (IsVolumeMountedByID others (stage_VolumeId req)) (Ok true) s s' ∨
   ∃ lun qadAttached dev,
     druns (stage_lun d n others ctx req) (Ok (lun, qadAttached)) s s' ∧
     (qadAttached = false → stage_PublishContext req !! consts.LUN = Some lun) ∧
     druns (getDevicePathWithLUN others lun) (Ok dev) s s' ∧
     (is_Some (GetBlock cap) ∨ staged req dev fstype flags s s')).
Proof. exact (stage_split ctx req s s'). Qed.

(** *** Errors *)
Lemma tune_err source vctx code s e s' :
  tune_device d n DiskSkuMap others source vctx code s = (Err e, s') → ∃ msg, e = EStatus code msg.
Proof.
  unfold tune_device. destruct (perfOptimizationEnabled d); [|done].
  intros [(a & s1 & _ & Hx)|Hx]%bind_err.
  - destruct (DiskSupportsPerfOptimization _ _); [|done]. apply status_on_inv in Hx as (e0 & _ & ->). eauto.
  - unfold lift, or_status in Hx. destruct (GetDiskPerfAttributes vctx); simplify_eq; eauto.
Qed.
Lemma grow_err source target u vctx code s e s' :
  grow_filesystem others source target u vctx code s = (Err e, s') → ∃ msg, e = EStatus code msg.
Proof.
  unfold grow_filesystem. cbv zeta. intros [(b & s1 & _ & Hx)|Hx]%bind_err.
  - destruct b; [|done]. apply status_on_inv in Hx as (e0 & _ & ->). eauto.
  - match type of Hx with context [if ?b then _ else _] => destruct b end; [done|].
    apply bind_err in Hx as [(r & s1 & _ & Hx)|Hx]; [done|].
    unfold try in Hx. by destruct (needResizeVolume others source target s) as [[]].
Qed.
Lemma stage_device_err req cap fstype flags lun code s e s' :
  stage_device d n DiskSkuMap others req cap fstype flags lun code s = (Err e, s') →
  ∃ msg, e = EStatus code msg.
Proof.
  unfold stage_device. intros [(dev & s1 & _ & Hx)|Hx]%bind_err;
    [|apply status_on_inv in Hx as (e0 & _ & ->); eauto].
  apply bind_err in Hx as [([] & s2 & _ & Hx)|Hx]; [|by eapply tune_err].
  case_bool_decide; [done|]. unfold stage_filesystem in Hx. cbv zeta in Hx.
  apply bind_err in Hx as [(mnt & s3 & _ & Hx)|Hx]; [|apply status_on_inv in Hx as (e0 & _ & ->); eauto].
  destruct mnt; [done|].
  apply bind_err in Hx as [([] & s4 & _ & Hx)|Hx]; [by eapply grow_err|].
  apply status_on_inv in Hx as (e0 & _ & ->); eauto.
Qed.

(** C29. Errors of a request to stage.  The request is refused before anything is done;
    or the volume could not be looked up or attached; or its disk is attached and
    the error is of a later step: then the code is [Internal] when the controller
    attached the disk, and [Unavailable] when the node did, so that the caller
    unstages the volume and the disk is detached again. *)
Theorem NodeStageVolume_errors ctx req s e s' :
  NodeStageVolume d n isKataNode DiskSkuMap others ctx req s = (Err e, s') →
  (check_stage req = Err e ∨ status_Code e = codes.Aborted ∧ stage_VolumeId req ∈ locks (volumeLocks s)) ∧ s' = s ∨
  (∃ cap, druns (kata_staged n isKataNode others (stage_VolumeId req) cap) (Err e) s s') ∨
  druns (stage_lun d n others ctx req) (Err e) s s' ∨
  ∃ lun qadAttached, druns (stage_lun d n others ctx req) (Ok (lun, qadAttached)) s s' ∧
    status_Code e = if qadAttached then codes.Unavailable else codes.Internal.
Proof.
  unfold NodeStageVolume. intros [([cap [fstype flags]] & s0 & [Hc ->]%lift_ok & Hx)|Hx]%bind_err;
    [|left; injection Hx as ? <-; by split; [left|]].
  apply with_volume_lock_inv in Hx as [(Hin & -> & [= ->])|(Hin & s2 & E & ->)]; [left; split; [by right|done]|].
  set (s1 := set_volumeLocks _ s) in E. change (ctrl s) with (ctrl s1). right.
  apply bind_err in E as [(assigned & s3 & H3 & E)|E];
    [|left; exists cap; by apply (druns_mono _ _ _ _ s1 s1 s2 s2); [reflexivity..|apply druns_here]].
  right. assert (L3 : later (ctrl s1) (ctrl s3)) by nlater H3. destruct assigned; [done|].
  apply bind_err in E as [([lun qad] & s4 & H4 & E)|E];
    [right|left; by apply (druns_mono _ _ _ _ s1 s3 s2 s2); [exact L3|reflexivity|apply druns_here]].
  assert (L5 : later (ctrl s4) (ctrl s2)) by nlater E.
  exists lun, qad. split; [by apply (druns_mono _ _ _ _ s1 s3 s4 s2); [exact L3|exact L5|apply druns_here]|].
  apply stage_device_err in E as [msg ->]. by destruct qad.
Qed.

(** ** The wireserver *)
Lemma poll_value_ok {A} k ctx i (m : M (DState W) (option A)) s a s' :
  (∀ P, frame node_call others P → keeps P m) →
  poll_value others k ctx i m s = (Ok a, s') → druns m (Ok (Some a)) s s'.
Proof.
  intros Hm. revert s. induction k as [|k IH]; intros s; [done|]. cbn [poll_value].
  intros ([b|] & s1 & H1 & Hx)%bind_ok; [injection Hx as -> <-; by apply druns_here|].
  apply bind_ok in Hx as ([e|] & s2 & H2 & Hx); [done|]. apply IH in Hx.
  eapply druns_mono; [|reflexivity|exact Hx]. trans (ctrl s1); [by eapply frame_later_node|nlater H2].
Qed.
Lemma poll_ok k c t (m : M (DState W) bool) s s' :
  (∀ P, frame node_call others P → keeps P m) →
  PollUntilContextTimeout (λ i, svc (ctx_Wait c i)) k t m s = (Ok (), s') → druns m (Ok true) s s'.
Proof.
  intros Hm. revert s. induction k as [|k IH]; intros s; [done|]. cbn [PollUntilContextTimeout].
  intros ([] & s1 & H1 & Hx)%bind_ok; [injection Hx as <-; by apply druns_here|].
  apply bind_ok in Hx as ([e|] & s2 & H2 & Hx); [done|]. apply IH in Hx.
  eapply druns_mono; [|reflexivity|exact Hx]. trans (ctrl s1); [by eapply frame_later_node|nlater H2].
Qed.

Lemma http_not_found k : mapHTTPStatusToCode k = codes.NotFound → k = 404.
Proof. unfold mapHTTPStatusToCode. repeat case_match; done. Qed.

(** *** The sequence number *)
(** The sequence number of a volume was increased: a larger one by one than the number
    that the volume records, which is none for 0, was written to the volume.  The volume
    is the one that was given or, after a conflict, one that was read again. *)
Definition sequence_increased (pv : PersistentVolume) (k : Z) (c c' : CState W) : Prop :=
  ∃ pv' old new c1, (pv' = pv ∧ later c c1 ∨ ∃ name, runs (ext (pv_Get name)) (Ok pv') c c1) ∧
    match pv_Annotations pv' !! consts.AttachSequenceAnnotation with
    | Some v => Atoi v = Some old | None => old = 0 end ∧
    0 ≤ old ∧ k = old + 1 ∧ k < 2 ^ 63 ∧
    pv_Name new = pv_Name pv' ∧ pv_Annotations new !! consts.AttachSequenceAnnotation = Some (Itoa k) ∧
    runs (ext (pv_Update new)) (Ok ()) c1 c'.

Lemma next_sequence_ok pv k :
  next_sequence pv = Ok k →
  ∃ old, match pv_Annotations pv !! consts.AttachSequenceAnnotation with
         | Some v => Atoi v = Some old | None => old = 0 end ∧ 0 ≤ old ∧ k = old + 1 ∧ k < 2 ^ 63.
Proof.
  unfold next_sequence. destruct (pv_Annotations pv !! _) as [v|].
  - destruct (Atoi v) as [old|] eqn:E; [|done]. destruct (Z.ltb_spec old 0); [done|].
    destruct (Z.eqb_spec old max_int); [done|]. intros [= <-]. exists old. apply Atoi_range in E.
    unfold in_int64, max_int in *. split_and!; [done|lia..].
  - intros [= <-]. by exists 0.
Qed.

Lemma attempt_ok again pv pv' k s s' :
  attempt_increment others again pv s = (Ok (pv', inr k), s') →
  ∃ pv0 c, (if again then ∃ name, runs (ext (pv_Get name)) (Ok pv0) (ctrl s) c
            else pv0 = pv ∧ later (ctrl s) c) ∧
    next_sequence pv0 = Ok k ∧ runs (ext (pv_Update (with_sequence k pv0))) (Ok ()) c (ctrl s').
Proof.
  unfold attempt_increment. intros (r & s1 & H1 & Hx)%bind_ok. destruct r as [e|pv0]; [done|].
  destruct (next_sequence pv0) as [m| |] eqn:En; [|done..].
  apply bind_ok in Hx as ([e|[]] & s2 & H2%try_ok & Hx); [done|]. injection Hx as _ -> <-.
  exists pv0, (ctrl s1). split_and!; [|done|by apply svc_run'].
  destruct again; [|injection H1 as -> ->; by split]. apply try_ok in H1. exists (pv_Name pv). by apply svc_run'.
Qed.

Lemma attempts_ok k again pv last m s s' :
  increment_attempts others k again pv last s = (Ok m, s') →
  ∃ pv0 c, (pv0 = pv ∧ again = false ∧ later (ctrl s) c ∨ ∃ name, runs (ext (pv_Get name)) (Ok pv0) (ctrl s) c) ∧
    next_sequence pv0 = Ok m ∧ runs (ext (pv_Update (with_sequence m pv0))) (Ok ()) c (ctrl s').
Proof.
  revert again pv last s. induction k as [|k IH]; intros again pv last s; [done|]. cbn [increment_attempts].
  intros ([pv' r] & s1 & H1 & Hx)%bind_ok. destruct r as [e|j].
  - destruct (IsConflict e); [|done]. assert (L1 : later (ctrl s) (ctrl s1)) by nlater H1.
    apply IH in Hx as (pv0 & c & [(_ & ? & _)|[name R1]] & Hn & R2); [done|]. exists pv0, c.
    split_and!; [right; exists name|done|done]. by eapply runs_mono; [exact L1|reflexivity|].
  - injection Hx as -> <-. apply attempt_ok in H1 as (pv0 & c & Hr & Hn & R2). exists pv0, c.
    split_and!; [destruct again; [by right|left; destruct Hr; by split_and!]|done|done].
Qed.

Lemma increment_ok pv s k s' :
  incrementAttachSequenceAnnotation others pv s = (Ok k, s') → sequence_increased pv k (ctrl s) (ctrl s').
Proof.
  intros (pv0 & c & Hr & (old & Hv & H0 & Hk & Hlt)%next_sequence_ok & R)%attempts_ok.
  exists pv0, old, (with_sequence k pv0), c. split_and!; try done.
  - destruct Hr as [(-> & _ & L)|?]; [left; by split|by right].
  - unfold with_sequence, set_pv_Annotations. apply lookup_insert_eq.
Qed.

(** *** What the wireserver was sent and said *)
(** A good answer that holds the statuses [m]. *)
Definition answers (resp : HttpResponse) (m : WireserverDiskStatusResponse) : Prop :=
  200 ≤ StatusCode resp < 300 ∧ ∃ body, ResponseBody resp = Ok body ∧ unmarshal_statuses body = Ok m.
(** The statuses have [st] for the volume. *)
Definition says (m : WireserverDiskStatusResponse) (volumeID : string) (st : DiskStatus) : Prop :=
  ∃ key, m !! key = Some (Some st) ∧ ToLower key = ToLower volumeID.
(** The statuses have an entry without a status for the volume, or no entry. *)
Definition says_nothing (m : WireserverDiskStatusResponse) (volumeID : string) : Prop :=
  (∃ key, m !! key = Some None ∧ ToLower key = ToLower volumeID) ∨
  ∀ key, ToLower key = ToLower volumeID → m !! key = None.
(** The operation was sent for the volume, and answered with the statuses [m]. *)
Definition operation_sent (volumeID : string) (pv : PersistentVolume) (policy : string) (sequence : Z)
    (operation : string) (m : WireserverDiskStatusResponse) (c c' : CState W) : Prop :=
  ∃ token resp, answers resp m ∧
    runs (ext (wire_Post (MkWireserverRequest token {[ volumeID :=
      MkDiskOp (default "" (pv_Annotations pv !! consts.BlobURLAnnotation))
               (default "" (pv_Annotations pv !! consts.ClaimIdentifierAnnotation))
               sequence operation policy ]}))) (Ok resp) c c'.
(** The statuses were asked for, and the answer satisfies [Q]. *)
Definition status_read (Q : HttpResponse → Prop) (c c' : CState W) : Prop :=
  ∃ resp, runs (ext wire_Get) (Ok resp) c c' ∧ Q resp.

Lemma status_read_mono Q c0 c c' c1 :
  later c0 c → later c' c1 → status_read Q c c' → status_read Q c0 c1.
Proof. intros H0 H1 (resp & ? & ?). exists resp. split; [|done]. by eapply runs_mono. Qed.

Lemma wire_exchange_ok m s resp body s' :
  wire_exchange others m s = (Ok (resp, body), s') →
  runs (ext m) (Ok resp) (ctrl s) (ctrl s') ∧ ResponseBody resp = Ok body.
Proof.
  unfold wire_exchange. intros ([e|r] & s1 & H1%try_ok & Hx)%bind_ok; [done|].
  destruct (ResponseBody r) eqn:Eb; [|done..]. injection Hx as -> <- <-. split; [by apply svc_run'|done].
Qed.
Lemma wire_statuses_ok body m s s' :
  wire_statuses body s = (Ok m, s') → unmarshal_statuses body = Ok m ∧ s' = s.
Proof. unfold wire_statuses. destruct (unmarshal_statuses body); [|done..]. by intros [= -> ->]. Qed.
Lemma status_of_spec volumeID m :
  match status_of volumeID m with
  | Some (key, st) => m !! key = Some st ∧ ToLower key = ToLower volumeID
  | None => ∀ key, ToLower key = ToLower volumeID → m !! key = None
  end.
Proof.
  unfold status_of. destruct (find_entry _ _) as [[key st]|] eqn:E.
  - apply find_entry_Some in E as [E%elem_of_map_order Hf%EqualFold_spec]. done.
  - intros key Hf. destruct (m !! key) as [st|] eqn:Ek; [|done]. apply elem_of_map_order in Ek.
    apply (find_entry_None _ _ E) in Ek. apply EqualFold_spec in Hf. congruence.
Qed.

Lemma getDiskState_ok volumeID r s s' :
  getDiskState others volumeID s = (Ok r, s') →
  status_read (λ resp, ∃ m, answers resp m ∧
    match r with Some st => says m volumeID st | None => says_nothing m volumeID end) (ctrl s) (ctrl s').
Proof.
  unfold getDiskState. intros ([resp body] & s1 & [R Hb]%wire_exchange_ok & Hx)%bind_ok. unfold http_ok in Hx.
  destruct (_ && _) eqn:Eh; [|done]. cbn [negb] in Hx. bool_split.
  apply bind_ok in Hx as (m & s2 & [Hm ->]%wire_statuses_ok & Hx).
  pose proof (status_of_spec volumeID m) as Hs. destruct (status_of volumeID m) as [[key st]|]; [|done].
  injection Hx as <- <-. exists resp. split; [done|]. exists m. split; [split; [lia|eauto]|].
  destruct Hs. destruct st; [by exists key|]. left. by exists key.
Qed.

(** A lookup of the state that ends with [NotFound]: the wireserver answered that, or
    its statuses have no entry for the volume. *)
Lemma getDiskState_not_found volumeID e s s' :
  getDiskState others volumeID s = (Err e, s') → status_Code e = codes.NotFound →
  status_read (λ resp, StatusCode resp = 404 ∨ ∃ m, answers resp m ∧ says_nothing m volumeID) (ctrl s) (ctrl s').
Proof.
  unfold getDiskState. intros [([resp body] & s1 & [R Hb]%wire_exchange_ok & Hx)|Hx]%bind_err He.
  2: { exfalso. unfold wire_exchange in Hx. apply bind_err in Hx as [([e1|r] & s1 & _ & Hx)|Hx].
       - by injection Hx as <- _.
       - destruct (ResponseBody r); [done| |done]. by injection Hx as <- _.
       - unfold try in Hx. by destruct (svc wire_Get s) as [[]]. }
  unfold http_ok in Hx. destruct (_ && _) eqn:Eh; cbn [negb] in Hx.
  - bool_split. apply bind_err in Hx as [(m & s2 & [Hm ->]%wire_statuses_ok & Hx)|Hx].
    + pose proof (status_of_spec volumeID m) as Hs. destruct (status_of volumeID m) as [[key st]|]; [done|].
      injection Hx as _ <-. exists resp. split; [done|]. right. exists m. split; [split; [lia|eauto]|by right].
    + unfold wire_statuses in Hx. destruct (unmarshal_statuses body); [done| |done]. by injection Hx as <- _.
  - injection Hx as <- <-. exists resp. split; [done|]. left. by apply http_not_found.
Qed.

Lemma executeQAD_ok hc volumeID pv policy k op st s s' :
  executeQADDiskOperation hc others (qad_request volumeID pv policy k) op s = (Ok st, s') →
  ∃ m, operation_sent volumeID pv policy k op m (ctrl s) (ctrl s') ∧
    match st with Some x => says m volumeID x | None => says_nothing m volumeID end.
Proof.
  unfold executeQADDiskOperation. destruct hc; [|done]. cbn [negb req_DiskURI qad_request].
  intros (m & s1 & H1 & Hx)%bind_ok. exists m.
  assert (s1 = s' ∧ match st with Some x => says m volumeID x | None => says_nothing m volumeID end) as [-> Hs].
  { pose proof (status_of_spec volumeID m) as Hs. destruct (status_of volumeID m) as [[key v]|];
      cbn [fmap option_fmap option_map snd] in Hx.
    - destruct Hs as [Hk Hf]. destruct v as [v|].
      + destruct (ds_Error v); [done|]. injection Hx as <- <-. split; [done|]. by exists key.
      + destruct (String.eqb op detachOperation); [|done]. injection Hx as <- <-. split; [done|]. left. by exists key.
    - destruct (String.eqb op detachOperation); [|done]. injection Hx as <- <-. split; [done|]. by right. }
  split; [|done]. unfold attachOrDetachDiskInternal in H1. cbn [req_DiskURI qad_request] in H1.
  destruct (String.eqb volumeID ""); [done|]. destruct GetAzIdentity as [tok|] eqn:Et; [|done].
  apply bind_ok in H1 as ([e|token] & s2 & H2%try_ok & H1); [done|]. cbv zeta in H1.
  assert (L2 : later (ctrl s) (ctrl s2)).
  { eapply frame_later_node; [|exact H2]. intros P HP. apply (frame_svc _ _ _ HP).
    apply node_safe. do 2 right; left. by constructor. }
  apply bind_ok in H1 as ([resp body] & s3 & [R Hb]%wire_exchange_ok & H1). unfold http_ok in H1.
  destruct (_ && _) eqn:Eh; [|done]. bool_split. apply wire_statuses_ok in H1 as [Hm ->].
  exists token, resp. split; [split; [lia|eauto]|]. by eapply runs_mono; [exact L2|reflexivity|].
Qed.

(** C28. A disk that the node attached: the sequence number of the volume was
    increased, to one more than the volume recorded; then an attachment with that number was
    sent; and the wireserver reported
    the disk attached, in its answer or, when it answered that it was attaching the disk, in a status that was read
    afterwards.  The LUN is the one it reported. *)
Theorem qad_attach_confirmed ctx volumeID pv s lun s' :
  qad_attach d n others ctx volumeID pv s = (Ok lun, s') →
  ∃ policy sequence m c1 c2 st, getQADCachePolicy pv = Ok policy ∧
    sequence_increased pv sequence (ctrl s) c1 ∧
    operation_sent volumeID pv policy sequence "Attach" m c1 c2 ∧ later c2 (ctrl s') ∧
    ds_Status st = AttachmentStatusAttached ∧ lun = Itoa (ds_LUN st) ∧
    (says m volumeID st ∨
     (∃ st0, says m volumeID st0 ∧ ds_Status st0 = AttachmentStatusAttaching) ∧
     status_read (λ resp, ∃ m', answers resp m' ∧ says m' volumeID st) c2 (ctrl s')).
Proof.
  unfold qad_attach. intros (policy & s0 & [Hp ->]%lift_ok & Hx)%bind_ok. apply or_status_ok in Hp.
  apply bind_ok in Hx as (sequence & s1 & H1%status_on_ok%increment_ok & Hx).
  apply bind_ok in Hx as (st & s2 & (m & H2 & Hst)%executeQAD_ok & Hx).
  apply bind_ok in Hx as (st' & s3 & [Hd ->]%lift_ok & Hx). destruct st as [st|]; [injection Hd as ->|done].
  assert (L3 : later (ctrl s2) (ctrl s')).
  { revert Hx. apply dmoves_later, dmoves_of. intros P HP. node_auto HP. }
  exists policy, sequence, m, (ctrl s1), (ctrl s2).
  destruct (String.eqb_spec (ds_Status st') AttachmentStatusAttaching) as [E|E].
  - apply bind_ok in Hx as (now & s4 & H4 & Hx). apply bind_ok in Hx as ([e|l] & s5 & H5%try_ok & Hx); [done|].
    injection Hx as -> <-. apply poll_value_ok in H5; [|intros P HP; node_auto HP].
    destruct H5 as (s6 & s7 & L6 & H6 & L7). unfold attached_lun in H6.
    apply bind_ok in H6 as ([e|[x|]] & s8 & H8%try_ok & Hx); [by case_bool_decide| |done].
    destruct (String.eqb_spec (ds_Status x) AttachmentStatusAttached) as [Ex|]; [|by destruct (ds_Status x =? _)%string].
    injection Hx as <- ->. exists x. split_and!; try done. right. split; [by exists st'|].
    apply getDiskState_ok in H8. eapply status_read_mono; [|exact L7|exact H8].
    trans (ctrl s4); [nlater H4|done].
  - destruct (String.eqb_spec (ds_Status st') AttachmentStatusAttached) as [Ea|]; [|done].
    injection Hx as <- _. exists st'. split_and!; try done. by left.
Qed.

(** The volume is not attached, by the statuses [m]. *)
Definition gone (volumeID : string) (m : WireserverDiskStatusResponse) : Prop :=
  says_nothing m volumeID ∨ ∃ x, says m volumeID x ∧ ds_Status x = AttachmentStatusDetached.
(** Between [c] and [c'] the volume was detached: its sequence number was increased, then a
    detachment with that number was sent, and its answer or a status that was read
    afterwards says that the volume is not attached. *)
Definition qad_detached (volumeID : string) (pv : PersistentVolume) (c c' : CState W) : Prop :=
  ∃ policy sequence m c1 c2, sequence_increased pv sequence c c1 ∧
    operation_sent volumeID pv policy sequence "Detach" m c1 c2 ∧ later c2 c' ∧
    (gone volumeID m ∨
     status_read (λ resp, StatusCode resp = 404 ∨ ∃ m', answers resp m' ∧ gone volumeID m') c2 c').

Lemma is_detached_ok volumeID s s' :
  is_detached others volumeID s = (Ok true, s') →
  status_read (λ resp, StatusCode resp = 404 ∨ ∃ m', answers resp m' ∧ gone volumeID m') (ctrl s) (ctrl s').
Proof.
  unfold is_detached. intros (r & s1 & Hg%try_ok & Hx)%bind_ok. destruct r as [e|r].
  - case_bool_decide as Hc; [|done]. injection Hx as <-.
    destruct (getDiskState_not_found _ _ _ _ Hg Hc) as (resp & R & Hq). exists resp. split; [done|].
    destruct Hq as [?|(m & ? & ?)]; [by left|right]. exists m. split; [done|by left].
  - assert (s1 = s' ∧ match r with Some y => ds_Status y = AttachmentStatusDetached | None => True end) as [-> Hy].
    { destruct r as [y|]; [|by injection Hx as ->].
      destruct (String.eqb_spec (ds_Status y) AttachmentStatusDetached); [by injection Hx as ->|].
      by destruct (ds_Status y =? _)%string. }
    apply getDiskState_ok in Hg as (resp & R & m & Ha & Hr). exists resp. split; [done|]. right.
    exists m. split; [done|]. destruct r as [y|]; [right; by exists y|by left].
Qed.

Lemma qad_detach_ok ctx volumeID pv s s' :
  qad_detach d n others ctx volumeID pv s = (Ok (), s') → qad_detached volumeID pv (ctrl s) (ctrl s').
Proof.
  unfold qad_detach. intros (policy & s0 & [Hp ->]%lift_ok & Hx)%bind_ok.
  apply bind_ok in Hx as (sequence & s1 & H1%status_on_ok%increment_ok & Hx).
  apply bind_ok in Hx as (st & s2 & (m & H2 & Hst)%executeQAD_ok & Hx).
  assert (L3 : later (ctrl s2) (ctrl s')).
  { revert Hx. apply dmoves_later, dmoves_of. intros P HP. node_auto HP. }
  exists policy, sequence, m, (ctrl s1), (ctrl s2). split_and!; [done..|].
  destruct st as [x|]; [|by left; left].
  destruct (String.eqb_spec (ds_Status x) AttachmentStatusDetached) as [E|E]; [left; right; by exists x|right].
  destruct (String.eqb_spec (ds_Status x) AttachmentStatusDetaching) as [E'|E']; [|done].
  apply bind_ok in Hx as (now & s4 & H4 & Hx). apply bind_ok in Hx as ([e|l] & s5 & H5%try_ok & Hx); [done|].
  injection Hx as ->. destruct l. apply poll_ok in H5; [|intros P HP; node_auto HP].
  destruct H5 as (s6 & s7 & L6 & H6 & L7). apply is_detached_ok in H6.
  eapply status_read_mono; [|exact L7|exact H6]. trans (ctrl s4); [nlater H4|done].
Qed.

Lemma qad_detached_mono volumeID pv c0 c c' :
  later c0 c → qad_detached volumeID pv c c' → qad_detached volumeID pv c0 c'.
Proof.
  intros L (policy & k & m & c1 & c2 & (pv' & old & new & c3 & Hr & Hrest) & Hm). exists policy, k, m, c1, c2.
  split; [|done]. exists pv', old, new, c3. split; [|done].
  destruct Hr as [[? ?]|[name ?]]; [left; split; [done|by trans c]|right; exists name; by eapply runs_mono].
Qed.

Lemma unmount_ok target b s s' :
  unmountAndInvalidateDevice others target b s = (Ok (), s') →
  runs (ext (mount_CleanupMountPoint target true)) (Ok ()) (ctrl s) (ctrl s').
Proof.
  unfold unmountAndInvalidateDevice. intros (p & s1 & H1 & Hx)%bind_ok.
  apply bind_ok in Hx as (r & s2 & H2 & Hx). apply bind_ok in Hx as ([] & s3 & H3 & Hx).
  eapply runs_mono; [| |by apply svc_run']; [trans (ctrl s1); [nlater H1|nlater H2]|nlater Hx].
Qed.

(** C9. A volume that was unstaged: its staging path was cleaned up; and, when
    nodes attach disks, its PersistentVolume was found, and if that is one of a
    node-driven volume, then after that clean-up its sequence number was increased to one more than it recorded,
    then a detachment with that number was sent, and the wireserver has confirmed it in the answer or
    afterwards: it does not know the disk (any more), or
    reports it detached. *)
Theorem NodeUnstageVolume_ok ctx volumeID target s s' :
  NodeUnstageVolume d n others ctx volumeID target s = (Ok (), s') →
  volumeID ∉ locks (volumeLocks s) ∧
  ∃ c, runs (ext (mount_CleanupMountPoint target true)) (Ok ()) (ctrl s) c ∧ later c (ctrl s') ∧
  (nodeDrivenAttachDetachEnabled d = true →
   ∃ pv, druns (getPVFromDiskURI d others volumeID) (Ok pv) s s' ∧
   (hasQADInfo (Some pv) = true → qad_detached volumeID pv c (ctrl s'))).
Proof.
  unfold NodeUnstageVolume. intros (? & s0 & [_ ->]%guard_ok & Hx)%bind_ok.
  apply bind_ok in Hx as (? & s1 & [_ ->]%guard_ok & Hx).
  apply with_volume_lock_ok in Hx as (Hin & s2 & Hx & ->). split; [done|].
  set (sl := set_volumeLocks _ s) in Hx. change (ctrl s) with (ctrl sl).
  apply bind_ok in Hx as ([] & s3 & H3%status_on_ok & Hx).
  assert (L3 : later (ctrl sl) (ctrl s3)) by nlater H3.
  assert (L4 : later (ctrl s3) (ctrl s2)) by nlater Hx.
  apply unmount_ok in H3. exists (ctrl s3). split; [done|]. split; [done|].
  intros Hnode. apply bind_ok in Hx as (o & s4 & H4 & Hx). unfold unstage_pv in H4. rewrite Hnode in H4.
  apply bind_ok in H4 as ([e|pv] & s5 & H5%try_ok & H4); [by repeat case_match|]. injection H4 as <- ->.
  assert (L5 : later (ctrl s3) (ctrl s4)) by nlater H5.
  assert (L6 : later (ctrl s4) (ctrl s2)) by nlater Hx.
  assert (L : later (ctrl sl) (ctrl s4)) by (by trans (ctrl s3)).
  exists pv. split; [by apply (druns_mono _ _ _ _ s s3 s4 s2); [exact L3|exact L6|apply druns_here]|].
  intros Hq. rewrite Hq in Hx. apply qad_detach_ok in Hx. by eapply qad_detached_mono; [exact L5|].
Qed.

(** ** Expand *)
(** The size of the device [dev] was read as [size] bytes, without a format or a resize. *)
Definition size_read (dev : string) (size : Z) (c c' : CState W) : Prop :=
  ∃ out, saferun (ext (exec_Output "blockdev" ["--getsize64"; dev])) (Ok (out, None)) c c' ∧
    ParseInt (TrimSpace out) 64 = Some size.
(** One filesystem was resized, and none formatted: the one that findmnt reports at [path], after the
    size of its device was read and was not less than [g] GiB.  A size that is answered was read
    from that device after the resize. *)
Definition resized (path : string) (g : Z) (c c' : CState W) (r : res Z) : Prop :=
  ∃ out c1 c2 c3 q, let dev := TrimSpace out in
    saferun (ext (exec_Output "findmnt" ["-o"; "source"; "--noheadings"; "--mountpoint"; path]))
      (Ok (out, None)) c c1 ∧
    (∃ size, size_read dev size c1 c2 ∧ g ≤ RoundUpGiB size) ∧
    ext (resize_Resize dev path) c2 = (q, c3) ∧ safely c3 c' ∧
    (∀ v, r = Ok v → size_read dev v c3 c' ∧ g ≤ RoundUpGiB v).

Lemma validate_ok dev g s v s' :
  validateBlockDeviceSize others dev g s = (Ok v, s') → g ≤ RoundUpGiB v ∧ size_read dev v (ctrl s) (ctrl s').
Proof.
  unfold validateBlockDeviceSize. intros (b & s1 & H1%status_on_ok & Hx)%bind_ok. cbv zeta in Hx.
  destruct (Z.ltb_spec (RoundUpGiB b) g); [done|]. injection Hx as -> <-. split; [done|].
  unfold getBlockSizeBytes in H1. apply bind_ok in H1 as ([out err] & s2 & H2 & Hx).
  destruct err; [done|]. destruct (ParseInt _ 64) as [k|] eqn:E; [|done]. injection Hx as -> <-.
  exists out. split_and!; [by apply svc_run|done..].
Qed.
Lemma mount_path_ok p dev s s' :
  getDevicePathWithMountPath others p s = (Ok dev, s') →
  ∃ out, dev = TrimSpace out ∧
    saferun (ext (exec_Output "findmnt" ["-o"; "source"; "--noheadings"; "--mountpoint"; p])) (Ok (out, None))
      (ctrl s) (ctrl s').
Proof.
  unfold getDevicePathWithMountPath. intros ([out err] & s1 & H1 & Hx)%bind_ok. destruct err; [done|].
  cbv zeta in Hx. destruct (String.eqb _ _); [done|]. injection Hx as <- <-. exists out. split; [done|]. by apply svc_run.
Qed.
Lemma frame_validate_safe P dev g :
  frame node_safe_call others P → keeps P (validateBlockDeviceSize others dev g).
Proof. intros HP. by apply (frame_validate others _ P HP safe_id). Qed.
Lemma resizeVolume_run dev p s r s' :
  resizeVolume others dev p s = (r, s') → ∃ q, ext (resize_Resize dev p) (ctrl s) = (q, ctrl s').
Proof.
  unfold resizeVolume, bind, DriverState.svc. rewrite ctl_spec.
  destruct (ext (resize_Resize dev p) (ctrl s)) as [[]]; intros [= _ <-]; by eexists.
Qed.

Lemma after_resize dev u g (q : res unit) s r s' :
  match q with
  | Ok _ | Err _ =>
      (let! v := try (validateBlockDeviceSize others dev g) in
       match v with
       | inr finalBlockSizeBytes => ret finalBlockSizeBytes
       | inl e =>
           match q with
           | Err resizeErr => fail (EStatus codes.Internal ("could not resize volume " +:+ quote u +:+ " ("
                                +:+ quote dev +:+ "):  " +:+ Error resizeErr))
           | _ => fail (EStatus codes.Internal ("NodeExpandVolume: block device size did not match requested"
                          +:+ " size after filesystem resize: " +:+ Error e))
           end
       end) s
  | Panic => (Panic, s)
  end = (r, s') →
  safely (ctrl s) (ctrl s') ∧ ∀ v, r = Ok v → size_read dev v (ctrl s) (ctrl s') ∧ g ≤ RoundUpGiB v.
Proof.
  intros Hx. destruct q as [[]|e|]; [..|injection Hx as <- <-; by split].
  all: split; [revert Hx; apply frame_safely; intros P HP; apply keeps_bind;
    [by apply keeps_try, frame_validate_safe|intros []; [apply keeps_fail|apply keeps_ret]]|].
  all: intros v ->; apply bind_ok in Hx as ([e'|v'] & s5 & H5%try_ok & Hx); [done|].
  all: injection Hx as -> <-; by apply validate_ok in H5 as [? ?].
Qed.
Lemma expand_filesystem_safe u p g s r s' :
  expand_filesystem d others u p g s = (r, s') →
  (safely (ctrl s) (ctrl s') ∧ ∀ v, r ≠ Ok v) ∨ resized p g (ctrl s) (ctrl s') r.
Proof.
  unfold expand_filesystem. intros Hx.
  assert (F1 : ∀ P, frame node_safe_call others P →
            keeps P (status_on (getDevicePathWithMountPath others p) codes.NotFound Error)).
  { intros P HP. apply frame_status_on. by apply (frame_mount_path others _ P HP safe_id). }
  apply (bind_safely _ _ _ _ _ F1) in Hx as [(dev & s1 & H1 & L1 & Hx)|[L Hr]]; [|left; by split].
  apply status_on_ok, mount_path_ok in H1 as (out & -> & H1). set (dev := TrimSpace out) in *.
  assert (F2 : ∀ P, frame node_safe_call others P →
            keeps P (if enableDiskOnlineResize d then let! _ := try (rescanVolume others dev) in ret () else ret ())).
  { intros P HP. destruct (enableDiskOnlineResize d); [|apply keeps_ret]. apply keeps_bind; [|intros; apply keeps_ret].
    apply keeps_try. by apply (frame_rescan others _ P HP safe_id). }
  apply (bind_safely _ _ _ _ _ F2) in Hx as [([] & s2 & _ & L2 & Hx)|[L Hr]]; [|left; split; [by trans (ctrl s1)|done]].
  apply bind_safely in Hx as [(v & s3 & H3 & L3 & Hx)|[L Hr]];
    [|left; split; [by trans (ctrl s1); [|trans (ctrl s2)]|done]|intros P HP; by apply frame_status_on, frame_validate_safe].
  apply status_on_ok, validate_ok in H3 as [Hg (o & R & Ho)]. right.
  unfold bind at 1, try at 1 in Hx. destruct (resizeVolume others dev p s3) as [q0 s4] eqn:Eq.
  apply resizeVolume_run in Eq as [q Eq]. exists out, (ctrl s1), (ctrl s3), (ctrl s4), q. cbv zeta. fold dev.
  split; [done|]. split.
  { exists v. split; [|done]. exists o. split; [by eapply run_between; [exact L2|reflexivity|]|done]. }
  split; [done|].
  apply (after_resize dev u g q0). destruct q0 as [[]|e|]; exact Hx.
Qed.

(** What came of an expansion to [g] GiB of the volume at [path]. *)
Definition expanded (volumeID path : string) (g : Z) (s s' : DState W) (r : res Z) : Prop :=
  (safely (ctrl s) (ctrl s') ∧ ∀ v, r = Ok v → v = 0) ∨
  ∃ c, safely (ctrl s) c ∧ resized path g c (ctrl s') r ∧
    (kataSupported n isKataNode = true →
     ∃ s1 s2, safely (ctrl s) (ctrl s1) ∧ IsVolumeMountedByID others volumeID s1 = (Ok false, s2) ∧ safely (ctrl s2) c).
Lemma expanded_stop u p g s s' r : safely (ctrl s) (ctrl s') → (∀ v, r ≠ Ok v) → expanded u p g s s' r.
Proof. intros L Hr. left. by split; [|intros v ?%Hr]. Qed.
Lemma expanded_ctrl u p g s s0 s' s1 r :
  ctrl s0 = ctrl s → ctrl s1 = ctrl s' → expanded u p g s s' r → expanded u p g s0 s1 r.
Proof. intros E0 E1. unfold expanded. by rewrite E0, E1. Qed.

Lemma refuse_kata_ok u s s' :
  refuse_kata n isKataNode others u s = (Ok (), s') → kataSupported n isKataNode = true →
  IsVolumeMountedByID others u s = (Ok false, s').
Proof.
  unfold refuse_kata. intros Hx Hk. rewrite Hk in Hx. apply bind_ok in Hx as (b & s1 & H1%status_on_ok & Hx).
  apply guard_ok in Hx as [Hb ->]. by apply negb_true_iff in Hb as ->.
Qed.
Lemma frame_refuse_safe P u : frame node_safe_call others P → keeps P (refuse_kata n isKataNode others u).
Proof.
  intros HP. unfold refuse_kata. destruct (kataSupported _ _); [|apply keeps_ret].
  apply keeps_bind; [|intros; apply keeps_guard]. apply frame_status_on. by apply (frame_byID others _ P HP safe_id).
Qed.
Lemma frame_expands_block_safe P req : frame node_safe_call others P → keeps P (expands_block others req).
Proof.
  intros HP. unfold expands_block. apply keeps_bind; [|intros []; apply keeps_ret].
  apply frame_status_on, (frame_svc _ _ _ HP). eapply safe_host; eauto with moves_db.
Qed.

Lemma expand_steps_safe req g s r s' :
  expand_steps d n isKataNode others req g s = (r, s') → expanded (ne_VolumeId req) (ne_VolumePath req) g s s' r.
Proof.
  unfold expand_steps. intros [([] & s1 & H1 & L1 & Hx)|[L Hr]]%bind_safely;
    [|by apply expanded_stop|intros; by apply frame_refuse_safe].
  apply bind_safely in Hx as [(b & s2 & H2 & L2 & Hx)|[L Hr]];
    [|by apply expanded_stop; [trans (ctrl s1)|]|intros; by apply frame_expands_block_safe].
  assert (L : safely (ctrl s) (ctrl s2)) by (by trans (ctrl s1)). destruct b.
  { apply bind_safely in Hx as [([] & s3 & H3 & L3 & Hx)|[L' Hr]].
    - injection Hx as <- <-. left. split; [by trans (ctrl s2)|]. by intros v [= <-].
    - apply expanded_stop; [by trans (ctrl s2)|done].
    - intros P HP. destruct (enableDiskOnlineResize d); [|apply keeps_ret].
      apply keeps_bind; [|intros; apply keeps_ret]. apply keeps_try. by apply (frame_rescanAll others _ P HP safe_id). }
  assert (He : ∀ s3 s4, ctrl s3 = ctrl s2 → ctrl s4 = ctrl s' →
    expand_filesystem d others (ne_VolumeId req) (ne_VolumePath req) g s3 = (r, s4) →
    expanded (ne_VolumeId req) (ne_VolumePath req) g s s' r).
  { intros s3 s4 E3 E4 Hf%expand_filesystem_safe. rewrite E3, E4 in Hf.
    destruct Hf as [[Hs Hv]|Hs]; [apply expanded_stop; [by trans (ctrl s2)|done]|right].
    exists (ctrl s2). split_and!; [done|done|]. intros Hk. exists s, s1.
    split_and!; [reflexivity|by apply refuse_kata_ok|done]. }
  destruct (kataSupported n isKataNode) eqn:Ek; [by eapply (He s2 s')|].
  apply with_volume_lock_inv in Hx as [(_ & -> & ->)|(_ & s3 & Hf & ->)]; [by apply expanded_stop|].
  eapply (He _ s3); [| |exact Hf]; done.
Qed.

(** C17. A filesystem is not resized beyond its device.  Whatever comes of the request,
    either no filesystem was resized and no capacity is answered; or one was, that of the device that
    findmnt reports at the path of the request, and before it the size of this device was read
    and, in GiB rounded up, is not less than the size requested, and on a node that
    takes part in Kata the volume was found not to be assigned to a sandbox.  A capacity that
    is answered was then read from the same device after the resize, and is not less than the size
    requested either. *)
Theorem NodeExpandVolume_safe req s r s' :
  NodeExpandVolume d n isKataNode others req s = (r, s') →
  expanded (ne_VolumeId req) (ne_VolumePath req) (RoundUpGiB (ne_RequiredBytes req)) s s' r.
Proof.
  unfold NodeExpandVolume. cbv zeta.
  intros [(? & s0 & [_ ->]%guard_ok & _ & Hx)|[L Hr]]%bind_safely; [|by apply expanded_stop|intros P _; apply keeps_guard].
  apply bind_safely in Hx as [(? & s0 & [_ ->]%guard_ok & _ & Hx)|[L Hr]];
    [|by apply expanded_stop|intros P _; apply keeps_guard].
  unfold kata_lock in Hx. destruct (kataSupported n isKataNode); [|by apply expand_steps_safe].
  apply with_volume_lock_inv in Hx as [(_ & -> & ->)|(_ & s2 & Hx & ->)]; [by apply expanded_stop|].
  apply expand_steps_safe in Hx. by eapply expanded_ctrl; [..|exact Hx].
Qed.

(** The failure of the resize is not reported.  When the size of the device passes
    the checks, which look at the device and not at the filesystem, the answer is a
    success whatever the resize of the filesystem returned. *)
Theorem expand_ignores_resize_error u p g dev s s1 s2 s3 v s4 e s5 v' s6 :
  status_on (getDevicePathWithMountPath others p) codes.NotFound Error s = (Ok dev, s1) →
  (if enableDiskOnlineResize d then let! _ := try (rescanVolume others dev) in ret () else ret ()) s1 = (Ok (), s2) →
  validateBlockDeviceSize others dev g s2 = (Ok v, s3) →
  resizeVolume others dev p s3 = (Err e, s4) →
  validateBlockDeviceSize others dev g s4 = (Ok v', s5) → s6 = s5 →
  expand_filesystem d others u p g s = (Ok v', s6).
Proof.
  intros H1 H2 H3 H4 H5 ->. unfold expand_filesystem. rewrite (bind_eq _ _ _ _ _ H1), (bind_eq _ _ _ _ _ H2).
  unfold status_on, try, bind. rewrite H3. cbn. by rewrite H4, H5.
Qed.

(** ** Publish *)
(** The volume was given to a Kata sandbox: it is one for a single pod, the host let
    go of the staging path, and afterwards the device was recorded for the target. *)
Definition given_to_kata (req : NodePublishVolumeRequest) (cap : VolumeCapability) (s s' : DState W) : Prop :=
  GetMode cap = SINGLE_NODE_SINGLE_WRITER ∧
  ∃ lun dev info c, publish_lun req = Ok lun ∧ druns (getDevicePathWithLUN others lun) (Ok dev) s s' ∧
    mi_Device info = with_partition dev (np_VolumeContext req) ∧
    mi_Metadata info !! kataVolumeIDKey = Some (np_VolumeId req) ∧
    runs (ext (mount_CleanupMountPoint (np_StagingTargetPath req) true)) (Ok ()) (ctrl s) c ∧
    runs (ext (directvolume_AddMountInfo (np_TargetPath req) info)) (Ok ()) c (ctrl s').

Lemma kata_metadata_id u g p : kata_metadata u g p !! kataVolumeIDKey = Some u.
Proof.
  unfold kata_metadata. destruct g, p; rewrite ?lookup_insert_ne by done; apply lookup_singleton_eq.
Qed.

Lemma publish_kata_ok req cap pod s s' :
  publish_kata others req cap pod s = (Ok (), s') → given_to_kata req cap s s'.
Proof.
  unfold publish_kata. cbv zeta. intros (? & s0 & [Hm ->]%guard_ok & Hx)%bind_ok.
  apply bool_decide_eq_true in Hm. split; [done|].
  apply bind_ok in Hx as ([fstype flags] & s1 & [_ ->]%lift_ok & Hx).
  apply bind_ok in Hx as (lun & s1 & [Hl ->]%lift_ok & Hx).
  apply bind_ok in Hx as (dev & s1 & H1%status_on_ok & Hx).
  assert (L1 : later (ctrl s) (ctrl s1)) by nlater H1.
  destruct (getPodFSGroup (Some pod) cap (np_Readonly req)) as [fsGroup policy].
  apply bind_ok in Hx as ([] & s2 & H2 & Hx). assert (L2 : later (ctrl s1) (ctrl s2)) by (destruct fsGroup; nlater H2).
  apply bind_ok in Hx as ([] & s3 & H3%status_on_ok & Hx). assert (L3 : later (ctrl s2) (ctrl s3)) by nlater H3.
  apply status_on_ok in Hx. assert (L4 : later (ctrl s3) (ctrl s')) by nlater Hx.
  eexists lun, dev, _, (ctrl s3). split_and!; [done| | | |by eapply runs_mono; [|reflexivity|by apply svc_run']; trans (ctrl s1)|by apply svc_run'].
  - eapply druns_mono; [reflexivity| |by apply druns_here]. trans (ctrl s2); [done|by trans (ctrl s3)].
  - done.
  - apply kata_metadata_id.
Qed.

(** The volume is bind-mounted at its target, or was. *)
Definition bind_mounted (req : NodePublishVolumeRequest) (cap : VolumeCapability) (s s' : DState W) : Prop :=
  mounted_already (np_TargetPath req) (ctrl s) (ctrl s') ∨
  ∃ source, runs (ext (mount_Mount source (np_TargetPath req) "" ("bind" :: (if np_Readonly req then ["ro"] else []))))
              (Ok ()) (ctrl s) (ctrl s') ∧
    match access_type cap with
    | Some ABlock => ∃ lun, publish_lun req = Ok lun ∧ druns (getDevicePathWithLUN others lun) (Ok source) s s'
    | _ => source = np_StagingTargetPath req
    end.

Lemma publish_mount_ok req cap s s' :
  publish_mount n isKataNode others req cap s = (Ok (), s') → bind_mounted req cap s s'.
Proof.
  unfold publish_mount, bind_mounted. cbv zeta. destruct (access_type cap) as [[|m]|] eqn:Ea.
  - intros (lun & s0 & [Hl ->]%lift_ok & Hx)%bind_ok.
    apply bind_ok in Hx as (dev & s1 & H1%status_on_ok & Hx). assert (L1 : later (ctrl s) (ctrl s1)) by nlater H1.
    apply bind_ok in Hx as ([] & s2 & H2%status_on_ok & Hx). assert (L2 : later (ctrl s1) (ctrl s2)) by nlater H2.
    apply status_on_ok in Hx. assert (L3 : later (ctrl s2) (ctrl s')) by nlater Hx. right. exists dev. split.
    + eapply runs_mono; [|reflexivity|by apply svc_run']. by trans (ctrl s1).
    + exists lun. split; [done|]. eapply druns_mono; [reflexivity| |by apply druns_here]. by trans (ctrl s2).
  - intros ([] & s1 & H1 & Hx)%bind_ok.
    assert (L1 : later (ctrl s) (ctrl s1)) by (destruct (kataSupported _ _); nlater H1).
    apply bind_ok in Hx as (mnt & s2 & H2%status_on_ok & Hx). destruct mnt; [left|right].
    + injection Hx as <-. by eapply mounted_already_mono; [exact L1|reflexivity|apply ensureMountPoint_mounted].
    + assert (L2 : later (ctrl s1) (ctrl s2)) by nlater H2. apply status_on_ok in Hx.
      exists (np_StagingTargetPath req). split; [|done]. eapply runs_mono; [|reflexivity|by apply svc_run']. by trans (ctrl s1).
  - intros Hx%status_on_ok. right. exists (np_StagingTargetPath req).
    split; [by apply svc_run'|done].
Qed.

Lemma given_to_kata_mono req cap s0 s s' s1 :
  later (ctrl s0) (ctrl s) → ctrl s1 = ctrl s' → given_to_kata req cap s s' → given_to_kata req cap s0 s1.
Proof.
  intros L E (Hm & lun & dev & info & c & ? & Hd & ? & ? & R1 & R2). split; [done|]. exists lun, dev, info, c.
  split_and!; [done| |done|done|by eapply runs_mono; [exact L|reflexivity|]|by rewrite E].
  eapply (druns_mono _ _ _ _ s0 s s' s1); [exact L|rewrite E; reflexivity|exact Hd].
Qed.
Lemma bind_mounted_mono req cap s0 s s' s1 :
  later (ctrl s0) (ctrl s) → ctrl s1 = ctrl s' → bind_mounted req cap s s' → bind_mounted req cap s0 s1.
Proof.
  intros L E [Hm|(source & Hm & Hs)]; [left; eapply mounted_already_mono; [exact L|rewrite E; reflexivity|exact Hm]|right].
  exists source. split; [rewrite E; by eapply runs_mono; [exact L|reflexivity|]|]. destruct (access_type cap) as [[|]|]; try done.
  destruct Hs as (lun & ? & Hd). exists lun. split; [done|].
  eapply (druns_mono _ _ _ _ s0 s s' s1); [exact L|rewrite E; reflexivity|exact Hd].
Qed.

(** C16. A volume that was published: it was already (a mount at the target, or Kata's
    record of this volume for this target), or it was given to a Kata sandbox, which
    happens to a volume with a filesystem only, on a node that takes part and after
    the host has let go of it; or it is bind-mounted at the target: a filesystem
    from the staging path, a block volume from the device at its LUN. *)
Theorem NodePublishVolume_ok req s s' :
  NodePublishVolume d n isKataNode others req s = (Ok (), s') →
  ∃ cap, check_publish req = Ok cap ∧
  (kataSupported n isKataNode = true ∧ GetBlock cap = None ∧ np_VolumeId req ∉ locks (volumeLocks s) ∧
     (druns (kataPublished others (np_VolumeId req) (np_TargetPath req)) (Ok true) s s' ∨ given_to_kata req cap s s') ∨
   bind_mounted req cap s s').
Proof.
  unfold NodePublishVolume. intros (cap & s0 & [Hc ->]%lift_ok & Hx)%bind_ok. exists cap. split; [done|].
  destruct (kataSupported n isKataNode); cbn [andb] in Hx; [|right; by apply publish_mount_ok].
  case_bool_decide as Hb; [|right; by apply publish_mount_ok].
  apply with_volume_lock_ok in Hx as (Hin & s2 & Hx & ->). set (sl := set_volumeLocks _ s) in Hx.
  apply bind_ok in Hx as (published & s3 & H3 & Hx).
  assert (L3 : later (ctrl sl) (ctrl s3)) by nlater H3.
  destruct published; [left; split_and!; [done..|left]|].
  { injection Hx as <-. by apply (druns_mono _ _ _ _ _ sl s3 _); [reflexivity..|apply druns_here]. }
  apply bind_ok in Hx as (r & s4 & H4%try_ok & Hx).
  assert (L4 : later (ctrl s) (ctrl s4)) by (change (ctrl s) with (ctrl sl); trans (ctrl s3); [done|destruct r; nlater H4]).
  destruct r as [e|[pod|]]; [right| |right];
    [by eapply (bind_mounted_mono _ _ s s4 s2); [|done|apply publish_mount_ok]| |
     by eapply (bind_mounted_mono _ _ s s4 s2); [|done|apply publish_mount_ok]].
  left. split_and!; [done..|right]. apply publish_kata_ok in Hx. by eapply given_to_kata_mono; [exact L4|done|].
Qed.

(** ** Locks *)
Lemma lift_locks {A B} (r : res A) (f : A → M (DState W) B) s :
  (∀ a, volumeLocks (f a s).2 = volumeLocks s) → volumeLocks (bind (lift r) f s).2 = volumeLocks s.
Proof. intros Hf. unfold bind, lift. by destruct r. Qed.
Lemma guard_locks {A} b e (m : M (DState W) A) s :
  volumeLocks (m s).2 = volumeLocks s → volumeLocks (bind (guard_else b e) (λ _, m) s).2 = volumeLocks s.
Proof. by destruct b. Qed.
Lemma kata_locks {A} u (m : M (DState W) A) s :
  (∀ P, frame node_call others P → keeps P m) →
  volumeLocks (kata_lock n isKataNode u m s).2 = volumeLocks s.
Proof.
  intros Hm. unfold kata_lock. destruct (kataSupported _ _); [by apply (with_volume_lock_locks node_call others)|].
  by apply (Hm _ (frame_locks node_call others (volumeLocks s))).
Qed.

(** C33. Every request to the node gives the lock of its volume back, whatever happens:
    a result, an error, or a panic. *)
Theorem node_requests_release_locks ctx st u target pub ex s :
  volumeLocks (NodeStageVolume d n isKataNode DiskSkuMap others ctx st s).2 = volumeLocks s ∧
  volumeLocks (NodeUnstageVolume d n others ctx u target s).2 = volumeLocks s ∧
  volumeLocks (NodePublishVolume d n isKataNode others pub s).2 = volumeLocks s ∧
  volumeLocks (NodeUnpublishVolume n isKataNode others u target s).2 = volumeLocks s ∧
  volumeLocks (NodeExpandVolume d n isKataNode others ex s).2 = volumeLocks s.
Proof.
  split_and!.
  - unfold NodeStageVolume. apply lift_locks. intros [cap [fs fl]].
    apply (with_volume_lock_locks node_call others). intros P HP. node_auto HP.
  - unfold NodeUnstageVolume. do 2 apply guard_locks. apply (with_volume_lock_locks node_call others).
    intros P HP. node_auto HP.
  - unfold NodePublishVolume. apply lift_locks. intros cap. destruct (_ && _).
    + apply (with_volume_lock_locks node_call others). intros P HP. node_auto HP.
    + pose proof (frame_publish_mount n isKataNode others _ (frame_locks node_call others (volumeLocks s)) pub cap) as Hk.
      by apply Hk.
  - unfold NodeUnpublishVolume. do 2 apply guard_locks. apply kata_locks. intros P HP. node_auto HP.
  - unfold NodeExpandVolume. do 2 apply guard_locks.
    destruct (kataSupported n isKataNode) eqn:Ek.
    + apply kata_locks. intros P HP. unfold expand_steps. rewrite Ek. node_auto HP.
    + unfold kata_lock, expand_steps. rewrite Ek.
      unfold bind at 1, refuse_kata. rewrite Ek. cbn.
      unfold bind at 1. pose proof (frame_expands_block others _ (frame_locks node_call others (volumeLocks s)) ex s eq_refl) as Hk.
      destruct (expands_block others ex s) as [[b| |] s1]; simpl in Hk; [|done..]. rewrite <-Hk. destruct b.
      * assert (Hr : keeps (λ s0, volumeLocks s0 = volumeLocks s1)
          (let! _ := if enableDiskOnlineResize d then let! _ := try (rescanAllVolumes others) in ret () else ret () in ret 0)).
        { pose proof (frame_locks node_call others (volumeLocks s1)) as HP. node_auto HP. }
        by apply Hr.
      * apply (with_volume_lock_locks node_call others). intros P HP. by apply frame_expand.
Qed.
End proofs.

(** ** The theorems on a concrete node *)
Section witnesses.
#[local] Instance demo_here : Host Demo := demo_host (demo_node_files [] [] None).
  Local Notation D := (demo_driver true true).
  Local Notation N := (demo_node false).

Lemma formatAndMount_protects_data_witness :
  let r := formatAndMount quiet true "/dev/sdc" "/t" "ext4" ["noatime"] demo_start in
  later node_safe_call quiet (ctrl demo_start) (ctrl r.2) ∨
  "directmount" ∉ ["noatime"] ∧ "ro" ∉ ["noatime"] ∧ ∃ c,
    runs node_safe_call quiet (ext quiet (mount_GetDiskFormat "/dev/sdc")) (Ok "") (ctrl demo_start) c ∧
    (∃ out e, runs node_safe_call quiet (ext quiet (exec_CombinedOutput "fsck" ["-n"; "/dev/sdc"]))
                (Ok (out, Some e)) (ctrl demo_start) c ∧ superblock_missing "/dev/sdc" out e) ∧
    (∃ out, runs node_safe_call quiet (ext quiet (exec_CombinedOutput "wipefs"
                ["--no-act"; "--output"; "TYPE"; "--noheadings"; "/dev/sdc"])) (Ok (out, None)) (ctrl demo_start) c ∧
            blank out = true) ∧
    later node_call quiet c (ctrl r.2).
Proof.
  cbv zeta. apply (formatAndMount_protects_data quiet true "/dev/sdc" "/t" "ext4" ["noatime"] demo_start (Ok ())).
  vm_compute. reflexivity.
Defined.

Lemma findDiskByLun_sound_witness :
  let s' := (findDiskByLun quiet 2 demo_start).2 in let p := "/dev/disk/azure/scsi1/lun2" in
  p ≠ "" ∧
  ((∃ azureDisks s1, listAzureDiskPath quiet demo_start = (Ok azureDisks, s1) ∧
      scsi_disk quiet 2 azureDisks p (ctrl demo_start) (ctrl s')) ∨
   p ∈ ["/dev/disk/azure/scsi1/lun" +:+ Itoa 2; "/dev/disk/azure/data/by-lun/" +:+ Itoa 2] ∧
   runs node_safe_call quiet (ext quiet (os_Stat p)) (Ok ()) (ctrl demo_start) (ctrl s') ∧
   ∃ link, runs node_safe_call quiet (ext quiet (io_Readlink p)) (Ok link) (ctrl demo_start) (ctrl s')).
Proof. cbv zeta. apply (findDiskByLun_sound quiet 2 demo_start). vm_compute. reflexivity. Defined.

Lemma NodeStageVolume_ok_witness :
  let req := demo_stage_qad demo_single in
  let s' := (NodeStageVolume D N false ∅ quiet (MkCtx None) req demo_start).2 in
  stage_VolumeId req ∉ locks (volumeLocks demo_start) ∧
  ∃ cap fstype flags, check_stage req = Ok (cap, (fstype, flags)) ∧
  (kataSupported N false = true ∧ GetBlock cap = None ∧
   druns node_call quiet (IsVolumeMountedByID quiet (stage_VolumeId req)) (Ok true) demo_start s' ∨
   ∃ lun qadAttached dev,
     druns node_call quiet (stage_lun D N quiet (MkCtx None) req) (Ok (lun, qadAttached)) demo_start s' ∧
     (qadAttached = false → stage_PublishContext req !! consts.LUN = Some lun) ∧
     druns node_call quiet (getDevicePathWithLUN quiet lun) (Ok dev) demo_start s' ∧
     (is_Some (GetBlock cap) ∨ staged quiet req dev fstype flags demo_start s')).
Proof. cbv zeta. apply (NodeStageVolume_ok D N false ∅ quiet (MkCtx None)). vm_compute. reflexivity. Defined.

Lemma qad_attach_confirmed_witness :
  let s' := (qad_attach D N quiet (MkCtx None) demo_uri demo_pv demo_start).2 in
  ∃ sequence m c1 c2 st,
    sequence_increased quiet demo_pv sequence (ctrl demo_start) c1 ∧
    operation_sent quiet demo_uri demo_pv "None" sequence "Attach" m c1 c2 ∧
    ds_Status st = AttachmentStatusAttached ∧ "2" = Itoa (ds_LUN st).
Proof.
  edestruct (qad_attach_confirmed D N quiet (MkCtx None) demo_uri demo_pv demo_start "2")
    as (policy & k & m & c1 & c2 & st & Hp & Hi & Ho & _ & Hs & Hl & _); [vm_compute; reflexivity|].
  injection Hp as <-. exists k, m, c1, c2, st. split; [exact Hi|]. split; [exact Ho|]. by split.
Defined.

Lemma NodeUnstageVolume_ok_witness :
  let s' := (NodeUnstageVolume D N quiet (MkCtx None) demo_uri "/stage" demo_start).2 in
  nodeDrivenAttachDetachEnabled D = true ∧
  ∃ c, runs node_call quiet (ext quiet (mount_CleanupMountPoint "/stage" true)) (Ok ()) (ctrl demo_start) c ∧
  ∃ pv, druns node_call quiet (getPVFromDiskURI D quiet demo_uri) (Ok pv) demo_start s' ∧
   (hasQADInfo (Some pv) = true → qad_detached quiet demo_uri pv c (ctrl s')).
Proof.
  cbv zeta. split; [reflexivity|].
  edestruct (NodeUnstageVolume_ok D N quiet (MkCtx None) demo_uri "/stage" demo_start)
    as (_ & c & Hc & _ & Hpv); [vm_compute; reflexivity|].
  exists c. split; [exact Hc|]. exact (Hpv eq_refl).
Defined.

Lemma NodeExpandVolume_safe_witness :
  expanded N false quiet demo_uri2 "/target" 10 demo_start (NodeExpandVolume D N false quiet demo_expand demo_start).2
    (Ok (10 * GiB)).
Proof. apply (NodeExpandVolume_safe D N false quiet demo_expand demo_start). vm_compute. reflexivity. Defined.

Lemma NodePublishVolume_ok_witness :
  let req := demo_publish demo_single in let n := demo_node true in
  let s' := (NodePublishVolume D n true quiet req demo_start).2 in
  ∃ cap, check_publish req = Ok cap ∧
  (kataSupported n true = true ∧ GetBlock cap = None ∧ np_VolumeId req ∉ locks (volumeLocks demo_start) ∧
     (druns node_call quiet (kataPublished quiet (np_VolumeId req) (np_TargetPath req)) (Ok true) demo_start s' ∨
      given_to_kata quiet req cap demo_start s') ∨
   bind_mounted quiet req cap demo_start s').
Proof. cbv zeta. apply (NodePublishVolume_ok D (demo_node true) true quiet). vm_compute. reflexivity. Defined.
End witnesses.

(** A node whose resizes fail. *)
Section failing.
#[local] Instance demo_failing : Host Demo := demo_host (demo_node_files [] [] (Some (ENew "no space"))).
  Local Notation D := (demo_driver true true).
Definition demo_after {A} (m : M (DState Demo) A) (s : DState Demo) : DState Demo := (m s).2.
Lemma expand_ignores_resize_error_witness :
  let s1 := demo_after (status_on (getDevicePathWithMountPath quiet "/target") codes.NotFound Error) demo_start in
  let s2 := demo_after (try (rescanVolume quiet "/dev/sdc")) s1 in
  let s3 := demo_after (validateBlockDeviceSize quiet "/dev/sdc" 10) s2 in
  let s4 := demo_after (resizeVolume quiet "/dev/sdc" "/target") s3 in
  let s5 := demo_after (validateBlockDeviceSize quiet "/dev/sdc" 10) s4 in
  resizeVolume quiet "/dev/sdc" "/target" s3 = (Err (ENew "no space"), s4) ∧
  expand_filesystem D quiet demo_uri2 "/target" 10 demo_start = (Ok (10 * GiB), s5).
Proof.
  intros s1 s2 s3 s4 s5. split; [vm_compute; reflexivity|].
  apply (expand_ignores_resize_error D quiet demo_uri2 "/target" 10 "/dev/sdc" demo_start
           s1 s2 s3 (10 * GiB) s4 (ENew "no space") s5 (10 * GiB) s5); vm_compute; reflexivity.
Defined.
(** A disk that the controller attached is found and mounted; its filesystem cannot be resized. *)
Lemma NodeStageVolume_errors_witness :
  let req := demo_stage demo_single in
  let s' := (NodeStageVolume D (demo_node false) false ∅ quiet (MkCtx None) req demo_start).2 in
  ∃ e, NodeStageVolume D (demo_node false) false ∅ quiet (MkCtx None) req demo_start = (Err e, s') ∧
    ∃ lun, druns node_call quiet (stage_lun D (demo_node false) quiet (MkCtx None) req) (Ok (lun, false)) demo_start s' ∧
      status_Code e = codes.Internal.
Proof.
  cbv zeta. eexists. split; [vm_compute; reflexivity|].
  match goal with |- ∃ _, _ ∧ status_Code ?e = _ =>
    destruct (NodeStageVolume_errors D (demo_node false) false ∅ quiet (MkCtx None) (demo_stage demo_single) demo_start
      e (NodeStageVolume D (demo_node false) false ∅ quiet (MkCtx None) (demo_stage demo_single) demo_start).2)
      as [[[Hc|[Hc _]] _]|[(cap & s1 & s2 & _ & Hk & _)|[(s1 & s2 & _ & Hk & _)|(lun & qad & Hl & He)]]]
  end.
  - vm_compute. reflexivity.
  - vm_compute in Hc. discriminate Hc.
  - discriminate Hc.
  - discriminate Hk.
  - rewrite (stage_lun_of_context D (demo_node false) quiet (MkCtx None) (demo_stage demo_single) "2" s1 eq_refl) in Hk.
    discriminate Hk.
  - destruct qad; [discriminate He|]. exists lun. split; [exact Hl|exact He].
Defined.
End failing.
