(* ===== verification/NodeInfo.v ===== *)
(** * What a node says of itself: the limit of its volumes

    The table of the data disks of a VM size is looked up without regard to case; the
    limit that a node reports is the one it was given or comes from that table. *)
From stdpp Require Import gmap strings list.
From Stdlib Require Import ZArith Lia Ascii.
From S2P Require Import Prelude GoStrings GoErr Consts Util AzureTypes Optimization DiskUtils Cloud DemoCloud Kube.
From S2P Require Import ControllerCommon Moments AttachProofs DriverState DemoDriver Driver Host Device Wireserver NodeVolume DiskCounts Node DemoNode.
Local Open Scope string_scope.
Local Open Scope Z_scope.
Local Open Scope list_scope.

(** ** Order on texts *)
Fixpoint str_ltb (a b : string) : bool :=
  match a, b with
  | EmptyString, String _ _ => true
  | String c a', String d b' =>
      if Ascii.eqb c d then str_ltb a' b' else (N_of_ascii c <? N_of_ascii d)%N
  | _, EmptyString => false
  end.
Lemma str_ltb_irrefl a : str_ltb a a = false.
Proof. induction a as [|c a IH]; [done|]. simpl. by rewrite Ascii.eqb_refl. Qed.
Lemma str_ltb_trans a b c : str_ltb a b = true → str_ltb b c = true → str_ltb a c = true.
Proof.
  revert b c. induction a as [|x a IH]; intros [|y b] [|z c]; simpl; try done.
  destruct (Ascii.eqb_spec x y) as [->|Hxy], (Ascii.eqb_spec y z) as [->|Hyz]; try done.
  - apply IH.
  - intros Hxy'%N.ltb_lt. by rewrite (proj2 (Ascii.eqb_neq x z)) by done; intros; apply N.ltb_lt.
  - intros H1%N.ltb_lt H2%N.ltb_lt. destruct (Ascii.eqb_spec x z) as [->|]; [lia|]. apply N.ltb_lt. lia.
Qed.
(** In order, and so without duplicates. *)
Fixpoint sorted_from (a : string) (l : list string) : bool :=
  match l with [] => true | b :: l' => str_ltb a b && sorted_from b l' end.
Definition sorted (l : list string) : bool := match l with [] => true | a :: l' => sorted_from a l' end.
Lemma sorted_from_lt a l b : sorted_from a l = true → b ∈ l → str_ltb a b = true.
Proof.
  revert a. induction l as [|c l IH]; intros a; simpl; [by intros _ []%elem_of_nil|].
  intros [Hac Hl]%andb_prop [->|Hb]%elem_of_cons; [done|]. eapply str_ltb_trans; [done|by apply IH].
Qed.
Lemma sorted_NoDup l : sorted l = true → NoDup l.
Proof.
  assert (Hfrom : ∀ l a, sorted_from a l = true → NoDup (a :: l)).
  { clear. induction l as [|b l IH]; intros a; [intros _; apply NoDup_singleton|]. intros Hs. constructor.
    - intros Ha. pose proof (sorted_from_lt a (b :: l) a Hs Ha) as Hlt. by rewrite str_ltb_irrefl in Hlt.
    - apply IH. by apply andb_prop in Hs as [_ ?]. }
  destruct l as [|a l]; [constructor|apply Hfrom].
Qed.

(** ** The table *)
Definition count_ok (e : string * Z) : bool := (0 <=? e.2) && (e.2 <=? 64) && String.eqb (ToUpper e.1) e.1.
Lemma disk_counts_ok : forallb count_ok disk_counts = true.
Proof. vm_compute. reflexivity. Qed.
Lemma disk_counts_sorted : sorted disk_counts.*1 = true.
Proof. vm_compute. reflexivity. Qed.
Lemma upper_lower_ascii c : upper_ascii (lower_ascii c) = upper_ascii c.
Proof. by destruct c as [[] [] [] [] [] [] [] []]. Qed.
Lemma lower_upper_ascii c : lower_ascii (upper_ascii c) = lower_ascii c.
Proof. by destruct c as [[] [] [] [] [] [] [] []]. Qed.
Lemma ToUpper_ToLower s : ToUpper (ToLower s) = ToUpper s.
Proof. unfold ToUpper, ToLower. induction s as [|c s IH]; [done|]. simpl. by rewrite upper_lower_ascii, IH. Qed.
Lemma ToLower_ToUpper s : ToLower (ToUpper s) = ToLower s.
Proof. unfold ToUpper, ToLower. induction s as [|c s IH]; [done|]. simpl. by rewrite lower_upper_ascii, IH. Qed.
Lemma EqualFold_upper a b : EqualFold a b = true ↔ ToUpper a = ToUpper b.
Proof.
  rewrite EqualFold_spec. split; intros E.
  - by rewrite <-(ToUpper_ToLower a), E, ToUpper_ToLower.
  - by rewrite <-(ToLower_ToUpper a), E, ToLower_ToUpper.
Qed.
Lemma count_ok_spec l k c : forallb count_ok l = true → (k, c) ∈ l → 0 ≤ c ≤ 64 ∧ ToUpper k = k.
Proof.
  induction l as [|e l IH]; simpl; [by intros _ []%elem_of_nil|].
  intros [He Hl]%andb_prop [<-|Hin]%elem_of_cons; [|by apply IH]. unfold count_ok in He. simpl in He.
  apply andb_prop in He as [Hc Hk%String.eqb_eq]. apply andb_prop in Hc as [H1%Z.leb_le H2%Z.leb_le]. done.
Qed.
Lemma disk_counts_entry k c : (k, c) ∈ disk_counts → 0 ≤ c ≤ 64 ∧ ToUpper k = k.
Proof. exact (count_ok_spec disk_counts k c disk_counts_ok). Qed.
(** A text that is looked up in a table with upper-case keys in order. *)
Lemma lookup_upper l t c :
  sorted l.*1 = true → (∀ k c, (k, c) ∈ l → ToUpper k = k) →
  (list_to_map l : gmap string Z) !! ToUpper t = Some c ↔ ∃ k, (k, c) ∈ l ∧ EqualFold k t = true.
Proof.
  intros Hs Hu. rewrite <-elem_of_list_to_map by by apply sorted_NoDup. split.
  - intros He. exists (ToUpper t). split; [done|]. apply EqualFold_upper. by apply Hu in He.
  - intros (k & He & Hk%EqualFold_upper). by rewrite <-Hk, (Hu _ _ He).
Qed.
#[local] Opaque disk_counts maxDataDiskCountMap.

(** The number of data disks of an instance type: an entry of the table, up to case, or
    the default when the table has none. *)
Definition disks_of (instanceType : string) (c : Z) : Prop :=
  (∃ k, (k, c) ∈ disk_counts ∧ EqualFold k instanceType = true) ∨
  (c = defaultAzureVolumeLimit ∧ ∀ k c', (k, c') ∈ disk_counts → EqualFold k instanceType = false).

(** The limit of an instance type is the one of its entry in the table, in whatever
    case the type is written; it is said to be known exactly when the table has an
    entry, and each type has one answer, from 0 to 64. *)
Lemma GetMaxDataDiskCount_spec instanceType :
  ∃ c known, GetMaxDataDiskCount instanceType = (c, known) ∧ 0 ≤ c ≤ 64 ∧
    (∀ c', disks_of instanceType c' ↔ c' = c) ∧
    (known = true ↔ ∃ k, (k, c) ∈ disk_counts ∧ EqualFold k instanceType = true).
Proof.
  assert (Hlook : ∀ c, maxDataDiskCountMap !! ToUpper instanceType = Some c ↔
                       ∃ k, (k, c) ∈ disk_counts ∧ EqualFold k instanceType = true).
  { intros c. apply (lookup_upper disk_counts _ _ disk_counts_sorted). intros k c' He. exact (proj2 (disk_counts_entry k c' He)). }
  unfold GetMaxDataDiskCount. destruct (maxDataDiskCountMap !! ToUpper instanceType) as [c|] eqn:E; clear E.
  - exists c, true. pose proof (proj1 (Hlook c) eq_refl) as (k & He & Hk).
    destruct (disk_counts_entry k c He) as [Hr _]. split_and!; [reflexivity|lia|lia| |].
    + intros c'. split; [|intros ->; left; by exists k].
      intros [Hc'%Hlook|[_ Hno]]; [by injection Hc'|]. by rewrite (Hno k c He) in Hk.
    + split; [|reflexivity]. intros _. by exists k.
  - assert (Hno : ∀ k c, (k, c) ∈ disk_counts → EqualFold k instanceType = false).
    { intros k c He. destruct (EqualFold k instanceType) eqn:Ef; [|reflexivity].
      pose proof (proj2 (Hlook c) (ex_intro _ k (conj He Ef))) as Hc. discriminate Hc. }
    exists defaultAzureVolumeLimit, false. split_and!; [reflexivity|by vm_compute|by vm_compute| |].
    + intros c'. split; [|intros ->; right; by split].
      intros [(k & He & Hk)|[-> _]]; [by rewrite (Hno k c' He) in Hk|reflexivity].
    + split; [discriminate|]. intros (k & He & Hk). by rewrite (Hno _ _ He) in Hk.
Qed.
Lemma GetMaxDataDiskCount_limit instanceType :
  let c := (GetMaxDataDiskCount instanceType).1 in 0 ≤ c ≤ 64 ∧ disks_of instanceType c.
Proof.
  destruct (GetMaxDataDiskCount_spec instanceType) as (c & known & -> & Hr & Hd & _). split; [exact Hr|]. by apply Hd.
Qed.

(** ** The limit of a node *)
Lemma ret_value {S A} (a b : A) (s s' : S) : ret a s = (Ok b, s') → b = a.
Proof. by intros [= -> ->]. Qed.
Section limit.
  Context {W : Type} `{!Cloud W} `{!Kube W} `{!KubeNode W} `{!NodeCloud W}.
  Context (d : DriverConfig) (n : NodeConfig) (others : point → CState W → CState W).

(** C38. The number of volumes that a node reports is the limit it was configured with, or
    comes from the table: the data disks of an instance type less the reserved slots,
    from [- reserved] to [64 - reserved].  It is reported as it is: a type with as
    many data disks as slots are reserved gives 0, which means no limit, and one with
    fewer a negative number. *)
Theorem NodeGetInfo_limit s resp s' :
  0 ≤ ReservedDataDiskSlotNum n < 2 ^ 62 →
  NodeGetInfo d n others s = (Ok resp, s') →
  let reserved := ReservedDataDiskSlotNum n in
  (0 ≤ VolumeAttachLimit n ∧ ni_MaxVolumesPerNode resp = VolumeAttachLimit n) ∨
  (VolumeAttachLimit n < 0 ∧ - reserved ≤ ni_MaxVolumesPerNode resp ≤ 64 - reserved ∧
   ∃ instanceType c, disks_of instanceType c ∧ ni_MaxVolumesPerNode resp = c - reserved).
Proof.
  intros Hres ([segments t] & s1 & _ & Hx)%bind_ok. apply bind_ok in Hx as (limit & s2 & Hl & Hx).
  apply bind_ok in Hx as (id & s3 & _ & Hx). injection Hx as <- _. simpl. unfold node_limit in Hl.
  destruct (Z.ltb_spec (VolumeAttachLimit n) 0) as [Hneg|Hpos]; [right|left].
  2: { injection Hl as <- _. split; [lia|done]. }
  apply bind_ok in Hl as (instanceType & s4 & _ & Hl). apply ret_value in Hl as ->.
  destruct (GetMaxDataDiskCount_limit instanceType) as (Hr & Hd).
  rewrite int64_id by (unfold in_int64; lia). split_and!; [done|lia|lia|]. by eexists instanceType, _.
Qed.
End limit.

(** A node whose type takes 4 data disks, with 5 slots reserved: it reports a limit of
    -1. *)
Definition reserved_node (reserved : Z) : NodeConfig :=
  MkNodeConfig true None true false true false false false (-1) reserved true.
Lemma NodeGetInfo_limit_witness :
  ∃ resp s', NodeGetInfo (demo_driver true true) (reserved_node 5) quiet demo_start = (Ok resp, s') ∧
  ni_MaxVolumesPerNode resp = -1 ∧
  (let reserved := ReservedDataDiskSlotNum (reserved_node 5) in
   (0 ≤ VolumeAttachLimit (reserved_node 5) ∧ ni_MaxVolumesPerNode resp = VolumeAttachLimit (reserved_node 5)) ∨
   (VolumeAttachLimit (reserved_node 5) < 0 ∧ - reserved ≤ ni_MaxVolumesPerNode resp ≤ 64 - reserved ∧
    ∃ instanceType c, disks_of instanceType c ∧ ni_MaxVolumesPerNode resp = c - reserved)).
Proof.
  destruct (NodeGetInfo (demo_driver true true) (reserved_node 5) quiet demo_start) as [[resp|e|] s'] eqn:E;
    [|vm_compute in E; discriminate E..].
  exists resp, s'. split; [reflexivity|]. split; [by vm_compute in E; injection E as <- _|].
  apply (NodeGetInfo_limit (demo_driver true true) (reserved_node 5) quiet demo_start resp s'); [by vm_compute|exact E].
Defined.
