(* ===== verification/EndToEnd.v ===== *)
(** * From the controller to the node

    What the two servers guarantee together: the LUN that the controller publishes is
    the LUN at which the node looks for the device that it stages. *)
From stdpp Require Import gmap strings list.
From Stdlib Require Import ZArith QArith Lia Ascii.
From S2P Require Import Prelude GoStrings GoErr Consts Util AzureTypes Optimization DiskUtils Cloud DemoCloud CloudProvider Kube ControllerCommon Moments AttachProofs ManagedDisk DriverState DemoDriver Driver Frame Publish Host Device Wireserver NodeVolume Node DemoNode NodeFrame NodeProofs.
Local Open Scope string_scope.
Local Open Scope Z_scope.
Local Open Scope list_scope.

(** A LUN that is read from its text is the LUN. *)
Lemma GetDiskLUN_Itoa lun x : GetDiskLUN (Itoa lun) = Ok x → x = lun.
Proof.
  unfold GetDiskLUN, lunPathRE. intros (t & Ht & Hp)%res_bind_ok.
  assert (t = Itoa lun) as ->.
  { destruct (_ <=? _); [by injection Ht|]. by rewrite (find_submatch_slash _ _ _ (has_byte_Itoa "/" lun eq_refl ltac:(done))) in Ht. }
  unfold ParseInt_res in Hp. destruct (ParseInt _ _) as [z|] eqn:E; [|done]. injection Hp as <-.
  by apply ParseInt_Itoa in E.
Qed.

Section end_to_end.
  Context {W : Type} `{!Cloud W} `{!Kube W} `{!DiskRP W} `{!KubeNode W} `{!NodeCloud W} `{!Wire W}
          `{!Host W} `{!DeviceIO W} `{MapOrder}.
  Context (d dn : DriverConfig) (n : NodeConfig) (isKataNode : bool)
          (DiskSkuMap : gmap string (gmap string DiskSkuInfo)).
  (** The other goroutines of the controller, and those of the node. *)
  Context (others others' : point → CState W → CState W).

(** The device [dev] was found at the LUN while the request ran. *)
Definition found_at (lun : Z) (dev : string) (t t' : DState W) : Prop :=
  ∃ t1 t2, later node_call others' (ctrl t) (ctrl t1) ∧ device_of_lun others' lun dev t1 t2 ∧
    later node_call others' (ctrl t2) (ctrl t').

Lemma getDevicePathWithLUN_found lun dev t t' :
  druns node_call others' (getDevicePathWithLUN others' (Itoa lun)) (Ok dev) t t' → found_at lun dev t t'.
Proof.
  intros (t0 & t3 & L0 & Hg & L3). rewrite getDevicePathWithLUN_never_waits in Hg.
  apply bind_ok in Hg as (x & ? & [Hx%GetDiskLUN_Itoa ->]%lift_ok & Hg). subst x.
  apply bind_ok in Hg as ([] & t1 & H1 & Hg). apply bind_ok in Hg as (now & t2 & H2 & Hg).
  apply bind_ok in Hg as ([e|p] & t4 & H4%try_ok & Hg); [done|]. injection Hg as -> ->.
  exists t2, t3. split_and!; [|by apply findDiskByLun_found|done].
  trans (ctrl t0); [done|]. trans (ctrl t1).
  - eapply frame_later_node; [|exact H1]. intros P HP. node_auto HP.
  - eapply frame_later_node; [|exact H2]. intros P HP. node_auto HP.
Qed.

(** C7. A volume that the controller attaches and the node stages.  When a controller that
    checks the LUNs of attached disks (DisableDiskLunCheck is not set)
    answers a publish context and a node that runs no Kata sandboxes stages the volume
    with it, the device that is staged was found at the very LUN at which the
    controller, reading the VM, saw the disk of the volume attached to that node; and a volume with a
    filesystem is mounted at the staging path: it was a mount point that could be read
    already, or was mounted from that device. *)
Theorem publish_then_stage ctx ctx' ptr req sreq s pc s' t t' :
  DisableDiskLunCheck (d_common d) = false →
  getAttachMode (pub_VolumeContext req) = Ok consts.AttachModeControllerDriven →
  ControllerPublishVolume d others ctx ptr req s = (Ok pc, s') →
  stage_PublishContext sreq = pc → kataSupported n isKataNode = false →
  NodeStageVolume dn n isKataNode DiskSkuMap others' ctx' sreq t = (Ok (), t') →
  ∃ lun sub rg diskName dev cap fstype flags,
    GetInfoFromURI (pub_VolumeId req) = Ok (sub, rg, diskName) ∧
    seen_attached publish_call others diskName (pub_VolumeId req) (pub_NodeId req) lun (ctrl s) (ctrl s') ∧
    found_at lun dev t t' ∧ check_stage sreq = Ok (cap, (fstype, flags)) ∧
    (is_Some (GetBlock cap) ∨ staged others' sreq dev fstype flags t t').
Proof.
  intros Hck Hmode Hpub Hpc Hkata Hst.
  apply publish_split in Hpub as (_ & _ & sub & rg & dname & mode & disk & s1 & Hu & Hm & L & Hcase).
  rewrite Hmode in Hm. injection Hm as <-. destruct Hcase as [[? _]|(_ & lun & Hl & Hp)]; [done|].
  apply publish_controller_driven_ok in Hp; [|done].
  apply stage_split in Hst as (_ & cap & fstype & flags & Hc & [[Hk _]|(l & qad & dev & Hlun & _ & Hdev & Hst)]);
    [by rewrite Hk in Hkata|].
  destruct Hlun as (t1 & t2 & _ & Hlun & _).
  rewrite (stage_lun_of_context _ _ _ _ _ (Itoa lun)) in Hlun by (by rewrite Hpc). injection Hlun as <- _ _.
  exists lun, sub, rg, dname, dev, cap, fstype, flags. split_and!; [done| | |done|done].
  - by eapply seen_attached_mono; [exact L|reflexivity|].
  - by apply getDevicePathWithLUN_found.
Qed.
End end_to_end.

(** ** On the concrete driver and node *)
Section witnesses.
#[local] Instance demo_here : Host Demo := demo_host (demo_node_files [] [] None).
  Local Notation D := (demo_driver true false).
  Local Notation N := (demo_node false).
(** Two disks hang on node "n1": the next LUN is 2. *)
Definition demo_busy : DState Demo := demo_dstate
  (MkDemo 0 {[ "d1" := demo_disk "Premium_LRS" 8; "d2" := demo_disk "Premium_LRS" 8 ]}
    {[ "n1" := [MkDataDisk (Some 0) (Some "d1") None (Some (Some (ToLower demo_uri))) None;
                MkDataDisk (Some 1) (Some "d0") None None None]; "n2" := [] ]} ∅ [] None).
(** A request to stage "d2" with the publish context [pc]. *)
Definition demo_stage_with (pc : gmap string string) : NodeStageVolumeRequest :=
  MkNodeStageVolumeRequest demo_uri2 "/stage" (Some demo_single) ∅ pc.
Definition demo_answer : res (gmap string string) * DState Demo :=
  ControllerPublishVolume D quiet (MkCtx None) 1%positive (Publish.demo_publish demo_uri2 ∅) demo_busy.
Definition demo_context : gmap string string := match demo_answer.1 with Ok pc => pc | _ => ∅ end.
Definition demo_staged : DState Demo :=
  (NodeStageVolume D N false ∅ quiet (MkCtx None) (demo_stage_with demo_context) demo_start).2.
Example demo_publishes_2 : demo_context !! consts.LUN = Some "2".
Proof. vm_compute. reflexivity. Qed.
Lemma publish_then_stage_witness :
  ∃ lun sub rg diskName dev cap fstype flags,
    GetInfoFromURI demo_uri2 = Ok (sub, rg, diskName) ∧
    seen_attached publish_call quiet diskName demo_uri2 "n1" lun (ctrl demo_busy) (ctrl demo_answer.2) ∧
    found_at quiet lun dev demo_start demo_staged ∧
    check_stage (demo_stage_with demo_context) = Ok (cap, (fstype, flags)) ∧
    (is_Some (GetBlock cap) ∨ staged quiet (demo_stage_with demo_context) dev fstype flags demo_start demo_staged).
Proof.
  apply (publish_then_stage D D N false ∅ quiet quiet (MkCtx None) (MkCtx None) 1%positive
    (Publish.demo_publish demo_uri2 ∅) (demo_stage_with demo_context) demo_busy demo_context demo_answer.2
    demo_start demo_staged); [reflexivity|vm_compute; reflexivity..].
Defined.
End witnesses.
