(* ===== verification/Actions.v ===== *)
(** * Systems of concurrent goroutines

    A component whose goroutines interleave is a state with a partial function per
    action: [step a s] is [None] when the action [a] cannot be taken in [s] (a
    goroutine that waits).  [exec] runs a finite schedule, [trace] an infinite
    one; an action that cannot be taken leaves the state as it is.  What a system
    eventually does is stated with [leads_to] and derived with the rule
    [leads_to_ensures]: a condition that holds until a helpful action is scheduled,
    which fair schedules do. *)
From stdpp Require Import prelude list.
From Stdlib Require Import Lia.
From S2P Require Import Prelude.

Section actions.
  Context {St Act : Type} (step : Act → St → option St).

Definition next (a : Act) (s : St) : St := default s (step a s).
Definition exec (acts : list Act) (s : St) : St := foldl (λ s a, next a s) s acts.
Definition trace (act : nat → Act) (s : St) : nat → St :=
  fix go i := match i with O => s | S j => next (act j) (go j) end.

Lemma exec_app a1 a2 s : exec (a1 ++ a2) s = exec a2 (exec a1 s).
Proof. apply foldl_app. Qed.
Lemma exec_snoc acts a s : exec (acts ++ [a]) s = next a (exec acts s).
Proof. apply exec_app. Qed.

(** A condition that every action keeps holds after every schedule. *)
Lemma exec_ind (P : St → Prop) s acts :
  P s → (∀ a s s', P s → step a s = Some s' → P s') → P (exec acts s).
Proof.
  intros H0 Hs. induction acts as [|a acts IH] using rev_ind; [done|]. rewrite exec_snoc. unfold next.
  destruct (step a (exec acts s)) as [s'|] eqn:E; simpl; eauto.
Qed.
(** The same when the actions of the schedule satisfy a condition. *)
Lemma exec_ind_in (P : St → Prop) (ok : Act → Prop) s acts :
  Forall ok acts → P s → (∀ a s s', ok a → P s → step a s = Some s' → P s') → P (exec acts s).
Proof.
  intros Hok H0 Hs. revert Hok. induction acts as [|a acts IH] using rev_ind; [done|].
  rewrite Forall_app, Forall_singleton, exec_snoc. intros [Hok Ha]. unfold next.
  destruct (step a (exec acts s)) as [s'|] eqn:E; simpl; eauto.
Qed.

  (** ** Fair schedules *)
  Context (act : nat → Act) (s0 : St).
  Local Notation σ := (trace act s0).

(** The action [a] is scheduled again and again. *)
Definition recurs (a : Act) : Prop := ∀ i, ∃ j, i ≤ j ∧ act j = a.
Definition leads_to (P Q : St → Prop) : Prop := ∀ i, P (σ i) → ∃ j, i ≤ j ∧ Q (σ j).
Definition always (P : St → Prop) : Prop := ∀ i, P (σ i).

Lemma always_intro (P : St → Prop) :
  P s0 → (∀ i s', P (σ i) → step (act i) (σ i) = Some s' → P s') → always P.
Proof.
  intros H0 Hs i. induction i as [|i IH]; [done|]. simpl. unfold next.
  destruct (step (act i) (σ i)) as [s'|] eqn:E; simpl; eauto.
Qed.
Lemma leads_to_refl P : leads_to P P.
Proof. intros i HP. by exists i. Qed.
Lemma leads_to_weaken (P P' Q Q' : St → Prop) :
  leads_to P Q → (∀ i, P' (σ i) → P (σ i)) → (∀ i, Q (σ i) → Q' (σ i)) → leads_to P' Q'.
Proof. intros HPQ HP HQ i (j & ? & ?)%HP%HPQ. exists j. eauto. Qed.
Lemma leads_to_trans P Q R : leads_to P Q → leads_to Q R → leads_to P R.
Proof. intros HPQ HQR i (j & Hj & (k & Hk & ?)%HQR)%HPQ. exists k. split; [lia|done]. Qed.
Lemma leads_to_or P P' Q : leads_to P Q → leads_to P' Q → leads_to (λ s, P s ∨ P' s) Q.
Proof. intros H1 H2 i [?|?]; [by apply H1|by apply H2]. Qed.
(** Induction over a value that never grows. *)
Lemma leads_to_induction (P : nat → St → Prop) (Q : St → Prop) :
  (∀ k, leads_to (P k) (λ s, Q s ∨ ∃ k', k' < k ∧ P k' s)) → ∀ k, leads_to (P k) Q.
Proof.
  intros Hstep k. induction (lt_wf k) as [k _ IH]. intros i (j & Hj & [HQ|(k' & Hk & HP)])%Hstep; [by exists j|].
  destruct (IH k' Hk j HP) as (j' & ? & ?). exists j'. split; [lia|done].
Qed.
(** [P] holds until [Q] does, and the action [a], which recurs, brings [Q] about. *)
Lemma leads_to_ensures a (P Q : St → Prop) :
  recurs a →
  (∀ i, P (σ i) → act i = a → Q (next a (σ i))) →
  (∀ i s', P (σ i) → step (act i) (σ i) = Some s' → P s' ∨ Q s') →
  leads_to P Q.
Proof.
  intros Ha Hhelp Hkeep i HP. destruct (Ha i) as (j & Hj & Ej).
  assert (Hk : ∀ k, (∃ l, i ≤ l ∧ Q (σ l)) ∨ P (σ (i + k))).
  { induction k as [|k [Hq|IH]]; [right; by rewrite Nat.add_0_r|by left|].
    rewrite Nat.add_succ_r. simpl. unfold next.
    destruct (step (act (i + k)) (σ (i + k))) as [s'|] eqn:E; [|by right].
    destruct (Hkeep _ _ IH E) as [|HQ]; [by right|left]. exists (S (i + k)). split; [lia|].
    simpl. unfold next. by rewrite E. }
  destruct (Hk (j - i)) as [Hq|HPj]; [done|]. replace (i + (j - i)) with j in HPj by lia.
  exists (S j). split; [lia|]. simpl. rewrite Ej. by apply Hhelp.
Qed.
End actions.
