(* ===== verification/PreStop.v ===== *)
(** * The hook before a node stops: [prestop.go]

    [PreStop] decides whether the hook has to wait until the volumes of the node
    are detached.  The wait itself is a system of two goroutines: the hook, which
    lists the VolumeAttachments once and then blocks on a channel, and the
    handler of the informer's events, which lists them again for every event of
    the node; whichever finds none left closes the channel, through a
    [sync.Once].  The informer and the API server are the environment: the
    informer fills its cache with a list that it makes at some time after the
    start, and reports what changes in the cache after that; a deletion that it
    missed is reported with a tombstone instead of the object
    ([cache.DeletedFinalStateUnknown]). *)
From stdpp Require Import gmap strings list.
From S2P Require Import Prelude GoStrings GoErr Consts AzureTypes Cloud Kube Actions.
Local Open Scope string_scope.
Local Open Scope list_scope.

(** ** The decision *)
(** [azurediskplugin/hooks/prestop.go clusterAutoscalerTaint] *)
Definition clusterAutoscalerTaint : string := "ToBeDeletedByClusterAutoscaler".
(** [azurediskplugin/hooks/prestop.go v1KarpenterTaint] *)
Definition v1KarpenterTaint : string := "karpenter.sh/disrupted".
(** [azurediskplugin/hooks/prestop.go v1beta1KarpenterTaint] *)
Definition v1beta1KarpenterTaint : string := "karpenter.sh/disruption".
(** [v1.TaintNodeUnschedulable] *)
Definition TaintNodeUnschedulable : string := "node.kubernetes.io/unschedulable".
(** [azurediskplugin/hooks/prestop.go drainTaints 59-64] *)
Definition drainTaints : gset string :=
  {[ TaintNodeUnschedulable; clusterAutoscalerTaint; v1KarpenterTaint; v1beta1KarpenterTaint ]}.
(** [azurediskplugin/hooks/prestop.go isNodeBeingDrained] *)
Fixpoint isNodeBeingDrained (taints : list Taint) : bool :=
  match taints with
  | [] => false
  | taint :: taints' => if bool_decide (taint_Key taint ∈ drainTaints) then true else isNodeBeingDrained taints'
  end.

Section decision.
  Context {W : Type} `{!Kube W}.
  (** [azurediskplugin/hooks/prestop.go fetchNode] *)
Definition fetchNode (nodeName : string) : M W Node :=
  let! r := try (node_Get nodeName) in
  match r with
  | inl e => fail (EWrap "fetchNode: failed to retrieve node information: " e "")
  | inr node => ret node
  end.
  (** [azurediskplugin/hooks/prestop.go PreStop] *)
Definition PreStop (waitForVolumeAttachments : string → M W unit) (KUBE_NODE_NAME : string) : M W unit :=
  if String.eqb KUBE_NODE_NAME "" then fail (ENew "PreStop: KUBE_NODE_NAME missing")
  else
    let! r := try (fetchNode KUBE_NODE_NAME) in
    match r with
    | inl e => if IsNotFound e then waitForVolumeAttachments KUBE_NODE_NAME else fail e
    | inr node => if negb (isNodeBeingDrained (node_Taints node)) then ret ()
                  else waitForVolumeAttachments KUBE_NODE_NAME
    end.
End decision.

(** ** The wait *)
(** An event, with the node of the object; a deletion with a tombstone has none. *)
Inductive Event := Deleted (node : option string) | Updated (node : string).
(** [sync.Once]: the function was not called, is being called, has returned. *)
Inductive Once := Fresh | Running | Done.
(** Where a goroutine is in [checkVolumeAttachments] and [markAllDeleted]: before the
    list, before [closeOnce.Do], inside it before and after the [close]. *)
Inductive Check := Listing | Entering | Closing | Leaving.
(** The hook, in its first check and afterwards. *)
Inductive Main := MChecking (c : Check) | MWaiting | MReturned.
#[export] Instance Event_eq_dec : EqDecision Event.
Proof. solve_decision. Defined.
#[export] Instance Once_eq_dec : EqDecision Once.
Proof. solve_decision. Defined.
#[export] Instance Check_eq_dec : EqDecision Check.
Proof. solve_decision. Defined.
#[export] Instance Main_eq_dec : EqDecision Main.
Proof. solve_decision. Defined.

(** The VolumeAttachments of the API server and in the informer's cache, by name,
    with their node; the notifications that wait for the handler. *)
Record PState := MkPState {
  p_api : gmap string string;
  p_cache : option (gmap string string);
  p_queue : list Event;
  p_closed : bool;
  p_once : Once;
  p_main : Main;
  p_handler : option Check;    (**r [None]: waits for a notification *)
  p_crashed : bool;            (**r a goroutine has panicked *)
}.
Definition set_api v (s : PState) := MkPState v (p_cache s) (p_queue s) (p_closed s) (p_once s) (p_main s) (p_handler s) (p_crashed s).
Definition set_cache v (s : PState) := MkPState (p_api s) (Some v) (p_queue s) (p_closed s) (p_once s) (p_main s) (p_handler s) (p_crashed s).
Definition set_queue v (s : PState) := MkPState (p_api s) (p_cache s) v (p_closed s) (p_once s) (p_main s) (p_handler s) (p_crashed s).
Definition set_closed (s : PState) := MkPState (p_api s) (p_cache s) (p_queue s) true (p_once s) (p_main s) (p_handler s) (p_crashed s).
Definition set_once v (s : PState) := MkPState (p_api s) (p_cache s) (p_queue s) (p_closed s) v (p_main s) (p_handler s) (p_crashed s).
Definition set_main v (s : PState) := MkPState (p_api s) (p_cache s) (p_queue s) (p_closed s) (p_once s) v (p_handler s) (p_crashed s).
Definition set_handler v (s : PState) := MkPState (p_api s) (p_cache s) (p_queue s) (p_closed s) (p_once s) (p_main s) v (p_crashed s).
Definition crash (s : PState) := MkPState (p_api s) (p_cache s) (p_queue s) (p_closed s) (p_once s) (p_main s) (p_handler s) true.

(** What is scheduled: the goroutines, with the outcome of their next list; a change
    at the API server; the first list of the informer, and its look at one name,
    which is a watch event or, after the connection was lost, a part of a new list. *)
Inductive Action :=
  | AMain (listed : bool) | AHandler (listed : bool)
  | ACreate (name node : string) | ADelete (name : string)
  | AInformerList | AInformer (relist : bool) (name : string).
#[export] Instance Action_eq_dec : EqDecision Action.
Proof. solve_decision. Defined.

Section wait.
  Context (nodeName : string).

(** A VolumeAttachment of the node is there. *)
Definition attached (m : gmap string string) : Prop := map_Exists (λ _ node, node = nodeName) m.
#[export] Instance attached_dec m : Decision (attached m) := _.

  (** [azurediskplugin/hooks/prestop.go checkVolumeAttachments] One step of a goroutine
      in the check, with [markAllDeleted]; the new place is [None] when it has
      returned.  The errors of the list are logged only.  A second [close] panics. *)
Definition check_step (listed : bool) (c : Check) (s : PState) : option (option Check * PState) :=
  match c with
  | Listing => Some (if listed && negb (bool_decide (attached (p_api s))) then Some Entering else None, s)
  | Entering => match p_once s with
                | Fresh => Some (Some Closing, set_once Running s)
                | Running => None
                | Done => Some (None, s)
                end
  | Closing => Some (Some Leaving, if p_closed s then crash s else set_closed s)
  | Leaving => Some (None, set_once Done s)
  end.
  (** [azurediskplugin/hooks/prestop.go waitForVolumeAttachments 157-163] *)
Definition main_step (listed : bool) (s : PState) : option PState :=
  match p_main s with
  | MChecking c =>
      match check_step listed c s with
      | Some (c', s') => Some (set_main (match c' with Some c' => MChecking c' | None => MWaiting end) s')
      | None => None
      end
  | MWaiting => if p_closed s then Some (set_main MReturned s) else None
  | MReturned => None
  end.
  (** [azurediskplugin/hooks/prestop.go waitForVolumeAttachments 126-149] An object that
      is no VolumeAttachment leaves [va] nil, which is dereferenced. *)
Definition handle (e : Event) (s : PState) : PState :=
  match e with
  | Deleted None => crash s
  | Deleted (Some node) | Updated node =>
      if String.eqb node nodeName then set_handler (Some Listing) s else s
  end.
  (** [azurediskplugin/hooks/prestop.go waitForVolumeAttachments 125-150] *)
Definition handler_step (listed : bool) (s : PState) : option PState :=
  match p_handler s with
  | None => match p_queue s with
            | [] => None
            | e :: q => Some (handle e (set_queue q s))
            end
  | Some c => match check_step listed c s with
              | Some (c', s') => Some (set_handler c' s')
              | None => None
              end
  end.

(** The informer sees one name, whose object is new, gone, or was changed: what it adds to the notifications (there is no
    handler for additions), and its cache. *)
Definition informer_events (relist : bool) (cached now : option string) : list Event :=
  match cached, now with
  | Some old, Some new => if relist || String.eqb old new then [Updated new] else [Deleted (Some old)]
  | Some old, None => [if relist then Deleted None else Deleted (Some old)]
  | None, _ => []
  end.
Definition env_step (a : Action) (s : PState) : option PState :=
  match a with
  | ACreate name node => if p_api s !! name then None else Some (set_api (<[name := node]> (p_api s)) s)
  | ADelete name => Some (set_api (delete name (p_api s)) s)
  | AInformerList => if p_cache s then None else Some (set_cache (p_api s) s)
  | AInformer relist name =>
      match p_cache s with
      | Some m => Some (set_cache (partial_alter (λ _, p_api s !! name) name m)
                          (set_queue (p_queue s ++ informer_events relist (m !! name) (p_api s !! name)) s))
      | None => None
      end
  | _ => None
  end.
Definition pstep (a : Action) (s : PState) : option PState :=
  if p_crashed s then None
  else match a with
       | AMain listed => main_step listed s
       | AHandler listed => handler_step listed s
       | _ => env_step a s
       end.
  (** [azurediskplugin/hooks/prestop.go waitForVolumeAttachments 118-155] *)
Definition waitForVolumeAttachments (api : gmap string string) : PState :=
  MkPState api None [] false Fresh (MChecking Listing) None false.

(** ** What the wait promises

    The hook may return once there was a moment since its start at which no
    VolumeAttachment of the node was there. *)
Record Promise := MkPromise { attachments : gmap string string; was_free : bool; returned : bool }.
Inductive promise_step : Promise → Promise → Prop :=
  | promise_change m m' f r :
      promise_step (MkPromise m f r) (MkPromise m' (f || negb (bool_decide (attached m'))) r)
  | promise_return m r : promise_step (MkPromise m true r) (MkPromise m true true).
Definition promise_start (api : gmap string string) : Promise :=
  MkPromise api (negb (bool_decide (attached api))) false.
Definition promised (f : bool) (s : PState) : Promise :=
  MkPromise (p_api s) f (bool_decide (p_main s = MReturned)).
End wait.
