(* ===== verification/PreStopProofs.v ===== *)
(** * Guarantees of the hook before a node stops

    The hook waits when the node is drained or gone; its channel is closed once; it
    returns only after a moment without VolumeAttachments of the node, and does
    return when the informer notices the last deletion; it may wait for ever when
    the informer's first list comes after the last deletion. *)
From stdpp Require Import gmap strings list.
From Stdlib Require Import Lia.
From S2P Require Import Prelude GoStrings GoErr Consts AzureTypes Cloud Kube Actions PreStop.
Local Open Scope string_scope.
Local Open Scope list_scope.

(** Case analysis of the places of the goroutines. *)
Ltac step_cases :=
  repeat (case_match || simplify_option_eq || simplify_eq/= || destruct_and?).

Section proofs.
  Context (nodeName : string).
  Local Notation attached := (attached nodeName).
  Local Notation pstep := (pstep nodeName).
  Local Notation exec := (exec pstep).
  Local Notation start := waitForVolumeAttachments.

Definition main_check (m : Main) : option Check := match m with MChecking c => Some c | _ => None end.
(** A goroutine inside [closeOnce.Do]: whether it has closed the channel. *)
Definition inside (c : option Check) : option bool :=
  match c with Some Closing => Some false | Some Leaving => Some true | _ => None end.
(** At most one goroutine is inside [closeOnce.Do], and it knows about the channel. *)
Definition once_inv (s : PState) : Prop :=
  match p_once s, inside (main_check (p_main s)), inside (p_handler s) with
  | Fresh, None, None => p_closed s = false
  | Running, Some b, None | Running, None, Some b => p_closed s = b
  | Done, None, None => p_closed s = true
  | _, _, _ => False
  end.
Definition tombstone (e : Event) : bool := bool_decide (e = Deleted None).
Definition relists (a : Action) : bool := match a with AInformer b _ => b | _ => false end.
(** A goroutine that has found no VolumeAttachment of the node. *)
Definition past (c : option Check) : bool :=
  match c with Some Entering | Some Closing | Some Leaving => true | _ => false end.
Definition found_none (s : PState) : bool := p_closed s || past (main_check (p_main s)) || past (p_handler s).

Lemma start_inv api : once_inv (start api).
Proof. done. Qed.
Lemma step_inv a s s' : once_inv s → pstep a s = Some s' → once_inv s'.
Proof.
  destruct s as [api cache q cl on m h cr]. unfold once_inv, PreStop.pstep, main_step, handler_step, env_step, handle, check_step.
  simpl. intros Hi Hs. destruct cr; [done|]. destruct a; step_cases; try done; try (by destruct on, m as [[]| |]).
Qed.

Lemma inv_exec acts api : once_inv (exec acts (start api)).
Proof. apply (exec_ind pstep once_inv); [done|]. intros a s s' ??. by eapply step_inv. Qed.

(** *** No panic *)
Definition healthy (s : PState) : Prop :=
  once_inv s ∧ p_crashed s = false ∧ Forall (λ e, ¬ tombstone e) (p_queue s).
Lemma informer_no_tombstone o n : Forall (λ e, ¬ tombstone e) (informer_events false o n).
Proof. destruct o, n; simpl; repeat case_match; repeat constructor; naive_solver. Qed.
Lemma step_healthy a s s' : ¬ relists a → healthy s → pstep a s = Some s' → healthy s'.
Proof.
  intros Ha (Hi & Hc & Hq) Hs. split; [by eapply step_inv|]. revert Hi Hc Hq Hs.
  destruct s as [api cache q cl on m h cr].
  unfold once_inv, PreStop.pstep, main_step, handler_step, env_step, handle, check_step. simpl.
  intros Hi -> Hq Hs. destruct a as [l|l|nm nd|nm| |b nm]; [..|destruct b; [done|]];
    step_cases; try (inversion Hq; subst; by auto);
    try (rewrite ?Forall_app; split; [done|]; by auto using informer_no_tombstone); done.
Qed.

(** The channel is closed at most once: whatever the schedule of the two
    goroutines, the events and the failures of the lists, nothing panics while the
    informer does not miss a deletion. *)
Theorem prestop_never_panics acts api :
  Forall (λ a, ¬ relists a) acts → p_crashed (exec acts (start api)) = false.
Proof.
  intros Hok. apply (exec_ind_in pstep healthy _ _ _ Hok); [by repeat split|].
  intros a s s' ?. by apply step_healthy.
Qed.

(** *** The promise *)
Lemma step_found a s s' :
  pstep a s = Some s' → found_none s' → found_none s ∨ ¬ attached (p_api s').
Proof.
  destruct s as [api cache q cl on m h cr]. unfold found_none, PreStop.pstep, main_step, handler_step, env_step, handle, check_step.
  simpl. intros Hs. destruct cr; [done|].
  destruct (bool_decide_reflect (attached api)) as [Ha|Ha];
    destruct a; step_cases; rewrite ?andb_false_r in *; simplify_eq/=; rewrite ?orb_true_r, ?orb_false_r; auto.
Qed.
Lemma step_returned a s s' :
  pstep a s = Some s' → p_main s = MReturned → p_main s' = MReturned.
Proof.
  destruct s as [api cache q cl on m h cr]. unfold PreStop.pstep, main_step, handler_step, env_step, handle, check_step.
  simpl. intros Hs ->. destruct cr; [done|]. destruct a; by step_cases.
Qed.
Lemma step_returns a s s' :
  pstep a s = Some s' → p_main s' = MReturned → p_main s = MReturned ∨ p_closed s = true.
Proof.
  destruct s as [api cache q cl on m h cr]. unfold PreStop.pstep, main_step, handler_step, env_step, handle, check_step.
  simpl. intros Hs. destruct cr; [done|]. destruct a; step_cases; naive_solver.
Qed.

Lemma step_promise a s s' f :
  (found_none s → f = true) → pstep a s = Some s' →
  ∃ f', rtc (promise_step nodeName) (promised f s) (promised f' s') ∧ (found_none s' → f' = true).
Proof.
  intros Hf Hs. set (f' := f || negb (bool_decide (attached (p_api s')))). exists f'.
  assert (Hf' : found_none s' → f' = true).
  { unfold f'. intros [H|H]%(step_found _ _ _ Hs); [by rewrite (Hf H)|by rewrite bool_decide_eq_false_2, orb_true_r]. }
  split; [|done]. eapply rtc_l; [apply (promise_change nodeName _ (p_api s'))|]. unfold promised. fold f'.
  destruct (decide (p_main s' = MReturned)) as [Hm|Hm].
  - rewrite (bool_decide_eq_true_2 (p_main s' = _) Hm).
    destruct (step_returns _ _ _ Hs Hm) as [Hr|Hc]; [by rewrite (bool_decide_eq_true_2 _ Hr)|].
    replace f' with true; [apply rtc_once, promise_return|]. unfold f', found_none in *. rewrite Hc in Hf. by rewrite Hf.
  - rewrite (bool_decide_eq_false_2 (p_main s' = _) Hm), bool_decide_eq_false_2; [done|].
    intros Hr. by eapply Hm, step_returned.
Qed.

(** C22. The wait keeps its promise: every run of the goroutines, the informer and the
    API server is a run of the promise, in which the hook returns only after a
    moment since its start at which no VolumeAttachment of the node was there. *)
Theorem prestop_refines acts api :
  ∃ f, rtc (promise_step nodeName) (promise_start nodeName api) (promised f (exec acts (start api))).
Proof.
  cut (∃ f, rtc (promise_step nodeName) (promise_start nodeName api) (promised f (exec acts (start api))) ∧
            (found_none (exec acts (start api)) → f = true)); [intros (f & ? & _); by exists f|].
  apply (exec_ind pstep (λ s, ∃ f, rtc (promise_step nodeName) (promise_start nodeName api) (promised f s) ∧ (found_none s → f = true))).
  - eexists. split; [apply rtc_refl|done].
  - intros a s s' (f & Hr & Hf) Hs. destruct (step_promise _ _ _ _ Hf Hs) as (f' & Hr' & Hf').
    exists f'. split; [by etrans|done].
Qed.

(** *** A wait without end *)
Lemma attached_lookup m : attached m ↔ ∃ name, m !! name = Some nodeName.
Proof. unfold PreStop.attached, map_Exists. naive_solver. Qed.
Lemma attached_insert m name node : node ≠ nodeName → attached (<[name := node]> m) → attached m.
Proof.
  rewrite !attached_lookup. intros Hn [k Hk]. rewrite lookup_insert_Some in Hk. naive_solver.
Qed.
Lemma attached_delete m name : attached (delete name m) → attached m.
Proof. rewrite !attached_lookup. intros [k Hk]. rewrite lookup_delete_Some in Hk. naive_solver. Qed.
Lemma attached_alter m m' name :
  ¬ attached m' → attached (partial_alter (λ _, m' !! name) name m) → attached m.
Proof.
  rewrite !attached_lookup. intros Hm [k Hk]. destruct (decide (k = name)) as [->|Hne].
  - rewrite lookup_partial_alter_eq in Hk. destruct Hm. eauto.
  - rewrite lookup_partial_alter_ne in Hk by done. eauto.
Qed.

(** The event makes the handler list the attachments. *)
Definition concerns (e : Event) : bool := bool_decide (e = Deleted (Some nodeName) ∨ e = Updated nodeName).
Definition creates (a : Action) : bool := match a with ACreate _ node => bool_decide (node = nodeName) | _ => false end.
Lemma informer_concerns relist o n : o ≠ Some nodeName → n ≠ Some nodeName → Forall (λ e, ¬ concerns e) (informer_events relist o n).
Proof. unfold concerns. destruct o, n; simpl; repeat case_match; repeat constructor; case_bool_decide; naive_solver. Qed.
(** No goroutine can move, and no event will come. *)
Definition stuck (s : PState) : Prop :=
  p_main s = MWaiting ∧ p_closed s = false ∧ p_handler s = None ∧ Forall (λ e, ¬ concerns e) (p_queue s) ∧
  (∃ m, p_cache s = Some m ∧ ¬ attached m) ∧ ¬ attached (p_api s).
Lemma step_stuck a s s' : ¬ creates a → stuck s → pstep a s = Some s' → stuck s'.
Proof.
  destruct s as [api cache q cl on m h cr]. unfold stuck, PreStop.pstep, main_step, handler_step, env_step, check_step. simpl.
  intros Ha (-> & -> & -> & Hq & (mc & -> & Hc) & Hn) Hs. destruct cr; [done|].
  destruct a as [l|l|nm nd|nm| |b nm]; simplify_eq/=.
  - destruct q as [|e q]; simplify_eq/=. inversion Hq as [|?? He Hq']; subst. clear Hq.
    unfold handle, concerns in *. destruct e as [[nd|]|nd]; [|by eauto 10|]; (destruct (String.eqb_spec nd nodeName) as [->|]; [|by eauto 10]);
      by rewrite bool_decide_eq_true_2 in He by eauto.
  - destruct (api !! nm) eqn:E; [done|]. simplify_eq/=. split_and!; eauto. intros Hx%attached_insert; [done|].
    by case_bool_decide.
  - split_and!; eauto. by intros Hx%attached_delete.
  - split_and!; eauto.
    + apply Forall_app; split; [done|]. apply informer_concerns; intros E;
        [apply Hc|apply Hn]; apply attached_lookup; eauto.
    + eexists. split; [done|]. by intros Hx%attached_alter.
Qed.

(** The hook may wait for ever.  The last VolumeAttachment of the node goes after the
    first check and before the informer's first list: no event comes for it, and as
    long as no new one is created for the node the hook does not return, although
    none is left. *)
Theorem prestop_may_hang name acts :
  Forall (λ a, ¬ creates a) acts →
  let s := exec ([AMain true; ADelete name; AInformerList] ++ acts) (start {[ name := nodeName ]}) in
  p_main s = MWaiting ∧ ¬ attached (p_api s).
Proof.
  intros Hok s. assert (stuck s) as (? & _ & _ & _ & _ & ?); [|done].
  unfold s. rewrite exec_app. apply (exec_ind_in pstep stuck _ _ _ Hok); [|intros; by eapply step_stuck].
  assert (Ha : attached {[ name := nodeName ]}) by (apply attached_lookup; exists name; apply lookup_singleton_eq).
  assert (Hd : delete name {[ name := nodeName ]} = (∅ : gmap string string)) by apply delete_singleton_eq.
  unfold exec. cbn [foldl]. unfold next, PreStop.pstep, main_step, check_step. cbn. rewrite (bool_decide_eq_true_2 _ Ha). cbn.
  rewrite Hd. assert (¬ attached ∅) by (rewrite attached_lookup; intros [? Hk]; by rewrite lookup_empty in Hk).
  unfold stuck. cbn. split_and!; eauto.
Qed.
End proofs.

(** ** The end of the wait

    [s0] is a state of the wait at which no VolumeAttachment of the node is left; from
    there on none is created, the lists succeed, no deletion is missed, and the
    goroutines and the informer are scheduled again and again. *)
Section fair.
  Context (nodeName : string) (act : nat → Action) (s0 : PState).
  Local Notation attached := (attached nodeName).
  Local Notation pstep := (pstep nodeName).
  Local Notation leads_to := (leads_to pstep act s0).
  Local Notation concerns := (concerns nodeName).

Definition benign (a : Action) : Prop :=
  match a with
  | AMain listed | AHandler listed => listed = true
  | ACreate _ node => node ≠ nodeName
  | AInformer relist _ => relist = false
  | _ => True
  end.
Definition free (s : PState) : Prop := healthy s ∧ ¬ attached (p_api s).
Lemma step_free a s s' : benign a → free s → pstep a s = Some s' → free s'.
Proof.
  intros Ha [Hh Hn] Hs. split; [eapply step_healthy; [|done..]; destruct a; simplify_eq/=; by intros []|].
  destruct Hh as (_ & Hc & _). revert Ha Hn Hs.
  destruct s as [api cache q cl on m h cr]. unfold PreStop.pstep, main_step, handler_step, env_step, handle, check_step.
  simpl in *. subst cr. intros Ha Hn. destruct a; intros; step_cases; try done; intros Hx;
    [by apply attached_insert in Hx|by apply attached_delete in Hx].
Qed.

  Context (Hs0 : free s0) (Hbenign : ∀ i, benign (act i)).
  Context (Hmain : recurs act (AMain true)) (Hhandler : recurs act (AHandler true)).

Lemma trace_free i : free (trace pstep act s0 i).
Proof. revert i. apply always_intro; [done|]. intros i s' ??. by eapply step_free. Qed.
Lemma ensures a (P Q : PState → Prop) :
  recurs act a → (∀ s, free s → P s → Q (next pstep a s)) →
  (∀ b s s', free s → benign b → P s → pstep b s = Some s' → P s' ∨ Q s') → leads_to P Q.
Proof.
  intros Ha Hh Hk. apply (leads_to_ensures pstep act s0 a); [done| |].
  - intros i HP _. by apply Hh; [apply trace_free|].
  - intros i s' HP Hs. eapply Hk; [apply trace_free|by apply Hbenign|done..].
Qed.
(** What the other actions leave alone. *)
Lemma step_main_kept a s s' : pstep a s = Some s' → (∀ l, a ≠ AMain l) → p_main s' = p_main s.
Proof.
  destruct s as [api cache q cl on m h cr]. unfold PreStop.pstep, handler_step, env_step, handle, check_step. simpl.
  intros Hs Ha. destruct cr; [done|]. destruct a; [by destruct (Ha listed)|..]; by step_cases.
Qed.
Lemma step_handler_kept a s s' : pstep a s = Some s' → (∀ l, a ≠ AHandler l) → p_handler s' = p_handler s.
Proof.
  destruct s as [api cache q cl on m h cr]. unfold PreStop.pstep, main_step, env_step, check_step. simpl.
  intros Hs Ha. destruct cr; [done|]. destruct a; [|by destruct (Ha listed)|..]; by step_cases.
Qed.
Lemma step_queue_kept a s s' :
  pstep a s = Some s' → (∀ l, a ≠ AHandler l) → ∃ es, p_queue s' = p_queue s ++ es.
Proof.
  destruct s as [api cache q cl on m h cr]. unfold PreStop.pstep, main_step, env_step, check_step. simpl.
  intros Hs Ha. destruct cr; [done|].
  destruct a; [|by destruct (Ha listed)|..]; step_cases; solve [by eexists|exists []; by rewrite app_nil_r].
Qed.
Lemma step_cache_kept a s s' :
  pstep a s = Some s' → (∀ b name, a ≠ AInformer b name) → p_cache s = None ∨ p_cache s' = p_cache s.
Proof.
  destruct s as [api cache q cl on m h cr]. unfold PreStop.pstep, main_step, handler_step, env_step, handle, check_step. simpl.
  intros Hs Ha. destruct cr; [done|]. destruct a; [..|by destruct (Ha relist name)]; step_cases; auto.
Qed.
Lemma step_closed_kept a s s' : pstep a s = Some s' → p_closed s = true → p_closed s' = true.
Proof.
  destruct s as [api cache q cl on m h cr]. unfold PreStop.pstep, main_step, handler_step, env_step, handle, check_step. simpl.
  intros Hs ->. destruct cr; [done|]. destruct a; by step_cases.
Qed.
Lemma step_done_kept a s s' : pstep a s = Some s' → p_once s = Done → p_once s' = Done.
Proof.
  destruct s as [api cache q cl on m h cr]. unfold PreStop.pstep, main_step, handler_step, env_step, handle, check_step. simpl.
  intros Hs ->. destruct cr; [done|]. destruct a; by step_cases.
Qed.

Lemma ensures_main (P Q : PState → Prop) :
  (∀ s, free s → P s → Q (next pstep (AMain true) s)) →
  (∀ b s s', (∀ l, b ≠ AMain l) → P s → pstep b s = Some s' → P s') → leads_to P Q.
Proof.
  intros Hh Hk. apply (ensures (AMain true)); [exact Hmain|exact Hh|]. intros b s s' Hf Hb HP Hs.
  destruct b as [l| | | | |]; [|left; refine (Hk _ s s' _ HP Hs); done..]. simpl in Hb. subst l. right. specialize (Hh s Hf HP).
  unfold next in Hh. by rewrite Hs in Hh.
Qed.
Lemma ensures_handler (P Q : PState → Prop) :
  (∀ s, free s → P s → Q (next pstep (AHandler true) s)) →
  (∀ b s s', (∀ l, b ≠ AHandler l) → P s → pstep b s = Some s' → P s') → leads_to P Q.
Proof.
  intros Hh Hk. apply (ensures (AHandler true)); [exact Hhandler|exact Hh|]. intros b s s' Hf Hb HP Hs.
  destruct b as [|l| | | |]; [left; refine (Hk _ s s' _ HP Hs); done| |left; refine (Hk _ s s' _ HP Hs); done..]. simpl in Hb. subst l. right. specialize (Hh s Hf HP).
  unfold next in Hh. by rewrite Hs in Hh.
Qed.

(** One step of a goroutine that is scheduled. *)
Ltac scheduled :=
  let s := fresh "s" in intros s [(Hinv & Hcr & _) Hfree];
  destruct s as [api cache q cl on m h cr];
  unfold next, PreStop.pstep, main_step, handler_step, handle, check_step, once_inv in *; simpl in *; intros; destruct_and?; subst;
  rewrite ?(bool_decide_eq_false_2 _ Hfree) in *; simpl in *.
Ltac kept :=
  let b := fresh "b" in let s := fresh "s" in let s' := fresh "s'" in
  intros b s s' Hb HP Hs; destruct_and?;
  repeat match goal with
  | H : p_closed s = true |- _ => apply (step_closed_kept _ _ _ Hs) in H
  | H : p_once s = Done |- _ => apply (step_done_kept _ _ _ Hs) in H
  end;
  try (rewrite (step_main_kept _ _ _ Hs) by done); try (rewrite (step_handler_kept _ _ _ Hs) by done); auto.

Definition signal (s : PState) : Prop := p_closed s = true.
Lemma main_closing : leads_to (λ s, p_main s = MChecking Closing) signal.
Proof. apply ensures_main; [scheduled|kept]. unfold signal. by destruct on, (inside h), cl. Qed.
Lemma handler_closing : leads_to (λ s, p_handler s = Some Closing) signal.
Proof. apply ensures_handler; [scheduled|kept]. unfold signal. by destruct on, (inside (main_check m)), cl. Qed.
Definition closing (s : PState) : Prop := p_main s = MChecking Closing ∨ p_handler s = Some Closing ∨ signal s.
Lemma closing_signal : leads_to closing signal.
Proof. apply leads_to_or; [apply main_closing|]. apply leads_to_or; [apply handler_closing|apply leads_to_refl]. Qed.
(** While the function of the once runs, a goroutine is about to close, or has closed. *)
Lemma running_closing s : once_inv s → p_once s ≠ Fresh → closing s.
Proof.
  unfold once_inv, closing, signal. destruct s as [api cache q cl [] m h cr]; simpl; [done|..].
  all: destruct m as [[]| |], h as [[]|]; simpl; tauto.
Qed.
Lemma main_entering : leads_to (λ s, p_main s = MChecking Entering) signal.
Proof.
  eapply leads_to_trans; [|apply closing_signal]. apply ensures_main; [|kept].
  intros s [(Hinv & Hcr & _) _] Hm. destruct (decide (p_once s = Fresh)) as [Ho|Ho].
  - left. unfold next, PreStop.pstep, main_step, check_step. by rewrite Hcr, Hm, Ho.
  - apply (running_closing _ Hinv) in Ho. destruct Ho as [?|[?|Hc]]; [congruence|..];
      unfold next; destruct (pstep _ s) as [s'|] eqn:Hs; simpl; unfold closing, signal; auto.
    + right; left. by rewrite (step_handler_kept _ _ _ Hs).
    + right; right. by eapply step_closed_kept.
Qed.
Lemma handler_entering : leads_to (λ s, p_handler s = Some Entering) signal.
Proof.
  eapply leads_to_trans; [|apply closing_signal]. apply ensures_handler; [|kept].
  intros s [(Hinv & Hcr & _) _] Hm. destruct (decide (p_once s = Fresh)) as [Ho|Ho].
  - right; left. unfold next, PreStop.pstep, handler_step, check_step. by rewrite Hcr, Hm, Ho.
  - apply (running_closing _ Hinv) in Ho. destruct Ho as [Hc|[?|Hc]]; [|congruence|];
      unfold next; destruct (pstep _ s) as [s'|] eqn:Hs; simpl; unfold closing, signal; auto.
    + left. by rewrite (step_main_kept _ _ _ Hs).
    + right; right. by eapply step_closed_kept.
Qed.
Lemma main_listing : leads_to (λ s, p_main s = MChecking Listing) signal.
Proof. eapply leads_to_trans; [|apply main_entering]. apply ensures_main; [by scheduled|kept]. Qed.
Lemma handler_listing : leads_to (λ s, p_handler s = Some Listing) signal.
Proof. eapply leads_to_trans; [|apply handler_entering]. apply ensures_handler; [by scheduled|kept]. Qed.

(** A goroutine in the check, now that no attachment is left. *)
Lemma main_checks c : leads_to (λ s, p_main s = MChecking c) signal.
Proof.
  destruct c; [apply main_listing|apply main_entering|apply main_closing|]. intros i Hm. exists i. split; [done|].
  destruct (trace_free i) as [[Hinv _] _]. revert Hinv Hm. generalize (trace pstep act s0 i). clear.
  intros [api cache q cl [] m h cr] Hinv Hm; unfold once_inv, signal in *; simpl in *; subst; simpl in *; by destruct (inside h).
Qed.
Lemma handler_checks c : leads_to (λ s, p_handler s = Some c) signal.
Proof.
  destruct c; [apply handler_listing|apply handler_entering|apply handler_closing|]. intros i Hm. exists i. split; [done|].
  destruct (trace_free i) as [[Hinv _] _]. revert Hinv Hm. generalize (trace pstep act s0 i). clear.
  intros [api cache q cl [] m h cr] Hinv Hm; unfold once_inv, signal in *; simpl in *; subst; simpl in *;
    by destruct (inside (main_check m)).
Qed.

(** An event of the node waits behind [k] others. *)
Definition pending (k : nat) (s : PState) : Prop :=
  ∃ q1 e q2, p_queue s = q1 ++ e :: q2 ∧ length q1 = k ∧ concerns e.
Lemma pending_kept k a s s' :
  pstep a s = Some s' → (∀ l, a ≠ AHandler l) → pending k s → pending k s'.
Proof.
  intros Hs Ha (q1 & e & q2 & Hq & ? & ?). destruct (step_queue_kept _ _ _ Hs Ha) as [es Hq'].
  exists q1, e, (q2 ++ es). split_and!; [|done..]. by rewrite Hq', Hq, <-app_assoc.
Qed.
Lemma pending_signal k : leads_to (pending k) signal.
Proof.
  revert k. apply leads_to_induction. intros k i HP.
  destruct (p_handler (trace pstep act s0 i)) as [c|] eqn:Hh.
  { destruct (handler_checks c i Hh) as (j & ? & ?). exists j. eauto. }
  cut (leads_to (λ s, p_handler s = None ∧ pending k s)
         (λ s, signal s ∨ ∃ k', k' < k ∧ pending k' s)); [intros HL; by apply HL|]. clear i HP Hh.
  apply leads_to_trans with (λ s, p_handler s = Some Listing ∨ ∃ k', k' < k ∧ pending k' s).
  - apply ensures_handler.
    + intros s [(_ & Hcr & Hq) _] [Hh (q1 & e & q2 & Eq & Hk & He)].
      unfold next, PreStop.pstep, handler_step. rewrite Hcr, Hh, Eq. destruct q1 as [|e1 q1]; simpl.
      * left. unfold concerns in He. case_bool_decide as Hc; [|done]. destruct Hc as [->| ->]; simpl; by rewrite String.eqb_refl.
      * right. exists (length q1). split; [simpl in Hk; lia|]. exists q1, e, q2. split_and!; try done.
        rewrite Eq in Hq. inversion Hq as [|?? Ht _]; subst. unfold handle, tombstone in *.
        destruct e1 as [[nd|]|nd]; [by case_match| |by case_match]. by rewrite bool_decide_eq_true_2 in Ht.
    + intros b s s' Hb [Hh HP] Hs. split; [by rewrite (step_handler_kept _ _ _ Hs)|by eapply pending_kept].
  - apply leads_to_or.
    + intros i (j & ? & ?)%handler_listing. eauto.
    + intros i Hi. eauto.
Qed.

(** The informer's cache has an attachment of the node, which is gone. *)
Definition cached (name : string) (s : PState) : Prop := ∃ m, p_cache s = Some m ∧ m !! name = Some nodeName.
Lemma cached_signal name : recurs act (AInformer false name) → leads_to (cached name) signal.
Proof.
  intros Hinformer.
  apply leads_to_trans with (λ s, ∃ k, pending k s); [|intros i [k Hk]; by eapply pending_signal].
  assert (Hinf : ∀ s s', free s → cached name s → pstep (AInformer false name) s = Some s' → ∃ k, pending k s').
  { intros s s' [(_ & Hcr & _) Hn] (m & Hm & Hl). unfold PreStop.pstep, env_step. rewrite Hcr, Hm, Hl.
    intros [= <-]. exists (length (p_queue s)), (p_queue s), (Deleted (Some nodeName)), []. split_and!; [|done|].
    - simpl. f_equal. destruct (p_api s !! name) as [nd|] eqn:E; [|done]. simpl.
      destruct (String.eqb_spec nodeName nd) as [<-|]; [|done]. destruct Hn. apply attached_lookup. eauto.
    - unfold concerns. by rewrite bool_decide_eq_true_2 by auto. }
  apply (ensures (AInformer false name)); [done| |].
  - intros s Hf Hc. unfold next. destruct (pstep _ s) as [s'|] eqn:Hs; simpl; [by eapply Hinf|].
    destruct Hc as (m & Hm & _). revert Hs. destruct Hf as [(_ & Hcr & _) _].
    unfold PreStop.pstep, env_step. by rewrite Hcr, Hm.
  - intros b s s' Hf Hb Hc Hs. destruct (decide (b = AInformer false name)) as [->|Hne]; [right; by eapply Hinf|left].
    destruct Hc as (m & Hm & Hl). destruct b as [l|l|nm nd|nm| |rl nm];
      try (destruct (step_cache_kept _ _ _ Hs ltac:(done)) as [Hx|Hx]; [congruence|]; exists m; by rewrite Hx).
    simpl in Hb. subst rl. revert Hs. destruct Hf as [(_ & Hcr & _) _]. unfold PreStop.pstep, env_step. rewrite Hcr, Hm.
    intros [= <-]. eexists. split; [done|]. rewrite lookup_partial_alter_ne; [done|]. by intros ->.
Qed.

(** The channel is closed: the hook leaves its check, if it is in it, and returns. *)
Definition main_returned (s : PState) : Prop := p_main s = MReturned.
Lemma waiting_returns : leads_to (λ s, signal s ∧ p_main s = MWaiting) main_returned.
Proof. unfold signal, main_returned. apply ensures_main; [by scheduled|kept]. Qed.
Lemma leaving_returns : leads_to (λ s, signal s ∧ p_main s = MChecking Leaving) main_returned.
Proof. eapply leads_to_trans; [|apply waiting_returns]. unfold signal. apply ensures_main; [by scheduled|kept]. Qed.
Lemma done_returns : leads_to (λ s, signal s ∧ p_once s = Done ∧ p_main s = MChecking Entering) main_returned.
Proof. eapply leads_to_trans; [|apply waiting_returns]. unfold signal. apply ensures_main; [by scheduled|kept]. Qed.
Lemma entering_returns : leads_to (λ s, signal s ∧ p_main s = MChecking Entering) main_returned.
Proof.
  apply leads_to_trans with (λ s, (signal s ∧ p_once s = Done ∧ p_main s = MChecking Entering) ∨
                                  (signal s ∧ p_handler s = Some Leaving ∧ p_main s = MChecking Entering)).
  - intros i [Hs Hm]. exists i. split; [done|]. destruct (trace_free i) as [[Hinv _] _].
    revert Hinv Hs Hm. generalize (trace pstep act s0 i). clear. unfold once_inv, signal.
    intros [api cache q cl [] m [[]|] cr]; simpl; intros; subst; simpl in *; auto; done.
  - apply leads_to_or; [apply done_returns|]. eapply leads_to_trans; [|apply done_returns].
    unfold signal. apply (ensures (AHandler true)); [done| |].
    + by scheduled.
    + intros b s s' Hf Hb (Hc & Hh & Hm) Hs. assert (Hc' := step_closed_kept _ _ _ Hs Hc).
      destruct Hf as [(Hinv & Hcr & _) _]. destruct b as [l|l|nm nd|nm| |rl nm];
        try (left; rewrite (step_handler_kept _ _ _ Hs) by done; rewrite (step_main_kept _ _ _ Hs) by done; done).
      * revert Hs. unfold PreStop.pstep, main_step, check_step. rewrite Hcr, Hm.
        revert Hinv. unfold once_inv. rewrite Hm, Hh, Hc. simpl. by destruct (p_once s).
      * right. revert Hs. unfold PreStop.pstep, handler_step, check_step. rewrite Hcr, Hh. by intros [= <-].
Qed.
Lemma signal_returns : leads_to signal main_returned.
Proof.
  assert (HL : leads_to (λ s, signal s ∧ p_main s = MChecking Listing) main_returned).
  { eapply leads_to_trans; [|apply entering_returns]. unfold signal. apply ensures_main; [by scheduled|kept]. }
  intros i Hs. destruct (p_main (trace pstep act s0 i)) as [[]| |] eqn:Hm.
  - by apply HL.
  - by apply entering_returns.
  - destruct (trace_free i) as [[Hinv _] _]. revert Hinv Hs Hm. generalize (trace pstep act s0 i). clear.
    intros [api cache q cl [] m h cr] Hinv Hs Hm; unfold once_inv, signal in *; simpl in *; subst; simpl in *; by destruct (inside h).
  - by apply leaving_returns.
  - by apply waiting_returns.
  - by exists i.
Qed.

(** The last deletion has been noticed, or will be: the informer looks at a name in its
    cache again and again. *)
Definition noticed (s : PState) : Prop :=
  signal s ∨ (∃ c, p_main s = MChecking c) ∨ (∃ c, p_handler s = Some c) ∨ (∃ k, pending k s) ∨
  (∃ name, cached name s ∧ recurs act (AInformer false name)).
Lemma noticed_returns : leads_to noticed main_returned.
Proof.
  eapply leads_to_trans; [|apply signal_returns]. intros i [Hs|[[c Hc]|[[c Hc]|[[k Hk]|(nm & Hn & Hi)]]]]; [by exists i|..].
  - by eapply main_checks.
  - by eapply handler_checks.
  - by eapply pending_signal.
  - by eapply cached_signal.
Qed.
End fair.

Section liveness.
  Context (nodeName : string).

(** C23. The hook returns.  Once no VolumeAttachment of the node is left, and the hook is
    still in its first check, or an event of the node waits to be handled or is
    being handled, or the informer's cache still has an attachment of the node and the
    informer looks at it again and again, the hook returns: in every infinite run in
    which no new attachment is created for the node, the lists succeed, no deletion
    is missed, and the goroutines are scheduled again and again. *)
Theorem prestop_returns acts api act :
  Forall (λ a, ¬ relists a) acts →
  let s := exec (pstep nodeName) acts (waitForVolumeAttachments api) in
  ¬ attached nodeName (p_api s) → noticed nodeName act s →
  (∀ i, benign nodeName (act i)) →
  recurs act (AMain true) → recurs act (AHandler true) →
  ∃ i, p_main (trace (pstep nodeName) act s i) = MReturned.
Proof.
  intros Hok s Hn Hs Hb Hm Hh. assert (Hf : free nodeName s).
  { split; [|done]. apply (exec_ind_in (pstep nodeName) healthy _ _ _ Hok); [by repeat split|].
    intros a s1 s2 ?. by apply step_healthy. }
  destruct (noticed_returns nodeName act s Hf Hb Hm Hh 0 Hs) as (i & _ & ?). by exists i.
Qed.
End liveness.

(** A deletion that the informer missed ends the hook with a panic: the tombstone that
    is reported for it is no VolumeAttachment, and the handler dereferences the nil
    pointer that the failed assertion leaves, while the hook still waits. *)
Theorem prestop_tombstone_panics :
  let s := exec (pstep "node") [AInformerList; AMain true; ADelete "va"; AInformer true "va"; AHandler true]
             (waitForVolumeAttachments {[ "va" := "node" ]}) in
  p_crashed s = true ∧ p_main s = MWaiting.
Proof. by vm_compute. Qed.

(** ** Witnesses *)
Definition demo_vas : gmap string string := {[ "va" := "node" ]}.
(** The informer and the first check see the attachment, which goes afterwards. *)
Definition demo_noticed : list Action := [AInformerList; AMain true; ADelete "va"].
(** The informer, the handler and the hook in turn. *)
Definition demo_turns (i : nat) : Action :=
  match i mod 3 with 0 => AInformer false "va" | 1 => AHandler true | _ => AMain true end.
Lemma demo_recurs r a : r < 3 → demo_turns r = a → recurs demo_turns a.
Proof.
  intros Hr Ha i. exists (r + i * 3). split; [lia|]. unfold demo_turns in *.
  rewrite Nat.Div0.mod_add by lia. done.
Qed.
Lemma prestop_never_panics_witness : p_crashed (exec (pstep "node") demo_noticed (waitForVolumeAttachments demo_vas)) = false.
Proof. apply (prestop_never_panics "node"). repeat constructor; by intros []. Defined.
Lemma prestop_may_hang_witness :
  let s := exec (pstep "node") ([AMain true; ADelete "va"; AInformerList] ++ [AHandler true; AMain true])
             (waitForVolumeAttachments {[ "va" := "node" ]}) in
  p_main s = MWaiting ∧ ¬ attached "node" (p_api s).
Proof. apply (prestop_may_hang "node" "va"). repeat constructor; by intros []. Defined.
Lemma prestop_returns_witness :
  ∃ i, p_main (trace (pstep "node") demo_turns
                 (exec (pstep "node") demo_noticed (waitForVolumeAttachments demo_vas)) i) = MReturned.
Proof.
  apply (prestop_returns "node" demo_noticed demo_vas).
  - repeat constructor; by intros [].
  - apply (bool_decide_eq_false_1 (attached "node" _)). by vm_compute.
  - do 4 right. exists "va". split; [|by apply (demo_recurs 0); [lia|]]. eexists. split; [by vm_compute|].
    by vm_compute.
  - intros i. unfold demo_turns. by destruct (i mod 3) as [|[]].
  - by apply (demo_recurs 2); [lia|].
  - by apply (demo_recurs 1); [lia|].
Defined.
