(* ===== verification/FormatSem.v ===== *)
(** * The limit on concurrent formats: [mkfsWithConcurrencyLimit]

    Callers that format disks share a buffered channel of [limit] tokens.  A caller
    waits until it can send a token, starts a helper that takes a token back when
    the caller is done or the format takes too long, and runs mkfs.  The system of
    the callers and their helpers is the one of [Actions]; [Device] has the
    sequential view, in which the send is one wait. *)
From stdpp Require Import prelude list.
From Stdlib Require Import Lia.
From S2P Require Import Prelude Actions.

(** A caller with its helper: before the send; mkfs runs and the helper waits; mkfs
    runs and the helper has timed out; [done] is closed and the helper has not seen
    it; both have ended. *)
Inductive Format := Waiting | Formatting | Late | Finished | Ended.
#[export] Instance Format_eq_dec : EqDecision Format.
Proof. solve_decision. Defined.
(** The tokens in the channel. *)
Record Formats := MkFormats { f_tokens : nat; f_calls : list Format }.

(** What is scheduled: a new call, and for the call [i] the send, the end of mkfs, and
    the helper, which has found [done] closed or its timer fired. *)
Inductive FormatAction := FCall | FAcquire (i : nat) | FFinish (i : nat) | FDone (i : nat) | FTimeout (i : nat).
#[export] Instance FormatAction_eq_dec : EqDecision FormatAction.
Proof. solve_decision. Defined.

Section formats.
  Context (limit : nat).

(** The helper receives a token: it waits while there is none. *)
Definition give_back (i : nat) (p : Format) (s : Formats) : option Formats :=
  match f_tokens s with
  | O => None
  | S tokens => Some (MkFormats tokens (<[i := p]> (f_calls s)))
  end.
  (** [azuredisk/azure_common_linux.go mkfsWithConcurrencyLimit] *)
Definition format_step (a : FormatAction) (s : Formats) : option Formats :=
  match a with
  | FCall => Some (MkFormats (f_tokens s) (f_calls s ++ [Waiting]))
  | FAcquire i =>
      match f_calls s !! i with
      | Some Waiting => if (f_tokens s <? limit)%nat
                        then Some (MkFormats (S (f_tokens s)) (<[i := Formatting]> (f_calls s))) else None
      | _ => None
      end
  | FFinish i =>
      match f_calls s !! i with
      | Some Formatting => Some (MkFormats (f_tokens s) (<[i := Finished]> (f_calls s)))
      | Some Late => Some (MkFormats (f_tokens s) (<[i := Ended]> (f_calls s)))
      | _ => None
      end
  | FDone i => match f_calls s !! i with Some Finished => give_back i Ended s | _ => None end
  | FTimeout i =>
      match f_calls s !! i with
      | Some Formatting => give_back i Late s
      | Some Finished => give_back i Ended s
      | _ => None
      end
  end.
Definition no_formats : Formats := MkFormats 0 [].

(** The calls that hold a token, and those whose mkfs runs. *)
Definition holds (p : Format) : bool := bool_decide (p = Formatting ∨ p = Finished).
Definition runs_mkfs (p : Format) : bool := bool_decide (p = Formatting ∨ p = Late).
Definition is_late (p : Format) : bool := bool_decide (p = Late).
Definition count (f : Format → bool) (l : list Format) : nat := length (List.filter f l).
Definition is_timeout (a : FormatAction) : bool := match a with FTimeout _ => true | _ => false end.
Definition timeouts (acts : list FormatAction) : nat :=
  length (List.filter is_timeout acts).

Lemma count_insert f l i p q :
  l !! i = Some p → (count f (<[i := q]> l) + Nat.b2n (f p) = count f l + Nat.b2n (f q))%nat.
Proof.
  unfold count. revert i. induction l as [|x l IH]; intros [|i]; simpl; [done..| |].
  - intros [= ->]. destruct (f p), (f q); simpl; lia.
  - intros Hi%IH. destruct (f x); simpl; lia.
Qed.
Lemma count_snoc f l : f Waiting = false → count f (l ++ [Waiting]) = count f l.
Proof. unfold count. rewrite List.filter_app. simpl. intros ->. by rewrite app_nil_r. Qed.
Lemma count_split l : (count runs_mkfs l ≤ count holds l + count is_late l)%nat.
Proof. unfold count. induction l as [|[] l IH]; simpl in *; lia. Qed.

(** A token for every call that holds one, and no more than the limit. *)
Definition tokens_ok (s : Formats) : Prop := f_tokens s = count holds (f_calls s) ∧ (f_tokens s ≤ limit)%nat.
Ltac by_counts :=
  repeat match goal with
  | H : ?l !! ?i = Some ?p |- context [count ?f (<[?i := ?q]> ?l)] =>
      let E := fresh in pose proof (count_insert f l i p q H) as E; simpl in E; revert E;
      generalize (count f (<[i := q]> l)); intros ? E
  end; lia.
Lemma step_tokens a s s' : tokens_ok s → format_step a s = Some s' → tokens_ok s'.
Proof.
  destruct s as [k l]. unfold tokens_ok, format_step, give_back. simpl. intros [Hk Hl] Hs.
  destruct a as [|i|i|i|i]; [injection Hs as <-; simpl; by rewrite count_snoc|..];
    destruct (l !! i) as [[]|] eqn:E; try done; try (destruct k as [|k]; [done|]);
    try (injection Hs as <-; simpl; split; [by_counts|lia]).
  destruct (Nat.ltb_spec k limit); [|done]. injection Hs as <-. simpl. split; [by_counts|lia].
Qed.
Lemma step_late a s s' :
  format_step a s = Some s' → (count is_late (f_calls s') ≤ count is_late (f_calls s) + timeouts [a])%nat.
Proof.
  destruct s as [k l]. unfold format_step, give_back. simpl. intros Hs.
  destruct a as [|i|i|i|i]; [simplify_eq/=; rewrite count_snoc by done; simpl; lia|..];
    destruct (l !! i) as [[]|] eqn:E; try destruct k as [|k]; try destruct (_ <? limit)%nat; simplify_eq/=;
    unfold timeouts; simpl; by_counts.
Qed.

Local Notation run acts := (exec format_step acts no_formats).
Lemma run_tokens acts : tokens_ok (run acts).
Proof. apply exec_ind; [by split; [|simpl; lia]|]. intros; by eapply step_tokens. Qed.
Lemma run_late acts : (count is_late (f_calls (run acts)) ≤ timeouts acts)%nat.
Proof.
  induction acts as [|a acts IH] using rev_ind; [done|]. rewrite exec_snoc. unfold next.
  assert (Ht : timeouts (acts ++ [a]) = (timeouts acts + timeouts [a])%nat).
  { unfold timeouts. by rewrite List.filter_app, length_app. }
  destruct (format_step a _) as [s'|] eqn:E; simpl; [apply step_late in E|]; lia.
Qed.

(** C25. The limit on concurrent formats, whatever the schedule.  There is a token for every
    call that holds one and never more than [limit]; the programs that run are at
    most [limit] and one for every format that took too long; a helper that is to
    give its token back never waits; and as long as a call waits for a token and
    the limit is not zero, some call can go on. *)
Theorem formats_limited acts :
  let s := run acts in
  f_tokens s = count holds (f_calls s) ∧ (f_tokens s ≤ limit)%nat ∧
  (count runs_mkfs (f_calls s) ≤ limit + timeouts acts)%nat ∧
  (∀ i, f_calls s !! i = Some Finished → is_Some (format_step (FDone i) s)) ∧
  (∀ i, f_calls s !! i = Some Waiting → (0 < limit)%nat →
     ∃ j, is_Some (format_step (FAcquire j) s) ∨ is_Some (format_step (FFinish j) s) ∨ is_Some (format_step (FDone j) s)).
Proof.
  intros s. destruct (run_tokens acts) as [Ht Hl]. pose proof (run_late acts) as Hlate.
  pose proof (count_split (f_calls (run acts))) as Hc. fold s in Ht, Hl, Hlate, Hc.
  assert (Hpos : ∀ i p, f_calls s !! i = Some p → holds p → (0 < f_tokens s)%nat).
  { intros i p Hi Hp. rewrite Ht. unfold count. apply list_elem_of_lookup_2, list_elem_of_In in Hi.
    destruct (List.filter holds (f_calls s)) as [|x l] eqn:E; [|simpl; lia].
    exfalso. apply (List.in_nil (a:=p)). rewrite <-E. apply List.filter_In. split; [done|by apply Is_true_eq_true]. }
  split_and!; [done|done|lia| |].
  - intros i Hi. pose proof (Hpos _ _ Hi I) as Hp. unfold format_step, give_back. rewrite Hi.
    destruct (f_tokens s); [lia|by eexists].
  - intros i Hi H0. destruct (Nat.ltb_spec (f_tokens s) limit) as [Hlt|Hge].
    + exists i. left. unfold format_step. rewrite Hi. apply Nat.ltb_lt in Hlt. rewrite Hlt. by eexists.
    + assert (∃ j p, f_calls s !! j = Some p ∧ holds p) as (j & p & Hj & Hp).
      { unfold count in Ht. destruct (List.filter holds (f_calls s)) as [|x l] eqn:E; [simpl in Ht; lia|].
        assert (Hx : List.In x (List.filter holds (f_calls s))) by (rewrite E; by left).
        apply List.filter_In in Hx as [[j Hj]%list_elem_of_In%list_elem_of_lookup Hx%Is_true_eq_left]. eauto. }
      exists j. pose proof (Hpos _ _ Hj Hp). unfold format_step, give_back. rewrite Hj.
      destruct p; try done; [right; left|right; right; destruct (f_tokens s); [lia|]]; by eexists.
Qed.
End formats.
