(* ===== verification/Windows.v ===== *)
(** * A Windows node: its programs, paths and devices

    [WinHost W] is the interface of the operating system as the Windows build uses
    it: PowerShell, links and directories, mount points, device control.  The
    checks of paths of [pkg/os/filesystem/filesystem.go] are pure functions; the
    regular expressions are decided directly. *)
From stdpp Require Import gmap strings list.
From Stdlib Require Import ZArith Lia Ascii SpecFloat.
From S2P Require Import Prelude GoStrings GoFloat GoErr.
Local Open Scope string_scope.
Local Open Scope Z_scope.

Definition backslash_char : ascii := ascii_of_N 92.
Definition backslash : string := String backslash_char "".

(** ** [range] over a map keyed by numbers *)
Class NumOrder := {
  num_order : ∀ {A}, gmap Z A → list (Z * A);
  num_order_perm : ∀ A (m : gmap Z A), num_order m ≡ₚ map_to_list m;
}.
#[export] Instance default_num_order : NumOrder | 100 :=
  {| num_order A m := map_to_list m; num_order_perm A m := reflexivity _ |}.
Lemma elem_of_num_order `{NumOrder} {A} (m : gmap Z A) k v : (k, v) ∈ num_order m ↔ m !! k = Some v.
Proof. rewrite num_order_perm. apply elem_of_map_to_list. Qed.

(** ** The operating system *)
(** A value of [encoding/json] in an [interface{}]. *)
Inductive jval := JString (s : string) | JNumber (x : float64) | JBool (b : bool) | JNull | JOther.

Class WinHost (W : Type) := {
  (** [exec.Command("powershell", "-Mta", "-NoProfile", "-Command", command)] with
      additions to its environment: the combined output, and the error *)
  exec_powershell : string → list string → M W (string * option gerr);
  (** a send to the channel that limits the commands, and the receive *)
  powershellSem_Acquire : M W unit;
  powershellSem_Release : M W unit;
  (** package os; [win_Lstat] tells whether the file is a symbolic link *)
  win_Lstat : string → M W bool;
  win_Readlink : string → M W string;
  win_Symlink : string → string → M W unit;
  win_RemoveAll : string → M W unit;
  win_Remove : string → M W unit;
  win_MkdirAll : string → M W unit;
  (** golang.org/x/sys/windows: total bytes and free bytes; mount points, whose
      failure comes with the answer of [GetLastError] being ERROR_DIR_NOT_EMPTY *)
  GetDiskFreeSpaceEx : string → M W (Z * Z);
  SetVolumeMountPoint : string → string → M W (option (gerr * bool));
  DeleteVolumeMountPoint : string → M W unit;
  (** syscall: a handle; the device number and the bytes of the two queries *)
  syscall_Open : string → M W Z;
  syscall_Close : Z → M W unit;
  ioctl_GetDeviceNumber : Z → M W Z;
  ioctl_QueryDeviceId : Z → M W (list Z);
}.

(** The decoders of [encoding/json] for the types the code decodes into. *)
Class WinJson := {
  (** [[]map[string]interface{}] *)
  unmarshal_objects : string → res (list (gmap string jval));
  (** the disks of [ListDisksUsingCIM] *)
  unmarshal_cim_disks : string → res (list (Z * Z * Z * Z * Z * string));
  (** the paths and serial numbers of [ListDiskIDs] *)
  unmarshal_paths : string → res (list (string * string));
  (** [map[string]int64] *)
  unmarshal_sizes : string → res (gmap string Z);
}.

(** [uint32(x)] of a [float64], as on amd64: the value toward zero as a 64-bit
    integer, of which the low half is taken. *)
Definition f_to_uint32 (x : float64) : Z :=
  match x with
  | S754_finite s m e =>
      let z := (if s then -1 else 1) * integral m e in
      if (- 2 ^ 63 <=? z) && (z <? 2 ^ 63) then z `mod` 2 ^ 32 else 0
  | _ => 0
  end.

Section powershell.
  Context {W : Type} `{!WinHost W}.

  (** [azureutils/azure_disk_utils_windows.go RunPowershellCmd] *)
Definition RunPowershellCmd (command : string) (envs : list string) : M W (string * option gerr) :=
  let! _ := powershellSem_Acquire in
  λ s, let '(r, s1) := exec_powershell command envs s in
       (let! _ := powershellSem_Release in lift r) s1.

  (** The pattern of the callers: an error of the command becomes the caller's. *)
Definition powershell (command : string) (envs : list string) (msg : string → gerr → gerr) : M W string :=
  let! (out, err) := RunPowershellCmd command envs in
  match err with Some e => fail (msg out e) | None => ret out end.
End powershell.

(** ** Paths: [filesystem.go] *)
Definition MaxPathLengthWindows : Z := 260.
(** [mounter/safe_mounter_windows.go normalizeWindowsPath] *)
Definition normalizeWindowsPath (path : string) : string :=
  let normalizedPath := ReplaceAll path "/" backslash in
  if HasPrefix normalizedPath backslash then "c:" +:+ normalizedPath else normalizedPath.
(** The class of [invalidPathCharsRegexWindows]. *)
Definition invalid_path_chars : string := String (ascii_of_N 34) "/:?*|".
(** [os/filesystem/filesystem.go isAbsWindows] The pattern is a letter, a colon
    and a backslash at the start. *)
Definition isAbsWindows (path : string) : bool :=
  match path with
  | String l (String c (String b _)) => is_letter l && Ascii.eqb c ":" && Ascii.eqb b backslash_char
  | _ => false
  end.
(** [os/filesystem/filesystem.go isUNCPathWindows] *)
Definition isUNCPathWindows (path : string) : bool :=
  if (strlen path <? 2)%Z then false else HasPrefix path (backslash +:+ backslash).
(** [os/filesystem/filesystem.go containsInvalidCharactersWindows] *)
Definition containsInvalidCharactersWindows (path : string) : bool :=
  let path := if isAbsWindows path then str_drop 3 path else path in
  if ContainsAny path invalid_path_chars then true
  else if Contains path ".." then true
  else false.
(** [os/filesystem/filesystem.go ValidatePathWindows] *)
Definition ValidatePathWindows (path : string) : res unit :=
  let pathlen := strlen path in
  if (MaxPathLengthWindows <? pathlen)%Z
  then Err (ENew ("path length " +:+ Itoa pathlen +:+ " exceeds maximum characters: "
                  +:+ Itoa MaxPathLengthWindows))
  else if (0 <? pathlen)%Z && HasPrefix path backslash
  then Err (ENew ("invalid character " +:+ backslash +:+ " at beginning of path: " +:+ path))
  else if isUNCPathWindows path then Err (ENew ("unsupported UNC path prefix: " +:+ path))
  else if containsInvalidCharactersWindows path
  then Err (ENew ("path contains invalid characters: " +:+ path))
  else if negb (isAbsWindows path) then Err (ENew ("not an absolute Windows path: " +:+ path))
  else Ok ().

Section filesystem.
  Context {W : Type} `{!WinHost W}.

  (** [os/filesystem/filesystem.go pathExists] *)
Definition pathExists (path : string) : M W bool :=
  let! r := try (win_Lstat path) in
  match r with
  | inr _ => ret true
  | inl e => if os_IsNotExist e then ret false else fail e
  end.
  (** [os/filesystem/filesystem.go PathExists] *)
Definition PathExists (path : string) : M W bool :=
  let! _ := lift (ValidatePathWindows path) in pathExists path.
  (** [os/filesystem/filesystem.go Rmdir] *)
Definition Rmdir (path : string) (force : bool) : M W unit :=
  let! _ := lift (ValidatePathWindows path) in
  if force then win_RemoveAll path else win_Remove path.
  (** [os/filesystem/filesystem.go IsSymlink] *)
Definition IsSymlink (tgt : string) : M W bool :=
  let! link := win_Lstat tgt in
  if link then
    let! r := try (win_Readlink tgt) in
    match r with
    | inl e => fail (ENew ("readlink error: " +:+ Error e))
    | inr target => pathExists target
    end
  else ret false.
  (** [os/filesystem/filesystem.go IsMountPoint] *)
Definition IsMountPoint (path : string) : M W bool := IsSymlink path.
End filesystem.
