(* ===== verification/WinDisk.v ===== *)
(** * Disks of a Windows node: [pkg/os/disk]

    The interface [DiskAPI], its implementation by PowerShell commands, the LUN of
    an NVMe disk, and the page 83 identifier, which is read out of the buffer of a
    storage query as the code reads it. *)
From stdpp Require Import gmap strings list.
From Stdlib Require Import ZArith Lia Ascii.
From S2P Require Import Prelude GoStrings GoErr Windows.
Local Open Scope string_scope.
Local Open Scope Z_scope.
Local Open Scope list_scope.

(** ** Data: [types.go] *)
(** [os/disk/types.go Location] *)
Record Location := MkLocation { Adapter : string; Bus : string; Target : string; LUNID : string }.
(** [os/disk/types.go IDs] *)
Record IDs := MkIDs { Page83 : string; SerialNumber : string }.
(** [os/disk/types.go StorageIDCodeSetBinary 95-95] *)
Definition StorageIDCodeSetBinary : Z := 1.
(** [os/disk/types.go StorageIDCodeSetASCII 96-96] *)
Definition StorageIDCodeSetASCII : Z := 2.
(** [os/disk/types.go StorageIDAssocDevice 117-117] *)
Definition StorageIDAssocDevice : Z := 0.
#[export] Instance Location_eq_dec : EqDecision Location.
Proof. solve_decision. Defined.

(** [os/disk/disk.go DiskAPI] *)
Record DiskAPI (W : Type) := MkDiskAPI {
  ListDiskLocations : M W (gmap Z Location);
  Rescan : M W unit;
  IsDiskInitialized : Z → M W bool;
  InitializeDisk : Z → M W unit;
  BasicPartitionsExist : Z → M W bool;
  CreateBasicPartition : Z → M W unit;
  GetDiskNumberByName : string → M W Z;
  GetDiskNumber : Z → M W Z;
  GetDiskPage83ID : Z → M W string;
  GetDiskNumberWithID : string → M W Z;
  GetDiskNumberAndPage83ID : string → M W (Z * string);
  ListDiskIDs : M W (gmap Z IDs);
  GetDiskStats : Z → M W Z;
  SetDiskState : Z → bool → M W unit;
  GetDiskState : Z → M W bool;
  PartitionDisk : Z → M W unit;
}.
Arguments ListDiskLocations {W}. Arguments Rescan {W}. Arguments IsDiskInitialized {W}.
Arguments InitializeDisk {W}. Arguments BasicPartitionsExist {W}. Arguments CreateBasicPartition {W}.
Arguments GetDiskNumberByName {W}. Arguments GetDiskNumber {W}. Arguments GetDiskPage83ID {W}.
Arguments GetDiskNumberWithID {W}. Arguments GetDiskNumberAndPage83ID {W}. Arguments ListDiskIDs {W}.
Arguments GetDiskStats {W}. Arguments SetDiskState {W}. Arguments GetDiskState {W}. Arguments PartitionDisk {W}.

(** ** The LUN of an NVMe disk *)
(** The digits a text starts with, and the rest. *)
Fixpoint span_digits (s : string) : string * string :=
  match s with
  | String c s' => if is_digit c then let '(d, r) := span_digits s' in (String c d, r) else ("", s)
  | EmptyString => ("", "")
  end.
(** [nvmeNSIDRegex]: after an ampersand, a zero and an ampersand, digits up to a
    number sign or the end; the leftmost match. *)
Fixpoint nsid_match (s : string) : option string :=
  match s with
  | EmptyString => None
  | String _ s' =>
      let here :=
        if HasPrefix s "&0&" then
          let '(d, r) := span_digits (str_drop 3 s) in
          if negb (String.eqb d "") && (String.eqb r "" || HasPrefix r "#") then Some d else None
        else None in
      match here with Some d => Some d | None => nsid_match s' end
  end.
(** [os/disk/disk.go isNVMeDisk] *)
Definition isNVMeDisk (path : string) : bool := Contains (ToLower path) "ven_nvme".
(** [os/disk/disk.go getNVMeLunFromPath] *)
Definition getNVMeLunFromPath (path : string) : res string :=
  match nsid_match path with
  | None => Err (ENew ("could not extract NVMe namespace ID from path: " +:+ path))
  | Some digits =>
      match Atoi_res digits with
      | Err e => Err (ENew ("failed to parse NVMe namespace ID " +:+ quote digits +:+ ": " +:+ Error e))
      | Panic => Panic
      | Ok nsid =>
          if (nsid <? 1)%Z
          then Err (ENew ("invalid NVMe namespace ID " +:+ Itoa nsid +:+ " from path: " +:+ path))
          else Ok (Itoa (nsid - 1))
      end
  end.
(** [os/disk/disk.go getNVMeLocation] The second result tells whether the disk is
    an NVMe disk. *)
Definition getNVMeLocation (path : string) : option Location * bool :=
  if negb (isNVMeDisk path) then (None, false)
  else match getNVMeLunFromPath path with
       | Ok lunID => (Some (MkLocation "0" "0" "0" lunID), true)
       | _ => (None, true)
       end.

(** ** The location of a disk *)
(** One field of a location, such as [LUN 0]. *)
Definition location_item (acc : Location * bool) (item : string) : Location * bool :=
  let '(d, found) := acc in
  match Split (TrimSpace item) " " with
  | [k; v] =>
      let k := TrimSpace k in let v := TrimSpace v in
      if String.eqb k "Adapter"
      then (MkLocation v (Bus d) (Target d) (LUNID d), negb (String.eqb v "0"))
      else if String.eqb k "Target" then (MkLocation (Adapter d) (Bus d) v (LUNID d), true)
      else if String.eqb k "LUN" then (MkLocation (Adapter d) (Bus d) (Target d) v, true)
      else (d, true)
  | _ => acc
  end.
(** [os/disk/disk.go ListDiskLocations 215-243] The location of a SCSI disk, which
    both implementations read in the same way. *)
Definition parse_location (str : string) : option Location :=
  let s := Split str ":" in
  if (5 <=? length s)%nat then
    let '(d, found) := foldl location_item (MkLocation "" "" "" "", false) s in
    if found then Some d else None
  else None.

(** ** The page 83 identifier *)
(** [hex.EncodeToString] *)
Definition hex_byte (b : Z) : string :=
  String (digit_char (b `div` 16)) (String (digit_char (b `mod` 16)) "").
Definition hex_EncodeToString (l : list Z) : string := foldr (λ b s, hex_byte b +:+ s) "" l.
Definition bytes_string (l : list Z) : string :=
  foldr (λ b s, String (ascii_of_N (Z.to_N b)) s) "" l.
Section page83.
  (** The memory behind the buffer of a query. *)
  Context (beyond : Z → Z).

Definition byte_at (buffer : list Z) (p : Z) : Z := default (beyond p) (buffer !! Z.to_nat p).
  (** Little-endian fields of the structures the code lays over the buffer. *)
Definition u16_at (buffer : list Z) (p : Z) : Z := byte_at buffer p + 256 * byte_at buffer (p + 1).
Definition u32_at (buffer : list Z) (p : Z) : Z :=
  u16_at buffer p + 65536 * u16_at buffer (p + 2).
Definition bytes_at (buffer : list Z) (p : Z) (n : nat) : list Z :=
  (λ i, byte_at buffer (p + Z.of_nat i)) <$> seq 0 n.
  (** [os/disk/disk.go GetDiskPage83ID 341-355] The walk over [n] identifiers, the
      next one at [p]. *)
Fixpoint page83_from (n : nat) (buffer : list Z) (p : Z) : string :=
  match n with
  | O => ""
  | S n' =>
      let codeSet := u32_at buffer p in
      let identifierSize := u16_at buffer (p + 8) in
      let nextOffset := u16_at buffer (p + 10) in
      if (u32_at buffer (p + 12) =? StorageIDAssocDevice)
         && ((codeSet =? StorageIDCodeSetBinary) || (codeSet =? StorageIDCodeSetASCII))
      then let page83ID := bytes_at buffer (p + 16) (Z.to_nat identifierSize) in
           if codeSet =? StorageIDCodeSetASCII then bytes_string page83ID
           else hex_EncodeToString page83ID
      else page83_from n' buffer (p + nextOffset)
  end.
  (** The descriptor: the number of identifiers at 8, the first of them at 12. *)
Definition page83_of (buffer : list Z) : string :=
  page83_from (Z.to_nat (u32_at buffer 8)) buffer 12.
End page83.

Definition show_bytes (s : string) : string :=
  "[" +:+ Join ((λ c, Itoa (Z.of_N (N_of_ascii c))) <$> String.list_ascii_of_string s) " " +:+ "]".
Definition show_error (e : option gerr) : string := match e with Some e => Error e | None => "<nil>" end.
Definition show_bool (b : bool) : string := if b then "true" else "false".
(** [regexp.MustCompile("[^0-9]+").ReplaceAllString(s, "")] *)
Fixpoint only_digits (s : string) : string :=
  match s with
  | EmptyString => ""
  | String c s' => if is_digit c then String c (only_digits s') else only_digits s'
  end.
Definition InvalidHandle : Z := -1.
Definition get_disk (n : Z) : string := "Get-Disk -Number " +:+ Itoa n.

Section disk.
  Context {W : Type} `{!WinHost W} `{!WinJson} (beyond : Z → Z).

  (** [os/disk/disk.go GetDiskNumber] *)
Definition getDiskNumber (disk : Z) : M W Z := ioctl_GetDeviceNumber disk.
  (** [os/disk/disk.go GetDiskPage83ID] *)
Definition getDiskPage83ID (disk : Z) : M W string :=
  let! r := try (ioctl_QueryDeviceId disk) in
  match r with
  | inl e => fail (ENew ("IOCTL_STORAGE_QUERY_PROPERTY failed: " +:+ Error e))
  | inr buffer => ret (page83_of beyond buffer)
  end.
  (** [os/disk/disk.go GetDiskNumberAndPage83ID] The handle is closed on every way
      out, also the one that [Open] did not give. *)
Definition getDiskNumberAndPage83ID (path : string) : M W (Z * string) := λ s,
  let '(r, s1) := syscall_Open path s in
  let h := match r with Ok h => h | _ => InvalidHandle end in
  let '(res, s2) := (let! h := lift r in
                     let! diskNumber := getDiskNumber h in
                     let! page83ID := getDiskPage83ID h in
                     ret (diskNumber, page83ID)) s1 in
  (res, (syscall_Close h s2).2).

  (** The loop of [GetDiskNumberWithID] over the paths of the disks. *)
Fixpoint number_with_id (page83ID : string) (paths : list string) : M W Z :=
  match paths with
  | [] => fail (ENew ("Could not find disk with Page83 ID " +:+ page83ID))
  | path :: paths' =>
      let! (diskNumber, diskPage83ID) := getDiskNumberAndPage83ID path in
      if String.eqb diskPage83ID page83ID then ret diskNumber else number_with_id page83ID paths'
  end.
  (** The loop of [ListDiskIDs]. *)
Fixpoint ids_of (disks : list (string * string)) (m : gmap Z IDs) : M W (gmap Z IDs) :=
  match disks with
  | [] => ret m
  | (path, serial) :: disks' =>
      let! (diskNumber, page83) := getDiskNumberAndPage83ID path in
      ids_of disks' (<[diskNumber := MkIDs page83 serial]> m)
  end.
End disk.

(** ** [ListDisksUsingCIM] *)
(** A disk that CIM reports. *)
Definition cim_location (m : gmap Z Location) (v : Z * Z * Z * Z * Z * string) : gmap Z Location :=
  let '(index, lun, target, port, bus, pnp) := v in
  match getNVMeLocation pnp with
  | (Some loc, true) => <[index := loc]> m
  | (None, true) => m
  | (_, false) => <[index := MkLocation (Itoa port) (Itoa bus) (Itoa target) (Itoa lun)]> m
  end.
Section list_cim.
  Context {W : Type} `{!WinHost W} `{!WinJson}.

Definition cim_cmd : string :=
  "ConvertTo-Json @(Get-CimInstance win32_diskdrive|Where-Object { $_.Model -eq 'Virtual_Disk NVME Premium' -or $_.SCSIPort -Ne 0 }|Select Index,SCSILogicalUnit,SCSITargetId,SCSIPort,SCSIBus,PNPDeviceID)".
  (** [os/disk/disk.go ListDisksUsingCIM] *)
Definition ListDisksUsingCIM : M W (gmap Z Location) :=
  let cmd := cim_cmd in
  let! out := powershell cmd [] (λ out e, ENew ("failed to list disk location. cmd: " +:+ quote cmd
                +:+ ", output: " +:+ quote out +:+ ", err " +:+ Error e)) in
  let! disks := lift (unmarshal_cim_disks out) in
  ret (foldl cim_location ∅ disks).
End list_cim.

(** ** PowerShell *)
(** A type assertion [x.(string)], [x.(float64)]. *)
Definition assert_string (v : option jval) : res string :=
  match v with Some (JString s) => Ok s | _ => Panic end.
Definition assert_number (v : option jval) : res Z :=
  match v with Some (JNumber x) => Ok (f_to_uint32 x) | _ => Panic end.
(** A disk that [Get-Disk] reports. *)
Definition ps_location (m : gmap Z Location) (v : gmap string jval) : res (gmap Z Location) :=
  let? str := assert_string (v !! "Location") in
  let? num := assert_number (v !! "Number") in
  let? partitionStyle := assert_string (v !! "PartitionStyle") in
  if EqualFold partitionStyle "MBR" then Ok m
  else
    let diskPath := match v !! "Path" with Some (JString s) => s | _ => "" end in
    match getNVMeLocation diskPath with
    | (Some loc, true) => Ok (<[num := loc]> m)
    | (None, true) => Ok m
    | (_, false) => Ok (match parse_location str with Some d => <[num := d]> m | None => m end)
    end.
Fixpoint ps_locations (l : list (gmap string jval)) (m : gmap Z Location) : res (gmap Z Location) :=
  match l with [] => Ok m | v :: l' => let? m' := ps_location m v in ps_locations l' m' end.

Definition get_disk_cmd : string := "ConvertTo-Json @(Get-Disk | select Number, Location, Path, PartitionStyle)".
(** The commands of the operations on one disk. *)
Definition raw_disk_cmd (diskNumber : Z) : string := get_disk diskNumber +:+ " | Where partitionstyle -eq 'raw'".
Definition initialize_cmd (diskNumber : Z) : string :=
  "Initialize-Disk -Number " +:+ Itoa diskNumber +:+ " -PartitionStyle GPT".
Definition partitions_cmd (diskNumber : Z) : string :=
  "Get-Partition | Where DiskNumber -eq " +:+ Itoa diskNumber +:+ " | Where Type -ne Reserved".
Definition new_partition_cmd (diskNumber : Z) : string :=
  "New-Partition -DiskNumber " +:+ Itoa diskNumber +:+ " -UseMaximumSize".
Definition disk_state_cmd (diskNumber : Z) (isOnline : bool) : string :=
  "Set-Disk -Number " +:+ Itoa diskNumber +:+ " -IsOffline $" +:+ show_bool (negb isOnline)
  +:+ ";Set-Disk -Number " +:+ Itoa diskNumber +:+ " -IsReadOnly $false".
Module PowerShell.
Section powershell_disk.
  Context {W : Type} `{!WinHost W} `{!WinJson} (beyond : Z → Z).

  (** [os/disk/disk.go ListDiskLocations] *)
Definition ListDiskLocations : M W (gmap Z Location) :=
  let cmd := get_disk_cmd in
  let! out := powershell cmd [] (λ out e, ENew ("failed to list disk location. cmd: " +:+ quote cmd
                +:+ ", output: " +:+ quote out +:+ ", err " +:+ Error e)) in
  let! disks := lift (unmarshal_objects out) in
  lift (ps_locations disks ∅).
  (** [os/disk/disk.go Rescan] *)
Definition Rescan : M W unit :=
  let! _ := powershell "Update-HostStorageCache" []
    (λ out e, ENew ("error updating host storage cache output: " +:+ quote out +:+ ", err: " +:+ Error e)) in
  ret ().
  (** [os/disk/disk.go IsDiskInitialized] *)
Definition IsDiskInitialized (diskNumber : Z) : M W bool :=
  let! out := powershell (raw_disk_cmd diskNumber) []
    (λ out e, ENew ("error checking initialized status of disk " +:+ Itoa diskNumber +:+ ": "
                    +:+ show_bytes out +:+ ", " +:+ Error e)) in
  ret (String.eqb out "").
  (** [os/disk/disk.go InitializeDisk] *)
Definition InitializeDisk (diskNumber : Z) : M W unit :=
  let! _ := powershell (initialize_cmd diskNumber) []
    (λ out e, ENew ("error initializing disk " +:+ Itoa diskNumber +:+ ": " +:+ out +:+ ", " +:+ Error e)) in
  ret ().
  (** [os/disk/disk.go BasicPartitionsExist] *)
Definition BasicPartitionsExist (diskNumber : Z) : M W bool :=
  let! out := powershell (partitions_cmd diskNumber) []
    (λ out e, ENew ("error checking presence of partitions on disk " +:+ Itoa diskNumber +:+ ": "
                    +:+ show_bytes out +:+ ", " +:+ Error e)) in
  ret (negb (String.eqb out "")).
  (** [os/disk/disk.go CreateBasicPartition] *)
Definition CreateBasicPartition (diskNumber : Z) : M W unit :=
  let! _ := powershell (new_partition_cmd diskNumber) []
    (λ out e, ENew ("error creating partition on disk " +:+ Itoa diskNumber +:+ ": "
                    +:+ show_bytes out +:+ ", " +:+ Error e)) in
  ret ().
  (** [os/disk/disk.go GetDiskNumberWithID] *)
Definition GetDiskNumberWithID (page83ID : string) : M W Z :=
  let! out := powershell "ConvertTo-Json @(Get-Disk | Select Path)" []
    (λ _ _, ENew "Could not query disk paths") in
  let! disks := lift (unmarshal_paths out) in
  number_with_id beyond page83ID disks.*1.
  (** [os/disk/disk.go GetDiskNumberByName] *)
Definition GetDiskNumberByName (page83ID : string) : M W Z := GetDiskNumberWithID page83ID.
  (** [os/disk/disk.go ListDiskIDs] *)
Definition ListDiskIDs : M W (gmap Z IDs) :=
  let! out := powershell "ConvertTo-Json @(Get-Disk | Select Path, SerialNumber)" []
    (λ _ _, ENew "Could not query disk paths") in
  let! disks := lift (unmarshal_paths out) in
  ids_of beyond disks ∅.
  (** [os/disk/disk.go GetDiskStats] *)
Definition GetDiskStats (diskNumber : Z) : M W Z :=
  let cmd := "(" +:+ get_disk diskNumber +:+ ").Size" in
  let! (out, err) := RunPowershellCmd cmd [] in
  if bool_decide (err ≠ None) || String.eqb out ""
  then fail (ENew ("error getting size of disk. cmd: " +:+ cmd +:+ ", output: " +:+ out
                   +:+ ", error: " +:+ show_error err))
  else
    let diskSizeOutput := only_digits out in
    match ParseInt_res diskSizeOutput 64 with
    | Ok diskSize => ret diskSize
    | Err e => fail (ENew ("error parsing size of disk. cmd: " +:+ cmd +:+ ", output: "
                           +:+ diskSizeOutput +:+ ", error: " +:+ Error e))
    | Panic => panic
    end.
  (** [os/disk/disk.go SetDiskState] *)
Definition SetDiskState (diskNumber : Z) (isOnline : bool) : M W unit :=
  let cmd := disk_state_cmd diskNumber isOnline in
  let! _ := powershell cmd [] (λ out e, ENew ("error setting disk attach state. cmd: " +:+ cmd
              +:+ ", output: " +:+ out +:+ ", error: " +:+ Error e)) in
  ret ().
  (** [os/disk/disk.go GetDiskState] *)
Definition GetDiskState (diskNumber : Z) : M W bool :=
  let cmd := "(" +:+ get_disk diskNumber +:+ ") | Select-Object -ExpandProperty IsOffline" in
  let! out := powershell cmd [] (λ out e, ENew ("error getting disk state. cmd: " +:+ cmd
                +:+ ", output: " +:+ out +:+ ", error: " +:+ Error e)) in
  let sout := TrimSpace out in
  match ParseBool sout with
  | Some isOffline => ret (negb isOffline)
  | None => fail (ENew ("error parsing disk state. output: " +:+ sout +:+ ", error: "
                        +:+ "strconv.ParseBool: parsing " +:+ quote sout +:+ ": invalid syntax"))
  end.
  (** [os/disk/disk.go PartitionDisk] *)
Definition PartitionDisk (diskNumber : Z) : M W unit :=
  let! initialized := IsDiskInitialized diskNumber in
  let! _ := if negb initialized then InitializeDisk diskNumber else ret () in
  let! partitioned := BasicPartitionsExist diskNumber in
  if negb partitioned then CreateBasicPartition diskNumber else ret ().

  (** [os/disk/disk.go NewPowerShellDiskAPI] *)
Definition NewPowerShellDiskAPI : DiskAPI W := {|
  WinDisk.ListDiskLocations := ListDiskLocations; WinDisk.Rescan := Rescan;
  WinDisk.IsDiskInitialized := IsDiskInitialized; WinDisk.InitializeDisk := InitializeDisk;
  WinDisk.BasicPartitionsExist := BasicPartitionsExist;
  WinDisk.CreateBasicPartition := CreateBasicPartition;
  WinDisk.GetDiskNumberByName := GetDiskNumberByName; WinDisk.GetDiskNumber := getDiskNumber;
  WinDisk.GetDiskPage83ID := getDiskPage83ID beyond;
  WinDisk.GetDiskNumberWithID := GetDiskNumberWithID;
  WinDisk.GetDiskNumberAndPage83ID := getDiskNumberAndPage83ID beyond;
  WinDisk.ListDiskIDs := ListDiskIDs; WinDisk.GetDiskStats := GetDiskStats;
  WinDisk.SetDiskState := SetDiskState; WinDisk.GetDiskState := GetDiskState;
  WinDisk.PartitionDisk := PartitionDisk;
|}.
End powershell_disk.
End PowerShell.
