(* ===== verification/WinVolume.v ===== *)
(** * Volumes of a Windows node: [pkg/os/volume]

    The interface [VolumeAPI] and its implementation by PowerShell commands, which
    take the volume from their environment. *)
From stdpp Require Import gmap strings list.
From Stdlib Require Import ZArith Lia Ascii.
From S2P Require Import Prelude GoStrings GoErr Windows WinDisk.
Local Open Scope string_scope.
Local Open Scope Z_scope.
Local Open Scope list_scope.

(** [os/volume/volume.go VolumeAPI] *)
Record VolumeAPI (W : Type) := MkVolumeAPI {
  ListVolumesOnDisk : Z → Z → M W (list string);
  MountVolume : string → string → M W unit;
  UnmountVolume : string → string → M W unit;
  IsVolumeFormatted : string → M W bool;
  FormatVolume : string → M W unit;
  ResizeVolume : string → Z → M W unit;
  GetDiskNumberFromVolumeID : string → M W Z;
  GetVolumeIDFromTargetPath : string → M W string;
  WriteVolumeCache : string → M W unit;
}.
Arguments ListVolumesOnDisk {W}. Arguments MountVolume {W}. Arguments UnmountVolume {W}.
Arguments IsVolumeFormatted {W}. Arguments FormatVolume {W}. Arguments ResizeVolume {W}.
Arguments GetDiskNumberFromVolumeID {W}. Arguments GetVolumeIDFromTargetPath {W}. Arguments WriteVolumeCache {W}.

Definition get_volume : string := "Get-Volume -UniqueId " +:+ quote "$Env:volumeID".
Definition volumeID_env (volumeID : string) : string := "volumeID=" +:+ volumeID.
Definition path_env (path : string) : string := "path=" +:+ path.
Definition crlf : string := String (ascii_of_N 13) (String (ascii_of_N 10) "").
(** The commands on the volume that the environment names. *)
Definition list_volumes_cmd (diskNumber partitionNumber : Z) : string :=
  "(" +:+ get_disk diskNumber +:+
    (if (partitionNumber =? 0)%Z then " | Get-Partition | Get-Volume).UniqueId"
     else " | Get-Partition -PartitionNumber " +:+ Itoa partitionNumber +:+ " | Get-Volume).UniqueId").
Definition format_cmd : string := get_volume +:+ " | Format-Volume -FileSystem ntfs -Confirm:$false".
Definition filesystem_type_cmd : string := "(" +:+ get_volume +:+ " -ErrorAction Stop).FileSystemType".
Definition mount_cmd : string :=
  get_volume +:+ " | Get-Partition | Add-PartitionAccessPath -AccessPath $Env:path".
Definition unmount_cmd : string :=
  get_volume +:+ " | Get-Partition | Remove-PartitionAccessPath -AccessPath $Env:path".
Definition write_cache_cmd : string := get_volume +:+ " | Write-Volumecache".
Definition volume_size_cmd : string := "(" +:+ get_volume +:+ " | Get-partition).Size".
Definition supported_size_cmd : string :=
  get_volume +:+ " | Get-partition | Get-PartitionSupportedSize | Select SizeMax | ConvertTo-Json".
Definition resize_cmd (finalSize : Z) : string :=
  get_volume +:+ " | Get-Partition | Resize-Partition -Size " +:+ Itoa finalSize.
(** 100 MiB: a smaller growth is not worth a resize. *)
Definition minimumResizeSize : Z := 100 * 1024 * 1024.

Definition unc_prefix : string := "\\?" +:+ backslash.
(** [os/volume/volume.go ensureVolumePrefix] *)
Definition ensureVolumePrefix (volume : string) : string :=
  let prefix := unc_prefix in
  if HasPrefix volume prefix then volume else prefix +:+ volume.

Section volume.
  Context {W : Type} `{!WinHost W} `{!WinJson}.

  (** The errors of the commands on a volume. *)
Definition volume_error (what cmd : string) (out : string) (e : gerr) : gerr :=
  ENew (what +:+ ". cmd: " +:+ cmd +:+ ", output: " +:+ out +:+ ", error: " +:+ Error e).

  (** [os/volume/volume.go getTarget] *)
Fixpoint getTarget (mount : string) (depth : nat) : M W string :=
  match depth with
  | O => fail (ENew ("maximum depth reached on mount " +:+ mount))
  | S depth' =>
      let! r := try (win_Readlink mount) in
      match r with
      | inl e => fail (ENew ("error reading link for mount " +:+ mount +:+ ". target  err: " +:+ Error e))
      | inr target =>
          let volumeString := TrimSpace target in
          if negb (HasPrefix volumeString "Volume") && negb (HasPrefix volumeString "\\?\Volume")
          then getTarget volumeString depth'
          else ret (ensureVolumePrefix volumeString)
      end
  end.
  (** [os/volume/volume.go writeCache] *)
Definition writeCache (volumeID : string) : M W unit :=
  let cmd := write_cache_cmd in
  let! _ := powershell cmd [volumeID_env volumeID] (volume_error "error writing volume cache" cmd) in
  ret ().
  (** [os/volume/volume.go getVolumeSize] *)
Definition getVolumeSize (volumeID : string) : M W Z :=
  let cmd := volume_size_cmd in
  let! (out, err) := RunPowershellCmd cmd [volumeID_env volumeID] in
  if bool_decide (err ≠ None) || String.eqb out ""
  then fail (ENew ("error getting size of the partition from mount. cmd " +:+ cmd +:+ ", output: "
                   +:+ out +:+ ", error: " +:+ show_error err))
  else
    let outString := TrimSpace out in
    match ParseInt_res outString 64 with
    | Ok volumeSize => ret volumeSize
    | Err e => fail (ENew ("error parsing size of volume " +:+ volumeID +:+ " received " +:+ show_bytes out
                           +:+ " trimmed to " +:+ outString +:+ " err " +:+ Error e))
    | Panic => panic
    end.
End volume.

Module PowerShellVolume.
Section powershell_volume.
  Context {W : Type} `{!WinHost W} `{!WinJson}.

  (** [os/volume/volume.go ListVolumesOnDisk] *)
Definition ListVolumesOnDisk (diskNumber partitionNumber : Z) : M W (list string) :=
  let cmd := list_volumes_cmd diskNumber partitionNumber in
  let! out := powershell cmd [] (volume_error "error list volumes on disk" cmd) in
  ret (Split (TrimSpace out) crlf).
  (** [os/volume/volume.go FormatVolume] *)
Definition FormatVolume (volumeID : string) : M W unit :=
  let cmd := format_cmd in
  let! _ := powershell cmd [volumeID_env volumeID] (volume_error "error formatting volume" cmd) in
  ret ().
  (** [os/volume/volume.go WriteVolumeCache] *)
Definition WriteVolumeCache (volumeID : string) : M W unit := writeCache volumeID.
  (** [os/volume/volume.go IsVolumeFormatted] *)
Definition IsVolumeFormatted (volumeID : string) : M W bool :=
  let! out := powershell filesystem_type_cmd [volumeID_env volumeID]
                (volume_error "error checking if volume is formatted" filesystem_type_cmd) in
  let stringOut := TrimSpace out in
  ret (negb (String.eqb stringOut "" || EqualFold stringOut "Unknown")).
  (** [os/volume/volume.go MountVolume] *)
Definition MountVolume (volumeID path : string) : M W unit :=
  let cmd := mount_cmd in
  let! _ := powershell cmd [volumeID_env volumeID; path_env path]
              (volume_error "error mount volume to path" cmd) in
  ret ().
  (** [os/volume/volume.go UnmountVolume] *)
Definition UnmountVolume (volumeID path : string) : M W unit :=
  let! _ := writeCache volumeID in
  let cmd := unmount_cmd in
  let! _ := powershell cmd [volumeID_env volumeID; path_env path] (λ out e,
    ENew ("failed to mount volume. cmd: " +:+ cmd +:+ ", output: " +:+ out +:+ ",error: " +:+ Error e)) in
  ret ().
  (** [os/volume/volume.go ResizeVolume 155-169] The size a resize without one aims at. *)
Definition supported_size (volumeID : string) : M W Z :=
  let cmd := supported_size_cmd in
  let! (out, err) := RunPowershellCmd cmd [volumeID_env volumeID] in
  if bool_decide (err ≠ None) || String.eqb out ""
  then fail (ENew ("error getting sizemin,sizemax from mount. cmd: " +:+ cmd +:+ ", output: " +:+ out
                   +:+ ", error: " +:+ show_error err))
  else match unmarshal_sizes out with
       | Ok getVolumeSizing => ret (default 0 (getVolumeSizing !! "SizeMax"))
       | Err e => fail (ENew ("out " +:+ show_bytes out +:+ " outstring " +:+ out +:+ " err " +:+ Error e))
       | Panic => panic
       end.
  (** [os/volume/volume.go ResizeVolume 178-189] *)
Definition grow_partition (volumeID : string) (size finalSize currentSize : Z) : M W unit :=
  if (int64 (finalSize - currentSize) <? minimumResizeSize)%Z then ret ()
  else
    let! _ := powershell (resize_cmd finalSize) [volumeID_env volumeID] (λ out e,
      ENew ("error resizing volume. cmd: " +:+ resize_cmd finalSize +:+ ", output: " +:+ out +:+ " size:"
            +:+ Itoa size +:+ ", finalSize " +:+ Itoa finalSize +:+ ", error: " +:+ Error e)) in
    ret ().

  (** [os/volume/volume.go ResizeVolume] *)
Definition ResizeVolume (volumeID : string) (size : Z) : M W unit :=
  let! finalSize := (if (size =? 0)%Z then supported_size volumeID else ret size) in
  let! r := try (getVolumeSize volumeID) in
  match r with
  | inl e => fail (ENew ("error getting the current size of volume (" +:+ volumeID +:+ ") with error ("
                         +:+ Error e +:+ ")"))
  | inr currentSize =>
      grow_partition volumeID size finalSize currentSize
  end.
  (** [os/volume/volume.go GetDiskNumberFromVolumeID] *)
Definition GetDiskNumberFromVolumeID (volumeID : string) : M W Z :=
  let cmd := "(" +:+ get_volume +:+ " | Get-Partition).DiskNumber" in
  let! (out, err) := RunPowershellCmd cmd [volumeID_env volumeID] in
  if bool_decide (err ≠ None) || String.eqb out ""
  then fail (ENew ("error getting disk number. cmd: " +:+ cmd +:+ ", output: " +:+ out
                   +:+ ", error: " +:+ show_error err))
  else
    let diskNumberOutput := only_digits out in
    match parse_uint 10 diskNumberOutput with
    | Some n => if (n <? 2 ^ 32)%Z then ret n
                else fail (ENew ("error parsing disk number. cmd: " +:+ cmd +:+ ", output: "
                       +:+ diskNumberOutput +:+ ", error: " +:+ num_error "ParseUint" diskNumberOutput))
    | None => fail (ENew ("error parsing disk number. cmd: " +:+ cmd +:+ ", output: "
                       +:+ diskNumberOutput +:+ ", error: " +:+ num_error "ParseUint" diskNumberOutput))
    end.
  (** [os/volume/volume.go GetVolumeIDFromTargetPath] *)
Definition GetVolumeIDFromTargetPath (mount : string) : M W string := getTarget mount 5.

  (** [os/volume/volume.go NewPowerShellVolumeAPI] *)
Definition NewPowerShellVolumeAPI : VolumeAPI W := {|
  WinVolume.ListVolumesOnDisk := ListVolumesOnDisk; WinVolume.MountVolume := MountVolume;
  WinVolume.UnmountVolume := UnmountVolume; WinVolume.IsVolumeFormatted := IsVolumeFormatted;
  WinVolume.FormatVolume := FormatVolume; WinVolume.ResizeVolume := ResizeVolume;
  WinVolume.GetDiskNumberFromVolumeID := GetDiskNumberFromVolumeID;
  WinVolume.GetVolumeIDFromTargetPath := GetVolumeIDFromTargetPath;
  WinVolume.WriteVolumeCache := WriteVolumeCache;
|}.
End powershell_volume.
End PowerShellVolume.
