(* ===== verification/Wmi.v ===== *)
(** * Windows Management Instrumentation: [pkg/os/wmi]

    [Com W] is the interface of the COM library (go-ole) as [wmi.go] calls it.  A
    callback of the source that fills a variable of its caller is a function of an
    accumulator; the objects of a [Scope] are kept beside the world, and [WithScope]
    releases them.  Below the general part, the queries and methods of [disk.go] and
    [volume.go]. *)
From stdpp Require Import gmap strings list.
From Stdlib Require Import ZArith Lia Ascii.
From S2P Require Import Prelude GoStrings GoErr Windows.
Local Open Scope string_scope.
Local Open Scope Z_scope.
Local Open Scope list_scope.

(** [os/wmi/wmi.go IgnoreNotFound] *)
Definition IgnoreNotFound (err : option gerr) : option gerr :=
  match err with Some e => if errors_Is e WmiErrNotFound then None else Some e | None => None end.
(** [errors.As(err, &oleErr)]. *)
Definition as_ole (e : gerr) : option Z := match root_cause e with EOle c _ => Some c | _ => None end.
(** [errors.As(err, &werr)]. *)
Definition as_wmi (e : gerr) : option Z := match root_cause e with EWmi _ _ _ c => Some c | _ => None end.

(** ** Queries *)
Definition WMINamespaceCimV2 : string := "Root\CimV2".
Definition WMINamespaceStorage : string := "Root\Microsoft\Windows\Storage".
(** A value of a condition: the driver compares with texts and unsigned numbers. *)
Inductive wql_value := WString (s : string) | WNumber (n : Z) | WBool (b : bool).
Definition quote_char : ascii := "'"%char.
(** [os/wmi/wmi.go formatValue] *)
Definition formatValue (v : wql_value) : string :=
  match v with
  | WString x =>
      let escaped := ReplaceAll x "'" "''" in
      let escaped := ReplaceAll escaped backslash (backslash +:+ backslash) in
      "'" +:+ escaped +:+ "'"
  | WNumber n => Itoa n
  | WBool b => if b then "TRUE" else "FALSE"
  end.
(** [os/wmi/wmi.go Condition] *)
Record Condition := MkCondition { Field : string; Operator : string; Value : wql_value }.
(** [os/wmi/wmi.go String 103-105] *)
Definition condition_text (c : Condition) : string :=
  Field c +:+ " " +:+ Operator c +:+ " " +:+ formatValue (Value c).
(** [os/wmi/wmi.go QueryBuilder] *)
Record QueryBuilder := MkQuery {
  q_Class : string; q_Namespace : string; Selectors : list string; Conditions : list Condition }.
(** [os/wmi/wmi.go WithCondition 108-110] *)
Definition WithCondition (field operator : string) (value : wql_value) : Condition :=
  MkCondition field operator value.
(** [os/wmi/wmi.go NewQuery] *)
Definition NewQuery (class : string) : QueryBuilder := MkQuery class WMINamespaceCimV2 [] [].
(** [os/wmi/wmi.go WithNamespace] *)
Definition WithNamespace (ns : string) (q : QueryBuilder) : QueryBuilder :=
  MkQuery (q_Class q) ns (Selectors q) (Conditions q).
(** [os/wmi/wmi.go Select] *)
Definition Select (selectors : list string) (q : QueryBuilder) : QueryBuilder :=
  MkQuery (q_Class q) (q_Namespace q) (Selectors q ++ selectors) (Conditions q).
(** [os/wmi/wmi.go WithConditions] *)
Definition WithConditions (conditions : list Condition) (q : QueryBuilder) : QueryBuilder :=
  MkQuery (q_Class q) (q_Namespace q) (Selectors q) (Conditions q ++ conditions).
(** [os/wmi/wmi.go buildWhereClause] *)
Definition buildWhereClause (q : QueryBuilder) : string :=
  match Conditions q with
  | [] => ""
  | cs => "WHERE " +:+ Join (condition_text <$> cs) " AND "
  end.
(** [os/wmi/wmi.go Build] *)
Definition Build (q : QueryBuilder) : string :=
  let selectPart := match Selectors q with [] => "*" | l => Join l ", " end in
  let query := "SELECT " +:+ selectPart +:+ " FROM " +:+ q_Class q in
  let where_clause := buildWhereClause q in
  if String.eqb where_clause "" then query else query +:+ " " +:+ where_clause.

(** ** Variants *)
(** The types of a variant that the code tells apart. *)
Inductive VT :=
| VT_EMPTY | VT_BOOL | VT_I1 | VT_UI1 | VT_I2 | VT_UI2 | VT_I4 | VT_UI4 | VT_I8 | VT_UI8
| VT_INT | VT_UINT | VT_BSTR | VT_DISPATCH | VT_OTHER.
#[export] Instance VT_eq_dec : EqDecision VT.
Proof. solve_decision. Defined.
(** A variant: its type, the 64 bits of its value as an [int64], and the text that
    [ToString] makes of it. *)
Record variant := MkVariant { v_VT : VT; v_Val : Z; ToString : string }.
(** [os/wmi/wmi.go isInteger] *)
Definition isInteger (vt : VT) : bool :=
  bool_decide (vt ∈ [VT_I1; VT_UI1; VT_I2; VT_UI2; VT_I4; VT_UI4; VT_I8; VT_UI8; VT_INT; VT_UINT]).
(** [os/wmi/wmi.go isUnsigned] *)
Definition isUnsigned (vt : VT) : bool :=
  bool_decide (vt ∈ [VT_UI1; VT_UI2; VT_UI4; VT_UI8; VT_UINT]).
(** A [SafeVariant]: the variant may be nil. *)
Definition SafeVariant : Type := option variant.
Definition MaxInt32 : Z := 2 ^ 31 - 1.
Definition MaxInt64 : Z := 2 ^ 63 - 1.
(** The integer of a variant that holds one, else zero. *)
Definition sv_integer (s : SafeVariant) (f : variant → Z) : Z :=
  match s with Some v => if isInteger (v_VT v) then f v else 0 | None => 0 end.
(** [os/wmi/wmi.go Bool] *)
Definition sv_Bool (s : SafeVariant) : bool :=
  match s with
  | None => false
  | Some v => if decide (v_VT v = VT_BOOL) then negb (Z.land (v_Val v) 0xffff =? 0) else false
  end.
(** [os/wmi/wmi.go String 746-751] *)
Definition sv_String (s : SafeVariant) : string := match s with None => "" | Some v => ToString v end.
(** [os/wmi/wmi.go Int] *)
Definition sv_Int (s : SafeVariant) : Z :=
  sv_integer s (λ v, if isUnsigned (v_VT v) && ((v_Val v <? 0) || (MaxInt64 <? v_Val v)) then MaxInt64
                     else v_Val v).
(** [os/wmi/wmi.go Int32] *)
Definition sv_Int32 (s : SafeVariant) : Z :=
  sv_integer s (λ v, if isUnsigned (v_VT v) && ((v_Val v <? 0) || (MaxInt32 <? v_Val v)) then MaxInt32
                     else int32 (v_Val v)).
(** [os/wmi/wmi.go Int64] *)
Definition sv_Int64 (s : SafeVariant) : Z := sv_integer s v_Val.
(** [os/wmi/wmi.go Uint16] *)
Definition sv_Uint16 (s : SafeVariant) : Z := sv_integer s (λ v, Z.land (v_Val v) 0xFFFF).
(** [os/wmi/wmi.go Uint32] *)
Definition sv_Uint32 (s : SafeVariant) : Z := sv_integer s (λ v, Z.land (v_Val v) 0xFFFFFFFF).
(** [os/wmi/wmi.go Uint64] *)
Definition sv_Uint64 (s : SafeVariant) : Z := sv_integer s (λ v, v_Val v `mod` 2 ^ 64).

(** ** COM *)
(** An [*ole.IDispatch]: nil or a pointer.  The parameters of a call, the last of
    which may be variables for results. *)
Definition Dispatch : Type := option Z.
Inductive cval :=
| CStr (s : string) | CInt (z : Z) | CBool (b : bool) | CNil | CObj (o : Dispatch) | COutString | COutVariant.

Class Com (W : Type) := {
  CoInitializeEx : M W unit;
  CoUninitialize : M W unit;
  CoInitializeSecurity : M W unit;
  getenv_security : string;
  (** oleutil and the methods of IDispatch; a call gives its result and what it
      wrote to the variables among the parameters *)
  com_CreateObject : string → M W Z;
  com_QueryInterface : Z → M W Z;
  com_GetProperty : Z → string → M W variant;
  com_PutProperty : Z → string → cval → M W variant;
  com_CallMethod : Z → string → list cval → M W (variant * list variant);
  com_Clear : variant → M W unit;
  com_AddRef : Z → M W unit;
  com_Release : Z → M W unit;
  (** the enumerator of a collection ([None] for a nil one): what its [Next] answers
      until it has nothing more *)
  com_NewEnum : Z → M W (option (list (res variant)));
  com_ReleaseEnum : Z → M W unit;
  ToIDispatch : variant → Dispatch;
}.

(** [os/wmi/wmi.go comSecurityEnabled] *)
Definition comSecurityEnabled (env : string) : bool :=
  negb (bool_decide (ToLower (TrimSpace env) ∈ ["0"; "false"; "no"; "off"])).

(** A [COMDispatchObject]; one in a [Scope] is valid until it is released. *)
Definition COMDispatchObject : Type := Dispatch.
(** The world and the objects of the current [Scope]. *)
Record CS (W : Type) := MkCS { cs_world : W; cs_objs : list COMDispatchObject }.
Arguments MkCS {W}. Arguments cs_world {W}. Arguments cs_objs {W}.

Section wmi.
  Context {W : Type} `{!Com W}.
  Notation C := (M (CS W)).

Definition com {A} (m : M W A) : C A := on cs_world (λ w s, MkCS w (cs_objs s)) m.
Definition need (o : Dispatch) : C Z := match o with Some p => ret p | None => panic end.
  (** An operation whose cleanup runs on every way out. *)
Definition finally {S A} (m : M S A) (cleanup : M S unit) : M S A := λ s,
  let '(r, s1) := m s in (r, (cleanup s1).2).

  (** [os/wmi/wmi.go InitializeCOMSecurity] What [Do] runs once. *)
Definition InitializeCOMSecurity : M W unit :=
  if negb (comSecurityEnabled getenv_security) then ret ()
  else let! _ := try CoInitializeSecurity in ret ().
  (** [os/wmi/wmi.go WithCOMThread] *)
Definition WithCOMThread {A} (fn : M W A) : M W A :=
  let! r := try CoInitializeEx in
  match r with
  | inl e => if bool_decide (as_ole e = Some 1) then finally fn CoUninitialize else fail e
  | inr _ => finally fn CoUninitialize
  end.
  (** [os/wmi/wmi.go Track] *)
Definition Track (obj : COMDispatchObject) : C COMDispatchObject :=
  λ s, (Ok obj, MkCS (cs_world s) (cs_objs s ++ [obj])).
  (** [os/wmi/wmi.go release] *)
Definition release (obj : COMDispatchObject) : M W unit :=
  match obj with Some p => com_Release p | None => ret () end.
  (** [os/wmi/wmi.go Close] *)
Definition Close (objs : list COMDispatchObject) : M W unit := for_each (reverse objs) release.
  (** [os/wmi/wmi.go WithScope] *)
Definition WithScope {A} (fn : C A) : M W A := λ w,
  let '(r, s) := fn (MkCS w []) in (r, (Close (cs_objs s) (cs_world s)).2).
  (** [os/wmi/wmi.go NewCOMDispatchObject] *)
Definition NewCOMDispatchObject (obj : Dispatch) : C COMDispatchObject :=
  let! _ := match obj with Some p => com (com_AddRef p) | None => ret () end in ret obj.

  (** [os/wmi/wmi.go WithWMIService] *)
Definition WithWMIService {A} (namespace : string) (fn : Dispatch → C A) : C A :=
  let! locatorUnknown := com (com_CreateObject "WbemScripting.SWbemLocator") in
  finally (
    let! locator := com (com_QueryInterface locatorUnknown) in
    finally (
      let! (serviceRaw, _) := com (com_CallMethod locator "ConnectServer" [CNil; CStr namespace]) in
      finally (fn (ToIDispatch serviceRaw)) (com (com_Clear serviceRaw)))
      (com (com_Release locator)))
    (com (com_Release locatorUnknown)).

  (** The loop of [Enumerate]: the callback gives the next value of the caller's
      variables and an error. *)
Fixpoint enum_loop {A} (items : list (res variant)) (fn : A → variant → C (A * option gerr)) (a : A)
    : C (A * option gerr) :=
  match items with
  | [] => ret (a, None)
  | Err e :: _ => ret (a, if bool_decide (as_ole e = Some 1) then None else Some e)
  | Panic :: _ => panic
  | Ok item :: items' =>
      let! (a', err) := finally (fn a item) (com (com_Clear item)) in
      match err with Some e => ret (a', Some e) | None => enum_loop items' fn a' end
  end.
  (** [os/wmi/wmi.go Enumerate] *)
Definition Enumerate {A} (obj : Dispatch) (fn : A → variant → C (A * option gerr)) (a : A)
    : C (A * option gerr) :=
  let! p := need obj in
  let! r := try (com (com_GetProperty p "_NewEnum")) in
  match r with
  | inl e => ret (a, Some (EWrap "failed to get _NewEnum from IDispatch: " e ""))
  | inr enumProp =>
      finally (
        let! q := need (ToIDispatch enumProp) in
        let! r := try (com (com_NewEnum q)) in
        match r with
        | inl e => ret (a, Some (EWrap "failed to get IEnumVARIANT from IDispatch: " e ""))
        | inr None => ret (a, Some (ENew "IEnumVARIANT is nil for IDispatch"))
        | inr (Some items) => finally (enum_loop items fn a) (com (com_ReleaseEnum q))
        end) (com (com_Clear enumProp))
  end.
Definition result_or_err {A} (r : A * option gerr) : C A :=
  match r.2 with Some e => fail e | None => ret r.1 end.
  (** [os/wmi/wmi.go Query] *)
Definition Query {A} (namespace query : string) (fn : A → Dispatch → C (A * option gerr)) (a : A) : C A :=
  WithWMIService namespace (λ service,
    let! p := need service in
    let! (resultRaw, _) := com (com_CallMethod p "ExecQuery" [CStr query]) in
    finally (
      let! (a', err) := Enumerate (ToIDispatch resultRaw) (λ a item, fn a (ToIDispatch item)) a in
      match err with
      | Some e => if errors_Is e WmiErrStopIteration then ret a' else fail e
      | None => ret a'
      end) (com (com_Clear resultRaw))).
  (** [os/wmi/wmi.go Associators] *)
Definition Associators {A} (obj : Dispatch) (assocClass resultClass role resultRole : string)
    (fn : A → Dispatch → C (A * option gerr)) (a : A) : C A :=
  let! p := need obj in
  let! r := try (com (com_CallMethod p "Associators_"
                        [CStr assocClass; CStr resultClass; CStr role; CStr resultRole])) in
  match r with
  | inl e => fail (EWrap "failed to list associators. error: " e "")
  | inr (result, _) =>
      finally (let! r := Enumerate (ToIDispatch result) (λ a item, fn a (ToIDispatch item)) a in
               result_or_err r) (com (com_Clear result))
  end.

  (** The callbacks that collect the objects, and the one that stops at the first. *)
Definition collect (results : list COMDispatchObject) (item : Dispatch)
    : C (list COMDispatchObject * option gerr) :=
  let! obj := NewCOMDispatchObject item in
  let! obj := Track obj in
  ret (results ++ [obj], None).
Definition first_one (result : option COMDispatchObject) (item : Dispatch)
    : C (option COMDispatchObject * option gerr) :=
  let! obj := NewCOMDispatchObject item in
  let! obj := Track obj in
  ret (Some obj, Some (ESentinel WmiErrStopIteration)).
  (** [os/wmi/wmi.go QueryObjectsWithBuilder] *)
Definition QueryObjectsWithBuilder (q : QueryBuilder) : C (list COMDispatchObject) :=
  Query (q_Namespace q) (Build q) collect [].
  (** [os/wmi/wmi.go QueryFirstObjectWithBuilder] *)
Definition QueryFirstObjectWithBuilder (q : QueryBuilder) : C COMDispatchObject :=
  let! result := Query (q_Namespace q) (Build q) first_one None in
  match result with Some obj => ret obj | None => fail (ESentinel WmiErrNotFound) end.
  (** [os/wmi/wmi.go GetAssociated] *)
Definition GetAssociated (c : COMDispatchObject) (assocClass resultClass role resultRole : string)
    : C (list COMDispatchObject) :=
  Associators c assocClass resultClass role resultRole collect [].
  (** [os/wmi/wmi.go ForEach] *)
Fixpoint ForEach {A} (items : list COMDispatchObject) (fn : A → COMDispatchObject → C (A * option gerr))
    (a : A) : C A :=
  match items with
  | [] => ret a
  | item :: items' =>
      let! (a', err) := fn a item in
      match err with
      | Some e => if errors_Is e WmiErrStopIteration then ret a' else fail e
      | None => ForEach items' fn a'
      end
  end.

  (** *** Properties and methods of an object *)
  (** [os/wmi/wmi.go GetPropertyWithHandler] *)
Definition GetPropertyWithHandler {A} (c : COMDispatchObject) (name : string) (fn : variant → A) : C A :=
  let! p := need c in
  let! r := try (com (com_GetProperty p name)) in
  match r with
  | inl e => fail (EWrap ("failed to get property " +:+ name +:+ ": ") e "")
  | inr v => finally (ret (fn v)) (com (com_Clear v))
  end.
  (** [os/wmi/wmi.go GetStringProperty] *)
Definition GetStringProperty (c : COMDispatchObject) (name : string) : C string :=
  GetPropertyWithHandler c name (λ v, sv_String (Some v)).
  (** [os/wmi/wmi.go GetUint32Property] *)
Definition GetUint32Property (c : COMDispatchObject) (name : string) : C Z :=
  GetPropertyWithHandler c name (λ v, sv_Uint32 (Some v)).
  (** [os/wmi/wmi.go GetUint16Property] *)
Definition GetUint16Property (c : COMDispatchObject) (name : string) : C Z :=
  GetPropertyWithHandler c name (λ v, sv_Uint16 (Some v)).
  (** [os/wmi/wmi.go GetBoolProperty] *)
Definition GetBoolProperty (c : COMDispatchObject) (name : string) : C bool :=
  GetPropertyWithHandler c name (λ v, sv_Bool (Some v)).
Definition ParseUint64 (s : string) : res Z :=
  match parse_uint 10 s with
  | Some n => if (n <? 2 ^ 64)%Z then Ok n else Err (ENew (num_error "ParseUint" s))
  | None => Err (ENew (num_error "ParseUint" s))
  end.
  (** [os/wmi/wmi.go GetStringPropertyAsUint64] *)
Definition GetStringPropertyAsUint64 (c : COMDispatchObject) (name : string) : C Z :=
  let! str := GetStringProperty c name in
  if String.eqb str ""
  then fail (ENew ("WMI property " +:+ quote name +:+ " is empty; cannot parse as uint64"))
  else match ParseUint64 str with
       | Ok n => ret n
       | Err e => fail (EWrap ("failed to parse WMI property " +:+ quote name +:+ " value " +:+ quote str
                               +:+ " as uint64: ") e "")
       | Panic => panic
       end.
  (** [os/wmi/wmi.go CallMethod] *)
Definition CallMethod {A} (c : COMDispatchObject) (name : string) (params : list cval)
    (fn : variant → A) : C (A * list variant) :=
  let! p := need c in
  let! (v, outs) := com (com_CallMethod p name params) in
  finally (ret (fn v, outs)) (com (com_Clear v)).
  (** [os/wmi/wmi.go CallUint32] *)
Definition CallUint32 (c : COMDispatchObject) (name : string) (params : list cval) : C (Z * list variant) :=
  CallMethod c name params (λ v, sv_Uint32 (Some v)).
End wmi.
