(* ===== verification/WmiStorage.v ===== *)
(** * Disks, partitions and volumes of WMI: [os/wmi/disk.go], [os/wmi/volume.go]

    The queries and methods of the storage classes, on top of [Wmi]. *)
From stdpp Require Import gmap strings list.
From Stdlib Require Import ZArith Lia Ascii.
From S2P Require Import Prelude GoStrings GoErr Windows Wmi.
Local Open Scope string_scope.
Local Open Scope Z_scope.
Local Open Scope list_scope.

(** [os/wmi/disk.go MSFTDiskClass 27-27] *)
Definition MSFTDiskClass : string := "MSFT_Disk".
(** [os/wmi/disk.go MSFTStorageSettingClass 28-28] *)
Definition MSFTStorageSettingClass : string := "MSFT_StorageSetting".
(** [os/wmi/disk.go PartitionStyleUnknown 31-31] *)
Definition PartitionStyleUnknown : Z := 0.
(** [os/wmi/disk.go PartitionStyleMBR 33-33] *)
Definition PartitionStyleMBR : Z := 1.
(** [os/wmi/disk.go PartitionStyleGPT 35-35] *)
Definition PartitionStyleGPT : Z := 2.
(** [os/wmi/disk.go GPTPartitionTypeBasicData 39-39] *)
Definition GPTPartitionTypeBasicData : string := "{ebd0a0a2-b9e5-4433-87c0-68b6b72699c7}".
(** [os/wmi/disk.go GPTPartitionTypeMicrosoftReserved 42-42] *)
Definition GPTPartitionTypeMicrosoftReserved : string := "{e3c9e316-0b5c-4db8-817d-f92df00215ae}".
(** [os/wmi/disk.go ErrorCodeCreatePartitionAccessPathAlreadyInUse 45-45] *)
Definition ErrorCodeCreatePartitionAccessPathAlreadyInUse : Z := 42002.
(** [os/wmi/volume.go MSFTVolumeClass 31-31] *)
Definition MSFTVolumeClass : string := "MSFT_Volume".
(** [os/wmi/volume.go MSFTPartitionClass 32-32] *)
Definition MSFTPartitionClass : string := "MSFT_Partition".
(** [os/wmi/volume.go FileSystemUnknown 34-34] *)
Definition FileSystemUnknown : Z := 0.

(** The text of the object in a [WMIError]. *)
Definition show_dispatch (o : Dispatch) : string := match o with Some p => Itoa p | None => "<nil>" end.
(** [os/wmi/wmi.go NewWMIError] *)
Definition NewWMIError (class method : string) (target : Dispatch) (code : Z) : gerr :=
  EWmi class method (show_dispatch target) code.
(** The text written to the [i]-th variable of a call. *)
Definition out_string (outs : list variant) (i : nat) : string := sv_String (outs !! i).

Section storage.
  Context {W : Type} `{!Com W} `{MapOrder}.
  Notation C := (M (CS W)).

  (** ** Class methods *)
  (** The parameters of a class method that has any. *)
Fixpoint put_params (inst : Z) (l : list (string * cval)) : C unit :=
  match l with
  | [] => ret ()
  | (k, v) :: l' =>
      let! r := try (com (com_PutProperty inst k v)) in
      match r with
      | inl e => fail (EWrap ("set param " +:+ k +:+ " failed: ") e "")
      | inr putResult => let! _ := com (com_Clear putResult) in put_params inst l'
      end
  end.
Definition with_in_params {A} (method : Z) (methodName : string) (input : gmap string cval)
    (k : list cval → C A) : C A :=
  if bool_decide (size input = 0%nat) then k [CStr methodName]
  else
    let! inParamsRaw := com (com_GetProperty method "InParameters") in
    finally (
      if v_Val inParamsRaw =? 0 then k [CStr methodName]
      else
        let! p := need (ToIDispatch inParamsRaw) in
        let! (inParamsInstRaw, _) := com (com_CallMethod p "SpawnInstance_" []) in
        finally (
          let! inst := need (ToIDispatch inParamsInstRaw) in
          let! _ := put_params inst (map_order input) in
          k [CStr methodName; CObj (Some inst)]) (com (com_Clear inParamsInstRaw)))
      (com (com_Clear inParamsRaw)).
  (** One property of the results. *)
Definition out_param (handler : string → variant → C (option variant)) (output : gmap string variant)
    (item : variant) : C (gmap string variant * option gerr) :=
  let! p := need (ToIDispatch item) in
  let! r := try (
    let! nameVar := com (com_GetProperty p "Name") in
    finally (
      let! valVar := com (com_GetProperty p "Value") in
      finally (
        let! val := handler (ToString nameVar) valVar in
        ret (ToString nameVar, val)) (com (com_Clear valVar))) (com (com_Clear nameVar))) in
  match r with
  | inl e => ret (output, Some e)
  | inr (name, Some val) => ret (<[name := val]> output, None)
  | inr (_, None) => ret (output, None)
  end.
  (** [os/wmi/wmi.go CallMethodOnWMIClass] *)
Definition CallMethodOnWMIClass (namespace class methodName : string) (input : gmap string cval)
    (handler : string → variant → C (option variant)) : C (Z * gmap string variant) :=
  WithWMIService namespace (λ service,
    let! sp := need service in
    let! r := try (com (com_CallMethod sp "Get" [CStr class])) in
    match r with
    | inl e => fail (EWrap ("get class " +:+ class +:+ " failed: ") e "")
    | inr (classRaw, _) =>
        finally (
          let! classInst := need (ToIDispatch classRaw) in
          let! methodsRaw := com (com_GetProperty classInst "Methods_") in
          finally (
            let! methods := need (ToIDispatch methodsRaw) in
            let! r := try (com (com_CallMethod methods "Item" [CStr methodName])) in
            match r with
            | inl e => fail (EWrap ("method " +:+ methodName +:+ " not found: ") e "")
            | inr (methodRaw, _) =>
                finally (
                  let! method := need (ToIDispatch methodRaw) in
                  with_in_params method methodName input (λ params,
                    let! r := try (com (com_CallMethod classInst "ExecMethod_" params)) in
                    match r with
                    | inl e => fail (EWrap "ExecMethod_ failed: " e "")
                    | inr (outParamsRaw, _) =>
                        finally (
                          let! outParams := need (ToIDispatch outParamsRaw) in
                          let! r := try (com (com_GetProperty outParams "ReturnValue")) in
                          match r with
                          | inl e => fail (EWrap "ReturnValue failed: " e "")
                          | inr rv =>
                              finally (
                                let! propsRaw := com (com_GetProperty outParams "Properties_") in
                                finally (
                                  let! (output, err) := Enumerate (ToIDispatch propsRaw) (out_param handler) ∅ in
                                  match err with
                                  | Some e => fail e
                                  | None => ret (sv_Uint32 (Some rv), output)
                                  end) (com (com_Clear propsRaw))) (com (com_Clear rv))
                          end) (com (com_Clear outParamsRaw))
                    end)) (com (com_Clear methodRaw))
            end) (com (com_Clear methodsRaw))) (com (com_Clear classRaw))
    end).
  (** [os/wmi/wmi.go DiscardOutputParameter 58-60] *)
Definition DiscardOutputParameter (name : string) (v : variant) : C (option variant) := ret None.
  (** A computation outside of every scope. *)
Definition no_scope {A} (m : C A) : M W A := λ w, let '(r, s) := m (MkCS w []) in (r, cs_world s).

  (** ** Disks *)
  (** [os/wmi/disk.go QueryDiskByNumber] *)
Definition QueryDiskByNumber (diskNumber : Z) (selectorList : list string) : C COMDispatchObject :=
  let q := WithConditions [WithCondition "Number" "=" (WNumber diskNumber)]
             (Select selectorList (WithNamespace WMINamespaceStorage (NewQuery MSFTDiskClass))) in
  let! r := try (QueryFirstObjectWithBuilder q) in
  match r with
  | inl e => fail (EWrap ("failed to query disk " +:+ Itoa diskNumber +:+ ". error: ") e "")
  | inr disk => ret disk
  end.
  (** [os/wmi/disk.go ListDisks] *)
Definition ListDisks (selectorList : list string) : C (list COMDispatchObject) :=
  let! r := try (QueryObjectsWithBuilder
                   (Select selectorList (WithNamespace WMINamespaceStorage (NewQuery MSFTDiskClass)))) in
  match r with
  | inl e => fail (EWrap "failed to query disks: " e "")
  | inr disks => ret disks
  end.
  (** A method whose result must be zero. *)
Definition method_ok (class method : string) (obj : COMDispatchObject) (params : list cval)
    (msg : gerr → gerr) : C (list variant) :=
  let! r := try (CallUint32 obj method params) in
  match r with
  | inl e => fail (msg e)
  | inr (result, outs) =>
      if result =? 0 then ret outs else fail (NewWMIError class method obj result)
  end.
  (** [os/wmi/disk.go InitializeDisk] *)
Definition InitializeDisk (disk : COMDispatchObject) (partitionStyle : Z) : C unit :=
  let! _ := method_ok MSFTDiskClass "Initialize" disk [CInt (int32 partitionStyle)]
              (λ e, EWrap "failed to initialize disk: " e "") in
  ret ().
  (** [os/wmi/disk.go RefreshDisk] *)
Definition RefreshDisk (disk : COMDispatchObject) : C string :=
  let! outs := method_ok MSFTDiskClass "Refresh" disk [COutString]
                 (λ e, EWrap "failed to refresh disk: " e "") in
  ret (out_string outs 0).
  (** [os/wmi/disk.go CreatePartition] *)
Definition CreatePartition (disk : COMDispatchObject) (params : list cval) : C unit :=
  let! _ := method_ok MSFTDiskClass "CreatePartition" disk params
              (λ e, EWrap "failed to create partition: " e "") in
  ret ().
Definition online_method (online : bool) : string := if online then "Online" else "Offline".
  (** [os/wmi/disk.go SetDiskState] *)
Definition SetDiskState (disk : COMDispatchObject) (online : bool) : C string :=
  let! outs := method_ok MSFTDiskClass (online_method online) disk [COutString]
                 (λ e, EWrap "failed to set disk state: " e "") in
  ret (out_string outs 0).
  (** [os/wmi/disk.go RescanDisks] *)
Definition RescanDisks : M W unit :=
  no_scope (
    let! r := try (CallMethodOnWMIClass WMINamespaceStorage MSFTStorageSettingClass "UpdateHostStorageCache"
                     ∅ DiscardOutputParameter) in
    match r with
    | inl e => fail (EWrap "failed to update host storage cache: " e "")
    | inr (result, _) =>
        if result =? 0 then ret ()
        else fail (NewWMIError MSFTStorageSettingClass "UpdateHostStorageCache" None result)
    end).
  (** [os/wmi/disk.go GetDiskNumber] *)
Definition GetDiskNumber (disk : COMDispatchObject) : C Z := GetUint32Property disk "Number".
  (** [os/wmi/disk.go GetDiskLocation] *)
Definition GetDiskLocation (disk : COMDispatchObject) : C string := GetStringProperty disk "Location".
  (** [os/wmi/disk.go GetDiskPartitionStyle] *)
Definition GetDiskPartitionStyle (disk : COMDispatchObject) : C Z := GetUint16Property disk "PartitionStyle".
  (** [os/wmi/disk.go IsDiskOffline] *)
Definition IsDiskOffline (disk : COMDispatchObject) : C bool := GetBoolProperty disk "IsOffline".
  (** [os/wmi/disk.go GetDiskSize] *)
Definition GetDiskSize (disk : COMDispatchObject) : C Z := GetStringPropertyAsUint64 disk "Size".
  (** [os/wmi/disk.go GetDiskPath] *)
Definition GetDiskPath (disk : COMDispatchObject) : C string := GetStringProperty disk "Path".
  (** [os/wmi/disk.go GetDiskSerialNumber] *)
Definition GetDiskSerialNumber (disk : COMDispatchObject) : C string := GetStringProperty disk "SerialNumber".

  (** ** Volumes and partitions *)
  (** [os/wmi/volume.go QueryVolumeByUniqueID] *)
Definition QueryVolumeByUniqueID (volumeID : string) (selectorList : list string) : C COMDispatchObject :=
  let q := WithConditions [WithCondition "UniqueId" "=" (WString volumeID)]
             (Select selectorList (WithNamespace WMINamespaceStorage (NewQuery MSFTVolumeClass))) in
  let! r := try (QueryFirstObjectWithBuilder q) in
  match r with
  | inl e => fail (EWrap ("failed to query volume " +:+ volumeID +:+ ": ") e "")
  | inr result => ret result
  end.
  (** [os/wmi/volume.go ListVolumes] *)
Definition ListVolumes (selectorList : list string) : C (list COMDispatchObject) :=
  QueryObjectsWithBuilder (Select selectorList (WithNamespace WMINamespaceStorage (NewQuery MSFTVolumeClass))).
  (** [os/wmi/volume.go FormatVolume] *)
Definition FormatVolume (volume : COMDispatchObject) (params : list cval) : C unit :=
  let! _ := method_ok MSFTVolumeClass "Format" volume params
              (λ e, EWrap ("failed to format volume " +:+ show_dispatch volume +:+ ". error: ") e "") in
  ret ().
  (** [os/wmi/volume.go FlushVolume] *)
Definition FlushVolume (volume : COMDispatchObject) : C unit :=
  let! _ := method_ok MSFTVolumeClass "Flush" volume []
              (λ e, EWrap ("failed to flush volume " +:+ show_dispatch volume +:+ ". error: ") e "") in
  ret ().
  (** [os/wmi/volume.go GetVolumeUniqueID] *)
Definition GetVolumeUniqueID (volume : COMDispatchObject) : C string := GetStringProperty volume "UniqueId".
  (** [os/wmi/volume.go GetVolumeFileSystemType] *)
Definition GetVolumeFileSystemType (volume : COMDispatchObject) : C Z :=
  GetUint16Property volume "FileSystemType".
  (** [os/wmi/volume.go GetVolumeSize] *)
Definition GetVolumeSize (volume : COMDispatchObject) : C Z := GetStringPropertyAsUint64 volume "Size".
  (** [os/wmi/volume.go GetVolumeSizeRemaining] *)
Definition GetVolumeSizeRemaining (volume : COMDispatchObject) : C Z :=
  GetStringPropertyAsUint64 volume "SizeRemaining".
  (** [os/wmi/volume.go ListPartitionsWithFilters] *)
Definition ListPartitionsWithFilters (selectorList : list string) (filters : list Condition)
    : C (list COMDispatchObject) :=
  QueryObjectsWithBuilder (WithConditions filters
    (Select selectorList (WithNamespace WMINamespaceStorage (NewQuery MSFTPartitionClass)))).
  (** [os/wmi/volume.go ListPartitionsOnDisk] *)
Definition ListPartitionsOnDisk (diskNumber partitionNumber : Z) (selectorList : list string)
    : C (list COMDispatchObject) :=
  ListPartitionsWithFilters selectorList
    (WithCondition "DiskNumber" "=" (WNumber diskNumber) ::
     (if (0 <? partitionNumber)%Z then [WithCondition "PartitionNumber" "=" (WNumber partitionNumber)] else [])).
  (** The partitions of volumes, or the volumes of partitions, in one list. *)
Definition associated (what resultClass role resultRole : string) (objs : list COMDispatchObject)
    : C (list COMDispatchObject) :=
  ForEach objs (λ found obj,
    let! r := try (GetAssociated obj "MSFT_PartitionToVolume" resultClass role resultRole) in
    match r with
    | inl e => ret (found, Some (EWrap ("failed to query associated " +:+ what +:+ " for "
                                        +:+ show_dispatch obj +:+ ". error: ") e ""))
    | inr collection => ret (found ++ collection, None)
    end) [].
  (** [os/wmi/volume.go FindPartitionsByVolume] *)
Definition FindPartitionsByVolume (volumes : list COMDispatchObject) : C (list COMDispatchObject) :=
  associated "partition" MSFTPartitionClass "Partition" "Volume" volumes.
  (** [os/wmi/volume.go FindVolumesByPartition] *)
Definition FindVolumesByPartition (partitions : list COMDispatchObject) : C (list COMDispatchObject) :=
  associated "volumes" MSFTVolumeClass "Volume" "Partition" partitions.
  (** [os/wmi/volume.go GetPartitionByVolumeUniqueID] *)
Definition GetPartitionByVolumeUniqueID (volumeID : string) : C COMDispatchObject :=
  let! volume := QueryVolumeByUniqueID volumeID ["ObjectId"] in
  let! partitions := FindPartitionsByVolume [volume] in
  match partitions with [] => fail (ESentinel WmiErrNotFound) | p :: _ => ret p end.
  (** [os/wmi/volume.go GetVolumeByDriveLetter] *)
Definition GetVolumeByDriveLetter (driveLetter : string) (partitionSelectorList : list string)
    : C COMDispatchObject :=
  let! partitions := ListPartitionsWithFilters (partitionSelectorList ++ ["ObjectId"])
                       [WithCondition "DriveLetter" "=" (WString driveLetter)] in
  let! volumes := FindVolumesByPartition partitions in
  match volumes with [] => fail (ESentinel WmiErrNotFound) | v :: _ => ret v end.
  (** [os/wmi/volume.go GetPartitionDiskNumber] *)
Definition GetPartitionDiskNumber (part : COMDispatchObject) : C Z := GetUint32Property part "DiskNumber".
  (** [os/wmi/volume.go SetPartitionState] *)
Definition SetPartitionState (part : COMDispatchObject) (online : bool) : C string :=
  let! outs := method_ok MSFTPartitionClass (online_method online) part [COutString] id in
  ret (out_string outs 0).
  (** [os/wmi/volume.go GetPartitionSupportedSize] The texts of the two sizes are
      released with their variables. *)
Definition GetPartitionSupportedSize (part : COMDispatchObject) : C (Z * Z * string) :=
  let! outs := method_ok MSFTPartitionClass "GetSupportedSize" part [COutVariant; COutVariant; COutString] id in
  let clear i := match outs !! i with Some v => com (com_Clear v) | None => ret () end in
  finally (finally (
    let! sizeMin := lift (ParseUint64 (out_string outs 0)) in
    let! sizeMax := lift (ParseUint64 (out_string outs 1)) in
    ret (sizeMin, sizeMax, out_string outs 2)) (clear 1%nat)) (clear 0%nat).
  (** [os/wmi/volume.go ResizePartition] *)
Definition ResizePartition (part : COMDispatchObject) (size : Z) : C string :=
  let! outs := method_ok MSFTPartitionClass "Resize" part [CStr (Itoa size); COutString]
                 (λ e, EWrap ("failed to resize partition " +:+ show_dispatch part +:+ ". error: ") e "") in
  ret (out_string outs 0).
  (** [os/wmi/volume.go GetPartitionSize] *)
Definition GetPartitionSize (part : COMDispatchObject) : C Z := GetStringPropertyAsUint64 part "Size".
  (** [os/wmi/volume.go GetPartitionOffset] *)
Definition GetPartitionOffset (part : COMDispatchObject) : C Z := GetStringPropertyAsUint64 part "Offset".
  (** [os/wmi/volume.go FilterForPartitionOnDisk] *)
Definition FilterForPartitionOnDisk (diskNumber : Z) : Condition :=
  WithCondition "DiskNumber" "=" (WNumber diskNumber).
  (** [os/wmi/volume.go FilterForPartitionsOfTypeNormal] *)
Definition FilterForPartitionsOfTypeNormal : Condition :=
  WithCondition "GptType" "<>" (WString GPTPartitionTypeMicrosoftReserved).
End storage.
