(* ===== verification/WinCim.v ===== *)
(** * The WMI implementations of [DiskAPI] and [VolumeAPI]: [disk_cim.go], [volume_cim.go]

    Every operation runs on a thread with COM and in a [Scope] of its own.  A
    variable that the closure sets and the operation returns is the result of the
    closure; where an error leaves the variable's zero value, so does the model. *)
From stdpp Require Import gmap strings list.
From Stdlib Require Import ZArith Lia Ascii.
From S2P Require Import Prelude GoStrings GoErr Windows WinDisk WinVolume Wmi WmiStorage.
Local Open Scope string_scope.
Local Open Scope Z_scope.
Local Open Scope list_scope.

Section com.
  Context {W : Type} `{!Com W}.

  (** [wmi.WithCOMThread(func() error { return wmi.WithScope(...) })] *)
Definition on_com {A} (fn : M (CS W) A) : M W A := WithCOMThread (WithScope fn).
  (** [fmt.Errorf] with [%w] around a failing call. *)
Definition wrap_err {S A} (m : M S A) (pre : string) : M S A :=
  let! r := try m in
  match r with inl e => fail (EWrap pre e "") | inr a => ret a end.
End com.

Module CimDisk.
Section cim_disk.
  Context {W : Type} `{!WinHost W} `{!Com W} `{MapOrder} (beyond : Z → Z).
  Notation C := (M (CS W)).

Definition in_world {A} (m : M W A) : C A := com m.

  (** [os/disk/disk_cim.go ListDiskLocations 60-125] The callback for one disk. *)
Definition cim_disk_location (m : gmap Z Location) (disk : COMDispatchObject)
    : C (gmap Z Location * option gerr) :=
  let! r := try (
    let! num := wrap_err (GetDiskNumber disk)
                  ("failed to query disk number: " +:+ show_dispatch disk +:+ ", ") in
    let! location := wrap_err (GetDiskLocation disk)
                  ("failed to query disk location: " +:+ show_dispatch disk +:+ ", ") in
    let! style := try (GetDiskPartitionStyle disk) in
    if (match style with inr s => (s =? PartitionStyleMBR)%Z | inl _ => false end) then ret m
    else
      let! path := try (GetDiskPath disk) in
      let diskPath := match path with inr p => p | inl _ => "" end in
      match getNVMeLocation diskPath with
      | (Some loc, true) => ret (<[num := loc]> m)
      | (None, true) => ret m
      | (_, false) => ret (match parse_location location with Some d => <[num := d]> m | None => m end)
      end) in
  match r with inl e => ret (m, Some e) | inr m' => ret (m', None) end.
  (** [os/disk/disk_cim.go ListDiskLocations] *)
Definition ListDiskLocations : M W (gmap Z Location) :=
  on_com (
    let! disks := wrap_err (ListDisks ["Number"; "Location"; "Path"; "PartitionStyle"]) "failed to list disks: " in
    ForEach disks cim_disk_location ∅).
  (** [os/disk/disk_cim.go Rescan] *)
Definition Rescan : M W unit :=
  WithCOMThread (wrap_err RescanDisks "error updating host storage cache output. err: ").
  (** [os/disk/disk_cim.go IsDiskInitialized] *)
Definition IsDiskInitialized (diskNumber : Z) : M W bool :=
  on_com (
    let! disk := wrap_err (QueryDiskByNumber diskNumber ["PartitionStyle"])
                   ("error checking initialized status of disk " +:+ Itoa diskNumber +:+ ": ") in
    let! partitionStyle := wrap_err (GetDiskPartitionStyle disk)
                   ("failed to query partition style of disk " +:+ Itoa diskNumber +:+ ": ") in
    ret (negb (partitionStyle =? PartitionStyleUnknown))).
  (** [os/disk/disk_cim.go InitializeDisk] *)
Definition InitializeDisk (diskNumber : Z) : M W unit :=
  on_com (
    let! disk := wrap_err (QueryDiskByNumber diskNumber [])
                   ("failed to initializing disk " +:+ Itoa diskNumber +:+ ". error: ") in
    wrap_err (WmiStorage.InitializeDisk disk PartitionStyleGPT)
             ("failed to initializing disk " +:+ Itoa diskNumber +:+ ": error: ")).
Definition normal_partitions (diskNumber : Z) : C (list COMDispatchObject) :=
  ListPartitionsWithFilters [] [FilterForPartitionOnDisk diskNumber; FilterForPartitionsOfTypeNormal].
  (** [os/disk/disk_cim.go BasicPartitionsExist] *)
Definition BasicPartitionsExist (diskNumber : Z) : M W bool :=
  on_com (
    let! partitions := wrap_err (normal_partitions diskNumber)
                         ("error checking presence of partitions on disk " +:+ Itoa diskNumber +:+ ": ") in
    ret (bool_decide (0 < length partitions)%nat)).
  (** [os/disk/disk_cim.go CreateBasicPartition] *)
Definition CreateBasicPartition (diskNumber : Z) : M W unit :=
  on_com (
    let! disk := QueryDiskByNumber diskNumber [] in
    let! r := try (CreatePartition disk
      [CNil; CBool true; CNil; CNil; CNil; CBool false; CNil; CStr GPTPartitionTypeBasicData;
       CBool false; CBool false]) in
    let! _ := match r with
              | inl e => if bool_decide (as_wmi e = Some ErrorCodeCreatePartitionAccessPathAlreadyInUse)
                         then ret ()
                         else fail (EWrap ("error creating partition on disk " +:+ Itoa diskNumber +:+ ". err: ") e "")
              | inr _ => ret ()
              end in
    let! _ := wrap_err (RefreshDisk disk) ("error rescan disk (" +:+ Itoa diskNumber +:+ "). error: ") in
    let! partitions := wrap_err (normal_partitions diskNumber)
                         ("error query basic partition on disk " +:+ Itoa diskNumber +:+ ": ") in
    match partitions with
    | [] => fail (ENew ("no partitions found on disk " +:+ Itoa diskNumber +:+ " after creation"))
    | partition :: _ =>
        let! _ := wrap_err (SetPartitionState partition true)
                    ("error bring partition " +:+ show_dispatch partition +:+ " on disk " +:+ Itoa diskNumber
                     +:+ " online. status , err: ") in
        ret ()
    end).
  (** The callback of [GetDiskNumberWithID] for one disk. *)
Definition match_page83 (page83ID : string) (found : option Z) (disk : COMDispatchObject)
    : C (option Z * option gerr) :=
  let! r := try (
    let! path := wrap_err (GetDiskPath disk)
                   ("failed to query disk path: " +:+ show_dispatch disk +:+ ", ") in
    in_world (getDiskNumberAndPage83ID beyond path)) in
  match r with
  | inl e => ret (found, Some e)
  | inr (diskNumber, diskPage83ID) =>
      if String.eqb diskPage83ID page83ID then ret (Some diskNumber, Some (ESentinel WmiErrStopIteration))
      else ret (found, None)
  end.
  (** [os/disk/disk_cim.go GetDiskNumberWithID] *)
Definition GetDiskNumberWithID (page83ID : string) : M W Z :=
  on_com (
    let! disks := wrap_err (ListDisks ["Path"; "SerialNumber"]) "failed to list disks: " in
    let! found := ForEach disks (match_page83 page83ID) None in
    match found with
    | Some diskNumber => ret diskNumber
    | None => fail (EWrap ("could not find disk with Page83 ID " +:+ page83ID +:+ ": ")
                          (ESentinel WmiErrNotFound) "")
    end).
  (** [os/disk/disk_cim.go GetDiskNumberByName] *)
Definition GetDiskNumberByName (page83ID : string) : M W Z := GetDiskNumberWithID page83ID.
  (** [os/disk/disk_cim.go GetDiskNumber] *)
Definition GetDiskNumber (disk : Z) : M W Z := ioctl_GetDeviceNumber disk.
  (** [os/disk/disk_cim.go GetDiskPage83ID] The same text as in [disk.go]. *)
Definition GetDiskPage83ID (disk : Z) : M W string := getDiskPage83ID beyond disk.
  (** [os/disk/disk_cim.go GetDiskNumberAndPage83ID] The same text as in [disk.go]. *)
Definition GetDiskNumberAndPage83ID (path : string) : M W (Z * string) :=
  getDiskNumberAndPage83ID beyond path.
  (** The callback of [ListDiskIDs] for one disk. *)
Definition collect_ids (m : gmap Z IDs) (disk : COMDispatchObject) : C (gmap Z IDs * option gerr) :=
  let! r := try (
    let! path := wrap_err (GetDiskPath disk)
                   ("failed to query disk path: " +:+ show_dispatch disk +:+ ", ") in
    let! sn := wrap_err (GetDiskSerialNumber disk)
                 ("failed to query disk serial number: " +:+ show_dispatch disk +:+ ", ") in
    let! (diskNumber, page83) := in_world (getDiskNumberAndPage83ID beyond path) in
    ret (<[diskNumber := MkIDs page83 sn]> m)) in
  match r with inl e => ret (m, Some e) | inr m' => ret (m', None) end.
  (** [os/disk/disk_cim.go ListDiskIDs] *)
Definition ListDiskIDs : M W (gmap Z IDs) :=
  on_com (
    let! disks := wrap_err (ListDisks ["Path"; "SerialNumber"]) "failed to list disks: " in
    ForEach disks collect_ids ∅).
  (** [os/disk/disk_cim.go GetDiskStats] *)
Definition GetDiskStats (diskNumber : Z) : M W Z :=
  on_com (
    let! disk := QueryDiskByNumber diskNumber ["Size"] in
    let! sz := wrap_err (GetDiskSize disk) ("failed to query size of disk " +:+ Itoa diskNumber +:+ ". ") in
    if MaxInt64 <? sz
    then fail (ENew ("disk " +:+ Itoa diskNumber +:+ " size " +:+ Itoa sz +:+ " exceeds max int64"))
    else ret sz).
  (** [os/disk/disk_cim.go SetDiskState] *)
Definition SetDiskState (diskNumber : Z) (isOnline : bool) : M W unit :=
  on_com (
    let! disk := QueryDiskByNumber diskNumber ["IsOffline"] in
    let! isOffline := wrap_err (IsDiskOffline disk)
                        ("error setting disk " +:+ Itoa diskNumber +:+ " attach state. error: ") in
    if Bool.eqb isOnline (negb isOffline) then ret ()
    else let! _ := wrap_err (WmiStorage.SetDiskState disk isOnline)
                     ("setting disk " +:+ Itoa diskNumber +:+ " attach state (isOnline: " +:+ show_bool isOnline
                      +:+ "): error: ") in
         ret ()).
  (** [os/disk/disk_cim.go GetDiskState] *)
Definition GetDiskState (diskNumber : Z) : M W bool :=
  on_com (
    let! disk := QueryDiskByNumber diskNumber ["IsOffline"] in
    let! isOffline := wrap_err (IsDiskOffline disk)
                        ("error parsing disk " +:+ Itoa diskNumber +:+ " state. error: ") in
    ret (negb isOffline)).
  (** [os/disk/disk_cim.go PartitionDisk] *)
Definition PartitionDisk (diskNumber : Z) : M W unit :=
  let! initialized := IsDiskInitialized diskNumber in
  let! _ := if negb initialized then InitializeDisk diskNumber else ret () in
  let! partitioned := BasicPartitionsExist diskNumber in
  if negb partitioned then CreateBasicPartition diskNumber else ret ().

  (** [os/disk/disk_cim.go NewCIMDiskAPI] *)
Definition NewCIMDiskAPI : DiskAPI W := {|
  WinDisk.ListDiskLocations := ListDiskLocations; WinDisk.Rescan := Rescan;
  WinDisk.IsDiskInitialized := IsDiskInitialized; WinDisk.InitializeDisk := InitializeDisk;
  WinDisk.BasicPartitionsExist := BasicPartitionsExist;
  WinDisk.CreateBasicPartition := CreateBasicPartition;
  WinDisk.GetDiskNumberByName := GetDiskNumberByName; WinDisk.GetDiskNumber := GetDiskNumber;
  WinDisk.GetDiskPage83ID := GetDiskPage83ID;
  WinDisk.GetDiskNumberWithID := GetDiskNumberWithID;
  WinDisk.GetDiskNumberAndPage83ID := GetDiskNumberAndPage83ID;
  WinDisk.ListDiskIDs := ListDiskIDs; WinDisk.GetDiskStats := GetDiskStats;
  WinDisk.SetDiskState := SetDiskState; WinDisk.GetDiskState := GetDiskState;
  WinDisk.PartitionDisk := PartitionDisk;
|}.
End cim_disk.
End CimDisk.

Module CimVolume.
Section cim_volume.
  Context {W : Type} `{!WinHost W} `{!Com W} `{MapOrder}.
  Notation C := (M (CS W)).

  (** [os/volume/volume_cim.go ListVolumesOnDisk] *)
Definition ListVolumesOnDisk (diskNumber partitionNumber : Z) : M W (list string) :=
  on_com (
    let! partitions := wrap_err (ListPartitionsOnDisk diskNumber partitionNumber ["ObjectId"])
                         ("failed to list partition on disk " +:+ Itoa diskNumber +:+ ": ") in
    let! volumes := wrap_err (FindVolumesByPartition partitions)
                      ("failed to list volumes on disk " +:+ Itoa diskNumber +:+ ": ") in
    ForEach volumes (λ ids volume,
      let! r := try (GetVolumeUniqueID volume) in
      match r with
      | inl e => ret (ids, Some (EWrap ("failed to get unique ID for volume " +:+ show_dispatch volume +:+ ": ") e ""))
      | inr uniqueID => ret (ids ++ [uniqueID], None)
      end) []).
Definition query_volume (volumeID : string) (selectors : list string) : C COMDispatchObject :=
  wrap_err (QueryVolumeByUniqueID volumeID selectors) ("error querying volume (" +:+ volumeID +:+ "). error: ").
  (** [os/volume/volume_cim.go FormatVolume] *)
Definition FormatVolume (volumeID : string) : M W unit :=
  on_com (
    let! volume := query_volume volumeID [] in
    wrap_err (WmiStorage.FormatVolume volume
                [CStr "NTFS"; CStr ""; CNil; CBool false; CBool true; CNil; CNil; CNil; CNil; CNil])
             ("error formatting volume (" +:+ volumeID +:+ "). error: ")).
  (** [os/volume/volume_cim.go WriteVolumeCache] *)
Definition WriteVolumeCache (volumeID : string) : M W unit := writeCache volumeID.
  (** [os/volume/volume_cim.go IsVolumeFormatted] *)
Definition IsVolumeFormatted (volumeID : string) : M W bool :=
  on_com (
    let! volume := query_volume volumeID ["FileSystemType"] in
    let! fsType := wrap_err (GetVolumeFileSystemType volume)
                     ("failed to query volume file system type (" +:+ volumeID +:+ "): ") in
    ret (negb (fsType =? FileSystemUnknown))).
Definition with_backslash (path : string) : string :=
  if HasSuffix path backslash then path else path +:+ backslash.
  (** [os/volume/volume_cim.go MountVolume] *)
Definition MountVolume (volumeID path : string) : M W unit :=
  let! r := SetVolumeMountPoint (with_backslash path) volumeID in
  match r with
  | None => ret ()
  | Some (err, dir_not_empty) =>
      let failed := fail (ENew ("error mount volume (" +:+ volumeID +:+ ") to path " +:+ path
                                +:+ ". error: " +:+ Error err)) in
      if dir_not_empty then
        let! t := try (getTarget path 5) in
        match t with
        | inl e => fail (ENew ("error get target volume (" +:+ volumeID +:+ ") to path " +:+ path
                               +:+ ". error: " +:+ Error e))
        | inr targetVolumeID => if String.eqb volumeID targetVolumeID then ret () else failed
        end
      else failed
  end.
  (** [os/volume/volume_cim.go UnmountVolume] *)
Definition UnmountVolume (volumeID path : string) : M W unit :=
  let! _ := writeCache volumeID in
  let! r := try (DeleteVolumeMountPoint (with_backslash path)) in
  match r with
  | inl e => fail (ENew ("error umount volume (" +:+ volumeID +:+ ") from path " +:+ path
                         +:+ ". error: " +:+ Error e))
  | inr _ => ret ()
  end.
  (** [uint64] arithmetic. *)
Definition uint64 (z : Z) : Z := z `mod` 2 ^ 64.
  (** [os/volume/volume_cim.go unallocatedAfter] *)
Definition unallocatedAfter (offset partSize diskSize : Z) : Z :=
  let end_ := uint64 (offset + partSize) in
  if end_ <? diskSize then diskSize - end_ else 0.
  (** [os/volume/volume_cim.go unallocatedBytesAfterPartition] *)
Definition unallocatedBytesAfterPartition (part : COMDispatchObject) : C Z :=
  let! offset := GetPartitionOffset part in
  let! partSize := GetPartitionSize part in
  let! diskNumber := GetPartitionDiskNumber part in
  let! disk := QueryDiskByNumber diskNumber ["Number"; "Size"] in
  let! diskSize := GetDiskSize disk in
  ret (unallocatedAfter offset partSize diskSize).
  (** [os/volume/volume_cim.go ResizeVolume 192-215] The size to resize to; none when
      the disk has no room to grow into. *)
Definition final_size (volumeID : string) (part : COMDispatchObject) (size : Z) : C (option Z) :=
  if size =? 0 then
    let! unallocated := try (unallocatedBytesAfterPartition part) in
    if (match unallocated with inr u => u <? minimumResizeSize | inl _ => false end) then ret None
    else
      let! r := try (GetPartitionSupportedSize part) in
      match r with
      | inl e => fail (EWrap ("error getting sizeMin, sizeMax from volume (" +:+ volumeID
                              +:+ "). status: , error: ") e "")
      | inr (_, sizeMax, _) => ret (Some sizeMax)
      end
  else if size <? 0
  then fail (ENew ("invalid negative size " +:+ Itoa size +:+ " for volume (" +:+ volumeID +:+ ")"))
  else ret (Some size).
  (** [os/volume/volume_cim.go ResizeVolume] *)
Definition ResizeVolume (volumeID : string) (size : Z) : M W unit :=
  on_com (
    let! part := GetPartitionByVolumeUniqueID volumeID in
    let! target := final_size volumeID part size in
    match target with
    | None => ret ()
    | Some finalSize =>
        let! currentSize := wrap_err (GetPartitionSize part)
                              ("error getting the current size of volume (" +:+ volumeID +:+ ") with error (") in
        if finalSize <=? currentSize then ret ()
        else if uint64 (finalSize - currentSize) <? minimumResizeSize then ret ()
        else
          let! _ := wrap_err (ResizePartition part finalSize)
                      ("error resizing volume (" +:+ volumeID +:+ "). size:" +:+ Itoa size +:+ ", finalSize "
                       +:+ Itoa finalSize +:+ ", error: ") in
          let! diskNumber := wrap_err (GetPartitionDiskNumber part)
                               ("error parsing disk number of volume (" +:+ volumeID +:+ "). error: ") in
          let! disk := wrap_err (QueryDiskByNumber diskNumber [])
                         ("error query disk of volume (" +:+ volumeID +:+ "). error: ") in
          let! _ := wrap_err (RefreshDisk disk) ("error rescan disk (" +:+ Itoa diskNumber +:+ "). error: ") in
          ret ()
    end).
  (** [os/volume/volume_cim.go GetDiskNumberFromVolumeID] *)
Definition GetDiskNumberFromVolumeID (volumeID : string) : M W Z :=
  on_com (
    let! part := GetPartitionByVolumeUniqueID volumeID in
    wrap_err (GetPartitionDiskNumber part)
             ("error query disk number of volume (" +:+ volumeID +:+ "). error: ")).
  (** [os/volume/volume_cim.go GetVolumeIDFromTargetPath] *)
Definition GetVolumeIDFromTargetPath (mount : string) : M W string := getTarget mount 5.

  (** [os/volume/volume_cim.go NewCIMVolumeAPI] *)
Definition NewCIMVolumeAPI : VolumeAPI W := {|
  WinVolume.ListVolumesOnDisk := ListVolumesOnDisk; WinVolume.MountVolume := MountVolume;
  WinVolume.UnmountVolume := UnmountVolume; WinVolume.IsVolumeFormatted := IsVolumeFormatted;
  WinVolume.FormatVolume := FormatVolume; WinVolume.ResizeVolume := ResizeVolume;
  WinVolume.GetDiskNumberFromVolumeID := GetDiskNumberFromVolumeID;
  WinVolume.GetVolumeIDFromTargetPath := GetVolumeIDFromTargetPath;
  WinVolume.WriteVolumeCache := WriteVolumeCache;
|}.
End cim_volume.
End CimVolume.
