(* ===== verification/WinMounter.v ===== *)
(** * The mounter of a Windows host process: [safe_mounter_host_process_windows.go]

    [CSIProxyMounter] is the interface that the mounters of Windows implement;
    [winMounter] implements it in a host process, over [DiskAPI] and [VolumeAPI]. *)
From stdpp Require Import gmap strings list.
From Stdlib Require Import ZArith Lia Ascii.
From S2P Require Import Prelude GoStrings GoErr Device Windows WinDisk WinVolume Wmi WinCim.
Local Open Scope string_scope.
Local Open Scope Z_scope.
Local Open Scope list_scope.

(** [mounter/safe_mounter_windows.go CSIProxyMounter] The operations the driver
    calls; [IsLikelyNotMountPoint] gives its answer with an error. *)
Record CSIProxyMounter (W : Type) := MkCSIProxyMounter {
  pm_Mount : string → string → string → list string → M W unit;
  pm_Unmount : string → M W unit;
  pm_IsLikelyNotMountPoint : string → M W (bool * option gerr);
  pm_MakeDir : string → M W unit;
  pm_FormatAndMount : string → string → string → list string → M W unit;
  pm_ExistsPath : string → M W bool;
  pm_Rmdir : string → M W unit;
  pm_Rescan : M W unit;
  pm_FindDiskByLun : string → M W string;
  pm_GetDeviceNameFromMount : string → string → M W string;
  pm_GetVolumeSizeInBytes : string → M W Z;
  pm_ResizeVolume : string → M W unit;
  pm_GetVolumeStats : string → M W VolumeUsage;
}.
Arguments pm_Mount {W}. Arguments pm_Unmount {W}. Arguments pm_IsLikelyNotMountPoint {W}.
Arguments pm_MakeDir {W}. Arguments pm_FormatAndMount {W}. Arguments pm_ExistsPath {W}.
Arguments pm_Rmdir {W}. Arguments pm_Rescan {W}. Arguments pm_FindDiskByLun {W}.
Arguments pm_GetDeviceNameFromMount {W}. Arguments pm_GetVolumeSizeInBytes {W}.
Arguments pm_ResizeVolume {W}. Arguments pm_GetVolumeStats {W}.

(** [uint32(n)] of an [int], and [int64(n)] of a [uint64]. *)
Definition to_uint32 (n : Z) : Z := n `mod` 2 ^ 32.
Definition not_a_number (source : string) : gerr :=
  ENew ("parse " +:+ source +:+ " failed with error: " +:+ num_error "Atoi" source).
(** A mount point is asked for after its path: the answer and the error. *)
Definition not_mount_point {W} (exists_ : M W bool) (is_link : M W bool) : M W (bool * option gerr) :=
  let! e := try exists_ in
  match e with
  | inl err => ret (false, Some err)
  | inr false => ret (true, Some (ESentinel OsErrNotExist))
  | inr true =>
      let! r := try is_link in
      match r with inl err => ret (false, Some err) | inr l => ret (negb l, None) end
  end.
(** [IsMountPoint]. *)
Definition mount_point {W} (m : M W (bool * option gerr)) : M W bool :=
  let! (isNotMnt, err) := m in
  match err with Some e => fail e | None => ret (negb isNotMnt) end.

(** ** The host process *)
Record winMounter (W : Type) := MkWinMounter { volAPI : VolumeAPI W; diskAPI : DiskAPI W }.
Arguments volAPI {W}. Arguments diskAPI {W}.

Section win_mounter.
  Context {W : Type} `{!WinHost W} `{!WinJson} `{!NumOrder}.
  Context (mounter : winMounter W).

  (** [mounter/safe_mounter_host_process_windows.go FindDiskByLun 237-241] The first of the
      disks that is at the LUN. *)
Fixpoint disk_at_lun (lun : string) (l : list (Z * Location)) : option Z :=
  match l with
  | [] => None
  | (diskID, location) :: l' => if EqualFold (LUNID location) lun then Some diskID else disk_at_lun lun l'
  end.

  (** [mounter/safe_mounter_host_process_windows.go Mount] *)
Definition Mount (source target fstype : string) (options : list string) : M W unit :=
  win_Symlink (normalizeWindowsPath source) (normalizeWindowsPath target).
  (** [mounter/safe_mounter_host_process_windows.go Rmdir] *)
Definition Rmdir (path : string) : M W unit := Windows.Rmdir (normalizeWindowsPath path) true.
  (** [mounter/safe_mounter_host_process_windows.go GetDeviceNameFromMount] *)
Definition GetDeviceNameFromMount (mountPath pluginMountDir : string) : M W string :=
  GetVolumeIDFromTargetPath (volAPI mounter) (normalizeWindowsPath mountPath).
  (** [mounter/safe_mounter_host_process_windows.go Unmount] *)
Definition Unmount (target : string) : M W unit :=
  let! volumeID := GetDeviceNameFromMount target "" in
  let! _ := UnmountVolume (volAPI mounter) volumeID (normalizeWindowsPath target) in
  Rmdir target.
  (** [mounter/safe_mounter_host_process_windows.go ExistsPath] *)
Definition ExistsPath (path : string) : M W bool := PathExists (normalizeWindowsPath path).
  (** [mounter/safe_mounter_host_process_windows.go IsLikelyNotMountPoint] *)
Definition IsLikelyNotMountPoint (path : string) : M W (bool * option gerr) :=
  not_mount_point (ExistsPath path) (Windows.IsMountPoint (normalizeWindowsPath path)).
  (** [mounter/safe_mounter_host_process_windows.go IsMountPoint] *)
Definition IsMountPoint (file : string) : M W bool := mount_point (IsLikelyNotMountPoint file).
  (** [mounter/safe_mounter_host_process_windows.go MakeDir] *)
Definition MakeDir (path : string) : M W unit := win_MkdirAll (normalizeWindowsPath path).
  (** [mounter/safe_mounter_host_process_windows.go FormatAndMount 206-217] *)
Definition format_unformatted (volumeID : string) : M W unit :=
  let! formatted := IsVolumeFormatted (volAPI mounter) volumeID in
  if negb formatted then FormatVolume (volAPI mounter) volumeID else ret ().

  (** [mounter/safe_mounter_host_process_windows.go FormatAndMount] *)
Definition FormatAndMount (source target fstype : string) (options : list string) : M W unit :=
  match Atoi source with
  | None => fail (not_a_number source)
  | Some diskNum =>
      let! _ := try (SetDiskState (diskAPI mounter) (to_uint32 diskNum) true) in
      let! _ := PartitionDisk (diskAPI mounter) (to_uint32 diskNum) in
      let! volumeIds := ListVolumesOnDisk (volAPI mounter) (to_uint32 diskNum) 0 in
      match volumeIds with
      | [] => fail (ENew ("no volumes found on disk " +:+ Itoa diskNum))
      | volumeID :: _ =>
          let! _ := format_unformatted volumeID in
          MountVolume (volAPI mounter) volumeID (normalizeWindowsPath target)
      end
  end.
  (** [mounter/safe_mounter_host_process_windows.go Rescan] *)
Definition Rescan : M W unit := WinDisk.Rescan (diskAPI mounter).
  (** [mounter/safe_mounter_host_process_windows.go FindDiskByLun] *)
Definition FindDiskByLun (lun : string) : M W string :=
  let! diskLocations := ListDiskLocations (diskAPI mounter) in
  match disk_at_lun lun (num_order diskLocations) with
  | Some diskID => ret (Itoa diskID)
  | None =>
      let! diskLocations := ListDisksUsingCIM in
      match disk_at_lun lun (num_order diskLocations) with
      | Some diskID => ret (Itoa diskID)
      | None => fail (ENew ("could not find disk id for lun: " +:+ lun))
      end
  end.
  (** [mounter/safe_mounter_host_process_windows.go GetFreeSpace] free, total and used
      bytes; the counters of the system are unsigned. *)
Definition GetFreeSpace (path : string) : M W (Z * Z * Z) :=
  let! (total, free) := GetDiskFreeSpaceEx path in
  ret (int64 free, int64 total, int64 ((total - free) `mod` 2 ^ 64)).
  (** [mounter/safe_mounter_host_process_windows.go GetVolumeSizeInBytes] *)
Definition GetVolumeSizeInBytes (volumePath : string) : M W Z :=
  let! (_, totalBytes, _) := GetFreeSpace volumePath in ret totalBytes.
  (** [mounter/safe_mounter_host_process_windows.go ResizeVolume] *)
Definition ResizeVolume (source : string) : M W unit :=
  let! volumeID :=
    match Atoi source with
    | Some diskNum =>
        let! volumeIds := ListVolumesOnDisk (volAPI mounter) (to_uint32 diskNum) 0 in
        match volumeIds with
        | [] => fail (ENew ("no volumes found on disk " +:+ Itoa diskNum))
        | volumeID :: _ => ret volumeID
        end
    | None => ret source
    end in
  WinVolume.ResizeVolume (volAPI mounter) volumeID 0.
  (** [mounter/safe_mounter_host_process_windows.go GetVolumeStats] *)
Definition GetVolumeStats (path : string) : M W VolumeUsage :=
  let! (freeBytesAvailable, totalBytes, totalBytesUsed) :=
    status_on (GetFreeSpace path) codes.Internal (λ e,
      "failed to get free space on path " +:+ path +:+ ": " +:+ Error e) in
  ret (MkVolumeUsage USAGE_BYTES freeBytesAvailable totalBytes totalBytesUsed).

Definition win_proxy : CSIProxyMounter W := {|
  pm_Mount := Mount; pm_Unmount := Unmount; pm_IsLikelyNotMountPoint := IsLikelyNotMountPoint;
  pm_MakeDir := MakeDir; pm_FormatAndMount := FormatAndMount; pm_ExistsPath := ExistsPath;
  pm_Rmdir := Rmdir; pm_Rescan := Rescan; pm_FindDiskByLun := FindDiskByLun;
  pm_GetDeviceNameFromMount := GetDeviceNameFromMount; pm_GetVolumeSizeInBytes := GetVolumeSizeInBytes;
  pm_ResizeVolume := ResizeVolume; pm_GetVolumeStats := GetVolumeStats;
|}.
End win_mounter.

(** [mounter/safe_mounter_host_process_windows.go NewWinMounter] *)
Definition NewWinMounter {W} `{!WinHost W} `{!WinJson} `{!Com W} `{!MapOrder} (beyond : Z → Z)
    (useWinCIMAPI : bool) : winMounter W :=
  if useWinCIMAPI then MkWinMounter W CimVolume.NewCIMVolumeAPI (CimDisk.NewCIMDiskAPI beyond)
  else MkWinMounter W PowerShellVolume.NewPowerShellVolumeAPI (PowerShell.NewPowerShellDiskAPI beyond).
