(* ===== verification/CsiProxy.v ===== *)
(** * The mounter over CSI proxy v1: [mounter/safe_mounter_windows.go]

    The clients of CSI proxy, another program, are the interface [CsiProxy]; the steps
    that this mounter shares with the one of v1beta are in front. *)
From stdpp Require Import gmap strings list.
From Stdlib Require Import ZArith Lia Ascii.
From S2P Require Import Prelude GoStrings GoErr Device Windows WinDisk WinVolume Wmi WinCim WinMounter.
Local Open Scope string_scope.
Local Open Scope Z_scope.
Local Open Scope list_scope.

(** ** CSI proxy *)
(** The clients of CSI proxy v1: filesystem, disk, volume.  A response may be nil. *)
Class CsiProxy (W : Type) := {
  fs_CreateSymlink : string → string → M W unit;
  fs_Rmdir : string → bool → M W unit;
  fs_Mkdir : string → M W unit;
  fs_PathExists : string → M W bool;
  fs_IsSymlink : string → M W bool;
  disk_Rescan : M W unit;
  disk_ListDiskLocations : M W (gmap Z Location);
  disk_PartitionDisk : Z → M W unit;
  vol_GetVolumeIDFromTargetPath : string → M W (option string);
  vol_WriteVolumeCache : string → M W unit;
  vol_ListVolumesOnDisk : Z → M W (list string);
  vol_IsVolumeFormatted : string → M W bool;
  vol_FormatVolume : string → M W unit;
  vol_MountVolume : string → string → M W unit;
  vol_ResizeVolume : string → Z → M W unit;
  (** total and used bytes *)
  vol_GetVolumeStats : string → M W (option (Z * Z));
  proxy_connect : M W unit;
}.
(** An index into the volumes of a response: out of range is a panic. *)
Definition first_volume (l : list string) : res string :=
  match l with v :: _ => Ok v | [] => Panic end.
(** The steps of the two clients from the volumes of a disk on. *)
Definition format_then_mount {W} (listed : M W (list string)) (formatted : string → M W bool)
    (format : string → M W unit) (mount : string → M W unit) : M W unit :=
  let! volumeIds := listed in
  let! volumeID := lift (first_volume volumeIds) in
  let! f := formatted volumeID in
  let! _ := if negb f then format volumeID else ret () in
  mount volumeID.
(** The cache is written before the directory is removed; failures are logged. *)
Definition write_cache_first {W} (volume : M W (option string)) (write : string → M W unit) : M W unit :=
  let! response := try volume in
  match response with
  | inr (Some volumeId) => let! _ := try (write volumeId) in ret ()
  | _ => ret ()
  end.
Definition nil_response {A} (what path : string) (r : gerr + option A) : res A :=
  match r with
  | inr (Some a) => Ok a
  | inr None => Err (ENew (what +:+ "(" +:+ path +:+ ") failed with error: <nil>, response: <nil>"))
  | inl e => Err (ENew (what +:+ "(" +:+ path +:+ ") failed with error: " +:+ Error e +:+ ", response: <nil>"))
  end.

Module CsiProxyV1.
Section v1.
  Context {W : Type} `{!CsiProxy W} `{!NumOrder}.

  (** [mounter/safe_mounter_windows.go Mount] *)
Definition Mount (source target fstype : string) (options : list string) : M W unit :=
  fs_CreateSymlink (normalizeWindowsPath source) (normalizeWindowsPath target).
  (** [mounter/safe_mounter_windows.go Rmdir] *)
Definition Rmdir (path : string) : M W unit := fs_Rmdir (normalizeWindowsPath path) true.
  (** [mounter/safe_mounter_windows.go Unmount] *)
Definition Unmount (target : string) : M W unit :=
  let! _ := write_cache_first (vol_GetVolumeIDFromTargetPath target) vol_WriteVolumeCache in
  Rmdir target.
  (** [mounter/safe_mounter_windows.go ExistsPath] *)
Definition ExistsPath (path : string) : M W bool := fs_PathExists (normalizeWindowsPath path).
  (** [mounter/safe_mounter_windows.go IsLikelyNotMountPoint] *)
Definition IsLikelyNotMountPoint (path : string) : M W (bool * option gerr) :=
  not_mount_point (ExistsPath path) (fs_IsSymlink (normalizeWindowsPath path)).
  (** [mounter/safe_mounter_windows.go IsMountPoint] *)
Definition IsMountPoint (file : string) : M W bool := mount_point (IsLikelyNotMountPoint file).
  (** [mounter/safe_mounter_windows.go GetDeviceNameFromMount] *)
Definition GetDeviceNameFromMount (mountPath pluginMountDir : string) : M W string :=
  let! resp := vol_GetVolumeIDFromTargetPath (normalizeWindowsPath mountPath) in
  lift (deref resp).
  (** [mounter/safe_mounter_windows.go MakeDir] *)
Definition MakeDir (pathname : string) : M W unit := fs_Mkdir (normalizeWindowsPath pathname).
  (** [mounter/safe_mounter_windows.go Rescan] *)
Definition Rescan : M W unit := disk_Rescan.
  (** [mounter/safe_mounter_windows.go FindDiskByLun] *)
Definition FindDiskByLun (lun : string) : M W string :=
  let! locations := disk_ListDiskLocations in
  match disk_at_lun lun (num_order locations) with
  | Some diskID => ret (Itoa diskID)
  | None => fail (ENew ("could not find disk id for lun: " +:+ lun))
  end.
  (** [mounter/safe_mounter_windows.go FormatAndMount] *)
Definition FormatAndMount (source target fstype : string) (options : list string) : M W unit :=
  match Atoi source with
  | None => fail (not_a_number source)
  | Some diskNum =>
      let! _ := disk_PartitionDisk (to_uint32 diskNum) in
      format_then_mount (vol_ListVolumesOnDisk (to_uint32 diskNum)) vol_IsVolumeFormatted vol_FormatVolume
        (λ volumeID, vol_MountVolume volumeID (normalizeWindowsPath target))
  end.
  (** [mounter/safe_mounter_windows.go ResizeVolume] *)
Definition ResizeVolume (devicePath : string) : M W unit := vol_ResizeVolume devicePath 0.
  (** [mounter/safe_mounter_windows.go GetVolumeSizeInBytes] *)
Definition GetVolumeSizeInBytes (devicePath : string) : M W Z :=
  let! resp := vol_GetVolumeStats devicePath in
  let! (total, _) := lift (deref resp) in ret total.
  (** [mounter/safe_mounter_windows.go GetVolumeStats] *)
Definition GetVolumeStats (path : string) : M W VolumeUsage :=
  let! r := try (vol_GetVolumeIDFromTargetPath path) in
  let! volumeId := lift (nil_response "GetVolumeIDFromMount" path r) in
  let! r := try (vol_GetVolumeStats volumeId) in
  let! (total, used) := lift (nil_response "GetVolumeStats" volumeId r) in
  ret (MkVolumeUsage USAGE_BYTES (int64 (total - used)) total used).

Definition v1_proxy : CSIProxyMounter W := {|
  pm_Mount := Mount; pm_Unmount := Unmount; pm_IsLikelyNotMountPoint := IsLikelyNotMountPoint;
  pm_MakeDir := MakeDir; pm_FormatAndMount := FormatAndMount; pm_ExistsPath := ExistsPath;
  pm_Rmdir := Rmdir; pm_Rescan := Rescan; pm_FindDiskByLun := FindDiskByLun;
  pm_GetDeviceNameFromMount := GetDeviceNameFromMount; pm_GetVolumeSizeInBytes := GetVolumeSizeInBytes;
  pm_ResizeVolume := ResizeVolume; pm_GetVolumeStats := GetVolumeStats;
|}.
End v1.
End CsiProxyV1.
