(* ===== verification/CsiProxyBeta.v ===== *)
(** * The mounter over CSI proxy v1beta: [mounter/safe_mounter_v1beta_windows.go], and
    the choice of a mounter

    [NewSafeMounter] gives the mounter of the host process, or the one of the CSI proxy
    that answers. *)
From stdpp Require Import gmap strings list.
From Stdlib Require Import ZArith Lia Ascii.
From S2P Require Import Prelude GoStrings GoErr Device Windows WinDisk WinVolume Wmi WinCim WinMounter CsiProxy.
Local Open Scope string_scope.
Local Open Scope Z_scope.
Local Open Scope list_scope.

(** The clients of v1beta: disks are texts, paths have a context (a plugin's or a
    pod's), and the size of a volume is its available size. *)
Class CsiProxyBeta (W : Type) := {
  fsb_LinkPath : string → string → M W unit;
  fsb_Rmdir : string → bool → bool → M W unit;
  fsb_Mkdir : string → bool → M W unit;
  fsb_PathExists : string → M W bool;
  fsb_IsMountPoint : string → M W bool;
  diskb_Rescan : M W unit;
  diskb_ListDiskLocations : M W (gmap string Location);
  diskb_PartitionDisk : string → M W unit;
  volb_GetVolumeIDFromMount : string → M W (option string);
  volb_WriteVolumeCache : string → M W unit;
  volb_ListVolumesOnDisk : string → M W (list string);
  volb_IsVolumeFormatted : string → M W bool;
  volb_FormatVolume : string → M W unit;
  volb_MountVolume : string → string → M W unit;
  volb_ResizeVolume : string → Z → M W unit;
  volb_VolumeStats : string → M W (option (Z * Z));
  proxyb_connect : M W unit;
}.

Module CsiProxyV1Beta.
Section v1beta.
  Context {W : Type} `{!CsiProxyBeta W} `{!MapOrder}.
  (** The contexts of a path. *)
Definition POD : bool := true.
Definition PLUGIN : bool := false.

  (** [mounter/safe_mounter_v1beta_windows.go Mount] *)
Definition Mount (source target fstype : string) (options : list string) : M W unit :=
  fsb_LinkPath (normalizeWindowsPath source) (normalizeWindowsPath target).
  (** [mounter/safe_mounter_v1beta_windows.go Rmdir] *)
Definition Rmdir (path : string) : M W unit := fsb_Rmdir (normalizeWindowsPath path) POD true.
  (** [mounter/safe_mounter_v1beta_windows.go Unmount] *)
Definition Unmount (target : string) : M W unit :=
  let! _ := write_cache_first (volb_GetVolumeIDFromMount target) volb_WriteVolumeCache in
  Rmdir target.
  (** [mounter/safe_mounter_v1beta_windows.go ExistsPath] *)
Definition ExistsPath (path : string) : M W bool := fsb_PathExists (normalizeWindowsPath path).
  (** [mounter/safe_mounter_v1beta_windows.go IsLikelyNotMountPoint] *)
Definition IsLikelyNotMountPoint (path : string) : M W (bool * option gerr) :=
  not_mount_point (ExistsPath path) (fsb_IsMountPoint (normalizeWindowsPath path)).
  (** [mounter/safe_mounter_v1beta_windows.go IsMountPoint] *)
Definition IsMountPoint (file : string) : M W bool := mount_point (IsLikelyNotMountPoint file).
  (** [mounter/safe_mounter_v1beta_windows.go GetDeviceNameFromMount] *)
Definition GetDeviceNameFromMount (mountPath pluginMountDir : string) : M W string :=
  let! resp := volb_GetVolumeIDFromMount (normalizeWindowsPath mountPath) in
  lift (deref resp).
  (** [mounter/safe_mounter_v1beta_windows.go MakeDir] *)
Definition MakeDir (pathname : string) : M W unit := fsb_Mkdir (normalizeWindowsPath pathname) PLUGIN.
  (** [mounter/safe_mounter_v1beta_windows.go Rescan] *)
Definition Rescan : M W unit := diskb_Rescan.
  (** [mounter/safe_mounter_v1beta_windows.go FindDiskByLun] *)
Definition FindDiskByLun (lun : string) : M W string :=
  let! locations := diskb_ListDiskLocations in
  match find_entry (λ _ location, EqualFold (LUNID location) lun) (map_order locations) with
  | Some (diskID, _) => ret diskID
  | None => fail (ENew ("could not find disk id for lun: " +:+ lun))
  end.
  (** [mounter/safe_mounter_v1beta_windows.go FormatAndMount] *)
Definition FormatAndMount (source target fstype : string) (options : list string) : M W unit :=
  let! _ := diskb_PartitionDisk source in
  format_then_mount (volb_ListVolumesOnDisk source) volb_IsVolumeFormatted volb_FormatVolume
    (λ volumeID, volb_MountVolume volumeID (normalizeWindowsPath target)).
  (** [mounter/safe_mounter_v1beta_windows.go ResizeVolume] *)
Definition ResizeVolume (devicePath : string) : M W unit := volb_ResizeVolume devicePath 0.
  (** [mounter/safe_mounter_v1beta_windows.go GetVolumeSizeInBytes] *)
Definition GetVolumeSizeInBytes (devicePath : string) : M W Z :=
  let! resp := volb_VolumeStats devicePath in
  let! (size, _) := lift (deref resp) in ret size.
  (** [mounter/safe_mounter_v1beta_windows.go GetVolumeStats] *)
Definition GetVolumeStats (path : string) : M W VolumeUsage :=
  let! r := try (volb_GetVolumeIDFromMount path) in
  let! volumeId := lift (nil_response "GetVolumeIDFromMount" path r) in
  let! r := try (volb_VolumeStats volumeId) in
  let! (availableSize, used) := lift (nil_response "GetVolumeStats" volumeId r) in
  ret (MkVolumeUsage USAGE_BYTES availableSize (int64 (availableSize + used)) used).

Definition v1beta_proxy : CSIProxyMounter W := {|
  pm_Mount := Mount; pm_Unmount := Unmount; pm_IsLikelyNotMountPoint := IsLikelyNotMountPoint;
  pm_MakeDir := MakeDir; pm_FormatAndMount := FormatAndMount; pm_ExistsPath := ExistsPath;
  pm_Rmdir := Rmdir; pm_Rescan := Rescan; pm_FindDiskByLun := FindDiskByLun;
  pm_GetDeviceNameFromMount := GetDeviceNameFromMount; pm_GetVolumeSizeInBytes := GetVolumeSizeInBytes;
  pm_ResizeVolume := ResizeVolume; pm_GetVolumeStats := GetVolumeStats;
|}.
End v1beta.
End CsiProxyV1Beta.

Section safe_mounter.
  Context {W : Type} `{!WinHost W} `{!WinJson} `{!Com W} `{!CsiProxy W} `{!CsiProxyBeta W}.
  Context `{!MapOrder} `{!NumOrder} (beyond : Z → Z).

  (** [mounter/safe_mounter_windows.go NewSafeMounter] *)
Definition NewSafeMounter (enableWindowsHostProcess useWinCIMAPI useCSIProxyGAInterface : bool)
    : M W (CSIProxyMounter W) :=
  let beta := let! _ := proxyb_connect in ret CsiProxyV1Beta.v1beta_proxy in
  if enableWindowsHostProcess then ret (win_proxy (NewWinMounter beyond useWinCIMAPI))
  else if useCSIProxyGAInterface then
    let! r := try proxy_connect in
    match r with inr _ => ret CsiProxyV1.v1_proxy | inl _ => beta end
  else beta.
End safe_mounter.
