(* ===== verification/WinCommon.v ===== *)
(** * The node server on Windows: [azure_common_windows.go]

    The operations that the Windows build supplies to the node server: each calls the
    mounter, when it is a [CSIProxyMounter]. *)
From stdpp Require Import gmap strings list.
From Stdlib Require Import ZArith Lia Ascii.
From S2P Require Import Prelude GoStrings GoErr Device Windows WinDisk WinVolume Wmi WinCim WinMounter.
Local Open Scope string_scope.
Local Open Scope Z_scope.
Local Open Scope list_scope.

(** ** The node server's operations on Windows: [azure_common_windows.go] *)
Module WinCommon.
(** [volStatsCache]: the timed cache of the usage of volumes. *)
Class StatsCache (W : Type) := {
  stats_Get : string → M W (option VolumeUsage);
  stats_Set : string → VolumeUsage → M W unit;
}.
Section common.
  Context {W : Type} `{!StatsCache W}.
  (** The mounter of a [SafeFormatAndMount]; [None] is one that is no CSIProxyMounter. *)
  Context (m : option (CSIProxyMounter W)).

Definition no_proxy : gerr := ENew "could not cast to csi proxy class".
Definition with_proxy {A} (f : CSIProxyMounter W → M W A) : M W A :=
  match m with Some proxy => f proxy | None => fail no_proxy end.

  (** [azuredisk/azure_common_windows.go formatAndMount] *)
Definition formatAndMount (source target fstype : string) (options : list string) : M W unit :=
  with_proxy (λ proxy, pm_FormatAndMount proxy source target fstype options).
  (** [azuredisk/azure_common_windows.go scsiHostRescan] *)
Definition scsiHostRescan : M W unit :=
  match m with
  | Some proxy => let! _ := try (pm_Rescan proxy) in ret ()
  | None => ret ()
  end.
  (** [azuredisk/azure_common_windows.go findDiskByLun] *)
Definition findDiskByLun (lun : Z) : M W string := with_proxy (λ proxy, pm_FindDiskByLun proxy (Itoa lun)).
  (** [azuredisk/azure_common_windows.go preparePublishPath] *)
Definition preparePublishPath (path : string) : M W unit :=
  with_proxy (λ proxy,
    let! isExists := pm_ExistsPath proxy path in
    if isExists then pm_Rmdir proxy path else ret ()).
  (** [azuredisk/azure_common_windows.go CleanupMountPoint] *)
Definition CleanupMountPoint (path : string) (unmountVolume : bool) : M W unit :=
  with_proxy (λ proxy, if unmountVolume then pm_Unmount proxy path else pm_Rmdir proxy path).
  (** [azuredisk/azure_common_windows.go getDevicePathWithMountPath] *)
Definition getDevicePathWithMountPath (mountPath : string) : M W string :=
  with_proxy (λ proxy, pm_GetDeviceNameFromMount proxy mountPath "").
  (** [azuredisk/azure_common_windows.go getBlockSizeBytes] *)
Definition getBlockSizeBytes (devicePath : string) : M W Z :=
  with_proxy (λ proxy, pm_GetVolumeSizeInBytes proxy devicePath).
  (** [azuredisk/azure_common_windows.go resizeVolume] *)
Definition resizeVolume (devicePath volumePath : string) : M W unit :=
  with_proxy (λ proxy, pm_ResizeVolume proxy devicePath).
  (** [azuredisk/azure_common_windows.go needResizeVolume] *)
Definition needResizeVolume (devicePath volumePath : string) : M W bool := ret true.
  (** [azuredisk/azure_common_windows.go rescanVolume] *)
Definition rescanVolume (devicePath : string) : M W unit := ret ().
  (** [azuredisk/azure_common_windows.go rescanAllVolumes] *)
Definition rescanAllVolumes : M W unit := ret ().
  (** [azuredisk/azure_common_windows.go GetVolumeStats] *)
Definition GetVolumeStats (volumeID target : string) : M W (list VolumeUsage) :=
  let! cache := status_on (stats_Get volumeID) codes.Internal Error in
  match cache with
  | Some volUsage => ret [volUsage]
  | None =>
      with_proxy (λ proxy,
        let! volUsage := pm_GetVolumeStats proxy target in
        let! _ := stats_Set volumeID volUsage in
        ret [volUsage])
  end.
  (** [azuredisk/azure_common_windows.go unmountAndInvalidateDevice] *)
Definition unmountAndInvalidateDevice (stagingTargetPath : string) : M W unit :=
  CleanupMountPoint stagingTargetPath true.
End common.
End WinCommon.
