(* ===== verification/WinProofs.v ===== *)
(** * Paths and disks of a Windows node: properties

    Which paths are accepted, the LUN of an NVMe disk, the page 83 identifier of a
    storage query, the location of a disk. *)
From stdpp Require Import gmap strings list.
From Stdlib Require Import ZArith Lia Ascii.
From S2P Require Import Prelude GoStrings GoErr Windows WinDisk WinVolume WinMounter.
Local Open Scope string_scope.
Local Open Scope Z_scope.
Local Open Scope list_scope.

(** ** Paths *)
(** A path on a drive, without the separators, wildcards and parent directories
    that could lead elsewhere. *)
Definition windows_path (path : string) : Prop :=
  strlen path ≤ MaxPathLengthWindows ∧
  ∃ drive rest, path = String drive (String ":" (String backslash_char rest)) ∧ is_letter drive = true ∧
    ContainsAny rest invalid_path_chars = false ∧ Contains rest ".." = false.

Lemma isAbsWindows_spec path :
  isAbsWindows path = true ↔
  ∃ drive rest, path = String drive (String ":" (String backslash_char rest)) ∧ is_letter drive = true.
Proof.
  split.
  - destruct path as [|l [|c [|b r]]]; try done. simpl. intros E. bool_split.
    repeat match goal with H : Ascii.eqb _ _ = true |- _ => apply Ascii.eqb_eq in H; subst end.
    by exists l, r.
  - intros (l & r & -> & Hl). simpl. by rewrite Hl.
Qed.

Lemma letter_no_backslash l s p :
  is_letter l = true → HasPrefix (String l s) (String backslash_char p) = false.
Proof.
  intros Hl. cbn [HasPrefix]. destruct (Ascii.eqb backslash_char l) eqn:E; [|done].
  apply Ascii.eqb_eq in E as <-. done.
Qed.

Lemma ValidatePathWindows_path path : ValidatePathWindows path = Ok () ↔ windows_path path.
Proof.
  unfold ValidatePathWindows, windows_path, containsInvalidCharactersWindows.
  destruct (isAbsWindows path) eqn:Ea.
  - apply isAbsWindows_spec in Ea as (l & r & -> & Hl).
    rewrite (letter_no_backslash l _ "") by done.
    replace (isUNCPathWindows _) with false
      by (unfold isUNCPathWindows; rewrite (letter_no_backslash l _ backslash) by done; by destruct (_ <? 2)).
    rewrite andb_false_r. change (str_drop 3 _) with r.
    destruct (Z.ltb_spec MaxPathLengthWindows (strlen (String l (String ":" (String backslash_char r))))).
    { split; [done|]. intros [? _]. lia. }
    destruct (ContainsAny r _) eqn:E1; [|destruct (Contains r "..") eqn:E2].
    + split; [done|]. intros (_ & ? & ? & [= -> ->] & _ & ? & _). congruence.
    + split; [done|]. intros (_ & ? & ? & [= -> ->] & _ & _ & ?). congruence.
    + split; [|done]. intros _. split; [lia|]. by exists l, r.
  - split; [repeat case_match; done|]. intros (_ & l & r & Hp & Hl & _).
    assert (isAbsWindows path = true) by (apply isAbsWindows_spec; by exists l, r). congruence.
Qed.

(** ** The LUN of an NVMe disk *)
Fixpoint all_digits (s : string) : bool :=
  match s with EmptyString => true | String c s' => is_digit c && all_digits s' end.
Lemma span_digits_app d r :
  all_digits d = true → match r with String c _ => is_digit c = false | EmptyString => True end →
  span_digits (d +:+ r) = (d, r).
Proof.
  intros Hd Hr. induction d as [|c d IH]; simpl in *.
  - destruct r as [|c r]; [done|]. simpl. by rewrite Hr.
  - bool_split. match goal with E : is_digit c = true |- _ => rewrite E end. by rewrite IH.
Qed.

Lemma HasPrefix_early a r :
  a ≠ "" → HasPrefix (a +:+ "&0&" +:+ r)%string "&0&" = true → HasPrefix (a +:+ "&0") "&0&" = true.
Proof.
  intros Ha. destruct a as [|c1 [|c2 [|c3 a]]]; [done|..]; simpl;
    repeat match goal with |- context [Ascii.eqb ?x ?y] => destruct (Ascii.eqb_spec x y); simplify_eq/= end;
    try done; by destruct a.
Qed.

Lemma nsid_match_at pre d r :
  Contains (pre +:+ "&0") "&0&" = false → all_digits d = true → d ≠ "" →
  r = "" ∨ HasPrefix r "#" = true →
  nsid_match (pre +:+ "&0&" +:+ d +:+ r)%string = Some d.
Proof.
  intros Hpre Hd Hne Hr. induction pre as [|c pre IH].
  - rewrite str_nil_app. rewrite !str_cons_app, str_nil_app. cbn [nsid_match].
    replace (HasPrefix _ "&0&") with true
      by (symmetry; exact (HasPrefix_app "&0&" (d +:+ r)%string)).
    replace (str_drop 3 _) with (d +:+ r)%string
      by (symmetry; exact (str_drop_app "&0&" (d +:+ r)%string)).
    rewrite span_digits_app; [|done|].
    + rewrite (proj2 (String.eqb_neq d "")) by done. simpl.
      destruct Hr as [->|Hr]; [done|]. rewrite Hr. by rewrite orb_true_r.
    + destruct Hr as [->|Hr]; [done|]. apply HasPrefix_spec in Hr as [? ->]. done.
  - rewrite str_cons_app. cbn [nsid_match]. rewrite <-str_cons_app.
    destruct (HasPrefix (String c pre +:+ _)%string "&0&") eqn:E.
    { apply HasPrefix_early in E; [|done]. exfalso. revert Hpre.
      apply HasPrefix_spec in E as [x ->]. by rewrite <-(str_nil_app ("&0&" +:+ x)%string), Contains_app. }
    apply IH. destruct (Contains (pre +:+ "&0") "&0&") eqn:E'; [|done]. exfalso. revert Hpre.
    apply Contains_spec in E' as (a & b & E'). rewrite str_cons_app, E'.
    rewrite <-str_cons_app. by rewrite Contains_app.
Qed.

Lemma all_digits_app a b : all_digits (a +:+ b) = all_digits a && all_digits b.
Proof. induction a as [|c a IH]; [done|]. rewrite str_cons_app. simpl. by rewrite IH, andb_assoc. Qed.
Lemma all_digits_zeros n : all_digits (zeros n) = true.
Proof. by induction n. Qed.
Lemma digit_char_digit d : 0 ≤ d < 10 → is_digit (digit_char d) = true.
Proof. apply (seqZ_check (λ d, is_digit (digit_char d)) 10). reflexivity. Qed.
Lemma all_digits_fmt fuel n acc :
  0 ≤ n → all_digits acc = true → all_digits (fmt_digits fuel 10 n acc) = true.
Proof.
  revert n acc. induction fuel as [|f IH]; intros n acc Hn Ha; [done|]. cbn [fmt_digits].
  assert (Hacc : all_digits (String (digit_char (n `mod` 10)) acc) = true).
  { simpl. rewrite digit_char_digit; [done|]. apply Z.mod_pos_bound. lia. }
  destruct (n <? 10); [done|]. apply IH; [|done]. apply Z.div_pos; lia.
Qed.
Lemma Itoa_nonneg n : 0 ≤ n → Itoa n = fmt_digits (S (Z.to_nat (Z.log2 (Z.abs n)))) 10 n "".
Proof. intros Hn. unfold Itoa, FormatInt. destruct (Z.ltb_spec n 0); [lia|done]. Qed.
Lemma all_digits_Itoa n : 0 ≤ n → all_digits (Itoa n) = true.
Proof. intros Hn. rewrite Itoa_nonneg by done. by apply all_digits_fmt. Qed.
Lemma parse_uint_Itoa n : 0 ≤ n → parse_uint 10 (Itoa n) = Some n.
Proof.
  intros Hn. unfold parse_uint. pose proof (Itoa_nonempty n) as Hne.
  destruct (Itoa n) as [|c s] eqn:E; [done|]. rewrite <-E, Itoa_nonneg by lia.
  rewrite (parse_fmt_digits 10 _ n "" 0); [done|lia| |done|lia]. split; [lia|]. apply fmt_fuel_ok; lia.
Qed.
(** Numbers with the same decimal text are the same. *)
Lemma Itoa_inj n m : 0 ≤ m → Itoa n = Itoa m → n = m.
Proof.
  intros Hm E. assert (Hn : 0 ≤ n).
  { destruct (Z.ltb_spec n 0) as [Hn|]; [|done]. exfalso. pose proof (all_digits_Itoa m Hm) as Hd.
    rewrite <-E in Hd. unfold Itoa, FormatInt in Hd. by rewrite (proj2 (Z.ltb_lt n 0)) in Hd. }
  pose proof (parse_uint_Itoa m Hm) as Hp. rewrite <-E, parse_uint_Itoa in Hp by done. by injection Hp.
Qed.
Lemma parse_zeros n s : parse_digits 10 0 (zeros n +:+ s) = parse_digits 10 0 s.
Proof. induction n as [|n IH]; [done|]. exact IH. Qed.

(** A decimal number may have zeros in front. *)
Lemma Atoi_padded n z : 0 ≤ z < 2 ^ 63 → Atoi (zeros n +:+ Itoa z) = Some z.
Proof.
  intros Hz. pose proof (Atoi_Itoa z ltac:(unfold in_int64; lia)) as Ha.
  destruct n as [|n]; [exact Ha|].
  assert (Hp : parse_digits 10 0 (Itoa z) = Some z).
  { rewrite Itoa_nonneg by lia. rewrite (parse_fmt_digits 10 _ z "" 0); [done|lia| |done|lia].
    split; [lia|]. apply fmt_fuel_ok; lia. }
  unfold Atoi, ParseInt. change (parse_signed _) with (parse_digits 10 0 (zeros n +:+ Itoa z)).
  rewrite parse_zeros, Hp. change (64 - 1) with 63.
  destruct (Z.leb_spec (- 2 ^ 63) z), (Z.ltb_spec z (2 ^ 63)); try lia. done.
Qed.

(** The LUN of an NVMe disk is read back from the path that Windows makes of its
    namespace: for namespace [lun + 1], written in decimal with any number of
    leading zeros behind the device's instance, the LUN is [lun], whatever is in
    front (unless it looks like the field itself) and behind. *)
Theorem getNVMeLunFromPath_roundtrip pre zs lun rest :
  0 ≤ lun < 2 ^ 63 - 1 → Contains (pre +:+ "&0") "&0&" = false →
  rest = "" ∨ HasPrefix rest "#" = true →
  getNVMeLunFromPath (pre +:+ "&0&" +:+ (zeros zs +:+ Itoa (lun + 1)) +:+ rest)%string = Ok (Itoa lun).
Proof.
  intros Hlun Hpre Hrest. unfold getNVMeLunFromPath.
  rewrite nsid_match_at; [|done| |..|done].
  - unfold Atoi_res. rewrite Atoi_padded by lia. destruct (Z.ltb_spec (lun + 1) 1); [lia|].
    by replace (lun + 1 - 1) with lun by lia.
  - by rewrite all_digits_app, all_digits_zeros, all_digits_Itoa by lia.
  - destruct zs; [apply Itoa_nonempty | done].
Qed.

Lemma getNVMeLunFromPath_roundtrip_witness :
  getNVMeLunFromPath "scsi#disk&ven_nvme&prod_msft_nvme_accele#6&ca10229&0&000004#{53f56307}" = Ok "3".
Proof.
  apply (getNVMeLunFromPath_roundtrip "scsi#disk&ven_nvme&prod_msft_nvme_accele#6&ca10229" 5 3 "#{53f56307}");
    [lia | reflexivity | right; reflexivity].
Defined.

(** ** The page 83 identifier *)
Definition le16 (v : Z) : list Z := [v `mod` 256; v `div` 256].
Definition le32 (v : Z) : list Z :=
  [v `mod` 256; v `div` 256 `mod` 256; v `div` 65536 `mod` 256; v `div` 16777216].
(** A storage identifier, with the bytes between it and the next one. *)
Record StorageIdentifier := MkIdentifier {
  si_CodeSet : Z; si_Type : Z; si_Association : Z; si_Identifier : list Z; si_padding : list Z }.
Definition si_size (i : StorageIdentifier) : nat := (16 + length (si_Identifier i) + length (si_padding i))%nat.
Definition encode_identifier (i : StorageIdentifier) : list Z :=
  le32 (si_CodeSet i) ++ le32 (si_Type i) ++ le16 (Z.of_nat (length (si_Identifier i)))
  ++ le16 (Z.of_nat (si_size i)) ++ le32 (si_Association i) ++ si_Identifier i ++ si_padding i.
Definition encode_descriptor (version size : Z) (ids : list StorageIdentifier) : list Z :=
  le32 version ++ le32 size ++ le32 (Z.of_nat (length ids)) ++ concat (encode_identifier <$> ids).
(** The identifier that the code wants: of the device itself, binary or ASCII. *)
Definition is_page83 (i : StorageIdentifier) : bool :=
  (si_Association i =? StorageIDAssocDevice)
  && ((si_CodeSet i =? StorageIDCodeSetBinary) || (si_CodeSet i =? StorageIDCodeSetASCII)).
Definition identifier_text (i : StorageIdentifier) : string :=
  if si_CodeSet i =? StorageIDCodeSetASCII then bytes_string (si_Identifier i)
  else hex_EncodeToString (si_Identifier i).
Definition page83_spec (ids : list StorageIdentifier) : string :=
  match List.find is_page83 ids with Some i => identifier_text i | None => "" end.

Section page83_facts.
  Context (beyond : Z → Z).

Lemma byte_at_app pre l p b :
  (0 ≤ p)%Z → l !! Z.to_nat p = Some b → byte_at beyond (pre ++ l) (Z.of_nat (length pre) + p) = b.
Proof.
  intros Hp Hl. unfold byte_at. rewrite lookup_app_r by lia.
  replace (Z.to_nat (Z.of_nat (length pre) + p) - length pre)%nat with (Z.to_nat p) by lia. by rewrite Hl.
Qed.
Lemma le16_back v : v `mod` 256 + 256 * (v `div` 256) = v.
Proof. pose proof (Z.div_mod v 256). lia. Qed.
Lemma le32_back v :
  v `mod` 256 + 256 * (v `div` 256 `mod` 256) + 65536 * (v `div` 65536 `mod` 256 + 256 * (v `div` 16777216)) = v.
Proof.
  pose proof (Z.div_mod v 256). pose proof (Z.div_mod (v `div` 256) 256).
  pose proof (Z.div_mod (v `div` 65536) 256).
  replace 65536 with (256 * 256) in * by done. replace 16777216 with (256 * 256 * 256) by done.
  rewrite <-!Z.div_div in * by lia. lia.
Qed.

Lemma u16_at_app pre a v r p :
  p = Z.of_nat (length a) → u16_at beyond (pre ++ a ++ le16 v ++ r) (Z.of_nat (length pre) + p) = v.
Proof.
  intros ->. unfold u16_at. rewrite <-!Z.add_assoc.
  rewrite (byte_at_app pre _ _ (v `mod` 256)); [|lia|by rewrite Nat2Z.id, lookup_app_r, Nat.sub_diag].
  rewrite (byte_at_app pre _ _ (v `div` 256)); [apply le16_back|lia|].
  rewrite lookup_app_r by lia. by replace (Z.to_nat _ - length a)%nat with 1%nat by lia.
Qed.
Lemma u32_at_app pre a v r p :
  p = Z.of_nat (length a) → u32_at beyond (pre ++ a ++ le32 v ++ r) (Z.of_nat (length pre) + p) = v.
Proof.
  intros ->. unfold u32_at, u16_at. rewrite <-!Z.add_assoc.
  rewrite (byte_at_app pre _ _ (v `mod` 256)); [|lia|by rewrite Nat2Z.id, lookup_app_r, Nat.sub_diag].
  rewrite (byte_at_app pre _ _ (v `div` 256 `mod` 256));
    [|lia|rewrite lookup_app_r by lia; by replace (Z.to_nat _ - length a)%nat with 1%nat by lia].
  rewrite (byte_at_app pre _ _ (v `div` 65536 `mod` 256));
    [|lia|rewrite lookup_app_r by lia; by replace (Z.to_nat _ - length a)%nat with 2%nat by lia].
  rewrite (byte_at_app pre _ _ (v `div` 16777216));
    [|lia|rewrite lookup_app_r by lia; by replace (Z.to_nat _ - length a)%nat with 3%nat by lia].
  rewrite Z.add_assoc. apply le32_back.
Qed.
Lemma bytes_at_app pre a l r :
  bytes_at beyond (pre ++ a ++ l ++ r) (Z.of_nat (length pre) + Z.of_nat (length a)) (length l) = l.
Proof.
  unfold bytes_at. apply list_eq. intros i. rewrite list_lookup_fmap.
  destruct (decide (i < length l)%nat) as [Hi|Hi].
  - rewrite lookup_seq_lt by done. simpl. destruct (lookup_lt_is_Some_2 l i Hi) as [b Hb]. rewrite Hb.
    f_equal. rewrite <-Z.add_assoc. apply byte_at_app; [lia|].
    rewrite lookup_app_r by lia. rewrite lookup_app_l by lia.
    by replace (Z.to_nat _ - length a)%nat with i by lia.
  - rewrite lookup_seq_ge by lia. simpl. by rewrite lookup_ge_None_2 by lia.
Qed.
End page83_facts.

Section page83_walk.
  Context (beyond : Z → Z).

(** The fields of the identifier that starts behind [pre]. *)
Lemma identifier_fields pre i r p :
  p = Z.of_nat (length pre) →
  let buffer := pre ++ encode_identifier i ++ r in
  u32_at beyond buffer p = si_CodeSet i ∧
  u16_at beyond buffer (p + 8) = Z.of_nat (length (si_Identifier i)) ∧
  u16_at beyond buffer (p + 10) = Z.of_nat (si_size i) ∧
  u32_at beyond buffer (p + 12) = si_Association i ∧
  bytes_at beyond buffer (p + 16) (length (si_Identifier i)) = si_Identifier i.
Proof.
  intros ->. unfold encode_identifier. rewrite <-!app_assoc. cbv zeta.
  set (cs := le32 (si_CodeSet i)). set (ty := le32 (si_Type i)).
  set (sz := le16 (Z.of_nat (length (si_Identifier i)))). set (nx := le16 (Z.of_nat (si_size i))).
  set (asc := le32 (si_Association i)).
  split_and!.
  - rewrite <-(Z.add_0_r (Z.of_nat (length pre))).
    by apply (u32_at_app beyond pre [] (si_CodeSet i)).
  - rewrite (app_assoc cs). by apply (u16_at_app beyond pre (cs ++ ty)).
  - rewrite (app_assoc cs), (app_assoc (cs ++ ty)). by apply (u16_at_app beyond pre ((cs ++ ty) ++ sz)).
  - rewrite (app_assoc cs), (app_assoc (cs ++ ty)), (app_assoc ((cs ++ ty) ++ sz)).
    by apply (u32_at_app beyond pre (((cs ++ ty) ++ sz) ++ nx)).
  - rewrite (app_assoc cs), (app_assoc (cs ++ ty)), (app_assoc ((cs ++ ty) ++ sz)),
      (app_assoc (((cs ++ ty) ++ sz) ++ nx)).
    exact (bytes_at_app beyond pre ((((cs ++ ty) ++ sz) ++ nx) ++ asc) (si_Identifier i) _).
Qed.

Lemma length_encode_identifier i : length (encode_identifier i) = si_size i.
Proof. unfold encode_identifier, si_size, le32, le16. rewrite !length_app. simpl. lia. Qed.

Lemma page83_from_spec ids pre tail :
  page83_from beyond (length ids) (pre ++ concat (encode_identifier <$> ids) ++ tail)
              (Z.of_nat (length pre)) = page83_spec ids.
Proof.
  revert pre. induction ids as [|i ids IH]; intros pre; [done|].
  cbn [length fmap list_fmap concat page83_from]. rewrite <-app_assoc.
  destruct (identifier_fields pre i (concat (encode_identifier <$> ids) ++ tail) _ eq_refl)
    as (-> & -> & -> & -> & Hb).
  rewrite Nat2Z.id, Hb. unfold page83_spec. cbn [List.find]. unfold is_page83 at 1, identifier_text.
  destruct (_ && _); [done|]. rewrite app_assoc.
  etrans; [|exact (IH (pre ++ encode_identifier i))]. f_equal.
  rewrite length_app, length_encode_identifier. lia.
Qed.

(** C36. The walk over the storage identifiers, done with pointers into the buffer of
    the query, finds the identifier the descriptor has: whatever identifiers are
    encoded in the buffer, with whatever padding, and whatever follows, the answer is
    the text of the first one that names the device and is binary or ASCII, in
    hexadecimal or as it is; it is empty when there is none. *)
Theorem page83_roundtrip version size ids tail :
  page83_of beyond (encode_descriptor version size ids ++ tail) = page83_spec ids.
Proof.
  unfold page83_of, encode_descriptor. rewrite <-!app_assoc.
  pose proof (u32_at_app beyond [] (le32 version ++ le32 size) (Z.of_nat (length ids))
                (concat (encode_identifier <$> ids) ++ tail) 8 eq_refl) as Hc.
  rewrite app_nil_l, <-app_assoc, Z.add_0_l in Hc. rewrite Hc, Nat2Z.id.
  rewrite !app_assoc. rewrite <-(app_assoc _ (concat _) tail).
  exact (page83_from_spec ids ((le32 version ++ le32 size) ++ le32 (Z.of_nat (length ids))) tail).
Qed.
End page83_walk.

(** ** The location of a SCSI disk *)
(** A word of a location: no white space and no colon. *)
Fixpoint no_space (s : string) : bool :=
  match s with EmptyString => true | String c s' => negb (is_space c) && no_space s' end.
Definition word (s : string) : Prop := s ≠ "" ∧ no_space s = true ∧ has_byte ":" s = false.

Lemma no_space_byte s : no_space s = true → has_byte " " s = false.
Proof.
  induction s as [|c s IH]; [done|]. cbn [no_space has_byte]. intros E. bool_split. rewrite IH by done.
  destruct (Ascii.eqb " " c) eqn:Ec; [|done]. by apply Ascii.eqb_eq in Ec as <-.
Qed.
Lemma all_space_word s v r : word v → all_space (s +:+ v +:+ r)%string = false.
Proof.
  intros (Hv & Hvs & _). induction s as [|c s IH].
  - rewrite str_nil_app. destruct v as [|c v]; [done|]. simpl in *. bool_split.
    by match goal with E : is_space c = false |- _ => rewrite E end.
  - rewrite str_cons_app. cbn [all_space]. rewrite IH. apply andb_false_r.
Qed.
(** White space behind the last word is dropped. *)
Lemma trim_right_word s v r : word v → all_space r = true → trim_right (s +:+ v +:+ r)%string = (s +:+ v)%string.
Proof.
  intros Hv Hr. induction s as [|c s IH].
  - rewrite !str_nil_app. pose proof Hv as (_ & Hvs & _). clear Hv.
    induction v as [|c v IH]; [by destruct r; simpl in *; rewrite ?Hr|].
    rewrite str_cons_app. simpl in *. bool_split.
    match goal with E : is_space c = false |- _ => rewrite E end. simpl. f_equal. by apply IH.
  - rewrite !str_cons_app. cbn [trim_right]. rewrite <-str_cons_app, all_space_word by done.
    by rewrite IH.
Qed.
(** No white space is in front of a word. *)
Lemma trim_left_word k r : word k → trim_left (k +:+ r) = (k +:+ r)%string.
Proof.
  intros (Hne & Hk & _). destruct k as [|c k]; [done|]. rewrite str_cons_app. simpl in *. bool_split.
  by match goal with E : is_space c = false |- _ => rewrite E end.
Qed.
Lemma TrimSpace_words k s v r :
  word k → word v → all_space r = true →
  TrimSpace (k +:+ s +:+ v +:+ r)%string = (k +:+ s +:+ v)%string.
Proof.
  intros Hk Hv Hr. unfold TrimSpace. rewrite trim_left_word by done.
  rewrite (str_app_assoc k s), trim_right_word by done. by rewrite str_app_assoc.
Qed.
Lemma TrimSpace_word s : word s → TrimSpace s = s.
Proof.
  intros Hs. unfold TrimSpace. rewrite <-(str_app_nil_r s) at 1. rewrite trim_left_word by done.
  exact (trim_right_word "" s "" Hs eq_refl).
Qed.

(** A field: a name and a value, whatever blanks surround them. *)
Definition set_field (k v : string) (d : Location) : Location * bool :=
  if String.eqb k "Adapter" then (MkLocation v (Bus d) (Target d) (LUNID d), negb (String.eqb v "0"))
  else if String.eqb k "Target" then (MkLocation (Adapter d) (Bus d) v (LUNID d), true)
  else if String.eqb k "LUN" then (MkLocation (Adapter d) (Bus d) (Target d) v, true)
  else (d, true).
Lemma location_item_field acc k v r :
  word k → word v → all_space r = true →
  location_item acc (" " +:+ k +:+ " " +:+ v +:+ r)%string = set_field k v acc.1.
Proof.
  destruct acc as [d found]. intros Hk Hv Hr. pose proof Hk as (_ & Hks & _). pose proof Hv as (_ & Hvs & _).
  assert (Hsp : Split (k +:+ " " +:+ v)%string " " = [k; v]).
  { apply (Split_Join " " [k; v]); [done|]. by repeat constructor; apply no_space_byte. }
  assert (Ht : TrimSpace (" " +:+ k +:+ " " +:+ v +:+ r)%string = (k +:+ " " +:+ v)%string)
    by exact (TrimSpace_words k " " v r Hk Hv Hr).
  unfold location_item. by rewrite Ht, Hsp, !TrimSpace_word by done.
Qed.

Lemma location_item_words d found a b c r :
  word a → word b → word c → all_space r = true →
  location_item (d, found) (a +:+ " " +:+ b +:+ " " +:+ c +:+ r)%string = (d, found).
Proof.
  intros Ha Hb Hc Hr. unfold location_item.
  replace (TrimSpace _) with (a +:+ (" " +:+ b +:+ " ") +:+ c)%string
    by (symmetry; rewrite <-(TrimSpace_words a (" " +:+ b +:+ " ") c r Ha Hc Hr); by rewrite !str_app_assoc).
  replace (Split _ " ") with [a; b; c]; [done|]. symmetry. rewrite !str_app_assoc.
  pose proof (Split_Join " " [a; b; c] ltac:(done)) as Hs. cbn [Join] in Hs. rewrite !str_app_assoc in Hs.
  apply Hs. pose proof Ha as (_ & ? & _). pose proof Hb as (_ & ? & _). pose proof Hc as (_ & ? & _).
  by repeat constructor; apply no_space_byte.
Qed.

(** The location of a SCSI disk, in the form that Windows reports it, is read
    field by field, whatever the words are.  The disks of adapter 0 are read like the
    others, although the code means to skip them: the fields behind the adapter set
    [found] again. *)
Theorem parse_location_scsi slot adapter port target lun :
  word slot → word adapter → word port → word target → word lun →
  parse_location ("PCI Slot " +:+ slot +:+ " : Adapter " +:+ adapter +:+ " : Port " +:+ port
                  +:+ " : Target " +:+ target +:+ " : LUN " +:+ lun)
  = Some (MkLocation adapter "" target lun).
Proof.
  intros Hs Ha Hp Ht Hl.
  set (items := ["PCI" +:+ " " +:+ "Slot" +:+ " " +:+ slot +:+ " ";
                 " " +:+ "Adapter" +:+ " " +:+ adapter +:+ " "; " " +:+ "Port" +:+ " " +:+ port +:+ " ";
                 " " +:+ "Target" +:+ " " +:+ target +:+ " "; " " +:+ "LUN" +:+ " " +:+ lun +:+ ""]%string).
  assert (E : ("PCI Slot " +:+ slot +:+ " : Adapter " +:+ adapter +:+ " : Port " +:+ port
               +:+ " : Target " +:+ target +:+ " : LUN " +:+ lun)%string = Join items ":").
  { subst items. cbn [Join]. rewrite str_app_nil_r, <-!str_app_assoc. reflexivity. }
  rewrite E. unfold parse_location. clear E.
  assert (Hw : ∀ k, k ∈ ["PCI"; "Slot"; "Adapter"; "Port"; "Target"; "LUN"] → word k).
  { intros k Hk. repeat (apply elem_of_cons in Hk as [->|Hk]; [done|]). by apply elem_of_nil in Hk. }
  assert (Hb : ∀ k, word k → has_byte ":" k = false) by by intros k (_ & _ & ?).
  rewrite Split_Join; [|done|].
  2: { subst items. repeat constructor; rewrite !has_byte_app, ?(Hb _ Hs), ?(Hb _ Ha), ?(Hb _ Hp), ?(Hb _ Ht), ?(Hb _ Hl); done. }
  subst items. cbn [length Nat.leb foldl].
  rewrite location_item_words by (done || apply Hw; by repeat constructor).
  rewrite (location_item_field _ "Adapter") by (done || apply Hw; by repeat constructor).
  rewrite (location_item_field _ "Port") by (done || apply Hw; by repeat constructor).
  rewrite (location_item_field _ "Target") by (done || apply Hw; by repeat constructor).
  rewrite (location_item_field _ "LUN") by (done || apply Hw; by repeat constructor).
  done.
Qed.

(** The temporary disk of a VM, which is on adapter 0, is listed at LUN 0. *)
Lemma parse_location_scsi_witness :
  parse_location "PCI Slot 3 : Adapter 0 : Port 0 : Target 1 : LUN 0" = Some (MkLocation "0" "" "1" "0").
Proof. apply (parse_location_scsi "3" "0" "0" "1" "0"); done. Defined.

(** ** The disk of a LUN *)
Lemma disk_at_lun_Some lun l n :
  disk_at_lun lun l = Some n → ∃ loc, (n, loc) ∈ l ∧ EqualFold (LUNID loc) lun = true.
Proof.
  induction l as [|[k loc] l IH]; [done|]. simpl. destruct (EqualFold _ _) eqn:E.
  - intros [= <-]. exists loc. split; [constructor|done].
  - intros (loc' & Hin & He)%IH. exists loc'. split; [by constructor|done].
Qed.
Lemma disk_at_lun_None lun l :
  disk_at_lun lun l = None → ∀ n loc, (n, loc) ∈ l → EqualFold (LUNID loc) lun = false.
Proof.
  induction l as [|[k loc] l IH]; simpl; [intros _ n loc []%elem_of_nil|].
  destruct (EqualFold _ _) eqn:E; [done|]. intros Hn n loc' [[= -> ->]|Hin]%elem_of_cons; [done|by apply (IH Hn n)].
Qed.
(** Numbers have no letters: equal up to case is equal. *)
Lemma EqualFold_digits a d : all_digits d = true → EqualFold a d = true → a = d.
Proof.
  intros Hd He%EqualFold_spec. revert a He Hd. induction d as [|c d IH]; intros [|b a]; simpl; try done.
  intros [= Hc Ha] Hd. bool_split. rewrite (IH a) by done. f_equal. revert Hc.
  match goal with E : is_digit c = true |- _ => revert E end. clear.
  destruct c as [[] [] [] [] [] [] [] []]; simpl; try done; intros _;
    destruct b as [[] [] [] [] [] [] [] []]; simpl; done.
Qed.

(** What [Get-Disk] said of a disk for it to be listed at a location: it is not MBR,
    and the location is the one of its NVMe path, or else the one it was given. *)
Definition reported (v : gmap string jval) (n : Z) (loc : Location) : Prop :=
  assert_number (v !! "Number") = Ok n ∧
  (∃ style, v !! "PartitionStyle" = Some (JString style) ∧ EqualFold style "MBR" = false) ∧
  ((∃ path lun, v !! "Path" = Some (JString path) ∧ isNVMeDisk path = true ∧
      getNVMeLunFromPath path = Ok lun ∧ loc = MkLocation "0" "0" "0" lun) ∨
   (∃ str, v !! "Location" = Some (JString str) ∧ parse_location str = Some loc)).

Lemma getNVMeLocation_Some path loc :
  getNVMeLocation path = (Some loc, true) →
  isNVMeDisk path = true ∧ ∃ lun, getNVMeLunFromPath path = Ok lun ∧ loc = MkLocation "0" "0" "0" lun.
Proof.
  unfold getNVMeLocation. destruct (isNVMeDisk path); [|done].
  destruct (getNVMeLunFromPath path) as [lun| |] eqn:E; try done. intros [= <-]. by eauto.
Qed.
Lemma ps_locations_reported l m m' n loc :
  ps_locations l m = Ok m' → m' !! n = Some loc → m !! n = Some loc ∨ ∃ v, v ∈ l ∧ reported v n loc.
Proof.
  revert m. induction l as [|v l IH]; intros m; simpl; [intros [= <-]; by left|].
  intros (m1 & H1 & H2)%res_bind_ok Hn.
  destruct (IH m1 H2 Hn) as [Hm1|(v' & ? & ?)]; [|right; exists v'; split; [by constructor|done]].
  unfold ps_location in H1. apply res_bind_ok in H1 as (str & Hstr & H1).
  apply res_bind_ok in H1 as (num & Hnum & H1). apply res_bind_ok in H1 as (style & Hstyle & H1).
  unfold assert_string in Hstr, Hstyle.
  destruct (v !! "Location") as [[str'| | | |]|] eqn:El; try done. injection Hstr as ->.
  destruct (v !! "PartitionStyle") as [[st| | | |]|] eqn:Es; try done. injection Hstyle as ->.
  destruct (EqualFold style "MBR") eqn:Embr; [injection H1 as <-; by left|].
  assert (Hrep : ∀ d, num = n → d = loc →
    ((∃ path lun, v !! "Path" = Some (JString path) ∧ isNVMeDisk path = true ∧
        getNVMeLunFromPath path = Ok lun ∧ d = MkLocation "0" "0" "0" lun) ∨ parse_location str = Some d) →
    ∃ v', v' ∈ v :: l ∧ reported v' n loc).
  { intros d -> -> Hd. exists v. split; [constructor|]. split; [done|]. split; [by exists style|].
    destruct Hd; [by left | right; by exists str]. }
  set (path := match v !! "Path" with Some (JString s) => s | _ => "" end) in *.
  destruct (getNVMeLocation path) as [[d|] []] eqn:Ev; try done.
  - injection H1 as <-. apply lookup_insert_Some in Hm1 as [[-> ->]|[_ ?]]; [|by left].
    right. apply (Hrep loc); [done..|]. left. apply getNVMeLocation_Some in Ev as (Hnv & lun & Hlun & ->).
    exists path, lun. split_and!; try done. subst path.
    destruct (v !! "Path") as [[]|]; done.
  - unfold getNVMeLocation in Ev. by repeat case_match; simplify_eq.
  - injection H1 as <-. by left.
  - injection H1 as <-. destruct (parse_location str) as [d|] eqn:Ed; [|by left].
    apply lookup_insert_Some in Hm1 as [[-> ->]|[_ ?]]; [|by left].
    right. apply (Hrep loc); [done..|]. by right.
Qed.

(** The same for a disk that CIM listed. *)
Definition cim_reported (v : Z * Z * Z * Z * Z * string) (n : Z) (loc : Location) : Prop :=
  let '(index, lun, target, port, bus, pnp) := v in
  index = n ∧
  ((isNVMeDisk pnp = true ∧ ∃ l, getNVMeLunFromPath pnp = Ok l ∧ loc = MkLocation "0" "0" "0" l) ∨
   (isNVMeDisk pnp = false ∧ loc = MkLocation (Itoa port) (Itoa bus) (Itoa target) (Itoa lun))).
Lemma cim_locations_reported l m n loc :
  foldl cim_location m l !! n = Some loc → m !! n = Some loc ∨ ∃ v, v ∈ l ∧ cim_reported v n loc.
Proof.
  revert m. induction l as [|v l IH]; intros m; simpl; [by left|].
  intros [Hm|(v' & ? & ?)]%IH; [|right; exists v'; split; [by constructor|done]].
  destruct v as [[[[[index lun] target] port] bus] pnp]. unfold cim_location in Hm.
  destruct (getNVMeLocation pnp) as [[d|] []] eqn:Ev; try by left.
  - apply lookup_insert_Some in Hm as [[-> ->]|[_ ?]]; [|by left]. right.
    exists (n, lun, target, port, bus, pnp). split; [constructor|]. split; [done|]. left.
    by apply getNVMeLocation_Some.
  - unfold getNVMeLocation in Ev. by repeat case_match; simplify_eq.
  - apply lookup_insert_Some in Hm as [[-> <-]|[_ ?]]; [|by left]. right.
    exists (n, lun, target, port, bus, pnp). split; [constructor|]. split; [done|]. right.
    split; [|done]. unfold getNVMeLocation in Ev. destruct (isNVMeDisk pnp); [|done].
    by destruct (getNVMeLunFromPath pnp).
Qed.
