(* ===== verification/Wql.v ===== *)
(** * WQL: what the queries of the driver say

    WMI reads the queries; its language is not part of the repository.  Here is the form of
    the texts that the properties of the Windows node speak of, written out without the
    functions of the query builder, and that the builder writes it.  The assumptions on
    the answers to such texts are the laws of the properties ([WinFormat.WmiLaws]). *)
From stdpp Require Import strings list.
From Stdlib Require Import ZArith Lia Ascii.
From S2P Require Import Prelude GoStrings GoErr Windows Wmi WinProofs.
Local Open Scope string_scope.
Local Open Scope Z_scope.

(** ** Texts *)
Definition is_ident (c : ascii) : bool := is_letter c || is_digit c || Ascii.eqb c "_".
Fixpoint all_of (p : ascii → bool) (s : string) : bool :=
  match s with EmptyString => true | String c s' => p c && all_of p s' end.
Definition ident (s : string) : Prop := s ≠ "" ∧ all_of is_ident s = true.
Definition value_ok (v : wql_value) : Prop := match v with WNumber n => 0 ≤ n | _ => True end.
(** A character within a text: a backslash is doubled, and so is a quote. *)
Definition wql_char (c : ascii) : string :=
  if Ascii.eqb c quote_char then "''"
  else if Ascii.eqb c backslash_char then backslash +:+ backslash else String c "".
Fixpoint wql_text (x : string) : string :=
  match x with EmptyString => "" | String c x' => wql_char c +:+ wql_text x' end.
(** How a value is written. *)
Definition wql_literal (v : wql_value) : string :=
  match v with
  | WString x => "'" +:+ wql_text x +:+ "'"
  | WNumber n => Itoa n
  | WBool b => if b then "TRUE" else "FALSE"
  end.
(** The text asks for the objects of the class whose field has the value, with all their
    properties or with some. *)
Definition asks (text class field : string) (v : wql_value) : Prop :=
  value_ok v ∧ ∃ selectors, Forall ident selectors ∧
    text = "SELECT " +:+ (match selectors with [] => "*" | l => Join l ", " end) +:+ " FROM " +:+ class
           +:+ " WHERE " +:+ field +:+ " = " +:+ wql_literal v.

(** ** The builder writes them *)
Lemma ReplaceAll_cons c s d new :
  ReplaceAll (String c s) (String d "") new
  = ((if Ascii.eqb d c then new else String c "") +:+ ReplaceAll s (String d "") new)%string.
Proof.
  unfold ReplaceAll. cbn [replace_from HasPrefix String.length Nat.sub].
  destruct (Ascii.eqb d c); [|done]. by destruct s.
Qed.
Lemma ReplaceAll_app a b d new :
  ReplaceAll (a +:+ b) (String d "") new
  = (ReplaceAll a (String d "") new +:+ ReplaceAll b (String d "") new)%string.
Proof.
  induction a as [|c a IH]; [done|]. rewrite str_cons_app, !ReplaceAll_cons, IH. by rewrite str_app_assoc.
Qed.
(** The two replacements of [formatValue] double both characters. *)
Lemma replaced_text x :
  ReplaceAll (ReplaceAll x "'" "''") backslash (backslash +:+ backslash) = wql_text x.
Proof.
  induction x as [|c x IH]; [done|]. cbn [wql_text]. rewrite <-IH. unfold wql_char, backslash.
  rewrite (ReplaceAll_cons c x), ReplaceAll_app. f_equal.
  rewrite (Ascii.eqb_sym c quote_char), (Ascii.eqb_sym c backslash_char).
  change "'"%char with quote_char. destruct (Ascii.eqb quote_char c) eqn:E; [done|].
  rewrite ReplaceAll_cons. by destruct (Ascii.eqb backslash_char c).
Qed.
Lemma formatValue_literal v : formatValue v = wql_literal v.
Proof. destruct v as [x|n|b]; [|done..]. cbn [formatValue wql_literal]. by rewrite replaced_text. Qed.
Lemma Build_text class field v selectors ns :
  Build (WithConditions [WithCondition field "=" v] (Select selectors (WithNamespace ns (NewQuery class)))) =
  "SELECT " +:+ (match selectors with [] => "*" | l => Join l ", " end) +:+ " FROM " +:+ class
  +:+ " WHERE " +:+ field +:+ " = " +:+ wql_literal v.
Proof.
  unfold Build, buildWhereClause. cbn [WithConditions Select WithNamespace NewQuery q_Class Selectors Conditions app fmap
    list_fmap Join]. unfold condition_text, WithCondition. cbn [Field Operator Value].
  change (String.eqb _ "") with false. cbn iota. rewrite formatValue_literal, <-!str_app_assoc.
  by destruct selectors.
Qed.
Lemma Build_asks class field v selectors ns :
  value_ok v → Forall ident selectors →
  asks (Build (WithConditions [WithCondition field "=" v] (Select selectors (WithNamespace ns (NewQuery class)))))
    class field v.
Proof. intros Hv Hs. split; [done|]. exists selectors. split; [done|]. apply Build_text. Qed.
