(* ===== verification/DemoWql.v ===== *)
(** * A reader of queries for the concrete Windows node

    The WMI service of the concrete node ([DemoWin]) needs a function that reads a query.
    It is one that reads the texts of [Wql.asks], and is used by witnesses only. *)
From stdpp Require Import strings list.
From Stdlib Require Import ZArith Lia Ascii.
From S2P Require Import Prelude GoStrings GoErr Windows Wmi WinProofs Wql.
Local Open Scope string_scope.
Local Open Scope Z_scope.

(** ** The parser *)
Definition not_blank (c : ascii) : bool := negb (Ascii.eqb c " ").
Fixpoint span (p : ascii → bool) (s : string) : string * string :=
  match s with
  | String c s' => if p c then let '(a, r) := span p s' in (String c a, r) else ("", s)
  | EmptyString => ("", "")
  end.
Definition expect (p s : string) : option string :=
  if HasPrefix s p then Some (str_drop (String.length p) s) else None.
Definition prepend {A} (c : ascii) (o : option (string * A)) : option (string * A) :=
  match o with Some (x, r) => Some (String c x, r) | None => None end.
(** The text up to the closing quote: a doubled quote is one, a backslash takes the
    next character as it is. *)
Fixpoint unquote (s : string) : option (string * string) :=
  match s with
  | EmptyString => None
  | String c s' =>
      if Ascii.eqb c quote_char then
        match s' with
        | String d s'' => if Ascii.eqb d quote_char then prepend quote_char (unquote s'') else Some ("", s')
        | EmptyString => Some ("", "")
        end
      else if Ascii.eqb c backslash_char then
        match s' with String d s'' => prepend d (unquote s'') | EmptyString => None end
      else prepend c (unquote s')
  end.
Definition parse_word (tok : string) : option wql_value :=
  if String.eqb tok "TRUE" then Some (WBool true)
  else if String.eqb tok "FALSE" then Some (WBool false)
  else WNumber <$> parse_uint 10 tok.
Definition parse_value (s : string) : option (wql_value * string) :=
  match expect "'" s with
  | Some s' => '(x, r) ← unquote s'; Some (WString x, r)
  | None => let '(tok, r) := span is_ident s in v ← parse_word tok; Some (v, r)
  end.
Definition parse_condition (s : string) : option (Condition * string) :=
  let '(field, s1) := span is_ident s in
  s2 ← expect " " s1;
  let '(op, s3) := span not_blank s2 in
  s4 ← expect " " s3;
  '(v, r) ← parse_value s4;
  Some (MkCondition field op v, r).
Fixpoint parse_conditions (fuel : nat) (s : string) : option (list Condition) :=
  match fuel with
  | O => None
  | S fuel =>
      '(c, r) ← parse_condition s;
      match r with
      | EmptyString => Some [c]
      | _ => s' ← expect " AND " r; cons c <$> parse_conditions fuel s'
      end
  end.
Fixpoint parse_selectors (fuel : nat) (s : string) : option (list string * string) :=
  match fuel with
  | O => None
  | S fuel =>
      let '(x, r) := span is_ident s in
      match expect ", " r with
      | Some r' => '(l, rest) ← parse_selectors fuel r'; Some (x :: l, rest)
      | None => Some ([x], r)
      end
  end.
Definition parse_wql (s : string) : option (string * list string * list Condition) :=
  s1 ← expect "SELECT " s;
  '(sel, s2) ← (match expect "*" s1 with
                | Some r => Some ([], r)
                | None => parse_selectors (String.length s1) s1
                end);
  s3 ← expect " FROM " s2;
  let '(class, s4) := span is_ident s3 in
  match s4 with
  | EmptyString => Some (class, sel, [])
  | _ => s5 ← expect " WHERE " s4;
         conds ← parse_conditions (String.length s5) s5;
         Some (class, sel, conds)
  end.

(** ** What the driver may compare and select *)
Definition condition_ok (c : Condition) : Prop :=
  ident (Field c) ∧ Operator c ≠ "" ∧ all_of not_blank (Operator c) = true ∧ value_ok (Value c).
Definition query_ok (q : QueryBuilder) : Prop :=
  ident (q_Class q) ∧ Forall ident (Selectors q) ∧ Forall condition_ok (Conditions q).

(** ** Facts *)
Definition starts_not (p : ascii → bool) (s : string) : Prop :=
  match s with String c _ => p c = false | EmptyString => True end.
Lemma span_app p a r : all_of p a = true → starts_not p r → span p (a +:+ r) = (a, r).
Proof.
  intros Ha Hr. induction a as [|c a IH].
  - rewrite str_nil_app. destruct r as [|c r]; [done|]. simpl in *. by rewrite Hr.
  - rewrite str_cons_app. simpl in *. bool_split.
    match goal with E : p c = true |- _ => rewrite E end. by rewrite IH.
Qed.
Lemma expect_app p s : expect p (p +:+ s) = Some s.
Proof. unfold expect. by rewrite HasPrefix_app, str_drop_app. Qed.

Lemma unquote_doubled s : unquote (String quote_char (String quote_char s)) = prepend quote_char (unquote s).
Proof. reflexivity. Qed.
Lemma unquote_backslash d s : unquote (String backslash_char (String d s)) = prepend d (unquote s).
Proof. reflexivity. Qed.
Lemma unquote_text x r :
  starts_not (λ c, Ascii.eqb c quote_char) r → unquote (wql_text x +:+ String quote_char r) = Some (x, r).
Proof.
  intros Hr. induction x as [|c x IH].
  - destruct r as [|c r]; [done|]. simpl in *. by rewrite Hr.
  - cbn [wql_text]. rewrite <-str_app_assoc. unfold wql_char.
    destruct (Ascii.eqb_spec c quote_char) as [->|Hq].
    { rewrite !str_cons_app, str_nil_app. change "'"%char with quote_char. by rewrite unquote_doubled, IH. }
    destruct (Ascii.eqb_spec c backslash_char) as [->|Hb].
    { change (unquote _) with
        (unquote (String backslash_char (String backslash_char (wql_text x +:+ String quote_char r)))).
      by rewrite unquote_backslash, IH. }
    rewrite str_cons_app, str_nil_app. cbn [unquote].
    rewrite (proj2 (Ascii.eqb_neq c quote_char)), (proj2 (Ascii.eqb_neq c backslash_char)) by done. by rewrite IH.
Qed.

Lemma all_of_weaken (p q : ascii → bool) s : (∀ c, p c = true → q c = true) → all_of p s = true → all_of q s = true.
Proof. intros Hpq. induction s as [|c s IH]; [done|]. simpl. intros. bool_split. by rewrite Hpq, IH. Qed.
Lemma all_digits_of s : all_digits s = all_of is_digit s.
Proof. induction s as [|c s IH]; [done|]. simpl. by rewrite IH. Qed.
Lemma digits_word s : all_digits s = true → all_of is_ident s = true.
Proof.
  rewrite all_digits_of. apply all_of_weaken. intros c Hc. unfold is_ident. by rewrite Hc, orb_true_r.
Qed.
Lemma parse_word_number n : 0 ≤ n → parse_word (Itoa n) = Some (WNumber n).
Proof.
  intros Hn. pose proof (all_digits_Itoa n Hn) as Hd. unfold parse_word.
  destruct (String.eqb_spec (Itoa n) "TRUE") as [E|_]; [by rewrite E in Hd|].
  destruct (String.eqb_spec (Itoa n) "FALSE") as [E|_]; [by rewrite E in Hd|].
  by rewrite parse_uint_Itoa.
Qed.
Lemma parse_value_word tok v r :
  tok ≠ "" → all_of is_ident tok = true → parse_word tok = Some v → starts_not is_ident r →
  parse_value (tok +:+ r) = Some (v, r).
Proof.
  intros Hne Ht Hv Hr. unfold parse_value.
  replace (expect "'" (tok +:+ r)) with (@None string).
  - by rewrite span_app, Hv.
  - destruct tok as [|c tok]; [done|]. rewrite str_cons_app. unfold expect. cbn [HasPrefix].
    destruct (Ascii.eqb_spec "'"%char c) as [<-|]; [by simpl in Ht|done].
Qed.
(** What comes behind a value: nothing, or a blank. *)
Definition value_end (r : string) : Prop := r = "" ∨ HasPrefix r " " = true.
Lemma value_end_starts p r : value_end r → p " "%char = false → starts_not p r.
Proof. intros [->|[x ->]%HasPrefix_spec] Hp; [done|exact Hp]. Qed.
Lemma parse_value_format v r : value_ok v → value_end r → parse_value (wql_literal v +:+ r) = Some (v, r).
Proof.
  intros Hv Hr. destruct v as [x|n|[]]; cbn [wql_literal].
  - unfold parse_value. rewrite <-!str_app_assoc, expect_app. cbn [mbind option_bind].
    change (unquote _) with (unquote (wql_text x +:+ String quote_char r)).
    by rewrite unquote_text by by apply value_end_starts.
  - apply parse_value_word; [apply Itoa_nonempty| |by apply parse_word_number|by apply value_end_starts].
    by apply digits_word, all_digits_Itoa.
  - apply parse_value_word; [done..|by apply value_end_starts].
  - apply parse_value_word; [done..|by apply value_end_starts].
Qed.
Lemma span_blank p a r : all_of p a = true → p " "%char = false → span p (a +:+ " " +:+ r)%string = (a, (" " +:+ r)%string).
Proof. intros Ha Hb. by apply span_app. Qed.
Lemma parse_condition_text c r :
  condition_ok c → value_end r → parse_condition (condition_text c +:+ r) = Some (c, r).
Proof.
  intros ([_ Hf] & _ & Ho & Hv) Hr. unfold condition_text, parse_condition. rewrite <-!str_app_assoc.
  rewrite span_blank by done. rewrite expect_app. cbn [mbind option_bind].
  rewrite span_blank by done. rewrite expect_app. cbn [mbind option_bind].
  rewrite formatValue_literal, parse_value_format by done. by destruct c.
Qed.
Lemma conditions_length cs : (length cs ≤ String.length (Join (condition_text <$> cs) " AND "))%nat.
Proof.
  assert (Hc : ∀ c, (1 ≤ String.length (condition_text c))%nat).
  { intros c. unfold condition_text. rewrite !length_str_app. simpl. lia. }
  induction cs as [|c [|c' cs] IH]; [done|exact (Hc c)|].
  change (Join (condition_text <$> c :: c' :: cs) " AND ")
    with (condition_text c +:+ " AND " +:+ Join (condition_text <$> c' :: cs) " AND ")%string.
  rewrite !length_str_app. specialize (Hc c). simpl length in *. lia.
Qed.
Lemma parse_conditions_text fuel c cs :
  Forall condition_ok (c :: cs) → (length (c :: cs) ≤ fuel)%nat →
  parse_conditions fuel (Join (condition_text <$> c :: cs) " AND ") = Some (c :: cs).
Proof.
  revert fuel c. induction cs as [|c' cs IH]; intros fuel c Hcs Hfuel; (destruct fuel as [|fuel]; [simpl in Hfuel; lia|]);
    apply Forall_cons in Hcs as [Hc Hcs]; cbn [parse_conditions].
  - change (Join _ _) with (condition_text c). rewrite <-(str_app_nil_r (condition_text c)).
    by rewrite parse_condition_text by (done || by left).
  - change (Join (condition_text <$> c :: c' :: cs) " AND ")
      with (condition_text c +:+ (" AND " +:+ Join (condition_text <$> c' :: cs) " AND "))%string.
    rewrite parse_condition_text by (done || by right). cbn [mbind option_bind]. rewrite expect_app.
    change (" AND " +:+ _)%string with (String " " ("AND " +:+ Join (condition_text <$> c' :: cs) " AND ")).
    cbn [mbind option_bind]. rewrite IH; [done|done|simpl in *; lia].
Qed.
Lemma selectors_length l : Forall ident l → (length l ≤ String.length (Join l ", "))%nat.
Proof.
  assert (Hx : ∀ x, ident x → (1 ≤ String.length x)%nat) by (intros [|c x] [? _]; [done|simpl; lia]).
  intros Hl. induction Hl as [|x l Hi Hl IH]; [done|]. specialize (Hx x Hi). destruct l as [|y l]; [exact Hx|].
  change (Join (x :: y :: l) ", ") with (x +:+ ", " +:+ Join (y :: l) ", ")%string.
  rewrite !length_str_app. simpl length in *. lia.
Qed.
Lemma parse_selectors_text fuel x l r :
  Forall ident (x :: l) → (length (x :: l) ≤ fuel)%nat → HasPrefix r " " = true →
  parse_selectors fuel (Join (x :: l) ", " +:+ r) = Some (x :: l, r).
Proof.
  intros Hl Hf Hr. revert fuel x Hl Hf. induction l as [|y l IH]; intros fuel x Hl Hf;
    (destruct fuel as [|fuel]; [simpl in Hf; lia|]); apply Forall_cons in Hl as [[_ Hx] Hl]; cbn [parse_selectors].
  - change (Join [x] ", ") with x. apply HasPrefix_spec in Hr as [s ->].
    by rewrite span_app.
  - change (Join (x :: y :: l) ", ") with (x +:+ (", " +:+ Join (y :: l) ", "))%string.
    rewrite <-!str_app_assoc. rewrite span_app by done. rewrite expect_app. cbn [mbind option_bind].
    rewrite IH; [done|done|simpl in *; lia].
Qed.
Lemma parse_select_part q r :
  Forall ident (Selectors q) → HasPrefix r " " = true →
  let sel := match Selectors q with [] => "*" | l => Join l ", " end in
  match expect "*" (sel +:+ r) with
  | Some r' => Some ([], r')
  | None => parse_selectors (String.length (sel +:+ r)) (sel +:+ r)
  end = Some (Selectors q, r).
Proof.
  intros Hs Hr. cbv zeta. destruct (Selectors q) as [|x l]; [by rewrite expect_app|].
  pose proof (selectors_length _ Hs). pose proof (Forall_inv Hs) as [Hne Hx].
  replace (expect "*" _) with (@None string).
  - apply parse_selectors_text; [done| |done]. rewrite length_str_app. lia.
  - assert (∃ c y, Join (x :: l) ", " = String c y ∧ is_ident c = true) as (c & y & -> & Hc).
    { destruct x as [|c x]; [done|]. simpl in Hx. bool_split.
      destruct l as [|z l]; [by eexists _, _|]. by exists c, (x +:+ ", " +:+ Join (z :: l) ", ")%string. }
    rewrite str_cons_app. unfold expect. cbn [HasPrefix].
    destruct (Ascii.eqb_spec "*"%char c) as [<-|]; [done|done].
Qed.

(** The reader gives back what the builder was given. *)
Lemma parse_Build q :
  query_ok q → parse_wql (Build q) = Some (q_Class q, Selectors q, Conditions q).
Proof.
  intros ([_ Hc] & Hs & Hw). unfold Build. set (sel := match Selectors q with [] => "*" | l => Join l ", " end).
  unfold buildWhereClause. destruct (Conditions q) as [|c cs] eqn:Ec.
  - rewrite String.eqb_refl. unfold parse_wql. rewrite expect_app. cbn [mbind option_bind].
    rewrite (parse_select_part q _ Hs) by done. cbn [mbind option_bind]. rewrite expect_app. cbn [mbind option_bind].
    pose proof (span_app is_ident (q_Class q) "" Hc I) as Hclass. rewrite str_app_nil_r in Hclass. by rewrite Hclass.
  - change (String.eqb _ "") with false. cbn iota. unfold parse_wql. rewrite <-!str_app_assoc, expect_app.
    cbn [mbind option_bind]. rewrite (parse_select_part q _ Hs) by done. cbn [mbind option_bind].
    rewrite expect_app. cbn [mbind option_bind]. rewrite span_blank by done.
    pose proof (expect_app " WHERE " (Join (condition_text <$> c :: cs) " AND ")) as Hx.
    change (" WHERE " +:+ Join (condition_text <$> c :: cs) " AND ")%string
      with (" " +:+ ("WHERE " +:+ Join (condition_text <$> c :: cs) " AND "))%string in Hx.
    rewrite Hx. cbn [mbind option_bind].
    change (" " +:+ ("WHERE " +:+ ?x))%string with (String " " ("WHERE " +:+ x)). cbn [mbind option_bind].
    rewrite parse_conditions_text by (done || apply conditions_length). done.
Qed.
Lemma asks_parsed text class field v :
  ident class → ident field → asks text class field v →
  ∃ selectors, parse_wql text = Some (class, selectors, [MkCondition field "=" v]).
Proof.
  intros Hc Hf (Hv & sel & Hs & ->). exists sel. rewrite <-(Build_text class field v sel "").
  apply (parse_Build (WithConditions [WithCondition field "=" v] (Select sel (WithNamespace "" (NewQuery class))))).
  repeat constructor; simpl; try done; apply Hc || apply Hf.
Qed.
