(* ===== verification/DemoWin.v ===== *)
(** * A small Windows node

    Two disks, with PowerShell and WMI over the same state: the instances of
    [WinHost], [WinJson] and [Com] at which the witnesses of the Windows components
    evaluate.  Disk 1 is at LUN 3 and has an NTFS volume with data; disk 2 is raw. *)
From stdpp Require Import gmap strings list.
From Stdlib Require Import ZArith Lia Ascii SpecFloat.
From S2P Require Import Prelude GoStrings GoFloat GoErr Windows WinDisk WinVolume Wmi WmiStorage Wql DemoWql.
Local Open Scope string_scope.
Local Open Scope Z_scope.
Local Open Scope list_scope.

Record DemoDisk := MkDemoDisk {
  dd_style : Z; dd_parts : bool; dd_fs : string; dd_content : string; dd_size : Z }.
Record DemoWindows := MkDemoWindows {
  dw_one : DemoDisk; dw_two : DemoDisk; dw_refs : gmap Z Z; dw_inits : Z }.
Definition demo_windows : DemoWindows :=
  MkDemoWindows (MkDemoDisk PartitionStyleGPT true "NTFS" "data" (2 ^ 30))
                (MkDemoDisk PartitionStyleUnknown false "" "" 0) ∅ 0.
Definition set_one (d : DemoDisk) (w : DemoWindows) : DemoWindows := MkDemoWindows d (dw_two w) (dw_refs w) (dw_inits w).
Definition set_two (d : DemoDisk) (w : DemoWindows) : DemoWindows := MkDemoWindows (dw_one w) d (dw_refs w) (dw_inits w).
Definition set_refs (r : gmap Z Z) (w : DemoWindows) : DemoWindows := MkDemoWindows (dw_one w) (dw_two w) r (dw_inits w).
Definition set_inits (i : Z) (w : DemoWindows) : DemoWindows := MkDemoWindows (dw_one w) (dw_two w) (dw_refs w) i.
Definition demo_volume (n : Z) : string := "\\?\Volume{" +:+ Itoa n +:+ "}\".

(** What can be done to a disk: a disk is initialised, and gets its partition, once. *)
Definition initialize_disk (d : DemoDisk) : DemoDisk :=
  if dd_style d =? 0 then MkDemoDisk PartitionStyleGPT false "" "" 0 else d.
Definition partition_disk (d : DemoDisk) : DemoDisk :=
  if dd_parts d then d else MkDemoDisk (dd_style d) true "" "" (2 ^ 30).
Definition format_disk (d : DemoDisk) : DemoDisk := MkDemoDisk (dd_style d) (dd_parts d) "NTFS" "" (dd_size d).
Definition resize_disk (size : Z) (d : DemoDisk) : DemoDisk :=
  MkDemoDisk (dd_style d) (dd_parts d) (dd_fs d) (if size <? dd_size d then "" else dd_content d) size.
Definition demo_max_size : Z := 2 ^ 31.

(** ** PowerShell *)
Definition is_cmd (cmd : string) (envs : list string) (cmd' : string) (envs' : list string) : bool :=
  String.eqb cmd cmd' && bool_decide (envs = envs').
(** The commands on disk [n]. *)
Definition disk_effect (n : Z) (cmd : string) (envs : list string) (d : DemoDisk) : DemoDisk :=
  let on_volume c := is_cmd cmd envs c [volumeID_env (demo_volume n)] in
  if is_cmd cmd envs (initialize_cmd n) [] then initialize_disk d
  else if is_cmd cmd envs (new_partition_cmd n) [] then partition_disk d
  else if on_volume format_cmd then format_disk d
  else if on_volume (resize_cmd demo_max_size) then resize_disk demo_max_size d
  else d.
Definition disk_output (n : Z) (cmd : string) (envs : list string) (d : DemoDisk) : option string :=
  let on_volume c := is_cmd cmd envs c [volumeID_env (demo_volume n)] in
  if is_cmd cmd envs (raw_disk_cmd n) [] then Some (if dd_style d =? 0 then "raw" else "")
  else if is_cmd cmd envs (partitions_cmd n) [] then Some (if dd_parts d then "partition" else "")
  else if is_cmd cmd envs (list_volumes_cmd n 0) [] then Some (if dd_parts d then demo_volume n +:+ crlf else "")
  else if on_volume filesystem_type_cmd
  then Some ((if String.eqb (dd_fs d) "" then "Unknown" else dd_fs d) +:+ crlf)
  else if on_volume volume_size_cmd then Some (Itoa (dd_size d) +:+ crlf)
  else if on_volume supported_size_cmd then Some "SIZES"
  else if is_cmd cmd envs (disk_state_cmd n true) [] || is_cmd cmd envs (initialize_cmd n) []
          || is_cmd cmd envs (new_partition_cmd n) [] || on_volume format_cmd
          || on_volume (resize_cmd demo_max_size) then Some ""
  else None.
Definition demo_powershell (cmd : string) (envs : list string) : M DemoWindows (string * option gerr) := λ w,
  let w' := set_two (disk_effect 2 cmd envs (dw_two w)) (set_one (disk_effect 1 cmd envs (dw_one w)) w) in
  (Ok (if String.eqb cmd get_disk_cmd then ("DISKS", None)
       else if String.eqb cmd cim_cmd then ("CIM", None)
       else if String.eqb cmd mount_cmd then ("", None)
       else match disk_output 1 cmd envs (dw_one w), disk_output 2 cmd envs (dw_two w) with
            | Some out, _ | _, Some out => (out, None)
            | None, None => ("", Some (ENew "exit status 1"))
            end), w').

#[export] Instance demo_win_host : WinHost DemoWindows := {|
  exec_powershell := demo_powershell;
  powershellSem_Acquire := ret (); powershellSem_Release := ret ();
  win_Lstat _ := ret false; win_Readlink _ := fail (ENew "not a link"); win_Symlink _ _ := ret ();
  win_RemoveAll _ := ret (); win_Remove _ := ret (); win_MkdirAll _ := ret ();
  GetDiskFreeSpaceEx _ := ret (100, 40);
  SetVolumeMountPoint _ _ := ret None; DeleteVolumeMountPoint _ := ret ();
  syscall_Open _ := ret 7; syscall_Close _ := ret ();
  ioctl_GetDeviceNumber _ := ret 1; ioctl_QueryDeviceId _ := ret [];
|}.
Definition demo_disk_json (n : Z) (location : string) : gmap string jval :=
  {[ "Number" := JNumber (of_int n); "Location" := JString location; "PartitionStyle" := JString "GPT" ]}.
#[export] Instance demo_win_json : WinJson := {|
  unmarshal_objects s := if String.eqb s "DISKS"
    then Ok [demo_disk_json 1 "Integrated : Adapter 1 : Port 0 : Target 0 : LUN 3"]
    else Err (ENew "invalid JSON");
  unmarshal_cim_disks s := if String.eqb s "CIM" then Ok [(2, 5, 0, 1, 0, "SCSI\DISK")] else Err (ENew "invalid JSON");
  unmarshal_paths _ := Ok [];
  unmarshal_sizes s := if String.eqb s "SIZES" then Ok {[ "SizeMax" := demo_max_size ]} else Err (ENew "invalid JSON");
|}.

(** ** WMI *)
(** Pointers: 1 and 2 the locator, 3 the service; 100, 200 and 300 and a number the disk,
    its partition and its volume; 1000 and a pointer a collection of one object, 1000
    an empty one. *)
Definition dispatch (p : Z) : variant := MkVariant VT_DISPATCH p "".
Definition number (n : Z) : variant := MkVariant VT_UI4 n (Itoa n).
Definition bstr (s : string) : variant := MkVariant VT_BSTR 0 s.
Definition results (c : Z) : list Z := if 1000 <? c then [c - 1000] else [].
Definition demo_disk (n : Z) (w : DemoWindows) : option DemoDisk :=
  if n =? 1 then Some (dw_one w) else if n =? 2 then Some (dw_two w) else None.
Definition demo_query (text : string) (w : DemoWindows) : Z :=
  match parse_wql text with
  | Some (class, _, MkCondition field _ v :: _) =>
      if String.eqb class MSFTDiskClass && String.eqb field "Number" then
        match v with
        | WNumber n => match demo_disk n w with Some _ => 1100 + n | None => 1000 end
        | _ => 1000
        end
      else if String.eqb class MSFTVolumeClass && String.eqb field "UniqueId" then
        match v with
        | WString s => if String.eqb s (demo_volume 1) then 1301
                       else if String.eqb s (demo_volume 2) then 1302 else 1000
        | _ => 1000
        end
      else if String.eqb class MSFTPartitionClass && String.eqb field "DiskNumber" then
        match v with
        | WNumber n => match demo_disk n w with Some d => if dd_parts d then 1200 + n else 1000 | None => 1000 end
        | _ => 1000
        end
      else 1000
  | _ => 1000
  end.
Definition demo_associated (p : Z) (class : string) : Z :=
  if String.eqb class MSFTVolumeClass then p + 1100 else p + 900.
(** A method of disk [n], its partition or its volume. *)
Definition method_effect (n p : Z) (method : string) (l : list cval) (d : DemoDisk) : DemoDisk :=
  if (p =? 100 + n) && String.eqb method "Initialize" then initialize_disk d
  else if (p =? 100 + n) && String.eqb method "CreatePartition" then partition_disk d
  else if (p =? 300 + n) && String.eqb method "Format" then format_disk d
  else if (p =? 200 + n) && String.eqb method "Resize" then
    match l with
    | CStr s :: _ => if String.eqb s (Itoa demo_max_size) then resize_disk demo_max_size d else d
    | _ => d
    end
  else d.
Definition demo_call (p : Z) (method : string) (l : list cval) : M DemoWindows (variant * list variant) := λ w,
  (Ok (if String.eqb method "ConnectServer" then (dispatch 3, [])
       else if String.eqb method "ExecQuery"
       then (dispatch (match l with [CStr text] => demo_query text w | _ => 1000 end), [])
       else if String.eqb method "Associators_"
       then (dispatch (match l with [_; CStr class; _; _] => demo_associated p class | _ => 1000 end), [])
       else if String.eqb method "GetSupportedSize"
       then (number 0, [bstr "0"; bstr (Itoa demo_max_size); bstr ""])
       else (number 0, [bstr ""])),
   set_two (method_effect 2 p method l (dw_two w)) (set_one (method_effect 1 p method l (dw_one w)) w)).
Definition disk_property (n p : Z) (name : string) (d : DemoDisk) : option variant :=
  if (p =? 100 + n) && String.eqb name "PartitionStyle" then Some (number (dd_style d))
  else if (p =? 300 + n) && String.eqb name "FileSystemType"
  then Some (number (if String.eqb (dd_fs d) "" then 0 else 14))
  else if (p =? 100 + n) && String.eqb name "IsOffline" then Some (MkVariant VT_BOOL 0 "")
  else if (p =? 200 + n) && String.eqb name "DiskNumber" then Some (number n)
  else if (p =? 200 + n) && String.eqb name "Size" then Some (bstr (Itoa (dd_size d)))
  else if (p =? 200 + n) && String.eqb name "Offset" then Some (bstr "0")
  else if (p =? 100 + n) && String.eqb name "Size" then Some (bstr (Itoa demo_max_size))
  else if (p =? 300 + n) && String.eqb name "UniqueId" then Some (bstr (demo_volume n))
  else None.
Definition demo_property (p : Z) (name : string) : M DemoWindows variant := λ w,
  (if String.eqb name "_NewEnum" then Ok (dispatch p)
   else match disk_property 1 p name (dw_one w), disk_property 2 p name (dw_two w) with
        | Some v, _ | _, Some v => Ok v
        | None, None => Err (ENew "no such property")
        end, w).
Definition add_ref (d p : Z) (w : DemoWindows) : DemoWindows :=
  set_refs (<[p := default 0 (dw_refs w !! p) + d]> (dw_refs w)) w.
#[export] Instance demo_com : Com DemoWindows := {|
  CoInitializeEx w := (Ok (), set_inits (dw_inits w + 1) w);
  CoUninitialize w := (Ok (), set_inits (dw_inits w - 1) w);
  CoInitializeSecurity := ret (); getenv_security := "";
  com_CreateObject _ w := (Ok 1, add_ref 1 1 w);
  com_QueryInterface _ w := (Ok 2, add_ref 1 2 w);
  com_GetProperty := demo_property;
  com_PutProperty _ _ _ := ret (number 0);
  com_CallMethod := demo_call;
  com_Clear _ := ret ();
  com_AddRef p w := (Ok (), add_ref 1 p w);
  com_Release p w := (Ok (), add_ref (-1) p w);
  com_NewEnum c := ret (Some (Ok ∘ dispatch <$> results c));
  com_ReleaseEnum _ := ret ();
  ToIDispatch v := if decide (v_VT v = VT_DISPATCH) then Some (v_Val v) else None;
|}.
