(* ===== verification/WinFind.v ===== *)
(** * The disk of a LUN on a Windows node

    What the mounter of the host process answers for a LUN was reported, by
    [Get-Disk] or by CIM, for a disk at that LUN.  The LUN is read off what was
    reported without the functions of the driver: [nvme_path_lun] and [location_lun]. *)
From stdpp Require Import gmap strings list.
From Stdlib Require Import ZArith Lia Ascii.
From S2P Require Import Prelude GoStrings GoErr Windows WinDisk WinVolume WinMounter WinProofs DemoWin.
Local Open Scope string_scope.
Local Open Scope Z_scope.
Local Open Scope list_scope.

(** ** The LUN that a report names *)
(** The path is the one of an NVMe disk, and the number in it, the namespace, is one more than
    the LUN: decimal digits behind an ampersand, a zero and an ampersand, up to a number
    sign or the end. *)
Definition nvme_path_lun (path : string) (lun : Z) : Prop :=
  Contains (ToLower path) "ven_nvme" = true ∧
  ∃ pre digits rest, path = (pre +:+ "&0&" +:+ digits +:+ rest)%string ∧ all_digits digits = true ∧
    Atoi digits = Some (lun + 1) ∧ (rest = "" ∨ HasPrefix rest "#" = true).
(** The location has five fields or more, between colons, and one of them is [LUN] with the number. *)
Definition location_lun (str : string) (lun : Z) : Prop :=
  (5 ≤ length (Split str ":"))%nat ∧
  ∃ item k v, item ∈ Split str ":" ∧ Split (TrimSpace item) " " = [k; v] ∧
    TrimSpace k = "LUN" ∧ TrimSpace v = Itoa lun.
(** [Get-Disk] reports disk [n] at the LUN; it is not an MBR disk. *)
Definition ps_names (v : gmap string jval) (n lun : Z) : Prop :=
  (∃ x, v !! "Number" = Some (JNumber x) ∧ n = f_to_uint32 x) ∧
  (∃ style, v !! "PartitionStyle" = Some (JString style) ∧ ToLower style ≠ "mbr") ∧
  ((∃ path, v !! "Path" = Some (JString path) ∧ nvme_path_lun path lun) ∨
   (∃ str, v !! "Location" = Some (JString str) ∧ location_lun str lun)).
(** CIM reports disk [n] at the LUN. *)
Definition cim_names (v : Z * Z * Z * Z * Z * string) (n lun : Z) : Prop :=
  let '(index, l, target, port, bus, pnp) := v in
  index = n ∧ (nvme_path_lun pnp lun ∨ Contains (ToLower pnp) "ven_nvme" = false ∧ l = lun).

Lemma span_digits_ok s d r : span_digits s = (d, r) → s = (d +:+ r)%string ∧ all_digits d = true.
Proof.
  revert d r. induction s as [|c s IH]; intros d r; simpl; [by intros [= <- <-]|].
  destruct (is_digit c) eqn:Ec; [|by intros [= <- <-]].
  destruct (span_digits s) as [d' r']. intros [= <- <-]. destruct (IH d' r' eq_refl) as [-> Hd]. simpl. by rewrite Ec, Hd.
Qed.
Lemma nsid_match_ok s d :
  nsid_match s = Some d →
  ∃ pre rest, s = (pre +:+ "&0&" +:+ d +:+ rest)%string ∧ all_digits d = true ∧ (rest = "" ∨ HasPrefix rest "#" = true).
Proof.
  induction s as [|c s IH]; [done|]. cbn [nsid_match].
  destruct (HasPrefix (String c s) "&0&") eqn:Ep.
  - apply HasPrefix_spec in Ep as [x E]. rewrite E. change 3%nat with (String.length "&0&"). rewrite str_drop_app.
    destruct (span_digits x) as [d' r] eqn:Es. apply span_digits_ok in Es as [-> Hd].
    destruct (_ && _) eqn:Eb.
    + intros [= <-]. apply andb_true_iff in Eb as [_ Hr]. exists "", r. split; [done|]. split; [done|].
      apply orb_true_iff in Hr as [Hr%String.eqb_eq|Hr]; [by left|by right].
    + intros (pre & rest & Hs & Hrest)%IH. exists (String c pre), rest. split; [|done]. by rewrite <-E, Hs, str_cons_app.
  - intros (pre & rest & -> & Hrest)%IH. exists (String c pre), rest. split; [by rewrite str_cons_app|done].
Qed.
Lemma getNVMeLun_names path lun :
  0 ≤ lun → isNVMeDisk path = true → getNVMeLunFromPath path = Ok (Itoa lun) → nvme_path_lun path lun.
Proof.
  intros Hlun Hnv. unfold getNVMeLunFromPath. destruct (nsid_match path) as [d|] eqn:Em; [|done].
  apply nsid_match_ok in Em as (pre & rest & -> & Hd & Hr). unfold Atoi_res.
  destruct (Atoi d) as [z|] eqn:Ez; [|done]. destruct (Z.ltb_spec z 1); [done|]. intros [= E].
  split; [done|]. exists pre, d, rest. split_and!; [done|done| |done]. rewrite Ez. f_equal.
  apply Itoa_inj in E; lia.
Qed.

Lemma location_item_lun l acc lun :
  LUNID (foldl location_item acc l).1 = Itoa lun →
  LUNID acc.1 = Itoa lun ∨
  ∃ item k v, item ∈ l ∧ Split (TrimSpace item) " " = [k; v] ∧ TrimSpace k = "LUN" ∧ TrimSpace v = Itoa lun.
Proof.
  revert acc. induction l as [|item l IH]; intros acc; [by left|]. cbn [foldl].
  intros [H|(i & k & v & Hin & ?)]%IH; [|right; exists i, k, v; split; [by constructor|done]].
  destruct acc as [d found]. unfold location_item in H.
  destruct (Split (TrimSpace item) " ") as [|k [|v []]] eqn:Es; try by left. cbv zeta in H.
  destruct (String.eqb_spec (TrimSpace k) "Adapter"); [by left|].
  destruct (String.eqb_spec (TrimSpace k) "Target"); [by left|].
  destruct (String.eqb_spec (TrimSpace k) "LUN") as [Hk|]; [|by left].
  right. exists item, k, v. split; [constructor|done].
Qed.
Lemma parse_location_names str loc lun : parse_location str = Some loc → LUNID loc = Itoa lun → location_lun str lun.
Proof.
  unfold parse_location. cbv zeta. destruct (Nat.leb_spec 5 (length (Split str ":"))) as [H5|]; [|done].
  destruct (foldl _ _ _) as [d found] eqn:Ef. destruct found; [|done]. intros [= ->] Hl.
  destruct (location_item_lun (Split str ":") (MkLocation "" "" "" "", false) lun) as [He|Hin]; [by rewrite Ef| |by split].
  exfalso. by apply (Itoa_nonempty lun).
Qed.
Lemma reported_names v n loc lun : 0 ≤ lun → reported v n loc → LUNID loc = Itoa lun → ps_names v n lun.
Proof.
  intros Hlun (Hn & (style & Hs & Hmbr) & Hloc) Hl. split_and!.
  - unfold assert_number in Hn. destruct (v !! "Number") as [[]|]; try done. injection Hn as <-. by eexists.
  - exists style. split; [done|]. intros E. assert (Ht : EqualFold style "MBR" = true) by (by apply EqualFold_spec).
    congruence.
  - destruct Hloc as [(path & l & Hp & Hnv & Hg & ->)|(str & Hstr & Hpl)]; [left|right].
    + exists path. split; [done|]. apply getNVMeLun_names; [done..|]. by rewrite Hg, <-Hl.
    + exists str. split; [done|]. by eapply parse_location_names.
Qed.
Lemma cim_reported_names v n loc lun :
  0 ≤ lun → cim_reported v n loc → LUNID loc = Itoa lun → cim_names v n lun.
Proof.
  intros Hlun. destruct v as [[[[[index l] target] port] bus] pnp]. cbn. intros [-> [(Hnv & x & Hg & ->)|[Hnv ->]]] Hl; split; try done.
  - left. apply getNVMeLun_names; [done..|]. by rewrite Hg, <-Hl.
  - right. split; [done|]. exact (Itoa_inj l lun Hlun Hl).
Qed.

(** ** The run *)
Section find_disk.
  Context {W : Type} `{!WinHost W} `{!WinJson} `{!Wmi.Com W} `{!MapOrder} `{!NumOrder} (beyond : Z → Z).

(** From [w] to [w'] the command was run, within the limit on commands, and printed [out]. *)
Definition printed (cmd out : string) (w w' : W) : Prop :=
  ∃ w1 w2, powershellSem_Acquire w = (Ok (), w1) ∧ exec_powershell cmd [] w1 = (Ok (out, None), w2) ∧
    powershellSem_Release w2 = (Ok (), w').

Lemma powershell_ok cmd msg w out w' : powershell cmd [] msg w = (Ok out, w') → printed cmd out w w'.
Proof.
  unfold powershell. intros ([o [e|]] & w1 & Hr & Hx)%bind_ok; [done|]. injection Hx as <- <-.
  unfold RunPowershellCmd in Hr. apply bind_ok in Hr as ([] & w2 & Ha & Hr).
  destruct (exec_powershell cmd [] w2) as [r1 w3] eqn:E.
  apply bind_ok in Hr as ([] & w4 & Hrel & [-> <-]%lift_ok). by exists w2, w3.
Qed.

(** C27. The disk found for a LUN is at that LUN: the request ran [Get-Disk], and, when the
    locations that it reads off the answer do not have the LUN, then CIM; the number of the disk was
    printed by the last command that was run, for a disk that is either
    an NVMe disk whose path names the namespace after the LUN (the LUN is one less than its
    namespace), or one whose location has the LUN, in its field LUN or in the LUN that CIM prints.  No
    disk with an MBR partition table is taken from [Get-Disk]. *)
Theorem findDiskByLun_windows_sound lun w s w' :
  0 ≤ lun →
  pm_FindDiskByLun (win_proxy (NewWinMounter beyond false)) (Itoa lun) w = (Ok s, w') →
  ∃ n out disks w1, s = Itoa n ∧ printed get_disk_cmd out w w1 ∧ unmarshal_objects out = Ok disks ∧
  ((∃ v, v ∈ disks ∧ ps_names v n lun) ∧ w' = w1 ∨
   (∃ m, ps_locations disks ∅ = Ok m ∧ ∀ k loc, m !! k = Some loc → LUNID loc ≠ Itoa lun) ∧
   ∃ out2 disks2 v, printed cim_cmd out2 w1 w' ∧ unmarshal_cim_disks out2 = Ok disks2 ∧ v ∈ disks2 ∧
     cim_names v n lun).
Proof.
  intros Hlun (m & w1 & Hlist & Hr)%bind_ok. cbn in Hlist.
  apply bind_ok in Hlist as (out & w2 & Hout%powershell_ok & Hl).
  apply bind_ok in Hl as (disks & w3 & [Hd ->]%lift_ok & [Hm ->]%lift_ok).
  destruct (disk_at_lun (Itoa lun) (num_order m)) as [n|] eqn:En.
  - injection Hr as <- <-. exists n, out, disks, w2. split_and!; [done..|]. left. split; [|done].
    apply disk_at_lun_Some in En as (loc & Hin%elem_of_num_order & He).
    destruct (ps_locations_reported _ _ _ _ _ Hm Hin) as [?|(v & Hv & Hrep)]; [by simplify_map_eq|].
    exists v. split; [done|]. apply (reported_names _ _ loc); [done..|].
    apply EqualFold_digits; [by apply all_digits_Itoa|done].
  - apply bind_ok in Hr as (m2 & w4 & Hcim & Hr).
    apply bind_ok in Hcim as (out2 & w5 & Hout2%powershell_ok & Hl).
    apply bind_ok in Hl as (disks2 & w6 & [Hd2 ->]%lift_ok & Hm2). injection Hm2 as <- <-.
    destruct (disk_at_lun (Itoa lun) (num_order (foldl _ _ _))) as [n|] eqn:En2; [|done].
    injection Hr as <- <-. exists n, out, disks, w2. split_and!; [done..|]. right. split.
    { exists m. split; [done|]. intros k loc Hk%elem_of_num_order He.
      pose proof (disk_at_lun_None _ _ En _ _ Hk) as Hn. by rewrite He, EqualFold_refl in Hn. }
    apply disk_at_lun_Some in En2 as (loc & Hin%elem_of_num_order & He).
    destruct (cim_locations_reported _ _ _ _ Hin) as [?|(v & Hv & Hrep)]; [by simplify_map_eq|].
    exists out2, disks2, v. split_and!; try done. apply (cim_reported_names _ _ loc); [done..|].
    apply EqualFold_digits; [by apply all_digits_Itoa|done].
Qed.
End find_disk.

(** Disk 1 is listed by [Get-Disk], disk 2 by CIM. *)
Lemma findDiskByLun_windows_sound_witness :
  (∃ n out disks w1, "1" = Itoa n ∧ printed get_disk_cmd out demo_windows w1 ∧ unmarshal_objects out = Ok disks ∧
   ((∃ v, v ∈ disks ∧ ps_names v n 3) ∧ demo_windows = w1 ∨
    (∃ m, ps_locations disks ∅ = Ok m ∧ ∀ k loc, m !! k = Some loc → LUNID loc ≠ Itoa 3) ∧
    ∃ out2 disks2 v, printed cim_cmd out2 w1 demo_windows ∧ unmarshal_cim_disks out2 = Ok disks2 ∧ v ∈ disks2 ∧
      cim_names v n 3)) ∧
  (∃ n out disks w1, "2" = Itoa n ∧ printed get_disk_cmd out demo_windows w1 ∧ unmarshal_objects out = Ok disks ∧
   ((∃ v, v ∈ disks ∧ ps_names v n 5) ∧ demo_windows = w1 ∨
    (∃ m, ps_locations disks ∅ = Ok m ∧ ∀ k loc, m !! k = Some loc → LUNID loc ≠ Itoa 5) ∧
    ∃ out2 disks2 v, printed cim_cmd out2 w1 demo_windows ∧ unmarshal_cim_disks out2 = Ok disks2 ∧ v ∈ disks2 ∧
      cim_names v n 5)).
Proof.
  split.
  - apply (findDiskByLun_windows_sound (λ _, 0) 3 demo_windows "1" demo_windows); [lia|vm_compute; reflexivity].
  - apply (findDiskByLun_windows_sound (λ _, 0) 5 demo_windows "2" demo_windows); [lia|vm_compute; reflexivity].
Defined.
