(* ===== verification/WmiFrame.v ===== *)
(** * Sequences of COM calls that keep a property of the world

    [post P R m]: [m] keeps [P] and gives results with [R].  [ComKeeps P methods]: the
    calls of COM, and the methods named in [methods], keep [P]; then so do the queries,
    the enumerations and the scopes of [wmi.go] that are built on them. *)
From stdpp Require Import gmap strings list.
From Stdlib Require Import ZArith Lia Ascii.
From S2P Require Import Prelude GoStrings GoErr Windows WinDisk WinVolume Wmi WmiStorage WinCim.
Local Open Scope string_scope.
Local Open Scope Z_scope.
Local Open Scope list_scope.

Create HintDb format_db.

(** ** Computations that keep a property and give results with another *)
Section post.
  Context {S : Type} (P : S → Prop).

Definition post {A} (R : A → Prop) (m : M S A) : Prop :=
  ∀ s, P s → P (m s).2 ∧ ∀ a, (m s).1 = Ok a → R a.

Lemma post_keeps {A} (R : A → Prop) (m : M S A) : post R m → keeps P m.
Proof. intros Hm s Hs. by destruct (Hm s Hs). Qed.
Lemma keeps_post {A} (m : M S A) : keeps P m → post (λ _, True) m.
Proof. intros Hm s Hs. split; [by apply Hm|done]. Qed.
Lemma post_imp {A} (R Q : A → Prop) (m : M S A) : (∀ a, R a → Q a) → post R m → post Q m.
Proof. intros Hi Hm s Hs. destruct (Hm s Hs) as [? Ha]. split; [done|]. intros a E. by apply Hi, Ha. Qed.
Lemma post_any {A} (R : A → Prop) (m : M S A) : post R m → post (λ _, True) m.
Proof. by apply post_imp. Qed.
Lemma post_bind {A B} (R : A → Prop) (Q : B → Prop) (m : M S A) (f : A → M S B) :
  post R m → (∀ a, R a → post Q (f a)) → post Q (bind m f).
Proof.
  intros Hm Hf s Hs. specialize (Hm s Hs). unfold bind.
  destruct (m s) as [[a|e|] s1]; simpl in *; destruct Hm as [Hs1 Ha]; [|done|done].
  by apply Hf, Hs1; apply Ha.
Qed.
Lemma post_ret {A} (R : A → Prop) a : R a → post R (ret a).
Proof. intros Ha s Hs. split; [done|]. by intros ? [= <-]. Qed.
Lemma post_fail {A} (R : A → Prop) e : post R (fail e).
Proof. by intros s Hs. Qed.
Lemma post_panic {A} (R : A → Prop) : post R panic.
Proof. by intros s Hs. Qed.
Lemma post_lift {A} (R : A → Prop) r : (∀ a, r = Ok a → R a) → post R (lift r).
Proof. intros Hr s Hs. by split. Qed.
Lemma post_try {A} (R : A → Prop) (m : M S A) :
  post R m → post (λ r, match r with inl _ => True | inr a => R a end) (try m).
Proof.
  intros Hm s Hs. specialize (Hm s Hs). unfold try.
  destruct (m s) as [[a|e|] s1]; simpl in *; destruct Hm as [Hs1 Ha]; split; try done.
  - intros ? [= <-]. by apply Ha.
  - by intros ? [= <-].
Qed.
Lemma post_finally {A} (R : A → Prop) (m : M S A) c : post R m → keeps P c → post R (finally m c).
Proof.
  intros Hm Hc s Hs. specialize (Hm s Hs). unfold finally.
  destruct (m s) as [r s1]. simpl in *. destruct Hm as [Hs1 Ha]. split; [by apply Hc|done].
Qed.
Lemma post_wrap {A} (R : A → Prop) (m : M S A) pre : post R m → post R (wrap_err m pre).
Proof.
  intros Hm. apply (post_bind (λ r, match r with inl _ => True | inr a => R a end)); [by apply post_try|].
  intros [e|a] Ha; [apply post_fail|by apply post_ret].
Qed.
End post.

(** The steps that leave nothing to say about the result. *)
Ltac keep_step :=
  match goal with
  | |- keeps _ (ret _) => apply keeps_ret
  | |- keeps _ (fail _) => apply keeps_fail
  | |- keeps _ panic => apply keeps_panic
  | |- keeps _ (lift _) => apply keeps_lift
  | |- keeps _ (try _) => apply keeps_try
  | |- keeps _ (bind _ _) => apply keeps_bind; [|intros ?]
  | |- keeps _ (match ?x with _ => _ end) => destruct x
  | |- keeps _ (let '_ := ?x in _) => destruct x
  end.
#[export] Hint Resolve keeps_ret keeps_fail keeps_panic keeps_lift : format_db.
Ltac keep := repeat (keep_step || solve [auto with format_db]).

(** ** PowerShell *)
Lemma post_RunPowershellCmd {W} `{!WinHost W} (P : W → Prop) R c e :
  keeps P powershellSem_Acquire → keeps P powershellSem_Release →
  post P R (exec_powershell c e) → post P R (RunPowershellCmd c e).
Proof.
  intros Ha Hf Hx. unfold RunPowershellCmd.
  eapply post_bind; [by apply keeps_post|]. intros _ _ s Hs. specialize (Hx s Hs).
  destruct (exec_powershell c e s) as [r s1]. simpl in Hx. destruct Hx as [Hs1 Hr].
  apply (post_bind P (λ _, True)); [by apply keeps_post| |done]. intros _ _. by apply post_lift.
Qed.
Lemma post_command {W} `{!WinHost W} (P : W → Prop) R c e msg :
  keeps P powershellSem_Acquire → keeps P powershellSem_Release →
  post P (λ r, r.2 = None → R r.1) (exec_powershell c e) → post P R (powershell c e msg).
Proof.
  intros Ha Hf Hx. unfold powershell. eapply post_bind; [by apply post_RunPowershellCmd|].
  intros [out [err|]] Hr; [apply post_fail|]. apply post_ret. by apply Hr.
Qed.

(** ** COM *)
(** The methods that the queries themselves call. *)
Definition query_methods : list string := ["ConnectServer"; "ExecQuery"; "Associators_"].
Class ComKeeps {W} `{!WinHost W} `{!Com W} (P : W → Prop) (methods : list string) : Prop := {
  call_keeps p name l : name ∈ query_methods ++ methods → keeps P (com_CallMethod p name l);
  initialize_com_keeps : keeps P CoInitializeEx;
  uninitialize_keeps : keeps P CoUninitialize;
  create_keeps s : keeps P (com_CreateObject s);
  interface_keeps p : keeps P (com_QueryInterface p);
  property_keeps p n : keeps P (com_GetProperty p n);
  clear_keeps v : keeps P (com_Clear v);
  add_ref_keeps p : keeps P (com_AddRef p);
  release_keeps p : keeps P (com_Release p);
  enum_keeps p : keeps P (com_NewEnum p);
  release_enum_keeps p : keeps P (com_ReleaseEnum p);
  link_keeps p : keeps P (win_Readlink p);
  mount_keeps p v : keeps P (SetVolumeMountPoint p v);
}.
#[export] Hint Resolve initialize_com_keeps uninitialize_keeps create_keeps interface_keeps property_keeps
  clear_keeps add_ref_keeps release_keeps enum_keeps release_enum_keeps link_keeps mount_keeps : format_db.

Section frame.
  Context {W : Type} `{!WinHost W} `{!Com W} `{!MapOrder}.
  Context (P : W → Prop) (methods : list string) `{!ComKeeps P methods}.
  Notation C := (M (CS W)).
  Notation held := (λ s : CS W, P (cs_world s)).

Lemma query_method_keeps p name l : name ∈ query_methods → keeps P (com_CallMethod p name l).
Proof. intros Hn. apply (call_keeps (methods:=methods)). apply elem_of_app. by left. Qed.
Lemma method_keeps p name l : name ∈ methods → keeps P (com_CallMethod p name l).
Proof. intros Hn. apply (call_keeps (methods:=methods)). apply elem_of_app. by right. Qed.

Lemma post_com {A} (R : A → Prop) (m : M W A) : post P R m → post held R (com m).
Proof.
  intros Hm s Hs. specialize (Hm (cs_world s) Hs). unfold com, on.
  by destruct (m (cs_world s)) as [r w].
Qed.
Lemma keeps_com {A} (m : M W A) : keeps P m → keeps held (com m).
Proof. intros Hm. by apply (post_keeps _ (λ _, True)), post_com, keeps_post. Qed.
Lemma com_query_method p name l : name ∈ query_methods → keeps held (com (com_CallMethod p name l)).
Proof. intros Hn. by apply keeps_com, query_method_keeps. Qed.
Lemma com_release p : keeps held (com (com_Release p)).
Proof. apply keeps_com, (release_keeps (methods:=methods)). Qed.
Lemma com_clear v : keeps held (com (com_Clear v)).
Proof. apply keeps_com, (clear_keeps (methods:=methods)). Qed.
Lemma com_property p n : keeps held (com (com_GetProperty p n)).
Proof. apply keeps_com, (property_keeps (methods:=methods)). Qed.
Lemma com_enum p : keeps held (com (com_NewEnum p)).
Proof. apply keeps_com, (enum_keeps (methods:=methods)). Qed.
Lemma com_release_enum p : keeps held (com (com_ReleaseEnum p)).
Proof. apply keeps_com, (release_enum_keeps (methods:=methods)). Qed.
Lemma com_create s : keeps held (com (com_CreateObject s)).
Proof. apply keeps_com, (create_keeps (methods:=methods)). Qed.
Lemma com_interface p : keeps held (com (com_QueryInterface p)).
Proof. apply keeps_com, (interface_keeps (methods:=methods)). Qed.
Lemma post_need o : post held (λ p, o = Some p) (need o).
Proof. destruct o; [by apply post_ret|apply post_panic]. Qed.
Lemma keeps_need o : keeps held (need o).
Proof. apply (post_keeps _ _ _ (post_need o)). Qed.
Lemma keeps_finally {A} (m : C A) c : keeps held m → keeps held c → keeps held (finally m c).
Proof. intros Hm Hc. by apply (post_keeps _ (λ _, True)), post_finally; [apply keeps_post|]. Qed.
Lemma keeps_wrap {A} (m : C A) pre : keeps held m → keeps held (wrap_err m pre).
Proof. intros Hm. by apply (post_keeps _ (λ _, True)), post_wrap, keeps_post. Qed.
#[local] Hint Resolve com_release com_clear com_property com_enum com_release_enum com_create com_interface
  keeps_need keeps_finally keeps_wrap : format_db.

(** *** Scopes and threads *)
Lemma keeps_Close objs : keeps P (Close objs).
Proof.
  unfold Close. induction (reverse objs) as [|o l IH]; cbn [for_each]; [apply keeps_ret|].
  apply keeps_bind; [|by intros _]. destruct o; [apply (release_keeps (methods:=methods))|apply keeps_ret].
Qed.
Lemma post_WithScope {A} (R : A → Prop) (fn : C A) : post held R fn → post P R (WithScope fn).
Proof.
  intros Hf w Hw. unfold WithScope. specialize (Hf (MkCS w []) Hw). destruct (fn _) as [r s].
  simpl in *. destruct Hf as [Hs Hr]. split; [|done]. by apply keeps_Close.
Qed.
Lemma post_on_com {A} (R : A → Prop) (fn : C A) : post held R fn → post P R (on_com fn).
Proof.
  intros Hf. unfold on_com, WithCOMThread.
  eapply post_bind; [by apply post_try, keeps_post, (initialize_com_keeps (methods:=methods))|].
  intros [e|u] _; [destruct (bool_decide _); [|apply post_fail]|];
    (apply post_finally; [by apply post_WithScope|apply (uninitialize_keeps (methods:=methods))]).
Qed.
Lemma keeps_on_com {A} (fn : C A) : keeps held fn → keeps P (on_com fn).
Proof. intros Hf. by apply (post_keeps _ (λ _, True)), post_on_com, keeps_post. Qed.
Lemma post_NewCOMDispatchObject o : post held (λ obj, obj = o) (NewCOMDispatchObject o).
Proof.
  unfold NewCOMDispatchObject. eapply (post_bind _ (λ _, True)).
  - destruct o; [apply keeps_post, keeps_com, (add_ref_keeps (methods:=methods))|by apply post_ret].
  - intros _ _. by apply post_ret.
Qed.
Lemma post_Track obj : post held (λ o, o = obj) (Track obj).
Proof. intros s Hs. split; [done|]. by intros ? [= <-]. Qed.
Lemma post_tracked {A} (R : A → Prop) o (f : COMDispatchObject → C A) :
  post held R (f o) → post held R (let! obj := NewCOMDispatchObject o in let! obj := Track obj in f obj).
Proof.
  intros Hf. eapply post_bind; [apply post_NewCOMDispatchObject|]. intros ? ->.
  eapply post_bind; [apply post_Track|]. by intros ? ->.
Qed.
Lemma keeps_collect l o : keeps held (collect l o).
Proof. apply (post_keeps _ (λ _, True)), post_tracked. by apply post_ret. Qed.
Lemma keeps_first r o : keeps held (first_one r o).
Proof. apply (post_keeps _ (λ _, True)), post_tracked. by apply post_ret. Qed.

(** *** Queries and enumerations *)
Lemma keeps_ForEach {A} items (fn : A → COMDispatchObject → C (A * option gerr)) a :
  (∀ a o, keeps held (fn a o)) → keeps held (ForEach items fn a).
Proof. intros Hf. revert a. induction items as [|o items IH]; intros a; cbn [ForEach]; keep. Qed.
Lemma keeps_Enumerate {A} o (fn : A → variant → C (A * option gerr)) a :
  (∀ a v, keeps held (fn a v)) → keeps held (Enumerate o fn a).
Proof.
  intros Hf. unfold Enumerate. keep. apply keeps_finally; [keep|auto with format_db].
  apply keeps_finally; [|auto with format_db].
  generalize a. induction l as [|[x|e|] l IH]; intros a'; cbn [enum_loop]; keep.
Qed.
Lemma post_WithWMIService {A} (R : A → Prop) ns (fn : Dispatch → C A) :
  (∀ service, post held R (fn service)) → post held R (WithWMIService ns fn).
Proof.
  intros Hf. unfold WithWMIService. eapply post_bind; [by apply keeps_post, com_create|]. intros lu _.
  apply post_finally; [|apply com_release].
  eapply post_bind; [by apply keeps_post, com_interface|]. intros l _.
  apply post_finally; [|apply com_release].
  eapply post_bind; [apply keeps_post, com_query_method; by constructor|]. intros [raw outs] _.
  apply post_finally; [apply Hf|apply com_clear].
Qed.
Lemma keeps_Query {A} ns q (fn : A → Dispatch → C (A * option gerr)) a :
  (∀ a o, keeps held (fn a o)) → keeps held (Query ns q fn a).
Proof.
  intros Hf. apply (post_keeps _ (λ _, True)), post_WithWMIService. intros service. apply keeps_post. keep.
  - apply com_query_method. by repeat constructor.
  - apply keeps_finally; [|apply com_clear]. keep. by apply keeps_Enumerate.
Qed.
Lemma keeps_QueryObjects q : keeps held (QueryObjectsWithBuilder q).
Proof. apply keeps_Query. intros. apply keeps_collect. Qed.
Lemma keeps_QueryFirst q : keeps held (QueryFirstObjectWithBuilder q).
Proof. unfold QueryFirstObjectWithBuilder. keep. apply keeps_Query. intros. apply keeps_first. Qed.
Lemma keeps_associated what c r rr objs : keeps held (associated what c r rr objs).
Proof.
  apply keeps_ForEach. intros found o. keep. unfold GetAssociated, Associators. keep.
  - apply com_query_method. by repeat constructor.
  - apply keeps_finally; [|apply com_clear]. apply keeps_bind.
    + apply keeps_Enumerate. intros l' v'. apply keeps_collect.
    + unfold result_or_err. intros res. keep.
Qed.

(** *** Properties and methods *)
Lemma post_property {A} (R : A → Prop) o name (fn : variant → A) :
  (∀ p, o = Some p → post P (λ v, R (fn v)) (com_GetProperty p name)) →
  post held R (GetPropertyWithHandler o name fn).
Proof.
  intros Hp. unfold GetPropertyWithHandler. eapply post_bind; [apply post_need|]. intros p ->.
  eapply post_bind; [apply post_try, post_com, Hp; done|].
  intros [e|v] Hv; [apply post_fail|]. apply post_finally; [by apply post_ret|apply com_clear].
Qed.
Lemma keeps_property {A} o name (fn : variant → A) : keeps held (GetPropertyWithHandler o name fn).
Proof. unfold GetPropertyWithHandler. keep. Qed.
#[local] Hint Resolve keeps_property : format_db.
Lemma keeps_uint64 o name : keeps held (GetStringPropertyAsUint64 o name).
Proof. unfold GetStringPropertyAsUint64, GetStringProperty. keep. Qed.
Lemma keeps_method_ok class name o l msg :
  (∀ p, o = Some p → keeps P (com_CallMethod p name l)) → keeps held (method_ok class name o l msg).
Proof.
  intros Hp. apply (post_keeps _ (λ _, True)). unfold method_ok.
  eapply post_bind; [apply post_try with (R := λ _, True)|].
  - unfold CallUint32, CallMethod. eapply post_bind; [apply post_need|]. intros p ->.
    eapply post_bind; [apply post_com, keeps_post, Hp; done|]. intros [v outs] _.
    apply post_finally; [by apply post_ret|apply com_clear].
  - intros [e|[r outs]] _; [apply post_fail|]. destruct (r =? 0); [by apply post_ret|apply post_fail].
Qed.
Lemma keeps_named_method class name o l msg : name ∈ methods → keeps held (method_ok class name o l msg).
Proof. intros Hn. apply keeps_method_ok. intros p _. by apply method_keeps. Qed.
Lemma keeps_getTarget mount depth : keeps P (getTarget mount depth).
Proof.
  revert mount. induction depth as [|d IH]; intros mount; cbn [getTarget]; [keep|].
  apply keeps_bind; [apply keeps_try, (link_keeps (methods:=methods))|]. intros r. keep.
Qed.
Lemma keeps_QueryDisk n selectors : keeps held (QueryDiskByNumber n selectors).
Proof. unfold QueryDiskByNumber. keep. apply keeps_QueryFirst. Qed.
Lemma keeps_QueryVolume v selectors : keeps held (QueryVolumeByUniqueID v selectors).
Proof. unfold QueryVolumeByUniqueID. keep. apply keeps_QueryFirst. Qed.
End frame.
