(* ===== verification/WinFormat.v ===== *)
(** * Data on a Windows node: formatting

    The mounters partition and format a disk only when it has nothing on it.  What
    the mounter needs of [DiskAPI] and [VolumeAPI] is the class [Careful]; the
    PowerShell and the WMI implementations meet it, given what the documentation of
    Windows says of the commands ([PowerShellLaws]) and of the methods ([WmiLaws]). *)
From stdpp Require Import gmap strings list.
From Stdlib Require Import ZArith Lia Ascii.
From S2P Require Import Prelude GoStrings GoErr Windows WinDisk WinVolume Wmi WmiStorage WinCim WinMounter WinCommon.
From S2P Require Import WinProofs Wql DemoWql DemoWin WmiFrame.
Local Open Scope string_scope.
Local Open Scope Z_scope.
Local Open Scope list_scope.

(** ** The interface *)
(** The world keeps a disk's data: [disk] is the number of the disk, [is_vol] tells
    the names of its volume. *)
Class Careful {W} (m : winMounter W) (data : W → Prop) (is_vol : string → bool) : Prop := {
  careful_state n b : 0 ≤ n → keeps data (WinDisk.SetDiskState (diskAPI m) n b);
  careful_partition n : 0 ≤ n → keeps data (WinDisk.PartitionDisk (diskAPI m) n);
  careful_list n p : keeps data (WinVolume.ListVolumesOnDisk (volAPI m) n p);
  careful_formatted v : post data (λ b, is_vol v = true → b = true) (WinVolume.IsVolumeFormatted (volAPI m) v);
  careful_format v : is_vol v = false → keeps data (WinVolume.FormatVolume (volAPI m) v);
  careful_mount v path : keeps data (WinVolume.MountVolume (volAPI m) v path);
}.

Lemma to_uint32_nonneg n : 0 ≤ to_uint32 n.
Proof. apply Z.mod_pos_bound. lia. Qed.

Lemma careful_format_unformatted {W} (m : winMounter W) data is_vol `{!Careful m data is_vol} v :
  keeps data (format_unformatted m v).
Proof.
  apply (post_keeps _ (λ _, True)). eapply post_bind; [apply careful_formatted|]. intros f Hf. apply keeps_post.
  destruct f; [apply keeps_ret|]. apply careful_format. destruct (is_vol v); [by specialize (Hf eq_refl)|done].
Qed.
Lemma careful_FormatAndMount {W} (m : winMounter W) data is_vol `{!Careful m data is_vol} source target fstype options :
  keeps data (WinMounter.FormatAndMount m source target fstype options).
Proof.
  unfold FormatAndMount. destruct (Atoi source) as [n|]; [|apply keeps_fail].
  pose proof (to_uint32_nonneg n) as Hn.
  apply keeps_bind; [by apply keeps_try, (careful_state (is_vol:=is_vol))|intros _].
  apply keeps_bind; [by apply (careful_partition (is_vol:=is_vol))|intros _].
  apply keeps_bind; [apply (careful_list (is_vol:=is_vol))|intros [|v vs]; [apply keeps_fail|]].
  apply keeps_bind; [by apply (careful_format_unformatted _ _ is_vol)|intros _].
  apply (careful_mount (is_vol:=is_vol)).
Qed.

(** The steps of [PartitionDisk], which both implementations have. *)
Lemma keeps_partition_steps {W} (data : W → Prop) (disk n : Z) (initialized partitioned : M W bool)
    (initialize create : M W unit) :
  post data (λ b, n = disk → b = true) initialized → (n ≠ disk → keeps data initialize) →
  keeps data partitioned → keeps data create →
  keeps data (let! i := initialized in
              let! _ := if negb i then initialize else ret () in
              let! p := partitioned in
              if negb p then create else ret ()).
Proof.
  intros Hi Hinit Hp Hc. apply (post_keeps _ (λ _, True)). eapply post_bind; [exact Hi|].
  intros [] Hdisk; apply keeps_post; simpl; keep. apply Hinit. intros ->. by specialize (Hdisk eq_refl).
Qed.

(** ** PowerShell *)
(** The file systems that Windows names. *)
Definition file_systems : list string := ["FAT"; "FAT32"; "exFAT"; "NTFS"; "ReFS"; "CSVFS"].

Section powershell.
  Context {W : Type} `{!WinHost W} `{!WinJson}.
  Context (data : W → Prop) (is_vol : string → bool) (disk : Z).

(** The commands that leave the data alone: those that read, bring a disk online, add
    a partition or a path; to initialise another disk, to format another volume. *)
Inductive harmless : string → list string → Prop :=
| harmless_state n b : harmless (disk_state_cmd n b) []
| harmless_raw n : harmless (raw_disk_cmd n) []
| harmless_initialize n : n ≠ disk → harmless (initialize_cmd n) []
| harmless_partitions n : harmless (partitions_cmd n) []
| harmless_new n : harmless (new_partition_cmd n) []
| harmless_list n p : harmless (list_volumes_cmd n p) []
| harmless_fs v : harmless filesystem_type_cmd [volumeID_env v]
| harmless_format v : is_vol v = false → harmless format_cmd [volumeID_env v]
| harmless_mount v path : harmless mount_cmd [volumeID_env v; path_env path].

(** What PowerShell promises. *)
Class PowerShellLaws : Prop := {
  harmless_keeps c e : harmless c e → keeps data (exec_powershell c e);
  raw_only_raw : post data (λ r, r.2 = None → r.1 = "") (exec_powershell (raw_disk_cmd disk) []);
  fs_named v : is_vol v = true →
    post data (λ r, r.2 = None → ∃ fs, fs ∈ file_systems ∧ r.1 = (fs +:+ crlf)%string)
         (exec_powershell filesystem_type_cmd [volumeID_env v]);
  keeps_Acquire : keeps data powershellSem_Acquire;
  keeps_Release : keeps data powershellSem_Release;
}.

  Context `{!PowerShellLaws}.

Lemma post_powershell R c e msg :
  post data (λ r, r.2 = None → R r.1) (exec_powershell c e) → post data R (powershell c e msg).
Proof.
  apply post_command; [apply keeps_Acquire | apply keeps_Release].
Qed.
Lemma keeps_powershell c e msg : harmless c e → keeps data (powershell c e msg).
Proof.
  intros Hc. apply (post_keeps _ (λ _, True)), post_powershell.
  apply (post_imp _ (λ _, True)); [done|]. by apply keeps_post, harmless_keeps.
Qed.
#[local] Hint Resolve keeps_powershell : format_db.
#[local] Hint Constructors harmless : format_db.

Lemma careful_powershell beyond :
  Careful (MkWinMounter W PowerShellVolume.NewPowerShellVolumeAPI (PowerShell.NewPowerShellDiskAPI beyond)) data is_vol.
Proof.
  split; simpl.
  - intros n b _. unfold PowerShell.SetDiskState. keep.
  - intros n _. unfold PowerShell.PartitionDisk. apply (keeps_partition_steps data disk n).
    + unfold PowerShell.IsDiskInitialized. destruct (decide (n = disk)) as [->|Hn].
      * eapply post_bind; [apply (post_powershell (λ out, out = "")), raw_only_raw|].
        intros out ->. by apply post_ret.
      * apply post_imp with (λ _, True); [done|]. apply keeps_post. keep.
    + intros Hn. unfold PowerShell.InitializeDisk. keep.
    + unfold PowerShell.BasicPartitionsExist. keep.
    + unfold PowerShell.CreateBasicPartition. keep.
  - intros n p. unfold PowerShellVolume.ListVolumesOnDisk. keep.
  - intros v. unfold PowerShellVolume.IsVolumeFormatted. destruct (is_vol v) eqn:Ev.
    + eapply post_bind; [apply (post_powershell (λ out, ∃ fs, fs ∈ file_systems ∧ out = (fs +:+ crlf)%string))|].
      { by apply fs_named. }
      intros out (fs & Hfs & ->). apply post_ret. intros _. revert fs Hfs. apply Forall_forall.
      by repeat constructor.
    + apply post_imp with (λ _, True); [done|]. apply keeps_post. keep.
  - intros v Hv. unfold PowerShellVolume.FormatVolume. keep.
  - intros v path. unfold PowerShellVolume.MountVolume. keep.
Qed.
End powershell.

(** ** WMI *)
(** What a query asks for ([Wql.asks]). *)
Definition volume_query (text v : string) : Prop := asks text MSFTVolumeClass "UniqueId" (WString v).
Definition disk_query (text : string) (n : Z) : Prop := asks text MSFTDiskClass "Number" (WNumber n).
(** The methods of disks and partitions that leave the data alone, whatever the object. *)
Definition harmless_methods : list string := ["CreatePartition"; "Refresh"; "Online"; "Offline"].

Section wmi.
  Context {W : Type} `{!WinHost W} `{!Com W} `{!MapOrder}.
  Context (data : W → Prop) (is_vol : string → bool) (disk : Z).

(** What COM and the storage classes promise: a collection, its enumerator and the
    objects it gives are those that the text of a query asks for; pointers are not
    used again. *)
Class WmiLaws := {
  answers : Z → string → Prop;
  returned : Z → string → Prop;
  exec_answers p text : post data (λ r : variant * list variant, ∀ c, ToIDispatch r.1 = Some c → answers c text)
    (com_CallMethod p "ExecQuery" [CStr text]);
  enum_answers c text : answers c text →
    post data (λ v, ∀ q, ToIDispatch v = Some q → answers q text) (com_GetProperty c "_NewEnum");
  enum_returns q text : answers q text →
    post data (λ o, ∀ items v p, o = Some items → Ok v ∈ items → ToIDispatch v = Some p → returned p text)
         (com_NewEnum q);
  volume_has_fs p text v : returned p text → volume_query text v → is_vol v = true →
    post data (λ r, sv_Uint16 (Some r) ≠ FileSystemUnknown) (com_GetProperty p "FileSystemType");
  format_other p text v l : returned p text → volume_query text v → is_vol v = false →
    keeps data (com_CallMethod p "Format" l);
  disk_has_style p text : returned p text → disk_query text disk →
    post data (λ r, sv_Uint16 (Some r) ≠ PartitionStyleUnknown) (com_GetProperty p "PartitionStyle");
  initialize_other p text n l : returned p text → disk_query text n → n ≠ disk →
    keeps data (com_CallMethod p "Initialize" l);
  com_keeps :: ComKeeps data harmless_methods;
}.
  Context `{!WmiLaws}.
  Notation C := (M (CS W)).
  Notation held := (λ s : CS W, data (cs_world s)).

(** A callback of an enumeration keeps a property of the caller's variables. *)
Definition steps_with {A B} (I : A → Prop) (V : B → Prop) (fn : A → B → C (A * option gerr)) : Prop :=
  ∀ a v, I a → V v → post held (λ r, I r.1) (fn a v).
Lemma post_enum_loop {A} (I : A → Prop) (V : variant → Prop) items fn a :
  (∀ v, Ok v ∈ items → V v) → steps_with I V fn → I a → post held (λ r, I r.1) (enum_loop items fn a).
Proof.
  intros Hv Hf. revert a. induction items as [|[v|e|] items IH]; intros a Ha; cbn [enum_loop];
    [by apply post_ret| |by apply post_ret|apply post_panic].
  eapply post_bind; [apply post_finally; [apply Hf; [done|apply Hv; constructor]|apply (com_clear data harmless_methods)]|].
  intros [a' [err|]] Ha'; [by apply post_ret|]. apply IH; [|done]. intros v' Hv'. apply Hv. by constructor.
Qed.
Lemma post_Enumerate {A} (I : A → Prop) text o fn a :
  (∀ c, o = Some c → answers c text) →
  steps_with I (λ v, ∀ p, ToIDispatch v = Some p → returned p text) fn → I a →
  post held (λ r, I r.1) (Enumerate o fn a).
Proof.
  intros Ho Hf Ha. unfold Enumerate. eapply post_bind; [apply post_need|]. intros c ->.
  eapply post_bind; [apply post_try, post_com, enum_answers, Ho; done|].
  intros [e|v] Hv; [by apply post_ret|]. apply post_finally; [|apply (com_clear data harmless_methods)].
  eapply post_bind; [apply post_need|]. intros q Hq. specialize (Hv q Hq).
  eapply post_bind; [by apply post_try, post_com, enum_returns|].
  intros [e|[items|]] Hi; [by apply post_ret| |by apply post_ret].
  apply post_finally; [|apply (com_release_enum data harmless_methods)].
  eapply post_enum_loop; [|exact Hf|done]. intros v' Hv' p Hp. by eapply Hi.
Qed.
Lemma post_Query {A} (I : A → Prop) ns text fn a :
  steps_with I (λ o, ∀ p, o = Some p → returned p text) fn → I a → post held I (Query ns text fn a).
Proof.
  intros Hf Ha. unfold Query. apply (post_WithWMIService data harmless_methods). intros service.
  eapply post_bind; [apply post_need|]. intros p _.
  eapply post_bind; [apply post_com, exec_answers|]. intros [raw outs] Hraw.
  apply post_finally; [|apply (com_clear data harmless_methods)].
  eapply post_bind; [apply (post_Enumerate I text); [exact Hraw| |done]|].
  - intros a' v Ha' Hv. by apply Hf.
  - intros [a' [err|]] Ha'; [|by apply post_ret]. destruct (errors_Is err WmiErrStopIteration); [by apply post_ret|apply post_fail].
Qed.
(** An object that a query gave. *)
Definition object_of (text : string) (o : COMDispatchObject) : Prop := ∀ p, o = Some p → returned p text.
Lemma post_QueryFirst q : post held (object_of (Build q)) (QueryFirstObjectWithBuilder q).
Proof.
  unfold QueryFirstObjectWithBuilder.
  apply (post_bind _ (λ r : option COMDispatchObject, ∀ o, r = Some o → object_of (Build q) o)).
  - apply post_Query; [|done]. intros r o _ Ho. unfold first_one.
    apply (post_tracked data harmless_methods). apply post_ret. by intros ? [= <-].
  - intros [o|] Ho; [apply post_ret, Ho; done|apply post_fail].
Qed.
(** *** Disks and volumes by name *)
Definition asked_of (class field : string) (v : wql_value) (o : COMDispatchObject) : Prop :=
  ∀ p, o = Some p → ∃ text, returned p text ∧ asks text class field v.
Lemma post_first class field v selectors :
  Forall ident selectors → value_ok v →
  post held (asked_of class field v)
    (QueryFirstObjectWithBuilder (WithConditions [WithCondition field "=" v]
       (Select selectors (WithNamespace WMINamespaceStorage (NewQuery class))))).
Proof.
  intros Hs Hv. set (q := WithConditions _ _). eapply post_imp, (post_QueryFirst q).
  intros o Ho p Hp. exists (Build q). split; [by apply Ho|]. by apply Build_asks.
Qed.
Lemma post_QueryVolume v selectors : Forall ident selectors →
  post held (asked_of MSFTVolumeClass "UniqueId" (WString v)) (QueryVolumeByUniqueID v selectors).
Proof.
  intros Hs. unfold QueryVolumeByUniqueID.
  eapply post_bind; [apply post_try, (post_first MSFTVolumeClass "UniqueId" (WString v)); done|].
  intros [e|o] Ho; [apply post_fail|by apply post_ret].
Qed.
Lemma post_QueryDisk n selectors : 0 ≤ n → Forall ident selectors →
  post held (asked_of MSFTDiskClass "Number" (WNumber n)) (QueryDiskByNumber n selectors).
Proof.
  intros Hn Hs. unfold QueryDiskByNumber.
  eapply post_bind; [apply post_try, (post_first MSFTDiskClass "Number" (WNumber n)); done|].
  intros [e|o] Ho; [apply post_fail|by apply post_ret].
Qed.
Ltac idents := repeat constructor; done.

#[local] Hint Extern 1 (keeps _ (wrap_err _ _)) => apply (keeps_wrap data) : format_db.
#[local] Hint Extern 1 (keeps _ (QueryDiskByNumber _ _)) => apply (keeps_QueryDisk data harmless_methods) : format_db.
#[local] Hint Extern 1 (keeps _ (GetPropertyWithHandler _ _ _)) =>
  apply (keeps_property data harmless_methods) : format_db.
#[local] Hint Extern 1 (keeps _ (QueryObjectsWithBuilder _)) =>
  apply (keeps_QueryObjects data harmless_methods) : format_db.
#[local] Hint Extern 1 (keeps _ (associated _ _ _ _ _)) => apply (keeps_associated data harmless_methods) : format_db.
#[local] Hint Extern 1 (keeps _ (getTarget _ _)) => apply (keeps_getTarget data harmless_methods) : format_db.
#[local] Hint Extern 1 (keeps _ (SetVolumeMountPoint _ _)) =>
  apply (mount_keeps (P:=data) (methods:=harmless_methods)) : format_db.
Lemma harmless_online b : online_method b ∈ harmless_methods.
Proof. destruct b; repeat constructor. Qed.

Lemma wmi_initialized n : 0 ≤ n → post data (λ b, n = disk → b = true) (CimDisk.IsDiskInitialized n).
Proof.
  intros Hn. apply (post_on_com data harmless_methods). eapply post_bind; [apply post_wrap, post_QueryDisk; [done|idents]|].
  intros o Ho. apply (post_bind _ (λ s, n = disk → s ≠ PartitionStyleUnknown)).
  - apply post_wrap, (post_property data harmless_methods). intros p Hp. destruct (Ho p Hp) as (text & Hr & Hq).
    destruct (decide (n = disk)) as [->|Hd].
    + eapply post_imp, disk_has_style, Hq; [done|done].
    + apply post_imp with (λ _, True); [done|]. apply keeps_post, (property_keeps (methods:=harmless_methods)).
  - intros s Hs. apply post_ret. intros Hd. specialize (Hs Hd). by apply negb_true_iff, Z.eqb_neq.
Qed.
Lemma wmi_initialize n : 0 ≤ n → n ≠ disk → keeps data (CimDisk.InitializeDisk n).
Proof.
  intros Hn Hd. apply (post_keeps _ (λ _, True)), (post_on_com data harmless_methods).
  eapply post_bind; [apply post_wrap, post_QueryDisk; [done|idents]|]. intros o Ho.
  apply keeps_post, (keeps_wrap data). unfold InitializeDisk. keep. apply (keeps_method_ok data harmless_methods).
  intros p Hp. destruct (Ho p Hp) as (text & Hr & Hq). by eapply initialize_other.
Qed.
Lemma wmi_partitions n : keeps data (CimDisk.BasicPartitionsExist n).
Proof. unfold CimDisk.BasicPartitionsExist, CimDisk.normal_partitions, ListPartitionsWithFilters. apply (keeps_on_com data harmless_methods). keep. Qed.
Lemma wmi_create n : 0 ≤ n → keeps data (CimDisk.CreateBasicPartition n).
Proof.
  intros Hn. apply (keeps_on_com data harmless_methods). keep.
  - unfold CreatePartition. keep. apply (keeps_named_method data harmless_methods). by repeat constructor.
  - apply (keeps_wrap data). unfold RefreshDisk. keep. apply (keeps_named_method data harmless_methods). by repeat constructor.
  - unfold CimDisk.normal_partitions, ListPartitionsWithFilters. keep.
  - apply (keeps_wrap data). unfold SetPartitionState. keep. apply (keeps_named_method data harmless_methods), (harmless_online true).
Qed.
Lemma careful_wmi beyond :
  Careful (MkWinMounter W CimVolume.NewCIMVolumeAPI (CimDisk.NewCIMDiskAPI beyond)) data is_vol.
Proof.
  split; simpl.
  - intros n b Hn. apply (keeps_on_com data harmless_methods). keep.
    + unfold IsDiskOffline, GetBoolProperty. auto with format_db.
    + apply (keeps_wrap data). unfold SetDiskState. keep. apply (keeps_named_method data harmless_methods), harmless_online.
  - intros n Hn. apply (keeps_partition_steps data disk n).
    + by apply wmi_initialized.
    + by apply wmi_initialize.
    + apply wmi_partitions.
    + by apply wmi_create.
  - intros n p. unfold CimVolume.ListVolumesOnDisk, ListPartitionsOnDisk, ListPartitionsWithFilters, FindVolumesByPartition.
    apply (keeps_on_com data harmless_methods). keep. apply (keeps_ForEach data). intros ids o. unfold GetVolumeUniqueID, GetStringProperty. keep.
  - intros v. apply (post_on_com data harmless_methods). eapply post_bind; [apply post_wrap, post_QueryVolume; idents|]. intros o Ho.
    apply (post_bind _ (λ s, is_vol v = true → s ≠ FileSystemUnknown)).
    + apply post_wrap, (post_property data harmless_methods). intros p Hp. destruct (Ho p Hp) as (text & Hr & Hq).
      destruct (is_vol v) eqn:Ev.
      * eapply post_imp, volume_has_fs, Ev; [done..].
      * apply post_imp with (λ _, True); [done|]. apply keeps_post, (property_keeps (methods:=harmless_methods)).
    + intros s Hs. apply post_ret. intros Ev. specialize (Hs Ev). by apply negb_true_iff, Z.eqb_neq.
  - intros v Hv. apply (post_keeps _ (λ _, True)), (post_on_com data harmless_methods).
    eapply post_bind; [apply post_wrap, post_QueryVolume; idents|]. intros o Ho.
    apply keeps_post, (keeps_wrap data). unfold FormatVolume. keep. apply (keeps_method_ok data harmless_methods).
    intros p Hp. destruct (Ho p Hp) as (text & Hr & Hq). by eapply format_other.
  - intros v path. unfold CimVolume.MountVolume. keep.
Qed.
End wmi.

(** ** The node *)
Section windows.
  Context {W : Type} `{!WinHost W} `{!WinJson} `{!Com W} `{!MapOrder} `{!NumOrder} (beyond : Z → Z).
  Context (data : W → Prop) (is_vol : string → bool) (disk : Z).

(** What the chosen implementation builds on. *)
Definition WindowsLaws (useWinCIMAPI : bool) : Type :=
  if useWinCIMAPI then WmiLaws data is_vol disk else PowerShellLaws data is_vol disk.

(** C6. On Windows a disk with data is not formatted: [formatAndMount], through the
    mounter of the host process with either implementation, keeps the data of a disk
    whose volume has a file system, whatever disk and target it is called with and
    however the commands fail.  A disk is initialised only when it was found raw, a
    volume formatted only when it was found without a file system. *)
Theorem windows_format_protects_data useWinCIMAPI (laws : WindowsLaws useWinCIMAPI) source target fstype options :
  keeps data (WinCommon.formatAndMount (Some (win_proxy (NewWinMounter beyond useWinCIMAPI)))
                source target fstype options).
Proof.
  assert (Careful (NewWinMounter beyond useWinCIMAPI) data is_vol) as Hm.
  { destruct useWinCIMAPI; [by apply careful_wmi with disk | by apply careful_powershell with disk]. }
  by apply (careful_FormatAndMount _ data is_vol).
Qed.
End windows.

(** *** The small node *)
Definition demo_data (w : DemoWindows) : Prop := dw_one w = dw_one demo_windows.
Definition demo_vol (v : string) : bool := String.eqb v (demo_volume 1).

Lemma is_cmd_true cmd envs cmd' envs' : is_cmd cmd envs cmd' envs' = true → cmd = cmd' ∧ envs = envs'.
Proof. unfold is_cmd. intros E. bool_split. split; [done|]. by eapply bool_decide_eq_true. Qed.
(** Disk 1 is changed by the commands on its volume only. *)
Lemma disk_one_kept c e :
  (c ≠ format_cmd ∧ c ≠ resize_cmd demo_max_size) ∨ e ≠ [volumeID_env (demo_volume 1)] →
  disk_effect 1 c e (dw_one demo_windows) = dw_one demo_windows.
Proof.
  intros Hc. unfold disk_effect.
  repeat match goal with |- context [is_cmd c e ?x ?y] => destruct (is_cmd c e x y) eqn:?; [try done|] end; [..|done];
    match goal with E : is_cmd c e _ [volumeID_env _] = true |- _ => apply is_cmd_true in E as [? ?] end;
    by destruct Hc as [[? ?]|?].
Qed.
Lemma harmless_one c e : harmless demo_vol 1 c e →
  (c ≠ format_cmd ∧ c ≠ resize_cmd demo_max_size) ∨ e ≠ [volumeID_env (demo_volume 1)].
Proof.
  intros [n b|n|n Hn|n|n|n p|v|v Hv|v path]; try (left; split; intros E; discriminate E).
  right. intros [= E]. change (v = demo_volume 1) in E. subst v. unfold demo_vol in Hv.
  by rewrite String.eqb_refl in Hv.
Qed.
Lemma demo_powershell_laws : PowerShellLaws demo_data demo_vol 1.
Proof.
  split.
  - intros c e Hc w Hw. unfold demo_data in *. simpl. rewrite Hw. apply disk_one_kept. by apply harmless_one.
  - intros w Hw. split.
    + unfold demo_data in *. simpl. rewrite Hw. by apply disk_one_kept; right.
    + intros r. simpl. unfold demo_data in Hw. rewrite Hw. vm_compute. by intros [= <-].
  - intros v Hv%String.eqb_eq. subst v. intros w Hw. unfold demo_data in Hw. split.
    + unfold demo_data. simpl. rewrite Hw. by apply disk_one_kept; left; split; intros E; discriminate E.
    + intros r. simpl. rewrite Hw. vm_compute. intros [= <-] _. exists "NTFS". split; [by repeat constructor|done].
  - apply keeps_ret.
  - apply keeps_ret.
Qed.

Definition demo_returned (p : Z) (text : string) : Prop :=
  (∀ n, disk_query text n → p = 100 + n) ∧
  (∀ v, volume_query text v → v = demo_volume 1 ∧ p = 301 ∨ v = demo_volume 2 ∧ p = 302).
Definition demo_answers (c : Z) (text : string) : Prop := ∀ p, p ∈ results c → demo_returned p text.
Lemma demo_query_answers text w : demo_answers (demo_query text w) text.
Proof.
  intros p Hp. split.
  - intros n [sel Hq]%asks_parsed; [|done..]. unfold demo_query in Hp. rewrite Hq in Hp. cbn -[demo_disk results] in Hp.
    destruct (demo_disk n w) eqn:En; [|by apply elem_of_nil in Hp].
    assert (n = 1 ∨ n = 2) as [-> | ->].
    { unfold demo_disk in En. destruct (Z.eqb_spec n 1); [by left|]. destruct (Z.eqb_spec n 2); [by right|done]. }
    all: by apply list_elem_of_singleton in Hp.
  - intros v [sel Hq]%asks_parsed; [|done..]. unfold demo_query in Hp. rewrite Hq in Hp. cbn -[results demo_volume] in Hp.
    destruct (String.eqb_spec v (demo_volume 1)); [left; split; [done|by apply list_elem_of_singleton in Hp]|].
    destruct (String.eqb_spec v (demo_volume 2)); [right; split; [done|by apply list_elem_of_singleton in Hp]|].
    by apply elem_of_nil in Hp.
Qed.
Lemma method_one_kept p name l :
  (name ≠ "Format" ∨ p ≠ 301) → name ≠ "Resize" →
  method_effect 1 p name l (dw_one demo_windows) = dw_one demo_windows.
Proof.
  intros Hf Hr. unfold method_effect.
  destruct (_ && String.eqb name "Initialize"); [done|]. destruct (_ && String.eqb name "CreatePartition"); [done|].
  destruct ((p =? 300 + 1) && String.eqb name "Format") eqn:E.
  { apply andb_prop in E as [Ep%Z.eqb_eq En%String.eqb_eq]. exfalso. by destruct Hf. }
  by rewrite (proj2 (String.eqb_neq name "Resize")), andb_false_r.
Qed.
Lemma demo_call_keeps p name l :
  (name ≠ "Format" ∨ p ≠ 301) → name ≠ "Resize" → keeps demo_data (demo_call p name l).
Proof. intros Hf Hr w Hw. unfold demo_data in *. simpl. rewrite Hw. by apply method_one_kept. Qed.
Lemma demo_property_keeps p name : keeps demo_data (demo_property p name).
Proof. by intros w Hw. Qed.

Definition demo_wmi_laws : WmiLaws demo_data demo_vol 1.
Proof.
  refine {| answers := demo_answers; returned := demo_returned |}.
  - intros p text w Hw. split; [by apply demo_call_keeps; [left| |]|].
    intros r [= <-] c Hc. assert (c = demo_query text w) as -> by by injection Hc. apply demo_query_answers.
  - intros c text Hc w Hw. split; [done|]. by intros v [= <-] q [= <-].
  - intros q text Hq w Hw. split; [done|]. intros o [= <-] items v p [= <-] Hin Hp.
    apply list_elem_of_fmap in Hin as (x & [= ->] & Hx). injection Hp as ->. by apply Hq.
  - intros p text v [_ Hv] Hq Ev%String.eqb_eq w Hw. split; [done|].
    destruct (Hv v Hq) as [[_ ->] | [-> _]]; [|done].
    unfold demo_data in Hw. intros r. simpl. unfold demo_property. rewrite Hw. vm_compute. by intros [= <-].
  - intros p text v l [_ Hv] Hq Ev%String.eqb_neq. apply demo_call_keeps; [|done]. right.
    by destruct (Hv v Hq) as [[-> _] | [_ ->]].
  - intros p text [Hd _] Hq w Hw. rewrite (Hd 1 Hq). split; [done|].
    unfold demo_data in Hw. intros r. simpl. unfold demo_property. rewrite Hw. vm_compute. by intros [= <-].
  - intros p text n l _ _ _. by apply demo_call_keeps; [left|].
  - split; try (intros; intros w Hw; exact Hw). intros p name l Hn.
    unfold query_methods, harmless_methods in Hn. simpl in Hn.
    apply demo_call_keeps; [left|]; intros ->; by repeat (apply elem_of_cons in Hn as [?|Hn]; [done|]); apply elem_of_nil in Hn.
Defined.

(** Disk 2 is formatted; disk 1, which has data, is not. *)
Lemma windows_format_protects_data_witness :
  keeps demo_data (WinCommon.formatAndMount (W:=DemoWindows) (Some (win_proxy (NewWinMounter (λ _, 0) false)))
                     "2" "C:\var\mount" "ntfs" []) ∧
  keeps demo_data (WinCommon.formatAndMount (W:=DemoWindows) (Some (win_proxy (NewWinMounter (λ _, 0) true)))
                     "1" "C:\var\mount" "ntfs" []).
Proof.
  split.
  - exact (windows_format_protects_data (λ _, 0) demo_data demo_vol 1 false demo_powershell_laws
             "2" "C:\var\mount" "ntfs" []).
  - exact (windows_format_protects_data (λ _, 0) demo_data demo_vol 1 true demo_wmi_laws
             "1" "C:\var\mount" "ntfs" []).
Defined.

Example demo_formats_raw useWinCIMAPI :
  let m := Some (win_proxy (NewWinMounter (λ _, 0) useWinCIMAPI)) in
  let '(r, w) := WinCommon.formatAndMount m "2" "C:\var\mount" "ntfs" [] demo_windows in
  r = Ok () ∧ dd_fs (dw_two w) = "NTFS" ∧ dd_content (dw_one w) = "data".
Proof. destruct useWinCIMAPI; vm_compute; done. Qed.
