(* ===== verification/WinResize.v ===== *)
(** * The size of a volume on a Windows node

    A resize makes a partition grow by 100 MiB at least, or leaves it as it is, with
    either implementation of [VolumeAPI]. *)
From stdpp Require Import gmap strings list.
From Stdlib Require Import ZArith Lia Ascii.
From S2P Require Import Prelude GoStrings GoErr Windows WinDisk WinVolume Wmi WmiStorage WinCim WinMounter WinCommon.
From S2P Require Import WinProofs Wql DemoWin WmiFrame.
Local Open Scope string_scope.
Local Open Scope Z_scope.
Local Open Scope list_scope.

(** ** From one property of the world to another *)
Section leads.
  Context {S : Type} (P Q : S → Prop).

Definition leads {A} (m : M S A) : Prop := ∀ s, P s → Q (m s).2.
Lemma leads_bind {A B} (R : A → Prop) (m : M S A) (f : A → M S B) :
  post P R m → (∀ s, P s → Q s) → (∀ a, R a → leads (f a)) → leads (bind m f).
Proof.
  intros Hm Hpq Hf s Hs. specialize (Hm s Hs). unfold bind.
  destruct (m s) as [[a|e|] s1]; simpl in *; destruct Hm as [Hs1 Ha]; [|by apply Hpq..].
  by apply Hf, Hs1; apply Ha.
Qed.
Lemma leads_then {A B} (m : M S A) (f : A → M S B) :
  leads m → (∀ a, keeps Q (f a)) → leads (bind m f).
Proof.
  intros Hm Hf s Hs. specialize (Hm s Hs). unfold bind. destruct (m s) as [[a|e|] s1]; [by apply Hf|done|done].
Qed.
Lemma leads_try {A} (m : M S A) : leads m → leads (try m).
Proof. intros Hm s Hs. specialize (Hm s Hs). unfold try. by destruct (m s) as [[a|e|] s1]. Qed.
Lemma leads_keep {A} (m : M S A) : keeps P m → (∀ s, P s → Q s) → leads m.
Proof. intros Hm Hpq s Hs. by apply Hpq, Hm. Qed.
Lemma leads_finally {A} (m : M S A) c : leads m → keeps Q c → leads (finally m c).
Proof. intros Hm Hc s Hs. specialize (Hm s Hs). unfold finally. destruct (m s) as [r s1]. by apply Hc. Qed.
End leads.

(** ** Sizes *)
Definition grown (a b : Z) : Prop := b = a ∨ a + minimumResizeSize ≤ b.
Section sizes.
  Context {W K : Type} (size : W → K → Z).
(** The sizes relate to those of the start. *)
Definition sizes (f : Z → Z → Prop) (s0 : K → Z) (w : W) : Prop := ∀ q, f (s0 q) (size w q).
Definition in_range (s0 : K → Z) : Prop := ∀ q, 0 ≤ s0 q < 2 ^ 63.
Lemma same_grown s0 w : sizes eq s0 w → sizes grown s0 w.
Proof. intros Hw q. by left. Qed.
End sizes.

Lemma word_Itoa n : 0 ≤ n → word (Itoa n).
Proof.
  intros Hn. pose proof (all_digits_Itoa n Hn) as Hd. pose proof (Itoa_nonempty n) as Hne.
  split; [done|]. clear Hne. revert Hd. generalize (Itoa n). intros s. induction s as [|c s IH]; [intros _; by split|].
  cbn [all_digits no_space has_byte]. intros [Hc Hs]%andb_prop. destruct (IH Hs) as [-> ->]. revert Hc. clear.
  destruct c as [[] [] [] [] [] [] [] []]; done.
Qed.
Lemma TrimSpace_line n : 0 ≤ n → TrimSpace (Itoa n +:+ crlf) = Itoa n.
Proof.
  intros Hn. pose proof (word_Itoa n Hn) as Hw. unfold TrimSpace. rewrite trim_left_word by done.
  exact (trim_right_word "" (Itoa n) crlf Hw eq_refl).
Qed.
Lemma ParseUint64_Itoa n : 0 ≤ n < 2 ^ 64 → ParseUint64 (Itoa n) = Ok n.
Proof.
  intros Hn. unfold ParseUint64. rewrite parse_uint_Itoa by lia. by rewrite (proj2 (Z.ltb_lt n (2 ^ 64))) by lia.
Qed.
Lemma ParseUint64_range s n : ParseUint64 s = Ok n → n < 2 ^ 64.
Proof. unfold ParseUint64. destruct (parse_uint 10 s) as [m|]; [|done]. destruct (Z.ltb_spec m (2 ^ 64)); [|done]. by intros [= <-]. Qed.

(** ** PowerShell *)
Section powershell.
  Context {W : Type} `{!WinHost W} `{!WinJson} (size : W → string → Z).

(** What PowerShell promises: the size of the partition of a volume is printed, and
    only [Resize-Partition] changes it, of that volume and to what it was given. *)
Class PowerShellSizes : Prop := {
  size_printed v s0 : post (sizes size eq s0) (λ r, r.2 = None → r.1 = (Itoa (s0 v) +:+ crlf)%string)
    (exec_powershell volume_size_cmd [volumeID_env v]);
  max_printed v s0 : post (sizes size eq s0) (λ r, r.2 = None → ∀ m, unmarshal_sizes r.1 = Ok m →
      0 ≤ default 0 (m !! "SizeMax") < 2 ^ 63) (exec_powershell supported_size_cmd [volumeID_env v]);
  resize_changes v n w q :
    size (exec_powershell (resize_cmd n) [volumeID_env v] w).2 q = size w q ∨
    (q = v ∧ size (exec_powershell (resize_cmd n) [volumeID_env v] w).2 q = n);
  list_keeps_sizes n p f s0 : keeps (sizes size f s0) (exec_powershell (list_volumes_cmd n p) []);
  acquire_keeps_sizes f s0 : keeps (sizes size f s0) powershellSem_Acquire;
  release_keeps_sizes f s0 : keeps (sizes size f s0) powershellSem_Release;
}.
  Context `{!PowerShellSizes}.

Lemma post_run s0 R c e : post (sizes size eq s0) R (exec_powershell c e) →
  post (sizes size eq s0) R (RunPowershellCmd c e).
Proof. apply post_RunPowershellCmd; [apply acquire_keeps_sizes | apply release_keeps_sizes]. Qed.
Lemma leads_run s0 c e :
  leads (sizes size eq s0) (sizes size grown s0) (exec_powershell c e) →
  leads (sizes size eq s0) (sizes size grown s0) (RunPowershellCmd c e).
Proof.
  intros Hx. unfold RunPowershellCmd. apply (leads_bind _ _ (λ _, True));
    [apply keeps_post, acquire_keeps_sizes|apply same_grown|].
  intros _ _ s Hs. specialize (Hx s Hs). destruct (exec_powershell c e s) as [r s1].
  revert s1 Hx. apply (keeps_bind (sizes size grown s0)); [apply release_keeps_sizes|]. intros _. apply keeps_lift.
Qed.
Lemma leads_resize s0 v n :
  s0 v + minimumResizeSize ≤ n →
  leads (sizes size eq s0) (sizes size grown s0) (exec_powershell (resize_cmd n) [volumeID_env v]).
Proof.
  intros Hn s Hs q. destruct (resize_changes v n s q) as [-> | [-> ->]]; [left; by rewrite <-Hs|by right].
Qed.
Lemma post_getVolumeSize s0 v : in_range s0 →
  post (sizes size eq s0) (λ n, n = s0 v) (getVolumeSize v).
Proof.
  intros Hr. specialize (Hr v). unfold getVolumeSize. eapply post_bind; [apply post_run, size_printed|].
  intros [out err] Hout. simpl in Hout. destruct (bool_decide (err ≠ None)) eqn:Ee; [apply post_fail|].
  apply bool_decide_eq_false in Ee. assert (err = None) as -> by (destruct err; [by destruct Ee|done]).
  rewrite Hout by done. simpl. destruct (String.eqb _ ""); [apply post_fail|].
  rewrite TrimSpace_line by lia. unfold ParseInt_res.
  change (ParseInt (Itoa (s0 v)) 64) with (Atoi (Itoa (s0 v))). rewrite Atoi_Itoa by (unfold in_int64; lia).
  by apply post_ret.
Qed.
Lemma post_supported_size s0 v : post (sizes size eq s0) (λ n, 0 ≤ n < 2 ^ 63) (PowerShellVolume.supported_size v).
Proof.
  unfold PowerShellVolume.supported_size. eapply post_bind; [apply post_run, max_printed|].
  intros [out err] Hout. simpl in Hout. destruct (bool_decide (err ≠ None)) eqn:Ee; [apply post_fail|].
  apply bool_decide_eq_false in Ee. assert (err = None) as -> by (destruct err; [by destruct Ee|done]).
  simpl. destruct (String.eqb _ ""); [apply post_fail|].
  destruct (unmarshal_sizes out) as [m|e|] eqn:Em; [|apply post_fail|apply post_panic]. apply post_ret. by apply Hout.
Qed.
Lemma powershell_grows s0 v n : in_range s0 → 0 ≤ n < 2 ^ 63 →
  leads (sizes size eq s0) (sizes size grown s0) (PowerShellVolume.ResizeVolume v n).
Proof.
  intros Hr Hn. unfold PowerShellVolume.ResizeVolume, PowerShellVolume.grow_partition.
  apply (leads_bind _ _ (λ final, 0 ≤ final < 2 ^ 63)); [|apply same_grown|].
  { destruct (n =? 0); [apply post_supported_size | by apply post_ret]. }
  intros final Hf. eapply leads_bind; [by apply post_try, post_getVolumeSize|apply same_grown|].
  intros [e|cur] Hc; [apply leads_keep; [apply keeps_fail|apply same_grown]|]. subst cur. specialize (Hr v).
  rewrite int64_id by (unfold in_int64; lia).
  destruct (Z.ltb_spec (final - s0 v) minimumResizeSize); [apply leads_keep; [apply keeps_ret|apply same_grown]|].
  apply leads_then; [|intros _; apply keeps_ret]. unfold powershell.
  apply leads_then; [apply leads_run, leads_resize; lia|]. intros [out [err|]]; [apply keeps_fail|apply keeps_ret].
Qed.
End powershell.

(** ** WMI *)
(** The methods, other than [Resize], that a resize calls. *)
Definition size_methods : list string := ["GetSupportedSize"; "Refresh"].
Section wmi.
  Context {W : Type} `{!WinHost W} `{!Com W} `{!MapOrder} (size : W → Z → Z).

(** What COM and the storage classes promise: an object's size is its property, and
    only [Resize] changes it, of that object and to what it was given. *)
Class WmiSizes : Prop := {
  size_property p s0 : post (sizes size eq s0) (λ v, ToString v = Itoa (s0 p)) (com_GetProperty p "Size");
  resize_method p n l w q :
    size (com_CallMethod p "Resize" (CStr (Itoa n) :: l) w).2 q = size w q ∨
    (q = p ∧ size (com_CallMethod p "Resize" (CStr (Itoa n) :: l) w).2 q = n);
  other_calls f s0 :: ComKeeps (sizes size f s0) size_methods;
}.
  Context `{!WmiSizes}.
  Notation C := (M (CS W)).
  Notation held P := (λ s : CS W, P (cs_world s)).
  Notation same s0 := (held (sizes size eq s0)).

Lemma post_size s0 o : in_range s0 →
  post (same s0) (λ n, ∀ p, o = Some p → n = s0 p) (GetStringPropertyAsUint64 o "Size").
Proof.
  intros Hr. unfold GetStringPropertyAsUint64, GetStringProperty.
  apply (post_bind _ (λ s, ∀ p, o = Some p → s = Itoa (s0 p))).
  - apply (post_property _ size_methods). intros p ->. eapply post_imp, size_property.
    intros v Hv. by intros ? [= <-].
  - intros str Hs. destruct (String.eqb str ""); [apply post_fail|].
    destruct (ParseUint64 str) as [n|e|] eqn:E; [|apply post_fail|apply post_panic].
    apply post_ret. intros p Hp. rewrite (Hs p Hp), ParseUint64_Itoa in E by (specialize (Hr p); lia). by injection E.
Qed.
Lemma keeps_sizes_wrap {A} f s0 (m : C A) pre :
  keeps (held (sizes size f s0)) m → keeps (held (sizes size f s0)) (wrap_err m pre).
Proof. apply (keeps_wrap (sizes size f s0)). Qed.
Lemma keeps_supported f s0 part : keeps (held (sizes size f s0)) (GetPartitionSupportedSize part).
Proof.
  unfold GetPartitionSupportedSize. apply keeps_bind; [apply (keeps_named_method _ size_methods); by constructor|].
  intros outs. repeat apply keeps_finally.
  - repeat first [apply keeps_lift | apply keeps_ret | apply keeps_bind; [|intros ?]].
  - destruct (outs !! 1%nat); [apply (com_clear _ size_methods)|apply keeps_ret].
  - destruct (outs !! 0%nat); [apply (com_clear _ size_methods)|apply keeps_ret].
Qed.
Lemma post_supported s0 part :
  post (same s0) (λ r, r.1.2 < 2 ^ 64) (GetPartitionSupportedSize part).
Proof.
  intros s Hs. split; [by apply keeps_supported|].
  intros [[lo hi] msg]. unfold GetPartitionSupportedSize. destruct (bind _ _ s) as [r s'] eqn:E. simpl. intros ->.
  apply bind_ok in E as (outs & s1 & _ & E). unfold finally in E.
  destruct (bind _ _ s1) as [r2 s2] eqn:E2. injection E as -> _.
  apply bind_ok in E2 as (x & s3 & _ & E2). apply bind_ok in E2 as (y & s4 & [Hy _]%lift_ok & E2).
  injection E2 as _ <- _ _. simpl. by eapply ParseUint64_range.
Qed.
#[local] Hint Resolve keeps_sizes_wrap : format_db.
#[local] Hint Extern 1 (keeps _ (GetStringPropertyAsUint64 _ _)) => apply (keeps_uint64 _ size_methods) : format_db.
#[local] Hint Extern 1 (keeps _ (GetPropertyWithHandler _ _ _)) => apply (keeps_property _ size_methods) : format_db.
#[local] Hint Extern 1 (keeps _ (QueryDiskByNumber _ _)) => apply (keeps_QueryDisk _ size_methods) : format_db.
#[local] Hint Extern 1 (keeps _ (QueryVolumeByUniqueID _ _)) => apply (keeps_QueryVolume _ size_methods) : format_db.
#[local] Hint Extern 1 (keeps _ (associated _ _ _ _ _)) => apply (keeps_associated _ size_methods) : format_db.

Lemma keeps_unallocated f s0 part :
  keeps (held (sizes size f s0)) (CimVolume.unallocatedBytesAfterPartition part).
Proof.
  unfold CimVolume.unallocatedBytesAfterPartition, GetPartitionOffset, GetPartitionSize, GetPartitionDiskNumber,
    GetUint32Property, GetDiskSize. keep.
Qed.
Lemma post_final_size s0 v part n : 0 ≤ n < 2 ^ 63 →
  post (same s0) (λ r, ∀ final, r = Some final → final < 2 ^ 64) (CimVolume.final_size v part n).
Proof.
  intros Hn. unfold CimVolume.final_size. destruct (n =? 0).
  - eapply (post_bind _ (λ _, True)); [apply keeps_post, keeps_try, keeps_unallocated|].
    intros u _. destruct (match u with inr u => _ | inl _ => _ end); [by apply post_ret|].
    eapply post_bind; [apply post_try, post_supported|].
    intros [e|[[lo hi] msg]] Hhi; [apply post_fail|]. apply post_ret. by intros ? [= <-].
  - destruct (Z.ltb_spec n 0); [apply post_fail|]. apply post_ret. intros ? [= <-]. lia.
Qed.
Lemma leads_on_com {A} s0 (fn : C A) :
  leads (same s0) (held (sizes size grown s0)) fn → leads (sizes size eq s0) (sizes size grown s0) (on_com fn).
Proof.
  intros Hf. unfold on_com, WithCOMThread.
  assert (Hscope : leads (sizes size eq s0) (sizes size grown s0) (finally (WithScope fn) CoUninitialize)).
  { apply leads_finally; [|apply (uninitialize_keeps (methods:=size_methods))].
    intros w Hw. unfold WithScope. specialize (Hf (MkCS w []) Hw). destruct (fn _) as [r s]. simpl in *.
    exact (keeps_Close _ size_methods (cs_objs s) (cs_world s) Hf). }
  eapply leads_bind; [by apply keeps_post, keeps_try, (initialize_com_keeps (methods:=size_methods))|apply same_grown|].
  intros [e|u] _; [destruct (bool_decide _)|]; [done| |done]. apply leads_keep; [apply keeps_fail|apply same_grown].
Qed.
Lemma leads_ResizePartition s0 part final :
  (∀ p, part = Some p → s0 p + minimumResizeSize ≤ final) →
  leads (same s0) (held (sizes size grown s0)) (ResizePartition part final).
Proof.
  intros Hf. unfold ResizePartition. apply leads_then; [|intros ?; apply keeps_ret].
  unfold method_ok. apply leads_then; [|intros r; keep]. apply leads_try. unfold CallUint32, CallMethod.
  eapply leads_bind; [apply post_need|intros s; apply same_grown|]. intros p ->.
  apply leads_then; [|intros r; destruct r; apply keeps_finally; [apply keeps_ret|apply (com_clear _ size_methods)]].
  intros s Hs. unfold com, on. destruct (com_CallMethod _ _ _ (cs_world s)) as [r w] eqn:E. simpl. intros q.
  pose proof (resize_method p final [COutString] (cs_world s) q) as Hq. rewrite E in Hq. simpl in Hq.
  destruct Hq as [-> | [-> ->]]; [left; by rewrite <-Hs|right; by apply Hf].
Qed.
Lemma wmi_grows s0 v n : in_range s0 → 0 ≤ n < 2 ^ 63 →
  leads (sizes size eq s0) (sizes size grown s0) (CimVolume.ResizeVolume v n).
Proof.
  intros Hr Hn. apply leads_on_com.
  assert (Hsg : ∀ s : CS W, sizes size eq s0 (cs_world s) → sizes size grown s0 (cs_world s)) by (intros s; apply same_grown).
  eapply leads_bind; [apply keeps_post|done|].
  { unfold GetPartitionByVolumeUniqueID, FindPartitionsByVolume. keep. }
  intros part _. eapply leads_bind; [by apply post_final_size|done|].
  intros [final|] Hfinal; [|by apply leads_keep; [apply keeps_ret|]].
  eapply leads_bind; [by apply post_wrap, post_size|done|]. intros cur Hcur.
  destruct (Z.leb_spec final cur); [by apply leads_keep; [apply keeps_ret|]|].
  destruct (Z.ltb_spec (CimVolume.uint64 (final - cur)) minimumResizeSize); [by apply leads_keep; [apply keeps_ret|]|].
  apply leads_then.
  - unfold wrap_err. apply leads_then; [|intros r; keep]. apply leads_try, leads_ResizePartition.
    intros p Hp. specialize (Hcur p Hp). specialize (Hfinal _ eq_refl). pose proof (Hr p). subst cur.
    unfold CimVolume.uint64 in *. rewrite Z.mod_small in * by lia. lia.
  - intros _. unfold GetPartitionDiskNumber, GetUint32Property, RefreshDisk. keep.
    apply keeps_sizes_wrap. keep. apply (keeps_named_method _ size_methods). by repeat constructor.
Qed.
End wmi.

(** ** The node *)
Section windows.
  Context {W : Type} `{!WinHost W} `{!WinJson} `{!Com W} `{!MapOrder} `{!NumOrder} (beyond : Z → Z).

(** The mounter looks the volume up by its disk, or is given it. *)
Lemma mounter_grows {K} (size : W → K → Z) (m : winMounter W) s0 source :
  (∀ v, leads (sizes size eq s0) (sizes size grown s0) (WinVolume.ResizeVolume (volAPI m) v 0)) →
  (∀ n, keeps (sizes size eq s0) (WinVolume.ListVolumesOnDisk (volAPI m) n 0)) →
  leads (sizes size eq s0) (sizes size grown s0) (ResizeVolume m source).
Proof.
  intros Hr Hl. unfold ResizeVolume. apply (leads_bind _ _ (λ _, True)); [apply keeps_post|apply same_grown|by intros v _].
  destruct (Atoi source) as [n|]; [|apply keeps_ret]. apply keeps_bind; [apply Hl|].
  intros [|v l]; [apply keeps_fail|apply keeps_ret].
Qed.

(** C18. On Windows a resize makes a partition grow by 100 MiB at least or does not touch
    it, with PowerShell and with WMI, whatever the system reports as the size it
    supports and whichever command fails: no partition gets smaller. *)
Theorem windows_resize_never_shrinks source path w :
  (∀ size : W → string → Z, PowerShellSizes size → in_range (size w) →
     sizes size grown (size w)
       (WinCommon.resizeVolume (Some (win_proxy (NewWinMounter beyond false))) source path w).2) ∧
  (∀ size : W → Z → Z, WmiSizes size → in_range (size w) →
     sizes size grown (size w)
       (WinCommon.resizeVolume (Some (win_proxy (NewWinMounter beyond true))) source path w).2).
Proof.
  split; intros size Hsizes Hr.
  - apply (mounter_grows size (NewWinMounter beyond false) (size w)); [|intros n|done].
    + intros v. by apply powershell_grows.
    + apply (post_keeps _ (λ _, True)). eapply post_bind; [apply (post_command _ (λ _, True))|].
      * by apply acquire_keeps_sizes.
      * by apply release_keeps_sizes.
      * apply (post_imp _ (λ _, True)); [by intros r _ _|]. by apply keeps_post, list_keeps_sizes.
      * intros out _. by apply post_ret.
  - apply (mounter_grows size (NewWinMounter beyond true) (size w)); [|intros n|done].
    + intros v. by apply wmi_grows.
    + apply (keeps_on_com _ size_methods). apply keeps_bind; [|intros parts; apply keeps_bind; [|intros vols]].
      * apply (keeps_wrap (sizes size eq (size w))), (keeps_QueryObjects _ size_methods).
      * apply (keeps_wrap (sizes size eq (size w))), (keeps_associated _ size_methods).
      * apply (keeps_ForEach (sizes size eq (size w))). intros ids o. apply keeps_bind.
        -- apply keeps_try, (keeps_property _ size_methods).
        -- intros r. destruct r; apply keeps_ret.
Qed.
End windows.

(** *** The small node *)
Definition demo_volume_size (w : DemoWindows) (v : string) : Z :=
  if String.eqb v (demo_volume 1) then dd_size (dw_one w)
  else if String.eqb v (demo_volume 2) then dd_size (dw_two w) else 0.
Definition demo_object_size (w : DemoWindows) (p : Z) : Z :=
  if p =? 201 then dd_size (dw_one w) else if p =? 202 then dd_size (dw_two w) else demo_max_size.
Lemma resize_cmd_inj n : resize_cmd n = resize_cmd demo_max_size → n = demo_max_size.
Proof.
  intros E. apply Itoa_inj; [done|]. revert E. unfold resize_cmd.
  generalize (Itoa n), (Itoa demo_max_size). by intros x y [= E].
Qed.
Lemma is_cmd_false c e c' e' : c ≠ c' ∨ e ≠ e' → is_cmd c e c' e' = false.
Proof.
  unfold is_cmd. intros [Hn|Hn]; [by rewrite (proj2 (String.eqb_neq _ _))|]. by rewrite bool_decide_false, andb_false_r.
Qed.
Lemma is_cmd_volume c v u : is_cmd c [volumeID_env v] c [volumeID_env u] = String.eqb v u.
Proof.
  unfold is_cmd. rewrite String.eqb_refl. destruct (String.eqb_spec v u) as [->|Hn]; [by rewrite bool_decide_true|].
  rewrite bool_decide_false; [done|]. unfold volumeID_env. by intros [= E].
Qed.
(** The commands that are not the one asked for. *)
Ltac other_cmds :=
  repeat (rewrite is_cmd_false by first [right; discriminate | left; let E := fresh in intros E; discriminate E]).
(** A resize of a volume of the node. *)
Lemma demo_resize k n v d :
  disk_effect k (resize_cmd n) [volumeID_env v] d = d ∨
  (v = demo_volume k ∧ dd_size (disk_effect k (resize_cmd n) [volumeID_env v] d) = n).
Proof.
  unfold disk_effect. cbv zeta. do 3 (rewrite is_cmd_false by first [right; discriminate | left; intros E; discriminate E]).
  destruct (is_cmd _ _ _ _) eqn:E; [right|by left]. unfold is_cmd in E. apply andb_prop in E as [E1%String.eqb_eq E2].
  apply bool_decide_eq_true in E2. injection E2 as E2. split; [exact E2|]. by rewrite (resize_cmd_inj n).
Qed.
Definition size_queries : list string := [volume_size_cmd; supported_size_cmd].
Lemma demo_query_still k c v d : c ∈ size_queries → disk_effect k c [volumeID_env v] d = d.
Proof.
  intros Hc. repeat (apply elem_of_cons in Hc as [->|Hc]; [unfold disk_effect; cbv zeta; by other_cmds|]).
  by apply elem_of_nil in Hc.
Qed.
Lemma demo_list_still k n p d : disk_effect k (list_volumes_cmd n p) [] d = d.
Proof. unfold disk_effect. cbv zeta. by other_cmds. Qed.
Lemma demo_size_output k v d :
  disk_output k volume_size_cmd [volumeID_env v] d
  = if String.eqb v (demo_volume k) then Some (Itoa (dd_size d) +:+ crlf)%string else None.
Proof. unfold disk_output. cbv zeta. other_cmds. rewrite is_cmd_volume. by destruct (String.eqb v _). Qed.
Lemma demo_max_output k v d :
  disk_output k supported_size_cmd [volumeID_env v] d
  = if String.eqb v (demo_volume k) then Some "SIZES" else None.
Proof. unfold disk_output. cbv zeta. other_cmds. rewrite is_cmd_volume. by destruct (String.eqb v _). Qed.
Lemma demo_powershell_sizes : PowerShellSizes demo_volume_size.
Proof.
  split.
  - intros v s0 w Hw. split.
    { intros q. unfold demo_volume_size. simpl. rewrite !demo_query_still by repeat constructor. apply Hw. }
    intros r. simpl. rewrite !demo_size_output, (Hw v). unfold demo_volume_size.
    destruct (String.eqb_spec v (demo_volume 1)) as [->|H1]; [by intros [= <-]|].
    destruct (String.eqb_spec v (demo_volume 2)) as [->|H2]; by intros [= <-].
  - intros v s0 w Hw. split.
    { intros q. unfold demo_volume_size. simpl. rewrite !demo_query_still by repeat constructor. apply Hw. }
    intros r. simpl. rewrite !demo_max_output.
    destruct (String.eqb v (demo_volume 1)), (String.eqb v (demo_volume 2)); intros [= <-]; simpl;
      by intros _ m [= <-].
  - intros v n w q. unfold demo_volume_size. simpl.
    destruct (String.eqb_spec q (demo_volume 1)) as [->|H1]; [|destruct (String.eqb_spec q (demo_volume 2)) as [->|H2]; [|by left]].
    + destruct (demo_resize 1 n v (dw_one w)) as [-> | [-> ->]]; [by left|by right].
    + destruct (demo_resize 2 n v (dw_two w)) as [-> | [-> ->]]; [by left|by right].
  - intros n p f s0 w Hw q. unfold demo_volume_size. simpl. rewrite !demo_list_still. apply Hw.
  - intros f s0. apply keeps_ret.
  - intros f s0. apply keeps_ret.
Qed.
Lemma demo_other_method k p name l d :
  name ∈ query_methods ++ size_methods → method_effect k p name l d = d.
Proof.
  intros Hn. unfold method_effect.
  repeat (apply elem_of_cons in Hn as [->|Hn]; [by rewrite !andb_false_r|]). by apply elem_of_nil in Hn.
Qed.
Lemma demo_size_property k p d :
  disk_property k p "Size" d
  = if p =? 200 + k then Some (bstr (Itoa (dd_size d)))
    else if p =? 100 + k then Some (bstr (Itoa demo_max_size)) else None.
Proof. unfold disk_property. rewrite !andb_false_r, !andb_true_r. reflexivity. Qed.
Lemma demo_resize_method k p n l d :
  method_effect k p "Resize" (CStr (Itoa n) :: l) d = d ∨
  (p = 200 + k ∧ dd_size (method_effect k p "Resize" (CStr (Itoa n) :: l) d) = n).
Proof.
  unfold method_effect. rewrite !andb_false_r, andb_true_r. destruct (Z.eqb_spec p (200 + k)); [|by left].
  destruct (String.eqb_spec (Itoa n) (Itoa demo_max_size)) as [E|]; [right|by left].
  apply Itoa_inj in E; done.
Qed.
Lemma demo_wmi_sizes : WmiSizes demo_object_size.
Proof.
  split.
  - intros p s0 w Hw. split; [done|]. intros v. simpl. unfold demo_property. simpl. rewrite (Hw p).
    unfold demo_object_size. rewrite !demo_size_property.
    destruct (Z.eqb_spec p 201) as [->|H1]; [by intros [= <-]|]. destruct (Z.eqb_spec p 202) as [->|H2]; [by intros [= <-]|].
    change (200 + 1) with 201. change (200 + 2) with 202.
    rewrite (proj2 (Z.eqb_neq p 201)), (proj2 (Z.eqb_neq p 202)) by done.
    by destruct (p =? 100 + 1), (p =? 100 + 2); intros [=]; subst v.
  - intros p n l w q. unfold demo_object_size. simpl.
    destruct (Z.eqb_spec q 201) as [->|H1]; [|destruct (Z.eqb_spec q 202) as [->|H2]; [|by left]].
    + by destruct (demo_resize_method 1 p n l (dw_one w)) as [-> | [-> ->]]; [left|right].
    + by destruct (demo_resize_method 2 p n l (dw_two w)) as [-> | [-> ->]]; [left|right].
  - intros f s0. split; try (intros; intros w Hw; exact Hw).
    intros p name l Hn w Hw q. unfold demo_object_size. simpl. rewrite !demo_other_method by done. apply Hw.
Qed.

(** Disk 1 grows from 1 GiB to the 2 GiB that are supported. *)
Lemma windows_resize_never_shrinks_witness :
  sizes demo_volume_size grown (demo_volume_size demo_windows)
    (WinCommon.resizeVolume (Some (win_proxy (NewWinMounter (λ _, 0) false))) "1" "" demo_windows).2 ∧
  sizes demo_object_size grown (demo_object_size demo_windows)
    (WinCommon.resizeVolume (Some (win_proxy (NewWinMounter (λ _, 0) true))) "1" "" demo_windows).2.
Proof.
  split.
  - apply (proj1 (windows_resize_never_shrinks (λ _, 0) "1" "" demo_windows) demo_volume_size demo_powershell_sizes).
    intros q. unfold demo_volume_size. destruct (String.eqb _ _); [by vm_compute|]. by destruct (String.eqb _ _).
  - apply (proj2 (windows_resize_never_shrinks (λ _, 0) "1" "" demo_windows) demo_object_size demo_wmi_sizes).
    intros q. unfold demo_object_size. destruct (q =? 201); [by vm_compute|]. by destruct (q =? 202).
Defined.
Example demo_resizes useWinCIMAPI :
  let m := Some (win_proxy (NewWinMounter (λ _, 0) useWinCIMAPI)) in
  let '(r, w) := WinCommon.resizeVolume m "1" "" demo_windows in
  r = Ok () ∧ dd_size (dw_one w) = demo_max_size ∧ dd_content (dw_one w) = "data".
Proof. destruct useWinCIMAPI; vm_compute; done. Qed.
